(* ===== verification/_CoqProject ===== *)
-Q . S2P
Prelude.v
Mem.v
EbpfInst.v
EbpfVm.v
EbpfVmProps.v
EbpfVmSem.v
EbpfTurns.v
Thumb2.v
Jit.v
JitEmit.v
JitProps.v
JitLayout.v
JitTotal.v
ThumbSem.v
ThumbRun.v
JitSem.v
JitArith.v
JitBuild.v
JitJump.v
JitRun.v
JitContract.v
JitDepart.v
Hashmap.v
EbpfMap.v
Utils.v
Allocator.v
Profiling.v
Flash.v
Vm.v
EbpfEnv.v
Fpb.v
FpbProps.v
PatchCtx.v
PatchCtxProps.v
Dispatch.v
DispatchProps.v
Stubs.v
StubsProps.v
PatchPoints.v
LocalPatch.v
JitPatch.v
Firmware.v
Install.v
Shipped.v
CvePatches.v
Service.v
Shell.v
Commands.v
Session.v
