(* ===== verification/Prelude.v ===== *)
(** * RapidPatch runtime: prelude and overview

    The runtime patches the firmware of a Cortex-M4 while it runs.  A patch is
    an eBPF program; it is attached to an instruction of the firmware, either
    at a place the source instruments (a fixed patch point) or at any
    instruction through the debug unit of the processor (a dynamic one), and
    decides there whether the function goes on, returns, or continues
    elsewhere.  This library models the C code of the runtime and proves what
    its components do; the 32-bit little-endian build for the Cortex-M4 is the
    one modelled.

    ** How the parts interact

    Patches arrive from a server ([Service]), from the tables in flash
    ([LocalPatch]) on a command of the shell ([Shell]); they are registered in
    the patch context ([PatchCtx]), which gives their code a vm ([Vm]) and asks
    the debug unit for a breakpoint ([Fpb]).  When control reaches a patch
    point, the dispatch ([Dispatch]) reads the frame its stub pushed, asks the
    context for the patch, and runs it: by the interpreter ([EbpfVm]) or as
    machine code made by the compiler ([Jit]).

    ** Files

    - [Prelude] (this file): C's bit operators in the scope [c_scope], the
      integer types [u8] to [u64] and [s8] to [s64] as conversions of [Z],
      arrays indexed by [Z] ([zget], [zset]), shared tactics and lemmas.
      [Mem]: the memory, a finite map from addresses to bytes.
    - [EbpfInst]: libebpf/src/ebpf_inst.h, ebpf_types.h.
      [EbpfVm]: ebpf_vm_exec of libebpf/src/ebpf_vm.c.  [EbpfVmProps] and
      [EbpfVmSem]: its loop, its invariant, static checking, and its
      instructions against a reference semantics.  [EbpfTurns]: the turns of
      the interpreter as rules, with tactics that run a program by them.
    - [Thumb2]: the encoders of libebpf/src/jit_thumb2.h.  [Jit]:
      jit_thumb2.c and jit.c.  [JitEmit]: the emitters as lists of halfwords.
      [JitProps] and [JitLayout]: decoded branches, constants in registers, and
      where the code of every instruction is.  [JitTotal]: when the compiler
      succeeds.  [ThumbSem]: the processor's instructions that the compiler
      emits for arithmetic, decoded and executed.  [JitSem]: where compiled code
      keeps the eBPF registers, and the code that moves them.  [JitArith]: the
      code of each operation and what it computes.  [JitBuild]: compiled
      instructions against the interpreter, and where they depart.  [ThumbRun]:
      the processor fetching code from the buffer, with branches, PUSH and POP.
      [JitJump]: compiled comparisons and loads.  [JitRun]: the simulation of
      the interpreter's turns by runs of the processor.  [JitContract]: the
      prologue, the epilogue, and the contract of a compiled program.
      [JitDepart]: compiled jumps, stores and loads that depart.
    - [Hashmap]: libebpf/src/hashmap.c.  [EbpfMap]: libebpf/src/ebpf_map.c.
    - [Vm]: the rest of ebpf_vm.c, with ebpf_helper_impl.h.  [EbpfEnv]:
      ebpf_env.c, ebpf_env.h.  [Allocator]: ebpf_allocator.c.
    - [Fpb]: hotpatch/src/cortex-m4_fbp.c and the address computations of
      utils.c.  [FpbProps]: its theorems.
    - [PatchCtx]: hotpatch/src/iotpatch.c.  [PatchCtxProps]: its theorems.
    - [Dispatch]: the handlers of fixed_patch_points.c and cortex-m4_fbp.c.
      [DispatchProps]: its theorems.  [Stubs]: the assembly between the
      processor and these handlers, with the entry and the return of an
      exception.  [StubsProps]: frames, and how each stub runs.  [PatchPoints]:
      stub and handler together, for each kind of patch point.
    - [LocalPatch]: dynamic_patch_load.c, fixed_patch_load.c, and the patch
      test_cve.  [JitPatch]: the call of a compiled patch, and test_cve in the
      configuration that ships, where it is compiled.  [Firmware]: calls of a
      function that has a breakpoint, from the event to the return.
      [Install]: loading a patch of the table.  [Shipped]: from the load to the
      calls of the function, with compiled patches.
      [CvePatches]: the programs shipped for CVE-2020-10062 and
      CVE-2020-17445, and the functions of app/dummy_cve.c they are tried on.
    - [Flash]: hotpatch/src/flash_api.c.  [Profiling]: hotpatch/src/profiling.c.
    - [Utils]: str2int and byte2int of hotpatch/src/utils.c.
      [Service]: hotpatch/src/patch_service.c.  [Shell]: the line editor and
      the dispatch of app/ihp_cli.c.  [Commands]: its commands, and the tests
      they run: app/cve_trigger.h, and those of fixed_patch_points.c and
      cortex-m4_fbp.c.  [Session]: the patch command, from the registers of the
      unit before it to those after it.

    ** Conventions

    A definition has the name of the function, type, field or macro it models.
    A function that reads or changes memory or module variables takes the state
    and returns it; the states nest as the calls do: [hw_state] (the unit's
    registers and the memory) is a field of [ctx_state] (the tables, the heap
    objects by address, the helper tables), which is a field of [svc_state].
    [None] is what C leaves undefined and the hardware may turn into anything:
    an access through NULL, outside a block or to a freed object, an overflow of
    a signed operation that matters.  Where the outcome has to be told apart
    there is a type for it ([outcome] of the interpreter, [loop_result] of the
    service).  What malloc returns, the words the heap holds beside a block,
    the content of fresh memory and the addresses the linker chooses are
    arguments of the definitions, so the theorems hold for all of them.
    Code that is not in the repository is an interface: [Socket] with its laws
    for recv and send (instance: a stream that arrives in pieces), [Handlers]
    for the commands of the shell, [FlashHAL] with its laws for the vendor's
    flash functions (instance: a map of bytes), and function arguments for the
    eBPF helpers, for the system's malloc and for the machine code that the
    processor runs.

    ** What the theorems show

    - Interpreter.  The loop, which C writes as for (;;), always ends, and its
      result is the one its turns determine ([ebpf_vm_exec_loop]); registers
      and memory keep their widths; every arithmetic instruction and every jump
      computes what the fields of its opcode name ([step_alu64_conforms],
      [step_alu32_conforms], [step_jump_conforms]) but for the exceptions that
      are theorems of their own; an instruction touches only the bytes it
      names; a program that passes a static check never leaves its code, its
      registers or its helper table ([checked_program_safe]).
    - Compiler.  A program whose jumps, constants and helpers are there is
      compiled whenever the size that the first pass measures fits
      ([gen_jit_code_succeeds]); the two passes agree and every branch of the
      compiled code leads to the start of its target ([gen_jit_code_layout]);
      the 64-bit
      arithmetic of [jit_exact] does on the processor what the interpreter does
      ([compiled_alu64_simulates]), and the rest does not
      ([compiled_alu_departs], [compiled_mov_imm_branches]); the jumps that get
      no branch at all ([less_jumps_have_no_branch]).  A whole program that
      keeps to what is compiled right ([exact_run]: that arithmetic, jumps whose
      operands agree in the high words or are compared with sign, constants,
      loads of double words, and of words where the high word is 0) is a function that returns what the interpreter
      returns and leaves its caller's registers and memory alone
      ([compiled_program_returns]).
    - Containers.  The array map refines a finite map as long as keys come
      above its first one, and the theorems say what happens otherwise; the
      hash map of strings refines a partial function in which the first binding
      of a key wins ([hashmap_refines]).
    - Breakpoints.  The branch of the remap table leads where it should over
      the whole range of a branch, in both encoders; a breakpoint that is added
      matches and the others stay; the array bounds that do not hold.
    - Patch context.  The Bloom filter loses no patch: a lookup is exactly a
      lookup in the table ([get_fixed_patch_exact]); installing a patch makes it
      found and keeps the others ([notify_new_fixed_patch],
      [notify_new_dynamic_patch]); what the list of dynamic patches loses.
    - Dispatch.  What a patched function sees of each answer of its patch; the
      single-step protocol of the debug monitor steps over a breakpoint once and
      arms it again ([monitor_rearms]).  From the instruction before to the
      instruction after: the guard of an instrumented function with its stub
      ([patch_point_guards]), a breakpoint with its exception
      ([breakpoint_outcome]), a remapped instruction with its two trampolines
      ([trampoline_steps_over]); which stubs do not do that
      ([keil_stub_misses_lr], [trampoline1_falls_through],
      [trampolines_return], [trampolines_take_other_stack]).
    - Patches.  The program of the breakpoint for CVE-2020-10062 makes the
      decoder return what the protocol defines when the interpreter runs it
      ([cve_10062_repairs]; its loader compiles it, to loads of bytes that the
      processor model does not have), while its variant for the fixed patch
      point, which is interpreted, overwrites code ([fixed_10062_corrupts]);
      with the program for CVE-2020-17445 at its fixed patch point the loop of
      the function ends on the packets that the interpreter has turns for
      ([cve_17445_ends], [cve_17445_counter_too_late]).
    - Flash.  What a write stores, keeps and erases, at the start of a page
      ([flash_write_page_start]) and inside it, where the data is displaced or
      lost ([flash_write_inside_lost]).
    - Shell.  A line is split and dispatched ([shell_runs_line]); one of 128
      characters blocks the shell ([shell_full_line_blocks]); after the command
      that clears the patches none can be loaded ([reset_breaks_loader]).  The
      test of the flash patch redirects the function ([fpb_setup_redirects]),
      by a word that may be outside of its table.
    - End to end.  A call of a function with a breakpoint, from the event of
      the debug unit to the return to the caller, returns the code of the patch
      or what the function always returned, and leaves the breakpoint armed
      ([patched_call]).  With test_cve loaded, a call of the function it patches
      returns what the fixed function would, interpreted ([function_repaired])
      and, in the configuration that ships, compiled by the loader and run by
      the processor ([compiled_patch_repairs], [loaded_patch_repairs]); any patch of the table that
      compiles is found and armed after its load ([local_patch_installed]).
      The function itself is what the compiler makes of it, two arguments of
      the model with a contract ([computes]).
      Bytes sent to
      the service install a patch ([service_installs_patch]); a line typed at
      the shell runs its command ([shell_runs_line]).

    ** Bounds and fuel

    The interpreter has the code's own bound: its counter passes [MAX_ITERS]
    after MAX_ITERS + 2 turns, and [ebpf_vm_exec] gives [run] that much fuel
    and is proved not to run out of it.  The service loop is bounded by the
    bytes the peer will send ([wait_for_patch_ends]).  Loops over arrays
    recur on the number of their elements.  The searches for an aligned
    instruction and the loop over IPv6 options take fuel, because there the
    C loops need not end ([process_destopt_spins]); so does the loop over the
    pages of a write, where one turn is enough for the writes of the theorems.
    The tables of the compiler have the sizes of the code, and the theorems
    that need room say so.  A run of compiled code is as many steps of the
    processor as the run of the interpreter needs; the theorem gives the number.

    ** Not modelled

    Of the processor, what the compiler does not emit or the theorems do not
    need: loads and stores of bytes and halfwords, calls from compiled code, and
    the memory protection; compiled code is fetched as it is when it is called.
    [Stubs] has a processor of its own, for the instructions of the assembly
    and with both stack pointers: the C functions it calls are the ones of
    [Dispatch]; it ignores bit 0 of a return address in a frame where the
    theorems of [Firmware] say so, and an event sets DFSR to its bit, which
    a write of the bit does not clear.  The stack those C functions use is not
    part of it, nor are the floating-point registers, other exceptions, and the
    trampolines built with GCC, which are C functions whose frame the compiler
    lays out.
    Of the shell, the build for QEMU, where a carriage return ends a line
    too.  An allocation that fails when a dynamic patch is added to the list,
    where the code writes through NULL.  A string that is changed after it was
    made the key of a map: the strings are a function of their addresses.
    Printing and logging, the tests of the interpreter, the
    Zephyr variant of the connection, the patches for functions that are not in
    the repository, the board support and the demo application, and the tools on
    the host. *)

From Stdlib Require Export ZArith Lia List Bool.
From stdpp Require Export base gmap list strings option.

#[global] Open Scope Z_scope.

(** ** Notations for C's bit operators *)

Declare Scope c_scope.
Delimit Scope c_scope with c.
Infix ".|" := Z.lor (at level 50, left associativity) : c_scope.
Infix ".&" := Z.land (at level 40, left associativity) : c_scope.
Infix ".^" := Z.lxor (at level 45, left associativity) : c_scope.
Infix "<<" := Z.shiftl (at level 34, left associativity) : c_scope.
Infix ">>" := Z.shiftr (at level 34, left associativity) : c_scope.
#[global] Open Scope c_scope.

(** ** Machine integers

    A value of an unsigned w-bit type is a [Z] in [0, 2^w); a value of a signed
    one is a [Z] in [-2^(w-1), 2^(w-1)).  A conversion to a type is the
    function below of that type's name. *)

Definition wrap (w x : Z) : Z := x mod 2 ^ w.
Definition sext (w x : Z) : Z :=
  let y := x mod 2 ^ w in if y <? 2 ^ (w - 1) then y else y - 2 ^ w.

Definition u8 (x : Z) : Z := wrap 8 x.
Definition u16 (x : Z) : Z := wrap 16 x.
Definition u32 (x : Z) : Z := wrap 32 x.
Definition u64 (x : Z) : Z := wrap 64 x.
Definition s8 (x : Z) : Z := sext 8 x.
Definition s16 (x : Z) : Z := sext 16 x.
Definition s32 (x : Z) : Z := sext 32 x.
Definition s64 (x : Z) : Z := sext 64 x.

Lemma wrap_range (w x : Z) : 0 <= w -> 0 <= wrap w x < 2 ^ w.
Proof. intros Hw. apply Z.mod_pos_bound, Z.pow_pos_nonneg; lia. Qed.

Lemma wrap_small (w x : Z) : 0 <= x < 2 ^ w -> wrap w x = x.
Proof. apply Z.mod_small. Qed.

Lemma wrap_idemp (w x : Z) : wrap w (wrap w x) = wrap w x.
Proof. apply Z.mod_mod_divide, Z.divide_refl. Qed.

Lemma wrap_wrap (a b x : Z) : 0 <= a <= b -> wrap a (wrap b x) = wrap a x.
Proof.
  intros Hab. apply Z.mod_mod_divide. exists (2 ^ (b - a)).
  rewrite <- Z.pow_add_r by lia. f_equal. lia.
Qed.

Lemma wrap_opp (a b x : Z) : 0 <= a <= b -> wrap a (wrap b (- x)) = wrap a (- wrap a x).
Proof.
  intros Hab. rewrite wrap_wrap by done. unfold wrap. 
  rewrite <- (Z.sub_0_l x), <- (Z.sub_0_l (x mod 2 ^ a)). symmetry. apply Zminus_mod_idemp_r.
Qed.

Lemma wrap_add_l (w x y : Z) : wrap w (wrap w x + y) = wrap w (x + y).
Proof. apply Zplus_mod_idemp_l. Qed.

Lemma wrap_add_r (w x y : Z) : wrap w (x + wrap w y) = wrap w (x + y).
Proof. apply Zplus_mod_idemp_r. Qed.

Lemma wrap_land_ones (w x : Z) : 0 <= w -> wrap w x = x .& Z.ones w.
Proof. intros. symmetry. by apply Z.land_ones. Qed.

Lemma testbit_wrap (w x i : Z) :
  0 <= w -> 0 <= i -> Z.testbit (wrap w x) i = (i <? w) && Z.testbit x i.
Proof.
  intros Hw Hi. unfold wrap. destruct (Z.ltb_spec i w) as [Hlt | Hge].
  - by rewrite Z.mod_pow2_bits_low.
  - by rewrite Z.mod_pow2_bits_high by lia.
Qed.

Lemma sext_range (w x : Z) : 0 < w -> - 2 ^ (w - 1) <= sext w x < 2 ^ (w - 1).
Proof.
  intros Hw. unfold sext.
  assert (H2 : 2 ^ w = 2 * 2 ^ (w - 1)) by (rewrite <- Z.pow_succ_r by lia; f_equal; lia).
  pose proof (Z.mod_pos_bound x (2 ^ w) ltac:(apply Z.pow_pos_nonneg; lia)).
  destruct (Z.ltb_spec (x mod 2 ^ w) (2 ^ (w - 1))); lia.
Qed.

Lemma sext_small (w x : Z) : 0 < w -> - 2 ^ (w - 1) <= x < 2 ^ (w - 1) -> sext w x = x.
Proof.
  intros Hw Hx. unfold sext.
  assert (H2 : 2 ^ w = 2 * 2 ^ (w - 1)) by (rewrite <- Z.pow_succ_r by lia; f_equal; lia).
  destruct (Z.ltb_spec x 0) as [Hn | Hp].
  - replace (x mod 2 ^ w) with (x + 2 ^ w).
    2: { rewrite <- (Z.mod_small (x + 2 ^ w) (2 ^ w)) by lia.
         replace (x + 2 ^ w) with (x + 1 * 2 ^ w) by lia. by rewrite Z.mod_add by lia. }
    destruct (Z.ltb_spec (x + 2 ^ w) (2 ^ (w - 1))); lia.
  - rewrite Z.mod_small by lia. destruct (Z.ltb_spec x (2 ^ (w - 1))); lia.
Qed.

Lemma sext_wrap (w x : Z) : sext w (wrap w x) = sext w x.
Proof. unfold sext, wrap. rewrite Z.mod_mod_divide by apply Z.divide_refl. done. Qed.

Lemma wrap_sext (w x : Z) : wrap w (sext w x) = wrap w x.
Proof.
  unfold sext, wrap. destruct (_ <? _).
  - apply Z.mod_mod_divide, Z.divide_refl.
  - replace (x mod 2 ^ w - 2 ^ w) with (x mod 2 ^ w + (-1) * 2 ^ w) by lia.
    rewrite Z_mod_plus_full. apply Z.mod_mod_divide, Z.divide_refl.
Qed.

Lemma u8_range (x : Z) : 0 <= u8 x < 2 ^ 8. Proof. by apply wrap_range. Qed.
Lemma u16_range (x : Z) : 0 <= u16 x < 2 ^ 16. Proof. by apply wrap_range. Qed.
Lemma u32_range (x : Z) : 0 <= u32 x < 2 ^ 32. Proof. by apply wrap_range. Qed.
Lemma u64_range (x : Z) : 0 <= u64 x < 2 ^ 64. Proof. by apply wrap_range. Qed.

Lemma u8_small (x : Z) : 0 <= x < 2 ^ 8 -> u8 x = x. Proof. apply wrap_small. Qed.
Lemma u16_small (x : Z) : 0 <= x < 2 ^ 16 -> u16 x = x. Proof. apply wrap_small. Qed.
Lemma u32_small (x : Z) : 0 <= x < 2 ^ 32 -> u32 x = x. Proof. apply wrap_small. Qed.
Lemma u64_small (x : Z) : 0 <= x < 2 ^ 64 -> u64 x = x. Proof. apply wrap_small. Qed.

Create HintDb width.
#[export] Hint Resolve u8_range u16_range u32_range u64_range : width.
Create Rewrite HintDb width_rw.
#[export] Hint Rewrite wrap_idemp wrap_add_l wrap_add_r sext_wrap wrap_sext : width_rw.

(** [width] closes side conditions on machine integers: it unfolds the range
    of every conversion that occurs and calls [lia]. *)
Ltac note_ranges :=
  repeat match goal with
  | |- context [u8 ?x] => lazymatch goal with _ : 0 <= u8 x < _ |- _ => fail | _ => pose proof (u8_range x) end
  | |- context [u16 ?x] => lazymatch goal with _ : 0 <= u16 x < _ |- _ => fail | _ => pose proof (u16_range x) end
  | |- context [u32 ?x] => lazymatch goal with _ : 0 <= u32 x < _ |- _ => fail | _ => pose proof (u32_range x) end
  | |- context [u64 ?x] => lazymatch goal with _ : 0 <= u64 x < _ |- _ => fail | _ => pose proof (u64_range x) end
  end.
Ltac width := note_ranges; lia.

(** ** Ranges of the bit operators *)

Lemma land_range (n a b : Z) : 0 <= n -> 0 <= a -> 0 <= b < 2 ^ n -> 0 <= a .& b < 2 ^ n.
Proof.
  intros Hn Ha Hb. split; [by apply Z.land_nonneg; left|].
  destruct (decide (a .& b = 0)) as [-> | Hne]; [lia|].
  apply Z.log2_lt_pow2; [assert (0 <= a .& b) by (by apply Z.land_nonneg; left); lia|].
  eapply Z.le_lt_trans; [apply Z.log2_land; lia|].
  destruct (decide (b = 0)) as [-> | Hb0]; [rewrite Z.land_0_r in Hne; lia|].
  eapply Z.le_lt_trans; [apply Z.le_min_r|]. apply Z.log2_lt_pow2; lia.
Qed.

Lemma pow2_testbit_bound (n a : Z) :
  0 <= n -> 0 <= a -> (forall i, n <= i -> Z.testbit a i = false) -> a < 2 ^ n.
Proof.
  intros Hn Ha Hbits. destruct (Z.lt_ge_cases a (2 ^ n)) as [|Hge]; [done|].
  assert (n <= Z.log2 a) as Hlog by (apply Z.log2_le_pow2; lia).
  assert (0 < a) by (pose proof (Z.pow_pos_nonneg 2 n); lia).
  pose proof (Z.bit_log2 a ltac:(lia)) as Hb. by rewrite (Hbits _ Hlog) in Hb.
Qed.

Lemma testbit_shl (a n j : Z) : 0 <= n -> Z.testbit (a << n) j = Z.testbit a (j - n).
Proof.
  intros Hn. destruct (Z.ltb_spec j 0); [by rewrite !Z.testbit_neg_r by lia|by rewrite Z.shiftl_spec].
Qed.

Lemma testbit_above (n a i : Z) : 0 <= a < 2 ^ n -> 0 <= n <= i -> Z.testbit a i = false.
Proof.
  intros Ha Hi. destruct (decide (a = 0)) as [-> | Hne]; [apply Z.testbit_0_l|].
  apply Z.bits_above_log2; [lia|]. assert (Z.log2 a < n) by (apply Z.log2_lt_pow2; lia). lia.
Qed.

Lemma lor_range (n a b : Z) : 0 <= n -> 0 <= a < 2 ^ n -> 0 <= b < 2 ^ n -> 0 <= a .| b < 2 ^ n.
Proof.
  intros Hn Ha Hb. assert (0 <= a .| b) by (apply Z.lor_nonneg; lia). split; [done|].
  apply pow2_testbit_bound; [done..|]. intros i Hi.
  by rewrite Z.lor_spec, (testbit_above n a), (testbit_above n b) by lia.
Qed.

Lemma lxor_range (n a b : Z) : 0 <= n -> 0 <= a < 2 ^ n -> 0 <= b < 2 ^ n -> 0 <= a .^ b < 2 ^ n.
Proof.
  intros Hn Ha Hb. assert (0 <= a .^ b) by (apply Z.lxor_nonneg; lia). split; [done|].
  apply pow2_testbit_bound; [done..|]. intros i Hi.
  by rewrite Z.lxor_spec, (testbit_above n a), (testbit_above n b) by lia.
Qed.

#[export] Hint Resolve land_range lor_range lxor_range : width.

(** ** C arrays

    An array object is a list; an index outside it is undefined behaviour,
    [None] here, on a read and on a write alike. *)

Definition zget {A} (l : list A) (i : Z) : option A :=
  if i <? 0 then None else l !! Z.to_nat i.

Definition zset {A} (l : list A) (i : Z) (x : A) : option (list A) :=
  if (0 <=? i) && (i <? Z.of_nat (length l)) then Some (<[Z.to_nat i := x]> l) else None.

Lemma zget_Some {A} (l : list A) (i : Z) (x : A) :
  zget l i = Some x -> 0 <= i < Z.of_nat (length l).
Proof.
  unfold zget. destruct (Z.ltb_spec i 0); [done|]. intros Hl%lookup_lt_Some. lia.
Qed.

Lemma zget_is_Some {A} (l : list A) (i : Z) :
  0 <= i < Z.of_nat (length l) -> exists x, zget l i = Some x.
Proof.
  intros Hi. unfold zget. destruct (Z.ltb_spec i 0); [lia|].
  apply lookup_lt_is_Some. lia.
Qed.

Lemma zget_None {A} (l : list A) (i : Z) : Z.of_nat (length l) <= i -> zget l i = None.
Proof.
  intros Hi. unfold zget. destruct (Z.ltb_spec i 0); [done|]. apply lookup_ge_None. lia.
Qed.

Lemma zget_nat {A} (l : list A) (n : nat) : zget l (Z.of_nat n) = l !! n.
Proof. unfold zget. destruct (Z.ltb_spec (Z.of_nat n) 0); [lia|]. by rewrite Nat2Z.id. Qed.

Lemma zset_Some {A} (l l' : list A) (i : Z) (x : A) :
  zset l i x = Some l' ->
  0 <= i < Z.of_nat (length l) /\ l' = <[Z.to_nat i := x]> l.
Proof.
  unfold zset. destruct (Z.leb_spec 0 i), (Z.ltb_spec i (Z.of_nat (length l)));
    simpl; intros; simplify_eq; split; (lia || done).
Qed.

Lemma zset_is_Some {A} (l : list A) (i : Z) (x : A) :
  0 <= i < Z.of_nat (length l) -> zset l i x = Some (<[Z.to_nat i := x]> l).
Proof.
  intros Hi. unfold zset. destruct (Z.leb_spec 0 i), (Z.ltb_spec i (Z.of_nat (length l))); (done || lia).
Qed.

Lemma zset_length {A} (l l' : list A) (i : Z) (x : A) :
  zset l i x = Some l' -> length l' = length l.
Proof. intros [_ ->]%zset_Some. apply length_insert. Qed.

Lemma zget_insert_eq {A} (l : list A) (i : Z) (x : A) :
  0 <= i < Z.of_nat (length l) -> zget (<[Z.to_nat i := x]> l) i = Some x.
Proof.
  intros Hi. unfold zget. destruct (Z.ltb_spec i 0); [lia|].
  apply list_lookup_insert_eq. lia.
Qed.

Lemma zget_insert_ne {A} (l : list A) (i j : Z) (x : A) :
  0 <= i -> i <> j -> zget (<[Z.to_nat i := x]> l) j = zget l j.
Proof.
  intros Hi Hne. unfold zget. destruct (Z.ltb_spec j 0); [done|].
  apply list_lookup_insert_ne. lia.
Qed.

Lemma zget_zset_eq {A} (l l' : list A) (i : Z) (x : A) :
  zset l i x = Some l' -> zget l' i = Some x.
Proof. intros [Hi ->]%zset_Some. by apply zget_insert_eq. Qed.

Lemma zget_zset_ne {A} (l l' : list A) (i j : Z) (x : A) :
  zset l i x = Some l' -> i <> j -> zget l' j = zget l j.
Proof. intros [Hi ->]%zset_Some Hne. apply zget_insert_ne; lia. Qed.

Lemma Forall_zget {A} (P : A -> Prop) (l : list A) (i : Z) (x : A) :
  Forall P l -> zget l i = Some x -> P x.
Proof.
  unfold zget. destruct (i <? 0); [done|]. intros HF Hx. by eapply Forall_lookup_1.
Qed.

Lemma Forall_zset {A} (P : A -> Prop) (l l' : list A) (i : Z) (x : A) :
  Forall P l -> P x -> zset l i x = Some l' -> Forall P l'.
Proof. intros HF HP [_ ->]%zset_Some. by apply Forall_insert. Qed.

(** ** Tactics *)

(** [inv_some] takes a monadic computation that is known to succeed apart:
    it destructs the scrutinees of the binds and conditionals of a
    hypothesis [_ = Some _] and keeps the equations. *)
Ltac inv_some :=
  repeat match goal with
  | H : mbind _ ?e = Some _ |- _ =>
      let E := fresh "E" in destruct e eqn:E; cbn in H; [|discriminate H]
  | H : Some _ = Some _ |- _ => injection H as H; subst
  | H : None = Some _ |- _ => discriminate H
  end.

Ltac zify_bools :=
  repeat match goal with
  | H : (_ <? _) = true |- _ => apply Z.ltb_lt in H
  | H : (_ <? _) = false |- _ => apply Z.ltb_ge in H
  | H : (_ <=? _) = true |- _ => apply Z.leb_le in H
  | H : (_ <=? _) = false |- _ => apply Z.leb_gt in H
  | H : (_ =? _) = true |- _ => apply Z.eqb_eq in H
  | H : (_ =? _) = false |- _ => apply Z.eqb_neq in H
  | H : negb _ = true |- _ => apply negb_true_iff in H
  | H : negb _ = false |- _ => apply negb_false_iff in H
  | H : (_ && _) = true |- _ => apply andb_true_iff in H as [? ?]
  | H : (_ || _) = false |- _ => apply orb_false_iff in H as [? ?]
  end.

(** ** Bit fields *)

(** A field placed above the bits of another one: the two do not overlap. *)
Lemma lor_shiftl_add (n a b : Z) : 0 <= n -> 0 <= a < 2 ^ n -> a .| (b << n) = a + b * 2 ^ n.
Proof.
  intros Hn Ha. rewrite <- Z.shiftl_mul_pow2 by lia. symmetry. rewrite Z.add_nocarry_lxor.
  - symmetry. apply Z.bits_inj'. intros i Hi. rewrite Z.lor_spec, Z.lxor_spec, Z.shiftl_spec by lia.
    destruct (Z.ltb_spec i n).
    + rewrite (Z.testbit_neg_r _ (i - n)) by lia. by rewrite orb_false_r, xorb_false_r.
    + by rewrite (testbit_above n a i), orb_false_l, xorb_false_l by lia.
  - apply Z.bits_inj'. intros i Hi. rewrite Z.land_spec, Z.shiftl_spec, Z.testbit_0_l by lia.
    destruct (Z.ltb_spec i n).
    + rewrite (Z.testbit_neg_r _ (i - n)) by lia. apply andb_false_r.
    + by rewrite (testbit_above n a i), andb_false_l by lia.
Qed.

(** [bit_cases i n] replaces the bit index [0 <= i < n] by its n values. *)
Ltac bit_cases i n :=
  lazymatch n with
  | O => exfalso; lia
  | S ?n' =>
      let k := eval vm_compute in (Z.of_nat n') in
      destruct (decide (i = k)) as [->|]; [|bit_cases i n']
  end.

(** [testbits] pushes [Z.testbit] through the bit operators, for a bit index
    that is known to be non-negative. *)
Ltac testbits :=
  repeat first
    [ rewrite Z.lor_spec | rewrite Z.land_spec | rewrite Z.lxor_spec
    | rewrite Z.shiftl_spec by lia | rewrite Z.shiftr_spec by lia
    | rewrite testbit_wrap by lia ].

(** [norm_bits] evaluates the closed bit indices, tests of closed constants
    and closed comparisons that [testbits] leaves for a concrete index. *)
Ltac norm_bits :=
  repeat match goal with
  | |- context [Z.testbit ?x ?i] =>
      let i' := eval vm_compute in i in
      lazymatch i' with
      | Zneg _ => rewrite (Z.testbit_neg_r x i) by lia
      | _ => first [ progress change i with i'
                   | let b := eval vm_compute in (Z.testbit x i) in
                     lazymatch b with
                     | true => change (Z.testbit x i) with true
                     | false => change (Z.testbit x i) with false
                     end ]
      end
  | |- context [?a <? ?b] =>
      let c := eval vm_compute in (a <? b) in
      lazymatch c with
      | true => change (a <? b) with true
      | false => change (a <? b) with false
      end
  | _ => progress rewrite ?andb_true_r, ?andb_false_r, ?orb_false_r, ?orb_true_r,
           ?andb_true_l, ?andb_false_l, ?orb_false_l, ?orb_true_l
  | _ => progress testbits
  end.

(** [byte_of k x]: the k-th byte of x; [le_bytes n x]: the n low bytes, the
    least significant one first. *)
Definition byte_of (k x : Z) : Z := (x >> (8 * k)) .& 255.
Definition le_bytes (n : nat) (x : Z) : list Z :=
  map (fun k => byte_of (Z.of_nat k) x) (seq 0 n).

Lemma byte_of_range (k x : Z) : 0 <= byte_of k x < 256.
Proof. unfold byte_of. change 255 with (Z.ones 8). rewrite Z.land_ones by lia. apply Z.mod_pos_bound. lia. Qed.

Lemma testbit_byte_of (k x i : Z) :
  0 <= k -> 0 <= i -> Z.testbit (byte_of k x) i = (i <? 8) && Z.testbit x (i + 8 * k).
Proof.
  intros Hk Hi. unfold byte_of. change 255 with (Z.ones 8).
  rewrite Z.land_spec, Z.shiftr_spec, Z.testbit_ones_nonneg by lia. apply andb_comm.
Qed.

Lemma byte_of_lor (k a b : Z) : byte_of k (a .| b) = byte_of k a .| byte_of k b.
Proof. unfold byte_of. by rewrite Z.shiftr_lor, Z.land_lor_distr_l. Qed.

Lemma byte_of_wrap (n k x : Z) : 0 <= k -> 8 * (k + 1) <= n -> byte_of k (wrap n x) = byte_of k x.
Proof.
  intros Hk Hn. apply Z.bits_inj'. intros i Hi. rewrite !testbit_byte_of by lia.
  destruct (Z.ltb_spec i 8); [|done]. rewrite testbit_wrap by lia.
  by destruct (Z.ltb_spec (i + 8 * k) n); [|lia].
Qed.

(** One byte of x moved to another position: masked by c, then shifted by q
    bytes (right when q is negative). *)
Lemma byte_of_move_eq (j k c q s x : Z) :
  0 <= j -> 0 <= k -> c = 255 << (8 * k) -> s = 8 * q -> j = k + q ->
  byte_of j ((x .& c) << s) = byte_of k x.
Proof.
  intros Hj Hk -> -> Hq. apply Z.bits_inj'. intros i Hi. rewrite !testbit_byte_of by lia.
  destruct (Z.ltb_spec i 8); [|done]. rewrite !andb_true_l, Z.shiftl_spec by lia.
  rewrite Z.land_spec, Z.shiftl_spec by lia. change 255 with (Z.ones 8).
  rewrite Z.testbit_ones_nonneg by lia. replace (i + 8 * j - 8 * q) with (i + 8 * k) by lia.
  destruct (Z.ltb_spec (i + 8 * k - 8 * k) 8); [by rewrite andb_true_r|lia].
Qed.

Lemma byte_of_move_ne (j k c q s x : Z) :
  0 <= j -> 0 <= k -> c = 255 << (8 * k) -> s = 8 * q -> j <> k + q ->
  byte_of j ((x .& c) << s) = 0.
Proof.
  intros Hj Hk -> -> Hq. apply Z.bits_inj'. intros i Hi. rewrite testbit_byte_of, Z.testbit_0_l by lia.
  destruct (Z.ltb_spec i 8); [|done]. rewrite andb_true_l, Z.shiftl_spec by lia.
  destruct (Z.ltb_spec (i + 8 * j - 8 * q) 0); [by rewrite Z.testbit_neg_r|].
  rewrite Z.land_spec, Z.shiftl_spec by lia. change 255 with (Z.ones 8).
  destruct (Z.ltb_spec (i + 8 * j - 8 * q - 8 * k) 0);
    [rewrite (Z.testbit_neg_r (Z.ones 8)) by lia; apply andb_false_r|].
  rewrite Z.testbit_ones_nonneg by lia.
  destruct (Z.ltb_spec (i + 8 * j - 8 * q - 8 * k) 8); [lia|apply andb_false_r].
Qed.

(** The bit above the magnitude is the sign. *)
Lemma testbit_sign (n x : Z) : 0 <= n -> - 2 ^ n <= x < 2 ^ n -> Z.testbit x n = (x <? 0).
Proof.
  intros Hn Hx. destruct (Z.ltb_spec x 0).
  - assert (Hb : Z.testbit (- x - 1) n = false) by (apply (testbit_above n); lia).
    replace (- x - 1) with (Z.lnot x) in Hb by (unfold Z.lnot; lia).
    rewrite Z.lnot_spec in Hb by lia. by apply negb_false_iff in Hb.
  - apply (testbit_above n); lia.
Qed.

Lemma testbit_sext (w x i : Z) : 0 < w -> 0 <= i -> Z.testbit (sext w x) i = Z.testbit x (Z.min i (w - 1)).
Proof.
  intros Hw Hi. pose proof (sext_range w x Hw) as Hr.
  assert (Hlow : forall j, 0 <= j < w -> Z.testbit (sext w x) j = Z.testbit x j).
  { intros j Hj. pose proof (testbit_wrap w (sext w x) j ltac:(lia) ltac:(lia)) as E.
    rewrite wrap_sext, testbit_wrap in E by lia. by destruct (Z.ltb_spec j w); [|lia]. }
  destruct (Z.leb_spec i (w - 1)); [rewrite Z.min_l by lia; apply Hlow; lia|].
  assert (2 ^ (w - 1) <= 2 ^ i) by (apply Z.pow_le_mono_r; lia).
  rewrite Z.min_r, <- Hlow by lia. rewrite (testbit_sign i), (testbit_sign (w - 1)) by lia. done.
Qed.

(** An address that a store does not use, and not NULL. *)
Definition fresh_address {A} (m : gmap Z A) : Z := fresh ({[ 0 ]} ∪ dom m).

Lemma fresh_address_ok {A} (m : gmap Z A) : fresh_address m <> 0 /\ m !! fresh_address m = None.
Proof.
  pose proof (is_fresh ({[ 0 ]} ∪ dom m)) as H. unfold fresh_address. set (x := fresh _) in *. split.
  - intros ->. apply H. set_solver.
  - apply not_elem_of_dom. set_solver.
Qed.

(** A register file, or another total map, with one entry changed. *)
Definition upd (r : Z -> Z) (d v : Z) : Z -> Z := fun k => if k =? d then v else r k.

Lemma upd_eq (r : Z -> Z) (d v : Z) : upd r d v d = v.
Proof. unfold upd. by rewrite Z.eqb_refl. Qed.
Lemma upd_ne (r : Z -> Z) (d v k : Z) : k <> d -> upd r d v k = r k.
Proof. intros H. unfold upd. by destruct (Z.eqb_spec k d). Qed.
