(* ===== verification/Mem.v ===== *)
(** * Byte-addressed memory

    The address space of the 32-bit target: a finite map from byte addresses
    to bytes.  An access to an address that is not mapped is a fault ([None]).
    Multi-byte accesses are little endian, the byte order of the Cortex-M4
    build. *)

From S2P Require Import Prelude.

Abbreviation memory := (gmap Z Z).

(** Every mapped byte is a byte. *)
Definition mem_wf (m : memory) : Prop := map_Forall (fun _ b => 0 <= b < 256) m.

(** [*(uN * )a] for N = 8 n. *)
Fixpoint load_le (n : nat) (a : Z) (m : memory) : option Z :=
  match n with
  | O => Some 0
  | S n' => b ← m !! u32 a; r ← load_le n' (a + 1) m; Some (b .| (r << 8))
  end.

(** [*(uN * )a = v]: every byte of the object must be mapped. *)
Fixpoint store_le (n : nat) (a v : Z) (m : memory) : option memory :=
  match n with
  | O => Some m
  | S n' =>
      match m !! u32 a with
      | None => None
      | Some _ => store_le n' (a + 1) (v >> 8) (<[u32 a := v .& 255]> m)
      end
  end.

(** [bytes_at a bs]: the bytes [bs] laid out from address [a]. *)
Fixpoint bytes_at (a : Z) (bs : list Z) (m : memory) : memory :=
  match bs with
  | [] => m
  | b :: bs' => <[u32 a := b]> (bytes_at (a + 1) bs' m)
  end.

Lemma byte_land (v : Z) : 0 <= v .& 255 < 256.
Proof. change 255 with (Z.ones 8). rewrite Z.land_ones by lia. apply Z.mod_pos_bound. lia. Qed.

Lemma byte_cons_range (n : nat) (b r : Z) :
  0 <= b < 256 -> 0 <= r < 2 ^ (8 * Z.of_nat n) ->
  0 <= b .| (r << 8) < 2 ^ (8 * Z.of_nat (S n)).
Proof.
  intros Hb Hr.
  assert (He : 2 ^ (8 * Z.of_nat (S n)) = 2 ^ (8 * Z.of_nat n) * 2 ^ 8)
    by (rewrite <- Z.pow_add_r by lia; f_equal; lia).
  apply lor_range; [lia| |].
  - assert (0 < 2 ^ (8 * Z.of_nat n)) by (apply Z.pow_pos_nonneg; lia). lia.
  - rewrite Z.shiftl_mul_pow2 by lia. lia.
Qed.

Lemma load_le_range (n : nat) (a : Z) (m : memory) (v : Z) :
  mem_wf m -> load_le n a m = Some v -> 0 <= v < 2 ^ (8 * Z.of_nat n).
Proof.
  intros Hm. revert a v. induction n as [|n IH]; intros a v; simpl load_le.
  - intros [= <-]. simpl. lia.
  - intros H. inv_some. apply byte_cons_range; [by eapply Hm|by eapply IH].
Qed.

Lemma store_le_wf (n : nat) (a v : Z) (m m' : memory) :
  mem_wf m -> store_le n a v m = Some m' -> mem_wf m'.
Proof.
  revert a v m. induction n as [|n IH]; intros a v m Hm; simpl.
  - by intros [= <-].
  - destruct (m !! u32 a); [|done]. apply IH. apply map_Forall_insert_2; [apply byte_land|done].
Qed.

(** A store never maps or unmaps an address. *)
Lemma store_le_dom (n : nat) (a v : Z) (m m' : memory) :
  store_le n a v m = Some m' -> dom m' = dom m.
Proof.
  revert a v m. induction n as [|n IH]; intros a v m; simpl.
  - by intros [= <-].
  - destruct (m !! u32 a) eqn:E; [|done]. intros ->%IH.
    rewrite dom_insert_lookup_L by (by eexists). done.
Qed.

(** A store only changes the bytes of its own object. *)
Lemma store_le_frame (n : nat) (a v b : Z) (m m' : memory) :
  store_le n a v m = Some m' ->
  (forall k, 0 <= k < Z.of_nat n -> u32 (a + k) <> b) -> m' !! b = m !! b.
Proof.
  revert a v m. induction n as [|n IH]; intros a v m; simpl.
  - by intros [= <-].
  - destruct (m !! u32 a) eqn:E; [|done]. intros Hs Hb.
    rewrite (IH _ _ _ Hs).
    + apply lookup_insert_ne. specialize (Hb 0 ltac:(lia)). by rewrite Z.add_0_r in Hb.
    + intros k Hk. replace (a + 1 + k) with (a + (k + 1)) by lia. apply Hb. lia.
Qed.

Lemma u32_add_inj (a j k : Z) :
  0 <= j < 2 ^ 32 -> 0 <= k < 2 ^ 32 -> u32 (a + j) = u32 (a + k) -> j = k.
Proof.
  unfold u32, wrap. intros Hj Hk H.
  assert (Hd : (j - k) mod 2 ^ 32 = 0).
  { replace (j - k) with ((a + j) - (a + k)) by lia.
    rewrite Zminus_mod, H, Z.sub_diag. done. }
  apply Z.mod_divide in Hd; [|lia]. destruct Hd as [q Hq]. nia.
Qed.

(** Reading back what was stored: the value truncated to the object's width. *)
Lemma load_store_le (n : nat) (a v : Z) (m m' : memory) :
  Z.of_nat n < 2 ^ 32 -> store_le n a v m = Some m' ->
  load_le n a m' = Some (v mod 2 ^ (8 * Z.of_nat n)).
Proof.
  revert a v m. induction n as [|n IH]; intros a v m Hn.
  - intros _. simpl. by rewrite Z.mod_1_r.
  - cbn [store_le load_le]. destruct (m !! u32 a) eqn:E; [|done]. intros Hs.
    rewrite (store_le_frame _ _ _ (u32 a) _ _ Hs), lookup_insert_eq.
    2: { intros k Hk Heq. replace (a + 1 + k) with (a + (1 + k)) in Heq by lia.
         rewrite <- (Z.add_0_r a) in Heq at 2. apply u32_add_inj in Heq; lia. }
    rewrite (IH _ _ _ ltac:(lia) Hs). cbn. f_equal.
    rewrite <- !Z.land_ones by lia. apply Z.bits_inj'. intros i Hi.
    change 255 with (Z.ones 8).
    rewrite Z.lor_spec, !Z.land_spec, Z.shiftl_spec, Z.testbit_ones_nonneg, Z.testbit_ones_nonneg by lia.
    destruct (Z.ltb_spec i 8).
    + rewrite (Z.testbit_neg_r _ (i - 8)) by lia. rewrite orb_false_r.
      destruct (Z.ltb_spec i (8 * Z.of_nat (S n))); [done|lia].
    + rewrite andb_false_r, orb_false_l, Z.land_spec, Z.shiftr_spec by lia.
      rewrite Z.testbit_ones_nonneg by lia. replace (i - 8 + 8) with i by lia. f_equal.
      destruct (Z.ltb_spec (i - 8) (8 * Z.of_nat n)), (Z.ltb_spec i (8 * Z.of_nat (S n))); (done || lia).
Qed.

(** A mapped object can be stored to. *)
Lemma store_le_is_Some (n : nat) (a v : Z) (m : memory) :
  (forall k, 0 <= k < Z.of_nat n -> is_Some (m !! u32 (a + k))) ->
  is_Some (store_le n a v m).
Proof.
  revert a v m. induction n as [|n IH]; intros a v m Hm; simpl; [by eexists|].
  destruct (Hm 0 ltac:(lia)) as [b Hb]. rewrite Z.add_0_r in Hb. rewrite Hb.
  apply IH. intros k Hk. replace (a + 1 + k) with (a + (k + 1)) by lia.
  destruct (decide (u32 a = u32 (a + (k + 1)))) as [->|Hne];
    [rewrite lookup_insert_eq; by eexists|rewrite lookup_insert_ne by done; apply Hm; lia].
Qed.

Lemma load_le_is_Some (n : nat) (a : Z) (m : memory) :
  (forall k, 0 <= k < Z.of_nat n -> is_Some (m !! u32 (a + k))) ->
  is_Some (load_le n a m).
Proof.
  revert a. induction n as [|n IH]; intros a Hm; simpl; [by eexists|].
  destruct (Hm 0 ltac:(lia)) as [b Hb]. rewrite Z.add_0_r in Hb. rewrite Hb. cbn.
  destruct (IH (a + 1)) as [r Hr]; [|rewrite Hr; by eexists].
  intros k Hk. replace (a + 1 + k) with (a + (k + 1)) by lia. apply Hm. lia.
Qed.

Lemma load_le_mapped (n : nat) (a : Z) (m : memory) :
  is_Some (load_le n a m) -> forall k, 0 <= k < Z.of_nat n -> is_Some (m !! u32 (a + k)).
Proof.
  revert a. induction n as [|n IH]; intros a Hl k Hk; [lia|]. simpl in Hl.
  destruct (m !! u32 a) as [b|] eqn:Eb; [|by destruct Hl]. cbn [mbind option_bind] in Hl.
  destruct (Z.eq_dec k 0) as [->|]; [rewrite Z.add_0_r, Eb; by eexists|].
  replace (a + k) with (a + 1 + (k - 1)) by lia. apply IH; [|lia].
  destruct (load_le n (a + 1) m); [by eexists|by destruct Hl].
Qed.

(** What can be loaded can be stored to, and stays loadable. *)
Lemma store_where_loaded (n : nat) (a v : Z) (m : memory) : is_Some (load_le n a m) -> is_Some (store_le n a v m).
Proof. intros Hl. by apply store_le_is_Some, load_le_mapped. Qed.

Lemma store_keeps_loadable (n k : nat) (a b v : Z) (m m' : memory) :
  store_le n a v m = Some m' -> is_Some (load_le k b m) -> is_Some (load_le k b m').
Proof.
  intros Hs Hl. apply load_le_is_Some. intros j Hj. apply elem_of_dom. rewrite (store_le_dom _ _ _ _ _ Hs).
  apply elem_of_dom. by apply (load_le_mapped k).
Qed.

(** Addresses are those of 32 bits. *)
Lemma load_le_u32 (n : nat) (a : Z) (m : memory) : load_le n (u32 a) m = load_le n a m.
Proof.
  revert a. induction n as [|n IH]; intros a; [done|]. cbn [load_le].
  replace (u32 (u32 a)) with (u32 a) by (symmetry; apply wrap_idemp).
  rewrite <- (IH (u32 a + 1)), <- (IH (a + 1)). unfold u32. by rewrite wrap_add_l.
Qed.

Lemma store_le_u32 (n : nat) (a v : Z) (m : memory) : store_le n (u32 a) v m = store_le n a v m.
Proof.
  revert a v m. induction n as [|n IH]; intros a v m; [done|]. cbn [store_le].
  replace (u32 (u32 a)) with (u32 a) by (symmetry; apply wrap_idemp). destruct (m !! u32 a); [|done].
  rewrite <- (IH (u32 a + 1)), <- (IH (a + 1)). unfold u32. by rewrite wrap_add_l.
Qed.

(** A load depends on its bytes only. *)
Lemma load_le_ext (n : nat) (a : Z) (m m' : memory) :
  (forall k, 0 <= k < Z.of_nat n -> m' !! u32 (a + k) = m !! u32 (a + k)) -> load_le n a m' = load_le n a m.
Proof.
  revert a. induction n as [|n IH]; intros a H; [done|]. cbn [load_le].
  pose proof (H 0 ltac:(lia)) as H0. rewrite Z.add_0_r in H0. rewrite H0, (IH (a + 1)); [done|].
  intros k Hk. replace (a + 1 + k) with (a + (k + 1)) by lia. apply H. lia.
Qed.

(** A load of n + k bytes is one of n and one of k. *)
Lemma load_le_app (n k : nat) (a x y : Z) (m : memory) :
  load_le n a m = Some x -> load_le k (a + Z.of_nat n) m = Some y ->
  load_le (n + k) a m = Some (x .| (y << (8 * Z.of_nat n))).
Proof.
  revert a x. induction n as [|n IH]; intros a x Hx Hy.
  - cbn in Hx. injection Hx as <-. rewrite Z.add_0_r in Hy. change (8 * Z.of_nat 0) with 0. by rewrite Z.lor_0_l, Z.shiftl_0_r.
  - cbn [load_le Nat.add] in *. destruct (m !! u32 a) as [b|]; [|done]. cbn [mbind option_bind] in *.
    destruct (load_le n (a + 1) m) as [r|] eqn:E; [|done]. cbn [mbind option_bind] in *. injection Hx as <-.
    replace (a + Z.of_nat (S n)) with (a + 1 + Z.of_nat n) in Hy by lia. rewrite (IH _ r E Hy). cbn [mbind option_bind].
    f_equal. rewrite Z.shiftl_lor, Z.shiftl_shiftl, Z.lor_assoc by lia. do 2 f_equal. lia.
Qed.

Lemma load_byte (a : Z) (m : memory) : load_le 1 a m = m !! u32 a.
Proof. cbn [load_le]. destruct (m !! u32 a); [|done]. cbn [mbind option_bind]. by rewrite Z.shiftl_0_l, Z.lor_0_r. Qed.

Lemma lookup_bytes_at (bs : list Z) (a k : Z) (m : memory) :
  0 <= a -> 0 <= k -> a + k < 2 ^ 32 -> a + Z.of_nat (length bs) <= 2 ^ 32 ->
  bytes_at a bs m !! (a + k) = match zget bs k with Some b => Some b | None => m !! (a + k) end.
Proof.
  revert a k. induction bs as [|b bs IH]; intros a k Ha Hk Hr Hl; cbn [bytes_at].
  { unfold zget. destruct (k <? 0); [done|]. by rewrite lookup_nil. }
  cbn [length] in Hl. rewrite u32_small by lia. destruct (decide (k = 0)) as [->|Hne].
  - by rewrite Z.add_0_r, lookup_insert_eq.
  - rewrite lookup_insert_ne by lia. replace (a + k) with (a + 1 + (k - 1)) by lia. rewrite IH by lia.
    unfold zget. destruct (Z.ltb_spec k 0), (Z.ltb_spec (k - 1) 0); try lia.
    by replace (Z.to_nat k) with (S (Z.to_nat (k - 1))) by lia.
Qed.

Lemma bytes_at_wf (bs : list Z) (a : Z) (m : memory) : Forall (fun b => 0 <= b < 256) bs -> mem_wf m -> mem_wf (bytes_at a bs m).
Proof.
  revert a. induction bs as [|b bs IH]; intros a Hb Hm; [done|]. apply Forall_cons_iff in Hb as [Hb0 Hb]. cbn [bytes_at].
  apply map_Forall_insert_2; [exact Hb0|by apply IH].
Qed.

Lemma bytes_at_mapped (bs : list Z) (a b : Z) (m : memory) : is_Some (m !! b) -> is_Some (bytes_at a bs m !! b).
Proof.
  revert a. induction bs as [|x bs IH]; intros a Hb; [done|]. cbn [bytes_at].
  destruct (decide (u32 a = b)) as [->|]; [rewrite lookup_insert_eq; by eexists|]. rewrite lookup_insert_ne by done. by apply IH.
Qed.

(** The bytes of a range in which nothing else is mapped. *)
Lemma bytes_at_alone (bs : list Z) (a n : Z) (m : memory) :
  0 <= a -> a + n <= 2 ^ 32 -> Z.of_nat (length bs) <= n -> map_Forall (fun x _ => x < a \/ a + n <= x) m ->
  forall k, 0 <= k < n -> load_le 1 (a + k) (bytes_at a bs m) = zget bs k.
Proof.
  intros Ha Hn Hl Hm k Hk. rewrite load_byte, u32_small, lookup_bytes_at by lia. destruct (zget bs k); [done|].
  destruct (m !! (a + k)) as [b|] eqn:E; [|done]. specialize (Hm _ _ E). cbv beta in Hm. lia.
Qed.

(** ** Words stored and loaded together *)

Fixpoint store_words (a : Z) (vs : list Z) (m : memory) : option memory :=
  match vs with
  | [] => Some m
  | v :: vs' => m' ← store_le 4 a v m; store_words (a + 4) vs' m'
  end.

Fixpoint load_words (n : nat) (a : Z) (m : memory) : option (list Z) :=
  match n with
  | O => Some []
  | S n' => v ← load_le 4 a m; vs ← load_words n' (a + 4) m; Some (v :: vs)
  end.

(** The [n] bytes from [a] on. *)
Definition in_bytes (a n b : Z) : Prop := exists k, 0 <= k < n /\ b = u32 (a + k).

Lemma load_words_ext (n : nat) (a : Z) (m m' : memory) :
  (forall b, in_bytes a (4 * Z.of_nat n) b -> m' !! b = m !! b) -> load_words n a m' = load_words n a m.
Proof.
  revert a. induction n as [|n IH]; intros a H; [done|]. cbn [load_words].
  rewrite (load_le_ext 4 a m m') by (intros k Hk; apply H; exists k; split; [lia|done]).
  rewrite (IH (a + 4)); [done|]. intros b (k & Hk & ->). apply H. exists (k + 4). split; [lia|]. f_equal. lia.
Qed.

Lemma store_words_spec (vs : list Z) (a : Z) (m : memory) :
  4 * Z.of_nat (length vs) < 2 ^ 32 -> Forall (fun v => 0 <= v < 2 ^ 32) vs -> mem_wf m ->
  (forall b, in_bytes a (4 * Z.of_nat (length vs)) b -> is_Some (m !! b)) ->
  exists m', store_words a vs m = Some m' /\ load_words (length vs) a m' = Some vs /\ mem_wf m' /\ dom m' = dom m /\
    forall b, ~ in_bytes a (4 * Z.of_nat (length vs)) b -> m' !! b = m !! b.
Proof.
  revert a m. induction vs as [|v vs IH]; intros a m Hl Hv Hw Hm; [by exists m|]. inversion Hv as [|? ? Hv1 Hvs]; subst.
  cbn [length] in *. destruct (store_le_is_Some 4 a v m) as [m1 H1]; [intros k Hk; apply Hm; exists k; split; [lia|done]|].
  destruct (IH (a + 4) m1) as (m' & H2 & H3 & W & D & F); [lia|done|by eapply store_le_wf| |].
  { intros b (k & Hk & ->). apply elem_of_dom. rewrite (store_le_dom _ _ _ _ _ H1). apply elem_of_dom, Hm.
    exists (k + 4). split; [lia|]. f_equal. lia. }
  exists m'. cbn [store_words load_words]. rewrite H1. cbn [mbind option_bind]. split_and!; try done.
  - rewrite (load_le_ext 4 a m1 m'), (load_store_le 4 _ _ _ _ ltac:(lia) H1).
    + rewrite Z.mod_small by done. cbn [mbind option_bind]. by rewrite H3.
    + intros k Hk. apply F. intros (j & Hj & Heq). replace (a + 4 + j) with (a + (4 + j)) in Heq by lia.
      apply u32_add_inj in Heq; lia.
  - by rewrite D, (store_le_dom _ _ _ _ _ H1).
  - intros b Hb. rewrite F, (store_le_frame 4 _ _ _ _ _ H1); [done| |].
    + intros k Hk <-. apply Hb. exists k. split; [lia|done].
    + intros (k & Hk & ->). apply Hb. exists (k + 4). split; [lia|]. f_equal. lia.
Qed.

#[export] Hint Resolve load_le_range store_le_wf : width.
