(* ===== verification/EbpfInst.v ===== *)
(** * eBPF instructions (libebpf/src/ebpf_inst.h, ebpf_types.h)

    The opcode macros, the instruction word and its layout in memory, the
    field masks the compiler switches on, and the byte swaps. *)

From S2P Require Import Prelude Mem.

(** ** Opcode fields *)

Definition EBPF_CLS_MASK := 0x07.
Definition EBPF_ALU_OP_MASK := 0xf0.
Definition EBPF_CLS_LD := 0x00.
Definition EBPF_CLS_LDX := 0x01.
Definition EBPF_CLS_ST := 0x02.
Definition EBPF_CLS_STX := 0x03.
Definition EBPF_CLS_ALU := 0x04.
Definition EBPF_CLS_JMP := 0x05.
Definition EBPF_CLS_ALU64 := 0x07.
Definition EBPF_SRC_IMM := 0x00.
Definition EBPF_SRC_REG := 0x08.
Definition EBPF_SIZE_W := 0x00.
Definition EBPF_SIZE_H := 0x08.
Definition EBPF_SIZE_B := 0x10.
Definition EBPF_SIZE_DW := 0x18.
Definition EBPF_MODE_IMM := 0x00.
Definition EBPF_MODE_MEM := 0x60.

Definition EBPF_ALU_ADD := 0x00.
Definition EBPF_ALU_SUB := 0x10.
Definition EBPF_ALU_MUL := 0x20.
Definition EBPF_ALU_DIV := 0x30.
Definition EBPF_ALU_OR := 0x40.
Definition EBPF_ALU_AND := 0x50.
Definition EBPF_ALU_LSH := 0x60.
Definition EBPF_ALU_RSH := 0x70.
Definition EBPF_ALU_NEG := 0x80.
Definition EBPF_ALU_MOD := 0xc0.
Definition EBPF_ALU_XOR := 0xa0.
Definition EBPF_ALU_ARSH := 0xc0.

Definition EBPF_JA := 0x00.
Definition EBPF_JEQ := 0x10.
Definition EBPF_JGT := 0x20.
Definition EBPF_JGE := 0x30.
Definition EBPF_JSET := 0x40.
Definition EBPF_JNE := 0x50.
Definition EBPF_JSGT := 0x60.
Definition EBPF_JSGE := 0x70.
Definition EBPF_JLT := 0xa0.
Definition EBPF_JLE := 0xb0.
Definition EBPF_JSLT := 0xc0.
Definition EBPF_JSLE := 0xd0.

Definition BPF_OP (code : Z) : Z := code .& 0xf0.
Definition BPF_CLASS (code : Z) : Z := code .& 0x07.
Definition BPF_SIZE (code : Z) : Z := code .& 0x18.
Definition BPF_SRC (code : Z) : Z := code .& 0x8.

(** ** Register numbers *)

Definition BPF_REG_0 := 0.
Definition BPF_REG_1 := 1.
Definition BPF_REG_2 := 2.
Definition BPF_REG_3 := 3.
Definition BPF_REG_4 := 4.
Definition BPF_REG_5 := 5.
Definition BPF_REG_6 := 6.
Definition BPF_REG_7 := 7.
Definition BPF_REG_8 := 8.
Definition BPF_REG_9 := 9.
Definition BPF_REG_10 := 10.
Definition MAX_BPF_REG := 11.
Definition BPF_REG_AX := MAX_BPF_REG.
Definition MAX_BPF_EXT_REG := MAX_BPF_REG + 1.
Definition MAX_BPF_JIT_REG := MAX_BPF_EXT_REG.
Definition TMP_REG_1 := MAX_BPF_JIT_REG + 0.
Definition TMP_REG_2 := MAX_BPF_JIT_REG + 1.
Definition BPF_REG_FP := BPF_REG_10.

(** ** The opcode macros

    One constructor per [EBPF_OP_*] macro of the header. *)

Inductive opcode : Set :=
  | EBPF_OP_ADD_IMM | EBPF_OP_ADD_REG | EBPF_OP_SUB_IMM | EBPF_OP_SUB_REG | EBPF_OP_MUL_IMM
  | EBPF_OP_MUL_REG | EBPF_OP_DIV_IMM | EBPF_OP_DIV_REG | EBPF_OP_OR_IMM | EBPF_OP_OR_REG
  | EBPF_OP_AND_IMM | EBPF_OP_AND_REG | EBPF_OP_LSH_IMM | EBPF_OP_LSH_REG | EBPF_OP_RSH_IMM
  | EBPF_OP_RSH_REG | EBPF_OP_NEG | EBPF_OP_MOD_IMM | EBPF_OP_MOD_REG | EBPF_OP_XOR_IMM
  | EBPF_OP_XOR_REG | EBPF_OP_MOV_IMM | EBPF_OP_MOV_REG | EBPF_OP_ARSH_IMM | EBPF_OP_ARSH_REG
  | EBPF_OP_LE | EBPF_OP_BE | EBPF_OP_ADD64_IMM | EBPF_OP_ADD64_REG | EBPF_OP_SUB64_IMM
  | EBPF_OP_SUB64_REG | EBPF_OP_MUL64_IMM | EBPF_OP_MUL64_REG | EBPF_OP_DIV64_IMM
  | EBPF_OP_DIV64_REG | EBPF_OP_OR64_IMM | EBPF_OP_OR64_REG | EBPF_OP_AND64_IMM
  | EBPF_OP_AND64_REG | EBPF_OP_LSH64_IMM | EBPF_OP_LSH64_REG | EBPF_OP_RSH64_IMM
  | EBPF_OP_RSH64_REG | EBPF_OP_NEG64 | EBPF_OP_MOD64_IMM | EBPF_OP_MOD64_REG
  | EBPF_OP_XOR64_IMM | EBPF_OP_XOR64_REG | EBPF_OP_MOV64_IMM | EBPF_OP_MOV64_REG
  | EBPF_OP_ARSH64_IMM | EBPF_OP_ARSH64_REG | EBPF_OP_LDXW | EBPF_OP_LDXH | EBPF_OP_LDXB
  | EBPF_OP_LDXDW | EBPF_OP_STW | EBPF_OP_STH | EBPF_OP_STB | EBPF_OP_STDW | EBPF_OP_STXW
  | EBPF_OP_STXH | EBPF_OP_STXB | EBPF_OP_STXDW | EBPF_OP_LDDW | EBPF_OP_JA | EBPF_OP_JEQ_IMM
  | EBPF_OP_JEQ_REG | EBPF_OP_JGT_IMM | EBPF_OP_JGT_REG | EBPF_OP_JGE_IMM | EBPF_OP_JGE_REG
  | EBPF_OP_JSET_REG | EBPF_OP_JSET_IMM | EBPF_OP_JNE_IMM | EBPF_OP_JNE_REG | EBPF_OP_JSGT_IMM
  | EBPF_OP_JSGT_REG | EBPF_OP_JSGE_IMM | EBPF_OP_JSGE_REG | EBPF_OP_CALL | EBPF_OP_EXIT
  | EBPF_OP_JLT_IMM | EBPF_OP_JLT_REG | EBPF_OP_JLE_IMM | EBPF_OP_JLE_REG | EBPF_OP_JSLT_IMM
  | EBPF_OP_JSLT_REG | EBPF_OP_JSLE_IMM | EBPF_OP_JSLE_REG.

(** The value of each macro, as the header composes it. *)
Definition opcode_val (o : opcode) : Z :=
  match o with
  | EBPF_OP_ADD_IMM => EBPF_CLS_ALU .| EBPF_SRC_IMM .| EBPF_ALU_ADD
  | EBPF_OP_ADD_REG => EBPF_CLS_ALU .| EBPF_SRC_REG .| EBPF_ALU_ADD
  | EBPF_OP_SUB_IMM => EBPF_CLS_ALU .| EBPF_SRC_IMM .| EBPF_ALU_SUB
  | EBPF_OP_SUB_REG => EBPF_CLS_ALU .| EBPF_SRC_REG .| EBPF_ALU_SUB
  | EBPF_OP_MUL_IMM => EBPF_CLS_ALU .| EBPF_SRC_IMM .| 0x20
  | EBPF_OP_MUL_REG => EBPF_CLS_ALU .| EBPF_SRC_REG .| 0x20
  | EBPF_OP_DIV_IMM => EBPF_CLS_ALU .| EBPF_SRC_IMM .| 0x30
  | EBPF_OP_DIV_REG => EBPF_CLS_ALU .| EBPF_SRC_REG .| 0x30
  | EBPF_OP_OR_IMM => EBPF_CLS_ALU .| EBPF_SRC_IMM .| 0x40
  | EBPF_OP_OR_REG => EBPF_CLS_ALU .| EBPF_SRC_REG .| 0x40
  | EBPF_OP_AND_IMM => EBPF_CLS_ALU .| EBPF_SRC_IMM .| 0x50
  | EBPF_OP_AND_REG => EBPF_CLS_ALU .| EBPF_SRC_REG .| 0x50
  | EBPF_OP_LSH_IMM => EBPF_CLS_ALU .| EBPF_SRC_IMM .| 0x60
  | EBPF_OP_LSH_REG => EBPF_CLS_ALU .| EBPF_SRC_REG .| 0x60
  | EBPF_OP_RSH_IMM => EBPF_CLS_ALU .| EBPF_SRC_IMM .| 0x70
  | EBPF_OP_RSH_REG => EBPF_CLS_ALU .| EBPF_SRC_REG .| 0x70
  | EBPF_OP_NEG => EBPF_CLS_ALU .| 0x80
  | EBPF_OP_MOD_IMM => EBPF_CLS_ALU .| EBPF_SRC_IMM .| 0x90
  | EBPF_OP_MOD_REG => EBPF_CLS_ALU .| EBPF_SRC_REG .| 0x90
  | EBPF_OP_XOR_IMM => EBPF_CLS_ALU .| EBPF_SRC_IMM .| 0xa0
  | EBPF_OP_XOR_REG => EBPF_CLS_ALU .| EBPF_SRC_REG .| 0xa0
  | EBPF_OP_MOV_IMM => EBPF_CLS_ALU .| EBPF_SRC_IMM .| 0xb0
  | EBPF_OP_MOV_REG => EBPF_CLS_ALU .| EBPF_SRC_REG .| 0xb0
  | EBPF_OP_ARSH_IMM => EBPF_CLS_ALU .| EBPF_SRC_IMM .| 0xc0
  | EBPF_OP_ARSH_REG => EBPF_CLS_ALU .| EBPF_SRC_REG .| 0xc0
  | EBPF_OP_LE => EBPF_CLS_ALU .| EBPF_SRC_IMM .| 0xd0
  | EBPF_OP_BE => EBPF_CLS_ALU .| EBPF_SRC_REG .| 0xd0
  | EBPF_OP_ADD64_IMM => EBPF_CLS_ALU64 .| EBPF_SRC_IMM .| 0x00
  | EBPF_OP_ADD64_REG => EBPF_CLS_ALU64 .| EBPF_SRC_REG .| 0x00
  | EBPF_OP_SUB64_IMM => EBPF_CLS_ALU64 .| EBPF_SRC_IMM .| 0x10
  | EBPF_OP_SUB64_REG => EBPF_CLS_ALU64 .| EBPF_SRC_REG .| 0x10
  | EBPF_OP_MUL64_IMM => EBPF_CLS_ALU64 .| EBPF_SRC_IMM .| 0x20
  | EBPF_OP_MUL64_REG => EBPF_CLS_ALU64 .| EBPF_SRC_REG .| 0x20
  | EBPF_OP_DIV64_IMM => EBPF_CLS_ALU64 .| EBPF_SRC_IMM .| 0x30
  | EBPF_OP_DIV64_REG => EBPF_CLS_ALU64 .| EBPF_SRC_REG .| 0x30
  | EBPF_OP_OR64_IMM => EBPF_CLS_ALU64 .| EBPF_SRC_IMM .| 0x40
  | EBPF_OP_OR64_REG => EBPF_CLS_ALU64 .| EBPF_SRC_REG .| 0x40
  | EBPF_OP_AND64_IMM => EBPF_CLS_ALU64 .| EBPF_SRC_IMM .| 0x50
  | EBPF_OP_AND64_REG => EBPF_CLS_ALU64 .| EBPF_SRC_REG .| 0x50
  | EBPF_OP_LSH64_IMM => EBPF_CLS_ALU64 .| EBPF_SRC_IMM .| 0x60
  | EBPF_OP_LSH64_REG => EBPF_CLS_ALU64 .| EBPF_SRC_REG .| 0x60
  | EBPF_OP_RSH64_IMM => EBPF_CLS_ALU64 .| EBPF_SRC_IMM .| 0x70
  | EBPF_OP_RSH64_REG => EBPF_CLS_ALU64 .| EBPF_SRC_REG .| 0x70
  | EBPF_OP_NEG64 => EBPF_CLS_ALU64 .| 0x80
  | EBPF_OP_MOD64_IMM => EBPF_CLS_ALU64 .| EBPF_SRC_IMM .| 0x90
  | EBPF_OP_MOD64_REG => EBPF_CLS_ALU64 .| EBPF_SRC_REG .| 0x90
  | EBPF_OP_XOR64_IMM => EBPF_CLS_ALU64 .| EBPF_SRC_IMM .| 0xa0
  | EBPF_OP_XOR64_REG => EBPF_CLS_ALU64 .| EBPF_SRC_REG .| 0xa0
  | EBPF_OP_MOV64_IMM => EBPF_CLS_ALU64 .| EBPF_SRC_IMM .| 0xb0
  | EBPF_OP_MOV64_REG => EBPF_CLS_ALU64 .| EBPF_SRC_REG .| 0xb0
  | EBPF_OP_ARSH64_IMM => EBPF_CLS_ALU64 .| EBPF_SRC_IMM .| 0xc0
  | EBPF_OP_ARSH64_REG => EBPF_CLS_ALU64 .| EBPF_SRC_REG .| 0xc0
  | EBPF_OP_LDXW => EBPF_CLS_LDX .| EBPF_MODE_MEM .| EBPF_SIZE_W
  | EBPF_OP_LDXH => EBPF_CLS_LDX .| EBPF_MODE_MEM .| EBPF_SIZE_H
  | EBPF_OP_LDXB => EBPF_CLS_LDX .| EBPF_MODE_MEM .| EBPF_SIZE_B
  | EBPF_OP_LDXDW => EBPF_CLS_LDX .| EBPF_MODE_MEM .| EBPF_SIZE_DW
  | EBPF_OP_STW => EBPF_CLS_ST .| EBPF_MODE_MEM .| EBPF_SIZE_W
  | EBPF_OP_STH => EBPF_CLS_ST .| EBPF_MODE_MEM .| EBPF_SIZE_H
  | EBPF_OP_STB => EBPF_CLS_ST .| EBPF_MODE_MEM .| EBPF_SIZE_B
  | EBPF_OP_STDW => EBPF_CLS_ST .| EBPF_MODE_MEM .| EBPF_SIZE_DW
  | EBPF_OP_STXW => EBPF_CLS_STX .| EBPF_MODE_MEM .| EBPF_SIZE_W
  | EBPF_OP_STXH => EBPF_CLS_STX .| EBPF_MODE_MEM .| EBPF_SIZE_H
  | EBPF_OP_STXB => EBPF_CLS_STX .| EBPF_MODE_MEM .| EBPF_SIZE_B
  | EBPF_OP_STXDW => EBPF_CLS_STX .| EBPF_MODE_MEM .| EBPF_SIZE_DW
  | EBPF_OP_LDDW => EBPF_CLS_LD .| EBPF_MODE_IMM .| EBPF_SIZE_DW
  | EBPF_OP_JA => EBPF_CLS_JMP .| 0x00
  | EBPF_OP_JEQ_IMM => EBPF_CLS_JMP .| EBPF_SRC_IMM .| 0x10
  | EBPF_OP_JEQ_REG => EBPF_CLS_JMP .| EBPF_SRC_REG .| 0x10
  | EBPF_OP_JGT_IMM => EBPF_CLS_JMP .| EBPF_SRC_IMM .| 0x20
  | EBPF_OP_JGT_REG => EBPF_CLS_JMP .| EBPF_SRC_REG .| 0x20
  | EBPF_OP_JGE_IMM => EBPF_CLS_JMP .| EBPF_SRC_IMM .| 0x30
  | EBPF_OP_JGE_REG => EBPF_CLS_JMP .| EBPF_SRC_REG .| 0x30
  | EBPF_OP_JSET_REG => EBPF_CLS_JMP .| EBPF_SRC_REG .| 0x40
  | EBPF_OP_JSET_IMM => EBPF_CLS_JMP .| EBPF_SRC_IMM .| 0x40
  | EBPF_OP_JNE_IMM => EBPF_CLS_JMP .| EBPF_SRC_IMM .| 0x50
  | EBPF_OP_JNE_REG => EBPF_CLS_JMP .| EBPF_SRC_REG .| 0x50
  | EBPF_OP_JSGT_IMM => EBPF_CLS_JMP .| EBPF_SRC_IMM .| 0x60
  | EBPF_OP_JSGT_REG => EBPF_CLS_JMP .| EBPF_SRC_REG .| 0x60
  | EBPF_OP_JSGE_IMM => EBPF_CLS_JMP .| EBPF_SRC_IMM .| 0x70
  | EBPF_OP_JSGE_REG => EBPF_CLS_JMP .| EBPF_SRC_REG .| 0x70
  | EBPF_OP_CALL => EBPF_CLS_JMP .| 0x80
  | EBPF_OP_EXIT => EBPF_CLS_JMP .| 0x90
  | EBPF_OP_JLT_IMM => EBPF_CLS_JMP .| EBPF_SRC_IMM .| 0xa0
  | EBPF_OP_JLT_REG => EBPF_CLS_JMP .| EBPF_SRC_REG .| 0xa0
  | EBPF_OP_JLE_IMM => EBPF_CLS_JMP .| EBPF_SRC_IMM .| 0xb0
  | EBPF_OP_JLE_REG => EBPF_CLS_JMP .| EBPF_SRC_REG .| 0xb0
  | EBPF_OP_JSLT_IMM => EBPF_CLS_JMP .| EBPF_SRC_IMM .| 0xc0
  | EBPF_OP_JSLT_REG => EBPF_CLS_JMP .| EBPF_SRC_REG .| 0xc0
  | EBPF_OP_JSLE_IMM => EBPF_CLS_JMP .| EBPF_SRC_IMM .| 0xd0
  | EBPF_OP_JSLE_REG => EBPF_CLS_JMP .| EBPF_SRC_REG .| 0xd0
  end.

Definition all_opcodes : list opcode :=
  [EBPF_OP_ADD_IMM; EBPF_OP_ADD_REG; EBPF_OP_SUB_IMM; EBPF_OP_SUB_REG; EBPF_OP_MUL_IMM;
   EBPF_OP_MUL_REG; EBPF_OP_DIV_IMM; EBPF_OP_DIV_REG; EBPF_OP_OR_IMM; EBPF_OP_OR_REG;
   EBPF_OP_AND_IMM; EBPF_OP_AND_REG; EBPF_OP_LSH_IMM; EBPF_OP_LSH_REG; EBPF_OP_RSH_IMM;
   EBPF_OP_RSH_REG; EBPF_OP_NEG; EBPF_OP_MOD_IMM; EBPF_OP_MOD_REG; EBPF_OP_XOR_IMM;
   EBPF_OP_XOR_REG; EBPF_OP_MOV_IMM; EBPF_OP_MOV_REG; EBPF_OP_ARSH_IMM; EBPF_OP_ARSH_REG;
   EBPF_OP_LE; EBPF_OP_BE; EBPF_OP_ADD64_IMM; EBPF_OP_ADD64_REG; EBPF_OP_SUB64_IMM;
   EBPF_OP_SUB64_REG; EBPF_OP_MUL64_IMM; EBPF_OP_MUL64_REG; EBPF_OP_DIV64_IMM;
   EBPF_OP_DIV64_REG; EBPF_OP_OR64_IMM; EBPF_OP_OR64_REG; EBPF_OP_AND64_IMM; EBPF_OP_AND64_REG;
   EBPF_OP_LSH64_IMM; EBPF_OP_LSH64_REG; EBPF_OP_RSH64_IMM; EBPF_OP_RSH64_REG; EBPF_OP_NEG64;
   EBPF_OP_MOD64_IMM; EBPF_OP_MOD64_REG; EBPF_OP_XOR64_IMM; EBPF_OP_XOR64_REG;
   EBPF_OP_MOV64_IMM; EBPF_OP_MOV64_REG; EBPF_OP_ARSH64_IMM; EBPF_OP_ARSH64_REG; EBPF_OP_LDXW;
   EBPF_OP_LDXH; EBPF_OP_LDXB; EBPF_OP_LDXDW; EBPF_OP_STW; EBPF_OP_STH; EBPF_OP_STB;
   EBPF_OP_STDW; EBPF_OP_STXW; EBPF_OP_STXH; EBPF_OP_STXB; EBPF_OP_STXDW; EBPF_OP_LDDW;
   EBPF_OP_JA; EBPF_OP_JEQ_IMM; EBPF_OP_JEQ_REG; EBPF_OP_JGT_IMM; EBPF_OP_JGT_REG;
   EBPF_OP_JGE_IMM; EBPF_OP_JGE_REG; EBPF_OP_JSET_REG; EBPF_OP_JSET_IMM; EBPF_OP_JNE_IMM;
   EBPF_OP_JNE_REG; EBPF_OP_JSGT_IMM; EBPF_OP_JSGT_REG; EBPF_OP_JSGE_IMM; EBPF_OP_JSGE_REG;
   EBPF_OP_CALL; EBPF_OP_EXIT; EBPF_OP_JLT_IMM; EBPF_OP_JLT_REG; EBPF_OP_JLE_IMM;
   EBPF_OP_JLE_REG; EBPF_OP_JSLT_IMM; EBPF_OP_JSLT_REG; EBPF_OP_JSLE_IMM; EBPF_OP_JSLE_REG].

(** The case label a switch on an opcode byte selects: [None] is a byte that
    no macro of the header names. *)
Definition opcode_of (code : Z) : option opcode :=
  find (fun o => opcode_val o =? code) all_opcodes.

Lemma all_opcodes_complete (o : opcode) : In o all_opcodes.
Proof. destruct o; vm_compute; tauto. Qed.

(** The macros are pairwise distinct: each selects its own case. *)
Lemma opcode_of_val (o : opcode) : opcode_of (opcode_val o) = Some o.
Proof. by destruct o. Qed.

Lemma opcode_of_Some (code : Z) (o : opcode) : opcode_of code = Some o -> code = opcode_val o.
Proof. intros [_ H]%find_some. by apply Z.eqb_eq in H. Qed.

#[export] Instance opcode_val_inj : Inj (=) (=) opcode_val.
Proof.
  intros a b H. apply (f_equal opcode_of) in H. rewrite !opcode_of_val in H. by injection H.
Qed.

#[export] Instance opcode_eq_dec : EqDecision opcode :=
  fun a b => match decide (opcode_val a = opcode_val b) with
             | left H => left (inj opcode_val a b H)
             | right H => right (fun E => H (f_equal opcode_val E))
             end.

Lemma opcode_val_range (o : opcode) : 0 <= opcode_val o < 256.
Proof. destruct o; vm_compute; split; done. Qed.

(** ** Instructions *)

Record ebpf_inst := mk_inst {
  i_opcode : Z;  (* u8 *)
  i_dst : Z;     (* u8 : 4 *)
  i_src : Z;     (* u8 : 4 *)
  i_offset : Z;  (* s16 *)
  i_imm : Z      (* s32 *)
}.

Definition inst_wf (i : ebpf_inst) : Prop :=
  0 <= i_opcode i < 2 ^ 8 /\ 0 <= i_dst i < 2 ^ 4 /\ 0 <= i_src i < 2 ^ 4 /\
  - 2 ^ 15 <= i_offset i < 2 ^ 15 /\ - 2 ^ 31 <= i_imm i < 2 ^ 31.

(** The layout of [struct ebpf_inst] in eight bytes: the opcode, the two
    nibbles (dst is the low one), the offset and the immediate, little
    endian. *)
Definition inst_of_bytes (b0 b1 b2 b3 b4 b5 b6 b7 : Z) : ebpf_inst :=
  mk_inst b0 (b1 .& 0xf) (b1 >> 4) (s16 (b2 + 256 * b3))
    (s32 (b4 + 256 * b5 + 65536 * b6 + 16777216 * b7)).

Definition inst_bytes (i : ebpf_inst) : list Z :=
  [i_opcode i; i_dst i .| (i_src i << 4);
   u16 (i_offset i) .& 255; u16 (i_offset i) >> 8;
   u32 (i_imm i) .& 255; (u32 (i_imm i) >> 8) .& 255;
   (u32 (i_imm i) >> 16) .& 255; u32 (i_imm i) >> 24].

(** [(struct ebpf_inst * ) code]: the whole instructions of a byte array. *)
Fixpoint insts_of_bytes (bs : list Z) : list ebpf_inst :=
  match bs with
  | b0 :: b1 :: b2 :: b3 :: b4 :: b5 :: b6 :: b7 :: bs' =>
      inst_of_bytes b0 b1 b2 b3 b4 b5 b6 b7 :: insts_of_bytes bs'
  | _ => []
  end.

(** ** Byte swaps (ebpf_types.h) *)

Definition __swap16 (x : Z) : Z :=
  u16 (((u16 x .& 0x00ff) << 8) .| ((u16 x .& 0xff00) >> 8)).

Definition __swap32 (x : Z) : Z :=
  u32 (((u32 x .& 0x000000ff) << 24) .| ((u32 x .& 0x0000ff00) << 8) .|
       ((u32 x .& 0x00ff0000) >> 8) .| ((u32 x .& 0xff000000) >> 24)).

Definition __swap64 (x : Z) : Z :=
  u64 (((u64 x .& 0x00000000000000ff) << 56) .| ((u64 x .& 0x000000000000ff00) << 40) .|
       ((u64 x .& 0x0000000000ff0000) << 24) .| ((u64 x .& 0x00000000ff000000) << 8) .|
       ((u64 x .& 0x000000ff00000000) >> 8) .| ((u64 x .& 0x0000ff0000000000) >> 24) .|
       ((u64 x .& 0x00ff000000000000) >> 40) .| ((u64 x .& 0xff00000000000000) >> 56)).

(** The little-endian build: [my_htoleN(x)] is [(x)], untruncated, and
    [my_htobeN(x)] is the swap. *)
Definition my_htole16 (x : Z) : Z := x.
Definition my_htole32 (x : Z) : Z := x.
Definition my_htole64 (x : Z) : Z := x.
Definition my_htobe16 (x : Z) : Z := __swap16 x.
Definition my_htobe32 (x : Z) : Z := __swap32 x.
Definition my_htobe64 (x : Z) : Z := __swap64 x.

(** ** Lemmas *)

Lemma inst_of_inst_bytes (i : ebpf_inst) :
  inst_wf i ->
  match inst_bytes i with
  | [b0; b1; b2; b3; b4; b5; b6; b7] => inst_of_bytes b0 b1 b2 b3 b4 b5 b6 b7 = i
  | _ => False
  end.
Proof.
  destruct i as [code d s off imm]. unfold inst_wf, inst_bytes, inst_of_bytes.
  cbn [i_opcode i_dst i_src i_offset i_imm]. intros (Hc & Hd & Hs & Ho & Hi).
  rewrite lor_shiftl_add by lia.
  change 0xf with (Z.ones 4). change 255 with (Z.ones 8).
  rewrite !Z.land_ones, !Z.shiftr_div_pow2 by lia. f_equal.
  - rewrite Z_mod_plus_full. by apply Z.mod_small.
  - rewrite Z.div_add, Z.div_small by lia. lia.
  - rewrite <- (sext_small 16 off) at 3 by lia. unfold s16. rewrite <- (sext_wrap 16 off). f_equal.
    change (wrap 16 off) with (u16 off). pose proof (u16_range off). change (2 ^ 8) with 256.
    rewrite (Z.div_mod (u16 off) 256) at 3 by lia. lia.
  - rewrite <- (sext_small 32 imm) at 5 by lia. unfold s32. rewrite <- (sext_wrap 32 imm). f_equal.
    change (wrap 32 imm) with (u32 imm). pose proof (u32_range imm) as Hr.
    change (2 ^ 8) with 256. change (2 ^ 16) with 65536. change (2 ^ 24) with 16777216. Z.to_euclidean_division_equations; lia.
Qed.

Lemma inst_of_bytes_wf (b0 b1 b2 b3 b4 b5 b6 b7 : Z) :
  0 <= b0 < 256 -> 0 <= b1 < 256 -> inst_wf (inst_of_bytes b0 b1 b2 b3 b4 b5 b6 b7).
Proof.
  intros H0 H1. unfold inst_wf, inst_of_bytes. cbn.
  change 0xf with (Z.ones 4). rewrite Z.land_ones, Z.shiftr_div_pow2 by lia.
  change (2 ^ 4) with 16. change (2 ^ 8) with 256.
  repeat apply conj; first [lia | by apply (sext_range 16) | by apply (sext_range 32) | idtac].
  all: Z.to_euclidean_division_equations; lia.
Qed.

(** A program written out in memory is the program the interpreter fetches. *)
Lemma insts_of_bytes_inst_bytes (p : list ebpf_inst) :
  Forall inst_wf p -> insts_of_bytes (concat (map inst_bytes p)) = p.
Proof.
  induction 1 as [|i p Hi Hp IH]; [done|].
  pose proof (inst_of_inst_bytes i Hi) as Hr. unfold inst_bytes in *.
  cbn [map concat app insts_of_bytes]. by rewrite Hr, IH.
Qed.

Lemma insts_of_bytes_wf (bs : list Z) :
  Forall (fun b => 0 <= b < 256) bs -> Forall inst_wf (insts_of_bytes bs).
Proof.
  remember (length bs) as n eqn:Hn. revert bs Hn.
  induction n as [n IH] using lt_wf_ind. intros bs -> Hbs.
  do 8 (destruct bs as [|? bs]; [constructor|]).
  cbn [insts_of_bytes]. repeat (apply Forall_cons_1 in Hbs as [? Hbs]).
  constructor; [by apply inst_of_bytes_wf|]. eapply IH; [|done|done]. cbn. lia.
Qed.

Lemma length_insts_of_bytes (bs : list Z) :
  Z.of_nat (length (insts_of_bytes bs)) = Z.of_nat (length bs) / 8.
Proof.
  remember (length bs) as n eqn:Hn. revert bs Hn.
  induction n as [n IH] using lt_wf_ind. intros bs ->.
  do 8 (destruct bs as [|? bs]; [done|]).
  cbn [insts_of_bytes length]. rewrite Nat2Z.inj_succ, (IH (length bs)) by (cbn; lia || done).
  rewrite !Nat2Z.inj_succ. symmetry.
  replace (Z.succ _) with (Z.of_nat (length bs) + 1 * 8) by lia. rewrite Z.div_add by lia. lia.
Qed.

(** The swaps reverse the bytes. *)
Ltac swap_bytes :=
  repeat rewrite byte_of_wrap by lia;
  repeat rewrite byte_of_lor;
  rewrite <- ?Z.shiftl_opp_r;
  repeat match goal with
  | |- context [byte_of ?j ((?x .& ?c) << ?s)] =>
      let k := eval vm_compute in (Z.log2 c / 8) in
      let q := eval vm_compute in (s / 8) in
      first [ rewrite (byte_of_move_eq j k c q s x) by (reflexivity || lia)
            | rewrite (byte_of_move_ne j k c q s x) by (reflexivity || lia) ]
  end; rewrite ?Z.lor_0_r, ?Z.lor_0_l, byte_of_wrap by lia; reflexivity.

Lemma byte_of_swap64 (j x : Z) : 0 <= j < 8 -> byte_of j (__swap64 x) = byte_of (7 - j) x.
Proof. intros Hj. unfold __swap64, u64. bit_cases j 8%nat; swap_bytes. Qed.

Lemma byte_of_swap32 (j x : Z) : 0 <= j < 4 -> byte_of j (__swap32 x) = byte_of (3 - j) x.
Proof. intros Hj. unfold __swap32, u32. bit_cases j 4%nat; swap_bytes. Qed.

Lemma byte_of_swap16 (j x : Z) : 0 <= j < 2 -> byte_of j (__swap16 x) = byte_of (1 - j) x.
Proof. intros Hj. unfold __swap16, u16. bit_cases j 2%nat; swap_bytes. Qed.

(** [my_htobeN(x)], stored little endian, is the big-endian image of x. *)
Lemma htobe_bytes (x : Z) :
  le_bytes 2 (my_htobe16 x) = rev (le_bytes 2 x) /\
  le_bytes 4 (my_htobe32 x) = rev (le_bytes 4 x) /\
  le_bytes 8 (my_htobe64 x) = rev (le_bytes 8 x).
Proof.
  unfold my_htobe16, my_htobe32, my_htobe64, le_bytes.
  cbn [seq map rev app Z.of_nat Pos.of_succ_nat Pos.succ].
  rewrite !byte_of_swap16, !byte_of_swap32, !byte_of_swap64 by lia. by split_and!.
Qed.
