(* ===== verification/EbpfVm.v ===== *)
(** * The eBPF interpreter (libebpf/src/ebpf_vm.c)

    [ebpf_vm_exec]: the registers, the switch over the opcode split by
    instruction class, the memory accesses with their bounds check, the helper
    calls, the iteration limit.  What C leaves undefined is the outcome
    [UBehaviour]; what the C code returns is [Returned]. *)

From S2P Require Import Prelude Mem EbpfInst.

Definition MAX_ITERS : Z := 0x8000.
Definition STACK_SIZE : Z := 128.
Definition MAX_EXT_FUNCS : Z := 12.

(** ** The result of a statement *)

Inductive ub : Set :=
  | UB_fetch   (* insts[pc] past the end of the program *)
  | UB_reg     (* reg[k] past the end of the register array *)
  | UB_div     (* integer division by zero *)
  | UB_shift   (* shift count outside the width of the operand *)
  | UB_mem     (* access to an address that is not mapped *)
  | UB_call.   (* call through a null or missing function pointer *)

Inductive res (A : Type) : Type :=
  | Ok (a : A)
  | Ret (v : Z)       (* a return statement was executed *)
  | Undef (u : ub).
Arguments Ok {A} a.
Arguments Ret {A} v.
Arguments Undef {A} u.

#[export] Instance res_bind : MBind res := fun A B k r =>
  match r with Ok a => k a | Ret v => Ret v | Undef u => Undef u end.

Definition of_option {A} (u : ub) (o : option A) : res A :=
  match o with Some a => Ok a | None => Undef u end.

(** [return -1] in a function that returns u64. *)
Definition ret_m1 {A} : res A := Ret (u64 (-1)).

(** Division and shifts of C on unsigned operands of width w, and the right
    shift of a signed operand. *)
Definition c_div (a b : Z) : res Z := if b =? 0 then Undef UB_div else Ok (a / b).
Definition c_mod (a b : Z) : res Z := if b =? 0 then Undef UB_div else Ok (a mod b).
Definition shift_ok (w n : Z) : bool := (0 <=? n) && (n <? w).
Definition c_shl (w a n : Z) : res Z :=
  if shift_ok w n then Ok (wrap w (a << n)) else Undef UB_shift.
Definition c_shr (w a n : Z) : res Z := if shift_ok w n then Ok (a >> n) else Undef UB_shift.

(** ** The registers *)

Definition get_reg (rs : list Z) (k : Z) : res Z := of_option UB_reg (zget rs k).
Definition set_reg (rs : list Z) (k v : Z) : res (list Z) := of_option UB_reg (zset rs k v).

(** ** 32-bit arithmetic *)

Definition exec_alu32 (o : opcode) (i : ebpf_inst) (rs : list Z) : res (list Z) :=
  let DST := get_reg rs (i_dst i) in
  let SRC := get_reg rs (i_src i) in
  let IMM := i_imm i in
  let SET := set_reg rs (i_dst i) in
  match o with
  | EBPF_OP_ADD_IMM => d ← DST; SET (u32 (u32 d + u32 IMM))
  | EBPF_OP_ADD_REG => d ← DST; s ← SRC; SET (u32 (u32 d + u32 s))
  | EBPF_OP_SUB_IMM => d ← DST; SET (u32 (u32 d - u32 IMM))
  | EBPF_OP_SUB_REG => d ← DST; s ← SRC; SET (u32 (u32 d - u32 s))
  | EBPF_OP_MUL_IMM => d ← DST; SET (u32 (u32 d * u32 IMM))
  | EBPF_OP_MUL_REG => d ← DST; s ← SRC; SET (u32 (u32 d * u32 s))
  | EBPF_OP_DIV_IMM => d ← DST; v ← c_div (u32 d) (u32 IMM); SET v
  | EBPF_OP_DIV_REG =>
      s ← SRC;
      if s =? 0 then ret_m1
      else d ← DST; v ← c_div (u32 d) (u32 s); SET v
  | EBPF_OP_OR_IMM => d ← DST; SET (u32 d .| u32 IMM)
  | EBPF_OP_OR_REG => d ← DST; s ← SRC; SET (u32 d .| u32 s)
  | EBPF_OP_AND_IMM => d ← DST; SET (u32 d .& u32 IMM)
  | EBPF_OP_AND_REG => d ← DST; s ← SRC; SET (u32 d .& u32 s)
  | EBPF_OP_LSH_IMM => d ← DST; v ← c_shl 32 (u32 d) (u32 IMM); SET v
  | EBPF_OP_LSH_REG => d ← DST; s ← SRC; v ← c_shl 32 (u32 d) (u32 s); SET v
  | EBPF_OP_RSH_IMM => d ← DST; v ← c_shr 32 (u32 d) (u32 IMM); SET v
  | EBPF_OP_RSH_REG => d ← DST; s ← SRC; v ← c_shr 32 (u32 d) (u32 s); SET v
  | EBPF_OP_NEG => d ← DST; SET (u32 (u64 (- d)))
  | EBPF_OP_MOD_IMM => d ← DST; v ← c_mod (u32 d) (u32 IMM); SET v
  | EBPF_OP_MOD_REG =>
      s ← SRC;
      if s =? 0 then ret_m1
      else d ← DST; v ← c_mod (u32 d) (u32 s); SET v
  | EBPF_OP_XOR_IMM => d ← DST; SET (u32 d .^ u32 IMM)
  | EBPF_OP_XOR_REG => d ← DST; s ← SRC; SET (u32 d .^ u32 s)
  | EBPF_OP_MOV_IMM => SET (u32 IMM)
  | EBPF_OP_MOV_REG => s ← SRC; SET (u32 s)
  | EBPF_OP_ARSH_IMM => d ← DST; v ← c_shr 32 (s32 d) IMM; SET (u32 v)
  | EBPF_OP_ARSH_REG => d ← DST; s ← SRC; v ← c_shr 32 (s32 d) s; SET (u32 v)
  | EBPF_OP_LE =>
      if IMM =? 16 then d ← DST; SET (my_htole16 d)
      else if IMM =? 32 then d ← DST; SET (my_htole32 d)
      else if IMM =? 64 then d ← DST; SET (my_htole64 d)
      else Ok rs
  | EBPF_OP_BE =>
      if IMM =? 16 then d ← DST; SET (my_htobe16 d)
      else if IMM =? 32 then d ← DST; SET (my_htobe32 d)
      else if IMM =? 64 then d ← DST; SET (my_htobe64 d)
      else Ok rs
  | _ => Ok rs
  end.

(** ** 64-bit arithmetic

    The immediate, an s32, is converted to u64 by sign extension. *)

Definition exec_alu64 (o : opcode) (i : ebpf_inst) (rs : list Z) : res (list Z) :=
  let DST := get_reg rs (i_dst i) in
  let SRC := get_reg rs (i_src i) in
  let IMM := i_imm i in
  let SET := set_reg rs (i_dst i) in
  match o with
  | EBPF_OP_ADD64_IMM => d ← DST; SET (u64 (d + u64 IMM))
  | EBPF_OP_ADD64_REG => d ← DST; s ← SRC; SET (u64 (d + s))
  | EBPF_OP_SUB64_IMM => d ← DST; SET (u64 (d - u64 IMM))
  | EBPF_OP_SUB64_REG => d ← DST; s ← SRC; SET (u64 (d - s))
  | EBPF_OP_MUL64_IMM => d ← DST; SET (u64 (d * u64 IMM))
  | EBPF_OP_MUL64_REG => d ← DST; s ← SRC; SET (u64 (d * s))
  | EBPF_OP_DIV64_IMM => d ← DST; v ← c_div d (u64 IMM); SET v
  | EBPF_OP_DIV64_REG =>
      s ← SRC;
      if s =? 0 then ret_m1
      else d ← DST; v ← c_div d (u64 IMM); SET v
  | EBPF_OP_OR64_IMM => d ← DST; SET (d .| u64 IMM)
  | EBPF_OP_OR64_REG => d ← DST; s ← SRC; SET (d .| s)
  | EBPF_OP_AND64_IMM => d ← DST; SET (d .& u64 IMM)
  | EBPF_OP_AND64_REG => d ← DST; s ← SRC; SET (d .& s)
  | EBPF_OP_LSH64_IMM => d ← DST; v ← c_shl 64 d IMM; SET v
  | EBPF_OP_LSH64_REG => d ← DST; s ← SRC; v ← c_shl 64 d s; SET v
  | EBPF_OP_RSH64_IMM => d ← DST; v ← c_shr 64 d IMM; SET v
  | EBPF_OP_RSH64_REG => d ← DST; s ← SRC; v ← c_shr 64 d s; SET v
  | EBPF_OP_NEG64 => d ← DST; SET (u64 (- d))
  | EBPF_OP_MOD64_IMM => d ← DST; v ← c_mod d (u64 IMM); SET v
  | EBPF_OP_MOD64_REG =>
      s ← SRC;
      if s =? 0 then ret_m1
      else d ← DST; v ← c_mod d s; SET v
  | EBPF_OP_XOR64_IMM => d ← DST; SET (d .^ u64 IMM)
  | EBPF_OP_XOR64_REG => d ← DST; s ← SRC; SET (d .^ s)
  | EBPF_OP_MOV64_IMM => SET (u64 IMM)
  | EBPF_OP_MOV64_REG => s ← SRC; SET s
  | EBPF_OP_ARSH64_IMM => d ← DST; v ← c_shr 64 (s64 d) IMM; SET (u64 v)
  | EBPF_OP_ARSH64_REG => d ← DST; s ← SRC; v ← c_shr 64 (s64 d) s; SET (u64 v)
  | _ => Ok rs
  end.

(** ** The loop's state and what it runs in *)

Record vm_state := mk_state { s_pc : Z; s_reg : list Z; s_mem : memory }.

(** What [ebpf_vm_exec] reads and never assigns: fields of the vm, its
    arguments, the address of the array [stack] in its frame. *)
Record exec_env := mk_env {
  e_insts : list ebpf_inst;         (* vm->insts *)
  e_bounds_check_enabled : bool;    (* vm->bounds_check_enabled *)
  e_ext_funcs : list Z;             (* vm->helper_func->ext_funcs; 0 is NULL *)
  e_mem : Z;                        (* mem *)
  e_mem_len : Z;                    (* mem_len *)
  e_stack : Z                       (* stack *)
}.

Definition with_pc (st : vm_state) (pc : Z) : vm_state := mk_state pc (s_reg st) (s_mem st).
Definition with_reg (st : vm_state) (rs : list Z) : vm_state := mk_state (s_pc st) rs (s_mem st).
Definition with_mem (st : vm_state) (m : memory) : vm_state := mk_state (s_pc st) (s_reg st) m.

(** ** The bounds check

    Addresses are 32-bit; [(u32 * ) p + n] is [p + 4 n]. *)

Definition bounds_check (en : exec_env) (addr size : Z) : bool :=
  if negb (e_bounds_check_enabled en) then true
  else if negb (e_mem en =? 0) &&
          ((e_mem en <=? addr) && (u32 (addr + 4 * size) <=? u32 (e_mem en + 4 * e_mem_len en)))
  then true
  else if (e_stack en <=? addr) && (u32 (addr + 4 * size) <=? u32 (e_stack en + 4 * STACK_SIZE))
  then true
  else false.

(** ** Loads and stores

    [BOUNDS_CHECK_LOAD] and [BOUNDS_CHECK_STORE] have the same body: both
    test [reg[inst->src] + inst->offset]. *)

Section LoadStore.
Context (en : exec_env).

Definition BOUNDS_CHECK (i : ebpf_inst) (rs : list Z) (size : Z) : res unit :=
  s ← get_reg rs (i_src i);
  if bounds_check en (u32 (s + i_offset i)) size then Ok tt else ret_m1.

(** [DST = *(uN * )(uintptr)(SRC + inst->offset)] *)
Definition load_reg (n : nat) (i : ebpf_inst) (st : vm_state) : res vm_state :=
  s ← get_reg (s_reg st) (i_src i);
  v ← of_option UB_mem (load_le n (u32 (s + i_offset i)) (s_mem st));
  rs ← set_reg (s_reg st) (i_dst i) v;
  Ok (with_reg st rs).

(** [*(uN * )(uintptr)(DST + inst->offset) = v] *)
Definition store_val (n : nat) (i : ebpf_inst) (v : Z) (st : vm_state) : res vm_state :=
  d ← get_reg (s_reg st) (i_dst i);
  m ← of_option UB_mem (store_le n (u32 (d + i_offset i)) v (s_mem st));
  Ok (with_mem st m).

Definition store_reg (n : nat) (i : ebpf_inst) (st : vm_state) : res vm_state :=
  s ← get_reg (s_reg st) (i_src i); store_val n i s st.

Definition exec_ldst (o : opcode) (i : ebpf_inst) (st : vm_state) : res vm_state :=
  match o with
  | EBPF_OP_LDXDW => _ ← BOUNDS_CHECK i (s_reg st) 8; load_reg 8 i st
  | EBPF_OP_LDXW => load_reg 4 i st
  | EBPF_OP_LDXH => _ ← BOUNDS_CHECK i (s_reg st) 2; load_reg 2 i st
  | EBPF_OP_LDXB => _ ← BOUNDS_CHECK i (s_reg st) 1; load_reg 1 i st
  | EBPF_OP_STDW => _ ← BOUNDS_CHECK i (s_reg st) 8; store_val 8 i (u64 (i_imm i)) st
  | EBPF_OP_STW => _ ← BOUNDS_CHECK i (s_reg st) 4; store_val 4 i (i_imm i) st
  | EBPF_OP_STH => _ ← BOUNDS_CHECK i (s_reg st) 2; store_val 2 i (i_imm i) st
  | EBPF_OP_STB => _ ← BOUNDS_CHECK i (s_reg st) 1; store_val 1 i (i_imm i) st
  | EBPF_OP_STXDW => _ ← BOUNDS_CHECK i (s_reg st) 8; store_reg 8 i st
  | EBPF_OP_STXW => _ ← BOUNDS_CHECK i (s_reg st) 4; store_reg 4 i st
  | EBPF_OP_STXH => _ ← BOUNDS_CHECK i (s_reg st) 2; store_reg 2 i st
  | EBPF_OP_STXB => _ ← BOUNDS_CHECK i (s_reg st) 1; store_reg 1 i st
  | EBPF_OP_LDDW =>
      i2 ← of_option UB_fetch (zget (e_insts en) (s_pc st));
      rs ← set_reg (s_reg st) (i_dst i) (u32 (i_imm i) .| (u32 (i_imm i2) << 32));
      Ok (with_pc (with_reg st rs) (u16 (s_pc st + 1)))
  | _ => Ok st
  end.
End LoadStore.

(** ** Jumps

    [jump_taken] is the condition of the case; the immediate is compared
    sign-extended by [==], [!=], [&] and the signed comparisons, and
    zero-extended, [(u32)IMM], by the unsigned ones. *)

Definition jump_taken (o : opcode) (i : ebpf_inst) (rs : list Z) : res bool :=
  let DST := get_reg rs (i_dst i) in
  let SRC := get_reg rs (i_src i) in
  let IMM := i_imm i in
  match o with
  | EBPF_OP_JA => Ok true
  | EBPF_OP_JEQ_REG => d ← DST; s ← SRC; Ok (d =? s)
  | EBPF_OP_JEQ_IMM => d ← DST; Ok (d =? u64 IMM)
  | EBPF_OP_JGT_IMM => d ← DST; Ok (u32 IMM <? d)
  | EBPF_OP_JGT_REG => d ← DST; s ← SRC; Ok (s <? d)
  | EBPF_OP_JGE_IMM => d ← DST; Ok (u32 IMM <=? d)
  | EBPF_OP_JGE_REG => d ← DST; s ← SRC; Ok (s <=? d)
  | EBPF_OP_JLT_IMM => d ← DST; Ok (d <? u32 IMM)
  | EBPF_OP_JLT_REG => d ← DST; s ← SRC; Ok (d <? s)
  | EBPF_OP_JLE_IMM => d ← DST; Ok (d <=? u32 IMM)
  | EBPF_OP_JLE_REG => d ← DST; s ← SRC; Ok (d <=? s)
  | EBPF_OP_JSET_IMM => d ← DST; Ok (negb (d .& u64 IMM =? 0))
  | EBPF_OP_JSET_REG => d ← DST; s ← SRC; Ok (negb (d .& s =? 0))
  | EBPF_OP_JNE_IMM => d ← DST; Ok (negb (d =? u64 IMM))
  | EBPF_OP_JNE_REG => d ← DST; s ← SRC; Ok (negb (d =? s))
  | EBPF_OP_JSGT_IMM => d ← DST; Ok (IMM <? s64 d)
  | EBPF_OP_JSGT_REG => d ← DST; s ← SRC; Ok (s64 s <? s64 d)
  | EBPF_OP_JSGE_IMM => d ← DST; Ok (IMM <=? s64 d)
  | EBPF_OP_JSGE_REG => d ← DST; s ← SRC; Ok (s64 s <=? s64 d)
  | EBPF_OP_JSLT_IMM => d ← DST; Ok (s64 d <? IMM)
  | EBPF_OP_JSLT_REG => d ← DST; s ← SRC; Ok (s64 d <? s64 s)
  | EBPF_OP_JSLE_IMM => d ← DST; Ok (s64 d <=? IMM)
  | EBPF_OP_JSLE_REG => d ← DST; s ← SRC; Ok (s64 d <=? s64 s)
  | _ => Ok false
  end.

Definition exec_jump (o : opcode) (i : ebpf_inst) (st : vm_state) : res vm_state :=
  b ← jump_taken o i (s_reg st);
  Ok (if b : bool then with_pc st (u16 (s_pc st + i_offset i)) else st).

(** ** The interpreter

    [call_ext f args m]: what the function at address [f] returns and does to
    memory, when it returns. *)

Section Exec.
Context (call_ext : Z -> list Z -> memory -> option (Z * memory)).
Context (en : exec_env).

(** [reg[0] = vm->helper_func->ext_funcs[inst->imm](reg[1], .., reg[5])] *)
Definition exec_call (i : ebpf_inst) (st : vm_state) : res vm_state :=
  f ← of_option UB_call (zget (e_ext_funcs en) (i_imm i));
  r1 ← get_reg (s_reg st) 1; r2 ← get_reg (s_reg st) 2; r3 ← get_reg (s_reg st) 3;
  r4 ← get_reg (s_reg st) 4; r5 ← get_reg (s_reg st) 5;
  if f =? 0 then Undef UB_call
  else
    r ← of_option UB_call (call_ext f [r1; r2; r3; r4; r5] (s_mem st));
    rs ← set_reg (s_reg st) 0 (u64 (fst r));
    Ok (with_mem (with_reg st rs) (snd r)).

(** The switch. *)
Definition exec_inst (i : ebpf_inst) (st : vm_state) : res vm_state :=
  match opcode_of (i_opcode i) with
  | None => Ok st
  | Some EBPF_OP_CALL => exec_call i st
  | Some EBPF_OP_EXIT => r0 ← get_reg (s_reg st) 0; Ret r0
  | Some o =>
      let cls := BPF_CLASS (i_opcode i) in
      if cls =? EBPF_CLS_ALU then rs ← exec_alu32 o i (s_reg st); Ok (with_reg st rs)
      else if cls =? EBPF_CLS_ALU64 then rs ← exec_alu64 o i (s_reg st); Ok (with_reg st rs)
      else if cls =? EBPF_CLS_JMP then exec_jump o i st
      else exec_ldst en o i st
  end.

(** One turn of the loop: fetch, [pc++], the switch. *)
Definition step (st : vm_state) : res vm_state :=
  i ← of_option UB_fetch (zget (e_insts en) (s_pc st));
  exec_inst i (with_pc st (u16 (s_pc st + 1))).

Definition iters_check (tick : Z) : bool := if MAX_ITERS <? tick then false else true.

Inductive outcome : Type :=
  | Returned (v : Z) (m : memory)
  | IterLimit (m : memory)     (* the statement [return 1 << 32] *)
  | UBehaviour (u : ub)
  | OutOfFuel.

Fixpoint run (fuel : nat) (tick : Z) (st : vm_state) : outcome :=
  match fuel with
  | O => OutOfFuel
  | S fuel' =>
      match step st with
      | Ok st' => if iters_check tick then run fuel' (tick + 1) st' else IterLimit (s_mem st')
      | Ret v => Returned v (s_mem st)
      | Undef u => UBehaviour u
      end
  end.

(** The turns the loop can make: the check fails when [tick] is
    [MAX_ITERS + 1]. *)
Definition exec_fuel : nat := Z.to_nat (MAX_ITERS + 2).

(** [reg0] and the bytes of the stack in [m] are what the uninitialised
    arrays [reg] and [stack] hold. *)
Definition init_state (reg0 : list Z) (m : memory) : vm_state :=
  mk_state 0 (<[10%nat := u32 (e_stack en + STACK_SIZE)]> (<[1%nat := e_mem en]> reg0)) m.

Definition ebpf_vm_exec (reg0 : list Z) (m : memory) : outcome :=
  run exec_fuel 0 (init_state reg0 m).
End Exec.
