(* ===== verification/EbpfVmProps.v ===== *)
(** * Properties of the eBPF interpreter

    The loop against its step relation and its termination, the invariant of
    the registers and the memory, and the safety of statically checked
    programs. *)

From stdpp Require Import relations.
From S2P Require Import Prelude Mem EbpfInst EbpfVm.

(** ** The result monad *)

(** [inv_res] takes apart a computation of [res] known to succeed. *)
Ltac inv_res :=
  repeat match goal with
  | H : mbind _ ?e = Ok _ |- _ =>
      let E := fresh "E" in destruct e eqn:E; cbn [mbind res_bind] in H; [|discriminate H..]
  | H : Ok _ = Ok _ |- _ => injection H as H; subst
  | H : Ret _ = Ok _ |- _ => discriminate H
  | H : Undef _ = Ok _ |- _ => discriminate H
  | H : ret_m1 = Ok _ |- _ => discriminate H
  | H : (if ?b then _ else _) = Ok _ |- _ => let E := fresh "E" in destruct b eqn:E
  | H : of_option _ ?o = Ok _ |- _ =>
      let E := fresh "E" in destruct o eqn:E; cbn [of_option] in H; [|discriminate H]
  end.

Lemma get_reg_Ok (rs : list Z) (k v : Z) : get_reg rs k = Ok v <-> zget rs k = Some v.
Proof. unfold get_reg. destruct (zget rs k); cbn; split; congruence. Qed.

Lemma set_reg_Ok (rs rs' : list Z) (k v : Z) : set_reg rs k v = Ok rs' <-> zset rs k v = Some rs'.
Proof. unfold set_reg. destruct (zset rs k v); cbn; split; congruence. Qed.

(** [res_post Q R U r]: the value, the returned value and the undefined
    behaviour of a statement satisfy [Q], [R] and [U]. *)
Definition res_post {A} (Q : A -> Prop) (R : Z -> Prop) (U : ub -> Prop) (r : res A) : Prop :=
  match r with Ok a => Q a | Ret v => R v | Undef u => U u end.

Lemma res_post_bind {A B} (P : A -> Prop) (Q : B -> Prop) R U (e : res A) (k : A -> res B) :
  res_post P R U e -> (forall a, P a -> res_post Q R U (k a)) -> res_post Q R U (mbind k e).
Proof. destruct e; cbn; auto. Qed.

Lemma res_post_mono {A} (P Q : A -> Prop) (R R' : Z -> Prop) (U U' : ub -> Prop) (r : res A) :
  res_post P R U r -> (forall a, P a -> Q a) -> (forall v, R v -> R' v) -> (forall u, U u -> U' u) ->
  res_post Q R' U' r.
Proof. destruct r; cbn; auto. Qed.

Lemma res_post_and {A} (P Q : A -> Prop) (R R' : Z -> Prop) (U U' : ub -> Prop) (r : res A) :
  res_post P R U r -> res_post Q R' U' r ->
  res_post (fun a => P a /\ Q a) (fun v => R v /\ R' v) (fun u => U u /\ U' u) r.
Proof. destruct r; cbn; auto. Qed.

Lemma res_post_Ok {A} (R : Z -> Prop) (U : ub -> Prop) (r : res A) :
  res_post (fun _ => True) R U r -> res_post (fun a => r = Ok a) R U r.
Proof. by destruct r. Qed.

(** ** The type invariant *)

Definition regs_wf (rs : list Z) : Prop :=
  length rs = Z.to_nat MAX_BPF_EXT_REG /\ Forall (fun v => 0 <= v < 2 ^ 64) rs.

Definition state_wf (st : vm_state) : Prop :=
  0 <= s_pc st < 2 ^ 16 /\ regs_wf (s_reg st) /\ mem_wf (s_mem st).

Definition call_wf (call_ext : Z -> list Z -> memory -> option (Z * memory)) : Prop :=
  forall f args m v m', mem_wf m -> call_ext f args m = Some (v, m') -> mem_wf m'.

Lemma get_reg_range (rs : list Z) (k v : Z) : regs_wf rs -> get_reg rs k = Ok v -> 0 <= v < 2 ^ 64.
Proof. intros [_ HF] H%get_reg_Ok. exact (Forall_zget _ _ _ _ HF H). Qed.

Lemma set_reg_wf (rs rs' : list Z) (k v : Z) :
  regs_wf rs -> 0 <= v < 2 ^ 64 -> set_reg rs k v = Ok rs' -> regs_wf rs'.
Proof.
  intros [Hl HF] Hv H%set_reg_Ok. split.
  - by rewrite (zset_length _ _ _ _ H).
  - exact (Forall_zset _ _ _ _ _ HF Hv H).
Qed.

(** A value of a narrower type is a value of u64. *)
Lemma u32_u64_range (x : Z) : 0 <= u32 x < 2 ^ 64. Proof. pose proof (u32_range x). lia. Qed.
Lemma u16_u64_range (x : Z) : 0 <= u16 x < 2 ^ 64. Proof. pose proof (u16_range x). lia. Qed.

Lemma widen (a b x : Z) : 0 <= a <= b -> 0 <= x < 2 ^ a -> 0 <= x < 2 ^ b.
Proof. intros Hab Hx. pose proof (Z.pow_le_mono_r 2 a b). lia. Qed.

Lemma land32_range (a b : Z) : 0 <= u32 a .& u32 b < 2 ^ 64.
Proof. apply (widen 32); [lia|]. auto with width lia. apply land_range; width. Qed.
Lemma lor32_range (a b : Z) : 0 <= u32 a .| u32 b < 2 ^ 64.
Proof. apply (widen 32); [lia|]. apply lor_range; width. Qed.
Lemma lxor32_range (a b : Z) : 0 <= u32 a .^ u32 b < 2 ^ 64.
Proof. apply (widen 32); [lia|]. apply lxor_range; width. Qed.

Lemma c_div_range (w a b v : Z) : 0 <= a < 2 ^ w -> 0 <= b -> c_div a b = Ok v -> 0 <= v < 2 ^ w.
Proof.
  unfold c_div. intros Ha Hb. destruct (Z.eqb_spec b 0); [done|]. intros [= <-].
  split; [apply Z.div_pos; lia|]. eapply Z.le_lt_trans; [|apply Ha].
  apply Z.div_le_upper_bound; [lia|]. nia.
Qed.

Lemma c_mod_range (w a b v : Z) : 0 <= a < 2 ^ w -> 0 <= b -> c_mod a b = Ok v -> 0 <= v < 2 ^ w.
Proof.
  unfold c_mod. intros Ha Hb. destruct (Z.eqb_spec b 0); [done|]. intros [= <-].
  pose proof (Z.mod_pos_bound a b). pose proof (Z.mod_le a b). lia.
Qed.

Lemma c_shl_range (w a n v : Z) : 0 <= w -> c_shl w a n = Ok v -> 0 <= v < 2 ^ w.
Proof. unfold c_shl. intros Hw H. inv_res. by apply wrap_range. Qed.

Lemma c_shr_range (w a n v : Z) : 0 <= a < 2 ^ w -> c_shr w a n = Ok v -> 0 <= v < 2 ^ w.
Proof.
  unfold c_shr, shift_ok. intros Ha H. inv_res. zify_bools.
  rewrite Z.shiftr_div_pow2 by lia. pose proof (Z.pow_pos_nonneg 2 n).
  split; [apply Z.div_pos; lia|]. eapply Z.le_lt_trans; [|apply Ha].
  apply Z.div_le_upper_bound; nia.
Qed.

Lemma swap64_range (x : Z) : 0 <= __swap64 x < 2 ^ 64. Proof. apply u64_range. Qed.
Lemma swap32_range (x : Z) : 0 <= __swap32 x < 2 ^ 64. Proof. apply u32_u64_range. Qed.
Lemma swap16_range (x : Z) : 0 <= __swap16 x < 2 ^ 64. Proof. apply u16_u64_range. Qed.

#[export] Hint Resolve u32_u64_range u16_u64_range land32_range lor32_range lxor32_range
  swap64_range swap32_range swap16_range : width.
#[export] Hint Extern 2 (0 <= my_htobe16 _ < _) => apply swap16_range : width.
#[export] Hint Extern 2 (0 <= my_htobe32 _ < _) => apply swap32_range : width.
#[export] Hint Extern 2 (0 <= my_htobe64 _ < _) => apply swap64_range : width.

(** [reg_facts] notes the range of every register that was read. *)
Ltac reg_facts :=
  repeat match goal with
  | Hw : regs_wf ?rs, H : get_reg ?rs ?k = Ok ?v |- _ =>
      lazymatch goal with
      | _ : 0 <= v < 2 ^ 64 |- _ => fail
      | _ => pose proof (get_reg_range rs k v Hw H)
      end
  end.

Ltac res_range :=
  first
  [ done | by auto with width
  | lazymatch goal with
    | H : c_div (u32 _) _ = Ok ?v |- 0 <= ?v < _ => apply (widen 32); [lia|eapply c_div_range; [| |exact H]]; width
    | H : c_mod (u32 _) _ = Ok ?v |- 0 <= ?v < _ => apply (widen 32); [lia|eapply c_mod_range; [| |exact H]]; width
    | H : c_div _ _ = Ok ?v |- 0 <= ?v < _ => eapply c_div_range; [| |exact H]; width
    | H : c_mod _ _ = Ok ?v |- 0 <= ?v < _ => eapply c_mod_range; [| |exact H]; width
    | H : c_shl ?w _ _ = Ok ?v |- 0 <= ?v < _ => apply (widen w); [lia|eapply c_shl_range; [|exact H]]; lia
    | H : c_shr ?w _ _ = Ok ?v |- 0 <= ?v < _ => apply (widen w); [lia|eapply c_shr_range; [|exact H]]; width
    | |- 0 <= _ .& _ < _ => apply land_range; width
    | |- 0 <= _ .| _ < _ => apply lor_range; width
    | |- 0 <= _ .^ _ < _ => apply lxor_range; width
    end ].

Lemma exec_alu32_wf (o : opcode) (i : ebpf_inst) (rs rs' : list Z) :
  regs_wf rs -> exec_alu32 o i rs = Ok rs' -> regs_wf rs'.
Proof.
  intros Hw H. destruct o; cbn [exec_alu32] in H; inv_res; try done; reg_facts;
    (eapply set_reg_wf; [done| |done]; res_range).
Qed.

Lemma exec_alu64_wf (o : opcode) (i : ebpf_inst) (rs rs' : list Z) :
  regs_wf rs -> exec_alu64 o i rs = Ok rs' -> regs_wf rs'.
Proof.
  intros Hw H. destruct o; cbn [exec_alu64] in H; inv_res; try done; reg_facts;
    (eapply set_reg_wf; [done| |done]; res_range).
Qed.

Lemma lddw_range (a b : Z) : 0 <= u32 a .| (u32 b << 32) < 2 ^ 64.
Proof. rewrite lor_shiftl_add by width. pose proof (u32_range a). pose proof (u32_range b). lia. Qed.

Lemma exec_ldst_wf (en : exec_env) (o : opcode) (i : ebpf_inst) (st st' : vm_state) :
  state_wf st -> exec_ldst en o i st = Ok st' -> state_wf st'.
Proof.
  intros (Hpc & Hr & Hm) H.
  destruct o; cbn [exec_ldst] in H; unfold load_reg, store_reg, store_val in H; inv_res;
    refine (conj _ (conj _ _)); cbn [s_pc s_reg s_mem with_pc with_reg with_mem];
    try done; try apply u16_range;
    first [ by eapply store_le_wf
          | eapply set_reg_wf; [done| |done];
            first [ apply lddw_range
                  | eapply widen; [|eapply load_le_range; done]; lia ] ].
Qed.

Lemma exec_jump_wf (o : opcode) (i : ebpf_inst) (st st' : vm_state) :
  state_wf st -> exec_jump o i st = Ok st' -> state_wf st'.
Proof.
  unfold exec_jump. intros (Hpc & Hr & Hm) H. inv_res.
  match goal with |- state_wf (if ?b then _ else _) => destruct b; [|done] end.
  refine (conj _ (conj _ _)); cbn; try done; apply u16_range.
Qed.

Section ExecWf.
Context (call_ext : Z -> list Z -> memory -> option (Z * memory)) (en : exec_env).
Context (Hcall : call_wf call_ext).

Lemma exec_call_wf (i : ebpf_inst) (st st' : vm_state) :
  state_wf st -> exec_call call_ext en i st = Ok st' -> state_wf st'.
Proof using Hcall.
  unfold exec_call. intros (Hpc & Hr & Hm) H. inv_res.
  match goal with H : call_ext _ _ _ = Some ?p |- _ => destruct p as [v m'] end.
  refine (conj _ (conj _ _)); cbn in *; try done; [|by eapply Hcall].
  eapply set_reg_wf; [done| |done]. apply u64_range.
Qed.

Lemma exec_inst_wf (i : ebpf_inst) (st st' : vm_state) :
  state_wf st -> exec_inst call_ext en i st = Ok st' -> state_wf st'.
Proof using Hcall.
  unfold exec_inst. intros Hw H. destruct (opcode_of (i_opcode i)) as [o|]; [|by inv_res].
  assert (Hgen : forall c : bool * bool * bool,
    (let '(c1, c2, c3) := c in
     if c1 : bool then rs ← exec_alu32 o i (s_reg st); Ok (with_reg st rs)
     else if c2 : bool then rs ← exec_alu64 o i (s_reg st); Ok (with_reg st rs)
     else if c3 : bool then exec_jump o i st
     else exec_ldst en o i st) = Ok st' -> state_wf st').
  { intros [[[] []] []] Hc; try (by eapply exec_jump_wf); try (by eapply exec_ldst_wf);
      destruct Hw as (? & ? & ?); inv_res; refine (conj _ (conj _ _)); cbn; try done;
      first [by eapply exec_alu32_wf | by eapply exec_alu64_wf]. }
  specialize (Hgen (BPF_CLASS (i_opcode i) =? EBPF_CLS_ALU, BPF_CLASS (i_opcode i) =? EBPF_CLS_ALU64,
                    BPF_CLASS (i_opcode i) =? EBPF_CLS_JMP)).
  destruct o; try (apply Hgen; exact H).
  - by eapply exec_call_wf.
  - by inv_res.
Qed.

Lemma step_wf (st st' : vm_state) :
  state_wf st -> step call_ext en st = Ok st' -> state_wf st'.
Proof using Hcall.
  unfold step. intros (Hpc & Hr & Hm) H. inv_res. eapply exec_inst_wf; [|done].
  refine (conj _ (conj _ _)); cbn; try done; apply u16_range.
Qed.
End ExecWf.

(** ** The loop *)

Section Loop.
Context (call_ext : Z -> list Z -> memory -> option (Z * memory)) (en : exec_env).

(** One turn of the loop that goes on. *)
Definition turn (st st' : vm_state) : Prop := step call_ext en st = Ok st'.

(** What a run that starts with the given tick has left. *)
Definition turns_left (tick : Z) : nat := Z.to_nat (MAX_ITERS + 2 - tick).

Lemma turns_left_S (tick : Z) : 0 <= tick <= MAX_ITERS -> turns_left tick = S (turns_left (tick + 1)).
Proof. unfold turns_left, MAX_ITERS. lia. Qed.

Lemma iters_check_true (tick : Z) : iters_check tick = true <-> tick <= MAX_ITERS.
Proof. unfold iters_check. destruct (Z.ltb_spec MAX_ITERS tick); split; (done || lia). Qed.

Lemma run_S (fuel : nat) (tick : Z) (st : vm_state) :
  run call_ext en (S fuel) tick st =
  match step call_ext en st with
  | Ok st' => if iters_check tick then run call_ext en fuel (tick + 1) st' else IterLimit (s_mem st')
  | Ret v => Returned v (s_mem st)
  | Undef u => UBehaviour u
  end.
Proof. done. Qed.

(** The value of a run, in terms of the turns it makes. *)
Definition run_result (n : nat) (st : vm_state) (r : outcome) : Prop :=
  match r with
  | Returned v m =>
      exists k st', (k < n)%nat /\ nsteps turn k st st' /\ step call_ext en st' = Ret v /\ m = s_mem st'
  | IterLimit m => exists st', nsteps turn n st st' /\ m = s_mem st'
  | UBehaviour u => exists k st', (k < n)%nat /\ nsteps turn k st st' /\ step call_ext en st' = Undef u
  | OutOfFuel => False
  end.

Lemma run_result_step (n : nat) (st st' : vm_state) (r : outcome) :
  turn st st' -> run_result n st' r -> run_result (S n) st r.
Proof.
  destruct r as [v m|m|u|]; cbn; intros Ht.
  - intros (k & s & Hk & Hn & Hs & Hm). exists (S k), s. split_and!; [lia|by econstructor|done..].
  - intros (s & Hn & Hm). exists s. split; [by econstructor|done].
  - intros (k & s & Hk & Hn & Hs). exists (S k), s. split_and!; [lia|by econstructor|done].
  - done.
Qed.

Lemma run_correct (fuel : nat) (tick : Z) (st : vm_state) :
  0 <= tick <= MAX_ITERS + 1 -> (turns_left tick <= fuel)%nat ->
  run_result (turns_left tick) st (run call_ext en fuel tick st).
Proof.
  revert tick st. induction fuel as [|fuel IH]; intros tick st Ht Hf.
  { unfold turns_left in *. lia. }
  assert (Hpos : (0 < turns_left tick)%nat) by (unfold turns_left; lia).
  rewrite run_S. destruct (step call_ext en st) as [st'|v|u] eqn:E.
  - destruct (iters_check tick) eqn:Hi.
    + apply iters_check_true in Hi. rewrite turns_left_S in * by lia.
      apply (run_result_step _ _ st'); [done|]. apply IH; lia.
    + assert (~ tick <= MAX_ITERS) by (intros Hle%iters_check_true; congruence).
      replace (turns_left tick) with 1%nat by (unfold turns_left; lia).
      exists st'. split; [by apply nsteps_once|done].
  - exists 0%nat, st. split_and!; [done|constructor|done..].
  - exists 0%nat, st. split_and!; [done|constructor|done].
Qed.

Lemma turn_deterministic (k : nat) (st a b : vm_state) :
  nsteps turn k st a -> nsteps turn k st b -> a = b.
Proof.
  revert st. induction k as [|k IH]; intros st Ha Hb.
  - inversion Ha. inversion Hb. congruence.
  - inversion Ha as [|? ? y1 ? S1 N1]. inversion Hb as [|? ? y2 ? S2 N2]. subst.
    unfold turn in S1, S2. assert (y2 = y1) as -> by congruence. by eapply IH.
Qed.

(** No turn follows a state whose step does not go on. *)
Lemma turn_stuck (k j : nat) (st a b : vm_state) :
  nsteps turn k st a -> (forall c, step call_ext en a <> Ok c) -> nsteps turn j st b -> (j <= k)%nat.
Proof.
  revert j st. induction k as [|k IH]; intros j st Ha Hs Hb.
  - inversion Ha. subst. inversion Hb as [|? ? y2 ? S2 N2]; [lia|]. by edestruct Hs.
  - inversion Ha as [|? ? y1 ? S1 N1]. inversion Hb as [|? ? y2 ? S2 N2]; subst; [lia|].
    unfold turn in S1, S2. assert (y2 = y1) as -> by congruence. apply le_n_S. by eapply IH.
Qed.

(** The result of a run is determined by its description. *)
Lemma run_result_functional (n : nat) (st : vm_state) (r1 r2 : outcome) :
  run_result n st r1 -> run_result n st r2 -> r1 = r2.
Proof.
  assert (Hstop : forall k1 k2 s1 s2, nsteps turn k1 st s1 -> nsteps turn k2 st s2 ->
    (forall c, step call_ext en s1 <> Ok c) -> (forall c, step call_ext en s2 <> Ok c) -> s1 = s2).
  { intros k1 k2 s1 s2 H1 H2 N1 N2.
    assert (k1 = k2) as -> by (apply Nat.le_antisymm;
      [exact (turn_stuck _ _ _ _ _ H2 N2 H1)|exact (turn_stuck _ _ _ _ _ H1 N1 H2)]).
    by eapply turn_deterministic. }
  assert (Hlim : forall k s s', nsteps turn k st s -> (forall c, step call_ext en s <> Ok c) ->
    nsteps turn n st s' -> (k < n)%nat -> False).
  { intros k s s' H1 N1 H2 Hk. pose proof (turn_stuck k n st s s' H1 N1 H2). lia. }
  assert (Hret : forall s v, step call_ext en s = Ret v -> forall c, step call_ext en s <> Ok c)
    by congruence.
  assert (Hund : forall s u, step call_ext en s = Undef u -> forall c, step call_ext en s <> Ok c)
    by congruence.
  destruct r1 as [v1 m1|m1|u1|], r2 as [v2 m2|m2|u2|]; cbn; try done.
  - intros (k1 & s1 & L1 & N1 & S1 & ->) (k2 & s2 & L2 & N2 & S2 & ->).
    assert (s1 = s2) as -> by (eapply (Hstop k1 k2); eauto). congruence.
  - intros (k1 & s1 & L1 & N1 & S1 & ->) (s2 & N2 & ->). destruct (Hlim k1 s1 s2); eauto.
  - intros (k1 & s1 & L1 & N1 & S1 & ->) (k2 & s2 & L2 & N2 & S2).
    assert (s1 = s2) as -> by (eapply (Hstop k1 k2); eauto). congruence.
  - intros (s1 & N1 & ->) (k2 & s2 & L2 & N2 & S2 & ->). destruct (Hlim k2 s2 s1); eauto.
  - intros (s1 & N1 & ->) (s2 & N2 & ->). by rewrite (turn_deterministic _ _ _ _ N1 N2).
  - intros (s1 & N1 & ->) (k2 & s2 & L2 & N2 & S2). destruct (Hlim k2 s2 s1); eauto.
  - intros (k1 & s1 & L1 & N1 & S1) (k2 & s2 & L2 & N2 & S2 & ->).
    assert (s1 = s2) as -> by (eapply (Hstop k1 k2); eauto). congruence.
  - intros (k1 & s1 & L1 & N1 & S1) (s2 & N2 & ->). destruct (Hlim k1 s1 s2); eauto.
  - intros (k1 & s1 & L1 & N1 & S1) (k2 & s2 & L2 & N2 & S2).
    assert (s1 = s2) as -> by (eapply (Hstop k1 k2); eauto). congruence.
Qed.

(** A path of turns that ends in a return is the execution. *)
Lemma run_returns (k : nat) (st st' : vm_state) (v : Z) :
  nsteps turn k st st' -> step call_ext en st' = Ret v -> (k < Z.to_nat (MAX_ITERS + 2))%nat ->
  run call_ext en exec_fuel 0 st = Returned v (s_mem st').
Proof.
  intros Hn Hs Hk. apply (run_result_functional (turns_left 0) st).
  - apply run_correct; [unfold MAX_ITERS; lia|]. unfold turns_left, exec_fuel. rewrite Z.sub_0_r. done.
  - exists k, st'. unfold turns_left. rewrite Z.sub_0_r. done.
Qed.

(** C1: the interpreter terminates, and its result is exactly what its turns
    make it: it returns [v] when a state reached after at most MAX_ITERS + 1
    turns executes a return statement with value v, reports undefined
    behaviour when such a state has it, and stops at the iteration limit when
    and only when MAX_ITERS + 2 turns go on. *)
Theorem ebpf_vm_exec_loop (reg0 : list Z) (m : memory) (r : outcome) :
  ebpf_vm_exec call_ext en reg0 m = r <->
  run_result (Z.to_nat (MAX_ITERS + 2)) (init_state en reg0 m) r.
Proof.
  unfold ebpf_vm_exec. set (st := init_state en reg0 m).
  assert (Hc : run_result (Z.to_nat (MAX_ITERS + 2)) st (run call_ext en exec_fuel 0 st)).
  { pose proof (run_correct exec_fuel 0 st) as H. unfold turns_left in H.
    rewrite Z.sub_0_r in H. apply H; [unfold MAX_ITERS; lia|reflexivity]. }
  split; [by intros <-|]. intros Hr. exact (run_result_functional _ _ _ _ Hc Hr).
Qed.

Lemma init_state_wf (reg0 : list Z) (m : memory) :
  regs_wf reg0 -> mem_wf m -> 0 <= e_mem en < 2 ^ 32 -> state_wf (init_state en reg0 m).
Proof.
  intros [Hl HF] Hm He. refine (conj _ (conj _ _)); cbn; [lia| |done].
  split; [by rewrite !length_insert|]. apply Forall_insert; [|apply u32_u64_range].
  apply Forall_insert; [done|lia].
Qed.

Lemma turns_wf (k : nat) (st st' : vm_state) :
  call_wf call_ext -> state_wf st -> nsteps turn k st st' -> state_wf st'.
Proof.
  intros Hcall Hw Hn. induction Hn as [|k x y z Hxy Hyz IH]; [done|].
  apply IH. exact (step_wf _ _ Hcall _ _ Hw Hxy).
Qed.

Lemma run_wf (n : nat) (st : vm_state) (P : memory -> Prop) (r : outcome) :
  (forall k st', nsteps turn k st st' -> P (s_mem st')) ->
  run_result n st r -> match r with Returned _ m | IterLimit m => P m | _ => True end.
Proof.
  intros HP. destruct r; cbn; try done.
  - intros (k & s & _ & Hn & _ & ->). eauto.
  - intros (s & Hn & ->). eauto.
Qed.
End Loop.

(** ** What a step returns, and which undefined behaviour it can have *)

Lemma get_reg_post (rs : list Z) (k : Z) (R : Z -> Prop) (U : ub -> Prop) :
  regs_wf rs -> 0 <= k < MAX_BPF_EXT_REG \/ U UB_reg ->
  res_post (fun v => 0 <= v < 2 ^ 64) R U (get_reg rs k).
Proof.
  intros Hw Hk. destruct (get_reg rs k) as [v| |u] eqn:E.
  - by eapply get_reg_range.
  - unfold get_reg in E. by destruct (zget rs k).
  - unfold get_reg in E. destruct (zget rs k) eqn:Ez; [done|]. cbn in E. injection E as <-.
    destruct Hk as [Hk|]; [|done]. destruct (zget_is_Some rs k) as [x Hx]; [|congruence].
    destruct Hw as [-> _]. exact Hk.
Qed.

Lemma set_reg_post (rs : list Z) (k v : Z) (R : Z -> Prop) (U : ub -> Prop) :
  regs_wf rs -> 0 <= k < MAX_BPF_EXT_REG \/ U UB_reg ->
  res_post (fun _ => True) R U (set_reg rs k v).
Proof.
  intros Hw Hk. unfold set_reg. destruct (zset rs k v) eqn:E; cbn; [done|].
  destruct Hk as [Hk|]; [|done]. rewrite zset_is_Some in E; [done|].
  destruct Hw as [-> _]. exact Hk.
Qed.

(** The undefined behaviour of an arithmetic instruction depends on its
    operands: [div_ub o i] and [shift_ub o i] are the instructions whose
    immediate, or whose source register, can be a bad divisor or count. *)
Definition div_ub (o : opcode) (i : ebpf_inst) : bool :=
  match o with
  | EBPF_OP_DIV_IMM | EBPF_OP_MOD_IMM => u32 (i_imm i) =? 0
  | EBPF_OP_DIV64_IMM | EBPF_OP_MOD64_IMM | EBPF_OP_DIV64_REG => u64 (i_imm i) =? 0
  | EBPF_OP_DIV_REG | EBPF_OP_MOD_REG => true
  | _ => false
  end.

Definition shift_ub (o : opcode) (i : ebpf_inst) : bool :=
  match o with
  | EBPF_OP_LSH_IMM | EBPF_OP_RSH_IMM => negb (shift_ok 32 (u32 (i_imm i)))
  | EBPF_OP_ARSH_IMM => negb (shift_ok 32 (i_imm i))
  | EBPF_OP_LSH64_IMM | EBPF_OP_RSH64_IMM | EBPF_OP_ARSH64_IMM => negb (shift_ok 64 (i_imm i))
  | EBPF_OP_LSH_REG | EBPF_OP_RSH_REG | EBPF_OP_ARSH_REG => true
  | EBPF_OP_LSH64_REG | EBPF_OP_RSH64_REG | EBPF_OP_ARSH64_REG => true
  | _ => false
  end.

Lemma c_div_post (R : Z -> Prop) (U : ub -> Prop) (a b : Z) :
  b <> 0 \/ U UB_div -> res_post (fun _ => True) R U (c_div a b).
Proof. unfold c_div. destruct (Z.eqb_spec b 0); cbn; tauto. Qed.
Lemma c_mod_post (R : Z -> Prop) (U : ub -> Prop) (a b : Z) :
  b <> 0 \/ U UB_div -> res_post (fun _ => True) R U (c_mod a b).
Proof. unfold c_mod. destruct (Z.eqb_spec b 0); cbn; tauto. Qed.
Lemma c_shl_post (R : Z -> Prop) (U : ub -> Prop) (w a n : Z) :
  shift_ok w n = true \/ U UB_shift -> res_post (fun _ => True) R U (c_shl w a n).
Proof. unfold c_shl. destruct (shift_ok w n); cbn; intuition congruence. Qed.
Lemma c_shr_post (R : Z -> Prop) (U : ub -> Prop) (w a n : Z) :
  shift_ok w n = true \/ U UB_shift -> res_post (fun _ => True) R U (c_shr w a n).
Proof. unfold c_shr. destruct (shift_ok w n); cbn; intuition congruence. Qed.

Section AluPost.
Context (R : Z -> Prop) (U : ub -> Prop) (o : opcode) (i : ebpf_inst) (rs : list Z).
Context (Hw : regs_wf rs) (HR : R (u64 (-1))).
Context (Hd : 0 <= i_dst i < MAX_BPF_EXT_REG \/ U UB_reg).
Context (Hs : 0 <= i_src i < MAX_BPF_EXT_REG \/ U UB_reg).
Context (Hdiv : div_ub o i = false \/ U UB_div) (Hsh : shift_ub o i = false \/ U UB_shift).

(** [alu_post] walks through a case of the switch. *)
Ltac alu_post :=
  repeat lazymatch goal with
  | |- res_post _ _ _ (mbind _ (get_reg _ _)) =>
      eapply res_post_bind; [apply get_reg_post; eassumption|intros]
  | |- res_post _ _ _ (mbind _ (c_div _ _)) => eapply res_post_bind; [apply c_div_post|intros]
  | |- res_post _ _ _ (mbind _ (c_mod _ _)) => eapply res_post_bind; [apply c_mod_post|intros]
  | |- res_post _ _ _ (mbind _ (c_shl _ _ _)) => eapply res_post_bind; [apply c_shl_post|intros]
  | |- res_post _ _ _ (mbind _ (c_shr _ _ _)) => eapply res_post_bind; [apply c_shr_post|intros]
  | |- res_post _ _ _ (set_reg _ _ _) => apply set_reg_post; eassumption
  | |- res_post _ _ _ (if ?b then _ else _) => destruct b eqn:?
  | |- res_post _ _ _ ret_m1 => exact HR
  | |- res_post _ _ _ (Ok _) => exact I
  end.

Ltac alu_side :=
  zify_bools; cbn [div_ub shift_ub] in *;
  first
  [ right; destruct Hdiv as [Hdiv'|Hdiv']; [discriminate Hdiv'|exact Hdiv']
  | right; destruct Hsh as [Hsh'|Hsh']; [discriminate Hsh'|exact Hsh']
  | destruct Hdiv as [?%Z.eqb_neq|?]; [left|right]; done
  | destruct Hsh as [?%negb_false_iff|?]; [left|right]; done
  | left; lia ].

Lemma exec_alu32_post : res_post (fun _ => True) R U (exec_alu32 o i rs).
Proof using Type*. destruct o; cbn [exec_alu32]; alu_post; alu_side. Qed.

Lemma exec_alu64_post : res_post (fun _ => True) R U (exec_alu64 o i rs).
Proof using Type*. destruct o; cbn [exec_alu64]; alu_post; alu_side. Qed.

Lemma jump_taken_post : res_post (fun _ => True) R U (jump_taken o i rs).
Proof using Hw Hd Hs. clear Hdiv Hsh HR. destruct o; cbn [jump_taken]; alu_post. Qed.
End AluPost.

Section InstPost.
Context (call_ext : Z -> list Z -> memory -> option (Z * memory)) (en : exec_env).
Context (R : Z -> Prop) (U : ub -> Prop) (st : vm_state).
Context (Hw : regs_wf (s_reg st)) (HR : R (u64 (-1))) (HUmem : U UB_mem).

Lemma bounds_check_post (i : ebpf_inst) (size : Z) :
  0 <= i_src i < MAX_BPF_EXT_REG \/ U UB_reg ->
  res_post (fun _ => True) R U (BOUNDS_CHECK en i (s_reg st) size).
Proof using Hw HR.
  intros Hs. unfold BOUNDS_CHECK. eapply res_post_bind; [by apply get_reg_post|]. intros s _.
  by destruct (bounds_check _ _ _).
Qed.

Lemma load_reg_post (n : nat) (i : ebpf_inst) :
  0 <= i_src i < MAX_BPF_EXT_REG \/ U UB_reg -> 0 <= i_dst i < MAX_BPF_EXT_REG \/ U UB_reg ->
  res_post (fun _ => True) R U (load_reg n i st).
Proof using Hw HUmem.
  intros Hs Hd. unfold load_reg. eapply res_post_bind; [by apply get_reg_post|]. intros s _.
  eapply (res_post_bind (fun _ => True)); [by destruct (load_le _ _ _)|]. intros v _.
  eapply res_post_bind; [by apply set_reg_post|done].
Qed.

Lemma store_val_post (n : nat) (i : ebpf_inst) (v : Z) :
  0 <= i_dst i < MAX_BPF_EXT_REG \/ U UB_reg ->
  res_post (fun _ => True) R U (store_val n i v st).
Proof using Hw HUmem.
  intros Hd. unfold store_val. eapply res_post_bind; [by apply get_reg_post|]. intros d _.
  eapply (res_post_bind (fun _ => True)); [by destruct (store_le _ _ _ _)|done].
Qed.

Lemma exec_ldst_post (o : opcode) (i : ebpf_inst) :
  0 <= i_src i < MAX_BPF_EXT_REG \/ U UB_reg -> 0 <= i_dst i < MAX_BPF_EXT_REG \/ U UB_reg ->
  (o = EBPF_OP_LDDW -> 0 <= s_pc st < Z.of_nat (length (e_insts en)) \/ U UB_fetch) ->
  res_post (fun _ => True) R U (exec_ldst en o i st).
Proof using Hw HR HUmem.
  intros Hs Hd Hl. destruct o; cbn [exec_ldst]; try exact I; unfold store_reg;
    repeat lazymatch goal with
    | |- res_post _ _ _ (mbind _ (BOUNDS_CHECK _ _ _ _)) =>
        eapply res_post_bind; [by apply bounds_check_post|intros _ _]
    | |- res_post _ _ _ (mbind _ (get_reg _ _)) =>
        eapply res_post_bind; [by apply get_reg_post|intros ? _]
    | |- res_post _ _ _ (load_reg _ _ _) => by apply load_reg_post
    | |- res_post _ _ _ (store_val _ _ _ _) => by apply store_val_post
    end.
  eapply (res_post_bind (fun _ => True)).
  - destruct (zget (e_insts en) (s_pc st)) eqn:E; [done|]. destruct (Hl eq_refl) as [Hp|]; [|done].
    destruct (zget_is_Some _ _ Hp). congruence.
  - intros i2 _. eapply res_post_bind; [by apply set_reg_post|done].
Qed.

Lemma exec_jump_post (o : opcode) (i : ebpf_inst) :
  0 <= i_src i < MAX_BPF_EXT_REG \/ U UB_reg -> 0 <= i_dst i < MAX_BPF_EXT_REG \/ U UB_reg ->
  res_post (fun _ => True) R U (exec_jump o i st).
Proof using Hw HR.
  intros Hs Hd. unfold exec_jump. eapply res_post_bind; [|done].
  apply jump_taken_post; assumption.
Qed.

Definition call_ok (i : ebpf_inst) : Prop :=
  exists f, zget (e_ext_funcs en) (i_imm i) = Some f /\ f <> 0 /\
    forall args m, is_Some (call_ext f args m).

Lemma exec_call_post (i : ebpf_inst) :
  call_ok i \/ U UB_call -> res_post (fun _ => True) R U (exec_call call_ext en i st).
Proof using Hw.
  intros Hc. unfold exec_call.
  eapply (res_post_bind (fun f => U UB_call \/ (f <> 0 /\ forall args m, is_Some (call_ext f args m)))).
  { destruct Hc as [(f & -> & H)|HU]; [by right|]. destruct (zget _ _); cbn; [by left|done]. }
  intros f Hf.
  do 5 (eapply res_post_bind; [apply get_reg_post; [done|left; done]|intros ? _]).
  destruct (Z.eqb_spec f 0); [by destruct Hf as [|[? _]]|].
  eapply (res_post_bind (fun _ => True)).
  { destruct Hf as [|[_ Hf]]; [by destruct (call_ext _ _ _)|]. 
    match goal with |- context [call_ext f ?a ?m] => by destruct (Hf a m) as [? ->] end. }
  intros r _. eapply res_post_bind; [apply set_reg_post; [done|left; done]|done].
Qed.

(** The undefined behaviour of the whole switch. *)
Definition inst_side (o : opcode) (i : ebpf_inst) : Prop :=
  (div_ub o i = false \/ U UB_div) /\ (shift_ub o i = false \/ U UB_shift) /\
  (o = EBPF_OP_LDDW -> 0 <= s_pc st < Z.of_nat (length (e_insts en)) \/ U UB_fetch) /\
  (o = EBPF_OP_CALL -> call_ok i \/ U UB_call).

Lemma exec_inst_post (i : ebpf_inst) :
  (forall v, 0 <= v < 2 ^ 64 -> R v) ->
  0 <= i_src i < MAX_BPF_EXT_REG \/ U UB_reg -> 0 <= i_dst i < MAX_BPF_EXT_REG \/ U UB_reg ->
  (forall o, opcode_of (i_opcode i) = Some o -> inst_side o i) ->
  res_post (fun _ => True) R U (exec_inst call_ext en i st).
Proof using Hw HR HUmem.
  intros HRv Hs Hd Hi. unfold exec_inst. destruct (opcode_of (i_opcode i)) as [o|]; [|exact I].
  destruct (Hi o eq_refl) as (Hdv & Hsh & Hl & Hc).
  assert (Hgen : forall c1 c2 c3 : bool, res_post (fun _ => True) R U
    (if c1 : bool then rs ← exec_alu32 o i (s_reg st); Ok (with_reg st rs)
     else if c2 : bool then rs ← exec_alu64 o i (s_reg st); Ok (with_reg st rs)
     else if c3 : bool then exec_jump o i st
     else exec_ldst en o i st)).
  { intros [] [] []; try (by apply exec_jump_post); try (by apply exec_ldst_post);
      (eapply res_post_bind; [first [by apply exec_alu32_post | by apply exec_alu64_post]|done]). }
  destruct o; try apply Hgen.
  - apply exec_call_post, Hc, eq_refl.
  - eapply res_post_bind; [apply get_reg_post; [done|left; done]|intros r0 Hr0]. by apply HRv.
Qed.
End InstPost.

Lemma step_Ret_range (call_ext : Z -> list Z -> memory -> option (Z * memory)) (en : exec_env)
    (st : vm_state) (v : Z) :
  state_wf st -> step call_ext en st = Ret v -> 0 <= v < 2 ^ 64.
Proof.
  intros (Hpc & Hr & Hm) Hs.
  assert (Hp : res_post (fun _ => True) (fun v => 0 <= v < 2 ^ 64) (fun _ => True) (step call_ext en st)).
  { unfold step. eapply (res_post_bind (fun _ => True)); [by destruct (zget _ _)|]. intros i _.
    apply exec_inst_post; try exact I; try exact Hr; try (by right).
    - apply u64_range.
    - done.
    - intros o _. split_and!; intros; by right. }
  by rewrite Hs in Hp.
Qed.

(** C24: the types of the C program hold of the machine: started from
    registers of type u64, a byte memory and a 32-bit context pointer, with
    helper functions that leave bytes in memory, the interpreter returns a
    u64 and leaves bytes in memory. *)
Theorem ebpf_vm_exec_wf call_ext en (reg0 : list Z) (m m' : memory) (v : Z) :
  call_wf call_ext -> regs_wf reg0 -> mem_wf m -> 0 <= e_mem en < 2 ^ 32 ->
  ebpf_vm_exec call_ext en reg0 m = Returned v m' -> 0 <= v < 2 ^ 64 /\ mem_wf m'.
Proof.
  intros Hc Hr Hm He H. unfold ebpf_vm_exec in H.
  pose proof (run_correct call_ext en exec_fuel 0 (init_state en reg0 m)) as Hrun.
  rewrite H in Hrun. destruct Hrun as (k & st' & _ & Hn & Hs & ->); [unfold MAX_ITERS; lia|reflexivity|].
  assert (Hw : state_wf st') by (eapply turns_wf; eauto using init_state_wf).
  split; [by eapply step_Ret_range|apply Hw].
Qed.

(** ** Statically checked programs

    The interpreter checks neither the program counter nor the register
    numbers.  [check_prog] is the check that makes both unnecessary: register
    numbers below MAX_BPF_EXT_REG, targets of jumps inside the program, no
    instruction that falls off its end, helper numbers bound to functions,
    constant divisors not zero and constant shift counts below the width. *)

Section CheckProg.
Context (p : list ebpf_inst) (ext_funcs : list Z).

Definition in_prog (k : Z) : bool := (0 <=? k) && (k <? Z.of_nat (length p)).

Definition check_flow (k : Z) (i : ebpf_inst) (o : opcode) : bool :=
  match o with
  | EBPF_OP_EXIT => true
  | EBPF_OP_JA => in_prog (k + 1 + i_offset i)
  | EBPF_OP_LDDW => in_prog (k + 1) && in_prog (k + 2)
  | EBPF_OP_CALL =>
      in_prog (k + 1) &&
      match zget ext_funcs (i_imm i) with Some f => negb (f =? 0) | None => false end
  | _ =>
      in_prog (k + 1) &&
      (if BPF_CLASS (opcode_val o) =? EBPF_CLS_JMP then in_prog (k + 1 + i_offset i) else true)
  end.

Definition is_reg_div (o : opcode) : bool :=
  match o with EBPF_OP_DIV_REG | EBPF_OP_MOD_REG => true | _ => false end.
Definition is_reg_shift (o : opcode) : bool :=
  match o with
  | EBPF_OP_LSH_REG | EBPF_OP_RSH_REG | EBPF_OP_ARSH_REG => true
  | EBPF_OP_LSH64_REG | EBPF_OP_RSH64_REG | EBPF_OP_ARSH64_REG => true
  | _ => false
  end.

Definition check_inst (k : Z) (i : ebpf_inst) : bool :=
  (i_dst i <? MAX_BPF_EXT_REG) && (i_src i <? MAX_BPF_EXT_REG) &&
  match opcode_of (i_opcode i) with
  | None => in_prog (k + 1)
  | Some o =>
      check_flow k i o && (negb (div_ub o i) || is_reg_div o) && (negb (shift_ub o i) || is_reg_shift o)
  end.

Fixpoint check_from (k : Z) (l : list ebpf_inst) : bool :=
  match l with [] => true | i :: l' => check_inst k i && check_from (k + 1) l' end.

Definition check_prog : bool :=
  (0 <? Z.of_nat (length p)) && (Z.of_nat (length p) <=? 2 ^ 16) && check_from 0 p.

(** An opcode of the program. *)
Definition uses (f : opcode -> bool) : Prop :=
  exists i o, In i p /\ opcode_of (i_opcode i) = Some o /\ f o = true.

(** The undefined behaviour a checked program can still have. *)
Definition residual_ub (u : ub) : Prop :=
  u = UB_mem \/ (u = UB_div /\ uses is_reg_div) \/ (u = UB_shift /\ uses is_reg_shift).

Lemma in_prog_spec (k : Z) : in_prog k = true <-> 0 <= k < Z.of_nat (length p).
Proof. unfold in_prog. rewrite andb_true_iff, Z.leb_le, Z.ltb_lt. done. Qed.

Lemma check_from_zget (l : list ebpf_inst) (k j : Z) (i : ebpf_inst) :
  check_from k l = true -> zget l j = Some i -> check_inst (k + j) i = true.
Proof.
  revert k j. induction l as [|x l IH]; intros k j; cbn [check_from].
  - intros _ H%zget_Some. cbn in H. lia.
  - intros [Hx Hl]%andb_true_iff Hj. pose proof (zget_Some _ _ _ Hj) as Hr.
    destruct (decide (j = 0)) as [->|Hne].
    + cbn in Hj. injection Hj as ->. by rewrite Z.add_0_r.
    + replace (k + j) with (k + 1 + (j - 1)) by lia. apply IH; [done|].
      unfold zget in *. destruct (Z.ltb_spec j 0), (Z.ltb_spec (j - 1) 0); try lia.
      replace (Z.to_nat j) with (S (Z.to_nat (j - 1))) in Hj by lia. exact Hj.
Qed.

Lemma check_prog_inst (k : Z) (i : ebpf_inst) :
  check_prog = true -> zget p k = Some i -> check_inst k i = true.
Proof.
  unfold check_prog. intros H Hk. apply andb_true_iff in H as [_ H].
  exact (check_from_zget p 0 k i H Hk).
Qed.
End CheckProg.

Section Checked.
Context (call_ext : Z -> list Z -> memory -> option (Z * memory)) (en : exec_env).
Context (Hcall : call_wf call_ext) (Htot : forall f args m, is_Some (call_ext f args m)).
Context (Hwf : Forall inst_wf (e_insts en)).
Context (Hchk : check_prog (e_insts en) (e_ext_funcs en) = true).

Local Abbreviation p := (e_insts en).

Definition in_code (st : vm_state) : Prop := 0 <= s_pc st < Z.of_nat (length p).

Lemma zget_In {A} (l : list A) (k : Z) (x : A) : zget l k = Some x -> In x l.
Proof. unfold zget. destruct (k <? 0); [done|]. intros H%list_elem_of_lookup_2. by apply list_elem_of_In. Qed.

Lemma len_prog : 0 < Z.of_nat (length p) <= 2 ^ 16.
Proof using Hchk. unfold check_prog in Hchk. zify_bools. lia. Qed.

Lemma checked_inst (k : Z) (i : ebpf_inst) :
  zget p k = Some i -> check_inst p (e_ext_funcs en) k i = true /\ inst_wf i.
Proof using Hchk Hwf.
  intros Hk. split; [by apply check_prog_inst|]. exact (Forall_zget _ _ _ _ Hwf Hk).
Qed.

(** A step of a checked program has only the residual undefined behaviour. *)
Lemma checked_step_ub (st : vm_state) (u : ub) :
  state_wf st -> in_code st -> step call_ext en st = Undef u -> residual_ub p u.
Proof using Hchk Hwf Htot.
  intros (Hpc & Hr & Hm) Hin Hs.
  assert (Hp : res_post (fun _ => True) (fun _ => True) (residual_ub p) (step call_ext en st)).
  { unfold step. destruct (zget_is_Some p (s_pc st) Hin) as [i Hi]. rewrite Hi. cbn [of_option mbind res_bind].
    destruct (checked_inst _ _ Hi) as [Hc (Hop & Hd & Hsr & Ho & Him)].
    unfold check_inst in Hc. apply andb_true_iff in Hc as [[Hcd Hcs]%andb_true_iff Hco]. zify_bools.
    apply exec_inst_post; cbn [s_reg s_pc with_pc]; try done; try (by left); try (left; lia).
    intros o Hoo. rewrite Hoo in Hco. apply andb_true_iff in Hco as [[Hf Hdv]%andb_true_iff Hsh].
    assert (Huse : forall f, f o = true -> uses (e_insts en) f)
      by (intros f Hfo; exists i, o; eauto using zget_In).
    split_and!.
    - apply orb_true_iff in Hdv as [Hdv%negb_true_iff|Hdv]; [by left|]. right; right; left. auto.
    - apply orb_true_iff in Hsh as [Hsh%negb_true_iff|Hsh]; [by left|]. right; right; right. auto.
    - intros ->. left. cbn in Hf. apply andb_true_iff in Hf as [Hf _]. apply in_prog_spec in Hf.
      rewrite (u16_small (s_pc st + 1)); [done|]. pose proof len_prog. lia.
    - intros ->. left. cbn in Hf. apply andb_true_iff in Hf as [_ Hf].
      destruct (zget (e_ext_funcs en) (i_imm i)) as [f|] eqn:E; [|done]. exists f. zify_bools. eauto. }
  by rewrite Hs in Hp.
Qed.

(** Where the program counter goes. *)
Definition next_pc (o : opcode) (i : ebpf_inst) (pc pc' : Z) : Prop :=
  match o with
  | EBPF_OP_LDDW => pc' = u16 (pc + 1)
  | EBPF_OP_JA => pc' = u16 (pc + i_offset i)
  | EBPF_OP_EXIT => False
  | EBPF_OP_CALL => pc' = pc
  | _ =>
      pc' = pc \/
      (BPF_CLASS (opcode_val o) = EBPF_CLS_JMP /\ pc' = u16 (pc + i_offset i))
  end.

Lemma exec_inst_pc (i : ebpf_inst) (st st' : vm_state) :
  exec_inst call_ext en i st = Ok st' ->
  match opcode_of (i_opcode i) with
  | None => s_pc st' = s_pc st
  | Some o => next_pc o i (s_pc st) (s_pc st')
  end.
Proof using.
  unfold exec_inst. destruct (opcode_of (i_opcode i)) as [o|] eqn:E; [|by intros [= <-]].
  apply opcode_of_Some in E. rewrite E.
  destruct o; intros H; cbn in H; unfold exec_jump, exec_call, load_reg, store_reg, store_val in H;
    inv_res; cbn; try (by left);
    try match goal with |- context [if ?b then with_pc _ _ else _] => destruct b end;
    cbn; auto; try discriminate; cbn in *; simplify_eq; auto.
Qed.

Lemma checked_step_in_code (st st' : vm_state) :
  state_wf st -> in_code st -> step call_ext en st = Ok st' -> in_code st'.
Proof using Hchk Hwf.
  intros (Hpc & Hr & Hm) Hin Hs. pose proof len_prog as Hlen.
  unfold step in Hs. destruct (zget_is_Some p (s_pc st) Hin) as [i Hi]. rewrite Hi in Hs.
  cbn [of_option mbind res_bind] in Hs. apply exec_inst_pc in Hs. cbn [s_pc with_pc] in Hs.
  destruct (checked_inst _ _ Hi) as [Hc _]. unfold check_inst in Hc.
  apply andb_true_iff in Hc as [_ Hc]. unfold in_code.
  destruct (opcode_of (i_opcode i)) as [o|].
  - apply andb_true_iff in Hc as [[Hf _]%andb_true_iff _].
    destruct o; cbn in Hf, Hs; try contradiction;
      repeat match goal with
      | H : _ && _ = true |- _ => apply andb_true_iff in H as [? ?]
      | H : in_prog _ _ = true |- _ => apply in_prog_spec in H
      | H : context [?a =? EBPF_CLS_JMP] |- _ =>
          let c := eval vm_compute in (a =? EBPF_CLS_JMP) in change (a =? EBPF_CLS_JMP) with c in H;
          cbn iota in H
      | H : _ \/ _ |- _ => destruct H as [?|[? ?]]
      | H : s_pc st' = _ |- _ => rewrite H; clear H
      end; try discriminate; unfold u16; rewrite ?wrap_add_l, wrap_small by lia; lia.
  - apply in_prog_spec in Hc. rewrite Hs, u16_small by lia. lia.
Qed.

Lemma checked_turns (k : nat) (st st' : vm_state) :
  state_wf st -> in_code st -> nsteps (turn call_ext en) k st st' -> state_wf st' /\ in_code st'.
Proof using Hcall Hchk Hwf.
  intros Hw Hi Hn. induction Hn as [|k x y z Hxy Hyz IH]; [done|].
  apply IH; [exact (step_wf _ _ Hcall _ _ Hw Hxy)|exact (checked_step_in_code _ _ Hw Hi Hxy)].
Qed.
End Checked.

(** C2: control-flow and type safety of checked programs: when the static
    check accepts a program and the helper functions return, the interpreter
    never fetches past the program, never indexes past the register array and
    never calls through a null pointer; the only undefined behaviour left is a
    fault of a memory access, or, where the program has the instruction, a
    32-bit division by a register or a shift by a register. *)
Theorem checked_program_safe call_ext en (reg0 : list Z) (m : memory) (u : ub) :
  call_wf call_ext -> (forall f args m, is_Some (call_ext f args m)) ->
  Forall inst_wf (e_insts en) -> check_prog (e_insts en) (e_ext_funcs en) = true ->
  regs_wf reg0 -> mem_wf m -> 0 <= e_mem en < 2 ^ 32 ->
  ebpf_vm_exec call_ext en reg0 m = UBehaviour u -> residual_ub (e_insts en) u.
Proof.
  intros Hcall Htot Hwf Hchk Hr Hm He H. unfold ebpf_vm_exec in H.
  pose proof (run_correct call_ext en exec_fuel 0 (init_state en reg0 m)) as Hrun.
  rewrite H in Hrun. destruct Hrun as (k & st' & _ & Hn & Hs); [unfold MAX_ITERS; lia|reflexivity|].
  pose proof (len_prog en Hchk) as Hlen.
  destruct (checked_turns call_ext en Hcall Hwf Hchk k (init_state en reg0 m) st') as [Hw Hi];
    [by apply init_state_wf|unfold in_code; cbn; lia|done|].
  by eapply checked_step_ub.
Qed.

(** A program that loops: r0 := 3; r0 := r0 - 1; if r0 != 0 goto -2; exit. *)
Definition countdown : list ebpf_inst :=
  [mk_inst 0xb7 0 0 0 3; mk_inst 0x07 0 0 0 (-1); mk_inst 0x55 0 0 (-2) 0; mk_inst 0x95 0 0 0 0].

Lemma ebpf_vm_exec_wf_witness :
  0 <= 0 < 2 ^ 64 /\ mem_wf empty.
Proof.
  apply (ebpf_vm_exec_wf (fun _ _ _ => None) (mk_env countdown false [] 0 0 0) (replicate 12 0) empty empty 0);
    try done.
  - split; [reflexivity|]. by repeat constructor.
Defined.

Lemma checked_program_safe_witness :
  exists u, ebpf_vm_exec (fun _ _ m => Some (0, m)) (mk_env [mk_inst 0x61 0 2 0 0; mk_inst 0x95 0 0 0 0] false [] 0 0 0)
    (replicate 12 0) empty = UBehaviour u /\
  residual_ub [mk_inst 0x61 0 2 0 0; mk_inst 0x95 0 0 0 0] u.
Proof.
  exists UB_mem. split; [reflexivity|].
  apply (checked_program_safe (fun _ _ m => Some (0, m))
    (mk_env [mk_inst 0x61 0 2 0 0; mk_inst 0x95 0 0 0 0] false [] 0 0 0) (replicate 12 0) empty UB_mem);
    try reflexivity; try done.
  - intros f args m v m' Hm [= <- <-]. exact Hm.
  - repeat constructor; cbn; lia.
  - split; [reflexivity|]. by repeat constructor.
Defined.
