(* ===== verification/EbpfVmSem.v ===== *)
(** * The instructions of the interpreter against a reference semantics

    The reference reads an instruction by the fields of its opcode (class,
    operation, source bit), as the instruction set defines it, where the
    interpreter has one case per opcode; then the footprint of the memory
    instructions and what their bounds check accepts. *)

From S2P Require Import Prelude Mem EbpfInst EbpfVm EbpfVmProps.

(** ** Arithmetic *)

(** The operation field. *)
Inductive alu_op : Set :=
  | Add | Sub | Mul | Div | Or | And | Lsh | Rsh | Neg | Mod | Xor | Mov | Arsh.

Definition alu_op_of (op : Z) : option alu_op :=
  list_to_map (M := gmap Z alu_op)
    [(0x00, Add); (0x10, Sub); (0x20, Mul); (0x30, Div); (0x40, Or); (0x50, And); (0x60, Lsh);
     (0x70, Rsh); (0x80, Neg); (0x90, Mod); (0xa0, Xor); (0xb0, Mov); (0xc0, Arsh)] !! op.

(** The operation of width [w] on the destination's value and the operand;
    [None] where the instruction set leaves the result undefined. *)
Definition alu_sem (w : Z) (op : alu_op) (d s : Z) : option Z :=
  match op with
  | Add => Some (wrap w (d + s))
  | Sub => Some (wrap w (d - s))
  | Mul => Some (wrap w (d * s))
  | Div => if s =? 0 then None else Some (d / s)
  | Or => Some (d .| s)
  | And => Some (d .& s)
  | Lsh => if s <? w then Some (wrap w (d << s)) else None
  | Rsh => if s <? w then Some (d >> s) else None
  | Neg => Some (wrap w (- d))
  | Mod => if s =? 0 then None else Some (d mod s)
  | Xor => Some (d .^ s)
  | Mov => Some s
  | Arsh => if s <? w then Some (wrap w (sext w d >> s)) else None
  end.

Definition alu_ref (w code d s : Z) : option Z := op ← alu_op_of (BPF_OP code); alu_sem w op d s.

(** The operand: the source register or the sign-extended immediate. *)
Definition operand (i : ebpf_inst) (s : Z) : Z :=
  if BPF_SRC (i_opcode i) =? EBPF_SRC_REG then s else u64 (i_imm i).

Lemma u32_u64 (x : Z) : u32 (u64 x) = u32 x.
Proof. by apply wrap_wrap. Qed.

Lemma s32_u32 (x : Z) : sext 32 (u32 x) = s32 x. Proof. apply sext_wrap. Qed.

Lemma u64_imm_small (w x : Z) : 0 <= w <= 64 -> - 2 ^ 31 <= x < 2 ^ 31 -> u64 x < w -> u64 x = x /\ 0 <= x < w.
Proof.
  intros Hw Hx Hs. destruct (Z.ltb_spec x 0).
  - assert (u64 x = x + 2 ^ 64).
    { unfold u64, wrap. rewrite <- (Z.mod_small (x + 2 ^ 64) (2 ^ 64)) by lia.
      replace (x + 2 ^ 64) with (x + 1 * 2 ^ 64) by lia. by rewrite Z_mod_plus_full. }
    lia.
  - rewrite u64_small in * by lia. lia.
Qed.

Lemma u32_imm_small (w x : Z) : 0 <= w <= 32 -> - 2 ^ 31 <= x < 2 ^ 31 -> u32 x < w -> u32 x = x /\ 0 <= x < w.
Proof.
  intros Hw Hx Hs. destruct (Z.ltb_spec x 0).
  - assert (u32 x = x + 2 ^ 32).
    { unfold u32, wrap. rewrite <- (Z.mod_small (x + 2 ^ 32) (2 ^ 32)) by lia.
      replace (x + 2 ^ 32) with (x + 1 * 2 ^ 32) by lia. by rewrite Z_mod_plus_full. }
    lia.
  - rewrite u32_small in * by lia. lia.
Qed.

Lemma shift_ok_small (w n : Z) : 0 <= n < w -> shift_ok w n = true.
Proof. intros H. unfold shift_ok. destruct (Z.leb_spec 0 n), (Z.ltb_spec n w); (done || lia). Qed.

(** [alu_case] evaluates the reference for a concrete opcode. *)
Ltac alu_case H :=
  unfold alu_ref, operand in H;
  repeat match type of H with
  | context [alu_op_of ?c] => let v := eval vm_compute in (alu_op_of c) in change (alu_op_of c) with v in H
  | context [BPF_SRC ?a =? ?b] =>
      let c := eval vm_compute in (BPF_SRC a =? b) in change (BPF_SRC a =? b) with c in H
  end; cbn [mbind option_bind alu_sem] in H; cbn iota in H.

(** [alu_fields] evaluates the interpreter's case and the reference's guards. *)
Ltac alu_fields :=
  cbn [mbind res_bind]; unfold c_div, c_mod, c_shl, c_shr;
  repeat match goal with
  | H : (if ?b then _ else _) = Some _ |- _ => destruct b eqn:?; try discriminate H
  end; zify_bools; simplify_eq.

(** [alu_defined] discharges the divisor and the shift count. *)
Ltac alu_defined :=
  rewrite ?shift_ok_small by lia;
  repeat match goal with |- context [?a =? 0] => destruct (Z.eqb_spec a 0); [first [lia | by subst]|] end;
  cbn [mbind res_bind];
  try reflexivity;
  unfold u8, u16, u32, u64, s32, s64; rewrite ?sext_wrap, ?wrap_opp by lia; try reflexivity.

Section Alu.
Context (i : ebpf_inst) (rs : list Z) (d s : Z).
Context (Hi : inst_wf i) (Hd : get_reg rs (i_dst i) = Ok d) (Hs : get_reg rs (i_src i) = Ok s).
Context (Hdr : 0 <= d < 2 ^ 64) (Hsr : 0 <= s < 2 ^ 64).

Lemma alu64_ref (o : opcode) (v : Z) :
  opcode_of (i_opcode i) = Some o -> BPF_CLASS (i_opcode i) = EBPF_CLS_ALU64 -> o <> EBPF_OP_DIV64_REG ->
  alu_ref 64 (i_opcode i) d (operand i s) = Some v ->
  exec_alu64 o i rs = set_reg rs (i_dst i) v.
Proof using Type*.
  destruct Hi as (_ & _ & _ & _ & Himm). intros Ho%opcode_of_Some Hcl Hne Hv.
  unfold operand in Hv. rewrite Ho in Hv, Hcl.
  destruct o; try discriminate Hcl; try congruence; clear Hcl Hne;
    alu_case Hv; cbn [exec_alu64]; rewrite ?Hd, ?Hs; alu_fields;
    try (destruct (u64_imm_small 64 (i_imm i)) as [Hu ?]; [lia..|]; rewrite ?Hu);
    alu_defined.
Qed.

Lemma alu32_ref (o : opcode) (v : Z) :
  opcode_of (i_opcode i) = Some o -> BPF_CLASS (i_opcode i) = EBPF_CLS_ALU ->
  (o = EBPF_OP_ARSH_REG -> s < 2 ^ 32) ->
  alu_ref 32 (i_opcode i) (u32 d) (u32 (operand i s)) = Some v ->
  exec_alu32 o i rs = set_reg rs (i_dst i) v.
Proof using Type*.
  destruct Hi as (_ & _ & _ & _ & Himm). intros Ho%opcode_of_Some Hcl Har Hv.
  unfold operand in Hv. rewrite Ho in Hv, Hcl.
  destruct o; try discriminate Hcl; clear Hcl;
    alu_case Hv; try discriminate Hv; rewrite ?u32_u64 in Hv;
    cbn [exec_alu32]; rewrite ?Hd, ?Hs; alu_fields;
    try (destruct (u32_imm_small 32 (i_imm i)) as [Hu ?]; [lia..|]; rewrite ?Hu);
    try (specialize (Har eq_refl); rewrite (u32_small s) in * by lia);
    pose proof (u32_range s); alu_defined.
Qed.
End Alu.

Lemma step_alu64 call_ext en st i o d s v rs' :
  inst_wf i -> regs_wf (s_reg st) -> zget (e_insts en) (s_pc st) = Some i ->
  opcode_of (i_opcode i) = Some o -> BPF_CLASS (i_opcode i) = EBPF_CLS_ALU64 -> o <> EBPF_OP_DIV64_REG ->
  zget (s_reg st) (i_dst i) = Some d -> zget (s_reg st) (i_src i) = Some s ->
  alu_ref 64 (i_opcode i) d (operand i s) = Some v -> zset (s_reg st) (i_dst i) v = Some rs' ->
  step call_ext en st = Ok (mk_state (u16 (s_pc st + 1)) rs' (s_mem st)).
Proof.
  intros Hi Hw Hf Ho Hcl Hne Hd%get_reg_Ok Hs%get_reg_Ok Hv Hset%set_reg_Ok.
  pose proof (get_reg_range _ _ _ Hw Hd). pose proof (get_reg_range _ _ _ Hw Hs).
  assert (Ha : exec_alu64 o i (s_reg st) = Ok rs') by (by rewrite (alu64_ref i _ d s Hi Hd Hs) with (v := v)).
  unfold step. rewrite Hf. cbn [of_option mbind res_bind]. unfold exec_inst.
  rewrite Ho, Hcl. cbn [s_reg with_pc].
  apply opcode_of_Some in Ho. rewrite Ho in Hcl.
  destruct o; try discriminate Hcl; cbn -[exec_alu64]; by rewrite Ha.
Qed.

(** C6: the 64-bit arithmetic of the interpreter is the instruction set's:
    for every ALU64 opcode but [EBPF_OP_DIV64_REG], wherever the instruction
    set defines the result, the step succeeds, writes exactly that result to
    the destination and falls through. *)
Theorem step_alu64_conforms call_ext en st i o d s v rs' :
  inst_wf i -> regs_wf (s_reg st) -> zget (e_insts en) (s_pc st) = Some i ->
  opcode_of (i_opcode i) = Some o -> BPF_CLASS (i_opcode i) = EBPF_CLS_ALU64 -> o <> EBPF_OP_DIV64_REG ->
  zget (s_reg st) (i_dst i) = Some d -> zget (s_reg st) (i_src i) = Some s ->
  alu_ref 64 (i_opcode i) d (operand i s) = Some v -> zset (s_reg st) (i_dst i) v = Some rs' ->
  step call_ext en st = Ok (mk_state (u16 (s_pc st + 1)) rs' (s_mem st)).
Proof. exact (step_alu64 call_ext en st i o d s v rs'). Qed.

Lemma step_alu64_conforms_witness :
  step (fun _ _ _ => None) (mk_env [mk_inst 0x07 3 0 0 (-5)] false [] 0 0 0)
    (mk_state 0 (replicate 12 7) empty) =
  Ok (mk_state 1 (<[3%nat := 2]> (replicate 12 7)) empty).
Proof.
  apply (step_alu64_conforms (fun _ _ _ => None) (mk_env [mk_inst 0x07 3 0 0 (-5)] false [] 0 0 0)
    (mk_state 0 (replicate 12 7) empty) (mk_inst 0x07 3 0 0 (-5)) EBPF_OP_ADD64_IMM 7 7 2
    (<[3%nat := 2]> (replicate 12 7)));
    try reflexivity; try discriminate.
  - unfold inst_wf. cbn. lia.
  - split; [reflexivity|]. by repeat constructor.
Defined.

(** C23: the 32-bit arithmetic of the interpreter is the instruction set's on
    the low halves of the operands, with a zero-extended result, wherever
    that is defined; except for ARSH_REG, whose count is the whole source
    register: with a source of 2^32 or more the shift is undefined. *)
Theorem step_alu32_conforms call_ext en st i o d s v rs' :
  inst_wf i -> regs_wf (s_reg st) -> zget (e_insts en) (s_pc st) = Some i ->
  opcode_of (i_opcode i) = Some o -> BPF_CLASS (i_opcode i) = EBPF_CLS_ALU ->
  zget (s_reg st) (i_dst i) = Some d -> zget (s_reg st) (i_src i) = Some s ->
  alu_ref 32 (i_opcode i) (u32 d) (u32 (operand i s)) = Some v ->
  zset (s_reg st) (i_dst i) v = Some rs' ->
  step call_ext en st =
  if bool_decide (o = EBPF_OP_ARSH_REG) && (2 ^ 32 <=? s) then Undef UB_shift
  else Ok (mk_state (u16 (s_pc st + 1)) rs' (s_mem st)).
Proof.
  intros Hi Hw Hf Ho Hcl Hd%get_reg_Ok Hs%get_reg_Ok Hv Hset%set_reg_Ok.
  pose proof (get_reg_range _ _ _ Hw Hd). pose proof (get_reg_range _ _ _ Hw Hs).
  destruct (bool_decide_reflect (o = EBPF_OP_ARSH_REG)) as [Eo|Eo]; [destruct (Z.leb_spec (2 ^ 32) s)|]; cbn [andb].
  1: { unfold step. rewrite Hf. cbn [of_option mbind res_bind]. unfold exec_inst. rewrite Ho, Hcl, Eo. cbn [s_reg with_pc].
    cbn -[get_reg c_shr]. rewrite Hd. cbn -[c_shr get_reg]. rewrite Hs. cbn -[c_shr]. unfold c_shr, shift_ok.
    destruct (Z.ltb_spec s 32); [lia|]. by rewrite andb_false_r. }
  all: assert (Ha : exec_alu32 o i (s_reg st) = Ok rs') by (rewrite (alu32_ref i _ d s Hi Hd Hs) with (v := v); done).
  all: unfold step; rewrite Hf; cbn [of_option mbind res_bind]; unfold exec_inst; rewrite Ho, Hcl; cbn [s_reg with_pc];
    apply opcode_of_Some in Ho; rewrite Ho in Hcl; destruct o; try discriminate Hcl; cbn -[exec_alu32]; by rewrite Ha.
Qed.

Lemma step_alu32_conforms_witness :
  step (fun _ _ _ => None) (mk_env [mk_inst 0xc4 3 0 0 4] false [] 0 0 0)
    (mk_state 0 (replicate 12 0x180000000) empty) =
  Ok (mk_state 1 (<[3%nat := 0xf8000000]> (replicate 12 0x180000000)) empty).
Proof.
  apply (step_alu32_conforms (fun _ _ _ => None) (mk_env [mk_inst 0xc4 3 0 0 4] false [] 0 0 0)
    (mk_state 0 (replicate 12 0x180000000) empty) (mk_inst 0xc4 3 0 0 4) EBPF_OP_ARSH_IMM
    0x180000000 0x180000000 0xf8000000 (<[3%nat := 0xf8000000]> (replicate 12 0x180000000)));
    try reflexivity; try discriminate.
  - unfold inst_wf. cbn. lia.
  - split; [reflexivity|]. by repeat constructor.
Defined.

(** ** Division by a register *)

Definition is_div_reg (o : opcode) : bool :=
  match o with
  | EBPF_OP_DIV_REG | EBPF_OP_MOD_REG | EBPF_OP_DIV64_REG | EBPF_OP_MOD64_REG => true
  | _ => false
  end.

(** The error path of the register divisions: a zero source register makes
    the interpreter return 2^64 - 1 from the whole program, whatever the
    destination holds; but the guard of the 32-bit forms tests the whole
    register, so a nonzero source whose low half is zero divides by zero. *)
Theorem step_div_reg_zero call_ext en st i o d s :
  regs_wf (s_reg st) -> zget (e_insts en) (s_pc st) = Some i -> opcode_of (i_opcode i) = Some o ->
  is_div_reg o = true ->
  zget (s_reg st) (i_dst i) = Some d -> zget (s_reg st) (i_src i) = Some s ->
  (s = 0 -> step call_ext en st = Ret (2 ^ 64 - 1)) /\
  (BPF_CLASS (i_opcode i) = EBPF_CLS_ALU -> s <> 0 -> u32 s = 0 ->
   step call_ext en st = Undef UB_div).
Proof.
  intros Hw Hf Ho Hdiv Hd%get_reg_Ok Hs%get_reg_Ok.
  unfold step. rewrite Hf. cbn [of_option mbind res_bind]. unfold exec_inst. rewrite Ho.
  apply opcode_of_Some in Ho. rewrite Ho. split; [intros ->|intros Hcl Hne Hz];
    destruct o; try discriminate Hdiv; try discriminate Hcl; cbn -[get_reg u32];
    rewrite ?Hd, Hs; cbn -[get_reg u32]; try reflexivity;
    (destruct (Z.eqb_spec s 0); [contradiction|]); rewrite ?Hd; cbn -[u32];
    unfold c_div, c_mod; by rewrite Hz.
Qed.

Lemma step_div_reg_zero_witness :
  step (fun _ _ _ => None) (mk_env [mk_inst 0x3c 1 2 0 0] false [] 0 0 0)
    (mk_state 0 (<[2%nat := 2 ^ 32]> (replicate 12 7)) empty) = Undef UB_div.
Proof.
  apply (step_div_reg_zero (fun _ _ _ => None) (mk_env [mk_inst 0x3c 1 2 0 0] false [] 0 0 0)
    (mk_state 0 (<[2%nat := 2 ^ 32]> (replicate 12 7)) empty) (mk_inst 0x3c 1 2 0 0)
    EBPF_OP_DIV_REG 7 (2 ^ 32)); try reflexivity; try discriminate.
  split; [reflexivity|]. by repeat constructor.
Defined.

(** The 64-bit division by a register divides by the immediate field: for
    a nonzero source register the quotient does not depend on it. *)
Theorem div64_reg_divides_by_imm call_ext en st i d s :
  regs_wf (s_reg st) -> zget (e_insts en) (s_pc st) = Some i ->
  opcode_of (i_opcode i) = Some EBPF_OP_DIV64_REG ->
  zget (s_reg st) (i_dst i) = Some d -> zget (s_reg st) (i_src i) = Some s -> s <> 0 ->
  step call_ext en st =
  if u64 (i_imm i) =? 0 then Undef UB_div
  else Ok (mk_state (u16 (s_pc st + 1)) (<[Z.to_nat (i_dst i) := d / u64 (i_imm i)]> (s_reg st)) (s_mem st)).
Proof.
  intros Hw Hf Ho Hd Hs Hne. pose proof (zget_Some _ _ _ Hd) as Hr.
  apply get_reg_Ok in Hd, Hs.
  unfold step. rewrite Hf. cbn [of_option mbind res_bind]. unfold exec_inst. rewrite Ho.
  apply opcode_of_Some in Ho. rewrite Ho. cbn -[get_reg set_reg u64]. rewrite Hs. cbn -[get_reg set_reg u64].
  destruct (Z.eqb_spec s 0); [contradiction|]. rewrite Hd. cbn -[set_reg u64]. unfold c_div.
  destruct (u64 (i_imm i) =? 0); [done|]. cbn -[set_reg u64]. unfold set_reg.
  by rewrite zset_is_Some.
Qed.

Lemma div64_reg_divides_by_imm_witness :
  step (fun _ _ _ => None) (mk_env [mk_inst 0x3f 1 2 0 2] false [] 0 0 0)
    (mk_state 0 (<[2%nat := 5]> (replicate 12 100)) empty) =
  Ok (mk_state 1 (<[1%nat := 50]> (<[2%nat := 5]> (replicate 12 100))) empty).
Proof.
  apply (div64_reg_divides_by_imm (fun _ _ _ => None) (mk_env [mk_inst 0x3f 1 2 0 2] false [] 0 0 0)
    (mk_state 0 (<[2%nat := 5]> (replicate 12 100)) empty) (mk_inst 0x3f 1 2 0 2) 100 5);
    try reflexivity; try discriminate.
  split; [reflexivity|]. by repeat constructor.
Defined.

(** ** Jumps *)

Inductive jmp_op : Set :=
  | Jeq | Jgt | Jge | Jset | Jne | Jsgt | Jsge | Jlt | Jle | Jslt | Jsle.

Definition jmp_op_of (op : Z) : option jmp_op :=
  list_to_map (M := gmap Z jmp_op)
    [(0x10, Jeq); (0x20, Jgt); (0x30, Jge); (0x40, Jset); (0x50, Jne); (0x60, Jsgt); (0x70, Jsge);
     (0xa0, Jlt); (0xb0, Jle); (0xc0, Jslt); (0xd0, Jsle)] !! op.

Definition jmp_sem (op : jmp_op) (d x : Z) : bool :=
  match op with
  | Jeq => d =? x
  | Jgt => x <? d
  | Jge => x <=? d
  | Jset => negb (d .& x =? 0)
  | Jne => negb (d =? x)
  | Jsgt => s64 x <? s64 d
  | Jsge => s64 x <=? s64 d
  | Jlt => d <? x
  | Jle => d <=? x
  | Jslt => s64 d <? s64 x
  | Jsle => s64 d <=? s64 x
  end.

(** The unsigned orders, which the interpreter takes against [(u32)IMM]. *)
Definition unsigned_order (o : opcode) : bool :=
  match o with
  | EBPF_OP_JGT_IMM | EBPF_OP_JGE_IMM | EBPF_OP_JLT_IMM | EBPF_OP_JLE_IMM => true
  | _ => false
  end.

(** What the interpreter compares the destination with: the source register,
    or the immediate, which the instruction set extends by its sign and the
    unsigned orders of the interpreter by zeroes. *)
Definition jump_operand (i : ebpf_inst) (y : Z) : Z :=
  match opcode_of (i_opcode i) with
  | Some o => if unsigned_order o then u32 (i_imm i) else operand i y
  | None => 0
  end.

Lemma s64_u64_imm (x : Z) : - 2 ^ 31 <= x < 2 ^ 31 -> s64 (u64 x) = x.
Proof. intros H. unfold s64, u64. rewrite sext_wrap. apply sext_small; lia. Qed.

Lemma jump_taken_ref (o : opcode) (i : ebpf_inst) (rs : list Z) (d s : Z) (op : jmp_op) :
  inst_wf i -> opcode_of (i_opcode i) = Some o -> BPF_CLASS (i_opcode i) = EBPF_CLS_JMP ->
  get_reg rs (i_dst i) = Ok d -> get_reg rs (i_src i) = Ok s ->
  jmp_op_of (BPF_OP (i_opcode i)) = Some op ->
  jump_taken o i rs = Ok (jmp_sem op d (jump_operand i s)).
Proof.
  intros (_ & _ & _ & _ & Himm) Ho Hcl Hd Hs Hop. unfold jump_operand. rewrite Ho. apply opcode_of_Some in Ho.
  unfold operand. rewrite Ho in Hcl, Hop |- *.
  destruct o; try discriminate Hcl; try discriminate Hop; clear Hcl;
    cbn [jump_taken]; rewrite ?Hd, ?Hs; cbn [mbind res_bind];
    match type of Hop with jmp_op_of ?c = _ =>
      let v := eval vm_compute in (jmp_op_of c) in change (v = Some op) in Hop end;
    injection Hop as <-; cbn [jmp_sem unsigned_order];
    try match goal with |- context [BPF_SRC ?a =? ?b] =>
      let c := eval vm_compute in (BPF_SRC a =? b) in change (BPF_SRC a =? b) with c; cbn iota
    end; rewrite ?s64_u64_imm by done; reflexivity.
Qed.

(** C7: a conditional jump goes to its target when the comparison its opcode
    names holds of the destination and the operand, and to the next instruction
    otherwise; it changes neither a register nor memory.  The operand is the
    source register or the immediate, extended by its sign for the comparisons
    for equality, of bits and of signed values as the instruction set has it,
    but by zeroes for JGT, JGE, JLT and JLE, for which a negative immediate of
    the instruction set is one of at least 2^64 - 2^31. *)
Theorem step_jump_conforms call_ext en st i o d s op :
  inst_wf i -> zget (e_insts en) (s_pc st) = Some i ->
  opcode_of (i_opcode i) = Some o -> BPF_CLASS (i_opcode i) = EBPF_CLS_JMP ->
  zget (s_reg st) (i_dst i) = Some d -> zget (s_reg st) (i_src i) = Some s ->
  jmp_op_of (BPF_OP (i_opcode i)) = Some op ->
  step call_ext en st =
  Ok (mk_state (if jmp_sem op d (jump_operand i s) then u16 (s_pc st + 1 + i_offset i) else u16 (s_pc st + 1))
        (s_reg st) (s_mem st)) /\
  jump_operand i s = if unsigned_order o then u32 (i_imm i) else operand i s.
Proof.
  intros Hi Hf Ho Hcl Hd%get_reg_Ok Hs%get_reg_Ok Hop. split; [|unfold jump_operand; by rewrite Ho].
  pose proof (jump_taken_ref o i _ d s op Hi Ho Hcl Hd Hs Hop) as Hj.
  unfold step. rewrite Hf. cbn [of_option mbind res_bind]. unfold exec_inst. rewrite Ho, Hcl.
  apply opcode_of_Some in Ho. rewrite Ho in Hcl, Hop.
  destruct o; try discriminate Hcl; try discriminate Hop; cbn -[exec_jump s64 u64 u16];
    unfold exec_jump; cbn [s_reg with_pc]; rewrite Hj; cbn -[s64 u64 u16]; destruct (jmp_sem _ _ _); unfold with_pc; cbn -[s64 u64 u16];
    unfold u16; by rewrite ?wrap_add_l.
Qed.

Lemma step_jump_conforms_witness :
  step (fun _ _ _ => None) (mk_env [mk_inst 0xc5 3 0 (-1) (-5)] false [] 0 0 0)
    (mk_state 0 (replicate 12 (2 ^ 64 - 7)) empty) =
  Ok (mk_state 0 (replicate 12 (2 ^ 64 - 7)) empty).
Proof.
  apply (proj1 (step_jump_conforms (fun _ _ _ => None) (mk_env [mk_inst 0xc5 3 0 (-1) (-5)] false [] 0 0 0)
    (mk_state 0 (replicate 12 (2 ^ 64 - 7)) empty) (mk_inst 0xc5 3 0 (-1) (-5)) EBPF_OP_JSLT_IMM
    (2 ^ 64 - 7) (2 ^ 64 - 7) Jslt ltac:(unfold inst_wf; cbn; lia) eq_refl eq_refl eq_refl eq_refl eq_refl eq_refl)).
Defined.

(** ** Memory instructions *)

(** The bytes an instruction stores, 0 for those that store none. *)
Definition store_size (o : opcode) : nat :=
  match o with
  | EBPF_OP_STDW | EBPF_OP_STXDW => 8
  | EBPF_OP_STW | EBPF_OP_STXW => 4
  | EBPF_OP_STH | EBPF_OP_STXH => 2
  | EBPF_OP_STB | EBPF_OP_STXB => 1
  | _ => 0
  end.

Definition store_value (i : ebpf_inst) (s : Z) : Z :=
  if BPF_CLASS (i_opcode i) =? EBPF_CLS_ST then i_imm i else s.

(** What a store of [n] bytes at [a] does to memory. *)
Definition stored (n : nat) (a v : Z) (m m' : memory) : Prop :=
  dom m' = dom m /\
  (forall b, (forall k, 0 <= k < Z.of_nat n -> u32 (a + k) <> b) -> m' !! b = m !! b) /\
  load_le n a m' = Some (v mod 2 ^ (8 * Z.of_nat n)).

Lemma store_le_stored (n : nat) (a v : Z) (m m' : memory) :
  Z.of_nat n < 2 ^ 32 -> store_le n a v m = Some m' -> stored n a v m m'.
Proof.
  intros Hn H. split_and!; [by eapply store_le_dom| |by eapply load_store_le].
  intros b Hb. by eapply store_le_frame.
Qed.

Lemma store_val_stored (n : nat) (i : ebpf_inst) (v d : Z) (st st' : vm_state) :
  Z.of_nat n < 2 ^ 32 -> get_reg (s_reg st) (i_dst i) = Ok d -> store_val n i v st = Ok st' ->
  stored n (u32 (d + i_offset i)) v (s_mem st) (s_mem st').
Proof.
  unfold store_val. intros Hn Hd H. rewrite Hd in H. cbn [mbind res_bind] in H. inv_res.
  by apply store_le_stored.
Qed.

Lemma stored_0 (a v : Z) (m : memory) : stored 0 a v m m.
Proof. split_and!; [done|done|]. cbn. by rewrite Z.mod_1_r. Qed.

Lemma stored_mod (n : nat) (a v w : Z) (m m' : memory) :
  v mod 2 ^ (8 * Z.of_nat n) = w mod 2 ^ (8 * Z.of_nat n) -> stored n a v m m' -> stored n a w m m'.
Proof. intros E (H1 & H2 & H3). split_and!; [done..|]. by rewrite <- E. Qed.

Lemma exec_ldst_stored (en : exec_env) (o : opcode) (i : ebpf_inst) (d s : Z) (st st' : vm_state) :
  get_reg (s_reg st) (i_dst i) = Ok d -> get_reg (s_reg st) (i_src i) = Ok s ->
  opcode_of (i_opcode i) = Some o -> exec_ldst en o i st = Ok st' ->
  stored (store_size o) (u32 (d + i_offset i)) (store_value i s) (s_mem st) (s_mem st').
Proof.
  intros Hd Hs Ho%opcode_of_Some H. unfold store_value. rewrite Ho.
  destruct o; cbn [exec_ldst] in H; unfold load_reg, store_reg in H;
    try (lazymatch goal with |- stored (store_size ?o) _ _ _ _ =>
           let n := eval cbn in (store_size o) in lazymatch n with O => inv_res; apply stored_0 end end);
    repeat lazymatch type of H with
    | mbind _ (BOUNDS_CHECK ?en ?i ?r ?n) = Ok _ =>
        destruct (BOUNDS_CHECK en i r n); cbn [mbind res_bind] in H; [|discriminate H..]
    | mbind _ (get_reg _ _) = Ok _ => rewrite Hs in H; cbn [mbind res_bind] in H
    end;
    (apply (fun Hn => store_val_stored _ _ _ _ _ _ Hn Hd) in H; [|done];
     match goal with |- context [BPF_CLASS ?a =? ?b] =>
       let c := eval vm_compute in (BPF_CLASS a =? b) in change (BPF_CLASS a =? b) with c; cbn iota
     end; cbn [store_size];
     lazymatch type of H with
     | stored _ _ (u64 _) _ _ => apply (stored_mod _ _ _ (i_imm i)) in H; [exact H|]; change (8 * Z.of_nat 8) with 64; apply wrap_idemp
     | _ => exact H
     end).
Qed.

(** C22: the footprint of an instruction: a step of any instruction but CALL,
    whose helper may write what it likes, maps and unmaps no address, changes
    no byte but those of the object at DST + offset, of the size of the opcode
    (none for the loads, the arithmetic and the jumps), and leaves there the
    source register, or the immediate, truncated to that size. *)
Theorem step_footprint call_ext en st st' i d s :
  zget (e_insts en) (s_pc st) = Some i -> opcode_of (i_opcode i) <> Some EBPF_OP_CALL ->
  zget (s_reg st) (i_dst i) = Some d -> zget (s_reg st) (i_src i) = Some s ->
  step call_ext en st = Ok st' ->
  stored (from_option store_size 0%nat (opcode_of (i_opcode i))) (u32 (d + i_offset i)) (store_value i s)
    (s_mem st) (s_mem st').
Proof.
  intros Hf Hc Hd%get_reg_Ok Hs%get_reg_Ok H. unfold step in H. rewrite Hf in H.
  cbn [of_option mbind res_bind] in H. unfold exec_inst in H.
  destruct (opcode_of (i_opcode i)) as [o|] eqn:Ho; cbn [from_option].
  2: { injection H as <-. apply stored_0. }
  pose proof (opcode_of_Some _ _ Ho) as Hv. rewrite Hv in H.
  assert (Hls : exec_ldst en o i (with_pc st (u16 (s_pc st + 1))) = Ok st' ->
    stored (store_size o) (u32 (d + i_offset i)) (store_value i s) (s_mem st) (s_mem st')).
  { intros HH. change (s_mem st) with (s_mem (with_pc st (u16 (s_pc st + 1)))).
    eapply exec_ldst_stored; eauto. }
  destruct o; try congruence;
    try (apply Hls; cbn in H |- *; exact H);
    cbn -[exec_alu32 exec_alu64 exec_jump get_reg] in H; unfold exec_jump in H; inv_res; try apply stored_0;
    match goal with |- context [if ?b then _ else _] => destruct b end; apply stored_0.
Qed.

Lemma step_footprint_witness :
  exists st', step (fun _ _ _ => None) (mk_env [mk_inst 0x6b 1 2 2 0] false [] 0 0 0)
    (mk_state 0 (<[1%nat := 0x1000]> (replicate 12 0x12345)) (bytes_at 0x1000 [1; 2; 3; 4; 5] empty)) = Ok st' /\
  stored 2 0x1002 0x12345 (bytes_at 0x1000 [1; 2; 3; 4; 5] empty) (s_mem st').
Proof.
  eexists. split; [reflexivity|].
  apply (step_footprint (fun _ _ _ => None) (mk_env [mk_inst 0x6b 1 2 2 0] false [] 0 0 0)
    (mk_state 0 (<[1%nat := 0x1000]> (replicate 12 0x12345)) (bytes_at 0x1000 [1; 2; 3; 4; 5] empty)) _
    (mk_inst 0x6b 1 2 2 0) 0x1000 0x12345); reflexivity || discriminate.
Defined.

(** ** What the bounds check accepts *)

(** An object of [size] bytes at [a] inside a buffer of [len] bytes at [base]. *)
Definition inside (base len a size : Z) : Prop := base <= a /\ a + size <= base + len.

(** C36: the bounds check counts in words.  For a context and a stack that do
    not wrap around the address space, even counted in words, it accepts an
    access of [size] bytes exactly when [4 * size] bytes from its address lie
    in [4 * mem_len] bytes from the context or [4 * STACK_SIZE] bytes from the
    stack, or when these bytes wrap around and the address is above the start
    of the stack, or of a context that reaches far enough.  It therefore
    accepts every access inside the two buffers (which are [mem_len] and
    [STACK_SIZE] bytes long), and also accesses past the end of either. *)
Theorem bounds_check_exact en addr size :
  e_bounds_check_enabled en = true -> 0 <= size <= 8 -> 0 <= addr < 2 ^ 32 ->
  0 <= e_mem en -> 0 <= e_mem_len en -> e_mem en + 4 * e_mem_len en < 2 ^ 32 ->
  0 <= e_stack en -> e_stack en + 4 * STACK_SIZE < 2 ^ 32 ->
  (bounds_check en addr size = true <->
   if addr + 4 * size <? 2 ^ 32 then
     e_mem en <> 0 /\ inside (e_mem en) (4 * e_mem_len en) addr (4 * size) \/
     inside (e_stack en) (4 * STACK_SIZE) addr (4 * size)
   else
     e_stack en <= addr \/
     e_mem en <> 0 /\ e_mem en <= addr /\ addr + 4 * size - 2 ^ 32 <= e_mem en + 4 * e_mem_len en) /\
  (e_mem en <> 0 /\ inside (e_mem en) (e_mem_len en) addr size \/
   inside (e_stack en) STACK_SIZE addr size -> bounds_check en addr size = true).
Proof.
  intros He Hs Ha Hm Hl Hmw Hst Hsw.
  assert (Hw : u32 (addr + 4 * size) = if addr + 4 * size <? 2 ^ 32 then addr + 4 * size else addr + 4 * size - 2 ^ 32).
  { destruct (Z.ltb_spec (addr + 4 * size) (2 ^ 32)); [apply u32_small; lia|].
    unfold u32, wrap. symmetry. apply Z.mod_unique with 1; lia. }
  assert (Hiff : bounds_check en addr size = true <->
    e_mem en <> 0 /\ e_mem en <= addr /\ u32 (addr + 4 * size) <= e_mem en + 4 * e_mem_len en \/
    e_stack en <= addr /\ u32 (addr + 4 * size) <= e_stack en + 4 * STACK_SIZE).
  { unfold bounds_check, STACK_SIZE in *. rewrite He, (u32_small (e_mem en + _)), (u32_small (e_stack en + _)) by lia. cbn [negb].
    destruct (Z.eqb_spec (e_mem en) 0), (Z.leb_spec (e_mem en) addr),
      (Z.leb_spec (u32 (addr + 4 * size)) (e_mem en + 4 * e_mem_len en)),
      (Z.leb_spec (e_stack en) addr), (Z.leb_spec (u32 (addr + 4 * size)) (e_stack en + 4 * 128));
      cbn; split; intros; (lia || done). }
  rewrite Hiff, Hw. unfold inside, STACK_SIZE in *. destruct (Z.ltb_spec (addr + 4 * size) (2 ^ 32)); lia.
Qed.

(** The last byte the check lets a program with a 4-byte context at 0x2000
    load is 12 bytes past the context's end. *)
Lemma bounds_check_exact_witness :
  bounds_check (mk_env [] true [] 0x2000 4 0x1000) 0x200c 1 = true.
Proof.
  refine (proj2 (proj1 (bounds_check_exact (mk_env [] true [] 0x2000 4 0x1000) 0x200c 1 eq_refl _ _ _ _ _ _ _)) _);
    unfold STACK_SIZE; cbn [e_mem e_mem_len e_stack]; try lia.
  change (0x200c + 4 * 1 <? 2 ^ 32) with true. cbv iota. left. split; [discriminate|]. unfold inside. lia.
Defined.

(** The store instructions test the bounds of the wrong pointer: with the
    check enabled, a store of any size is performed wherever the destination
    register points (at a mapped object), provided that the address formed
    with the SOURCE register is in bounds. *)
Theorem store_checks_source call_ext en st i o d s :
  zget (e_insts en) (s_pc st) = Some i -> opcode_of (i_opcode i) = Some o -> (0 < store_size o)%nat ->
  zget (s_reg st) (i_dst i) = Some d -> zget (s_reg st) (i_src i) = Some s ->
  bounds_check en (u32 (s + i_offset i)) (Z.of_nat (store_size o)) = true ->
  (forall k, 0 <= k < Z.of_nat (store_size o) -> is_Some (s_mem st !! u32 (u32 (d + i_offset i) + k))) ->
  exists st', step call_ext en st = Ok st' /\
    stored (store_size o) (u32 (d + i_offset i)) (store_value i s) (s_mem st) (s_mem st').
Proof.
  intros Hf Ho Hsz Hd%get_reg_Ok Hs%get_reg_Ok Hb Hmap.
  unfold step. rewrite Hf. cbn [of_option mbind res_bind]. unfold exec_inst. rewrite Ho.
  pose proof (opcode_of_Some _ _ Ho) as Hv. rewrite Hv.
  set (st1 := with_pc st (u16 (s_pc st + 1))).
  assert (Hls : exists st', exec_ldst en o i st1 = Ok st').
  { destruct o; try (cbn in Hsz; lia);
      unfold exec_ldst, BOUNDS_CHECK, store_reg, store_val;
      change (s_reg st1) with (s_reg st); rewrite ?Hs; cbn [mbind res_bind];
      cbn [store_size] in *; change (Z.of_nat 8) with 8 in *; change (Z.of_nat 4) with 4 in *;
      change (Z.of_nat 2) with 2 in *; change (Z.of_nat 1) with 1 in *;
      rewrite Hb; cbn [mbind res_bind]; rewrite Hd; cbn [mbind res_bind]; change (s_mem st1) with (s_mem st);
      match goal with |- context [store_le ?n ?a ?v ?m] =>
        destruct (store_le_is_Some n a v m) as [m' ->]; [exact Hmap|] end; by eexists. }
  destruct Hls as [st' Hls]. exists st'. split.
  - destruct o; try (cbn in Hsz; lia); cbn in Hls |- *; exact Hls.
  - change (s_mem st) with (s_mem st1). by eapply exec_ldst_stored.
Qed.

Lemma store_checks_source_witness :
  exists st', step (fun _ _ _ => None) (mk_env [mk_inst 0x73 1 2 0 0] true [] 0x2000 4 0x1000)
    (mk_state 0 (<[1%nat := 0x5000]> (replicate 12 0x2000)) (bytes_at 0x5000 [7] empty)) = Ok st' /\
  stored 1 0x5000 0x2000 (bytes_at 0x5000 [7] empty) (s_mem st').
Proof.
  apply (store_checks_source (fun _ _ _ => None) (mk_env [mk_inst 0x73 1 2 0 0] true [] 0x2000 4 0x1000)
    (mk_state 0 (<[1%nat := 0x5000]> (replicate 12 0x2000)) (bytes_at 0x5000 [7] empty))
    (mk_inst 0x73 1 2 0 0) EBPF_OP_STXB 0x5000 0x2000); try reflexivity; [cbn; lia|].
  intros k Hk. cbn in Hk. assert (k = 0) as -> by lia. by eexists.
Defined.
