(* ===== verification/EbpfTurns.v ===== *)
(** * Turns of the interpreter on known instructions

    What is needed to follow the interpreter through a given program: one lemma
    per kind of instruction, and the tactic [turns], which makes as many turns
    as the registers decide.  A run is described by [run_result]. *)

From stdpp Require Import relations sorting.
From S2P Require Import Prelude Mem EbpfInst EbpfVm EbpfVmProps.

(** A path given by its states. *)
Lemma sorted_nsteps {A} (R : A -> A -> Prop) (l : list A) (x y : A) :
  hd_error l = Some x -> Sorted R (l ++ [y]) -> nsteps R (length l) x y.
Proof.
  revert x. induction l as [|z l IH]; intros x Hx H; [discriminate Hx|]. injection Hx as ->.
  apply Sorted_inv in H as [H Hd]. cbn [length]. destruct l as [|z l].
  - apply HdRel_inv in Hd. by apply nsteps_once.
  - apply HdRel_inv in Hd. eapply nsteps_l; [exact Hd|by apply IH].
Qed.

Section Turns.
Context (ce : Z -> list Z -> memory -> option (Z * memory)) (en : exec_env).

Ltac class_case Hc :=
  first [ rewrite Hc; reflexivity
        | exfalso; match goal with Ho : opcode_of _ = Some _ |- _ => apply opcode_of_Some in Ho; rewrite Ho in Hc end;
          vm_compute in Hc; discriminate Hc ].

Lemma exec_inst_alu64 (i : ebpf_inst) (o : opcode) (st : vm_state) :
  opcode_of (i_opcode i) = Some o -> BPF_CLASS (i_opcode i) = EBPF_CLS_ALU64 ->
  exec_inst ce en i st = (rs ← exec_alu64 o i (s_reg st); Ok (with_reg st rs)).
Proof. intros Ho Hc. unfold exec_inst. rewrite Ho. destruct o; class_case Hc. Qed.

Lemma exec_inst_ldx (i : ebpf_inst) (o : opcode) (st : vm_state) :
  opcode_of (i_opcode i) = Some o -> BPF_CLASS (i_opcode i) = EBPF_CLS_LDX ->
  exec_inst ce en i st = exec_ldst en o i st.
Proof. intros Ho Hc. unfold exec_inst. rewrite Ho. destruct o; class_case Hc. Qed.

Lemma exec_inst_ld (i : ebpf_inst) (o : opcode) (st : vm_state) :
  opcode_of (i_opcode i) = Some o -> BPF_CLASS (i_opcode i) = EBPF_CLS_LD ->
  exec_inst ce en i st = exec_ldst en o i st.
Proof. intros Ho Hc. unfold exec_inst. rewrite Ho. destruct o; class_case Hc. Qed.

Lemma exec_inst_jump (i : ebpf_inst) (o : opcode) (st : vm_state) :
  opcode_of (i_opcode i) = Some o -> BPF_CLASS (i_opcode i) = EBPF_CLS_JMP -> o <> EBPF_OP_CALL -> o <> EBPF_OP_EXIT ->
  exec_inst ce en i st = exec_jump o i st.
Proof. intros Ho Hc Hn1 Hn2. unfold exec_inst. rewrite Ho. destruct o; try done; class_case Hc. Qed.

Lemma turn_step (pc : Z) (rs : list Z) (m : memory) (i : ebpf_inst) (st' : vm_state) :
  zget (e_insts en) pc = Some i -> exec_inst ce en i (mk_state (u16 (pc + 1)) rs m) = Ok st' ->
  turn ce en (mk_state pc rs m) st'.
Proof. intros Hi He. unfold turn, step. cbn [s_pc]. rewrite Hi. exact He. Qed.

Lemma turn_alu64 (pc : Z) (rs rs' : list Z) (m : memory) (i : ebpf_inst) (o : opcode) :
  zget (e_insts en) pc = Some i -> opcode_of (i_opcode i) = Some o -> BPF_CLASS (i_opcode i) = EBPF_CLS_ALU64 ->
  exec_alu64 o i rs = Ok rs' -> turn ce en (mk_state pc rs m) (mk_state (u16 (pc + 1)) rs' m).
Proof.
  intros Hi Ho Hc He. apply (turn_step _ _ _ i); [done|]. rewrite (exec_inst_alu64 i o) by done. cbn [s_reg]. by rewrite He.
Qed.

Lemma turn_jump (pc : Z) (rs : list Z) (m : memory) (i : ebpf_inst) (o : opcode) (b : bool) :
  zget (e_insts en) pc = Some i -> opcode_of (i_opcode i) = Some o -> BPF_CLASS (i_opcode i) = EBPF_CLS_JMP ->
  o <> EBPF_OP_CALL -> o <> EBPF_OP_EXIT -> jump_taken o i rs = Ok b ->
  turn ce en (mk_state pc rs m) (mk_state (if b then u16 (u16 (pc + 1) + i_offset i) else u16 (pc + 1)) rs m).
Proof.
  intros Hi Ho Hc H1 H2 Hj. apply (turn_step _ _ _ i); [done|]. rewrite (exec_inst_jump i o) by done.
  unfold exec_jump. cbn [s_reg]. rewrite Hj. by destruct b.
Qed.

(** The loads; all but the one of a word test the bounds. *)
Definition load_size (o : opcode) : option nat :=
  match o with
  | EBPF_OP_LDXW => Some 4%nat | EBPF_OP_LDXDW => Some 8%nat | EBPF_OP_LDXH => Some 2%nat | EBPF_OP_LDXB => Some 1%nat
  | _ => None
  end.

Lemma turn_load (pc s v : Z) (rs rs' : list Z) (m : memory) (i : ebpf_inst) (o : opcode) (n : nat) :
  e_bounds_check_enabled en = false ->
  zget (e_insts en) pc = Some i -> opcode_of (i_opcode i) = Some o -> load_size o = Some n ->
  zget rs (i_src i) = Some s -> load_le n (u32 (s + i_offset i)) m = Some v -> zset rs (i_dst i) v = Some rs' ->
  turn ce en (mk_state pc rs m) (mk_state (u16 (pc + 1)) rs' m).
Proof.
  intros Hb Hi Ho Hn Hs Hv Hset. apply (turn_step _ _ _ i); [done|].
  assert (BPF_CLASS (i_opcode i) = EBPF_CLS_LDX) as Hc.
  { apply opcode_of_Some in Ho. rewrite Ho. by destruct o. }
  rewrite (exec_inst_ldx i o) by done.
  destruct o; try discriminate Hn; injection Hn as <-; cbn [exec_ldst]; unfold BOUNDS_CHECK, bounds_check;
    rewrite ?Hb; cbn [negb]; unfold load_reg, get_reg, set_reg; cbn [s_reg s_mem]; rewrite Hs;
    cbn [of_option mbind res_bind]; rewrite Hv; cbn [of_option mbind res_bind]; by rewrite Hset.
Qed.

Lemma turn_ldxw (pc s v : Z) (rs rs' : list Z) (m : memory) (i : ebpf_inst) :
  zget (e_insts en) pc = Some i -> opcode_of (i_opcode i) = Some EBPF_OP_LDXW -> BPF_CLASS (i_opcode i) = EBPF_CLS_LDX ->
  zget rs (i_src i) = Some s -> load_le 4 (u32 (s + i_offset i)) m = Some v -> zset rs (i_dst i) v = Some rs' ->
  turn ce en (mk_state pc rs m) (mk_state (u16 (pc + 1)) rs' m).
Proof.
  intros Hi Ho Hc Hs Hv Hset. apply (turn_step _ _ _ i); [done|]. rewrite (exec_inst_ldx i EBPF_OP_LDXW) by done.
  cbn [exec_ldst]. unfold load_reg, get_reg, set_reg. cbn [s_reg s_mem]. rewrite Hs. cbn [of_option mbind res_bind].
  rewrite Hv. cbn [of_option mbind res_bind]. by rewrite Hset.
Qed.

Lemma turn_lddw (pc : Z) (rs rs' : list Z) (m : memory) (i i2 : ebpf_inst) :
  zget (e_insts en) pc = Some i -> opcode_of (i_opcode i) = Some EBPF_OP_LDDW -> zget (e_insts en) (u16 (pc + 1)) = Some i2 ->
  zset rs (i_dst i) (u32 (i_imm i) .| (u32 (i_imm i2) << 32)) = Some rs' ->
  turn ce en (mk_state pc rs m) (mk_state (u16 (u16 (pc + 1) + 1)) rs' m).
Proof.
  intros Hi Ho Hi2 Hset. apply (turn_step _ _ _ i); [done|].
  assert (BPF_CLASS (i_opcode i) = EBPF_CLS_LD) as Hc by (apply opcode_of_Some in Ho; by rewrite Ho).
  rewrite (exec_inst_ld i EBPF_OP_LDDW) by done. cbn [exec_ldst s_pc s_reg]. rewrite Hi2. cbn [of_option mbind res_bind].
  unfold set_reg. rewrite Hset. done.
Qed.

Lemma exit_returns (n : nat) (pc v : Z) (rs : list Z) (m : memory) (i : ebpf_inst) :
  zget (e_insts en) pc = Some i -> opcode_of (i_opcode i) = Some EBPF_OP_EXIT -> zget rs 0 = Some v ->
  run_result ce en (S n) (mk_state pc rs m) (Returned v m).
Proof.
  intros Hi Ho Hv. exists 0%nat, (mk_state pc rs m). split; [lia|]. split; [constructor|]. split; [|done].
  unfold step. cbn [s_pc]. rewrite Hi. cbn [of_option mbind res_bind]. unfold exec_inst. rewrite Ho.
  cbn [with_pc s_reg]. unfold get_reg. by rewrite Hv.
Qed.

Lemma run_result_steps (k n : nat) (st st' : vm_state) (r : outcome) :
  nsteps (turn ce en) k st st' -> run_result ce en n st' r -> run_result ce en (k + n) st r.
Proof.
  induction 1 as [|k x y z Hxy _ IH]; intros Hr; [done|]. apply (run_result_step _ _ _ _ y); [done|]. by apply IH.
Qed.

(** *** Partial correctness

    [ends n st Q]: when the run from [st] returns within [n] turns, [Q] holds
    of what it returns and of the memory. *)

Definition ends (n : nat) (st : vm_state) (Q : Z -> memory -> Prop) : Prop :=
  forall v m', run_result ce en n st (Returned v m') -> Q v m'.

Lemma ends_0 (st : vm_state) (Q : Z -> memory -> Prop) : ends 0 st Q.
Proof. intros v m' (k & st' & Hk & _). lia. Qed.

Lemma ends_step (n : nat) (st st' : vm_state) (Q : Z -> memory -> Prop) :
  turn ce en st st' -> ends (n - 1) st' Q -> ends n st Q.
Proof.
  intros Ht He v m' (k & st2 & Hk & Hsteps & Hret & Hm). apply He.
  inversion Hsteps as [|k' ? st1 ? Hst Hrest]; subst; [unfold turn in Ht; congruence|].
  assert (st1 = st') as -> by (unfold turn in *; congruence).
  exists k', st2. split; [lia|by split].
Qed.

Lemma ends_stuck (n : nat) (st : vm_state) (u : ub) (Q : Z -> memory -> Prop) : step ce en st = Undef u -> ends n st Q.
Proof.
  intros Hu v m' (k & st2 & Hk & Hsteps & Hret & Hm).
  inversion Hsteps as [|k' ? st1 ? Hst Hrest]; subst; unfold turn in *; congruence.
Qed.

Lemma ends_exit (n : nat) (pc v : Z) (rs : list Z) (m : memory) (i : ebpf_inst) (Q : Z -> memory -> Prop) :
  zget (e_insts en) pc = Some i -> opcode_of (i_opcode i) = Some EBPF_OP_EXIT -> zget rs 0 = Some v -> Q v m ->
  ends n (mk_state pc rs m) Q.
Proof.
  intros Hi Ho Hv HQ v' m' (k & st2 & Hk & Hsteps & Hret & Hm).
  assert (step ce en (mk_state pc rs m) = Ret v) as Hs.
  { unfold step. cbn [s_pc]. rewrite Hi. cbn [of_option mbind res_bind]. unfold exec_inst. rewrite Ho.
    cbn [with_pc s_reg]. unfold get_reg. by rewrite Hv. }
  inversion Hsteps as [|k' ? st1 ? Hst Hrest]; subst; [|unfold turn in *; congruence].
  rewrite Hs in Hret. by injection Hret as <-.
Qed.

(** A load from where nothing is mapped. *)
Lemma ends_load_fault (n k : nat) (pc s : Z) (rs : list Z) (m : memory) (i : ebpf_inst) (o : opcode) (Q : Z -> memory -> Prop) :
  e_bounds_check_enabled en = false ->
  zget (e_insts en) pc = Some i -> opcode_of (i_opcode i) = Some o -> load_size o = Some k ->
  zget rs (i_src i) = Some s -> load_le k (u32 (s + i_offset i)) m = None -> ends n (mk_state pc rs m) Q.
Proof.
  intros Hb Hi Ho Hn Hs Hv. apply (ends_stuck _ _ UB_mem). unfold step. cbn [s_pc]. rewrite Hi. cbn [of_option mbind res_bind].
  assert (BPF_CLASS (i_opcode i) = EBPF_CLS_LDX) as Hc.
  { apply opcode_of_Some in Ho. rewrite Ho. by destruct o. }
  rewrite (exec_inst_ldx i o) by done.
  destruct o; try discriminate Hn; injection Hn as <-; cbn [exec_ldst]; unfold BOUNDS_CHECK, bounds_check;
    rewrite ?Hb; cbn [negb]; unfold load_reg, get_reg; cbn [with_pc s_reg s_mem]; rewrite Hs;
    cbn [of_option mbind res_bind]; by rewrite Hv.
Qed.

Lemma exec_ends (reg0 : list Z) (m m' : memory) (v : Z) (Q : Z -> memory -> Prop) :
  (forall n, ends n (init_state en reg0 m) Q) -> ebpf_vm_exec ce en reg0 m = Returned v m' -> Q v m'.
Proof.
  intros He Hrun. apply (He (turns_left 0)). rewrite <- Hrun. apply run_correct; [unfold MAX_ITERS; lia|].
  unfold turns_left, exec_fuel. rewrite Z.sub_0_r. done.
Qed.

(** *** Total correctness

    [comes_to n st Q]: the run from [st] returns within [n] turns, and [Q] holds
    of what it returns and of the memory. *)
Definition comes_to (n : nat) (st : vm_state) (Q : Z -> memory -> Prop) : Prop :=
  exists v m', run_result ce en n st (Returned v m') /\ Q v m'.

Lemma comes_to_step (n : nat) (st st' : vm_state) (Q : Z -> memory -> Prop) :
  turn ce en st st' -> comes_to n st' Q -> comes_to (S n) st Q.
Proof. intros Ht (v & m' & Hr & HQ). exists v, m'. split; [|done]. by apply (run_result_step _ _ _ _ st'). Qed.

Lemma comes_to_exit (n : nat) (pc v : Z) (rs : list Z) (m : memory) (i : ebpf_inst) (Q : Z -> memory -> Prop) :
  zget (e_insts en) pc = Some i -> opcode_of (i_opcode i) = Some EBPF_OP_EXIT -> zget rs 0 = Some v -> Q v m ->
  comes_to (S n) (mk_state pc rs m) Q.
Proof. intros Hi Ho Hv HQ. exists v, m. split; [|done]. by apply (exit_returns n pc v rs m i). Qed.

Lemma comes_to_mono (n k : nat) (st : vm_state) (Q R : Z -> memory -> Prop) :
  (n <= k)%nat -> (forall v m', Q v m' -> R v m') -> comes_to n st Q -> comes_to k st R.
Proof.
  intros Hn HQ (v & m' & (j & st' & Hj & H) & Hq). exists v, m'. split; [|by apply HQ]. exists j, st'. split; [lia|exact H].
Qed.

(** A run that ends before the limit is the execution. *)
Lemma exec_of_run (n : nat) (reg0 : list Z) (m m' : memory) (v : Z) (st : vm_state) :
  init_state en reg0 m = st -> Z.of_nat n <= MAX_ITERS ->
  run_result ce en n st (Returned v m') -> ebpf_vm_exec ce en reg0 m = Returned v m'.
Proof.
  intros Hst Hn (k & st' & Hk & Hsteps & Hret & ->). unfold ebpf_vm_exec. rewrite Hst.
  apply (run_returns ce en k); [done|done|]. unfold MAX_ITERS in *. lia.
Qed.

Lemma exec_of_comes_to (n : nat) (reg0 : list Z) (m : memory) (Q : Z -> memory -> Prop) :
  Z.of_nat n <= MAX_ITERS -> comes_to n (init_state en reg0 m) Q ->
  exists v m', ebpf_vm_exec ce en reg0 m = Returned v m' /\ Q v m'.
Proof. intros Hn (v & m' & Hr & HQ). exists v, m'. split; [|done]. by apply (exec_of_run n reg0 m m' v (init_state en reg0 m)). Qed.
End Turns.

(** ** Following a program

    [turns Hp Hb] makes turns from a state whose program counter and number of
    registers are known, as long as the next instruction is an arithmetic one,
    LDDW or a jump that the registers decide; [Hp] says what the program is.
    [load Hp Hb H] makes a turn at a load whose value [H] gives, and [branch Hp b H]
    one at a jump whose condition is [b] by [H]. *)

Ltac num x := lazymatch x with Z0 => idtac | Zpos _ => idtac | Zneg _ => idtac end.
Ltac fold_const t := let v := eval vm_compute in t in change t with v.
Ltac norm_consts :=
  repeat match goal with
  | |- context [u64 ?a] => num a; fold_const (u64 a)
  | |- context [u32 ?a] => num a; fold_const (u32 a)
  | |- context [wrap ?w ?a] => num w; num a; fold_const (wrap w a)
  | |- context [?a + ?b] => num a; num b; fold_const (a + b)
  | |- context [?a << ?b] => num a; num b; fold_const (a << b)
  | |- context [?a >> ?b] => num a; num b; fold_const (a >> b)
  | |- context [?a .& ?b] => num a; num b; fold_const (a .& b)
  | |- context [?a .| ?b] => num a; num b; fold_const (a .| b)
  end.

Ltac prog_of Hp := lazymatch type of Hp with _ = ?p => p end.
Ltac inst_at Hp pc :=
  let p := prog_of Hp in
  let i := eval vm_compute in (zget p pc) in
  lazymatch i with Some ?i => i end.
Ltac opcode_at i :=
  let o := eval vm_compute in (opcode_of (i_opcode i)) in
  lazymatch o with Some ?o => o end.
Ltac next_pc pc := eval vm_compute in (u16 (pc + 1)).

(** The value of an access to the registers at a known index, and of an
    arithmetic instruction. *)
Ltac eval_regs t :=
  eval lazy beta iota zeta delta [exec_alu64 get_reg set_reg of_option zget zset Z.ltb Z.leb Z.eqb Z.compare Pos.compare Pos.compare_cont
    Pos.eqb andb negb Z.of_nat length Pos.of_succ_nat Pos.succ Z.to_nat Pos.to_nat Pos.iter_op Nat.add insert list_insert lookup list_lookup
    c_shl c_shr shift_ok mbind res_bind i_dst i_src i_imm i_offset i_opcode] in t.

(** The condition of a jump. *)
Ltac eval_cond t :=
  lazymatch t with
  | context C [get_reg ?rs ?k] =>
      let v := eval_regs (get_reg rs k) in
      let t' := context C [v] in
      eval_cond t'
  | _ => eval cbv beta iota delta [mbind res_bind i_imm] in t
  end.
Ltac jump_cond o i rs :=
  let t := eval cbv beta iota zeta delta [jump_taken i_dst i_src] in (jump_taken o i rs) in
  eval_cond t.

Ltac by_prog Hp := rewrite Hp; reflexivity.

(** The goals are runs from a known state; [at_state] gives it to [k], and
    [advance] makes the turn to [st']. *)
Ltac at_state k :=
  lazymatch goal with
  | |- run_result ?ce ?en _ (mk_state ?pc ?rs ?m) _ => k ce en pc rs m
  | |- ends ?ce ?en _ (mk_state ?pc ?rs ?m) _ => k ce en pc rs m
  | |- comes_to ?ce ?en _ (mk_state ?pc ?rs ?m) _ => k ce en pc rs m
  end.
Ltac advance st' :=
  lazymatch goal with
  | |- run_result ?ce ?en _ _ _ => refine (run_result_step ce en _ _ st' _ _ _)
  | |- ends ?ce ?en _ _ _ => refine (ends_step ce en _ _ st' _ _ _)
  | |- comes_to ?ce ?en _ _ _ => refine (comes_to_step ce en _ _ st' _ _ _)
  end.

Ltac turn_alu Hp :=
  at_state ltac:(fun ce en pc rs m =>
    let i := inst_at Hp pc in
    let o := opcode_at i in
    let r := eval_regs (exec_alu64 o i rs) in
    lazymatch r with
    | Ok ?rs' =>
        let pc' := next_pc pc in
        advance (mk_state pc' rs' m);
        [refine (turn_alu64 ce en pc rs rs' m i o _ eq_refl eq_refl eq_refl); by_prog Hp|norm_consts]
    end).

Ltac turn_ld64 Hp :=
  at_state ltac:(fun ce en pc rs m =>
    let i := inst_at Hp pc in
    let pc1 := next_pc pc in
    let i2 := inst_at Hp pc1 in
    let pc' := next_pc pc1 in
    let v := eval vm_compute in (u32 (i_imm i) .| (u32 (i_imm i2) << 32)) in
    let r := eval_regs (zset rs (i_dst i) v) in
    lazymatch r with
    | Some ?rs' =>
        advance (mk_state pc' rs' m);
        [refine (turn_lddw ce en pc rs rs' m i i2 _ eq_refl _ eq_refl); by_prog Hp|]
    end).

Ltac branch Hp b tac :=
  at_state ltac:(fun ce en pc rs m =>
    let i := inst_at Hp pc in
    let o := opcode_at i in
    let r := jump_cond o i rs in
    lazymatch r with
    | Ok ?c =>
        let pc' := eval vm_compute in (if b then u16 (u16 (pc + 1) + i_offset i) else u16 (pc + 1)) in
        advance (mk_state pc' rs m);
        [refine (turn_jump ce en pc rs m i o b _ eq_refl eq_refl _ _ _);
         [by_prog Hp|discriminate|discriminate|refine (f_equal Ok (_ : c = b)); norm_consts; tac]|]
    end).

(** Both ways at a jump, the condition being the hypothesis [E]. *)
Ltac fork Hp E :=
  at_state ltac:(fun ce en pc rs m =>
    let i := inst_at Hp pc in
    let o := opcode_at i in
    let r := jump_cond o i rs in
    lazymatch r with
    | Ok ?c => destruct c eqn:E; [branch Hp true ltac:(exact E)|branch Hp false ltac:(exact E)]
    end).

(** Fails unless the integer, or the condition, is one of numerals. *)
Ltac const x :=
  lazymatch x with
  | Z0 => idtac | Zpos _ => idtac | Zneg _ => idtac
  | u64 ?y => const y | u32 ?y => const y | s64 ?y => const y
  | ?y .& ?z => const y; const z
  end.
Ltac const_cond c :=
  lazymatch c with
  | true => idtac | false => idtac
  | negb ?c => const_cond c
  | ?x <? ?y => const x; const y | ?x <=? ?y => const x; const y | ?x =? ?y => const x; const y
  end.

Ltac turn_cond Hp :=
  at_state ltac:(fun ce en pc rs m =>
    let i := inst_at Hp pc in
    let o := opcode_at i in
    let r := jump_cond o i rs in
    lazymatch r with
    | Ok ?c =>
        let _ := match constr:(Set) with _ => const_cond c end in
        let b := eval vm_compute in c in
        lazymatch b with
        | true => branch Hp true ltac:(reflexivity)
        | false => branch Hp false ltac:(reflexivity)
        end
    end).

Ltac load Hp Hb H :=
  at_state ltac:(fun ce en pc rs m =>
    let i := inst_at Hp pc in
    let o := opcode_at i in
    let n := eval vm_compute in (load_size o) in
    let s := eval_regs (zget rs (i_src i)) in
    lazymatch type of H with
    | _ = Some ?v =>
        let r := eval_regs (zset rs (i_dst i) v) in
        lazymatch n with Some ?n =>
        lazymatch s with Some ?s =>
        lazymatch r with Some ?rs' =>
        let pc' := next_pc pc in
        advance (mk_state pc' rs' m);
        [refine (turn_load ce en pc s v rs rs' m i o n Hb _ eq_refl eq_refl eq_refl _ eq_refl);
         [by_prog Hp|cbn [i_offset]; exact H]|]
        end end end
    end).

Ltac turns Hp := repeat first [turn_alu Hp|turn_ld64 Hp|turn_cond Hp].

(** ** Sign extension of a byte, as compilers write it *)

Lemma byte_cases (P : Z -> bool) :
  forallb P (map Z.of_nat (seq 0 256)) = true -> forall b, 0 <= b < 256 -> P b = true.
Proof.
  intros H b Hb. rewrite forallb_forall in H. apply H, in_map_iff. exists (Z.to_nat b). split; [lia|]. apply in_seq. lia.
Qed.

(** (u32) by a shift to the left and one to the right. *)
Lemma shift_pair (x : Z) : u64 (u64 x << 32) >> 32 = u32 x.
Proof.
  apply Z.bits_inj'. intros i Hi. unfold u64, u32. rewrite Z.shiftr_spec, !testbit_wrap, testbit_shl, testbit_wrap by lia.
  replace (i + 32 - 32) with i by lia. destruct (Z.ltb_spec (i + 32) 64), (Z.ltb_spec i 32), (Z.ltb_spec i 64); try lia; done.
Qed.
