(* ===== verification/Thumb2.v ===== *)
(** * Thumb-2 encoders (libebpf/src/jit_thumb2.h)

    One definition per [_thumb16_*] and [_thumb32_*] function: the instruction
    word it builds.  Register numbers and immediates are the values of the C
    parameters; every result is converted to the return type. *)

From S2P Require Import Prelude.

Definition THUMB2_IT := 0xbf00.
Definition THUMB2_MOV_REG := 0x4600.
Definition THUMB2_MOVS_REG := 0x0000.
Definition THUMB2_MOVW_REG := 0xea4f0000.
Definition THUMB2_ASRW_REG := 0xfa40f000.
Definition THUMB2_ASRW_IMM := 0xea4f0020.
Definition THUMB2_LSLW_REG_T2 := 0xfa00f000.
Definition THUMB2_LSRW_REG := 0xfa20f000.
Definition THUMB2_LSRW_IMM := 0xea4f0010.
Definition THUMB2_ORRW_REG := 0xea400000.
Definition THUMB2_ORR_REG := 0x4300.
Definition THUMB2_EOR_REG_T2 := 0xea800000.
Definition THUMB2_RSBW_REG := 0xebc00000.
Definition THUMB2_RSBW_IMM := 0xf1c00000.
Definition THUMB2_STR_IMM := 0xf8400000.
Definition THUMB2_STRB_IMM_T3 := 0xf8000800.
Definition THUMB2_STRH_IMM_T3 := 0xf8200800.
Definition THUMB2_STRD_IMM := 0xe8400000.
Definition THUMB2_LDRB_IMM_T1 := 0x7800.
Definition THUMB2_LDRB_IMM_T3 := 0xf8100000.
Definition THUMB2_LDR_IMM_T4 := 0xf8500800.
Definition THUMB2_LDRD_IMM := 0xe8500000.
Definition THUMB2_PUSH_T1 := 0xb400.
Definition THUMB2_PUSH_W := 0xe92d0000.
Definition THUMB2_POP_W := 0xe8bd0000.
Definition THUMB2_SUB_IMM_T1 := 0x1e00.
Definition THUMB2_SUB_IMM_T2 := 0x3800.
Definition THUMB2_SUB_REG_T1 := 0x1a00.
Definition THUMB2_SUB_REG_T2 := 0xeba00000.
Definition THUMB2_SUBW_IMM_T4 := 0xf2a00000.
Definition THUMB2_ADD_IMM_T2 := 0x3000.
Definition THUMB2_ADD_IMM_T4 := 0xf2000000.
Definition THUMB2_ADD_REG_T2 := 0x4400.
Definition THUMB2_ADDW_REG := 0xeb000000.
Definition THUMB2_AND_REG_T1 := 0x4000.
Definition THUMB2_AND_REG_T2 := 0xea000000.
Definition THUMB2_CMP_REG_T1 := 0x4280.
Definition THUMB2_CMP_REG_T2 := 0x4500.
Definition THUMB2_CMPW_REG_T3 := 0xebb00f00.
Definition THUMB2_MUL_REG_T2 := 0xfb00f000.
Definition THUMB2_SBCW_REG := 0xeb600000.
Definition THUMB2_B_COND_T1 := 0xd000.
Definition THUMB2_B_T2 := 0xe000.
Definition THUMB2_BLX_REG_T1 := 0x4780.
Definition THUMB2_BW_COND_T3 := 0xf0008000.
Definition THUMB2_BW_T4 := 0xf0009000.
Definition THUMB2_MUL_T2 := 0xfb00f000.
Definition THUMB2_UMULL_T2 := 0xfba00000.
Definition IT_MASK_NONE := 8.
Definition COND_EQ := 0.
Definition COND_NE := 1.
Definition COND_CS := 2.
Definition COND_CC := 3.
Definition COND_MI := 4.
Definition COND_PL := 5.
Definition COND_VS := 6.
Definition COND_VC := 7.
Definition COND_HI := 8.
Definition COND_LS := 9.
Definition COND_GE := 10.
Definition COND_LT := 11.
Definition COND_GT := 12.
Definition COND_LE := 13.
Definition COND_AL := 14.
Definition SRTYPE_LSL := 0.
Definition SRTYPE_LSR := 1.
Definition SRTYPE_ASR := 2.
Definition SRTYPE_ROR := 3.
Definition SRTYPE_ASL := (SRTYPE_LSL).
Definition FLAG_NOS := 0.
Definition FLAG_S := 1.
Definition WBACK_NO := 0.
Definition WBACK_YES := 1.

Definition ARM_R0 := 0.
Definition ARM_R1 := 1.
Definition ARM_R2 := 2.
Definition ARM_R3 := 3.
Definition ARM_R4 := 4.
Definition ARM_R5 := 5.
Definition ARM_R6 := 6.
Definition ARM_R7 := 7.
Definition ARM_R8 := 8.
Definition ARM_R9 := 9.
Definition ARM_R10 := 10.
Definition ARM_FP := 11.
Definition ARM_IP := 12.
Definition ARM_SP := 13.
Definition ARM_LR := 14.
Definition ARM_PC := 15.

Definition CALLEE_MASK : Z :=
  (1 << ARM_R4) .| (1 << ARM_R5) .| (1 << ARM_R6) .| (1 << ARM_R7) .| (1 << ARM_R8) .|
  (1 << ARM_R9) .| (1 << ARM_FP).
Definition CALLEE_PUSH_MASK : Z := CALLEE_MASK .| (1 << ARM_LR).
Definition CALLEE_POP_MASK : Z := CALLEE_MASK .| (1 << ARM_PC).

Definition b2z (b : bool) : Z := if b then 1 else 0.

(** [(x >> n) & m] *)
Definition field (x n m : Z) : Z := (x >> n) .& m.

(** ** Arithmetic and moves *)

Definition _thumb32_UMULL_T2 (RdLo RdHi Rn Rm : Z) : Z :=
  u32 (THUMB2_UMULL_T2 .| (Rn << 16) .| (RdLo << 12) .| (RdHi << 8) .| Rm).

Definition _thumb32_MUL_T2 (Rd Rn Rm : Z) : Z :=
  u32 (THUMB2_MUL_T2 .| (Rn << 16) .| (Rd << 8) .| Rm).

Definition _thumb16_IT_T1 (cond mask : Z) : Z := u16 (THUMB2_IT .| (cond << 4) .| mask).

Definition _thumb32_RSBW_IMM_T2 (Rd Rn shiftImm12 flagS : Z) : Z :=
  let imm8 := shiftImm12 .& 0xff in
  let imm3 := field shiftImm12 8 7 in
  let i := field shiftImm12 11 1 in
  u32 (THUMB2_RSBW_IMM .| (i << 26) .| (flagS << 20) .| (Rn << 16) .| (imm3 << 12) .| (Rd << 8) .| imm8).

Definition _thumb32_RSBW_REG_T1 (Rd Rn Rm shiftImm5 srtype flagS : Z) : Z :=
  let imm2 := shiftImm5 .& 3 in
  let imm3 := field shiftImm5 2 7 in
  u32 (THUMB2_RSBW_REG .| (flagS << 20) .| (Rn << 16) .| (imm3 << 12) .| (Rd << 8) .|
       (imm2 << 6) .| (srtype << 4) .| Rm).

(** ** Branches *)

Definition _thumb16_B_T1 (offImm9 cond : Z) : Z :=
  let imm8 := field offImm9 1 0x00ff in
  u16 (THUMB2_B_COND_T1 .| (cond << 8) .| imm8).

Definition _thumb16_B_T2 (offImm12 : Z) : Z :=
  let imm11 := field offImm12 1 0x7ff in
  u16 (THUMB2_B_T2 .| imm11).

Definition _thumb16_BLX_REG_T1 (Rm : Z) : Z := u16 (THUMB2_BLX_REG_T1 .| (Rm << 3)).

Definition _thumb32_BW_T3 (offImm20 cond : Z) : Z :=
  let S := b2z (offImm20 <? 0) in
  let imm11 := field offImm20 1 0x7ff in
  let imm6 := field offImm20 12 0x3f in
  let J1 := field offImm20 18 1 in
  let J2 := field offImm20 19 1 in
  u32 (THUMB2_BW_COND_T3 .| (S << 26) .| (cond << 22) .| (imm6 << 16) .| (J1 << 13) .| (J2 << 11) .| imm11).

Definition _thumb32_BW_T4 (offImm23 : Z) : Z :=
  let S := b2z (offImm23 <? 0) in
  let imm11 := field offImm23 1 0x7ff in
  let imm10 := field offImm23 12 0x3ff in
  let I1 := field offImm23 18 1 in
  let I2 := field offImm23 19 1 in
  let J1 := (Z.lnot I1 .^ S) .& 1 in
  let J2 := (Z.lnot I2 .^ S) .& 1 in
  u32 (THUMB2_BW_COND_T3 .| (S << 26) .| (imm10 << 16) .| (J1 << 13) .| (J2 << 11) .| imm11).

(** ** Register and immediate data processing *)

Definition _thumb32_SBCW_T2 (Rd Rn Rm shiftImm5 srtype flagS : Z) : Z :=
  let imm3 := field shiftImm5 2 7 in
  let imm2 := shiftImm5 .& 3 in
  u32 (THUMB2_SBCW_REG .| (flagS << 20) .| (Rn << 16) .| (imm3 << 12) .| (Rd << 8) .|
       (imm2 << 6) .| (srtype << 4) .| Rm).

Definition _thumb16_CMP_REG_T1 (Rn Rm : Z) : Z := u16 (THUMB2_CMP_REG_T1 .| (Rm << 3) .| Rn).

Definition _thumb16_CMP_REG_T2 (Rn Rm : Z) : Z :=
  let N := u16 ((Rn .& 8) >> 3) in
  let Rn3 := Rn .& 7 in
  u16 (THUMB2_CMP_REG_T2 .| (N << 7) .| (Rm << 3) .| Rn3).

Definition _thumb32_CMPW_REG_T3 (Rn Rm offImm5 srtype : Z) : Z :=
  let imm3 := field offImm5 2 7 in
  let imm2 := offImm5 .& 3 in
  u32 (THUMB2_CMPW_REG_T3 .| (Rn << 16) .| (imm3 << 12) .| (imm2 << 6) .| (srtype << 4) .| Rm).

Definition _thumb32_MUL_REG_T2 (Rd Rn Rm : Z) : Z :=
  u32 (THUMB2_MUL_REG_T2 .| (Rn << 16) .| (Rd << 8) .| Rm).

Definition _thumb16_ADD_IMM_T2 (RDn imm8 : Z) : Z :=
  let imm := imm8 .& 0xff in
  u16 (THUMB2_ADD_IMM_T2 .| (RDn << 8) .| imm).

Definition _thumb32_ADD_IMM_T4 (Rd Rn imm12 : Z) : Z :=
  let i := field imm12 11 1 in
  let imm3 := field imm12 8 7 in
  let imm8 := imm12 .& 0xff in
  u32 (THUMB2_ADD_IMM_T4 .| (i << 26) .| (Rn << 16) .| (imm3 << 12) .| (Rd << 8) .| imm8).

Definition _thumb16_ADD_REG_T2 (RDn Rm : Z) : Z :=
  let DN := field RDn 3 1 in
  let rdn := RDn .& 7 in
  u16 (THUMB2_ADD_REG_T2 .| (DN << 7) .| (Rm << 3) .| rdn).

Definition _thumb32_ADDW_REG_T3 (Rd Rn Rm offImm5 srtype flagS : Z) : Z :=
  let imm3 := field offImm5 2 7 in
  let imm2 := offImm5 .& 3 in
  u32 (THUMB2_ADDW_REG .| (flagS << 20) .| (Rn << 16) .| (imm3 << 12) .| (Rd << 8) .|
       (imm2 << 6) .| (srtype << 4) .| Rm).

Definition _thumb16_AND_REG_T1 (RDn Rm : Z) : Z := u16 (THUMB2_AND_REG_T1 .| (Rm << 3) .| RDn).

Definition _thumb32_AND_REG_T2 (Rd Rn Rm offImm5 srtype flagS : Z) : Z :=
  let imm3 := field offImm5 2 7 in
  let imm2 := offImm5 .& 3 in
  u32 (THUMB2_AND_REG_T2 .| (flagS << 20) .| (Rn << 16) .| (imm3 << 12) .| (Rd << 8) .|
       (imm2 << 6) .| (srtype << 4) .| Rm).

Definition _thumb16_MOV_REG_T1 (Rd Rm : Z) : Z :=
  let D := field Rd 3 1 in
  let Rd3 := Rd .& 7 in
  u16 (THUMB2_MOV_REG .| (D << 7) .| (Rm << 3) .| Rd3).

Definition _thumb16_MOVS_REG_T2 (Rd Rm : Z) : Z := u16 (THUMB2_MOVS_REG .| (Rm << 3) .| Rd).

Definition _thumb32_MOVW_REG_T3 (Rd Rm flagS : Z) : Z :=
  u32 (THUMB2_MOVW_REG .| (flagS << 20) .| (Rd << 8) .| Rm).

Definition _thumb16_SUB_IMM_T1 (Rd3 Rn3 imm3 : Z) : Z :=
  let imm3 := imm3 .& 7 in
  u16 (THUMB2_SUB_IMM_T1 .| (imm3 << 6) .| (Rn3 << 3) .| Rd3).

Definition _thumb16_SUB_IMM_T2 (Rdn3 imm8 : Z) : Z :=
  let imm8 := imm8 .& 0xff in
  u16 (THUMB2_SUB_IMM_T2 .| (Rdn3 << 8) .| imm8).

(** The parameter flagS is not used; the mask of imm3 is two bits wide. *)
Definition _thumb32_SUBW_IMM_T4 (Rd Rn imm12 flagS : Z) : Z :=
  let i := field imm12 11 1 in
  let imm3 := field imm12 8 3 in
  let imm8 := imm12 .& 0xff in
  u32 (THUMB2_SUBW_IMM_T4 .| (i << 26) .| (Rn << 16) .| (imm3 << 12) .| (Rd << 8) .| imm8).

Definition _thumb16_SUB_REG_T1 (Rd Rn Rm : Z) : Z :=
  u16 (THUMB2_SUB_REG_T1 .| (Rm << 6) .| (Rn << 3) .| Rd).

Definition _thumb32_SUB_REG_T2 (Rd Rn Rm shiftOff5 srtype flagS : Z) : Z :=
  let imm3 := field shiftOff5 2 7 in
  let imm2 := shiftOff5 .& 3 in
  u32 (THUMB2_SUB_REG_T2 .| (flagS << 20) .| (Rn << 16) .| (imm3 << 12) .| (Rd << 8) .|
       (imm2 << 6) .| (srtype << 4) .| Rm).

(** ** Stack, loads and stores *)

Definition _thumb16_PUSH_T1 (reg_mask : Z) : Z :=
  let M := field reg_mask 14 1 in
  let reg_list := reg_mask .& 0xff in
  u16 (THUMB2_PUSH_T1 .| (M << 8) .| reg_list).

Definition _thumb32_PUSHW_T2 (reg_mask : Z) : Z :=
  let M := field reg_mask 14 1 in
  let reg_list := reg_mask .& 0x1fff in
  u32 (THUMB2_PUSH_W .| (M << 14) .| reg_list).

Definition _thumb32_POPW_T2 (reg_mask : Z) : Z :=
  let M := field reg_mask 14 1 in
  let P := field reg_mask 15 1 in
  let reg_list := reg_mask .& 0x1fff in
  u32 (THUMB2_POP_W .| (P << 15) .| (M << 14) .| reg_list).

Definition _thumb16_LDRB_IMM_T1 (Rt Rn offImm5 : Z) : Z :=
  u16 (THUMB2_LDRB_IMM_T1 .| (offImm5 << 6) .| (Rn << 3) .| Rt).

Definition _thumb32_LDRB_IMM_T3 (Rt Rn offImm8 : Z) : Z :=
  let imm8 := if 0 <? offImm8 then offImm8 else - offImm8 in
  let P := 1 in
  let U := b2z (0 <=? offImm8) in
  let W := 0 in
  let flag := 8 .| (P << 2) .| (U << 1) .| W in
  u32 (THUMB2_LDRB_IMM_T3 .| (Rn << 16) .| (Rt << 12) .| (flag << 8) .| imm8).

Definition _thumb32_LDR_IMM_T4 (Rt Rn offImm8 : Z) : Z :=
  let imm8 := if 0 <? offImm8 then offImm8 else - offImm8 in
  let P := b2z (negb (offImm8 =? 0)) in
  let U := b2z (0 <=? offImm8) in
  let W := 0 in
  let flag := (P << 2) .| (U << 1) .| W in
  u32 (THUMB2_LDR_IMM_T4 .| (Rn << 16) .| (Rt << 12) .| (flag << 8) .| imm8).

(** A pair of registers is [(r[0], r[1])]. *)
Definition _thumb32_LDRD_IMM_T1 (Rt : Z * Z) (Rn offImm8 : Z) : Z :=
  let P := b2z (negb (offImm8 =? 0)) in
  let U := b2z (0 <? offImm8) in
  let W := 0 in
  let imm8 := if 0 <? offImm8 then offImm8 else - offImm8 in
  let imm8 := field imm8 2 0xff in
  let flag := 2 .| (P << 3) .| (U << 2) .| W in
  u32 (THUMB2_LDRD_IMM .| (flag << 21) .| (Rn << 16) .| (snd Rt << 12) .| (fst Rt << 8) .| imm8).

Definition _thumb32_STRB_IMM_T3 (Rn Rt offImm8 : Z) : Z :=
  let P := b2z (negb (offImm8 =? 0)) in
  let U := b2z (0 <? offImm8) in
  let W := 0 in
  let imm8 := if 0 <? offImm8 then offImm8 else - offImm8 in
  let flag := 7 .| (P << 2) .| (U << 1) .| W in
  u32 (THUMB2_STRB_IMM_T3 .| (Rn << 16) .| (Rt << 12) .| (flag << 8) .| imm8).

Definition _thumb32_STRH_IMM_T3 (Rn Rt offImm8 : Z) : Z :=
  let P := b2z (negb (offImm8 =? 0)) in
  let U := b2z (0 <? offImm8) in
  let W := 0 in
  let imm8 := if 0 <? offImm8 then offImm8 else - offImm8 in
  let flag := 7 .| (P << 2) .| (U << 1) .| W in
  u32 (THUMB2_STRH_IMM_T3 .| (Rn << 16) .| (Rt << 12) .| (flag << 8) .| imm8).

Definition _thumb32_STRD_IMM_T1 (RnSrc : Z * Z) (RtDst offImm8 : Z) : Z :=
  let P := b2z (negb (offImm8 =? 0)) in
  let U := b2z (0 <? offImm8) in
  let W := 0 in
  let imm8 := if 0 <? offImm8 then offImm8 else - offImm8 in
  let imm8 := field imm8 2 0xff in
  u32 (THUMB2_STRD_IMM .| (P << 24) .| (U << 23) .| (W << 22) .| (RtDst << 16) .|
       (snd RnSrc << 12) .| (fst RnSrc << 8) .| imm8).

(** ** Shifts and logic *)

Definition _thumb32_ASRW_IMM_T2 (Rd Rm imm5 flagS : Z) : Z :=
  let imm3 := field imm5 2 7 in
  let imm2 := imm5 .& 3 in
  u32 (THUMB2_ASRW_IMM .| (flagS << 20) .| (imm3 << 12) .| (Rd << 8) .| (imm2 << 6) .| Rm).

Definition _thumb32_ASRW_REG_T2 (Rd Rn Rm flagS : Z) : Z :=
  u32 (THUMB2_ASRW_REG .| (flagS << 20) .| (Rn << 16) .| (Rd << 8) .| Rm).

Definition _thumb32_LSLW_REG_T2 (Rd Rn Rm flagS : Z) : Z :=
  u32 (THUMB2_LSLW_REG_T2 .| (flagS << 20) .| (Rn << 16) .| (Rd << 8) .| Rm).

Definition _thumb32_LSRW_REG_T2 (Rd Rn Rm flagS : Z) : Z :=
  u32 (THUMB2_LSRW_REG .| (flagS << 20) .| (Rn << 16) .| (Rd << 8) .| Rm).

Definition _thumb32_LSRW_IMM_T2 (Rd Rm shiftImm5 flagS : Z) : Z :=
  if (shiftImm5 <? 0) || (31 <? shiftImm5) then u32 (-1)
  else
    let imm3 := field shiftImm5 2 7 in
    let imm2 := shiftImm5 .& 3 in
    u32 (THUMB2_LSRW_IMM .| (flagS << 20) .| (imm3 << 12) .| (Rd << 8) .| (imm2 << 6) .| Rm).

Definition _thumb16_ORR_REG_T1 (RDn Rm : Z) : Z :=
  let RDn3 := RDn .& 7 in
  let Rm3 := Rm .& 7 in
  u16 (THUMB2_ORR_REG .| (RDn3 << 4) .| Rm3).

Definition _thumb32_EOR_REG_T2 (Rd Rn Rm shiftImm5 srtype flagS : Z) : Z :=
  let imm3 := field shiftImm5 2 7 in
  let imm2 := shiftImm5 .& 3 in
  u32 (THUMB2_EOR_REG_T2 .| (flagS << 20) .| (Rn << 16) .| (imm3 << 12) .| (Rd << 8) .|
       (imm2 << 6) .| (srtype << 4) .| Rm).

Definition _thumb32_ORRW_REG_T2 (Rd Rn Rm shiftImm5 srtype flagS : Z) : Z :=
  if (shiftImm5 <? 0) || (31 <? shiftImm5) then u32 (-1)
  else
    let imm3 := field shiftImm5 2 7 in
    let imm2 := shiftImm5 .& 3 in
    u32 (THUMB2_ORRW_REG .| (flagS << 20) .| (Rn << 16) .| (imm3 << 12) .| (Rd << 8) .|
         (imm2 << 6) .| (srtype << 4) .| Rm).
