(* ===== verification/Jit.v ===== *)
(** * The Thumb-2 compiler (libebpf/src/jit_thumb2.c, jit.c, jit.h)

    [jit_compile]: two passes over the program, the first of which only
    records where the code of each instruction ends; the emitters; one
    [build_inst] for the switch over the opcodes.  The emitters are programs
    of a state monad over [jit_state]; [None] is an access outside an array
    (the code buffer, the offsets, the instructions, the helper table). *)

From S2P Require Import Prelude EbpfInst Thumb2.

(** ** The state *)

Record jit_state := mk_jit {
  insts : list ebpf_inst;
  inst_num : Z;
  jit_code : list Z;       (* the bytes of jit_buffer *)
  jit_align : Z;           (* how far jit_code lies before jit_buffer *)
  idx : Z;
  epilogue_offset : Z;
  err_line : Z;
  offsets : list Z;        (* the words of offset_mem *)
  __bpf_call_base : list Z;
  needGen : bool
}.

Definition set_idx (x : Z) (st : jit_state) : jit_state :=
  mk_jit (insts st) (inst_num st) (jit_code st) (jit_align st) x (epilogue_offset st) (err_line st)
    (offsets st) (__bpf_call_base st) (needGen st).
Definition set_code (c : list Z) (st : jit_state) : jit_state :=
  mk_jit (insts st) (inst_num st) c (jit_align st) (idx st) (epilogue_offset st) (err_line st)
    (offsets st) (__bpf_call_base st) (needGen st).
Definition set_epilogue (x : Z) (st : jit_state) : jit_state :=
  mk_jit (insts st) (inst_num st) (jit_code st) (jit_align st) (idx st) x (err_line st)
    (offsets st) (__bpf_call_base st) (needGen st).
Definition set_err (x : Z) (st : jit_state) : jit_state :=
  mk_jit (insts st) (inst_num st) (jit_code st) (jit_align st) (idx st) (epilogue_offset st) x
    (offsets st) (__bpf_call_base st) (needGen st).
Definition set_offsets (l : list Z) (st : jit_state) : jit_state :=
  mk_jit (insts st) (inst_num st) (jit_code st) (jit_align st) (idx st) (epilogue_offset st) (err_line st)
    l (__bpf_call_base st) (needGen st).
Definition set_needGen (b : bool) (st : jit_state) : jit_state :=
  mk_jit (insts st) (inst_num st) (jit_code st) (jit_align st) (idx st) (epilogue_offset st) (err_line st)
    (offsets st) (__bpf_call_base st) b.

(** ** The monad *)

Definition J (A : Type) : Type := jit_state -> option (A * jit_state).

#[export] Instance j_ret : MRet J := fun A a st => Some (a, st).
#[export] Instance j_bind : MBind J := fun A B k m st =>
  match m st with Some (a, st') => k a st' | None => None end.

Definition gets {A} (f : jit_state -> A) : J A := fun st => Some (f st, st).
Definition modify (f : jit_state -> jit_state) : J unit := fun st => Some (tt, f st).
Definition lift {A} (o : option A) : J A := fun st => a ← o; Some (a, st).

(** ** Emission (jit.h) *)

(** [memcpy(code + i, data, len)] *)
Fixpoint put_bytes (i : Z) (data : list Z) (code : list Z) : option (list Z) :=
  match data with
  | [] => Some code
  | b :: data' => code' ← zset code i b; put_bytes (i + 1) data' code'
  end.

Definition emit_bytes (data : list Z) : J unit := fun st =>
  st' ← (if needGen st
         then c ← put_bytes (idx st - jit_align st) data (jit_code st); Some (set_code c st)
         else Some st);
  Some (tt, set_idx (idx st' + Z.of_nat (length data)) st').

Definition emit2 (x : Z) : J unit := emit_bytes (le_bytes 2 (u16 x)).

Definition emit4 (x : Z) : J unit :=
  _ ← emit2 (field x 16 0xffff); emit2 (x .& 0xffff).

(** ** The register map *)

Definition STACK_OFFSET (k : Z) : Z := -4 - k * 4.
Definition BPF_R2_HI := 0.
Definition BPF_R2_LO := 1.
Definition BPF_R3_HI := 2.
Definition BPF_R3_LO := 3.
Definition BPF_R4_HI := 4.
Definition BPF_R4_LO := 5.
Definition BPF_R5_HI := 6.
Definition BPF_R5_LO := 7.
Definition BPF_R7_HI := 8.
Definition BPF_R7_LO := 9.
Definition BPF_R8_HI := 10.
Definition BPF_R8_LO := 11.
Definition BPF_R9_HI := 12.
Definition BPF_R9_LO := 13.
Definition BPF_FP_HI := 14.
Definition BPF_FP_LO := 15.
Definition BPF_TC_HI := 16.
Definition BPF_TC_LO := 17.
Definition BPF_AX_HI := 18.
Definition BPF_AX_LO := 19.
Definition BPF_JIT_SCRATCH_REGS := 20.
Definition SCRATCH_SIZE : Z := BPF_JIT_SCRATCH_REGS * 4.
Definition TCALL_CNT : Z := MAX_BPF_JIT_REG + 2.
Definition EBPF_STACK_SIZE : Z := 256.
Definition EBPF_SCRATCH_TO_ARM_FP (x : Z) : Z := x.

(** The rows of [bpf2a32], [{hi, lo}], in the order of their indices. *)
Definition bpf2a32_table : list (Z * Z) :=
  [(ARM_R1, ARM_R0);
   (ARM_R3, ARM_R2);
   (STACK_OFFSET BPF_R2_HI, STACK_OFFSET BPF_R2_LO);
   (STACK_OFFSET BPF_R3_HI, STACK_OFFSET BPF_R3_LO);
   (STACK_OFFSET BPF_R4_HI, STACK_OFFSET BPF_R4_LO);
   (STACK_OFFSET BPF_R5_HI, STACK_OFFSET BPF_R5_LO);
   (ARM_R5, ARM_R4);
   (STACK_OFFSET BPF_R7_HI, STACK_OFFSET BPF_R7_LO);
   (STACK_OFFSET BPF_R8_HI, STACK_OFFSET BPF_R8_LO);
   (STACK_OFFSET BPF_R9_HI, STACK_OFFSET BPF_R9_LO);
   (STACK_OFFSET BPF_FP_HI, STACK_OFFSET BPF_FP_LO);
   (STACK_OFFSET BPF_AX_HI, STACK_OFFSET BPF_AX_LO);
   (ARM_R7, ARM_R6);
   (ARM_R9, ARM_R8);
   (STACK_OFFSET BPF_TC_HI, STACK_OFFSET BPF_TC_LO)].

Definition tmp1 : Z * Z := (ARM_R7, ARM_R6).   (* bpf2a32[TMP_REG_1] *)
Definition tmp2 : Z * Z := (ARM_R9, ARM_R8).   (* bpf2a32[TMP_REG_2] *)
Abbreviation hi := (@fst Z Z).                 (* r[0] *)
Abbreviation lo := (@snd Z Z).                 (* r[1] *)

Definition is_stacked (reg : Z) : bool := reg <? 0.

Definition is_ldst_imm (off size : Z) : bool :=
  let off_max :=
    if (size =? EBPF_SIZE_B) || (size =? EBPF_SIZE_W) then 0xfff
    else if size =? EBPF_SIZE_H then 0xff
    else if size =? EBPF_SIZE_DW then 0xfff - 4
    else 0 in
  (- off_max <=? off) && (off <=? off_max).

(** ** Loads, stores and moves *)

Definition _emit_ldr_i (Rt Rn off : Z) : J unit :=
  if off =? 0 then emit4 (u32 (0xf8d00000 .| (Rn << 16) .| (Rt << 12) .| (off .& 0xfff)))
  else emit4 (_thumb32_LDR_IMM_T4 Rt Rn off).

Definition _emit_ldrb_i (Rt Rn off : Z) : J unit :=
  if (off <=? 31) && (-31 <=? off) && ((Rt <? 8) && (Rn <? 8)) then
    emit2 (_thumb16_LDRB_IMM_T1 Rt Rn off)
  else if (off <=? 0xff) && (-0xff <=? off) then emit4 (_thumb32_LDRB_IMM_T3 Rt Rn off)
  else if (off <=? 0xfff) && (-0xfff <=? off) then
    emit4 (u32 (0xf8900000 .| (Rn << 16) .| (Rt << 12) .| off))
  else mret tt.

Definition _emit_ldrh_i (Rt Rn off : Z) : J unit :=
  if (off <=? 31) && (-31 <=? off) then
    emit2 (u16 (0x8800 .| ((off .& 31) << 6) .| (Rn << 3) .| Rt))
  else if (off <=? 0xff) && (-0xff <=? off) then
    emit4 (u32 (0xf8300000 .| (Rn << 16) .| (Rt << 12) .| (14 << 8) .| (off .& 0xff)))
  else if (off <=? 0xfff) && (-0xfff <=? off) then
    emit4 (u32 (0xf8b00000 .| (Rn << 16) .| (Rt << 12) .| (off .& 0xfff)))
  else mret tt.

Definition _emit_ldrd_i (Rt : Z * Z) (Rn off : Z) : J unit := emit4 (_thumb32_LDRD_IMM_T1 Rt Rn off).

Definition _emit_str_i (RnSrc Rt off : Z) : J unit :=
  let P := b2z (negb (off =? 0)) in
  let U := b2z (0 <? off) in
  let W := 0 in
  let imm8 := u8 (if 0 <? off then off else - off) in
  let flag := 8 .| (P << 2) .| (U << 1) .| W in
  emit4 (u32 (THUMB2_STR_IMM .| (RnSrc << 16) .| (Rt << 12) .| (flag << 8) .| imm8)).

Definition _emit_strd_i (RnSrc : Z * Z) (RtDst off : Z) : J unit :=
  emit4 (_thumb32_STRD_IMM_T1 RnSrc RtDst off).

Definition _emit_mov_reg (src dst : Z) : J unit :=
  if negb (dst =? ARM_SP) && negb (src =? ARM_SP) then emit2 (_thumb16_MOV_REG_T1 dst src)
  else emit4 (_thumb32_MOVW_REG_T3 dst src FLAG_NOS).

Definition emit_mov_imm (rd val : Z) : J unit :=
  let rd := u8 rd in
  let val := u32 val in
  if (val <=? 0xff) && (rd <? 8) then emit2 (u16 (0x2000 .| (rd << 8) .| val))
  else
    let v1 := val .& 0xffff in
    let i4 := (v1 .& 0xf000) >> 12 in
    let i := (v1 .& 0x0800) >> 11 in
    let i3 := (v1 .& 0x0700) >> 8 in
    let i8 := v1 .& 0x00ff in
    _ ← emit4 (u32 (0xf2400000 .| (i << 26) .| (i4 << 16) .| (i3 << 12) .| (rd << 8) .| i8));
    if 0xffff <? val then
      let v1 := u16 (val >> 16) in
      let i4 := (v1 .& 0xf000) >> 12 in
      let i := (v1 .& 0x0800) >> 11 in
      let i3 := (v1 .& 0x0700) >> 8 in
      let i8 := v1 .& 0x00ff in
      emit4 (u32 (0xf2c00000 .| (i << 26) .| (i4 << 16) .| (i3 << 12) .| (rd << 8) .| i8))
    else mret tt.

Definition arm_bpf_get_reg32 (reg tmp : Z) : J Z :=
  if is_stacked reg then
    _ ← _emit_ldr_i tmp ARM_FP (s16 (EBPF_SCRATCH_TO_ARM_FP reg)); mret tmp
  else mret reg.

Definition arm_bpf_put_reg32 (reg src : Z) : J unit :=
  if is_stacked reg then _emit_str_i ARM_FP src (s16 (EBPF_SCRATCH_TO_ARM_FP reg))
  else if negb (reg =? src) then _emit_mov_reg src reg
  else mret tt.

Definition emit_a32_mov_reg (src dst : Z) : J unit :=
  rt ← arm_bpf_get_reg32 src (hi tmp1); arm_bpf_put_reg32 dst rt.

Definition arm_bpf_get_reg64 (reg tmp : Z * Z) : J (Z * Z) :=
  if is_stacked (lo reg) then
    _ ← _emit_ldrd_i tmp ARM_FP (s16 (EBPF_SCRATCH_TO_ARM_FP (lo reg))); mret tmp
  else mret reg.

Definition arm_bpf_put_reg64 (reg src : Z * Z) : J unit :=
  if is_stacked (lo reg) then _emit_strd_i src ARM_FP (s16 (EBPF_SCRATCH_TO_ARM_FP (lo reg)))
  else
    _ ← (if negb (lo reg =? lo src) then emit_a32_mov_reg (lo src) (lo reg) else mret tt);
    if negb (hi reg =? hi src) then emit_a32_mov_reg (hi src) (hi reg) else mret tt.

Definition emit_mov_reg64 (is64 : bool) (dst src : Z * Z) : J unit :=
  if negb is64 then emit_a32_mov_reg (lo src) (lo dst)
  else if is_stacked (lo src) && is_stacked (lo dst) then
    _ ← _emit_ldrd_i tmp1 ARM_FP (EBPF_SCRATCH_TO_ARM_FP (lo src));
    _emit_strd_i tmp1 ARM_FP (EBPF_SCRATCH_TO_ARM_FP (lo dst))
  else if is_stacked (lo src) then _emit_ldrd_i dst ARM_FP (EBPF_SCRATCH_TO_ARM_FP (lo src))
  else if is_stacked (lo dst) then _emit_strd_i src ARM_FP (EBPF_SCRATCH_TO_ARM_FP (lo dst))
  else
    _ ← _emit_mov_reg (lo src) (lo dst);
    _emit_mov_reg (hi src) (hi dst).

Definition emit_push_r64 (src : Z * Z) : J unit :=
  rt ← arm_bpf_get_reg64 src tmp2;
  let reg_set := u16 ((1 << lo rt) .| (1 << hi rt)) in
  if ((hi rt =? ARM_LR) || (hi rt <? 8)) && ((lo rt =? ARM_LR) || (lo rt <? 8)) then
    emit2 (_thumb16_PUSH_T1 reg_set)
  else emit4 (_thumb32_PUSHW_T2 reg_set).

Definition emit_mov_i64 (dst : Z * Z) (val : Z) : J unit :=
  let rd := if is_stacked (lo dst) then tmp1 else dst in
  _ ← emit_mov_imm (lo rd) (u32 val);
  _ ← emit_mov_imm (hi rd) (u32 (val >> 32));
  arm_bpf_put_reg64 dst rd.

Definition emit_mov_se_imm64 (is64 : bool) (dst : Z * Z) (val : Z) : J unit :=
  let val := u32 val in
  if is64 then
    let val64 := if negb (val .& (1 << 31) =? 0) then val .| 0xffffffff00000000 else val in
    emit_mov_i64 dst val64
  else emit_mov_imm (lo dst) val.

(** ** Arithmetic on register halves *)

Definition _emit_add_reg (dst src : Z) (is64 hi : bool) : J unit :=
  if is64 then
    if hi then emit4 (u32 (0xeb400000 .| (src << 16) .| (dst << 8) .| dst))
    else emit4 (u32 (0xeb100000 .| (src << 16) .| (dst << 8) .| dst))
  else emit2 (_thumb16_ADD_REG_T2 dst src).

Definition _emit_add_imm (dst src val : Z) : J unit :=
  if (0 <=? val) && (val <=? 255) && ((dst =? src) && (dst <? 8)) then
    emit2 (_thumb16_ADD_IMM_T2 dst val)
  else if (0 <=? val) && (val <=? 4095) then emit4 (_thumb32_ADD_IMM_T4 dst src val)
  else mret tt.

Definition _emit_sub_imm (dst src val : Z) : J unit :=
  if (val <? 0) || (4095 <? val) then mret tt
  else if (dst <? 8) && (0 <=? dst) && (src <? 8) && (0 <=? src) && ((dst =? src) && (val <=? 0xff)) then
    emit2 (_thumb16_SUB_IMM_T2 dst val)
  else if (dst <? 8) && (0 <=? dst) && (src <? 8) && (0 <=? src) && (val <=? 7) then
    emit2 (_thumb16_SUB_IMM_T1 dst src val)
  else emit4 (_thumb32_SUBW_IMM_T4 dst src val FLAG_NOS).

Definition _emit_sub_reg (dst src : Z) (is64 hi : bool) : J unit :=
  if is64 && negb hi then emit4 (_thumb32_SUB_REG_T2 dst dst src 0 SRTYPE_LSL FLAG_S)
  else if is64 && hi then emit4 (_thumb32_SBCW_T2 dst dst src 0 SRTYPE_LSL FLAG_NOS)
  else if (src <? 8) && (dst <? 8) then emit2 (_thumb16_SUB_REG_T1 dst dst src)
  else emit4 (_thumb32_SUB_REG_T2 dst dst src 0 SRTYPE_LSL FLAG_NOS).

Definition _emit_orr_reg (dst src : Z) : J unit :=
  if (dst <? 8) && (src <? 8) then emit2 (_thumb16_ORR_REG_T1 dst src)
  else emit4 (_thumb32_ORRW_REG_T2 dst dst src 0 SRTYPE_ASL FLAG_NOS).

Definition _emit_and_reg (dst src : Z) : J unit :=
  if (dst <? 8) && (src <? 8) then emit2 (_thumb16_AND_REG_T1 dst src)
  else emit4 (_thumb32_AND_REG_T2 dst dst src 0 SRTYPE_ASL FLAG_NOS).

Definition _emit_cmp_reg (Rn Rm : Z) : J unit :=
  if (Rn <? 8) && (Rm <? 8) then emit2 (_thumb16_CMP_REG_T1 Rn Rm)
  else emit2 (_thumb16_CMP_REG_T2 Rn Rm).

(** The low registers of the two-byte forms: 1 to 7, not 0. *)
Definition low_regs (rn rd : Z) : bool := (0 <? rn) && (rn <? 8) && (0 <? rd) && (rd <? 8).

Definition emit_alu32_reg (dst src : Z) (is64 hi : bool) (op : Z) : J unit :=
  rn ← arm_bpf_get_reg32 src (snd tmp1);
  rd ← arm_bpf_get_reg32 dst (fst tmp1);
  _ ← (if op =? EBPF_ALU_ADD then _emit_add_reg rd rn is64 hi
       else if op =? EBPF_ALU_SUB then _emit_sub_reg rd rn is64 hi
       else if op =? EBPF_ALU_OR then _emit_orr_reg rd rn
       else if op =? EBPF_ALU_AND then _emit_and_reg rd rn
       else if op =? EBPF_ALU_XOR then
         if low_regs rn rd then emit2 (u16 (0x4040 .| (rn << 3) .| rd))
         else emit4 (_thumb32_EOR_REG_T2 rd rn rd 0 SRTYPE_ROR FLAG_NOS)
       else if op =? EBPF_ALU_MUL then
         if low_regs rn rd then emit2 (u16 (0x4340 .| (rn << 3) .| rd))
         else emit4 (_thumb32_MUL_REG_T2 rd rn rd)
       else if op =? EBPF_ALU_LSH then
         if low_regs rn rd then emit2 (u16 (0x4080 .| (rn << 3) .| rd))
         else emit4 (_thumb32_LSLW_REG_T2 rd rd rn FLAG_NOS)
       else if op =? EBPF_ALU_RSH then
         if low_regs rn rd then emit2 (u16 (0x40c0 .| (rn << 3) .| rd))
         else emit4 (_thumb32_LSRW_REG_T2 rd rd rn FLAG_NOS)
       else if op =? EBPF_ALU_ARSH then
         if low_regs rn rd then emit2 (u16 (0x4100 .| (rn << 3) .| rd))
         else emit4 (_thumb32_ASRW_REG_T2 rd rd rn FLAG_NOS)
       else mret tt);
  arm_bpf_put_reg32 dst rd.

Definition emit_alu64_reg (is64 : bool) (dst src : Z * Z) (op : Z) : J unit :=
  rd ← arm_bpf_get_reg64 dst tmp1;
  _ ← (if is64 then
         rs ← arm_bpf_get_reg64 src tmp2;
         _ ← emit_alu32_reg (lo rd) (lo rs) true false op;
         emit_alu32_reg (hi rd) (hi rs) true true op
       else
         rs ← arm_bpf_get_reg32 (lo src) (lo tmp2);
         emit_alu32_reg (lo rd) rs true false op);
  arm_bpf_put_reg64 dst rd.

Definition emit_alu32_imm (dst val op : Z) : J unit :=
  let val := u16 val in
  rd ← arm_bpf_get_reg32 dst (hi tmp1);
  _ ← (if op =? EBPF_ALU_LSH then emit2 (u16 (0x0000 .| (val << 6) .| (rd << 3) .| rd))
       else if op =? EBPF_ALU_RSH then emit2 (u16 (0x0800 .| (val << 6) .| (rd << 3) .| rd))
       else if op =? EBPF_ALU_ARSH then emit2 (u16 (0x1000 .| (val << 6) .| (rd << 3) .| rd))
       else if op =? EBPF_ALU_NEG then emit2 (u16 (0x4240 .| (rd << 3) .| rd))
       else mret tt);
  arm_bpf_put_reg32 dst rd.

Definition emit_u32_div_mod (dst src : Z * Z) (code imm : Z) : J unit :=
  let imm := u16 imm in
  rd_lo ← arm_bpf_get_reg32 (lo dst) (lo tmp2);
  rt ← (if BPF_SRC code =? EBPF_SRC_REG then arm_bpf_get_reg32 (lo src) (hi tmp2)
        else if BPF_SRC code =? EBPF_SRC_IMM then _ ← emit_mov_imm (hi tmp2) imm; mret (hi tmp2)
        else mret (lo src));
  _ ← (if BPF_OP code =? EBPF_ALU_DIV then
         emit4 (u32 (0xfbb0f0f0 .| (rd_lo << 16) .| (rd_lo << 8) .| rt))
       else
         _ ← emit4 (u32 (0xfbb0f0f0 .| (rd_lo << 16) .| (ARM_IP << 8) .| rt));
         emit4 (u32 (0xfb000010 .| (rd_lo << 16) .| (ARM_IP << 12) .| (rd_lo << 8) .| rt)));
  arm_bpf_put_reg32 (lo dst) rd_lo.

(** ** 64-bit shifts, negation, multiplication *)

Definition _emit_lsh64_reg (dst src : Z * Z) : J unit :=
  rt ← arm_bpf_get_reg32 (lo src) (lo tmp2);
  rd ← arm_bpf_get_reg64 dst tmp1;
  let t0 := hi tmp2 in
  let i := field 32 11 1 in
  let imm3 := field 32 8 7 in
  let imm8 := 32 .& 0xff in
  _ ← emit4 (u32 (0xf1a00000 .| (i << 26) .| (rt << 16) .| (imm3 << 12) .| (ARM_IP << 8) .| imm8));
  _ ← emit4 (u32 (THUMB2_LSLW_REG_T2 .| (hi rd << 16) .| (t0 << 8) .| rt));
  _ ← emit4 (u32 (THUMB2_LSLW_REG_T2 .| (lo rd << 16) .| (ARM_IP << 8) .| ARM_IP));
  _ ← emit4 (u32 (THUMB2_ORRW_REG .| (t0 << 16) .| (ARM_IP << 8) .| ARM_IP));
  _ ← emit4 (u32 (0xf1c00000 .| (i << 26) .| (rt << 16) .| (imm3 << 12) .| (t0 << 8) .| imm8));
  _ ← emit4 (u32 (THUMB2_LSLW_REG_T2 .| (lo rd << 16) .| (t0 << 8) .| t0));
  _ ← emit4 (u32 (THUMB2_ORRW_REG .| (t0 << 16) .| (ARM_IP << 8) .| ARM_IP));
  _ ← emit4 (u32 (THUMB2_LSLW_REG_T2 .| (lo rd << 16) .| (t0 << 8) .| rt));
  _ ← arm_bpf_put_reg32 (lo dst) t0;
  arm_bpf_put_reg32 (hi dst) ARM_IP.

Definition _emit_lsh64_imm (dst : Z * Z) (val : Z) : J unit :=
  let val := u16 val in
  rd ← arm_bpf_get_reg64 dst tmp1;
  let t0 := hi tmp2 in
  _ ← (if val <? 32 then
         let imm3 := (val .& 28) >> 2 in
         let imm2 := val .& 3 in
         _ ← emit4 (u32 (0xea5f0000 .| (imm3 << 12) .| (t0 << 8) .| (imm2 << 4) .| hi rd));
         let imm3 := ((32 - val) .& 28) >> 2 in
         let imm2 := (32 - val) .& 3 in
         _ ← emit4 (u32 (0xea500010 .| (t0 << 16) .| (imm3 << 12) .| (hi rd << 8) .| (imm2 << 6) .| lo rd));
         emit2 (u16 (0x0000 .| (val << 6) .| (lo rd << 3) .| lo rd))
       else
         _ ← (if val =? 32 then _emit_mov_reg (lo rd) (hi rd)
              else emit2 (u16 (0x0000 .| ((val - 32) << 6) .| (lo rd << 3) .| hi rd)));
         emit2 (u16 (0x4040 .| (lo rd << 3) .| lo rd)));
  arm_bpf_put_reg64 dst rd.

Definition emit_a32_rsh_r64 (dst src : Z * Z) : J unit :=
  rt ← arm_bpf_get_reg32 (lo src) (lo tmp2);
  rd ← arm_bpf_get_reg64 dst tmp1;
  _ ← emit4 (_thumb32_RSBW_IMM_T2 ARM_IP rt 32 FLAG_S);
  _ ← emit4 (_thumb32_SUBW_IMM_T4 (hi tmp2) rt 32 FLAG_S);
  _ ← emit4 (_thumb32_LSRW_REG_T2 ARM_LR (lo rd) rt FLAG_S);
  _ ← emit4 (_thumb32_LSLW_REG_T2 (hi rd) (hi rd) ARM_IP FLAG_S);
  _ ← emit4 (_thumb32_ORRW_REG_T2 ARM_LR ARM_LR (hi rd) 0 SRTYPE_LSL FLAG_S);
  _ ← emit4 (_thumb32_LSRW_REG_T2 (hi rd) (hi rd) (hi tmp2) FLAG_S);
  _ ← emit4 (_thumb32_ORRW_REG_T2 ARM_LR ARM_LR (hi rd) 0 SRTYPE_LSL FLAG_S);
  _ ← emit4 (_thumb32_LSRW_REG_T2 ARM_IP (hi rd) rt FLAG_S);
  _ ← arm_bpf_put_reg32 (lo dst) ARM_LR;
  arm_bpf_put_reg32 (hi dst) ARM_IP.

Definition emit_a32_rsh_i64 (dst : Z * Z) (val : Z) : J unit :=
  let val := u16 val in
  rd ← arm_bpf_get_reg64 dst tmp1;
  _ ← (if val =? 0 then mret tt
       else if val <? 32 then
         _ ← emit4 (_thumb32_LSRW_IMM_T2 (lo tmp2) (lo rd) val FLAG_NOS);
         _ ← emit4 (_thumb32_ORRW_REG_T2 (lo rd) (lo tmp2) (hi rd) (32 - val) SRTYPE_LSL FLAG_NOS);
         emit4 (_thumb32_LSRW_IMM_T2 (hi rd) (hi rd) val FLAG_NOS)
       else if val =? 32 then
         _ ← _emit_mov_reg (hi rd) (lo rd); emit_mov_imm (hi rd) 0
       else
         _ ← emit4 (_thumb32_LSRW_IMM_T2 (lo rd) (hi rd) (val - 32) FLAG_NOS);
         emit_mov_imm (hi rd) 0);
  arm_bpf_put_reg64 dst rd.

Definition emit_a32_arsh_r64 (dst src : Z * Z) : J unit :=
  rt ← arm_bpf_get_reg32 (lo src) (lo tmp2);
  rd ← arm_bpf_get_reg64 dst tmp1;
  _ ← emit4 (_thumb32_RSBW_IMM_T2 ARM_IP rt 32 FLAG_S);
  _ ← emit4 (_thumb32_SUBW_IMM_T4 (hi tmp2) rt 32 FLAG_S);
  _ ← emit4 (_thumb32_LSRW_REG_T2 ARM_LR (lo rd) rt FLAG_S);
  _ ← emit4 (_thumb32_LSLW_REG_T2 (hi rd) (hi rd) (hi tmp2) FLAG_NOS);
  _ ← emit4 (_thumb32_ORRW_REG_T2 ARM_LR ARM_LR (hi rd) 0 SRTYPE_LSL FLAG_S);
  _ ← emit4 (_thumb32_ASRW_REG_T2 (hi rd) (hi rd) (hi tmp2) FLAG_NOS);
  _ ← emit2 (_thumb16_IT_T1 COND_PL IT_MASK_NONE);
  _ ← emit4 (_thumb32_ORRW_REG_T2 ARM_LR ARM_LR (hi rd) 0 SRTYPE_LSL FLAG_S);
  _ ← emit4 (_thumb32_ASRW_REG_T2 ARM_IP (hi rd) rt FLAG_S);
  _ ← arm_bpf_put_reg32 (lo dst) ARM_LR;
  arm_bpf_put_reg32 (hi dst) ARM_IP.

Definition emit_a32_arsh_i64 (dst : Z * Z) (val : Z) : J unit :=
  let val := u32 val in
  rd ← arm_bpf_get_reg64 dst tmp1;
  _ ← (if val =? 0 then mret tt
       else if val <? 32 then
         _ ← emit4 (_thumb32_LSRW_IMM_T2 (lo tmp2) (lo rd) val FLAG_S);
         _ ← emit4 (_thumb32_ORRW_REG_T2 (lo rd) (lo tmp2) (hi rd) (32 - val) SRTYPE_LSL FLAG_S);
         emit4 (_thumb32_ASRW_IMM_T2 (hi rd) (hi rd) val FLAG_S)
       else if val =? 32 then
         _ ← _emit_mov_reg (hi rd) (lo rd);
         emit4 (_thumb32_ASRW_IMM_T2 (hi rd) (hi rd) 31 FLAG_S)
       else
         _ ← emit4 (_thumb32_ASRW_IMM_T2 (lo rd) (hi rd) (s32 (val - 32)) FLAG_S);
         emit4 (_thumb32_ASRW_IMM_T2 (hi rd) (hi rd) 31 FLAG_S));
  arm_bpf_put_reg64 dst rd.

Definition emit_a32_neg64 (dst : Z * Z) : J unit :=
  rd ← arm_bpf_get_reg64 dst tmp1;
  _ ← emit4 (_thumb32_RSBW_IMM_T2 (lo rd) (lo rd) 0 FLAG_S);
  _ ← emit4 (_thumb32_RSBW_IMM_T2 (hi rd) (hi rd) 0 FLAG_S);
  arm_bpf_put_reg64 dst rd.

Definition emit_a32_mul_r64 (dst src : Z * Z) : J unit :=
  rd ← arm_bpf_get_reg64 dst tmp1;
  rt ← arm_bpf_get_reg64 src tmp2;
  _ ← emit4 (_thumb32_MUL_T2 ARM_IP (lo rd) (hi rt));
  _ ← emit4 (_thumb32_MUL_T2 ARM_LR (hi rd) (lo rt));
  _ ← emit2 (_thumb16_ADD_REG_T2 ARM_LR ARM_IP);
  _ ← emit4 (_thumb32_UMULL_T2 ARM_IP (hi rd) (lo rd) (lo rt));
  _ ← emit2 (_thumb16_ADD_REG_T2 (hi rd) ARM_LR);
  _ ← arm_bpf_put_reg32 (lo dst) ARM_IP;
  arm_bpf_put_reg32 (hi dst) (hi rd).

(** ** Memory instructions *)

Definition emit_ldx_reg (dst : Z * Z) (src off sz : Z) : J unit :=
  let rd := if is_stacked (lo dst) then tmp1 else dst in
  p ← (if negb (is_ldst_imm off sz) then
         _ ← emit_mov_imm (hi tmp1) off;
         _ ← _emit_add_reg (hi tmp1) src false false;
         mret (hi tmp1, 0)
       else if lo rd =? src then _ ← emit_a32_mov_reg src (hi tmp1); mret (hi tmp1, off)
       else mret (src, off));
  let '(rm, off) := p : Z * Z in
  _ ← (if sz =? EBPF_SIZE_B then _emit_ldrb_i (lo rd) rm off
       else if sz =? EBPF_SIZE_H then _emit_ldrh_i (lo rd) rm off
       else if sz =? EBPF_SIZE_W then _emit_ldr_i (lo rd) rm off
       else if sz =? EBPF_SIZE_DW then
         _ ← _emit_ldr_i (lo rd) rm off; _emit_ldr_i (hi rd) rm (s16 (off + 4))
       else mret tt);
  arm_bpf_put_reg64 dst rd.

Definition emit_str_reg (dst : Z) (src : Z * Z) (off sz : Z) : J unit :=
  rd0 ← arm_bpf_get_reg32 dst (lo tmp1);
  p ← (if negb (is_ldst_imm off sz) then
         _ ← emit_mov_imm (hi tmp1) off;
         _ ← _emit_add_reg (hi tmp1) rd0 false false;
         mret (hi tmp1, 0)
       else mret (rd0, off));
  let '(rd, off) := p : Z * Z in
  if sz =? EBPF_SIZE_B then emit4 (_thumb32_STRB_IMM_T3 (lo src) rd off)
  else if sz =? EBPF_SIZE_H then emit4 (_thumb32_STRH_IMM_T3 (lo src) rd off)
  else if sz =? EBPF_SIZE_W then _emit_str_i (lo src) rd off
  else if sz =? EBPF_SIZE_DW then
    _ ← _emit_str_i (lo src) rd off; _emit_str_i (hi src) rd (s16 (off + 4))
  else mret tt.

(** ** Comparisons and branches *)

Definition _use_b4 (st : jit_state) : bool := 20 <? inst_num st.

Definition _emit_b_cond (off cond : Z) : J unit :=
  b4 ← gets _use_b4;
  if negb b4 && ((-256 <=? off) && (off <=? 254)) then emit2 (_thumb16_B_T1 off cond)
  else if (-1048576 <? off) && (off <? 1048574) then emit4 (_thumb32_BW_T3 off cond)
  else mret tt.

Definition _emit_b (off : Z) : J unit :=
  if (-2048 <? off) && (off <? 2046) then emit2 (_thumb16_B_T2 off)
  else if (-16777216 <? off) && (off <? 16777214) then emit4 (_thumb32_BW_T4 off)
  else mret tt.

Definition _emit_cmp_cond (rd rt rm rn op : Z) (is_jmp64 : bool) : J unit :=
  if op =? EBPF_JSET then
    if is_jmp64 then
      _ ← emit4 (_thumb32_ADDW_REG_T3 ARM_IP rt rn 0 SRTYPE_LSL FLAG_NOS);
      _ ← emit4 (_thumb32_ADDW_REG_T3 ARM_LR rd rm 0 SRTYPE_LSL FLAG_NOS);
      emit4 (_thumb32_ORRW_REG_T2 ARM_IP ARM_LR ARM_IP 0 SRTYPE_LSL FLAG_S)
    else emit4 (_thumb32_ADDW_REG_T3 ARM_IP rt rn 0 SRTYPE_LSL FLAG_S)
  else if (op =? EBPF_JEQ) || (op =? EBPF_JNE) || (op =? EBPF_JGT) || (op =? EBPF_JGE) ||
          (op =? EBPF_JLE) || (op =? EBPF_JLT) then
    if is_jmp64 then _ ← _emit_cmp_reg rd rm; _emit_cmp_reg rt rn
    else _emit_cmp_reg rt rn
  else if (op =? EBPF_JSLE) || (op =? EBPF_JSGT) then
    _ ← _emit_cmp_reg rn rt;
    if is_jmp64 then emit4 (_thumb32_SBCW_T2 ARM_IP rm rd 0 SRTYPE_LSL FLAG_S) else mret tt
  else if (op =? EBPF_JSLT) || (op =? EBPF_JSGE) then
    _ ← _emit_cmp_reg rt rn;
    if is_jmp64 then emit4 (_thumb32_SBCW_T2 ARM_IP rd rm 0 SRTYPE_LSL FLAG_S) else mret tt
  else mret tt.

(** The parameter [op] is an s8: the switch compares its value with the
    positive constants, so the case labels above 0x7f are never selected. *)
Definition _emit_jump (jmp_off op : Z) : J unit :=
  let op := s8 op in
  if (op =? EBPF_JNE) || (op =? EBPF_JSET) then _emit_b_cond jmp_off COND_NE
  else if op =? EBPF_JEQ then _emit_b_cond jmp_off COND_EQ
  else if op =? EBPF_JGT then _emit_b_cond jmp_off COND_HI
  else if op =? EBPF_JGE then _emit_b_cond jmp_off COND_CS
  else if op =? EBPF_JSGT then _emit_b_cond jmp_off COND_LT
  else if op =? EBPF_JSGE then _emit_b_cond jmp_off COND_GE
  else if op =? EBPF_JLE then _emit_b_cond jmp_off COND_LS
  else if op =? EBPF_JLT then _emit_b_cond jmp_off COND_CC
  else if op =? EBPF_JSLT then _emit_b_cond jmp_off COND_LT
  else if op =? EBPF_JSLE then _emit_b_cond jmp_off COND_GE
  else mret tt.

(** ** Jump offsets

    [offsets[i]] is where the code of instruction i ends. *)

Definition bpf2a32_offset (bpf_from bpf_to bsize : Z) : J Z :=
  ng ← gets needGen;
  if negb ng then mret 0
  else
    ofs ← gets offsets;
    to ← lift (zget ofs bpf_to);
    from ← lift (zget ofs bpf_from);
    mret (s32 (s32 to - s32 (from - bsize) - 4)).

(** The member and the function of the same name. *)
Definition epilogue_offset_fn : J Z :=
  ng ← gets needGen;
  if negb ng then mret 0
  else to ← gets epilogue_offset; from ← gets idx; mret (to - from - 4).

(** ** One instruction

    [past_end] is what a read of row 15 of [bpf2a32], past its end, finds. *)

Section BuildInst.
Context (past_end : Z * Z).

Definition bpf2a32 (r : Z) : Z * Z := default past_end (zget bpf2a32_table r).

(** The comparison and branch of the conditional jumps. *)
Definition build_cond_jump (pc : Z) (i : ebpf_inst) : J unit :=
  let code := i_opcode i in
  let dst := bpf2a32 (i_dst i) in
  let src := bpf2a32 (i_src i) in
  let off := i_offset i in
  if negb (BPF_SRC code =? EBPF_SRC_REG) && (off =? 0) then mret tt
  else
    ops ← (if BPF_SRC code =? EBPF_SRC_REG then
             rm ← arm_bpf_get_reg32 (hi src) (hi tmp2);
             rn ← arm_bpf_get_reg32 (lo src) (lo tmp2);
             mret (rm, rn)
           else
             _ ← emit_mov_se_imm64 true tmp2 (i_imm i);
             mret (hi tmp2, lo tmp2));
    rd ← arm_bpf_get_reg64 dst tmp1;
    _ ← _emit_cmp_cond (hi rd) (lo rd) (fst ops) (snd ops) (BPF_OP code) (BPF_CLASS code =? EBPF_CLS_JMP);
    b4 ← gets _use_b4;
    let bsize := if b4 : bool then 4 else 2 in
    jmp_offset ← bpf2a32_offset pc (pc + off) bsize;
    _emit_jump jmp_offset (BPF_OP code).

(** The call: the first argument goes to R0:R1, the second to R2:R3, the
    others to the stack. *)
Definition build_call (imm : Z) : J unit :=
  base ← gets __bpf_call_base;
  func ← lift (zget base imm);
  _ ← emit_mov_reg64 true (bpf2a32 BPF_REG_0) (bpf2a32 BPF_REG_1);
  _ ← emit_mov_reg64 true (bpf2a32 BPF_REG_1) (bpf2a32 BPF_REG_2);
  _ ← emit_push_r64 (bpf2a32 BPF_REG_5);
  _ ← emit_push_r64 (bpf2a32 BPF_REG_4);
  _ ← emit_push_r64 (bpf2a32 BPF_REG_3);
  _ ← emit_mov_imm (lo tmp1) func;
  _ ← emit2 (_thumb16_BLX_REG_T1 (lo tmp1));
  _emit_add_imm ARM_SP ARM_SP 24.

Definition build_exit (pc : Z) : J unit :=
  n ← gets inst_num;
  if pc =? n - 1 then mret tt
  else jmp_offset ← epilogue_offset_fn; _emit_b jmp_offset.

Definition build_ja (pc off : Z) : J unit :=
  if off =? 0 then mret tt
  else jmp_offset ← bpf2a32_offset pc (pc + off) 2; _emit_b jmp_offset.

(** dst = imm64, the second half of which is the next instruction's. *)
Definition build_lddw (pc : Z) (i : ebpf_inst) : J unit :=
  l ← gets insts;
  i2 ← lift (zget l (pc + 1));
  emit_mov_i64 (bpf2a32 (i_dst i)) (u32 (i_imm i) .| (u32 (i_imm i2) << 32)).

Definition build_mul64 (i : ebpf_inst) : J unit :=
  let dst := bpf2a32 (i_dst i) in
  let code := i_opcode i in
  let is64 := BPF_CLASS code =? EBPF_CLS_ALU64 in
  if BPF_SRC code =? EBPF_SRC_IMM then
    _ ← emit_mov_se_imm64 is64 tmp2 (i_imm i); emit_a32_mul_r64 dst tmp2
  else emit_a32_mul_r64 dst (bpf2a32 (i_src i)).

Definition build_load (i : ebpf_inst) : J unit :=
  let src := bpf2a32 (i_src i) in
  rn ← arm_bpf_get_reg32 (lo src) (lo tmp2);
  emit_ldx_reg (bpf2a32 (i_dst i)) rn (i_offset i) (BPF_SIZE (i_opcode i)).

Definition build_store_imm (i : ebpf_inst) : J unit :=
  let sz := BPF_SIZE (i_opcode i) in
  _ ← (if sz =? EBPF_SIZE_DW then emit_mov_se_imm64 true tmp2 (i_imm i)
       else emit_mov_imm (lo tmp2) (i_imm i));
  emit_str_reg (lo (bpf2a32 (i_dst i))) tmp2 (i_offset i) sz.

Definition build_store_reg (i : ebpf_inst) : J unit :=
  rs ← arm_bpf_get_reg64 (bpf2a32 (i_src i)) tmp2;
  emit_str_reg (lo (bpf2a32 (i_dst i))) rs (i_offset i) (BPF_SIZE (i_opcode i)).

(** The switch; the result is the return value of the function. *)
Definition build_inst (pc : Z) (i : ebpf_inst) : J Z :=
  let dst := bpf2a32 (i_dst i) in
  let src := bpf2a32 (i_src i) in
  let off := i_offset i in
  let imm := i_imm i in
  let code := i_opcode i in
  let is64 := BPF_CLASS code =? EBPF_CLS_ALU64 in
  let done (m : J unit) : J Z := _ ← m; mret 0 in
  match opcode_of code with
  | Some EBPF_OP_MOV_REG | Some EBPF_OP_MOV64_REG =>
      done (if imm =? 1 then emit_mov_imm (hi dst) 0 else emit_mov_reg64 is64 dst src)
  | Some EBPF_OP_MOV_IMM | Some EBPF_OP_MOV64_IMM => done (emit_mov_se_imm64 is64 dst imm)
  | Some EBPF_OP_ADD_IMM | Some EBPF_OP_SUB_IMM | Some EBPF_OP_OR_IMM | Some EBPF_OP_AND_IMM
  | Some EBPF_OP_XOR_IMM | Some EBPF_OP_MUL_IMM | Some EBPF_OP_ADD64_IMM | Some EBPF_OP_SUB64_IMM
  | Some EBPF_OP_OR64_IMM | Some EBPF_OP_AND64_IMM | Some EBPF_OP_XOR64_IMM =>
      done (_ ← emit_mov_se_imm64 is64 tmp2 imm; emit_alu64_reg is64 dst tmp2 (BPF_OP code))
  | Some EBPF_OP_ADD_REG | Some EBPF_OP_SUB_REG | Some EBPF_OP_OR_REG | Some EBPF_OP_AND_REG
  | Some EBPF_OP_XOR_REG | Some EBPF_OP_MUL_REG | Some EBPF_OP_LSH_REG | Some EBPF_OP_RSH_REG
  | Some EBPF_OP_ARSH_REG | Some EBPF_OP_ADD64_REG | Some EBPF_OP_SUB64_REG | Some EBPF_OP_OR64_REG
  | Some EBPF_OP_AND64_REG | Some EBPF_OP_XOR64_REG =>
      done (emit_alu64_reg is64 dst src (BPF_OP code))
  | Some EBPF_OP_DIV_IMM | Some EBPF_OP_DIV_REG | Some EBPF_OP_MOD_IMM | Some EBPF_OP_MOD_REG
  | Some EBPF_OP_DIV64_IMM | Some EBPF_OP_DIV64_REG | Some EBPF_OP_MOD64_IMM | Some EBPF_OP_MOD64_REG =>
      done (emit_u32_div_mod dst src code imm)
  | Some EBPF_OP_LSH_IMM | Some EBPF_OP_RSH_IMM | Some EBPF_OP_ARSH_IMM =>
      if 31 <? imm then _ ← modify (set_err 1452); mret (-1)
      else done (if negb (imm =? 0) then emit_alu32_imm (lo dst) imm (BPF_OP code) else mret tt)
  | Some EBPF_OP_LSH64_REG => done (_emit_lsh64_reg dst src)
  | Some EBPF_OP_LSH64_IMM => done (_emit_lsh64_imm dst imm)
  | Some EBPF_OP_RSH64_REG => done (emit_a32_rsh_r64 dst src)
  | Some EBPF_OP_RSH64_IMM => done (emit_a32_rsh_i64 dst imm)
  | Some EBPF_OP_ARSH64_REG => done (emit_a32_arsh_r64 dst src)
  | Some EBPF_OP_ARSH64_IMM => done (emit_a32_arsh_i64 dst imm)
  | Some EBPF_OP_NEG => done (emit_alu32_imm (lo dst) 0 (BPF_OP code))
  | Some EBPF_OP_NEG64 => done (emit_a32_neg64 dst)
  | Some EBPF_OP_MUL64_IMM | Some EBPF_OP_MUL64_REG => done (build_mul64 i)
  | Some EBPF_OP_LE | Some EBPF_OP_BE => mret (-1)
  | Some EBPF_OP_LDDW => _ ← build_lddw pc i; mret 1
  | Some EBPF_OP_LDXW | Some EBPF_OP_LDXH | Some EBPF_OP_LDXB | Some EBPF_OP_LDXDW =>
      done (build_load i)
  | Some EBPF_OP_STW | Some EBPF_OP_STH | Some EBPF_OP_STB | Some EBPF_OP_STDW =>
      done (build_store_imm i)
  | Some EBPF_OP_STXW | Some EBPF_OP_STXH | Some EBPF_OP_STXB | Some EBPF_OP_STXDW =>
      done (build_store_reg i)
  | Some EBPF_OP_JA => done (build_ja pc off)
  | Some EBPF_OP_CALL => done (build_call imm)
  | Some EBPF_OP_EXIT => done (build_exit pc)
  | Some _ => done (build_cond_jump pc i)
  | None => mret 0
  end.

(** ** The whole program *)

Definition build_prologue : J unit :=
  let bpf_r1 := bpf2a32 BPF_REG_1 in
  let bpf_fp := bpf2a32 BPF_REG_FP in
  _ ← emit4 (_thumb32_PUSHW_T2 CALLEE_PUSH_MASK);
  _ ← _emit_mov_reg ARM_SP ARM_FP;
  _ ← emit_mov_imm (hi bpf_r1) 0;
  _ ← _emit_sub_imm (lo bpf_r1) ARM_SP SCRATCH_SIZE;
  _ ← _emit_sub_imm ARM_SP ARM_SP EBPF_STACK_SIZE;
  _ ← emit_mov_reg64 true bpf_fp bpf_r1;
  _ ← _emit_mov_reg ARM_R0 (lo bpf_r1);
  emit_mov_imm (hi bpf_r1) 0.

(** [state->offsets[i] = state->idx], in the first pass. *)
Definition record_offset (i : Z) : J unit :=
  ng ← gets needGen;
  if negb ng then
    ofs ← gets offsets;
    x ← gets idx;
    ofs' ← lift (zset ofs i (u32 x));
    modify (set_offsets ofs')
  else mret tt.

(** The loop of [build_body] from instruction i; [n] counts the turns left. *)
Fixpoint build_from (n : nat) (i : Z) : J unit :=
  match n with
  | O => mret tt
  | S n' =>
      num ← gets inst_num;
      if i <? num then
        l ← gets insts;
        inst ← lift (zget l i);
        ret ← build_inst i inst;
        if 0 <? ret then
          _ ← record_offset (i + 1);
          build_from n' (i + 2)
        else
          _ ← record_offset i;
          if ret <? 0 then mret tt else build_from n' (i + 1)
      else mret tt
  end.

Definition build_body : J unit := num ← gets inst_num; build_from (Z.to_nat num) 0.

Definition build_epilogue : J unit :=
  _ ← _emit_mov_reg ARM_FP ARM_SP;
  emit4 (_thumb32_POPW_T2 CALLEE_POP_MASK).

Definition jit_compile : J unit :=
  _ ← modify (set_idx 0);
  _ ← modify (set_needGen false);
  _ ← build_prologue;
  _ ← build_body;
  x ← gets idx;
  _ ← modify (set_epilogue x);
  _ ← modify (set_idx 0);
  _ ← modify (set_needGen true);
  _ ← build_prologue;
  _ ← build_body;
  build_epilogue.

(** ** gen_jit_code (jit.c)

    The static buffers, cleared by [jit_mem_allocate]; [addr] is the address
    of jit_buffer, which [jit_state_set_mem] rounds down to a multiple of
    four. *)

Definition JIT_BUFFER_SIZE : nat := 2048.
Definition OFFSET_MEM_SIZE : nat := 1024.

Definition jit_mem_allocate : list Z * list Z :=
  (replicate JIT_BUFFER_SIZE 0, replicate (OFFSET_MEM_SIZE / 4) 0).

Definition jit_state_set_mem (addr : Z) (mem : list Z * list Z) (st : jit_state) : jit_state :=
  mk_jit (insts st) (inst_num st) (fst mem) (addr .& 3) (idx st) (epilogue_offset st) (err_line st)
    (snd mem) (__bpf_call_base st) (needGen st).

(** The state the compiler ends in and the entry address, with the Thumb
    bit. *)
Definition gen_jit_code (addr : Z) (prog : list ebpf_inst) (num_insts : Z) (ext_funcs : list Z) :
    option (jit_state * Z) :=
  let st := mk_jit prog num_insts [] 0 0 0 0 [] ext_funcs false in
  r ← jit_compile (jit_state_set_mem addr jit_mem_allocate st);
  Some (snd r, addr .| 1).

Definition jit_mem_statistic (num_insts : Z) : Z :=
  let code_size := num_insts * 4 in
  let jit_size := 10 * num_insts + 16 in
  let offset_size := 4 * num_insts + 16 in
  let mem := code_size + jit_size + offset_size in
  code_size.
End BuildInst.
