(* ===== verification/JitEmit.v ===== *)
(** * What the emitters of the compiler do

    Emission is described by the list of halfwords appended ([emitted]).  A
    computation that appends the same halfwords in every state with the same
    program, size and helper table is [Straight]; the tactic [straight] proves
    it along the structure of an emitter, and all of them are but the
    branches. *)

From S2P Require Import Prelude EbpfInst Thumb2 Jit.

(** ** Emitted halfwords *)

Definition half_bytes (ws : list Z) : list Z := concat (map (le_bytes 2) ws).

(** The part of the state no emitter changes. *)
Record jit_env := mk_jenv { v_insts : list ebpf_inst; v_num : Z; v_base : list Z }.
Definition env_of (st : jit_state) : jit_env := mk_jenv (insts st) (inst_num st) (__bpf_call_base st).

Definition emitted (ws : list Z) (st st' : jit_state) : Prop :=
  env_of st' = env_of st /\ needGen st' = needGen st /\ offsets st' = offsets st /\
  epilogue_offset st' = epilogue_offset st /\ jit_align st' = jit_align st /\
  idx st' = idx st + 2 * Z.of_nat (length ws) /\
  (if needGen st then put_bytes (idx st - jit_align st) (half_bytes ws) (jit_code st) = Some (jit_code st')
   else jit_code st' = jit_code st).

Lemma length_half_bytes (ws : list Z) : length (half_bytes ws) = (2 * length ws)%nat.
Proof. induction ws as [|w ws IH]; [done|]. unfold half_bytes in *. cbn. rewrite IH. lia. Qed.

Lemma half_bytes_app (ws1 ws2 : list Z) : half_bytes (ws1 ++ ws2) = half_bytes ws1 ++ half_bytes ws2.
Proof. unfold half_bytes. by rewrite map_app, concat_app. Qed.

Lemma put_bytes_app (i : Z) (a b code : list Z) :
  put_bytes i (a ++ b) code = c ← put_bytes i a code; put_bytes (i + Z.of_nat (length a)) b c.
Proof.
  revert i code. induction a as [|x a IH]; intros i code; cbn.
  - by rewrite Z.add_0_r.
  - destruct (zset code i x); cbn; [|done]. rewrite IH.
    by replace (i + 1 + Z.of_nat (length a)) with (i + Z.pos (Pos.of_succ_nat (length a))) by lia.
Qed.

Lemma put_bytes_length (i : Z) (data code code' : list Z) :
  put_bytes i data code = Some code' -> length code' = length code.
Proof.
  revert i code. induction data as [|x data IH]; intros i code; cbn; [by intros [= <-]|].
  destruct (zset code i x) eqn:E; cbn; [|done]. intros ->%IH. by eapply zset_length.
Qed.

Lemma emitted_nil (st : jit_state) : emitted [] st st.
Proof. unfold emitted. cbn. rewrite Z.add_0_r. by destruct (needGen st). Qed.

Lemma emitted_app (ws1 ws2 : list Z) (st st1 st2 : jit_state) :
  emitted ws1 st st1 -> emitted ws2 st1 st2 -> emitted (ws1 ++ ws2) st st2.
Proof.
  intros (E1 & N1 & O1 & P1 & A1 & I1 & C1) (E2 & N2 & O2 & P2 & A2 & I2 & C2).
  unfold emitted. split_and!; try congruence.
  - rewrite I2, I1, length_app. lia.
  - rewrite N1 in C2. destruct (needGen st); [|congruence].
    rewrite half_bytes_app, put_bytes_app, C1. cbn. rewrite length_half_bytes.
    rewrite I1, A1 in C2. rewrite <- C2. f_equal. lia.
Qed.

Lemma emitted_idx (ws : list Z) (st st' : jit_state) :
  emitted ws st st' -> idx st' = idx st + 2 * Z.of_nat (length ws).
Proof. by intros (_ & _ & _ & _ & _ & H & _). Qed.

Lemma emitted_env (ws : list Z) (st st' : jit_state) : emitted ws st st' -> env_of st' = env_of st.
Proof. by intros (H & _). Qed.

(** There is room for [n] halfwords in the code buffer; the first pass, which
    writes none, needs no room. *)
Definition room (n : nat) (st : jit_state) : Prop :=
  needGen st = true ->
  0 <= idx st - jit_align st /\ idx st - jit_align st + 2 * Z.of_nat n <= Z.of_nat (length (jit_code st)).

Lemma room_le (n n' : nat) (st : jit_state) : (n' <= n)%nat -> room n st -> room n' st.
Proof. intros Hn Hr Hg. specialize (Hr Hg). lia. Qed.

Lemma room_after (ws : list Z) (n : nat) (st st' : jit_state) :
  emitted ws st st' -> room (length ws + n) st -> room n st'.
Proof.
  intros (_ & N & _ & _ & A & I & C) Hr Hg. rewrite N in Hg. specialize (Hr Hg). rewrite Hg in C.
  rewrite (put_bytes_length _ _ _ _ C), A, I. lia.
Qed.

Lemma put_bytes_is_Some (data : list Z) (i : Z) (code : list Z) :
  0 <= i -> i + Z.of_nat (length data) <= Z.of_nat (length code) -> is_Some (put_bytes i data code).
Proof.
  revert i code. induction data as [|x data IH]; intros i code H0 H1; [by eexists|]. cbn [put_bytes length] in *.
  rewrite zset_is_Some by lia. cbn [mbind option_bind]. apply IH; rewrite ?length_insert; lia.
Qed.

Lemma j_bind_Some {A B} (m : J A) (k : A -> J B) (st st' : jit_state) (b : B) :
  (m ≫= k) st = Some (b, st') -> exists a st1, m st = Some (a, st1) /\ k a st1 = Some (b, st').
Proof. unfold mbind, j_bind. destruct (m st) as [[a st1]|]; [|done]. eauto. Qed.

(** ** Straight computations *)

(** [m] appends [ws] in every state, and succeeds when there is room. *)
Definition Emits {A} (ws : list Z) (a : A) (m : J A) : Prop :=
  forall st, (forall a' st', m st = Some (a', st') -> a' = a /\ emitted ws st st') /\
    (room (length ws) st -> is_Some (m st)).

(** The words are halfwords. *)
Abbreviation halves_wf := (Forall (fun w => u16 w = w)).

(** It does not depend on the state what [m] appends. *)
Definition Plain {A} (m : J A) : Prop := exists ws a, halves_wf ws /\ Emits ws a m.

(** It depends only on the part of the state that emitters do not change. *)
Definition Straight {A} (e : jit_env) (m : J A) : Prop :=
  exists ws a, forall st, env_of st = e ->
    (forall a' st', m st = Some (a', st') -> a' = a /\ emitted ws st st') /\ (room (length ws) st -> is_Some (m st)).

Lemma plain_straight {A} e (m : J A) : Plain m -> Straight e m.
Proof. intros (ws & a & _ & H). exists ws, a. by intros st _. Qed.

Lemma straight_bind {A B} e (m : J A) (k : A -> J B) :
  Straight e m -> (forall a, Straight e (k a)) -> Straight e (m ≫= k).
Proof.
  intros (ws1 & a & H1) Hk. destruct (Hk a) as (ws2 & b & H2). exists (ws1 ++ ws2), b.
  intros st He. destruct (H1 st He) as [P1 T1]. split.
  - intros b' st' (a' & st1 & Hm & Hk')%j_bind_Some. destruct (P1 _ _ Hm) as [-> Hem1].
    destruct (H2 st1 (eq_trans (emitted_env _ _ _ Hem1) He)) as [P2 _]. destruct (P2 _ _ Hk') as [Hb Hem2].
    split; [done|by eapply emitted_app].
  - rewrite length_app. intros Hr. destruct (T1 (room_le _ _ _ (Nat.le_add_r _ _) Hr)) as [[a' st1] Hm].
    destruct (P1 _ _ Hm) as [-> Hem1]. unfold mbind, j_bind. rewrite Hm.
    apply (H2 st1 (eq_trans (emitted_env _ _ _ Hem1) He)). by eapply room_after.
Qed.

Lemma straight_if {A} e (b : bool) (m1 m2 : J A) :
  Straight e m1 -> Straight e m2 -> Straight e (if b then m1 else m2).
Proof. by destruct b. Qed.

Lemma emits_ret {A} (a : A) : Emits [] a (mret a).
Proof. intros st. split; [|by eexists]. intros a' st' [= <- <-]. split; [done|apply emitted_nil]. Qed.

Lemma emits_bind {A B} (ws1 ws2 : list Z) (a : A) (b : B) (m : J A) (k : A -> J B) :
  Emits ws1 a m -> Emits ws2 b (k a) -> Emits (ws1 ++ ws2) b (m ≫= k).
Proof.
  intros H1 H2 st. destruct (H1 st) as [P1 T1]. split.
  - intros b' st' (a' & st1 & Hm & Hk)%j_bind_Some. destruct (P1 _ _ Hm) as [-> Hem1].
    destruct (H2 st1) as [P2 _]. destruct (P2 _ _ Hk) as [Hb Hem2]. split; [done|by eapply emitted_app].
  - rewrite length_app. intros Hr. destruct (T1 (room_le _ _ _ (Nat.le_add_r _ _) Hr)) as [[a' st1] Hm].
    destruct (P1 _ _ Hm) as [-> Hem1]. unfold mbind, j_bind. rewrite Hm. apply H2. by eapply room_after.
Qed.

Lemma plain_ret {A} (a : A) : Plain (mret a).
Proof. exists [], a. split; [constructor|apply emits_ret]. Qed.

Lemma plain_bind {A B} (m : J A) (k : A -> J B) : Plain m -> (forall a, Plain (k a)) -> Plain (m ≫= k).
Proof.
  intros (ws1 & a & W1 & H1) Hk. destruct (Hk a) as (ws2 & b & W2 & H2).
  exists (ws1 ++ ws2), b. split; [by apply Forall_app|by eapply emits_bind].
Qed.

Lemma plain_if {A} (b : bool) (m1 m2 : J A) : Plain m1 -> Plain m2 -> Plain (if b then m1 else m2).
Proof. by destruct b. Qed.

Lemma emit2_emitted (x : Z) (st st' : jit_state) (u : unit) :
  emit2 x st = Some (u, st') -> emitted [u16 x] st st'.
Proof.
  unfold emit2, emit_bytes. destruct (needGen st) eqn:N; cbn [mbind option_bind].
  - intros H. inv_some. unfold emitted. cbn -[u16 le_bytes put_bytes zset]. rewrite N.
    split_and!; try done.
  - intros H. inv_some. unfold emitted. cbn -[u16 le_bytes]. by rewrite N.
Qed.

Lemma emit2_room (x : Z) (st : jit_state) : room 1 st -> is_Some (emit2 x st).
Proof.
  intros Hr. unfold emit2, emit_bytes. destruct (needGen st) eqn:N; [|by eexists]. specialize (Hr N).
  destruct (put_bytes_is_Some (le_bytes 2 (u16 x)) (idx st - jit_align st) (jit_code st)) as [c ->]; [lia|change (length (le_bytes 2 (u16 x))) with 2%nat; lia|].
  by eexists.
Qed.

Lemma emits_emit2 x : Emits [u16 x] tt (emit2 x).
Proof. intros st. split; [|apply emit2_room]. intros [] st' H. split; [done|by eapply emit2_emitted]. Qed.

Lemma plain_emit2 x : Plain (emit2 x).
Proof. exists [u16 x], tt. split; [|apply emits_emit2]. repeat constructor. apply wrap_idemp. Qed.

(** The halfwords of a 32-bit instruction, in the order they are emitted. *)
Definition halfwords (x : Z) : list Z := [u16 (field x 16 0xffff); u16 (x .& 0xffff)].

Lemma emits_emit4 x : Emits (halfwords x) tt (emit4 x).
Proof. exact (emits_bind _ _ _ _ _ _ (emits_emit2 (field x 16 0xffff)) (emits_emit2 (x .& 0xffff))). Qed.

Lemma emit4_emitted (x : Z) (st st' : jit_state) (u : unit) :
  emit4 x st = Some (u, st') -> emitted (halfwords x) st st'.
Proof. intros H. by apply (emits_emit4 x st) in H as [_ H]. Qed.

Lemma emit4_room (x : Z) (st : jit_state) : room 2 st -> is_Some (emit4 x st).
Proof. intros H. by apply (emits_emit4 x st). Qed.

Lemma plain_emit4 x : Plain (emit4 x).
Proof. exists (halfwords x), tt. split; [|apply emits_emit4]. repeat constructor; apply wrap_idemp. Qed.

(** ** The words of a plain emitter

    A plain emitter is run on an empty buffer to find what it appends. *)
Definition blank : jit_state := mk_jit [] 0 (replicate 128 0) 0 0 0 0 [] [] true.

Fixpoint halves (bs : list Z) : list Z :=
  match bs with
  | a :: b :: bs' => (a .| (b << 8)) :: halves bs'
  | _ => []
  end.

Definition code_of {A} (m : J A) : list Z :=
  match m blank with
  | Some (_, st) => halves (firstn (Z.to_nat (idx st)) (jit_code st))
  | None => []
  end.

Lemma two_bytes (w : Z) : u16 w = w -> byte_of 0 w .| (byte_of 1 w << 8) = w.
Proof.
  intros Hw. apply Z.bits_inj'. intros i Hi. rewrite Z.lor_spec, testbit_shl, testbit_byte_of by lia.
  rewrite <- Hw at 3. unfold u16. rewrite testbit_wrap, Z.add_0_r by lia.
  destruct (Z.ltb_spec i 8) as [Hlt|Hge].
  - rewrite (Z.testbit_neg_r (byte_of 1 w)) by lia. rewrite orb_false_r.
    by destruct (Z.ltb_spec i 16); [|lia].
  - rewrite testbit_byte_of by lia. replace (i - 8 + 8 * 1) with i by lia. cbn [andb orb].
    destruct (Z.ltb_spec (i - 8) 8), (Z.ltb_spec i 16); (done || lia).
Qed.

Lemma halves_half_bytes (ws : list Z) : halves_wf ws -> halves (half_bytes ws) = ws.
Proof.
  induction 1 as [|w ws Hw _ IH]; [done|].
  change (half_bytes (w :: ws)) with (byte_of 0 w :: byte_of 1 w :: half_bytes ws).
  cbn [halves]. by rewrite two_bytes, IH.
Qed.

(** Bytes put at an index replace the ones that are there. *)
Lemma put_bytes_at (pre data rest code : list Z) :
  put_bytes (Z.of_nat (length pre)) data (pre ++ rest) = Some code ->
  code = pre ++ data ++ drop (length data) rest.
Proof.
  revert pre rest. induction data as [|b data IH]; intros pre rest; cbn [put_bytes length].
  { by intros [= <-]. }
  destruct rest as [|x rest].
  { destruct (zset (pre ++ []) (Z.of_nat (length pre)) b) eqn:E; [|done].
    apply zset_Some in E as [H _]. rewrite app_nil_r in H. lia. }
  rewrite zset_is_Some by (rewrite length_app; cbn [length]; lia). cbn [mbind option_bind].
  rewrite Nat2Z.id, list.insert_app_r_alt, Nat.sub_diag by lia. cbn [list_insert drop].
  replace (Z.of_nat (length pre) + 1) with (Z.of_nat (length (pre ++ [b]))) by (rewrite length_app; cbn [length]; lia).
  change (pre ++ <[0%nat:=b]> (x :: rest)) with (pre ++ [b] ++ rest). rewrite app_assoc.
  intros ->%IH. by rewrite <- app_assoc.
Qed.

Lemma plain_emits {A} (m : J A) (a : A) (st : jit_state) :
  Plain m -> m blank = Some (a, st) -> halves_wf (code_of m) /\ Emits (code_of m) a m.
Proof.
  intros (ws & a0 & Hws & He) Hm. destruct (proj1 (He blank) _ _ Hm) as [-> (_ & _ & _ & _ & _ & I & C)].
  unfold code_of. rewrite Hm. change (needGen blank) with true in C. cbv iota in C.
  apply (put_bytes_at []) in C. rewrite C, I. cbn [app].
  replace (Z.to_nat (idx blank + 2 * Z.of_nat (length ws))) with (length (half_bytes ws) + 0)%nat
    by (rewrite length_half_bytes; change (idx blank) with 0; lia).
  by rewrite firstn_app_2, firstn_O, app_nil_r, halves_half_bytes.
Qed.

(** ** Reads of the environment

    A read of the part of the state that does not change. *)
Lemma straight_gets_env {A} e (f : jit_state -> A) (g : jit_env -> A) :
  (forall st, f st = g (env_of st)) -> Straight e (gets f).
Proof.
  intros Hf. exists [], (g e). intros st <-. split; [|by eexists]. intros a st' [= <- <-].
  split; [by rewrite Hf|apply emitted_nil].
Qed.

Lemma straight_gets_bind {A B} e (f : jit_state -> A) (g : jit_env -> A) (k : A -> J B) :
  (forall st, f st = g (env_of st)) -> Straight e (k (g e)) -> Straight e (gets f ≫= k).
Proof.
  intros Hf (ws & b & H). exists ws, b. intros st <-. unfold mbind, j_bind, gets. rewrite Hf. by apply H.
Qed.
Lemma straight_insts e : Straight e (gets insts).
Proof. exact (straight_gets_env e insts v_insts (fun _ => eq_refl)). Qed.
Lemma straight_num e : Straight e (gets inst_num).
Proof. exact (straight_gets_env e inst_num v_num (fun _ => eq_refl)). Qed.
Lemma straight_base e : Straight e (gets __bpf_call_base).
Proof. exact (straight_gets_env e __bpf_call_base v_base (fun _ => eq_refl)). Qed.
Lemma straight_b4 e : Straight e (gets _use_b4).
Proof. exact (straight_gets_env e _use_b4 (fun v => 20 <? v_num v) (fun _ => eq_refl)). Qed.

Create HintDb straight discriminated.
#[export] Hint Resolve plain_ret plain_emit2 plain_emit4 plain_straight straight_insts straight_num
  straight_base straight_b4 : straight.

(** [straight f]: the emitter f is straight because what it calls is. *)
Ltac straight_step :=
  cbv zeta;
  lazymatch goal with
  | |- Straight _ (mbind _ _) => apply straight_bind; [|intros ?]
  | |- Straight _ (match ?b with true => _ | false => _ end) => apply straight_if
  | |- Plain (mbind _ _) => apply plain_bind; [|intros ?]
  | |- Plain (match ?b with true => _ | false => _ end) => apply plain_if
  | |- Plain (match ?p with (_, _) => _ end) => destruct p
  | |- Plain _ => solve [auto with straight]
  | |- Straight _ (match ?p with (_, _) => _ end) => destruct p
  | |- Straight _ _ => solve [auto with straight]
  end.
Ltac straight f := intros; unfold f; repeat straight_step.

Lemma st_ldr_i a b c : Plain (_emit_ldr_i a b c).
Proof. straight _emit_ldr_i. Qed.
#[export] Hint Resolve st_ldr_i : straight.
Lemma st_ldrb_i a b c : Plain (_emit_ldrb_i a b c).
Proof. straight _emit_ldrb_i. Qed.
Lemma st_ldrh_i a b c : Plain (_emit_ldrh_i a b c).
Proof. straight _emit_ldrh_i. Qed.
Lemma st_ldrd_i a b c : Plain (_emit_ldrd_i a b c).
Proof. straight _emit_ldrd_i. Qed.
Lemma st_str_i a b c : Plain (_emit_str_i a b c).
Proof. straight _emit_str_i. Qed.
Lemma st_strd_i a b c : Plain (_emit_strd_i a b c).
Proof. straight _emit_strd_i. Qed.
#[export] Hint Resolve st_ldrb_i st_ldrh_i st_ldrd_i st_str_i st_strd_i : straight.
Lemma st_mov_reg a b : Plain (_emit_mov_reg a b).
Proof. straight _emit_mov_reg. Qed.
Lemma st_mov_imm a b : Plain (emit_mov_imm a b).
Proof. straight emit_mov_imm. Qed.
#[export] Hint Resolve st_mov_reg st_mov_imm : straight.
Lemma st_get32 a b : Plain (arm_bpf_get_reg32 a b).
Proof. straight arm_bpf_get_reg32. Qed.
Lemma st_put32 a b : Plain (arm_bpf_put_reg32 a b).
Proof. straight arm_bpf_put_reg32. Qed.
#[export] Hint Resolve st_get32 st_put32 : straight.
Lemma st_a32_mov a b : Plain (emit_a32_mov_reg a b).
Proof. straight emit_a32_mov_reg. Qed.
#[export] Hint Resolve st_a32_mov : straight.
Lemma st_get64 a b : Plain (arm_bpf_get_reg64 a b).
Proof. straight arm_bpf_get_reg64. Qed.
Lemma st_put64 a b : Plain (arm_bpf_put_reg64 a b).
Proof. straight arm_bpf_put_reg64. Qed.
#[export] Hint Resolve st_get64 st_put64 : straight.
Lemma st_mov64 a b c : Plain (emit_mov_reg64 a b c).
Proof. straight emit_mov_reg64. Qed.
Lemma st_push a : Plain (emit_push_r64 a).
Proof. straight emit_push_r64. Qed.
Lemma st_mov_i64 a b : Plain (emit_mov_i64 a b).
Proof. straight emit_mov_i64. Qed.
#[export] Hint Resolve st_mov64 st_push st_mov_i64 : straight.
Lemma st_mov_se a b c : Plain (emit_mov_se_imm64 a b c).
Proof. straight emit_mov_se_imm64. Qed.
#[export] Hint Resolve st_mov_se : straight.
Lemma st_add_reg a b c d : Plain (_emit_add_reg a b c d).
Proof. straight _emit_add_reg. Qed.
Lemma st_add_imm a b c : Plain (_emit_add_imm a b c).
Proof. straight _emit_add_imm. Qed.
Lemma st_sub_imm a b c : Plain (_emit_sub_imm a b c).
Proof. straight _emit_sub_imm. Qed.
Lemma st_sub_reg a b c d : Plain (_emit_sub_reg a b c d).
Proof. straight _emit_sub_reg. Qed.
Lemma st_orr_reg a b : Plain (_emit_orr_reg a b).
Proof. straight _emit_orr_reg. Qed.
Lemma st_and_reg a b : Plain (_emit_and_reg a b).
Proof. straight _emit_and_reg. Qed.
Lemma st_cmp_reg a b : Plain (_emit_cmp_reg a b).
Proof. straight _emit_cmp_reg. Qed.
#[export] Hint Resolve st_add_reg st_add_imm st_sub_imm st_sub_reg st_orr_reg st_and_reg st_cmp_reg : straight.
Lemma st_alu32_reg a b c d f : Plain (emit_alu32_reg a b c d f).
Proof. straight emit_alu32_reg. Qed.
#[export] Hint Resolve st_alu32_reg : straight.
Lemma st_alu64_reg a b c d : Plain (emit_alu64_reg a b c d).
Proof. straight emit_alu64_reg. Qed.
Lemma st_alu32_imm a b c : Plain (emit_alu32_imm a b c).
Proof. straight emit_alu32_imm. Qed.
Lemma st_div_mod a b c d : Plain (emit_u32_div_mod a b c d).
Proof. straight emit_u32_div_mod. Qed.
Lemma st_lsh64_reg a b : Plain (_emit_lsh64_reg a b).
Proof. straight _emit_lsh64_reg. Qed.
Lemma st_lsh64_imm a b : Plain (_emit_lsh64_imm a b).
Proof. straight _emit_lsh64_imm. Qed.
Lemma st_rsh_r64 a b : Plain (emit_a32_rsh_r64 a b).
Proof. straight emit_a32_rsh_r64. Qed.
Lemma st_rsh_i64 a b : Plain (emit_a32_rsh_i64 a b).
Proof. straight emit_a32_rsh_i64. Qed.
Lemma st_arsh_r64 a b : Plain (emit_a32_arsh_r64 a b).
Proof. straight emit_a32_arsh_r64. Qed.
Lemma st_arsh_i64 a b : Plain (emit_a32_arsh_i64 a b).
Proof. straight emit_a32_arsh_i64. Qed.
Lemma st_neg64 a : Plain (emit_a32_neg64 a).
Proof. straight emit_a32_neg64. Qed.
Lemma st_mul_r64 a b : Plain (emit_a32_mul_r64 a b).
Proof. straight emit_a32_mul_r64. Qed.
Lemma st_ldx a b c d : Plain (emit_ldx_reg a b c d).
Proof. straight emit_ldx_reg. Qed.
Lemma st_str a b c d : Plain (emit_str_reg a b c d).
Proof. straight emit_str_reg. Qed.
Lemma st_cmp_cond a b c d f g : Plain (_emit_cmp_cond a b c d f g).
Proof. straight _emit_cmp_cond. Qed.
#[export] Hint Resolve st_mul_r64 st_ldx st_str : straight.
Lemma st_mul64 past_end a : Plain (build_mul64 past_end a).
Proof. straight build_mul64. Qed.
Lemma st_load past_end a : Plain (build_load past_end a).
Proof. straight build_load. Qed.
Lemma st_store_imm past_end a : Plain (build_store_imm past_end a).
Proof. straight build_store_imm. Qed.
Lemma st_store_reg past_end a : Plain (build_store_reg past_end a).
Proof. straight build_store_reg. Qed.
Lemma st_prologue past_end : Plain (build_prologue past_end).
Proof. straight build_prologue. Qed.
Lemma st_epilogue : Plain build_epilogue.
Proof. straight build_epilogue. Qed.
#[export] Hint Resolve st_alu64_reg st_alu32_imm st_div_mod st_lsh64_reg st_lsh64_imm st_rsh_r64 st_rsh_i64 st_arsh_r64 st_arsh_i64 st_neg64 st_cmp_cond st_mul64 st_load
  st_store_imm st_store_reg st_prologue st_epilogue : straight.

(** The two emitters that read the program and the helper table. *)
Lemma st_lddw past_end e pc i i2 : zget (v_insts e) (pc + 1) = Some i2 -> Straight e (build_lddw past_end pc i).
Proof.
  intros H. unfold build_lddw. apply (straight_gets_bind _ insts v_insts); [done|]. rewrite H. apply plain_straight, st_mov_i64.
Qed.

Lemma st_call past_end e imm f : zget (v_base e) imm = Some f -> Straight e (build_call past_end imm).
Proof.
  intros H. unfold build_call. apply (straight_gets_bind _ __bpf_call_base v_base); [done|]. rewrite H.
  apply straight_bind; [apply plain_straight, plain_ret|]. intros func. repeat straight_step.
Qed.

Lemma lddw_none past_end pc i st : zget (insts st) (pc + 1) = None -> build_lddw past_end pc i st = None.
Proof. intros H. unfold build_lddw, mbind, j_bind, gets, lift. by rewrite H. Qed.

Lemma call_none past_end imm st : zget (__bpf_call_base st) imm = None -> build_call past_end imm st = None.
Proof. intros H. unfold build_call, mbind, j_bind, gets, lift. by rewrite H. Qed.
