(* ===== verification/JitProps.v ===== *)
(** * Properties of the compiled code

    What the encoders of the branches mean to the processor, by decoding them,
    and that the code the compiler emits for a constant leaves that constant in
    its register. *)

From S2P Require Import Prelude EbpfInst Thumb2 Jit JitEmit.

(** ** Decoding the branches

    The branch encodings of the ARMv7-M reference manual (A7.7.12): T1 and T3
    are conditional, T2 is not.  The displacement is relative to the address
    of the instruction plus 4. *)

Definition decode_branch (ws : list Z) : option (option Z * Z) :=
  match ws with
  | [w] =>
      if field w 12 15 =? 13 then
        if field w 8 15 <? 14 then Some (Some (field w 8 15), sext 9 (field w 0 0xff << 1)) else None
      else if field w 11 31 =? 28 then Some (None, sext 12 (field w 0 0x7ff << 1))
      else None
  | [h1; h2] =>
      if (field h1 11 31 =? 30) && (field h2 14 3 =? 2) && (field h2 12 1 =? 0) && (field h1 6 15 <? 14)
      then Some (Some (field h1 6 15),
             sext 21 ((field h2 0 0x7ff << 1) .| (field h1 0 0x3f << 12) .| (field h2 13 1 << 18) .|
                      (field h2 11 1 << 19) .| (field h1 10 1 << 20)))
      else None
  | _ => None
  end.

(** [forallb] over the integers of an interval. *)
Definition zrange (a : Z) (n : nat) : list Z := map (fun k => a + Z.of_nat k) (seq 0 n).

Lemma zrange_In (a x : Z) (n : nat) : a <= x < a + Z.of_nat n -> In x (zrange a n).
Proof.
  intros H. apply in_map_iff. exists (Z.to_nat (x - a)). split; [lia|]. apply in_seq. lia.
Qed.

Lemma zrange_forallb (P : Z -> bool) (a : Z) (n : nat) :
  forallb P (zrange a n) = true -> forall x, a <= x < a + Z.of_nat n -> P x = true.
Proof. intros H x Hx. rewrite forallb_forall in H. by apply H, zrange_In. Qed.

Definition opt_branch_eqb (x : option (option Z * Z)) (c : option Z) (d : Z) : bool :=
  match x with
  | Some (c', d') => bool_decide (c' = c) && (d' =? d)
  | None => false
  end.

Lemma opt_branch_eqb_true x c d : opt_branch_eqb x c d = true -> x = Some (c, d).
Proof.
  unfold opt_branch_eqb. destruct x as [[c' d']|]; [|done].
  intros [Hc%bool_decide_eq_true ->%Z.eqb_eq]%andb_true_iff. by rewrite Hc.
Qed.

Lemma decode_B_T1 (off c : Z) :
  0 <= c < 14 -> -256 <= off <= 254 -> Z.even off = true ->
  decode_branch [_thumb16_B_T1 off c] = Some (Some c, off).
Proof.
  intros Hc Ho He. apply opt_branch_eqb_true.
  assert (H : forallb (fun c => forallb (fun k =>
    opt_branch_eqb (decode_branch [_thumb16_B_T1 (2 * k) c]) (Some c) (2 * k)) (zrange (-128) 256)) (zrange 0 14) = true)
    by (vm_compute; reflexivity).
  pose proof (zrange_forallb _ _ _ H c ltac:(lia)) as Hk. cbv beta in Hk.
  apply Z.even_spec in He as [k ->].
  exact (zrange_forallb _ _ _ Hk k ltac:(lia)).
Qed.

Lemma decode_B_T2 (off : Z) :
  -2048 <= off <= 2046 -> Z.even off = true -> decode_branch [_thumb16_B_T2 off] = Some (None, off).
Proof.
  intros Ho He. apply opt_branch_eqb_true.
  assert (H : forallb (fun k =>
    opt_branch_eqb (decode_branch [_thumb16_B_T2 (2 * k)]) None (2 * k)) (zrange (-1024) 2048) = true)
    by (vm_compute; reflexivity).
  apply Z.even_spec in He as [k ->]. exact (zrange_forallb _ _ _ H k ltac:(lia)).
Qed.

Lemma field_bits (n k x y : Z) :
  0 <= n -> 0 <= k -> 0 <= y < 2 ^ k -> (forall i, 0 <= i < k -> Z.testbit x (i + n) = Z.testbit y i) ->
  field x n (Z.ones k) = y.
Proof.
  intros Hn Hk Hy Hb. unfold field. apply Z.bits_inj'. intros i Hi.
  rewrite Z.land_spec, Z.shiftr_spec, Z.testbit_ones_nonneg by lia.
  destruct (Z.ltb_spec i k); [rewrite andb_true_r; apply Hb; lia|].
  rewrite andb_false_r. symmetry. apply (testbit_above k); lia.
Qed.

Lemma testbit_field (x n k i : Z) :
  0 <= n -> 0 <= k -> 0 <= i -> Z.testbit (field x n (Z.ones k)) i = (i <? k) && Z.testbit x (i + n).
Proof.
  intros Hn Hk Hi. unfold field. rewrite Z.land_spec, Z.shiftr_spec, Z.testbit_ones_nonneg by lia.
  apply andb_comm.
Qed.

Lemma field_field (x n k m m' : Z) : 0 <= n -> 0 <= k -> field (field x n m) k m' = field x (n + k) (m >> k .& m').
Proof. intros Hn Hk. unfold field. by rewrite Z.shiftr_land, Z.shiftr_shiftr, Z.land_assoc by lia. Qed.

(** [closed_bools] evaluates the comparisons of closed numbers. *)
Ltac closed_bools :=
  repeat match goal with
  | |- context [?a <=? ?b] =>
      let c := eval vm_compute in (a <=? b) in
      lazymatch c with true => change (a <=? b) with true | false => change (a <=? b) with false end
  | |- context [?a <? ?b] =>
      let c := eval vm_compute in (a <? b) in
      lazymatch c with true => change (a <? b) with true | false => change (a <? b) with false end
  end; rewrite ?andb_false_l, ?andb_true_l, ?orb_false_l.

Section BW_T3.
Context (off c : Z) (Hc : 0 <= c < 14) (Ho : - 2 ^ 20 <= off < 2 ^ 20) (He : Z.even off = true).

Lemma testbit_b2z (b : bool) (i : Z) : 0 <= i -> Z.testbit (b2z b) i = (i =? 0) && b.
Proof.
  intros Hi. destruct b; cbn [b2z]; [|by rewrite Z.testbit_0_l, andb_false_r].
  rewrite andb_true_r. destruct (Z.eqb_spec i 0) as [->|]; [done|]. apply (testbit_above 1); lia.
Qed.

Lemma bits_cond (i : Z) : 4 <= i -> Z.testbit c i = false.
Proof using Hc. intros Hi. apply (testbit_above 4); lia. Qed.

(** A bit of the instruction word, from the bits of its fields. *)
Lemma BW_T3_bit (i : Z) :
  0 <= i < 32 ->
  Z.testbit (_thumb32_BW_T3 off c) i =
  if i <? 11 then Z.testbit off (i + 1)
  else if i =? 11 then Z.testbit off 19
  else if i =? 13 then Z.testbit off 18
  else if i =? 15 then true
  else if i <? 16 then false
  else if i <? 22 then Z.testbit off (i - 4)
  else if i <? 26 then Z.testbit c (i - 22)
  else if i =? 26 then off <? 0
  else 27 <? i.
Proof using Hc.
  intros Hi. unfold _thumb32_BW_T3, u32, THUMB2_BW_COND_T3.
  change 0x7ff with (Z.ones 11). change 0x3f with (Z.ones 6).
  change (field off 18 1) with (field off 18 (Z.ones 1)).
  change (field off 19 1) with (field off 19 (Z.ones 1)).
  rewrite testbit_wrap by lia. rewrite !Z.lor_spec, !Z.shiftl_spec by lia.
  assert (Hf : forall n k j, 0 <= n -> 0 <= k ->
    Z.testbit (field off n (Z.ones k)) j = (0 <=? j) && ((j <? k) && Z.testbit off (j + n))).
  { intros n k j Hn Hk. destruct (Z.leb_spec 0 j); [by rewrite testbit_field|by rewrite Z.testbit_neg_r]. }
  rewrite !Hf by lia.
  assert (Hb : forall j, Z.testbit (b2z (off <? 0)) j = (j =? 0) && (off <? 0)).
  { intros j. destruct (Z.ltb_spec j 0); [|by rewrite testbit_b2z].
    rewrite Z.testbit_neg_r by lia. destruct (Z.eqb_spec j 0); (done || lia). }
  rewrite Hb.
  assert (Hcc : forall j, Z.testbit c j = (0 <=? j) && ((j <? 4) && Z.testbit c j)).
  { intros j. destruct (Z.leb_spec 0 j); [|by rewrite Z.testbit_neg_r by lia].
    destruct (Z.ltb_spec j 4); [done|]. rewrite bits_cond by lia. done. }
  rewrite (Hcc (i - 22)).
  bit_cases i 32%nat; cbn -[Z.testbit]; rewrite ?orb_false_r; reflexivity.
Qed.
End BW_T3.

Lemma half_hi_bit (w i : Z) : 0 <= i -> Z.testbit (u16 (field w 16 0xffff)) i = (i <? 16) && Z.testbit w (i + 16).
Proof.
  intros Hi. unfold u16. change 0xffff with (Z.ones 16). rewrite testbit_wrap, testbit_field by lia.
  by destruct (i <? 16).
Qed.

Lemma half_lo_bit (w i : Z) : 0 <= i -> Z.testbit (u16 (w .& 0xffff)) i = (i <? 16) && Z.testbit w i.
Proof.
  intros Hi. unfold u16. change 0xffff with (Z.ones 16).
  rewrite testbit_wrap, Z.land_spec, Z.testbit_ones_nonneg by lia.
  destruct (i <? 16); [by rewrite andb_true_r|done].
Qed.

Lemma decode_BW_T3 (off c : Z) :
  0 <= c < 14 -> - 2 ^ 20 <= off < 2 ^ 20 -> Z.even off = true ->
  decode_branch (halfwords (_thumb32_BW_T3 off c)) = Some (Some c, off).
Proof.
  intros Hc Ho He. unfold halfwords. set (w := _thumb32_BW_T3 off c).
  pose proof (BW_T3_bit off c Hc) as Hw. change (_thumb32_BW_T3 off c) with w in Hw.
  unfold decode_branch. set (h1 := u16 (field w 16 0xffff)). set (h2 := u16 (w .& 0xffff)).
  assert (H1 : forall i, 0 <= i < 16 -> Z.testbit h1 i = Z.testbit w (i + 16)).
  { intros i Hi. unfold h1. rewrite half_hi_bit by lia. by destruct (Z.ltb_spec i 16); [|lia]. }
  assert (H2 : forall i, 0 <= i < 16 -> Z.testbit h2 i = Z.testbit w i).
  { intros i Hi. unfold h2. rewrite half_lo_bit by lia. by destruct (Z.ltb_spec i 16); [|lia]. }
  assert (F1 : field h1 11 31 = 30).
  { apply (field_bits 11 5); [lia..|]. intros i Hi. bit_cases i 5%nat; rewrite H1, Hw by lia; reflexivity. }
  assert (F2 : field h2 14 3 = 2).
  { apply (field_bits 14 2); [lia..|]. intros i Hi. bit_cases i 2%nat; rewrite H2, Hw by lia; reflexivity. }
  assert (F3 : field h2 12 1 = 0).
  { apply (field_bits 12 1); [lia..|]. intros i Hi. bit_cases i 1%nat; rewrite H2, Hw by lia; reflexivity. }
  assert (F4 : field h1 6 15 = c).
  { apply (field_bits 6 4); [lia..|]. intros i Hi. bit_cases i 4%nat; rewrite H1, Hw by lia; reflexivity. }
  rewrite F1, F2, F3, F4. destruct (Z.ltb_spec c 14); [|lia]. cbn [Z.eqb Pos.eqb andb]. f_equal. f_equal.
  rewrite <- (sext_small 21 off) by lia. rewrite <- sext_wrap, <- (sext_wrap 21 off). f_equal.
  apply Z.bits_inj'. intros i Hi. rewrite !testbit_wrap by lia. destruct (Z.ltb_spec i 21); [|done].
  rewrite !andb_true_l, !Z.lor_spec, !Z.shiftl_spec by lia.
  change 0x7ff with (Z.ones 11). change 0x3f with (Z.ones 6).
  change (field h2 13 1) with (field h2 13 (Z.ones 1)). change (field h2 11 1) with (field h2 11 (Z.ones 1)).
  change (field h1 10 1) with (field h1 10 (Z.ones 1)).
  assert (Hf : forall x n k j, 0 <= n -> 0 <= k ->
    Z.testbit (field x n (Z.ones k)) j = (0 <=? j) && ((j <? k) && Z.testbit x (j + n))).
  { intros x n k j Hn Hk. destruct (Z.leb_spec 0 j); [by rewrite testbit_field|by rewrite Z.testbit_neg_r]. }
  rewrite !Hf by lia.
  assert (Hz : Z.testbit off 0 = false) by (rewrite Z.bit0_odd, <- Z.negb_even; by rewrite He).
  pose proof (testbit_sign 20 off ltac:(lia) Ho) as Hs.
  bit_cases i 21%nat; closed_bools; rewrite ?orb_false_r;
    repeat (rewrite H1 by lia); repeat (rewrite H2 by lia); repeat (rewrite Hw by lia);
    rewrite ?orb_false_r;
    first [ reflexivity | refine (eq_trans _ (eq_sym Hs)); reflexivity
          | refine (eq_trans _ (eq_sym Hz)); reflexivity ].
Qed.

(** The 32-bit conditional branch decodes to its condition and, over the
    whole range of the encoding, to its displacement. *)
Theorem BW_T3_decodes (off c : Z) :
  0 <= c < 14 -> - 2 ^ 20 <= off < 2 ^ 20 -> Z.even off = true ->
  decode_branch (halfwords (_thumb32_BW_T3 off c)) = Some (Some c, off).
Proof. exact (decode_BW_T3 off c). Qed.

Lemma BW_T3_decodes_witness :
  decode_branch (halfwords (_thumb32_BW_T3 (-300000) COND_LT)) = Some (Some COND_LT, -300000).
Proof. apply (BW_T3_decodes (-300000) COND_LT); [split; reflexivity || (intros H; discriminate H)..|reflexivity]. Defined.

(** ** Constants

    MOV (immediate) T1, MOVW (T3) and MOVT (T1) of the reference manual, on
    the registers as a function. *)

Definition mov_imm16 (h1 h2 : Z) : Z :=
  field h2 0 0xff .| (field h2 12 7 << 8) .| (field h1 10 1 << 11) .| (field h1 0 15 << 12).

Fixpoint mov_exec (ws : list Z) (r : Z -> Z) : option (Z -> Z) :=
  match ws with
  | [] => Some r
  | w :: ws' =>
      if field w 11 31 =? 4 then mov_exec ws' (upd r (field w 8 7) (field w 0 0xff))
      else
        match ws' with
        | [] => None
        | w2 :: ws'' =>
            let d := field w2 8 15 in
            if (field w 11 31 =? 30) && (field w 4 0x3f =? 0x24) then
              mov_exec ws'' (upd r d (mov_imm16 w w2))
            else if (field w 11 31 =? 30) && (field w 4 0x3f =? 0x2c) then
              mov_exec ws'' (upd r d (r d .& 0xffff .| (mov_imm16 w w2 << 16)))
            else None
        end
  end.

(** The word of a MOVW or MOVT, as [emit_mov_imm] assembles it. *)
Definition movw_word (base v1 rd : Z) : Z :=
  u32 (base .| (((v1 .& 0x0800) >> 11) << 26) .| (((v1 .& 0xf000) >> 12) << 16) .|
       (((v1 .& 0x0700) >> 8) << 12) .| (rd << 8) .| (v1 .& 0x00ff)).

Section MovW.
Context (base v rd : Z) (Hv : 0 <= v < 2 ^ 16) (Hrd : 0 <= rd < 16).
Context (Hbase : base = 0xf2400000 \/ base = 0xf2c00000).

Lemma movw_bit (i : Z) :
  0 <= i < 32 ->
  Z.testbit (movw_word base v rd) i =
  if i <? 8 then Z.testbit v i
  else if i <? 12 then Z.testbit rd (i - 8)
  else if i <? 15 then Z.testbit v (i - 4)
  else if i <? 16 then false
  else if i <? 20 then Z.testbit v (i - 4)
  else if i =? 26 then Z.testbit v 11
  else Z.testbit base i.
Proof using Hrd Hbase.
  intros Hi. unfold movw_word, u32. rewrite testbit_wrap by lia.
  rewrite !Z.lor_spec, !Z.shiftl_spec by lia.
  assert (Hr : forall j, Z.testbit rd j = (0 <=? j) && ((j <? 4) && Z.testbit rd j)).
  { intros j. destruct (Z.leb_spec 0 j); [|by rewrite Z.testbit_neg_r by lia].
    destruct (Z.ltb_spec j 4); [done|]. apply (testbit_above 4); lia. }
  assert (Hf : forall m n j, 0 <= n ->
    Z.testbit ((v .& m) >> n) j = (0 <=? j) && (Z.testbit v (j + n) && Z.testbit m (j + n))).
  { intros m n j Hn. destruct (Z.leb_spec 0 j); [by rewrite Z.shiftr_spec, Z.land_spec by lia|].
    by rewrite Z.testbit_neg_r by lia. }
  rewrite !Hf by lia. rewrite (Hr (i - 8)), Z.land_spec.
  destruct Hbase as [-> | ->]; bit_cases i 32%nat; cbn -[Z.testbit];
    closed_bools; norm_bits; reflexivity.
Qed.

Let h1 := u16 (field (movw_word base v rd) 16 0xffff).
Let h2 := u16 (movw_word base v rd .& 0xffff).

Lemma movw_fields :
  field h1 11 31 = 30 /\ field h1 4 0x3f = (if base =? 0xf2400000 then 0x24 else 0x2c) /\
  field h2 8 15 = rd /\ mov_imm16 h1 h2 = v.
Proof using Hv Hrd Hbase.
  pose proof movw_bit as Hw. set (w := movw_word base v rd) in *.
  assert (H1 : forall i, 0 <= i < 16 -> Z.testbit h1 i = Z.testbit w (i + 16)).
  { intros i Hi. unfold h1. rewrite half_hi_bit by lia. by destruct (Z.ltb_spec i 16); [|lia]. }
  assert (H2 : forall i, 0 <= i < 16 -> Z.testbit h2 i = Z.testbit w i).
  { intros i Hi. unfold h2. rewrite half_lo_bit by lia. by destruct (Z.ltb_spec i 16); [|lia]. }
  split_and!.
  - apply (field_bits 11 5); [lia..|]. intros i Hi.
    destruct Hbase as [-> | ->]; bit_cases i 5%nat; rewrite H1, Hw by lia; reflexivity.
  - apply (field_bits 4 6); [lia| lia|destruct (base =? _); lia|]. intros i Hi.
    destruct Hbase as [-> | ->]; bit_cases i 6%nat; rewrite H1, Hw by lia; reflexivity.
  - apply (field_bits 8 4); [lia..|]. intros i Hi.
    bit_cases i 4%nat; rewrite H2, Hw by lia; reflexivity.
  - apply Z.bits_inj'. intros i Hi. unfold mov_imm16. rewrite !Z.lor_spec, !Z.shiftl_spec by lia.
    change 0xff with (Z.ones 8). change 7 with (Z.ones 3).
    change (field h1 10 1) with (field h1 10 (Z.ones 1)). change 15 with (Z.ones 4).
    assert (Hf : forall x n k j, 0 <= n -> 0 <= k ->
      Z.testbit (field x n (Z.ones k)) j = (0 <=? j) && ((j <? k) && Z.testbit x (j + n))).
    { intros x n k j Hn Hk. destruct (Z.leb_spec 0 j); [by rewrite testbit_field|by rewrite Z.testbit_neg_r]. }
    rewrite !Hf by lia.
    destruct (Z.ltb_spec i 16).
    + bit_cases i 16%nat; closed_bools; rewrite ?orb_false_r;
        repeat (rewrite H1 by lia); repeat (rewrite H2 by lia); repeat (rewrite Hw by lia); reflexivity.
    + rewrite (testbit_above 16 v i) by lia.
      destruct (Z.ltb_spec i 8), (Z.ltb_spec (i - 8) 3), (Z.ltb_spec (i - 11) 1), (Z.ltb_spec (i - 12) 4);
        lia.
Qed.

Lemma movw_top : field h2 15 1 = 0.
Proof using Hv Hrd Hbase.
  pose proof movw_bit as Hw. apply (field_bits 15 1); [lia..|]. intros i Hi.
  bit_cases i 1%nat. unfold h2. rewrite half_lo_bit by lia.
  destruct Hbase as [-> | ->]; by rewrite Hw by lia.
Qed.
End MovW.

(** The halfwords [emit_mov_imm] emits. *)
Definition mov_imm_words (rd val : Z) : list Z :=
  let val := u32 val in
  if (val <=? 0xff) && (rd <? 8) then [u16 (0x2000 .| (rd << 8) .| val)]
  else halfwords (movw_word 0xf2400000 (val .& 0xffff) rd) ++
       if 0xffff <? val then halfwords (movw_word 0xf2c00000 (u16 (val >> 16)) rd) else [].

Lemma emit_mov_imm_emitted (rd val : Z) (st st' : jit_state) :
  0 <= rd < 16 -> emit_mov_imm rd val st = Some (tt, st') -> emitted (mov_imm_words rd val) st st'.
Proof.
  intros Hrd H. unfold emit_mov_imm in H. rewrite (u8_small rd) in H by lia. unfold mov_imm_words.
  cbv zeta in *. destruct ((u32 val <=? 255) && (rd <? 8)).
  - apply emit2_emitted in H. unfold u16 in *. by rewrite wrap_idemp in H.
  - apply j_bind_Some in H as (u & s1 & H1 & H2). apply emit4_emitted in H1.
    eapply emitted_app; [exact H1|]. destruct (65535 <? u32 val).
    + by apply emit4_emitted in H2.
    + injection H2 as <-. apply emitted_nil.
Qed.

Lemma movs_exec (rd val : Z) (ws : list Z) (r : Z -> Z) :
  0 <= rd < 8 -> 0 <= val <= 255 ->
  mov_exec (u16 (0x2000 .| (rd << 8) .| val) :: ws) r = mov_exec ws (upd r rd val).
Proof.
  intros Hrd Hval. cbn [mov_exec].
  assert (H : forallb (fun d => forallb (fun v =>
      let w := u16 (0x2000 .| (d << 8) .| v) in
      (field w 11 31 =? 4) && (field w 8 7 =? d) && (field w 0 0xff =? v)) (zrange 0 256)) (zrange 0 8) = true)
    by (vm_compute; reflexivity).
  pose proof (zrange_forallb _ _ _ H rd ltac:(lia)) as H2. cbv beta in H2.
  pose proof (zrange_forallb _ _ _ H2 val ltac:(lia)) as H3. cbv beta zeta in H3.
  apply andb_true_iff in H3 as [[-> ->%Z.eqb_eq]%andb_true_iff ->%Z.eqb_eq]. done.
Qed.

Lemma movw_exec (rd v : Z) (ws : list Z) (r : Z -> Z) :
  0 <= rd < 16 -> 0 <= v < 2 ^ 16 ->
  mov_exec (halfwords (movw_word 0xf2400000 v rd) ++ ws) r = mov_exec ws (upd r rd v).
Proof.
  intros Hrd Hv. destruct (movw_fields 0xf2400000 v rd Hv Hrd ltac:(auto)) as (F1 & F2 & F3 & F4).
  cbn [halfwords app mov_exec]. by rewrite F1, F2, F3, F4.
Qed.

Lemma movt_exec (rd v : Z) (ws : list Z) (r : Z -> Z) :
  0 <= rd < 16 -> 0 <= v < 2 ^ 16 ->
  mov_exec (halfwords (movw_word 0xf2c00000 v rd) ++ ws) r =
  mov_exec ws (upd r rd (r rd .& 0xffff .| (v << 16))).
Proof.
  intros Hrd Hv. destruct (movw_fields 0xf2c00000 v rd Hv Hrd ltac:(auto)) as (F1 & F2 & F3 & F4).
  cbn [halfwords app mov_exec]. by rewrite F1, F2, F3, F4.
Qed.

Lemma emit_mov_imm_room (rd val : Z) (st : jit_state) : room 4 st -> exists st', emit_mov_imm rd val st = Some (tt, st').
Proof.
  intros Hr. unfold emit_mov_imm. cbv zeta. destruct (_ && _).
  { destruct (emit2_room (u16 (0x2000 .| (u8 rd << 8) .| u32 val)) st) as [[[] st'] E]; [by eapply room_le; [|exact Hr]; lia|]. by exists st'. }
  unfold mbind at 1, j_bind at 1.
  match goal with |- context [match emit4 ?x st with _ => _ end] => destruct (emit4_room x st) as [[[] s1] E] end; [by eapply room_le; [|exact Hr]; lia|].
  rewrite E. apply emit4_emitted in E. destruct (65535 <? u32 val); [|by exists s1].
  match goal with |- exists st', emit4 ?x s1 = _ => destruct (emit4_room x s1) as [[[] s2] E2] end; [by eapply room_after|]. by exists s2.
Qed.

(** Constants are compiled correctly: for every register and every 32-bit
    value, the instructions [emit_mov_imm] appends when there is room for them,
    run, leave the value in the register and every other register unchanged. *)
Theorem emit_mov_imm_correct (rd val : Z) (st : jit_state) (r : Z -> Z) :
  0 <= rd < 16 -> room 4 st ->
  exists st' ws r', emit_mov_imm rd val st = Some (tt, st') /\ emitted ws st st' /\ mov_exec ws r = Some r' /\
    forall k, r' k = if k =? rd then u32 val else r k.
Proof.
  intros Hrd Hroom. destruct (emit_mov_imm_room rd val st Hroom) as [st' H]. exists st', (mov_imm_words rd val). rewrite H.
  apply emit_mov_imm_emitted in H; [|done].
  unfold mov_imm_words in *. cbv zeta in *. pose proof (u32_range val) as Hval.
  destruct ((u32 val <=? 255) && (rd <? 8)) eqn:E.
  { zify_bools. exists (upd r rd (u32 val)). split; [done|]. split; [done|]. by rewrite movs_exec by lia. }
  assert (Hlow : 0 <= u32 val .& 0xffff < 2 ^ 16).
  { change 0xffff with (Z.ones 16). rewrite Z.land_ones by lia. apply Z.mod_pos_bound. lia. }
  rewrite movw_exec by done. destruct (Z.ltb_spec 65535 (u32 val)) as [Hbig | Hsmall].
  - assert (Hhi : u16 (u32 val >> 16) = u32 val / 65536).
    { rewrite Z.shiftr_div_pow2 by lia. apply u16_small. change (2 ^ 16) with 65536.
      Z.to_euclidean_division_equations; lia. }
    eexists. split; [done|]. split; [done|]. rewrite <- (app_nil_r (halfwords _)), movt_exec by (apply u16_range || done).
    split; [reflexivity|]. intros k. unfold upd. destruct (Z.eqb_spec k rd) as [->|]; [|done].
    rewrite Z.eqb_refl, Hhi. change 0xffff with (Z.ones 16). rewrite <- Z.land_assoc, Z.land_diag.
    rewrite Z.land_ones by lia. rewrite lor_shiftl_add by (try apply Z.mod_pos_bound; lia).
    change (2 ^ 16) with 65536. rewrite (Z.div_mod (u32 val) 65536) at 3 by lia. lia.
  - eexists. split; [done|]. split; [by rewrite app_nil_r in *|]. split; [reflexivity|]. intros k. unfold upd.
    destruct (k =? rd); [|done]. change 0xffff with (Z.ones 16). rewrite Z.land_ones by lia.
    apply Z.mod_small. lia.
Qed.

Definition jit_state0 : jit_state := mk_jit [] 0 (replicate 64 0) 0 0 0 0 [] [] true.

Lemma emit_mov_imm_correct_witness :
  exists st' ws r', emit_mov_imm 9 0xdeadbeef jit_state0 = Some (tt, st') /\ emitted ws jit_state0 st' /\
    mov_exec ws (fun _ => 0) = Some r' /\ forall k, r' k = if k =? 9 then 0xdeadbeef else 0.
Proof.
  refine (emit_mov_imm_correct 9 0xdeadbeef jit_state0 (fun _ => 0) _ _); [lia|].
  intros _. vm_compute. split; discriminate.
Defined.
