(* ===== verification/JitLayout.v ===== *)
(** * The layout theorem of the compiler

    When the program fits, the two passes of [jit_compile] agree on where the
    code of every instruction starts, and every branch of the code the second
    pass writes leads to the first byte of the code of its target. *)

From S2P Require Import Prelude EbpfInst Thumb2 Jit JitEmit JitProps.

(** ** The branch that ends the code of an instruction *)

Inductive tail : Set :=
  | TNone
  | TCond (op pc to : Z)   (* to: the instruction before the target *)
  | TJump (pc to : Z)
  | TExit.

Definition is_cond_jump (o : opcode) : bool :=
  (BPF_CLASS (opcode_val o) =? EBPF_CLS_JMP) &&
  match o with EBPF_OP_JA | EBPF_OP_CALL | EBPF_OP_EXIT => false | _ => true end.

Definition tail_of (e : jit_env) (pc : Z) (i : ebpf_inst) : tail :=
  match opcode_of (i_opcode i) with
  | Some o =>
      if is_cond_jump o then
        if negb (BPF_SRC (i_opcode i) =? EBPF_SRC_REG) && (i_offset i =? 0) then TNone
        else TCond (BPF_OP (i_opcode i)) pc (pc + i_offset i)
      else
        match o with
        | EBPF_OP_JA => if i_offset i =? 0 then TNone else TJump pc (pc + i_offset i)
        | EBPF_OP_EXIT => if pc =? v_num e - 1 then TNone else TExit
        | _ => TNone
        end
  | None => TNone
  end.

(** What [build_inst] returns. *)
Definition inst_ret (i : ebpf_inst) : Z :=
  match opcode_of (i_opcode i) with
  | Some EBPF_OP_LDDW => 1
  | Some EBPF_OP_LE | Some EBPF_OP_BE => -1
  | Some EBPF_OP_LSH_IMM | Some EBPF_OP_RSH_IMM | Some EBPF_OP_ARSH_IMM => if 31 <? i_imm i then -1 else 0
  | _ => 0
  end.

(** The part of the emitters that computes and emits the branch. *)
Definition emit_tail (t : tail) : J unit :=
  match t with
  | TNone => mret tt
  | TCond op pc to =>
      b4 ← gets _use_b4;
      let bsize := if b4 : bool then 4 else 2 in
      jmp_offset ← bpf2a32_offset pc to bsize; _emit_jump jmp_offset op
  | TJump pc to => jmp_offset ← bpf2a32_offset pc to 2; _emit_b jmp_offset
  | TExit => jmp_offset ← epilogue_offset_fn; _emit_b jmp_offset
  end.

Lemma straight_err e x : Straight e (modify (set_err x)).
Proof.
  exists [], tt. intros st _. split; [|by eexists]. intros [] st' [= <-]. split; [done|].
  unfold emitted. cbn. rewrite Z.add_0_r. by destruct (needGen st).
Qed.
#[export] Hint Resolve straight_err : straight.

(** The instruction finds what it reads: the second half of its constant, or
    its helper. *)
Definition operands_ok (e : jit_env) (pc : Z) (i : ebpf_inst) : Prop :=
  match opcode_of (i_opcode i) with
  | Some EBPF_OP_LDDW => is_Some (zget (v_insts e) (pc + 1))
  | Some EBPF_OP_CALL => is_Some (zget (v_base e) (i_imm i))
  | _ => True
  end.

(** An instruction emits a prefix, which [p] emits too and which is the same in
    both passes, then its branch.  When what it reads is there ([W]) and the
    prefix has room, it fails only if its branch does. *)
Definition shaped {A} (e : jit_env) (W : Prop) (m : J A) (r : A) (t : tail) (p : J unit) : Prop :=
  exists ws, forall st, env_of st = e ->
    (forall a st', m st = Some (a, st') -> a = r /\
      exists st1, p st = Some (tt, st1) /\ emitted ws st st1 /\ emit_tail t st1 = Some (tt, st')) /\
    (W -> room (length ws) st -> exists st1, emitted ws st st1 /\ (is_Some (emit_tail t st1) -> is_Some (m st))).

Lemma shaped_straight {A} (e : jit_env) (W : Prop) (m : J A) (r : A) :
  Straight e m -> (forall st a st', m st = Some (a, st') -> a = r) -> shaped e W m r TNone (_ ← m; mret tt).
Proof.
  intros (ws & a0 & H) Hr. exists ws. intros st He. destruct (H st He) as [P T]. split.
  - intros a st' Hm. split; [by eapply Hr|]. exists st'. unfold mbind, j_bind. rewrite Hm. by destruct (P _ _ Hm).
  - intros _ Hroom. destruct (T Hroom) as [[a st'] Hm]. exists st'. destruct (P _ _ Hm). split; [done|]. intros _. by eexists.
Qed.

Lemma shaped_never {A} (e : jit_env) (W : Prop) (m : J A) (r : A) (t : tail) (p : J unit) :
  (forall st, env_of st = e -> m st = None) -> ~ W -> shaped e W m r t p.
Proof. intros Hm HW. exists []. intros st He. rewrite (Hm st He). split; [intros a st' H; discriminate H|intros H; by destruct (HW H)]. Qed.

Lemma done_ret (m : J unit) (z : Z) (st st' : jit_state) (a : Z) :
  (m ≫= fun _ => mret z) st = Some (a, st') -> a = z.
Proof. intros (u & st1 & _ & H)%j_bind_Some. by injection H as <- _. Qed.

Lemma shaped_done (e : jit_env) (W : Prop) (m : J unit) (z : Z) :
  Straight e m -> shaped e W (m ≫= fun _ => mret z) z TNone (_ ← (m ≫= fun _ => mret z); mret tt).
Proof.
  intros H. apply shaped_straight; [repeat straight_step|]. intros *. apply done_ret.
Qed.

Lemma shaped_bind {A B} (e : jit_env) (W : Prop) (m : J A) (k : A -> J B) (r : B) (t : tail) (p : A -> J unit) :
  Straight e m -> (forall a, shaped e W (k a) r t (p a)) -> shaped e W (m ≫= k) r t (m ≫= p).
Proof.
  intros (ws1 & a0 & H1) Hk. destruct (Hk a0) as [ws2 H2]. exists (ws1 ++ ws2). intros st He. destruct (H1 st He) as [P1 T1]. split.
  - intros b st' (a' & st1 & Hm & Hk')%j_bind_Some. destruct (P1 _ _ Hm) as [-> Hem1].
    destruct (H2 st1 (eq_trans (emitted_env _ _ _ Hem1) He)) as [P2 _].
    destruct (P2 _ _ Hk') as [Hb (st2 & Hp & Hem2 & Ht)].
    split; [done|]. exists st2. unfold mbind, j_bind. rewrite Hm. split_and!; [done|by eapply emitted_app|done].
  - rewrite length_app. intros HW Hr. destruct (T1 (room_le _ _ _ (Nat.le_add_r _ _) Hr)) as [[a' st1] Hm].
    destruct (P1 _ _ Hm) as [-> Hem1]. destruct (H2 st1 (eq_trans (emitted_env _ _ _ Hem1) He)) as [_ T2].
    destruct (T2 HW (room_after _ _ _ _ Hem1 Hr)) as (st2 & Hem2 & Ht). exists st2. split; [by eapply emitted_app|].
    unfold mbind, j_bind. rewrite Hm. exact Ht.
Qed.

Lemma shaped_tail (e : jit_env) (W : Prop) (m : J unit) (t : tail) :
  m = emit_tail t -> shaped e W m tt t (mret tt).
Proof.
  intros ->. exists []. intros st _. split.
  - intros [] st' Hm. split; [done|]. exists st. split_and!; [done|apply emitted_nil|done].
  - intros _ _. exists st. split; [apply emitted_nil|done].
Qed.

Lemma shaped_nothing (e : jit_env) (W : Prop) : shaped e W (mret tt) tt TNone (mret tt).
Proof. by apply shaped_tail. Qed.

Lemma shaped_gets {A B} (e : jit_env) (W : Prop) (f : jit_state -> A) (k : A -> J B) (v : A) (r : B) (t : tail) (p : J unit) :
  (forall st, env_of st = e -> f st = v) -> shaped e W (k v) r t p -> shaped e W (gets f ≫= k) r t p.
Proof.
  intros Hf [ws H]. exists ws. intros st He. unfold mbind, j_bind, gets. rewrite (Hf _ He). by apply H.
Qed.

Lemma shaped_then (e : jit_env) (W : Prop) (m : J unit) (t : tail) (z : Z) (p : J unit) :
  shaped e W m tt t p -> shaped e W (m ≫= fun _ => mret z) z t p.
Proof.
  intros [ws H]. exists ws. intros st He. destruct (H st He) as [P T]. split.
  - intros a st' (u & st1 & Hm & Hr)%j_bind_Some. injection Hr as <- <-. split; [done|]. destruct u. by apply (P _ _ Hm).
  - intros HW Hroom. destruct (T HW Hroom) as (st1 & Hem & Ht). exists st1. split; [done|]. intros Hs.
    destruct (Ht Hs) as [[[] st'] Hm]. unfold mbind, j_bind. rewrite Hm. by eexists.
Qed.

Section Shape.
Context (past_end : Z * Z) (e : jit_env).

(** What a conditional jump emits before its branch. *)
Definition cond_prefix (i : ebpf_inst) : J unit :=
  let code := i_opcode i in
  let dst := bpf2a32 past_end (i_dst i) in
  let src := bpf2a32 past_end (i_src i) in
  if negb (BPF_SRC code =? EBPF_SRC_REG) && (i_offset i =? 0) then mret tt
  else
    ops ← (if BPF_SRC code =? EBPF_SRC_REG then
             rm ← arm_bpf_get_reg32 (hi src) (hi tmp2);
             rn ← arm_bpf_get_reg32 (lo src) (lo tmp2);
             mret (rm, rn)
           else
             _ ← emit_mov_se_imm64 true tmp2 (i_imm i);
             mret (hi tmp2, lo tmp2));
    rd ← arm_bpf_get_reg64 dst tmp1;
    _ ← _emit_cmp_cond (hi rd) (lo rd) (fst ops) (snd ops) (BPF_OP code) (BPF_CLASS code =? EBPF_CLS_JMP);
    mret tt.

(** What an instruction emits before its branch. *)
Definition inst_prefix (pc : Z) (i : ebpf_inst) : J unit :=
  match opcode_of (i_opcode i) with
  | Some o =>
      if is_cond_jump o then cond_prefix i
      else
        match o with
        | EBPF_OP_JA | EBPF_OP_EXIT => mret tt
        | _ => _ ← build_inst past_end pc i; mret tt
        end
  | None => mret tt
  end.

Lemma build_cond_jump_shape (W : Prop) (pc : Z) (i : ebpf_inst) (o : opcode) :
  opcode_of (i_opcode i) = Some o -> is_cond_jump o = true ->
  shaped e W (build_cond_jump past_end pc i) tt (tail_of e pc i) (cond_prefix i).
Proof.
  intros Ho Hc. unfold tail_of, build_cond_jump, cond_prefix. rewrite Ho. cbv zeta.
  rewrite Hc. destruct (negb _ && _).
  - apply shaped_nothing.
  - apply shaped_bind; [repeat straight_step|]. intros ops.
    apply shaped_bind; [repeat straight_step|]. intros rd.
    apply shaped_bind; [repeat straight_step|]. intros _. by apply shaped_tail.
Qed.

(** An instruction that reads [o], and is straight when it is there. *)
Lemma shaped_reads {A} (o : option A) (m : J unit) (z : Z) :
  (forall x, o = Some x -> Straight e m) -> (o = None -> forall st, env_of st = e -> m st = None) ->
  shaped e (is_Some o) (m ≫= fun _ => mret z) z TNone (_ ← (m ≫= fun _ => mret z); mret tt).
Proof.
  intros Hs Hn. destruct o as [x|]; [apply shaped_done; by eapply Hs|].
  apply shaped_never; [|by intros [x [=]]]. intros st He. unfold mbind, j_bind. by rewrite Hn.
Qed.

Lemma build_inst_shape (pc : Z) (i : ebpf_inst) :
  shaped e (operands_ok e pc i) (build_inst past_end pc i) (inst_ret i) (tail_of e pc i) (inst_prefix pc i).
Proof.
  destruct (opcode_of (i_opcode i)) as [o|] eqn:Ho.
  2: { unfold inst_prefix, build_inst, inst_ret, tail_of. rewrite Ho. exists []. intros st _. split.
       - intros a st' [= <- <-]. split; [done|]. exists st. split_and!; [done|apply emitted_nil|done].
       - intros _ _. exists st. split; [apply emitted_nil|by eexists]. }
  destruct (is_cond_jump o) eqn:Hc.
  { pose proof (build_cond_jump_shape (operands_ok e pc i) pc i o Ho Hc) as Hs. unfold inst_prefix, build_inst, inst_ret.
    rewrite Ho, Hc. destruct o; try discriminate Hc; by apply shaped_then. }
  unfold inst_prefix, build_inst, inst_ret, tail_of, operands_ok. rewrite Ho, Hc.
  destruct o; try discriminate Hc; cbv zeta; try (apply shaped_done; repeat straight_step; fail);
    try (apply shaped_straight; [repeat straight_step|]; by intros st a st' [= <- _]);
    try (destruct (31 <? i_imm i); apply shaped_done; repeat straight_step; fail).
  - apply shaped_reads; [intros x; apply st_lddw|]. intros H st <-. by apply lddw_none.
  - apply shaped_then. unfold build_ja. destruct (i_offset i =? 0); [apply shaped_nothing|by apply shaped_tail].
  - apply shaped_reads; [intros x; apply st_call|]. intros H st <-. by apply call_none.
  - apply shaped_then. unfold build_exit. apply (shaped_gets _ _ _ _ (v_num e)); [by intros st <-|].
    destruct (pc =? v_num e - 1); [apply shaped_nothing|by apply shaped_tail].
Qed.
End Shape.

(** ** The length of the branch, and where it leads *)

(** The condition [_emit_jump] chooses for an operation: none for JLT, JLE,
    JSLT and JSLE, whose operation is negative as an s8. *)
Definition cond_of (op : Z) : option Z :=
  let op := s8 op in
  if (op =? EBPF_JNE) || (op =? EBPF_JSET) then Some COND_NE
  else if op =? EBPF_JEQ then Some COND_EQ
  else if op =? EBPF_JGT then Some COND_HI
  else if op =? EBPF_JGE then Some COND_CS
  else if op =? EBPF_JSGT then Some COND_LT
  else if op =? EBPF_JSGE then Some COND_GE
  else if op =? EBPF_JLE then Some COND_LS
  else if op =? EBPF_JLT then Some COND_CC
  else if op =? EBPF_JSLT then Some COND_LT
  else if op =? EBPF_JSLE then Some COND_GE
  else None.

Lemma emit_jump_cond (off op : Z) :
  _emit_jump off op = match cond_of op with Some c => _emit_b_cond off c | None => mret tt end.
Proof. unfold _emit_jump, cond_of. cbv zeta. repeat case_match; congruence || done. Qed.

Lemma cond_of_range (op c : Z) : cond_of op = Some c -> 0 <= c < 14.
Proof. unfold cond_of. cbv zeta. intros H. repeat case_match; simplify_eq; vm_compute; split; done. Qed.

(** The size of the branch in halfwords, when it is in range; [b4] is
    [_use_b4]. *)
Definition tail_len (b4 : bool) (t : tail) : nat :=
  match t with
  | TNone => 0
  | TCond op _ _ => match cond_of op with Some _ => if b4 then 2 else 1 | None => 0 end
  | TJump _ _ | TExit => 1
  end.

(** The code sizes for which every branch is in range. *)
Definition size_limit (b4 : bool) : Z := if b4 then 2044 else 254.

(** A branch emitted before address [x'] leads to [target]. *)
Definition branches_to (cond : option Z) (tw : list Z) (x' target : Z) : Prop :=
  halves_wf tw /\ exists d, decode_branch tw = Some (cond, d) /\ x' - 2 * Z.of_nat (length tw) + 4 + d = target.

Definition lands (ofs : list Z) (epilogue : Z) (t : tail) (tw : list Z) (x' : Z) : Prop :=
  match t with
  | TNone => tw = []
  | TCond op pc to =>
      match cond_of op with
      | None => tw = []
      | Some c => exists target, zget ofs to = Some target /\ branches_to (Some c) tw x' target
      end
  | TJump pc to => exists target, zget ofs to = Some target /\ branches_to None tw x' target
  | TExit => branches_to None tw x' epilogue
  end.

Lemma emit_b_cond_emitted (st st' : jit_state) (off c : Z) :
  0 <= c < 14 -> (if _use_b4 st then -4096 < off < 4096 else -256 <= off <= 254) ->
  _emit_b_cond off c st = Some (tt, st') ->
  exists tw, emitted tw st st' /\ length tw = (if _use_b4 st then 2%nat else 1%nat) /\
    (Z.even off = true -> halves_wf tw /\ decode_branch tw = Some (Some c, off)).
Proof.
  intros Hc Ho (b4 & st1 & [= <- <-] & H)%j_bind_Some. destruct (_use_b4 st); cbn [negb andb] in H.
  - destruct (Z.ltb_spec (-1048576) off), (Z.ltb_spec off 1048574); cbn [andb] in H; try lia.
    exists (halfwords (_thumb32_BW_T3 off c)). split_and!; [by eapply emit4_emitted|done|].
    intros He. split; [repeat constructor; apply wrap_idemp|]. apply decode_BW_T3; (lia || done).
  - destruct (Z.leb_spec (-256) off), (Z.leb_spec off 254); cbn [andb] in H; try lia.
    exists [_thumb16_B_T1 off c]. split_and!; [|done|].
    + apply emit2_emitted in H. unfold _thumb16_B_T1, u16 in *. by rewrite wrap_idemp in H.
    + intros He. split; [repeat constructor; apply wrap_idemp|]. by apply decode_B_T1.
Qed.

Lemma emit_b_emitted (st st' : jit_state) (off : Z) :
  -2048 < off < 2046 -> _emit_b off st = Some (tt, st') ->
  exists tw, emitted tw st st' /\ length tw = 1%nat /\
    (Z.even off = true -> halves_wf tw /\ decode_branch tw = Some (None, off)).
Proof.
  intros Ho H. unfold _emit_b in H.
  destruct (Z.ltb_spec (-2048) off), (Z.ltb_spec off 2046); cbn [andb] in H; try lia.
  exists [_thumb16_B_T2 off]. split_and!; [|done|].
  - apply emit2_emitted in H. unfold _thumb16_B_T2, u16 in *. by rewrite wrap_idemp in H.
  - intros He. split; [repeat constructor; apply wrap_idemp|]. apply decode_B_T2; (lia || done).
Qed.

(** The first pass. *)
Lemma emit_tail_pass1 (t : tail) (st st' : jit_state) :
  needGen st = false -> emit_tail t st = Some (tt, st') ->
  exists tw, emitted tw st st' /\ length tw = tail_len (_use_b4 st) t.
Proof.
  intros Hn H. destruct t as [|op pc to|pc to|]; cbn [emit_tail tail_len] in *.
  - injection H as <-. exists []. split; [apply emitted_nil|done].
  - apply j_bind_Some in H as (b4 & st1 & [= <- <-] & H). cbv zeta in H.
    apply j_bind_Some in H as (off & st1 & H1 & H).
    assert (off = 0 /\ st1 = st) as [-> ->].
    { unfold bpf2a32_offset in H1. apply j_bind_Some in H1 as (ng & st2 & [= <- <-] & H1).
      rewrite Hn in H1. cbn in H1. by injection H1 as <- <-. }
    rewrite emit_jump_cond in H. destruct (cond_of op) as [c|] eqn:E.
    + destruct (emit_b_cond_emitted st st' 0 c) as (tw & ? & ? & _); eauto using cond_of_range.
      destruct (_use_b4 st); lia.
    + injection H as <-. exists []. split; [apply emitted_nil|done].
  - apply j_bind_Some in H as (off & st1 & H1 & H).
    assert (off = 0 /\ st1 = st) as [-> ->].
    { unfold bpf2a32_offset in H1. apply j_bind_Some in H1 as (ng & st2 & [= <- <-] & H1).
      rewrite Hn in H1. cbn in H1. by injection H1 as <- <-. }
    destruct (emit_b_emitted st st' 0) as (tw & ? & ? & _); eauto; lia.
  - apply j_bind_Some in H as (off & st1 & H1 & H).
    assert (off = 0 /\ st1 = st) as [-> ->].
    { unfold epilogue_offset_fn in H1. apply j_bind_Some in H1 as (ng & st2 & [= <- <-] & H1).
      rewrite Hn in H1. cbn in H1. by injection H1 as <- <-. }
    destruct (emit_b_emitted st st' 0) as (tw & ? & ? & _); eauto; lia.
Qed.

(** An offset the second pass computes, from recorded even offsets. *)
Definition offsets_ok (limit : Z) (ofs : list Z) : Prop :=
  Forall (fun x => 0 <= x <= limit /\ Z.even x = true) ofs.

Lemma pass2_offset (pc to bsize limit : Z) (st st' : jit_state) (off : Z) :
  needGen st = true -> offsets_ok limit (offsets st) -> limit < 2 ^ 20 -> bsize = 2 \/ bsize = 4 ->
  bpf2a32_offset pc to bsize st = Some (off, st') ->
  st' = st /\ exists t f, zget (offsets st) to = Some t /\ zget (offsets st) pc = Some f /\
    off = t - (f - bsize) - 4 /\ 0 <= t <= limit /\ 0 <= f <= limit /\ Z.even off = true.
Proof.
  intros Hn Hok Hlim Hbs H. unfold bpf2a32_offset in H.
  apply j_bind_Some in H as (ng & st1 & [= <- <-] & H). rewrite Hn in H. cbn [negb] in H.
  apply j_bind_Some in H as (ofs & st1 & [= <- <-] & H).
  apply j_bind_Some in H as (t & st1 & Ht & H). unfold lift in Ht.
  destruct (zget (offsets st) to) as [t'|] eqn:Et; [|done]. injection Ht as <- <-.
  apply j_bind_Some in H as (f & st1 & Hf & H). unfold lift in Hf.
  destruct (zget (offsets st) pc) as [f'|] eqn:Ef; [|done]. injection Hf as <- <-.
  injection H as <- <-. split; [done|]. exists t', f'.
  destruct (Forall_zget _ _ _ _ Hok Et) as [Ht Hte]. destruct (Forall_zget _ _ _ _ Hok Ef) as [Hf Hfe].
  assert (He : s32 (s32 t' - s32 (f' - bsize) - 4) = t' - (f' - bsize) - 4).
  { unfold s32. rewrite !(sext_small 32) by (try rewrite !(sext_small 32) by lia; lia). done. }
  rewrite He. split_and!; try done; try lia.
  replace (t' - (f' - bsize) - 4) with (t' - f' + (bsize - 4)) by lia.
  rewrite Z.even_add, Z.even_sub, Hte, Hfe. by destruct Hbs as [-> | ->].
Qed.

(** The second pass. *)
Lemma emit_tail_pass2 (t : tail) (st st' : jit_state) (x : Z) :
  needGen st = true -> offsets_ok (size_limit (_use_b4 st)) (offsets st) ->
  0 <= idx st <= epilogue_offset st -> epilogue_offset st <= size_limit (_use_b4 st) ->
  Z.even (idx st) = true -> Z.even (epilogue_offset st) = true ->
  (forall op pc to, t = TCond op pc to -> zget (offsets st) pc = Some x) ->
  (forall pc to, t = TJump pc to -> zget (offsets st) pc = Some x) ->
  x = idx st + 2 * Z.of_nat (tail_len (_use_b4 st) t) ->
  emit_tail t st = Some (tt, st') ->
  exists tw, emitted tw st st' /\ length tw = tail_len (_use_b4 st) t /\
    lands (offsets st) (epilogue_offset st) t tw x.
Proof.
  intros Hn Hok Hi Hep Hie Hee Hx1 Hx2 Hx H.
  assert (Hlim : size_limit (_use_b4 st) <= 2044) by (unfold size_limit; destruct (_use_b4 st); lia).
  destruct t as [|op pc to|pc to|]; cbn [emit_tail tail_len lands] in *.
  - injection H as <-. exists []. split_and!; [apply emitted_nil|done..].
  - apply j_bind_Some in H as (b4 & st1 & [= <- <-] & H). cbv zeta in H.
    apply j_bind_Some in H as (off & st1 & H1 & H).
    eapply pass2_offset in H1 as [-> (t & f & Ht & Hf & Hoff & Htr & Hfr & Hev)]; try done;
      [|lia|destruct (_use_b4 st); auto].
    rewrite emit_jump_cond in H. destruct (cond_of op) as [c|] eqn:E.
    2: { injection H as <-. exists []. split_and!; [apply emitted_nil|done..]. }
    assert (f = x) as -> by (pose proof (Hx1 _ _ _ eq_refl); congruence).
    destruct (emit_b_cond_emitted st st' off c) as (tw & Hem & Hlen & Hdec); eauto using cond_of_range.
    { unfold size_limit in *. destruct (_use_b4 st); lia. }
    exists tw. split_and!; [done|done|]. exists t. split; [done|]. destruct (Hdec Hev) as [Hw Hd]. split; [done|]. exists off. split; [done|].
    rewrite Hlen. destruct (_use_b4 st); lia.
  - apply j_bind_Some in H as (off & st1 & H1 & H).
    eapply pass2_offset in H1 as [-> (t & f & Ht & Hf & Hoff & Htr & Hfr & Hev)]; try done; [|lia|auto].
    assert (f = x) as -> by (pose proof (Hx2 _ _ eq_refl); congruence).
    destruct (emit_b_emitted st st' off) as (tw & Hem & Hlen & Hdec); [lia|done|].
    exists tw. split_and!; [done|done|]. exists t. split; [done|]. destruct (Hdec Hev) as [Hw Hd]. split; [done|]. exists off. split; [done|]. lia.
  - apply j_bind_Some in H as (off & st1 & H1 & H). unfold epilogue_offset_fn in H1.
    apply j_bind_Some in H1 as (ng & st2 & [= <- <-] & H1). rewrite Hn in H1. cbn [negb] in H1.
    apply j_bind_Some in H1 as (ep & st2 & [= <- <-] & H1).
    apply j_bind_Some in H1 as (y & st2 & [= <- <-] & H1). injection H1 as <- <-.
    destruct (emit_b_emitted st st' (epilogue_offset st - idx st - 4)) as (tw & Hem & Hlen & Hdec); [lia|done|].
    destruct Hdec as [Hw Hd]; [by rewrite !Z.even_sub, Hie, Hee|].
    exists tw. split_and!; [done|done|]. split; [done|]. exists (epilogue_offset st - idx st - 4). split; [done|lia].
Qed.

(** ** The body *)

Record block := mk_block { b_pc : Z; b_last : Z; b_words : list Z }.

(** The words are those that [inst_prefix] writes to some buffer. *)
Definition prefix_words (past_end : Z * Z) (e : jit_env) (pc : Z) (i : ebpf_inst) (ws : list Z) : Prop :=
  exists s s1, env_of s = e /\ needGen s = true /\ inst_prefix past_end pc i s = Some (tt, s1) /\ emitted ws s s1.

(** The code of one instruction: what [build_inst] emits for it; it ends at
    [x'], which is what [offsets] holds for it (for its second slot, when it
    has two), and its branch lands on its target. *)
Definition block_ok (past_end : Z * Z) (e : jit_env) (ofs : list Z) (ep : Z) (b : block) (x x' : Z) : Prop :=
  exists i ws tw,
    zget (v_insts e) (b_pc b) = Some i /\ b_words b = ws ++ tw /\ prefix_words past_end e (b_pc b) i ws /\
    x' = x + 2 * Z.of_nat (length (b_words b)) /\ zget ofs (b_last b) = Some x' /\
    b_last b = (if 0 <? inst_ret i then b_pc b + 1 else b_pc b) /\
    lands ofs ep (tail_of e (b_pc b) i) tw x'.

(** [blocks_ok i x bs x']: the code of the instructions from i on, laid out
    from [x] to [x'], up to the end of the program or to an instruction the
    compiler does not support. *)
Inductive blocks_ok (past_end : Z * Z) (e : jit_env) (ofs : list Z) (ep : Z) : Z -> Z -> list block -> Z -> Prop :=
  | blocks_end i x : v_num e <= i -> blocks_ok past_end e ofs ep i x [] x
  | blocks_stop i x x' b ins :
      b_pc b = i -> zget (v_insts e) i = Some ins -> inst_ret ins < 0 ->
      block_ok past_end e ofs ep b x x' -> blocks_ok past_end e ofs ep i x [b] x'
  | blocks_cons i x x' x'' b bs :
      b_pc b = i -> block_ok past_end e ofs ep b x x' ->
      blocks_ok past_end e ofs ep (b_last b + 1) x' bs x'' -> blocks_ok past_end e ofs ep i x (b :: bs) x''.

(** The words of a straight computation, in any state with the environment. *)
Lemma straight_words {A} (e : jit_env) (m : J A) :
  Straight e m -> exists ws, forall st a st', env_of st = e -> m st = Some (a, st') -> emitted ws st st'.
Proof. intros (ws & a0 & H). exists ws. intros st a st' He Hm. by destruct (proj1 (H st He) _ _ Hm). Qed.

(** The first pass writes no code. *)
Definition same_code (st st' : jit_state) : Prop :=
  jit_code st' = jit_code st /\ jit_align st' = jit_align st.

Lemma same_code_trans (a b c : jit_state) : same_code a b -> same_code b c -> same_code a c.
Proof. intros [] []. split; congruence. Qed.

Lemma emitted_same_code (ws : list Z) (st st' : jit_state) :
  emitted ws st st' -> needGen st = false -> same_code st st'.
Proof. intros (_ & _ & _ & _ & A & _ & C) N. rewrite N in C. by split. Qed.

Section Body.
Context (past_end : Z * Z) (e : jit_env).

Lemma record_offset_pass1 (i : Z) (st st' : jit_state) :
  needGen st = false -> record_offset i st = Some (tt, st') ->
  zset (offsets st) i (u32 (idx st)) = Some (offsets st') /\
  env_of st' = env_of st /\ needGen st' = false /\ idx st' = idx st /\ same_code st st'.
Proof.
  intros Hn (ng & st1 & [= <- <-] & H)%j_bind_Some. rewrite Hn in H. cbn [negb] in H.
  apply j_bind_Some in H as (o & st1 & [= <- <-] & H).
  apply j_bind_Some in H as (x & st1 & [= <- <-] & H).
  apply j_bind_Some in H as (o' & st1 & Ho & H). unfold lift in Ho.
  destruct (zset (offsets st) i (u32 (idx st))) as [o1|] eqn:E; [|done]. injection Ho as <- <-.
  injection H as <-. done.
Qed.

Lemma record_offset_pass2 (i : Z) (st st' : jit_state) :
  needGen st = true -> record_offset i st = Some (tt, st') -> st' = st.
Proof.
  intros Hn (ng & st1 & [= <- <-] & H)%j_bind_Some. rewrite Hn in H. cbn [negb] in H. by injection H as <-.
Qed.

(** One turn of the loop. *)
Lemma build_from_S (n : nat) (i : Z) (st st' : jit_state) :
  build_from past_end (S n) i st = Some (tt, st') ->
  inst_num st <= i /\ st' = st \/
  i < inst_num st /\ exists ins st1 st2, zget (insts st) i = Some ins /\
    build_inst past_end i ins st = Some (inst_ret ins, st1) /\
    record_offset (if 0 <? inst_ret ins then i + 1 else i) st1 = Some (tt, st2) /\
    (if inst_ret ins <? 0 then st' = st2
     else build_from past_end n (i + (if 0 <? inst_ret ins then 2 else 1)) st2 = Some (tt, st')).
Proof.
  cbn [build_from]. intros (num & s1 & [= <- <-] & H)%j_bind_Some.
  destruct (Z.ltb_spec i (inst_num st)); [|left; by injection H as <-]. right. split; [done|].
  apply j_bind_Some in H as (l & s1 & [= <- <-] & H).
  apply j_bind_Some in H as (ins & s1 & Hi & H). unfold lift in Hi.
  destruct (zget (insts st) i) as [i'|] eqn:E; [|done]. injection Hi as <- <-.
  apply j_bind_Some in H as (r & s1 & Hb & H).
  destruct (build_inst_shape past_end (env_of st) i i') as [ws Hs].
  destruct (proj1 (Hs _ eq_refl) _ _ Hb) as [-> _].
  exists i', s1. destruct (0 <? inst_ret i') eqn:Ep; apply j_bind_Some in H as ([] & s2 & Hr & H);
    exists s2; split_and!; try done.
  - destruct (Z.ltb_spec (inst_ret i') 0); zify_bools; [lia|done].
  - destruct (inst_ret i' <? 0); [by injection H as <-|done].
Qed.

Lemma inst_ret_cases (i : ebpf_inst) : inst_ret i = -1 \/ inst_ret i = 0 \/ inst_ret i = 1.
Proof. unfold inst_ret. repeat case_match; auto. Qed.

(** What the code of one instruction adds in the first pass. *)
Lemma pass1_inst (i : Z) (ins : ebpf_inst) (st st1 : jit_state) (r : Z) :
  needGen st = false -> build_inst past_end i ins st = Some (r, st1) ->
  needGen st1 = false /\ env_of st1 = env_of st /\ offsets st1 = offsets st /\ same_code st st1 /\
  exists n, idx st1 = idx st + 2 * Z.of_nat n.
Proof.
  intros Hn Hb. destruct (build_inst_shape past_end (env_of st) i ins) as [ws Hs].
  destruct (proj1 (Hs _ eq_refl) _ _ Hb) as [_ (sa & _ & Hem & Ht)].
  pose proof (emitted_same_code _ _ _ Hem Hn) as C1.
  destruct Hem as (E1 & N1 & O1 & _ & _ & I1 & _).
  destruct (emit_tail_pass1 _ _ _ (eq_trans N1 Hn) Ht) as (tw & Hem2 & _).
  pose proof (emitted_same_code _ _ _ Hem2 (eq_trans N1 Hn)) as C2.
  destruct Hem2 as (E2 & N2 & O2 & _ & _ & I2 & _).
  split_and!; try congruence; [by eapply same_code_trans..|]. exists (length ws + length tw)%nat. lia.
Qed.

(** The first pass records at i and after, never moves backwards, and records
    even offsets up to the final index. *)
Lemma pass1_body (n : nat) (i limit : Z) (st st' : jit_state) :
  needGen st = false -> 0 <= idx st -> Z.even (idx st) = true -> limit < 2 ^ 32 ->
  build_from past_end n i st = Some (tt, st') ->
  idx st <= idx st' /\ needGen st' = false /\ env_of st' = env_of st /\ Z.even (idx st') = true /\ same_code st st' /\
  (forall j, j < i -> zget (offsets st') j = zget (offsets st) j) /\
  (idx st' <= limit -> offsets_ok limit (offsets st) -> offsets_ok limit (offsets st')).
Proof.
  revert i st. induction n as [|n IH]; intros i st Hn H0 He Hl H.
  { injection H as <-. split_and!; auto; (lia || done). }
  apply build_from_S in H as [[_ ->] | (Hi & ins & st1 & st2 & Hg & Hb & Hr & H)];
    [split_and!; auto; (lia || done)|].
  destruct (pass1_inst _ _ _ _ _ Hn Hb) as (N1 & E1 & O1 & C1 & k & I1).
  destruct (record_offset_pass1 _ _ _ N1 Hr) as (O2 & E2 & N2 & I2 & C2).
  pose proof (same_code_trans _ _ _ C1 C2) as C12.
  set (j0 := if 0 <? inst_ret ins then i + 1 else i) in *.
  assert (Hj0 : i <= j0) by (unfold j0; destruct (0 <? inst_ret ins); lia).
  assert (He2 : Z.even (idx st2) = true) by (rewrite I2, I1, Z.even_add, Z.even_mul, He; done).
  assert (Hlt : forall j, j < i -> zget (offsets st2) j = zget (offsets st) j).
  { intros j Hj. rewrite (zget_zset_ne _ _ _ _ _ O2) by lia. by rewrite O1. }
  assert (Hok : idx st2 <= limit -> offsets_ok limit (offsets st) -> offsets_ok limit (offsets st2)).
  { intros Hle Ho. rewrite O1 in O2. eapply Forall_zset; [exact Ho| |exact O2].
    rewrite u32_small by lia. rewrite <- I2. split; [lia|done]. }
  destruct (inst_ret ins <? 0).
  { subst st'. split; [lia|]. split; [done|]. split; [congruence|]. split_and!; done. }
  apply IH in H as (Hle & N3 & E3 & He3 & C3 & Hlt3 & Hok3); [|done|lia|done|done].
  split; [lia|]. split; [done|]. split; [congruence|]. split; [done|].
  split; [by eapply same_code_trans|]. split.
  - intros j Hj. rewrite Hlt3, Hlt; [done|lia|]. destruct (0 <? inst_ret ins); lia.
  - intros Hle' Ho. apply Hok3, Hok; (done || lia).
Qed.

Lemma tail_of_cases (pc : Z) (i : ebpf_inst) :
  tail_of e pc i = TNone \/ (exists op to, tail_of e pc i = TCond op pc to) \/
  (exists to, tail_of e pc i = TJump pc to) \/ tail_of e pc i = TExit.
Proof.
  unfold tail_of. destruct (opcode_of (i_opcode i)) as [o|]; [|auto].
  destruct (is_cond_jump o); [destruct (_ && _); eauto|].
  destruct o; auto; [destruct (i_offset i =? 0)|destruct (pc =? v_num e - 1)]; eauto.
Qed.

Lemma tail_of_pc (pc pc' : Z) (i : ebpf_inst) :
  (exists op to, tail_of e pc i = TCond op pc' to) \/ (exists to, tail_of e pc i = TJump pc' to) -> pc' = pc.
Proof.
  intros [(op & to & E) | (to & E)];
    destruct (tail_of_cases pc i) as [H | [(? & ? & H) | [(? & H) | H]]]; congruence.
Qed.

Lemma st_b_cond v off c : Straight v (_emit_b_cond off c). Proof. straight _emit_b_cond. Qed.
Lemma st_b v off : Straight v (_emit_b off). Proof. straight _emit_b. Qed.
Lemma st_jump v off op : Straight v (_emit_jump off op).
Proof.
  rewrite emit_jump_cond. destruct (cond_of op); [apply st_b_cond|apply plain_straight, plain_ret].
Qed.

Lemma read_only_offset (pc to bsize : Z) (st st' : jit_state) (x : Z) :
  bpf2a32_offset pc to bsize st = Some (x, st') -> st' = st.
Proof.
  intros (ng & s1 & [= <- <-] & H)%j_bind_Some. destruct (negb _); [by injection H as _ <-|].
  apply j_bind_Some in H as (o & s1 & [= <- <-] & H).
  apply j_bind_Some in H as (t & s1 & Ht & H). unfold lift in Ht. destruct (zget _ to); [|done].
  injection Ht as <- <-. apply j_bind_Some in H as (f & s1 & Hf & H). unfold lift in Hf.
  destruct (zget _ pc); [|done]. injection Hf as <- <-. by injection H as _ <-.
Qed.

Lemma read_only_epilogue (st st' : jit_state) (x : Z) : epilogue_offset_fn st = Some (x, st') -> st' = st.
Proof.
  intros (ng & s1 & [= <- <-] & H)%j_bind_Some. destruct (negb _); [by injection H as _ <-|].
  apply j_bind_Some in H as (o & s1 & [= <- <-] & H).
  apply j_bind_Some in H as (y & s1 & [= <- <-] & H). by injection H as _ <-.
Qed.

(** Whatever the pass, a branch only appends. *)
Lemma emit_tail_emitted (t : tail) (st st' : jit_state) :
  emit_tail t st = Some (tt, st') -> exists tw, emitted tw st st'.
Proof.
  assert (Hs : forall (m : J unit), Straight (env_of st) m -> m st = Some (tt, st') -> exists tw, emitted tw st st').
  { intros m Hm H. destruct (straight_words _ _ Hm) as [ws Hw]. exists ws. by eapply Hw. }
  destruct t as [|op pc to|pc to|]; cbn [emit_tail].
  - apply (Hs (mret tt)), plain_straight, plain_ret.
  - intros (b4 & s1 & [= <- <-] & H)%j_bind_Some. cbv zeta in H.
    apply j_bind_Some in H as (off & s1 & H1 & H). apply read_only_offset in H1 as ->.
    exact (Hs _ (st_jump _ off op) H).
  - intros (off & s1 & H1 & H)%j_bind_Some. apply read_only_offset in H1 as ->. exact (Hs _ (st_b _ off) H).
  - intros (off & s1 & H1 & H)%j_bind_Some. apply read_only_epilogue in H1 as ->. exact (Hs _ (st_b _ off) H).
Qed.

(** The body never changes the environment nor the epilogue, and records
    within the table of offsets. *)
Lemma build_from_frame (n : nat) (i : Z) (st st' : jit_state) :
  build_from past_end n i st = Some (tt, st') ->
  env_of st' = env_of st /\ epilogue_offset st' = epilogue_offset st /\ length (offsets st') = length (offsets st).
Proof.
  revert i st. induction n as [|n IH]; intros i st H; [by injection H as <-|].
  apply build_from_S in H as [[_ ->] | (Hi & ins & st1 & st2 & Hg & Hb & Hr & H)]; [done|].
  destruct (build_inst_shape past_end (env_of st) i ins) as [ws Hs].
  destruct (proj1 (Hs _ eq_refl) _ _ Hb) as [_ (sa & _ & (E1 & _ & O1 & P1 & _) & Ht)].
  apply emit_tail_emitted in Ht as [tw (E2 & _ & O2 & P2 & _)].
  assert (Hrec : env_of st2 = env_of st1 /\ epilogue_offset st2 = epilogue_offset st1 /\
    length (offsets st2) = length (offsets st1)).
  { apply j_bind_Some in Hr as (ng & s1 & [= <- <-] & Hr). destruct (negb _); [|by injection Hr as <-].
    apply j_bind_Some in Hr as (o & s1 & [= <- <-] & Hr).
    apply j_bind_Some in Hr as (y & s1 & [= <- <-] & Hr).
    apply j_bind_Some in Hr as (o' & s1 & Ho & Hr). unfold lift in Ho. destruct (zset _ _ _) eqn:Ez; [|done].
    injection Ho as <- <-. injection Hr as <-. split_and!; [done..|]. by apply zset_length in Ez. }
  destruct Hrec as (E3 & P3 & L3). destruct (inst_ret ins <? 0); [subst st'; split_and!; congruence|].
  apply IH in H as (E4 & P4 & L4). split_and!; congruence.
Qed.

(** The two passes over one instruction: the same length, the same result,
    and in the second one a branch that lands. *)
Lemma two_passes_inst (i : Z) (ins : ebpf_inst) (s1 s1' s2 s2' : jit_state) (r1 r2 : Z) :
  needGen s1 = false -> needGen s2 = true -> env_of s1 = e -> env_of s2 = e -> idx s1 = idx s2 ->
  build_inst past_end i ins s1 = Some (r1, s1') -> build_inst past_end i ins s2 = Some (r2, s2') ->
  offsets_ok (size_limit (20 <? v_num e)) (offsets s2) ->
  0 <= idx s1 -> idx s1' <= epilogue_offset s2 <= size_limit (20 <? v_num e) ->
  Z.even (idx s1) = true -> Z.even (epilogue_offset s2) = true ->
  (tail_of e i ins <> TNone -> zget (offsets s2) i = Some (idx s1')) ->
  idx s1' = idx s2' /\ exists ws tw, emitted (ws ++ tw) s2 s2' /\ prefix_words past_end e i ins ws /\
    lands (offsets s2) (epilogue_offset s2) (tail_of e i ins) tw (idx s2').
Proof.
  intros N1 N2 E1 E2 Hi B1 B2 Hok H0 Hep Hev Hee Hrec.
  destruct (build_inst_shape past_end e i ins) as [ws Hs].
  destruct (proj1 (Hs _ E1) _ _ B1) as [_ (a1 & _ & M1 & T1)]. destruct (proj1 (Hs _ E2) _ _ B2) as [_ (a2 & Hpre & M2 & T2)].
  pose proof M1 as (EE1 & NN1 & _ & _ & _ & I1 & _).
  pose proof M2 as (EE2 & NN2 & O2 & P2 & _ & I2 & _).
  assert (Hb1 : _use_b4 a1 = (20 <? v_num e)) by (change (_use_b4 a1) with (20 <? v_num (env_of a1)); congruence).
  assert (Hb2 : _use_b4 a2 = (20 <? v_num e)) by (change (_use_b4 a2) with (20 <? v_num (env_of a2)); congruence).
  destruct (emit_tail_pass1 _ _ _ (eq_trans NN1 N1) T1) as (tw1 & Hem1 & Hl1).
  apply emitted_idx in Hem1. rewrite Hb1 in Hl1.
  assert (Htl : tail_of e i ins <> TNone -> zget (offsets a2) i = Some (idx s1')) by (by rewrite O2).
  pose proof (emit_tail_pass2 (tail_of e i ins) a2 s2' (idx s1')) as H.
  rewrite Hb2, O2, P2 in H. rewrite O2 in Htl.
  assert (Hpc : forall pc, (exists op to, tail_of e i ins = TCond op pc to) \/
                           (exists to, tail_of e i ins = TJump pc to) ->
                zget (offsets s2) pc = Some (idx s1')).
  { intros pc Ht. rewrite (tail_of_pc _ _ _ Ht). apply Htl.
    destruct Ht as [(? & ? & ->) | (? & ->)]; done. }
  assert (Ha2 : idx a2 = idx a1) by lia.
  destruct H as (tw & Hem & Hlen & Hland); [congruence|done|lia|lia| |done|eauto|eauto|lia|done|].
  { rewrite I2, <- Hi, Z.even_add, Z.even_mul, Hev. done. }
  assert (Heq : idx s1' = idx s2') by (rewrite (emitted_idx _ _ _ Hem), Hlen; lia).
  split; [done|]. exists ws, tw. split; [by eapply emitted_app|]. split; [by exists s2, a2|]. by rewrite <- Heq.
Qed.

(** The two passes over the body. *)
Lemma two_passes (n : nat) (i : Z) (s1 s1' s2 s2' : jit_state) :
  needGen s1 = false -> needGen s2 = true -> env_of s1 = e -> env_of s2 = e -> idx s1 = idx s2 ->
  build_from past_end n i s1 = Some (tt, s1') -> build_from past_end n i s2 = Some (tt, s2') ->
  offsets s2 = offsets s1' -> offsets_ok (size_limit (20 <? v_num e)) (offsets s2) ->
  0 <= idx s1 -> idx s1' <= epilogue_offset s2 <= size_limit (20 <? v_num e) ->
  Z.even (idx s1) = true -> Z.even (epilogue_offset s2) = true -> v_num e - i <= Z.of_nat n ->
  idx s1' = idx s2' /\ exists bs, emitted (concat (map b_words bs)) s2 s2' /\
    blocks_ok past_end e (offsets s2) (epilogue_offset s2) i (idx s2) bs (idx s2').
Proof.
  revert i s1 s2. induction n as [|n IH]; intros i s1 s2 N1 N2 E1 E2 Hi B1 B2 HF Hok H0 Hep Hev Hee Hn.
  { injection B1 as <-. injection B2 as <-. split; [done|]. exists []. split; [apply emitted_nil|].
    constructor. lia. }
  assert (Hlim : size_limit (20 <? v_num e) <= 2044) by (unfold size_limit; destruct (20 <? v_num e); lia).
  apply build_from_S in B1 as [[Hge ->] | (Hlt & ins & a1 & b1 & G1 & I1 & R1 & B1)].
  { apply build_from_S in B2 as [[_ ->] | (Hlt & _)].
    - split; [done|]. exists []. split; [apply emitted_nil|]. constructor.
      change (v_num e) with (v_num e). rewrite <- E1. exact Hge.
    - exfalso. change (inst_num s2) with (v_num (env_of s2)) in Hlt.
      change (inst_num s1) with (v_num (env_of s1)) in Hge. rewrite E1 in Hge. rewrite E2 in Hlt. lia. }
  apply build_from_S in B2 as [[Hge _] | (_ & ins2 & a2 & b2 & G2 & I2 & R2 & B2)].
  { exfalso. change (inst_num s2) with (v_num (env_of s2)) in Hge.
    change (inst_num s1) with (v_num (env_of s1)) in Hlt. rewrite E1 in Hlt. rewrite E2 in Hge. lia. }
  change (insts s1) with (v_insts (env_of s1)) in G1. change (insts s2) with (v_insts (env_of s2)) in G2.
  rewrite E1 in G1. rewrite E2 in G2. assert (ins2 = ins) as -> by congruence.
  destruct (pass1_inst _ _ _ _ _ N1 I1) as (Na1 & Ea1 & Oa1 & _ & k & Ia1).
  destruct (record_offset_pass1 _ _ _ Na1 R1) as (Ob1 & Eb1 & Nb1 & Ib1 & _).
  assert (Evb1 : Z.even (idx b1) = true) by (rewrite Ib1, Ia1, Z.even_add, Z.even_mul, Hev; done).
  set (j0 := if 0 <? inst_ret ins then i + 1 else i) in *.
  (* what the rest of the first pass leaves of this instruction's record *)
  assert (Hrest : idx b1 <= idx s1' /\ zget (offsets s2) j0 = Some (idx a1)).
  { assert (Hz : zget (offsets b1) j0 = Some (u32 (idx a1))) by (by eapply zget_zset_eq).
    destruct (inst_ret ins <? 0).
    - subst b1. rewrite HF. split; [lia|]. rewrite Hz. f_equal. apply u32_small. lia.
    - eapply (pass1_body _ _ (2 ^ 31)) in B1 as (Hle & _ & _ & _ & _ & Hkeep & _); [|done|lia|done|lia].
      split; [done|]. rewrite HF, Hkeep, Hz by (unfold j0; destruct (0 <? inst_ret ins); lia).
      f_equal. apply u32_small. lia. }
  destruct Hrest as [Hle Hj0].
  destruct (two_passes_inst i ins s1 a1 s2 a2 (inst_ret ins) (inst_ret ins))
    as [Haa (ws & tw & Hem & Hpre & Hland)]; try done; [lia| |].
  { intros Ht. destruct (Z.ltb_spec 0 (inst_ret ins)); [|exact Hj0].
    exfalso. apply Ht. unfold inst_ret, tail_of in *. repeat case_match; done || lia. }
  pose proof Hem as (Ea2 & Na2 & Oa2 & Pa2 & _ & Ia2 & _).
  apply record_offset_pass2 in R2; [|congruence]. subst b2.
  assert (Hblk : block_ok past_end e (offsets s2) (epilogue_offset s2) (mk_block i j0 (ws ++ tw)) (idx s2) (idx a2)).
  { exists ins, ws, tw. cbn [b_pc b_last b_words]. split_and!; try done. by rewrite <- Haa. }
  destruct (inst_ret ins <? 0) eqn:Eneg.
  - subst s1' s2'. split; [by rewrite Ib1|]. exists [mk_block i j0 (ws ++ tw)].
    cbn [map concat]. rewrite app_nil_r. split; [exact Hem|].
    apply (blocks_stop _ _ _ _ _ _ _ _ ins); try done. by apply Z.ltb_lt.
  - set (i' := i + (if 0 <? inst_ret ins then 2 else 1)) in *.
    assert (Na2' : needGen a2 = true) by congruence. assert (Eb1' : env_of b1 = e) by congruence.
    assert (Ea2' : env_of a2 = e) by congruence. assert (Hba : idx b1 = idx a2) by congruence.
    destruct (IH i' b1 a2 Nb1 Na2' Eb1' Ea2' Hba B1 B2) as [Hend (bs & Hbs & Hbok)];
      rewrite ?Oa2, ?Pa2; try done; try lia.
    { unfold i'. destruct (inst_ret_cases ins) as [Hr | [Hr | Hr]]; rewrite Hr in *; cbn; (done || lia). }
    split; [done|]. exists (mk_block i j0 (ws ++ tw) :: bs). cbn [map concat].
    split; [by eapply emitted_app|].
    eapply blocks_cons; [done|exact Hblk|]. cbn [b_last]. rewrite <- Oa2, <- Pa2.
    replace (j0 + 1) with i'; [exact Hbok|]. unfold i', j0. destruct (0 <? inst_ret ins); lia.
Qed.
End Body.

Lemma offsets_zero (limit : Z) (ofs : list Z) : 0 <= limit -> Forall (fun x => x = 0) ofs -> offsets_ok limit ofs.
Proof. intros Hl. apply Forall_impl. intros x ->. split; [lia|done]. Qed.

(** The states between the steps of the two passes. *)
Lemma jit_compile_passes (past_end : Z * Z) (st st' : jit_state) :
  jit_compile past_end st = Some (tt, st') ->
  exists a2 a3 b2 b3,
    build_prologue past_end (set_needGen false (set_idx 0 st)) = Some (tt, a2) /\
    build_from past_end (Z.to_nat (inst_num a2)) 0 a2 = Some (tt, a3) /\
    build_prologue past_end (set_needGen true (set_idx 0 (set_epilogue (idx a3) a3))) = Some (tt, b2) /\
    build_from past_end (Z.to_nat (inst_num b2)) 0 b2 = Some (tt, b3) /\
    build_epilogue b3 = Some (tt, st').
Proof.
  unfold jit_compile. intros H.
  apply j_bind_Some in H as (u & a0 & [= <- <-] & H).
  apply j_bind_Some in H as (u1 & a1 & [= <- <-] & H).
  apply j_bind_Some in H as ([] & a2 & P1 & H).
  apply j_bind_Some in H as ([] & a3 & B1 & H).
  apply j_bind_Some in H as (x & a4 & [= <- <-] & H).
  apply j_bind_Some in H as (u4 & a5 & [= <- <-] & H).
  apply j_bind_Some in H as (u5 & a6 & [= <- <-] & H).
  apply j_bind_Some in H as (u6 & a7 & [= <- <-] & H).
  apply j_bind_Some in H as ([] & b2 & P2 & H).
  apply j_bind_Some in H as ([] & b3 & B2 & H).
  unfold build_body in B1, B2.
  apply j_bind_Some in B1 as (n1 & a2' & [= <- <-] & B1).
  apply j_bind_Some in B2 as (n2 & b2' & [= <- <-] & B2).
  exists a2, a3, b2, b3. split_and!; assumption.
Qed.

(** The prologue does not read past the table. *)
Definition prologue_words : list Z := code_of (build_prologue (0, 0)).
Definition epilogue_words : list Z := code_of build_epilogue.

Lemma emits_code (m : J unit) : Plain m -> bool_decide (is_Some (m blank)) = true -> Emits (code_of m) tt m.
Proof. intros Hp [[[] st] Hm]%bool_decide_eq_true. exact (proj2 (plain_emits m _ st Hp Hm)). Qed.

Lemma prologue_emits (past_end : Z * Z) : Emits prologue_words tt (build_prologue past_end).
Proof.
  change (build_prologue past_end) with (build_prologue (0, 0)). apply emits_code; [apply st_prologue|vm_compute; reflexivity].
Qed.

Lemma epilogue_emits : Emits epilogue_words tt build_epilogue.
Proof. apply emits_code; [apply st_epilogue|vm_compute; reflexivity]. Qed.

Lemma jit_compile_layout (past_end : Z * Z) (st st' : jit_state) :
  jit_compile past_end st = Some (tt, st') -> Forall (fun x => x = 0) (offsets st) ->
  epilogue_offset st' <= size_limit (20 <? inst_num st) ->
  let pro := prologue_words in
  let epi := epilogue_words in
  exists bs,
    put_bytes (- jit_align st) (half_bytes (pro ++ concat (map b_words bs) ++ epi)) (jit_code st) =
      Some (jit_code st') /\
    idx st' = 2 * Z.of_nat (length (pro ++ concat (map b_words bs) ++ epi)) /\
    blocks_ok past_end (env_of st) (offsets st') (epilogue_offset st') 0 (2 * Z.of_nat (length pro)) bs (epilogue_offset st').
Proof.
  intros H Hz Hlim. set (e := env_of st).
  cbv zeta. set (pro := prologue_words). set (epi := epilogue_words).
  assert (Hpro : forall s s', build_prologue past_end s = Some (tt, s') -> emitted pro s s').
  { intros s s' Hm. by apply (prologue_emits past_end s) in Hm as [_ Hem]. }
  assert (Hepi : forall s s', build_epilogue s = Some (tt, s') -> emitted epi s s').
  { intros s s' Hm. by apply (epilogue_emits s) in Hm as [_ Hem]. }
  clearbody pro epi.
  apply jit_compile_passes in H as (a2 & a3 & b2 & b3 & P1 & B1 & P2 & B2 & H).
  apply Hpro in P1. destruct P1 as (E1 & N1 & O1 & _ & A1 & I1 & C1).
  cbn in E1, N1, O1, A1, I1, C1. change (env_of a2 = e) in E1.
  assert (Hev1 : Z.even (idx a2) = true) by (rewrite I1, Z.add_0_l, Z.even_mul; done).
  destruct (pass1_body past_end _ _ (size_limit (20 <? inst_num st)) _ _ N1 ltac:(lia) Hev1
    ltac:(unfold size_limit; destruct (20 <? inst_num st); lia) B1) as (Hle & N3 & E3 & Hev3 & [C3 A3] & _ & Hok).
  apply Hpro in P2.
  pose proof P2 as (E2 & N2 & O2 & Ep2 & A2 & I2 & C2). cbn in E2, N2, O2, Ep2, A2, I2, C2.
  assert (Eb2 : env_of b2 = e) by (rewrite E2; exact (eq_trans E3 E1)).
  destruct (build_from_frame past_end _ _ _ _ B2) as (Eb3 & Ep3 & _).
  apply Hepi in H.
  pose proof H as (E4 & N4 & O4 & Ep4 & A4 & I4 & C4).
  assert (Hep : epilogue_offset b2 = idx a3) by exact Ep2.
  assert (Hnum : inst_num b2 = inst_num a2) by (change (v_num (env_of b2) = v_num (env_of a2)); congruence).
  rewrite Hnum in B2. assert (Hv : inst_num a2 = v_num e) by (change (v_num (env_of a2) = v_num e); congruence).
  assert (Hlim' : idx a3 <= size_limit (20 <? v_num e)) by (rewrite <- Hep, <- Ep3, <- Ep4; exact Hlim).
  destruct (two_passes past_end e _ 0 a2 a3 b2 b3 N1 N2 E1 Eb2 ltac:(lia) B1 B2) as [Hend (bs & Hbs & Hbok)];
    rewrite ?Hep, ?O2; try done; try lia.
  { apply Hok; [exact Hlim'|]. rewrite O1. apply offsets_zero; [|done].
    unfold size_limit. destruct (20 <? inst_num st); lia. }
  pose proof Hbs as (_ & N5 & O5 & _ & _ & I5 & _).
  pose proof (emitted_app _ _ _ _ _ P2 (emitted_app _ _ _ _ _ Hbs H)) as (_ & _ & _ & _ & _ & I6 & C6).
  cbn in I6, C6. exists bs. rewrite Ep4, Ep3, Hep, O4, O5, O2.
  split; [|split].
  - cbn [idx jit_align jit_code set_needGen set_idx set_epilogue] in C6.
    rewrite C3, C1, A3, A1 in C6. rewrite <- C6. f_equal; lia.
  - rewrite I6. lia.
  - rewrite Hep, O2, <- Hend, I2 in Hbok. exact Hbok.
Qed.

Lemma gen_layout past_end addr prog num_insts ext_funcs st entry :
  gen_jit_code past_end addr prog num_insts ext_funcs = Some (st, entry) ->
  epilogue_offset st <= size_limit (20 <? num_insts) ->
  let pro := prologue_words in
  let epi := epilogue_words in
  exists bs,
    put_bytes (- (addr .& 3)) (half_bytes (pro ++ concat (map b_words bs) ++ epi))
      (replicate JIT_BUFFER_SIZE 0) = Some (jit_code st) /\
    idx st = 2 * Z.of_nat (length (pro ++ concat (map b_words bs) ++ epi)) /\
    blocks_ok past_end (mk_jenv prog num_insts ext_funcs) (offsets st) (epilogue_offset st)
      0 (2 * Z.of_nat (length pro)) bs (epilogue_offset st).
Proof.
  unfold gen_jit_code. intros H Hlim.
  match type of H with context [jit_compile _ ?s0] => set (st0 := s0) in H end.
  destruct (jit_compile past_end st0) as [[[] st1]|] eqn:E; [|done]. cbn in H. injection H as <- <-.
  apply (jit_compile_layout past_end st0); [done| |done].
  apply Forall_replicate. done.
Qed.

(** C20: the code the compiler generates is laid out as its first pass measured
    it, when the code before the epilogue takes at most 254 bytes in a program
    of at most 20 instructions (which gets short branches) and 2044 bytes
    otherwise: a prologue, then the code of the instructions in order (each one
    ending where [offsets] says) up to the recorded epilogue offset, then the
    epilogue; and every branch of it decodes to a displacement that leads to
    the first byte of the code of the eBPF target, or of the epilogue. *)
Theorem gen_jit_code_layout past_end addr prog num_insts ext_funcs st entry :
  gen_jit_code past_end addr prog num_insts ext_funcs = Some (st, entry) ->
  epilogue_offset st <= size_limit (20 <? num_insts) ->
  let pro := prologue_words in
  let epi := epilogue_words in
  exists bs,
    put_bytes (- (addr .& 3)) (half_bytes (pro ++ concat (map b_words bs) ++ epi))
      (replicate JIT_BUFFER_SIZE 0) = Some (jit_code st) /\
    idx st = 2 * Z.of_nat (length (pro ++ concat (map b_words bs) ++ epi)) /\
    blocks_ok past_end (mk_jenv prog num_insts ext_funcs) (offsets st) (epilogue_offset st)
      0 (2 * Z.of_nat (length pro)) bs (epilogue_offset st).
Proof. exact (gen_layout past_end addr prog num_insts ext_funcs st entry). Qed.

(** r0 := 0; r2 := r1; if r2 > 100 goto +1; r0 := 1; exit. *)
Definition jit_sample : list ebpf_inst :=
  [mk_inst 0xb7 0 0 0 0; mk_inst 0xbf 2 1 0 0; mk_inst 0x25 2 0 1 100; mk_inst 0xb7 0 0 0 1;
   mk_inst 0x95 0 0 0 0].

Lemma gen_jit_code_layout_witness :
  let pro := prologue_words in
  let epi := epilogue_words in
  exists st entry bs,
    gen_jit_code (0, 0) 0x20000000 jit_sample 5 [] = Some (st, entry) /\
    put_bytes 0 (half_bytes (pro ++ concat (map b_words bs) ++ epi))
      (replicate JIT_BUFFER_SIZE 0) = Some (jit_code st) /\
    blocks_ok (0, 0) (mk_jenv jit_sample 5 []) (offsets st) (epilogue_offset st)
      0 (2 * Z.of_nat (length pro)) bs (epilogue_offset st).
Proof.
  assert (Hb : from_option (fun r => epilogue_offset (fst r) <=? 254) false
    (gen_jit_code (0, 0) 0x20000000 jit_sample 5 []) = true) by (vm_compute; reflexivity).
  remember (gen_jit_code (0, 0) 0x20000000 jit_sample 5 []) as r eqn:E.
  destruct r as [[st entry]|]; [|discriminate Hb]. apply Z.leb_le in Hb. symmetry in E.
  destruct (gen_jit_code_layout (0, 0) 0x20000000 jit_sample 5 [] st entry E Hb) as (bs & H1 & _ & H3).
  exists st, entry, bs. split; [reflexivity|]. split; [exact H1|exact H3].
Defined.

(** ** Where the compiler departs from the instruction set *)

Definition is_less_jump (o : opcode) : bool :=
  match o with
  | EBPF_OP_JLT_IMM | EBPF_OP_JLT_REG | EBPF_OP_JLE_IMM | EBPF_OP_JLE_REG => true
  | EBPF_OP_JSLT_IMM | EBPF_OP_JSLT_REG | EBPF_OP_JSLE_IMM | EBPF_OP_JSLE_REG => true
  | _ => false
  end.

(** A conditional jump gets a branch instruction exactly when its operation
    is non-negative as a signed byte: the code of JLT, JLE, JSLT and JSLE, whose
    operations are 0xa0 to 0xd0 and are passed as an s8, ends after the
    comparison, in both passes and for every displacement. *)
Theorem less_jumps_have_no_branch (o : opcode) (off : Z) (st : jit_state) :
  is_cond_jump o = true ->
  (is_less_jump o = true -> _emit_jump off (BPF_OP (opcode_val o)) st = Some (tt, st)) /\
  (is_less_jump o = false -> needGen st = false ->
   exists st' tw, _emit_jump 0 (BPF_OP (opcode_val o)) st = Some (tt, st') /\ emitted tw st st' /\
     (0 < length tw)%nat).
Proof.
  intros Hc. rewrite !emit_jump_cond. split.
  - intros Hl. destruct o; try discriminate Hl; reflexivity.
  - intros Hl Hn.
    assert (Hex : exists c, cond_of (BPF_OP (opcode_val o)) = Some c)
      by (destruct o; try discriminate Hl; try discriminate Hc; by eexists).
    destruct Hex as [c ->]. pose proof (eq_refl (_use_b4 st)) as _.
    assert (He2 : forall x, exists st', emit2 x st = Some (tt, st')).
    { intros x. unfold emit2, emit_bytes. rewrite Hn. by eexists. }
    assert (Hem : exists st', _emit_b_cond 0 c st = Some (tt, st')).
    { unfold _emit_b_cond, mbind, j_bind, gets. destruct (_use_b4 st); cbn [negb andb].
      - unfold emit4, mbind, j_bind. cbn. unfold emit2, emit_bytes. rewrite Hn. cbn. rewrite Hn. by eexists.
      - apply He2. }
    destruct Hem as [st' Hem]. exists st'.
    destruct (straight_words _ _ (st_b_cond (env_of st) 0 c)) as [ws Hws].
    exists ws. split; [done|]. pose proof (Hws st tt st' eq_refl Hem) as Hw. split; [done|].
    apply emitted_idx in Hw. assert (idx st < idx st') as Hlt; [|lia].
    unfold _emit_b_cond, mbind, j_bind, gets in Hem. destruct (_use_b4 st); cbn [negb andb] in Hem.
    + apply emit4_emitted, emitted_idx in Hem. cbn [length halfwords] in Hem. lia.
    + apply emit2_emitted, emitted_idx in Hem. cbn [length] in Hem. lia.
Qed.

Lemma less_jumps_have_no_branch_witness :
  _emit_jump 20 (BPF_OP (opcode_val EBPF_OP_JLT_REG)) jit_state0 = Some (tt, jit_state0).
Proof. apply (less_jumps_have_no_branch EBPF_OP_JLT_REG 20 jit_state0 eq_refl). reflexivity. Defined.

(** The two-byte OR names the wrong registers: ORR (register) T1 has its
    destination in bits 0 to 2 and its operand in bits 3 to 5, where
    [_thumb16_ORR_REG_T1] puts the operand and twice the destination; from
    register 4 on the word is not an OR but a MUL. *)
Theorem ORR_T1_fields (RDn Rm : Z) :
  0 <= RDn < 8 -> 0 <= Rm < 8 ->
  let w := _thumb16_ORR_REG_T1 RDn Rm in
  field w 0 7 = Rm /\ field w 3 7 = 2 * (RDn mod 4) /\
  field w 6 0x3ff = (if RDn <? 4 then 0x10c else 0x10d).
Proof.
  intros Hd Hm.
  assert (H : forallb (fun d => forallb (fun m =>
      let w := _thumb16_ORR_REG_T1 d m in
      (field w 0 7 =? m) && (field w 3 7 =? 2 * (d mod 4)) &&
      (field w 6 0x3ff =? (if d <? 4 then 0x10c else 0x10d))) (zrange 0 8)) (zrange 0 8) = true)
    by (vm_compute; reflexivity).
  pose proof (zrange_forallb _ _ _ H RDn ltac:(lia)) as H2. cbv beta in H2.
  pose proof (zrange_forallb _ _ _ H2 Rm ltac:(lia)) as H3. cbv beta zeta in H3.
  apply andb_true_iff in H3 as [[?%Z.eqb_eq ?%Z.eqb_eq]%andb_true_iff ?%Z.eqb_eq].
  cbv zeta. by split_and!.
Qed.

Lemma ORR_T1_fields_witness :
  field (_thumb16_ORR_REG_T1 1 2) 0 7 = 2 /\ field (_thumb16_ORR_REG_T1 1 2) 3 7 = 2.
Proof. destruct (ORR_T1_fields 1 2 ltac:(lia) ltac:(lia)) as (H1 & H2 & _). split; [exact H1|exact H2]. Defined.
