(* ===== verification/JitTotal.v ===== *)
(** * The compiler succeeds

    A program whose jumps stay inside the program, whose constants are complete
    and whose helpers exist is measured by the first pass; when what it
    measures fits the buffer and the range of the branches, the second pass
    writes as much and [gen_jit_code] succeeds.  Nothing in the code checks any
    of these conditions. *)

From S2P Require Import Prelude EbpfInst Thumb2 Jit JitEmit JitProps JitLayout.

(** ** Programs that can be compiled *)

Definition OFFSETS : Z := Z.of_nat (OFFSET_MEM_SIZE / 4).

Definition target_ok (t : tail) : bool :=
  match t with
  | TCond _ _ to | TJump _ to => (0 <=? to) && (to <? OFFSETS)
  | _ => true
  end.

Definition reads_ok (e : jit_env) (pc : Z) (i : ebpf_inst) : bool :=
  match opcode_of (i_opcode i) with
  | Some EBPF_OP_LDDW => bool_decide (is_Some (zget (v_insts e) (pc + 1)))
  | Some EBPF_OP_CALL => bool_decide (is_Some (zget (v_base e) (i_imm i)))
  | _ => true
  end.

Definition inst_compiles (e : jit_env) (pc : Z) : bool :=
  match zget (v_insts e) pc with
  | Some i => reads_ok e pc i && target_ok (tail_of e pc i)
  | None => false
  end.

Definition compiles (e : jit_env) : bool :=
  (0 <=? v_num e) && (v_num e <? OFFSETS) && forallb (inst_compiles e) (zrange 0 (Z.to_nat (v_num e))).

(** The first pass alone: the bytes before the epilogue. *)
Definition first_state (addr : Z) (prog : list ebpf_inst) (num_insts : Z) (ext_funcs : list Z) : jit_state :=
  jit_state_set_mem addr jit_mem_allocate (mk_jit prog num_insts [] 0 0 0 0 [] ext_funcs false).

Definition code_size (past_end : Z * Z) (addr : Z) (prog : list ebpf_inst) (num_insts : Z) (ext_funcs : list Z) : option Z :=
  r ← (_ ← build_prologue past_end; build_body past_end) (first_state addr prog num_insts ext_funcs);
  Some (idx (snd r)).

Lemma compiles_inst (e : jit_env) (pc : Z) :
  compiles e = true -> 0 <= pc < v_num e ->
  exists i, zget (v_insts e) pc = Some i /\ operands_ok e pc i /\ target_ok (tail_of e pc i) = true.
Proof.
  intros [Hb Hall]%andb_true_iff Hpc. pose proof (zrange_forallb _ _ _ Hall pc ltac:(lia)) as H. unfold inst_compiles in H.
  destruct (zget (v_insts e) pc) as [i|]; [|discriminate H]. apply andb_true_iff in H as [Hr Ht]. exists i.
  split; [done|]. split; [|done]. unfold reads_ok, operands_ok in *. destruct (opcode_of (i_opcode i)) as [o|]; [|done].
  destruct o; try exact I; exact (bool_decide_eq_true_1 _ Hr).
Qed.

Lemma compiles_num (e : jit_env) : compiles e = true -> 0 <= v_num e < 256.
Proof. intros [[?%Z.leb_le ?%Z.ltb_lt]%andb_true_iff _]%andb_true_iff. unfold OFFSETS in *. cbn in *. lia. Qed.

(** ** Branches *)

Lemma room_pass1 (n : nat) (st : jit_state) : needGen st = false -> room n st.
Proof. intros Hn Hg. congruence. Qed.

Lemma straight_pass1 (m : J unit) (st : jit_state) :
  Straight (env_of st) m -> needGen st = false -> exists st', m st = Some (tt, st').
Proof.
  intros (ws & a & H) Hn. destruct (H st eq_refl) as [_ T]. destruct (T (room_pass1 _ _ Hn)) as [[[] st'] Hm]. by exists st'.
Qed.

Lemma offset_pass1 (pc to bsize : Z) (st : jit_state) : needGen st = false -> bpf2a32_offset pc to bsize st = Some (0, st).
Proof. intros Hn. unfold bpf2a32_offset, mbind, j_bind, gets. by rewrite Hn. Qed.

Lemma tail_pass1_total (t : tail) (st : jit_state) : needGen st = false -> exists st', emit_tail t st = Some (tt, st').
Proof.
  intros Hn. destruct t as [|op pc to|pc to|]; cbn [emit_tail].
  - by exists st.
  - unfold mbind at 1, j_bind at 1, gets at 1. cbv zeta. unfold mbind, j_bind. rewrite offset_pass1 by done.
    apply straight_pass1; [apply st_jump|done].
  - unfold mbind, j_bind. rewrite offset_pass1 by done. apply straight_pass1; [apply st_b|done].
  - unfold mbind, j_bind. unfold epilogue_offset_fn, mbind, j_bind, gets. rewrite Hn. cbn [negb].
    apply straight_pass1; [apply st_b|done].
Qed.

(** A straight computation takes the room it is seen to take in the first
    pass. *)
Lemma straight_room (m : J unit) (n : nat) (st : jit_state) :
  Straight (env_of st) m ->
  (forall s s', env_of s = env_of st -> needGen s = false -> m s = Some (tt, s') -> idx s' = idx s + 2 * Z.of_nat n) ->
  room n st -> exists st', m st = Some (tt, st').
Proof.
  intros (ws & a & H) Hn Hr. set (s := set_needGen false st). assert (env_of s = env_of st) as He by done.
  destruct (H s He) as [P T]. destruct (T (room_pass1 _ s eq_refl)) as [[[] s'] Hm].
  destruct (P _ _ Hm) as [_ Hem]. pose proof (Hn s s' He eq_refl Hm) as Hi. rewrite (emitted_idx _ _ _ Hem) in Hi.
  destruct (H st eq_refl) as [_ T2]. destruct T2 as [[[] st'] Hm2]; [|by exists st'].
  eapply room_le; [|exact Hr]. lia.
Qed.

Lemma jump_room (off op : Z) (st : jit_state) :
  (if _use_b4 st then -4096 < off < 4096 else -256 <= off <= 254) ->
  room (tail_len (_use_b4 st) (TCond op 0 0)) st -> exists st', _emit_jump off op st = Some (tt, st').
Proof.
  intros Ho. rewrite emit_jump_cond. cbn [tail_len]. destruct (cond_of op) as [c|] eqn:Ec; [|intros _; by exists st].
  apply straight_room; [apply st_b_cond|]. intros s s' He Hn Hm.
  assert (_use_b4 s = _use_b4 st) as Hb by (change (_use_b4 s) with (20 <? v_num (env_of s)); by rewrite He).
  destruct (emit_b_cond_emitted s s' off c) as (tw & Hem & Hl & _); [by eapply cond_of_range|by rewrite Hb|done|].
  by rewrite (emitted_idx _ _ _ Hem), Hl, Hb.
Qed.

Lemma b_room (off : Z) (st : jit_state) : -2048 < off < 2046 -> room 1 st -> exists st', _emit_b off st = Some (tt, st').
Proof.
  intros Ho. apply straight_room; [apply st_b|]. intros s s' He Hn Hm.
  destruct (emit_b_emitted s s' off) as (tw & Hem & Hl & _); [done|done|]. by rewrite (emitted_idx _ _ _ Hem), Hl.
Qed.

(** The offset the second pass computes when both ends are recorded. *)
Lemma offset_pass2 (pc to bsize limit : Z) (st : jit_state) :
  needGen st = true -> offsets_ok limit (offsets st) -> limit < 2 ^ 20 -> bsize = 2 \/ bsize = 4 ->
  is_Some (zget (offsets st) to) -> is_Some (zget (offsets st) pc) ->
  exists off, bpf2a32_offset pc to bsize st = Some (off, st) /\
    (forall f, zget (offsets st) pc = Some f -> - f + bsize - 4 <= off <= limit - f + bsize - 4) /\ - limit + bsize - 4 <= off.
Proof.
  intros Hn Hok Hl Hb [t Ht] [f Hf]. unfold bpf2a32_offset, mbind, j_bind, gets, lift. rewrite Hn. cbn [negb]. rewrite Ht. cbn [mbind option_bind].
  rewrite Hf. cbn [mbind option_bind]. destruct (Forall_zget _ _ _ _ Hok Ht) as [Rt _]. destruct (Forall_zget _ _ _ _ Hok Hf) as [Rf _].
  eexists. split; [reflexivity|]. unfold s32. rewrite !(sext_small 32) by (try rewrite !(sext_small 32) by lia; lia).
  split; [intros f' [= <-]|]; lia.
Qed.

Definition targets_recorded (st : jit_state) (t : tail) : Prop :=
  match t with
  | TCond _ pc to | TJump pc to => is_Some (zget (offsets st) to) /\ is_Some (zget (offsets st) pc)
  | _ => True
  end.

Lemma tail_pass2_total (t : tail) (st : jit_state) :
  needGen st = true -> offsets_ok (size_limit (_use_b4 st)) (offsets st) -> targets_recorded st t ->
  0 <= idx st <= epilogue_offset st -> epilogue_offset st <= size_limit (_use_b4 st) ->
  room (tail_len (_use_b4 st) t) st -> exists st', emit_tail t st = Some (tt, st').
Proof.
  intros Hn Hok Ht Hi Hep Hr. assert (size_limit (_use_b4 st) <= 2044) as Hlim by (unfold size_limit; destruct (_use_b4 st); lia).
  destruct t as [|op pc to|pc to|]; cbn [emit_tail] in *.
  - by exists st.
  - destruct Ht as [H1 H2]. unfold mbind at 1, j_bind at 1, gets at 1. cbv zeta.
    destruct (offset_pass2 pc to (if _use_b4 st then 4 else 2) _ st Hn Hok ltac:(lia) ltac:(destruct (_use_b4 st); auto) H1 H2) as (off & E & Hoff & Hlow).
    unfold mbind, j_bind. rewrite E. apply jump_room; [|exact Hr].
    destruct H2 as [f Hf]. destruct (Forall_zget _ _ _ _ Hok Hf) as [Rf _]. specialize (Hoff f Hf). unfold size_limit in *. destruct (_use_b4 st); lia.
  - destruct Ht as [H1 H2]. destruct (offset_pass2 pc to 2 _ st Hn Hok ltac:(lia) ltac:(auto) H1 H2) as (off & E & Hoff & Hlow).
    unfold mbind, j_bind. rewrite E. apply b_room; [|exact Hr].
    destruct H2 as [f Hf]. destruct (Forall_zget _ _ _ _ Hok Hf) as [Rf _]. specialize (Hoff f Hf). lia.
  - unfold mbind, j_bind. unfold epilogue_offset_fn, mbind, j_bind, gets. rewrite Hn. cbn [negb]. apply b_room; [lia|exact Hr].
Qed.

(** ** One instruction *)

Section Passes.
Context (past_end : Z * Z) (e : jit_env).
Hypothesis He : compiles e = true.

Lemma use_b4_env (st : jit_state) : env_of st = e -> _use_b4 st = (20 <? v_num e).
Proof. intros <-. reflexivity. Qed.

Lemma inst_pass1_total (pc : Z) (i : ebpf_inst) (st : jit_state) :
  env_of st = e -> needGen st = false -> operands_ok e pc i -> exists st', build_inst past_end pc i st = Some (inst_ret i, st').
Proof.
  intros Hst Hn Hops. destruct (build_inst_shape past_end e pc i) as [ws H]. destruct (H st Hst) as [P T].
  destruct (T Hops (room_pass1 _ _ Hn)) as (st1 & (_ & N1 & _) & Ht).
  destruct (tail_pass1_total (tail_of e pc i) st1 (eq_trans N1 Hn)) as [st2 E2].
  destruct (Ht ltac:(rewrite E2; by eexists)) as [[r st'] Hm]. destruct (P _ _ Hm) as [-> _]. by exists st'.
Qed.

(** The second pass over an instruction that the first has measured. *)
Lemma inst_pass2_total (pc : Z) (i : ebpf_inst) (s1 s1' s2 : jit_state) (r : Z) :
  needGen s1 = false -> needGen s2 = true -> env_of s1 = e -> env_of s2 = e -> idx s1 = idx s2 ->
  build_inst past_end pc i s1 = Some (r, s1') -> operands_ok e pc i -> targets_recorded s2 (tail_of e pc i) ->
  offsets_ok (size_limit (20 <? v_num e)) (offsets s2) ->
  0 <= idx s1 -> idx s1' <= epilogue_offset s2 <= size_limit (20 <? v_num e) ->
  0 <= idx s2 - jit_align s2 -> idx s1' - jit_align s2 <= Z.of_nat (length (jit_code s2)) ->
  exists s2', build_inst past_end pc i s2 = Some (inst_ret i, s2').
Proof.
  intros N1 N2 E1 E2 Hi B1 Hops Htg Hok H0 Hep Hal Hroom.
  destruct (build_inst_shape past_end e pc i) as [ws H]. destruct (H s1 E1) as [P1 _]. destruct (P1 _ _ B1) as [_ (a1 & _ & M1 & T1)].
  assert (needGen a1 = false) as Na1 by (by destruct M1 as (_ & -> & _)).
  destruct (emit_tail_pass1 _ _ _ Na1 T1) as (tw & Hem & Hl).
  pose proof (emitted_idx _ _ _ M1) as I1. apply emitted_idx in Hem.
  rewrite (use_b4_env a1) in Hl by (by rewrite (emitted_env _ _ _ M1)).
  assert (room (length ws + tail_len (20 <? v_num e) (tail_of e pc i)) s2) as Hr by (intros _; lia).
  destruct (H s2 E2) as [P2 T2]. destruct (T2 Hops (room_le _ _ _ (Nat.le_add_r _ _) Hr)) as (a2 & M2 & Ht).
  pose proof M2 as (EE & NN & O2 & Ep2 & _ & I2 & _).
  destruct (tail_pass2_total (tail_of e pc i) a2) as [s2' Htail]; rewrite ?(use_b4_env a2) by (by rewrite EE); rewrite ?O2, ?Ep2, ?NN;
    try done; try lia.
  { unfold targets_recorded in *. by rewrite O2. }
  { by eapply room_after. }
  destruct (Ht ltac:(rewrite Htail; by eexists)) as [[r2 s] Hm]. destruct (P2 _ _ Hm) as [-> _]. by exists s.
Qed.

(** ** The body *)

Lemma record_pass1 (i : Z) (st : jit_state) :
  needGen st = false -> 0 <= i < Z.of_nat (length (offsets st)) ->
  exists st', record_offset i st = Some (tt, st') /\ length (offsets st') = length (offsets st).
Proof.
  intros Hn Hi. unfold record_offset, mbind, j_bind, gets, lift, modify. rewrite Hn. cbn [negb].
  rewrite zset_is_Some by lia. cbn [mbind option_bind]. eexists. split; [reflexivity|]. cbn [offsets set_offsets]. by rewrite length_insert.
Qed.

Lemma record_pass2 (i : Z) (st : jit_state) : needGen st = true -> record_offset i st = Some (tt, st).
Proof. intros Hn. unfold record_offset, mbind, j_bind, gets. by rewrite Hn. Qed.

Lemma build_from_done (n : nat) (i : Z) (st : jit_state) : inst_num st <= i -> build_from past_end n i st = Some (tt, st).
Proof.
  intros Hi. destruct n as [|n]; [done|]. cbn [build_from]. unfold mbind, j_bind, gets. destruct (Z.ltb_spec i (inst_num st)); [lia|done].
Qed.

Lemma build_from_go (n : nat) (i : Z) (ins : ebpf_inst) (st st1 st2 : jit_state) :
  i < inst_num st -> zget (insts st) i = Some ins -> build_inst past_end i ins st = Some (inst_ret ins, st1) ->
  record_offset (if 0 <? inst_ret ins then i + 1 else i) st1 = Some (tt, st2) ->
  build_from past_end (S n) i st =
  if inst_ret ins <? 0 then Some (tt, st2) else build_from past_end n (i + (if 0 <? inst_ret ins then 2 else 1)) st2.
Proof.
  intros Hi Hg Hb Hr. cbn [build_from]. unfold mbind at 1, j_bind at 1, gets at 1. destruct (Z.ltb_spec i (inst_num st)); [|lia].
  unfold mbind at 1, j_bind at 1, gets at 1, mbind at 1, j_bind at 1, lift at 1. rewrite Hg. cbn [mbind option_bind].
  unfold mbind at 1, j_bind at 1. rewrite Hb. destruct (Z.ltb_spec 0 (inst_ret ins)).
  - unfold mbind at 1, j_bind at 1. rewrite Hr. destruct (Z.ltb_spec (inst_ret ins) 0); [lia|done].
  - unfold mbind at 1, j_bind at 1. rewrite Hr. by destruct (_ <? 0).
Qed.

Lemma body_pass1_total (n : nat) : forall (i : Z) (st : jit_state),
  needGen st = false -> env_of st = e -> length (offsets st) = 256%nat -> 0 <= i ->
  exists st', build_from past_end n i st = Some (tt, st') /\ length (offsets st') = 256%nat.
Proof.
  pose proof (compiles_num e He) as Hnum. induction n as [|n IH]; intros i st Hn Hst Hl Hi; [by exists st|].
  destruct (Z.le_gt_cases (inst_num st) i) as [Hge|Hlt]; [rewrite build_from_done by done; by exists st|].
  assert (inst_num st = v_num e) as Hv by (by rewrite <- Hst). rewrite Hv in Hlt.
  destruct (compiles_inst e i He ltac:(lia)) as (ins & Hg & Hops & _).
  destruct (inst_pass1_total i ins st Hst Hn Hops) as [st1 Hb]. destruct (pass1_inst past_end i ins st st1 _ Hn Hb) as (N1 & E1 & O1 & _).
  destruct (record_pass1 (if 0 <? inst_ret ins then i + 1 else i) st1 N1) as (st2 & Hr & L2).
  { rewrite O1, Hl. destruct (0 <? inst_ret ins); lia. }
  destruct (record_offset_pass1 _ _ _ N1 Hr) as (_ & E2 & N2 & _).
  rewrite (build_from_go n i ins st st1 st2) by (try done; try lia; by rewrite <- Hst in Hg).
  rewrite O1, Hl in L2. destruct (inst_ret ins <? 0); [by exists st2|].
  apply IH; try congruence. destruct (0 <? inst_ret ins); lia.
Qed.

Lemma body_pass2_total (n : nat) : forall (i : Z) (s1 s1' s2 : jit_state),
  needGen s1 = false -> needGen s2 = true -> env_of s1 = e -> env_of s2 = e -> idx s1 = idx s2 -> 0 <= i ->
  build_from past_end n i s1 = Some (tt, s1') ->
  offsets s2 = offsets s1' -> length (offsets s2) = 256%nat -> offsets_ok (size_limit (20 <? v_num e)) (offsets s2) ->
  0 <= idx s1 -> idx s1' <= epilogue_offset s2 <= size_limit (20 <? v_num e) ->
  Z.even (idx s1) = true -> Z.even (epilogue_offset s2) = true ->
  0 <= idx s2 - jit_align s2 -> idx s1' - jit_align s2 <= Z.of_nat (length (jit_code s2)) ->
  exists s2', build_from past_end n i s2 = Some (tt, s2').
Proof.
  pose proof (compiles_num e He) as Hnum.
  assert (size_limit (20 <? v_num e) <= 2044) as Hlim by (unfold size_limit; destruct (20 <? v_num e); lia).
  induction n as [|n IH]; intros i s1 s1' s2 N1 N2 E1 E2 Hi Hi0 B1 HF HL Hok H0 Hep Hev Hee Hal Hroom; [by exists s2|].
  assert (inst_num s2 = v_num e) as Hv2 by (by rewrite <- E2).
  apply build_from_S in B1 as [[Hge ->] | (Hlt & ins & a1 & b1 & G1 & I1 & R1 & B1)].
  { assert (inst_num s1 = v_num e) as Hv1 by (by rewrite <- E1). rewrite build_from_done by lia. by exists s2. }
  assert (inst_num s1 = v_num e) as Hv1 by (by rewrite <- E1). rewrite Hv1 in Hlt.
  assert (zget (v_insts e) i = Some ins) as G by (by rewrite <- E1).
  destruct (compiles_inst e i He ltac:(lia)) as (ins' & Hg & Hops & Htok). rewrite G in Hg. injection Hg as <-.
  destruct (pass1_inst past_end _ _ _ _ _ N1 I1) as (Na1 & Ea1 & Oa1 & _ & k & Ia1).
  destruct (record_offset_pass1 _ _ _ Na1 R1) as (Ob1 & Eb1 & Nb1 & Ib1 & _).
  assert (Evb1 : Z.even (idx b1) = true) by (rewrite Ib1, Ia1, Z.even_add, Z.even_mul, Hev; done).
  set (j0 := if 0 <? inst_ret ins then i + 1 else i) in *.
  assert (Hrest : idx b1 <= idx s1' /\ zget (offsets s2) j0 = Some (idx a1)).
  { assert (Hz : zget (offsets b1) j0 = Some (u32 (idx a1))) by (by eapply zget_zset_eq).
    destruct (inst_ret ins <? 0).
    - subst b1. rewrite HF. split; [lia|]. rewrite Hz. f_equal. apply u32_small. lia.
    - eapply (pass1_body past_end _ _ (2 ^ 31)) in B1 as (Hle & _ & _ & _ & _ & Hkeep & _); [|done|lia|done|lia].
      split; [done|]. rewrite HF, Hkeep, Hz by (unfold j0; destruct (0 <? inst_ret ins); lia).
      f_equal. apply u32_small. lia. }
  destruct Hrest as [Hle Hj0].
  assert (targets_recorded s2 (tail_of e i ins)) as Htg.
  { assert (forall k, 0 <= k < 256 -> is_Some (zget (offsets s2) k)) as Hin by (intros j Hj; apply zget_is_Some; lia).
    unfold target_ok, OFFSETS in Htok. cbn in Htok.
    destruct (tail_of_cases e i ins) as [Et | [(op & to & Et) | [(to & Et) | Et]]]; rewrite Et in *; cbn [targets_recorded]; try done;
      apply andb_true_iff in Htok as [?%Z.leb_le ?%Z.ltb_lt]; split; apply Hin; lia. }
  destruct (inst_pass2_total i ins s1 a1 s2 _ N1 N2 E1 E2 Hi I1 Hops Htg Hok H0 ltac:(lia) Hal ltac:(lia)) as [a2 I2].
  destruct (two_passes_inst past_end e i ins s1 a1 s2 a2 (inst_ret ins) (inst_ret ins)) as [Haa (ws & tw & Hem & _ & _)]; try done; [lia| |].
  { intros Ht. destruct (Z.ltb_spec 0 (inst_ret ins)); [|exact Hj0].
    exfalso. apply Ht. unfold inst_ret, tail_of in *. repeat case_match; done || lia. }
  pose proof Hem as (Ea2 & Na2 & Oa2 & Pa2 & Aa2 & Ia2 & Ca2). rewrite N2 in Ca2.
  rewrite (build_from_go n i ins s2 a2 a2) by (solve [lia|done|by rewrite <- E2 in G|apply record_pass2; congruence]).
  destruct (inst_ret ins <? 0) eqn:Eneg; [by exists a2|].
  apply (IH _ b1 s1' a2); try congruence; try lia; rewrite ?Oa2, ?Pa2, ?Aa2; try done; try lia.
  - destruct (0 <? inst_ret ins); lia.
  - rewrite (put_bytes_length _ _ _ _ Ca2). lia.
Qed.
End Passes.

(** ** The whole program *)

Lemma jit_compile_go (past_end : Z * Z) (st a2 a3 b2 b3 st' : jit_state) :
  build_prologue past_end (set_needGen false (set_idx 0 st)) = Some (tt, a2) ->
  build_from past_end (Z.to_nat (inst_num a2)) 0 a2 = Some (tt, a3) ->
  build_prologue past_end (set_needGen true (set_idx 0 (set_epilogue (idx a3) a3))) = Some (tt, b2) ->
  build_from past_end (Z.to_nat (inst_num b2)) 0 b2 = Some (tt, b3) ->
  build_epilogue b3 = Some (tt, st') -> jit_compile past_end st = Some (tt, st').
Proof.
  intros P1 B1 P2 B2 H. unfold jit_compile, build_body, mbind, j_bind, modify, gets. rewrite P1, B1, P2, B2. exact H.
Qed.

Lemma epilogue_room (st : jit_state) : room 4 st -> exists st', build_epilogue st = Some (tt, st') /\ idx st' = idx st + 8 /\
  epilogue_offset st' = epilogue_offset st.
Proof.
  intros Hr. change build_epilogue with (_ ← emit4 (_thumb32_MOVW_REG_T3 ARM_SP ARM_FP FLAG_NOS); emit4 (_thumb32_POPW_T2 CALLEE_POP_MASK)).
  destruct (emit4_room (_thumb32_MOVW_REG_T3 ARM_SP ARM_FP FLAG_NOS) st) as [[[] s1] E1]; [by eapply room_le; [|exact Hr]; lia|].
  apply emit4_emitted in E1 as Em1. destruct (emit4_room (_thumb32_POPW_T2 CALLEE_POP_MASK) s1) as [[[] s2] E2]; [by eapply room_after|].
  apply emit4_emitted in E2 as Em2. exists s2. unfold mbind, j_bind. rewrite E1. split; [exact E2|].
  rewrite (emitted_idx _ _ _ Em2), (emitted_idx _ _ _ Em1). destruct Em1 as (_ & _ & _ & P1 & _), Em2 as (_ & _ & _ & P2 & _).
  split; [cbn [halfwords length]; lia|congruence].
Qed.

Lemma prologue_total (past_end : Z * Z) (e : jit_env) : exists ws, forall st, env_of st = e -> room (length ws) st ->
  exists st', build_prologue past_end st = Some (tt, st') /\ emitted ws st st'.
Proof.
  destruct (plain_straight e _ (st_prologue past_end)) as (ws & a & H). exists ws. intros st He Hr. destruct (H st He) as [P T].
  destruct (T Hr) as [[[] st'] Hm]. exists st'. split; [exact Hm|]. by destruct (P _ _ Hm).
Qed.

(** C21: the compiler succeeds: for a program of fewer than 256 instructions
    whose jumps, constants and helpers are there, compiled to an aligned
    buffer, the first pass ends and measures a size; and if the code with its
    epilogue of 8 bytes fits the buffer and every branch is in range, the
    second pass ends too, with exactly that code before the epilogue. *)
Theorem gen_jit_code_succeeds (past_end : Z * Z) (addr num_insts : Z) (prog : list ebpf_inst) (ext_funcs : list Z) :
  compiles (mk_jenv prog num_insts ext_funcs) = true -> addr .& 3 = 0 ->
  exists size, code_size past_end addr prog num_insts ext_funcs = Some size /\
    (size + 8 <= Z.of_nat JIT_BUFFER_SIZE -> size <= size_limit (20 <? num_insts) ->
     exists st, gen_jit_code past_end addr prog num_insts ext_funcs = Some (st, addr .| 1) /\
       epilogue_offset st = size /\ idx st = size + 8).
Proof.
  intros He Haddr. set (e := mk_jenv prog num_insts ext_funcs) in *. set (st0 := first_state addr prog num_insts ext_funcs).
  assert (0 <= num_insts < 256) as Hnum by exact (compiles_num e He). destruct (prologue_total past_end e) as [pro Hpro].
  assert (length (offsets st0) = 256%nat) as Hl0 by reflexivity.
  destruct (Hpro st0 eq_refl (room_pass1 _ st0 eq_refl)) as (a2 & P1 & (E1 & N1 & O1 & _ & A1 & I1 & C1)).
  change (idx st0) with 0 in I1. change (needGen st0) with false in N1, C1. cbv iota in C1.
  destruct (body_pass1_total past_end e He (Z.to_nat num_insts) 0 a2 N1 E1 ltac:(congruence) ltac:(lia)) as (a3 & B1 & L3).
  assert (Z.even (idx a2) = true) as Hev1 by (rewrite I1, Z.add_0_l, Z.even_mul; done).
  assert (inst_num a2 = num_insts) as Hn2 by (change (v_num (env_of a2) = v_num e); by rewrite E1).
  destruct (pass1_body past_end _ _ (size_limit (20 <? num_insts)) _ _ N1 ltac:(lia) Hev1
    ltac:(unfold size_limit; destruct (20 <? num_insts); lia) B1) as (Hle & N3 & E3 & Hev3 & [C3 A3] & _ & Hok).
  exists (idx a3). split.
  { unfold code_size. fold st0. unfold mbind at 2, j_bind, build_body, mbind at 2, j_bind, gets. rewrite P1, Hn2, B1. reflexivity. }
  intros Hfit Hlim. set (s2 := set_needGen true (set_idx 0 (set_epilogue (idx a3) a3))).
  assert (env_of s2 = e) as Es2 by exact (eq_trans E3 E1).
  assert (jit_align s2 = 0 /\ length (jit_code s2) = JIT_BUFFER_SIZE) as [Al Lc].
  { change (jit_align a3 = 0 /\ length (jit_code a3) = JIT_BUFFER_SIZE). rewrite A3, A1, C3, C1. split; [exact Haddr|apply length_replicate]. }
  destruct (Hpro s2 Es2) as (b2 & P2 & Hem2); [intros _; rewrite Al, Lc; change (idx s2) with 0; lia|].
  pose proof Hem2 as (E2 & N2 & O2 & Ep2 & A2 & I2 & C2). change (idx s2) with 0 in I2.
  change (offsets s2) with (offsets a3) in O2. change (epilogue_offset s2) with (idx a3) in Ep2. rewrite Al in A2.
  assert (length (jit_code b2) = JIT_BUFFER_SIZE) as Lc2 by (rewrite <- Lc; exact (put_bytes_length _ _ _ _ C2)).
  assert (offsets_ok (size_limit (20 <? num_insts)) (offsets a3)) as Hok3.
  { apply Hok; [exact Hlim|]. rewrite O1. apply offsets_zero; [unfold size_limit; destruct (20 <? num_insts); lia|]. by apply Forall_replicate. }
  destruct (body_pass2_total past_end e He (Z.to_nat num_insts) 0 a2 a3 b2) as [b3 B2]; rewrite ?O2, ?Ep2, ?A2, ?Lc2; try done; try congruence; try lia.
  destruct (two_passes past_end e (Z.to_nat num_insts) 0 a2 a3 b2 b3 N1 N2 E1 ltac:(congruence) ltac:(lia) B1 B2) as [Hend (bs & Hbs & _)];
    rewrite ?O2, ?Ep2; try done; try lia; [change (v_num e) with num_insts; lia|].
  pose proof Hbs as (_ & N5 & _ & Ep5 & A5 & I5 & C5). rewrite N2 in C5.
  destruct (epilogue_room b3) as (st & H & Hidx & Hep).
  { intros _. rewrite (put_bytes_length _ _ _ _ C5), A5, A2, Lc2. lia. }
  exists st. split; [|split; [by rewrite Hep, Ep5, Ep2|lia]].
  unfold gen_jit_code. fold (first_state addr prog num_insts ext_funcs). fold st0.
  rewrite (jit_compile_go past_end st0 a2 a3 b2 b3 st); try done.
  - by rewrite Hn2.
  - assert (inst_num b2 = num_insts) as -> by (change (v_num (env_of b2) = v_num e); congruence). exact B2.
Qed.

Lemma gen_jit_code_succeeds_witness :
  code_size (0, 0) 0x20000000 jit_sample 5 [] = Some 56 /\
  exists st, gen_jit_code (0, 0) 0x20000000 jit_sample 5 [] = Some (st, 0x20000001) /\ epilogue_offset st = 56 /\ idx st = 64.
Proof.
  destruct (gen_jit_code_succeeds (0, 0) 0x20000000 5 jit_sample [] ltac:(vm_compute; reflexivity) ltac:(vm_compute; reflexivity)) as (size & E & H).
  assert (code_size (0, 0) 0x20000000 jit_sample 5 [] = Some 56) as E56 by (vm_compute; reflexivity).
  rewrite E56 in E. injection E as <-. split; [exact E56|]. exact (H ltac:(vm_compute; discriminate) ltac:(vm_compute; discriminate)).
Defined.

(** Without room the code goes past the buffer: 70 multiplications and an
    exit. *)
Example long_program_overflows :
  let prog := replicate 70 (mk_inst 0x2f 2 3 0 0) ++ [mk_inst 0x95 0 0 0 0] in
  from_option (fun size => Z.of_nat JIT_BUFFER_SIZE <? size) false (code_size (0, 0) 0x20000000 prog 71 []) = true /\
  gen_jit_code (0, 0) 0x20000000 prog 71 [] = None.
Proof. split; vm_compute; reflexivity. Qed.
