(* ===== verification/ThumbSem.v ===== *)
(** * What the emitted instructions do (ARMv7-M)

    The instructions of the processor that the compiler emits for arithmetic,
    comparisons and its own register traffic: their decoding from halfwords
    and their effect on the registers, the flags and the memory, after the
    ARMv7-M reference manual.  Instructions whose operands the manual calls
    unpredictable do not decode. *)

From S2P Require Import Prelude Mem Thumb2 Jit JitEmit JitProps.

(** ** State *)

Record arm := mk_arm {
  a_reg : Z -> Z;
  a_N : bool; a_Z : bool; a_C : bool; a_V : bool;
  a_mem : memory
}.

Definition arm_set (d v : Z) (a : arm) : arm :=
  mk_arm (upd (a_reg a) d v) (a_N a) (a_Z a) (a_C a) (a_V a) (a_mem a).
Definition arm_flags (n z c v : bool) (a : arm) : arm := mk_arm (a_reg a) n z c v (a_mem a).
Definition arm_store (m : memory) (a : arm) : arm := mk_arm (a_reg a) (a_N a) (a_Z a) (a_C a) (a_V a) m.

Definition arm_wf (a : arm) : Prop := (forall k, 0 <= a_reg a k < 2 ^ 32) /\ mem_wf (a_mem a).

(** ** Instructions *)

Inductive dp_op : Set := DAnd | DOrr | DEor | DAdd | DAdc | DSbc | DSub | DRsb.

(** Destination before sources; [s]: the instruction sets the flags. *)
Inductive thumb : Set :=
  | IMovs (rd imm : Z)
  | IMovw (rd imm : Z)
  | IMovt (rd imm : Z)
  | IMov (rd rm : Z)
  | IMovShift (s : bool) (rd rm ty amount : Z)
  | IDp (op : dp_op) (s : bool) (rd rn rm ty amount : Z)
  | IDpImm (op : dp_op) (s : bool) (rd rn imm : Z)
  | IShift (s : bool) (rd rn rm ty : Z)
  | IAddReg (rd rm : Z)
  | ICmp (rn rm : Z)
  | IMul (s : bool) (rd rn rm : Z)
  | IMls (rd rn rm ra : Z)
  | IUmull (rdlo rdhi rn rm : Z)
  | IUdiv (rd rn rm : Z)
  | ILdrd (rt rt2 rn off : Z)
  | IStrd (rt rt2 rn off : Z)
  | ILdr (rt rn off : Z)
  | IStr (rt rn off : Z).

#[export] Instance dp_op_eq_dec : EqDecision dp_op.
Proof. solve_decision. Defined.
#[export] Instance thumb_eq_dec : EqDecision thumb.
Proof. solve_decision. Defined.

(** ** Decoding *)

(** The registers every instruction accepts: not SP, not PC. *)
Definition greg (r : Z) : bool := (0 <=? r) && (r <? 15) && negb (r =? 13).

Definition guard_regs (l : list Z) (i : thumb) : option thumb := if forallb greg l then Some i else None.

Definition dp_of (op : Z) : option dp_op :=
  if op =? 0 then Some DAnd else if op =? 2 then Some DOrr else if op =? 4 then Some DEor
  else if op =? 8 then Some DAdd else if op =? 10 then Some DAdc else if op =? 11 then Some DSbc
  else if op =? 13 then Some DSub else if op =? 14 then Some DRsb else None.

(** The 16-bit instructions (A5.2). *)
Definition decode16 (w : Z) : option thumb :=
  let rd := field w 0 7 in
  let rm := field w 3 7 in
  if (field w 13 7 =? 0) && (field w 11 3 <? 3) then
    Some (IMovShift true rd rm (field w 11 3) (field w 6 31))
  else if field w 11 31 =? 4 then Some (IMovs (field w 8 7) (field w 0 0xff))
  else if field w 10 63 =? 16 then
    let op := field w 6 15 in
    if op =? 0 then Some (IDp DAnd true rd rd rm 0 0)
    else if op =? 1 then Some (IDp DEor true rd rd rm 0 0)
    else if op =? 2 then Some (IShift true rd rd rm SRTYPE_LSL)
    else if op =? 3 then Some (IShift true rd rd rm SRTYPE_LSR)
    else if op =? 4 then Some (IShift true rd rd rm SRTYPE_ASR)
    else if op =? 9 then Some (IDpImm DRsb true rd rm 0)
    else if op =? 10 then Some (ICmp rd rm)
    else if op =? 12 then Some (IDp DOrr true rd rd rm 0 0)
    else if op =? 13 then Some (IMul true rd rm rd)
    else None
  else if field w 10 63 =? 17 then
    let rd := field w 0 7 .| (field w 7 1 << 3) in
    let rm := field w 3 15 in
    if field w 8 3 =? 0 then guard_regs [rd; rm] (IAddReg rd rm)
    else if field w 8 3 =? 1 then
      if (rd <? 8) && (rm <? 8) then None else guard_regs [rd; rm] (ICmp rd rm)
    else if field w 8 3 =? 2 then guard_regs [rd; rm] (IMov rd rm)
    else None
  else None.

(** The 32-bit instructions (A5.3). *)
Definition decode32 (h1 h2 : Z) : option thumb :=
  let rn := field h1 0 15 in
  let s := field h1 4 1 =? 1 in
  let rd := field h2 8 15 in
  let rm := field h2 0 15 in
  let rt := field h2 12 15 in
  let imm8 := field h2 0 0xff in
  let imm3 := field h2 12 7 in
  if field h1 9 0x7f =? 0x75 then               (* data processing, shifted register *)
    let amount := (imm3 << 2) .| field h2 6 3 in
    let ty := field h2 4 3 in
    op ← dp_of (field h1 5 15);
    if field h2 15 1 =? 1 then None
    else if (rn =? 15) && bool_decide (op = DOrr) then guard_regs [rd; rm] (IMovShift s rd rm ty amount)
    else guard_regs [rd; rn; rm] (IDp op s rd rn rm ty amount)
  else if (field h1 9 0x7f =? 0x74) && (field h1 6 1 =? 1) && (field h1 5 1 =? 0) && (field h1 8 1 =? 1) then
    let off := if field h1 7 1 =? 1 then imm8 << 2 else - (imm8 << 2) in
    if s then
      if rt =? rd then None else guard_regs [rt; rd; rn] (ILdrd rt rd rn off)
    else guard_regs [rt; rd; rn] (IStrd rt rd rn off)
  else if (field h1 11 31 =? 30) && (field h2 15 1 =? 0) then
    let i := field h1 10 1 in
    if field h1 9 1 =? 0 then                   (* modified immediate: the plain bytes *)
      if (i =? 0) && (imm3 =? 0) then
        op ← dp_of (field h1 5 15); guard_regs [rd; rn] (IDpImm op s rd rn imm8)
      else None
    else
      let op := field h1 4 31 in
      let imm12 := (i << 11) .| (imm3 << 8) .| imm8 in
      if op =? 4 then guard_regs [rd] (IMovw rd (mov_imm16 h1 h2))
      else if op =? 12 then guard_regs [rd] (IMovt rd (mov_imm16 h1 h2))
      else if op =? 0 then guard_regs [rd; rn] (IDpImm DAdd false rd rn imm12)
      else if op =? 10 then guard_regs [rd; rn] (IDpImm DSub false rd rn imm12)
      else None
  else if field h1 7 0x1ff =? 0x1f4 then        (* shift by a register *)
    if (rt =? 15) && (field h2 4 15 =? 0) && (field h1 5 3 <? 3) then
      guard_regs [rd; rn; rm] (IShift s rd rn rm (field h1 5 3))
    else None
  else if field h1 4 0xfff =? 0xfb0 then
    if field h2 4 15 =? 0 then
      if rt =? 15 then guard_regs [rd; rn; rm] (IMul false rd rn rm) else None
    else if field h2 4 15 =? 1 then guard_regs [rd; rn; rm; rt] (IMls rd rn rm rt)
    else None
  else if field h1 4 0xfff =? 0xfba then
    if (field h2 4 15 =? 0) && negb (rt =? rd) then guard_regs [rt; rd; rn; rm] (IUmull rt rd rn rm) else None
  else if field h1 4 0xfff =? 0xfbb then
    if (rt =? 15) && (field h2 4 15 =? 15) then guard_regs [rd; rn; rm] (IUdiv rd rn rm) else None
  else if (field h1 4 0xfff =? 0xf84) || (field h1 4 0xfff =? 0xf85) then
    (* STR and LDR with a negative offset and no write-back; with a positive
       one, STRT and LDRT, which access the memory without privilege *)
    if (field h2 8 15 =? 12) || (field h2 8 15 =? 14) then
      let off := if field h2 8 15 =? 14 then imm8 else - imm8 in
      guard_regs [rt; rn] (if field h1 4 1 =? 1 then ILdr rt rn off else IStr rt rn off)
    else None
  else if field h1 4 0xfff =? 0xf8d then guard_regs [rt; rn] (ILdr rt rn (field h2 0 0xfff))
  else None.

(** Halfwords 0xe800 and above start a 32-bit instruction. *)
Fixpoint decode (ws : list Z) : option (list thumb) :=
  match ws with
  | [] => Some []
  | w :: ws' =>
      if field w 11 31 <? 29 then i ← decode16 w; l ← decode ws'; Some (i :: l)
      else
        match ws' with
        | [] => None
        | w2 :: ws'' => i ← decode32 w w2; l ← decode ws''; Some (i :: l)
        end
  end.

(** ** Execution *)

(** [AddWithCarry]: the result, the carry and the overflow. *)
Definition add_with_carry (x y : Z) (c : bool) : Z * bool * bool :=
  let r := u32 (x + y + b2z c) in
  (r, 2 ^ 32 <=? x + y + b2z c, negb (s32 r =? s32 x + s32 y + b2z c)).

(** [Shift_C] by a register's low byte or a decoded immediate: the result and
    the carry.  Type 3 is ROR; its amount 0 is RRX, where an immediate is
    meant. *)
Definition shift_c (x ty n : Z) (c : bool) : Z * bool :=
  if n =? 0 then (x, c)
  else if ty =? SRTYPE_LSL then (u32 (x << n), Z.testbit x (32 - n))
  else if ty =? SRTYPE_LSR then (x >> n, Z.testbit x (n - 1))
  else if ty =? SRTYPE_ASR then (u32 (s32 x >> n), Z.testbit (s32 x) (n - 1))
  else let r := u32 ((x >> (n mod 32)) .| (x << (32 - n mod 32))) in (r, Z.testbit r 31).

(** [DecodeImmShift], then the shift. *)
Definition shift_imm (x ty n : Z) (c : bool) : Z * bool :=
  if n =? 0 then
    if ty =? SRTYPE_LSL then (x, c)
    else if ty =? SRTYPE_ROR then ((x >> 1) .| (b2z c << 31), Z.testbit x 0)   (* RRX *)
    else shift_c x ty 32 c
  else shift_c x ty n c.

Definition nz (r : Z) (a : arm) : arm := arm_flags (Z.testbit r 31) (r =? 0) (a_C a) (a_V a) a.

Definition write_logical (s : bool) (rd : Z) (rc : Z * bool) (a : arm) : arm :=
  let a' := arm_set rd (fst rc) a in
  if s then nz (fst rc) (arm_flags (a_N a') (a_Z a') (snd rc) (a_V a') a') else a'.

Definition write_arith (s : bool) (rd : Z) (r : Z * bool * bool) (a : arm) : arm :=
  let '(x, c, v) := r in
  let a' := arm_set rd x a in
  if s then arm_flags (Z.testbit x 31) (x =? 0) c v a' else a'.

Definition not32 (x : Z) : Z := 2 ^ 32 - 1 - x.

Definition exec_dp (op : dp_op) (s : bool) (rd x y : Z) (c : bool) (a : arm) : arm :=
  match op with
  | DAnd => write_logical s rd (x .& y, c) a
  | DOrr => write_logical s rd (x .| y, c) a
  | DEor => write_logical s rd (x .^ y, c) a
  | DAdd => write_arith s rd (add_with_carry x y false) a
  | DAdc => write_arith s rd (add_with_carry x y (a_C a)) a
  | DSbc => write_arith s rd (add_with_carry x (not32 y) (a_C a)) a
  | DSub => write_arith s rd (add_with_carry x (not32 y) true) a
  | DRsb => write_arith s rd (add_with_carry (not32 x) y true) a
  end.

Definition exec_cmp (x y : Z) (a : arm) : arm :=
  let '(r, c, v) := add_with_carry x (not32 y) true in arm_flags (Z.testbit r 31) (r =? 0) c v a.

(** One instruction; [None] is a fault. *)
Definition exec1 (i : thumb) (a : arm) : option arm :=
  let R := a_reg a in
  match i with
  | IMovs rd imm => Some (nz imm (arm_set rd imm a))
  | IMovw rd imm => Some (arm_set rd imm a)
  | IMovt rd imm => Some (arm_set rd (R rd .& 0xffff .| (imm << 16)) a)
  | IMov rd rm => Some (arm_set rd (R rm) a)
  | IMovShift s rd rm ty n => Some (write_logical s rd (shift_imm (R rm) ty n (a_C a)) a)
  | IDp op s rd rn rm ty n =>
      let yc := shift_imm (R rm) ty n (a_C a) in Some (exec_dp op s rd (R rn) (fst yc) (snd yc) a)
  | IDpImm op s rd rn imm => Some (exec_dp op s rd (R rn) imm (a_C a) a)
  | IShift s rd rn rm ty => Some (write_logical s rd (shift_c (R rn) ty (R rm .& 255) (a_C a)) a)
  | IAddReg rd rm => Some (arm_set rd (u32 (R rd + R rm)) a)
  | ICmp rn rm => Some (exec_cmp (R rn) (R rm) a)
  | IMul s rd rn rm => let x := u32 (R rn * R rm) in Some (if s then nz x (arm_set rd x a) else arm_set rd x a)
  | IMls rd rn rm ra => Some (arm_set rd (u32 (R ra - R rn * R rm)) a)
  | IUmull rdlo rdhi rn rm =>
      let p := R rn * R rm in Some (arm_set rdhi (p >> 32) (arm_set rdlo (u32 p) a))
  | IUdiv rd rn rm => Some (arm_set rd (R rn / R rm) a)   (* 0 for a divisor of 0 *)
  | ILdrd rt rt2 rn off =>
      let p := u32 (R rn + off) in
      if negb (p .& 3 =? 0) then None
      else x ← load_le 4 p (a_mem a); y ← load_le 4 (p + 4) (a_mem a); Some (arm_set rt2 y (arm_set rt x a))
  | IStrd rt rt2 rn off =>
      let p := u32 (R rn + off) in
      if negb (p .& 3 =? 0) then None
      else m ← store_le 4 p (R rt) (a_mem a); m' ← store_le 4 (p + 4) (R rt2) m; Some (arm_store m' a)
  | ILdr rt rn off => x ← load_le 4 (u32 (R rn + off)) (a_mem a); Some (arm_set rt x a)
  | IStr rt rn off => m ← store_le 4 (u32 (R rn + off)) (R rt) (a_mem a); Some (arm_store m a)
  end.

Fixpoint exec (l : list thumb) (a : arm) : option arm :=
  match l with
  | [] => Some a
  | i :: l' => a' ← exec1 i a; exec l' a'
  end.

(** What a block of halfwords does. *)
Definition exec_words (ws : list Z) (a : arm) : option arm := l ← decode ws; exec l a.

(** [ConditionPassed] *)
Definition cond_holds (c : Z) (a : arm) : bool :=
  if c =? COND_EQ then a_Z a
  else if c =? COND_NE then negb (a_Z a)
  else if c =? COND_CS then a_C a
  else if c =? COND_CC then negb (a_C a)
  else if c =? COND_MI then a_N a
  else if c =? COND_PL then negb (a_N a)
  else if c =? COND_VS then a_V a
  else if c =? COND_VC then negb (a_V a)
  else if c =? COND_HI then a_C a && negb (a_Z a)
  else if c =? COND_LS then negb (a_C a && negb (a_Z a))
  else if c =? COND_GE then eqb (a_N a) (a_V a)
  else if c =? COND_LT then negb (eqb (a_N a) (a_V a))
  else if c =? COND_GT then negb (a_Z a) && eqb (a_N a) (a_V a)
  else if c =? COND_LE then negb (negb (a_Z a) && eqb (a_N a) (a_V a))
  else true.

(** ** Lemmas *)

Lemma decode_app (ws1 ws2 : list Z) (l1 l2 : list thumb) :
  decode ws1 = Some l1 -> decode ws2 = Some l2 -> decode (ws1 ++ ws2) = Some (l1 ++ l2).
Proof.
  intros H1 H2. remember (length ws1) as n eqn:Hn. revert ws1 l1 Hn H1.
  induction (lt_wf n) as [n _ IH]. intros ws1 l1 -> H1. destruct ws1 as [|w ws1]; cbn in *; [by simplify_eq|].
  destruct (field w 11 31 <? 29).
  - destruct (decode16 w) as [i|]; cbn in *; [|done]. destruct (decode ws1) as [l|] eqn:E; cbn in *; [|done].
    simplify_eq. by rewrite (IH (length ws1) ltac:(lia) ws1 l eq_refl E).
  - destruct ws1 as [|w2 ws1]; [done|]. cbn in *. destruct (decode32 w w2) as [i|]; cbn in *; [|done].
    destruct (decode ws1) as [l|] eqn:E; cbn in *; [|done].
    simplify_eq. by rewrite (IH (length ws1) ltac:(lia) ws1 l eq_refl E).
Qed.

Lemma exec_app (l1 l2 : list thumb) (a : arm) : exec (l1 ++ l2) a = a' ← exec l1 a; exec l2 a'.
Proof. revert a. induction l1 as [|i l1 IH]; intros a; [done|]. cbn. destruct (exec1 i a); cbn; [apply IH|done]. Qed.

(** ** Registers an instruction writes *)

Definition dests (i : thumb) : list Z :=
  match i with
  | IMovs rd _ | IMovw rd _ | IMovt rd _ | IMov rd _ | IMovShift _ rd _ _ _ | IDp _ _ rd _ _ _ _
  | IDpImm _ _ rd _ _ | IShift _ rd _ _ _ | IAddReg rd _ | IMul _ rd _ _ | IMls rd _ _ _ | IUdiv rd _ _
  | ILdr rd _ _ => [rd]
  | IUmull rdlo rdhi _ _ => [rdlo; rdhi]
  | ILdrd rt rt2 _ _ => [rt; rt2]
  | ICmp _ _ | IStrd _ _ _ _ | IStr _ _ _ => []
  end.

(** It does not write to the memory, and its immediates have their widths. *)
Definition quiet (i : thumb) : bool :=
  match i with
  | IMovs _ imm | IMovw _ imm | IMovt _ imm | IDpImm _ _ _ _ imm => (0 <=? imm) && (imm <? 2 ^ 16)
  | IMovShift _ _ _ _ n | IDp _ _ _ _ _ _ n => 0 <=? n
  | IStrd _ _ _ _ | IStr _ _ _ => false
  | _ => true
  end.

Lemma shiftr_range (x n : Z) : 0 <= x < 2 ^ 32 -> 0 <= n -> 0 <= x >> n < 2 ^ 32.
Proof.
  intros Hx Hn. rewrite Z.shiftr_div_pow2 by lia. assert (0 < 2 ^ n) by (apply Z.pow_pos_nonneg; lia).
  split; [apply Z.div_pos; lia|]. apply Z.div_lt_upper_bound; nia.
Qed.

Lemma shift_c_range (x ty n : Z) (c : bool) : 0 <= x < 2 ^ 32 -> 0 <= n -> 0 <= fst (shift_c x ty n c) < 2 ^ 32.
Proof.
  intros Hx Hn. unfold shift_c. repeat case_match; cbn [fst]; try apply u32_range; try done. by apply shiftr_range.
Qed.

Lemma shift_imm_range (x ty n : Z) (c : bool) : 0 <= x < 2 ^ 32 -> 0 <= n -> 0 <= fst (shift_imm x ty n c) < 2 ^ 32.
Proof.
  intros Hx Hn. unfold shift_imm. destruct (n =? 0); [|by apply shift_c_range].
  destruct (ty =? SRTYPE_LSL); [done|]. destruct (ty =? SRTYPE_ROR); [|by apply shift_c_range]. cbn [fst].
  apply lor_range; [lia|by apply shiftr_range|]. by destruct c.
Qed.

Lemma not32_range (x : Z) : 0 <= x < 2 ^ 32 -> 0 <= not32 x < 2 ^ 32.
Proof. unfold not32. lia. Qed.

(** The state after a register is written, whatever the flags. *)
Definition wrote (d : list Z) (a a' : arm) : Prop :=
  (forall r, ~ In r d -> a_reg a' r = a_reg a r) /\ a_mem a' = a_mem a /\ forall k, 0 <= a_reg a' k < 2 ^ 32.

Lemma wrote_reg (rd v : Z) (a : arm) (n z c w : bool) :
  (forall k, 0 <= a_reg a k < 2 ^ 32) -> 0 <= v < 2 ^ 32 -> wrote [rd] a (mk_arm (upd (a_reg a) rd v) n z c w (a_mem a)).
Proof.
  intros R Hv. split; [|split; [done|]]; cbn; unfold upd.
  - intros r Hr. destruct (Z.eqb_spec r rd); [|done]. exfalso. auto.
  - intros k. destruct (k =? rd); [done|apply R].
Qed.

Ltac wrote_reg :=
  unfold write_logical, write_arith, nz, arm_flags, arm_set, arm_store;
  cbn [a_reg a_N a_Z a_C a_V a_mem fst snd]; apply wrote_reg; [assumption|].

Lemma exec_dp_wrote (op : dp_op) (s : bool) (rd x y : Z) (c : bool) (a : arm) :
  (forall k, 0 <= a_reg a k < 2 ^ 32) -> 0 <= x < 2 ^ 32 -> 0 <= y < 2 ^ 32 -> wrote [rd] a (exec_dp op s rd x y c a).
Proof.
  intros R Hx Hy. unfold exec_dp, add_with_carry. destruct op, s; wrote_reg;
    solve [apply u32_range | apply land_range; lia | apply lor_range; lia | apply lxor_range; lia].
Qed.

Lemma exec1_wrote (i : thumb) (a a' : arm) :
  (forall k, 0 <= a_reg a k < 2 ^ 32) -> mem_wf (a_mem a) -> quiet i = true -> exec1 i a = Some a' ->
  wrote (dests i) a a'.
Proof.
  intros R M Q. assert (M8 : forall k, 0 <= a_reg a k .& 255).
  { intros k. apply Z.land_nonneg. right. lia. }
  destruct i; cbn [quiet exec1 dests] in *; try discriminate Q; zify_bools.
  - intros [= <-]. wrote_reg. lia.
  - intros [= <-]. wrote_reg. lia.
  - intros [= <-]. wrote_reg. apply lor_range; [lia| |].
    + apply (land_range 32); [lia|apply R|lia].
    + rewrite Z.shiftl_mul_pow2 by lia. lia.
  - intros [= <-]. wrote_reg. apply R.
  - intros [= <-]. pose proof (shift_imm_range (a_reg a rm) ty amount (a_C a) (R rm) Q).
    destruct s; by wrote_reg.
  - pose proof (shift_imm_range (a_reg a rm) ty amount (a_C a) (R rm) Q) as H.
    intros [= <-]. by apply exec_dp_wrote.
  - intros [= <-]. apply exec_dp_wrote; [done|apply R|lia].
  - intros [= <-]. pose proof (shift_c_range (a_reg a rn) ty _ (a_C a) (R rn) (M8 rm)).
    destruct s; by wrote_reg.
  - intros [= <-]. wrote_reg. apply u32_range.
  - intros [= <-]. split; [done|]. split; [done|exact R].
  - destruct s; intros [= <-]; wrote_reg; apply u32_range.
  - intros [= <-]. wrote_reg. apply u32_range.
  - intros [= <-]. pose proof (R rn). pose proof (R rm).
    assert (0 <= (a_reg a rn * a_reg a rm) >> 32 < 2 ^ 32).
    { rewrite Z.shiftr_div_pow2 by lia. split; [apply Z.div_pos; nia|apply Z.div_lt_upper_bound; nia]. }
    split; [|split; [done|]]; cbn; unfold upd.
    + intros r Hr. destruct (Z.eqb_spec r rdhi), (Z.eqb_spec r rdlo); subst; try done; exfalso; auto.
    + intros k. destruct (k =? rdhi); [done|]. destruct (k =? rdlo); [apply u32_range|apply R].
  - intros [= <-]. wrote_reg. pose proof (R rn). pose proof (R rm).
    destruct (Z.eq_dec (a_reg a rm) 0) as [->|]; [rewrite Z.div_0_r; lia|].
    split; [apply Z.div_pos; lia|]. apply Z.div_lt_upper_bound; nia.
  - cbv zeta. destruct (negb _); [done|]. destruct (load_le 4 (u32 _) _) as [x|] eqn:E1; [|by intros [=]]. cbn [mbind option_bind].
    destruct (load_le 4 (_ + 4) _) as [y|] eqn:E2; [|by intros [=]]. cbn [mbind option_bind]. intros [= <-].
    pose proof (load_le_range 4 _ _ _ M E1). pose proof (load_le_range 4 _ _ _ M E2).
    split; [|split; [done|]]; cbn; unfold upd.
    + intros r Hr. destruct (Z.eqb_spec r rt2), (Z.eqb_spec r rt); subst; try done; exfalso; auto.
    + intros k. destruct (k =? rt2); [done|]. destruct (k =? rt); [done|apply R].
  - destruct (load_le 4 _ _) as [x|] eqn:E1; [|by intros [=]]. cbn [mbind option_bind]. intros [= <-].
    wrote_reg. by apply (load_le_range 4 _ _ _ M E1).
Qed.

(** A block of quiet instructions changes the registers it writes, and the
    flags. *)
Lemma exec_wrote (l : list thumb) (a a' : arm) :
  arm_wf a -> forallb quiet l = true -> exec l a = Some a' ->
  (forall r, ~ In r (concat (map dests l)) -> a_reg a' r = a_reg a r) /\ a_mem a' = a_mem a /\ arm_wf a'.
Proof.
  revert a. induction l as [|i l IH]; intros a [R M]; cbn [forallb exec map concat].
  { intros _ [= <-]. split; [done|]. split; [done|]. by split. }
  intros [Q1 Q2]%andb_true_iff. destruct (exec1 i a) as [a1|] eqn:E; [|by intros [=]]. cbn [mbind option_bind].
  destruct (exec1_wrote i a a1 R M Q1 E) as (D & MM & R1). intros H.
  destruct (IH a1) as (D2 & M2 & W2); [split; [done|by rewrite MM]|done|done|].
  split; [|split; [congruence|done]]. intros r Hr. rewrite in_app_iff in Hr. rewrite D2, D; tauto.
Qed.
