(* ===== verification/ThumbRun.v ===== *)
(** * The processor running compiled code

    The instructions of [ThumbSem] with the branches and those that work on
    the stack pointer, fetched from the code buffer at the program counter.
    The buffer is not part of the memory the instructions read and write: an
    access to it is a fault. *)

From stdpp Require Import relations.
From S2P Require Import Prelude Mem Thumb2 Jit JitEmit JitProps JitLayout ThumbSem.

Inductive insn : Set :=
  | Op (i : thumb)
  | Branch (c : option Z) (d : Z)
  | MovSp (rd : Z)           (* MOV.W rd, SP *)
  | SetSp (rm : Z)           (* MOV.W SP, rm *)
  | SubSp (rd imm : Z)       (* SUBW rd, SP, #imm *)
  | Push (regs : list Z)     (* PUSH.W *)
  | Pop (regs : list Z).     (* POP.W *)

(** ** Decoding *)

Definition regs_of (mask : Z) : list Z := List.filter (Z.testbit mask) (zrange 0 16).

Definition decode_sp (h1 h2 : Z) : option insn :=
  let rd := field h2 8 15 in
  let rm := field h2 0 15 in
  let bit n := field h2 n 1 =? 1 in
  if h1 =? 0xe92d then
    if bit 13 || bit 15 || (length (regs_of h2) <? 2)%nat then None else Some (Push (regs_of h2))
  else if h1 =? 0xe8bd then
    if bit 13 || (bit 15 && bit 14) || (length (regs_of h2) <? 2)%nat then None else Some (Pop (regs_of h2))
  else if h1 =? 0xea4f then
    if (field h2 12 15 =? 0) && (field h2 4 15 =? 0) then
      if (rm =? ARM_SP) && greg rd then Some (MovSp rd)
      else if (rd =? ARM_SP) && greg rm then Some (SetSp rm)
      else None
    else None
  else if (h1 .& 0xfbff =? 0xf2ad) && (field h2 15 1 =? 0) then
    if (rd =? ARM_SP) || greg rd then
      Some (SubSp rd ((field h1 10 1 << 11) .| (field h2 12 7 << 8) .| field h2 0 0xff))
    else None
  else None.

Definition insn16 (w : Z) : option insn :=
  match decode16 w with
  | Some i => Some (Op i)
  | None => '(c, d) ← decode_branch [w]; Some (Branch c d)
  end.

Definition insn32 (h1 h2 : Z) : option insn :=
  match decode32 h1 h2 with
  | Some i => Some (Op i)
  | None =>
      match decode_branch [h1; h2] with
      | Some (c, d) => Some (Branch c d)
      | None => decode_sp h1 h2
      end
  end.

(** ** Execution *)

(** The low two bits of a value written to SP are ignored. *)
Definition sp_align (v : Z) : Z := v - v mod 4.

(** The instructions that go on to the next one. *)
Definition exec_op (i : insn) (a : arm) : option arm :=
  let sp := a_reg a ARM_SP in
  match i with
  | Op i => exec1 i a
  | MovSp rd => Some (arm_set rd sp a)
  | SetSp rm => Some (arm_set ARM_SP (sp_align (a_reg a rm)) a)
  | SubSp rd imm =>
      let v := u32 (sp - imm) in Some (arm_set rd (if rd =? ARM_SP then sp_align v else v) a)
  | Push regs =>
      let sp' := u32 (sp - 4 * Z.of_nat (length regs)) in
      m ← store_words sp' (map (a_reg a) regs) (a_mem a); Some (arm_set ARM_SP sp' (arm_store m a))
  | Branch _ _ | Pop _ => None
  end.

(** A register is restored; the one of PC is the address to go on at. *)
Definition pop_one (p : Z * arm) (rv : Z * Z) : Z * arm :=
  if fst rv =? ARM_PC then (snd rv, snd p) else (fst p, arm_set (fst rv) (snd rv) (snd p)).

(** An instruction of [n] bytes at [pc]; an address loaded to PC has bit 0
    set. *)
Definition exec_insn (i : insn) (pc n : Z) (a : arm) : option (Z * arm) :=
  match i with
  | Branch c d =>
      Some (if (match c with Some c => cond_holds c a | None => true end) then pc + 4 + d else pc + n, a)
  | Pop regs =>
      let sp := a_reg a ARM_SP in
      vs ← load_words (length regs) sp (a_mem a);
      let '(t, a') := foldl pop_one (pc + n + 1, a) (zip regs vs) in
      if Z.odd t then Some (t - 1, arm_set ARM_SP (u32 (sp + 4 * Z.of_nat (length regs))) a') else None
  | _ => a' ← exec_op i a; Some (pc + n, a')
  end.

(** A branch is not one of the other instructions. *)
Lemma branch16 (w : Z) (c : option Z) (d : Z) :
  decode_branch [w] = Some (c, d) -> (field w 11 31 <? 29) = true /\ decode16 w = None.
Proof.
  set (v := field w 10 63). assert (Hv : 0 <= v < 64) by (unfold v, field; change 63 with (Z.ones 6); rewrite Z.land_ones by lia; by apply Z.mod_pos_bound).
  assert (E1 : field w 11 31 = field v 1 31) by (unfold v; by rewrite field_field by lia).
  assert (E2 : field w 12 15 = field v 2 15) by (unfold v; by rewrite field_field by lia).
  assert (E3 : field w 13 7 = field v 3 7) by (unfold v; by rewrite field_field by lia).
  assert (H : forallb (fun v => negb ((field v 2 15 =? 13) || (field v 1 31 =? 28)) ||
    (negb (field v 3 7 =? 0) && negb (field v 1 31 =? 4) && negb (v =? 16) && negb (v =? 17) && (field v 1 31 <? 29)))
    (zrange 0 64) = true) by (vm_compute; reflexivity).
  pose proof (zrange_forallb _ _ _ H v Hv) as Hb. cbv beta in Hb. intros Hd.
  assert (Hc : (field v 2 15 =? 13) || (field v 1 31 =? 28) = true).
  { rewrite <- E1, <- E2. unfold decode_branch in Hd. by destruct (field w 12 15 =? 13), (field w 11 31 =? 28). }
  rewrite Hc in Hb. cbn [negb orb] in Hb.
  apply andb_true_iff in Hb as [[[[G1%negb_true_iff G2%negb_true_iff]%andb_true_iff G3%negb_true_iff]%andb_true_iff
    G4%negb_true_iff]%andb_true_iff G5].
  rewrite E1. split; [done|]. unfold decode16. fold v. by rewrite E1, E3, G1, G2, G3, G4.
Qed.

Lemma branch32 (h1 h2 : Z) (c : option Z) (d : Z) :
  decode_branch [h1; h2] = Some (c, d) -> (field h1 11 31 <? 29) = false /\ decode32 h1 h2 = None.
Proof.
  set (v := field h1 4 0xfff). assert (Hv : 0 <= v < 4096) by (unfold v, field; change 0xfff with (Z.ones 12); rewrite Z.land_ones by lia; by apply Z.mod_pos_bound).
  assert (E1 : field h1 11 31 = field v 7 31) by (unfold v; by rewrite field_field by lia).
  assert (E2 : field h1 9 0x7f = field v 5 0x7f) by (unfold v; by rewrite field_field by lia).
  assert (E3 : field h1 7 0x1ff = field v 3 0x1ff) by (unfold v; by rewrite field_field by lia).
  assert (E4 : field h2 15 1 = field (field h2 14 3) 1 1) by (by rewrite field_field by lia).
  assert (H : forallb (fun v => negb (field v 7 31 =? 30) ||
    (negb (field v 5 0x7f =? 0x75) && negb (field v 5 0x7f =? 0x74) && negb (field v 3 0x1ff =? 0x1f4) &&
     forallb (fun x => negb (v =? x)) [0xfb0; 0xfba; 0xfbb; 0xf84; 0xf85; 0xf8d]))
    (zrange 0 4096) = true) by (vm_compute; reflexivity).
  pose proof (zrange_forallb _ _ _ H v Hv) as Hb. cbv beta in Hb. unfold decode_branch. rewrite E1.
  destruct (Z.eqb_spec (field v 7 31) 30) as [E5|]; [|discriminate]. destruct (Z.eqb_spec (field h2 14 3) 2) as [E6|]; [|discriminate].
  intros _. rewrite E5, E6 in *. change (field 2 1 1) with 1 in E4. cbn [negb orb forallb] in Hb. split; [done|].
  apply andb_true_iff in Hb as [[[G1%negb_true_iff G2%negb_true_iff]%andb_true_iff G3%negb_true_iff]%andb_true_iff Hb].
  repeat (apply andb_true_iff in Hb as [?%negb_true_iff Hb]).
  unfold decode32. fold v. rewrite E1, E2, E3, E4, G1, G2, G3.
  repeat match goal with X : (v =? _) = false |- _ => rewrite X; clear X end. done.
Qed.

Section Machine.
Context (base : Z) (code : list Z).

(** The halfword at an address. *)
Definition half_at (p : Z) : option Z :=
  b ← zget code (p - base); b' ← zget code (p - base + 1); Some (b .| (b' << 8)).

Definition fetch (pc : Z) : option (insn * Z) :=
  w ← half_at pc;
  if field w 11 31 <? 29 then i ← insn16 w; Some (i, 2)
  else w' ← half_at (pc + 2); i ← insn32 w w'; Some (i, 4).

Definition arm_step (c : Z * arm) : option (Z * arm) :=
  '(i, n) ← fetch (fst c); exec_insn i (fst c) n (snd c).

Definition astep (c c' : Z * arm) : Prop := arm_step c = Some c'.

Fixpoint arm_steps (n : nat) (c : Z * arm) : option (Z * arm) :=
  match n with
  | O => Some c
  | S n' => c' ← arm_step c; arm_steps n' c'
  end.

Lemma rtc_arm_steps (c c' : Z * arm) : rtc astep c c' -> exists n, arm_steps n c = Some c'.
Proof.
  induction 1 as [c|c1 c2 c3 H _ [n IH]]; [by exists 0%nat|]. exists (S n). cbn. rewrite H. exact IH.
Qed.

(** ** Code at an address *)

Definition at_words (x : Z) (ws : list Z) : Prop :=
  forall k w, ws !! k = Some w -> half_at (x + 2 * Z.of_nat k) = Some w.

Lemma at_words_app (x : Z) (ws1 ws2 : list Z) :
  at_words x (ws1 ++ ws2) <-> at_words x ws1 /\ at_words (x + 2 * Z.of_nat (length ws1)) ws2.
Proof.
  split.
  - intros H. split; intros k w Hk.
    + apply H. by apply lookup_app_l_Some.
    + replace (x + 2 * Z.of_nat (length ws1) + 2 * Z.of_nat k) with (x + 2 * Z.of_nat (length ws1 + k)) by lia.
      apply H. rewrite list.lookup_app_r by lia. rewrite <- Hk. f_equal. lia.
  - intros [H1 H2] k w [Hk | [Hle Hk]]%lookup_app_Some; [by apply H1|].
    apply H2 in Hk. rewrite <- Hk. f_equal. lia.
Qed.

Lemma at_words_cons (x w : Z) (ws : list Z) : at_words x (w :: ws) -> half_at x = Some w /\ at_words (x + 2) ws.
Proof.
  intros H. apply (at_words_app x [w] ws) in H as [H1 H2]. split; [|exact H2].
  rewrite <- (H1 0%nat w eq_refl). f_equal. lia.
Qed.

(** ** Straight code *)

Fixpoint insns (ws : list Z) : option (list insn) :=
  match ws with
  | [] => Some []
  | w :: ws' =>
      if field w 11 31 <? 29 then i ← insn16 w; l ← insns ws'; Some (i :: l)
      else
        match ws' with
        | [] => None
        | w2 :: ws'' => i ← insn32 w w2; l ← insns ws''; Some (i :: l)
        end
  end.

Fixpoint exec_ops (l : list insn) (a : arm) : option arm :=
  match l with
  | [] => Some a
  | i :: l' => a' ← exec_op i a; exec_ops l' a'
  end.

Lemma exec_ops_exec (l : list thumb) (a : arm) : exec_ops (map Op l) a = exec l a.
Proof. revert a. induction l as [|i l IH]; intros a; [done|]. cbn. destruct (exec1 i a); [apply IH|done]. Qed.

Lemma exec_ops_app (l1 l2 : list insn) (a b : arm) :
  exec_ops l1 a = Some b -> exec_ops (l1 ++ l2) a = exec_ops l2 b.
Proof.
  revert a. induction l1 as [|i l IH]; intros a; cbn; [by intros [= ->]|]. destruct (exec_op i a); [apply IH|done].
Qed.

Lemma decode_insns (ws : list Z) (l : list thumb) : decode ws = Some l -> insns ws = Some (map Op l).
Proof.
  remember (length ws) as n eqn:Hn. revert ws l Hn. induction (lt_wf n) as [n _ IH]. intros ws l -> H.
  destruct ws as [|w ws]; cbn in *; [by simplify_eq|]. unfold insn16, insn32. destruct (field w 11 31 <? 29).
  - destruct (decode16 w) as [i|]; cbn in *; [|done]. destruct (decode ws) as [l'|] eqn:E; cbn in *; [|done].
    simplify_eq. by rewrite (IH (length ws) ltac:(lia) ws l' eq_refl E).
  - destruct ws as [|w2 ws]; [done|]. cbn in *. destruct (decode32 w w2) as [i|]; cbn in *; [|done].
    destruct (decode ws) as [l'|] eqn:E; cbn in *; [|done].
    simplify_eq. by rewrite (IH (length ws) ltac:(lia) ws l' eq_refl E).
Qed.

Lemma exec_op_insn (i : insn) (pc n : Z) (a a' : arm) : exec_op i a = Some a' -> exec_insn i pc n a = Some (pc + n, a').
Proof. destruct i; try discriminate; cbn [exec_insn]; intros ->; done. Qed.

Lemma run_ops (x : Z) (ws : list Z) (l : list insn) (a a' : arm) :
  at_words x ws -> insns ws = Some l -> exec_ops l a = Some a' ->
  rtc astep (x, a) (x + 2 * Z.of_nat (length ws), a').
Proof.
  remember (length ws) as n eqn:Hn. revert x ws l a Hn. induction (lt_wf n) as [n _ IH]. intros x ws l a -> Hw Hl He.
  destruct ws as [|w ws]; cbn in Hl.
  { injection Hl as <-. injection He as <-. change (2 * Z.of_nat (length [])) with 0. rewrite Z.add_0_r. constructor. }
  apply at_words_cons in Hw as [H1 Hw]. destruct (field w 11 31 <? 29) eqn:Hf.
  - destruct (insn16 w) as [i|] eqn:Hi; [|done]. cbn in Hl. destruct (insns ws) as [l'|] eqn:E; [|done].
    injection Hl as <-. cbn in He. destruct (exec_op i a) as [a1|] eqn:E1; [|done]. cbn in He.
    eapply rtc_l; [|replace (x + 2 * Z.of_nat (length (w :: ws))) with (x + 2 + 2 * Z.of_nat (length ws)) by (cbn [length]; lia);
      by apply (IH (length ws) ltac:(cbn [length]; lia) (x + 2) ws l' a1)].
    unfold astep, arm_step, fetch. cbn [fst snd]. rewrite H1. cbn [mbind option_bind]. rewrite Hf, Hi. cbn [mbind option_bind].
    by apply exec_op_insn.
  - destruct ws as [|w2 ws]; [done|]. apply at_words_cons in Hw as [H2 Hw].
    destruct (insn32 w w2) as [i|] eqn:Hi; [|done]. cbn in Hl. destruct (insns ws) as [l'|] eqn:E; [|done].
    injection Hl as <-. cbn in He. destruct (exec_op i a) as [a1|] eqn:E1; [|done]. cbn in He.
    replace (x + 2 + 2) with (x + 4) in Hw by lia.
    eapply rtc_l; [|replace (x + 2 * Z.of_nat (length (w :: w2 :: ws))) with (x + 4 + 2 * Z.of_nat (length ws)) by (cbn [length]; lia);
      by apply (IH (length ws) ltac:(cbn [length]; lia) (x + 4) ws l' a1)].
    unfold astep, arm_step, fetch. cbn [fst snd]. rewrite H1. cbn [mbind option_bind]. rewrite Hf, H2. cbn [mbind option_bind].
    rewrite Hi. cbn [mbind option_bind]. by apply exec_op_insn.
Qed.

Lemma run_code (x : Z) (ws : list Z) (l : list thumb) (a a' : arm) :
  at_words x ws -> decode ws = Some l -> exec l a = Some a' ->
  rtc astep (x, a) (x + 2 * Z.of_nat (length ws), a').
Proof. intros Hw Hd He. eapply run_ops; [done|by apply decode_insns|]. by rewrite exec_ops_exec. Qed.

(** ** Branches *)

Lemma run_branch (x d : Z) (tw : list Z) (c : option Z) (a : arm) :
  at_words x tw -> decode_branch tw = Some (c, d) ->
  astep (x, a) (if (match c with Some c => cond_holds c a | None => true end) then x + 4 + d
                else x + 2 * Z.of_nat (length tw), a).
Proof.
  intros Hw Hd. unfold astep, arm_step, fetch. cbn [fst snd].
  destruct tw as [|w [|w2 [|]]]; try discriminate Hd; apply at_words_cons in Hw as [H1 Hw]; rewrite H1; cbn [mbind option_bind].
  - destruct (branch16 w c d Hd) as [F D]. unfold insn16. by rewrite F, D, Hd.
  - apply at_words_cons in Hw as [H2 _]. destruct (branch32 w w2 c d Hd) as [F D]. unfold insn32. by rewrite F, H2; cbn [mbind option_bind]; rewrite D, Hd.
Qed.
End Machine.

(** ** The buffer *)

Lemma zget_half_bytes (ws : list Z) (k : nat) (w : Z) :
  ws !! k = Some w ->
  zget (half_bytes ws) (2 * Z.of_nat k) = Some (byte_of 0 w) /\ zget (half_bytes ws) (2 * Z.of_nat k + 1) = Some (byte_of 1 w).
Proof.
  revert k. induction ws as [|v ws IH]; intros k H; [done|]. change (half_bytes (v :: ws)) with (byte_of 0 v :: byte_of 1 v :: half_bytes ws).
  destruct k as [|k]; [by injection H as ->|]. destruct (IH k H) as [H1 H2]. rewrite <- H1, <- H2.
  unfold zget. repeat match goal with |- context [?a <? 0] => destruct (Z.ltb_spec a 0); [lia|] end.
  replace (Z.to_nat (2 * Z.of_nat (S k))) with (S (S (Z.to_nat (2 * Z.of_nat k)))) by lia.
  replace (Z.to_nat (2 * Z.of_nat (S k) + 1)) with (S (S (Z.to_nat (2 * Z.of_nat k + 1)))) by lia. done.
Qed.

(** The halfwords put at the start of the buffer are there. *)
Lemma at_words_put (base : Z) (ws code0 code : list Z) :
  halves_wf ws -> put_bytes 0 (half_bytes ws) code0 = Some code -> at_words base code base ws.
Proof.
  intros Hw Hp k w Hk. apply (put_bytes_at []) in Hp. cbn [app] in Hp.
  destruct (zget_half_bytes ws k w Hk) as [H1 H2]. unfold half_at.
  replace (base + 2 * Z.of_nat k - base) with (2 * Z.of_nat k) by lia.
  pose proof (lookup_lt_Some _ _ _ Hk) as Hl.
  assert (Hin : forall j b, zget (half_bytes ws) j = Some b -> zget code j = Some b).
  { intros j b. unfold zget. destruct (j <? 0); [done|]. intros Hj. rewrite Hp. by apply lookup_app_l_Some. }
  rewrite (Hin _ _ H1), (Hin _ _ H2). cbn [mbind option_bind]. f_equal. apply two_bytes.
  by eapply (Forall_lookup_1 _ _ _ _ Hw).
Qed.

(** ** The memory stays one of bytes *)

Lemma exec1_mem_wf (i : thumb) (a a' : arm) : exec1 i a = Some a' -> mem_wf (a_mem a) -> mem_wf (a_mem a').
Proof.
  assert (H : forall n p v m m', store_le n p v m = Some m' -> mem_wf m -> mem_wf m') by (intros; by eapply store_le_wf).
  destruct i; cbn [exec1]; cbv zeta; try (intros [= <-]; (done || by destruct s)).
  - destruct op; intros [= <-]; cbn [exec_dp]; unfold write_arith, write_logical; try destruct (add_with_carry _ _ _) as [[? ?] ?]; by destruct s.
  - destruct op; intros [= <-]; cbn [exec_dp]; unfold write_arith, write_logical; try destruct (add_with_carry _ _ _) as [[? ?] ?]; by destruct s.
  - destruct (negb _); [done|]. destruct (load_le 4 (u32 _) _); [|done]. cbn [mbind option_bind].
    destruct (load_le _ _ _); [|done]. cbn [mbind option_bind]. by intros [= <-].
  - destruct (negb _); [done|]. destruct (store_le _ _ _ (a_mem a)) as [m|] eqn:E; [|done]. cbn [mbind option_bind].
    destruct (store_le _ _ _ m) as [m'|] eqn:E'; [|done]. cbn [mbind option_bind]. intros [= <-] W. by eauto.
  - destruct (load_le _ _ _); [|done]. cbn [mbind option_bind]. by intros [= <-].
  - destruct (store_le _ _ _ _) as [m|] eqn:E; [|done]. cbn [mbind option_bind]. intros [= <-] W. by eauto.
Qed.

Lemma store_words_mem_wf (vs : list Z) (p : Z) (m m' : memory) : store_words p vs m = Some m' -> mem_wf m -> mem_wf m'.
Proof.
  revert p m. induction vs as [|v vs IH]; intros p m; cbn [store_words]; [by intros [= <-]|].
  destruct (store_le 4 p v m) as [m1|] eqn:E; [|done]. cbn [mbind option_bind]. intros H W. apply (IH _ _ H). by eapply store_le_wf.
Qed.

Lemma exec_insn_mem_wf (i : insn) (pc n : Z) (a : arm) (c : Z * arm) :
  exec_insn i pc n a = Some c -> mem_wf (a_mem a) -> mem_wf (a_mem (snd c)).
Proof.
  assert (Hop : forall a', exec_op i a = Some a' -> mem_wf (a_mem a) -> mem_wf (a_mem a')).
  { intros a'. destruct i; cbn [exec_op]; try (intros [= <-]; done); [by apply exec1_mem_wf|].
    destruct (store_words _ _ _) as [m|] eqn:E; [|done]. cbn [mbind option_bind]. intros [= <-]. by apply (store_words_mem_wf _ _ _ _ E). }
  destruct i; cbn [exec_insn]; try (destruct (exec_op _ a) as [a'|] eqn:E; [|done]; cbn [mbind option_bind]; intros [= <-]; by apply Hop).
  - by intros [= <-].
  - destruct (load_words _ _ _) as [vs|]; [|done]. cbn [mbind option_bind].
    assert (Hp : forall l p, a_mem (snd (foldl pop_one p l)) = a_mem (snd p)).
    { induction l as [|rv l IH]; intros p; [done|]. cbn [foldl]. rewrite IH. unfold pop_one. by destruct (_ =? _). }
    specialize (Hp (zip regs vs) (pc + n + 1, a)). destruct (foldl _ _ _) as [t a']. destruct (Z.odd t); [|done].
    intros [= <-]. cbn [snd a_mem arm_set] in *. by rewrite Hp.
Qed.

Lemma arm_steps_mem_wf (base : Z) (code : list Z) (n : nat) (c c' : Z * arm) :
  arm_steps base code n c = Some c' -> mem_wf (a_mem (snd c)) -> mem_wf (a_mem (snd c')).
Proof.
  revert c. induction n as [|n IH]; intros c; cbn [arm_steps]; [by intros [= <-]|].
  destruct (arm_step base code c) as [c1|] eqn:E; [|done]. cbn [mbind option_bind]. intros H W. apply (IH _ H). revert E.
  unfold arm_step. destruct (fetch _ _ _) as [[i k]|]; [|done]. cbn [mbind option_bind]. intros E. by apply (exec_insn_mem_wf _ _ _ _ _ E).
Qed.
