(* ===== verification/JitSem.v ===== *)
(** * The compiled arithmetic against the instruction set

    What the code that [build_inst] emits does when the processor of
    [ThumbSem] runs it, on states in which the eBPF registers are where
    [bpf2a32] puts them: in pairs of registers, or in the scratch words below
    the frame pointer. *)

From S2P Require Import Prelude Mem EbpfInst EbpfVm EbpfVmProps EbpfVmSem Thumb2 Jit JitEmit JitProps ThumbSem.

(** ** The instructions an emitter emits *)

(** The emitter appends halfwords that decode to [l]. *)
Definition Compiles {A} (l : list thumb) (a : A) (m : J A) : Prop :=
  exists ws, halves_wf ws /\ Emits ws a m /\ decode ws = Some l.

Lemma compiles_ret {A} (a : A) : Compiles [] a (mret a).
Proof. exists []. split_and!; [constructor|apply emits_ret|done]. Qed.

Lemma compiles_bind {A B} (l1 l2 : list thumb) (a : A) (b : B) (m : J A) (k : A -> J B) :
  Compiles l1 a m -> Compiles l2 b (k a) -> Compiles (l1 ++ l2) b (m ≫= k).
Proof.
  intros (ws1 & W1 & E1 & D1) (ws2 & W2 & E2 & D2). exists (ws1 ++ ws2).
  split_and!; [by apply Forall_app|by eapply emits_bind|by apply decode_app].
Qed.

Lemma compiles_then {A B} (l : list thumb) (a : A) (b : B) (m : J A) :
  Compiles l a m -> Compiles l b (_ ← m; mret b).
Proof. intros H. rewrite <- (app_nil_r l). by eapply compiles_bind; [|apply compiles_ret]. Qed.

(** [m] returns [a] and appends instructions that decode to [l]. *)
Definition code_is {A} `{EqDecision A} (m : J A) (a : A) (l : list thumb) : bool :=
  match m blank with
  | Some (a', _) => bool_decide (a' = a) && bool_decide (decode (code_of m) = Some l)
  | None => false
  end.

Lemma compiles_code {A} `{EqDecision A} (l : list thumb) (a : A) (m : J A) :
  Plain m -> code_is m a l = true -> Compiles l a m.
Proof.
  intros Hp Hc. unfold code_is in Hc. destruct (m blank) as [[a' st]|] eqn:E; [|done].
  apply andb_true_iff in Hc as [->%bool_decide_eq_true D%bool_decide_eq_true].
  destruct (plain_emits _ _ _ Hp E) as [W H]. by exists (code_of m).
Qed.

(** ** Constants *)

Definition mov_imm_code (rd val : Z) : list thumb :=
  let val := u32 val in
  if (val <=? 0xff) && (rd <? 8) then [IMovs rd val]
  else IMovw rd (val .& 0xffff) :: (if 0xffff <? val then [IMovt rd (val >> 16)] else []).

Lemma decode_movs (rd val : Z) :
  0 <= rd < 8 -> 0 <= val <= 255 -> decode [u16 (0x2000 .| (rd << 8) .| val)] = Some [IMovs rd val].
Proof.
  intros Hrd Hval.
  assert (H : forallb (fun d => forallb (fun v =>
      bool_decide (decode [u16 (0x2000 .| (d << 8) .| v)] = Some [IMovs d v])) (zrange 0 256)) (zrange 0 8) = true)
    by (vm_compute; reflexivity).
  pose proof (zrange_forallb _ _ _ H rd ltac:(lia)) as H2. cbv beta in H2.
  pose proof (zrange_forallb _ _ _ H2 val ltac:(lia)) as H3. by apply bool_decide_eq_true_1 in H3.
Qed.

Lemma decode_movw (base v rd : Z) :
  base = 0xf2400000 \/ base = 0xf2c00000 -> 0 <= v < 2 ^ 16 -> greg rd = true ->
  decode (halfwords (movw_word base v rd)) =
  Some [if base =? 0xf2400000 then IMovw rd v else IMovt rd v].
Proof.
  intros Hb Hv Hg. assert (0 <= rd < 16) by (unfold greg in Hg; zify_bools; lia).
  destruct (movw_fields base v rd Hv ltac:(done) Hb) as (F1 & F2 & F3 & F4).
  pose proof (movw_top base v rd Hv ltac:(done) Hb) as F5.
  set (h1 := u16 (field (movw_word base v rd) 16 0xffff)) in *.
  set (h2 := u16 (movw_word base v rd .& 0xffff)) in *.
  assert (G1 : field h1 9 0x7f <> 0x75).
  { intros E. pose proof (field_field h1 9 2 0x7f 31 ltac:(lia) ltac:(lia)) as X. rewrite E in X.
    change (field h1 11 31 = 30) in F1. change (9 + 2) with 11 in X. change (0x7f >> 2 .& 31) with 31 in X.
    rewrite F1 in X. discriminate X. }
  assert (G2 : field h1 9 0x7f <> 0x74).
  { intros E. pose proof (field_field h1 9 2 0x7f 31 ltac:(lia) ltac:(lia)) as X. rewrite E in X.
    change (9 + 2) with 11 in X. change (0x7f >> 2 .& 31) with 31 in X. rewrite F1 in X. discriminate X. }
  assert (G3 : field h1 9 1 = 1).
  { pose proof (field_field h1 4 5 0x3f 1 ltac:(lia) ltac:(lia)) as X. rewrite F2 in X.
    change (4 + 5) with 9 in X. change (0x3f >> 5 .& 1) with 1 in X. rewrite <- X. by destruct (base =? _). }
  assert (G4 : field h1 4 31 = if base =? 0xf2400000 then 4 else 12).
  { pose proof (field_field h1 4 0 0x3f 31 ltac:(lia) ltac:(lia)) as X. rewrite F2 in X.
    change (4 + 0) with 4 in X. change (0x3f >> 0 .& 31) with 31 in X. rewrite <- X. by destruct (base =? _). }
  cbn [halfwords decode]. fold h1 h2. unfold decode32. rewrite F1, F3, F4, F5, G3, G4.
  destruct (Z.eqb_spec (field h1 9 0x7f) 0x75), (Z.eqb_spec (field h1 9 0x7f) 0x74); try done.
  assert (Hguard : forall i, guard_regs [rd] i = Some i) by (intros i; unfold guard_regs; cbn [forallb]; by rewrite Hg).
  destruct (base =? 0xf2400000); cbn -[guard_regs]; by rewrite Hguard.
Qed.

Lemma compiles_mov_imm (rd val : Z) : greg rd = true -> Compiles (mov_imm_code rd val) tt (emit_mov_imm rd val).
Proof.
  intros Hg. assert (Hr : 0 <= rd < 16) by (unfold greg in Hg; zify_bools; lia).
  exists (mov_imm_words rd val). pose proof (u32_range val) as Hval. split_and!.
  - unfold mov_imm_words. cbv zeta. repeat case_match; repeat constructor; apply wrap_idemp.
  - unfold emit_mov_imm, mov_imm_words. rewrite (u8_small rd) by lia. cbv zeta.
    destruct ((u32 val <=? 255) && (rd <? 8)).
    + pose proof (emits_emit2 (u16 (0x2000 .| (rd << 8) .| u32 val))) as E. unfold u16 in *. by rewrite wrap_idemp in E.
    + eapply emits_bind; [apply emits_emit4|]. destruct (65535 <? u32 val); [apply emits_emit4|apply emits_ret].
  - unfold mov_imm_words, mov_imm_code. cbv zeta. destruct ((u32 val <=? 255) && (rd <? 8)) eqn:E.
    { zify_bools. apply decode_movs; lia. }
    assert (0 <= u32 val .& 0xffff < 2 ^ 16) by (change 0xffff with (Z.ones 16); rewrite Z.land_ones by lia; apply Z.mod_pos_bound; lia).
    apply (decode_app _ _ [_]); [by apply decode_movw; auto|].
    destruct (65535 <? u32 val); [|done].
    assert (u16 (u32 val >> 16) = u32 val >> 16) as ->.
    { rewrite Z.shiftr_div_pow2 by lia. apply u16_small. change (2 ^ 16) with 65536.
      Z.to_euclidean_division_equations; lia. }
    apply (decode_movw 0xf2c00000); auto. rewrite Z.shiftr_div_pow2 by lia. change (2 ^ 16) with 65536.
    Z.to_euclidean_division_equations; lia.
Qed.

(** ** Where the eBPF registers are *)

Definition row (k : Z) : Z * Z := default (0, 0) (zget bpf2a32_table k).
Definition in_regs (k : Z) : bool := negb (is_stacked (lo (row k))).

(** The registers the code of an instruction may use for itself. *)
Definition clobbered : list Z := [ARM_R6; ARM_R7; ARM_R8; ARM_R9; ARM_IP; ARM_LR].

Lemma clobbered_spec (r : Z) : r ∈ clobbered -> 6 <= r <= 9 \/ r = 12 \/ r = 14.
Proof.
  unfold clobbered, ARM_R6, ARM_R7, ARM_R8, ARM_R9, ARM_IP, ARM_LR.
  rewrite !elem_of_cons, elem_of_nil. lia.
Qed.

Definition mk64 (l h : Z) : Z := l + h * 2 ^ 32.

(** The word of one half of a row, and the register. *)
Definition half (a : arm) (loc : Z) : option Z :=
  if is_stacked loc then load_le 4 (a_reg a ARM_FP + loc) (a_mem a) else Some (a_reg a loc).
Definition value (a : arm) (k : Z) : option Z :=
  l ← half a (lo (row k)); h ← half a (hi (row k)); Some (mk64 l h).

Record holds (rs : list Z) (a : arm) : Prop := mk_holds {
  holds_wf : arm_wf a;
  holds_fp : a_reg a ARM_FP mod 4 = 0;
  holds_len : length rs = Z.to_nat MAX_BPF_EXT_REG;
  holds_val : forall k, 0 <= k < MAX_BPF_EXT_REG -> zget rs k = value a k
}.

(** The scratch words are the 80 bytes below the frame pointer. *)
Definition in_scratch (fp b : Z) : Prop := exists k, 1 <= k <= SCRATCH_SIZE /\ b = u32 (fp - k).

(** What the code of an instruction leaves alone. *)
Definition kept : list Z := [ARM_R10; ARM_FP; ARM_SP].

Definition frame (a a' : arm) : Prop :=
  (forall r, r ∈ kept -> a_reg a' r = a_reg a r) /\
  dom (a_mem a') = dom (a_mem a) /\
  forall b, ~ in_scratch (a_reg a ARM_FP) b -> a_mem a' !! b = a_mem a !! b.

Lemma kept_spec (r : Z) : r ∈ kept -> r = 10 \/ r = 11 \/ r = 13.
Proof. unfold kept, ARM_R10, ARM_FP, ARM_SP. rewrite !elem_of_cons, elem_of_nil. lia. Qed.

Lemma frame_refl (a : arm) : frame a a.
Proof. by split_and!. Qed.

Lemma frame_trans (a b c : arm) : frame a b -> frame b c -> frame a c.
Proof.
  intros (R1 & D1 & M1) (R2 & D2 & M2). split_and!; [|congruence|].
  - intros r Hr. by rewrite R2, R1.
  - intros x Hx. rewrite M2, M1; [done..|]. by rewrite (R1 ARM_FP) by (right; by left).
Qed.

(** [a'] differs from [a] in the registers [l] and in the flags. *)
Definition changes (l : list Z) (a a' : arm) : Prop :=
  (forall r, r ∉ l -> a_reg a' r = a_reg a r) /\ a_mem a' = a_mem a /\ arm_wf a'.

Lemma changes_refl (l : list Z) (a : arm) : arm_wf a -> changes l a a.
Proof. intros H. split; [done|]. by split. Qed.

Lemma changes_sub (l l' : list Z) (a a' : arm) : changes l a a' -> l ⊆ l' -> changes l' a a'.
Proof. intros (R & M & W) Hl. split; [|done]. intros r Hr. apply R. by intros ?%Hl. Qed.

Lemma changes_trans (l1 l2 l : list Z) (a b c : arm) :
  changes l1 a b -> changes l2 b c -> l1 ⊆ l -> l2 ⊆ l -> changes l a c.
Proof.
  intros (R1 & M1 & _) (R2 & M2 & W) H1 H2. split_and!; [|congruence|done].
  intros r Hr. rewrite R2, R1; [done|by intros ?%H1|by intros ?%H2].
Qed.

Lemma changes_frame (l : list Z) (a a' : arm) :
  changes l a a' -> (forall r, r ∈ kept -> r ∉ l) -> frame a a'.
Proof. intros (R & M & _) Hk. split_and!; [intros r Hr; apply R; by apply Hk|by rewrite M|by rewrite M]. Qed.

(** The table: low registers, or two words of the scratch area. *)
Lemma row_regs (k : Z) :
  0 <= k < MAX_BPF_EXT_REG -> in_regs k = true ->
  0 <= lo (row k) < 6 /\ 0 <= hi (row k) < 6 /\ lo (row k) <> hi (row k).
Proof.
  intros Hk Hr.
  assert (H : forallb (fun k => negb (in_regs k) ||
    ((0 <=? lo (row k)) && (lo (row k) <? 6) && (0 <=? hi (row k)) && (hi (row k) <? 6) &&
     negb (lo (row k) =? hi (row k)))) (zrange 0 12) = true) by (vm_compute; reflexivity).
  pose proof (zrange_forallb _ _ _ H k Hk) as Hb. cbv beta in Hb. rewrite Hr in Hb. cbn [negb orb] in Hb.
  zify_bools. lia.
Qed.

Lemma row_stack (k : Z) :
  0 <= k < MAX_BPF_EXT_REG -> in_regs k = false ->
  hi (row k) = lo (row k) + 4 /\ - SCRATCH_SIZE <= lo (row k) <= -8 /\ lo (row k) mod 8 = 0.
Proof.
  intros Hk Hr.
  assert (H : forallb (fun k => in_regs k ||
    ((hi (row k) =? lo (row k) + 4) && (- SCRATCH_SIZE <=? lo (row k)) && (lo (row k) <=? -8) &&
     (lo (row k) mod 8 =? 0))) (zrange 0 12) = true) by (vm_compute; reflexivity).
  pose proof (zrange_forallb _ _ _ H k Hk) as Hb. cbv beta in Hb. rewrite Hr in Hb. cbn [orb] in Hb.
  zify_bools. lia.
Qed.

Lemma row_apart (k j : Z) :
  0 <= k < MAX_BPF_EXT_REG -> 0 <= j < MAX_BPF_EXT_REG -> k <> j ->
  lo (row k) <> lo (row j) /\ hi (row k) <> hi (row j) /\ lo (row k) <> hi (row j).
Proof.
  intros Hk Hj Hne.
  assert (H : forallb (fun k => forallb (fun j => (k =? j) ||
    (negb (lo (row k) =? lo (row j)) && negb (hi (row k) =? hi (row j)) && negb (lo (row k) =? hi (row j))))
    (zrange 0 12)) (zrange 0 12) = true) by (vm_compute; reflexivity).
  pose proof (zrange_forallb _ _ _ H k Hk) as Hb. cbv beta in Hb.
  pose proof (zrange_forallb _ _ _ Hb j Hj) as Hc. cbv beta in Hc.
  apply orb_true_iff in Hc as [?%Z.eqb_eq|Hc]; [done|]. zify_bools. auto.
Qed.

(** ** Words of the scratch area *)

(** The offset of a word of the scratch area. *)
Definition slot (off : Z) : Prop := - SCRATCH_SIZE <= off <= -4 /\ off mod 4 = 0.

Lemma row_slots (k : Z) :
  0 <= k < MAX_BPF_EXT_REG -> in_regs k = false -> slot (lo (row k)) /\ slot (hi (row k)).
Proof.
  intros Hk Hr. destruct (row_stack k Hk Hr) as (-> & Hl & Hm). unfold slot.
  change SCRATCH_SIZE with 80 in *. Z.to_euclidean_division_equations. lia.
Qed.

(** A store to one word of the area, as the other words and the rest of the
    memory see it. *)
Lemma store_slot (fp off v : Z) (m : memory) :
  slot off -> 0 <= v < 2 ^ 32 -> mem_wf m -> is_Some (load_le 4 (fp + off) m) ->
  exists m', store_le 4 (fp + off) v m = Some m' /\ load_le 4 (fp + off) m' = Some v /\
    (forall off', slot off' -> off' <> off -> load_le 4 (fp + off') m' = load_le 4 (fp + off') m) /\
    mem_wf m' /\ dom m' = dom m /\ forall b, ~ in_scratch fp b -> m' !! b = m !! b.
Proof.
  intros Hs Hv Hw Hl. destruct (store_where_loaded 4 _ v m Hl) as [m' Hst]. exists m'.
  assert (Hfr := fun b => store_le_frame 4 _ _ b _ _ Hst). unfold slot in Hs. change SCRATCH_SIZE with 80 in Hs.
  split_and!; [done| | |by eapply store_le_wf|by eapply store_le_dom|].
  - rewrite (load_store_le 4 _ _ _ _ ltac:(lia) Hst). by rewrite Z.mod_small.
  - intros off' Ho Hne. unfold slot in Ho. change SCRATCH_SIZE with 80 in Ho.
    apply load_le_ext. intros j Hj. apply Hfr. intros i Hi Heq.
    replace (fp + off + i) with (fp - 80 + (80 + off + i)) in Heq by lia.
    replace (fp + off' + j) with (fp - 80 + (80 + off' + j)) in Heq by lia.
    apply u32_add_inj in Heq; [|lia..]. Z.to_euclidean_division_equations. lia.
  - intros b Hb. apply Hfr. intros i Hi <-. apply Hb. exists (- (off + i)).
    change SCRATCH_SIZE with 80. split; [lia|f_equal; lia].
Qed.

(** ** Bringing a register to a pair, and back *)

Definition reg64 (a : arm) (p : Z * Z) : Z := mk64 (a_reg a (lo p)) (a_reg a (hi p)).

Definition pair_of (k : Z) (tmp : Z * Z) : Z * Z := if in_regs k then row k else tmp.
Definition get_code (k : Z) (tmp : Z * Z) : list thumb :=
  if in_regs k then [] else [ILdrd (lo tmp) (hi tmp) ARM_FP (lo (row k))].
Definition put_code (k : Z) (p : Z * Z) : list thumb :=
  if in_regs k then [] else [IStrd (lo p) (hi p) ARM_FP (lo (row k))].

Lemma arm_set_wf (d v : Z) (a : arm) : arm_wf a -> 0 <= v < 2 ^ 32 -> arm_wf (arm_set d v a).
Proof. intros [R M] Hv. split; [|done]. intros k. cbn. unfold upd. destruct (k =? d); [done|apply R]. Qed.

Lemma arm_set_changes (d v : Z) (l : list Z) (a : arm) :
  arm_wf a -> 0 <= v < 2 ^ 32 -> d ∈ l -> changes l a (arm_set d v a).
Proof.
  intros W Hv Hd. split_and!; [|done|by apply arm_set_wf]. intros r Hr. cbn. apply upd_ne. by intros ->.
Qed.

Lemma half_stack (a : arm) (off : Z) : off < 0 -> half a off = load_le 4 (a_reg a ARM_FP + off) (a_mem a).
Proof. intros H. unfold half, is_stacked. by destruct (Z.ltb_spec off 0); [|lia]. Qed.
Lemma half_reg (a : arm) (r : Z) : 0 <= r -> half a r = Some (a_reg a r).
Proof. intros H. unfold half, is_stacked. by destruct (Z.ltb_spec r 0); [lia|]. Qed.

(** The doubleword accesses are aligned. *)
Lemma slot_aligned (fp off : Z) : fp mod 4 = 0 -> slot off -> u32 (fp + off) .& 3 = 0.
Proof.
  intros Hf [_ Ho]. change 3 with (Z.ones 2). rewrite Z.land_ones by lia.
  change (u32 (fp + off)) with (wrap 32 (fp + off)). change (2 ^ 2) with 4.
  unfold wrap. change (2 ^ 32) with (4 * 2 ^ 30). Z.to_euclidean_division_equations. lia.
Qed.

Lemma load_hi (fp off : Z) (m : memory) : load_le 4 (u32 (fp + off) + 4) m = load_le 4 (fp + (off + 4)) m.
Proof. rewrite <- load_le_u32, <- (load_le_u32 4 (fp + _)). unfold u32. rewrite wrap_add_l. f_equal. f_equal. lia. Qed.

Lemma store_hi (fp off v : Z) (m : memory) : store_le 4 (u32 (fp + off) + 4) v m = store_le 4 (fp + (off + 4)) v m.
Proof. rewrite <- store_le_u32, <- (store_le_u32 4 (fp + _)). unfold u32. rewrite wrap_add_l. f_equal. f_equal. lia. Qed.

Section Holds.
Context (rs : list Z) (a : arm) (Hh : holds rs a).

(** The two halves of a register in the scratch area. *)
Lemma value_stack (k : Z) :
  0 <= k < MAX_BPF_EXT_REG -> in_regs k = false ->
  exists l h, load_le 4 (a_reg a ARM_FP + lo (row k)) (a_mem a) = Some l /\
    load_le 4 (a_reg a ARM_FP + (lo (row k) + 4)) (a_mem a) = Some h /\ zget rs k = Some (mk64 l h).
Proof using Hh.
  intros Hk Hr. destruct (row_stack k Hk Hr) as (Ehi & Hl & _). change SCRATCH_SIZE with 80 in Hl.
  destruct (zget_is_Some rs k) as [v Hv]; [rewrite (holds_len _ _ Hh); done|].
  pose proof (holds_val _ _ Hh k Hk) as E. unfold value in E. rewrite Hv, Ehi, !half_stack in E by lia.
  destruct (load_le 4 (_ + lo (row k)) _) as [l|]; [|done]. cbn [mbind option_bind] in E.
  destruct (load_le 4 _ _) as [h|]; [|done]. injection E as ->. by exists l, h.
Qed.

Lemma value_regs (k : Z) :
  0 <= k < MAX_BPF_EXT_REG -> in_regs k = true -> zget rs k = Some (reg64 a (row k)).
Proof using Hh.
  intros Hk Hr. destruct (row_regs k Hk Hr) as (? & ? & _). rewrite (holds_val _ _ Hh k Hk).
  unfold value. by rewrite !half_reg by lia.
Qed.

Lemma get_exec (k : Z) (tmp : Z * Z) (l : list Z) :
  0 <= k < MAX_BPF_EXT_REG -> lo tmp <> hi tmp -> lo tmp ∈ l -> hi tmp ∈ l ->
  exists a', exec (get_code k tmp) a = Some a' /\ changes l a a' /\ zget rs k = Some (reg64 a' (pair_of k tmp)).
Proof using Hh.
  intros Hk Hne Hl1 Hl2. unfold get_code, pair_of. pose proof (holds_wf _ _ Hh) as W. destruct (in_regs k) eqn:Hr.
  - exists a. split_and!; [done|by apply changes_refl|by apply value_regs].
  - destruct (value_stack k Hk Hr) as (x & y & Hx & Hy & Hv). destruct (row_slots k Hk Hr) as [Hs _].
    cbn [exec exec1]. rewrite (slot_aligned _ _ (holds_fp _ _ Hh) Hs). cbn [Z.eqb negb].
    rewrite load_hi, load_le_u32, Hx. cbn [mbind option_bind]. rewrite Hy. cbn [mbind option_bind].
    pose proof (load_le_range 4 _ _ _ (proj2 W) Hx). pose proof (load_le_range 4 _ _ _ (proj2 W) Hy).
    eexists. split_and!; [done| |].
    + eapply (changes_trans l l); [| |done..]; apply arm_set_changes; try done. by apply arm_set_wf.
    + rewrite Hv. unfold reg64. cbn. by rewrite upd_eq, upd_ne, upd_eq by done.
Qed.

Lemma holds_changes (l : list Z) (a' : arm) :
  changes l a a' -> l ⊆ clobbered -> holds rs a'.
Proof using Hh.
  intros (R & M & W) Hl. destruct Hh as [_ F L V].
  assert (HF : a_reg a' ARM_FP = a_reg a ARM_FP) by (apply R; intros H%Hl%clobbered_spec; unfold ARM_FP in H; lia).
  split; [done|by rewrite HF|done|]. intros k Hk. rewrite (V k Hk). unfold value, half. rewrite HF, M.
  destruct (in_regs k) eqn:Hr.
  - destruct (row_regs k Hk Hr) as (H1 & H2 & _). unfold is_stacked.
    destruct (Z.ltb_spec (lo (row k)) 0), (Z.ltb_spec (hi (row k)) 0); try lia.
    rewrite !R; [done|intros Hc%Hl%clobbered_spec; lia..].
  - destruct (row_stack k Hk Hr) as (H1 & H2 & _). change SCRATCH_SIZE with 80 in H2. unfold is_stacked.
    by destruct (Z.ltb_spec (lo (row k)) 0), (Z.ltb_spec (hi (row k)) 0); try lia.
Qed.
End Holds.

(** One register changes. *)
Lemma holds_update (rs rs' : list Z) (a a' : arm) (k v : Z) :
  holds rs a -> 0 <= k < MAX_BPF_EXT_REG -> zset rs k v = Some rs' -> arm_wf a' ->
  a_reg a' ARM_FP = a_reg a ARM_FP -> value a' k = Some v ->
  (forall j, 0 <= j < MAX_BPF_EXT_REG -> j <> k -> value a' j = value a j) -> holds rs' a'.
Proof.
  intros [_ F L V] Hk Hz W HF Hv Hj. split; [done|by rewrite HF|by rewrite (zset_length _ _ _ _ Hz)|].
  intros j Hjr. destruct (decide (j = k)) as [->|Hne]; [by rewrite Hv, (zget_zset_eq _ _ _ _ Hz)|].
  rewrite (zget_zset_ne _ _ _ _ _ Hz) by done. rewrite Hj by done. by apply V.
Qed.

Lemma holds_zset (rs : list Z) (a : arm) (k v : Z) :
  holds rs a -> 0 <= k < MAX_BPF_EXT_REG -> exists rs', zset rs k v = Some rs'.
Proof. intros [_ _ L _] Hk. eexists. apply zset_is_Some. rewrite L. exact Hk. Qed.

Lemma holds_length (rs : list Z) (a : arm) (k v : Z) : holds rs a -> zget rs k = Some v -> 0 <= k < MAX_BPF_EXT_REG.
Proof. intros [_ _ L _] H%zget_Some. by rewrite L in H. Qed.

(** Two words are stored to the row of a register in the scratch area. *)
Lemma write_row (rs : list Z) (a : arm) (k l h : Z) :
  holds rs a -> 0 <= k < MAX_BPF_EXT_REG -> in_regs k = false -> 0 <= l < 2 ^ 32 -> 0 <= h < 2 ^ 32 ->
  exists m1 m2 rs', store_le 4 (a_reg a ARM_FP + lo (row k)) l (a_mem a) = Some m1 /\
    store_le 4 (a_reg a ARM_FP + (lo (row k) + 4)) h m1 = Some m2 /\
    zset rs k (mk64 l h) = Some rs' /\ holds rs' (arm_store m2 a) /\ frame a (arm_store m2 a).
Proof.
  intros Hh Hk Hr Hl H2. destruct (row_slots k Hk Hr) as [S1 S2]. destruct (row_stack k Hk Hr) as (Ehi & Hlo & _).
  rewrite Ehi in S2. change SCRATCH_SIZE with 80 in Hlo. pose proof (holds_wf _ _ Hh) as [WR WM].
  destruct (value_stack rs a Hh k Hk Hr) as (x & y & Hx & Hy & _).
  destruct (store_slot (a_reg a ARM_FP) _ l (a_mem a) S1 Hl WM) as (m1 & St1 & L1 & O1 & W1 & D1 & B1); [by rewrite Hx|].
  destruct (store_slot (a_reg a ARM_FP) _ h m1 S2 H2 W1) as (m2 & St2 & L2 & O2 & W2 & D2 & B2).
  { rewrite O1 by (done || lia). by rewrite Hy. }
  destruct (holds_zset rs a k (mk64 l h) Hh Hk) as [rs' Hz]. exists m1, m2, rs'. split_and!; try done.
  - eapply (holds_update rs _ a); try done.
    + unfold value. rewrite Ehi, !half_stack by lia. cbn [a_reg a_mem arm_store].
      by rewrite (O2 (lo (row k))), L1, L2 by (done || lia).
    + intros j Hj Hne. destruct (in_regs j) eqn:Hrj.
      * destruct (row_regs j Hj Hrj) as (? & ? & _). unfold value. by rewrite !half_reg by lia.
      * destruct (row_slots j Hj Hrj) as [T1 T2]. destruct (row_stack j Hj Hrj) as (Ej & Hlj & Hmj).
        destruct (row_stack k Hk Hr) as (_ & _ & Hmk).
        destruct (row_apart k j Hk Hj ltac:(done)) as (A1 & A2 & A3). rewrite Ej in *. change SCRATCH_SIZE with 80 in Hlj.
        unfold value. rewrite Ej, !half_stack by lia. cbn [a_reg a_mem arm_store].
        rewrite !O2, !O1; try done; Z.to_euclidean_division_equations; lia.
  - repeat split; cbn; [by rewrite D2, D1|]. intros b Hb. by rewrite B2, B1.
Qed.

Lemma reg64_range (a : arm) (p : Z * Z) : arm_wf a -> 0 <= reg64 a p < 2 ^ 64.
Proof. intros [R _]. unfold reg64, mk64. pose proof (R (lo p)). pose proof (R (hi p)). lia. Qed.

(** The result of an instruction is computed in the pair of its destination,
    and stored from there. *)
Lemma put_exec (rs : list Z) (a0 a : arm) (k : Z) :
  holds rs a0 -> 0 <= k < MAX_BPF_EXT_REG ->
  changes (lo (pair_of k tmp1) :: hi (pair_of k tmp1) :: clobbered) a0 a ->
  exists a' rs', exec (put_code k (pair_of k tmp1)) a = Some a' /\
    zset rs k (reg64 a (pair_of k tmp1)) = Some rs' /\ holds rs' a' /\ frame a0 a'.
Proof.
  intros Hh Hk Hc. unfold put_code, pair_of in *. destruct (in_regs k) eqn:Hr.
  - destruct (row_regs k Hk Hr) as (H1 & H2 & _). destruct (holds_zset rs a0 k (reg64 a (row k)) Hh Hk) as [rs' Hz].
    assert (Hn : forall r, r ∈ lo (row k) :: hi (row k) :: clobbered ->
      r = lo (row k) \/ r = hi (row k) \/ 6 <= r <= 9 \/ r = 12 \/ r = 14).
    { intros r. rewrite !elem_of_cons. intros [?|[?|?%clobbered_spec]]; lia. }
    destruct Hc as (R & M & W).
    assert (HF : a_reg a ARM_FP = a_reg a0 ARM_FP) by (apply R; intros H%Hn; unfold ARM_FP in H; lia).
    exists a, rs'. split_and!; [done..| |].
    + eapply (holds_update rs _ a0); try done; [unfold value; by rewrite !half_reg by lia|].
      intros j Hj Hne. destruct (in_regs j) eqn:Hrj.
      * destruct (row_regs j Hj Hrj) as (? & ? & _). destruct (row_apart k j Hk Hj ltac:(done)) as (A1 & A2 & A3).
        destruct (row_apart j k Hj Hk Hne) as (B1 & B2 & B3).
        unfold value. rewrite !half_reg by lia. rewrite !R; [done|intros Hx%Hn; lia..].
      * destruct (row_stack j Hj Hrj) as (Ej & Hlj & _). change SCRATCH_SIZE with 80 in Hlj.
        unfold value. rewrite !half_stack by lia. by rewrite HF, M.
    + eapply changes_frame; [exact (conj R (conj M W))|]. intros r Hkr%kept_spec Hx%Hn. lia.
  - assert (Hs : lo tmp1 :: hi tmp1 :: clobbered ⊆ clobbered).
    { intros r. rewrite !elem_of_cons. unfold clobbered. rewrite !elem_of_cons. cbn [fst snd tmp1]. tauto. }
    pose proof (holds_changes _ _ Hh _ _ Hc Hs) as Hh'.
    assert (Hf : frame a0 a).
    { eapply changes_frame; [done|]. intros r Hkr%kept_spec Hx%Hs%clobbered_spec. lia. }
    pose proof (holds_wf _ _ Hh') as [WR _].
    destruct (write_row rs a k _ _ Hh' Hk Hr (WR (lo tmp1)) (WR (hi tmp1))) as (m1 & m2 & rs' & S1 & S2 & Hz & Hho & Hfr).
    exists (arm_store m2 a), rs'. split_and!; [|done..|by eapply frame_trans].
    cbn [exec exec1]. rewrite (slot_aligned _ _ (holds_fp _ _ Hh') (proj1 (row_slots k Hk Hr))). cbn [Z.eqb negb].
    rewrite store_le_u32. rewrite S1. cbn [mbind option_bind]. rewrite store_hi, S2. done.
Qed.
