(* ===== verification/JitArith.v ===== *)
(** * Compiled 64-bit arithmetic

    For each operation the compiler gets right: the instructions its emitter
    produces for every pair of eBPF registers, what they compute, and then
    that [build_inst] refines the reference [alu_ref]. *)

From S2P Require Import Prelude Mem EbpfInst EbpfVm EbpfVmProps EbpfVmSem Thumb2 Jit JitEmit JitProps ThumbSem JitSem.

(** ** Pairs as 64-bit numbers *)

Lemma mk64_u32 (l x : Z) : 0 <= l < 2 ^ 32 -> mk64 l (u32 x) = u64 (l + x * 2 ^ 32).
Proof.
  intros Hl. unfold mk64, u32, u64, wrap. change (2 ^ 64) with (2 ^ 32 * 2 ^ 32). Z.to_euclidean_division_equations. lia.
Qed.

Lemma u64_add_high (x y : Z) : u64 (x + y * 2 ^ 64) = u64 x.
Proof. apply Z_mod_plus_full. Qed.

(** The product as the multiplication sequence assembles it. *)
Lemma mul_pair (l h l' h' : Z) :
  mk64 (u32 (l * l')) (u32 (((l * l') >> 32) + u32 (u32 (h * l') + u32 (l * h')))) = u64 (mk64 l h * mk64 l' h').
Proof.
  assert (E : u32 (((l * l') >> 32) + u32 (u32 (h * l') + u32 (l * h'))) = u32 (l * l' / 2 ^ 32 + (h * l' + l * h'))).
  { rewrite Z.shiftr_div_pow2 by lia. unfold u32. rewrite wrap_add_r, !Z.add_assoc, wrap_add_r.
    rewrite <- !Z.add_assoc, (Z.add_comm (wrap 32 _)), Z.add_assoc, wrap_add_r. f_equal. lia. }
  rewrite E, mk64_u32 by apply u32_range. unfold u32, wrap, mk64.
  rewrite <- (u64_add_high _ (h * h')). f_equal. pose proof (Z.div_mod (l * l') (2 ^ 32) ltac:(lia)) as D.
  change (2 ^ 64) with (2 ^ 32 * 2 ^ 32). nia.
Qed.

Lemma testbit_mk64 (l h i : Z) :
  0 <= l < 2 ^ 32 -> 0 <= h < 2 ^ 32 -> 0 <= i ->
  Z.testbit (mk64 l h) i = if i <? 32 then Z.testbit l i else Z.testbit h (i - 32).
Proof.
  intros Hl Hh Hi. unfold mk64. rewrite <- lor_shiftl_add by lia. rewrite Z.lor_spec, testbit_shl by lia.
  destruct (Z.ltb_spec i 32).
  - rewrite (Z.testbit_neg_r h) by lia. apply orb_false_r.
  - by rewrite (testbit_above 32 l) by lia.
Qed.

(** [pair_bits] compares two 64-bit numbers bit by bit. *)
Ltac pair_bits :=
  repeat match goal with
  | |- context [?a <? ?b] => destruct (Z.ltb_spec a b)
  end; rewrite ?andb_true_l, ?andb_false_l, ?orb_false_l, ?orb_false_r;
  repeat match goal with
  | |- context [Z.testbit ?x ?i] => rewrite (Z.testbit_neg_r x i) by lia
  | H : 0 <= ?x < 2 ^ 32 |- context [Z.testbit ?x ?i] => rewrite (testbit_above 32 x i) by lia
  end; rewrite ?orb_false_l, ?orb_false_r; try (f_equal; lia); try lia.

Section Pairs.
Context (l h l' h' : Z) (Hl : 0 <= l < 2 ^ 32) (Hh : 0 <= h < 2 ^ 32) (Hl' : 0 <= l' < 2 ^ 32) (Hh' : 0 <= h' < 2 ^ 32).

Lemma mk64_range : 0 <= mk64 l h < 2 ^ 64.
Proof using Hl Hh. unfold mk64. lia. Qed.

Lemma add_pair :
  mk64 (u32 (l + l' + 0)) (u32 (h + h' + b2z (2 ^ 32 <=? l + l' + 0))) = u64 (mk64 l h + mk64 l' h').
Proof using Hl Hh Hl' Hh'.
  unfold mk64, u32, u64, wrap, b2z. change (2 ^ 64) with (2 ^ 32 * 2 ^ 32).
  destruct (Z.leb_spec (2 ^ 32) (l + l' + 0)); Z.to_euclidean_division_equations; lia.
Qed.

Lemma sub_pair :
  mk64 (u32 (l + not32 l' + 1)) (u32 (h + not32 h' + b2z (2 ^ 32 <=? l + not32 l' + 1))) =
  u64 (mk64 l h - mk64 l' h').
Proof using Hl Hh Hl' Hh'.
  unfold mk64, not32, u32, u64, wrap, b2z. change (2 ^ 64) with (2 ^ 32 * 2 ^ 32).
  destruct (Z.leb_spec (2 ^ 32) (l + (2 ^ 32 - 1 - l') + 1)); Z.to_euclidean_division_equations; lia.
Qed.

Lemma and_pair : mk64 (l .& l') (h .& h') = mk64 l h .& mk64 l' h'.
Proof using Hl Hh Hl' Hh'.
  apply Z.bits_inj'. intros i Hi. rewrite Z.land_spec, !testbit_mk64 by (try apply land_range; lia).
  destruct (i <? 32); by rewrite Z.land_spec.
Qed.

Lemma orr_pair : mk64 (l .| l') (h .| h') = mk64 l h .| mk64 l' h'.
Proof using Hl Hh Hl' Hh'.
  apply Z.bits_inj'. intros i Hi. rewrite Z.lor_spec, !testbit_mk64 by (try apply lor_range; lia).
  destruct (i <? 32); by rewrite Z.lor_spec.
Qed.

Lemma eor_pair : mk64 (l .^ l') (h .^ h') = mk64 l h .^ mk64 l' h'.
Proof using Hl Hh Hl' Hh'.
  apply Z.bits_inj'. intros i Hi. rewrite Z.lxor_spec, !testbit_mk64 by (try apply lxor_range; lia).
  destruct (i <? 32); by rewrite Z.lxor_spec.
Qed.
End Pairs.


Section ShiftPairs.
Context (l h n : Z) (Hl : 0 <= l < 2 ^ 32) (Hh : 0 <= h < 2 ^ 32) (Hn : 0 <= n < 32).

Lemma lsh_low : mk64 (u32 (l << n)) (u32 (h << n) .| (l >> (32 - n))) = u64 (mk64 l h << n).
Proof using Hl Hh Hn.
  apply Z.bits_inj'. intros i Hi. unfold u64.
  rewrite testbit_mk64 by (try apply lor_range; try apply u32_range; try apply shiftr_range; lia).
  rewrite testbit_wrap, testbit_shl by lia. unfold u32.
  destruct (Z.ltb_spec i n).
  - rewrite (Z.testbit_neg_r (mk64 l h)) by lia. destruct (Z.ltb_spec i 32); [|lia].
    rewrite testbit_wrap, testbit_shl, (Z.testbit_neg_r l) by lia. by rewrite !andb_false_r.
  - rewrite testbit_mk64 by lia. destruct (Z.ltb_spec i 32).
    + rewrite testbit_wrap, testbit_shl by lia. pair_bits.
    + rewrite Z.lor_spec, testbit_wrap, testbit_shl, Z.shiftr_spec by lia. pair_bits.
Qed.
Lemma rsh_low : mk64 ((l >> n) .| u32 (h << (32 - n))) (h >> n) = mk64 l h >> n.
Proof using Hl Hh Hn.
  apply Z.bits_inj'. intros i Hi.
  rewrite testbit_mk64 by (try apply lor_range; try apply u32_range; try apply shiftr_range; lia).
  rewrite (Z.shiftr_spec (mk64 l h)), testbit_mk64 by lia. destruct (Z.ltb_spec i 32).
  - unfold u32. rewrite Z.lor_spec, testbit_wrap, testbit_shl, Z.shiftr_spec by lia. pair_bits.
  - rewrite Z.shiftr_spec by lia. pair_bits.
Qed.

Lemma arsh_low : mk64 ((l >> n) .| u32 (h << (32 - n))) (u32 (s32 h >> n)) = u64 (s64 (mk64 l h) >> n).
Proof using Hl Hh Hn.
  apply Z.bits_inj'. intros i Hi. unfold u64, s64, s32.
  rewrite testbit_mk64 by (try apply lor_range; try apply u32_range; try apply shiftr_range; lia).
  rewrite testbit_wrap, Z.shiftr_spec, testbit_sext, testbit_mk64 by lia. unfold u32. destruct (Z.ltb_spec i 32).
  - rewrite Z.lor_spec, testbit_wrap, testbit_shl, Z.shiftr_spec by lia. pair_bits.
  - rewrite testbit_wrap, Z.shiftr_spec, testbit_sext by lia. pair_bits.
Qed.

(** The shifts by 32 bits and more. *)
Lemma lsh_high : mk64 0 (u32 (l << n)) = u64 (mk64 l h << (n + 32)).
Proof using Hl Hh Hn.
  apply Z.bits_inj'. intros i Hi. unfold u64.
  rewrite testbit_mk64 by (try apply u32_range; lia). rewrite testbit_wrap, testbit_shl by lia.
  destruct (Z.ltb_spec i 32).
  - rewrite Z.testbit_0_l, (Z.testbit_neg_r (mk64 l h)) by lia. by rewrite andb_false_r.
  - unfold u32. rewrite testbit_wrap, testbit_shl by lia. destruct (Z.ltb_spec i (n + 32)).
    + by rewrite (Z.testbit_neg_r l), (Z.testbit_neg_r (mk64 l h)), !andb_false_r by lia.
    + rewrite testbit_mk64 by lia. pair_bits.
Qed.

Lemma rsh_high : mk64 (h >> n) 0 = mk64 l h >> (n + 32).
Proof using Hl Hh Hn.
  apply Z.bits_inj'. intros i Hi. rewrite testbit_mk64 by (try apply shiftr_range; lia).
  rewrite (Z.shiftr_spec (mk64 l h)), testbit_mk64 by lia. destruct (Z.ltb_spec i 32).
  - rewrite Z.shiftr_spec by lia. pair_bits.
  - rewrite Z.testbit_0_l by lia. pair_bits.
Qed.

Lemma arsh_high : mk64 (u32 (s32 h >> n)) (u32 (s32 h >> 31)) = u64 (s64 (mk64 l h) >> (n + 32)).
Proof using Hl Hh Hn.
  apply Z.bits_inj'. intros i Hi. unfold u64, s64, s32. rewrite testbit_mk64 by (try apply u32_range; lia).
  rewrite testbit_wrap, Z.shiftr_spec, testbit_sext, testbit_mk64 by lia. unfold u32. destruct (Z.ltb_spec i 32).
  - rewrite testbit_wrap, Z.shiftr_spec, testbit_sext by lia. pair_bits.
  - rewrite testbit_wrap, Z.shiftr_spec, testbit_sext by lia. pair_bits.
Qed.
End ShiftPairs.

(** ** The instructions of each operation *)

Section Cores.
Context (d s : Z * Z) (n : Z).

Definition add_core : list thumb :=
  [IDp DAdd true (lo d) (lo s) (lo d) 0 0; IDp DAdc false (hi d) (hi s) (hi d) 0 0].
Definition sub_core : list thumb :=
  [IDp DSub true (lo d) (lo d) (lo s) 0 0; IDp DSbc false (hi d) (hi d) (hi s) 0 0].
(** The two-byte forms set the flags; they take low registers only. *)
Definition narrow (r r' : Z) : bool := (r <? 8) && (r' <? 8).
Definition and_core : list thumb :=
  [IDp DAnd (narrow (lo d) (lo s)) (lo d) (lo d) (lo s) 0 0;
   IDp DAnd (narrow (hi d) (hi s)) (hi d) (hi d) (hi s) 0 0].
Definition orr_core : list thumb :=
  [IDp DOrr false (lo d) (lo d) (lo s) 0 0; IDp DOrr false (hi d) (hi d) (hi s) 0 0].
Definition eor_core : list thumb :=
  [IDp DEor true (lo d) (lo d) (lo s) 0 0; IDp DEor true (hi d) (hi d) (hi s) 0 0].
Definition lsh_core : list thumb :=
  if n <? 32 then
    [IMovShift true ARM_R9 (hi d) SRTYPE_LSL n; IDp DOrr true (hi d) ARM_R9 (lo d) SRTYPE_LSR ((32 - n) mod 32);
     IMovShift true (lo d) (lo d) SRTYPE_LSL n]
  else
    [if n =? 32 then IMov (hi d) (lo d) else IMovShift true (hi d) (lo d) SRTYPE_LSL (n - 32);
     IDp DEor true (lo d) (lo d) (lo d) 0 0].
Definition rsh_core : list thumb :=
  if n =? 0 then []
  else if n <? 32 then
    [IMovShift false ARM_R8 (lo d) SRTYPE_LSR n; IDp DOrr false (lo d) ARM_R8 (hi d) SRTYPE_LSL (32 - n);
     IMovShift false (hi d) (hi d) SRTYPE_LSR n]
  else
    [if n =? 32 then IMov (lo d) (hi d) else IMovShift false (lo d) (hi d) SRTYPE_LSR (n - 32); IMovs (hi d) 0].
Definition arsh_core : list thumb :=
  if n =? 0 then []
  else if n <? 32 then
    [IMovShift true ARM_R8 (lo d) SRTYPE_LSR n; IDp DOrr true (lo d) ARM_R8 (hi d) SRTYPE_LSL (32 - n);
     IMovShift true (hi d) (hi d) SRTYPE_ASR n]
  else
    [if n =? 32 then IMov (lo d) (hi d) else IMovShift true (lo d) (hi d) SRTYPE_ASR (n - 32);
     IMovShift true (hi d) (hi d) SRTYPE_ASR 31].
End Cores.

(** ** What they compute *)

(** [l] leaves [f] of the state in the pair [p] and changes nothing else but
    the scratch registers. *)
Definition computes (p : Z * Z) (l : list thumb) (f : arm -> Z) : Prop :=
  forall a, arm_wf a ->
    exists a', exec l a = Some a' /\ changes (lo p :: hi p :: clobbered) a a' /\ reg64 a' p = f a.

Definition within (l : list Z) (b : list thumb) : bool :=
  forallb quiet b && forallb (fun r => bool_decide (r ∈ l)) (concat (map dests b)).

Lemma exec_changes (l : list Z) (b : list thumb) (a a' : arm) :
  arm_wf a -> within l b = true -> exec b a = Some a' -> changes l a a'.
Proof.
  intros W [Q D]%andb_true_iff E. destruct (exec_wrote b a a' W Q E) as (R & M & W').
  split_and!; [|done|done]. intros r Hr. apply R. intros Hin. apply Hr.
  rewrite forallb_forall in D. by apply (bool_decide_eq_true_1 _ (D r Hin)).
Qed.

Lemma computes_intro (p : Z * Z) (l : list thumb) (f : arm -> Z) :
  within (lo p :: hi p :: clobbered) l = true ->
  (forall a, arm_wf a -> exists a', exec l a = Some a' /\ reg64 a' p = f a) -> computes p l f.
Proof.
  intros Hw H a W. destruct (H a W) as (a' & E & V). exists a'. split_and!; try done. by eapply exec_changes.
Qed.

(** The pairs an operation works on. *)
Definition dst_pairs : list (Z * Z) := [(1, 0); (3, 2); (5, 4); (7, 6)].
Definition src_pairs : list (Z * Z) := [(1, 0); (3, 2); (5, 4); (9, 8)].

Lemma dst_pair (k : Z) : 0 <= k < MAX_BPF_EXT_REG -> pair_of k tmp1 ∈ dst_pairs.
Proof.
  intros Hk. apply (bool_decide_eq_true_1 _).
  assert (H : forallb (fun k => bool_decide (pair_of k tmp1 ∈ dst_pairs)) (zrange 0 12) = true) by (vm_compute; reflexivity).
  exact (zrange_forallb _ _ _ H k Hk).
Qed.

Lemma src_pair (k : Z) : 0 <= k < MAX_BPF_EXT_REG -> pair_of k tmp2 ∈ src_pairs.
Proof.
  intros Hk. apply (bool_decide_eq_true_1 _).
  assert (H : forallb (fun k => bool_decide (pair_of k tmp2 ∈ src_pairs)) (zrange 0 12) = true) by (vm_compute; reflexivity).
  exact (zrange_forallb _ _ _ H k Hk).
Qed.

(** [each_pair H] splits a membership in one of the two lists. *)
Ltac each_pair H :=
  unfold dst_pairs, src_pairs in H; rewrite !elem_of_cons, elem_of_nil in H;
  destruct H as [->|[->|[->|[->|[]]]]].

(** [run_core] evaluates the instructions on a symbolic state. *)
Ltac run_core :=
  apply computes_intro; [vm_compute; reflexivity|];
  intros a [R M]; eexists; split; [reflexivity|];
  unfold reg64; cbn -[mk64 u32 Z.leb Z.add Z.mul not32 Z.shiftr Z.land Z.lor Z.lxor Z.shiftl];
  unfold upd; cbn -[mk64 u32 Z.leb Z.add Z.mul not32 Z.shiftr Z.land Z.lor Z.lxor Z.shiftl].

Section Computes.
Context (d s : Z * Z) (Hd : d ∈ dst_pairs) (Hs : s ∈ src_pairs).

Lemma add_computes : computes d (add_core d s) (fun a => u64 (reg64 a d + reg64 a s)).
Proof using Hd Hs.
  each_pair Hd; each_pair Hs; run_core; rewrite add_pair by done; f_equal; lia.
Qed.
Lemma sub_computes : computes d (sub_core d s) (fun a => u64 (reg64 a d - reg64 a s)).
Proof using Hd Hs. each_pair Hd; each_pair Hs; run_core; by apply sub_pair. Qed.

Lemma and_computes : computes d (and_core d s) (fun a => reg64 a d .& reg64 a s).
Proof using Hd Hs. each_pair Hd; each_pair Hs; run_core; by apply and_pair. Qed.

Lemma orr_computes : computes d (orr_core d s) (fun a => reg64 a d .| reg64 a s).
Proof using Hd Hs. each_pair Hd; each_pair Hs; run_core; by apply orr_pair. Qed.

Lemma eor_computes : computes d (eor_core d s) (fun a => reg64 a d .^ reg64 a s).
Proof using Hd Hs. each_pair Hd; each_pair Hs; run_core; by apply eor_pair. Qed.
End Computes.

(** The shifts by an immediate. *)
Lemma lsl_imm (x n : Z) (c : bool) : 0 <= x < 2 ^ 32 -> 0 <= n < 32 -> fst (shift_imm x SRTYPE_LSL n c) = u32 (x << n).
Proof.
  intros Hx Hn. unfold shift_imm, shift_c. destruct (Z.eqb_spec n 0) as [->|]; [|done].
  cbn [fst SRTYPE_LSL Z.eqb]. by rewrite Z.shiftl_0_r, u32_small.
Qed.
Lemma lsr_imm (x n : Z) (c : bool) : 0 < n < 32 -> fst (shift_imm x SRTYPE_LSR n c) = x >> n.
Proof. intros Hn. unfold shift_imm, shift_c. by destruct (Z.eqb_spec n 0); [lia|]. Qed.
Lemma asr_imm (x n : Z) (c : bool) : 0 < n < 32 -> fst (shift_imm x SRTYPE_ASR n c) = u32 (s32 x >> n).
Proof. intros Hn. unfold shift_imm, shift_c. by destruct (Z.eqb_spec n 0); [lia|]. Qed.
Lemma lsr_back (x n : Z) (c : bool) : 0 <= n < 32 -> fst (shift_imm x SRTYPE_LSR ((32 - n) mod 32) c) = x >> (32 - n).
Proof.
  intros Hn. destruct (Z.eq_dec n 0) as [->|]; [done|]. rewrite Z.mod_small by lia. by apply lsr_imm; lia.
Qed.

Section Shifts.
Context (d : Z * Z) (n : Z) (Hd : d ∈ dst_pairs) (Hn : 0 <= n < 64).

Lemma shifts_within (f : Z * Z -> Z -> list thumb) :
  forallb (fun d => forallb (fun n => within (lo d :: hi d :: clobbered) (f d n)) (zrange 0 64)) dst_pairs = true ->
  within (lo d :: hi d :: clobbered) (f d n) = true.
Proof using Hd Hn.
  intros H. rewrite forallb_forall in H. apply list_elem_of_In in Hd.
  exact (zrange_forallb _ _ _ (H d Hd) n Hn).
Qed.

(** [shift_start core] unfolds the instructions, [shift_eval] evaluates one of
    their cases. *)
Ltac shift_start core :=
  apply computes_intro; [apply (shifts_within core); vm_compute; reflexivity|]; intros a [R M]; unfold core.
Ltac shift_eval :=
  each_pair Hd; (eexists; split; [reflexivity|]); unfold reg64;
  cbn -[mk64 shift_imm Z.shiftl Z.shiftr Z.lor Z.lxor Z.mul Z.modulo Z.sub Z.pow u64 s64 u32 s32];
  unfold upd; cbn -[mk64 shift_imm Z.shiftl Z.shiftr Z.lor Z.lxor Z.mul Z.modulo Z.sub Z.pow u64 s64 u32 s32];
  rewrite ?(lsl_imm _ 0), ?Z.shiftl_0_r, ?u32_small, ?Z.lxor_nilpotent by (done || lia).

Lemma lsh_computes : computes d (lsh_core d n) (fun a => u64 (reg64 a d << n)).
Proof using Hd Hn.
  shift_start lsh_core. destruct (Z.ltb_spec n 32).
  - shift_eval; rewrite !lsl_imm, lsr_back by (done || lia); apply lsh_low; (done || lia).
  - destruct (Z.eqb_spec n 32) as [->|].
    + shift_eval; rewrite <- (lsh_high _ _ 0), Z.shiftl_0_r, u32_small by (done || lia); done.
    + shift_eval; rewrite lsl_imm, (lsh_high _ _ (n - 32)) by (done || lia); do 2 f_equal; lia.
Qed.

Lemma rsh_computes : computes d (rsh_core d n) (fun a => reg64 a d >> n).
Proof using Hd Hn.
  shift_start rsh_core. destruct (Z.eqb_spec n 0) as [->|]; [by eexists; rewrite Z.shiftr_0_r|].
  destruct (Z.ltb_spec n 32).
  - shift_eval; rewrite !lsr_imm, lsl_imm by (done || lia); apply rsh_low; (done || lia).
  - destruct (Z.eqb_spec n 32) as [->|].
    + shift_eval; rewrite <- (rsh_high _ _ 0), Z.shiftr_0_r by (done || lia); done.
    + shift_eval; rewrite lsr_imm, (rsh_high _ _ (n - 32)) by (done || lia); f_equal; lia.
Qed.

Lemma u64_s64 (x : Z) : u64 (s64 x) = u64 x.
Proof. apply wrap_sext. Qed.
Lemma u32_s32 (x : Z) : u32 (s32 x) = u32 x.
Proof. apply wrap_sext. Qed.

Lemma arsh_computes : computes d (arsh_core d n) (fun a => u64 (s64 (reg64 a d) >> n)).
Proof using Hd Hn.
  shift_start arsh_core. destruct (Z.eqb_spec n 0) as [->|].
  { eexists. split; [reflexivity|]. rewrite Z.shiftr_0_r, u64_s64, u64_small; [done|]. by apply reg64_range. }
  destruct (Z.ltb_spec n 32).
  - shift_eval; rewrite lsr_imm, asr_imm, lsl_imm by (done || lia); apply arsh_low; (done || lia).
  - destruct (Z.eqb_spec n 32) as [->|].
    + shift_eval; rewrite <- (arsh_high _ _ 0), Z.shiftr_0_r, asr_imm by (done || lia);
        by rewrite u32_s32, (u32_small (a_reg a _)) by done.
    + shift_eval; rewrite !asr_imm, (arsh_high _ _ (n - 32)) by (done || lia); do 2 f_equal; lia.
Qed.
End Shifts.

(** ** Constants in pairs *)

Lemma changes_flags (l : list Z) (a a' : arm) (n z c v : bool) :
  changes l a a' -> changes l a (arm_flags n z c v a').
Proof. done. Qed.

Lemma mov_imm_exec (rd val : Z) (l : list Z) (a : arm) :
  arm_wf a -> rd ∈ l ->
  exists a', exec (mov_imm_code rd val) a = Some a' /\ changes l a a' /\ a_reg a' rd = u32 val.
Proof.
  intros W Hl. pose proof (u32_range val) as Hv. unfold mov_imm_code. cbv zeta.
  assert (Hlow : 0 <= u32 val .& 0xffff < 2 ^ 16 /\ 0 <= u32 val .& 0xffff < 2 ^ 32).
  { change 0xffff with (Z.ones 16). rewrite Z.land_ones by lia. pose proof (Z.mod_pos_bound (u32 val) (2 ^ 16)). lia. }
  destruct Hlow as [Hlow Hlow'].
  destruct ((u32 val <=? 255) && (rd <? 8)).
  { eexists. split_and!; [done| |cbn; apply upd_eq].
    by apply changes_flags, arm_set_changes. }
  destruct (Z.ltb_spec 65535 (u32 val)).
  - eexists. split_and!; [done| |].
    + eapply (changes_trans l l); [by apply (arm_set_changes rd (u32 val .& 0xffff))| |done..].
      apply arm_set_changes; [by apply arm_set_wf| |done]. apply lor_range; [lia| |].
      * apply (land_range 32); [lia| |lia]. cbn. rewrite upd_eq. lia.
      * rewrite Z.shiftl_mul_pow2, Z.shiftr_div_pow2 by lia. Z.to_euclidean_division_equations; lia.
    + cbn -[Z.lor Z.land Z.shiftl Z.shiftr u32]. rewrite !upd_eq. change 0xffff with (Z.ones 16).
      rewrite <- Z.land_assoc, Z.land_diag, Z.land_ones, Z.shiftr_div_pow2 by lia.
      rewrite lor_shiftl_add by (try apply Z.mod_pos_bound; lia). pose proof (Z.div_mod (u32 val) (2 ^ 16)). lia.
  - eexists. split_and!; [done|by apply (arm_set_changes rd (u32 val .& 0xffff))|].
    cbn -[Z.land u32]. rewrite upd_eq. change 0xffff with (Z.ones 16). rewrite Z.land_ones by lia. apply Z.mod_small. lia.
Qed.

Definition mov_pair_code (p : Z * Z) (val : Z) : list thumb :=
  mov_imm_code (lo p) val ++ mov_imm_code (hi p) (val >> 32).

Lemma mk64_split (x : Z) : mk64 (u32 x) (u32 (x >> 32)) = u64 x.
Proof.
  unfold mk64, u32, u64, wrap. rewrite Z.shiftr_div_pow2 by lia. change (2 ^ 64) with (2 ^ 32 * 2 ^ 32).
  Z.to_euclidean_division_equations. lia.
Qed.

Lemma mov_pair_exec (p : Z * Z) (val : Z) (l : list Z) (a : arm) :
  arm_wf a -> lo p ∈ l -> hi p ∈ l -> lo p <> hi p ->
  exists a', exec (mov_pair_code p val) a = Some a' /\ changes l a a' /\ reg64 a' p = u64 val.
Proof.
  intros W H1 H2 Hne. destruct (mov_imm_exec (lo p) val l a W H1) as (a1 & E1 & C1 & V1).
  destruct (mov_imm_exec (hi p) (val >> 32) [hi p] a1 (proj2 (proj2 C1))) as (a2 & E2 & C2 & V2); [by left|].
  exists a2. split_and!.
  - unfold mov_pair_code. by rewrite exec_app, E1.
  - eapply changes_trans; [exact C1|exact C2|done|]. intros r ->%list_elem_of_singleton. done.
  - unfold reg64. rewrite V2, (proj1 C2), V1; [apply mk64_split|]. rewrite list_elem_of_singleton. done.
Qed.

(** The sign extension of an immediate. *)
Lemma land_bit (x n : Z) : 0 <= n -> (x .& (1 << n) =? 0) = negb (Z.testbit x n).
Proof.
  intros Hn. destruct (Z.testbit x n) eqn:E; cbn [negb].
  - apply Z.eqb_neq. intros H. assert (Hb : Z.testbit (x .& (1 << n)) n = true).
    { by rewrite Z.land_spec, testbit_shl, Z.sub_diag, E by lia. }
    rewrite H, Z.testbit_0_l in Hb. discriminate Hb.
  - apply Z.eqb_eq, Z.bits_inj'. intros i Hi. rewrite Z.land_spec, testbit_shl, Z.testbit_0_l by lia.
    destruct (Z.eq_dec i n) as [->|]; [by rewrite E|].
    assert (Z.testbit 1 (i - n) = false) as ->; [|apply andb_false_r].
    destruct (Z.ltb_spec (i - n) 0); [apply Z.testbit_neg_r; lia|apply (testbit_above 1); lia].
Qed.

Lemma se_imm64 (x : Z) :
  - 2 ^ 31 <= x < 2 ^ 31 ->
  u64 (if negb (u32 x .& (1 << 31) =? 0) then u32 x .| 0xffffffff00000000 else u32 x) = u64 x.
Proof.
  intros Hx. change 0xffffffff00000000 with (0xffffffff << 32).
  rewrite land_bit, negb_involutive by lia. unfold u32 at 1. rewrite testbit_wrap by lia.
  change ((31 <? 32) && Z.testbit x 31) with (Z.testbit x 31). rewrite testbit_sign by lia.
  destruct (Z.ltb_spec x 0).
  - rewrite lor_shiftl_add by (try apply u32_range; lia). unfold u32, u64, wrap.
    Z.to_euclidean_division_equations. lia.
  - by rewrite u32_small by lia.
Qed.

(** The rows of eBPF registers and of the two temporaries. *)
Definition is_row (k : Z) : Prop := 0 <= k < TMP_REG_2 + 1.

Lemma pair_greg (k : Z) : is_row k -> greg (lo (pair_of k tmp1)) = true /\ greg (hi (pair_of k tmp1)) = true.
Proof.
  intros Hk.
  assert (H : forallb (fun k => greg (lo (pair_of k tmp1)) && greg (hi (pair_of k tmp1))) (zrange 0 14) = true)
    by (vm_compute; reflexivity).
  by apply andb_true_iff, (zrange_forallb _ _ _ H k Hk).
Qed.

Lemma compiles_put64 (k : Z) :
  is_row k -> Compiles (put_code k (pair_of k tmp1)) tt (arm_bpf_put_reg64 (row k) (pair_of k tmp1)).
Proof.
  intros Hk. apply compiles_code; [apply st_put64|].
  assert (H : forallb (fun k => code_is (arm_bpf_put_reg64 (row k) (pair_of k tmp1)) tt
    (put_code k (pair_of k tmp1))) (zrange 0 14) = true) by (vm_compute; reflexivity).
  exact (zrange_forallb _ _ _ H k Hk).
Qed.

Definition const_code (k val : Z) : list thumb :=
  mov_pair_code (pair_of k tmp1) val ++ put_code k (pair_of k tmp1).

Lemma compiles_mov_i64 (k val : Z) : is_row k -> Compiles (const_code k val) tt (emit_mov_i64 (row k) val).
Proof.
  intros Hk. unfold emit_mov_i64, const_code, mov_pair_code. cbv zeta.
  assert (E : (if is_stacked (lo (row k)) then tmp1 else row k) = pair_of k tmp1).
  { unfold pair_of, in_regs. by destruct (is_stacked _). }
  rewrite E, <- app_assoc. destruct (pair_greg k Hk) as [G1 G2].
  assert (U : forall r x, mov_imm_code r (u32 x) = mov_imm_code r x).
  { intros r x. unfold mov_imm_code. by rewrite (u32_small (u32 x)) by apply u32_range. }
  rewrite <- (U (lo (pair_of k tmp1)) val), <- (U _ (val >> 32)).
  apply (compiles_bind _ _ tt); [by apply compiles_mov_imm|].
  apply (compiles_bind _ _ tt); [by apply compiles_mov_imm|]. by apply compiles_put64.
Qed.

(** ** The code of an operation with two operands *)

Lemma dst_fresh (k : Z) : 0 <= k < MAX_BPF_EXT_REG -> (lo (pair_of k tmp1) ∉ [8; 9]) /\ (hi (pair_of k tmp1) ∉ [8; 9]).
Proof. intros Hk%dst_pair. each_pair Hk; split; by apply (bool_decide_unpack _). Qed.

Lemma tmp1_clobbered : [6; 7] ⊆ clobbered.
Proof. intros r. rewrite !elem_of_cons, elem_of_nil. unfold clobbered. rewrite !elem_of_cons. unfold ARM_R6, ARM_R7. tauto. Qed.
Lemma tmp2_clobbered : [8; 9] ⊆ clobbered.
Proof. intros r. rewrite !elem_of_cons, elem_of_nil. unfold clobbered. rewrite !elem_of_cons. unfold ARM_R8, ARM_R9. tauto. Qed.

Lemma changes_reg64 (l : list Z) (a a' : arm) (p : Z * Z) :
  changes l a a' -> lo p ∉ l -> hi p ∉ l -> reg64 a' p = reg64 a p.
Proof. intros [R _] H1 H2. unfold reg64. by rewrite !R. Qed.

(** Both operands are brought to pairs. *)
Lemma get2_exec (rs : list Z) (a : arm) (k j x y : Z) :
  holds rs a -> zget rs k = Some x -> zget rs j = Some y ->
  exists a', exec (get_code k tmp1 ++ get_code j tmp2) a = Some a' /\ changes clobbered a a' /\
    reg64 a' (pair_of k tmp1) = x /\ reg64 a' (pair_of j tmp2) = y.
Proof.
  intros Hh Hx Hy. pose proof (holds_length _ _ _ _ Hh Hx) as Hk. pose proof (holds_length _ _ _ _ Hh Hy) as Hj.
  destruct (get_exec rs a Hh k tmp1 [6; 7] Hk) as (a1 & E1 & C1 & V1); [done|by left|right; by left|].
  pose proof (holds_changes _ _ Hh _ _ C1 tmp1_clobbered) as Hh1.
  destruct (get_exec rs a1 Hh1 j tmp2 [8; 9] Hj) as (a2 & E2 & C2 & V2); [done|by left|right; by left|].
  destruct (dst_fresh k Hk) as [D1 D2]. rewrite V1 in Hx. rewrite V2 in Hy. simplify_eq.
  exists a2. rewrite exec_app, E1, (changes_reg64 _ _ _ _ C2 D1 D2). split_and!; try done.
  eapply changes_trans; [exact C1|exact C2|exact tmp1_clobbered|exact tmp2_clobbered].
Qed.

(** The end of the code, from a state in which the operands are in their
    pairs. *)
Definition finishes (tail : list thumb) (k : Z) (s : Z * Z) (f : Z -> Z -> Z) : Prop :=
  forall rs a0 a, holds rs a0 -> changes clobbered a0 a ->
    exists a' rs', exec tail a = Some a' /\ zset rs k (f (reg64 a (pair_of k tmp1)) (reg64 a s)) = Some rs' /\
      holds rs' a' /\ frame a0 a'.

Definition core_tail (core : Z * Z -> Z * Z -> list thumb) (k : Z) (s : Z * Z) : list thumb :=
  core (pair_of k tmp1) s ++ put_code k (pair_of k tmp1).

Lemma core_finishes (core : Z * Z -> Z * Z -> list thumb) (f : Z -> Z -> Z) (k : Z) (s : Z * Z) :
  (forall d, d ∈ dst_pairs -> computes d (core d s) (fun a => f (reg64 a d) (reg64 a s))) ->
  0 <= k < MAX_BPF_EXT_REG -> finishes (core_tail core k s) k s f.
Proof.
  intros Hcore Hk rs a0 a Hh C. destruct (Hcore _ (dst_pair k Hk) a (proj2 (proj2 C))) as (a1 & E & C1 & V).
  destruct (put_exec rs a0 a1 k Hh Hk) as (a' & rs' & E' & Z' & H' & F').
  { eapply changes_trans; [exact C|exact C1| |done]. intros r Hr. by do 2 right. }
  exists a', rs'. unfold core_tail. rewrite exec_app, E, <- V. by split_and!.
Qed.

Section Operands.
Context (tail : Z -> Z * Z -> list thumb) (f : Z -> Z -> Z).
Context (Htail : forall k s, 0 <= k < MAX_BPF_EXT_REG -> s ∈ src_pairs -> finishes (tail k s) k s f).

Definition reg_code (k j : Z) : list thumb := get_code k tmp1 ++ get_code j tmp2 ++ tail k (pair_of j tmp2).
Definition imm_code (k val : Z) : list thumb := mov_pair_code tmp2 val ++ reg_code k TMP_REG_2.

Lemma reg_code_exec (rs : list Z) (a : arm) (k j x y : Z) :
  holds rs a -> zget rs k = Some x -> zget rs j = Some y ->
  exists a' rs', exec (reg_code k j) a = Some a' /\ zset rs k (f x y) = Some rs' /\ holds rs' a' /\ frame a a'.
Proof using Htail.
  intros Hh Hx Hy. pose proof (holds_length _ _ _ _ Hh Hx) as Hk. pose proof (holds_length _ _ _ _ Hh Hy) as Hj.
  destruct (get2_exec rs a k j x y Hh Hx Hy) as (a2 & E2 & C2 & V1 & V2).
  destruct (Htail k _ Hk (src_pair j Hj) rs a a2 Hh C2) as (a' & rs' & E & H).
  exists a', rs'. rewrite V1, V2 in H. unfold reg_code. rewrite app_assoc, exec_app, E2. by split.
Qed.

Lemma imm_code_exec (rs : list Z) (a : arm) (k x val : Z) :
  holds rs a -> zget rs k = Some x ->
  exists a' rs', exec (imm_code k val) a = Some a' /\ zset rs k (f x (u64 val)) = Some rs' /\
    holds rs' a' /\ frame a a'.
Proof using Htail.
  intros Hh Hx. pose proof (holds_length _ _ _ _ Hh Hx) as Hk.
  destruct (mov_pair_exec tmp2 val [8; 9] a (holds_wf _ _ Hh)) as (a1 & E1 & C1 & V1); [by left|by right; left|done|].
  pose proof (holds_changes _ _ Hh _ _ C1 tmp2_clobbered) as Hh1.
  destruct (get_exec rs a1 Hh1 k tmp1 [6; 7] Hk) as (a2 & E2 & C2 & V2); [done|by left|right; by left|].
  assert (C : changes clobbered a a2) by (eapply changes_trans; [exact C1|exact C2|exact tmp2_clobbered|exact tmp1_clobbered]).
  destruct (Htail k tmp2 Hk ltac:(by do 3 right; left) rs a a2 Hh C) as (a' & rs' & E & H).
  rewrite (changes_reg64 _ _ _ tmp2 C2), V1 in H by (by apply (bool_decide_unpack _)).
  rewrite V2 in Hx. simplify_eq. exists a', rs'. unfold imm_code, reg_code.
  rewrite exec_app, E1. cbn [mbind option_bind]. rewrite exec_app, E2. by split.
Qed.
End Operands.

(** The second operand is part of the instructions. *)
Definition unary_code (core : Z * Z -> list thumb) (k : Z) : list thumb :=
  get_code k tmp1 ++ core_tail (fun d _ => core d) k tmp2.

Lemma unary_code_exec (core : Z * Z -> list thumb) (f : Z -> Z) (rs : list Z) (a : arm) (k x : Z) :
  (forall d, d ∈ dst_pairs -> computes d (core d) (fun a => f (reg64 a d))) ->
  holds rs a -> zget rs k = Some x ->
  exists a' rs', exec (unary_code core k) a = Some a' /\ zset rs k (f x) = Some rs' /\ holds rs' a' /\ frame a a'.
Proof.
  intros Hcore Hh Hx. pose proof (holds_length _ _ _ _ Hh Hx) as Hk.
  destruct (get_exec rs a Hh k tmp1 [6; 7] Hk) as (a1 & E1 & C1 & V1); [done|by left|right; by left|].
  assert (C : changes clobbered a a1).
  { by eapply changes_sub, tmp1_clobbered. }
  destruct (core_finishes (fun d _ => core d) (fun x _ => f x) k tmp2 Hcore Hk rs a a1 Hh C) as (a' & rs' & E & H).
  rewrite V1 in Hx. simplify_eq. exists a', rs'. unfold unary_code. rewrite exec_app, E1. by split.
Qed.

(** ** Multiplication

    The low word of the product is computed in IP. *)

Definition mul_core (d s : Z * Z) : list thumb :=
  [IMul false ARM_IP (lo d) (hi s); IMul false ARM_LR (hi d) (lo s); IAddReg ARM_LR ARM_IP;
   IUmull ARM_IP (hi d) (lo d) (lo s); IAddReg (hi d) ARM_LR].
Definition mul_put (k : Z) (d : Z * Z) : list thumb :=
  if in_regs k then [IMov (lo d) ARM_IP] else [IStr ARM_IP ARM_FP (lo (row k)); IStr (hi d) ARM_FP (hi (row k))].
Definition mul_tail (k : Z) (s : Z * Z) : list thumb :=
  mul_core (pair_of k tmp1) s ++ mul_put k (pair_of k tmp1).

Lemma mul_regs_computes (d s : Z * Z) :
  d ∈ dst_pairs -> s ∈ src_pairs ->
  computes d (mul_core d s ++ [IMov (lo d) ARM_IP]) (fun a => u64 (reg64 a d * reg64 a s)).
Proof.
  intros Hd Hs. each_pair Hd; each_pair Hs; run_core; rewrite <- mul_pair; do 2 f_equal.
Qed.

Lemma mul_stack_computes (d s : Z * Z) :
  d ∈ dst_pairs -> s ∈ src_pairs ->
  computes (hi d, ARM_IP) (mul_core d s) (fun a => u64 (reg64 a d * reg64 a s)).
Proof. intros Hd Hs. each_pair Hd; each_pair Hs; run_core; rewrite <- mul_pair; do 2 f_equal. Qed.

Lemma mul_finishes (k : Z) (s : Z * Z) :
  0 <= k < MAX_BPF_EXT_REG -> s ∈ src_pairs -> finishes (mul_tail k s) k s (fun x y => u64 (x * y)).
Proof.
  intros Hk Hs. destruct (in_regs k) eqn:Hr.
  { pose proof (core_finishes (fun d s => mul_core d s ++ [IMov (lo d) ARM_IP]) (fun x y => u64 (x * y)) k s
      (fun d Hd => mul_regs_computes d s Hd Hs) Hk) as H.
    unfold core_tail, put_code in H. unfold mul_tail, mul_put. by rewrite Hr, app_nil_r in *. }
  intros rs a a2 Hh C2. assert (P : pair_of k tmp1 = tmp1) by (unfold pair_of; by rewrite Hr). rewrite P.
  destruct (mul_stack_computes tmp1 s ltac:(by do 3 right; left) Hs a2 (proj2 (proj2 C2))) as (a3 & E3 & C3 & V3).
  assert (C : changes clobbered a a3).
  { eapply changes_trans; [exact C2|exact C3|done|]. by apply (bool_decide_unpack _). }
  pose proof (holds_changes _ _ Hh _ _ C ltac:(done)) as Hh3. pose proof (holds_wf _ _ Hh3) as [WR _].
  destruct (write_row rs a3 k _ _ Hh3 Hk Hr (WR ARM_IP) (WR (hi tmp1))) as (m1 & m2 & rs' & S1 & S2 & Hz & Hho & Hfr).
  exists (arm_store m2 a3), rs'. split_and!; [| |done|].
  - unfold mul_tail, mul_put. rewrite P, Hr, exec_app, E3. cbn [mbind option_bind exec exec1].
    rewrite store_le_u32, S1. cbn [mbind option_bind].
    destruct (row_stack k Hk Hr) as (-> & _). cbn [arm_store a_reg a_mem]. by rewrite store_le_u32, S2.
  - by rewrite <- V3.
  - eapply frame_trans; [|exact Hfr]. eapply changes_frame; [exact C|]. intros r Hkr%kept_spec Hx%clobbered_spec. lia.
Qed.

(** ** Moves *)

Lemma const_code_exec (rs : list Z) (a : arm) (k x val : Z) :
  holds rs a -> zget rs k = Some x ->
  exists a' rs', exec (const_code k val) a = Some a' /\ zset rs k (u64 val) = Some rs' /\ holds rs' a' /\ frame a a'.
Proof.
  intros Hh Hx. pose proof (holds_length _ _ _ _ Hh Hx) as Hk.
  set (p := pair_of k tmp1). assert (Hne : lo p <> hi p) by (pose proof (dst_pair k Hk) as H; fold p in H; by each_pair H).
  destruct (mov_pair_exec p val (lo p :: hi p :: clobbered) a (holds_wf _ _ Hh)) as (a1 & E1 & C1 & V1);
    [by left|by right; left|done|].
  destruct (put_exec rs a a1 k Hh Hk C1) as (a' & rs' & E & H). fold p in E, H. rewrite V1 in H.
  exists a', rs'. unfold const_code. fold p. rewrite exec_app, E1. by split.
Qed.

Definition mov_code (k j : Z) : list thumb :=
  if in_regs j then
    if in_regs k then [IMov (lo (row k)) (lo (row j)); IMov (hi (row k)) (hi (row j))]
    else [IStrd (lo (row j)) (hi (row j)) ARM_FP (lo (row k))]
  else get_code j (pair_of k tmp1) ++ put_code k (pair_of k tmp1).

Lemma mov_code_exec (rs : list Z) (a : arm) (k j x y : Z) :
  holds rs a -> zget rs k = Some x -> zget rs j = Some y ->
  exists a' rs', exec (mov_code k j) a = Some a' /\ zset rs k y = Some rs' /\ holds rs' a' /\ frame a a'.
Proof.
  intros Hh Hx Hy. pose proof (holds_length _ _ _ _ Hh Hx) as Hk. pose proof (holds_length _ _ _ _ Hh Hy) as Hj.
  pose proof (holds_wf _ _ Hh) as W. unfold mov_code. destruct (in_regs j) eqn:Hrj.
  - pose proof (value_regs _ _ Hh j Hj Hrj) as Vj. rewrite Hy in Vj. injection Vj as ->. destruct (in_regs k) eqn:Hrk.
    + set (a1 := arm_set (lo (row k)) (a_reg a (lo (row j))) a).
      set (a2 := arm_set (hi (row k)) (a_reg a1 (hi (row j))) a1).
      destruct (put_exec rs a a2 k Hh Hk) as (a' & rs' & E & H).
      { unfold pair_of. rewrite Hrk. eapply (changes_trans (lo (row k) :: hi (row k) :: clobbered) _ _ a a1); [| |done..].
        - apply arm_set_changes; [done|apply W|by left].
        - apply arm_set_changes; [by apply arm_set_wf, W| |by right; left]. by apply arm_set_wf, W. }
      exists a', rs'. unfold put_code, pair_of in *. rewrite Hrk in *. injection E as <-. split; [done|].
      replace (reg64 a (row j)) with (reg64 a2 (row k)); [done|].
      destruct (row_regs k Hk Hrk) as (_ & _ & Hne). unfold reg64, a2, a1. cbn. rewrite upd_eq, upd_ne, upd_eq by done.
      destruct (decide (k = j)) as [->|Hkj]; [by rewrite upd_ne by done|].
      destruct (row_apart k j Hk Hj Hkj) as (_ & _ & ?). by rewrite upd_ne by done.
    + destruct (write_row rs a k _ _ Hh Hk Hrk (proj1 W (lo (row j))) (proj1 W (hi (row j))))
        as (m1 & m2 & rs' & S1 & S2 & Hz & Hho & Hfr).
      exists (arm_store m2 a), rs'. split_and!; try done. cbn [exec exec1].
      rewrite (slot_aligned _ _ (holds_fp _ _ Hh) (proj1 (row_slots k Hk Hrk))). cbn [Z.eqb negb].
      rewrite store_le_u32, S1. cbn [mbind option_bind]. by rewrite store_hi, S2.
  - set (p := pair_of k tmp1).
    assert (Hne : lo p <> hi p) by (pose proof (dst_pair k Hk) as H; fold p in H; by each_pair H).
    destruct (get_exec rs a Hh j p (lo p :: hi p :: clobbered) Hj Hne) as (a1 & E1 & C1 & V1);
      [by left|by right; left|].
    destruct (put_exec rs a a1 k Hh Hk C1) as (a' & rs' & E & H). fold p in E, H.
    exists a', rs'. rewrite exec_app, E1. unfold pair_of in V1. rewrite Hrj, Hy in V1. injection V1 as ->. by split.
Qed.

(** ** What is compiled *)

(** For all rows the emitter [m] emits [l]: checked by running it. *)
Lemma compiles_pairs (m : Z -> Z -> J unit) (l : Z -> Z -> list thumb) (ok : Z -> Z -> bool) :
  (forall k j, Plain (m k j)) ->
  forallb (fun k => forallb (fun j => negb (ok k j) || code_is (m k j) tt (l k j)) (zrange 0 64)) (zrange 0 12) = true ->
  forall k j, 0 <= k < MAX_BPF_EXT_REG -> 0 <= j < 64 -> ok k j = true -> Compiles (l k j) tt (m k j).
Proof.
  intros Hp H k j Hk Hj Ho. apply compiles_code; [apply Hp|].
  pose proof (zrange_forallb _ _ _ H k Hk) as Hb. cbv beta in Hb.
  pose proof (zrange_forallb _ _ _ Hb j Hj) as Hc. cbv beta in Hc. by rewrite Ho in Hc.
Qed.
Ltac by_running plain := apply compiles_pairs; [intros *; apply plain|vm_compute; reflexivity].

Definition row_ok (k j : Z) : bool := j <=? TMP_REG_2.
Definition orr_ok (k j : Z) : bool := (j <=? TMP_REG_2) && ((j =? TMP_REG_2) || negb (in_regs j)).
Definition eor_ok (k j : Z) : bool := (j <? MAX_BPF_EXT_REG) && in_regs j && negb (j =? 0) && negb (k =? 0).
Definition lsh_ok (k n : Z) : bool := (32 <=? n) || (n mod 4 =? 0).

Definition alu64 (op k j : Z) : J unit := emit_alu64_reg true (row k) (row j) op.

Lemma compiles_add : forall k j, 0 <= k < MAX_BPF_EXT_REG -> 0 <= j < 64 -> row_ok k j = true ->
  Compiles (reg_code (core_tail add_core) k j) tt (alu64 EBPF_ALU_ADD k j).
Proof. by_running st_alu64_reg. Qed.

Lemma compiles_sub : forall k j, 0 <= k < MAX_BPF_EXT_REG -> 0 <= j < 64 -> row_ok k j = true ->
  Compiles (reg_code (core_tail sub_core) k j) tt (alu64 EBPF_ALU_SUB k j).
Proof. by_running st_alu64_reg. Qed.

Lemma compiles_and : forall k j, 0 <= k < MAX_BPF_EXT_REG -> 0 <= j < 64 -> row_ok k j = true ->
  Compiles (reg_code (core_tail and_core) k j) tt (alu64 EBPF_ALU_AND k j).
Proof. by_running st_alu64_reg. Qed.

Lemma compiles_orr : forall k j, 0 <= k < MAX_BPF_EXT_REG -> 0 <= j < 64 -> orr_ok k j = true ->
  Compiles (reg_code (core_tail orr_core) k j) tt (alu64 EBPF_ALU_OR k j).
Proof. by_running st_alu64_reg. Qed.

Lemma compiles_eor : forall k j, 0 <= k < MAX_BPF_EXT_REG -> 0 <= j < 64 -> eor_ok k j = true ->
  Compiles (reg_code (core_tail eor_core) k j) tt (alu64 EBPF_ALU_XOR k j).
Proof. by_running st_alu64_reg. Qed.

Lemma compiles_mul : forall k j, 0 <= k < MAX_BPF_EXT_REG -> 0 <= j < 64 -> row_ok k j = true ->
  Compiles (reg_code mul_tail k j) tt (emit_a32_mul_r64 (row k) (row j)).
Proof. by_running st_mul_r64. Qed.

Lemma compiles_mov : forall k j, 0 <= k < MAX_BPF_EXT_REG -> 0 <= j < 64 -> (j <? MAX_BPF_EXT_REG) = true ->
  Compiles (mov_code k j) tt (emit_mov_reg64 true (row k) (row j)).
Proof. by_running st_mov64. Qed.

Lemma compiles_lsh : forall k n, 0 <= k < MAX_BPF_EXT_REG -> 0 <= n < 64 -> lsh_ok k n = true ->
  Compiles (unary_code (fun d => lsh_core d n) k) tt (_emit_lsh64_imm (row k) n).
Proof. by_running st_lsh64_imm. Qed.

Lemma compiles_rsh : forall k n, 0 <= k < MAX_BPF_EXT_REG -> 0 <= n < 64 -> (n <? 64) = true ->
  Compiles (unary_code (fun d => rsh_core d n) k) tt (emit_a32_rsh_i64 (row k) n).
Proof. by_running st_rsh_i64. Qed.

Lemma compiles_arsh : forall k n, 0 <= k < MAX_BPF_EXT_REG -> 0 <= n < 64 -> (n <? 64) = true ->
  Compiles (unary_code (fun d => arsh_core d n) k) tt (emit_a32_arsh_i64 (row k) n).
Proof. by_running st_arsh_i64. Qed.
