(* ===== verification/JitBuild.v ===== *)
(** * Compiled instructions refine the instruction set

    What [build_inst] emits for the arithmetic the compiler gets right
    computes what the reference of [EbpfVmSem] defines, and so what the
    interpreter does. *)

From S2P Require Import Prelude Mem EbpfInst EbpfVm EbpfVmProps EbpfVmSem Thumb2 Jit JitEmit JitProps ThumbSem JitSem JitArith.

(** ** One instruction *)

(** [l] computes what the instruction set defines for [i]: whenever the
    reference gives a result for the values that the registers hold, [l] runs,
    the destination holds the result and nothing else has changed. *)
Definition refines_alu (i : ebpf_inst) (l : list thumb) : Prop :=
  forall rs a x y v, holds rs a -> zget rs (i_dst i) = Some x -> zget rs (i_src i) = Some y ->
    alu_ref 64 (i_opcode i) x (operand i y) = Some v ->
    exists a' rs', exec l a = Some a' /\ zset rs (i_dst i) v = Some rs' /\ holds rs' a' /\ frame a a'.

(** The operations whose code computes the reference, and where. *)
Definition jit_exact (i : ebpf_inst) : bool :=
  match opcode_of (i_opcode i) with
  | Some EBPF_OP_ADD64_IMM | Some EBPF_OP_ADD64_REG | Some EBPF_OP_SUB64_IMM | Some EBPF_OP_SUB64_REG
  | Some EBPF_OP_AND64_IMM | Some EBPF_OP_AND64_REG | Some EBPF_OP_OR64_IMM
  | Some EBPF_OP_MUL64_IMM | Some EBPF_OP_MUL64_REG | Some EBPF_OP_MOV64_IMM => true
  | Some EBPF_OP_MOV64_REG => negb (i_imm i =? 1)
  | Some EBPF_OP_OR64_REG => negb (in_regs (i_src i))
  | Some EBPF_OP_XOR64_REG => in_regs (i_src i) && negb (i_src i =? 0) && negb (i_dst i =? 0)
  | Some EBPF_OP_LSH64_IMM => (0 <=? i_imm i) && (i_imm i <? 64) && ((32 <=? i_imm i) || (i_imm i mod 4 =? 0))
  | Some EBPF_OP_RSH64_IMM | Some EBPF_OP_ARSH64_IMM => (0 <=? i_imm i) && (i_imm i <? 64)
  | _ => false
  end.

Lemma bpf2a32_row (past_end : Z * Z) (k : Z) : 0 <= k < MAX_BPF_EXT_REG -> bpf2a32 past_end k = row k.
Proof.
  intros Hk. unfold bpf2a32, row. by destruct (zget_is_Some bpf2a32_table k) as [r ->]; [change (Z.of_nat (length bpf2a32_table)) with 15; unfold MAX_BPF_EXT_REG, MAX_BPF_REG in Hk; lia|].
Qed.

Lemma ext_64 (k : Z) : 0 <= k < MAX_BPF_EXT_REG -> 0 <= k < 64 /\ is_row k.
Proof. unfold is_row. change MAX_BPF_EXT_REG with 12. change TMP_REG_2 with 13. lia. Qed.

Section Build.
Context (past_end : Z * Z) (pc : Z) (i : ebpf_inst) (Hi : inst_wf i).
Context (Hd : 0 <= i_dst i < MAX_BPF_EXT_REG) (Hs : 0 <= i_src i < MAX_BPF_EXT_REG).

Lemma compiles_se_imm (k : Z) :
  is_row k -> exists val, Compiles (const_code k val) tt (emit_mov_se_imm64 true (row k) (i_imm i)) /\ u64 val = u64 (i_imm i).
Proof using Hi.
  intros Hk. destruct Hi as (_ & _ & _ & _ & Himm). eexists. split; [by apply compiles_mov_i64|by apply se_imm64].
Qed.

(** The forms of an instruction: two registers, a register and a constant,
    one register. *)
Lemma reg_refines (tail : Z -> Z * Z -> list thumb) (f : Z -> Z -> Z) (m : J unit) :
  (forall k s, 0 <= k < MAX_BPF_EXT_REG -> s ∈ src_pairs -> finishes (tail k s) k s f) ->
  BPF_SRC (i_opcode i) = EBPF_SRC_REG ->
  (forall x y v, alu_ref 64 (i_opcode i) x y = Some v -> v = f x y) ->
  Compiles (reg_code tail (i_dst i) (i_src i)) tt m ->
  exists l, Compiles l 0 (_ ← m; mret 0) /\ refines_alu i l.
Proof using.
  intros Ht Hb Hf Hc. exists (reg_code tail (i_dst i) (i_src i)). split; [by eapply compiles_then|].
  intros rs a x y v Hh Hx Hy Hv. apply Hf in Hv as ->. unfold operand. rewrite Hb. by apply reg_code_exec.
Qed.

Lemma imm_refines (tail : Z -> Z * Z -> list thumb) (f : Z -> Z -> Z) (m : J unit) :
  (forall k s, 0 <= k < MAX_BPF_EXT_REG -> s ∈ src_pairs -> finishes (tail k s) k s f) ->
  BPF_SRC (i_opcode i) <> EBPF_SRC_REG ->
  (forall x y v, alu_ref 64 (i_opcode i) x y = Some v -> v = f x y) ->
  Compiles (reg_code tail (i_dst i) TMP_REG_2) tt m ->
  exists l, Compiles l 0 (_ ← (_ ← emit_mov_se_imm64 true tmp2 (i_imm i); m); mret 0) /\ refines_alu i l.
Proof using Hi.
  intros Ht Hb Hf Hc. destruct (compiles_se_imm TMP_REG_2 ltac:(done)) as (val & Hval & Eval).
  exists (imm_code tail (i_dst i) val). split.
  - eapply compiles_then, compiles_bind; [|exact Hc]. unfold const_code in Hval.
    by rewrite app_nil_r in Hval.
  - intros rs a x y v Hh Hx Hy Hv. apply Hf in Hv as ->. unfold operand.
    destruct (Z.eqb_spec (BPF_SRC (i_opcode i)) EBPF_SRC_REG); [done|]. rewrite <- Eval. by apply imm_code_exec.
Qed.

Lemma unary_refines (core : Z * Z -> list thumb) (f : Z -> Z) (m : J unit) :
  (forall d, d ∈ dst_pairs -> computes d (core d) (fun a => f (reg64 a d))) ->
  (forall x y v, alu_ref 64 (i_opcode i) x (operand i y) = Some v -> v = f x) ->
  Compiles (unary_code core (i_dst i)) tt m ->
  exists l, Compiles l 0 (_ ← m; mret 0) /\ refines_alu i l.
Proof using.
  intros Ht Hf Hc. exists (unary_code core (i_dst i)). split; [by eapply compiles_then|].
  intros rs a x y v Hh Hx Hy Hv. apply Hf in Hv as ->. by apply unary_code_exec.
Qed.

Lemma core_ok (core : Z * Z -> Z * Z -> list thumb) (f : Z -> Z -> Z) :
  (forall d s, d ∈ dst_pairs -> s ∈ src_pairs -> computes d (core d s) (fun a => f (reg64 a d) (reg64 a s))) ->
  forall k s, 0 <= k < MAX_BPF_EXT_REG -> s ∈ src_pairs -> finishes (core_tail core k s) k s f.
Proof using. intros H k s Hk Hs'. apply core_finishes; [|done]. intros d Hd'. by apply H. Qed.

Lemma build_mov_refines (o : opcode) :
  opcode_of (i_opcode i) = Some o -> o = EBPF_OP_MOV64_REG \/ o = EBPF_OP_MOV64_IMM -> jit_exact i = true ->
  exists l, Compiles l 0 (build_inst past_end pc i) /\ refines_alu i l.
Proof using Hi Hd Hs.
  intros Ho Hm Hx. pose proof (opcode_of_Some _ _ Ho) as Hc. unfold jit_exact in Hx. rewrite Ho in Hx.
  unfold build_inst. rewrite Ho, !bpf2a32_row by done. cbv zeta. destruct Hm as [-> | ->].
  - destruct (i_imm i =? 1); [discriminate Hx|]. exists (mov_code (i_dst i) (i_src i)). split.
    + eapply compiles_then. rewrite Hc. apply compiles_mov; [done|by apply ext_64|]. apply Z.ltb_lt. lia.
    + intros rs a x y v Hh Hx' Hy Hv. unfold operand in Hv. rewrite Hc in Hv.
      assert (v = y) as -> by (by injection Hv as <-). by eapply mov_code_exec.
  - destruct (compiles_se_imm (i_dst i)) as (val & Hval & Eval); [by apply ext_64|].
    exists (const_code (i_dst i) val). split; [rewrite Hc; by eapply compiles_then|].
    intros rs a x y v Hh Hx' Hy Hv. unfold operand in Hv. rewrite Hc in Hv.
    assert (v = u64 (i_imm i)) as -> by (by injection Hv as <-). rewrite <- Eval. by eapply const_code_exec.
Qed.

(** [by_ref Hc] compares the reference for a concrete opcode. *)
Ltac by_ref Hc :=
  let H := fresh in
  intros ? ? ? H; rewrite Hc in H; by injection H as <-.

(** [two_imm], [two_reg]: the code and the reference of an operation. *)
Ltac two_op form f computes compiles :=
  eapply (form _ f); [apply core_ok, computes|by match goal with H : i_opcode i = _ |- _ => rewrite H end
    |match goal with H : i_opcode i = _ |- _ => by_ref H end|apply compiles; try done; try by apply ext_64].
Ltac two_imm f computes compiles := two_op imm_refines f computes compiles.
Ltac two_reg f computes compiles := two_op reg_refines f computes compiles.

Lemma build_two_refines (o : opcode) :
  opcode_of (i_opcode i) = Some o -> jit_exact i = true ->
  match o with
  | EBPF_OP_ADD64_IMM | EBPF_OP_ADD64_REG | EBPF_OP_SUB64_IMM | EBPF_OP_SUB64_REG | EBPF_OP_AND64_IMM
  | EBPF_OP_AND64_REG | EBPF_OP_OR64_IMM | EBPF_OP_OR64_REG | EBPF_OP_XOR64_REG => True
  | _ => False
  end ->
  exists l, Compiles l 0 (build_inst past_end pc i) /\ refines_alu i l.
Proof using Hi Hd Hs.
  intros Ho Hx Hm. pose proof (opcode_of_Some _ _ Ho) as Hc. destruct (ext_64 _ Hs) as [Hs' _].
  assert (Hr : row_ok (i_dst i) (i_src i) = true) by (apply Z.leb_le; change TMP_REG_2 with 13; change MAX_BPF_EXT_REG with 12 in Hs; lia).
  unfold jit_exact in Hx. rewrite Ho in Hx. unfold build_inst. rewrite Ho, !bpf2a32_row by done. cbv zeta.
  destruct o; try destruct Hm; rewrite Hc.
  - two_imm (fun x y => u64 (x + y)) add_computes compiles_add.
  - two_reg (fun x y => u64 (x + y)) add_computes compiles_add.
  - two_imm (fun x y => u64 (x - y)) sub_computes compiles_sub.
  - two_reg (fun x y => u64 (x - y)) sub_computes compiles_sub.
  - two_imm (fun x y => x .| y) orr_computes compiles_orr.
  - two_reg (fun x y => x .| y) orr_computes compiles_orr.
    unfold orr_ok. rewrite Hx, orb_true_r. by rewrite andb_true_r.
  - two_imm (fun x y => x .& y) and_computes compiles_and.
  - two_reg (fun x y => x .& y) and_computes compiles_and.
  - two_reg (fun x y => x .^ y) eor_computes compiles_eor.
    unfold eor_ok. by destruct (Z.ltb_spec (i_src i) MAX_BPF_EXT_REG); [|lia].
Qed.

Ltac shift_op Hx Hc core f computes compiles :=
  apply andb_true_iff in Hx as [?%Z.leb_le ?%Z.ltb_lt];
  apply (unary_refines (fun d => core d (i_imm i)) f);
  [intros d Hdd; by apply computes
  |intros x y v Hv; unfold operand in Hv; rewrite Hc in Hv; alu_case Hv; rewrite u64_small in Hv by lia;
   destruct (Z.ltb_spec (i_imm i) 64); [|lia]; by injection Hv as <-
  |apply compiles; [done..|]].

Lemma build_alu64_refines : jit_exact i = true -> exists l, Compiles l 0 (build_inst past_end pc i) /\ refines_alu i l.
Proof using Hi Hd Hs.
  intros Hx. pose proof Hx as Hx'. destruct (opcode_of (i_opcode i)) as [o|] eqn:Ho; [|unfold jit_exact in Hx; by rewrite Ho in Hx].
  pose proof (opcode_of_Some _ _ Ho) as Hc. destruct (ext_64 _ Hs) as [Hs' _].
  pose proof (build_two_refines o Ho Hx) as H2. pose proof (build_mov_refines o Ho) as Hm.
  unfold jit_exact in Hx. rewrite Ho in Hx. destruct o; try discriminate Hx; try (exact (H2 I)); try (apply Hm; [tauto|done]);
    clear H2 Hm Hx'; unfold build_inst; rewrite Ho, ?bpf2a32_row by done; cbv zeta.
  - unfold build_mul64. rewrite ?bpf2a32_row, Hc by done. cbv zeta.
    eapply (imm_refines _ (fun x y => u64 (x * y))); [apply mul_finishes|by rewrite Hc|by_ref Hc|by apply compiles_mul].
  - unfold build_mul64. rewrite ?bpf2a32_row, Hc by done. cbv zeta.
    eapply (reg_refines _ (fun x y => u64 (x * y))); [apply mul_finishes|by rewrite Hc|by_ref Hc|].
    apply compiles_mul; try done. apply Z.leb_le. change TMP_REG_2 with 13. change MAX_BPF_EXT_REG with 12 in Hs. lia.
  - apply andb_true_iff in Hx as [Hx Hl]. shift_op Hx Hc lsh_core (fun x => u64 (x << i_imm i)) lsh_computes compiles_lsh. done.
  - shift_op Hx Hc rsh_core (fun x => x >> i_imm i) rsh_computes compiles_rsh. by apply Z.ltb_lt.
  - shift_op Hx Hc arsh_core (fun x => u64 (s64 x >> i_imm i)) arsh_computes compiles_arsh. by apply Z.ltb_lt.
Qed.
End Build.

(** ** The interpreter and the compiled code *)

Lemma holds_regs_wf (rs : list Z) (a : arm) : holds rs a -> regs_wf rs.
Proof.
  intros [[R M] F L V]. split; [done|]. apply Forall_lookup_2. intros k x Hx.
  assert (Hk : 0 <= Z.of_nat k < MAX_BPF_EXT_REG) by (apply lookup_lt_Some in Hx; change MAX_BPF_EXT_REG with 12; rewrite L in Hx; change (Z.to_nat MAX_BPF_EXT_REG) with 12%nat in Hx; lia).
  pose proof (V _ Hk) as E. rewrite zget_nat, Hx in E. unfold value, half in E.
  assert (Hh : forall loc v, (if is_stacked loc then load_le 4 (a_reg a ARM_FP + loc) (a_mem a) else Some (a_reg a loc)) = Some v ->
    0 <= v < 2 ^ 32).
  { intros loc v. destruct (is_stacked loc); [apply (load_le_range 4); done|]. by intros [= <-]. }
  destruct (if is_stacked (lo _) then _ else _) as [l|] eqn:E1; [|done]. cbn [mbind option_bind] in E.
  destruct (if is_stacked (hi _) then _ else _) as [h|] eqn:E2; [|done]. injection E as ->.
  apply mk64_range; by eapply Hh.
Qed.

(** The reference defines the operations of [jit_exact] everywhere. *)
Lemma exact_defined (i : ebpf_inst) (x y : Z) :
  inst_wf i -> jit_exact i = true ->
  exists o v, opcode_of (i_opcode i) = Some o /\ BPF_CLASS (i_opcode i) = EBPF_CLS_ALU64 /\ o <> EBPF_OP_DIV64_REG /\
    alu_ref 64 (i_opcode i) x (operand i y) = Some v.
Proof.
  intros Hi Hx. unfold jit_exact in Hx. destruct (opcode_of (i_opcode i)) as [o|] eqn:Ho; [|done].
  pose proof (opcode_of_Some _ _ Ho) as Hc. exists o. unfold alu_ref, operand. rewrite Hc.
  destruct o; try discriminate Hx; eexists; (split_and!; [done|done|done|]); cbn [mbind option_bind];
    match goal with |- context [alu_op_of ?c] => let v := eval vm_compute in (alu_op_of c) in change (alu_op_of c) with v end;
    cbn [mbind option_bind alu_sem]; try reflexivity;
    match goal with |- context [BPF_SRC ?a =? ?b] => change (BPF_SRC a =? b) with false end; cbv iota;
    zify_bools; rewrite u64_small by lia; (destruct (Z.ltb_spec (i_imm i) 64); [reflexivity|lia]).
Qed.

Lemma alu64_simulates past_end pc i :
  inst_wf i -> i_dst i < MAX_BPF_EXT_REG -> i_src i < MAX_BPF_EXT_REG -> jit_exact i = true ->
  exists l, Compiles l 0 (build_inst past_end pc i) /\
    forall call_ext en st a, zget (e_insts en) (s_pc st) = Some i -> holds (s_reg st) a ->
    exists rs' a', step call_ext en st = Ok (mk_state (u16 (s_pc st + 1)) rs' (s_mem st)) /\
      exec l a = Some a' /\ holds rs' a' /\ frame a a'.
Proof.
  intros Hi Hd Hs Hx. pose proof Hi as (_ & Hd0 & Hs0 & _).
  destruct (build_alu64_refines past_end pc i Hi ltac:(lia) ltac:(lia) Hx) as (l & Hc & Hr).
  exists l. split; [done|]. intros call_ext en st a Hf Hh.
  destruct (zget_is_Some (s_reg st) (i_dst i)) as [x Hxr]; [rewrite (holds_len _ _ Hh); lia|].
  destruct (zget_is_Some (s_reg st) (i_src i)) as [y Hyr]; [rewrite (holds_len _ _ Hh); lia|].
  destruct (exact_defined i x y Hi Hx) as (o & v & Ho & Hcl & Hne & Hv).
  destruct (Hr _ _ _ _ _ Hh Hxr Hyr Hv) as (a' & rs' & E & Hz & H).
  exists rs', a'. split; [|by split].
  exact (step_alu64 call_ext en st i o x y v rs' Hi (holds_regs_wf _ _ Hh) Hf Ho Hcl Hne Hxr Hyr Hv Hz).
Qed.

(** C19: the 64-bit arithmetic that the compiler supports exactly does on the
    processor what the interpreter does: for each instruction of [jit_exact],
    the instructions [build_inst] emits for it, in whatever state of the
    compiler, run from every machine state that holds the registers of the
    interpreter, and end in one that holds its registers after the step, with
    nothing but scratch registers, flags and the scratch words changed. *)
Theorem compiled_alu64_simulates past_end pc i :
  inst_wf i -> i_dst i < MAX_BPF_EXT_REG -> i_src i < MAX_BPF_EXT_REG -> jit_exact i = true ->
  exists l, Compiles l 0 (build_inst past_end pc i) /\
    forall call_ext en st a, zget (e_insts en) (s_pc st) = Some i -> holds (s_reg st) a ->
    exists rs' a', step call_ext en st = Ok (mk_state (u16 (s_pc st + 1)) rs' (s_mem st)) /\
      exec l a = Some a' /\ holds rs' a' /\ frame a a'.
Proof. exact (alu64_simulates past_end pc i). Qed.

(** ** A machine state for given registers *)

Definition sample_fp : Z := 0x20001000.

Definition arm_of (rs : list Z) : arm :=
  let v k := default 0 (zget rs k) in
  let put (m : memory) k := if in_regs k then m else bytes_at (sample_fp + lo (row k)) (le_bytes 8 (v k)) m in
  let r k := if k =? lo (row 0) then u32 (v 0) else if k =? hi (row 0) then v 0 >> 32
             else if k =? lo (row 1) then u32 (v 1) else if k =? hi (row 1) then v 1 >> 32
             else if k =? lo (row 6) then u32 (v 6) else if k =? hi (row 6) then v 6 >> 32
             else if k =? ARM_FP then sample_fp else 0 in
  mk_arm r false false false false (foldl put ∅ (zrange 0 12)).

(** [holds], decided for such a state. *)
Definition holdsb (rs : list Z) (a : arm) : bool :=
  forallb (fun k => (0 <=? a_reg a k) && (a_reg a k <? 2 ^ 32)) (zrange 0 12) &&
  bool_decide (map_Forall (fun _ b => 0 <= b < 256) (a_mem a)) && (a_reg a ARM_FP mod 4 =? 0) &&
  bool_decide (length rs = Z.to_nat MAX_BPF_EXT_REG) &&
  forallb (fun k => bool_decide (zget rs k = value a k)) (zrange 0 12).

Lemma holdsb_holds (rs : list Z) : holdsb rs (arm_of rs) = true -> holds rs (arm_of rs).
Proof.
  unfold holdsb. intros ((((R & M%bool_decide_eq_true)%andb_true_iff & F%Z.eqb_eq)%andb_true_iff &
    L%bool_decide_eq_true)%andb_true_iff & V)%andb_true_iff.
  split; [|done|done|].
  - split; [|done]. intros k. destruct (decide (0 <= k < 12)) as [Hk|Hk].
    + pose proof (zrange_forallb _ _ _ R k Hk) as Hb. cbv beta in Hb. by zify_bools.
    + unfold arm_of. cbn [a_reg]. repeat match goal with |- context [k =? ?c] => 
        destruct (Z.eqb_spec k c) as [->|]; [exfalso; vm_compute in Hk; intuition discriminate|] end. done.
  - intros k Hk. pose proof (zrange_forallb _ _ _ V k Hk) as Hb. by apply bool_decide_eq_true in Hb.
Qed.

Definition sample_regs : list Z := [7; 0x1ffffffff; 2; 0xffffffffffffffff; 4; 5; 6; 7; 8; 9; 10; 11].

Lemma compiled_alu64_simulates_witness :
  exists l, Compiles l 0 (build_inst (0, 0) 0 (mk_inst 0x0f 2 3 0 0)) /\
    exists rs' a', step (fun _ _ _ => None) (mk_env [mk_inst 0x0f 2 3 0 0] false [] 0 0 0)
        (mk_state 0 sample_regs empty) = Ok (mk_state 1 rs' empty) /\
      exec l (arm_of sample_regs) = Some a' /\ holds rs' a' /\ frame (arm_of sample_regs) a' /\ zget rs' 2 = Some 1.
Proof.
  destruct (compiled_alu64_simulates (0, 0) 0 (mk_inst 0x0f 2 3 0 0)) as (l & Hc & H); [unfold inst_wf; cbn; lia|reflexivity..|].
  exists l. split; [exact Hc|].
  destruct (H (fun _ _ _ => None) (mk_env [mk_inst 0x0f 2 3 0 0] false [] 0 0 0) (mk_state 0 sample_regs empty)
    (arm_of sample_regs) eq_refl) as (rs' & a' & E & X).
  { apply holdsb_holds. vm_compute. reflexivity. }
  exists rs', a'. split; [exact E|]. destruct X as (X1 & X2 & X3). split; [exact X1|]. split; [exact X2|]. split; [exact X3|].
  assert (E' : step (fun _ _ _ => None) (mk_env [mk_inst 0x0f 2 3 0 0] false [] 0 0 0) (mk_state 0 sample_regs empty) =
    Ok (mk_state 1 (<[2%nat := 1]> sample_regs) empty)) by (vm_compute; reflexivity).
  rewrite E in E'. injection E' as ->. reflexivity.
Defined.

(** ** Where compiled arithmetic departs from the instruction set *)

(** The destination after the compiled instruction and the reference for it,
    with the registers 2 and 3 given. *)
Definition compiled (i : ebpf_inst) (rs : list Z) : option Z :=
  l ← decode (code_of (build_inst (0, 0) 0 i)); a ← exec l (arm_of rs); value a (i_dst i).
Definition wanted (i : ebpf_inst) (rs : list Z) : option Z :=
  x ← zget rs (i_dst i); y ← zget rs (i_src i);
  if BPF_CLASS (i_opcode i) =? EBPF_CLS_ALU64 then alu_ref 64 (i_opcode i) x (operand i y)
  else alu_ref 32 (i_opcode i) (u32 x) (u32 (operand i y)).
Definition two_regs (x y : Z) : list Z := [0; 0; x; y; 0; 0; 0; 0; 0; 0; 0; 0].
Definition departs (o : opcode) (imm x y got ref : Z) : Prop :=
  let i := mk_inst (opcode_val o) 2 3 0 imm in
  holds (two_regs x y) (arm_of (two_regs x y)) /\ compiled i (two_regs x y) = Some got /\ wanted i (two_regs x y) = Some ref.

Ltac departs := split; [apply holdsb_holds; vm_compute; reflexivity|split; vm_compute; reflexivity].

(** Exclusive or rotates one operand through the carry unless both are low
    registers other than R0; negation does not borrow from the high word; a
    left shift by a constant that is not a multiple of four shifts the high
    word in another way; a left shift by a register brings the low word's bits
    into the high one by a left shift; a right shift by a register moves the
    high word before it is used; division and remainder look at the low words,
    and the remainder multiplies the wrong factor; 32-bit operations leave the
    high word. *)
Theorem compiled_alu_departs :
  departs EBPF_OP_XOR64_REG 0 1 3 3 2 /\
  departs EBPF_OP_XOR64_IMM 3 1 0 3 2 /\
  departs EBPF_OP_NEG64 0 1 0 0xffffffff 0xffffffffffffffff /\
  departs EBPF_OP_LSH64_IMM 7 0x100000000 0 0x1000000000000000 0x8000000000 /\
  departs EBPF_OP_LSH64_REG 0 1 4 0x1000000000000010 16 /\
  departs EBPF_OP_RSH64_REG 0 0x1234567800000000 4 0x80000000 0x123456780000000 /\
  departs EBPF_OP_DIV64_REG 0 0x1000000000 4 0x1000000000 0x400000000 /\
  departs EBPF_OP_MOD64_REG 0 17 5 (2 ^ 32 - 82) 2 /\
  departs EBPF_OP_ADD_IMM 1 0x100000000 0 0x100000001 1.
Proof. repeat (apply conj; [departs|]). departs. Qed.

(** The 32-bit move of a constant takes the number of the register from the
    table even when it is an offset in the scratch area: what it emits for a
    register kept there is in the group of the branches (A5.3.4). *)
Theorem compiled_mov_imm_branches (past_end : Z * Z) (pc : Z) (k : Z) :
  0 <= k < MAX_BPF_EXT_REG -> in_regs k = false ->
  exists h1 h2, Emits [h1; h2] 0 (build_inst past_end pc (mk_inst (opcode_val EBPF_OP_MOV_IMM) k 0 0 1)) /\
    field h1 11 31 = 30 /\ field h2 15 1 = 1.
Proof.
  intros Hk Hr.
  assert (H : forallb (fun k => in_regs k || match code_of (emit_mov_imm (lo (row k)) 1), emit_mov_imm (lo (row k)) 1 blank with
    | [h1; h2], Some (tt, _) => (field h1 11 31 =? 30) && (field h2 15 1 =? 1)
    | _, _ => false end) (zrange 0 12) = true) by (vm_compute; reflexivity).
  pose proof (zrange_forallb _ _ _ H k Hk) as Hb. cbv beta in Hb. rewrite Hr in Hb. cbn [orb] in Hb.
  destruct (code_of _) as [|h1 [|h2 [|]]] eqn:Ec; try discriminate Hb.
  destruct (emit_mov_imm _ _ blank) as [[[] st]|] eqn:Es; [|discriminate Hb].
  exists h1, h2. split; [|by zify_bools]. rewrite <- Ec, <- (app_nil_r (code_of _)).
  assert (E : build_inst past_end pc (mk_inst (opcode_val EBPF_OP_MOV_IMM) k 0 0 1) =
    (_ ← emit_mov_imm (lo (row k)) 1; mret 0)) by (rewrite <- (bpf2a32_row past_end) by done; reflexivity).
  rewrite E. apply (emits_bind _ _ tt); [|apply emits_ret]. by eapply plain_emits; [apply st_mov_imm|].
Qed.
