(* ===== verification/JitJump.v ===== *)
(** * Compiled comparisons and loads

    What the code of a conditional jump decides before its branch, for every
    pair of operands: the signed orders compare 64 bits, the others the low
    words only.  And the code of the loads of a double word. *)

From S2P Require Import Prelude Mem EbpfInst EbpfVm EbpfVmProps EbpfVmSem EbpfTurns Thumb2 Jit JitEmit JitProps JitLayout.
From S2P Require Import ThumbSem JitSem JitArith JitBuild.

(** ** Comparisons of words *)

Definition signed_jump (op : Z) : bool := (op =? EBPF_JSGT) || (op =? EBPF_JSGE).

(** [d]: the pair of the destination, [s]: the pair of the operand. *)
Definition cmp_code (op : Z) (d s : Z * Z) : list thumb :=
  if op =? EBPF_JSGT then [ICmp (lo s) (lo d); IDp DSbc true ARM_IP (hi s) (hi d) 0 0]
  else if op =? EBPF_JSGE then [ICmp (lo d) (lo s); IDp DSbc true ARM_IP (hi d) (hi s) 0 0]
  else [ICmp (hi d) (hi s); ICmp (lo d) (lo s)].

(** What the condition of the branch is after the comparison. *)
Definition cmp_decides (op x y : Z) : bool :=
  if op =? EBPF_JEQ then u32 x =? u32 y
  else if op =? EBPF_JNE then negb (u32 x =? u32 y)
  else if op =? EBPF_JGT then u32 y <? u32 x
  else if op =? EBPF_JGE then u32 y <=? u32 x
  else if op =? EBPF_JSGT then s64 y <? s64 x
  else s64 y <=? s64 x.

Definition cmp_ops : list Z := [EBPF_JEQ; EBPF_JNE; EBPF_JGT; EBPF_JGE; EBPF_JSGT; EBPF_JSGE].

Lemma s32_cases (x : Z) : 0 <= x < 2 ^ 32 -> s32 x = if x <? 2 ^ 31 then x else x - 2 ^ 32.
Proof. intros H. unfold s32, sext. rewrite Z.mod_small by lia. done. Qed.

Lemma s64_cases (x : Z) : 0 <= x < 2 ^ 64 -> s64 x = if x <? 2 ^ 63 then x else x - 2 ^ 64.
Proof. intros H. unfold s64, sext. rewrite Z.mod_small by lia. done. Qed.

Lemma testbit_31 (x : Z) : 0 <= x < 2 ^ 32 -> Z.testbit x 31 = (2 ^ 31 <=? x).
Proof.
  intros H. destruct (Z.leb_spec (2 ^ 31) x).
  - apply Z.testbit_true; [lia|]. by rewrite <- (Z.div_unique x (2 ^ 31) 1 (x - 2 ^ 31)) by lia.
  - apply (testbit_above 31); lia.
Qed.

(** N and V of a signed result that fits in 33 bits. *)
Lemma sign_of (r e : Z) :
  - 2 ^ 32 <= e < 2 ^ 32 -> r = u32 e -> eqb (Z.testbit r 31) (negb (s32 r =? e)) = (0 <=? e).
Proof.
  intros He ->. rewrite testbit_31, s32_cases by apply u32_range. unfold u32, wrap. Z.to_euclidean_division_equations.
  repeat match goal with
  | |- context [?a <? ?b] => destruct (Z.ltb_spec a b); try lia
  | |- context [?a <=? ?b] => destruct (Z.leb_spec a b); try lia
  | |- context [?a =? ?b] => destruct (Z.eqb_spec a b); try lia
  end; done.
Qed.

(** The signed order of 64-bit numbers, as N and V after a subtraction of the
    high words with the borrow of the low ones. *)
Lemma borrow_sign (l h l' h' : Z) :
  0 <= l < 2 ^ 32 -> 0 <= h < 2 ^ 32 -> 0 <= l' < 2 ^ 32 -> 0 <= h' < 2 ^ 32 ->
  let c := 2 ^ 32 <=? l + not32 l' + 1 in
  let r := u32 (h + not32 h' + b2z c) in
  eqb (Z.testbit r 31) (negb (s32 r =? s32 h + s32 (not32 h') + b2z c)) = (s64 (mk64 l' h') <=? s64 (mk64 l h)).
Proof.
  intros Hl Hh Hl' Hh' c r. assert (Hc : 0 <= b2z c <= 1) by (by destruct c).
  rewrite (sign_of r).
  - rewrite !s32_cases, !s64_cases by (try apply not32_range; try apply mk64_range; done). unfold mk64, c, b2z.
    destruct (Z.leb_spec (2 ^ 32) (l + not32 l' + 1)); unfold not32 in *;
    repeat match goal with
    | |- context [?a <? ?b] => destruct (Z.ltb_spec a b); try lia
    | |- context [?a <=? ?b] => destruct (Z.leb_spec a b); try lia
    end; done.
  - rewrite !s32_cases by (try apply not32_range; done). unfold not32. repeat case_match; zify_bools; lia.
  - unfold r, u32. rewrite <- wrap_add_l, <- (wrap_add_l _ (s32 h + _)), <- (wrap_add_l _ h), <- (wrap_add_l _ (s32 h)), <- (wrap_add_r _ _ (s32 _)).
    unfold s32. rewrite !wrap_sext. by rewrite wrap_add_r.
Qed.

Lemma u32_mk64 (l h : Z) : 0 <= l < 2 ^ 32 -> u32 (mk64 l h) = l.
Proof. intros Hl. unfold u32, wrap, mk64. rewrite Z.mod_add by lia. by apply Z.mod_small. Qed.

(** The flags after the comparison of two words. *)
Lemma cmp_flags (x y : Z) (a : arm) :
  0 <= x < 2 ^ 32 -> 0 <= y < 2 ^ 32 ->
  a_Z (exec_cmp x y a) = (x =? y) /\ a_C (exec_cmp x y a) = (y <=? x).
Proof.
  intros Hx Hy. unfold exec_cmp, add_with_carry, not32, b2z. cbn [a_Z a_C arm_flags]. split.
  - unfold u32, wrap. destruct (Z.eqb_spec ((x + (2 ^ 32 - 1 - y) + 1) mod 2 ^ 32) 0), (Z.eqb_spec x y); try done;
      Z.to_euclidean_division_equations; lia.
  - destruct (Z.leb_spec (2 ^ 32) (x + (2 ^ 32 - 1 - y) + 1)), (Z.leb_spec y x); (done || lia).
Qed.

(** The code of a comparison changes IP and the flags. *)
Lemma cmp_changes (op : Z) (d s : Z * Z) (a a' : arm) :
  arm_wf a -> exec (cmp_code op d s) a = Some a' -> changes clobbered a a'.
Proof.
  intros W E. eapply exec_changes; [done| |exact E]. unfold cmp_code.
  destruct (op =? EBPF_JSGT); [|destruct (op =? EBPF_JSGE)]; reflexivity.
Qed.

Lemma cmp_low (op : Z) (d s : Z * Z) (a : arm) :
  signed_jump op = false -> arm_wf a ->
  exists a', exec (cmp_code op d s) a = Some a' /\
    a_Z a' = (u32 (reg64 a d) =? u32 (reg64 a s)) /\ a_C a' = (u32 (reg64 a s) <=? u32 (reg64 a d)).
Proof.
  intros [E1 E2]%orb_false_iff [R _]. unfold cmp_code, reg64. rewrite E1, E2, !u32_mk64 by apply R.
  eexists. split; [reflexivity|]. by apply cmp_flags.
Qed.

(** The signed comparison of [x] and [y], the other way round for JSGT. *)
Definition sbcs_code (x y : Z * Z) : list thumb := [ICmp (lo x) (lo y); IDp DSbc true ARM_IP (hi x) (hi y) 0 0].

Lemma cmp_signed (x y : Z * Z) (a : arm) :
  arm_wf a -> exists a', exec (sbcs_code x y) a = Some a' /\
    eqb (a_N a') (a_V a') = (s64 (reg64 a y) <=? s64 (reg64 a x)).
Proof.
  intros [R _]. eexists. split; [reflexivity|]. unfold reg64. rewrite <- borrow_sign by apply R. done.
Qed.

Lemma cmp_exec (op : Z) (d s : Z * Z) (a : arm) :
  op ∈ cmp_ops -> arm_wf a ->
  exists a' c, cond_of op = Some c /\ exec (cmp_code op d s) a = Some a' /\ changes clobbered a a' /\
    cond_holds c a' = cmp_decides op (reg64 a d) (reg64 a s).
Proof.
  intros Hop W. set (x := reg64 a d). set (y := reg64 a s).
  assert (Hd : exists a' c, cond_of op = Some c /\ exec (cmp_code op d s) a = Some a' /\
    cond_holds c a' = cmp_decides op x y).
  { destruct (signed_jump op) eqn:Hs.
    - apply orb_true_iff in Hs as [->%Z.eqb_eq | ->%Z.eqb_eq].
      + destruct (cmp_signed s d a W) as (a' & E & F). exists a', COND_LT. split_and!; [done|exact E|].
        change (cond_holds COND_LT a') with (negb (eqb (a_N a') (a_V a'))). rewrite F. fold x y.
        change (cmp_decides EBPF_JSGT x y) with (s64 y <? s64 x). by rewrite Z.ltb_antisym.
      + destruct (cmp_signed d s a W) as (a' & E & F). by exists a', COND_GE.
    - destruct (cmp_low op d s a Hs W) as (a' & E & FZ & FC). fold x y in FZ, FC. exists a'.
      unfold cmp_ops in Hop. rewrite !elem_of_cons, elem_of_nil in Hop.
      destruct Hop as [->|[->|[->|[->|[->|[->|[]]]]]]]; try discriminate Hs.
      + by exists COND_EQ.
      + exists COND_NE. split_and!; [done..|]. change (negb (a_Z a') = negb (u32 x =? u32 y)). by rewrite FZ.
      + exists COND_HI. split_and!; [done..|]. change (a_C a' && negb (a_Z a') = (u32 y <? u32 x)). rewrite FZ, FC.
        destruct (Z.leb_spec (u32 y) (u32 x)), (Z.eqb_spec (u32 x) (u32 y)), (Z.ltb_spec (u32 y) (u32 x)); (done || lia).
      + by exists COND_CS. }
  destruct Hd as (a' & c & Hc & E & Hh). exists a', c. split_and!; try done. by eapply cmp_changes.
Qed.

(** ** The code before the branch *)

Definition halves_code (j : Z) : list thumb :=
  if in_regs j then [] else [ILdr ARM_R9 ARM_FP (hi (row j)); ILdr ARM_R8 ARM_FP (lo (row j))].

Lemma compiles_halves (j : Z) :
  0 <= j < MAX_BPF_EXT_REG ->
  Compiles (halves_code j) (pair_of j tmp2)
    (rm ← arm_bpf_get_reg32 (hi (row j)) (hi tmp2); rn ← arm_bpf_get_reg32 (lo (row j)) (lo tmp2); mret (rm, rn)).
Proof.
  intros Hj. apply compiles_code; [repeat straight_step|].
  assert (H : forallb (fun j => code_is
    (rm ← arm_bpf_get_reg32 (hi (row j)) (hi tmp2); rn ← arm_bpf_get_reg32 (lo (row j)) (lo tmp2); mret (rm, rn))
    (pair_of j tmp2) (halves_code j)) (zrange 0 12) = true) by (vm_compute; reflexivity).
  exact (zrange_forallb _ _ _ H j Hj).
Qed.

Lemma compiles_cmp (op k : Z) (s : Z * Z) :
  op ∈ cmp_ops -> 0 <= k < MAX_BPF_EXT_REG -> s ∈ src_pairs ->
  Compiles (get_code k tmp1 ++ cmp_code op (pair_of k tmp1) s) tt
    (rd ← arm_bpf_get_reg64 (row k) tmp1; _ ← _emit_cmp_cond (hi rd) (lo rd) (hi s) (lo s) op true; mret tt).
Proof.
  intros Hop Hk Hs. apply compiles_code; [repeat straight_step|].
  assert (H : forallb (fun op => forallb (fun s => forallb (fun k => code_is
      (rd ← arm_bpf_get_reg64 (row k) tmp1; _ ← _emit_cmp_cond (hi rd) (lo rd) (hi s) (lo s) op true; mret tt) tt
      (get_code k tmp1 ++ cmp_code op (pair_of k tmp1) s)) (zrange 0 12)) src_pairs) cmp_ops = true)
    by (vm_compute; reflexivity).
  rewrite forallb_forall in H. apply list_elem_of_In in Hop, Hs. specialize (H op Hop). cbv beta in H.
  rewrite forallb_forall in H. specialize (H s Hs). exact (zrange_forallb _ _ _ H k Hk).
Qed.

Lemma half_slot (rs : list Z) (a : arm) (j : Z) :
  holds rs a -> 0 <= j < MAX_BPF_EXT_REG -> in_regs j = false ->
  exists l h, load_le 4 (u32 (a_reg a ARM_FP + lo (row j))) (a_mem a) = Some l /\
    load_le 4 (u32 (a_reg a ARM_FP + hi (row j))) (a_mem a) = Some h /\ zget rs j = Some (mk64 l h) /\
    0 <= l < 2 ^ 32 /\ 0 <= h < 2 ^ 32.
Proof.
  intros Hh Hj Hr. destruct (value_stack rs a Hh j Hj Hr) as (l & h & H1 & H2 & H3).
  destruct (row_stack j Hj Hr) as (-> & _). pose proof (proj2 (holds_wf _ _ Hh)) as W. exists l, h.
  rewrite !load_le_u32.
  pose proof (load_le_range 4 _ _ _ W H1). pose proof (load_le_range 4 _ _ _ W H2). by repeat (split; [done|]).
Qed.

Lemma halves_exec (rs : list Z) (a : arm) (j y : Z) :
  holds rs a -> zget rs j = Some y ->
  exists a', exec (halves_code j) a = Some a' /\ changes [8; 9] a a' /\ reg64 a' (pair_of j tmp2) = y.
Proof.
  intros Hh Hy. pose proof (holds_length _ _ _ _ Hh Hy) as Hj. unfold halves_code, pair_of. destruct (in_regs j) eqn:Hr.
  - exists a. split_and!; [done|by apply changes_refl, Hh|]. pose proof (value_regs _ _ Hh j Hj Hr). congruence.
  - destruct (half_slot rs a j Hh Hj Hr) as (l & h & H1 & H2 & Hv & Rl & Rh). rewrite Hy in Hv. injection Hv as ->.
    exists (arm_set ARM_R8 l (arm_set ARM_R9 h a)). split_and!.
    + cbn [exec exec1]. rewrite H2. cbn [mbind option_bind]. change (a_reg (arm_set ARM_R9 h a) ARM_FP) with (a_reg a ARM_FP).
      change (a_mem (arm_set ARM_R9 h a)) with (a_mem a). by rewrite H1.
    + eapply (changes_trans [8; 9] [8; 9]); [| |done..]; apply arm_set_changes; try done;
        try (apply arm_set_wf; [apply Hh|done]); try apply Hh; [by right; left|by left].
    + done.
Qed.

Lemma src_fresh (j : Z) : 0 <= j < MAX_BPF_EXT_REG -> (lo (pair_of j tmp2) ∉ [6; 7]) /\ (hi (pair_of j tmp2) ∉ [6; 7]).
Proof.
  intros Hj%src_pair. unfold src_pairs in Hj. rewrite !elem_of_cons, elem_of_nil in Hj.
  destruct Hj as [->|[->|[->|[->|[]]]]]; split; by apply (bool_decide_unpack _).
Qed.

(** The operand is in its pair; the destination is brought to its own, and the
    comparison made. *)
Lemma cmp_after (op k x y : Z) (s : Z * Z) (rs : list Z) (a0 a : arm) :
  op ∈ cmp_ops -> holds rs a0 -> changes clobbered a0 a -> zget rs k = Some x ->
  (lo s ∉ [6; 7]) -> (hi s ∉ [6; 7]) -> reg64 a s = y ->
  exists a' c, cond_of op = Some c /\ exec (get_code k tmp1 ++ cmp_code op (pair_of k tmp1) s) a = Some a' /\
    changes clobbered a0 a' /\ cond_holds c a' = cmp_decides op x y.
Proof.
  intros Hop Hh C Hx H1 H2 Hy. pose proof (holds_length _ _ _ _ Hh Hx) as Hk.
  pose proof (holds_changes _ _ Hh _ _ C ltac:(done)) as Hh1.
  destruct (get_exec rs a Hh1 k tmp1 [6; 7] Hk) as (a1 & E1 & C1 & V1); [done|by left|right; by left|].
  destruct (cmp_exec op (pair_of k tmp1) s a1 Hop (proj2 (proj2 C1))) as (a' & c & Hc & E & C2 & D).
  exists a', c. rewrite exec_app, E1. rewrite (changes_reg64 _ _ _ s C1 H1 H2), Hy in D. rewrite V1 in Hx.
  injection Hx as <-. split_and!; try done.
  eapply changes_trans; [exact C| |done|done]. eapply changes_trans; [exact C1|exact C2|exact tmp1_clobbered|done].
Qed.

Section Cond.
Context (past_end : Z * Z) (i : ebpf_inst) (Hi : inst_wf i).
Context (Hd : 0 <= i_dst i < MAX_BPF_EXT_REG) (Hs : 0 <= i_src i < MAX_BPF_EXT_REG).
Context (Hop : BPF_OP (i_opcode i) ∈ cmp_ops) (Hcl : BPF_CLASS (i_opcode i) = EBPF_CLS_JMP).

(** The code before the branch of a conditional jump, and what it decides. *)
Lemma cond_prefix_decides :
  (BPF_SRC (i_opcode i) = EBPF_SRC_REG \/ i_offset i <> 0) ->
  exists l, Compiles l tt (cond_prefix past_end i) /\
    forall rs a x y, holds rs a -> zget rs (i_dst i) = Some x -> zget rs (i_src i) = Some y ->
    exists a' c, cond_of (BPF_OP (i_opcode i)) = Some c /\ exec l a = Some a' /\ changes clobbered a a' /\
      cond_holds c a' = cmp_decides (BPF_OP (i_opcode i)) x (operand i y).
Proof using Hi Hd Hs Hop Hcl.
  intros Hb. unfold cond_prefix, operand. rewrite !bpf2a32_row by done. cbv zeta. rewrite Hcl.
  change (EBPF_CLS_JMP =? EBPF_CLS_JMP) with true. destruct (Z.eqb_spec (BPF_SRC (i_opcode i)) EBPF_SRC_REG) as [E|Hne].
  - cbn [negb andb]. exists (halves_code (i_src i) ++ get_code (i_dst i) tmp1 ++
      cmp_code (BPF_OP (i_opcode i)) (pair_of (i_dst i) tmp1) (pair_of (i_src i) tmp2)). split.
    { eapply compiles_bind; [by apply compiles_halves|]. apply compiles_cmp; [done..|by apply src_pair]. }
    intros rs a x y Hh Hx Hy. destruct (halves_exec rs a _ y Hh Hy) as (a1 & E1 & C1 & V1).
    destruct (src_fresh _ Hs) as [F1 F2].
    destruct (cmp_after _ (i_dst i) x y (pair_of (i_src i) tmp2) rs a a1 Hop Hh) as (a' & c & Hc & Ex & C & D); try done.
    { by eapply changes_sub, tmp2_clobbered. }
    exists a', c. rewrite exec_app, E1. by split_and!.
  - destruct Hb as [Hb|Hb]; [done|]. destruct (Z.eqb_spec (i_offset i) 0); [done|]. cbn [negb andb].
    destruct (compiles_se_imm i Hi TMP_REG_2 ltac:(done)) as (val & Hval & Eval).
    exists (mov_pair_code tmp2 val ++ get_code (i_dst i) tmp1 ++ cmp_code (BPF_OP (i_opcode i)) (pair_of (i_dst i) tmp1) tmp2). split.
    { unfold const_code in Hval. rewrite app_nil_r in Hval. eapply compiles_bind; [by eapply compiles_then|].
      apply (compiles_cmp _ _ tmp2); [done..|]. by do 3 right; left. }
    intros rs a x y Hh Hx Hy.
    destruct (mov_pair_exec tmp2 val [8; 9] a (holds_wf _ _ Hh)) as (a1 & E1 & C1 & V1); [by left|by right; left|done|].
    destruct (cmp_after _ (i_dst i) x (u64 val) tmp2 rs a a1 Hop Hh) as (a' & c & Hc & Ex & C & D); try done.
    { by eapply changes_sub, tmp2_clobbered. }
    { by apply (bool_decide_unpack _). }
    { by apply (bool_decide_unpack _). }
    exists a', c. rewrite exec_app, E1, <- Eval. by split_and!.
Qed.
End Cond.

(** ** Loads of a double word *)

Lemma load_le_split (n k : nat) (a v : Z) (m : memory) :
  load_le (n + k) a m = Some v ->
  exists x y, load_le n a m = Some x /\ load_le k (a + Z.of_nat n) m = Some y /\ v = x .| (y << (8 * Z.of_nat n)).
Proof.
  intros H. pose proof (load_le_mapped (n + k) a m ltac:(by rewrite H)) as Hm.
  destruct (load_le_is_Some n a m) as [x Hx]; [intros j Hj; apply Hm; lia|].
  destruct (load_le_is_Some k (a + Z.of_nat n) m) as [y Hy].
  { intros j Hj. rewrite <- Z.add_assoc. apply Hm. lia. }
  exists x, y. split_and!; [done..|]. pose proof (load_le_app n k a x y m Hx Hy). congruence.
Qed.

Lemma load_le_sub (n : nat) (a v : Z) (m m' : memory) : m ⊆ m' -> load_le n a m = Some v -> load_le n a m' = Some v.
Proof.
  intros Hs H. rewrite <- H. apply load_le_ext. intros k Hk.
  destruct (load_le_mapped n a m ltac:(by rewrite H) k Hk) as [b Hb]. rewrite Hb. by eapply lookup_weaken.
Qed.

(** [rn]: the register that holds the address. *)
Definition base_code (j : Z) : list thumb := if in_regs j then [] else [ILdr ARM_R8 ARM_FP (lo (row j))].
Definition ldx_code (k rn off : Z) : list thumb :=
  let d := pair_of k tmp1 in
  let rm := if lo d =? rn then ARM_R7 else rn in
  (if lo d =? rn then [IMov ARM_R7 rn] else []) ++ [ILdr (lo d) rm off; ILdr (hi d) rm (off + 4)] ++ put_code k d.

Definition ldx_bases : list Z := [0; 2; 4; 8].

Lemma compiles_base (j : Z) :
  0 <= j < MAX_BPF_EXT_REG -> Compiles (base_code j) (lo (pair_of j tmp2)) (arm_bpf_get_reg32 (lo (row j)) (lo tmp2)).
Proof.
  intros Hj. apply compiles_code; [apply st_get32|].
  assert (H : forallb (fun j => code_is (arm_bpf_get_reg32 (lo (row j)) (lo tmp2)) (lo (pair_of j tmp2)) (base_code j))
    (zrange 0 12) = true) by (vm_compute; reflexivity).
  exact (zrange_forallb _ _ _ H j Hj).
Qed.

Lemma compiles_ldr (rt rn off : Z) :
  0 <= rt < 8 -> rn ∈ ARM_R7 :: ldx_bases -> -255 <= off <= 255 -> Compiles [ILdr rt rn off] tt (_emit_ldr_i rt rn off).
Proof.
  intros Ht Hn Ho. apply compiles_code; [apply st_ldr_i|].
  assert (H : forallb (fun rn => forallb (fun rt => forallb (fun off => code_is (_emit_ldr_i rt rn off) tt [ILdr rt rn off])
    (zrange (-255) 511)) (zrange 0 8)) (ARM_R7 :: ldx_bases) = true) by (vm_compute; reflexivity).
  rewrite forallb_forall in H. apply list_elem_of_In in Hn. specialize (H rn Hn). cbv beta in H.
  pose proof (zrange_forallb _ _ _ H rt Ht) as H2. cbv beta in H2. exact (zrange_forallb _ _ _ H2 off ltac:(lia)).
Qed.

Lemma compiles_r7 (rn : Z) : rn ∈ ldx_bases -> Compiles [IMov ARM_R7 rn] tt (emit_a32_mov_reg rn ARM_R7).
Proof.
  intros Hn. apply compiles_code; [apply st_a32_mov|].
  assert (H : forallb (fun rn => code_is (emit_a32_mov_reg rn ARM_R7) tt [IMov ARM_R7 rn]) ldx_bases = true)
    by (vm_compute; reflexivity).
  rewrite forallb_forall in H. apply H. by apply list_elem_of_In.
Qed.

Lemma dst_low (k : Z) : 0 <= k < MAX_BPF_EXT_REG ->
  0 <= lo (pair_of k tmp1) < 7 /\ 0 <= hi (pair_of k tmp1) < 8 /\ lo (pair_of k tmp1) <> hi (pair_of k tmp1).
Proof.
  intros Hk%dst_pair. unfold dst_pairs in Hk. rewrite !elem_of_cons, elem_of_nil in Hk.
  destruct Hk as [->|[->|[->|[->|[]]]]]; cbn; lia.
Qed.

Lemma compiles_ldx (k rn off : Z) :
  0 <= k < MAX_BPF_EXT_REG -> rn ∈ ldx_bases -> -255 <= off <= 251 ->
  Compiles (ldx_code k rn off) tt (emit_ldx_reg (row k) rn off EBPF_SIZE_DW).
Proof.
  intros Hk Hn Ho. destruct (dst_low k Hk) as (L & H & _). unfold emit_ldx_reg, ldx_code. cbv zeta.
  assert (E : (if is_stacked (lo (row k)) then tmp1 else row k) = pair_of k tmp1).
  { unfold pair_of, in_regs. by destruct (is_stacked _). }
  rewrite E. change (is_ldst_imm off EBPF_SIZE_DW) with ((- 4091 <=? off) && (off <=? 4091)).
  destruct (Z.leb_spec (- 4091) off), (Z.leb_spec off 4091); try lia. cbn [andb negb].
  change (EBPF_SIZE_DW =? EBPF_SIZE_B) with false. change (EBPF_SIZE_DW =? EBPF_SIZE_H) with false.
  change (EBPF_SIZE_DW =? EBPF_SIZE_W) with false. change (EBPF_SIZE_DW =? EBPF_SIZE_DW) with true. cbv iota.
  set (d := pair_of k tmp1) in *. set (rm := if lo d =? rn then ARM_R7 else rn).
  apply (compiles_bind _ _ (rm, off)).
  - unfold rm. destruct (lo d =? rn); [|apply compiles_ret]. eapply compiles_then. by apply compiles_r7.
  - cbv iota. assert (Hrm : rm ∈ ARM_R7 :: ldx_bases) by (unfold rm; destruct (lo d =? rn); [by left|by right]).
    apply (compiles_bind [ILdr (lo d) rm off; ILdr (hi d) rm (off + 4)] _ tt).
    + apply (compiles_bind [ILdr (lo d) rm off] [ILdr (hi d) rm (off + 4)] tt); [apply compiles_ldr; (done || lia)|].
      unfold s16. rewrite sext_small by lia. apply compiles_ldr; (done || lia).
    + apply compiles_put64. unfold is_row. change MAX_BPF_EXT_REG with 12 in Hk. change TMP_REG_2 with 13. lia.
Qed.

Lemma base_exec (rs : list Z) (a : arm) (j y : Z) :
  holds rs a -> zget rs j = Some y ->
  exists a', exec (base_code j) a = Some a' /\ changes [8; 9] a a' /\ a_reg a' (lo (pair_of j tmp2)) = u32 y.
Proof.
  intros Hh Hy. pose proof (holds_length _ _ _ _ Hh Hy) as Hj. pose proof (proj1 (holds_wf _ _ Hh)) as R.
  unfold base_code, pair_of. destruct (in_regs j) eqn:Hr.
  - exists a. pose proof (value_regs _ _ Hh j Hj Hr) as V. rewrite Hy in V. injection V as ->.
    split_and!; [done|by apply changes_refl, Hh|]. unfold reg64. by rewrite u32_mk64.
  - destruct (half_slot rs a j Hh Hj Hr) as (l & h & H1 & H2 & Hv & Rl & Rh). rewrite Hy in Hv. injection Hv as ->.
    exists (arm_set ARM_R8 l a). split_and!; [cbn [exec exec1]; by rewrite H1|apply arm_set_changes; [apply Hh|done|by left]|].
    cbn. by rewrite u32_mk64.
Qed.

Lemma base_in (j : Z) : 0 <= j < MAX_BPF_EXT_REG -> lo (pair_of j tmp2) ∈ ldx_bases.
Proof.
  intros Hj%src_pair. unfold src_pairs in Hj. rewrite !elem_of_cons, elem_of_nil in Hj.
  destruct Hj as [->|[->|[->|[->|[]]]]]; by apply (bool_decide_unpack _).
Qed.

Lemma ldx_exec (rs : list Z) (a0 a : arm) (k rn off y v : Z) :
  holds rs a0 -> changes clobbered a0 a -> 0 <= k < MAX_BPF_EXT_REG -> a_reg a rn = u32 y ->
  load_le 8 (u32 (y + off)) (a_mem a) = Some v ->
  exists a' rs', exec (ldx_code k rn off) a = Some a' /\ zset rs k v = Some rs' /\ holds rs' a' /\ frame a0 a'.
Proof.
  intros Hh C Hk Hrn Hv. destruct (dst_low k Hk) as (Hlo & _ & Hne). unfold ldx_code. cbv zeta.
  set (d := pair_of k tmp1) in *. set (rm := if lo d =? rn then ARM_R7 else rn).
  assert (Hm : exists a1, exec (if lo d =? rn then [IMov ARM_R7 rn] else []) a = Some a1 /\ changes clobbered a0 a1 /\
    a_mem a1 = a_mem a /\ a_reg a1 rm = u32 y /\ rm <> lo d).
  { unfold rm. destruct (Z.eqb_spec (lo d) rn) as [E|E].
    - exists (arm_set ARM_R7 (a_reg a rn) a). split_and!; try done; [|unfold ARM_R7; lia].
      eapply changes_trans; [exact C|apply (arm_set_changes _ _ clobbered)|done|done]; [apply C|apply C|].
      by apply (bool_decide_unpack _).
    - exists a. split_and!; try done; congruence. }
  destruct Hm as (a1 & E1 & C1 & M1 & R1 & Hrm).
  apply (load_le_split 4 4) in Hv as (l & h & Hl & Hhi & ->). pose proof (proj2 (proj2 C1)) as W1. rewrite <- M1 in Hl, Hhi.
  pose proof (load_le_range 4 _ _ _ (proj2 W1) Hl). pose proof (load_le_range 4 _ _ _ (proj2 W1) Hhi).
  set (a2 := arm_set (lo d) l a1). set (a3 := arm_set (hi d) h a2).
  destruct (put_exec rs a0 a3 k Hh Hk) as (a' & rs' & E & Hz & H').
  { fold d. eapply (changes_trans _ (lo d :: hi d :: clobbered)); [exact C1| |intros r Hr; by do 2 right|done].
    eapply changes_trans; [apply (arm_set_changes (lo d) l (lo d :: hi d :: clobbered)); [done|done|by left]| |done|done].
    apply arm_set_changes; [by apply arm_set_wf|done|right; by left]. }
  assert (A : forall o, u32 (u32 y + o) = u32 (y + o)) by (intros; apply wrap_add_l).
  assert (Hh4 : load_le 4 (u32 (y + off + 4)) (a_mem a1) = Some h).
  { rewrite <- Hhi, <- (load_le_u32 4 (u32 (y + off) + _)). f_equal. symmetry. apply wrap_add_l. }
  exists a', rs'. fold d in E, Hz. split_and!; [|rewrite <- Hz; f_equal|apply H'..].
  - rewrite exec_app, E1. cbn [mbind option_bind]. rewrite exec_app. cbn [exec exec1].
    rewrite R1, A, Hl. cbn [mbind option_bind]. change (a_mem (arm_set _ _ a1)) with (a_mem a1).
    change (a_reg (arm_set (lo d) l a1) rm) with (upd (a_reg a1) (lo d) l rm). rewrite upd_ne, R1, A by done.
    replace (y + (off + 4)) with (y + off + 4) by lia. rewrite Hh4. exact E.
  - unfold reg64, a3, a2. cbn [arm_set a_reg]. rewrite upd_ne, upd_eq, upd_eq by congruence.
    unfold mk64. rewrite lor_shiftl_add; [done|lia|done].
Qed.

(** The instruction: a load of a double word runs as the interpreter's does,
    when the memory of the machine has what the interpreter's has. *)
Definition ldx_range (off : Z) : bool := (-255 <=? off) && (off <=? 251).

Lemma build_load_refines (past_end : Z * Z) (pc : Z) (i : ebpf_inst) :
  opcode_of (i_opcode i) = Some EBPF_OP_LDXDW -> 0 <= i_dst i < MAX_BPF_EXT_REG -> 0 <= i_src i < MAX_BPF_EXT_REG ->
  ldx_range (i_offset i) = true ->
  exists l, Compiles l 0 (build_inst past_end pc i) /\
    forall rs a (m : memory) y v, holds rs a -> m ⊆ a_mem a -> zget rs (i_src i) = Some y ->
      load_le 8 (u32 (y + i_offset i)) m = Some v ->
      exists a' rs', exec l a = Some a' /\ zset rs (i_dst i) v = Some rs' /\ holds rs' a' /\ frame a a'.
Proof.
  intros Ho Hd Hs [H1%Z.leb_le H2%Z.leb_le]%andb_true_iff. pose proof (opcode_of_Some _ _ Ho) as Hc.
  set (rn := lo (pair_of (i_src i) tmp2)).
  exists (base_code (i_src i) ++ ldx_code (i_dst i) rn (i_offset i)). split.
  - unfold build_inst. rewrite Ho. cbv zeta. unfold build_load. rewrite !bpf2a32_row, Hc by done. cbv zeta.
    apply (compiles_then _ tt). eapply compiles_bind; [by apply compiles_base|].
    change (BPF_SIZE (opcode_val EBPF_OP_LDXDW)) with EBPF_SIZE_DW. apply compiles_ldx; [done|by apply base_in|lia].
  - intros rs a m y v Hh Hm Hy Hv. destruct (base_exec rs a _ y Hh Hy) as (a1 & E1 & C1 & R1).
    destruct (ldx_exec rs a a1 (i_dst i) rn (i_offset i) y v Hh) as (a' & rs' & E & H); try done.
    + by eapply changes_sub, tmp2_clobbered.
    + apply (load_le_sub _ _ _ m); [|done]. by rewrite (proj1 (proj2 C1)).
    + exists a', rs'. rewrite exec_app, E1. by split.
Qed.

(** ** Loads of a word *)

(** A load of a word writes the low word of the destination only: it is right
    for a register whose high word is 0, and that is not kept on the stack. *)
Definition ldxw_code (k rn off : Z) : list thumb :=
  let d := pair_of k tmp1 in
  let rm := if lo d =? rn then ARM_R7 else rn in
  (if lo d =? rn then [IMov ARM_R7 rn] else []) ++ [ILdr (lo d) rm off] ++ put_code k d.

Lemma compiles_ldxw (k rn off : Z) :
  0 <= k < MAX_BPF_EXT_REG -> rn ∈ ldx_bases -> -255 <= off <= 251 ->
  Compiles (ldxw_code k rn off) tt (emit_ldx_reg (row k) rn off EBPF_SIZE_W).
Proof.
  intros Hk Hn Ho. destruct (dst_low k Hk) as (L & H & _). unfold emit_ldx_reg, ldxw_code. cbv zeta.
  assert (E : (if is_stacked (lo (row k)) then tmp1 else row k) = pair_of k tmp1).
  { unfold pair_of, in_regs. by destruct (is_stacked _). }
  rewrite E. change (is_ldst_imm off EBPF_SIZE_W) with ((- 4095 <=? off) && (off <=? 4095)).
  destruct (Z.leb_spec (- 4095) off), (Z.leb_spec off 4095); try lia. cbn [andb negb].
  change (EBPF_SIZE_W =? EBPF_SIZE_B) with false. change (EBPF_SIZE_W =? EBPF_SIZE_H) with false.
  change (EBPF_SIZE_W =? EBPF_SIZE_W) with true. cbv iota.
  set (d := pair_of k tmp1) in *. set (rm := if lo d =? rn then ARM_R7 else rn).
  apply (compiles_bind _ _ (rm, off)).
  - unfold rm. destruct (lo d =? rn); [|apply compiles_ret]. eapply compiles_then. by apply compiles_r7.
  - cbv iota. assert (Hrm : rm ∈ ARM_R7 :: ldx_bases) by (unfold rm; destruct (lo d =? rn); [by left|by right]).
    apply (compiles_bind [ILdr (lo d) rm off] _ tt); [apply compiles_ldr; (done || lia)|].
    apply compiles_put64. unfold is_row. change MAX_BPF_EXT_REG with 12 in Hk. change TMP_REG_2 with 13. lia.
Qed.

Lemma high_word_zero (rs : list Z) (a : arm) (k x : Z) :
  holds rs a -> 0 <= k < MAX_BPF_EXT_REG -> in_regs k = true -> zget rs k = Some x -> x >> 32 = 0 -> a_reg a (hi (row k)) = 0.
Proof.
  intros Hh Hk Hr Hx H0. rewrite (value_regs _ _ Hh k Hk Hr) in Hx. injection Hx as <-. pose proof (proj1 (holds_wf _ _ Hh)) as R.
  unfold reg64, mk64 in H0. rewrite Z.shiftr_div_pow2, Z.div_add, Z.div_small in H0 by (lia || apply R). lia.
Qed.

Lemma ldxw_exec (rs : list Z) (a0 a : arm) (k rn off y x v : Z) :
  holds rs a0 -> changes clobbered a0 a -> 0 <= k < MAX_BPF_EXT_REG -> in_regs k = true -> zget rs k = Some x -> x >> 32 = 0 ->
  a_reg a rn = u32 y -> load_le 4 (u32 (y + off)) (a_mem a) = Some v ->
  exists a' rs', exec (ldxw_code k rn off) a = Some a' /\ zset rs k v = Some rs' /\ holds rs' a' /\ frame a0 a'.
Proof.
  intros Hh C Hk Hreg Hx H0 Hrn Hv. pose proof (high_word_zero rs a0 k x Hh Hk Hreg Hx H0) as Hhigh.
  destruct (row_regs k Hk Hreg) as (Hr1 & Hr2 & Hr3). unfold ldxw_code. cbv zeta.
  assert (Hd : pair_of k tmp1 = row k) by (unfold pair_of; by rewrite Hreg). rewrite Hd.
  set (d := row k) in *. set (rm := if lo d =? rn then ARM_R7 else rn).
  assert (Hm : exists a1, exec (if lo d =? rn then [IMov ARM_R7 rn] else []) a = Some a1 /\ changes clobbered a0 a1 /\
    a_mem a1 = a_mem a /\ a_reg a1 rm = u32 y).
  { unfold rm. destruct (Z.eqb_spec (lo d) rn) as [E|E].
    - exists (arm_set ARM_R7 (a_reg a rn) a). split_and!; try done.
      eapply changes_trans; [exact C|apply (arm_set_changes _ _ clobbered)|done|done]; [apply C|apply C|].
      by apply (bool_decide_unpack _).
    - exists a. by split_and!. }
  destruct Hm as (a1 & E1 & C1 & M1 & R1). pose proof (proj2 (proj2 C1)) as W1. rewrite <- M1 in Hv.
  pose proof (load_le_range 4 _ _ _ (proj2 W1) Hv) as Hvr. set (a2 := arm_set (lo d) v a1).
  destruct (put_exec rs a0 a2 k Hh Hk) as (a' & rs' & E & Hz & H').
  { rewrite Hd. eapply (changes_trans _ (lo d :: hi d :: clobbered)); [exact C1| |intros r Hr; by do 2 right|done].
    apply arm_set_changes; [done|done|by left]. }
  rewrite Hd in E, Hz. exists a', rs'. split_and!; [|rewrite <- Hz; f_equal|apply H'..].
  - rewrite exec_app, E1. cbn [mbind option_bind]. rewrite exec_app. cbn [exec exec1].
    assert (A : u32 (u32 y + off) = u32 (y + off)) by apply wrap_add_l. rewrite R1, A, Hv. exact E.
  - assert (Hhi : a_reg a2 (hi d) = 0).
    { unfold a2. cbn [arm_set a_reg]. rewrite upd_ne by done. rewrite (proj1 C1); [exact Hhigh|]. intros Hc%clobbered_spec. lia. }
    unfold reg64. rewrite Hhi. unfold a2. cbn [arm_set a_reg]. rewrite upd_eq. unfold mk64. lia.
Qed.

Lemma build_loadw_refines (past_end : Z * Z) (pc : Z) (i : ebpf_inst) :
  opcode_of (i_opcode i) = Some EBPF_OP_LDXW -> 0 <= i_dst i < MAX_BPF_EXT_REG -> 0 <= i_src i < MAX_BPF_EXT_REG ->
  in_regs (i_dst i) = true -> ldx_range (i_offset i) = true ->
  exists l, Compiles l 0 (build_inst past_end pc i) /\
    forall rs a (m : memory) x y v, holds rs a -> m ⊆ a_mem a -> zget rs (i_dst i) = Some x -> x >> 32 = 0 ->
      zget rs (i_src i) = Some y -> load_le 4 (u32 (y + i_offset i)) m = Some v ->
      exists a' rs', exec l a = Some a' /\ zset rs (i_dst i) v = Some rs' /\ holds rs' a' /\ frame a a'.
Proof.
  intros Ho Hd Hs Hr [H1%Z.leb_le H2%Z.leb_le]%andb_true_iff. pose proof (opcode_of_Some _ _ Ho) as Hc.
  set (rn := lo (pair_of (i_src i) tmp2)).
  exists (base_code (i_src i) ++ ldxw_code (i_dst i) rn (i_offset i)). split.
  - unfold build_inst. rewrite Ho. cbv zeta. unfold build_load. rewrite !bpf2a32_row, Hc by done. cbv zeta.
    apply (compiles_then _ tt). eapply compiles_bind; [by apply compiles_base|].
    change (BPF_SIZE (opcode_val EBPF_OP_LDXW)) with EBPF_SIZE_W. apply compiles_ldxw; [done|by apply base_in|lia].
  - intros rs a m x y v Hh Hm Hx H0 Hy Hv. destruct (base_exec rs a _ y Hh Hy) as (a1 & E1 & C1 & R1).
    destruct (ldxw_exec rs a a1 (i_dst i) rn (i_offset i) y x v Hh) as (a' & rs' & E & H); try done.
    + by eapply changes_sub, tmp2_clobbered.
    + apply (load_le_sub _ _ _ m); [|done]. by rewrite (proj1 (proj2 C1)).
    + exists a', rs'. rewrite exec_app, E1. by split.
Qed.
