(* ===== verification/JitRun.v ===== *)
(** * Compiled programs run as the interpreter does

    The simulation between the turns of the interpreter and the runs of the
    processor over the code of the blocks, for the instructions the compiler
    gets right; with the prologue and the epilogue it gives the contract of
    the function that [gen_jit_code] leaves in the buffer. *)

From stdpp Require Import relations.
From S2P Require Import Prelude Mem EbpfInst EbpfVm EbpfVmProps EbpfVmSem EbpfTurns Thumb2 Jit JitEmit JitProps JitLayout.
From S2P Require Import ThumbSem ThumbRun JitSem JitArith JitBuild JitJump.

(** ** Where the compiler is right *)

(** The comparison is the one of the low words unless it is signed; JSET, and
    the orders that get no branch, are never right. *)
Definition jump_exact (i : ebpf_inst) (x y : Z) : bool :=
  let op := BPF_OP (i_opcode i) in
  bool_decide (op ∈ cmp_ops) && (signed_jump op || (x >> 32 =? jump_operand i y >> 32)).

Definition regs_exact (i : ebpf_inst) : bool := (i_dst i <? MAX_BPF_EXT_REG) && (i_src i <? MAX_BPF_EXT_REG).

Definition exact_at (i : ebpf_inst) (rs : list Z) : bool :=
  regs_exact i &&
  match opcode_of (i_opcode i) with
  | None => false
  | Some EBPF_OP_LDDW | Some EBPF_OP_JA => true
  | Some EBPF_OP_LDXDW => ldx_range (i_offset i)
  | Some EBPF_OP_LDXW =>
      in_regs (i_dst i) && ldx_range (i_offset i) &&
      match zget rs (i_dst i) with Some x => x >> 32 =? 0 | None => false end
  | Some o =>
      if is_cond_jump o then
        match zget rs (i_dst i), zget rs (i_src i) with
        | Some x, Some y => jump_exact i x y
        | _, _ => false
        end
      else jit_exact i
  end.

(** The program has no instruction the compiler gives up on, and the second
    halves of the constants are not instructions. *)
Definition slot_ok (prog : list ebpf_inst) (pc : Z) : bool :=
  match zget prog pc with
  | Some i =>
      (0 <=? inst_ret i) &&
      (if 0 <? inst_ret i then
         match zget prog (pc + 1) with Some i2 => bool_decide (opcode_of (i_opcode i2) = None) | None => false end
       else true)
  | None => false
  end.
Definition prog_ok (prog : list ebpf_inst) : bool := forallb (slot_ok prog) (zrange 0 (length prog)).

(** The run of the interpreter gets to EXIT in at most [n] turns, through
    instructions that are compiled right for the registers they meet. *)
Fixpoint exact_run (ce : Z -> list Z -> memory -> option (Z * memory)) (en : exec_env) (n : nat) (st : vm_state) : bool :=
  match n with
  | O => false
  | S n' =>
      match zget (e_insts en) (s_pc st) with
      | None => false
      | Some i =>
          if bool_decide (opcode_of (i_opcode i) = Some EBPF_OP_EXIT) then true
          else exact_at i (s_reg st) && match step ce en st with Ok st' => exact_run ce en n' st' | _ => false end
      end
  end.

(** ** The comparisons agree *)

Lemma cmp_low_exact (x y : Z) :
  0 <= x < 2 ^ 64 -> 0 <= y < 2 ^ 64 -> x >> 32 = y >> 32 ->
  (u32 x =? u32 y) = (x =? y) /\ (u32 y <? u32 x) = (y <? x) /\ (u32 y <=? u32 x) = (y <=? x).
Proof.
  intros Hx Hy H. rewrite !Z.shiftr_div_pow2 in H by lia. unfold u32, wrap.
  pose proof (Z.div_mod x (2 ^ 32) ltac:(lia)). pose proof (Z.div_mod y (2 ^ 32) ltac:(lia)).
  split_and!.
  - destruct (Z.eqb_spec (x mod 2 ^ 32) (y mod 2 ^ 32)), (Z.eqb_spec x y); (done || lia).
  - destruct (Z.ltb_spec (y mod 2 ^ 32) (x mod 2 ^ 32)), (Z.ltb_spec y x); (done || lia).
  - destruct (Z.leb_spec (y mod 2 ^ 32) (x mod 2 ^ 32)), (Z.leb_spec y x); (done || lia).
Qed.

Lemma operand_range (i : ebpf_inst) (y : Z) : 0 <= y < 2 ^ 64 -> 0 <= operand i y < 2 ^ 64.
Proof. intros Hy. unfold operand. destruct (_ =? _); [done|apply u64_range]. Qed.

Lemma jump_decides (i : ebpf_inst) (o : opcode) (rs : list Z) (x y : Z) :
  inst_wf i -> opcode_of (i_opcode i) = Some o -> is_cond_jump o = true ->
  zget rs (i_dst i) = Some x -> zget rs (i_src i) = Some y -> 0 <= x < 2 ^ 64 -> 0 <= y < 2 ^ 64 ->
  jump_exact i x y = true ->
  jump_taken o i rs = Ok (cmp_decides (BPF_OP (i_opcode i)) x (operand i y)).
Proof.
  intros (_ & _ & _ & _ & Himm) Ho Hc Hx%get_reg_Ok Hy%get_reg_Ok Rx Ry [Hop%bool_decide_eq_true He]%andb_true_iff.
  assert (Ez : u32 (operand i y) = u32 (jump_operand i y) /\ 0 <= jump_operand i y < 2 ^ 64).
  { unfold jump_operand. rewrite Ho. destruct (unsigned_order o) eqn:Eu; [|split; [done|by apply operand_range]].
    pose proof (opcode_of_Some _ _ Ho) as Hcode. unfold operand. rewrite Hcode.
    pose proof (u32_range (i_imm i)). split; [|lia]. destruct o; try discriminate Eu; cbn [Z.eqb];
      (change (wrap 32 (wrap 64 (i_imm i)) = wrap 32 (wrap 32 (i_imm i))); rewrite wrap_idemp; by apply wrap_wrap). }
  destruct Ez as [Ez Rz]. set (z := jump_operand i y) in *. set (w := operand i y) in *.
  assert (Hlow : signed_jump (BPF_OP (i_opcode i)) = false ->
    (u32 x =? u32 w) = (x =? z) /\ (u32 w <? u32 x) = (z <? x) /\ (u32 w <=? u32 x) = (z <=? x)).
  { intros E. rewrite E in He. cbn [orb] in He. rewrite Ez. apply cmp_low_exact; [done..|]. by apply Z.eqb_eq. }
  unfold cmp_ops in Hop. pose proof (opcode_of_Some _ _ Ho) as Hcode. unfold z, jump_operand in Hlow. rewrite Ho in Hlow.
  unfold w, operand in *. rewrite Hcode in *.
  destruct o; try discriminate Hc; try (exfalso; revert Hop; apply (bool_decide_unpack _); vm_compute; exact I);
    cbn [jump_taken]; rewrite ?Hx, ?Hy; cbn [mbind res_bind]; cbn [unsigned_order] in Hlow;
    first [destruct (Hlow eq_refl) as (L1 & L2 & L3)|clear Hlow]; apply f_equal; symmetry; 
    first [exact L1|exact L2|exact L3|exact (f_equal negb L1)|reflexivity|idtac].
  - change ((s64 (u64 (i_imm i)) <? s64 x) = (i_imm i <? s64 x)). by rewrite s64_u64_imm.
  - change ((s64 (u64 (i_imm i)) <=? s64 x) = (i_imm i <=? s64 x)). by rewrite s64_u64_imm.
Qed.

(** ** The words of a block *)

Lemma put_bytes_before (d c c' : list Z) (i j : Z) : put_bytes i d c = Some c' -> j < i -> zget c' j = zget c j.
Proof.
  revert c i. induction d as [|b d IH]; intros c i H Hj; [by injection H as <-|]. cbn [put_bytes] in H.
  destruct (zset c i b) as [c1|] eqn:E; [|done]. cbn [mbind option_bind] in H.
  rewrite (IH _ _ H) by lia. apply (zget_zset_ne _ _ _ _ _ E). lia.
Qed.

Lemma put_bytes_inj (d d' c c' : list Z) (i : Z) :
  put_bytes i d c = Some c' -> put_bytes i d' c = Some c' -> length d = length d' -> d = d'.
Proof.
  revert d' c i. induction d as [|b d IH]; intros [|b' d'] c i H H' Hl; try done. cbn [put_bytes] in H, H'.
  destruct (zset c i b) as [c1|] eqn:E; [|done]. destruct (zset c i b') as [c1'|] eqn:E'; [|done].
  cbn [mbind option_bind] in H, H'. pose proof (put_bytes_before _ _ _ _ i H ltac:(lia)) as B.
  rewrite (put_bytes_before _ _ _ _ i H' ltac:(lia)), (zget_zset_eq _ _ _ _ E), (zget_zset_eq _ _ _ _ E') in B.
  injection B as ->. rewrite E in E'. injection E' as ->. f_equal. by eapply IH; [exact H|exact H'|injection Hl].
Qed.

Lemma half_bytes_u16 (ws : list Z) : half_bytes (map u16 ws) = half_bytes ws.
Proof.
  induction ws as [|w ws IH]; [done|]. change (half_bytes (w :: ws)) with (byte_of 0 w :: byte_of 1 w :: half_bytes ws).
  change (half_bytes (map u16 (w :: ws))) with (byte_of 0 (u16 w) :: byte_of 1 (u16 w) :: half_bytes (map u16 ws)).
  rewrite IH. unfold u16. by rewrite !byte_of_wrap by lia.
Qed.

Lemma u16_halves (ws : list Z) : halves_wf (map u16 ws).
Proof. induction ws; constructor; [apply wrap_idemp|done]. Qed.

Lemma emitted_words (ws ws' : list Z) (s s1 : jit_state) :
  needGen s = true -> emitted ws s s1 -> emitted ws' s s1 -> map u16 ws = map u16 ws'.
Proof.
  intros Hn (_ & _ & _ & _ & _ & I & C) (_ & _ & _ & _ & _ & I' & C'). rewrite Hn in C, C'.
  assert (Hl : length ws = length ws') by lia.
  assert (Hb : half_bytes ws = half_bytes ws') by (eapply put_bytes_inj; [exact C|exact C'|rewrite !length_half_bytes; lia]).
  rewrite <- (halves_half_bytes (map u16 ws)), half_bytes_u16, Hb, <- half_bytes_u16 by apply u16_halves.
  apply halves_half_bytes, u16_halves.
Qed.

Lemma map_u16_wf (ws : list Z) : halves_wf ws -> map u16 ws = ws.
Proof. induction 1 as [|w ws Hw _ IH]; cbn; [done|by rewrite Hw, IH]. Qed.

(** What an emitter has written decodes to what it compiles to. *)
Lemma words_decode {A} (l : list thumb) (a a' : A) (m : J A) (ws : list Z) (s s1 : jit_state) :
  Compiles l a m -> needGen s = true -> m s = Some (a', s1) -> emitted ws s s1 -> decode (map u16 ws) = Some l.
Proof.
  intros (ws' & Hw & He & Hd) Hn Hm Hem. destruct (proj1 (He s) _ _ Hm) as [_ Hem'].
  by rewrite (emitted_words ws ws' s s1 Hn Hem Hem'), map_u16_wf.
Qed.

(** ** Finding the block of an instruction *)

Section Blocks.
Context (past_end : Z * Z) (e : jit_env) (ofs : list Z) (ep : Z).
Context (Hret : forall pc i, zget (v_insts e) pc = Some i -> 0 <= inst_ret i).

(** Where the code of instruction [pc] starts, the first one being [i]. *)
Definition starts (i x pc x1 : Z) : Prop := pc = i /\ x1 = x \/ i < pc /\ zget ofs (pc - 1) = Some x1.

Lemma blocks_find (i x xe : Z) (bs : list block) :
  blocks_ok past_end e ofs ep i x bs xe -> forall pc, i <= pc < v_num e ->
  (exists pre b post x1 x1', bs = pre ++ b :: post /\ b_pc b = pc /\ block_ok past_end e ofs ep b x1 x1' /\
     x1 = x + 2 * Z.of_nat (length (concat (map b_words pre))) /\ starts i x pc x1 /\
     blocks_ok past_end e ofs ep (b_last b + 1) x1' post xe) \/
  (exists ins, zget (v_insts e) (pc - 1) = Some ins /\ 0 < inst_ret ins).
Proof.
  induction 1 as [i x Hi|i x x' b ins Hb Hg Hr Hok|i x x' x'' b bs Hb Hok Hbs IH]; intros pc Hpc; [lia| |].
  { apply Hret in Hg. lia. }
  pose proof Hok as (ins & ws & tw & Hg & Hw & _ & Hx' & Hofs & Hl & _). rewrite Hb in Hg, Hl.
  destruct (Z.eq_dec pc i) as [->|Hne].
  { left. exists [], b, bs, x, x'. split_and!; try done; [cbn; lia|by left]. }
  assert (Hlast : b_last b = i \/ b_last b = i + 1 /\ 0 < inst_ret ins).
  { rewrite Hl. destruct (Z.ltb_spec 0 (inst_ret ins)); auto. }
  destruct (Z.le_gt_cases (b_last b + 1) pc) as [Hle|Hgt].
  - destruct (IH pc ltac:(lia)) as [(pre & b' & post & x1 & x1' & -> & E & Hok' & -> & Hst & Hpost)|H]; [left|by right].
    exists (b :: pre), b', post, (x' + 2 * Z.of_nat (length (concat (map b_words pre)))), x1'.
    split_and!; try done.
    + cbn [map concat]. rewrite length_app. lia.
    + right. split; [lia|]. destruct Hst as [[-> ->]|[_ Hz]]; [|done]. by replace (b_last b + 1 - 1) with (b_last b) by lia.
  - right. exists ins. replace (pc - 1) with i by lia. split; [done|]. destruct Hlast as [|[_ ?]]; [lia|done].
Qed.

Lemma blocks_done (i x xe : Z) (bs : list block) :
  blocks_ok past_end e ofs ep i x bs xe -> v_num e = Z.of_nat (length (v_insts e)) -> v_num e <= i -> xe = x.
Proof.
  intros H Hn Hi. inversion H as [|? ? ? b ins Hb Hg|? ? ? ? b ? Hb (ins & _ & _ & Hg & _)]; subst; [done|exfalso..].
  - apply zget_Some in Hg. lia.
  - apply zget_Some in Hg. lia.
Qed.
End Blocks.

(** ** Steps of the interpreter *)

Section Steps.
Context (ce : Z -> list Z -> memory -> option (Z * memory)) (en : exec_env).

Lemma step_inst (st : vm_state) (i : ebpf_inst) :
  zget (e_insts en) (s_pc st) = Some i -> step ce en st = exec_inst ce en i (with_pc st (u16 (s_pc st + 1))).
Proof. intros Hi. unfold step. by rewrite Hi. Qed.

Lemma step_ldx_inv (st st' : vm_state) (i : ebpf_inst) (o : opcode) (n : nat) :
  o = EBPF_OP_LDXDW /\ n = 8%nat \/ o = EBPF_OP_LDXW /\ n = 4%nat ->
  zget (e_insts en) (s_pc st) = Some i -> opcode_of (i_opcode i) = Some o -> step ce en st = Ok st' ->
  exists y v rs', zget (s_reg st) (i_src i) = Some y /\ load_le n (u32 (y + i_offset i)) (s_mem st) = Some v /\
    zset (s_reg st) (i_dst i) v = Some rs' /\ st' = mk_state (u16 (s_pc st + 1)) rs' (s_mem st).
Proof.
  intros Hon Hi Ho H. rewrite (step_inst _ _ Hi) in H.
  assert (Hc : BPF_CLASS (i_opcode i) = EBPF_CLS_LDX) by (apply opcode_of_Some in Ho; rewrite Ho; by destruct Hon as [[-> _]|[-> _]]).
  rewrite (exec_inst_ldx ce en i o) in H by done. destruct Hon as [[-> ->]|[-> ->]]; cbn [exec_ldst] in H;
  (try (destruct (BOUNDS_CHECK _ _ _ _) as [u| |] in H; cbn [mbind res_bind] in H; try discriminate H);
  unfold load_reg in H; cbn [with_pc s_reg s_mem] in H; unfold get_reg, set_reg in H;
  destruct (zget (s_reg st) (i_src i)) as [y|]; cbn [of_option mbind res_bind] in H; [|discriminate H];
  destruct (load_le _ _ _) as [v|] eqn:Hv; cbn [of_option mbind res_bind] in H; [|discriminate H];
  destruct (zset (s_reg st) (i_dst i) v) as [rs'|] eqn:Hz; cbn [of_option mbind res_bind] in H; [|discriminate H];
  injection H as <-; by exists y, v, rs').
Qed.

Lemma step_lddw_inv (st st' : vm_state) (i : ebpf_inst) :
  zget (e_insts en) (s_pc st) = Some i -> opcode_of (i_opcode i) = Some EBPF_OP_LDDW -> step ce en st = Ok st' ->
  exists i2 rs', zget (e_insts en) (u16 (s_pc st + 1)) = Some i2 /\
    zset (s_reg st) (i_dst i) (u32 (i_imm i) .| (u32 (i_imm i2) << 32)) = Some rs' /\
    st' = mk_state (u16 (u16 (s_pc st + 1) + 1)) rs' (s_mem st).
Proof.
  intros Hi Ho H. rewrite (step_inst _ _ Hi) in H.
  assert (Hc : BPF_CLASS (i_opcode i) = EBPF_CLS_LD) by (apply opcode_of_Some in Ho; by rewrite Ho).
  rewrite (exec_inst_ld ce en i EBPF_OP_LDDW) in H by done. cbn [exec_ldst with_pc s_pc s_reg s_mem] in H.
  destruct (zget (e_insts en) (u16 (s_pc st + 1))) as [i2|]; cbn [of_option mbind res_bind] in H; [|discriminate H].
  unfold set_reg in H. destruct (zset _ _ _) as [rs'|] eqn:Hz; cbn [of_option mbind res_bind] in H; [|discriminate H].
  injection H as <-. by exists i2, rs'.
Qed.

Lemma step_jump_inv (st st' : vm_state) (i : ebpf_inst) (o : opcode) (b : bool) :
  zget (e_insts en) (s_pc st) = Some i -> opcode_of (i_opcode i) = Some o -> BPF_CLASS (i_opcode i) = EBPF_CLS_JMP ->
  o <> EBPF_OP_CALL -> o <> EBPF_OP_EXIT -> jump_taken o i (s_reg st) = Ok b -> step ce en st = Ok st' ->
  st' = mk_state (if b then u16 (s_pc st + 1 + i_offset i) else u16 (s_pc st + 1)) (s_reg st) (s_mem st).
Proof.
  intros Hi Ho Hc H1 H2 Hj H. destruct st as [pc rs m].
  pose proof (turn_jump ce en pc rs m i o b Hi Ho Hc H1 H2 Hj) as Ht. unfold turn in Ht. rewrite Ht in H. injection H as <-.
  cbn [s_pc s_reg s_mem]. destruct b; [|done]. unfold u16. by rewrite wrap_add_l.
Qed.

Lemma step_exit (st : vm_state) (i : ebpf_inst) (v : Z) :
  zget (e_insts en) (s_pc st) = Some i -> opcode_of (i_opcode i) = Some EBPF_OP_EXIT -> zget (s_reg st) 0 = Some v ->
  step ce en st = Ret v.
Proof.
  intros Hi Ho Hv. rewrite (step_inst _ _ Hi). unfold exec_inst. rewrite Ho. cbn [with_pc s_reg]. unfold get_reg. by rewrite Hv.
Qed.
End Steps.

(** ** The simulation *)

Section Simulation.
Context (past_end : Z * Z) (prog : list ebpf_inst) (ext : list Z) (base x0 ep : Z) (code ofs : list Z) (bs : list block).
Let e : jit_env := mk_jenv prog (Z.of_nat (length prog)) ext.
Context (Hwf : Forall inst_wf prog) (Hprog : prog_ok prog = true) (Hlen : Z.of_nat (length prog) < 2 ^ 16).
Context (Hofs : Z.of_nat (length ofs) < 2 ^ 16).
Context (Hbs : blocks_ok past_end e ofs ep 0 x0 bs ep).
Context (Hcode : at_words base code (base + x0) (map u16 (concat (map b_words bs)))).
Context (ce : Z -> list Z -> memory -> option (Z * memory)) (en : exec_env) (He : e_insts en = prog).
Context (a1 : arm) (m0 : memory) (Hm0 : m0 ⊆ a_mem a1).
Context (Hdisj : forall b, in_scratch (a_reg a1 ARM_FP) b -> m0 !! b = None).

Abbreviation runs := (rtc (astep base code)).
Abbreviation start := (starts ofs 0 x0).

Lemma prog_slot (pc : Z) (i : ebpf_inst) :
  zget prog pc = Some i ->
  0 <= pc < Z.of_nat (length prog) /\ inst_wf i /\ 0 <= inst_ret i /\
  (0 < inst_ret i -> exists i2, zget prog (pc + 1) = Some i2 /\ opcode_of (i_opcode i2) = None).
Proof.
  intros Hi. pose proof (zget_Some _ _ _ Hi) as Hz. assert (Hpc : 0 <= pc < Z.of_nat (length prog)) by lia.
  split; [done|]. split; [by eapply (Forall_zget _ _ _ _ Hwf)|].
  pose proof (zrange_forallb _ _ _ Hprog pc ltac:(lia)) as H. unfold slot_ok in H. rewrite Hi in H.
  apply andb_true_iff in H as [H1%Z.leb_le H2]. split; [done|]. intros Hr.
  destruct (Z.ltb_spec 0 (inst_ret i)); [|lia]. destruct (zget prog (pc + 1)) as [i2|]; [|done].
  exists i2. split; [done|by apply bool_decide_eq_true in H2].
Qed.

(** The code of an instruction that is reached. *)
Record code_at (pc : Z) (i : ebpf_inst) (x x' : Z) (ws tw : list Z) : Prop := mk_code_at {
  ca_prefix : prefix_words past_end e pc i ws;
  ca_words : at_words base code (base + x) (map u16 ws);
  ca_tail : at_words base code (base + x + 2 * Z.of_nat (length ws)) (map u16 tw);
  ca_end : x' = x + 2 * Z.of_nat (length ws) + 2 * Z.of_nat (length tw);
  ca_lands : lands ofs ep (tail_of e pc i) tw x';
  ca_next : start (pc + 1 + (if 0 <? inst_ret i then 1 else 0)) x';
  ca_last : pc = Z.of_nat (length prog) - 1 -> x' = ep
}.

Lemma starts_unique (pc x x' : Z) : start pc x -> start pc x' -> x = x'.
Proof. intros [[-> ->]|[H1 H2]] [[? ->]|[H3 H4]]; (done || lia || congruence). Qed.

Lemma starts_at (to t : Z) : zget ofs to = Some t -> start (to + 1) t.
Proof. intros H. pose proof (zget_Some _ _ _ H). right. replace (to + 1 - 1) with to by lia. split; [lia|done]. Qed.

Lemma block_at (pc x : Z) (i : ebpf_inst) :
  zget prog pc = Some i -> opcode_of (i_opcode i) <> None -> start pc x ->
  exists x' ws tw, code_at pc i x x' ws tw.
Proof.
  intros Hi Ho Hst. destruct (prog_slot pc i Hi) as (Hpc & _ & _ & Hslot).
  destruct (blocks_find past_end e ofs ep (fun pc i H => proj1 (proj2 (proj2 (prog_slot pc i H)))) 0 x0 ep bs Hbs pc Hpc)
    as [(pre & b & post & x1 & x1' & -> & Hb & Hok & Hx1 & Hst' & Hpost)|(i2 & Hi2 & Hr2)].
  2: { destruct (prog_slot _ _ Hi2) as (_ & _ & _ & H). destruct (H Hr2) as (i3 & Hi3 & Ho3).
       replace (pc - 1 + 1) with pc in Hi3 by lia. congruence. }
  destruct (starts_unique pc x x1 Hst Hst'). destruct Hok as (i' & ws & tw & Hi' & Hw & Hpre & Hx' & Hz & Hl & Hland).
  rewrite Hb in *. change (v_insts e) with prog in Hi'. assert (i' = i) as -> by congruence.
  rewrite map_app, concat_app, map_app in Hcode. apply at_words_app in Hcode as [_ Hc].
  cbn [map concat] in Hc. rewrite map_app in Hc. apply at_words_app in Hc as [Hc _].
  rewrite Hw, map_app in Hc. apply at_words_app in Hc as [Hc1 Hc2]. rewrite !length_map in *.
  replace (base + x0 + 2 * Z.of_nat (length (concat (map b_words pre)))) with (base + x) in * by lia.
  exists x1', ws, tw. split; try done.
  - rewrite Hx', Hw, length_app. lia.
  - apply starts_at in Hz. rewrite Hl in Hz. destruct (0 <? inst_ret i); [|by rewrite Z.add_0_r].
    by replace (pc + 1 + 1) with (pc + 1 + 1) by lia.
  - intros Hlast. apply (blocks_done past_end e ofs ep) in Hpost; [done|done|]. change (v_num e) with (Z.of_nat (length prog)).
    rewrite Hl. destruct (0 <? inst_ret i); lia.
Qed.

(** ** One turn *)

(** The machine is at the code of the next instruction, holds the registers
    of the interpreter, and has left alone what the compiled code must leave
    alone since [a1]. *)
Record sim (st : vm_state) (c : Z * arm) : Prop := mk_sim {
  sim_at : exists x, start (s_pc st) x /\ fst c = base + x;
  sim_holds : holds (s_reg st) (snd c);
  sim_frame : frame a1 (snd c);
  sim_mem : s_mem st = m0
}.

Lemma sim_sub (st : vm_state) (c : Z * arm) : sim st c -> m0 ⊆ a_mem (snd c).
Proof.
  intros [_ _ (_ & _ & HM) _]. apply map_subseteq_spec. intros b v Hb.
  rewrite HM; [by eapply lookup_weaken|]. intros Hs. by rewrite (Hdisj b Hs) in Hb.
Qed.

Lemma clobbered_frame (a a' : arm) : changes clobbered a a' -> frame a a'.
Proof. intros C. eapply changes_frame; [exact C|]. intros r Hr%kept_spec Hc%clobbered_spec. lia. Qed.

(** An instruction without a branch. *)
Lemma run_block {A} (pc x x' : Z) (i : ebpf_inst) (ws tw : list Z) (l : list thumb) (r : A) (m : J A) (a a' : arm) :
  code_at pc i x x' ws tw -> tail_of e pc i = TNone ->
  (forall s s1, env_of s = e -> inst_prefix past_end pc i s = Some (tt, s1) -> exists r', m s = Some (r', s1)) ->
  Compiles l r m -> exec l a = Some a' -> runs (base + x, a) (base + x', a').
Proof.
  intros [(s & s1 & Hs & Hn & Hp & Hem) Hw _ Hx' Hl _ _] Ht Hm Hc E. rewrite Ht in Hl. cbn in Hl. subst tw.
  destruct (Hm s s1 Hs Hp) as [r' Hr].
  replace (base + x') with (base + x + 2 * Z.of_nat (length (map u16 ws))) by (rewrite length_map; cbn [length] in Hx'; lia).
  eapply run_code; [exact Hw| |exact E]. by eapply words_decode.
Qed.

(** A branch whose condition is given, after code that runs from [a] to [a']. *)
Lemma run_branch_block (pc x x' target : Z) (i : ebpf_inst) (ws tw : list Z) (l : list thumb) (m : J unit) (c : option Z) (a a' : arm) :
  code_at pc i x x' ws tw -> branches_to c tw x' target ->
  inst_prefix past_end pc i = m -> Compiles l tt m -> exec l a = Some a' ->
  runs (base + x, a) (base + (if (match c with Some c => cond_holds c a' | None => true end) then target else x'), a').
Proof.
  intros [(s & s1 & Hs & Hn & Hp & Hem) Hw Htw Hx' _ _ _] (Htww & d & Hd & Ht) <- Hc E.
  rewrite (map_u16_wf tw) in Htw by done. etransitivity.
  { eapply run_code; [exact Hw| |exact E]. by eapply words_decode. }
  rewrite length_map. apply rtc_once. pose proof (run_branch base code _ d tw c a' Htw Hd) as H.
  assert (E' : base + x + 2 * Z.of_nat (length ws) + 4 + d = base + target) by lia.
  assert (E2 : base + x + 2 * Z.of_nat (length ws) + 2 * Z.of_nat (length tw) = base + x') by lia.
  rewrite E', E2 in H. by destruct (match c with Some _ => _ | None => _ end).
Qed.

Lemma next_pc (pc : Z) (i : ebpf_inst) : zget prog pc = Some i -> u16 (pc + 1) = pc + 1.
Proof. intros H%zget_Some. apply u16_small. lia. Qed.

Section Turn.
Context (st : vm_state) (i : ebpf_inst) (c : Z * arm) (Hsim : sim st c) (Hi : zget prog (s_pc st) = Some i).
Context (Hd : 0 <= i_dst i < MAX_BPF_EXT_REG) (Hs : 0 <= i_src i < MAX_BPF_EXT_REG).

Lemma turn_code : opcode_of (i_opcode i) <> None -> exists x x' ws tw, c = (base + x, snd c) /\ code_at (s_pc st) i x x' ws tw.
Proof.
  intros Ho. destruct Hsim as [(x & Hx & Hc) _ _ _]. destruct (block_at (s_pc st) x i Hi Ho Hx) as (x' & ws & tw & H).
  exists x, x', ws, tw. split; [|done]. rewrite <- Hc. by destruct c.
Qed.

(** The interpreter goes on after the instruction, and so does the machine. *)
Lemma sim_next (x x' : Z) (ws tw : list Z) (rs' : list Z) (a' : arm) :
  code_at (s_pc st) i x x' ws tw -> holds rs' a' -> frame (snd c) a' ->
  sim (mk_state (s_pc st + 1 + (if 0 <? inst_ret i then 1 else 0)) rs' (s_mem st)) (base + x', a').
Proof.
  intros Hca Hh Hf. split; cbn [s_pc s_reg s_mem fst snd].
  - exists x'. split; [apply Hca|done].
  - done.
  - eapply frame_trans; [apply Hsim|done].
  - apply Hsim.
Qed.

Lemma turn_alu (st' : vm_state) : step ce en st = Ok st' -> jit_exact i = true -> exists c', runs c c' /\ sim st' c'.
Proof.
  intros Hstep Hx. destruct (prog_slot _ _ Hi) as (_ & Hw & _ & _).
  destruct (alu64_simulates past_end (s_pc st) i Hw ltac:(lia) ltac:(lia) Hx) as (l & Hc & H).
  destruct (H ce en st (snd c)) as (rs' & a' & Hst & E & Hh & Hf); [by rewrite He|apply Hsim|].
  rewrite Hst in Hstep. injection Hstep as <-.
  assert (Ho : exists o, opcode_of (i_opcode i) = Some o /\ is_cond_jump o = false /\ inst_ret i = 0 /\ tail_of e (s_pc st) i = TNone /\
    inst_prefix past_end (s_pc st) i = (_ ← build_inst past_end (s_pc st) i; mret tt)).
  { unfold jit_exact in Hx. unfold inst_ret, tail_of, inst_prefix. destruct (opcode_of (i_opcode i)) as [o|]; [|done].
    exists o. by destruct o. }
  destruct Ho as (o & Ho & Hcj & Hr & Ht & Hp). destruct (turn_code ltac:(by rewrite Ho)) as (x & x' & ws & tw & Ec & Hca).
  exists (base + x', a'). split.
  - rewrite Ec. eapply (run_block _ _ _ _ _ _ l tt (_ ← build_inst past_end (s_pc st) i; mret tt) _ _ Hca Ht); [|by eapply compiles_then|done].
    intros s s1 _ Hs1. rewrite Hp in Hs1. by exists tt.
  - pose proof (sim_next x x' ws tw rs' a' Hca Hh Hf) as H'. rewrite Hr, Z.add_0_r in H'. by rewrite (next_pc _ _ Hi).
Qed.

Lemma turn_ldxdw (st' : vm_state) :
  step ce en st = Ok st' -> opcode_of (i_opcode i) = Some EBPF_OP_LDXDW -> ldx_range (i_offset i) = true ->
  exists c', runs c c' /\ sim st' c'.
Proof.
  intros Hstep Ho Hr. destruct (build_load_refines past_end (s_pc st) i Ho Hd Hs Hr) as (l & Hc & H).
  destruct (step_ldx_inv ce en st st' i EBPF_OP_LDXDW 8) as (y & v & rs' & Hy & Hv & Hz & ->); [by left|by rewrite He|done|done|].
  rewrite (sim_mem _ _ Hsim) in Hv.
  destruct (H _ (snd c) m0 y v (sim_holds _ _ Hsim) (sim_sub _ _ Hsim) Hy Hv) as (a' & rs2 & E & Hz2 & Hh & Hf).
  rewrite Hz in Hz2. injection Hz2 as <-.
  destruct turn_code as (x & x' & ws & tw & Ec & Hca); [by rewrite Ho|]. exists (base + x', a'). split.
  - rewrite Ec. eapply (run_block _ _ _ _ _ _ l tt (_ ← build_inst past_end (s_pc st) i; mret tt) _ _ Hca);
      [unfold tail_of; by rewrite Ho| |by eapply compiles_then|done].
    intros s s1 _ Hs1. unfold inst_prefix in Hs1. rewrite Ho in Hs1. by exists tt.
  - pose proof (sim_next x x' ws tw rs' a' Hca Hh Hf) as H'. unfold inst_ret in H'. rewrite Ho, Z.add_0_r in H'.
    by rewrite (next_pc _ _ Hi).
Qed.

Lemma turn_loadw (st' : vm_state) (x0' : Z) :
  step ce en st = Ok st' -> opcode_of (i_opcode i) = Some EBPF_OP_LDXW -> in_regs (i_dst i) = true -> ldx_range (i_offset i) = true ->
  zget (s_reg st) (i_dst i) = Some x0' -> x0' >> 32 = 0 -> exists c', runs c c' /\ sim st' c'.
Proof.
  intros Hstep Ho Hreg Hr Hx0 H0. destruct (build_loadw_refines past_end (s_pc st) i Ho Hd Hs Hreg Hr) as (l & Hc & H).
  destruct (step_ldx_inv ce en st st' i EBPF_OP_LDXW 4) as (y & v & rs' & Hy & Hv & Hz & ->); [by right|by rewrite He|done|done|].
  rewrite (sim_mem _ _ Hsim) in Hv.
  destruct (H _ (snd c) m0 x0' y v (sim_holds _ _ Hsim) (sim_sub _ _ Hsim) Hx0 H0 Hy Hv) as (a' & rs2 & E & Hz2 & Hh & Hf).
  rewrite Hz in Hz2. injection Hz2 as <-.
  destruct turn_code as (x & x' & ws & tw & Ec & Hca); [by rewrite Ho|]. exists (base + x', a'). split.
  - rewrite Ec. eapply (run_block _ _ _ _ _ _ l tt (_ ← build_inst past_end (s_pc st) i; mret tt) _ _ Hca);
      [unfold tail_of; by rewrite Ho| |by eapply compiles_then|done].
    intros s s1 _ Hs1. unfold inst_prefix in Hs1. rewrite Ho in Hs1. by exists tt.
  - pose proof (sim_next x x' ws tw rs' a' Hca Hh Hf) as H'. unfold inst_ret in H'. rewrite Ho, Z.add_0_r in H'.
    by rewrite (next_pc _ _ Hi).
Qed.

Lemma turn_const (st' : vm_state) :
  step ce en st = Ok st' -> opcode_of (i_opcode i) = Some EBPF_OP_LDDW -> exists c', runs c c' /\ sim st' c'.
Proof.
  intros Hstep Ho.
  destruct (step_lddw_inv ce en st st' i) as (i2 & rs' & Hi2 & Hz & ->); [by rewrite He|done|done|].
  rewrite He, (next_pc _ _ Hi) in Hi2. set (val := u32 (i_imm i) .| (u32 (i_imm i2) << 32)) in *.
  assert (Hval : u64 val = val).
  { apply u64_small. pose proof (u32_range (i_imm i)). pose proof (u32_range (i_imm i2)).
    apply lor_range; [lia..|]. rewrite Z.shiftl_mul_pow2 by lia. lia. }
  destruct (zget_is_Some (s_reg st) (i_dst i)) as [y Hy]; [rewrite (holds_len _ _ (sim_holds _ _ Hsim)); exact Hd|].
  destruct (const_code_exec (s_reg st) (snd c) (i_dst i) y val (sim_holds _ _ Hsim) Hy) as (a' & rs2 & E & Hz2 & Hh & Hf).
  rewrite Hval, Hz in Hz2. injection Hz2 as <-. destruct (ext_64 _ Hd) as [_ Hrow].
  destruct turn_code as (x & x' & ws & tw & Ec & Hca); [by rewrite Ho|]. exists (base + x', a'). split.
  - rewrite Ec. eapply (run_block _ _ _ _ _ _ _ tt (emit_mov_i64 (row (i_dst i)) val) _ _ Hca);
      [unfold tail_of; by rewrite Ho| |by apply compiles_mov_i64|exact E].
    intros s s1 Hs0 Hs1. unfold inst_prefix in Hs1. rewrite Ho in Hs1. cbn [is_cond_jump] in Hs1.
    change (is_cond_jump EBPF_OP_LDDW) with false in Hs1. cbv iota in Hs1.
    apply j_bind_Some in Hs1 as (r & s2 & Hb & [= <-]). unfold build_inst in Hb. rewrite Ho in Hb. cbv zeta in Hb.
    apply j_bind_Some in Hb as (u & s3 & Hb & [= <- <-]). unfold build_lddw in Hb.
    apply j_bind_Some in Hb as (l & s4 & [= <- <-] & Hb). apply j_bind_Some in Hb as (i3 & s5 & Hg & Hb).
    change (insts s) with (v_insts (env_of s)) in Hg. rewrite Hs0 in Hg. unfold lift in Hg. change (v_insts e) with prog in Hg.
    rewrite Hi2 in Hg. injection Hg as <- <-. rewrite bpf2a32_row in Hb by done. by exists u.
  - pose proof (sim_next x x' ws tw rs' a' Hca Hh Hf) as H'. unfold inst_ret in H'. rewrite Ho in H'.
    rewrite (next_pc _ _ Hi). by rewrite (next_pc _ _ Hi2).
Qed.

(** Where a taken jump leads. *)
Lemma sim_jump (to target : Z) (a' : arm) :
  zget ofs to = Some target -> holds (s_reg st) a' -> frame (snd c) a' ->
  sim (mk_state (u16 (to + 1)) (s_reg st) (s_mem st)) (base + target, a').
Proof.
  intros Hz Hh Hf. pose proof (zget_Some _ _ _ Hz) as Hto. rewrite u16_small by lia. split; cbn [s_pc s_reg s_mem fst snd].
  - exists target. split; [by apply starts_at|done].
  - done.
  - eapply frame_trans; [apply Hsim|done].
  - apply Hsim.
Qed.

Lemma turn_ja (st' : vm_state) :
  step ce en st = Ok st' -> opcode_of (i_opcode i) = Some EBPF_OP_JA -> exists c', runs c c' /\ sim st' c'.
Proof.
  intros Hstep Ho. pose proof (opcode_of_Some _ _ Ho) as Hop.
  pose proof (step_jump_inv ce en st st' i EBPF_OP_JA true ltac:(by rewrite He) Ho ltac:(by rewrite Hop) ltac:(done) ltac:(done)
    eq_refl Hstep) as ->.
  destruct turn_code as (x & x' & ws & tw & Ec & Hca); [by rewrite Ho|].
  assert (Hp : inst_prefix past_end (s_pc st) i = mret tt) by (unfold inst_prefix; by rewrite Ho).
  destruct (Z.eqb_spec (i_offset i) 0) as [E0|Hne].
  - exists (base + x', snd c). split.
    + rewrite Ec at 1. eapply (run_block _ _ _ _ _ _ [] tt (mret tt) _ _ Hca); [|intros s s1 _ Hs1; rewrite Hp in Hs1; by exists tt|apply compiles_ret|done].
      unfold tail_of. rewrite Ho. change (is_cond_jump EBPF_OP_JA) with false. cbv iota. by rewrite E0.
    + pose proof (sim_next x x' ws tw (s_reg st) (snd c) Hca (sim_holds _ _ Hsim) (frame_refl _)) as H'. unfold inst_ret in H'.
      rewrite Ho, Z.add_0_r in H'. by rewrite E0, Z.add_0_r, (next_pc _ _ Hi).
  - pose proof (ca_lands _ _ _ _ _ _ Hca) as Hl. unfold tail_of in Hl. rewrite Ho in Hl.
    change (is_cond_jump EBPF_OP_JA) with false in Hl. cbv iota in Hl. destruct (Z.eqb_spec (i_offset i) 0); [done|].
    cbn [lands] in Hl. destruct Hl as (target & Hz & Hb). exists (base + target, snd c). split.
    + rewrite Ec at 1. exact (run_branch_block _ _ _ _ _ _ _ [] _ None (snd c) (snd c) Hca Hb Hp (compiles_ret tt) eq_refl).
    + replace (s_pc st + 1 + i_offset i) with (s_pc st + i_offset i + 1) by lia.
      apply sim_jump; [done|apply Hsim|apply frame_refl].
Qed.

Lemma cond_jump_class (o : opcode) :
  is_cond_jump o = true -> BPF_CLASS (opcode_val o) = EBPF_CLS_JMP /\ o <> EBPF_OP_CALL /\ o <> EBPF_OP_EXIT.
Proof. intros H. by destruct o. Qed.

Lemma turn_cond (o : opcode) (st' : vm_state) (x y : Z) :
  step ce en st = Ok st' -> opcode_of (i_opcode i) = Some o -> is_cond_jump o = true ->
  zget (s_reg st) (i_dst i) = Some x -> zget (s_reg st) (i_src i) = Some y -> jump_exact i x y = true ->
  exists c', runs c c' /\ sim st' c'.
Proof.
  intros Hstep Ho Hcj Hx Hy Hex. pose proof (opcode_of_Some _ _ Ho) as Hop.
  destruct (cond_jump_class o Hcj) as (Hcl & Hn1 & Hn2). rewrite <- Hop in Hcl.
  destruct (prog_slot _ _ Hi) as (_ & Hw & _ & _). pose proof (sim_holds _ _ Hsim) as Hh.
  pose proof (holds_regs_wf _ _ Hh) as Hrw.
  pose proof (jump_decides i o (s_reg st) x y Hw Ho Hcj Hx Hy (Forall_zget _ _ _ _ (proj2 Hrw) Hx) (Forall_zget _ _ _ _ (proj2 Hrw) Hy) Hex) as Hj.
  set (b := cmp_decides _ _ _) in Hj.
  pose proof (step_jump_inv ce en st st' i o b ltac:(by rewrite He) Ho Hcl Hn1 Hn2 Hj Hstep) as ->.
  destruct (turn_code ltac:(by rewrite Ho)) as (p & p' & ws & tw & Ec & Hca).
  assert (Hp : inst_prefix past_end (s_pc st) i = cond_prefix past_end i) by (unfold inst_prefix; by rewrite Ho, Hcj).
  assert (Hr : inst_ret i = 0) by (unfold inst_ret; rewrite Ho; by destruct o).
  assert (Hnext : forall a', holds (s_reg st) a' -> frame (snd c) a' ->
    sim (mk_state (u16 (s_pc st + 1)) (s_reg st) (s_mem st)) (base + p', a')).
  { intros a' Hh' Hf. pose proof (sim_next p p' ws tw (s_reg st) a' Hca Hh' Hf) as H'. rewrite Hr, Z.add_0_r in H'.
    by rewrite (next_pc _ _ Hi). }
  destruct (negb (BPF_SRC (i_opcode i) =? EBPF_SRC_REG) && (i_offset i =? 0)) eqn:E0.
  - exists (base + p', snd c). split.
    + rewrite Ec at 1. eapply (run_block _ _ _ _ _ _ [] tt (mret tt) _ _ Hca); [| |apply compiles_ret|done].
      * unfold tail_of. by rewrite Ho, Hcj, E0.
      * intros s s1 _ Hs1. rewrite Hp in Hs1. unfold cond_prefix in Hs1. cbv zeta in Hs1. rewrite E0 in Hs1. by exists tt.
    + apply andb_true_iff in E0 as [_ ->%Z.eqb_eq]. rewrite Z.add_0_r. destruct b; apply Hnext; (done || apply frame_refl).
  - destruct (cond_prefix_decides past_end i Hw Hd Hs) as (l & Hc & H); [|done| |].
    { by apply andb_true_iff in Hex as [?%bool_decide_eq_true _]. }
    { apply andb_false_iff in E0 as [E0|E0]; [left; by apply negb_false_iff, Z.eqb_eq in E0|right; by apply Z.eqb_neq]. }
    destruct (H (s_reg st) (snd c) x y Hh Hx Hy) as (a' & cc & Hcc & E & C & D). fold b in D.
    pose proof (holds_changes _ _ Hh _ _ C ltac:(done)) as Hh'. pose proof (clobbered_frame _ _ C) as Hf.
    pose proof (ca_lands _ _ _ _ _ _ Hca) as Hl. unfold tail_of in Hl. rewrite Ho, Hcj, E0 in Hl. cbn [lands] in Hl.
    rewrite Hcc in Hl. destruct Hl as (target & Hz & Hb).
    exists (base + (if b then target else p'), a'). split.
    + rewrite Ec at 1. pose proof (run_branch_block _ _ _ _ _ _ _ l _ (Some cc) (snd c) a' Hca Hb Hp Hc E) as Hrun.
      cbv iota in Hrun. by rewrite D in Hrun.
    + destruct b; [|by apply Hnext]. replace (s_pc st + 1 + i_offset i) with (s_pc st + i_offset i + 1) by lia.
      by apply sim_jump.
Qed.

(** EXIT leads to the epilogue. *)
Lemma turn_exit : opcode_of (i_opcode i) = Some EBPF_OP_EXIT -> runs c (base + ep, snd c).
Proof.
  intros Ho. destruct turn_code as (x & x' & ws & tw & Ec & Hca); [by rewrite Ho|].
  assert (Hp : inst_prefix past_end (s_pc st) i = mret tt) by (unfold inst_prefix; by rewrite Ho). rewrite Ec at 1.
  pose proof (ca_lands _ _ _ _ _ _ Hca) as Hl. unfold tail_of in Hl. rewrite Ho in Hl.
  change (is_cond_jump EBPF_OP_EXIT) with false in Hl. cbv iota in Hl. change (v_num e) with (Z.of_nat (length prog)) in Hl.
  destruct (Z.eqb_spec (s_pc st) (Z.of_nat (length prog) - 1)) as [E1|Hne].
  - rewrite <- (ca_last _ _ _ _ _ _ Hca E1).
    eapply (run_block _ _ _ _ _ _ [] tt (mret tt) _ _ Hca); [|intros s s1 _ Hs1; rewrite Hp in Hs1; by exists tt|apply compiles_ret|done].
    unfold tail_of. rewrite Ho. change (is_cond_jump EBPF_OP_EXIT) with false. cbv iota.
    change (v_num e) with (Z.of_nat (length prog)). by rewrite E1, Z.eqb_refl.
  - cbn [lands] in Hl. exact (run_branch_block _ _ _ _ _ _ _ [] _ None (snd c) (snd c) Hca Hl Hp (compiles_ret tt) eq_refl).
Qed.

Lemma sim_turn (st' : vm_state) :
  step ce en st = Ok st' -> exact_at i (s_reg st) = true -> exists c', runs c c' /\ sim st' c'.
Proof.
  intros Hstep [_ H]%andb_true_iff. destruct (opcode_of (i_opcode i)) as [o|] eqn:Ho; [|done].
  destruct (is_cond_jump o) eqn:Hc.
  - assert (H' : match zget (s_reg st) (i_dst i), zget (s_reg st) (i_src i) with
      | Some x, Some y => jump_exact i x y | _, _ => false end = true) by (by destruct o).
    destruct (zget (s_reg st) (i_dst i)) as [x|] eqn:Hx; [|done]. destruct (zget (s_reg st) (i_src i)) as [y|] eqn:Hy; [|done].
    by eapply turn_cond.
  - destruct o; try discriminate Hc;
      try solve [by apply turn_const|by apply turn_ldxdw|by apply turn_ja|by apply turn_alu].
    apply andb_true_iff in H as [[Hreg Hr]%andb_true_iff H]. destruct (zget (s_reg st) (i_dst i)) as [x|] eqn:Hx; [|done].
    apply Z.eqb_eq in H. by apply (turn_loadw st' x).
Qed.
End Turn.

(** A run of the interpreter that gets to EXIT is followed to the epilogue. *)
Lemma exact_run_runs (n : nat) (st : vm_state) (c : Z * arm) :
  sim st c -> exact_run ce en n st = true ->
  exists v a', runs c (base + ep, a') /\ run_result ce en n st (Returned v m0) /\ frame a1 a' /\
    mk64 (a_reg a' 0) (a_reg a' 1) = v.
Proof.
  revert st c. induction n as [|n IH]; intros st c Hsim H; [done|]. cbn [exact_run] in H. rewrite He in H.
  destruct (zget prog (s_pc st)) as [i|] eqn:Hi; [|done]. destruct (bool_decide_reflect (opcode_of (i_opcode i) = Some EBPF_OP_EXIT)) as [Ho|Ho].
  - exists (reg64 (snd c) (row 0)), (snd c). split_and!; [by eapply turn_exit| |apply Hsim|done].
    destruct st as [pc rs m]. pose proof (sim_mem _ _ Hsim) as Hm. cbn in Hm. subst m. eapply exit_returns; [by rewrite He|done|].
    apply (value_regs _ _ (sim_holds _ _ Hsim)); done.
  - apply andb_true_iff in H as [Hx H]. destruct (step ce en st) as [st'| |] eqn:Hst; [|done..].
    pose proof Hx as [[Hd%Z.ltb_lt Hs%Z.ltb_lt]%andb_true_iff _]%andb_true_iff.
    destruct (prog_slot _ _ Hi) as (_ & (_ & Wd & Ws & _) & _ & _).
    destruct (sim_turn st i c Hsim Hi ltac:(lia) ltac:(lia) st' Hst Hx) as (c' & Hr & Hsim').
    destruct (IH st' c' Hsim' H) as (v & a' & Hr' & Hres & Hf & Hv). exists v, a'.
    split_and!; [by etransitivity|by eapply run_result_step|done|done].
Qed.
End Simulation.
