(* ===== verification/JitContract.v ===== *)
(** * The contract of a compiled program

    The prologue and the epilogue of the generated code, and with the
    simulation of [JitRun] the contract of the function [gen_jit_code] leaves
    in the buffer: called with the address of the memory in R0, it returns
    what the interpreter returns, with the registers and the memory of its
    caller as they were. *)

From stdpp Require Import relations.
From S2P Require Import Prelude Mem EbpfInst EbpfVm EbpfVmProps EbpfVmSem EbpfTurns Thumb2 Jit JitEmit JitProps JitLayout.
From S2P Require Import ThumbSem ThumbRun JitSem JitArith JitBuild JitJump JitRun.

(** ** The frame *)

Definition saved : list Z := [4; 5; 6; 7; 8; 9; 11; 14].
Definition prologue_insns : list insn :=
  [Push saved; MovSp ARM_FP; Op (IMovs 3 0); SubSp 2 80; SubSp ARM_SP 256; Op (IStrd 2 3 ARM_FP (-64)); Op (IMov 2 0);
   Op (IMovs 3 0)].
Definition restored : list Z := [4; 5; 6; 7; 8; 9; 11; 15].

Lemma prologue_decodes : insns (map u16 prologue_words) = Some prologue_insns.
Proof. vm_compute. reflexivity. Qed.

(** The bytes below SP that the compiled code writes: the saved registers and
    the scratch words. *)
Definition FRAME_SIZE : Z := 112.
Definition in_frame (sp b : Z) : Prop := in_bytes (sp - FRAME_SIZE) FRAME_SIZE b.

(** The frame pointer the prologue sets up. *)
Definition entry_fp (a0 : arm) : Z := u32 (a_reg a0 ARM_SP - 32).

(** What the processor has at entry where the eBPF registers will be. *)
Definition leftover (a0 : arm) : list Z :=
  map (fun k => default 0 (value (arm_set ARM_FP (entry_fp a0) a0) k)) (zrange 0 12).

(** The state in which the function is called. *)
Record call_state (en : exec_env) (m0 : memory) (a0 : arm) : Prop := mk_call_state {
  cs_wf : arm_wf a0;
  cs_sp : a_reg a0 ARM_SP mod 4 = 0;
  cs_lr : Z.odd (a_reg a0 ARM_LR) = true;
  cs_mapped : forall b, in_frame (a_reg a0 ARM_SP) b -> is_Some (a_mem a0 !! b);
  cs_mem : m0 ⊆ a_mem a0;
  cs_apart : forall b, in_frame (a_reg a0 ARM_SP) b -> m0 !! b = None;
  cs_arg : a_reg a0 0 = e_mem en;
  cs_stack : u32 (e_stack en + STACK_SIZE) = u32 (a_reg a0 ARM_SP - FRAME_SIZE)
}.

(** What the caller finds when the function has returned [v]. *)
Record returned (v : Z) (a0 a' : arm) : Prop := mk_returned {
  rt_value : mk64 (a_reg a' 0) (a_reg a' 1) = v;
  rt_saved : forall r, 4 <= r <= 11 \/ r = ARM_SP -> a_reg a' r = a_reg a0 r;
  rt_dom : dom (a_mem a') = dom (a_mem a0);
  rt_mem : forall b, ~ in_frame (a_reg a0 ARM_SP) b -> a_mem a' !! b = a_mem a0 !! b
}.

Lemma entry_fp_mod (a0 : arm) : a_reg a0 ARM_SP mod 4 = 0 -> entry_fp a0 mod 4 = 0.
Proof. intros H. unfold entry_fp, u32, wrap. change (2 ^ 32) with (4 * 2 ^ 30). Z.to_euclidean_division_equations. lia. Qed.

(** The saved registers are above the frame pointer, the scratch words below. *)
Lemma saved_in_frame (sp b : Z) : in_bytes (u32 (sp - 32)) 32 b -> in_frame sp b.
Proof.
  intros (k & Hk & ->). exists (80 + k). unfold FRAME_SIZE. split; [lia|]. unfold u32. rewrite wrap_add_l. f_equal. lia.
Qed.

Lemma scratch_in_frame (sp b : Z) : in_scratch (u32 (sp - 32)) b -> in_frame sp b.
Proof.
  intros (k & Hk & ->). change SCRATCH_SIZE with 80 in Hk. exists (80 - k). unfold FRAME_SIZE. split; [lia|].
  unfold u32. rewrite <- Z.add_opp_r, wrap_add_l. f_equal. lia.
Qed.

Lemma scratch_saved (fp b : Z) : in_scratch fp b -> ~ in_bytes fp 32 b.
Proof.
  intros (k & Hk & ->) (j & Hj & Heq). change SCRATCH_SIZE with 80 in Hk.
  replace (fp - k) with (fp - 80 + (80 - k)) in Heq by lia. replace (fp + j) with (fp - 80 + (80 + j)) in Heq by lia.
  apply u32_add_inj in Heq; lia.
Qed.

(** ** The prologue *)

(** The row of eBPF register 1 is R2 and R3. *)
Lemma holds_arg (rs : list Z) (a a' : arm) :
  holds rs a -> arm_wf a' -> a_mem a' = a_mem a -> (forall r, r ∉ [2; 3; ARM_SP] -> a_reg a' r = a_reg a r) ->
  holds (<[1%nat := mk64 (a_reg a' 2) (a_reg a' 3)]> rs) a'.
Proof.
  intros Hh W HM HR. assert (HF : a_reg a' ARM_FP = a_reg a ARM_FP) by (apply HR; by apply (bool_decide_unpack _)).
  assert (Hk : 0 <= 1 < MAX_BPF_EXT_REG) by done.
  set (v := mk64 (a_reg a' 2) (a_reg a' 3)). destruct (holds_zset rs a 1 v Hh Hk) as [rs' Hz].
  destruct (zset_Some _ _ _ _ Hz) as [_ E]. change (Z.to_nat 1) with 1%nat in E. rewrite <- E.
  apply (holds_update rs rs' a a' 1 v Hh Hk Hz W HF); [done|].
  intros j Hj Hne. unfold value. destruct (in_regs j) eqn:Hrj.
  - destruct (row_regs j Hj Hrj) as (? & ? & _). destruct (row_apart 1 j Hk Hj ltac:(done)) as (A1 & A2 & A3).
    destruct (row_apart j 1 Hj Hk Hne) as (B1 & B2 & B3). change (lo (row 1)) with 2 in *. change (hi (row 1)) with 3 in *.
    rewrite !half_reg by lia. rewrite !HR; [done|rewrite !elem_of_cons, elem_of_nil; unfold ARM_SP; lia..].
  - destruct (row_stack j Hj Hrj) as (Ej & Hlj & _). change SCRATCH_SIZE with 80 in Hlj.
    rewrite !half_stack by lia. by rewrite HF, HM.
Qed.

Lemma mk64_0 (l : Z) : mk64 l 0 = l.
Proof. unfold mk64. lia. Qed.

(** The arguments and the frame pointer of the program. *)
Definition setup_insns : list insn :=
  [Op (IMovs 3 0); SubSp 2 80; SubSp ARM_SP 256; Op (IStrd 2 3 ARM_FP (-64)); Op (IMov 2 0); Op (IMovs 3 0)].

Lemma setup_exec (rs : list Z) (b : arm) :
  holds rs b -> a_reg b ARM_SP = a_reg b ARM_FP ->
  exists b', exec_ops setup_insns b = Some b' /\
    holds (<[10%nat := u32 (a_reg b ARM_FP - 80)]> (<[1%nat := a_reg b 0]> rs)) b' /\
    a_reg b' ARM_FP = a_reg b ARM_FP /\ a_reg b' ARM_R10 = a_reg b ARM_R10 /\ dom (a_mem b') = dom (a_mem b) /\
    forall x, ~ in_scratch (a_reg b ARM_FP) x -> a_mem b' !! x = a_mem b !! x.
Proof.
  intros Hh Hsp. set (fp := a_reg b ARM_FP) in *. pose proof (holds_wf _ _ Hh) as W. pose proof (proj1 W) as R.
  set (b2 := arm_set ARM_SP (sp_align (u32 (fp - 256))) (arm_set 2 (u32 (fp - 80)) (nz 0 (arm_set 3 0 b)))).
  assert (E2 : exec_ops (take 3 setup_insns) b = Some b2).
  { cbn [take setup_insns exec_ops exec_op exec1 mbind option_bind]. unfold b2. rewrite <- Hsp. done. }
  assert (Hal : 0 <= sp_align (u32 (fp - 256)) < 2 ^ 32).
  { unfold sp_align. pose proof (u32_range (fp - 256)). Z.to_euclidean_division_equations. lia. }
  assert (W2 : arm_wf b2).
  { apply arm_set_wf; [|done]. apply arm_set_wf; [|apply u32_range]. change (arm_wf (arm_set 3 0 b)). by apply arm_set_wf. }
  assert (H2 : holds (<[1%nat := u32 (fp - 80)]> rs) b2).
  { rewrite <- (mk64_0 (u32 (fp - 80))). apply (holds_arg rs b b2 Hh W2 eq_refl).
    intros r Hr. rewrite !elem_of_cons, elem_of_nil in Hr. unfold b2, nz, arm_flags, arm_set. cbn [a_reg].
    rewrite !upd_ne; [done|tauto..]. }
  destruct (write_row _ b2 10 (u32 (fp - 80)) 0 H2 ltac:(done) eq_refl (u32_range _) ltac:(lia))
    as (m1 & m2 & rs2 & S1 & S2 & Hz & H3 & (_ & D & F)).
  set (b3 := arm_store m2 b2) in *. set (b4 := nz 0 (arm_set 3 0 (arm_set 2 (a_reg b 0) b3))).
  assert (W4 : arm_wf b4).
  { change (arm_wf (arm_set 3 0 (arm_set 2 (a_reg b 0) b3))). do 2 (apply arm_set_wf; [|done || apply R]). apply H3. }
  assert (H4 : holds (<[1%nat := a_reg b 0]> rs2) b4).
  { rewrite <- (mk64_0 (a_reg b 0)). apply (holds_arg rs2 b3 b4 H3 W4 eq_refl).
    intros r Hr. rewrite !elem_of_cons, elem_of_nil in Hr. unfold b4, nz, arm_flags, arm_set. cbn [a_reg].
    rewrite !upd_ne; [done|tauto..]. }
  exists b4. split_and!; [|..|done|done|exact D|exact F].
  - change setup_insns with (take 3 setup_insns ++ drop 3 setup_insns). rewrite (exec_ops_app _ _ _ _ E2).
    cbn [drop setup_insns exec_ops exec_op exec1].
    rewrite (slot_aligned _ _ (holds_fp _ _ H2) (proj1 (row_slots 10 ltac:(done) eq_refl)) : u32 (a_reg b2 ARM_FP + -64) .& 3 = 0).
    cbn [Z.eqb negb]. rewrite store_le_u32. change (a_reg b2 2) with (u32 (fp - 80)). change (a_reg b2 3) with 0.
    change (lo (row 10)) with (-64) in S1, S2. rewrite S1. cbn [mbind option_bind].
    rewrite (store_hi (a_reg b2 ARM_FP) (-64)), S2. cbn [mbind option_bind]. done.
  - apply zset_Some in Hz as [_ ->]. change (Z.to_nat 10) with 10%nat in H4.
    rewrite mk64_0, (list_insert_insert_ne _ 1 10), list_insert_insert_eq in H4 by done. exact H4.
Qed.

Lemma zget_map_zrange {A} (f : Z -> A) (n : nat) (k : Z) :
  0 <= k < Z.of_nat n -> zget (map f (zrange 0 n)) k = Some (f k).
Proof.
  intros Hk. unfold zget, zrange. destruct (Z.ltb_spec k 0); [lia|]. rewrite list_lookup_fmap, list_lookup_fmap, lookup_seq_lt by lia.
  cbn. do 2 f_equal. lia.
Qed.

(** The registers are there as soon as the scratch words are mapped. *)
Lemma value_is_Some (a : arm) (k : Z) :
  (forall b, in_scratch (a_reg a ARM_FP) b -> is_Some (a_mem a !! b)) -> 0 <= k < MAX_BPF_EXT_REG -> is_Some (value a k).
Proof.
  intros Hm Hk. assert (Hw : forall off, slot off -> is_Some (load_le 4 (a_reg a ARM_FP + off) (a_mem a))).
  { intros off [Ho _]. change SCRATCH_SIZE with 80 in Ho. apply load_le_is_Some. intros j Hj. apply Hm. exists (- (off + j)).
    change SCRATCH_SIZE with 80. split; [lia|]. f_equal. lia. }
  unfold value. destruct (in_regs k) eqn:Hr.
  - destruct (row_regs k Hk Hr) as (? & ? & _). rewrite !half_reg by lia. by eexists.
  - destruct (row_slots k Hk Hr) as [S1 S2]. destruct (row_stack k Hk Hr) as (E & Hl & _). change SCRATCH_SIZE with 80 in Hl.
    rewrite !half_stack by lia. destruct (Hw _ S1) as [l ->]. destruct (Hw _ S2) as [h ->]. by eexists.
Qed.

Lemma value_ext (a b : arm) (k : Z) :
  0 <= k < MAX_BPF_EXT_REG -> (forall r, 0 <= r < 6 \/ r = ARM_FP -> a_reg b r = a_reg a r) ->
  (forall x, in_scratch (a_reg a ARM_FP) x -> a_mem b !! x = a_mem a !! x) -> value b k = value a k.
Proof.
  intros Hk HR HM. assert (Hw : forall off, slot off -> load_le 4 (a_reg b ARM_FP + off) (a_mem b) = load_le 4 (a_reg a ARM_FP + off) (a_mem a)).
  { intros off [Ho _]. change SCRATCH_SIZE with 80 in Ho. rewrite HR by auto. apply load_le_ext. intros j Hj. apply HM.
    exists (- (off + j)). change SCRATCH_SIZE with 80. split; [lia|]. f_equal. lia. }
  unfold value. destruct (in_regs k) eqn:Hr.
  - destruct (row_regs k Hk Hr) as (? & ? & _). by rewrite !half_reg, !HR by lia.
  - destruct (row_slots k Hk Hr) as [S1 S2]. destruct (row_stack k Hk Hr) as (E & Hl & _). change SCRATCH_SIZE with 80 in Hl.
    by rewrite !half_stack, !Hw by (lia || done).
Qed.

(** The registers the caller needs back are stored above the frame pointer. *)
Lemma push_exec (en : exec_env) (m0 : memory) (a0 : arm) :
  call_state en m0 a0 ->
  exists b, exec_ops [Push saved; MovSp ARM_FP] a0 = Some b /\ holds (leftover a0) b /\
    (forall r, r <> ARM_FP -> r <> ARM_SP -> a_reg b r = a_reg a0 r) /\
    a_reg b ARM_FP = entry_fp a0 /\ a_reg b ARM_SP = entry_fp a0 /\
    load_words 8 (entry_fp a0) (a_mem b) = Some (map (a_reg a0) saved) /\ dom (a_mem b) = dom (a_mem a0) /\
    forall x, ~ in_bytes (entry_fp a0) 32 x -> a_mem b !! x = a_mem a0 !! x.
Proof.
  intros [[R W] Hsp _ Hmap _ _ _ _]. set (fp := entry_fp a0).
  destruct (store_words_spec (map (a_reg a0) saved) fp (a_mem a0)) as (m & St & Ld & Wm & D & F); [done| |done| |].
  { apply Forall_map, Forall_forall. intros r _. apply R. }
  { intros b Hb. by apply Hmap, saved_in_frame. }
  set (b := arm_set ARM_FP fp (arm_set ARM_SP fp (arm_store m a0))). exists b. split_and!; try done.
  - cbn [exec_ops exec_op]. change (u32 (a_reg a0 ARM_SP - 4 * Z.of_nat (length saved))) with fp.
    rewrite St. done.
  - assert (Wb : arm_wf b) by (split; [|done]; intros k; cbn; unfold upd; repeat case_match; (apply R || apply u32_range)).
    split; [done|by apply entry_fp_mod|done|]. intros k Hk. change MAX_BPF_EXT_REG with 12 in Hk.
    unfold leftover. fold fp. rewrite zget_map_zrange by done. set (a1 := arm_set ARM_FP fp a0).
    destruct (value_is_Some a1 k) as [v Hv]; [intros x Hx; by apply Hmap, scratch_in_frame|done|].
    rewrite Hv. change (Some v = value b k). rewrite <- Hv. symmetry. apply value_ext; [done| |].
    + intros r Hr. unfold ARM_FP in Hr. cbn. unfold upd, ARM_FP, ARM_SP. repeat case_match; zify_bools; (done || lia).
    + intros x Hx. cbn. apply F. by apply scratch_saved.
  - intros r H1 H2. cbn. by rewrite !upd_ne.
Qed.

Lemma prologue_exec (en : exec_env) (m0 : memory) (a0 : arm) :
  call_state en m0 a0 ->
  exists a1, exec_ops prologue_insns a0 = Some a1 /\ holds (s_reg (init_state en (leftover a0) m0)) a1 /\
    a_reg a1 ARM_FP = entry_fp a0 /\ a_reg a1 ARM_R10 = a_reg a0 ARM_R10 /\
    load_words 8 (entry_fp a0) (a_mem a1) = Some (map (a_reg a0) saved) /\ dom (a_mem a1) = dom (a_mem a0) /\
    forall x, ~ in_frame (a_reg a0 ARM_SP) x -> a_mem a1 !! x = a_mem a0 !! x.
Proof.
  intros Hcs. destruct (push_exec en m0 a0 Hcs) as (b & Eb & Hb & Rb & Fb & Sb & Lb & Db & Mb).
  destruct (setup_exec _ b Hb) as (a1 & E1 & H1 & F1 & R1 & D1 & M1); [congruence|]. rewrite Fb in *. exists a1. split_and!.
  - change prologue_insns with ([Push saved; MovSp ARM_FP] ++ setup_insns). by rewrite (exec_ops_app _ _ _ _ Eb).
  - rewrite Rb, (cs_arg _ _ _ Hcs) in H1 by done. cbn [init_state s_reg].
    replace (u32 (e_stack en + STACK_SIZE)) with (u32 (entry_fp a0 - 80)); [done|]. rewrite (cs_stack _ _ _ Hcs).
    unfold entry_fp, FRAME_SIZE, u32. rewrite <- Z.add_opp_r, wrap_add_l. f_equal. lia.
  - done.
  - by rewrite R1, Rb.
  - rewrite <- Lb. apply load_words_ext. intros x Hx. apply M1. intros Hs. by apply (scratch_saved _ _ Hs).
  - by rewrite D1, Db.
  - intros x Hx. rewrite M1, Mb; [done|intros H; by apply Hx, saved_in_frame|intros H; by apply Hx, scratch_in_frame].
Qed.

(** ** The epilogue *)

(** The state the epilogue returns in, after a body that ended in [a]. *)
Definition popped (a0 a : arm) : arm :=
  arm_set ARM_SP (u32 (entry_fp a0 + 32)) (arm_set 11 (a_reg a0 11) (arm_set 9 (a_reg a0 9) (arm_set 8 (a_reg a0 8)
    (arm_set 7 (a_reg a0 7) (arm_set 6 (a_reg a0 6) (arm_set 5 (a_reg a0 5) (arm_set 4 (a_reg a0 4)
    (arm_set ARM_SP (entry_fp a0) a)))))))).

Lemma restored_returned (v : Z) (a0 a : arm) :
  arm_wf a0 -> mk64 (a_reg a 0) (a_reg a 1) = v -> a_reg a ARM_R10 = a_reg a0 ARM_R10 -> dom (a_mem a) = dom (a_mem a0) ->
  (forall b, ~ in_frame (a_reg a0 ARM_SP) b -> a_mem a !! b = a_mem a0 !! b) -> returned v a0 (popped a0 a).
Proof.
  intros W Hv H10 HD HM.
  assert (Hr : forall r, ~ (4 <= r <= 9 \/ r = 11 \/ r = 13) -> a_reg (popped a0 a) r = a_reg a r).
  { intros r Hr. unfold popped, ARM_SP. cbn [a_reg arm_set]. rewrite !upd_ne by lia. done. }
  split; [by rewrite !Hr by lia| |exact HD|exact HM]. intros r Hr'.
  assert (Hcase : r = 4 \/ r = 5 \/ r = 6 \/ r = 7 \/ r = 8 \/ r = 9 \/ r = 10 \/ r = 11 \/ r = 13)
    by (unfold ARM_SP in Hr'; lia).
  destruct Hcase as [->|[->|[->|[->|[->|[->|[->|[->| ->]]]]]]]]; try reflexivity.
  - rewrite Hr by lia. exact H10.
  - change (u32 (u32 (a_reg a0 13 - 32) + 32) = a_reg a0 13). unfold u32. rewrite wrap_add_l, Z.sub_add.
    by apply wrap_small, W.
Qed.

Section Epilogue.
Context (base : Z) (code : list Z).

Lemma fetch_32 (x w w2 : Z) (i : insn) :
  at_words base code x [w; w2] -> (field w 11 31 <? 29) = false -> insn32 w w2 = Some i -> fetch base code x = Some (i, 4).
Proof.
  intros [H1 [H2 _]%at_words_cons]%at_words_cons Hf Hi. unfold fetch. rewrite H1. cbn [mbind option_bind].
  rewrite Hf, H2. cbn [mbind option_bind]. by rewrite Hi.
Qed.

(** The registers are restored from above the frame pointer, and the function
    returns to its caller. *)
Lemma epilogue_run (x : Z) (a0 a : arm) :
  at_words base code x (map u16 epilogue_words) -> a_reg a ARM_FP = entry_fp a0 -> entry_fp a0 mod 4 = 0 ->
  load_words 8 (entry_fp a0) (a_mem a) = Some (map (a_reg a0) saved) -> Z.odd (a_reg a0 ARM_LR) = true ->
  rtc (astep base code) (x, a) (a_reg a0 ARM_LR - 1, popped a0 a).
Proof.
  intros Hw Hfp Hal Hl Hlr. set (fp := entry_fp a0) in *.
  set (w1 := take 2 (map u16 epilogue_words)). set (w2 := drop 2 (map u16 epilogue_words)).
  rewrite <- (take_drop 2 (map u16 epilogue_words)) in Hw. fold w1 w2 in Hw. apply at_words_app in Hw as [H1 H2].
  change (2 * Z.of_nat (length w1)) with 4 in H2. eapply rtc_l; [|eapply rtc_l; [|reflexivity]].
  - assert (Hf : fetch base code x = Some (SetSp 11, 4)).
    { eapply fetch_32; [exact H1|vm_compute; reflexivity|vm_compute; reflexivity]. }
    unfold astep, arm_step. cbn [fst snd]. rewrite Hf. cbn [mbind option_bind exec_insn exec_op].
    assert (E : sp_align (a_reg a 11) = fp) by (change (a_reg a 11) with (a_reg a ARM_FP); unfold sp_align; rewrite Hfp; lia).
    rewrite E. reflexivity.
  - assert (Hf : fetch base code (x + 4) = Some (Pop restored, 4)).
    { eapply fetch_32; [exact H2|vm_compute; reflexivity|vm_compute; reflexivity]. }
    unfold astep, arm_step. cbn [fst snd]. rewrite Hf. cbn [mbind option_bind exec_insn].
    change (a_reg (arm_set ARM_SP fp a) ARM_SP) with fp. change (a_mem (arm_set ARM_SP fp a)) with (a_mem a).
    change (length restored) with 8%nat. rewrite Hl. cbn [mbind option_bind saved map]. cbn [restored zip_with foldl].
    cbn [pop_one fst snd Z.eqb]. change (a_reg a0 ARM_LR) with (a_reg a0 14) in Hlr. unfold pop_one. cbn [fst snd].
    cbv delta [ARM_PC] beta. cbn [Z.eqb Pos.eqb fst snd]. rewrite Hlr. reflexivity.
Qed.
End Epilogue.

(** ** The table of offsets bounds the program *)

Lemma blocks_bound (past_end : Z * Z) (e : jit_env) (ofs : list Z) (ep i x xe : Z) (bs : list block) :
  (forall pc ins, zget (v_insts e) pc = Some ins -> 0 <= inst_ret ins) ->
  blocks_ok past_end e ofs ep i x bs xe -> v_num e <= Z.max i (Z.of_nat (length ofs)).
Proof.
  intros Hret. induction 1 as [i x Hi|i x x' b ins Hb Hg Hr Hok|i x x' x'' b bs Hb Hok Hbs IH]; [lia| |].
  - apply Hret in Hg. lia.
  - destruct Hok as (ins & ws & tw & _ & _ & _ & _ & Hz & _). apply zget_Some in Hz. lia.
Qed.

Lemma blocks_total (past_end : Z * Z) (e : jit_env) (ofs : list Z) (ep i x xe : Z) (bs : list block) :
  blocks_ok past_end e ofs ep i x bs xe -> xe = x + 2 * Z.of_nat (length (concat (map b_words bs))).
Proof.
  induction 1 as [i x Hi|i x x' b ins Hb Hg Hr Hok|i x x' x'' b bs Hb Hok Hbs IH]; cbn [map concat];
    rewrite ?length_app; cbn [length]; [lia|..]; destruct Hok as (ins' & ws & tw & _ & _ & _ & -> & _); lia.
Qed.

Lemma gen_offsets past_end addr prog num_insts ext_funcs st entry :
  gen_jit_code past_end addr prog num_insts ext_funcs = Some (st, entry) -> length (offsets st) = 256%nat.
Proof.
  unfold gen_jit_code. intros H. match type of H with context [jit_compile _ ?s0] => set (st0 := s0) in H end.
  destruct (jit_compile past_end st0) as [[[] st1]|] eqn:E; [|done]. cbn in H. injection H as <- <-.
  apply jit_compile_passes in E as (a2 & a3 & b2 & b3 & P1 & B1 & P2 & B2 & H).
  apply prologue_emits in P1 as [_ (_ & _ & O1 & _)]. apply prologue_emits in P2 as [_ (_ & _ & O2 & _)].
  apply epilogue_emits in H as [_ (_ & _ & O3 & _)].
  apply build_from_frame in B1 as (_ & _ & L1), B2 as (_ & _ & L2).
  rewrite O3, L2, O2. cbn [offsets set_needGen set_idx set_epilogue]. rewrite L1, O1. done.
Qed.

Lemma gen_entry past_end addr prog num_insts ext_funcs st entry :
  gen_jit_code past_end addr prog num_insts ext_funcs = Some (st, entry) -> entry = addr .| 1.
Proof.
  unfold gen_jit_code. cbv zeta. match goal with |- context [jit_compile _ ?s0] => generalize s0 end. intros st0.
  destruct (jit_compile past_end st0) as [[[] st1]|]; [|done]. intros H. by injection H.
Qed.

Lemma prog_ok_ret (prog : list ebpf_inst) (pc : Z) (i : ebpf_inst) :
  prog_ok prog = true -> zget prog pc = Some i -> 0 <= inst_ret i.
Proof.
  intros Hp Hi. pose proof (zget_Some _ _ _ Hi) as Hpc. pose proof (zrange_forallb _ _ _ Hp pc ltac:(lia)) as H.
  unfold slot_ok in H. rewrite Hi in H. by apply andb_true_iff in H as [H1%Z.leb_le _].
Qed.

(** The code is at the start of the buffer. *)
Lemma put_bytes_start (addr : Z) (ws code0 code : list Z) :
  ws <> [] -> put_bytes (- (addr .& 3)) (half_bytes ws) code0 = Some code ->
  addr .& 3 = 0 /\ forall base, at_words base code base (map u16 ws).
Proof.
  intros Hne H. assert (0 <= addr .& 3) by (change 3 with (Z.ones 2); rewrite Z.land_ones by lia; by apply Z.mod_pos_bound).
  assert (E : addr .& 3 = 0).
  { destruct ws as [|w ws]; [done|]. change (half_bytes (w :: ws)) with (byte_of 0 w :: byte_of 1 w :: half_bytes ws) in H.
    cbn [put_bytes] in H. destruct (zset code0 (- (addr .& 3)) (byte_of 0 w)) eqn:Ez; [|done]. apply zset_Some in Ez. lia. }
  split; [done|]. intros base. rewrite E in H. apply (at_words_put base _ code0); [apply u16_halves|]. by rewrite half_bytes_u16.
Qed.

(** ** The contract *)

Lemma lor_1 (addr : Z) : addr .& 3 = 0 -> addr .| 1 = addr + 1.
Proof.
  intros H. assert (H1 : addr .& 1 = 0) by (change 1 with (3 .& 1); by rewrite Z.land_assoc, H).
  by rewrite Z.add_nocarry_lxor, Z.lxor_lor.
Qed.

Lemma program_returns past_end addr prog ext st entry ce en m0 a0 n :
  Forall inst_wf prog -> prog_ok prog = true ->
  gen_jit_code past_end addr prog (Z.of_nat (length prog)) ext = Some (st, entry) ->
  epilogue_offset st <= size_limit (20 <? Z.of_nat (length prog)) ->
  e_insts en = prog -> call_state en m0 a0 -> Z.of_nat n <= MAX_ITERS ->
  exact_run ce en n (init_state en (leftover a0) m0) = true ->
  exists v k a',
    ebpf_vm_exec ce en (leftover a0) m0 = Returned v m0 /\
    arm_steps addr (jit_code st) k (entry - 1, a0) = Some (a_reg a0 ARM_LR - 1, a') /\ returned v a0 a'.
Proof.
  intros Hwf Hp Hgen Hlim Hen Hcs Hn Hx. pose proof (gen_offsets _ _ _ _ _ _ _ Hgen) as Hofs.
  destruct (gen_layout _ _ _ _ _ _ _ Hgen Hlim) as (bs & Hput & _ & Hbs).
  pose proof (gen_entry _ _ _ _ _ _ _ Hgen) as Hentry.
  apply put_bytes_start in Hput as [Hal Hw]; [|intros [E _]%app_eq_nil; vm_compute in E; discriminate E].
  specialize (Hw addr). rewrite !map_app in Hw. apply at_words_app in Hw as [Hpro Hw]. apply at_words_app in Hw as [Hbody Hepi].
  rewrite length_map in Hbody. rewrite !length_map in Hepi. set (x0 := 2 * Z.of_nat (length prologue_words)) in *.
  pose proof (blocks_bound _ (mk_jenv prog (Z.of_nat (length prog)) ext) _ _ _ _ _ _ (fun pc i => prog_ok_ret prog pc i Hp) Hbs) as Hlen. rewrite Hofs in Hlen.
  change (v_num _) with (Z.of_nat (length prog)) in Hlen.
  destruct (prologue_exec en m0 a0 Hcs) as (a1 & E1 & Hh & Hfp & H10 & Hld & Hdom & Hmem).
  assert (Hscr : forall b, in_scratch (a_reg a1 ARM_FP) b -> in_frame (a_reg a0 ARM_SP) b)
    by (intros b; rewrite Hfp; apply scratch_in_frame).
  assert (Hsub : m0 ⊆ a_mem a1).
  { apply map_subseteq_spec. intros b v Hb. rewrite Hmem; [by eapply lookup_weaken; [|apply Hcs]|].
    intros Hs. by rewrite (cs_apart _ _ _ Hcs b Hs) in Hb. }
  destruct (exact_run_runs past_end prog ext addr x0 (epilogue_offset st) (jit_code st) (offsets st) bs
    Hwf Hp ltac:(lia) ltac:(lia) Hbs Hbody ce en Hen a1 m0 Hsub
    (fun b Hb => cs_apart _ _ _ Hcs b (Hscr b Hb)) n (init_state en (leftover a0) m0) (addr + x0, a1)) as (v & a2 & Hrun & Hres & (Hk & D2 & M2) & Hv); [|exact Hx|].
  { split; [|exact Hh|apply frame_refl|done]. exists x0. split; [by left|done]. }
  rewrite Hfp in M2. assert (F2 : a_reg a2 ARM_FP = entry_fp a0) by (rewrite Hk by (right; by left); done).
  assert (Hld2 : load_words 8 (entry_fp a0) (a_mem a2) = Some (map (a_reg a0) saved)).
  { rewrite <- Hld. apply load_words_ext. intros x Hx'. apply M2. intros Hs. by apply (scratch_saved _ _ Hs). }
  rewrite <- Z.add_assoc in Hepi. rewrite <- (blocks_total _ _ _ _ _ _ _ _ Hbs) in Hepi.
  pose proof (epilogue_run addr (jit_code st) (addr + epilogue_offset st) a0 a2
    Hepi F2 (entry_fp_mod _ (cs_sp _ _ _ Hcs)) Hld2 (cs_lr _ _ _ Hcs)) as Hepr. set (a3 := popped a0 a2) in *.
  assert (Hall : rtc (astep addr (jit_code st)) (entry - 1, a0) (a_reg a0 ARM_LR - 1, a3)).
  { rewrite Hentry, lor_1, Z.add_simpl_r by done. etransitivity; [|etransitivity; [exact Hrun|exact Hepr]].
    pose proof (run_ops addr (jit_code st) addr _ _ _ _ Hpro prologue_decodes E1) as H. by rewrite length_map in H. }
  apply rtc_arm_steps in Hall as [k Hk2]. exists v, k, a3. split; [exact (exec_of_run ce en n _ m0 m0 v _ eq_refl Hn Hres)|].
  split; [exact Hk2|]. apply restored_returned; try done.
  - apply (cs_wf _ _ _ Hcs).
  - rewrite (Hk ARM_R10) by (by left). exact H10.
  - by rewrite D2.
  - intros b Hb. rewrite M2, Hmem; [done..|]. intros Hs. by apply Hb, scratch_in_frame.
Qed.

(** C18: the contract of a compiled program: a program whose instructions the
    compiler supports, whose code fits the branches, and whose run in the
    interpreter gets to EXIT through instructions that are compiled right for
    the registers they meet ([exact_run]: arithmetic of [jit_exact], loads of
    constants, of double words, and of words into a register that is not kept
    on the stack and whose high word is 0, jumps whose operands differ in the
    low words or are compared with sign) is compiled to a function that, called with the
    address of the memory in R0 and 112 mapped bytes below SP, returns to its
    caller in R0 and R1 what the interpreter returns, with R4 to R11, SP and
    the memory above the frame as they were. *)
Theorem compiled_program_returns past_end addr prog ext st entry ce en m0 a0 n :
  Forall inst_wf prog -> prog_ok prog = true ->
  gen_jit_code past_end addr prog (Z.of_nat (length prog)) ext = Some (st, entry) ->
  epilogue_offset st <= size_limit (20 <? Z.of_nat (length prog)) ->
  e_insts en = prog -> call_state en m0 a0 -> Z.of_nat n <= MAX_ITERS ->
  exact_run ce en n (init_state en (leftover a0) m0) = true ->
  exists v k a',
    ebpf_vm_exec ce en (leftover a0) m0 = Returned v m0 /\
    arm_steps addr (jit_code st) k (entry - 1, a0) = Some (a_reg a0 ARM_LR - 1, a') /\ returned v a0 a'.
Proof. exact (program_returns past_end addr prog ext st entry ce en m0 a0 n). Qed.

(** r0 := 0; r3 := 5 (64-bit); r2 := [r1]; do { r0 += r3; r3 -= 1 } while (r3 > 0); r0 += r2; exit. *)
Definition loop_prog : list ebpf_inst :=
  [mk_inst 0xb7 0 0 0 0; mk_inst 0x18 3 0 0 5; mk_inst 0 0 0 0 0; mk_inst 0x79 2 1 0 0; mk_inst 0x0f 0 3 0 0;
   mk_inst 0x07 3 0 0 (-1); mk_inst 0x65 3 0 (-3) 0; mk_inst 0x0f 0 2 0 0; mk_inst 0x95 0 0 0 0].

Definition caller_sp : Z := 0x20002000.
Definition arg_mem : memory := bytes_at 0x20001000 [1; 2; 3; 4; 5; 6; 7; 8] empty.
Definition caller : arm :=
  mk_arm (fun r => if r =? 0 then 0x20001000 else if r =? ARM_SP then caller_sp else if r =? ARM_LR then 0x8000101 else 0)
    false false false false (bytes_at (caller_sp - FRAME_SIZE) (replicate 112 0) arg_mem).
Definition loop_env : exec_env := mk_env loop_prog false [] 0x20001000 8 (caller_sp - FRAME_SIZE - STACK_SIZE).

Lemma caller_ok : call_state loop_env arg_mem caller.
Proof.
  assert (Hf : forall P : Z -> bool, forallb (fun k => P (u32 (caller_sp - FRAME_SIZE + k))) (zrange 0 112) = true ->
    forall b, in_frame caller_sp b -> P b = true).
  { intros P H b (k & Hk & ->). exact (zrange_forallb _ _ _ H k Hk). }
  split; try reflexivity.
  - split; [|apply (bool_decide_unpack (map_Forall (fun _ b => 0 <= b < 256) (a_mem caller))); vm_compute; exact I].
    intros k. cbn. repeat case_match; vm_compute; split; done.
  - intros b Hb. apply (Hf (fun b => bool_decide (is_Some (a_mem caller !! b)))) in Hb; [by apply bool_decide_eq_true in Hb|].
    vm_compute. reflexivity.
  - apply map_subseteq_spec. intros b v Hb.
    assert (H : map_Forall (fun b v => a_mem caller !! b = Some v) arg_mem) by (apply (bool_decide_unpack _); vm_compute; exact I).
    exact (H b v Hb).
  - intros b Hb. apply (Hf (fun b => bool_decide (arg_mem !! b = None))) in Hb; [by apply bool_decide_eq_true in Hb|].
    vm_compute. reflexivity.
Qed.

Lemma compiled_program_returns_witness :
  exists st entry k a',
    gen_jit_code (0, 0) 0x20003000 loop_prog 9 [] = Some (st, entry) /\
    arm_steps 0x20003000 (jit_code st) k (entry - 1, caller) = Some (0x8000100, a') /\
    returned 0x0807060504030210 caller a'.
Proof.
  assert (Hb : from_option (fun r => epilogue_offset (fst r) <=? 254) false
    (gen_jit_code (0, 0) 0x20003000 loop_prog 9 []) = true) by (vm_compute; reflexivity).
  remember (gen_jit_code (0, 0) 0x20003000 loop_prog 9 []) as r eqn:E.
  destruct r as [[st entry]|]; [|discriminate Hb]. apply Z.leb_le in Hb. symmetry in E.
  destruct (compiled_program_returns (0, 0) 0x20003000 loop_prog [] st entry (fun _ _ _ => None) loop_env arg_mem caller 100)
    as (v & k & a' & Hv & Hk & Hr).
  - unfold loop_prog, inst_wf. repeat constructor; cbn; lia.
  - vm_compute. reflexivity.
  - exact E.
  - exact Hb.
  - reflexivity.
  - exact caller_ok.
  - vm_compute. discriminate.
  - vm_compute. reflexivity.
  - assert (Hv' : ebpf_vm_exec (fun _ _ _ => None) loop_env (leftover caller) arg_mem =
      Returned 0x0807060504030210 arg_mem) by (vm_compute; reflexivity).
    rewrite Hv in Hv'. injection Hv' as ->. exists st, entry, k, a'. split; [reflexivity|]. split; [exact Hk|exact Hr].
Defined.
