(* ===== verification/JitDepart.v ===== *)
(** * Where compiled jumps, loads and stores depart from the interpreter

    The other half of [JitContract]: what the code is for the instructions it
    leaves out, and what that code does on every state that holds the
    registers of the interpreter. *)

From S2P Require Import Prelude Mem EbpfInst EbpfVm EbpfVmProps EbpfVmSem EbpfTurns Thumb2 Jit JitEmit JitProps JitLayout.
From S2P Require Import ThumbSem JitSem JitArith JitBuild JitJump.

(** ** Jumps *)

Definition jump_of (o : opcode) (off : Z) : ebpf_inst := mk_inst (opcode_val o) 2 3 off 0.

(** The code of an unsigned comparison compares the low words: registers that
    differ in their high words only are equal for it, and it takes the jumps
    of JEQ and JGE and does not take that of JNE, where the interpreter does
    the opposite. *)
Theorem compiled_compare_departs (past_end : Z * Z) (o : opcode) (off : Z) (rs : list Z) (a : arm) :
  o ∈ [EBPF_OP_JEQ_REG; EBPF_OP_JNE_REG; EBPF_OP_JGE_REG] -> - 2 ^ 15 <= off < 2 ^ 15 ->
  holds rs a -> zget rs 2 = Some 5 -> zget rs 3 = Some (5 + 2 ^ 32) ->
  exists l a' c, Compiles l tt (cond_prefix past_end (jump_of o off)) /\ cond_of (BPF_OP (opcode_val o)) = Some c /\
    exec l a = Some a' /\
    exists b, cond_holds c a' = b /\ jump_taken o (jump_of o off) rs = Ok (negb b) /\ (b = true <-> o <> EBPF_OP_JNE_REG).
Proof.
  intros Ho Hoff Hh H2 H3. pose proof H2 as G2%get_reg_Ok. pose proof H3 as G3%get_reg_Ok.
  rewrite !elem_of_cons, elem_of_nil in Ho.
  assert (Hp : BPF_OP (opcode_val o) ∈ cmp_ops /\ BPF_SRC (opcode_val o) = EBPF_SRC_REG /\
    BPF_CLASS (opcode_val o) = EBPF_CLS_JMP /\ 0 <= opcode_val o < 256).
  { destruct Ho as [->|[->|[->|[]]]]; (split_and!; [by apply (bool_decide_unpack _)|done|done|done|done]). }
  destruct Hp as (Hop & Hsrc & Hcl & Hrng).
  destruct (cond_prefix_decides past_end (jump_of o off)) as (l & Hl & H); [|done|done|done|done|by left|].
  { unfold inst_wf, jump_of. cbn. lia. }
  destruct (H rs a _ _ Hh H2 H3) as (a' & c & Hc & E & _ & D). exists l, a', c. split_and!; [done..|].
  eexists. split; [exact D|]. unfold operand. change (i_opcode (jump_of o off)) with (opcode_val o).
  rewrite Hsrc. change (EBPF_SRC_REG =? EBPF_SRC_REG) with true. cbv iota.
  destruct Ho as [->|[->|[->|[]]]]; cbn [jump_taken jump_of i_dst i_src i_imm]; rewrite ?G2, ?G3; by split.
Qed.

Lemma compiled_compare_departs_witness :
  exists l a', Compiles l tt (cond_prefix (0, 0) (jump_of EBPF_OP_JEQ_REG 7)) /\
    exec l (arm_of [0; 0; 5; 5 + 2 ^ 32; 0; 0; 0; 0; 0; 0; 0; 0]) = Some a' /\ cond_holds COND_EQ a' = true.
Proof.
  destruct (compiled_compare_departs (0, 0) EBPF_OP_JEQ_REG 7 [0; 0; 5; 5 + 2 ^ 32; 0; 0; 0; 0; 0; 0; 0; 0]
    (arm_of [0; 0; 5; 5 + 2 ^ 32; 0; 0; 0; 0; 0; 0; 0; 0])) as (l & a' & c & Hl & Hc & E & b & D & _ & [_ Hb]).
  - left.
  - lia.
  - apply holdsb_holds. vm_compute. reflexivity.
  - reflexivity.
  - reflexivity.
  - exists l, a'. injection Hc as <-. split; [exact Hl|]. split; [exact E|]. rewrite D. apply Hb. discriminate.
Defined.

(** JSET adds the words where it means to AND them: the jump is taken unless
    both sums are zero. *)
Definition jset_code : list thumb :=
  [ILdrd 6 7 ARM_FP (-8); IDp DAdd false ARM_IP 6 0 0 0; IDp DAdd false ARM_LR 7 1 0 0;
   IDp DOrr true ARM_IP ARM_LR ARM_IP 0 0].

Lemma jset_compiles (past_end : Z * Z) (off : Z) :
  Compiles jset_code tt (cond_prefix past_end (mk_inst (opcode_val EBPF_OP_JSET_REG) 2 0 off 0)).
Proof.
  unfold cond_prefix. cbn [i_dst i_src i_opcode i_offset]. rewrite !bpf2a32_row by done. cbv zeta.
  change (negb _ && _) with false. cbv iota. apply compiles_code; [repeat straight_step|]. vm_compute. reflexivity.
Qed.

Theorem compiled_jset_departs (past_end : Z * Z) (off : Z) (rs : list Z) (a : arm) :
  holds rs a -> zget rs 0 = Some 1 -> zget rs 2 = Some 2 ->
  exists a', exec jset_code a = Some a' /\ cond_holds COND_NE a' = true /\
    jump_taken EBPF_OP_JSET_REG (mk_inst (opcode_val EBPF_OP_JSET_REG) 2 0 off 0) rs = Ok false.
Proof.
  intros Hh H0 H2. pose proof H0 as G0%get_reg_Ok. pose proof H2 as G2%get_reg_Ok.
  destruct (get_exec rs a Hh 2 tmp1 [6; 7]) as (a1 & E1 & C1 & V1); [done|done|by left|right; by left|].
  pose proof (value_regs _ _ Hh 0 ltac:(done) eq_refl) as V0. rewrite H0 in V0. rewrite H2 in V1.
  injection V0 as V0. injection V1 as V1. pose proof (proj1 (proj2 (proj2 C1))) as R1. pose proof (proj1 (holds_wf _ _ Hh)) as R.
  change (pair_of 2 tmp1) with (7, 6) in V1. change (row 0) with (1, 0) in V0. unfold reg64, mk64 in V0, V1. cbn [fst snd] in V0, V1.
  change (lo (1, 0)) with 0 in V0. change (hi (1, 0)) with 1 in V0. change (lo (7, 6)) with 6 in V1. change (hi (7, 6)) with 7 in V1.
  assert (A : a_reg a 0 = 1 /\ a_reg a 1 = 0) by (pose proof (R 0); pose proof (R 1); lia).
  assert (B : a_reg a1 6 = 2 /\ a_reg a1 7 = 0) by (pose proof (R1 6); pose proof (R1 7); lia).
  destruct A as [A0 A1], B as [B6 B7].
  assert (Hlow : a_reg a1 0 = 1 /\ a_reg a1 1 = 0).
  { rewrite !(proj1 C1) by (by apply (bool_decide_unpack _)). done. }
  destruct Hlow as [L0 L1]. eexists. split_and!.
  - change jset_code with (get_code 2 tmp1 ++ drop 1 jset_code). rewrite exec_app, E1. reflexivity.
  - cbn -[u32]. rewrite B6, B7, L0, L1. reflexivity.
  - cbn [jump_taken i_dst i_src]. by rewrite G0, G2.
Qed.

(** ** Stores and loads *)

Definition reg_rows : list Z := [0; 1; 6].

(** A store of a word has its two registers exchanged: it stores the address
    at the place the value names. *)
Theorem compiled_store_swaps (k j off : Z) :
  k ∈ reg_rows -> j ∈ reg_rows -> -255 <= off <= 255 -> off <> 0 ->
  Compiles [IStr (lo (row k)) (lo (row j)) off] tt (emit_str_reg (lo (row k)) (row j) off EBPF_SIZE_W).
Proof.
  intros Hk Hj Ho Hne. apply compiles_code; [apply st_str|].
  assert (H : forallb (fun k => forallb (fun j => forallb (fun off => (off =? 0) || code_is
      (emit_str_reg (lo (row k)) (row j) off EBPF_SIZE_W) tt [IStr (lo (row k)) (lo (row j)) off])
      (zrange (-255) 511)) reg_rows) reg_rows = true) by (vm_compute; reflexivity).
  rewrite forallb_forall in H. apply list_elem_of_In in Hk, Hj. specialize (H k Hk). cbv beta in H.
  rewrite forallb_forall in H. specialize (H j Hj). pose proof (zrange_forallb _ _ _ H off ltac:(lia)) as Hc. cbv beta in Hc.
  by destruct (Z.eqb_spec off 0).
Qed.

(** At offset 0 the bits of the addressing mode make no instruction at all. *)
Theorem compiled_store_undefined (k j : Z) :
  k ∈ reg_rows -> j ∈ reg_rows -> decode (code_of (emit_str_reg (lo (row k)) (row j) 0 EBPF_SIZE_W)) = None.
Proof.
  intros Hk Hj.
  assert (H : forallb (fun k => forallb (fun j => bool_decide
      (decode (code_of (emit_str_reg (lo (row k)) (row j) 0 EBPF_SIZE_W)) = None)) reg_rows) reg_rows = true) by (vm_compute; reflexivity).
  rewrite forallb_forall in H. apply list_elem_of_In in Hk, Hj. specialize (H k Hk). cbv beta in H.
  rewrite forallb_forall in H. specialize (H j Hj). by apply bool_decide_eq_true in H.
Qed.

(** A load of a word leaves the high word of the destination, which the
    interpreter clears. *)
Theorem compiled_ldxw_keeps_high (k j off : Z) (rs : list Z) (a : arm) (x y w : Z) :
  k ∈ reg_rows -> j ∈ reg_rows -> k <> j -> -255 <= off <= 255 -> holds rs a ->
  zget rs k = Some x -> zget rs j = Some y -> load_le 4 (u32 (y + off)) (a_mem a) = Some w ->
  exists l a', Compiles l tt (emit_ldx_reg (row k) (lo (row j)) off EBPF_SIZE_W) /\ exec l a = Some a' /\
    value a' k = Some (mk64 w (x >> 32)).
Proof.
  intros Hk Hj Hne Ho Hh Hx Hy Hw. set (l := [ILdr (lo (row k)) (lo (row j)) off]).
  assert (H : forallb (fun k => forallb (fun j => (k =? j) || (forallb (fun off => code_is
      (emit_ldx_reg (row k) (lo (row j)) off EBPF_SIZE_W) tt [ILdr (lo (row k)) (lo (row j)) off])
      (zrange (-255) 511))) reg_rows) reg_rows = true) by (vm_compute; reflexivity).
  rewrite forallb_forall in H. pose proof Hk as Hk'. pose proof Hj as Hj'. apply list_elem_of_In in Hk', Hj'.
  specialize (H k Hk'). cbv beta in H. rewrite forallb_forall in H. specialize (H j Hj').
  destruct (Z.eqb_spec k j) as [|_]; [done|]. cbn [orb] in H. pose proof (zrange_forallb _ _ _ H off ltac:(lia)) as Hc. cbv beta in Hc.
  assert (Hin : forall z, z ∈ reg_rows -> 0 <= z < MAX_BPF_EXT_REG /\ in_regs z = true).
  { intros z. unfold reg_rows. rewrite !elem_of_cons, elem_of_nil. by intros [->|[->|[->|[]]]]. }
  destruct (Hin k Hk) as [Rk Ik], (Hin j Hj) as [Rj Ij]. pose proof (proj1 (holds_wf _ _ Hh)) as R.
  rewrite (value_regs _ _ Hh k Rk Ik) in Hx. rewrite (value_regs _ _ Hh j Rj Ij) in Hy. injection Hx as <-. injection Hy as <-.
  destruct (row_regs k Rk Ik) as (? & ? & ?). exists l, (arm_set (lo (row k)) w a). split_and!.
  - apply compiles_code; [apply st_ldx|exact Hc].
  - unfold l. cbn [exec exec1]. assert (E : u32 (reg64 a (row j) + off) = u32 (a_reg a (lo (row j)) + off)).
    { unfold u32. rewrite <- wrap_add_l. f_equal. f_equal. by apply (u32_mk64 (a_reg a (lo (row j))) (a_reg a (hi (row j)))). }
    rewrite <- E, Hw. done.
  - unfold value. rewrite !half_reg by lia. cbn [arm_set a_reg mbind option_bind]. rewrite upd_eq, upd_ne by done.
    do 2 f_equal. unfold reg64, mk64. rewrite Z.shiftr_div_pow2, Z.div_add by lia. rewrite Z.div_small by apply R. lia.
Qed.

(** An offset above 255 runs into the addressing mode of the load: no such load
    reads at its offset. *)
Theorem compiled_load_offset_lost (off : Z) :
  256 <= off <= 4091 ->
  decode (code_of (emit_ldx_reg (row 0) (lo (row 6)) off EBPF_SIZE_W)) <> Some [ILdr (lo (row 0)) (lo (row 6)) off].
Proof.
  intros Ho Hd.
  assert (H : forallb (fun off => negb (bool_decide (decode (code_of (emit_ldx_reg (row 0) (lo (row 6)) off EBPF_SIZE_W)) =
      Some [ILdr (lo (row 0)) (lo (row 6)) off]))) (zrange 256 3836) = true) by (vm_compute; reflexivity).
  pose proof (zrange_forallb _ _ _ H off ltac:(lia)) as Hc. cbv beta in Hc.
  apply negb_true_iff in Hc. exact (bool_decide_eq_false_1 _ Hc Hd).
Qed.
