(* ===== verification/Hashmap.v ===== *)
(** * The containers of hashmap.c

    [darray], a growing array of pointers with a free-slot search, and
    [arraymap], a map kept as two arrays sorted by key.  The arrays of an
    [arraymap] are lists whose length is the size of their heap block; the
    words the heap holds after a block, which the code reads in places, are
    the parameters [kstray] and [vstray], and the content of fresh memory is
    [junk].  A write outside a block is [None].  The darrays live in a store
    indexed by address, since [darray_add] moves its array. *)

From S2P Require Import Prelude.

Definition MAP_GROW : Z := 4.

(** ** Searches in a sorted array *)

Section Search.
Context (stray : Z -> Z).

(** The word at index [i] of a block: a word of the heap when [i] is past it. *)
Definition rd (l : list Z) (i : Z) : option Z :=
  if i <? 0 then None else Some (default (stray i) (l !! Z.to_nat i)).

Fixpoint binary_search_loop (fuel : nat) (arr : list Z) (start end_ val : Z) : option Z :=
  match fuel with
  | O => None
  | S fuel =>
    if start <=? end_ then
      let mid := (start + end_) / 2 in
      m ← rd arr mid;
      if m =? val then Some mid
      else if val <? m then binary_search_loop fuel arr start (mid - 1) val
      else binary_search_loop fuel arr (mid + 1) end_ val
    else Some (-1)
  end.

Definition binary_search (arr : list Z) (size val : Z) : option Z :=
  binary_search_loop (S (Z.to_nat size)) arr 0 (size - 1) val.

(** lower_bound and upper_bound are one loop, with the test of the word in the
    middle as its parameter. *)
Fixpoint bound_loop (goes_right : Z -> bool) (fuel : nat) (arr : list Z) (start end_ : Z) : option Z :=
  match fuel with
  | O => None
  | S fuel =>
    if start + 1 <? end_ then
      let mid := (start + end_) / 2 in
      m ← rd arr mid;
      if goes_right m then bound_loop goes_right fuel arr mid end_
      else bound_loop goes_right fuel arr start mid
    else Some end_
  end.

Definition lower_bound (arr : list Z) (size val : Z) : option Z :=
  bound_loop (fun m => m <? val) (S (Z.to_nat size)) arr 0 size.

Definition upper_bound (arr : list Z) (size val : Z) : option Z :=
  bound_loop (fun m => m <=? val) (S (Z.to_nat size)) arr 0 size.
End Search.

(** ** arraymap *)

Record arraymap := { am_max_size : Z; am_cur_size : Z; am_keys : list Z; am_vals : list Z }.

Section ArrayMap.
Context (kstray vstray junk : Z -> Z).

(** malloc of n words leaves them as they are. *)
Definition fresh_words (from n : Z) : list Z :=
  map (fun i => junk (from + Z.of_nat i)) (seq 0 (Z.to_nat n)).

Definition arraymap_new (initial_size : Z) : arraymap :=
  {| am_max_size := u16 initial_size; am_cur_size := 0;
     am_keys := fresh_words 0 initial_size; am_vals := fresh_words 0 initial_size |}.

(** The realloc of a block of [max_size] words: [ori_size] counts the two words
    of a darray header too, so the copy takes two words after the block. *)
Definition grow_block (stray : Z -> Z) (l : list Z) (max_size new_size : Z) : list Z :=
  let copied := Z.min (2 + max_size) new_size in
  l ++ map (fun i => stray (max_size + Z.of_nat i)) (seq 0 (Z.to_nat (copied - max_size)))
    ++ fresh_words copied (new_size - copied).

(** The loops that move words do so in the keys and in the values, two blocks
    that do not overlap: their effect is one pass over each.
    for (i = cur_size; i > insert; i--): n = i - insert turns are left. *)
Fixpoint shift_up (stray : Z -> Z) (n : nat) (i : Z) (l : list Z) : option (list Z) :=
  match n with
  | O => Some l
  | S n => x ← rd stray l (i - 1); l ← zset l i x; shift_up stray n (i - 1) l
  end.

(** for (i = idx; i < cur_size; i++): n = cur_size - i turns are left. *)
Fixpoint shift_down (stray : Z -> Z) (n : nat) (i : Z) (l : list Z) : option (list Z) :=
  match n with
  | O => Some l
  | S n => x ← rd stray l (i + 1); l ← zset l i x; shift_down stray n (i + 1) l
  end.

(** The returned value is [None] where the code returns none (`return;`). *)
Definition arraymap_set (m : arraymap) (key val : Z) : option (option Z * arraymap) :=
  let cur := am_cur_size m in
  let max := am_max_size m in
  if cur =? 0 then
    ks ← zset (am_keys m) 0 key;
    vs ← zset (am_vals m) 0 val;
    Some (Some 0, {| am_max_size := max; am_cur_size := u16 (cur + 1); am_keys := ks; am_vals := vs |})
  else
    insert ← lower_bound kstray (am_keys m) cur key;
    k ← rd kstray (am_keys m) insert;
    if k =? key then
      vs ← zset (am_vals m) insert val;
      Some (None, {| am_max_size := max; am_cur_size := cur; am_keys := am_keys m; am_vals := vs |})
    else
      let new_size := max + MAP_GROW in
      let '(max, ks, vs) :=
        if max <=? cur
        then (u16 new_size, grow_block kstray (am_keys m) max new_size,
              grow_block vstray (am_vals m) max new_size)
        else (max, am_keys m, am_vals m) in
      ks ← shift_up kstray (Z.to_nat (cur - insert)) cur ks;
      vs ← shift_up vstray (Z.to_nat (cur - insert)) cur vs;
      ks ← zset ks insert key;
      vs ← zset vs insert val;
      Some (Some insert, {| am_max_size := max; am_cur_size := u16 (cur + 1); am_keys := ks; am_vals := vs |}).

Definition arraymap_get (m : arraymap) (key : Z) : option Z :=
  idx ← binary_search kstray (am_keys m) (am_cur_size m) key;
  if negb (idx =? -1) then rd vstray (am_vals m) idx else Some 0.

Definition arraymap_iter_key (m : arraymap) (idx : Z) : option Z :=
  if (idx <? 0) || (am_cur_size m <=? idx) then Some 0 else rd kstray (am_keys m) idx.

Definition arraymap_iter_val (m : arraymap) (idx : Z) : option Z :=
  if (idx <? 0) || (am_cur_size m <=? idx) then Some 0 else rd vstray (am_vals m) idx.

Definition arraymap_del (m : arraymap) (key : Z) : option arraymap :=
  let cur := am_cur_size m in
  idx ← binary_search kstray (am_keys m) cur key;
  if negb (idx =? -1) then
    ks ← shift_down kstray (Z.to_nat (cur - idx)) idx (am_keys m);
    vs ← shift_down vstray (Z.to_nat (cur - idx)) idx (am_vals m);
    let cur := u16 (cur - 1) in
    ks ← zset ks cur 0;
    vs ← zset vs cur 0;
    Some {| am_max_size := am_max_size m; am_cur_size := cur; am_keys := ks; am_vals := vs |}
  else Some m.
End ArrayMap.

(** ** darray *)

Record darray := { da_cur_size : Z; da_max_size : Z; da_vals : list Z }.

(** The arrays that are allocated, by address; an access through an address
    that is not there is a use of freed memory. *)
Definition darrays : Type := gmap Z darray.

Section DArray.
(** [alloc] is the allocator's choice of an address for a new block. *)
Context (alloc : darrays -> Z) (junk : Z -> Z).

Definition darray_new (h : darrays) (initial_size : Z) : Z * darrays :=
  let arr := {| da_max_size := initial_size; da_cur_size := 0;
                da_vals := repeat 0 (Z.to_nat initial_size) |} in
  (alloc h, <[alloc h := arr]> h).

Definition darray_destroy (h : darrays) (arr : Z) : option darrays :=
  _ ← h !! arr; Some (delete arr h).

(** The first slot below cur_size that holds NULL. *)
Fixpoint free_slot (n : nat) (i : Z) (vals : list Z) : option (option Z) :=
  match n with
  | O => Some None
  | S n => v ← zget vals i; if v =? 0 then Some (Some i) else free_slot n (i + 1) vals
  end.

Definition darray_add (h : darrays) (arr val : Z) : option (Z * darrays) :=
  a ← h !! arr;
  slot ← free_slot (Z.to_nat (da_cur_size a)) 0 (da_vals a);
  match slot with
  | Some i =>
      vs ← zset (da_vals a) i val;
      Some (i, <[arr := {| da_cur_size := da_cur_size a; da_max_size := da_max_size a; da_vals := vs |}]> h)
  | None =>
      let idx := da_cur_size a in
      let cur := idx + 1 in
      if da_max_size a <=? cur then
        let new_size := da_max_size a + MAP_GROW in
        let vs := da_vals a ++ fresh_words junk (da_max_size a) MAP_GROW in
        let p := alloc h in
        vs ← zset vs idx val;
        Some (idx, <[p := {| da_cur_size := cur; da_max_size := new_size; da_vals := vs |}]> (delete arr h))
      else
        vs ← zset (da_vals a) idx val;
        Some (idx, <[arr := {| da_cur_size := cur; da_max_size := da_max_size a; da_vals := vs |}]> h)
  end.

Definition darray_get (h : darrays) (arr key : Z) : option Z :=
  a ← h !! arr;
  if key <? da_cur_size a then zget (da_vals a) key else Some 0.

Definition darray_set (h : darrays) (arr key val : Z) : option darrays :=
  a ← h !! arr;
  if key <? da_max_size a then
    vs ← zset (da_vals a) key val;
    Some (<[arr := {| da_cur_size := da_cur_size a; da_max_size := da_max_size a; da_vals := vs |}]> h)
  else Some h.

Definition darray_del (h : darrays) (arr key : Z) : option darrays :=
  a ← h !! arr;
  if key <? da_cur_size a then
    vs ← zset (da_vals a) key 0;
    Some (<[arr := {| da_cur_size := da_cur_size a; da_max_size := da_max_size a; da_vals := vs |}]> h)
  else Some h.
End DArray.

(** ** The searches are correct *)

(** The first n words are in strictly increasing order. *)
Definition sorted_upto (n : Z) (ks : list Z) : Prop :=
  forall i j x y, 0 <= i < j -> j < n -> zget ks i = Some x -> zget ks j = Some y -> x < y.

Lemma rd_zget (stray : Z -> Z) (l : list Z) (i x : Z) : zget l i = Some x -> rd stray l i = Some x.
Proof. unfold rd, zget. destruct (i <? 0); [done|]. by intros ->. Qed.

Lemma rd_inside (stray : Z -> Z) (l : list Z) (i : Z) :
  0 <= i < Z.of_nat (length l) -> rd stray l i = zget l i.
Proof. intros Hi. destruct (zget_is_Some l i Hi) as [x Hx]. by rewrite Hx, (rd_zget _ _ _ x). Qed.

Lemma rd_past (stray : Z -> Z) (l : list Z) (i : Z) :
  Z.of_nat (length l) <= i -> rd stray l i = Some (stray i).
Proof.
  intros Hi. unfold rd. destruct (Z.ltb_spec i 0); [lia|].
  by rewrite lookup_ge_None_2 by lia.
Qed.

Lemma half_between (a b : Z) : a + 1 < b -> a < (a + b) / 2 < b.
Proof. intros. Z.to_euclidean_division_equations. lia. Qed.

Lemma half_between_le (a b : Z) : a <= b -> a <= (a + b) / 2 <= b.
Proof. intros. Z.to_euclidean_division_equations. lia. Qed.

(** The bound loop narrows [start, end_): it ends at an index after [start]
    where the test turns from true to false. *)
Lemma bound_loop_spec (stray : Z -> Z) (p : Z -> bool) (arr : list Z) (n : nat) :
  forall start end_, 0 <= start < end_ -> end_ <= Z.of_nat (length arr) -> (Z.to_nat (end_ - start) <= n)%nat ->
  exists e, bound_loop stray p (S n) arr start end_ = Some e /\ start < e <= end_
    /\ (e - 1 = start \/ exists x, zget arr (e - 1) = Some x /\ p x = true)
    /\ (e = end_ \/ exists x, zget arr e = Some x /\ p x = false).
Proof.
  induction n as [|n IH]; intros start end_ Hr Hlen Hn; [lia|].
  cbn [bound_loop]. destruct (Z.ltb_spec (start + 1) end_) as [Hlt | Hge].
  2: { exists end_. split; [done|]. split; [lia|]. split; left; lia. }
  pose proof (half_between start end_ Hlt) as Hm. set (mid := (start + end_) / 2) in *.
  destruct (zget_is_Some arr mid ltac:(lia)) as [x Hx]. rewrite (rd_zget _ _ _ x Hx). cbn [mbind option_bind].
  destruct (p x) eqn:Hp.
  - destruct (IH mid end_) as (e & He & Hre & Hl & Hh); [lia..|].
    exists e. split; [exact He|]. split; [lia|]. split; [|done].
    destruct Hl as [<- | Hl]; right; eauto.
  - destruct (IH start mid) as (e & He & Hre & Hl & Hh); [lia..|].
    exists e. split; [exact He|]. split; [lia|]. split; [done|].
    destruct Hh as [-> | Hh]; right; eauto.
Qed.

Lemma sorted_le (n : Z) (ks : list Z) (i j x y : Z) :
  sorted_upto n ks -> 0 <= i <= j -> j < n -> zget ks i = Some x -> zget ks j = Some y -> x <= y.
Proof.
  intros Hs Hij Hj Hx Hy. destruct (decide (i = j)) as [->|]; [simplify_eq; lia|].
  pose proof (Hs i j x y ltac:(lia) Hj Hx Hy). lia.
Qed.

(** On a sorted array whose first word is below the key, lower_bound is the
    number of words below the key. *)
Lemma lower_bound_spec (stray : Z -> Z) (ks : list Z) (n key x0 : Z) :
  0 < n <= Z.of_nat (length ks) -> sorted_upto n ks -> zget ks 0 = Some x0 -> x0 < key ->
  exists e, lower_bound stray ks n key = Some e /\ 0 < e <= n
    /\ (forall i x, 0 <= i < e -> zget ks i = Some x -> x < key)
    /\ (forall i x, e <= i < n -> zget ks i = Some x -> key <= x).
Proof.
  intros Hn Hs H0 Hkey.
  destruct (bound_loop_spec stray (fun m => m <? key) ks (Z.to_nat n) 0 n) as (e & He & Hre & Hl & Hh); [lia..|].
  exists e. split; [done|]. split; [done|]. split; intros i x Hi Hx.
  - destruct Hl as [Hl | (y & Hy & Hlt)].
    + assert (i = 0) as -> by lia. by simplify_eq.
    + apply Z.ltb_lt in Hlt. pose proof (sorted_le n ks i (e - 1) x y Hs ltac:(lia) ltac:(lia) Hx Hy). lia.
  - destruct Hh as [-> | (y & Hy & Hge)]; [lia|].
    apply Z.ltb_ge in Hge. pose proof (sorted_le n ks e i y x Hs ltac:(lia) ltac:(lia) Hy Hx). lia.
Qed.

(** It never answers 0: a key that is not above the first word gets 1. *)
Lemma lower_bound_first (stray : Z -> Z) (ks : list Z) (n key x0 : Z) :
  0 < n <= Z.of_nat (length ks) -> sorted_upto n ks -> zget ks 0 = Some x0 -> key <= x0 ->
  lower_bound stray ks n key = Some 1.
Proof.
  intros Hn Hs H0 Hkey.
  destruct (bound_loop_spec stray (fun m => m <? key) ks (Z.to_nat n) 0 n) as (e & He & Hre & Hl & Hh); [lia..|].
  unfold lower_bound. rewrite He. f_equal. destruct Hl as [Hl | (y & Hy & Hlt)]; [lia|].
  apply Z.ltb_lt in Hlt. pose proof (sorted_le n ks 0 (e - 1) x0 y Hs ltac:(lia) ltac:(lia) H0 Hy). lia.
Qed.

Lemma binary_search_loop_spec (stray : Z -> Z) (ks : list Z) (n val : Z) (fuel : nat) :
  n <= Z.of_nat (length ks) -> sorted_upto n ks ->
  forall start end_, 0 <= start -> start <= end_ + 1 -> end_ < n -> (Z.to_nat (end_ + 1 - start) <= fuel)%nat ->
  (forall i, 0 <= i < n -> zget ks i = Some val -> start <= i <= end_) ->
  exists r, binary_search_loop stray (S fuel) ks start end_ val = Some r
    /\ ((0 <= r < n /\ zget ks r = Some val) \/ (r = -1 /\ forall i, 0 <= i < n -> zget ks i <> Some val)).
Proof.
  intros Hlen Hs. induction fuel as [|fuel IH]; intros start end_ H0 Hse Hend Hf Hin;
    cbn [binary_search_loop]; destruct (Z.leb_spec start end_) as [Hle | Hgt]; try lia.
  1,3: exists (-1); split; [done|]; right; split; [done|]; intros i Hi Hx; specialize (Hin i Hi Hx); lia.
  pose proof (half_between_le start end_ Hle) as Hm. set (mid := (start + end_) / 2) in *.
  destruct (zget_is_Some ks mid ltac:(lia)) as [x Hx]. rewrite (rd_zget _ _ _ x Hx). cbn [mbind option_bind].
  destruct (Z.eqb_spec x val) as [-> | Hne].
  { exists mid. split; [done|]. left. split; [lia|done]. }
  destruct (Z.ltb_spec val x); apply IH; try lia; intros i Hi Hxi; specialize (Hin i Hi Hxi).
  - destruct (Z.le_gt_cases mid i); [|lia].
    pose proof (sorted_le n ks mid i x val Hs ltac:(lia) ltac:(lia) Hx Hxi). lia.
  - destruct (Z.le_gt_cases i mid); [|lia].
    pose proof (sorted_le n ks i mid val x Hs ltac:(lia) ltac:(lia) Hxi Hx). lia.
Qed.

(** Binary search always ends; it finds the word when it is there. *)
Lemma binary_search_spec (stray : Z -> Z) (ks : list Z) (n val : Z) :
  0 <= n <= Z.of_nat (length ks) -> sorted_upto n ks ->
  exists r, binary_search stray ks n val = Some r
    /\ ((0 <= r < n /\ zget ks r = Some val) \/ (r = -1 /\ forall i, 0 <= i < n -> zget ks i <> Some val)).
Proof.
  intros Hn Hs. apply (binary_search_loop_spec stray ks n val (Z.to_nat n)); try (lia || done).
Qed.

(** ** The array map implements a finite map *)

(** The map an array map stands for. *)
Definition am_map (m : arraymap) : gmap Z Z :=
  list_to_map (zip (take (Z.to_nat (am_cur_size m)) (am_keys m)) (take (Z.to_nat (am_cur_size m)) (am_vals m))).

Record am_wf (m : arraymap) : Prop := {
  wf_cur : 0 <= am_cur_size m <= am_max_size m;
  wf_max : am_max_size m < 2 ^ 16;
  wf_keys : Z.of_nat (length (am_keys m)) = am_max_size m;
  wf_vals : Z.of_nat (length (am_vals m)) = am_max_size m;
  wf_sorted : sorted_upto (am_cur_size m) (am_keys m) }.

Lemma sorted_inj (n : Z) (ks : list Z) (i j x : Z) :
  sorted_upto n ks -> 0 <= i < n -> 0 <= j < n -> zget ks i = Some x -> zget ks j = Some x -> i = j.
Proof.
  intros Hs Hi Hj Hx Hy. destruct (Z.lt_trichotomy i j) as [Hlt | [| Hgt]]; [|done|].
  - pose proof (Hs i j x x ltac:(lia) ltac:(lia) Hx Hy). lia.
  - pose proof (Hs j i x x ltac:(lia) ltac:(lia) Hy Hx). lia.
Qed.

Lemma am_map_lookup (m : arraymap) (k v : Z) :
  am_wf m ->
  am_map m !! k = Some v <->
  exists i, 0 <= i < am_cur_size m /\ zget (am_keys m) i = Some k /\ zget (am_vals m) i = Some v.
Proof.
  intros [Hc Hm Hk Hv Hs]. unfold am_map. set (n := Z.to_nat (am_cur_size m)).
  assert (length (take n (am_keys m)) = n) as Hlk by (rewrite length_take; lia).
  assert (length (take n (am_vals m)) = n) as Hlv by (rewrite length_take; lia).
  rewrite <- elem_of_list_to_map.
  2: { rewrite fst_zip by lia. apply NoDup_alt. intros i j x Hi Hj.
       apply lookup_take_Some in Hi as [Hi Hin]. apply lookup_take_Some in Hj as [Hj Hjn].
       apply Nat2Z.inj. eapply (sorted_inj _ _ _ _ x Hs); rewrite ?zget_nat; (lia || done). }
  rewrite list_elem_of_lookup. split.
  - intros [i Hi]. apply lookup_zip_with_Some in Hi as (x & y & [= <- <-] & Hx & Hy).
    apply lookup_take_Some in Hx as [Hx Hin]. apply lookup_take_Some in Hy as [Hy _].
    exists (Z.of_nat i). rewrite !zget_nat. split; [lia|done].
  - intros (i & Hi & Hx & Hy). exists (Z.to_nat i). apply lookup_zip_with_Some.
    exists k, v. split; [done|]. rewrite <- (zget_nat (take n (am_keys m))), <- (zget_nat (take n (am_vals m))).
    rewrite <- (Z2Nat.id i) in Hx, Hy by lia. rewrite zget_nat in Hx, Hy. rewrite !zget_nat.
    rewrite !lookup_take by lia. rewrite !decide_True by lia. done.
Qed.

Section MapProofs.
Context (kstray vstray junk : Z -> Z).

Lemma am_vals_get (m : arraymap) (i : Z) :
  am_wf m -> 0 <= i < am_cur_size m -> exists v, zget (am_vals m) i = Some v /\ rd vstray (am_vals m) i = Some v.
Proof.
  intros Hwf Hi. destruct (zget_is_Some (am_vals m) i) as [v Hv]; [destruct Hwf; lia|].
  exists v. split; [done|]. by apply rd_zget.
Qed.

Lemma am_map_none (m : arraymap) (k : Z) :
  am_wf m -> (forall i, 0 <= i < am_cur_size m -> zget (am_keys m) i <> Some k) -> am_map m !! k = None.
Proof.
  intros Hwf Hno. destruct (am_map m !! k) as [v|] eqn:E; [|done].
  apply am_map_lookup in E as (i & Hi & Hk & _); [|done]. by destruct (Hno i Hi).
Qed.

Lemma arraymap_get_spec (m : arraymap) (key : Z) :
  am_wf m -> arraymap_get kstray vstray m key = Some (default 0 (am_map m !! key)).
Proof.
  intros Hwf. unfold arraymap_get.
  destruct (binary_search_spec kstray (am_keys m) (am_cur_size m) key) as (r & -> & Hr);
    [destruct Hwf; lia|apply Hwf|]. cbn [mbind option_bind].
  destruct Hr as [[Hr Hk] | [-> Hno]].
  - destruct (Z.eqb_spec r (-1)); [lia|]. cbn [negb].
    destruct (am_vals_get m r Hwf Hr) as (v & Hv & ->). f_equal.
    by rewrite (proj2 (am_map_lookup m key v Hwf)) by eauto.
  - cbn. by rewrite am_map_none.
Qed.

(** C25: reading an array map is the lookup of the finite map it stands for, and
    NULL for a key that is not in it; the binary search ends and never leaves
    the arrays. *)
Theorem arraymap_get_lookup (m : arraymap) (key : Z) :
  am_wf m -> arraymap_get kstray vstray m key = Some (default 0 (am_map m !! key)).
Proof. exact (arraymap_get_spec m key). Qed.

Lemma shift_up_spec (stray : Z -> Z) (n : nat) : forall (i : Z) (l : list Z),
  Z.of_nat n <= i < Z.of_nat (length l) ->
  exists l', shift_up stray n i l = Some l' /\ length l' = length l /\
    forall j, zget l' j = if (i - Z.of_nat n <? j) && (j <=? i) then zget l (j - 1) else zget l j.
Proof.
  induction n as [|n IH]; intros i l Hi; cbn [shift_up].
  - exists l. split; [done|]. split; [done|]. intros j.
    destruct (Z.ltb_spec (i - Z.of_nat 0) j), (Z.leb_spec j i); (lia || done).
  - destruct (zget_is_Some l (i - 1) ltac:(lia)) as [x Hx]. rewrite (rd_zget _ _ _ x Hx). cbn [mbind option_bind].
    rewrite zset_is_Some by lia. cbn [mbind option_bind].
    destruct (IH (i - 1) (<[Z.to_nat i := x]> l)) as (l' & -> & Hlen & Hl'); [rewrite length_insert; lia|].
    exists l'. split; [done|]. split; [by rewrite Hlen, length_insert|]. intros j. rewrite Hl'.
    destruct (Z.ltb_spec (i - 1 - Z.of_nat n) j), (Z.ltb_spec (i - Z.of_nat (S n)) j),
      (Z.leb_spec j (i - 1)), (Z.leb_spec j i); cbn [andb]; try lia.
    all: try (rewrite zget_insert_ne by lia; done).
    all: replace j with i by lia; rewrite zget_insert_eq by lia; done.
Qed.

Lemma shift_down_spec (stray : Z -> Z) (n : nat) : forall (i : Z) (l : list Z),
  0 <= i -> i + Z.of_nat n <= Z.of_nat (length l) ->
  exists l', shift_down stray n i l = Some l' /\ length l' = length l /\
    forall j, zget l' j = if (i <=? j) && (j <? i + Z.of_nat n) then rd stray l (j + 1) else zget l j.
Proof.
  induction n as [|n IH]; intros i l Hi Hn; cbn [shift_down].
  - exists l. split; [done|]. split; [done|]. intros j.
    destruct (Z.leb_spec i j), (Z.ltb_spec j (i + Z.of_nat 0)); (lia || done).
  - assert (exists x, rd stray l (i + 1) = Some x) as [x Hx].
    { unfold rd. destruct (Z.ltb_spec (i + 1) 0); [lia|eauto]. }
    rewrite Hx. cbn [mbind option_bind]. rewrite zset_is_Some by lia. cbn [mbind option_bind].
    destruct (IH (i + 1) (<[Z.to_nat i := x]> l)) as (l' & -> & Hlen & Hl'); [lia|rewrite length_insert; lia|].
    exists l'. split; [done|]. split; [by rewrite Hlen, length_insert|]. intros j. rewrite Hl'.
    assert (forall k, 0 <= k -> k <> i -> rd stray (<[Z.to_nat i := x]> l) k = rd stray l k) as Hrd.
    { intros k Hk Hne. unfold rd. by rewrite list_lookup_insert_ne by lia. }
    destruct (Z.leb_spec (i + 1) j), (Z.leb_spec i j), (Z.ltb_spec j (i + 1 + Z.of_nat n)),
      (Z.ltb_spec j (i + Z.of_nat (S n))); cbn [andb]; try lia.
    all: try (by rewrite Hrd by lia).
    all: try (rewrite zget_insert_ne by lia; done).
    all: replace j with i by lia; rewrite zget_insert_eq by lia; done.
Qed.

Lemma grow_block_spec (stray : Z -> Z) (l : list Z) (max : Z) :
  Z.of_nat (length l) = max ->
  Z.of_nat (length (grow_block junk stray l max (max + MAP_GROW))) = max + MAP_GROW
  /\ forall i, i < max -> zget (grow_block junk stray l max (max + MAP_GROW)) i = zget l i.
Proof.
  intros Hl. unfold grow_block, fresh_words, MAP_GROW. split.
  - rewrite !length_app, !length_map, !length_seq. lia.
  - intros i Hi. unfold zget. destruct (Z.ltb_spec i 0); [done|]. by rewrite lookup_app_l by lia.
Qed.

(** The insertion path of arraymap_set: the arrays after it, index by index. *)
Lemma arraymap_set_inserts (m : arraymap) (key val e : Z) :
  am_wf m -> am_max_size m + MAP_GROW < 2 ^ 16 -> 0 < am_cur_size m ->
  lower_bound kstray (am_keys m) (am_cur_size m) key = Some e -> 0 < e <= am_cur_size m ->
  rd kstray (am_keys m) e <> Some key ->
  exists m', arraymap_set kstray vstray junk m key val = Some (Some e, m')
    /\ am_cur_size m' = am_cur_size m + 1 /\ am_cur_size m' <= am_max_size m' < 2 ^ 16
    /\ Z.of_nat (length (am_keys m')) = am_max_size m' /\ Z.of_nat (length (am_vals m')) = am_max_size m'
    /\ forall j, j <= am_cur_size m ->
         zget (am_keys m') j = (if j <? e then zget (am_keys m) j else if j =? e then Some key else zget (am_keys m) (j - 1))
      /\ zget (am_vals m') j = (if j <? e then zget (am_vals m) j else if j =? e then Some val else zget (am_vals m) (j - 1)).
Proof.
  intros [Hc Hm Hk Hv Hs] Hgrow Hpos Hlb He Hne. unfold arraymap_set.
  destruct (Z.eqb_spec (am_cur_size m) 0); [lia|]. rewrite Hlb. cbn [mbind option_bind].
  assert (exists x, rd kstray (am_keys m) e = Some x) as [x Hx].
  { unfold rd. destruct (Z.ltb_spec e 0); [lia|eauto]. }
  rewrite Hx. cbn [mbind option_bind]. destruct (Z.eqb_spec x key) as [->|_]; [done|].
  set (grown := if am_max_size m <=? am_cur_size m then _ else _).
  assert (exists max ks vs, grown = (max, ks, vs) /\ am_cur_size m < max < 2 ^ 16
    /\ Z.of_nat (length ks) = max /\ Z.of_nat (length vs) = max
    /\ forall j, j < am_cur_size m -> zget ks j = zget (am_keys m) j /\ zget vs j = zget (am_vals m) j)
    as (max & ks & vs & -> & Hmax & Hks & Hvs & Heq).
  { subst grown. destruct (Z.leb_spec (am_max_size m) (am_cur_size m)) as [Hfull | Hroom].
    - destruct (grow_block_spec kstray (am_keys m) _ Hk) as [Hlk Hgk].
      destruct (grow_block_spec vstray (am_vals m) _ Hv) as [Hlv Hgv].
      do 3 eexists. split; [reflexivity|]. unfold MAP_GROW in *. rewrite u16_small by lia.
      split; [lia|]. split; [done|]. split; [done|]. intros j Hj. rewrite Hgk, Hgv by lia. done.
    - do 3 eexists. split; [reflexivity|]. split; [lia|]. done. }
  destruct (shift_up_spec kstray (Z.to_nat (am_cur_size m - e)) (am_cur_size m) ks) as (ks1 & -> & Hlk1 & Hks1); [lia|].
  destruct (shift_up_spec vstray (Z.to_nat (am_cur_size m - e)) (am_cur_size m) vs) as (vs1 & -> & Hlv1 & Hvs1); [lia|].
  cbn [mbind option_bind]. rewrite !zset_is_Some by lia. cbn [mbind option_bind].
  eexists. split; [reflexivity|]. cbn. rewrite u16_small, !length_insert by lia.
  split; [done|]. split; [lia|]. split; [lia|]. split; [lia|]. intros j Hj.
  destruct (Z.ltb_spec j e); [|destruct (Z.eqb_spec j e) as [->|]].
  - rewrite !zget_insert_ne, Hks1, Hvs1 by lia.
    destruct (Z.ltb_spec (am_cur_size m - Z.of_nat (Z.to_nat (am_cur_size m - e))) j); [lia|]. cbn. apply Heq. lia.
  - rewrite !zget_insert_eq by lia. done.
  - rewrite !zget_insert_ne, Hks1, Hvs1 by lia.
    destruct (Z.ltb_spec (am_cur_size m - Z.of_nat (Z.to_nat (am_cur_size m - e))) j); [|lia].
    destruct (Z.leb_spec j (am_cur_size m)); [|lia]. cbn. apply Heq. lia.
Qed.

(** Where the code can place a key: in an empty map, or above its first key
    (and not found in the stale word after the keys). *)
Definition placeable (m : arraymap) (key : Z) : Prop :=
  (am_cur_size m = 0 /\ 0 < am_max_size m)
  \/ (0 < am_cur_size m /\ (exists x, zget (am_keys m) 0 = Some x /\ x < key)
      /\ rd kstray (am_keys m) (am_cur_size m) <> Some key).

Lemma arraymap_set_empty (m : arraymap) (key val : Z) :
  am_wf m -> am_cur_size m = 0 -> 0 < am_max_size m ->
  exists m', arraymap_set kstray vstray junk m key val = Some (Some 0, m') /\ am_wf m'
    /\ am_map m' = <[key := val]> (am_map m).
Proof.
  intros Hwf H0 Hmax. pose proof Hwf as [Hc Hm Hk Hv Hs]. unfold arraymap_set. rewrite H0.
  cbn [Z.eqb mbind option_bind]. rewrite !zset_is_Some by lia. cbn [mbind option_bind].
  eexists. split; [reflexivity|]. rewrite u16_small by lia.
  assert (am_wf {| am_max_size := am_max_size m; am_cur_size := 0 + 1;
            am_keys := <[Z.to_nat 0:=key]> (am_keys m); am_vals := <[Z.to_nat 0:=val]> (am_vals m) |}) as Hwf'.
  { split; cbn; rewrite ?length_insert; try lia. intros i j x y Hij Hj. lia. }
  split; [done|]. apply map_eq. intros k. apply option_eq. intros v.
  rewrite (am_map_lookup _ k v Hwf'), lookup_insert_Some. cbn [am_cur_size am_keys am_vals].
  split.
  - intros (i & Hi & Hki & Hvi). assert (i = 0) as -> by lia.
    rewrite zget_insert_eq in Hki, Hvi by lia. simplify_eq. by left.
  - intros [[-> ->] | [_ Hin]].
    + exists 0. rewrite !zget_insert_eq by lia. split; [lia|done].
    + apply (am_map_lookup m k v Hwf) in Hin as (i & Hi & _). lia.
Qed.

Lemma arraymap_set_modify (m : arraymap) (key val e : Z) :
  am_wf m -> 0 < am_cur_size m -> lower_bound kstray (am_keys m) (am_cur_size m) key = Some e ->
  0 < e < am_cur_size m -> zget (am_keys m) e = Some key ->
  exists m', arraymap_set kstray vstray junk m key val = Some (None, m') /\ am_wf m'
    /\ am_map m' = <[key := val]> (am_map m).
Proof.
  intros Hwf Hpos Hlb He Hx. pose proof Hwf as [Hc Hm Hk Hv Hs]. unfold arraymap_set.
  destruct (Z.eqb_spec (am_cur_size m) 0); [lia|]. rewrite Hlb. cbn [mbind option_bind].
  rewrite (rd_zget _ _ _ key Hx). cbn [mbind option_bind]. rewrite Z.eqb_refl, zset_is_Some by lia.
  cbn [mbind option_bind]. eexists. split; [reflexivity|].
  assert (am_wf {| am_max_size := am_max_size m; am_cur_size := am_cur_size m;
            am_keys := am_keys m; am_vals := <[Z.to_nat e:=val]> (am_vals m) |}) as Hwf'.
  { split; cbn; rewrite ?length_insert; done. }
  split; [done|]. apply map_eq. intros k. apply option_eq. intros v.
  rewrite (am_map_lookup _ k v Hwf'), lookup_insert_Some, (am_map_lookup m k v Hwf). cbn [am_cur_size am_keys am_vals].
  split.
  - intros (i & Hi & Hki & Hvi). destruct (decide (i = e)) as [->|Hne].
    + rewrite zget_insert_eq in Hvi by lia. simplify_eq. by left.
    + rewrite zget_insert_ne in Hvi by lia. right. split; [|eauto].
      intros ->. apply Hne. eapply sorted_inj; eauto; lia.
  - intros [[-> ->] | [Hne (i & Hi & Hki & Hvi)]].
    + exists e. rewrite zget_insert_eq by lia. split; [lia|done].
    + exists i. rewrite zget_insert_ne; [done|lia|]. intros ->. congruence.
Qed.
(** An array with one word inserted at [e] in order is sorted. *)
Lemma sorted_insert (ks ks' : list Z) (n e key : Z) :
  sorted_upto n ks -> 0 <= e <= n ->
  (forall j, j <= n -> zget ks' j = if j <? e then zget ks j else if j =? e then Some key else zget ks (j - 1)) ->
  (forall i x, 0 <= i < e -> zget ks i = Some x -> x < key) ->
  (forall i x, e <= i < n -> zget ks i = Some x -> key < x) ->
  sorted_upto (n + 1) ks'.
Proof.
  intros Hs He Hks Hlo Hhi i j x y Hij Hj Hx Hy. rewrite Hks in Hx, Hy by lia.
  destruct (Z.ltb_spec i e), (Z.ltb_spec j e), (Z.eqb_spec i e), (Z.eqb_spec j e); try lia; simplify_eq.
  - eapply Hs; [| |exact Hx|exact Hy]; lia.
  - apply (Hlo i x); [lia|done].
  - eapply Hs; [| |exact Hx|exact Hy]; lia.
  - apply (Hhi (j - 1) y); [lia|done].
  - eapply Hs; [| |exact Hx|exact Hy]; lia.
Qed.

Lemma am_map_insert (m m' : arraymap) (key val e : Z) :
  am_wf m -> am_wf m' -> 0 <= e <= am_cur_size m -> am_cur_size m' = am_cur_size m + 1 ->
  (forall j, j <= am_cur_size m ->
     zget (am_keys m') j = (if j <? e then zget (am_keys m) j else if j =? e then Some key else zget (am_keys m) (j - 1))
  /\ zget (am_vals m') j = (if j <? e then zget (am_vals m) j else if j =? e then Some val else zget (am_vals m) (j - 1))) ->
  am_map m' = <[key := val]> (am_map m).
Proof.
  intros Hwf Hwf' He Hcur Hj. apply map_eq. intros k. apply option_eq. intros v.
  rewrite lookup_insert_Some, (am_map_lookup m' k v Hwf'), (am_map_lookup m k v Hwf), Hcur.
  assert (zget (am_keys m') e = Some key /\ zget (am_vals m') e = Some val) as [Hke Hve].
  { destruct (Hj e ltac:(lia)) as [-> ->]. destruct (Z.ltb_spec e e); [lia|]. by rewrite Z.eqb_refl. }
  split.
  - intros (i & Hi & Hk & Hv). destruct (decide (i = e)) as [->|Hne]; [left; split; congruence|].
    right. split.
    { intros <-. apply Hne. eapply (sorted_inj _ _ _ _ key (wf_sorted m' Hwf')); (lia || done). }
    destruct (Hj i ltac:(lia)) as [Hki Hvi]. rewrite Hki in Hk. rewrite Hvi in Hv.
    destruct (Z.ltb_spec i e), (Z.eqb_spec i e); try lia.
    + exists i. split; [lia|done].
    + exists (i - 1). split; [lia|done].
  - intros [[<- <-] | [_ (i & Hi & Hk & Hv)]]; [exists e; split; [lia|done]|].
    destruct (Z.ltb_spec i e) as [Hlt | Hge].
    + exists i. destruct (Hj i ltac:(lia)) as [-> ->]. destruct (Z.ltb_spec i e); [|lia]. split; [lia|done].
    + exists (i + 1). destruct (Hj (i + 1) ltac:(lia)) as [-> ->].
      destruct (Z.ltb_spec (i + 1) e), (Z.eqb_spec (i + 1) e); try lia.
      replace (i + 1 - 1) with i by lia. split; [lia|done].
Qed.

Lemma arraymap_set_spec (m : arraymap) (key val : Z) :
  am_wf m -> am_max_size m + MAP_GROW < 2 ^ 16 -> placeable m key ->
  exists r m', arraymap_set kstray vstray junk m key val = Some (r, m') /\ am_wf m'
    /\ am_map m' = <[key := val]> (am_map m).
Proof.
  intros Hwf Hgrow [[H0 Hmax] | (Hpos & (x0 & H0 & Hx0) & Hstale)].
  { destruct (arraymap_set_empty m key val Hwf H0 Hmax) as (m' & ? & ? & ?). eauto. }
  destruct (lower_bound_spec kstray (am_keys m) (am_cur_size m) key x0) as (e & Hlb & He & Hlo & Hhi);
    [destruct Hwf; lia|apply Hwf|done..|].
  destruct (decide (rd kstray (am_keys m) e = Some key)) as [Hsame | Hdiff].
  - assert (e <> am_cur_size m) as Hne by congruence.
    destruct (arraymap_set_modify m key val e Hwf Hpos Hlb) as (m' & ? & ? & ?); [lia| |by eauto].
    rewrite rd_inside in Hsame; [done|destruct Hwf; lia].
  - destruct (arraymap_set_inserts m key val e Hwf Hgrow Hpos Hlb He Hdiff) as (m' & Hset & Hcur & Hmax & Hlk & Hlv & Hj).
    assert (am_wf m') as Hwf'.
    { split; [lia|lia|done|done|]. rewrite Hcur. eapply (sorted_insert (am_keys m)); [apply Hwf| | |exact Hlo|].
      - lia.
      - intros j Hjn. apply Hj. done.
      - intros i x Hi Hx. pose proof (Hhi i x Hi Hx). destruct (decide (i = e)) as [->|]; [|].
        + rewrite rd_inside in Hdiff by (destruct Hwf; lia). assert (x <> key) by congruence. lia.
        + destruct (zget_is_Some (am_keys m) e) as [y Hy]; [destruct Hwf; lia|].
          pose proof (Hhi e y ltac:(lia) Hy). pose proof (wf_sorted m Hwf e i y x ltac:(lia) ltac:(lia) Hy Hx). lia. }
    exists (Some e), m'. split; [done|]. split; [done|].
    apply (am_map_insert m m' key val e); (done || lia).
Qed.

(** A key that is not above the first key is misplaced: lower_bound never
    answers 0, so the key is written after the first one and the array is no
    longer sorted.  From one key, a smaller key is then not found, and a new
    value for that same key is never seen. *)
Theorem arraymap_set_not_above_first (m : arraymap) (key val x0 v0 : Z) :
  am_wf m -> am_max_size m + MAP_GROW < 2 ^ 16 -> 0 < am_cur_size m ->
  zget (am_keys m) 0 = Some x0 -> zget (am_vals m) 0 = Some v0 -> key <= x0 ->
  rd kstray (am_keys m) 1 <> Some key ->
  exists m', arraymap_set kstray vstray junk m key val = Some (Some 1, m') /\ ~ am_wf m'
    /\ zget (am_keys m') 0 = Some x0 /\ zget (am_keys m') 1 = Some key
    /\ (am_cur_size m = 1 -> arraymap_get kstray vstray m' key = Some (if key =? x0 then v0 else 0)).
Proof.
  intros Hwf Hgrow Hpos Hk0 Hv0 Hle Hne.
  destruct (arraymap_set_inserts m key val 1 Hwf Hgrow Hpos) as (m' & Hset & Hcur & Hmax & Hlk & Hlv & Hj);
    [apply (lower_bound_first _ _ _ _ x0); try done; [destruct Hwf; lia|apply Hwf]|lia|done|].
  destruct (Hj 0 ltac:(lia)) as [Hk0' Hv0']. destruct (Hj 1 ltac:(lia)) as [Hk1' Hv1'].
  cbn -[zget] in Hk0', Hv0', Hk1', Hv1'. rewrite Hk0 in Hk0'. rewrite Hv0 in Hv0'.
  exists m'. split; [done|]. split; [|split; [done|]; split; [done|]].
  - intros Hwf'. pose proof (wf_sorted m' Hwf' 0 1 x0 key ltac:(lia) ltac:(lia) Hk0' Hk1'). lia.
  - intros H1. unfold arraymap_get, binary_search. rewrite Hcur, H1. change (S (Z.to_nat (1 + 1))) with 3%nat.
    change (1 + 1 - 1) with 1.
    assert (binary_search_loop kstray 3 (am_keys m') 0 1 key = Some (if key =? x0 then 0 else -1)) as ->.
    { cbn [binary_search_loop]. change (0 <=? 1) with true. change ((0 + 1) / 2) with 0. cbv iota zeta.
      rewrite (rd_zget kstray (am_keys m') 0 x0 Hk0'). cbn [mbind option_bind]. rewrite (Z.eqb_sym key x0).
      destruct (Z.eqb_spec x0 key) as [->|Hd]; [done|]. by destruct (Z.ltb_spec key x0); [|lia]. }
    cbn [mbind option_bind]. destruct (Z.eqb_spec key x0); [|done].
    change (negb (0 =? -1)) with true. cbv iota. by apply rd_zget.
Qed.

(** C26: writing an array map of fewer than 2^16 - MAP_GROW places.  In an empty
    map, or for a key above the first one, it is the insertion into the finite
    map it stands for, and keeps the arrays sorted, whether the key is new or
    present, and the map has room or must grow (provided the word after the
    keys is not by chance the key).  For a key that is not above the first one
    it is not: the key is put behind the first one, even when it is that very
    key, and the keys are no longer sorted (unless the second word is by chance
    the key, when the map has one entry). *)
Theorem arraymap_set_insert (m : arraymap) (key val : Z) :
  am_wf m -> am_max_size m + MAP_GROW < 2 ^ 16 ->
  (placeable m key -> exists r m', arraymap_set kstray vstray junk m key val = Some (r, m') /\ am_wf m'
    /\ am_map m' = <[key := val]> (am_map m)) /\
  (forall x0 v0, 0 < am_cur_size m -> zget (am_keys m) 0 = Some x0 -> zget (am_vals m) 0 = Some v0 -> key <= x0 ->
    rd kstray (am_keys m) 1 <> Some key -> exists m', arraymap_set kstray vstray junk m key val = Some (Some 1, m') /\ ~ am_wf m'
    /\ zget (am_keys m') 0 = Some x0 /\ zget (am_keys m') 1 = Some key).
Proof.
  intros Hwf Hgrow. split; [exact (arraymap_set_spec m key val Hwf Hgrow)|]. intros x0 v0 Hpos H0 Hv0 Hle Hne.
  destruct (arraymap_set_not_above_first m key val x0 v0 Hwf Hgrow Hpos H0 Hv0 Hle Hne) as (m' & ? & ? & ? & ? & _). by exists m'.
Qed.

(** The words after one of [n] words has been removed and the last cleared. *)
Lemma removed_words (stray : Z -> Z) (l : list Z) (n r : Z) :
  0 <= r < n -> n <= Z.of_nat (length l) ->
  exists l', shift_down stray (Z.to_nat (n - r)) r l = Some l' /\ length l' = length l
    /\ forall j, 0 <= j < n - 1 ->
         zget (<[Z.to_nat (n - 1) := 0]> l') j = if j <? r then zget l j else zget l (j + 1).
Proof.
  intros Hr Hn. destruct (shift_down_spec stray (Z.to_nat (n - r)) r l) as (l' & Hl' & Hlen & Hj); [lia..|].
  exists l'. split; [done|]. split; [done|]. intros j Hjr. rewrite zget_insert_ne, Hj by lia.
  destruct (Z.leb_spec r j), (Z.ltb_spec j (r + Z.of_nat (Z.to_nat (n - r)))), (Z.ltb_spec j r);
    cbn [andb]; try (lia || done). apply rd_inside. lia.
Qed.

Lemma am_map_delete (m m' : arraymap) (key r : Z) :
  am_wf m -> am_wf m' -> 0 <= r < am_cur_size m -> am_cur_size m' = am_cur_size m - 1 ->
  zget (am_keys m) r = Some key ->
  (forall j, 0 <= j < am_cur_size m - 1 ->
     zget (am_keys m') j = (if j <? r then zget (am_keys m) j else zget (am_keys m) (j + 1))
  /\ zget (am_vals m') j = (if j <? r then zget (am_vals m) j else zget (am_vals m) (j + 1))) ->
  am_map m' = delete key (am_map m).
Proof.
  intros Hwf Hwf' Hr Hcur Hkr Hj. apply map_eq. intros k. apply option_eq. intros v.
  rewrite lookup_delete_Some, (am_map_lookup m' k v Hwf'), (am_map_lookup m k v Hwf), Hcur. split.
  - intros (i & Hi & Hk & Hv). destruct (Hj i Hi) as [Hki Hvi]. rewrite Hki in Hk. rewrite Hvi in Hv.
    destruct (Z.ltb_spec i r).
    + split; [|exists i; split; [lia|done]]. intros <-.
      assert (r = i) by (eapply (sorted_inj _ _ _ _ key (wf_sorted m Hwf)); (lia || done)). lia.
    + split; [|exists (i + 1); split; [lia|done]]. intros <-.
      assert (r = i + 1) by (eapply (sorted_inj _ _ _ _ key (wf_sorted m Hwf)); (lia || done)). lia.
  - intros (Hne & i & Hi & Hk & Hv). destruct (Z.lt_trichotomy i r) as [Hlt | [-> | Hgt]]; [|congruence|].
    + exists i. destruct (Hj i ltac:(lia)) as [-> ->]. destruct (Z.ltb_spec i r); [|lia]. split; [lia|done].
    + exists (i - 1). destruct (Hj (i - 1) ltac:(lia)) as [-> ->]. destruct (Z.ltb_spec (i - 1) r); [lia|].
      replace (i - 1 + 1) with i by lia. split; [lia|done].
Qed.

(** C27: deleting from an array map is deletion from the finite map it stands
    for, and keeps the arrays sorted; a key that is not there changes nothing,
    and a deletion never fails, although it reads the word after the keys. *)
Theorem arraymap_del_delete (m : arraymap) (key : Z) :
  am_wf m ->
  exists m', arraymap_del kstray vstray m key = Some m' /\ am_wf m' /\ am_map m' = delete key (am_map m).
Proof.
  intros Hwf. pose proof Hwf as [Hc Hm Hk Hv Hs]. unfold arraymap_del.
  destruct (binary_search_spec kstray (am_keys m) (am_cur_size m) key) as (r & -> & Hr); [lia|done|].
  cbn [mbind option_bind]. destruct Hr as [[Hr Hkr] | [-> Hno]]; cycle 1.
  { exists m. cbn. split; [done|]. split; [done|]. symmetry. by apply delete_id, am_map_none. }
  destruct (Z.eqb_spec r (-1)); [lia|]. cbn [negb].
  destruct (removed_words kstray (am_keys m) (am_cur_size m) r) as (ks & -> & Hlk & Hks); [lia..|].
  destruct (removed_words vstray (am_vals m) (am_cur_size m) r) as (vs & -> & Hlv & Hvs); [lia..|].
  cbn [mbind option_bind]. rewrite u16_small by lia. rewrite !zset_is_Some by lia. cbn [mbind option_bind].
  eexists. split; [reflexivity|].
  match goal with |- am_wf ?m0 /\ _ => set (m' := m0) end.
  assert (am_wf m') as Hwf'.
  { split; cbn; rewrite ?length_insert; try lia. intros i j x y Hij Hj Hx Hy. rewrite Hks in Hx, Hy by lia.
    destruct (Z.ltb_spec i r), (Z.ltb_spec j r); try lia; (eapply Hs; [| |exact Hx|exact Hy]; lia). }
  split; [done|]. apply (am_map_delete m m' key r); try done. intros j Hj. split; [by apply Hks|by apply Hvs].
Qed.
End MapProofs.


(** ** Witnesses: a map of two keys *)

Definition am_sample : arraymap :=
  {| am_max_size := 4; am_cur_size := 2; am_keys := [16; 32; 0; 0]; am_vals := [1; 2; 0; 0] |}.

Lemma am_sample_wf : am_wf am_sample.
Proof.
  split; cbn; try lia. intros i j x y Hij Hj Hx Hy.
  assert (i = 0) as -> by lia. assert (j = 1) as -> by lia. vm_compute in Hx, Hy. simplify_eq. lia.
Qed.

Lemma arraymap_get_lookup_witness :
  am_wf am_sample /\ arraymap_get (fun _ => 0) (fun _ => 0) am_sample 32 = Some 2.
Proof. split; [exact am_sample_wf|]. rewrite (arraymap_get_lookup _ _ _ 32 am_sample_wf). vm_compute. reflexivity. Defined.

Lemma arraymap_set_insert_witness :
  exists r m', arraymap_set (fun _ => 0) (fun _ => 0) (fun _ => 0) am_sample 20 7 = Some (r, m') /\ am_wf m'
    /\ am_map m' = <[20 := 7]> (am_map am_sample).
Proof.
  apply (proj1 (arraymap_set_insert _ _ _ am_sample 20 7 am_sample_wf ltac:(vm_compute; reflexivity))).
  right. split; [vm_compute; reflexivity|]. split; [exists 16; split; vm_compute; reflexivity|vm_compute; discriminate].
Defined.

Lemma arraymap_del_delete_witness :
  exists m', arraymap_del (fun _ => 0) (fun _ => 0) am_sample 16 = Some m' /\ am_wf m'
    /\ am_map m' = delete 16 (am_map am_sample).
Proof. apply arraymap_del_delete, am_sample_wf. Defined.

Definition am_single : arraymap :=
  {| am_max_size := 4; am_cur_size := 1; am_keys := [32; 0; 0; 0]; am_vals := [1; 0; 0; 0] |}.

Lemma am_single_wf : am_wf am_single.
Proof. split; cbn; try lia. intros i j x y Hij Hj. lia. Qed.

Lemma arraymap_set_not_above_first_witness :
  exists m', arraymap_set (fun _ => 0) (fun _ => 0) (fun _ => 0) am_single 16 7 = Some (Some 1, m')
    /\ arraymap_get (fun _ => 0) (fun _ => 0) m' 16 = Some 0.
Proof.
  destruct (arraymap_set_not_above_first (fun _ => 0) (fun _ => 0) (fun _ => 0) am_single 16 7 32 1 am_single_wf)
    as (m' & Hset & _ & _ & _ & Hget); try (vm_compute; (reflexivity || discriminate)).
  exists m'. split; [exact Hset|]. exact (Hget eq_refl).
Defined.

(** ** darray: where a value goes *)

Record da_wf (a : darray) : Prop := {
  da_room : 0 <= da_cur_size a < da_max_size a;
  da_len : Z.of_nat (length (da_vals a)) = da_max_size a }.

Lemma free_slot_spec (vals : list Z) (n : nat) : forall i,
  0 <= i -> i + Z.of_nat n <= Z.of_nat (length vals) ->
  exists s, free_slot n i vals = Some s
    /\ match s with
       | Some k => i <= k < i + Z.of_nat n /\ zget vals k = Some 0
       | None => forall k, i <= k < i + Z.of_nat n -> zget vals k <> Some 0
       end.
Proof.
  induction n as [|n IH]; intros i Hi Hn; cbn [free_slot].
  - exists None. split; [done|]. intros k Hk. lia.
  - destruct (zget_is_Some vals i ltac:(lia)) as [v Hv]. rewrite Hv. cbn [mbind option_bind].
    destruct (Z.eqb_spec v 0) as [->|Hne].
    + exists (Some i). split; [done|]. split; [lia|done].
    + destruct (IH (i + 1)) as (s & -> & Hs); [lia..|]. exists s. split; [done|].
      destruct s as [k|]; [split; [lia|apply Hs]|].
      intros k Hk. destruct (decide (k = i)) as [->|]; [congruence|]. apply Hs. lia.
Qed.

Section DArrayProofs.
Context (alloc : darrays -> Z) (junk : Z -> Z).
(** The allocator hands out an address that is not in use. *)
Hypothesis alloc_fresh : forall h, h !! alloc h = None.

(** Adding to a darray stores the value at the index it returns, in the
    first free slot or after the others, and keeps every other value.  When
    the array is full it moves: the array is then at a new address, and the
    address the caller holds is freed memory. *)
Theorem darray_add_stores (h : darrays) (arr val : Z) (a : darray) :
  h !! arr = Some a -> da_wf a ->
  exists idx h' a', darray_add alloc junk h arr val = Some (idx, h') /\ da_wf a'
    /\ 0 <= idx < da_cur_size a' /\ zget (da_vals a') idx = Some val
    /\ (forall i, 0 <= i < da_cur_size a -> i <> idx -> zget (da_vals a') i = zget (da_vals a) i)
    /\ (idx < da_cur_size a -> zget (da_vals a) idx = Some 0)
    /\ (if (idx =? da_cur_size a) && (da_max_size a <=? idx + 1)
        then h' !! alloc h = Some a' /\ h' !! arr = None
        else h' !! arr = Some a').
Proof.
  intros Ha [Hroom Hlen]. unfold darray_add. rewrite Ha. cbn [mbind option_bind].
  destruct (free_slot_spec (da_vals a) (Z.to_nat (da_cur_size a)) 0) as (s & -> & Hs); [lia..|]. cbn [mbind option_bind].
  destruct s as [k|].
  - destruct Hs as [Hk Hz]. rewrite zset_is_Some by lia. cbn [mbind option_bind].
    eexists _, _, {| da_cur_size := da_cur_size a; da_max_size := da_max_size a;
      da_vals := <[Z.to_nat k := val]> (da_vals a) |}.
      split; [reflexivity|]. cbn. split; [split; cbn; rewrite ?length_insert; lia|].
    split; [lia|]. split; [apply zget_insert_eq; lia|]. split; [intros; apply zget_insert_ne; lia|]. split; [done|].
    destruct (Z.eqb_spec k (da_cur_size a)); [lia|]. cbn. apply lookup_insert_eq.
  - assert (alloc h <> arr) as Hne by (intros E; pose proof (alloc_fresh h); congruence).
    destruct (Z.leb_spec (da_max_size a) (da_cur_size a + 1)) as [Hfull | Hfree].
    + rewrite zset_is_Some by (rewrite length_app; lia). cbn [mbind option_bind].
      eexists _, _, {| da_cur_size := da_cur_size a + 1; da_max_size := da_max_size a + MAP_GROW;
      da_vals := <[Z.to_nat (da_cur_size a) := val]> (da_vals a ++ fresh_words junk (da_max_size a) MAP_GROW) |}.
      split; [reflexivity|]. cbn. unfold MAP_GROW, fresh_words.
      split; [split; cbn; rewrite ?length_insert, ?length_app, ?length_map, ?length_seq; lia|].
      split; [lia|]. split; [apply zget_insert_eq; rewrite length_app; lia|]. split.
      { intros i Hi Hii. rewrite zget_insert_ne by lia. unfold zget. destruct (i <? 0); [done|]. by rewrite lookup_app_l by lia. }
      split; [lia|]. rewrite Z.eqb_refl. destruct (Z.leb_spec (da_max_size a) (da_cur_size a + 1)); [|lia]. cbn.
      split; [apply lookup_insert_eq|]. etrans; [by apply lookup_insert_ne|apply lookup_delete_eq].
    + rewrite zset_is_Some by lia. cbn [mbind option_bind].
      eexists _, _, {| da_cur_size := da_cur_size a + 1; da_max_size := da_max_size a;
      da_vals := <[Z.to_nat (da_cur_size a) := val]> (da_vals a) |}.
      split; [reflexivity|]. cbn. split; [split; cbn; rewrite ?length_insert; lia|].
      split; [lia|]. split; [apply zget_insert_eq; lia|]. split; [intros; apply zget_insert_ne; lia|].
      split; [lia|]. rewrite Z.eqb_refl. destruct (Z.leb_spec (da_max_size a) (da_cur_size a + 1)); [lia|]. cbn.
      apply lookup_insert_eq.
Qed.
End DArrayProofs.

Lemma darray_add_stores_witness :
  exists idx h' a', darray_add (fun h => fresh (dom h)) (fun _ => 0)
      {[ 64 := {| da_cur_size := 1; da_max_size := 2; da_vals := [5; 0] |} ]} 64 9 = Some (idx, h')
    /\ 0 <= idx < da_cur_size a' /\ zget (da_vals a') idx = Some 9.
Proof.
  destruct (darray_add_stores (fun h => fresh (dom h)) (fun _ => 0)) with
    (h := {[ 64 := {| da_cur_size := 1; da_max_size := 2; da_vals := [5; 0] |} ]} : darrays) (arr := 64) (val := 9)
    (a := {| da_cur_size := 1; da_max_size := 2; da_vals := [5; 0] |}) as (idx & h' & a' & H1 & _ & H2 & H3 & _).
  - intros h. apply not_elem_of_dom, is_fresh.
  - reflexivity.
  - split; cbn; lia.
  - exists idx, h', a'. split; [exact H1|]. split; [exact H2|exact H3].
Defined.
