(* ===== verification/EbpfMap.v ===== *)
(** * The eBPF maps (libebpf/src/ebpf_map.c)

    The dynamic array [DArray] and the hash map of strings built from it: eight
    buckets, each an array of nodes.  Arrays and nodes are heap objects in
    stores by address, 0 being NULL; a map keeps the address of a key, and
    [str] is the string at an address.  [None] is an access through NULL or
    past a block.  The hash map is shown to refine a partial function from
    strings to values, as far as it does: a key that is set again keeps its
    first value. *)

From S2P Require Import Prelude.

(** ** DArray: [contents] is empty when the pointer is NULL. *)

Record DArray := mk_darray { end_ : Z; max_ : Z; el_sz : Z; contents : list Z }.

Record HashmapNode := { key : Z; value : Z; hash : Z }.

Record map_heap := mk_heap { arrays : gmap Z DArray; nodes : gmap Z HashmapNode }.

Definition with_arrays (h : map_heap) (a : gmap Z DArray) : map_heap := mk_heap a (nodes h).
Definition with_nodes (h : map_heap) (n : gmap Z HashmapNode) : map_heap := mk_heap (arrays h) n.
Definition put_array (h : map_heap) (p : Z) (a : DArray) : map_heap := with_arrays h (<[p := a]> (arrays h)).

Section Map.
(** The allocators, what fresh memory holds, and the strings. *)
Context (alloc_array : gmap Z DArray -> Z) (alloc_node : gmap Z HashmapNode -> Z) (junk : Z -> Z).
Context (str : Z -> list Z).

Definition DArray_create (h : map_heap) (sz initial_max : Z) : Z * map_heap :=
  let arr := alloc_array (arrays h) in
  (arr, put_array h arr (mk_darray 0 initial_max sz (repeat 0 (Z.to_nat initial_max)))).

Definition DArray_set (h : map_heap) (arr index val : Z) : option map_heap :=
  a ← arrays h !! arr;
  if max_ a <=? index then Some h
  else
    let e := if end_ a <? index then index else end_ a in
    c ← zset (contents a) index val;
    Some (put_array h arr (mk_darray e (max_ a) (el_sz a) c)).

Definition DArray_get (h : map_heap) (arr index : Z) : option Z :=
  a ← arrays h !! arr;
  if index <? max_ a then zget (contents a) index else Some 0.

Definition DArray_push (h : map_heap) (arr el : Z) : option (Z * map_heap) :=
  a ← arrays h !! arr;
  c ← zset (contents a) (end_ a) el;
  Some (0, put_array h arr (mk_darray (end_ a + 1) (max_ a) (el_sz a) c)).

Definition DArray_pop (h : map_heap) (arr : Z) : option (Z * map_heap) :=
  a ← arrays h !! arr;
  if 0 <? end_ a then
    el ← zget (contents a) (end_ a - 1);
    c ← zset (contents a) (end_ a - 1) 0;
    Some (el, put_array h arr (mk_darray (end_ a - 1) (max_ a) (el_sz a) c))
  else Some (0, h).

Definition DArray_destory (h : map_heap) (arr : Z) : option map_heap :=
  _ ← arrays h !! arr; Some (with_arrays h (delete arr (arrays h))).

Definition DArray_clear (h : map_heap) (arr : Z) : option map_heap :=
  _ ← arrays h !! arr; Some (put_array h arr (mk_darray 0 0 0 [])).

(** realloc of the block; [malloc_ok] is whether the allocation of a larger one
    succeeds.  [max] is set before the result is looked at; a block of size 0
    is freed and the pointer to it kept. *)
Definition DArray_resize (malloc_ok : bool) (h : map_heap) (arr new_sz : Z) : option (Z * map_heap) :=
  a ← arrays h !! arr;
  let resized r c := Some (r, put_array h arr (mk_darray (end_ a) new_sz (el_sz a) c)) in
  let fresh from := map (fun i => junk (Z.of_nat i)) (seq from (Z.to_nat new_sz - from)) in
  if new_sz =? 0 then resized (-1) []
  else if Nat.eqb (length (contents a)) 0 then
    if malloc_ok then resized 0 (fresh 0%nat) else resized (-1) []
  else if new_sz <=? max_ a then resized 0 (contents a)
  else if malloc_ok then
    if Z.of_nat (length (contents a)) <? max_ a then None   (* the copy reads past the block *)
    else resized 0 (take (Z.to_nat (max_ a)) (contents a) ++ fresh (Z.to_nat (max_ a)))
  else resized (-1) (contents a).

Definition DArray_expand (malloc_ok : bool) (h : map_heap) (arr : Z) : option (Z * map_heap) :=
  a ← arrays h !! arr;
  let step := if 100 <? max_ a then 5 * 2 else 5 in
  let step := if 1000 <? step then 1000 else step in
  DArray_resize malloc_ok h arr (max_ a + step).

(** ** The hash map *)

(** A char is unsigned on the target. *)
Definition hash_char (h c : Z) : Z :=
  let h := u32 (h + c) in
  let h := u32 (h + u32 (h << 10)) in
  h .^ (h >> 6).

Definition str_hash_fn (skey : list Z) : Z :=
  let h := fold_left hash_char skey 0 in
  let h := u32 (h + u32 (h << 3)) in
  let h := h .^ (h >> 11) in
  u32 (h + u32 (h << 15)).

Definition str_equal_fn (a b : list Z) : bool := bool_decide (a = b).

Record Hashmap := { buckets : Z; bucket_num : Z }.

Definition Hashmap_create (h : map_heap) : option (Hashmap * map_heap) :=
  let '(b, h) := DArray_create h 4 8 in
  a ← arrays h !! b;
  Some ({| buckets := b; bucket_num := 8 |}, put_array h b (mk_darray 8 (max_ a) (el_sz a) (contents a))).

Definition Hashmap_node_create (h : map_heap) (hash k val : Z) : Z * map_heap :=
  let node := alloc_node (nodes h) in
  (node, with_nodes h (<[node := {| key := k; value := val; hash := hash |}]> (nodes h))).

(** The bucket, the hash, and the heap. *)
Definition Hashmap_find_bucket (h : map_heap) (map : Hashmap) (k : Z) (create : bool) : option (Z * Z * map_heap) :=
  let hash := str_hash_fn (str k) in
  let bucket_index := hash mod bucket_num map in
  bucket ← DArray_get h (buckets map) bucket_index;
  if (bucket =? 0) && create then
    let '(bucket, h) := DArray_create h 4 10 in
    h ← DArray_set h (buckets map) bucket_index bucket;
    Some (bucket, hash, h)
  else Some (bucket, hash, h).

Definition Hashmap_set (h : map_heap) (map : Hashmap) (k data : Z) : option (Z * map_heap) :=
  r ← Hashmap_find_bucket h map k true;
  let '(bucket, hash, h) := r in
  let '(node, h) := Hashmap_node_create h hash k data in
  r ← DArray_push h bucket node;
  Some (0, snd r).

(** The nodes from index [i], [n] of them. *)
Fixpoint get_node_loop (h : map_heap) (bucket k hash_ : Z) (n : nat) (i : Z) : option Z :=
  match n with
  | O => Some (-1)
  | S n =>
      node ← DArray_get h bucket i;
      nd ← nodes h !! node;
      if (hash nd =? hash_) && str_equal_fn (str (key nd)) (str k) then Some i
      else get_node_loop h bucket k hash_ n (i + 1)
  end.

Definition Hashmap_get_node (h : map_heap) (hash_ bucket k : Z) : option Z :=
  b ← arrays h !! bucket;
  get_node_loop h bucket k hash_ (Z.to_nat (end_ b)) 0.

Definition Hashmap_get (h : map_heap) (map : Hashmap) (k : Z) : option Z :=
  r ← Hashmap_find_bucket h map k false;
  let '(bucket, hash, h) := r in
  if bucket =? 0 then Some 0
  else
    i ← Hashmap_get_node h hash bucket k;
    if i =? -1 then Some 0
    else node ← DArray_get h bucket i; nd ← nodes h !! node; Some (value nd).

Definition Hashmap_delete (h : map_heap) (map : Hashmap) (k : Z) : option (Z * map_heap) :=
  r ← Hashmap_find_bucket h map k false;
  let '(bucket, hash, h) := r in
  i ← Hashmap_get_node h hash bucket k;
  if i =? -1 then Some (0, h)
  else
    cur ← DArray_get h bucket i;
    nd ← nodes h !! cur;
    let val := value nd in
    r ← DArray_pop h bucket;
    let '(tail, h) := r in
    h ← (if negb (tail =? cur) then DArray_set h bucket i tail else Some h);
    Some (val, with_nodes h (delete cur (nodes h))).
End Map.

(** ** What a map stands for *)

Section Spec.
Context (alloc_array : gmap Z DArray -> Z) (alloc_node : gmap Z HashmapNode -> Z).
Context (str : Z -> list Z).

(** The nodes of a bucket, and their entries in order. *)
Definition elems (h : map_heap) (b : Z) : list Z :=
  match arrays h !! b with Some a => take (Z.to_nat (end_ a)) (contents a) | None => [] end.
Definition entry (h : map_heap) (p : Z) : option (list Z * Z) :=
  nd ← nodes h !! p; Some (str (key nd), value nd).
Definition entries (h : map_heap) (b : Z) : list (list Z * Z) := omap (entry h) (elems h b).

Definition bucket_at (h : map_heap) (map : Hashmap) (i : Z) : Z :=
  default 0 (a ← arrays h !! buckets map; zget (contents a) i).
Definition slot (k : list Z) : Z := str_hash_fn k mod 8.

(** The partial function: the first entry of the key's bucket that has it. *)
Definition view (h : map_heap) (map : Hashmap) (k : list Z) : option Z :=
  (list_to_map (entries h (bucket_at h map (slot k))) : gmap (list Z) Z) !! k.

Definition node_ok (h : map_heap) (i p : Z) : Prop :=
  p <> 0 /\ exists nd, nodes h !! p = Some nd /\ hash nd = str_hash_fn (str (key nd)) /\ slot (str (key nd)) = i.

Record bucket_wf (h : map_heap) (b i : Z) : Prop := {
  bw_array : exists a, arrays h !! b = Some a /\ max_ a = 10 /\ length (contents a) = 10%nat /\ 0 <= end_ a <= 10;
  bw_nodes : Forall (node_ok h i) (elems h b);
  bw_nodup : NoDup (elems h b) }.

Record hm_wf (h : map_heap) (map : Hashmap) : Prop := {
  hw_num : bucket_num map = 8;
  hw_array : exists a, arrays h !! buckets map = Some a /\ max_ a = 8 /\ length (contents a) = 8%nat /\ end_ a = 8;
  hw_null : arrays h !! 0 = None;
  hw_bucket : forall i, 0 <= i < 8 ->
    bucket_at h map i = 0 \/ (bucket_at h map i <> buckets map /\ bucket_wf h (bucket_at h map i) i);
  hw_apart : forall i j, 0 <= i < 8 -> 0 <= j < 8 -> bucket_at h map i <> 0 -> bucket_at h map i = bucket_at h map j -> i = j }.

Lemma slot_range (k : list Z) : 0 <= slot k < 8.
Proof. apply Z.mod_pos_bound. lia. Qed.

(** *** Finding a node *)

Fixpoint find_idx (f : Z -> bool) (l : list Z) : option nat :=
  match l with
  | [] => None
  | p :: l => if f p then Some O else S <$> find_idx f l
  end.

Definition has_key (h : map_heap) (k : list Z) (p : Z) : bool :=
  match nodes h !! p with Some nd => bool_decide (str (key nd) = k) | None => false end.

Lemma get_node_loop_spec (h : map_heap) (b k i0 : Z) (l : list Z) : forall i,
  (forall j p, l !! j = Some p -> DArray_get h b (i + Z.of_nat j) = Some p) -> Forall (node_ok h i0) l ->
  get_node_loop str h b k (str_hash_fn (str k)) (length l) i =
  Some (match find_idx (has_key h (str k)) l with Some j => i + Z.of_nat j | None => -1 end).
Proof.
  induction l as [|p l IH]; intros i Hget Hok; [done|]. apply Forall_cons_1 in Hok as [(Hne & nd & Hnd & Hh & _) Hok].
  cbn [length get_node_loop find_idx]. pose proof (Hget O p eq_refl) as H0. rewrite Z.add_0_r in H0. rewrite H0.
  cbn [mbind option_bind]. rewrite Hnd. cbn [mbind option_bind]. unfold has_key at 1. rewrite Hnd. unfold str_equal_fn.
  destruct (bool_decide_reflect (str (key nd) = str k)) as [He|He].
  - rewrite Hh, He, Z.eqb_refl. cbn. f_equal. lia.
  - rewrite andb_false_r, IH; [|intros j q Hq; specialize (Hget (S j) q Hq); by replace (i + 1 + Z.of_nat j) with (i + Z.of_nat (S j)) by lia|done].
    f_equal. destruct (find_idx _ l); cbn; lia.
Qed.

Lemma find_idx_lookup (h : map_heap) (i : Z) (k : list Z) (l : list Z) :
  Forall (node_ok h i) l ->
  match find_idx (has_key h k) l with
  | Some j => exists p nd, l !! j = Some p /\ nodes h !! p = Some nd /\ str (key nd) = k
      /\ (list_to_map (omap (entry h) l) : gmap (list Z) Z) !! k = Some (value nd)
  | None => (list_to_map (omap (entry h) l) : gmap (list Z) Z) !! k = None
  end.
Proof.
  induction l as [|p l IH]; intros Hok; [done|]. apply Forall_cons_1 in Hok as [(Hne & nd & Hnd & _) Hok]. specialize (IH Hok).
  assert (entry h p = Some (str (key nd), value nd)) as He0 by (unfold entry; by rewrite Hnd).
  cbn [find_idx omap list_omap]. rewrite He0. unfold has_key at 1. rewrite Hnd.
  destruct (bool_decide_reflect (str (key nd) = k)) as [He|He].
  - exists p, nd. split; [done|]. split; [done|]. split; [done|]. by rewrite list_to_map_cons, He, lookup_insert_eq.
  - rewrite list_to_map_cons, lookup_insert_ne by done. destruct (find_idx (has_key h k) l) as [j|]; cbn [fmap option_fmap option_map]; exact IH.
Qed.

Lemma elems_length (h : map_heap) (b i : Z) (a : DArray) :
  bucket_wf h b i -> arrays h !! b = Some a -> Z.of_nat (length (elems h b)) = end_ a.
Proof.
  intros [(a' & Ha & Hm & Hl & He) _ _] Ha'. rewrite Ha' in Ha. injection Ha as ->.
  unfold elems. rewrite Ha', length_take. lia.
Qed.

Lemma elems_get (h : map_heap) (b i : Z) (j : nat) (p : Z) :
  bucket_wf h b i -> elems h b !! j = Some p -> DArray_get h b (Z.of_nat j) = Some p.
Proof.
  intros [(a & Ha & Hm & Hl & He) _ _] Hj. unfold elems in Hj. rewrite Ha in Hj. unfold DArray_get. rewrite Ha.
  cbn [mbind option_bind]. apply lookup_take_Some in Hj as [Hj Hlt]. rewrite Hm. destruct (Z.ltb_spec (Z.of_nat j) 10); [|lia].
  unfold zget. destruct (Z.ltb_spec (Z.of_nat j) 0); [lia|]. by rewrite Nat2Z.id.
Qed.

Lemma get_node_spec (h : map_heap) (b i k : Z) :
  bucket_wf h b i ->
  Hashmap_get_node str h (str_hash_fn (str k)) b k =
  Some (match find_idx (has_key h (str k)) (elems h b) with Some j => Z.of_nat j | None => -1 end).
Proof.
  intros Hb. pose proof (bw_array _ _ _ Hb) as (a & Ha & _). unfold Hashmap_get_node. rewrite Ha. cbn [mbind option_bind].
  rewrite <- (elems_length h b i a Hb Ha), Nat2Z.id.
  rewrite (get_node_loop_spec h b k i (elems h b) 0); [done| |exact (bw_nodes _ _ _ Hb)].
  intros j p Hj. rewrite Z.add_0_l. by apply (elems_get h b i).
Qed.

(** *** The bucket of a key *)

Lemma bucket_get (h : map_heap) (map : Hashmap) (k : list Z) :
  hm_wf h map -> DArray_get h (buckets map) (str_hash_fn k mod bucket_num map) = Some (bucket_at h map (slot k)).
Proof.
  intros [Hn (a & Ha & Hm & Hl & He) _ _ _]. rewrite Hn. fold (slot k). pose proof (slot_range k) as Hs.
  unfold DArray_get, bucket_at. rewrite Ha. cbn [mbind option_bind]. rewrite Hm. destruct (Z.ltb_spec (slot k) 8); [|lia].
  destruct (zget_is_Some (contents a) (slot k) ltac:(lia)) as [x ->]. done.
Qed.

Lemma entries_null (h : map_heap) (map : Hashmap) : hm_wf h map -> entries h 0 = [].
Proof. intros Hwf. unfold entries, elems. by rewrite (hw_null _ _ Hwf). Qed.

(** Reading a key gives the value of the partial function, and NULL where it
    has none. *)
Lemma Hashmap_get_spec (h : map_heap) (map : Hashmap) (k : Z) :
  hm_wf h map -> Hashmap_get alloc_array str h map k = Some (default 0 (view h map (str k))).
Proof.
  intros Hwf. unfold Hashmap_get, Hashmap_find_bucket. rewrite bucket_get by done. cbn [mbind option_bind].
  rewrite andb_false_r. cbn [mbind option_bind]. unfold view. set (b := bucket_at h map (slot (str k))) in *.
  destruct (Z.eqb_spec b 0) as [->|Hne].
  { by rewrite (entries_null h map Hwf). }
  destruct (hw_bucket _ _ Hwf _ (slot_range (str k))) as [H0|[_ Hb]]; [done|]. fold b in Hb.
  rewrite (get_node_spec h b _ k Hb). cbn [mbind option_bind].
  pose proof (find_idx_lookup h _ (str k) _ (bw_nodes _ _ _ Hb)) as Hf. unfold entries.
  destruct (find_idx _ (elems h b)) as [j|].
  - destruct Hf as (p & nd & Hp & Hnd & _ & ->). destruct (Z.eqb_spec (Z.of_nat j) (-1)); [lia|].
    rewrite (elems_get h b _ j p Hb Hp). cbn [mbind option_bind]. by rewrite Hnd.
  - by rewrite Hf.
Qed.

(** *** Changes of one bucket *)

Lemma bucket_frame (h h' : map_heap) (b i : Z) :
  arrays h' !! b = arrays h !! b -> (forall p, In p (elems h b) -> nodes h' !! p = nodes h !! p) ->
  bucket_wf h b i -> bucket_wf h' b i /\ entries h' b = entries h b.
Proof.
  intros Ha Hn [Hb1 Hb2 Hb3]. assert (elems h' b = elems h b) as He by (unfold elems; by rewrite Ha). split.
  - split; [by rewrite Ha| |by rewrite He]. rewrite He. rewrite Forall_forall in Hb2 |- *. intros p Hp.
    destruct (Hb2 p Hp) as (Hne & nd & Hnd & Hr). split; [done|]. exists nd. by rewrite (Hn p Hp).
  - unfold entries. rewrite He. clear He Hb2 Hb3. induction (elems h b) as [|p l IH]; [done|]. cbn [omap list_omap].
    assert (entry h' p = entry h p) as -> by (unfold entry; rewrite (Hn p); [done|by left]).
    rewrite IH; [done|]. intros q Hq. apply Hn. by right.
Qed.

(** Bucket [i0] becomes [b0]; the others are as they were. *)
Lemma hm_wf_update (h h' : map_heap) (map : Hashmap) (i0 b0 : Z) :
  hm_wf h map -> 0 <= i0 < 8 ->
  (exists a, arrays h' !! buckets map = Some a /\ max_ a = 8 /\ length (contents a) = 8%nat /\ end_ a = 8) ->
  arrays h' !! 0 = None ->
  (forall i, 0 <= i < 8 -> bucket_at h' map i = if i =? i0 then b0 else bucket_at h map i) ->
  b0 <> 0 -> b0 <> buckets map -> bucket_wf h' b0 i0 ->
  (forall i, 0 <= i < 8 -> i <> i0 -> bucket_at h map i <> b0) ->
  (forall b, b <> b0 -> b <> buckets map -> arrays h' !! b = arrays h !! b) ->
  (forall i p, 0 <= i < 8 -> i <> i0 -> In p (elems h (bucket_at h map i)) -> nodes h' !! p = nodes h !! p) ->
  hm_wf h' map /\ (forall k, slot k <> i0 -> view h' map k = view h map k)
  /\ (forall k, slot k = i0 -> view h' map k = (list_to_map (entries h' b0) : gmap (list Z) Z) !! k).
Proof.
  intros Hwf Hi0 Harr Hnull Hat Hb0 Hb0m Hbw Hapart Hframe Hnodes.
  assert (forall i, 0 <= i < 8 -> i <> i0 -> bucket_at h map i <> 0 ->
    bucket_at h map i <> buckets map /\ bucket_wf h' (bucket_at h map i) i
    /\ entries h' (bucket_at h map i) = entries h (bucket_at h map i)) as Hother.
  { intros i Hi Hne Hnz. destruct (hw_bucket _ _ Hwf i Hi) as [|[Hm Hb]]; [done|]. split; [done|].
    apply (bucket_frame h h'); [apply Hframe; [by apply Hapart|done]|by intros p; apply Hnodes|done]. }
  split; [|split].
  - split; [exact (hw_num _ _ Hwf)|exact Harr|exact Hnull| |].
    + intros i Hi. rewrite (Hat i Hi). destruct (Z.eqb_spec i i0) as [->|Hne]; [by right|].
      destruct (decide (bucket_at h map i = 0)); [by left|right]. by destruct (Hother i Hi Hne) as (? & ? & _).
    + intros i j Hi Hj. rewrite (Hat i Hi), (Hat j Hj). intros Hnz Heq.
      destruct (Z.eqb_spec i i0) as [->|Hi'], (Z.eqb_spec j i0) as [->|Hj']; [done| | |].
      * by destruct (Hapart j Hj Hj').
      * by destruct (Hapart i Hi Hi').
      * exact (hw_apart _ _ Hwf i j Hi Hj Hnz Heq).
  - intros k Hk. unfold view. rewrite (Hat _ (slot_range k)). destruct (Z.eqb_spec (slot k) i0); [done|].
    destruct (decide (bucket_at h map (slot k) = 0)) as [->|Hnz].
    + unfold entries, elems. by rewrite Hnull, (hw_null _ _ Hwf).
    + destruct (Hother _ (slot_range k) Hk Hnz) as (_ & _ & ->). done.
  - intros k Hk. unfold view. rewrite (Hat _ (slot_range k)). by destruct (Z.eqb_spec (slot k) i0).
Qed.

Hypothesis alloc_array_fresh : forall m, alloc_array m <> 0 /\ m !! alloc_array m = None.
Hypothesis alloc_node_fresh : forall m, alloc_node m <> 0 /\ m !! alloc_node m = None.

Lemma bucket_at_put (h : map_heap) (map : Hashmap) (b : Z) (a : DArray) (i : Z) :
  b <> buckets map -> bucket_at (put_array h b a) map i = bucket_at h map i.
Proof. intros Hb. unfold bucket_at, put_array. cbn [arrays with_arrays]. by rewrite lookup_insert_ne. Qed.

(** The bucket of a key is created when there is none. *)
Lemma find_bucket_create (h : map_heap) (map : Hashmap) (k : Z) :
  hm_wf h map ->
  exists b h1, Hashmap_find_bucket alloc_array str h map k true = Some (b, str_hash_fn (str k), h1)
    /\ hm_wf h1 map /\ b <> 0 /\ bucket_at h1 map (slot (str k)) = b
    /\ entries h1 b = entries h (bucket_at h map (slot (str k)))
    /\ (forall k', view h1 map k' = view h map k') /\ nodes h1 = nodes h.
Proof.
  intros Hwf. unfold Hashmap_find_bucket. rewrite bucket_get by done. cbn [mbind option_bind].
  set (i := slot (str k)). pose proof (slot_range (str k)) as Hi. fold i in Hi.
  destruct (Z.eqb_spec (bucket_at h map i) 0) as [H0|Hne]; cbn [andb].
  2: { exists (bucket_at h map i), h. done. }
  pose proof (hw_array _ _ Hwf) as (a & Ha & Hm & Hl & He).
  destruct (alloc_array_fresh (arrays h)) as [Hnz Hfresh]. unfold DArray_create. set (b := alloc_array (arrays h)) in *.
  set (nb := mk_darray 0 10 4 (repeat 0 (Z.to_nat 10))). set (h0 := put_array h b nb).
  assert (b <> buckets map) as Hbm by (intros E; rewrite <- E in Ha; congruence).
  assert (arrays h0 !! buckets map = Some a) as Ha0 by (unfold h0; cbn; by rewrite lookup_insert_ne).
  unfold DArray_set. rewrite Ha0. cbn [mbind option_bind]. rewrite (hw_num _ _ Hwf). fold (slot (str k)). fold i.
  rewrite Hm, He. destruct (Z.leb_spec 8 i); [lia|]. destruct (Z.ltb_spec 8 i); [lia|].
  destruct (zset (contents a) i b) as [c|] eqn:Ec; [|rewrite zset_is_Some in Ec by lia; done]. cbn [mbind option_bind].
  set (h1 := put_array h0 (buckets map) _). exists b, h1. split; [reflexivity|].
  rewrite zset_is_Some in Ec by lia. injection Ec as <-.
  assert (arrays h1 !! b = Some nb) as Hb1.
  { unfold h1, h0. cbn. rewrite lookup_insert_ne by done. apply lookup_insert_eq. }
  assert (forall j, 0 <= j < 8 -> bucket_at h1 map j = if j =? i then b else bucket_at h map j) as Hat.
  { intros j Hj. unfold bucket_at, h1. cbn. rewrite lookup_insert_eq, Ha. cbn [mbind option_bind contents].
    unfold zget. destruct (Z.ltb_spec j 0); [lia|]. destruct (Z.eqb_spec j i) as [->|Hji].
    - rewrite list_lookup_insert_eq by lia. done.
    - rewrite list_lookup_insert_ne by lia. done. }
  assert (entries h1 b = []) as Hent by (unfold entries, elems; by rewrite Hb1).
  assert (entries h (bucket_at h map i) = []) as Hent0 by (rewrite H0; by apply (entries_null h map)).
  destruct (hm_wf_update h h1 map i b) as (Hwf1 & Hv1 & Hv2); try done.
  - exists (mk_darray 8 8 (el_sz a) (<[Z.to_nat i := b]> (contents a))). unfold h1. cbn. rewrite lookup_insert_eq.
    split; [done|]. split; [done|]. by rewrite length_insert.
  - unfold h1, h0. cbn. rewrite !lookup_insert_ne; [exact (hw_null _ _ Hwf)|done|].
    intros E. rewrite E in Ha. by rewrite (hw_null _ _ Hwf) in Ha.
  - split; [exists nb; split; [done|split; [done|split; [done|split; [done|done]]]]|unfold elems; rewrite Hb1; constructor|unfold elems; rewrite Hb1; constructor].
  - intros j Hj Hji E. destruct (hw_bucket _ _ Hwf j Hj) as [Hz|[_ [(a' & Ha' & _) _ _]]]; [congruence|].
    rewrite E in Ha'. congruence.
  - intros b' Hb' Hb'm. unfold h1, h0. cbn. by rewrite !lookup_insert_ne.
  - split; [done|]. split; [done|]. split; [rewrite Hat by done; by rewrite Z.eqb_refl|].
    split; [by rewrite Hent, Hent0|]. split; [|done]. intros k'. destruct (decide (slot k' = i)) as [Ei|Ei].
    + rewrite (Hv2 k' Ei), Hent. unfold view. by rewrite Ei, Hent0.
    + by apply Hv1.
Qed.

Lemma length_entries (h : map_heap) (b i : Z) : bucket_wf h b i -> length (entries h b) = length (elems h b).
Proof.
  intros [_ Hok _]. unfold entries. induction Hok as [|p l (_ & nd & Hnd & _) _ IH]; [done|].
  cbn [omap list_omap]. unfold entry at 1. rewrite Hnd. cbn [mbind option_bind length]. by rewrite IH.
Qed.

Lemma take_insert_end {A} (l : list A) (n : nat) (x : A) : (n < length l)%nat -> take (S n) (<[n := x]> l) = take n l ++ [x].
Proof.
  intros Hn. rewrite (take_S_r _ _ x) by (by apply list_lookup_insert_eq). by rewrite take_insert_ge by lia.
Qed.

(** Pushing a new node on a bucket with room. *)
Lemma push_spec (h : map_heap) (b i p : Z) (nd : HashmapNode) :
  bucket_wf h b i -> (length (entries h b) < 10)%nat -> p <> 0 -> nodes h !! p = None ->
  hash nd = str_hash_fn (str (key nd)) -> slot (str (key nd)) = i ->
  exists h', DArray_push (with_nodes h (<[p := nd]> (nodes h))) b p = Some (0, h')
    /\ bucket_wf h' b i /\ entries h' b = entries h b ++ [(str (key nd), value nd)]
    /\ (forall b', b' <> b -> arrays h' !! b' = arrays h !! b') /\ nodes h' = <[p := nd]> (nodes h).
Proof.
  intros Hb Hroom Hp Hfresh Hh Hs. pose proof Hb as [(a & Ha & Hm & Hl & He) Hok Hnd].
  rewrite (length_entries h b i Hb) in Hroom. pose proof (elems_length h b i a Hb Ha) as Hlen.
  unfold DArray_push. cbn [arrays with_nodes]. rewrite Ha. cbn [mbind option_bind]. rewrite zset_is_Some by lia.
  cbn [mbind option_bind]. eexists. split; [reflexivity|]. set (h' := put_array _ _ _).
  assert (elems h' b = elems h b ++ [p]) as Hel.
  { unfold elems, h', put_array. cbn [arrays with_arrays with_nodes]. rewrite lookup_insert_eq, Ha. cbn [end_ contents].
    replace (Z.to_nat (end_ a + 1)) with (S (Z.to_nat (end_ a))) by lia. apply take_insert_end. lia. }
  assert (forall q, In q (elems h b) -> nodes h' !! q = nodes h !! q) as Hold.
  { intros q Hq. unfold h'. cbn. rewrite Forall_forall in Hok. destruct (Hok q Hq) as (_ & nd' & Hnd' & _).
    rewrite lookup_insert_ne; [done|congruence]. }
  assert (Forall (node_ok h' i) (elems h b)) as Hok'.
  { rewrite Forall_forall in Hok |- *. intros q Hq. destruct (Hok q Hq) as (Hq0 & nd' & Hnd' & Hr).
    split; [done|]. exists nd'. by rewrite Hold. }
  assert (nodes h' !! p = Some nd) as Hnew by (unfold h'; cbn; apply lookup_insert_eq).
  split; [|split; [|split; [|done]]].
  - split.
    + unfold h', put_array. cbn [arrays with_arrays with_nodes]. rewrite lookup_insert_eq. eexists. split; [reflexivity|].
      cbn [max_ contents end_]. rewrite length_insert. split; [done|]. split; [done|]. lia.
    + rewrite Hel. apply Forall_app. split; [done|]. constructor; [|constructor]. split; [done|]. by exists nd.
    + rewrite Hel. apply list.NoDup_app. split; [done|]. split; [|apply list.NoDup_singleton].
      intros q Hq ->%list_elem_of_singleton. apply list_elem_of_In in Hq. rewrite Forall_forall in Hok.
      destruct (Hok p Hq) as (_ & nd' & Hnd' & _). congruence.
  - unfold entries. rewrite Hel, omap_app. cbn [omap list_omap]. unfold entry at 2. rewrite Hnew. cbn [mbind option_bind].
    f_equal. clear -Hold. induction (elems h b) as [|q l IH]; [done|]. cbn [omap list_omap].
    assert (entry h' q = entry h q) as -> by (unfold entry; rewrite (Hold q); [done|by left]).
    rewrite IH; [done|]. intros r Hr. apply Hold. by right.
  - intros b' Hb'. unfold h'. cbn. by rewrite lookup_insert_ne.
Qed.

(** Writing a key that has no value gives it one; a key that has one keeps it. *)
Lemma Hashmap_set_spec (h : map_heap) (map : Hashmap) (k data : Z) :
  hm_wf h map -> (length (entries h (bucket_at h map (slot (str k)))) < 10)%nat ->
  exists h', Hashmap_set alloc_array alloc_node str h map k data = Some (0, h') /\ hm_wf h' map
    /\ forall k', view h' map k' =
         match view h map k' with Some v => Some v | None => if decide (k' = str k) then Some data else None end.
Proof.
  intros Hwf Hroom. destruct (find_bucket_create h map k Hwf) as (b & h1 & Hf & Hwf1 & Hb0 & Hat & Hent & Hview & _).
  unfold Hashmap_set. rewrite Hf. cbn [mbind option_bind]. unfold Hashmap_node_create.
  destruct (alloc_node_fresh (nodes h1)) as [Hnz Hfresh]. set (p := alloc_node (nodes h1)) in *.
  set (nd := {| key := k; value := data; hash := str_hash_fn (str k) |}). set (i := slot (str k)) in *.
  destruct (hw_bucket _ _ Hwf1 i (slot_range (str k))) as [H0|[Hbm Hb]]; [congruence|]. rewrite Hat in Hbm, Hb.
  destruct (push_spec h1 b i p nd Hb ltac:(by rewrite Hent) Hnz Hfresh eq_refl eq_refl) as (h2 & Hpush & Hb2 & Hent2 & Hframe & Hnodes).
  rewrite Hpush. cbn [mbind option_bind snd]. exists h2. split; [reflexivity|].
  assert (forall j, 0 <= j < 8 -> bucket_at h2 map j = if j =? i then b else bucket_at h1 map j) as Hat2.
  { intros j Hj. unfold bucket_at. rewrite Hframe by done. fold (bucket_at h1 map j).
    destruct (Z.eqb_spec j i) as [->|]; [exact Hat|done]. }
  destruct (hm_wf_update h1 h2 map i b) as (Hwf2 & Hv1 & Hv2); try done.
  - apply slot_range.
  - destruct (hw_array _ _ Hwf1) as (a & Ha & Hr). exists a. rewrite Hframe; done.
  - rewrite Hframe by done. exact (hw_null _ _ Hwf1).
  - intros j Hj Hji E. apply Hji. symmetry. apply (hw_apart _ _ Hwf1 i j (slot_range _) Hj); rewrite Hat; done.
  - intros b' Hb' _. by apply Hframe.
  - intros j q Hj Hji Hq. rewrite Hnodes, lookup_insert_ne; [done|]. intros <-.
    destruct (hw_bucket _ _ Hwf1 j Hj) as [Hz|[_ [_ Hok _]]].
    + rewrite Hz in Hq. unfold elems in Hq. by rewrite (hw_null _ _ Hwf1) in Hq.
    + rewrite Forall_forall in Hok. destruct (Hok p Hq) as (_ & nd' & Hnd' & _). congruence.
  - split; [done|]. intros k'. rewrite <- Hview. destruct (decide (slot k' = i)) as [Ei|Ei].
    + rewrite (Hv2 k' Ei), Hent2, list_to_map_app, lookup_union. unfold view. rewrite Ei, Hat.
      destruct (_ !! k') as [v|] eqn:Ev; [by destruct (list_to_map [_] !! k')|]. cbn [list_to_map foldr fst snd nd key value].
      destruct (decide (k' = str k)) as [->|Hk]; [by rewrite lookup_insert_eq|by rewrite lookup_insert_ne].
    + rewrite (Hv1 k' Ei). destruct (view h1 map k'); [done|]. destruct (decide (k' = str k)) as [->|]; [done|done].
Qed.

(** *** Deletion *)

Lemma swap_remove_perm {A} (l : list A) (j : nat) (x tail : A) :
  l !! j = Some x -> l ++ [tail] ≡ₚ x :: <[j := tail]> l.
Proof.
  intros Hj. rewrite insert_take_drop by (by eapply lookup_lt_Some).
  rewrite <- (take_drop_middle l j x Hj) at 1. transitivity (x :: (take j l ++ drop (S j) l) ++ [tail]).
  { rewrite <- !app_assoc. cbn [app]. symmetry. apply Permutation_middle. }
  apply Permutation_skip.
  rewrite <- app_assoc. apply Permutation_app_head. symmetry. apply Permutation_cons_append.
Qed.

(** The bucket loses the node [cur], its last node taking its place. *)
Lemma bucket_remove (h h' : map_heap) (b i cur : Z) (nd : HashmapNode) :
  bucket_wf h b i -> nodes h !! cur = Some nd ->
  (exists a', arrays h' !! b = Some a' /\ max_ a' = 10 /\ length (contents a') = 10%nat /\ 0 <= end_ a' <= 10) ->
  elems h b ≡ₚ cur :: elems h' b -> nodes h' = delete cur (nodes h) ->
  bucket_wf h' b i /\ entries h b ≡ₚ (str (key nd), value nd) :: entries h' b.
Proof.
  intros [_ Hok Hnd] Hcur Harr Hperm Hnodes.
  assert (NoDup (cur :: elems h' b)) as Hnd' by (by rewrite <- Hperm). apply list.NoDup_cons in Hnd' as [Hnotin Hnd'].
  assert (forall q, In q (elems h' b) -> nodes h' !! q = nodes h !! q) as Hsame.
  { intros q Hq. rewrite Hnodes, lookup_delete_ne; [done|]. intros <-. apply Hnotin. by apply list_elem_of_In. }
  split.
  - split; [done| |done]. rewrite Hperm in Hok. apply Forall_cons_1 in Hok as [_ Hok]. rewrite Forall_forall in Hok |- *.
    intros q Hq. destruct (Hok q Hq) as (Hq0 & nd' & Hq' & Hr). split; [done|]. exists nd'. by rewrite (Hsame q Hq).
  - unfold entries. rewrite Hperm. cbn [omap list_omap]. unfold entry at 1. rewrite Hcur. cbn [mbind option_bind].
    apply Permutation_skip. clear -Hsame. induction (elems h' b) as [|q l IH]; [done|]. cbn [omap list_omap].
    assert (entry h' q = entry h q) as -> by (unfold entry; rewrite (Hsame q); [done|by left]).
    destruct (entry h q); [apply Permutation_skip|]; apply IH; intros r Hr; apply Hsame; by right.
Qed.

(** The array after the pop and the move of the last node. *)
Lemma swap_remove_spec (h : map_heap) (b i cur : Z) (j : nat) :
  bucket_wf h b i -> elems h b !! j = Some cur ->
  exists h1 h2 tail, DArray_pop h b = Some (tail, h1)
    /\ (if negb (tail =? cur) then DArray_set h1 b (Z.of_nat j) tail else Some h1) = Some h2
    /\ elems h b ≡ₚ cur :: elems h2 b /\ nodes h2 = nodes h
    /\ (forall b', b' <> b -> arrays h2 !! b' = arrays h !! b')
    /\ exists a', arrays h2 !! b = Some a' /\ max_ a' = 10 /\ length (contents a') = 10%nat /\ 0 <= end_ a' <= 10.
Proof.
  intros Hb Hj. pose proof Hb as [(a & Ha & Hm & Hl & He) Hok Hnd]. pose proof (elems_length h b i a Hb Ha) as Hlen.
  pose proof (lookup_lt_Some _ _ _ Hj) as Hjl. set (n := Z.to_nat (end_ a - 1)).
  assert (n < length (contents a))%nat as Hn by lia.
  destruct (lookup_lt_is_Some_2 _ _ Hn) as [tail Htail].
  assert (elems h b = take n (contents a) ++ [tail]) as Hel.
  { unfold elems. rewrite Ha. replace (Z.to_nat (end_ a)) with (S n) by lia. by apply take_S_r. }
  assert (length (take n (contents a)) = n) as Htn by (rewrite length_take; lia).
  unfold DArray_pop. rewrite Ha. cbn [mbind option_bind]. destruct (Z.ltb_spec 0 (end_ a)); [|lia].
  assert (zget (contents a) (end_ a - 1) = Some tail) as -> by (unfold zget; destruct (Z.ltb_spec (end_ a - 1) 0); [lia|exact Htail]).
  cbn [mbind option_bind]. rewrite zset_is_Some by lia. cbn [mbind option_bind]. fold n.
  set (a1 := mk_darray _ _ _ _). set (h1 := put_array h b a1).
  assert (arrays h1 !! b = Some a1) as Ha1 by apply lookup_insert_eq.
  assert (forall b', b' <> b -> arrays h1 !! b' = arrays h !! b') as Hf1 by (intros b' Hb'; unfold h1; cbn; by rewrite lookup_insert_ne).
  destruct (decide (j = n)) as [->|Hjn].
  - assert (tail = cur) as ->.
    { rewrite Hel, lookup_app_r, Htn, Nat.sub_diag in Hj by lia. by injection Hj. }
    exists h1, h1, cur. rewrite Z.eqb_refl. cbn [negb]. split; [done|]. split; [done|].
    split; [|split; [done|split; [done|]]].
    + rewrite Hel. unfold elems. rewrite Ha1. cbn [a1 end_ contents]. fold n. rewrite take_insert_ge by lia.
      symmetry. apply Permutation_cons_append.
    + exists a1. split; [done|]. cbn [a1 max_ contents end_]. rewrite length_insert. split; [done|]. split; [done|]. lia.
  - assert (j < n)%nat as Hjlt by lia.
    assert (take n (contents a) !! j = Some cur) as Hj' by (rewrite Hel, lookup_app_l in Hj by lia; done).
    destruct (Z.eqb_spec tail cur) as [->|Htc].
    { exfalso. apply Hjn. eapply (NoDup_lookup (elems h b)); [done|exact Hj|]. rewrite Hel, lookup_app_r by lia.
      by rewrite Htn, Nat.sub_diag. }
    assert (DArray_set h1 b (Z.of_nat j) tail
      = Some (put_array h1 b (mk_darray (end_ a - 1) 10 (el_sz a) (<[j := tail]> (<[n := 0]> (contents a)))))) as Hset.
    { unfold DArray_set. rewrite Ha1. cbn [mbind option_bind a1 max_ end_ contents el_sz]. rewrite Hm.
      destruct (Z.leb_spec 10 (Z.of_nat j)); [lia|]. destruct (Z.ltb_spec (end_ a - 1) (Z.of_nat j)); [lia|].
      rewrite zset_is_Some by (rewrite length_insert; lia). cbn [mbind option_bind]. by rewrite Nat2Z.id. }
    eexists h1, _, tail. split; [reflexivity|]. rewrite (proj2 (Z.eqb_neq _ _) Htc). cbn [negb]. split; [exact Hset|].
    set (h2 := put_array h1 b _). assert (arrays h2 !! b = Some (mk_darray (end_ a - 1) 10 (el_sz a) (<[j := tail]> (<[n := 0]> (contents a))))) as Ha2
      by apply lookup_insert_eq.
    split; [|split; [done|split]].
    + rewrite Hel. unfold elems. rewrite Ha2. cbn [end_ contents]. fold n.
      rewrite take_insert_lt by lia. rewrite take_insert_ge by lia. by apply swap_remove_perm.
    + intros b' Hb'. unfold h2. cbn. rewrite lookup_insert_ne by done. by apply Hf1.
    + eexists. split; [exact Ha2|]. cbn [max_ contents end_]. rewrite !length_insert. split; [done|]. split; [done|]. lia.
Qed.

(** Deleting a key that is there once takes it out of the partial function
    and returns its value; one that is not there, in a bucket that exists,
    changes nothing. *)
Lemma Hashmap_delete_spec (h : map_heap) (map : Hashmap) (k : Z) :
  hm_wf h map -> let b := bucket_at h map (slot (str k)) in
  b <> 0 -> NoDup (entries h b).*1 ->
  exists h', Hashmap_delete alloc_array str h map k = Some (default 0 (view h map (str k)), h') /\ hm_wf h' map
    /\ forall k', view h' map k' = if decide (k' = str k) then None else view h map k'.
Proof.
  intros Hwf b Hb0 Huniq. unfold Hashmap_delete, Hashmap_find_bucket. rewrite bucket_get by done. fold b. cbn [mbind option_bind].
  rewrite andb_false_r. cbn [mbind option_bind]. set (i := slot (str k)) in *.
  destruct (hw_bucket _ _ Hwf i (slot_range _)) as [H0|[Hbm Hb]]; [done|]. fold b in Hbm, Hb.
  rewrite (get_node_spec h b i k Hb). cbn [mbind option_bind].
  pose proof (find_idx_lookup h i (str k) _ (bw_nodes _ _ _ Hb)) as Hfind.
  assert (forall o, (list_to_map (entries h b) : gmap (list Z) Z) !! str k = o -> view h map (str k) = o) as Hview by done.
  destruct (find_idx _ (elems h b)) as [j|].
  2: { rewrite (Hview _ Hfind). exists h. split; [done|]. split; [done|]. intros k'.
       destruct (decide (k' = str k)) as [->|]; [exact (Hview _ Hfind)|done]. }
  destruct Hfind as (cur & nd & Hj & Hnd & Hkey & Hval). rewrite (Hview _ Hval). cbn [default].
  destruct (Z.eqb_spec (Z.of_nat j) (-1)); [lia|]. rewrite (elems_get h b i j cur Hb Hj). cbn [mbind option_bind].
  rewrite Hnd. cbn [mbind option_bind].
  destruct (swap_remove_spec h b i cur j Hb Hj) as (h1 & h2 & tail & -> & Hset & Hperm & Hn2 & Hframe & Harr).
  cbn [mbind option_bind]. rewrite Hset. cbn [mbind option_bind]. rewrite Hn2. set (h' := with_nodes h2 _).
  exists h'. split; [done|].
  destruct (bucket_remove h h' b i cur nd Hb Hnd Harr Hperm eq_refl) as [Hb' Hent].
  assert (forall b', b' <> b -> arrays h' !! b' = arrays h !! b') as Hframe' by exact Hframe.
  assert (forall l, 0 <= l < 8 -> bucket_at h' map l = if l =? i then b else bucket_at h map l) as Hat.
  { intros l Hl. unfold bucket_at. rewrite Hframe' by done. fold (bucket_at h map l). by destruct (Z.eqb_spec l i) as [->|]. }
  destruct (hm_wf_update h h' map i b) as (Hwf' & Hv1 & Hv2); try done.
  - apply slot_range.
  - destruct (hw_array _ _ Hwf) as (a & Ha & Hr). exists a. rewrite Hframe'; done.
  - rewrite Hframe' by done. exact (hw_null _ _ Hwf).
  - intros l Hl Hli E. apply Hli. symmetry. by apply (hw_apart _ _ Hwf i l (slot_range _) Hl).
  - intros b' Hne _. by apply Hframe'.
  - intros l q Hl Hli Hq. unfold h'. cbn [nodes with_nodes]. rewrite lookup_delete_ne; [done|]. intros <-.
    destruct (hw_bucket _ _ Hwf l Hl) as [Hz|[_ [_ Hok _]]].
    + rewrite Hz in Hq. unfold elems in Hq. by rewrite (hw_null _ _ Hwf) in Hq.
    + rewrite Forall_forall in Hok. destruct (Hok cur Hq) as (_ & nd' & Hnd' & _ & Hslot). rewrite Hnd in Hnd'.
      injection Hnd' as <-. apply Hli. rewrite <- Hslot, Hkey. done.
  - split; [done|]. intros k'. rewrite Hkey in Hent. rewrite (list_to_map_proper _ _ Huniq Hent) in Hval.
    assert (NoDup ((str k :: (entries h' b).*1))) as Hu by (rewrite <- (fmap_Permutation fst _ _ Hent) in Huniq || (pose proof (fmap_Permutation fst _ _ Hent) as Hp; rewrite Hp in Huniq); exact Huniq).
    apply list.NoDup_cons in Hu as [Hnotin _].
    destruct (decide (slot k' = i)) as [Ei|Ei].
    + rewrite (Hv2 k' Ei). unfold view. rewrite Ei. fold b. rewrite (list_to_map_proper _ _ Huniq Hent), list_to_map_cons.
      destruct (decide (k' = str k)) as [->|Hk]; [by apply not_elem_of_list_to_map_1|by rewrite lookup_insert_ne].
    + rewrite (Hv1 k' Ei). destruct (decide (k' = str k)) as [->|]; [done|done].
Qed.

(** A new map is well formed and stands for the empty function. *)
Lemma Hashmap_create_spec (h : map_heap) :
  arrays h !! 0 = None ->
  exists map h', Hashmap_create alloc_array h = Some (map, h') /\ hm_wf h' map /\ forall k, view h' map k = None.
Proof.
  intros H0. unfold Hashmap_create, DArray_create. destruct (alloc_array_fresh (arrays h)) as [Hnz Hfresh].
  set (b := alloc_array (arrays h)) in *. set (h1 := put_array h b _).
  assert (arrays h1 !! b = Some (mk_darray 0 8 4 (repeat 0 (Z.to_nat 8)))) as Hb1 by apply lookup_insert_eq.
  rewrite Hb1. cbn [mbind option_bind max_ el_sz contents]. eexists _, _. split; [reflexivity|].
  set (map := {| buckets := b; bucket_num := 8 |}). set (h2 := put_array h1 b _).
  assert (arrays h2 !! b = Some (mk_darray 8 8 4 (repeat 0 (Z.to_nat 8)))) as Hb2 by apply lookup_insert_eq.
  assert (arrays h2 !! 0 = None) as H02.
  { unfold h2, h1, put_array. cbn [arrays with_arrays]. by rewrite !lookup_insert_ne. }
  assert (forall i, bucket_at h2 map i = 0) as Hat.
  { intros i. unfold bucket_at. cbn [map buckets]. rewrite Hb2. cbn [mbind option_bind contents].
    destruct (zget _ i) as [x|] eqn:E; [|done]. cbn [default]. unfold zget in E. destruct (i <? 0); [done|].
    apply list_elem_of_lookup_2, list_elem_of_In in E. by apply repeat_spec in E. }
  split; [split|].
  - done.
  - by eexists.
  - done.
  - intros i _. left. apply Hat.
  - intros i j _ _ Hne. by rewrite Hat in Hne.
  - intros k. unfold view, entries, elems. by rewrite Hat, H02.
Qed.

(** C16: the hash map of strings as a partial function: reading is its value;
    writing extends it where it has none, as long as the bucket of the key has
    fewer than 10 entries (a key that has a value keeps it: the new entry comes
    after the old one); deleting from a bucket that is there and whose keys are
    distinct restricts it and returns the value.  The heap structure is kept.
    ([hashmap_faults] is what happens in a full bucket and in one that is not
    there; after a second writing of a key the bucket has it twice.) *)
Theorem hashmap_refines (h : map_heap) (map : Hashmap) (k data : Z) :
  hm_wf h map -> let b := bucket_at h map (slot (str k)) in
  Hashmap_get alloc_array str h map k = Some (default 0 (view h map (str k)))
  /\ ((length (entries h b) < 10)%nat ->
     exists h', Hashmap_set alloc_array alloc_node str h map k data = Some (0, h') /\ hm_wf h' map
       /\ forall k', view h' map k' =
            match view h map k' with Some v => Some v | None => if decide (k' = str k) then Some data else None end)
  /\ (b <> 0 -> NoDup (entries h b).*1 ->
     exists h', Hashmap_delete alloc_array str h map k = Some (default 0 (view h map (str k)), h') /\ hm_wf h' map
       /\ forall k', view h' map k' = if decide (k' = str k) then None else view h map k').
Proof.
  intros Hwf b. split; [by apply Hashmap_get_spec|]. split; intros H.
  - by apply Hashmap_set_spec.
  - by apply Hashmap_delete_spec.
Qed.

(** Where the hash map faults: the eleventh entry of a bucket is written
    past its array, which is never expanded, and deleting a key whose bucket
    was never created goes through NULL. *)
Theorem hashmap_faults (h : map_heap) (map : Hashmap) (k data : Z) :
  hm_wf h map -> let b := bucket_at h map (slot (str k)) in
  (length (entries h b) = 10%nat -> Hashmap_set alloc_array alloc_node str h map k data = None)
  /\ (b = 0 -> Hashmap_delete alloc_array str h map k = None).
Proof.
  intros Hwf b. split; intros Hb.
  - assert (b <> 0) as Hb0 by (intros E; rewrite E, (entries_null h map Hwf) in Hb; discriminate Hb).
    destruct (hw_bucket _ _ Hwf _ (slot_range (str k))) as [H0|[_ Hbw]]; [done|]. fold b in Hbw.
    pose proof Hbw as [(a & Ha & Hm & Hl & He) _ _]. rewrite (length_entries h b _ Hbw) in Hb.
    pose proof (elems_length h b _ a Hbw Ha) as Hlen.
    unfold Hashmap_set, Hashmap_find_bucket. rewrite bucket_get by done. fold b. cbn [mbind option_bind].
    destruct (Z.eqb_spec b 0); [done|]. cbn [andb mbind option_bind Hashmap_node_create].
    unfold DArray_push. cbn [arrays with_nodes]. rewrite Ha. cbn [mbind option_bind].
    assert (zset (contents a) (end_ a) (alloc_node (nodes h)) = None) as ->; [|done].
    unfold zset. destruct (Z.ltb_spec (end_ a) (Z.of_nat (length (contents a)))); [lia|]. by rewrite andb_false_r.
  - unfold Hashmap_delete, Hashmap_find_bucket. rewrite bucket_get by done. fold b. cbn [mbind option_bind].
    rewrite andb_false_r. cbn [mbind option_bind]. unfold Hashmap_get_node. rewrite Hb, (hw_null _ _ Hwf). done.
Qed.
End Spec.

(** ** Witnesses: maps made by [Hashmap_create]; the string at an address is
    the address in two bytes. *)

Definition str_sample (a : Z) : list Z := [a / 256; a mod 256].

Lemma hashmap_refines_witness :
  exists map h h', Hashmap_create fresh_address (mk_heap ∅ ∅) = Some (map, h)
    /\ Hashmap_set fresh_address fresh_address str_sample h map 0x4142 7 = Some (0, h')
    /\ view str_sample h' map (str_sample 0x4142) = Some 7.
Proof.
  destruct (Hashmap_create_spec fresh_address str_sample fresh_address_ok (mk_heap ∅ ∅) (lookup_empty 0)) as (map & h & Hc & Hwf & Hv).
  exists map, h. vm_compute in Hc. injection Hc as <- <-.
  destruct (proj1 (proj2 (hashmap_refines fresh_address fresh_address str_sample fresh_address_ok fresh_address_ok _ _ 0x4142 7 Hwf)))
    as (h' & Hs & _ & Hv'); [vm_compute; lia|].
  exists h'. split; [vm_compute; reflexivity|]. split; [exact Hs|]. rewrite Hv', Hv. by destruct (decide (str_sample 0x4142 = str_sample 0x4142)).
Defined.

Lemma hashmap_faults_witness :
  exists map h, Hashmap_create fresh_address (mk_heap ∅ ∅) = Some (map, h)
    /\ Hashmap_delete fresh_address str_sample h map 0x4142 = None.
Proof.
  destruct (Hashmap_create_spec fresh_address str_sample fresh_address_ok (mk_heap ∅ ∅) (lookup_empty 0)) as (map & h & Hc & Hwf & Hv).
  exists map, h. split; [exact Hc|]. vm_compute in Hc. injection Hc as <- <-.
  apply (proj2 (hashmap_faults fresh_address fresh_address str_sample _ _ 0x4142 7 Hwf)). vm_compute. reflexivity.
Defined.
