(* ===== verification/Utils.v ===== *)
(** * Numbers from bytes and from text (hotpatch/src/utils.c)

    The conversions the service and the shell use.  The arithmetic is that of
    an int: [None] is an overflow. *)

From S2P Require Import Prelude.

Definition int_ok (x : Z) : option Z := if (- 2 ^ 31 <=? x) && (x <? 2 ^ 31) then Some x else None.

Fixpoint byte2int_loop (bytes : list Z) (val : Z) : option Z :=
  match bytes with
  | [] => Some val
  | b :: bytes => val ← int_ok (val * 256); val ← int_ok (val + b); byte2int_loop bytes val
  end.

(** [buf] holds at least [len] bytes. *)
Definition byte2int (buf : list Z) (len : nat) : option Z := byte2int_loop (take len buf) 0.

Fixpoint str2int_loop (str : list Z) (val : Z) : option Z :=
  match str with
  | [] => Some val
  | c :: str => val ← int_ok (val * 10); val ← int_ok (val + (c - 48)); str2int_loop str val
  end.

(** The characters before the terminating NUL. *)
Definition str2int (str : list Z) : option Z := str2int_loop str 0.

Lemma int_ok_Some (x : Z) : - 2 ^ 31 <= x < 2 ^ 31 -> int_ok x = Some x.
Proof. intros Hx. unfold int_ok. destruct (Z.leb_spec (- 2 ^ 31) x), (Z.ltb_spec x (2 ^ 31)); cbn; (done || lia). Qed.

(** byte2int reads the most significant byte first (the comment of utils.h
    says little endian), as the server writes the length. *)
Lemma byte2int_big_endian (n : Z) (rest : list Z) :
  0 <= n < 2 ^ 16 -> byte2int (n / 256 :: n mod 256 :: rest) 2 = Some n.
Proof.
  intros Hn. unfold byte2int. cbn [take byte2int_loop].
  assert (0 <= n / 256 < 256) as Hq by (split; [apply Z.div_pos|apply Z.div_lt_upper_bound]; lia).
  pose proof (Z.mod_pos_bound n 256 ltac:(lia)) as Hm. pose proof (Z.div_mod n 256 ltac:(lia)) as Hd.
  do 4 (rewrite int_ok_Some by lia; cbn [mbind option_bind]). f_equal. lia.
Qed.

Lemma byte2int_one (b : Z) (rest : list Z) : 0 <= b < 256 -> byte2int (b :: rest) 1 = Some b.
Proof. intros Hb. unfold byte2int. cbn [take byte2int_loop]. do 2 (rewrite int_ok_Some by lia; cbn [mbind option_bind]). reflexivity. Qed.


(** ** Decimal text *)

(** The decimal digits of [n], at most [k] and one. *)
Fixpoint decimal (k : nat) (n : Z) : list Z :=
  match k with
  | O => [n + 48]
  | S k => if n <? 10 then [n + 48] else decimal k (n / 10) ++ [n mod 10 + 48]
  end.

Lemma str2int_loop_app (a b : list Z) (val : Z) :
  str2int_loop (a ++ b) val = v ← str2int_loop a val; str2int_loop b v.
Proof.
  revert val. induction a as [|c a IH]; intros val; [done|]. cbn [app str2int_loop].
  destruct (int_ok (val * 10)); [|done]. cbn [mbind option_bind]. destruct (int_ok _); [|done]. cbn [mbind option_bind]. apply IH.
Qed.

Lemma str2int_decimal (k : nat) : forall n, 0 <= n < 2 ^ 31 -> n < 10 ^ (Z.of_nat k + 1) -> str2int_loop (decimal k n) 0 = Some n.
Proof.
  assert (forall n, 0 <= n < 10 -> str2int_loop [n + 48] 0 = Some n) as Hone.
  { intros n Hn. cbn [str2int_loop]. do 2 (rewrite int_ok_Some by lia; cbn [mbind option_bind]). f_equal. lia. }
  induction k as [|k IH]; intros n Hn Hk; cbn [decimal].
  { apply Hone. change (10 ^ (Z.of_nat 0 + 1)) with 10 in Hk. lia. }
  destruct (Z.ltb_spec n 10); [apply Hone; lia|]. rewrite str2int_loop_app, IH.
  - cbn [mbind option_bind str2int_loop]. pose proof (Z.mod_pos_bound n 10 ltac:(lia)). pose proof (Z.div_mod n 10 ltac:(lia)).
    do 2 (rewrite int_ok_Some by lia; cbn [mbind option_bind]). f_equal. lia.
  - split; [apply Z.div_pos; lia|]. apply Z.div_lt_upper_bound; lia.
  - apply Z.div_lt_upper_bound; [lia|]. replace (Z.of_nat (S k) + 1) with (1 + (Z.of_nat k + 1)) in Hk by lia.
    rewrite Z.pow_add_r in Hk by lia. change (10 ^ 1) with 10 in Hk. exact Hk.
Qed.

(** The decimal text of every non-negative int is read back as that int;
    the next number up, 2^31, overflows. *)
Theorem str2int_decimal_roundtrip (n : Z) :
  (0 <= n < 2 ^ 31 -> str2int (decimal 9 n) = Some n) /\ str2int (decimal 9 (2 ^ 31)) = None.
Proof.
  split; [intros Hn; apply str2int_decimal; lia|]. vm_compute. reflexivity.
Qed.

Lemma str2int_decimal_roundtrip_witness : str2int (decimal 9 2147483647) = Some 2147483647.
Proof. apply (proj1 (str2int_decimal_roundtrip 2147483647)). lia. Defined.
