(* ===== verification/Allocator.v ===== *)
(** * The allocator (libebpf/src/ebpf_allocator.c)

    The heap is a finite map from addresses to blocks of bytes; the functions
    of the system that the port defines are arguments: where they put a block
    (0 is NULL) and what a fresh block holds.  [None] is a free of what is not
    a block, or a copy outside one. *)

From S2P Require Import Prelude.

Record heap_state := mk_heap { blocks : gmap Z (list Z); mem_size : Z }.

Definition with_size (s : heap_state) (n : Z) : heap_state := mk_heap (blocks s) (s32 n).

Section Allocator.
Context (my_os_malloc : gmap Z (list Z) -> Z -> Z) (fresh : Z -> list Z).
Context (my_os_calloc : gmap Z (list Z) -> Z -> Z -> Z).

Definition ebpf_malloc (size : Z) (s : heap_state) : Z * heap_state :=
  let s := with_size s (mem_size s + size) in
  let a := my_os_malloc (blocks s) size in
  (a, if a =? 0 then s else mk_heap (<[a := fresh size]> (blocks s)) (mem_size s)).

Definition ebpf_free (rmem : Z) (s : heap_state) : option heap_state :=
  if rmem =? 0 then Some s
  else _ ← blocks s !! rmem; Some (mk_heap (delete rmem (blocks s)) (mem_size s)).

Definition ebpf_realloc (rmem orisize newsize : Z) (s : heap_state) : option (Z * heap_state) :=
  let s := with_size s (mem_size s + (newsize - orisize)) in
  if newsize =? 0 then s ← ebpf_free rmem s; Some (0, s)
  else if rmem =? 0 then Some (ebpf_malloc newsize s)
  else if newsize <=? orisize then Some (rmem, s)
  else
    let '(pnew, s) := ebpf_malloc newsize s in
    if negb (pnew =? 0) then
      old ← blocks s !! rmem; new ← blocks s !! pnew;
      if (orisize <=? Z.of_nat (length old)) && (orisize <=? Z.of_nat (length new)) then
        let new := take (Z.to_nat orisize) old ++ drop (Z.to_nat orisize) new in
        s ← ebpf_free rmem (mk_heap (<[pnew := new]> (blocks s)) (mem_size s));
        Some (pnew, s)
      else None
    else Some (pnew, s).

Definition ebpf_calloc (nelem elmsize : Z) (s : heap_state) : Z * heap_state :=
  let s := with_size s (mem_size s + elmsize) in
  let a := my_os_calloc (blocks s) nelem elmsize in
  (a, if a =? 0 then s else mk_heap (<[a := replicate (Z.to_nat (nelem * elmsize)) 0]> (blocks s)) (mem_size s)).

Definition get_ebpf_alloc_size (s : heap_state) : Z := mem_size s.

(** ** Growing and shrinking a block *)

(** What the port promises of its malloc: a block of the size, at an address
    that is not in use. *)
Hypothesis malloc_fresh : forall m size, my_os_malloc m size <> 0 -> m !! my_os_malloc m size = None.
Hypothesis fresh_length : forall size, 0 <= size -> length (fresh size) = Z.to_nat size.

(** Growing keeps the bytes of the block and every other block, or returns
    NULL and changes no block; the count of allocated bytes grows twice. *)
Lemma realloc_grows (rmem orisize newsize : Z) (s : heap_state) (old : list Z) :
  rmem <> 0 -> blocks s !! rmem = Some old -> Z.of_nat (length old) = orisize -> orisize < newsize ->
  exists pnew s', ebpf_realloc rmem orisize newsize s = Some (pnew, s') /\
    mem_size s' = s32 (s32 (mem_size s + (newsize - orisize)) + newsize) /\
    if pnew =? 0 then blocks s' = blocks s
    else exists tail, blocks s' !! pnew = Some (old ++ tail) /\ Z.of_nat (length (old ++ tail)) = newsize /\
      blocks s' !! rmem = None /\ forall a, a <> pnew -> a <> rmem -> blocks s' !! a = blocks s !! a.
Proof.
  intros Hr Hold Hlen Hlt. unfold ebpf_realloc. cbv zeta.
  destruct (Z.eqb_spec newsize 0); [lia|]. destruct (Z.eqb_spec rmem 0); [done|]. destruct (Z.leb_spec newsize orisize); [lia|].
  unfold ebpf_malloc. cbn [blocks mem_size with_size]. pose proof (malloc_fresh (blocks s) newsize) as Hf.
  set (p := my_os_malloc (blocks s) newsize) in *. destruct (Z.eqb_spec p 0) as [Hp|Hp]; cbn [negb].
  { eexists _, _. split; [reflexivity|]. split; [done|]. by rewrite Hp. }
  assert (p <> rmem) as Hne by (intros E; rewrite <- E, (Hf Hp) in Hold; discriminate Hold).
  cbn [blocks mem_size]. rewrite (lookup_insert_ne _ p rmem) by exact Hne. rewrite Hold. cbn [mbind option_bind]. rewrite lookup_insert_eq. cbn [mbind option_bind].
  rewrite fresh_length by lia. destruct (Z.leb_spec orisize (Z.of_nat (length old))), (Z.leb_spec orisize (Z.of_nat (Z.to_nat newsize))); try lia.
  cbn [andb]. unfold ebpf_free. cbn [blocks mem_size]. destruct (Z.eqb_spec rmem 0); [done|].
  rewrite insert_insert_eq, (lookup_insert_ne _ p rmem) by exact Hne. rewrite Hold. cbn [mbind option_bind].
  eexists _, _. split; [reflexivity|]. split; [done|]. destruct (Z.eqb_spec p 0); [done|].
  rewrite take_ge by lia. eexists. cbn [blocks]. split; [by rewrite lookup_delete_ne, lookup_insert_eq by done|].
  split; [rewrite length_app, length_drop, fresh_length by lia; lia|]. split; [apply lookup_delete_eq|].
  intros a Ha1 Ha2. by rewrite lookup_delete_ne, lookup_insert_ne by done.
Qed.

(** Shrinking keeps the block where it is, and as long as it was. *)
Lemma realloc_shrinks (rmem orisize newsize : Z) (s : heap_state) :
  rmem <> 0 -> 0 < newsize <= orisize ->
  ebpf_realloc rmem orisize newsize s = Some (rmem, with_size s (mem_size s + (newsize - orisize))).
Proof.
  intros Hr Hn. unfold ebpf_realloc. destruct (Z.eqb_spec newsize 0); [lia|]. destruct (Z.eqb_spec rmem 0); [done|].
  by destruct (Z.leb_spec newsize orisize); [|lia].
Qed.

(** A block that is freed is not counted out. *)
Lemma malloc_free_size (size a : Z) (s s' : heap_state) :
  ebpf_malloc size s = (a, s') -> a <> 0 -> blocks s !! a = None ->
  exists s'', ebpf_free a s' = Some s'' /\ blocks s'' = blocks s /\ get_ebpf_alloc_size s'' = s32 (mem_size s + size).
Proof.
  unfold ebpf_malloc. intros [= <- <-] Ha Hn. unfold ebpf_free. cbn [blocks mem_size with_size] in *.
  destruct (Z.eqb_spec (my_os_malloc (blocks s) size) 0); [done|]. cbn [blocks]. rewrite lookup_insert_eq. cbn [mbind option_bind].
  eexists. split; [reflexivity|]. split; [|done]. cbn [blocks]. by rewrite delete_insert_id.
Qed.
End Allocator.
