(* ===== verification/Profiling.v ===== *)
(** * The profiler (hotpatch/src/profiling.c)

    Two tables of twelve events over the cycle counter of the debug unit: one
    of intervals, between [profile_start] and [profile_end], and one of the
    steps of a task.  The build is the one with SYS_CORTEX_M4; [None] is an
    access outside a table. *)

From S2P Require Import Prelude.

Definition PROFILER_EVENTS_MAX : Z := 12.
Definition EV0 : Z := 0.
Definition EV1 : Z := 1.
Definition MSK_DEMCR_TRCENA : Z := 1 << 24.
Definition MSK_DWT_CYCCNTENA : Z := 1 << 0.

(** ~MSK_DEMCR_TRCENA and ~MSK_DWT_CYCCNTENA of 32-bit words *)
Definition not_trcena : Z := 0xFEFFFFFF.
Definition not_cyccntena : Z := 0xFFFFFFFE.

Record dwt_unit := mk_dwt { COREDEBUG_DEMCR : Z; DWT_CTRL : Z; DWT_CYCCNT : Z }.

Record profiler_t := mk_profiler {
  start_tick : list Z;
  end_tick : list Z;
  event_name : list (option string);
  event_count : Z }.

Record step_profiler_t := mk_steps { step_ticks : list Z; step_name : list (option string); cid : Z }.

Record prof_state := mk_prof {
  profiler_is_init : bool;
  ticks_per_us : Z;
  profiler : profiler_t;
  step_profiler : step_profiler_t;
  dwt : dwt_unit }.

Definition with_profiler (s : prof_state) (p : profiler_t) : prof_state :=
  mk_prof (profiler_is_init s) (ticks_per_us s) p (step_profiler s) (dwt s).
Definition with_steps (s : prof_state) (p : step_profiler_t) : prof_state :=
  mk_prof (profiler_is_init s) (ticks_per_us s) (profiler s) p (dwt s).
Definition with_dwt (s : prof_state) (d : dwt_unit) : prof_state :=
  mk_prof (profiler_is_init s) (ticks_per_us s) (profiler s) (step_profiler s) d.

(** What memset leaves, and what the program starts with. *)
Definition no_steps : step_profiler_t := mk_steps (replicate 12 0) (replicate 12 None) 0.
Definition no_events : profiler_t := mk_profiler (replicate 12 0) (replicate 12 0) (replicate 12 None) 0.

Section Profiling.
Context (SYSCoreClock : Z).

Definition dwt_init (s : prof_state) : prof_state :=
  mk_prof (profiler_is_init s) (SYSCoreClock / 1000000) (profiler s) (step_profiler s)
    (mk_dwt (COREDEBUG_DEMCR (dwt s) .| MSK_DEMCR_TRCENA) (DWT_CTRL (dwt s) .| MSK_DWT_CYCCNTENA) 0).

Definition dwt_deinit (s : prof_state) : prof_state :=
  with_dwt s (mk_dwt (COREDEBUG_DEMCR (dwt s) .& not_trcena) (DWT_CTRL (dwt s) .& not_cyccntena) 0).

Definition dwt_get_counter (s : prof_state) : Z := DWT_CYCCNT (dwt s).

Definition get_start_tick (s : prof_state) : Z * prof_state := let s := dwt_init s in (s32 (dwt_get_counter s), s).
Definition get_cur_tick (s : prof_state) : Z := s32 (dwt_get_counter s).

Definition setup_profiler (s : prof_state) : option prof_state :=
  let p := profiler s in
  let s := dwt_init (with_profiler s (mk_profiler (start_tick p) (end_tick p) (event_name p) 0)) in
  names ← zset (event_name (profiler s)) EV0 (Some "EV0");
  names ← zset names EV1 (Some "EV1");
  Some (with_profiler s (mk_profiler (start_tick p) (end_tick p) names 0)).

Definition profile_add_event (event : string) (s : prof_state) : option (Z * prof_state) :=
  s ← (if negb (profiler_is_init s) then setup_profiler s else Some s);
  let p := profiler s in
  let count := if PROFILER_EVENTS_MAX <=? event_count p then 0 else event_count p in
  names ← zset (event_name p) count (Some event);
  ends ← zset (end_tick p) count 0;
  starts ← zset (start_tick p) count 0;
  Some (count, with_profiler s (mk_profiler starts ends names (count + 1))).

Definition profile_start (eid : Z) (s : prof_state) : option prof_state :=
  let p := profiler s in
  starts ← zset (start_tick p) eid (dwt_get_counter s);
  Some (with_profiler s (mk_profiler starts (end_tick p) (event_name p) (event_count p))).

Definition profile_end (eid : Z) (s : prof_state) : option (Z * prof_state) :=
  let p := profiler s in
  ends ← zset (end_tick p) eid (dwt_get_counter s);
  e ← zget ends eid; b ← zget (start_tick p) eid;
  Some (u32 (e - b), with_profiler s (mk_profiler (start_tick p) ends (event_name p) (event_count p))).

Definition profile_exit (s : prof_state) : prof_state :=
  let p := profiler s in
  let s := dwt_deinit (with_profiler s (mk_profiler (start_tick p) (end_tick p) (event_name p) 0)) in
  mk_prof false (ticks_per_us s) (profiler s) (step_profiler s) (dwt s).

Definition init_multiple_step_profiling (s : prof_state) : option prof_state :=
  let s := dwt_init (with_steps s no_steps) in
  ticks ← zset (step_ticks no_steps) 0 (dwt_get_counter s);
  names ← zset (step_name no_steps) 0 (Some "init");
  Some (with_steps s (mk_steps ticks names 0)).

Definition add_mulprf_step (step : string) (s : prof_state) : option prof_state :=
  let p := step_profiler s in
  let id := cid p + 1 in
  if PROFILER_EVENTS_MAX <=? id then Some (with_steps s (mk_steps (step_ticks p) (step_name p) id))
  else
    ticks ← zset (step_ticks p) id (dwt_get_counter s);
    names ← zset (step_name p) id (Some step);
    Some (with_steps s (mk_steps ticks names id)).

(** The rows that show_mulprf_steps_result prints, from row [i] on. *)
Fixpoint show_steps (n : nat) (i : Z) (p : step_profiler_t) : option (list (option string * Z)) :=
  match n with
  | O => Some []
  | S n =>
      ticks ← zget (step_ticks p) i; name ← zget (step_name p) i;
      rows ← show_steps n (i + 1) p; Some ((name, ticks) :: rows)
  end.

Definition show_mulprf_steps_result (s : prof_state) : option (list (option string * Z) * prof_state) :=
  let s := dwt_deinit s in
  rows ← show_steps (Z.to_nat (cid (step_profiler s) + 1)) 0 (step_profiler s); Some (rows, s).

Definition clear_mulprf_step_profiling (s : prof_state) : prof_state := dwt_deinit (with_steps s no_steps).
End Profiling.

(** [n] cycles go by. *)
Definition cycles (n : Z) (s : prof_state) : prof_state :=
  if Z.testbit (DWT_CTRL (dwt s)) 0 && Z.testbit (COREDEBUG_DEMCR (dwt s)) 24
  then with_dwt s (mk_dwt (COREDEBUG_DEMCR (dwt s)) (DWT_CTRL (dwt s)) (u32 (DWT_CYCCNT (dwt s) + n))) else s.

(** ** The tables *)

Record prof_wf (s : prof_state) : Prop := {
  start_length : length (start_tick (profiler s)) = 12%nat;
  end_length : length (end_tick (profiler s)) = 12%nat;
  name_length : length (event_name (profiler s)) = 12%nat;
  count_range : 0 <= event_count (profiler s) <= 12;
  step_length : length (step_ticks (step_profiler s)) = 12%nat;
  step_name_length : length (step_name (step_profiler s)) = 12%nat }.

Ltac wf_tables := split; cbn [profiler step_profiler start_tick end_tick event_name event_count step_ticks step_name
    with_profiler with_steps dwt_init dwt_deinit with_dwt]; rewrite ?length_insert; try done; try lia.

Section Props.
Context (SYSCoreClock : Z).

Lemma setup_profiler_spec (s : prof_state) :
  prof_wf s -> exists s', setup_profiler SYSCoreClock s = Some s' /\ prof_wf s' /\ event_count (profiler s') = 0 /\
    profiler_is_init s' = profiler_is_init s /\ DWT_CYCCNT (dwt s') = 0 /\
    Z.testbit (DWT_CTRL (dwt s')) 0 = true /\ Z.testbit (COREDEBUG_DEMCR (dwt s')) 24 = true.
Proof.
  intros []. unfold setup_profiler. cbn [profiler with_profiler event_name dwt_init].
  rewrite !zset_is_Some by (rewrite ?length_insert; unfold EV0, EV1; lia). cbn [mbind option_bind].
  rewrite zset_is_Some by (rewrite ?length_insert; unfold EV1; lia). cbn [mbind option_bind].
  eexists. split; [reflexivity|]. split; [wf_tables|]. split_and!; try reflexivity; cbn [dwt DWT_CTRL COREDEBUG_DEMCR with_profiler dwt_init]; rewrite Z.lor_spec; apply orb_true_r.
Qed.

(** The flag that the profiler is set up is never set: every event starts it
    again and is given index 0, so a second event replaces the first. *)
Lemma profile_add_event_first (event : string) (s : prof_state) :
  prof_wf s -> profiler_is_init s = false ->
  exists s', profile_add_event SYSCoreClock event s = Some (0, s') /\ prof_wf s' /\ profiler_is_init s' = false /\
    zget (event_name (profiler s')) 0 = Some (Some event).
Proof.
  intros Hwf Hi. destruct (setup_profiler_spec s Hwf) as (s1 & E1 & [] & Hc & Hi1 & _).
  unfold profile_add_event. rewrite Hi. cbn [negb]. rewrite E1. cbn [mbind option_bind]. rewrite Hc. change (PROFILER_EVENTS_MAX <=? 0) with false. cbv iota zeta.
  rewrite zset_is_Some by lia. cbn [mbind option_bind]. rewrite zset_is_Some by lia. cbn [mbind option_bind].
  rewrite zset_is_Some by lia. cbn [mbind option_bind]. eexists. split; [reflexivity|]. split; [wf_tables|].
  split; [by rewrite <- Hi, <- Hi1|]. apply zget_insert_eq. lia.
Qed.

(** An interval of less than 2^32 cycles is measured exactly, whatever the
    counter started from. *)
Lemma profile_measures (eid n : Z) (s : prof_state) :
  prof_wf s -> 0 <= eid < 12 -> 0 <= n < 2 ^ 32 ->
  Z.testbit (DWT_CTRL (dwt s)) 0 = true -> Z.testbit (COREDEBUG_DEMCR (dwt s)) 24 = true ->
  exists s1 s2, profile_start eid s = Some s1 /\ profile_end eid (cycles n s1) = Some (n, s2) /\ prof_wf s2.
Proof.
  intros [] He Hn Hc Hd. unfold profile_start. rewrite zset_is_Some by lia. cbn [mbind option_bind].
  eexists. eexists. split; [reflexivity|]. unfold cycles. cbn [dwt with_profiler]. rewrite Hc, Hd. cbn [andb].
  unfold profile_end. cbn [profiler with_dwt with_profiler end_tick start_tick dwt_get_counter dwt DWT_CYCCNT].
  rewrite zset_is_Some by lia. cbn [mbind option_bind]. rewrite !zget_insert_eq by lia. cbn [mbind option_bind].
  split; [|shelve]. do 2 f_equal. unfold u32. rewrite <- Z.add_opp_r, wrap_add_l, Z.add_opp_r. unfold dwt_get_counter.
  replace (DWT_CYCCNT (dwt s) + n - DWT_CYCCNT (dwt s)) with n by lia. by apply wrap_small.
  Unshelve. wf_tables.
Qed.

(** The twelfth step is refused, but counted: showing the steps then reads
    past the tables. *)
Lemma steps_overflow (step : string) (s : prof_state) :
  prof_wf s -> cid (step_profiler s) = 11 ->
  exists s', add_mulprf_step step s = Some s' /\ step_ticks (step_profiler s') = step_ticks (step_profiler s) /\
    show_mulprf_steps_result s' = None.
Proof.
  intros [] Hc. unfold add_mulprf_step. rewrite Hc. change (PROFILER_EVENTS_MAX <=? 11 + 1) with true. cbv iota zeta.
  eexists. split; [reflexivity|]. split; [reflexivity|]. unfold show_mulprf_steps_result.
  cbn [step_profiler dwt_deinit with_dwt with_steps cid step_ticks step_name].
  assert (forall n i, Z.of_nat n = 13 - i -> 0 <= i <= 12 -> show_steps n i (mk_steps (step_ticks (step_profiler s)) (step_name (step_profiler s)) 12) = None) as Hnone.
  { induction n as [|n IH]; intros i Hn Hi; [lia|]. cbn [show_steps step_ticks step_name].
    destruct (zget (step_ticks (step_profiler s)) i) eqn:Et; [|done]. cbn [mbind option_bind].
    destruct (zget (step_name (step_profiler s)) i); [|done]. cbn [mbind option_bind].
    apply zget_Some in Et. rewrite IH; [done|lia|lia]. }
  rewrite Hnone; [done|lia|lia].
Qed.
End Props.

(** The program as it starts. *)
Definition prof0 : prof_state := mk_prof false 1000 no_events no_steps (mk_dwt 0 0 0).

Lemma prof0_wf : prof_wf prof0. Proof. split; done. Qed.

Example two_events_share_index :
  match profile_add_event 80000000 "first" prof0 with
  | Some (i, s) => match profile_add_event 80000000 "second" s with
                   | Some (j, s) => (i, j, zget (event_name (profiler s)) 0)
                   | None => (-1, -1, None) end
  | None => (-1, -1, None)
  end = (0, 0, Some (Some "second")).
Proof. reflexivity. Qed.
