(* ===== verification/Flash.v ===== *)
(** * The flash driver (hotpatch/src/flash_api.c)

    Writing a buffer to the flash: the pages it covers are read into a buffer,
    changed there, erased and written back, by double words.  The vendor's
    functions that erase and program are the interface [FlashHAL], with what
    their documentation says as laws; the instance [flash_map] is a map of
    bytes.  [FlashFault] is an access outside the page buffer or the data. *)

From S2P Require Import Prelude.

Definition FLASH_START_ADRESS : Z := 0x08000000.
Definition FLASH_END_ADDRESS : Z := 0x08000000 + 512 * 1024.
Definition STM_SECTOR_SIZE : Z := 2048.

Inductive flash_bank := FLASH_BANK_1 | FLASH_BANK_2.

(** The flash as the processor reads it, and the two operations: erasing a
    page answers whether it succeeded; the status of programming is not looked
    at. *)
Class FlashHAL (F : Type) := {
  flash_byte : F -> Z -> Z;
  HAL_FLASHEx_Erase : flash_bank -> Z -> F -> bool * F;
  HAL_FLASH_Program : Z -> list Z -> F -> F }.

(** Erasing a page of the first bank, whose size is [bank_size], sets its
    bytes and no others; a double word can be programmed where it is erased. *)
Class FlashLaws (F : Type) `{FlashHAL F} (bank_size : Z) := {
  flash_byte_range f a : 0 <= flash_byte f a < 256;
  erase_page page f f' a :
    0 <= page -> (page + 1) * STM_SECTOR_SIZE <= bank_size ->
    HAL_FLASHEx_Erase FLASH_BANK_1 page f = (true, f') ->
    flash_byte f' a =
      if (FLASH_START_ADRESS + page * STM_SECTOR_SIZE <=? a) && (a <? FLASH_START_ADRESS + (page + 1) * STM_SECTOR_SIZE)
      then 255 else flash_byte f a;
  program_erased addr data f a :
    addr mod 8 = 0 -> length data = 8%nat -> Forall (fun b => 0 <= b < 256) data ->
    (forall k, 0 <= k < 8 -> flash_byte f (addr + k) = 255) ->
    flash_byte (HAL_FLASH_Program addr data f) a =
      if (addr <=? a) && (a <? addr + 8) then default 255 (zget data (a - addr)) else flash_byte f a }.

Inductive flash_result (F : Type) := FlashDone (ret : Z) (f : F) | FlashFault | FlashRunning.
Arguments FlashDone {F}. Arguments FlashFault {F}. Arguments FlashRunning {F}.

Section Flash.
Context {F : Type} `{FlashHAL F} (FLASH_BANK_SIZE : Z).

Definition flash_port_read (f : F) (addr : Z) (size : Z) : list Z :=
  map (fun k => flash_byte f (u32 (addr + Z.of_nat k))) (seq 0 (Z.to_nat size)).

(** [size] words, as the bytes of the buffer. *)
Definition flash_read32 (f : F) (addr : Z) (size : Z) : list Z := flash_port_read f addr (4 * size).

Definition flash_get_blank (addr : Z) : flash_bank :=
  if addr <? FLASH_START_ADRESS + FLASH_BANK_SIZE then FLASH_BANK_1 else FLASH_BANK_2.

(** 0, or -1 when the page is not erased. *)
Definition earse_page (secid : Z) (f : F) : Z * F :=
  let addr := u32 (secid * STM_SECTOR_SIZE + FLASH_START_ADRESS) in
  let '(ok, f) := HAL_FLASHEx_Erase (flash_get_blank addr) secid f in
  (if ok : bool then 0 else -1, f).

(** The double words [i] to [i + n - 1] of the buffer; each is read back. *)
Fixpoint write_directly (n : nat) (i addr : Z) (buf : list Z) (f : F) : option (Z * F) :=
  match n with
  | O => Some (0, f)
  | S n =>
      if 8 * (i + 1) <=? Z.of_nat (length buf) then
        let data := take 8 (drop (Z.to_nat (8 * i)) buf) in
        let f := HAL_FLASH_Program addr data f in
        if bool_decide (flash_port_read f addr 8 = data) then write_directly n (i + 1) (u32 (addr + 8)) buf f
        else Some (-1, f)
      else None
  end.

(** for (i = 0; i < write_bytes; i++) STMFLASH_BUF[start_pos + i] = buf[i],
    from index [i] with [n] bytes to go; [buf] is at [pos] of the data. *)
Fixpoint fill_buffer (n : nat) (start_pos i pos : Z) (data : list Z) (page : list Z) : option (list Z) :=
  match n with
  | O => Some page
  | S n => b ← zget data (pos + i); page ← zset page (start_pos + i) b; fill_buffer n start_pos (i + 1) pos data page
  end.

(** The loop of flash_port_write. *)
Fixpoint write_sectors (fuel : nat) (secid start_pos start_addr size pos write_dw total_dw : Z) (data : list Z) (f : F) : flash_result F :=
  match fuel with
  | O => FlashRunning
  | S fuel =>
      let page := flash_read32 f (u32 (secid * STM_SECTOR_SIZE + FLASH_START_ADRESS)) (STM_SECTOR_SIZE / 4) in
      let write_bytes := s32 (write_dw * 8 - start_pos) in
      let write_bytes := if size <? write_bytes then size else write_bytes in
      match fill_buffer (Z.to_nat write_bytes) start_pos 0 pos data page with
      | None => FlashFault
      | Some page =>
          let '(err, f) := earse_page secid f in
          if negb (err =? 0) then FlashDone (-1) f
          else
            match write_directly (Z.to_nat write_dw) 0 start_addr page f with
            | None => FlashFault
            | Some (err, f) =>
                if negb (err =? 0) then FlashDone (-1) f
                else if write_dw =? total_dw then FlashDone 0 f
                else
                  let size := s32 (size - write_bytes) in
                  let next_dw := u32 (s32 (size + 8) ÷ 8) in
                  write_sectors fuel (u32 (secid + 1)) 0 (u32 (start_addr + write_dw * 8)) size (pos + write_bytes)
                    (if STM_SECTOR_SIZE <? size then STM_SECTOR_SIZE / 8 else next_dw) next_dw data f
            end
      end
  end.

Definition flash_port_write (fuel : nat) (faddr : Z) (data : list Z) (size : Z) (f : F) : flash_result F :=
  let start_addr := faddr .& 0xFFFFFFF8 in
  let end_addr := u32 (faddr + size + 8) .& 0xFFFFFFF8 in
  if (start_addr <? FLASH_START_ADRESS) || (FLASH_END_ADDRESS <? end_addr) then FlashDone (-1) f
  else
    let offaddr := start_addr - FLASH_START_ADRESS in
    let secid := offaddr / STM_SECTOR_SIZE in
    let secoff := (offaddr mod STM_SECTOR_SIZE) / 8 in
    let sec_remain := STM_SECTOR_SIZE / 8 - secoff in
    let total_dw := u32 (end_addr - start_addr) / 8 in
    let write_dw := if total_dw <=? sec_remain then total_dw else sec_remain in
    let start_pos := secoff * 8 + (faddr - start_addr) in
    write_sectors fuel secid start_pos start_addr size 0 write_dw total_dw data f.
End Flash.

(** ** The parts of a write *)

Section Parts.
Context {F : Type} `{FlashLaws F bank_size} (FLASH_BANK_SIZE : Z).

Lemma read_length (f : F) (addr size : Z) : length (flash_port_read f addr size) = Z.to_nat size.
Proof. unfold flash_port_read. by rewrite length_map, length_seq. Qed.

Lemma read_zget (f : F) (addr size k : Z) :
  0 <= k < size -> zget (flash_port_read f addr size) k = Some (flash_byte f (u32 (addr + k))).
Proof.
  intros Hk. unfold zget. destruct (Z.ltb_spec k 0); [lia|]. unfold flash_port_read.
  rewrite list_lookup_fmap, lookup_seq_lt by lia. cbn [fmap option_fmap option_map]. do 3 f_equal. lia.
Qed.

Lemma fill_buffer_spec (n : nat) : forall (start_pos i pos : Z) (data page : list Z),
  0 <= start_pos + i -> 0 <= pos + i -> start_pos + i + Z.of_nat n <= Z.of_nat (length page) -> pos + i + Z.of_nat n <= Z.of_nat (length data) ->
  exists page', fill_buffer n start_pos i pos data page = Some page' /\ length page' = length page /\
    forall j, zget page' j = if (start_pos + i <=? j) && (j <? start_pos + i + Z.of_nat n) then zget data (pos + (j - start_pos)) else zget page j.
Proof.
  induction n as [|n IH]; intros start_pos i pos data page H1 H2 H3 H4; cbn [fill_buffer].
  { exists page. split; [done|]. split; [done|]. intros j. destruct (Z.leb_spec (start_pos + i) j), (Z.ltb_spec j (start_pos + i + Z.of_nat 0)); (done || lia). }
  destruct (zget data (pos + i)) as [b|] eqn:Eb.
  2: { exfalso. destruct (zget_is_Some data (pos + i) ltac:(lia)) as [x Hx]. congruence. }
  cbn [mbind option_bind]. rewrite zset_is_Some by lia. cbn [mbind option_bind].
  edestruct (IH start_pos (i + 1) pos data (<[Z.to_nat (start_pos + i) := b]> page)) as (page' & -> & Hl & Hz); try rewrite length_insert; try lia.
  exists page'. split; [done|]. rewrite Hl, length_insert. split; [done|]. intros j. rewrite Hz.
  destruct (Z.leb_spec (start_pos + i) j), (Z.ltb_spec j (start_pos + i + Z.of_nat (S n))),
    (Z.leb_spec (start_pos + (i + 1)) j), (Z.ltb_spec j (start_pos + (i + 1) + Z.of_nat n)); cbn [andb]; try lia; try done.
  - replace j with (start_pos + i) by lia. rewrite zget_insert_eq, <- Eb by lia. f_equal. lia.
  - by rewrite zget_insert_ne by lia.
  - by rewrite zget_insert_ne by lia.
Qed.

Lemma take_drop_zget {A} (l : list A) (i : Z) (n : nat) (j : Z) :
  0 <= i -> 0 <= j < Z.of_nat n -> zget (take n (drop (Z.to_nat i) l)) j = zget l (i + j).
Proof.
  intros Hi Hj. unfold zget. destruct (Z.ltb_spec j 0), (Z.ltb_spec (i + j) 0); try lia.
  rewrite lookup_take_lt, lookup_drop by lia. f_equal. lia.
Qed.

Lemma list_of_zget {A} (l l' : list A) : length l = length l' -> (forall j, 0 <= j < Z.of_nat (length l) -> zget l j = zget l' j) -> l = l'.
Proof.
  intros Hl Hz. apply list_eq. intros k. destruct (decide (k < length l)%nat) as [Hk|Hk].
  - rewrite <- !zget_nat. apply Hz. lia.
  - rewrite !lookup_ge_None_2 by lia. done.
Qed.

(** Writing where the flash is erased. *)
Lemma write_directly_spec (n : nat) : forall (i addr : Z) (buf : list Z) (f : F),
  0 <= i -> addr mod 8 = 0 -> 0 <= addr -> addr + 8 * Z.of_nat n < 2 ^ 32 -> 8 * (i + Z.of_nat n) <= Z.of_nat (length buf) ->
  Forall (fun b => 0 <= b < 256) buf -> (forall k, 0 <= k < 8 * Z.of_nat n -> flash_byte f (addr + k) = 255) ->
  exists f', write_directly n i addr buf f = Some (0, f') /\
    forall a, flash_byte f' a =
      if (addr <=? a) && (a <? addr + 8 * Z.of_nat n) then default 255 (zget buf (8 * i + (a - addr))) else flash_byte f a.
Proof.
  induction n as [|n IH]; intros i addr buf f Hi Hal Ha Hend Hbuf Hbytes He; cbn [write_directly].
  { exists f. split; [done|]. intros a. destruct (Z.leb_spec addr a), (Z.ltb_spec a (addr + 8 * Z.of_nat 0)); (done || lia). }
  destruct (Z.leb_spec (8 * (i + 1)) (Z.of_nat (length buf))); [|lia].
  set (data := take 8 (drop (Z.to_nat (8 * i)) buf)).
  assert (length data = 8%nat) as Hld by (unfold data; rewrite length_take, length_drop; lia).
  assert (forall j, 0 <= j < 8 -> zget data j = zget buf (8 * i + j)) as Hd by (intros j Hj; apply take_drop_zget; lia).
  pose proof (fun a => program_erased addr data f a Hal Hld ltac:(unfold data; by apply Forall_take, Forall_drop) ltac:(intros k Hk; apply He; lia)) as Hp.
  set (f1 := HAL_FLASH_Program addr data f) in *.
  rewrite bool_decide_eq_true_2.
  2: { apply list_of_zget; [by rewrite read_length, Hld|]. rewrite read_length. intros j Hj. rewrite read_zget by lia.
       rewrite u32_small by lia. rewrite Hp. destruct (Z.leb_spec addr (addr + j)), (Z.ltb_spec (addr + j) (addr + 8)); try lia. cbn [andb].
       replace (addr + j - addr) with j by lia. destruct (zget_is_Some data j ltac:(lia)) as [x ->]. done. }
  rewrite u32_small by lia.
  destruct (IH (i + 1) (addr + 8) buf f1) as (f' & -> & Hf'); try lia; try done.
  { rewrite <- Z.add_mod_idemp_r by lia. rewrite Z.mod_same, Z.add_0_r by lia. done. }
  { intros k Hk. rewrite Hp. destruct (Z.leb_spec addr (addr + 8 + k)), (Z.ltb_spec (addr + 8 + k) (addr + 8)); try lia. cbn [andb].
    replace (addr + 8 + k) with (addr + (8 + k)) by lia. apply He. lia. }
  exists f'. split; [done|]. intros a. rewrite Hf', Hp.
  destruct (Z.leb_spec (addr + 8) a), (Z.ltb_spec a (addr + 8 + 8 * Z.of_nat n)), (Z.leb_spec addr a),
    (Z.ltb_spec a (addr + 8 * Z.of_nat (S n))), (Z.ltb_spec a (addr + 8)); cbn [andb]; try lia; try done.
  - do 2 f_equal. lia.
  - rewrite Hd by lia. done.
Qed.
End Parts.

Lemma align8 (x : Z) : 0 <= x < 2 ^ 32 -> x .& 0xFFFFFFF8 = 8 * (x / 8).
Proof.
  intros Hx. apply Z.bits_inj'. intros i Hi. rewrite Z.land_spec, Z.mul_comm. replace (x / 8 * 8) with (x / 2 ^ 3 * 2 ^ 3) by reflexivity.
  rewrite <- Z.shiftl_mul_pow2, <- Z.shiftr_div_pow2, testbit_shl by lia.
  destruct (decide (i < 32)).
  - assert (Z.testbit 0xFFFFFFF8 i = (3 <=? i)) as ->.
    { assert (forallb (fun k => Bool.eqb (Z.testbit 0xFFFFFFF8 k) (3 <=? k)) (map Z.of_nat (seq 0 32)) = true) as H by (vm_compute; reflexivity).
      rewrite forallb_forall in H. apply eqb_prop, H, in_map_iff. exists (Z.to_nat i). split; [lia|]. apply in_seq. lia. }
    destruct (Z.leb_spec 3 i); [|by rewrite andb_false_r, Z.testbit_neg_r by lia].
    rewrite andb_true_r, Z.shiftr_spec by lia. f_equal. lia.
  - rewrite (testbit_above 32 x i) by lia. cbn [andb]. rewrite Z.shiftr_spec by lia. replace (i - 3 + 3) with i by lia.
    by rewrite (testbit_above 32 x i) by lia.
Qed.

(** ** Writes within a page *)

Section Write.
Context {F : Type} `{FlashLaws F bank_size}.
Context (f f1 : F) (P : Z).
Local Abbreviation base := (FLASH_START_ADRESS + P * STM_SECTOR_SIZE).
Hypothesis page_in_bank : 0 <= P /\ (P + 1) * STM_SECTOR_SIZE <= bank_size.
Hypothesis bank_in_flash : bank_size <= 512 * 1024.
Hypothesis erase_works : HAL_FLASHEx_Erase FLASH_BANK_1 P f = (true, f1).

Lemma page_address : u32 (P * STM_SECTOR_SIZE + FLASH_START_ADRESS) = base.
Proof. unfold STM_SECTOR_SIZE, FLASH_START_ADRESS in *. rewrite u32_small; lia. Qed.

Lemma earse_page_works : earse_page bank_size P f = (0, f1).
Proof.
  unfold earse_page. rewrite page_address. unfold flash_get_blank.
  destruct (Z.ltb_spec base (FLASH_START_ADRESS + bank_size)); [|unfold STM_SECTOR_SIZE, FLASH_START_ADRESS in *; lia].
  by rewrite erase_works.
Qed.

(** What a byte of the flash is after one turn of the loop that is the last:
    the data is put in the buffer at [start_pos], [n] bytes of it, and the
    buffer is written from its start to the double words from [so] on. *)
Definition written (so start_pos n dw : Z) (data : list Z) (a : Z) : Z :=
  if (base + 8 * so <=? a) && (a <? base + 8 * (so + dw)) then
    let j := a - (base + 8 * so) in
    if (start_pos <=? j) && (j <? start_pos + n) then default 255 (zget data (j - start_pos)) else flash_byte f (base + j)
  else if (base <=? a) && (a <? base + STM_SECTOR_SIZE) then 255
  else flash_byte f a.

Lemma write_one_sector (fuel : nat) (so start_pos size dw n : Z) (data : list Z) :
  0 <= so -> 0 <= dw -> so + dw <= 256 -> 0 <= start_pos < 2048 -> 0 <= size <= Z.of_nat (length data) ->
  n = Z.max 0 (Z.min size (8 * dw - start_pos)) -> Forall (fun b => 0 <= b < 256) data ->
  exists f', write_sectors bank_size (S fuel) P start_pos (base + 8 * so) size 0 dw dw data f = FlashDone 0 f' /\
    forall a, flash_byte f' a = written so start_pos n dw data a.
Proof.
  intros Hso Hdw Hsum Hsp Hsize Hn Hdata. cbn [write_sectors]. rewrite page_address, earse_page_works. change (STM_SECTOR_SIZE / 4) with 512.
  assert (s32 (dw * 8 - start_pos) = 8 * dw - start_pos) as ->.
  { unfold s32, sext. change (2 ^ (32 - 1)) with (2 ^ 31). destruct (Z.le_gt_cases 0 (dw * 8 - start_pos)).
    - rewrite Z.mod_small by lia. destruct (Z.ltb_spec (dw * 8 - start_pos) (2 ^ 31)); lia.
    - replace ((dw * 8 - start_pos) mod 2 ^ 32) with (dw * 8 - start_pos + 2 ^ 32).
      2: { rewrite <- (Z.mod_small (dw * 8 - start_pos + 2 ^ 32) (2 ^ 32)) by lia.
           rewrite <- (Z.mod_add (dw * 8 - start_pos) 1 (2 ^ 32)) by lia. f_equal; lia. }
      destruct (Z.ltb_spec (dw * 8 - start_pos + 2 ^ 32) (2 ^ 31)); lia. }
  set (wb := if size <? 8 * dw - start_pos then size else 8 * dw - start_pos).
  assert (Z.of_nat (Z.to_nat wb) = n) as Hwb by (unfold wb; destruct (Z.ltb_spec size (8 * dw - start_pos)); lia).
  assert (length (flash_read32 f base 512) = 2048%nat) as Hlen by (unfold flash_read32; by rewrite read_length).
  destruct (fill_buffer_spec (Z.to_nat wb) start_pos 0 0 data (flash_read32 f base 512)) as (page & -> & Hl & Hz); rewrite ?Hlen in *; try lia.
  change (negb (0 =? 0)) with false. cbv iota.
  assert (forall a, base <= a < base + STM_SECTOR_SIZE -> flash_byte f1 a = 255) as Herased.
  { intros a Ha. rewrite (erase_page P f f1) by (done || apply page_in_bank). unfold STM_SECTOR_SIZE in *.
    destruct (Z.leb_spec (FLASH_START_ADRESS + P * 2048) a), (Z.ltb_spec a (FLASH_START_ADRESS + (P + 1) * 2048)); try lia. done. }
  assert (forall j, 0 <= j < 2048 -> zget page j = if (start_pos <=? j) && (j <? start_pos + n) then zget data (j - start_pos) else Some (flash_byte f (base + j))) as Hpage.
  { intros j Hj. rewrite Hz, Hwb, !Z.add_0_r, Z.add_0_l. destruct (_ && _); [done|]. unfold flash_read32. rewrite read_zget by lia.
    rewrite u32_small; [done|]. unfold STM_SECTOR_SIZE, FLASH_START_ADRESS in *. lia. }
  destruct (write_directly_spec (bank_size := bank_size) (Z.to_nat dw) 0 (base + 8 * so) page f1) as (f' & -> & Hf'); try lia.
  - unfold STM_SECTOR_SIZE, FLASH_START_ADRESS. replace (0x08000000 + P * 2048 + 8 * so) with ((0x1000000 + P * 256 + so) * 8) by lia. apply Z.mod_mul. lia.
  - unfold STM_SECTOR_SIZE, FLASH_START_ADRESS in *. lia.
  - unfold STM_SECTOR_SIZE, FLASH_START_ADRESS in *. lia.
  - apply Forall_lookup_2. intros k x Hx. pose proof (lookup_lt_Some _ _ _ Hx). rewrite <- zget_nat, Hpage in Hx by lia.
    destruct (_ && _) in Hx; [|injection Hx as <-; apply (flash_byte_range (bank_size := bank_size))].
    unfold zget in Hx. destruct (_ <? 0) in Hx; [done|]. exact (Forall_lookup_1 _ _ _ _ Hdata Hx).
  - intros k Hk. apply Herased. unfold STM_SECTOR_SIZE. lia.
  - exists f'. change (negb (0 =? 0)) with false. cbv iota. rewrite Z.eqb_refl. split; [done|]. intros a. rewrite Hf'. unfold written.
    replace (base + 8 * so + 8 * Z.of_nat (Z.to_nat dw)) with (base + 8 * (so + dw)) by lia.
    destruct ((base + 8 * so <=? a) && (a <? base + 8 * (so + dw))) eqn:Ein.
    + apply andb_true_iff in Ein as [?%Z.leb_le ?%Z.ltb_lt]. rewrite Z.mul_0_r, Z.add_0_l, Hpage by lia. cbv zeta. by destruct (_ && _).
    + rewrite (erase_page P f f1) by (done || apply page_in_bank).
      replace (FLASH_START_ADRESS + (P + 1) * STM_SECTOR_SIZE) with (base + STM_SECTOR_SIZE) by lia. done.
Qed.

(** A write that starts [8 so + off] bytes into the page and does not leave
    it. *)
Lemma write_in_page (fuel : nat) (so off size : Z) (data : list Z) :
  0 <= so -> 0 <= off < 8 -> 0 <= size <= Z.of_nat (length data) -> 8 * so + off + size < 2048 -> Forall (fun b => 0 <= b < 256) data ->
  let dw := (off + size) / 8 + 1 in
  exists f', flash_port_write bank_size (S fuel) (base + 8 * so + off) data size f = FlashDone 0 f' /\
    forall a, flash_byte f' a = written so (8 * so + off) (Z.max 0 (Z.min size (8 * dw - (8 * so + off)))) dw data a.
Proof.
  intros Hso Hoff Hsize Hpage Hdata dw. unfold STM_SECTOR_SIZE, FLASH_START_ADRESS in *.
  pose proof (Z.div_mod (off + size) 8 ltac:(lia)) as Hdm. pose proof (Z.mod_pos_bound (off + size) 8 ltac:(lia)) as Hmod.
  assert (0 < dw /\ so + dw <= 256) as [Hdw Hsum] by lia.
  unfold flash_port_write, FLASH_START_ADRESS, FLASH_END_ADDRESS, STM_SECTOR_SIZE.
  set (b := 0x08000000 + P * 2048) in *.
  assert (b + 8 * so + off = 8 * (0x1000000 + P * 256 + so) + off) as Hb by lia.
  rewrite (align8 (b + 8 * so + off)), (u32_small (b + 8 * so + off + size + 8)), align8 by lia.
  assert ((b + 8 * so + off) / 8 = 0x1000000 + P * 256 + so) as -> by (rewrite Hb, Z.mul_comm, Z.div_add_l, Z.div_small by lia; lia).
  assert ((b + 8 * so + off + size + 8) / 8 = 0x1000000 + P * 256 + so + dw) as ->.
  { replace (b + 8 * so + off + size + 8) with ((0x1000000 + P * 256 + so + 1) * 8 + (off + size)) by lia. rewrite Z.div_add_l by lia. unfold dw. lia. }
  set (start := 8 * (0x1000000 + P * 256 + so)). set (stop := 8 * (0x1000000 + P * 256 + so + dw)).
  destruct (Z.ltb_spec start 0x08000000); [lia|]. destruct (Z.ltb_spec (0x08000000 + 512 * 1024) stop); [lia|]. cbn [orb]. cbv zeta.
  replace (start - 0x08000000) with (P * 2048 + so * 8) by lia.
  rewrite Z.div_add_l, Z.div_small, Z.add_0_r by lia.
  replace ((P * 2048 + so * 8) mod 2048) with (so * 8) by (rewrite Z.add_comm, Z.mod_add, Z.mod_small; lia).
  rewrite Z.div_mul by lia. change (2048 / 8) with 256.
  replace (stop - start) with (dw * 8) by lia. rewrite u32_small, Z.div_mul by lia.
  destruct (Z.leb_spec dw (256 - so)); [|lia].
  replace (so * 8 + (b + 8 * so + off - start)) with (8 * so + off) by lia. replace start with (b + 8 * so) by lia.
  apply write_one_sector; lia || done.
Qed.

(** C32: a write that starts in the first eight bytes of a page and ends before
    the last byte of it succeeds and stores the data, and every byte before it
    and up to the end of its last double word keeps its value; but the rest of
    the page is erased, and only the other pages keep theirs.  (A write up to
    the end of the page also erases the next one: [whole_page_erases_next].) *)
Theorem flash_write_page_start (fuel : nat) (off size : Z) (data : list Z) :
  0 <= off < 8 -> 0 <= size <= Z.of_nat (length data) -> off + size < 2048 -> Forall (fun b => 0 <= b < 256) data ->
  exists f', flash_port_write bank_size (S fuel) (base + off) data size f = FlashDone 0 f' /\
    (forall k, 0 <= k < size -> zget data k = Some (flash_byte f' (base + off + k))) /\
    (forall a, base <= a < base + 8 * ((off + size) / 8 + 1) -> ~ (base + off <= a < base + off + size) -> flash_byte f' a = flash_byte f a) /\
    (forall a, base + 8 * ((off + size) / 8 + 1) <= a < base + STM_SECTOR_SIZE -> flash_byte f' a = 255) /\
    (forall a, ~ (base <= a < base + STM_SECTOR_SIZE) -> flash_byte f' a = flash_byte f a).
Proof.
  intros Hoff Hsize Hpage Hdata. destruct (write_in_page fuel 0 off size data) as (f' & Hrun & Hf'); [lia..|done|].
  rewrite Z.mul_0_r, Z.add_0_r in Hrun. exists f'. split; [exact Hrun|]. clear Hrun.
  pose proof (Z.div_mod (off + size) 8 ltac:(lia)) as Hdm. pose proof (Z.mod_pos_bound (off + size) 8 ltac:(lia)) as Hmod.
  set (dw := (off + size) / 8 + 1) in *. assert (Z.max 0 (Z.min size (8 * dw - (8 * 0 + off))) = size) as Hn by lia. rewrite Hn in Hf'.
  unfold written in Hf'. rewrite !Z.mul_0_r, !Z.add_0_r, !Z.add_0_l in Hf'.
  split; [|split; [|split]].
  - intros k Hk. rewrite Hf'. destruct (Z.leb_spec base (base + off + k)), (Z.ltb_spec (base + off + k) (base + 8 * dw)); try lia. cbn [andb].
    cbv zeta. replace (base + off + k - base) with (off + k) by lia. destruct (Z.leb_spec off (off + k)), (Z.ltb_spec (off + k) (off + size)); try lia.
    cbn [andb]. replace (off + k - off) with k by lia. by destruct (zget_is_Some data k ltac:(lia)) as [x ->].
  - intros a Ha Hout. rewrite Hf'. destruct (Z.leb_spec base a), (Z.ltb_spec a (base + 8 * dw)); try lia. cbn [andb]. cbv zeta.
    destruct (Z.leb_spec off (a - base)), (Z.ltb_spec (a - base) (off + size)); cbn [andb]; try lia; f_equal; lia.
  - intros a Ha. rewrite Hf'. destruct (Z.leb_spec base a), (Z.ltb_spec a (base + 8 * dw)), (Z.ltb_spec a (base + STM_SECTOR_SIZE)); try lia. done.
  - intros a Ha. rewrite Hf'. assert (8 * dw <= STM_SECTOR_SIZE) by (unfold STM_SECTOR_SIZE; lia).
    destruct (Z.leb_spec base a), (Z.ltb_spec a (base + 8 * dw)), (Z.ltb_spec a (base + STM_SECTOR_SIZE)); cbn [andb]; try lia; done.
Qed.

(** C38: a write that starts in a later double word of a page, and ends before
    the last byte of it, reports success and displaces its data.  The double
    words from the first one of the write on get, as many as it takes, the
    start of the page with the data in its place: the data is as far behind
    where it should be as that is behind the start of the page, and what of it
    falls behind the double words of the write is lost, all of it for a write
    no longer than its distance from the start of the page.  The other bytes
    of the page are erased. *)
Theorem flash_write_inside_lost (fuel : nat) (so off size : Z) (data : list Z) :
  0 < so -> 0 <= off < 8 -> 0 <= size <= Z.of_nat (length data) -> 8 * so + off + size < 2048 ->
  Forall (fun b => 0 <= b < 256) data ->
  let addr := base + 8 * so + off in
  let dw := (off + size) / 8 + 1 in
  exists f', flash_port_write bank_size (S fuel) addr data size f = FlashDone 0 f' /\
    (forall a, base <= a < base + STM_SECTOR_SIZE ->
      flash_byte f' a =
      if (base + 8 * so <=? a) && (a <? base + 8 * (so + dw)) then
        if (addr + 8 * so <=? a) && (a <? addr + 8 * so + size) then default 255 (zget data (a - (addr + 8 * so)))
        else flash_byte f (a - 8 * so)
      else 255) /\
    (dw <= so -> forall k, 0 <= k < size -> flash_byte f' (addr + k) = flash_byte f (base + off + k)).
Proof.
  intros Hso Hoff Hsize Hpage Hdata addr dw.
  pose proof (Z.div_mod (off + size) 8 ltac:(lia)) as Hdm. pose proof (Z.mod_pos_bound (off + size) 8 ltac:(lia)) as Hmod.
  destruct (write_in_page fuel so off size data) as (f' & Hrun & Hf'); [lia..|done|]. exists f'. split; [exact Hrun|].
  fold dw in Hf'. set (n := Z.max 0 (Z.min size (8 * dw - (8 * so + off)))) in *.
  assert (Hbytes : forall a, base <= a < base + STM_SECTOR_SIZE -> flash_byte f' a =
      if (base + 8 * so <=? a) && (a <? base + 8 * (so + dw)) then
        if (addr + 8 * so <=? a) && (a <? addr + 8 * so + size) then default 255 (zget data (a - (addr + 8 * so)))
        else flash_byte f (a - 8 * so)
      else 255).
  { intros a Ha. rewrite Hf'. unfold written. destruct (Z.leb_spec (base + 8 * so) a), (Z.ltb_spec a (base + 8 * (so + dw))); cbn [andb].
    2-4: destruct (Z.leb_spec base a), (Z.ltb_spec a (base + STM_SECTOR_SIZE)); (lia || done).
    cbv zeta. unfold addr. destruct (Z.leb_spec (8 * so + off) (a - (base + 8 * so))), (Z.ltb_spec (a - (base + 8 * so)) (8 * so + off + n)),
      (Z.leb_spec (base + 8 * so + off + 8 * so) a), (Z.ltb_spec a (base + 8 * so + off + 8 * so + size)); cbn [andb]; try lia;
      f_equal; f_equal; lia. }
  split; [exact Hbytes|]. intros Hshort k Hk. assert (HS : STM_SECTOR_SIZE = 2048) by done. rewrite Hbytes by (unfold addr; lia).
  clear Hf' Hrun Hbytes. unfold addr. destruct (Z.leb_spec (base + 8 * so) (base + 8 * so + off + k)), (Z.ltb_spec (base + 8 * so + off + k) (base + 8 * (so + dw)));
    cbn [andb]; try lia.
  destruct (Z.leb_spec (base + 8 * so + off + 8 * so) (base + 8 * so + off + k)); cbn [andb]; try lia. f_equal. lia.
Qed.
End Write.

(** ** A flash as a function of the address *)

Definition erase_in_map (page : Z) (f : Z -> Z) : Z -> Z :=
  fun a => if (FLASH_START_ADRESS + page * STM_SECTOR_SIZE <=? a) && (a <? FLASH_START_ADRESS + (page + 1) * STM_SECTOR_SIZE) then 255 else f a.

Definition program_in_map (addr : Z) (data : list Z) (f : Z -> Z) : Z -> Z :=
  let erased := forallb (fun k => u8 (f (addr + k)) =? 255) (map Z.of_nat (seq 0 8)) in
  fun a => if erased && (addr <=? a) && (a <? addr + 8) then default 255 (zget data (a - addr)) else f a.

#[export] Instance flash_map : FlashHAL (Z -> Z) := {
  flash_byte f a := u8 (f a);
  HAL_FLASHEx_Erase bank page f := match bank with FLASH_BANK_1 => (true, erase_in_map page f) | FLASH_BANK_2 => (false, f) end;
  HAL_FLASH_Program := program_in_map }.

#[export] Instance flash_map_laws : FlashLaws (Z -> Z) (512 * 1024).
Proof.
  split; cbn [flash_byte HAL_FLASHEx_Erase HAL_FLASH_Program flash_map].
  - intros f a. apply u8_range.
  - intros page f f' a _ _ [= <-]. unfold erase_in_map. by destruct (_ && _).
  - intros addr data f a _ Hlen Hbytes He. unfold program_in_map.
    assert (forallb (fun k => u8 (f (addr + k)) =? 255) (map Z.of_nat (seq 0 8)) = true) as ->.
    { apply forallb_forall. intros k [n [<- [_ ?]%in_seq]]%in_map_iff. apply Z.eqb_eq, He. lia. }
    cbn [andb]. destruct (Z.leb_spec addr a), (Z.ltb_spec a (addr + 8)); cbn [andb]; try done.
    destruct (zget data (a - addr)) as [x|] eqn:Ex; cbn [default]; [|done].
    apply u8_small. unfold zget in Ex. destruct (_ <? 0) in Ex; [done|]. exact (Forall_lookup_1 _ _ _ _ Hbytes Ex).
Qed.

(** Every byte is the low byte of its address. *)
Definition flash0 : Z -> Z := fun a => a.

Lemma flash_write_page_start_witness :
  HAL_FLASHEx_Erase FLASH_BANK_1 100 flash0 = (true, erase_in_map 100 flash0) /\ 0 <= 5 < 8 /\ Forall (fun b => 0 <= b < 256) [7; 8; 9; 10] /\
  exists f', flash_port_write (512 * 1024) 1 (FLASH_START_ADRESS + 100 * STM_SECTOR_SIZE + 5) [7; 8; 9; 10] 4 flash0 = FlashDone 0 f' /\
    (forall k, 0 <= k < 4 -> zget [7; 8; 9; 10] k = Some (flash_byte f' (FLASH_START_ADRESS + 100 * STM_SECTOR_SIZE + 5 + k))) /\
    (forall a, FLASH_START_ADRESS + 100 * STM_SECTOR_SIZE + 16 <= a < FLASH_START_ADRESS + 100 * STM_SECTOR_SIZE + STM_SECTOR_SIZE -> flash_byte f' a = 255).
Proof.
  assert (Forall (fun b => 0 <= b < 256) [7; 8; 9; 10]) as Hdata by (repeat constructor; lia).
  split; [reflexivity|]. split; [lia|]. split; [exact Hdata|].
  destruct (@flash_write_page_start (Z -> Z) flash_map (512 * 1024) flash_map_laws flash0 (erase_in_map 100 flash0) 100 ltac:(unfold STM_SECTOR_SIZE; lia) ltac:(lia) eq_refl 0 5 4
    [7; 8; 9; 10] ltac:(lia) ltac:(cbn; lia) ltac:(lia) Hdata) as (f' & Hrun & Hdone & _ & Herased & _).
  exists f'. split; [exact Hrun|]. split; [exact Hdone|exact Herased].
Defined.

Lemma flash_write_inside_lost_witness :
  HAL_FLASHEx_Erase FLASH_BANK_1 100 flash0 = (true, erase_in_map 100 flash0) /\ (3 + 4) / 8 + 1 <= 64 /\ Forall (fun b => 0 <= b < 256) [7; 8; 9; 10] /\
  exists f', flash_port_write (512 * 1024) 1 (FLASH_START_ADRESS + 100 * STM_SECTOR_SIZE + 8 * 64 + 3) [7; 8; 9; 10] 4 flash0 = FlashDone 0 f' /\
    flash_byte f' (FLASH_START_ADRESS + 100 * STM_SECTOR_SIZE + 8 * 64 + 3) = 3 /\ flash_byte f' (FLASH_START_ADRESS + 100 * STM_SECTOR_SIZE + 10) = 255.
Proof.
  assert (Forall (fun b => 0 <= b < 256) [7; 8; 9; 10]) as Hdata by (repeat constructor; lia).
  split; [reflexivity|]. split; [reflexivity || (vm_compute; discriminate)|]. split; [exact Hdata|].
  destruct (@flash_write_inside_lost (Z -> Z) flash_map (512 * 1024) flash_map_laws flash0 (erase_in_map 100 flash0) 100 ltac:(unfold STM_SECTOR_SIZE; lia) ltac:(lia) eq_refl 0 64 3 4
    [7; 8; 9; 10] ltac:(lia) ltac:(lia) ltac:(cbn; lia) ltac:(lia) Hdata) as (f' & Hrun & Hbytes & _).
  exists f'. split; [exact Hrun|]. split.
  - rewrite Hbytes by (unfold STM_SECTOR_SIZE; lia). vm_compute. reflexivity.
  - rewrite Hbytes by (unfold STM_SECTOR_SIZE; lia). vm_compute. reflexivity.
Defined.

(** A page written whole, from its start: the end that is computed is one
    double word past the page, so the next page is erased too, all but its
    first double word. *)
Example whole_page_erases_next :
  let base := FLASH_START_ADRESS + 100 * STM_SECTOR_SIZE in
  match flash_port_write (512 * 1024) 2 base (repeat 1 2048) 2048 flash0 with
  | FlashDone ret f' => (ret, flash_byte f' base, flash_byte f' (base + 2047), flash_byte f' (base + 2055), flash_byte f' (base + 2056), flash_byte f' (base + 4095), flash_byte f' (base + 4096))
  | _ => (1, 0, 0, 0, 0, 0, 0)
  end = (0, 1, 1, 7, 255, 255, 0).
Proof. vm_compute. reflexivity. Qed.
