(* ===== verification/Vm.v ===== *)
(** * Virtual machines and their helper table (libebpf/src/ebpf_vm.c,
    ebpf_helper_impl.h)

    Creating, loading and destroying a vm, and the one table of helper
    functions all vms share, which is counted by reference.  A vm is a record;
    the tables are in a store by address, 0 being NULL.  [None] is an access
    through a NULL or freed pointer. *)

From S2P Require Import Prelude Mem EbpfInst EbpfVm.

Record ebpf_helper_env := { ext_funcs : list Z; refcnt : Z }.

Record ebpf_vm := {
  insts : option (list ebpf_inst);   (* None is NULL *)
  num_insts : Z;
  bounds_check_enabled : bool;
  helper_func : Z;
  jit_func : Z;
  use_jit : bool }.

(** The variable [g_helper_func] and the tables that are allocated. *)
Record helper_state := { g_helper_func : Z; helper_envs : gmap Z ebpf_helper_env }.

Definition helpers_none : helper_state := {| g_helper_func := 0; helper_envs := ∅ |}.

(** The functions [set_default_helpers] registers. *)
Record iot_helpers := { iot_print_log : Z; iot_call_C_func_noret : Z; tmp_map_save_val : Z; tmp_map_get_val : Z }.

Section Vm.
(** The allocator's choice of address for a table, what malloc returns for a
    vm ([None] when it fails, else the words it finds there), and the
    addresses of the helpers. *)
Context (alloc : gmap Z ebpf_helper_env -> Z) (malloc_vm : option ebpf_vm) (iot : iot_helpers).

Definition set_env (g : helper_state) (p : Z) (e : ebpf_helper_env) : helper_state :=
  {| g_helper_func := g_helper_func g; helper_envs := <[p := e]> (helper_envs g) |}.

Definition use_default_helper_func (g : helper_state) : option (Z * helper_state) :=
  let g := if g_helper_func g =? 0
           then let p := alloc (helper_envs g) in
                {| g_helper_func := p;
                   helper_envs := <[p := {| ext_funcs := repeat 0 (Z.to_nat MAX_EXT_FUNCS); refcnt := 0 |}]> (helper_envs g) |}
           else g in
  e ← helper_envs g !! g_helper_func g;
  Some (g_helper_func g,
        set_env g (g_helper_func g) {| ext_funcs := ext_funcs e; refcnt := s32 (refcnt e + 1) |}).

Definition with_helper (vm : ebpf_vm) (p : Z) : ebpf_vm :=
  {| insts := insts vm; num_insts := num_insts vm; bounds_check_enabled := bounds_check_enabled vm;
     helper_func := p; jit_func := jit_func vm; use_jit := use_jit vm |}.

Definition ebpf_register (vm : ebpf_vm) (g : helper_state) (idx fn : Z) : option (Z * ebpf_vm * helper_state) :=
  r ← (if helper_func vm =? 0
       then r ← use_default_helper_func g; Some (with_helper vm (fst r), snd r)
       else Some (vm, g));
  let '(vm, g) := r in
  if MAX_EXT_FUNCS <=? idx then Some (-1, vm, g)
  else
    e ← helper_envs g !! helper_func vm;
    fs ← zset (ext_funcs e) idx fn;
    Some (0, vm, set_env g (helper_func vm) {| ext_funcs := fs; refcnt := refcnt e |}).

Definition set_default_helpers (vm : ebpf_vm) (g : helper_state) : option (ebpf_vm * helper_state) :=
  r ← ebpf_register vm g 1 (iot_print_log iot);
  r ← ebpf_register (snd (fst r)) (snd r) 2 (iot_call_C_func_noret iot);
  r ← ebpf_register (snd (fst r)) (snd r) 3 (tmp_map_save_val iot);
  r ← ebpf_register (snd (fst r)) (snd r) 4 (tmp_map_get_val iot);
  Some (snd (fst r), snd r).

Definition init_iot_ebpf_helpers (vm : ebpf_vm) (g : helper_state) : option (ebpf_vm * helper_state) :=
  r ← use_default_helper_func g;
  set_default_helpers (with_helper vm (fst r)) (snd r).

(** The fields a vm gets from its code; the others keep what the allocation
    left in them.  [code_len] is cut to 16 bits before the division. *)
Definition with_code (vm : ebpf_vm) (code : list Z) (code_len : Z) : ebpf_vm :=
  {| insts := Some (insts_of_bytes code); num_insts := u16 code_len / 8;
     bounds_check_enabled := bounds_check_enabled vm; helper_func := helper_func vm;
     jit_func := jit_func vm; use_jit := use_jit vm |}.

Definition init_ebpf_vm (g : helper_state) (code : list Z) (code_len : Z) : option (option ebpf_vm * helper_state) :=
  match malloc_vm with
  | None => Some (None, g)
  | Some vm =>
      r ← init_iot_ebpf_helpers (with_code vm code code_len) g;
      Some (Some (fst r), snd r)
  end.

(** calloc and memset: every field is zero. *)
Definition zeroed_vm : ebpf_vm :=
  {| insts := None; num_insts := 0; bounds_check_enabled := false; helper_func := 0; jit_func := 0; use_jit := false |}.

Definition ebpf_create : option ebpf_vm := match malloc_vm with None => None | Some _ => Some zeroed_vm end.

Definition ebpf_vm_set_inst (vm : ebpf_vm) (g : helper_state) (code : list Z) (code_len : Z)
  : option (ebpf_vm * helper_state) :=
  init_iot_ebpf_helpers (with_code zeroed_vm code code_len) g.

(** [malloc_ok] is whether the allocation of the copy succeeds. *)
Definition ebpf_vm_load (malloc_ok : bool) (vm : ebpf_vm) (code : list Z) (code_len : Z) : Z * ebpf_vm :=
  match insts vm with
  | Some _ => (-1, vm)
  | None => if malloc_ok then (0, with_code vm code code_len) else (-1, vm)
  end.

Definition ebpf_vm_destroy (g : helper_state) : option helper_state :=
  if negb (g_helper_func g =? 0) then
    e ← helper_envs g !! g_helper_func g;
    let n := s32 (refcnt e - 1) in
    if n =? 0 then Some {| g_helper_func := 0; helper_envs := delete (g_helper_func g) (helper_envs g) |}
    else Some (set_env g (g_helper_func g) {| ext_funcs := ext_funcs e; refcnt := n |})
  else Some g.
End Vm.

(** ** What the operations leave *)

(** The shared table, when there is one, is allocated and has twelve slots;
    its count has room for one more reference. *)
Definition helpers_wf (g : helper_state) : Prop :=
  g_helper_func g <> 0 ->
  exists e, helper_envs g !! g_helper_func g = Some e /\ length (ext_funcs e) = 12%nat /\ 0 <= refcnt e < 2 ^ 31 - 1.

Definition refs (g : helper_state) : Z :=
  if g_helper_func g =? 0 then 0 else match helper_envs g !! g_helper_func g with Some e => refcnt e | None => 0 end.

(** The table after the default helpers are registered in [fs]. *)
Definition default_helpers (iot : iot_helpers) (fs : list Z) : list Z :=
  <[4%nat := tmp_map_get_val iot]> (<[3%nat := tmp_map_save_val iot]>
    (<[2%nat := iot_call_C_func_noret iot]> (<[1%nat := iot_print_log iot]> fs))).

Section VmProofs.
Context (alloc : gmap Z ebpf_helper_env -> Z) (malloc_vm : option ebpf_vm) (iot : iot_helpers).
Hypothesis alloc_nonzero : forall m, alloc m <> 0.

Lemma use_default_helper_func_spec (g : helper_state) :
  helpers_wf g ->
  exists p e g', use_default_helper_func alloc g = Some (p, g') /\ p <> 0 /\ g_helper_func g' = p
    /\ helper_envs g' !! p = Some e /\ length (ext_funcs e) = 12%nat /\ refcnt e = refs g + 1.
Proof.
  intros Hwf. unfold use_default_helper_func, refs. destruct (Z.eqb_spec (g_helper_func g) 0) as [H0 | Hne].
  - cbn [helper_envs g_helper_func]. rewrite lookup_insert_eq. cbn [mbind option_bind refcnt ext_funcs].
    eexists _, _, _. split; [reflexivity|]. split; [apply alloc_nonzero|]. split; [done|].
    cbn. rewrite lookup_insert_eq. done.
  - destruct (Hwf Hne) as (e & He & Hl & Hr). rewrite He. cbn [mbind option_bind].
    eexists _, _, _. split; [reflexivity|]. split; [done|]. split; [done|].
    cbn [set_env helper_envs]. rewrite lookup_insert_eq. split; [done|]. cbn [ext_funcs refcnt]. split; [done|].
    apply sext_small; [lia|]. change (2 ^ (32 - 1)) with (2 ^ 31). lia.
Qed.

Lemma ebpf_register_spec (vm : ebpf_vm) (g : helper_state) (e : ebpf_helper_env) (idx fn : Z) :
  helper_func vm <> 0 -> helper_envs g !! helper_func vm = Some e -> length (ext_funcs e) = 12%nat -> 0 <= idx < 12 ->
  ebpf_register alloc vm g idx fn =
  Some (0, vm, set_env g (helper_func vm) {| ext_funcs := <[Z.to_nat idx := fn]> (ext_funcs e); refcnt := refcnt e |}).
Proof.
  intros Hne He Hl Hi. unfold ebpf_register. destruct (Z.eqb_spec (helper_func vm) 0); [done|].
  cbn [mbind option_bind]. unfold MAX_EXT_FUNCS. destruct (Z.leb_spec 12 idx); [lia|].
  rewrite He. cbn [mbind option_bind]. rewrite zset_is_Some by lia. done.
Qed.

Lemma init_iot_ebpf_helpers_spec (vm : ebpf_vm) (g : helper_state) :
  helpers_wf g ->
  exists p e fs g', init_iot_ebpf_helpers alloc iot vm g = Some (with_helper vm p, g')
    /\ p <> 0 /\ g_helper_func g' = p /\ helper_envs g' !! p = Some e
    /\ ext_funcs e = default_helpers iot fs /\ length fs = 12%nat /\ refcnt e = refs g + 1.
Proof.
  intros Hwf. destruct (use_default_helper_func_spec g Hwf) as (p & e & g' & Hu & Hp & Hg & He & Hl & Hr).
  unfold init_iot_ebpf_helpers. rewrite Hu. cbn [mbind option_bind fst snd]. unfold set_default_helpers.
  rewrite (ebpf_register_spec _ _ e) by (done || lia). cbn [mbind option_bind fst snd].
  do 3 (erewrite ebpf_register_spec;
    [|done|cbn [set_env helper_envs helper_func with_helper]; apply lookup_insert_eq
     |cbn [ext_funcs]; rewrite ?length_insert; done|lia]; cbn [mbind option_bind fst snd]).
  eexists p, _, (ext_funcs e), _. split; [reflexivity|]. split; [done|]. split; [done|].
  cbn [set_env helper_envs helper_func with_helper]. rewrite lookup_insert_eq. done.
Qed.

(** The table stays sound, with one more reference. *)
Lemma init_iot_ready (vm : ebpf_vm) (g : helper_state) :
  helpers_wf g -> refs g < 2 ^ 31 - 2 ->
  exists p e g', init_iot_ebpf_helpers alloc iot vm g = Some (with_helper vm p, g')
    /\ helper_envs g' !! p = Some e /\ helpers_wf g' /\ refs g' = refs g + 1.
Proof.
  intros Hwf Hlt. assert (0 <= refs g).
  { unfold refs. destruct (Z.eqb_spec (g_helper_func g) 0) as [|Hne]; [done|]. destruct (Hwf Hne) as (e & -> & _ & Hr). lia. }
  destruct (init_iot_ebpf_helpers_spec vm g Hwf) as (p & e & fs & g' & E & Hp & Hg & He & Hfs & Hl & Hr). subst p.
  exists (g_helper_func g'), e, g'. split; [exact E|]. split; [exact He|]. split.
  - intros _. exists e. split; [exact He|]. split; [|lia]. rewrite Hfs. unfold default_helpers. by rewrite !length_insert.
  - unfold refs at 1. destruct (Z.eqb_spec (g_helper_func g') 0); [done|]. by rewrite He.
Qed.

(** Giving a vm its code: the program is the decoded code, the bounds
    checks and the compiled code are off, the vm refers to the shared table of
    helpers, and that table has the four default helpers at indices 1 to 4;
    the table counts one more reference. *)
Theorem ebpf_vm_set_inst_ready (vm : ebpf_vm) (g : helper_state) (code : list Z) (code_len : Z) :
  helpers_wf g ->
  exists vm' g' e, ebpf_vm_set_inst alloc iot vm g code code_len = Some (vm', g')
    /\ insts vm' = Some (insts_of_bytes code) /\ bounds_check_enabled vm' = false /\ use_jit vm' = false
    /\ helper_func vm' = g_helper_func g' /\ helper_envs g' !! helper_func vm' = Some e
    /\ refcnt e = refs g + 1
    /\ zget (ext_funcs e) 1 = Some (iot_print_log iot) /\ zget (ext_funcs e) 2 = Some (iot_call_C_func_noret iot)
    /\ zget (ext_funcs e) 3 = Some (tmp_map_save_val iot) /\ zget (ext_funcs e) 4 = Some (tmp_map_get_val iot).
Proof.
  intros Hwf. unfold ebpf_vm_set_inst.
  destruct (init_iot_ebpf_helpers_spec (with_code zeroed_vm code code_len) g Hwf)
    as (p & e & fs & g' & -> & Hp & Hg & He & Hfs & Hl & Hr).
  exists (with_helper (with_code zeroed_vm code code_len) p), g', e.
  split; [done|]. split; [done|]. split; [done|]. split; [done|]. split; [done|]. split; [done|]. split; [done|].
  rewrite Hfs. do 13 (destruct fs as [|? fs]; [done|try discriminate Hl]).
Qed.

(** Init_ebpf_vm allocates with malloc and sets only the code and the
    helpers of the vm: whether it runs compiled code, through which pointer,
    and whether it checks bounds, is what the allocation happened to hold. *)
Theorem init_ebpf_vm_keeps_garbage (vm0 : ebpf_vm) (g : helper_state) (code : list Z) (code_len : Z) :
  malloc_vm = Some vm0 -> helpers_wf g ->
  exists vm g', init_ebpf_vm alloc malloc_vm iot g code code_len = Some (Some vm, g')
    /\ insts vm = Some (insts_of_bytes code)
    /\ use_jit vm = use_jit vm0 /\ jit_func vm = jit_func vm0 /\ bounds_check_enabled vm = bounds_check_enabled vm0.
Proof.
  intros Hm Hwf. unfold init_ebpf_vm. rewrite Hm.
  destruct (init_iot_ebpf_helpers_spec (with_code vm0 code code_len) g Hwf) as (p & e & fs & g' & -> & _).
  cbn [mbind option_bind fst snd]. by eexists _, _.
Qed.

(** A vm that is given code after its creation is counted twice, and
    destroying it gives back one reference: the table is then never freed. *)
Theorem set_inst_leaks_reference (vm0 : ebpf_vm) (code : list Z) (code_len : Z) :
  malloc_vm = Some vm0 ->
  exists vm1 g1 vm2 g2 g3, init_ebpf_vm alloc malloc_vm iot helpers_none code code_len = Some (Some vm1, g1)
    /\ ebpf_vm_set_inst alloc iot vm1 g1 code code_len = Some (vm2, g2)
    /\ ebpf_vm_destroy g2 = Some g3 /\ g_helper_func g3 <> 0 /\ refs g3 = 1.
Proof.
  intros Hm. unfold init_ebpf_vm. rewrite Hm.
  assert (helpers_wf helpers_none) as H0 by (intros H; by destruct (H eq_refl)).
  destruct (init_iot_ebpf_helpers_spec (with_code vm0 code code_len) helpers_none H0)
    as (p & e & fs & g1 & -> & Hp & Hg & He & Hfs & Hl & Hr). cbn [mbind option_bind fst snd].
  assert (helpers_wf g1) as H1.
  { intros _. exists e. rewrite Hg, Hfs. unfold default_helpers. rewrite !length_insert. split; [done|].
    split; [done|]. rewrite Hr. change (refs helpers_none) with 0. lia. }
  assert (refs g1 = 1) as Hr1.
  { unfold refs. rewrite Hg, He. destruct (Z.eqb_spec p 0); [done|]. by rewrite Hr. }
  unfold ebpf_vm_set_inst.
  destruct (init_iot_ebpf_helpers_spec (with_code zeroed_vm code code_len) g1 H1)
    as (p2 & e2 & fs2 & g2 & Hs2 & Hp2 & Hg2 & He2 & _ & _ & Hr2).
  eexists _, _, _, _, _. split; [reflexivity|]. split; [exact Hs2|].
  unfold ebpf_vm_destroy. rewrite Hg2. destruct (Z.eqb_spec p2 0); [done|]. cbn [negb].
  rewrite He2. cbn [mbind option_bind]. rewrite Hr2, Hr1. change (s32 (1 + 1 - 1)) with 1. cbn [Z.eqb Pos.eqb].
  split; [reflexivity|]. cbn [set_env g_helper_func]. rewrite Hg2. split; [done|].
  unfold refs. cbn [set_env g_helper_func helper_envs]. rewrite Hg2, lookup_insert_eq.
  destruct (Z.eqb_spec p2 0); done.
Qed.
End VmProofs.

(** ** Witnesses *)

Definition next_address (m : gmap Z ebpf_helper_env) : Z := 64 + Z.of_nat (size m).
Definition iot_sample : iot_helpers :=
  {| iot_print_log := 0x801; iot_call_C_func_noret := 0x803; tmp_map_save_val := 0x805; tmp_map_get_val := 0x807 |}.
Definition garbage_vm : ebpf_vm :=
  {| insts := None; num_insts := 7; bounds_check_enabled := false; helper_func := 3; jit_func := 0xdeadbeef; use_jit := true |}.

Lemma next_address_nonzero (m : gmap Z ebpf_helper_env) : next_address m <> 0.
Proof. unfold next_address. lia. Qed.

Lemma ebpf_vm_set_inst_ready_witness :
  exists vm' g' e, ebpf_vm_set_inst next_address iot_sample zeroed_vm helpers_none [] 0 = Some (vm', g')
    /\ helper_envs g' !! helper_func vm' = Some e /\ zget (ext_funcs e) 4 = Some 0x807.
Proof.
  destruct (ebpf_vm_set_inst_ready next_address iot_sample next_address_nonzero zeroed_vm helpers_none [] 0)
    as (vm' & g' & e & H1 & _ & _ & _ & _ & H2 & _ & _ & _ & _ & H3); [intros H; exfalso; exact (H eq_refl)|].
  exists vm', g', e. split; [exact H1|]. split; [exact H2|exact H3].
Defined.

Lemma init_ebpf_vm_keeps_garbage_witness :
  exists vm g', init_ebpf_vm next_address (Some garbage_vm) iot_sample helpers_none [] 0 = Some (Some vm, g')
    /\ use_jit vm = true /\ jit_func vm = 0xdeadbeef.
Proof.
  destruct (init_ebpf_vm_keeps_garbage next_address (Some garbage_vm) iot_sample next_address_nonzero garbage_vm helpers_none [] 0 eq_refl)
    as (vm & g' & H1 & _ & H2 & H3 & _); [intros H; exfalso; exact (H eq_refl)|].
  exists vm, g'. split; [exact H1|]. split; [exact H2|exact H3].
Defined.

Lemma set_inst_leaks_reference_witness :
  exists vm1 g1 vm2 g2 g3, init_ebpf_vm next_address (Some garbage_vm) iot_sample helpers_none [] 0 = Some (Some vm1, g1)
    /\ ebpf_vm_set_inst next_address iot_sample vm1 g1 [] 0 = Some (vm2, g2)
    /\ ebpf_vm_destroy g2 = Some g3 /\ g_helper_func g3 <> 0 /\ refs g3 = 1.
Proof. exact (set_inst_leaks_reference next_address (Some garbage_vm) iot_sample next_address_nonzero garbage_vm [] 0 eq_refl). Defined.
