(* ===== verification/EbpfEnv.v ===== *)
(** * The list of programs (libebpf/src/ebpf_env.c, ebpf_env.h)

    A linked list of programs, each with its vm, to which one can be added at
    the end.  The nodes are in a store by address, 0 being NULL; [None] is an
    access through NULL or to a freed node. *)

From S2P Require Import Prelude EbpfInst EbpfVm Vm.

Record ebpf_prog := mk_prog { prog_id : Z; next : Z; prog_vm : ebpf_vm }.
Record ebpf_env := mk_env_list { prog_list : Z; tail : Z; cur_size : Z }.
Record env_state := mk_env_state { current_env : ebpf_env; progs : gmap Z ebpf_prog }.

Section Env.
Context (alloc_prog : gmap Z ebpf_prog -> Z) (malloc_vm : option ebpf_vm) (malloc_ok : bool).

Definition init_ubpf_env (s : env_state) : env_state := mk_env_state (mk_env_list 0 0 0) (progs s).

Definition set_next (p n : Z) (m : gmap Z ebpf_prog) : option (gmap Z ebpf_prog) :=
  g ← m !! p; Some (<[p := mk_prog (prog_id g) n (prog_vm g)]> m).

Definition ebpf_add_prog (code : list Z) (code_len : Z) (s : env_state) : option (Z * env_state) :=
  let prog := alloc_prog (progs s) in
  if prog =? 0 then None
  else
    vm ← ebpf_create malloc_vm;
    let vm := snd (ebpf_vm_load malloc_ok vm code code_len) in
    let env := current_env s in
    let first := if prog_list env =? 0 then prog else prog_list env in
    let size := s32 (cur_size env + 1) in
    let m := <[prog := mk_prog size 0 vm]> (progs s) in
    m ← (if negb (tail env =? 0) then set_next (tail env) prog m else Some m);
    Some (prog, mk_env_state (mk_env_list first prog size) m).

Definition ebpf_remove_prog (prog : Z) (g : helper_state) (s : env_state) : option (helper_state * env_state) :=
  _ ← progs s !! prog;
  g ← ebpf_vm_destroy g;
  Some (g, mk_env_state (current_env s) (delete prog (progs s))).

Definition destory_ebpf_env (s : env_state) : env_state := s.
End Env.

(** ** The list *)

(** [linked m p ps]: from [p] the nodes lead through [ps] to NULL. *)
Fixpoint linked (m : gmap Z ebpf_prog) (p : Z) (ps : list Z) : Prop :=
  match ps with
  | [] => p = 0
  | q :: ps => p = q /\ q <> 0 /\ exists g, m !! q = Some g /\ linked m (next g) ps
  end.

Definition env_wf (s : env_state) (ps : list Z) : Prop :=
  linked (progs s) (prog_list (current_env s)) ps /\ NoDup ps /\ tail (current_env s) = List.last ps 0 /\
  cur_size (current_env s) = Z.of_nat (length ps).

Lemma linked_other (m : gmap Z ebpf_prog) (q : Z) (g : ebpf_prog) (ps : list Z) (p : Z) :
  q ∉ ps -> linked m p ps -> linked (<[q := g]> m) p ps.
Proof.
  revert p. induction ps as [|x ps IH]; intros p Hq; [done|]. apply not_elem_of_cons in Hq as [Hx Hq].
  intros (-> & H0 & h & Hh & Hl). split; [done|]. split; [done|]. exists h. rewrite lookup_insert_ne by done. split; [done|]. by apply IH.
Qed.

(** Appending after the last node. *)
Lemma linked_snoc (m : gmap Z ebpf_prog) (a : Z) (g g' : ebpf_prog) (ps : list Z) (t p : Z) :
  NoDup (ps ++ [t]) -> a ∉ ps ++ [t] -> a <> 0 -> m !! t = Some g -> next g' = 0 -> linked m p (ps ++ [t]) ->
  linked (<[t := mk_prog (prog_id g) a (prog_vm g)]> (<[a := g']> m)) p (ps ++ [t; a]).
Proof.
  intros Hnd Ha Ha0 Ht Hg'. revert p Hnd Ha. induction ps as [|x ps IH]; intros p Hnd Ha; cbn [app].
  - intros (-> & H0 & h & Hh & Hl). split; [done|]. split; [done|]. eexists. rewrite lookup_insert_eq. split; [reflexivity|].
    cbn [next linked]. split; [done|]. split; [done|]. exists g'.
    assert (t <> a) by (intros ->; apply Ha; left). rewrite lookup_insert_ne, lookup_insert_eq by done. done.
  - intros (-> & H0 & h & Hh & Hl). cbn [app] in Hnd, Ha. apply list.NoDup_cons in Hnd as [Hx Hnd]. apply not_elem_of_cons in Ha as [Hax Ha].
    split; [done|]. split; [done|]. exists h.
    assert (t <> x) by (intros ->; apply Hx; apply elem_of_app; right; left).
    rewrite !lookup_insert_ne by done. split; [done|]. by apply IH.
Qed.

Section Props.
Context (alloc_prog : gmap Z ebpf_prog -> Z) (vm0 : ebpf_vm) (malloc_ok : bool).
Hypothesis alloc_fresh : forall m, alloc_prog m <> 0 /\ m !! alloc_prog m = None.

Lemma linked_in (m : gmap Z ebpf_prog) (ps : list Z) (p q : Z) : linked m p ps -> q ∈ ps -> is_Some (m !! q).
Proof.
  revert p. induction ps as [|x ps IH]; intros p Hl Hq; [by apply elem_of_nil in Hq|].
  destruct Hl as (-> & _ & g & Hg & Hl). apply elem_of_cons in Hq as [->|Hq]; [by eexists|by eapply IH].
Qed.

(** A program is added at the end, with its position as its number. *)
Lemma ebpf_add_prog_appends (code : list Z) (code_len : Z) (s : env_state) (ps : list Z) :
  env_wf s ps -> Z.of_nat (length ps) < 2 ^ 31 - 1 ->
  exists prog s' g, ebpf_add_prog alloc_prog (Some vm0) malloc_ok code code_len s = Some (prog, s') /\ env_wf s' (ps ++ [prog]) /\
    progs s' !! prog = Some g /\ prog_id g = Z.of_nat (length ps) + 1.
Proof.
  intros (Hl & Hnd & Ht & Hs) Hlen. destruct (alloc_fresh (progs s)) as [Ha0 Ha]. unfold ebpf_add_prog.
  set (a := alloc_prog (progs s)) in *. destruct (Z.eqb_spec a 0); [done|]. cbn [ebpf_create mbind option_bind]. cbv zeta.
  rewrite Hs. assert (s32 (Z.of_nat (length ps) + 1) = Z.of_nat (length ps) + 1) as -> by (unfold s32; apply sext_small; lia).
  assert (a ∉ ps) as Hnin by (intros Hin; destruct (linked_in _ _ _ _ Hl Hin) as [g Hg]; congruence).
  assert (NoDup (ps ++ [a])) as Hnd' by (apply list.NoDup_app; split; [done|]; split; [intros x Hx ->%list_elem_of_singleton; done|apply NoDup_singleton]).
  set (g' := mk_prog _ 0 _). destruct ps as [|t0 ps0 _] using rev_ind.
  - cbn in Hl, Ht. rewrite Hl, Ht. change (0 =? 0) with true. cbn [negb mbind option_bind]. exists a. eexists. exists g'. split; [reflexivity|].
    cbn [progs current_env]. rewrite lookup_insert_eq. split; [|done]. split; [|by rewrite length_app].
    cbn [app linked prog_list progs]. split; [done|]. split; [done|]. exists g'. by rewrite lookup_insert_eq.
  - rewrite List.last_last in Ht. destruct (linked_in _ _ _ t0 Hl ltac:(apply elem_of_app; right; left)) as [g Hg].
    assert (t0 <> 0) as Ht0.
    { clear -Hl. revert Hl. generalize (prog_list (current_env s)) as p. induction ps0 as [|x ps0 IH]; intros p; cbn [app linked]; [by intros (_ & ? & _)|].
      intros (_ & _ & h & _ & Hl). by apply (IH (next h)). }
    assert (prog_list (current_env s) <> 0) as Hp0 by (destruct ps0; cbn in Hl; destruct Hl as (-> & ? & _); done).
    assert (t0 <> a) as Hne by (intros ->; apply Hnin, elem_of_app; right; left).
    rewrite Ht. destruct (Z.eqb_spec t0 0); [done|]. destruct (Z.eqb_spec (prog_list (current_env s)) 0); [done|]. cbn [negb].
    unfold set_next. rewrite lookup_insert_ne, Hg by done. cbn [mbind option_bind]. exists a. eexists. exists g'. split; [reflexivity|].
    cbn [progs current_env]. rewrite lookup_insert_ne, lookup_insert_eq by done. split; [|done].
    split; [|by rewrite List.last_last, !length_app in *; cbn; repeat split; try done; lia].
    cbn [prog_list]. rewrite <- app_assoc. by apply linked_snoc.
Qed.

(** Removing a program frees its node and leaves it in the list: after the
    last one is removed, the next addition writes to freed memory. *)
Lemma remove_last_breaks_add (code : list Z) (code_len : Z) (g g' : helper_state) (s s' : env_state) :
  tail (current_env s) <> 0 -> ebpf_remove_prog (tail (current_env s)) g s = Some (g', s') ->
  alloc_prog (progs s') <> tail (current_env s) ->
  ebpf_add_prog alloc_prog (Some vm0) malloc_ok code code_len s' = None.
Proof.
  intros Ht Hr Ha. unfold ebpf_remove_prog in Hr. destruct (progs s !! _); [|discriminate Hr]. cbn [mbind option_bind] in Hr.
  destruct (ebpf_vm_destroy g) as [g1|]; [|discriminate Hr]. cbn [mbind option_bind] in Hr. injection Hr as <- <-.
  cbn [progs] in Ha. unfold ebpf_add_prog. cbn [progs current_env]. destruct (Z.eqb_spec (alloc_prog (delete (tail (current_env s)) (progs s))) 0); [done|].
  cbn [ebpf_create mbind option_bind]. destruct (Z.eqb_spec (tail (current_env s)) 0); [done|]. cbn [negb]. unfold set_next.
  rewrite lookup_insert_ne by done. by rewrite lookup_delete_eq.
Qed.
End Props.
