(* ===== verification/Fpb.v ===== *)
(** * The flash patch and breakpoint unit (hotpatch/src/cortex-m4_fbp.c, utils.c)

    The comparator registers and their round robin allocation, the two modes of
    a breakpoint (a breakpoint instruction, or a remapped branch), and the
    computation of the addresses and branch instructions it needs.  The
    unit's registers are a record; [REMAP_ADDR], the static variable that holds
    the remap table and the flag [active], is in memory, at the address the
    linker gave it, since the code aligns a pointer into it.  [None] is an
    access outside the register array or to memory that is not mapped. *)

From S2P Require Import Prelude Mem.

Definition MAX_BP : Z := 6.
Definition FPB_CB_REG : Z := 5.

(** ** utils.c *)

Definition little_endian_16_bit (val : Z) : Z :=
  u32 (((val .& 0xFFFF0000) >> 16) .| ((val .& 0x0000FFFF) << 16)).

(** ~0x1 and ~0x3 of a 32-bit word. *)
Definition not1 : Z := 0xFFFFFFFE.
Definition not3 : Z := 0xFFFFFFFC.

Definition calc_bpkt_pc (m : memory) (inst_addr : Z) : option Z :=
  let inst_val := inst_addr .& not1 in
  thumb_inst ← load_le 2 inst_val m;
  if 0xe800 <=? thumb_inst then Some (u32 (inst_val + 4)) else Some (u32 (inst_val + 2)).

Definition clac_prev_inst_addr (m : memory) (next_inst : Z) : option Z :=
  let inst_val := u32 ((next_inst .& not1) - 4) in
  thumb_inst ← load_le 2 inst_val m;
  if 0xe800 <=? thumb_inst then Some inst_val else Some (u32 (inst_val + 2)).

(** ** Addresses and branches *)

Definition calc_bpkt_addr (inst_addr : Z) : Z :=
  let replace := if inst_addr .& 0x2 =? 0 then 1 else 2 in
  let fp_comp := u32 ((inst_addr .& not3) .| 0x1 .| (replace << 30)) in
  let replace := fp_comp >> 30 in
  let final_addr := fp_comp .& 0x1FFFFFFC in
  if replace =? 0x2 then final_addr .| 0x2 else final_addr.

(** B.W, encoding T4: the two halfwords, the first one in the high half. *)
Definition calc_branch_instr (instr_addr target_addr : Z) : Z :=
  let offset := u32 ((target_addr .& not1) - (instr_addr .& not1) - 4) in
  let offset_10_upper := (offset >> 12) .& 0x03FF in
  let offset_11_lower := (offset >> 1) .& 0x07FF in
  let s := (offset >> 24) .& 0x01 in
  let i1 := (offset >> 23) .& 0x01 in
  let i2 := (offset >> 22) .& 0x01 in
  let j1 := 0x01 .& (Z.lnot i1 .^ s) in
  let j2 := 0x01 .& (Z.lnot i2 .^ s) in
  let upper_bl_instr := u16 ((0x1E << 11) .| (s << 10) .| offset_10_upper) in
  let lower_bl_instr := u16 ((0x02 << 14) .| (j1 << 13) .| (0x01 << 12) .| (j2 << 11) .| offset_11_lower) in
  u32 ((upper_bl_instr << 16) .| lower_bl_instr).

Definition my_gen_bw (from_inst target_addr : Z) : Z :=
  let offset := s32 ((target_addr .& not1) - (from_inst .& not1) - 4) in
  let imm10 := (offset >> 12) .& 0x03ff in
  let imm11 := (offset >> 1) .& 0x07ff in
  let s := if offset <? 0 then 1 else 0 in
  let i1 := (offset >> 23) .& 0x01 in
  let i2 := (offset >> 22) .& 0x01 in
  let j1 := (Z.lnot i1 .^ s) .& 0x1 in
  let j2 := (Z.lnot i2 .^ s) .& 0x1 in
  let inst := u32 (0xf0009000 .| (s << 26) .| (imm10 << 16) .| (j1 << 13) .| (j2 << 11) .| imm11) in
  little_endian_16_bit inst.

Definition calc_branch_w_link_instr (inst_addr target_addr : Z) : Z :=
  calc_branch_instr inst_addr target_addr .| 0x00004000.

(** ** The unit *)

Record FPB_UNIT := { CTRL : Z; REMAP : Z; COMP : list Z }.

Record breakpoints_info := { cur_idx : Z; bpkt_num : Z }.

(** The registers, the module's static variables and memory. *)
Record hw_state := mk_hw {
  FPB : FPB_UNIT;
  bpkt_info : breakpoints_info;
  bpkt_is_init : bool;
  hw_mem : memory }.

Definition with_fpb (h : hw_state) (f : FPB_UNIT) : hw_state := mk_hw f (bpkt_info h) (bpkt_is_init h) (hw_mem h).
Definition with_ctrl (h : hw_state) (v : Z) : hw_state :=
  with_fpb h {| CTRL := v; REMAP := REMAP (FPB h); COMP := COMP (FPB h) |}.
Definition with_remap (h : hw_state) (v : Z) : hw_state :=
  with_fpb h {| CTRL := CTRL (FPB h); REMAP := v; COMP := COMP (FPB h) |}.
Definition with_info (h : hw_state) (b : breakpoints_info) : hw_state := mk_hw (FPB h) b (bpkt_is_init h) (hw_mem h).
Definition with_idx (h : hw_state) (i : Z) : hw_state :=
  with_info h {| cur_idx := u8 i; bpkt_num := bpkt_num (bpkt_info h) |}.
Definition with_hwmem (h : hw_state) (m : memory) : hw_state := mk_hw (FPB h) (bpkt_info h) (bpkt_is_init h) m.

(** FPB->COMP[i], read and written. *)
Definition get_comp (h : hw_state) (i : Z) : option Z := zget (COMP (FPB h)) i.
Definition set_comp (h : hw_state) (i v : Z) : option hw_state :=
  c ← zset (COMP (FPB h)) i v;
  Some (with_fpb h {| CTRL := CTRL (FPB h); REMAP := REMAP (FPB h); COMP := c |}).

Definition fpb_enable (h : hw_state) : hw_state := with_ctrl h (CTRL (FPB h) .| 0x3).
Definition fpb_disable (h : hw_state) : hw_state := with_ctrl h ((CTRL (FPB h) .& not3) .| 0x2).

Definition fpb_set_comp_reg (h : hw_state) (idx comp_addr : Z) : option hw_state :=
  set_comp h idx (comp_addr .| 1).

Definition get_hw_bkpt_num : Z := 6.

(** The comparator that holds [fp_comp] already. *)
Fixpoint find_comp (h : hw_state) (n : nat) (i fp_comp : Z) : option (option Z) :=
  match n with
  | O => Some None
  | S n => c ← get_comp h i; if c =? fp_comp then Some (Some i) else find_comp h n (i + 1) fp_comp
  end.

Definition add_normal_bkpt (h : hw_state) (inst_addr : Z) : option (Z * hw_state) :=
  let replace := if inst_addr .& 0x2 =? 0 then 1 else 2 in
  let fp_comp := u32 ((inst_addr .& not3) .| 0x1 .| (replace << 30)) in
  found ← find_comp h (Z.to_nat (bpkt_num (bpkt_info h))) 0 fp_comp;
  match found with
  | Some i => Some (i, h)
  | None =>
      h ← set_comp h (cur_idx (bpkt_info h)) fp_comp;
      Some (cur_idx (bpkt_info h), with_idx h (cur_idx (bpkt_info h) + 1))
  end.

(** for (i = 0; i < num_code_comparators; i++) FPB->COMP[i] = 0 *)
Fixpoint clear_comps (n : nat) (i : Z) (h : hw_state) : option hw_state :=
  match n with
  | O => Some h
  | S n => h ← set_comp h i 0; clear_comps n (i + 1) h
  end.

Definition clear_all_hw_bkpt (h : hw_state) : option hw_state :=
  let fp_ctrl := CTRL (FPB h) in
  let num_code_comparators := (((fp_ctrl >> 12) .& 0x7) << 4) .| ((fp_ctrl >> 4) .& 0xF) in
  h ← clear_comps (Z.to_nat num_code_comparators) 0 h;
  Some (fpb_disable (with_idx h 0)).

(** ** Patches by remapping *)

Section Remap.
(** The address of the variable [REMAP_ADDR], and those of [FPB_Handler0] to
    [FPB_Handler5]. *)
Context (REMAP_ADDR : Z) (FPB_Handler : list Z).

(** The field [active] follows the ten words of [inst]. *)
Definition REMAP_active (h : hw_state) : option Z := load_le 1 (u32 (REMAP_ADDR + 40)) (hw_mem h).
Definition set_REMAP_active (h : hw_state) (v : Z) : option hw_state :=
  m ← store_le 1 (u32 (REMAP_ADDR + 40)) v (hw_mem h); Some (with_hwmem h m).

Definition get_fpb_patch_remap : Z := u32 (REMAP_ADDR + 0x1f) .& 0xFFFFFFE0.

Definition set_table (h : hw_state) (idx v : Z) : option hw_state :=
  m ← store_le 4 (u32 (get_fpb_patch_remap + idx * 4)) v (hw_mem h); Some (with_hwmem h m).

(** The comparator that already matches a word-aligned address. *)
Fixpoint find_word (h : hw_state) (n : nat) (i fp_comp inst_addr : Z) : option (option Z) :=
  match n with
  | O => Some None
  | S n =>
      c ← get_comp h i;
      if (c =? fp_comp) || (c =? inst_addr) then Some (Some i) else find_word h n (i + 1) fp_comp inst_addr
  end.

(** The pair of comparators that already matches a halfword-aligned one. *)
Fixpoint find_pair (h : hw_state) (n : nat) (i fp_comp1 fp_comp2 : Z) : option (option Z) :=
  match n with
  | O => Some None
  | S n =>
      c1 ← get_comp h i;
      if c1 =? fp_comp1 then
        c2 ← get_comp h (i + 1);
        if c2 =? fp_comp2 then Some (Some i) else find_pair h n (i + 1) fp_comp1 fp_comp2
      else find_pair h n (i + 1) fp_comp1 fp_comp2
  end.

Definition add_fpb_bkpt (h : hw_state) (inst_addr : Z) : option (Z * hw_state) :=
  let idx := cur_idx (bpkt_info h) in
  trampoline ← zget FPB_Handler idx;
  let trampoline_addr := u32 ((trampoline .& not3) + 3) .& not3 in
  let jump_inst := little_endian_16_bit (calc_branch_instr inst_addr trampoline_addr) in
  let inst_addr := inst_addr .& not1 in
  if inst_addr mod 4 =? 0 then
    let fp_comp := inst_addr .| 0x1 in
    found ← find_word h (Z.to_nat (bpkt_num (bpkt_info h))) 0 fp_comp inst_addr;
    match found with
    | Some i => h ← set_comp h i fp_comp; Some (i, h)
    | None =>
        h ← set_table h idx jump_inst;
        h ← set_comp h (cur_idx (bpkt_info h)) fp_comp;
        let h := with_idx h (cur_idx (bpkt_info h) + 1) in
        Some (cur_idx (bpkt_info h), h)
    end
  else
    let fp_comp1 := inst_addr .& 0xFFFFFFFC in
    let fp_comp2 := u32 ((inst_addr .& 0xFFFFFFFC) + 4) in
    found ← find_pair h (Z.to_nat (bpkt_num (bpkt_info h) - 1)) 0 fp_comp1 fp_comp2;
    match found with
    | Some i => Some (i, h)
    | None =>
        old_instr0 ← load_le 4 (inst_addr .& 0xFFFFFFFC) (hw_mem h);
        old_instr1 ← load_le 4 (u32 ((inst_addr .& 0xFFFFFFFC) + 4)) (hw_mem h);
        h ← set_table h idx (u32 ((jump_inst .& 0x0000FFFF) << 16) .| (old_instr0 .& 0x0000FFFF));
        h ← set_table h (idx + 1) ((old_instr1 .& 0xFFFF0000) .| ((jump_inst .& 0xFFFF0000) >> 16));
        h ← set_comp h (cur_idx (bpkt_info h)) fp_comp1;
        h ← set_comp h (cur_idx (bpkt_info h) + 1) fp_comp2;
        let h := with_idx h (cur_idx (bpkt_info h) + 2) in
        Some (cur_idx (bpkt_info h), h)
    end.

Definition add_hw_bkpt (h : hw_state) (inst_addr : Z) : option (Z * hw_state) :=
  let h := if bpkt_is_init h then h
           else mk_hw (FPB h) {| cur_idx := 0; bpkt_num := get_hw_bkpt_num |} true (hw_mem h) in
  if 0x20000000 <=? inst_addr then Some (-1, h)
  else
    let h := if MAX_BP <=? cur_idx (bpkt_info h) then with_idx h 0 else h in
    active ← REMAP_active h;
    if negb (active =? 0) then add_fpb_bkpt h inst_addr else add_normal_bkpt h inst_addr.

Definition fpb_remap_init (h : hw_state) (remap_addr : Z) : option hw_state :=
  let h := with_remap h remap_addr in
  h ← set_REMAP_active h 1;
  Some (fpb_enable h).

(** memset of the 44 bytes of REMAP_ADDR. *)
Fixpoint clear_words (n : nat) (a : Z) (m : memory) : option memory :=
  match n with
  | O => Some m
  | S n => m ← store_le 4 a 0 m; clear_words n (u32 (a + 4)) m
  end.

(** The instruction after the one at [cur_addr] that is word aligned. *)
Fixpoint next_aligned (fuel : nat) (m : memory) (next_inst : Z) : option Z :=
  match fuel with
  | O => None
  | S fuel =>
      if next_inst .& 0x3 =? 0 then Some next_inst
      else next_inst ← calc_bpkt_pc m next_inst; next_aligned fuel m next_inst
  end.

Definition fpb_disable_cur_inst (fuel : nat) (h : hw_state) (bpkt_idx : Z) : option hw_state :=
  cur_addr ← get_comp h bpkt_idx;
  next_inst ← calc_bpkt_pc (hw_mem h) cur_addr;
  next_inst ← next_aligned fuel (hw_mem h) next_inst;
  h ← set_comp h FPB_CB_REG (next_inst .| 0x1);
  c ← get_comp h bpkt_idx;
  h ← set_comp h bpkt_idx (c .& not1);
  handler5 ← zget FPB_Handler 5;
  let trampoline_addr := u32 ((handler5 .& not1) + 3) .& not3 in
  let jump_inst := calc_branch_instr next_inst trampoline_addr in
  set_table h FPB_CB_REG (little_endian_16_bit jump_inst).

(** for (i = 0; i < FPB_CB_REG; i++): re-enable the comparators in use. *)
Fixpoint enable_comps (n : nat) (i : Z) (h : hw_state) : option hw_state :=
  match n with
  | O => Some h
  | S n =>
      c ← get_comp h i;
      h ← (if negb (c =? 0) then set_comp h i (c .| 1) else Some h);
      enable_comps n (i + 1) h
  end.

Definition fpb_enable_callback (h : hw_state) : option (Z * hw_state) :=
  cur_inst ← get_comp h FPB_CB_REG;
  h ← enable_comps (Z.to_nat FPB_CB_REG) 0 h;
  c ← get_comp h FPB_CB_REG;
  h ← set_comp h FPB_CB_REG (c .& not1);
  Some (cur_inst, h).

(** *** The debug monitor: its control registers are memory-mapped words. *)

Definition DCB_DEMCR : Z := 0xE000EDFC.
Definition DCB_DEMCR_MON_EN : Z := 1 << 16.
Definition SCB_HFSR : Z := 0xE000E02C.
Definition SCB_DFSR : Z := 0xE000ED30.
Definition SCB_SHP8 : Z := 0xE000ED20.

Definition put32 (h : hw_state) (a v : Z) : option hw_state :=
  m ← store_le 4 a v (hw_mem h); Some (with_hwmem h m).

Definition halting_debug_enabled (h : hw_state) : option bool :=
  dhcsr ← load_le 4 0xE000EDF0 (hw_mem h); Some (negb (dhcsr .& 0x1 =? 0)).

Definition debug_monitor_init (h : hw_state) : option hw_state :=
  h ← put32 h SCB_HFSR (u32 (1 << 31));
  h ← put32 h SCB_DFSR (1 << 2);
  halting ← halting_debug_enabled h;
  if halting : bool then Some h
  else
    demcr ← load_le 4 DCB_DEMCR (hw_mem h);
    h ← put32 h DCB_DEMCR (demcr .| DCB_DEMCR_MON_EN);
    let h := fpb_enable h in
    h ← put32 h 0xE000ED20 0xff;
    put32 h 0xE000ED20 (u32 (-1)).

Inductive patch_mode_t := CORTEX_FPB_PATCH | CORTEX_DEB_MON_PATCH.

Definition set_patch_mode (h : hw_state) (mode : patch_mode_t) : option hw_state :=
  h ← clear_all_hw_bkpt h;
  m ← clear_words 11 REMAP_ADDR (hw_mem h);
  h ← set_REMAP_active (with_hwmem h m) 0;
  let h := with_remap h 0 in
  match mode with
  | CORTEX_FPB_PATCH => fpb_remap_init h get_fpb_patch_remap
  | CORTEX_DEB_MON_PATCH => debug_monitor_init h
  end.
End Remap.
