(* ===== verification/FpbProps.v ===== *)
(** * Properties of the breakpoint unit

    The branch the remap table holds leads where it should, in both of the
    code's encoders; the address a comparator is given; what adding a
    breakpoint does to the registers; and the places where the remap table or
    the register array is left. *)

From S2P Require Import Prelude Mem Fpb.

(** ** The branch instruction

    B.W, encoding T4 of the ARMv7-M reference manual (A7.7.12):
    I1 = NOT (J1 EOR S), I2 = NOT (J2 EOR S),
    offset = SignExtend (S:I1:I2:imm10:imm11:0).  The bits of the offset, from
    those of the two halfwords [upper] and [lower] of the word [w]. *)

Definition is_BW_T4 (w : Z) : bool :=
  ((w >> 27) .& 31 =? 30) && ((w >> 14) .& 3 =? 2) && ((w >> 12) .& 1 =? 1).

Definition BW_T4_offset (w : Z) : Z :=
  let s := (w >> 26) .& 1 in
  let i1 := (Z.lnot ((w >> 13) .& 1 .^ s)) .& 1 in
  let i2 := (Z.lnot ((w >> 11) .& 1 .^ s)) .& 1 in
  sext 25 ((s << 24) .| (i1 << 23) .| (i2 << 22) .| (((w >> 16) .& 0x3ff) << 12) .| ((w .& 0x7ff) << 1)).

(** The branch of word [w] at address [a] leads to [a + 4 + offset]. *)
Definition BW_T4_target (a w : Z) : option Z :=
  if is_BW_T4 w then Some (u32 (a + 4 + BW_T4_offset w)) else None.

Lemma testbit_land_1 (x i : Z) : 0 <= i -> Z.testbit (x .& 1) i = (i =? 0) && Z.testbit x 0.
Proof.
  intros Hi. rewrite Z.land_spec. change 1 with (Z.ones 1). rewrite Z.testbit_ones_nonneg by lia.
  destruct (Z.eqb_spec i 0) as [->|]; [by rewrite andb_true_r|].
  destruct (Z.ltb_spec i 1); [lia|apply andb_false_r].
Qed.

(** The word of the two encoders, as a function of the offset's bits. *)
Definition BW_T4_bit (o : Z -> bool) (i : Z) : bool :=
  if i <? 11 then o (i + 1)
  else if i =? 11 then negb (xorb (o 22) (o 24))
  else if i =? 12 then true
  else if i =? 13 then negb (xorb (o 23) (o 24))
  else if i =? 14 then false
  else if i =? 15 then true
  else if i <? 26 then o (i - 4)
  else if i =? 26 then o 24
  else 27 <? i.

(** Bits of a field and of J1 and J2, for any index. *)
Lemma testbit_slice (o n k j : Z) :
  0 <= n -> 0 <= k -> Z.testbit ((o >> n) .& Z.ones k) j = (0 <=? j) && ((j <? k) && Z.testbit o (j + n)).
Proof.
  intros Hn Hk. destruct (Z.leb_spec 0 j); [|by rewrite Z.testbit_neg_r].
  rewrite Z.land_spec, Z.shiftr_spec, Z.testbit_ones_nonneg, andb_true_l by lia. apply andb_comm.
Qed.

Lemma testbit_jbit (o n j : Z) :
  0 <= n ->
  Z.testbit (1 .& (Z.lnot ((o >> n) .& 1) .^ ((o >> 24) .& 1))) j
  = (j =? 0) && negb (xorb (Z.testbit o n) (Z.testbit o 24)).
Proof.
  intros Hn. destruct (Z.ltb_spec j 0) as [Hj | Hj].
  { rewrite Z.testbit_neg_r by lia. destruct (Z.eqb_spec j 0); (done || lia). }
  rewrite Z.land_comm, testbit_land_1 by lia. f_equal.
  rewrite Z.lxor_spec, Z.lnot_spec, !testbit_land_1, !Z.shiftr_spec by lia. cbn [Z.eqb andb].
  rewrite !Z.add_0_l. by destruct (Z.testbit o n), (Z.testbit o 24).
Qed.

Lemma calc_branch_instr_bit (a t i : Z) :
  0 <= i < 32 ->
  Z.testbit (calc_branch_instr a t) i
  = BW_T4_bit (Z.testbit (u32 ((t .& not1) - (a .& not1) - 4))) i.
Proof.
  intros Hi. unfold calc_branch_instr. cbv zeta. set (o := u32 ((t .& not1) - (a .& not1) - 4)). unfold u32, u16.
  assert (forall x j, Z.testbit (wrap 16 x) j = (0 <=? j) && ((j <? 16) && Z.testbit x j)) as H16.
  { intros x j. destruct (Z.leb_spec 0 j); [by rewrite testbit_wrap|by rewrite Z.testbit_neg_r]. }
  rewrite testbit_wrap, Z.lor_spec, testbit_shl, !H16 by lia.
  rewrite !Z.lor_spec, !testbit_shl by lia.
  rewrite !testbit_jbit by lia.
  change 0x03FF with (Z.ones 10). change 0x07FF with (Z.ones 11).
  replace ((o >> 24) .& 1) with ((o >> 24) .& Z.ones 1) by done.
  rewrite !testbit_slice by lia. unfold BW_T4_bit.
  bit_cases i 32%nat; cbn -[Z.testbit]; rewrite ?orb_false_r, ?andb_true_r; try reflexivity.
Qed.

Lemma calc_branch_instr_range (a t : Z) : 0 <= calc_branch_instr a t < 2 ^ 32.
Proof. apply u32_range. Qed.

Lemma wrap_sub_sext (n w x : Z) :
  0 < n <= w -> - 2 ^ (n - 1) <= x < 2 ^ (n - 1) -> sext n (wrap w x) = x.
Proof. intros Hn Hx. rewrite <- sext_wrap, wrap_wrap, sext_wrap by lia. apply sext_small; lia. Qed.

(** The offset that the word of the encoders holds. *)
Lemma BW_T4_offset_bits (w o : Z) :
  0 <= o -> Z.testbit o 0 = false -> (forall i, 0 <= i < 32 -> Z.testbit w i = BW_T4_bit (Z.testbit o) i) ->
  is_BW_T4 w = true /\ BW_T4_offset w = sext 25 o.
Proof.
  intros Ho H0 Hw. split.
  - unfold is_BW_T4. change 31 with (Z.ones 5) at 1. change 3 with (Z.ones 2) at 1. change 1 with (Z.ones 1) at 1.
    assert (forall n k c, 0 <= n -> 0 < k -> n + k <= 32 -> 0 <= c < 2 ^ k ->
      (forall i, 0 <= i < k -> BW_T4_bit (Z.testbit o) (i + n) = Z.testbit c i) ->
      (w >> n) .& Z.ones k = c) as Hf.
    { intros n k c Hn Hk Hnk Hc Hb. apply Z.bits_inj'. intros i Hi. rewrite testbit_slice by lia.
      destruct (Z.leb_spec 0 i); [|lia]. destruct (Z.ltb_spec i k).
      - cbn [andb]. rewrite Hw by lia. apply Hb. lia.
      - symmetry. apply (testbit_above k); lia. }
    rewrite (Hf 27 5 30), (Hf 14 2 2), (Hf 12 1 1); try lia.
    + intros i Hi. assert (i = 0) as -> by lia. done.
    + intros i Hi. bit_cases i 2%nat; done.
    + intros i Hi. bit_cases i 5%nat; done.
  - unfold BW_T4_offset. rewrite <- sext_wrap, <- (sext_wrap 25 o). f_equal.
    assert (forall n j, 0 <= n -> Z.testbit (Z.lnot ((w >> n) .& 1 .^ (w >> 26) .& 1) .& 1) j
      = (j =? 0) && negb (xorb (Z.testbit w n) (Z.testbit w 26))) as Hx.
    { intros n j Hn. destruct (Z.ltb_spec j 0).
      { rewrite Z.testbit_neg_r by lia. destruct (Z.eqb_spec j 0); (done || lia). }
      rewrite testbit_land_1 by lia. f_equal.
      rewrite Z.lnot_spec, Z.lxor_spec, !testbit_land_1, !Z.shiftr_spec by lia. cbn [Z.eqb andb].
      by rewrite !Z.add_0_l. }
    apply Z.bits_inj'. intros i Hi. rewrite !testbit_wrap by lia. destruct (Z.ltb_spec i 25); [|done].
    rewrite !andb_true_l, !Z.lor_spec, !testbit_shl, !Hx by lia.
    replace ((w >> 26) .& 1) with ((w >> 26) .& Z.ones 1) by done.
    replace (w .& 0x7ff) with ((w >> 0) .& Z.ones 11) by (by rewrite Z.shiftr_0_r).
    change 0x3ff with (Z.ones 10). rewrite !testbit_slice, !Hw by lia.
    bit_cases i 25%nat; cbn -[Z.testbit]; rewrite ?orb_false_r; repeat (rewrite Hw by lia).
    all: first [ reflexivity | symmetry; exact H0
      | cbn -[Z.testbit]; by destruct (Z.testbit o 22), (Z.testbit o 23), (Z.testbit o 24) ].
Qed.

(** The branch offset, as an integer. *)
Definition branch_distance (a t : Z) : Z := (t .& not1) - (a .& not1) - 4.

Lemma not1_even (a : Z) : Z.even (a .& not1) = true.
Proof.
  rewrite <- Z.negb_odd, <- Z.bit0_odd, Z.land_spec. change (Z.testbit not1 0) with false. by rewrite andb_false_r.
Qed.

Lemma not1_id (a : Z) : 0 <= a < 2 ^ 32 -> Z.even a = true -> a .& not1 = a.
Proof.
  intros Ha He. apply Z.bits_inj'. intros i Hi. rewrite Z.land_spec.
  destruct (Z.ltb_spec i 32); [|by rewrite (testbit_above 32 a i) by lia].
  destruct (decide (i = 0)) as [->|].
  - rewrite Z.bit0_odd, <- Z.negb_even, He. done.
  - replace not1 with (Z.ones 31 << 1) by done. rewrite testbit_shl, Z.testbit_ones_nonneg by lia.
    destruct (Z.ltb_spec (i - 1) 31); [apply andb_true_r|lia].
Qed.

Lemma branch_distance_bit0 (a t : Z) : Z.testbit (u32 (branch_distance a t)) 0 = false.
Proof.
  unfold u32. rewrite testbit_wrap, Z.bit0_odd, <- Z.negb_even by lia. cbn [Z.ltb Z.compare andb].
  unfold branch_distance. rewrite !Z.even_sub, !not1_even. done.
Qed.

Lemma branch_target (a t : Z) :
  0 <= a < 2 ^ 32 -> Z.even a = true -> 0 <= t -> - 2 ^ 24 <= branch_distance a t < 2 ^ 24 ->
  BW_T4_target a (calc_branch_instr a t) = Some (t .& not1).
Proof.
  intros Ha He Ht Hd. destruct (BW_T4_offset_bits (calc_branch_instr a t) (u32 (branch_distance a t))) as [H1 H2].
  - apply u32_range.
  - apply branch_distance_bit0.
  - intros i Hi. by apply calc_branch_instr_bit.
  - unfold BW_T4_target. rewrite H1, H2. unfold u32 at 2.
    rewrite (wrap_sub_sext 25 32) by (lia || exact Hd).
    unfold branch_distance. rewrite (not1_id a) by done. f_equal.
    replace (a + 4 + (t .& not1 - a - 4)) with (t .& not1) by lia. apply u32_small.
    apply land_range; [lia|done|]. unfold not1. lia.
Qed.

(** C28: the branch instruction made for the remap table is a B.W (encoding T4)
    that leads from its address to the target, for every pair of addresses
    within the 16 MB of the encoding. *)
Theorem calc_branch_instr_target (a t : Z) :
  0 <= a < 2 ^ 32 -> Z.even a = true -> 0 <= t -> - 2 ^ 24 <= branch_distance a t < 2 ^ 24 ->
  BW_T4_target a (calc_branch_instr a t) = Some (t .& not1).
Proof. exact (branch_target a t). Qed.

Lemma calc_branch_instr_target_witness :
  BW_T4_target 0x08000100 (calc_branch_instr 0x08000100 0x08012345) = Some 0x08012344.
Proof.
  apply (calc_branch_instr_target 0x08000100 0x08012345);
    [split; [discriminate|reflexivity]|reflexivity|discriminate|split; [discriminate|reflexivity]].
Defined.

(** C29: the two branch encoders agree, up to the order of the halfwords, on
    every pair of addresses within the range of the branch, 2^24 bytes either
    way; beyond it they need not (one takes the sign of the offset, the other
    its bit 24). *)
Theorem my_gen_bw_calc_branch_instr (a t : Z) :
  - 2 ^ 24 <= branch_distance a t < 2 ^ 24 ->
  my_gen_bw a t = little_endian_16_bit (calc_branch_instr a t).
Proof.
  intros Hd. unfold my_gen_bw. cbv zeta. f_equal. fold (branch_distance a t).
  replace (s32 (branch_distance a t)) with (branch_distance a t)
    by (symmetry; apply sext_small; [lia|]; change (2 ^ (32 - 1)) with (2 ^ 31); lia).
  set (o := branch_distance a t) in *.
  assert (forall n, 0 <= n < 32 -> Z.testbit (u32 o) n = Z.testbit o n) as Ho.
  { intros n Hn. unfold u32. rewrite testbit_wrap by lia. by destruct (Z.ltb_spec n 32); [|lia]. }
  pose proof (testbit_sign 24 o ltac:(lia) Hd) as Hs.
  apply Z.bits_inj'. intros i Hi. destruct (Z.ltb_spec i 32) as [Hlt|].
  2: { rewrite (testbit_above 32 (u32 _)), (testbit_above 32 (calc_branch_instr a t)); [done|apply u32_range|lia|apply u32_range|lia]. }
  rewrite calc_branch_instr_bit by lia. fold (branch_distance a t). change (branch_distance a t) with o.
  unfold u32 at 1. rewrite testbit_wrap by lia. destruct (Z.ltb_spec i 32); [|lia]. rewrite andb_true_l.
  replace (if o <? 0 then 1 else 0) with ((o >> 24) .& 1).
  2: { apply Z.bits_inj'. intros j Hj. rewrite testbit_land_1, Z.shiftr_spec by lia. rewrite Z.add_0_l, Hs.
       destruct (o <? 0).
       - rewrite andb_true_r. destruct (Z.eqb_spec j 0) as [->|]; [done|]. symmetry. apply (testbit_above 1); lia.
       - by rewrite andb_false_r, Z.testbit_0_l. }
  rewrite !(Z.land_comm _ 0x1), !(Z.land_comm 0x1 (o >> _)).
  rewrite !Z.lor_spec, !testbit_shl, !testbit_jbit by lia.
  replace ((o >> 24) .& 1) with ((o >> 24) .& Z.ones 1) by done.
  change 0x3ff with (Z.ones 10). change 0x7ff with (Z.ones 11). rewrite !testbit_slice by lia.
  unfold BW_T4_bit.
  bit_cases i 32%nat; cbn -[Z.testbit u32]; rewrite ?orb_false_r, ?andb_true_r, ?Ho by lia; try reflexivity.
Qed.

Lemma my_gen_bw_calc_branch_instr_witness :
  my_gen_bw 0x08000100 0x08012345 = little_endian_16_bit (calc_branch_instr 0x08000100 0x08012345).
Proof. apply my_gen_bw_calc_branch_instr. split; [discriminate|reflexivity]. Defined.

(** ** Comparators *)

(** The value of a comparator for a breakpoint, and the address a comparator
    matches. *)
Definition bkpt_comp (inst_addr : Z) : Z :=
  u32 ((inst_addr .& not3) .| 0x1 .| ((if inst_addr .& 0x2 =? 0 then 1 else 2) << 30)).

Lemma testbit_not3 (i : Z) : 0 <= i -> Z.testbit not3 i = (1 <? i) && (i <? 32).
Proof.
  intros Hi. replace not3 with (Z.ones 30 << 2) by done. rewrite testbit_shl by lia.
  destruct (Z.ltb_spec 1 i).
  - rewrite Z.testbit_ones_nonneg by lia. destruct (Z.ltb_spec (i - 2) 30), (Z.ltb_spec i 32); (done || lia).
  - by rewrite Z.testbit_neg_r by lia.
Qed.

Lemma bit1_of (a : Z) : (a .& 0x2 =? 0) = negb (Z.testbit a 1).
Proof.
  destruct (Z.testbit a 1) eqn:E; cbn [negb].
  - apply Z.eqb_neq. intros H. assert (Z.testbit (a .& 2) 1 = false) as Hf by (by rewrite H, Z.testbit_0_l).
    rewrite Z.land_spec, E in Hf. done.
  - apply Z.eqb_eq, Z.bits_inj'. intros i Hi. rewrite Z.land_spec, Z.testbit_0_l.
    destruct (decide (i = 1)) as [->|]; [by rewrite E|].
    assert (Z.testbit 2 i = false) as ->; [|apply andb_false_r].
    destruct (decide (i = 0)) as [->|]; [done|]. apply (testbit_above 2); lia.
Qed.

Lemma bkpt_comp_bit (a i : Z) :
  0 <= a < 2 ^ 29 -> 0 <= i ->
  Z.testbit (bkpt_comp a) i =
  if i =? 0 then true else if i =? 1 then false else if i <? 29 then Z.testbit a i
  else if i =? 30 then negb (Z.testbit a 1) else (i =? 31) && Z.testbit a 1.
Proof.
  intros Ha Hi. unfold bkpt_comp, u32. rewrite bit1_of, testbit_wrap, !Z.lor_spec, testbit_shl, Z.land_spec, testbit_not3 by lia.
  assert (forall j, 29 <= j -> Z.testbit a j = false) as Hab by (intros; apply (testbit_above 29); lia).
  assert (forall j, j <> 0 -> Z.testbit 1 j = false) as H1.
  { intros j Hj. destruct (Z.ltb_spec j 0); [by rewrite Z.testbit_neg_r|]. apply (testbit_above 1); lia. }
  assert (forall j, j <> 1 -> Z.testbit 2 j = false) as H2.
  { intros j Hj. destruct (Z.ltb_spec j 0); [by rewrite Z.testbit_neg_r|].
    destruct (decide (j = 0)) as [->|]; [done|]. apply (testbit_above 2); lia. }
  destruct (Z.eqb_spec i 0) as [->|N0]; [by destruct (Z.testbit a 0), (Z.testbit a 1)|].
  destruct (Z.eqb_spec i 1) as [->|N1]; [by destruct (Z.testbit a 0), (Z.testbit a 1)|].
  rewrite (H1 i N0), orb_false_r. destruct (Z.ltb_spec 1 i); [|lia].
  destruct (Z.ltb_spec i 29).
  { destruct (Z.ltb_spec i 32); [|lia]. rewrite andb_true_l, !andb_true_r.
    destruct (Z.testbit a 1); cbn [negb]; [rewrite H2 by lia|rewrite H1 by lia]; apply orb_false_r. }
  rewrite Hab by lia. cbn [andb orb].
  destruct (Z.eqb_spec i 30) as [->|]; [by destruct (Z.testbit a 1)|].
  destruct (Z.eqb_spec i 31) as [->|]; [by destruct (Z.testbit a 1)|].
  destruct (Z.ltb_spec i 32); [|done]. destruct (Z.testbit a 1); cbn [negb andb]; [rewrite H2 by lia|rewrite H1 by lia]; done.
Qed.

(** The address that the code keeps for a patch in flash is the instruction's
    address without the Thumb bit. *)
Lemma calc_bpkt_addr_flash (a : Z) : 0 <= a < 2 ^ 29 -> calc_bpkt_addr a = a .& not1.
Proof.
  intros Ha. unfold calc_bpkt_addr. cbv zeta. fold (bkpt_comp a).
  assert (bkpt_comp a >> 30 = if Z.testbit a 1 then 2 else 1) as ->.
  { apply Z.bits_inj'. intros i Hi. rewrite Z.shiftr_spec, bkpt_comp_bit by lia.
    destruct (Z.eqb_spec (i + 30) 0), (Z.eqb_spec (i + 30) 1), (Z.ltb_spec (i + 30) 29); try lia.
    destruct (Z.eqb_spec (i + 30) 30).
    { replace i with 0 by lia. by destruct (Z.testbit a 1). }
    destruct (Z.eqb_spec (i + 30) 31).
    { replace i with 1 by lia. by destruct (Z.testbit a 1). }
    symmetry. destruct (Z.testbit a 1); apply (testbit_above 2); lia. }
  assert (forall i, 0 <= i -> Z.testbit 0x1FFFFFFC i = (1 <? i) && (i <? 29)) as Hm.
  { intros i Hi. replace 0x1FFFFFFC with (Z.ones 27 << 2) by done. rewrite testbit_shl by lia.
    destruct (Z.ltb_spec 1 i); [|by rewrite Z.testbit_neg_r by lia].
    rewrite Z.testbit_ones_nonneg by lia. destruct (Z.ltb_spec (i - 2) 27), (Z.ltb_spec i 29); (done || lia). }
  assert (forall i, 0 <= i -> Z.testbit not1 i = (0 <? i) && (i <? 32)) as Hn.
  { intros i Hi. replace not1 with (Z.ones 31 << 1) by done. rewrite testbit_shl by lia.
    destruct (Z.ltb_spec 0 i); [|by rewrite Z.testbit_neg_r by lia].
    rewrite Z.testbit_ones_nonneg by lia. destruct (Z.ltb_spec (i - 1) 31), (Z.ltb_spec i 32); (done || lia). }
  apply Z.bits_inj'. intros i Hi. rewrite (Z.land_spec a), Hn by lia.
  assert (Z.testbit (bkpt_comp a .& 0x1FFFFFFC) i = (1 <? i) && Z.testbit a i) as Hl.
  { rewrite Z.land_spec, bkpt_comp_bit, Hm by lia.
    destruct (Z.ltb_spec 1 i); [|apply andb_false_r].
    destruct (Z.eqb_spec i 0), (Z.eqb_spec i 1), (Z.ltb_spec i 29); try lia; [apply andb_true_r|].
    rewrite (testbit_above 29 a i) by lia. apply andb_false_r. }
  assert (Z.testbit (if (if Z.testbit a 1 then 2 else 1) =? 2 then (bkpt_comp a .& 0x1FFFFFFC) .| 2 else bkpt_comp a .& 0x1FFFFFFC) i
     = ((1 <? i) && Z.testbit a i) || ((i =? 1) && Z.testbit a 1)) as ->.
  { destruct (Z.testbit a 1) eqn:E1; cbn [Z.eqb Pos.eqb].
    - rewrite Z.lor_spec, Hl. f_equal. rewrite andb_true_r. destruct (Z.eqb_spec i 1) as [->|]; [done|].
      destruct (decide (i = 0)) as [->|]; [done|]. apply (testbit_above 2); lia.
    - by rewrite Hl, andb_false_r, orb_false_r. }
  destruct (decide (i = 0)) as [->|]; [by rewrite andb_false_r|].
  destruct (decide (i = 1)) as [->|]; [by rewrite andb_true_r|].
  destruct (Z.ltb_spec 1 i), (Z.ltb_spec 0 i), (Z.eqb_spec i 1); try lia. cbn [andb]. rewrite orb_false_r.
  destruct (Z.ltb_spec i 32); [by rewrite andb_true_r|]. by rewrite (testbit_above 29 a i) by lia.
Qed.

(** The registers are six; the index is one of them or the first past them;
    the number of breakpoints is six once it is set. *)
Record hw_wf (h : hw_state) : Prop := {
  wf_comps : length (COMP (FPB h)) = 6%nat;
  wf_idx : 0 <= cur_idx (bpkt_info h) <= MAX_BP;
  wf_num : bpkt_is_init h = true -> bpkt_num (bpkt_info h) = 6 }.

Lemma get_comp_some (h : hw_state) (i : Z) : hw_wf h -> 0 <= i < 6 -> exists c, get_comp h i = Some c.
Proof. intros Hwf Hi. apply zget_is_Some. rewrite (wf_comps h Hwf). lia. Qed.

Lemma set_comp_some (h : hw_state) (i v : Z) :
  hw_wf h -> 0 <= i < 6 ->
  exists h', set_comp h i v = Some h' /\ get_comp h' i = Some v
    /\ (forall j, j <> i -> get_comp h' j = get_comp h j)
    /\ bpkt_info h' = bpkt_info h /\ bpkt_is_init h' = bpkt_is_init h /\ hw_mem h' = hw_mem h
    /\ length (COMP (FPB h')) = 6%nat.
Proof.
  intros Hwf Hi. pose proof (wf_comps h Hwf) as Hl. unfold set_comp, get_comp.
  rewrite zset_is_Some by lia. cbn [mbind option_bind]. eexists. split; [reflexivity|]. cbn [FPB with_fpb COMP].
  split; [apply zget_insert_eq; lia|]. split; [intros j Hj; apply zget_insert_ne; lia|].
  rewrite length_insert. done.
Qed.

Lemma find_comp_spec (h : hw_state) (v : Z) (n : nat) : forall i,
  hw_wf h -> 0 <= i -> i + Z.of_nat n <= 6 ->
  exists f, find_comp h n i v = Some f
    /\ match f with
       | Some k => i <= k < i + Z.of_nat n /\ get_comp h k = Some v
       | None => forall k, i <= k < i + Z.of_nat n -> get_comp h k <> Some v
       end.
Proof.
  induction n as [|n IH]; intros i Hwf Hi Hn; cbn [find_comp].
  - exists None. split; [done|]. intros k Hk. lia.
  - destruct (get_comp_some h i Hwf ltac:(lia)) as [c Hc]. rewrite Hc. cbn [mbind option_bind].
    destruct (Z.eqb_spec c v) as [->|Hne].
    + exists (Some i). split; [done|]. split; [lia|done].
    + destruct (IH (i + 1) Hwf ltac:(lia) ltac:(lia)) as (f & -> & Hf). exists f. split; [done|].
      destruct f as [k|]; [split; [lia|apply Hf]|].
      intros k Hk. destruct (decide (k = i)) as [->|]; [congruence|]. apply Hf. lia.
Qed.

(** The state add_hw_bkpt works on: initialised, the index reset when it is
    past the last register. *)
Definition ready (h : hw_state) : hw_state :=
  let h := if bpkt_is_init h then h
           else mk_hw (FPB h) {| cur_idx := 0; bpkt_num := get_hw_bkpt_num |} true (hw_mem h) in
  if MAX_BP <=? cur_idx (bpkt_info h) then with_idx h 0 else h.

Lemma ready_spec (h : hw_state) :
  hw_wf h -> hw_wf (ready h) /\ 0 <= cur_idx (bpkt_info (ready h)) < 6 /\ bpkt_is_init (ready h) = true
    /\ FPB (ready h) = FPB h /\ hw_mem (ready h) = hw_mem h.
Proof.
  intros [Hc Hi Hn]. unfold ready, MAX_BP, get_hw_bkpt_num in *.
  destruct (bpkt_is_init h) eqn:E; cbn [bpkt_info cur_idx].
  - destruct (Z.leb_spec 6 (cur_idx (bpkt_info h))).
    + split; [split; cbn; [done|done|intros; by apply Hn]|]. split; done.
    + split; [split; [done|unfold MAX_BP; lia|intros; by apply Hn]|]. split; [lia|done].
  - change (6 <=? 0) with false. cbv iota. split; [split; cbn; [done|unfold MAX_BP; lia|done]|]. cbn. split; [lia|done].
Qed.

Lemma add_hw_bkpt_ready (ra : Z) (fh : list Z) (h : hw_state) (a : Z) :
  a < 0x20000000 ->
  add_hw_bkpt ra fh h a =
  (active ← REMAP_active ra (ready h);
   if negb (active =? 0) then add_fpb_bkpt ra fh (ready h) a else add_normal_bkpt (ready h) a).
Proof.
  intros Ha. unfold add_hw_bkpt, ready. cbv zeta. by destruct (Z.leb_spec 0x20000000 a); [lia|].
Qed.

Lemma add_hw_bkpt_monitor (ra : Z) (fh : list Z) (h : hw_state) (a : Z) :
  hw_wf h -> 0 <= a < 0x20000000 -> REMAP_active ra h = Some 0 ->
  exists i h', add_hw_bkpt ra fh h a = Some (i, h') /\ hw_wf h' /\ 0 <= i < 6
    /\ get_comp h' i = Some (bkpt_comp a)
    /\ (forall j, j <> i -> get_comp h' j = get_comp h j)
    /\ ((exists j, 0 <= j < 6 /\ get_comp h j = Some (bkpt_comp a)) -> FPB h' = FPB h)
    /\ ((forall j, 0 <= j < 6 -> get_comp h j <> Some (bkpt_comp a)) -> i = cur_idx (bpkt_info (ready h))).
Proof.
  intros Hwf Ha Hact. rewrite add_hw_bkpt_ready by lia.
  destruct (ready_spec h Hwf) as (Hr & Hidx & Hinit & Hfpb & Hm).
  assert (REMAP_active ra (ready h) = Some 0) as -> by (unfold REMAP_active in *; by rewrite Hm).
  cbn [mbind option_bind]. change (negb (0 =? 0)) with false. cbv iota.
  assert (forall j, get_comp (ready h) j = get_comp h j) as Hg by (intros; unfold get_comp; by rewrite Hfpb).
  unfold add_normal_bkpt. cbv zeta. fold (bkpt_comp a). rewrite (wf_num _ Hr Hinit).
  destruct (find_comp_spec (ready h) (bkpt_comp a) (Z.to_nat 6) 0 Hr ltac:(lia) ltac:(lia)) as (f & -> & Hf).
  cbn [mbind option_bind]. destruct f as [k|].
  - exists k, (ready h). destruct Hf as [Hk Hc]. split; [done|]. split; [done|]. split; [lia|]. split; [done|].
    split; [intros; apply Hg|]. split; [done|]. intros Hno. exfalso. apply (Hno k); [lia|]. by rewrite <- Hg.
  - destruct (set_comp_some (ready h) (cur_idx (bpkt_info (ready h))) (bkpt_comp a) Hr Hidx)
      as (h' & -> & Hi & Hj & Hb & Hin & _ & Hlen).
    cbn [mbind option_bind]. eexists _, _. split; [reflexivity|]. rewrite Hb.
    split; [|split; [done|split; [done|split; [intros j Hne; rewrite <- Hg; by apply Hj|split; [|done]]]]].
    + split; cbn; rewrite ?Hb, ?Hin; [done| |by intros; apply (wf_num _ Hr)].
      rewrite u8_small by lia. unfold MAX_BP. lia.
    + intros (j & Hjr & Hjc). exfalso. apply (Hf j); [lia|]. by rewrite Hg.
Qed.

(** In debug monitor mode only the unit's registers change. *)
Lemma add_hw_bkpt_mem (ra : Z) (fh : list Z) (h h' : hw_state) (a i : Z) :
  a < 0x20000000 -> REMAP_active ra h = Some 0 -> add_hw_bkpt ra fh h a = Some (i, h') -> hw_mem h' = hw_mem h.
Proof.
  intros Ha Hact. rewrite add_hw_bkpt_ready by lia.
  assert (Hm : hw_mem (ready h) = hw_mem h) by (unfold ready; destruct (bpkt_is_init h); by destruct (MAX_BP <=? _)).
  assert (REMAP_active ra (ready h) = Some 0) as -> by (unfold REMAP_active in *; by rewrite Hm).
  cbn [mbind option_bind]. change (negb (0 =? 0)) with false. cbv iota. unfold add_normal_bkpt, set_comp.
  destruct (find_comp _ _ _ _) as [[k|]|]; cbn [mbind option_bind]; [by intros [= _ <-]| |done].
  destruct (zset _ _ _); [|done]. cbn [mbind option_bind]. by intros [= _ <-].
Qed.

(** The Thumb bit of the address does not matter. *)
Lemma bkpt_comp_even (a : Z) : bkpt_comp (a .& not1) = bkpt_comp a.
Proof. unfold bkpt_comp. by rewrite <- !Z.land_assoc. Qed.

(** C33: in debug monitor mode, adding a breakpoint on an instruction in flash
    leaves a comparator that matches it, whatever the number of breakpoints
    already set; every other comparator is kept, and none is written when one
    matches already.  Adding a seventh takes the first register again. *)
Theorem add_hw_bkpt_sets (ra : Z) (fh : list Z) (h : hw_state) (a : Z) :
  hw_wf h -> 0 <= a < 0x20000000 -> REMAP_active ra h = Some 0 ->
  exists i h', add_hw_bkpt ra fh h a = Some (i, h') /\ hw_wf h' /\ 0 <= i < 6
    /\ get_comp h' i = Some (bkpt_comp a)
    /\ (forall j, j <> i -> get_comp h' j = get_comp h j)
    /\ ((exists j, 0 <= j < 6 /\ get_comp h j = Some (bkpt_comp a)) -> FPB h' = FPB h)
    /\ ((forall j, 0 <= j < 6 -> get_comp h j <> Some (bkpt_comp a)) -> i = cur_idx (bpkt_info (ready h))).
Proof. exact (add_hw_bkpt_monitor ra fh h a). Qed.

(** ** The remap table *)

Section Table.
Context (REMAP_ADDR : Z) (FPB_Handler : list Z).

(** The address of entry [i] of the table. *)
Definition table_entry (i : Z) : Z := u32 (get_fpb_patch_remap REMAP_ADDR + i * 4).

Lemma land_clear5 (x : Z) : 0 <= x < 2 ^ 32 -> x .& 0xFFFFFFE0 = 32 * (x / 32).
Proof.
  intros Hx. replace (32 * (x / 32)) with ((x >> 5) << 5)
    by (rewrite Z.shiftr_div_pow2, Z.shiftl_mul_pow2 by lia; change (2 ^ 5) with 32; lia).
  apply Z.bits_inj'. intros i Hi. rewrite Z.land_spec, testbit_shl by lia.
  replace 0xFFFFFFE0 with (Z.ones 27 << 5) by done. rewrite testbit_shl by lia.
  destruct (Z.ltb_spec i 5); [by rewrite !(Z.testbit_neg_r _ (i - 5)), andb_false_r by lia|].
  rewrite Z.shiftr_spec, Z.testbit_ones_nonneg by lia. replace (i - 5 + 5) with i by lia.
  destruct (Z.ltb_spec (i - 5) 27); [apply andb_true_r|]. rewrite (testbit_above 32 x i) by lia. done.
Qed.

(** REMAP_ADDR is aligned up to 32 bytes. *)
Lemma get_fpb_patch_remap_eq (k r : Z) :
  0 <= REMAP_ADDR -> REMAP_ADDR + 64 < 2 ^ 32 -> REMAP_ADDR = 32 * k + r -> 0 <= r < 32 ->
  get_fpb_patch_remap REMAP_ADDR = if r =? 0 then 32 * k else 32 * k + 32.
Proof.
  intros Ha Hb Hr Hrr. unfold get_fpb_patch_remap. rewrite u32_small by lia.
  rewrite land_clear5 by lia. subst REMAP_ADDR. destruct (Z.eqb_spec r 0) as [->|].
  - replace (32 * k + 0 + 31) with (31 + k * 32) by lia. rewrite Z.div_add by lia. change (31 / 32) with 0. lia.
  - replace (32 * k + r + 31) with ((r - 1) + (k + 1) * 32) by lia. rewrite Z.div_add by lia.
    rewrite (Z.div_small (r - 1)) by lia. lia.
Qed.

(** The six entries of the remap table lie in the array [inst] that holds
    it only for some of the addresses the linker may choose: the aligned start
    of the table must leave room for them.  For three of the others an entry
    is at the address of the flag [active], which the next patch then
    overwrites. *)
Theorem remap_table_inside (k r : Z) :
  0 <= REMAP_ADDR -> REMAP_ADDR + 64 < 2 ^ 32 -> REMAP_ADDR = 32 * k + r -> 0 <= r < 32 -> r mod 4 = 0 ->
  ((forall i, 0 <= i < 6 -> REMAP_ADDR <= table_entry i /\ table_entry i + 4 <= REMAP_ADDR + 40)
     <-> r = 0 \/ 16 <= r)
  /\ (4 <= r <= 12 -> exists i, 0 <= i < 6 /\ table_entry i = REMAP_ADDR + 40).
Proof.
  intros Ha Hb Hr Hrr Hal. pose proof (get_fpb_patch_remap_eq k r Ha Hb Hr Hrr) as He.
  assert (forall i, 0 <= i < 6 -> table_entry i = (if r =? 0 then 32 * k else 32 * k + 32) + i * 4) as Ht.
  { intros i Hi. unfold table_entry. rewrite He. apply u32_small. destruct (r =? 0); lia. }
  split; [split|].
  - intros Hin. pose proof (Hin 5 ltac:(lia)) as H5. rewrite Ht in H5 by lia. destruct (Z.eqb_spec r 0); lia.
  - intros Hc i Hi. rewrite Ht by lia. destruct (Z.eqb_spec r 0); lia.
  - intros Hc. assert (exists q, r = 4 * q) as [q Hq].
    { exists (r / 4). pose proof (Z.div_mod r 4 ltac:(lia)). lia. }
    exists (2 + q). rewrite Ht by lia. destruct (Z.eqb_spec r 0); lia.
Qed.

Lemma align_down (x : Z) : 0 <= x < 2 ^ 32 -> u32 ((x .& not3) + 3) .& not3 = x .& not3.
Proof.
  intros Hx. assert (forall y, 0 <= y < 2 ^ 32 -> y .& not3 = 4 * (y / 4)) as Hmask.
  { intros y Hy. replace (4 * (y / 4)) with ((y >> 2) << 2)
      by (rewrite Z.shiftr_div_pow2, Z.shiftl_mul_pow2 by lia; change (2 ^ 2) with 4; lia).
    apply Z.bits_inj'. intros i Hi. rewrite Z.land_spec, testbit_not3, testbit_shl by lia.
    destruct (Z.ltb_spec 1 i); [|by rewrite (Z.testbit_neg_r _ (i - 2)), andb_false_r by lia].
    rewrite Z.shiftr_spec by lia. replace (i - 2 + 2) with i by lia.
    destruct (Z.ltb_spec i 32); [apply andb_true_r|]. by rewrite (testbit_above 32 y i) by lia. }
  rewrite (Hmask x Hx). assert (0 <= 4 * (x / 4) /\ 4 * (x / 4) + 3 < 2 ^ 32) as [H1 H2].
  { Z.to_euclidean_division_equations. lia. }
  rewrite u32_small by lia. rewrite Hmask by lia. Z.to_euclidean_division_equations. lia.
Qed.

Lemma little_endian_16_bit_involutive (w : Z) :
  0 <= w < 2 ^ 32 -> little_endian_16_bit (little_endian_16_bit w) = w.
Proof.
  intros Hw. assert (forall x i, 0 <= i -> Z.testbit (little_endian_16_bit x) i
    = (i <? 32) && Z.testbit x (if i <? 16 then i + 16 else i - 16)) as Hb.
  { intros x i Hi. unfold little_endian_16_bit, u32. rewrite testbit_wrap, Z.lor_spec, Z.shiftr_spec, testbit_shl by lia.
    destruct (Z.ltb_spec i 32); [|done]. rewrite !andb_true_l, !Z.land_spec.
    replace 0xFFFF0000 with (Z.ones 16 << 16) by done. change 0xFFFF with (Z.ones 16). rewrite testbit_shl by lia.
    destruct (Z.ltb_spec i 16).
    - rewrite (Z.testbit_neg_r x (i - 16)), (Z.testbit_ones_nonneg 16 (i + 16 - 16)) by lia.
      destruct (Z.ltb_spec (i + 16 - 16) 16); [|lia]. by rewrite andb_true_r, orb_false_r.
    - rewrite !Z.testbit_ones_nonneg by lia. destruct (Z.ltb_spec (i + 16 - 16) 16); [lia|]. rewrite andb_false_r.
      destruct (Z.ltb_spec (i - 16) 16); [by rewrite andb_true_r|lia]. }
  apply Z.bits_inj'. intros i Hi. rewrite Hb by lia. destruct (Z.ltb_spec i 32); cycle 1.
  { symmetry. apply (testbit_above 32); lia. }
  destruct (Z.ltb_spec i 16); rewrite Hb by lia; rewrite andb_true_l.
  - destruct (Z.ltb_spec (i + 16) 32), (Z.ltb_spec (i + 16) 16); try lia. by replace (i + 16 - 16) with i by lia.
  - destruct (Z.ltb_spec (i - 16) 32), (Z.ltb_spec (i - 16) 16); try lia. by replace (i - 16 + 16) with i by lia.
Qed.

Lemma find_word_none (h : hw_state) (c a : Z) (n : nat) : forall i,
  hw_wf h -> 0 <= i -> i + Z.of_nat n <= 6 ->
  (forall j, 0 <= j < 6 -> get_comp h j <> Some c /\ get_comp h j <> Some a) -> find_word h n i c a = Some None.
Proof.
  induction n as [|n IH]; intros i Hwf Hi Hn Hno; [done|]. cbn [find_word].
  destruct (get_comp_some h i Hwf ltac:(lia)) as [x Hx]. destruct (Hno i ltac:(lia)) as [H1 H2].
  rewrite Hx in *. cbn [mbind option_bind].
  destruct (Z.eqb_spec x c); [congruence|]. destruct (Z.eqb_spec x a); [congruence|]. cbn [orb].
  apply IH; (done || lia).
Qed.

(** C34: patching an instruction at a word that no comparator matches yet, with
    the unit initialised and one of the six comparators next: the next comparator then matches its address, the others are kept, and the word
    the unit fetches in its place is a branch to the handler of the comparator,
    its address rounded down to a word (which is two bytes before a handler
    that is not aligned), when that is within the range of the branch. *)
Theorem add_fpb_bkpt_redirects (h : hw_state) (a t : Z) (h1 : hw_state) :
  let idx := cur_idx (bpkt_info h) in
  hw_wf h -> bpkt_is_init h = true -> 0 <= idx < 6 -> 0 <= a < 2 ^ 32 -> a mod 4 = 0 ->
  zget FPB_Handler idx = Some t -> 0 <= t < 2 ^ 32 -> - 2 ^ 24 <= branch_distance a (t .& not3) < 2 ^ 24 ->
  (forall j, 0 <= j < 6 -> get_comp h j <> Some (a .| 0x1) /\ get_comp h j <> Some a) ->
  set_table REMAP_ADDR h idx (little_endian_16_bit (calc_branch_instr a (t .& not3))) = Some h1 ->
  exists h' w, add_fpb_bkpt REMAP_ADDR FPB_Handler h a = Some (idx + 1, h')
    /\ get_comp h' idx = Some (a .| 0x1) /\ (forall j, j <> idx -> get_comp h' j = get_comp h j)
    /\ load_le 4 (table_entry idx) (hw_mem h') = Some w
    /\ BW_T4_target a (little_endian_16_bit w) = Some (t .& not3).
Proof.
  intros idx Hwf Hinit Hidx Ha Hal Ht Htr Hd Hno Hset.
  assert (Z.even a = true) as He.
  { apply Z.even_spec. exists (2 * (a / 4)). pose proof (Z.div_mod a 4 ltac:(lia)). lia. }
  unfold add_fpb_bkpt. cbv zeta. change (cur_idx (bpkt_info h)) with idx. rewrite Ht. cbn [mbind option_bind].
  rewrite align_down, (not1_id a), Hal, Z.eqb_refl, (wf_num h Hwf Hinit) by done.
  rewrite find_word_none by (done || lia). cbn [mbind option_bind]. rewrite Hset. cbn [mbind option_bind].
  unfold set_table in Hset. destruct (store_le 4 _ _ (hw_mem h)) as [m|] eqn:Hst; [|done].
  cbn [mbind option_bind] in Hset. injection Hset as <-. cbn [bpkt_info with_hwmem]. change (cur_idx (bpkt_info h)) with idx.
  assert (hw_wf (with_hwmem h m)) as Hwf1 by (split; [apply Hwf|apply Hwf|apply Hwf]).
  destruct (set_comp_some (with_hwmem h m) idx (a .| 1) Hwf1 Hidx) as (h' & -> & Hi & Hj & Hb & _ & Hm & _).
  cbn [mbind option_bind]. rewrite Hb. cbn [bpkt_info with_hwmem with_idx with_info cur_idx].
  change (cur_idx (bpkt_info h)) with idx. rewrite u8_small by lia.
  eexists _, _. split; [reflexivity|]. split; [exact Hi|]. split; [intros j Hne; exact (Hj j Hne)|].
  cbn [hw_mem with_idx with_info]. rewrite Hm. cbn [hw_mem with_hwmem]. split.
  - unfold table_entry. apply (load_store_le 4 _ _ _ _ ltac:(lia) Hst).
  - change (2 ^ (8 * Z.of_nat 4)) with (2 ^ 32). rewrite Z.mod_small by apply u32_range.
    rewrite little_endian_16_bit_involutive by apply u32_range.
    rewrite (branch_target a (t .& not3)); [|done|done|apply Z.land_nonneg; lia|exact Hd].
    by rewrite <- Z.land_assoc.
Qed.

Lemma set_table_keeps (h h' : hw_state) (i v : Z) :
  set_table REMAP_ADDR h i v = Some h' -> FPB h' = FPB h /\ bpkt_info h' = bpkt_info h.
Proof. unfold set_table. destruct (store_le _ _ _ _); [|done]. by intros [= <-]. Qed.

(** Patching a halfword-aligned instruction takes two comparators; when
    the next free one is the last, the code writes past the register array. *)
Theorem add_fpb_bkpt_overflow (h : hw_state) (a : Z) :
  hw_wf h -> cur_idx (bpkt_info h) = 5 -> (a .& not1) mod 4 <> 0 ->
  find_pair h (Z.to_nat (bpkt_num (bpkt_info h) - 1)) 0 ((a .& not1) .& 0xFFFFFFFC) (u32 (((a .& not1) .& 0xFFFFFFFC) + 4)) = Some None ->
  add_fpb_bkpt REMAP_ADDR FPB_Handler h a = None.
Proof.
  intros Hwf Hidx Hal Hnew. unfold add_fpb_bkpt. cbv zeta. rewrite Hidx.
  destruct (zget FPB_Handler 5); [|done]. cbn [mbind option_bind].
  destruct (Z.eqb_spec ((a .& not1) mod 4) 0); [done|]. rewrite Hnew. cbn [mbind option_bind].
  do 2 (match goal with |- (?e ≫= _) = None => destruct e; [|reflexivity] end; cbn [mbind option_bind]).
  do 2 (match goal with |- (?e ≫= _) = None => destruct e eqn:?; [|reflexivity] end; cbn [mbind option_bind]).
  repeat match goal with E : set_table _ _ _ _ = Some _ |- _ => apply set_table_keeps in E as [? ?] end.
  unfold set_comp. replace (bpkt_info _) with (bpkt_info h) by congruence. rewrite Hidx.
  rewrite zset_is_Some by (replace (FPB _) with (FPB h) by congruence; rewrite (wf_comps h Hwf); lia).
  cbn [mbind option_bind bpkt_info with_fpb FPB COMP]. replace (bpkt_info _) with (bpkt_info h) by congruence. rewrite Hidx.
  unfold zset. rewrite length_insert. replace (FPB _) with (FPB h) by congruence. by rewrite (wf_comps h Hwf).
Qed.
End Table.

(** ** Witnesses: a unit with one comparator in use, the table at an aligned
    address *)

Definition hw_sample (idx : Z) : hw_state :=
  mk_hw {| CTRL := 0x263; REMAP := 0; COMP := [bkpt_comp 0x08000100; 0; 0; 0; 0; 0] |}
        {| cur_idx := idx; bpkt_num := 6 |} true (bytes_at 0x20000000 (repeat 0 64) ∅).

Lemma hw_sample_wf (idx : Z) : 0 <= idx <= 6 -> hw_wf (hw_sample idx).
Proof. intros Hi. split; cbn; (done || lia). Qed.

Lemma add_hw_bkpt_sets_witness :
  exists i h', add_hw_bkpt 0x20000000 [] (hw_sample 1) 0x08000202 = Some (i, h') /\ 0 <= i < 6
    /\ get_comp h' i = Some (bkpt_comp 0x08000202).
Proof.
  destruct (add_hw_bkpt_sets 0x20000000 [] (hw_sample 1) 0x08000202) as (i & h' & H1 & _ & H2 & H3 & _).
  - apply hw_sample_wf. lia.
  - lia.
  - vm_compute. reflexivity.
  - exists i, h'. split; [exact H1|]. split; [exact H2|exact H3].
Defined.

Lemma remap_table_inside_witness :
  exists i, 0 <= i < 6 /\ table_entry 0x20000104 i = 0x20000104 + 40.
Proof. apply (remap_table_inside 0x20000104 0x1000008 4); (lia || reflexivity). Defined.

Lemma add_fpb_bkpt_redirects_witness :
  exists h' w, add_fpb_bkpt 0x20000000 [0x08001001; 0x08001101] (hw_sample 1) 0x08000400 = Some (2, h')
    /\ load_le 4 0x20000004 (hw_mem h') = Some w
    /\ BW_T4_target 0x08000400 (little_endian_16_bit w) = Some 0x08001100.
Proof.
  destruct (set_table 0x20000000 (hw_sample 1) 1 (little_endian_16_bit (calc_branch_instr 0x08000400 (0x08001101 .& not3)))) as [h1|] eqn:E;
    [|vm_compute in E; discriminate E].
  destruct (add_fpb_bkpt_redirects 0x20000000 [0x08001001; 0x08001101] (hw_sample 1) 0x08000400 0x08001101 h1)
    as (h' & w & H1 & _ & _ & H2 & H3); [apply hw_sample_wf; lia|reflexivity|cbn; lia|lia|reflexivity|reflexivity|lia| | |exact E|].
  - split; vm_compute; (reflexivity || discriminate).
  - intros j Hj. assert (j = 0 \/ j = 1 \/ j = 2 \/ j = 3 \/ j = 4 \/ j = 5) as Hc by lia.
    destruct Hc as [-> | [-> | [-> | [-> | [-> | ->]]]]]; split; vm_compute; discriminate.
  - exists h', w. split; [exact H1|]. split; [exact H2|exact H3].
Defined.

Lemma add_fpb_bkpt_overflow_witness :
  add_fpb_bkpt 0x20000000 [0; 0; 0; 0; 0; 0x08001001] (hw_sample 5) 0x08000402 = None.
Proof.
  apply add_fpb_bkpt_overflow; [apply hw_sample_wf; lia|reflexivity|vm_compute; discriminate|vm_compute; reflexivity].
Defined.
