(* ===== verification/PatchCtx.v ===== *)
(** * The patch context (hotpatch/src/iotpatch.c)

    The two tables of installed patches, the Bloom filters in front of them,
    and the operations that install, find and remove patches.  Patches and
    their descriptors are heap objects that the tables, the loader and the
    service share: they are in stores by address, 0 being NULL.  The fixed
    table is the array map of [Hashmap], whose values are addresses of
    patches; the dynamic one is a list.  [None] is an access through a NULL or
    freed pointer, or undefined behaviour of an operation that is called. *)

From S2P Require Import Prelude Mem EbpfInst EbpfVm Vm Hashmap Fpb.

Definition MAX_DP_NUM : Z := 6.

(** enum PatchType *)
Definition FixedPatchPoint : Z := 1.
Definition DynamicPatchPoint : Z := 2.

(** The fields [fixed_id] and [inst_addr] are one union. *)
Record patch_desc := { pd_type : Z; pd_code_len : Z; pd_addr : Z; pd_code : list Z }.

Record ebpf_patch := { p_desc : Z; p_vm : option ebpf_vm; p_is_active : bool }.

Record dynamic_patch := { dp_patch : Z; dp_inst_addr : Z; dp_pc_addr : Z }.

Record patch_context := {
  fbits_filter : Z;
  fpatch_list : option arraymap;      (* None is NULL *)
  dbits_filter_bpkt : Z;
  dbits_filter_pc : Z;
  dpatch_list : list dynamic_patch }.

(** The module's variables, the heap, the helper tables and the hardware. *)
Record ctx_state := mk_ctx {
  pctx : patch_context;
  ctx_init : bool;
  patches : gmap Z ebpf_patch;
  descs : gmap Z patch_desc;
  helpers : helper_state;
  hw : hw_state }.

Definition with_pctx (s : ctx_state) (p : patch_context) : ctx_state :=
  mk_ctx p (ctx_init s) (patches s) (descs s) (helpers s) (hw s).
Definition with_patches (s : ctx_state) (m : gmap Z ebpf_patch) : ctx_state :=
  mk_ctx (pctx s) (ctx_init s) m (descs s) (helpers s) (hw s).
Definition with_descs (s : ctx_state) (m : gmap Z patch_desc) : ctx_state :=
  mk_ctx (pctx s) (ctx_init s) (patches s) m (helpers s) (hw s).
Definition with_helpers (s : ctx_state) (g : helper_state) : ctx_state :=
  mk_ctx (pctx s) (ctx_init s) (patches s) (descs s) g (hw s).
Definition with_hw (s : ctx_state) (h : hw_state) : ctx_state :=
  mk_ctx (pctx s) (ctx_init s) (patches s) (descs s) (helpers s) h.
Definition with_init (s : ctx_state) (b : bool) : ctx_state :=
  mk_ctx (pctx s) b (patches s) (descs s) (helpers s) (hw s).

Definition with_fbits (s : ctx_state) (f : Z) : ctx_state :=
  with_pctx s {| fbits_filter := f; fpatch_list := fpatch_list (pctx s);
                 dbits_filter_bpkt := dbits_filter_bpkt (pctx s); dbits_filter_pc := dbits_filter_pc (pctx s);
                 dpatch_list := dpatch_list (pctx s) |}.
Definition with_fixed (s : ctx_state) (m : option arraymap) : ctx_state :=
  with_pctx s {| fbits_filter := fbits_filter (pctx s); fpatch_list := m;
                 dbits_filter_bpkt := dbits_filter_bpkt (pctx s); dbits_filter_pc := dbits_filter_pc (pctx s);
                 dpatch_list := dpatch_list (pctx s) |}.
Definition with_dynamic (s : ctx_state) (l : list dynamic_patch) : ctx_state :=
  with_pctx s {| fbits_filter := fbits_filter (pctx s); fpatch_list := fpatch_list (pctx s);
                 dbits_filter_bpkt := dbits_filter_bpkt (pctx s); dbits_filter_pc := dbits_filter_pc (pctx s);
                 dpatch_list := l |}.

(** patch->desc *)
Definition desc_of (s : ctx_state) (patch : Z) : option patch_desc :=
  p ← patches s !! patch; descs s !! p_desc p.

Section Ctx.
Context (kstray vstray junk : Z -> Z).
Context (alloc_env : gmap Z ebpf_helper_env -> Z) (malloc_vm : option ebpf_vm) (iot : iot_helpers).
Context (alloc_patch : gmap Z ebpf_patch -> Z).
Context (REMAP_ADDR : Z) (FPB_Handler : list Z).

(** The bits of the active patches among the first [n] of the fixed table. *)
Fixpoint fixed_bits (s : ctx_state) (m : arraymap) (n : nat) (i acc : Z) : option Z :=
  match n with
  | O => Some acc
  | S n =>
      patch ← arraymap_iter_val vstray m i;
      if patch =? 0 then fixed_bits s m n (i + 1) acc
      else
        p ← patches s !! patch;
        if p_is_active p then
          d ← descs s !! p_desc p; fixed_bits s m n (i + 1) (acc .| pd_addr d)
        else fixed_bits s m n (i + 1) acc
  end.

Definition update_bits_filter (s : ctx_state) : option ctx_state :=
  m ← fpatch_list (pctx s);
  fbits ← fixed_bits s m (Z.to_nat (am_cur_size m)) 0 0;
  Some (with_pctx s
    {| fbits_filter := fbits; fpatch_list := fpatch_list (pctx s);
       dbits_filter_pc := fold_left (fun b dp => b .| dp_pc_addr dp) (dpatch_list (pctx s)) 0;
       dbits_filter_bpkt := fold_left (fun b dp => b .| dp_inst_addr dp) (dpatch_list (pctx s)) 0;
       dpatch_list := dpatch_list (pctx s) |}).

(** The address of the new patch; 0 when the vm cannot be allocated. *)
Definition ebpf_patch_setup (s : ctx_state) (desc : Z) : option (Z * ctx_state) :=
  d ← descs s !! desc;
  r ← init_ebpf_vm alloc_env malloc_vm iot (helpers s) (pd_code d) (pd_code_len d);
  match fst r with
  | None => Some (0, with_helpers s (snd r))
  | Some vm =>
      let patch := alloc_patch (patches s) in
      Some (patch, with_patches (with_helpers s (snd r))
              (<[patch := {| p_desc := desc; p_vm := Some vm; p_is_active := false |}]> (patches s)))
  end.

Definition active_patch (s : ctx_state) (patch : Z) : option ctx_state :=
  s ← update_bits_filter s;
  d ← desc_of s patch;
  s ← (if pd_type d =? FixedPatchPoint then Some (with_fbits s (fbits_filter (pctx s) .| pd_addr d))
       else if pd_type d =? DynamicPatchPoint then
         r ← add_hw_bkpt REMAP_ADDR FPB_Handler (hw s) (pd_addr d); Some (with_hw s (snd r))
       else Some s);
  p ← patches s !! patch;
  Some (with_patches s (<[patch := {| p_desc := p_desc p; p_vm := p_vm p; p_is_active := true |}]> (patches s))).

(** The search of the list: the nodes passed and the node that holds the
    address, if any. *)
Fixpoint find_dynamic (l : list dynamic_patch) (inst_addr : Z) : list dynamic_patch * option dynamic_patch :=
  match l with
  | [] => ([], None)
  | dp :: l =>
      if dp_inst_addr dp =? inst_addr then ([], Some dp)
      else let '(before, cur) := find_dynamic l inst_addr in (dp :: before, cur)
  end.

(** The node that is found, or the last one of a list that is too long, or a
    new node, is filled; its [next] is NULL. *)
Definition add_dynamic_patch_to_ctx (s : ctx_state) (patch : Z) : option ctx_state :=
  d ← desc_of s patch;
  let '(before, cur) := find_dynamic (dpatch_list (pctx s)) (pd_addr d) in
  let kept := match cur with
              | Some _ => before
              | None => if MAX_DP_NUM <? Z.of_nat (length before) then removelast before else before
              end in
  let inst_addr := calc_bpkt_addr (pd_addr d) in
  pc_addr ← calc_bpkt_pc (hw_mem (hw s)) inst_addr;
  Some (with_dynamic s (kept ++ [{| dp_patch := patch; dp_inst_addr := inst_addr; dp_pc_addr := pc_addr |}])).

Definition add_fixed_patch_to_ctx (s : ctx_state) (patch : Z) : option ctx_state :=
  m ← fpatch_list (pctx s);
  d ← desc_of s patch;
  r ← arraymap_set kstray vstray junk m (pd_addr d) patch;
  Some (with_fixed s (Some (snd r))).

Definition add_ebpf_patch (s : ctx_state) (desc : Z) : option (Z * ctx_state) :=
  r ← ebpf_patch_setup s desc;
  let '(patch, s) := r in
  d ← descs s !! desc;
  if pd_type d =? FixedPatchPoint then
    s ← add_fixed_patch_to_ctx s patch; Some (patch, s)
  else if pd_type d =? DynamicPatchPoint then
    let s := with_descs s (<[desc := {| pd_type := pd_type d; pd_code_len := pd_code_len d;
                                        pd_addr := pd_addr d .& not3; pd_code := pd_code d |}]> (descs s)) in
    s ← add_dynamic_patch_to_ctx s patch; Some (patch, s)
  else Some (patch, s).

Definition empty_context : patch_context :=
  {| fbits_filter := 0; fpatch_list := None; dbits_filter_bpkt := 0; dbits_filter_pc := 0; dpatch_list := [] |}.

Definition init_patch_sys (s : ctx_state) : option ctx_state :=
  if ctx_init s then Some s
  else
    let s := with_fixed (with_pctx s empty_context) (Some (arraymap_new junk 4)) in
    s ← update_bits_filter s;
    Some (with_init s true).

(** A patch is freed with its descriptor; freeing a freed one is [None]. *)
Definition destroy_ebpf_patch (s : ctx_state) (patch : Z) : option ctx_state :=
  if patch =? 0 then Some s
  else
    p ← patches s !! patch;
    _ ← descs s !! p_desc p;
    Some (with_patches (with_descs s (delete (p_desc p) (descs s))) (delete patch (patches s))).

Fixpoint destroy_dynamic (s : ctx_state) (l : list dynamic_patch) : option ctx_state :=
  match l with
  | [] => Some s
  | dp :: l => s ← destroy_ebpf_patch s (dp_patch dp); destroy_dynamic s l
  end.

Definition destroy_patch_context (s : ctx_state) : option ctx_state :=
  s ← destroy_dynamic (with_fixed s None) (dpatch_list (pctx s));
  let s := with_init (with_pctx s empty_context) false in
  h ← clear_all_hw_bkpt (hw s);
  Some (with_hw s h).

Definition notify_new_patch (s : ctx_state) (desc : Z) : option ctx_state :=
  r ← add_ebpf_patch s desc;
  active_patch (snd r) (fst r).

(** ** Finding a patch: its address, 0 for none *)

Definition get_fixed_patch_by_lr (s : ctx_state) (lr : Z) : option Z :=
  if negb (fbits_filter (pctx s) .& lr =? lr) then Some 0
  else
    m ← fpatch_list (pctx s);
    patch ← arraymap_get kstray vstray m lr;
    if patch =? 0 then Some 0
    else p ← patches s !! patch; Some (if p_is_active p then patch else 0).

(** The first node that passes the test and whose patch is active. *)
Fixpoint first_active (s : ctx_state) (test : dynamic_patch -> bool) (l : list dynamic_patch) : option Z :=
  match l with
  | [] => Some 0
  | dp :: l =>
      if test dp then
        p ← patches s !! dp_patch dp;
        if p_is_active p then Some (dp_patch dp) else first_active s test l
      else first_active s test l
  end.

Definition get_dynamic_patch_by_pc (s : ctx_state) (loc : Z) : option Z :=
  if negb (dbits_filter_pc (pctx s) .& loc =? loc) then Some 0
  else first_active s (fun dp => dp_pc_addr dp =? loc) (dpatch_list (pctx s)).

Definition get_dynamic_patch_by_bpkt (s : ctx_state) (loc : Z) : option Z :=
  if negb (dbits_filter_bpkt (pctx s) .& loc =? loc) then Some 0
  else first_active s (fun dp => dp_inst_addr dp =? loc) (dpatch_list (pctx s)).

Definition get_dynamic_patch_by_fpb (s : ctx_state) (fpb_addr : Z) : option Z :=
  let align_addr := fpb_addr .& not1 in
  if (dbits_filter_bpkt (pctx s) .& fpb_addr =? fpb_addr) || (dbits_filter_bpkt (pctx s) .& align_addr =? align_addr)
  then first_active s (fun dp => (dp_inst_addr dp =? fpb_addr) || (dp_inst_addr dp =? align_addr)) (dpatch_list (pctx s))
  else Some 0.

(** The first node of the list that holds this very patch is refreshed. *)
Fixpoint refresh_dynamic (mem : memory) (d : patch_desc) (patch : Z) (l : list dynamic_patch)
  : option (option (list dynamic_patch)) :=
  match l with
  | [] => Some None
  | dp :: l =>
      if dp_patch dp =? patch then
        let inst_addr := calc_bpkt_addr (pd_addr d) in
        pc_addr ← calc_bpkt_pc mem inst_addr;
        Some (Some ({| dp_patch := patch; dp_inst_addr := inst_addr; dp_pc_addr := pc_addr |} :: l))
      else
        r ← refresh_dynamic mem d patch l;
        Some (match r with Some l => Some (dp :: l) | None => None end)
  end.

Definition load_local_patch_to_ctx (s : ctx_state) (patch : Z) : option ctx_state :=
  d ← desc_of s patch;
  if pd_type d =? FixedPatchPoint then
    s ← add_fixed_patch_to_ctx s patch; active_patch s patch
  else if pd_type d =? DynamicPatchPoint then
    r ← refresh_dynamic (hw_mem (hw s)) d patch (dpatch_list (pctx s));
    s ← match r with
        | None => add_dynamic_patch_to_ctx s patch
        | Some l => Some (with_dynamic s l)
        end;
    active_patch s patch
  else Some s.

(** ** Running a patch *)

(** [call_jit f args len]: what the compiled code at [f] returns and does to
    memory; [call_ext] is the same for the helpers, as in [EbpfVm].  [stack] and [reg0] are
    the interpreter's frame. *)
Definition run_ebpf_filter (call_jit : Z -> Z -> Z -> memory -> option (Z * memory))
    (call_ext : Z -> list Z -> memory -> option (Z * memory)) (stack : Z) (reg0 : list Z)
    (s : ctx_state) (patch args args_size : Z) (m : memory) : option outcome :=
  p ← patches s !! patch;
  vm ← p_vm p;
  if use_jit vm then
    r ← call_jit (jit_func vm) args (u16 args_size) m; Some (Returned (u64 (fst r)) (snd r))
  else
    prog ← insts vm;
    e ← helper_envs (helpers s) !! helper_func vm;
    Some (ebpf_vm_exec call_ext (mk_env prog (bounds_check_enabled vm) (ext_funcs e) args args_size stack) reg0 m).
End Ctx.
