(* ===== verification/PatchCtxProps.v ===== *)
(** * Properties of the patch context

    The tables behind their filters: a lookup through the Bloom filter is the
    lookup in the table (no false negatives), installing a patch makes it
    found and keeps the others found, and what the list of dynamic patches
    loses. *)

From S2P Require Import Prelude Mem EbpfInst EbpfVm Vm Hashmap Fpb FpbProps PatchCtx.

(** ** The filters *)

(** The bits of [k] are set in the filter [f]. *)
Definition covers (f k : Z) : Prop := f .& k = k.

Lemma covers_bits (f k : Z) :
  covers f k <-> (forall i, 0 <= i -> Z.testbit k i = true -> Z.testbit f i = true).
Proof.
  unfold covers. split.
  - intros H i Hi Hk. rewrite <- H, Z.land_spec in Hk. by apply andb_true_iff in Hk as [? _].
  - intros H. apply Z.bits_inj'. intros i Hi. rewrite Z.land_spec.
    destruct (Z.testbit k i) eqn:E; [by rewrite H|apply andb_false_r].
Qed.

Lemma covers_lor_l (f g k : Z) : covers f k -> covers (f .| g) k.
Proof. rewrite !covers_bits. intros H i Hi Hk. by rewrite Z.lor_spec, H. Qed.

Lemma covers_lor_r (f g : Z) : covers (f .| g) g.
Proof. apply covers_bits. intros i Hi Hk. by rewrite Z.lor_spec, Hk, orb_true_r. Qed.

Lemma covers_test (f k : Z) : covers f k -> negb (f .& k =? k) = false.
Proof. intros ->. by rewrite Z.eqb_refl. Qed.

Create HintDb filters.
#[export] Hint Resolve covers_lor_l covers_lor_r : filters.

Lemma fold_covers_acc (g : dynamic_patch -> Z) (l : list dynamic_patch) (acc k : Z) :
  covers acc k -> covers (fold_left (fun b dp => b .| g dp) l acc) k.
Proof. revert acc. induction l as [|dp l IH]; intros acc H; cbn; [done|]. apply IH. by apply covers_lor_l. Qed.

Lemma fold_covers (g : dynamic_patch -> Z) (l : list dynamic_patch) (acc : Z) (dp : dynamic_patch) :
  In dp l -> covers (fold_left (fun b dp => b .| g dp) l acc) (g dp).
Proof.
  revert acc. induction l as [|x l IH]; intros acc; [done|]. intros [-> | Hin]; cbn.
  - apply fold_covers_acc, covers_lor_r.
  - by apply IH.
Qed.

(** ** The invariant *)

Definition active (s : ctx_state) (patch : Z) : bool :=
  match patches s !! patch with Some p => p_is_active p | None => false end.

(** The fixed table is sound: it maps an address to a patch whose descriptor
    has this address. *)
Definition fixed_ok (s : ctx_state) (m : arraymap) : Prop :=
  forall k patch, am_map m !! k = Some patch ->
    patch <> 0 /\ exists d, desc_of s patch = Some d /\ pd_addr d = k.

Definition dynamic_ok (s : ctx_state) : Prop :=
  forall dp, In dp (dpatch_list (pctx s)) -> is_Some (patches s !! dp_patch dp).

(** The filters cover what must be found. *)
Definition filters_ok (s : ctx_state) (m : arraymap) : Prop :=
  (forall k patch, am_map m !! k = Some patch -> active s patch = true -> covers (fbits_filter (pctx s)) k)
  /\ (forall dp, In dp (dpatch_list (pctx s)) ->
        covers (dbits_filter_bpkt (pctx s)) (dp_inst_addr dp) /\ covers (dbits_filter_pc (pctx s)) (dp_pc_addr dp)).

Record ctx_wf (s : ctx_state) (m : arraymap) : Prop := {
  wf_list : fpatch_list (pctx s) = Some m;
  wf_map : am_wf m;
  wf_fixed : fixed_ok s m;
  wf_dynamic : dynamic_ok s;
  wf_filters : filters_ok s m }.

(** What a lookup should answer: the patch of the table if it is active. *)
Definition fixed_patch_at (s : ctx_state) (m : arraymap) (lr : Z) : Z :=
  match am_map m !! lr with
  | Some patch => if active s patch then patch else 0
  | None => 0
  end.

Section Ctx.
Context (kstray vstray junk : Z -> Z).
Context (alloc_env : gmap Z ebpf_helper_env -> Z) (malloc_vm : option ebpf_vm) (iot : iot_helpers).
Context (alloc_patch : gmap Z ebpf_patch -> Z).
Context (REMAP_ADDR : Z) (FPB_Handler : list Z).

Lemma get_fixed_spec (s : ctx_state) (m : arraymap) (lr : Z) :
  ctx_wf s m -> get_fixed_patch_by_lr kstray vstray s lr = Some (fixed_patch_at s m lr).
Proof.
  intros [Hl Hm Hf _ [Hbits _]]. unfold get_fixed_patch_by_lr, fixed_patch_at. rewrite Hl.
  destruct (am_map m !! lr) as [patch|] eqn:E.
  - destruct (Hf lr patch E) as [Hne (d & Hd & _)]. unfold desc_of in Hd.
    destruct (patches s !! patch) as [p|] eqn:Ep; [|done].
    assert (active s patch = p_is_active p) as Ha by (unfold active; by rewrite Ep). rewrite Ha.
    destruct (negb _) eqn:En.
    + destruct (p_is_active p) eqn:Eact; [|done]. by rewrite (covers_test _ _ (Hbits lr patch E Ha)) in En.
    + cbn [mbind option_bind]. rewrite (arraymap_get_spec _ _ m lr Hm), E. cbn [mbind option_bind default].
      change (id patch) with patch.
      destruct (Z.eqb_spec patch 0); [done|]. by rewrite Ep.
  - destruct (negb _); [done|]. cbn [mbind option_bind]. by rewrite (arraymap_get_spec _ _ m lr Hm), E.
Qed.

(** C8: looking up a fixed patch through the Bloom filter and the table is
    exact: it answers the active patch installed at the address when there is
    one, and NULL otherwise; the filter has no false negatives. *)
Theorem get_fixed_patch_exact (s : ctx_state) (m : arraymap) (lr : Z) :
  ctx_wf s m -> get_fixed_patch_by_lr kstray vstray s lr = Some (fixed_patch_at s m lr).
Proof. exact (get_fixed_spec s m lr). Qed.

(** *** The filter of the fixed table *)

Lemma fixed_bits_acc (s : ctx_state) (m : arraymap) (n : nat) : forall i acc f k,
  fixed_bits vstray s m n i acc = Some f -> covers acc k -> covers f k.
Proof.
  induction n as [|n IH]; intros i acc f k; cbn [fixed_bits]; [by intros [= <-]|].
  destruct (arraymap_iter_val vstray m i) as [patch|]; [|done]. cbn [mbind option_bind].
  destruct (patch =? 0); [apply IH|]. destruct (patches s !! patch) as [p|]; [|done]. cbn [mbind option_bind].
  destruct (p_is_active p); [|apply IH]. destruct (descs s !! p_desc p) as [d|]; [|done]. cbn [mbind option_bind].
  intros Hf Hc. eapply IH; [exact Hf|by apply covers_lor_l].
Qed.

(** The values of the table, index by index, are patches of the store. *)
Definition vals_ok (s : ctx_state) (m : arraymap) : Prop :=
  forall i v, 0 <= i < am_cur_size m -> zget (am_vals m) i = Some v -> exists d, desc_of s v = Some d.

Lemma fixed_ok_vals (s : ctx_state) (m : arraymap) : am_wf m -> fixed_ok s m -> vals_ok s m.
Proof.
  intros Hm Hf i v Hi Hv. destruct (zget_is_Some (am_keys m) i) as [k Hk]; [destruct Hm; lia|].
  assert (am_map m !! k = Some v) as E by (apply am_map_lookup; eauto).
  destruct (Hf k v E) as [_ (d & Hd & _)]. eauto.
Qed.

Lemma fixed_bits_spec (s : ctx_state) (m : arraymap) (n : nat) : forall i acc,
  am_wf m -> vals_ok s m -> 0 <= i -> i + Z.of_nat n <= am_cur_size m ->
  exists f, fixed_bits vstray s m n i acc = Some f
    /\ forall j v d, i <= j < i + Z.of_nat n -> zget (am_vals m) j = Some v -> v <> 0 -> desc_of s v = Some d ->
         active s v = true -> covers f (pd_addr d).
Proof.
  induction n as [|n IH]; intros i acc Hm Hv Hi Hn; cbn [fixed_bits].
  { exists acc. split; [done|]. intros j v d Hj. lia. }
  destruct (am_vals_get vstray m i Hm ltac:(lia)) as (v & Hvi & Hrd).
  assert (arraymap_iter_val vstray m i = Some v) as ->.
  { unfold arraymap_iter_val. destruct (Z.ltb_spec i 0), (Z.leb_spec (am_cur_size m) i); (lia || done). }
  cbn [mbind option_bind]. destruct (Hv i v ltac:(lia) Hvi) as [d Hd]. unfold desc_of in Hd.
  assert (forall acc f, fixed_bits vstray s m n (i + 1) acc = Some f ->
    (active s v = true -> v <> 0 -> covers acc (pd_addr d)) ->
    (forall j w d0, i + 1 <= j < i + 1 + Z.of_nat n -> zget (am_vals m) j = Some w -> w <> 0 -> desc_of s w = Some d0 ->
       active s w = true -> covers f (pd_addr d0)) ->
    forall j w d0, i <= j < i + Z.of_nat (S n) -> zget (am_vals m) j = Some w -> w <> 0 -> desc_of s w = Some d0 ->
       active s w = true -> covers f (pd_addr d0)) as Hstep.
  { intros acc' f Hf Hcov Hrest j w d0 Hj Hw Hne Hd0 Ha. destruct (decide (j = i)) as [->|].
    - assert (w = v) as -> by congruence. assert (d0 = d) as -> by (unfold desc_of in Hd0; congruence).
      eapply fixed_bits_acc; [exact Hf|by apply Hcov].
    - eapply Hrest; eauto. lia. }
  destruct (Z.eqb_spec v 0) as [->|Hne].
  { destruct (IH (i + 1) acc Hm Hv ltac:(lia) ltac:(lia)) as (f & Hf & Hr). exists f. split; [done|].
    eapply Hstep; [exact Hf|done|exact Hr]. }
  destruct (patches s !! v) as [p|] eqn:Ep; [|done]. cbn [mbind option_bind] in *.
  assert (active s v = p_is_active p) as Ha by (unfold active; by rewrite Ep).
  destruct (p_is_active p).
  - rewrite Hd. cbn [mbind option_bind].
    destruct (IH (i + 1) (acc .| pd_addr d) Hm Hv ltac:(lia) ltac:(lia)) as (f & Hf & Hr). exists f. split; [done|].
    eapply Hstep; [exact Hf|intros; apply covers_lor_r|exact Hr].
  - destruct (IH (i + 1) acc Hm Hv ltac:(lia) ltac:(lia)) as (f & Hf & Hr). exists f. split; [done|].
    eapply Hstep; [exact Hf|congruence|exact Hr].
Qed.

(** update_bits_filter never fails on sound tables and makes the filters
    cover them; it changes nothing else. *)
Lemma update_bits_filter_spec (s : ctx_state) (m : arraymap) :
  fpatch_list (pctx s) = Some m -> am_wf m -> fixed_ok s m ->
  exists f pc bp, update_bits_filter vstray s = Some (with_pctx s
      {| fbits_filter := f; fpatch_list := Some m; dbits_filter_bpkt := bp; dbits_filter_pc := pc;
         dpatch_list := dpatch_list (pctx s) |})
    /\ filters_ok (with_pctx s
      {| fbits_filter := f; fpatch_list := Some m; dbits_filter_bpkt := bp; dbits_filter_pc := pc;
         dpatch_list := dpatch_list (pctx s) |}) m.
Proof.
  intros Hl Hm Hf. unfold update_bits_filter. rewrite Hl. cbn [mbind option_bind].
  destruct (fixed_bits_spec s m (Z.to_nat (am_cur_size m)) 0 0 Hm (fixed_ok_vals s m Hm Hf)) as (f & -> & Hcov);
    [lia|destruct Hm; lia|].
  cbn [mbind option_bind]. do 3 eexists. split; [reflexivity|]. split.
  - intros k patch E Ha. destruct (Hf k patch E) as [Hne (d & Hd & <-)].
    pose proof E as E'. apply am_map_lookup in E' as (i & Hi & _ & Hv); [|done].
    eapply (Hcov i patch d); [destruct Hm; lia|done..].
  - intros dp Hin. cbn. split.
    + by apply (fold_covers dp_inst_addr).
    + by apply (fold_covers dp_pc_addr).
Qed.
(** *** Activating a patch *)

(** What activation leaves: sound tables and filters, the same tables, the
    patch marked active. *)
Definition activated (s s' : ctx_state) (m : arraymap) (patch : Z) (p : ebpf_patch) : Prop :=
  ctx_wf s' m /\ dpatch_list (pctx s') = dpatch_list (pctx s) /\ descs s' = descs s
  /\ patches s' = <[patch := {| p_desc := p_desc p; p_vm := p_vm p; p_is_active := true |}]> (patches s).

Lemma desc_of_activated (s s' : ctx_state) (patch q : Z) (p : ebpf_patch) :
  descs s' = descs s -> patches s !! patch = Some p ->
  patches s' = <[patch := {| p_desc := p_desc p; p_vm := p_vm p; p_is_active := true |}]> (patches s) ->
  desc_of s' q = desc_of s q.
Proof.
  intros Hd Hp Hps. unfold desc_of. rewrite Hps, Hd. destruct (decide (q = patch)) as [->|Hne].
  - by rewrite lookup_insert_eq, Hp.
  - by rewrite lookup_insert_ne.
Qed.

Lemma active_patch_spec (s : ctx_state) (m : arraymap) (patch : Z) (p : ebpf_patch) (d : patch_desc) (h' : hw_state) (i : Z) :
  fpatch_list (pctx s) = Some m -> am_wf m -> fixed_ok s m -> dynamic_ok s ->
  patches s !! patch = Some p -> descs s !! p_desc p = Some d ->
  (pd_type d = FixedPatchPoint /\ h' = hw s
   \/ pd_type d = DynamicPatchPoint /\ add_hw_bkpt REMAP_ADDR FPB_Handler (hw s) (pd_addr d) = Some (i, h')
      /\ forall k, am_map m !! k <> Some patch) ->
  exists s', active_patch vstray REMAP_ADDR FPB_Handler s patch = Some s' /\ activated s s' m patch p /\ hw s' = h'.
Proof.
  intros Hl Hm Hf Hdyn Hp Hd Htype. unfold active_patch.
  destruct (update_bits_filter_spec s m Hl Hm Hf) as (f & pc & bp & -> & Hfil).
  cbn [mbind option_bind]. unfold desc_of. cbn [patches descs with_pctx pctx]. rewrite Hp. cbn [mbind option_bind].
  rewrite Hd. cbn [mbind option_bind].
  set (s0 := with_pctx s _) in *. set (p' := {| p_desc := p_desc p; p_vm := p_vm p; p_is_active := true |}).
  assert (forall s2, patches s2 = patches s -> descs s2 = descs s -> fpatch_list (pctx s2) = Some m ->
    dpatch_list (pctx s2) = dpatch_list (pctx s) -> dbits_filter_bpkt (pctx s2) = bp -> dbits_filter_pc (pctx s2) = pc ->
    (forall k, covers f k -> covers (fbits_filter (pctx s2)) k) ->
    (forall k, am_map m !! k = Some patch -> covers (fbits_filter (pctx s2)) k) ->
    activated s (with_patches s2 (<[patch := p']> (patches s2))) m patch p) as Hfinal.
  { intros s2 H1 H2 H3 H4 H5 H6 H7 H8. split; [|split; [exact H4|split; [exact H2|cbn; by rewrite H1]]].
    assert (forall q, desc_of (with_patches s2 (<[patch := p']> (patches s2))) q = desc_of s q) as Hdesc.
    { intros q. apply (desc_of_activated s _ patch q p); [exact H2|done|cbn; by rewrite H1]. }
    split; [exact H3|done| | |split].
    - intros k q E. destruct (Hf k q E) as [Hne Hq]. split; [done|]. by rewrite Hdesc.
    - intros dp Hin. cbn in Hin. rewrite H4 in Hin. cbn [patches with_patches]. rewrite H1.
      destruct (decide (dp_patch dp = patch)) as [->|]; [rewrite lookup_insert_eq; eauto|].
      rewrite lookup_insert_ne by done. by apply Hdyn.
    - intros k q E Ha. cbn [pctx with_patches]. destruct (decide (q = patch)) as [->|Hne]; [by apply H8|].
      apply H7. apply (proj1 Hfil k q E). unfold active in *. cbn [patches with_patches] in Ha.
      by rewrite lookup_insert_ne, H1 in Ha by done.
    - intros dp Hin. cbn [pctx with_patches] in *. rewrite H4 in Hin. rewrite H5, H6. by apply (proj2 Hfil dp). }
  destruct Htype as [[-> ->] | (-> & Hadd & Hno)].
  - change (FixedPatchPoint =? FixedPatchPoint) with true. cbv iota. cbn [mbind option_bind].
    cbn [patches with_fbits with_pctx s0]. rewrite Hp. cbn [mbind option_bind].
    eexists. split; [reflexivity|]. split; [|done].
    apply (Hfinal (with_fbits s0 (f .| pd_addr d))); try done.
    + intros k Hc. by apply covers_lor_l.
    + intros k E. destruct (Hf k patch E) as [_ (d0 & Hd0 & <-)]. unfold desc_of in Hd0. rewrite Hp in Hd0. cbn in Hd0.
      rewrite Hd in Hd0. injection Hd0 as <-. apply covers_lor_r.
  - change (DynamicPatchPoint =? FixedPatchPoint) with false.
    change (DynamicPatchPoint =? DynamicPatchPoint) with true. cbv iota.
    change (hw s0) with (hw s). rewrite Hadd. cbn [mbind option_bind snd].
    cbn [patches with_hw with_pctx s0]. rewrite Hp. cbn [mbind option_bind].
    eexists. split; [reflexivity|]. split; [|done].
    apply (Hfinal (with_hw s0 h')); try done.
    intros k E. by destruct (Hno k).
Qed.

(** *** Setting a patch up *)
Hypothesis alloc_env_nonzero : forall e, alloc_env e <> 0.
Hypothesis alloc_patch_fresh : forall ps, alloc_patch ps <> 0 /\ ps !! alloc_patch ps = None.

Lemma ebpf_patch_setup_spec (s : ctx_state) (desc : Z) (d : patch_desc) :
  descs s !! desc = Some d -> malloc_vm <> None -> helpers_wf (helpers s) ->
  exists vm g, ebpf_patch_setup alloc_env malloc_vm iot alloc_patch s desc =
    Some (alloc_patch (patches s),
          with_patches (with_helpers s g)
            (<[alloc_patch (patches s) := {| p_desc := desc; p_vm := Some vm; p_is_active := false |}]> (patches s))).
Proof.
  intros Hd Hm Hg. unfold ebpf_patch_setup. rewrite Hd. cbn [mbind option_bind]. unfold init_ebpf_vm.
  destruct malloc_vm as [vm0|]; [|done].
  destruct (init_iot_ebpf_helpers_spec alloc_env iot alloc_env_nonzero (with_code vm0 (pd_code d) (pd_code_len d)) (helpers s) Hg)
    as (q & e & fs & g & -> & _).
  cbn [mbind option_bind fst snd]. eexists _, _. reflexivity.
Qed.

(** The tables stay sound when a patch that no table refers to is stored. *)
Lemma fixed_ok_fresh (s s' : ctx_state) (m : arraymap) (patch : Z) (p : ebpf_patch) :
  fixed_ok s m -> patches s !! patch = None -> descs s' = descs s -> patches s' = <[patch := p]> (patches s) ->
  fixed_ok s' m.
Proof.
  intros Hf Hnone Hd Hp k q E. destruct (Hf k q E) as [Hne (d & Hq & Ha)]. split; [done|]. exists d. split; [|done].
  unfold desc_of in *. rewrite Hd, Hp. destruct (decide (q = patch)) as [->|]; [by rewrite Hnone in Hq|].
  by rewrite lookup_insert_ne.
Qed.

Lemma dynamic_ok_fresh (s s' : ctx_state) (patch : Z) (p : ebpf_patch) :
  dynamic_ok s -> patches s' = <[patch := p]> (patches s) ->
  dpatch_list (pctx s') = dpatch_list (pctx s) -> dynamic_ok s'.
Proof.
  intros H Hp Hl dp Hin. rewrite Hl in Hin. rewrite Hp. destruct (decide (dp_patch dp = patch)) as [->|].
  - rewrite lookup_insert_eq. eauto.
  - rewrite lookup_insert_ne by done. by apply H.
Qed.
(** A downloaded fixed patch is installed. *)
Lemma notify_new_fixed_spec (s : ctx_state) (m : arraymap) (desc : Z) (d : patch_desc) :
  ctx_wf s m -> descs s !! desc = Some d -> pd_type d = FixedPatchPoint ->
  malloc_vm <> None -> helpers_wf (helpers s) ->
  am_max_size m + MAP_GROW < 2 ^ 16 -> placeable kstray m (pd_addr d) ->
  exists s' m' patch,
    notify_new_patch kstray vstray junk alloc_env malloc_vm iot alloc_patch REMAP_ADDR FPB_Handler s desc = Some s'
    /\ ctx_wf s' m' /\ desc_of s' patch = Some d
    /\ get_fixed_patch_by_lr kstray vstray s' (pd_addr d) = Some patch
    /\ forall lr, lr <> pd_addr d ->
         get_fixed_patch_by_lr kstray vstray s' lr = get_fixed_patch_by_lr kstray vstray s lr.
Proof.
  intros Hwf Hd Ht Hm Hg Hgrow Hplace. pose proof Hwf as [Hl Ham Hf Hdyn _].
  destruct (alloc_patch_fresh (patches s)) as [Hne Hfresh]. set (patch := alloc_patch (patches s)) in *.
  destruct (ebpf_patch_setup_spec s desc d Hd Hm Hg) as (vm & g & Hsetup). fold patch in Hsetup.
  set (p := {| p_desc := desc; p_vm := Some vm; p_is_active := false |}) in *.
  set (s1 := with_patches _ _) in Hsetup.
  destruct (arraymap_set_spec kstray vstray junk m (pd_addr d) patch Ham Hgrow Hplace) as (r & m' & Hset & Ham' & Hmap).
  set (s2 := with_fixed s1 (Some m')).
  assert (patches s2 !! patch = Some p) as Hp by apply lookup_insert_eq.
  assert (fixed_ok s2 m') as Hf2.
  { intros k q E. rewrite Hmap in E. apply lookup_insert_Some in E as [[<- <-] | [Hk E]].
    - split; [done|]. exists d. unfold desc_of. rewrite Hp. split; [exact Hd|done].
    - refine (fixed_ok_fresh s s2 m patch p Hf Hfresh eq_refl eq_refl k q E). }
  assert (dynamic_ok s2) as Hdyn2 by (by apply (dynamic_ok_fresh s s2 patch p)).
  destruct (active_patch_spec s2 m' patch p d (hw s2) 0 eq_refl Ham' Hf2 Hdyn2 Hp Hd (or_introl (conj Ht eq_refl)))
    as (s' & Hact & (Hwf' & _ & Hds & Hps) & _).
  exists s', m', patch.
  split.
  { unfold notify_new_patch, add_ebpf_patch. rewrite Hsetup. cbn [mbind option_bind].
    change (descs s1) with (descs s). rewrite Hd. cbn [mbind option_bind]. rewrite Ht.
    change (FixedPatchPoint =? FixedPatchPoint) with true. cbv iota. unfold add_fixed_patch_to_ctx.
    change (fpatch_list (pctx s1)) with (fpatch_list (pctx s)). rewrite Hl. cbn [mbind option_bind].
    assert (desc_of s1 patch = Some d) as ->.
    { unfold desc_of. change (patches s1 !! patch) with (patches s2 !! patch). rewrite Hp. exact Hd. }
    cbn [mbind option_bind]. rewrite Hset. cbn [mbind option_bind snd fst]. exact Hact. }
  split; [done|]. assert (patches s' !! patch = Some {| p_desc := p_desc p; p_vm := p_vm p; p_is_active := true |}) as Hp'
    by (rewrite Hps; apply lookup_insert_eq).
  split; [unfold desc_of; rewrite Hp', Hds; exact Hd|].
  assert (forall q, q <> patch -> active s' q = active s q) as Hact'.
  { intros q Hq. unfold active. rewrite Hps. cbn [patches s2 s1 with_fixed with_pctx with_patches].
    by rewrite !lookup_insert_ne by done. }
  split.
  - rewrite (get_fixed_spec s' m') by done. unfold fixed_patch_at. rewrite Hmap, lookup_insert_eq.
    unfold active. by rewrite Hp'.
  - intros lr Hlr. rewrite (get_fixed_spec s' m'), (get_fixed_spec s m) by done. unfold fixed_patch_at.
    rewrite Hmap, lookup_insert_ne by done. destruct (am_map m !! lr) as [q|] eqn:E; [|done].
    rewrite Hact'; [done|]. intros ->. destruct (Hf lr patch E) as [_ (d0 & Hd0 & _)].
    unfold desc_of in Hd0. by rewrite Hfresh in Hd0.
Qed.

(** C9: a downloaded fixed patch is installed when the table can place its
    address, that is when the table is empty or the address is above its first
    one (and is not by chance the word after the table), and the table has
    fewer than 2^16 - MAP_GROW places: it is then the patch found at its
    address, every other address finds what it found before, and the tables
    and filters are again sound.  (Below the first address of the table the
    map itself goes wrong: [arraymap_set_not_above_first].) *)
Theorem notify_new_fixed_patch (s : ctx_state) (m : arraymap) (desc : Z) (d : patch_desc) :
  ctx_wf s m -> descs s !! desc = Some d -> pd_type d = FixedPatchPoint ->
  malloc_vm <> None -> helpers_wf (helpers s) ->
  am_max_size m + MAP_GROW < 2 ^ 16 -> placeable kstray m (pd_addr d) ->
  exists s' m' patch,
    notify_new_patch kstray vstray junk alloc_env malloc_vm iot alloc_patch REMAP_ADDR FPB_Handler s desc = Some s'
    /\ ctx_wf s' m' /\ desc_of s' patch = Some d
    /\ get_fixed_patch_by_lr kstray vstray s' (pd_addr d) = Some patch
    /\ forall lr, lr <> pd_addr d ->
         get_fixed_patch_by_lr kstray vstray s' lr = get_fixed_patch_by_lr kstray vstray s lr.
Proof. exact (notify_new_fixed_spec s m desc d). Qed.

(** *** The list of dynamic patches *)

Lemma find_dynamic_spec (l : list dynamic_patch) (a : Z) :
  let '(before, cur) := find_dynamic l a in
  (forall dp, In dp before -> dp_inst_addr dp <> a)
  /\ match cur with
     | Some dp => dp_inst_addr dp = a /\ exists after, l = before ++ dp :: after
     | None => l = before
     end.
Proof.
  induction l as [|x l IH]; cbn [find_dynamic]; [done|].
  destruct (Z.eqb_spec (dp_inst_addr x) a) as [Heq | Hne].
  - split; [done|]. split; [done|]. by exists l.
  - destruct (find_dynamic l a) as [before cur]. destruct IH as [Hb Hc]. split.
    + intros dp [<- | Hin]; [done|by apply Hb].
    + destruct cur as [dp|]; [|by subst]. destruct Hc as [Ha [after ->]]. split; [done|]. by exists after.
Qed.

Lemma find_dynamic_app (before after : list dynamic_patch) (dp : dynamic_patch) :
  (forall x, In x before -> dp_inst_addr x <> dp_inst_addr dp) ->
  find_dynamic (before ++ dp :: after) (dp_inst_addr dp) = (before, Some dp).
Proof.
  induction before as [|x l IH]; intros Hb; cbn [app find_dynamic].
  - by rewrite Z.eqb_refl.
  - destruct (Z.eqb_spec (dp_inst_addr x) (dp_inst_addr dp)) as [Heq | _].
    + by destruct (Hb x (or_introl eq_refl)).
    + rewrite IH; [done|]. intros y Hy. apply Hb. by right.
Qed.

Lemma find_dynamic_none (l : list dynamic_patch) (a : Z) :
  (forall x, In x l -> dp_inst_addr x <> a) -> find_dynamic l a = (l, None).
Proof.
  induction l as [|x l IH]; intros Hl; cbn [find_dynamic]; [done|].
  destruct (Z.eqb_spec (dp_inst_addr x) a) as [Heq | _]; [by destruct (Hl x (or_introl eq_refl))|].
  rewrite IH; [done|]. intros y Hy. apply Hl. by right.
Qed.

(** Installing a dynamic patch at an address that is already patched cuts
    the list after that node: every patch after it is no longer in the list,
    although its breakpoint stays set. *)
Theorem add_dynamic_patch_truncates (s s' : ctx_state) (patch : Z) (d : patch_desc)
    (before after : list dynamic_patch) (dp : dynamic_patch) :
  desc_of s patch = Some d -> dpatch_list (pctx s) = before ++ dp :: after ->
  dp_inst_addr dp = pd_addr d -> (forall x, In x before -> dp_inst_addr x <> dp_inst_addr dp) ->
  add_dynamic_patch_to_ctx s patch = Some s' ->
  exists pc, dpatch_list (pctx s') =
    before ++ [{| dp_patch := patch; dp_inst_addr := calc_bpkt_addr (pd_addr d); dp_pc_addr := pc |}].
Proof.
  intros Hd Hl Ha Hb Hadd. unfold add_dynamic_patch_to_ctx in Hadd. rewrite Hd in Hadd. cbn [mbind option_bind] in Hadd.
  rewrite <- Ha, Hl, find_dynamic_app in Hadd by done.
  destruct (calc_bpkt_pc _ _) as [pc|]; [|done]. cbn [mbind option_bind] in Hadd. injection Hadd as <-.
  exists pc. by rewrite <- Ha.
Qed.

Lemma length_removelast {A} (l : list A) : length (removelast l) = pred (length l).
Proof.
  induction l as [|x l IH]; [done|]. destruct l as [|y l]; [done|].
  change (removelast (x :: y :: l)) with (x :: removelast (y :: l)). cbn [length]. rewrite IH. done.
Qed.

(** The list of dynamic patches is bounded, by seven nodes: a seventh
    address still gets a node of its own, one more than the MAX_DP_NUM (and the
    breakpoints of the hardware) the warning of the code speaks of; from then
    on the last node is overwritten. *)
Theorem dynamic_list_bound (s s' : ctx_state) (patch : Z) (d : patch_desc) :
  desc_of s patch = Some d -> add_dynamic_patch_to_ctx s patch = Some s' ->
  (Z.of_nat (length (dpatch_list (pctx s))) <= MAX_DP_NUM + 1 ->
   Z.of_nat (length (dpatch_list (pctx s'))) <= MAX_DP_NUM + 1)
  /\ ((forall dp, In dp (dpatch_list (pctx s)) -> dp_inst_addr dp <> pd_addr d) ->
      Z.of_nat (length (dpatch_list (pctx s'))) =
      if Z.of_nat (length (dpatch_list (pctx s))) <=? MAX_DP_NUM
      then Z.of_nat (length (dpatch_list (pctx s))) + 1 else Z.of_nat (length (dpatch_list (pctx s)))).
Proof.
  intros Hd Hadd. unfold add_dynamic_patch_to_ctx in Hadd. rewrite Hd in Hadd. cbn [mbind option_bind] in Hadd.
  pose proof (find_dynamic_spec (dpatch_list (pctx s)) (pd_addr d)) as Hspec.
  destruct (find_dynamic (dpatch_list (pctx s)) (pd_addr d)) as [before cur] eqn:Hfind. destruct Hspec as [Hb Hc].
  destruct (calc_bpkt_pc _ _) as [pc|]; [|done]. cbn [mbind option_bind] in Hadd. injection Hadd as <-.
  cbn [dpatch_list pctx with_dynamic with_pctx]. rewrite length_app. cbn [length]. unfold MAX_DP_NUM. split.
  - intros Hlen. destruct cur as [dp|].
    + destruct Hc as [_ [after Hl]]. rewrite Hl, length_app in Hlen. cbn [length] in Hlen. lia.
    + rewrite Hc in Hlen. destruct (Z.ltb_spec 6 (Z.of_nat (length before))); [rewrite length_removelast|]; lia.
  - intros Hno. rewrite find_dynamic_none in Hfind by done. injection Hfind as <- <-.
    destruct (Z.ltb_spec 6 (Z.of_nat (length (dpatch_list (pctx s))))), (Z.leb_spec (Z.of_nat (length (dpatch_list (pctx s)))) 6);
      rewrite ?length_removelast; lia.
Qed.
Lemma in_removelast {A} (x : A) (l : list A) : In x (removelast l) -> In x l.
Proof.
  induction l as [|y l IH]; [done|]. destruct l as [|z l]; [done|].
  change (removelast (y :: z :: l)) with (y :: removelast (z :: l)). intros [-> | H]; [by left|right; by apply IH].
Qed.

(** What is left of the list when a patch is added, and where it goes. *)
Definition kept_nodes (l : list dynamic_patch) (a : Z) : list dynamic_patch :=
  let '(before, cur) := find_dynamic l a in
  match cur with
  | Some _ => before
  | None => if MAX_DP_NUM <? Z.of_nat (length before) then removelast before else before
  end.

Lemma kept_nodes_spec (l : list dynamic_patch) (a : Z) (dp : dynamic_patch) :
  In dp (kept_nodes l a) -> In dp l /\ dp_inst_addr dp <> a.
Proof.
  unfold kept_nodes. pose proof (find_dynamic_spec l a) as Hs. destruct (find_dynamic l a) as [before cur].
  destruct Hs as [Hb Hc]. intros Hin.
  assert (In dp before) as Hin'.
  { destruct cur; [done|]. destruct (_ <? _); [by apply in_removelast|done]. }
  split; [|by apply Hb]. destruct cur; [|by subst]. destruct Hc as [_ [after ->]]. apply in_or_app. by left.
Qed.

(** A node is added after those. *)
Lemma add_dynamic_kept (s : ctx_state) (patch : Z) (d : patch_desc) (pc : Z) :
  desc_of s patch = Some d -> calc_bpkt_pc (hw_mem (hw s)) (calc_bpkt_addr (pd_addr d)) = Some pc ->
  add_dynamic_patch_to_ctx s patch = Some (with_dynamic s (kept_nodes (dpatch_list (pctx s)) (pd_addr d) ++
    [{| dp_patch := patch; dp_inst_addr := calc_bpkt_addr (pd_addr d); dp_pc_addr := pc |}])).
Proof.
  intros Hd Hpc. unfold add_dynamic_patch_to_ctx, kept_nodes. rewrite Hd. cbn [mbind option_bind].
  destruct (find_dynamic _ _) as [before cur]. by rewrite Hpc.
Qed.

Lemma first_active_skip (s : ctx_state) (test : dynamic_patch -> bool) (l l' : list dynamic_patch) :
  (forall dp, In dp l -> test dp = false) -> first_active s test (l ++ l') = first_active s test l'.
Proof.
  induction l as [|x l IH]; intros Hl; [done|]. cbn [app first_active]. rewrite (Hl x) by (by left).
  apply IH. intros dp Hdp. apply Hl. by right.
Qed.

Lemma active_patch_rest (s s' : ctx_state) (patch : Z) :
  active_patch vstray REMAP_ADDR FPB_Handler s patch = Some s' -> helpers s' = helpers s /\ ctx_init s' = ctx_init s.
Proof.
  unfold active_patch. destruct (update_bits_filter vstray s) as [s1|] eqn:E; [|done]. cbn [mbind option_bind].
  assert (helpers s1 = helpers s /\ ctx_init s1 = ctx_init s) as [<- <-].
  { revert E. unfold update_bits_filter. destruct (fpatch_list _); [|done]. cbn [mbind option_bind].
    destruct (fixed_bits _ _ _ _ _); [|done]. cbn [mbind option_bind]. by intros [= <-]. }
  destruct (desc_of s1 patch) as [d|]; [|done]. cbn [mbind option_bind].
  destruct (_ =? _); [|destruct (_ =? _); [destruct (add_hw_bkpt _ _ _ _); [|done]|]]; cbn [mbind option_bind];
    destruct (patches _ !! patch); try done; cbn [mbind option_bind]; by intros [= <-].
Qed.

(** A patch with a node in the list, the first one of its address, is found
    once it is active, and has its comparator. *)
Lemma dynamic_installed (s : ctx_state) (m : arraymap) (patch : Z) (p : ebpf_patch) (d : patch_desc)
    (before after : list dynamic_patch) (node : dynamic_patch) :
  fpatch_list (pctx s) = Some m -> am_wf m -> fixed_ok s m -> dynamic_ok s -> (forall k, am_map m !! k <> Some patch) ->
  patches s !! patch = Some p -> descs s !! p_desc p = Some d -> pd_type d = DynamicPatchPoint -> 0 <= pd_addr d < 0x20000000 ->
  hw_wf (hw s) -> REMAP_active REMAP_ADDR (hw s) = Some 0 ->
  dpatch_list (pctx s) = before ++ node :: after -> dp_patch node = patch ->
  (forall dp, In dp before -> dp_inst_addr dp <> dp_inst_addr node) ->
  exists s', active_patch vstray REMAP_ADDR FPB_Handler s patch = Some s' /\ activated s s' m patch p
    /\ get_dynamic_patch_by_bpkt s' (dp_inst_addr node) = Some patch
    /\ (exists i, 0 <= i < 6 /\ get_comp (hw s') i = Some (bkpt_comp (pd_addr d)))
    /\ (exists i, forall j, j <> i -> get_comp (hw s') j = get_comp (hw s) j)
    /\ hw_wf (hw s') /\ hw_mem (hw s') = hw_mem (hw s) /\ helpers s' = helpers s /\ ctx_init s' = ctx_init s
    /\ forall lr, fixed_patch_at s' m lr = fixed_patch_at s m lr.
Proof.
  intros Hl Ham Hf Hdyn Hno Hp Hd Ht Ha Hhw Hmon Hlist Hnode Hb.
  destruct (add_hw_bkpt_monitor REMAP_ADDR FPB_Handler (hw s) (pd_addr d) Hhw Ha Hmon) as (i & h' & Hadd & Hwf' & Hi & Hcomp & Hothers & _).
  pose proof (add_hw_bkpt_mem _ _ _ _ _ _ (proj2 Ha) Hmon Hadd) as Hmem.
  destruct (active_patch_spec s m patch p d h' i Hl Ham Hf Hdyn Hp Hd (or_intror (conj Ht (conj Hadd Hno))))
    as (s' & Hact & Hav & Hhw').
  pose proof (active_patch_rest s s' patch Hact) as [Hg Hin]. pose proof Hav as (Hwf & Hlist' & _ & Hps).
  exists s'. rewrite Hhw'. split; [exact Hact|]. split; [exact Hav|]. split; [|split; [by exists i|split; [by exists i|do 4 (split; [done|])]]].
  unfold get_dynamic_patch_by_bpkt. rewrite Hlist', Hlist. rewrite covers_test.
  - rewrite first_active_skip.
    + cbn [first_active]. rewrite Z.eqb_refl, Hnode, Hps, lookup_insert_eq. reflexivity.
    + intros dp Hin'. by apply Z.eqb_neq, Hb.
  - apply (proj2 (wf_filters s' m Hwf) node). rewrite Hlist', Hlist. apply in_or_app. right. by left.
  - intros lr. unfold fixed_patch_at. destruct (am_map m !! lr) as [q|] eqn:E; [|done].
    assert (active s' q = active s q) as ->; [|done]. unfold active. rewrite Hps.
    rewrite lookup_insert_ne; [done|]. intros <-. by apply (Hno lr).
Qed.

Lemma flash_word (a : Z) : 0 <= a < 0x20000000 -> 0 <= a .& not3 < 0x20000000 /\ calc_bpkt_addr (a .& not3) = a .& not3.
Proof.
  intros Ha. assert (0 <= a .& not3 < 2 ^ 29) as Hr.
  { rewrite Z.land_comm. apply land_range; [lia|done|]. change (2 ^ 29) with 0x20000000. lia. }
  split; [exact Hr|]. rewrite calc_bpkt_addr_flash by done. by rewrite <- Z.land_assoc.
Qed.

(** C30: a downloaded dynamic patch for an address in flash is installed, in
    debug monitor mode: a comparator of the unit matches the word of its
    address, the breakpoint handler finds the patch there, and the fixed
    patches are found as before.  The word is the address rounded down to four
    bytes, so that this is the breakpoint of the instruction only for an
    address that is a multiple of four. *)
Theorem notify_new_dynamic_patch (s : ctx_state) (m : arraymap) (desc : Z) (d : patch_desc) (pc : Z) :
  let a := pd_addr d .& not3 in
  ctx_wf s m -> descs s !! desc = Some d -> pd_type d = DynamicPatchPoint -> 0 <= pd_addr d < 0x20000000 ->
  (forall q p, patches s !! q = Some p -> p_desc p <> desc) ->
  malloc_vm <> None -> helpers_wf (helpers s) ->
  hw_wf (hw s) -> REMAP_active REMAP_ADDR (hw s) = Some 0 -> calc_bpkt_pc (hw_mem (hw s)) a = Some pc ->
  exists s' patch,
    notify_new_patch kstray vstray junk alloc_env malloc_vm iot alloc_patch REMAP_ADDR FPB_Handler s desc = Some s'
    /\ ctx_wf s' m /\ (exists d', desc_of s' patch = Some d' /\ pd_code d' = pd_code d)
    /\ get_dynamic_patch_by_bpkt s' a = Some patch
    /\ (exists i, 0 <= i < 6 /\ get_comp (hw s') i = Some (bkpt_comp a))
    /\ forall lr, get_fixed_patch_by_lr kstray vstray s' lr = get_fixed_patch_by_lr kstray vstray s lr.
Proof.
  intros a Hwf Hd Ht Haddr Hnew Hm Hg Hhw Hmon Hpc. pose proof Hwf as [Hl Ham Hf Hdyn _].
  destruct (flash_word (pd_addr d) Haddr) as [Har Hcalc]. fold a in Har, Hcalc.
  destruct (alloc_patch_fresh (patches s)) as [Hne Hfresh]. set (patch := alloc_patch (patches s)) in *.
  destruct (ebpf_patch_setup_spec s desc d Hd Hm Hg) as (vm & g & Hsetup). fold patch in Hsetup.
  set (p := {| p_desc := desc; p_vm := Some vm; p_is_active := false |}) in *.
  set (s1 := with_patches _ _) in Hsetup.
  set (d' := {| pd_type := pd_type d; pd_code_len := pd_code_len d; pd_addr := a; pd_code := pd_code d |}).
  set (s2 := with_descs s1 (<[desc := d']> (descs s1))).
  set (node := {| dp_patch := patch; dp_inst_addr := a; dp_pc_addr := pc |}).
  set (s3 := with_dynamic s2 (kept_nodes (dpatch_list (pctx s)) a ++ [node])).
  assert (patches s3 !! patch = Some p) as Hp by apply lookup_insert_eq.
  assert (descs s3 !! desc = Some d') as Hd3 by apply lookup_insert_eq.
  assert (forall k, am_map m !! k <> Some patch) as Hunmapped.
  { intros k E. destruct (Hf k patch E) as [_ (d0 & Hd0 & _)]. unfold desc_of in Hd0. by rewrite Hfresh in Hd0. }
  assert (forall q, q <> patch -> desc_of s3 q = desc_of s q) as Hdesc.
  { intros q Hq. unfold desc_of. change (patches s3) with (<[patch := p]> (patches s)). rewrite lookup_insert_ne by done.
    destruct (patches s !! q) as [p0|] eqn:Eq; [|done]. cbn [mbind option_bind].
    change (descs s3) with (<[desc := d']> (descs s)). apply lookup_insert_ne. intros E. by apply (Hnew q p0 Eq). }
  assert (fixed_ok s3 m) as Hf3.
  { intros k q E. destruct (Hf k q E) as [Hq0 Hq]. split; [done|]. rewrite Hdesc; [done|]. intros ->. by apply (Hunmapped k). }
  assert (dynamic_ok s3) as Hdyn3.
  { intros dp Hin. cbn [pctx s3 with_dynamic with_pctx dpatch_list] in Hin.
    change (patches s3) with (<[patch := p]> (patches s)).
    destruct (decide (dp_patch dp = patch)) as [->|Hq]; [rewrite lookup_insert_eq; eauto|]. rewrite lookup_insert_ne by done.
    apply in_app_or in Hin as [Hin | [<- | []]]; [|done]. apply Hdyn. by apply kept_nodes_spec in Hin as [? _]. }
  destruct (dynamic_installed s3 m patch p d' (kept_nodes (dpatch_list (pctx s)) a) [] node Hl Ham Hf3 Hdyn3 Hunmapped Hp Hd3 Ht Har Hhw Hmon
    eq_refl eq_refl (fun dp H => proj2 (kept_nodes_spec _ _ _ H))) as (s' & Hact & Hav & Hfound & Hcomp & _ & _ & _ & _ & _ & Hfix).
  pose proof Hav as (Hwf' & _ & Hds & Hps).
  exists s', patch. split.
  { unfold notify_new_patch, add_ebpf_patch. rewrite Hsetup. cbn [mbind option_bind].
    change (descs s1) with (descs s). rewrite Hd. cbn [mbind option_bind]. rewrite Ht.
    change (DynamicPatchPoint =? FixedPatchPoint) with false. change (DynamicPatchPoint =? DynamicPatchPoint) with true. cbv iota.
    rewrite <- Ht. fold a. fold d'. change (with_descs s1 _) with s2.
    rewrite (add_dynamic_kept s2 patch d' pc); [cbn [mbind option_bind snd fst]; change (pd_addr d') with a; rewrite Hcalc; exact Hact| |].
    - unfold desc_of. change (patches s2 !! patch) with (patches s3 !! patch). rewrite Hp. exact Hd3.
    - change (pd_addr d') with a. rewrite Hcalc. exact Hpc. }
  split; [done|]. split; [|split; [done|split; [done|]]].
  - exists d'. unfold desc_of. rewrite Hps, lookup_insert_eq, Hds. split; [exact Hd3|done].
  - intros lr. rewrite (get_fixed_spec s' m), (get_fixed_spec s m), Hfix by done. unfold fixed_patch_at.
    destruct (am_map m !! lr) as [q|] eqn:E; [|done].
    assert (active s3 q = active s q) as ->; [|done]. unfold active.
    assert (q <> patch) as Hq by (intros ->; by apply (Hunmapped lr)).
    change (patches s3) with (<[patch := p]> (patches s)). by rewrite lookup_insert_ne.
Qed.
End Ctx.

(** ** Witnesses: one fixed patch installed at 0x08000100 *)

Definition fresh_patch : gmap Z ebpf_patch -> Z := fresh_address.

Lemma fresh_patch_ok (ps : gmap Z ebpf_patch) : fresh_patch ps <> 0 /\ ps !! fresh_patch ps = None.
Proof. apply fresh_address_ok. Qed.

Definition fixed_desc (a : Z) : patch_desc := {| pd_type := FixedPatchPoint; pd_code_len := 0; pd_addr := a; pd_code := [] |}.
Definition dynamic_desc (a : Z) : patch_desc := {| pd_type := DynamicPatchPoint; pd_code_len := 0; pd_addr := a; pd_code := [] |}.

Definition map_sample : arraymap :=
  {| am_max_size := 4; am_cur_size := 1; am_keys := [0x08000100; 0; 0; 0]; am_vals := [64; 0; 0; 0] |}.

(** A monitor-mode unit, and a halfword of code at 0x08000300. *)
Definition hw_code : hw_state :=
  with_hwmem (hw_sample 1) (bytes_at 0x08000300 [0; 0xbf] (hw_mem (hw_sample 1))).

Definition ctx_sample (dps : list dynamic_patch) : ctx_state :=
  mk_ctx {| fbits_filter := 0x08000100; fpatch_list := Some map_sample;
            dbits_filter_bpkt := -1; dbits_filter_pc := -1; dpatch_list := dps |}
         true
         {[ 64 := {| p_desc := 32; p_vm := None; p_is_active := true |} ]}
         {[ 32 := fixed_desc 0x08000100; 33 := fixed_desc 0x08000200; 34 := dynamic_desc 0x08000302 ]}
         helpers_none hw_code.

Lemma map_sample_wf : am_wf map_sample.
Proof. split; cbn; try lia. intros i j x y Hij Hj. lia. Qed.

Lemma map_sample_map : am_map map_sample = {[ 0x08000100 := 64 ]}.
Proof. vm_compute. reflexivity. Qed.

Lemma ctx_sample_wf : ctx_wf (ctx_sample []) map_sample.
Proof.
  split; [done|apply map_sample_wf| | |split].
  - intros k q E. rewrite map_sample_map in E. apply lookup_singleton_Some in E as [<- <-].
    split; [done|]. exists (fixed_desc 0x08000100). split; vm_compute; reflexivity.
  - intros dp [].
  - intros k q E _. rewrite map_sample_map in E. apply lookup_singleton_Some in E as [<- <-]. vm_compute. reflexivity.
  - intros dp [].
Qed.

Lemma helpers_none_wf : helpers_wf helpers_none.
Proof. intros H. by destruct (H eq_refl). Qed.

Lemma hw_code_wf : hw_wf hw_code.
Proof. split; cbn; (done || lia). Qed.

Lemma get_fixed_patch_exact_witness :
  ctx_wf (ctx_sample []) map_sample /\ get_fixed_patch_by_lr (fun _ => 0) (fun _ => 0) (ctx_sample []) 0x08000100 = Some 64.
Proof.
  split; [exact ctx_sample_wf|].
  rewrite (get_fixed_patch_exact (fun _ => 0) (fun _ => 0) (ctx_sample []) map_sample 0x08000100 ctx_sample_wf).
  vm_compute. reflexivity.
Defined.

Lemma notify_new_fixed_patch_witness :
  exists s' patch,
    notify_new_patch (fun _ => 0) (fun _ => 0) (fun _ => 0) next_address (Some garbage_vm) iot_sample fresh_patch 0x20000000 []
      (ctx_sample []) 33 = Some s'
    /\ get_fixed_patch_by_lr (fun _ => 0) (fun _ => 0) s' 0x08000200 = Some patch
    /\ get_fixed_patch_by_lr (fun _ => 0) (fun _ => 0) s' 0x08000100 = Some 64.
Proof.
  destruct (notify_new_fixed_patch (fun _ => 0) (fun _ => 0) (fun _ => 0) next_address (Some garbage_vm) iot_sample fresh_patch
    0x20000000 [] next_address_nonzero fresh_patch_ok (ctx_sample []) map_sample 33 (fixed_desc 0x08000200))
    as (s' & m' & patch & H1 & _ & _ & H2 & H3); [exact ctx_sample_wf|reflexivity|reflexivity|discriminate|exact helpers_none_wf|reflexivity| |].
  - right. split; [reflexivity|]. split; [exists 0x08000100; split; reflexivity|discriminate].
  - exists s', patch. split; [exact H1|]. split; [exact H2|]. rewrite (H3 0x08000100 ltac:(discriminate)). vm_compute. reflexivity.
Defined.

Lemma notify_new_dynamic_patch_witness :
  exists s' patch,
    notify_new_patch (fun _ => 0) (fun _ => 0) (fun _ => 0) next_address (Some garbage_vm) iot_sample fresh_patch 0x20000000 []
      (ctx_sample []) 34 = Some s'
    /\ get_dynamic_patch_by_bpkt s' 0x08000300 = Some patch
    /\ exists i, 0 <= i < 6 /\ get_comp (hw s') i = Some (bkpt_comp 0x08000300).
Proof.
  destruct (notify_new_dynamic_patch (fun _ => 0) (fun _ => 0) (fun _ => 0) next_address (Some garbage_vm) iot_sample fresh_patch
    0x20000000 [] next_address_nonzero fresh_patch_ok (ctx_sample []) map_sample 34 (dynamic_desc 0x08000302) 0x08000302)
    as (s' & patch & H1 & _ & _ & H2 & H3 & _);
    [exact ctx_sample_wf|reflexivity|reflexivity|cbn; lia| |discriminate|exact helpers_none_wf|exact hw_code_wf|vm_compute; reflexivity|vm_compute; reflexivity|].
  - intros q p E. unfold ctx_sample in E. cbn [patches] in E. apply lookup_singleton_Some in E as [_ <-]. discriminate.
  - exists s', patch. split; [exact H1|]. split; [exact H2|exact H3].
Defined.

(** Two dynamic patches; the first address is patched again. *)
Definition two_nodes : list dynamic_patch :=
  [ {| dp_patch := 64; dp_inst_addr := 0x08000300; dp_pc_addr := 0x08000302 |};
    {| dp_patch := 64; dp_inst_addr := 0x08000400; dp_pc_addr := 0x08000402 |} ].

Definition ctx_two : ctx_state :=
  with_descs (ctx_sample two_nodes) {[ 32 := dynamic_desc 0x08000300 ]}.

Lemma add_dynamic_patch_truncates_witness :
  exists s' pc, add_dynamic_patch_to_ctx ctx_two 64 = Some s'
    /\ dpatch_list (pctx s') = [{| dp_patch := 64; dp_inst_addr := 0x08000300; dp_pc_addr := pc |}].
Proof.
  destruct (add_dynamic_patch_to_ctx ctx_two 64) as [s'|] eqn:E; [|vm_compute in E; discriminate E].
  destruct (add_dynamic_patch_truncates ctx_two s' 64 (dynamic_desc 0x08000300) []
    [ {| dp_patch := 64; dp_inst_addr := 0x08000400; dp_pc_addr := 0x08000402 |} ]
    {| dp_patch := 64; dp_inst_addr := 0x08000300; dp_pc_addr := 0x08000302 |}) as [pc Hpc];
    [reflexivity|reflexivity|reflexivity|intros x []|exact E|].
  exists s', pc. split; [reflexivity|]. rewrite Hpc. reflexivity.
Defined.

(** Six nodes, and a seventh address. *)
Definition ctx_six : ctx_state :=
  with_descs (ctx_sample (map (fun k => {| dp_patch := 64; dp_inst_addr := 0x08000400 + 4 * k; dp_pc_addr := 0 |}) [0; 1; 2; 3; 4; 5]))
    {[ 32 := dynamic_desc 0x08000300 ]}.

Lemma dynamic_list_bound_witness :
  exists s', add_dynamic_patch_to_ctx ctx_six 64 = Some s' /\ length (dpatch_list (pctx s')) = 7%nat.
Proof.
  destruct (add_dynamic_patch_to_ctx ctx_six 64) as [s'|] eqn:E; [|vm_compute in E; discriminate E].
  destruct (dynamic_list_bound ctx_six s' 64 (dynamic_desc 0x08000300) eq_refl E) as [_ H].
  exists s'. split; [reflexivity|]. apply Nat2Z.inj. rewrite H; [reflexivity|].
  intros dp Hin. cbn in Hin. repeat (destruct Hin as [<- | Hin]; [discriminate|]). destruct Hin.
Defined.
