(* ===== verification/Dispatch.v ===== *)
(** * Dispatch: from a patch point to a patch (hotpatch/src/
    fixed_patch_points.c, cortex-m4_fbp.c)

    The three ways a patch is run: the call inserted in an instrumented
    function, the trampoline of a remapped instruction, and the debug monitor
    exception.  Each reads the stack frame its assembly stub pushed, finds the
    patch, runs it on the frame, and acts on the operation and the value it
    returns.  Also the two functions that the patches of the repository are
    tried on.  The machine's memory is [hw_mem]; [None] is a fault, an access
    through NULL, or a patch that does not return. *)

From S2P Require Import Prelude Mem EbpfInst EbpfVm Vm Hashmap Fpb PatchCtx.

(** enum FilterResult *)
Definition FILTER_PASS : Z := 0.
Definition FILTER_DROP : Z := 1.
Definition FILTER_REDIRECT : Z := 2.

Definition FIXED_OP_PASS : Z := 0x00010000.

(** struct fixed_stack_frame: r0, r1, r2, r3, lr. *)
Definition frame_r0 : Z := 0.
Definition frame_lr : Z := 16.
Definition sizeof_fixed_stack_frame : Z := 20.

(** struct stack_context: r0, r1, r2, r3, r12, lr, pc, xpsr. *)
Definition ctx_r0 : Z := 0.
Definition ctx_lr : Z := 20.
Definition ctx_pc : Z := 24.
Definition sizeof_ebpf_args_frame : Z := 16.

Definition get32 (s : ctx_state) (a : Z) : option Z := load_le 4 (u32 a) (hw_mem (hw s)).
Definition set32 (s : ctx_state) (a v : Z) : option ctx_state :=
  h ← put32 (hw s) (u32 a) v; Some (with_hw s h).

Definition filter_result (o : outcome) : option (Z * memory) :=
  match o with Returned v m => Some (v, m) | _ => None end.

Section Dispatch.
Context (kstray vstray : Z -> Z).
Context (FPB_Handler : list Z) (REMAP_ADDR : Z).
Context (call_jit : Z -> Z -> Z -> memory -> option (Z * memory)).
Context (call_ext : Z -> list Z -> memory -> option (Z * memory)).
(** The frame of the interpreter: where its stack is, and what its registers
    hold before they are set. *)
Context (stack : Z) (reg0 : list Z).

(** run_ebpf_filter on the machine's memory: the value and the state after. *)
Definition run_filter (s : ctx_state) (patch args args_size : Z) : option (Z * ctx_state) :=
  o ← run_ebpf_filter call_jit call_ext stack reg0 s patch args args_size (hw_mem (hw s));
  r ← filter_result o;
  Some (fst r, with_hw s (with_hwmem (hw s) (snd r))).

(** ** Fixed patch points *)

Definition dispatch_fixed_patch_point (s : ctx_state) (sp : Z) : option ctx_state :=
  lr ← get32 s (sp + frame_lr);
  let addr := u32 ((lr .& not1) - 4) in
  patch ← get_fixed_patch_by_lr kstray vstray s addr;
  p ← patches s !! patch;                          (* patch->vm->num_insts is logged *)
  _ ← p_vm p;
  if patch =? 0 then set32 s (sp + frame_r0) FIXED_OP_PASS
  else
    r ← run_filter s patch sp sizeof_fixed_stack_frame;
    let '(ret, s) := r in
    let op := u32 (ret >> 32) in
    let ret_code := ret .& 0x00000000ffffffff in
    if op =? FILTER_DROP then set32 s (sp + frame_r0) 0
    else if op =? FILTER_REDIRECT then
      lr ← get32 s (sp + frame_lr); set32 s lr ret_code
    else set32 s (sp + frame_r0) FIXED_OP_PASS.

(** ** Remapped instructions: the address the trampoline jumps to *)

Definition leave_fpb_bpkt (fuel : nat) (s : ctx_state) (ctx bpkt_idx : Z) : option (Z * ctx_state) :=
  c ← get_comp (hw s) bpkt_idx;
  let inst_addr := c .& not1 in
  patch ← get_dynamic_patch_by_bpkt s inst_addr;
  if negb (patch =? 0) then
    r ← run_filter s patch ctx sizeof_ebpf_args_frame;
    let '(ret, s) := r in
    let op := u32 (ret >> 32) in
    let ret_code := ret .& 0x00000000ffffffff in
    if op =? FILTER_PASS then
      h ← fpb_disable_cur_inst REMAP_ADDR FPB_Handler fuel (hw s) bpkt_idx;
      c ← get_comp h bpkt_idx;
      Some (c, with_hw s h)
    else if op =? FILTER_DROP then
      s ← set32 s (ctx + ctx_r0) ret_code;
      lr ← get32 s (ctx + ctx_lr); Some (lr, s)
    else if op =? FILTER_REDIRECT then Some (ret_code, s)
    else lr ← get32 s (ctx + ctx_lr); Some (lr, s)
  else lr ← get32 s (ctx + ctx_lr); Some (lr, s).

(** ** The debug monitor *)

Definition run_patch_here (s : ctx_state) (ctx : Z) : option (bool * ctx_state) :=
  pc ← get32 s (ctx + ctx_pc);
  patch ← get_dynamic_patch_by_bpkt s pc;
  if negb (patch =? 0) then
    r ← run_filter s patch ctx sizeof_ebpf_args_frame;
    let '(ret, s) := r in
    let op := u32 (ret >> 32) in
    let ret_code := ret .& 0x00000000ffffffff in
    if op =? FILTER_DROP then
      s ← set32 s (ctx + ctx_r0) ret_code;
      lr ← get32 s (ctx + ctx_lr);
      s ← set32 s (ctx + ctx_pc) lr;
      Some (true, s)
    else if op =? FILTER_REDIRECT then
      s ← set32 s (ctx + ctx_pc) ret_code; Some (true, s)
    else Some (false, s)
  else Some (false, s).

Definition demcr_single_step_mask : Z := 1 << 18.
Definition dfsr_bkpt_evt_bitmask : Z := 1 << 1.
Definition dfsr_halt_evt_bitmask : Z := 1 << 0.

(** ~(demcr_single_step_mask) of a 32-bit word *)
Definition not_single_step : Z := 0xFFFBFFFF.

Definition leave_debug_monitor (s : ctx_state) (ctx : Z) : option ctx_state :=
  dfsr ← get32 s SCB_DFSR;
  let is_bkpt_dbg_evt := negb (dfsr .& dfsr_bkpt_evt_bitmask =? 0) in
  let is_halt_dbg_evt := negb (dfsr .& dfsr_halt_evt_bitmask =? 0) in
  if is_bkpt_dbg_evt then
    r ← run_patch_here s ctx;
    let '(skip, s) := r in
    if skip : bool then Some s
    else
      demcr ← get32 s DCB_DEMCR;
      s ← set32 s DCB_DEMCR (demcr .| demcr_single_step_mask);
      s ← set32 s SCB_DFSR dfsr_bkpt_evt_bitmask;
      Some (with_hw s (fpb_disable (hw s)))
  else if is_halt_dbg_evt then
    demcr ← get32 s DCB_DEMCR;
    s ← set32 s DCB_DEMCR (demcr .& not_single_step);
    s ← set32 s SCB_DFSR dfsr_halt_evt_bitmask;
    Some (with_hw s (fpb_enable (hw s)))
  else Some s.
End Dispatch.

(** ** The functions the patches are tried on

    [hook] is what the inserted call returns; the guard of
    PATCH_FUNCTION_ERR_CODE is common to both. *)

Definition PATCH_FUNCTION_ERR_CODE {A} (hook : Z) (early : Z -> A) (body : A) : A :=
  if negb (hook =? FIXED_OP_PASS) then early hook else body.

(** The loop of dummy_buggy_MQTT_packet_length_decode: the result, and the
    length decoded so far.  [bytes] are those from [buf->cur] to
    [buf->end]; the shift of a u32 by 32 or more is undefined. *)
Inductive decoded := Decoded (ret length : Z) | Decode_undefined.

Fixpoint mqtt_decode (bytes : list Z) (shift count length : Z) : decoded :=
  if 4 <? count then Decoded (-1) length
  else
    match bytes with
    | [] => Decoded (-1) length
    | b :: rest =>
        if 32 <=? shift then Decode_undefined
        else
          let length := u32 (length + u32 ((b .& 0x7f) << shift)) in
          if negb (b .& 0x80 =? 0) then mqtt_decode rest (u8 (shift + 7)) (u8 (count + 1)) length
          else Decoded 0 length
    end.

Definition dummy_buggy_MQTT_packet_length_decode (hook : Z) (bytes : list Z) (length : Z) : decoded :=
  PATCH_FUNCTION_ERR_CODE hook (fun ret => Decoded ret length) (mqtt_decode bytes 0 0 0).

(** The loop of dummy_CVE_2020_17445_pico_ipv6_process_destopt, from the
    option at index [i] of the packet's bytes, with [len] to go; None is a
    read past the packet.  Turns left: [fuel]. *)
Inductive opt_outcome := OptDone | OptFault | OptRunning.

Fixpoint process_options (fuel : nat) (destopt : list Z) (i len : Z) : opt_outcome :=
  match fuel with
  | O => OptRunning
  | S fuel =>
      if len =? 0 then OptDone
      else
        match zget destopt (i + 1), zget destopt i with
        | Some o, Some _ =>
            let optlen := u8 (o + 2) in
            process_options fuel destopt (i + optlen) (u8 (len - optlen))
        | _, _ => OptFault
        end
  end.

Definition destopt_len (b : Z) : Z := u8 (((b + 1) << 3) - 2).

Definition dummy_CVE_2020_17445_pico_ipv6_process_destopt (hook : Z) (fuel : nat) (destopt : list Z) : opt_outcome :=
  PATCH_FUNCTION_ERR_CODE hook (fun _ => OptDone)
    (match zget destopt 1 with
     | Some b => process_options fuel destopt 2 (destopt_len b)
     | None => OptFault
     end).
