(* ===== verification/DispatchProps.v ===== *)
(** * Properties of the dispatch

    What a patched function sees of each operation a patch can return, the
    paths of the dispatch that fault or write where they should not, the
    single-step protocol of the debug monitor, and the two functions the
    patches are tried on. *)

From S2P Require Import Prelude Mem EbpfInst EbpfVm Vm Hashmap Fpb FpbProps PatchCtx PatchCtxProps Dispatch.

(** ** Words of the machine's memory *)

Lemma get32_hwmem (s : ctx_state) (h : hw_state) (a : Z) :
  hw_mem h = hw_mem (hw s) -> get32 (with_hw s h) a = get32 s a.
Proof. intros H. unfold get32. cbn [hw with_hw]. by rewrite H. Qed.

Lemma set32_get32 (s s' : ctx_state) (a v : Z) :
  0 <= v < 2 ^ 32 -> set32 s a v = Some s' -> get32 s' a = Some v.
Proof.
  unfold set32, get32, put32. intros Hv. destruct (store_le 4 (u32 a) v (hw_mem (hw s))) as [m|] eqn:E; [|done].
  cbn [mbind option_bind]. intros [= <-]. cbn [hw with_hw with_hwmem hw_mem]. rewrite (load_store_le 4 _ _ _ _ ltac:(lia) E).
  f_equal. apply Z.mod_small. exact Hv.
Qed.

(** A store elsewhere keeps a word: [apart a b] says that the words at [a]
    and [b] do not overlap. *)
Definition apart (a b : Z) : Prop := forall j k, 0 <= j < 4 -> 0 <= k < 4 -> u32 (u32 a + j) <> u32 (u32 b + k).

Lemma load_le_frame (n : nat) (a : Z) (m m' : memory) :
  (forall k, 0 <= k < Z.of_nat n -> m' !! u32 (a + k) = m !! u32 (a + k)) -> load_le n a m' = load_le n a m.
Proof.
  revert a. induction n as [|n IH]; intros a H; [done|]. cbn [load_le].
  pose proof (H 0 ltac:(lia)) as H0. rewrite Z.add_0_r in H0. rewrite H0.
  destruct (m !! u32 a); [|done]. cbn [mbind option_bind]. rewrite IH; [done|].
  intros k Hk. replace (a + 1 + k) with (a + (k + 1)) by lia. apply H. lia.
Qed.

Lemma set32_frame (s s' : ctx_state) (a b v : Z) :
  apart a b -> set32 s a v = Some s' -> get32 s' b = get32 s b.
Proof.
  unfold set32, get32, put32. intros Hab. destruct (store_le 4 (u32 a) v (hw_mem (hw s))) as [m|] eqn:E; [|done].
  cbn [mbind option_bind]. intros [= <-]. cbn [hw with_hw with_hwmem hw_mem]. apply load_le_frame. intros k Hk.
  apply (store_le_frame _ _ _ _ _ _ E). intros j Hj. apply (Hab j k); lia.
Qed.

(** A word that is read can be written, and written words stay readable. *)
Lemma set32_readable (s : ctx_state) (a v : Z) : is_Some (get32 s a) -> exists s', set32 s a v = Some s'.
Proof.
  unfold set32, get32, put32. intros Hr. destruct (store_where_loaded 4 (u32 a) v (hw_mem (hw s)) Hr) as [m ->].
  cbn [mbind option_bind]. by eexists.
Qed.

Lemma set32_keeps_readable (s s' : ctx_state) (a b v : Z) :
  set32 s a v = Some s' -> is_Some (get32 s b) -> is_Some (get32 s' b).
Proof.
  unfold set32, get32, put32. destruct (store_le 4 (u32 a) v (hw_mem (hw s))) as [m|] eqn:E; [|done].
  cbn [mbind option_bind]. intros [= <-] Hr. exact (store_keeps_loadable _ _ _ _ _ _ _ E Hr).
Qed.

Lemma set32_fpb (s s' : ctx_state) (a v : Z) :
  set32 s a v = Some s' -> FPB (hw s') = FPB (hw s) /\ bpkt_info (hw s') = bpkt_info (hw s) /\ pctx s' = pctx s.
Proof.
  unfold set32, put32. destruct (store_le _ _ _ _); [|done]. cbn [mbind option_bind]. by intros [= <-].
Qed.

Section Props.
Context (kstray vstray : Z -> Z).
Context (FPB_Handler : list Z) (REMAP_ADDR : Z).
Context (call_jit : Z -> Z -> Z -> memory -> option (Z * memory)).
Context (call_ext : Z -> list Z -> memory -> option (Z * memory)).
Context (stack : Z) (reg0 : list Z).

Local Abbreviation dispatch := (dispatch_fixed_patch_point kstray vstray call_jit call_ext stack reg0).
Local Abbreviation run_filter := (run_filter call_jit call_ext stack reg0).
Local Abbreviation run_here := (run_patch_here call_jit call_ext stack reg0).
Local Abbreviation monitor := (leave_debug_monitor call_jit call_ext stack reg0).

(** ** Fixed patch points *)

(** The address of the call instruction of a frame. *)
Definition call_site (lr : Z) : Z := u32 ((lr .& not1) - 4).

(** The dispatch once the patch is found. *)
Lemma dispatch_found (s : ctx_state) (sp lr patch : Z) (p : ebpf_patch) :
  get32 s (sp + frame_lr) = Some lr ->
  get_fixed_patch_by_lr kstray vstray s (call_site lr) = Some patch -> patch <> 0 ->
  patches s !! patch = Some p -> p_vm p <> None ->
  dispatch s sp =
  (r ← run_filter s patch sp sizeof_fixed_stack_frame;
   if u32 (fst r >> 32) =? FILTER_DROP then set32 (snd r) (sp + frame_r0) 0
   else if u32 (fst r >> 32) =? FILTER_REDIRECT then lr ← get32 (snd r) (sp + frame_lr); set32 (snd r) lr (u32 (fst r))
   else set32 (snd r) (sp + frame_r0) FIXED_OP_PASS).
Proof.
  intros Hlr Hget Hne Hp Hvm. unfold dispatch_fixed_patch_point.
  rewrite Hlr. cbn [mbind option_bind]. fold (call_site lr). rewrite Hget. cbn [mbind option_bind].
  rewrite Hp. cbn [mbind option_bind]. destruct (p_vm p); [|done]. cbn [mbind option_bind].
  destruct (Z.eqb_spec patch 0) as [E|_]; [by destruct (Hne E)|]. destruct (run_filter _ _ _ _) as [[ret s1]|]; [|reflexivity].
  cbn [mbind option_bind fst snd]. by replace (ret .& 4294967295) with (u32 ret) by (unfold u32; by rewrite wrap_land_ones).
Qed.

(** What the guard reads when the patch answers DROP or PASS. *)
Lemma dispatch_verdict (s s1 : ctx_state) (sp lr patch ret : Z) (p : ebpf_patch) :
  get32 s (sp + frame_lr) = Some lr ->
  get_fixed_patch_by_lr kstray vstray s (call_site lr) = Some patch -> patch <> 0 ->
  patches s !! patch = Some p -> p_vm p <> None ->
  run_filter s patch sp sizeof_fixed_stack_frame = Some (ret, s1) ->
  u32 (ret >> 32) <> FILTER_REDIRECT -> is_Some (get32 s1 (sp + frame_r0)) ->
  exists s', dispatch s sp = Some s' /\
    get32 s' (sp + frame_r0) = Some (if u32 (ret >> 32) =? FILTER_DROP then 0 else FIXED_OP_PASS).
Proof.
  intros Hlr Hget Hne Hp Hvm Hrun Hop Hr0. rewrite (dispatch_found s sp lr patch p), Hrun by done. cbn [mbind option_bind fst snd].
  destruct (Z.eqb_spec (u32 (ret >> 32)) FILTER_DROP).
  - destruct (set32_readable s1 _ 0 Hr0) as [s' E]. rewrite E. exists s'. split; [done|]. by eapply set32_get32; [|exact E].
  - destruct (Z.eqb_spec (u32 (ret >> 32)) FILTER_REDIRECT); [done|].
    destruct (set32_readable s1 _ FIXED_OP_PASS Hr0) as [s' E]. rewrite E. exists s'. split; [done|]. by eapply set32_get32; [|exact E].
Qed.

(** REDIRECT: the word at the return address is written. *)
Lemma dispatch_redirects (s s1 : ctx_state) (sp lr lr1 patch ret : Z) (p : ebpf_patch) :
  get32 s (sp + frame_lr) = Some lr ->
  get_fixed_patch_by_lr kstray vstray s (call_site lr) = Some patch -> patch <> 0 ->
  patches s !! patch = Some p -> p_vm p <> None ->
  run_filter s patch sp sizeof_fixed_stack_frame = Some (ret, s1) ->
  u32 (ret >> 32) = FILTER_REDIRECT -> get32 s1 (sp + frame_lr) = Some lr1 -> is_Some (get32 s1 lr1) ->
  exists s', dispatch s sp = Some s' /\ get32 s' lr1 = Some (u32 ret) /\
    (apart lr1 (sp + frame_lr) -> get32 s' (sp + frame_lr) = Some lr1).
Proof.
  intros Hlr Hget Hne Hp Hvm Hrun Hop Hlr1 Hcode. rewrite (dispatch_found s sp lr patch p), Hrun by done.
  cbn [mbind option_bind fst snd]. rewrite Hop.
  change (FILTER_REDIRECT =? FILTER_DROP) with false. change (FILTER_REDIRECT =? FILTER_REDIRECT) with true.
  cbv iota. rewrite Hlr1. cbn [mbind option_bind]. destruct (set32_readable s1 _ (u32 ret) Hcode) as [s' E]. rewrite E.
  exists s'. split; [done|]. split; [eapply set32_get32; [apply u32_range|exact E]|]. intros Hap. by rewrite (set32_frame _ _ _ _ _ Hap E).
Qed.

(** An instrumented function runs its body exactly when the patch lets it:
    after the dispatch, the value its guard reads in r0 is FIXED_OP_PASS for
    every operation but DROP, in which case the function returns early; and
    then it returns 0, not the return code of the patch. *)
Theorem dispatch_guard {A} (s s1 : ctx_state) (sp lr patch ret : Z) (p : ebpf_patch) (early : Z -> A) (body : A) :
  get32 s (sp + frame_lr) = Some lr ->
  get_fixed_patch_by_lr kstray vstray s (call_site lr) = Some patch -> patch <> 0 ->
  patches s !! patch = Some p -> p_vm p <> None ->
  run_filter s patch sp sizeof_fixed_stack_frame = Some (ret, s1) ->
  u32 (ret >> 32) <> FILTER_REDIRECT -> is_Some (get32 s1 (sp + frame_r0)) ->
  exists s' hook, dispatch s sp = Some s' /\ get32 s' (sp + frame_r0) = Some hook /\
  PATCH_FUNCTION_ERR_CODE hook early body = if u32 (ret >> 32) =? FILTER_DROP then early 0 else body.
Proof.
  intros Hlr Hget Hne Hp Hvm Hrun Hop Hr0. destruct (dispatch_verdict s s1 sp lr patch ret p Hlr Hget Hne Hp Hvm Hrun Hop Hr0) as (s' & -> & Hhook).
  exists s', (if u32 (ret >> 32) =? FILTER_DROP then 0 else FIXED_OP_PASS). split; [done|]. split; [done|]. by destruct (_ =? FILTER_DROP).
Qed.

(** REDIRECT at a fixed patch point does not redirect: the code writes the
    target into the word at the return address, in the code of the caller,
    and leaves the return address of the frame as it is. *)
Theorem dispatch_redirect_writes_code (s s1 : ctx_state) (sp lr lr1 patch ret : Z) (p : ebpf_patch) :
  get32 s (sp + frame_lr) = Some lr ->
  get_fixed_patch_by_lr kstray vstray s (call_site lr) = Some patch -> patch <> 0 ->
  patches s !! patch = Some p -> p_vm p <> None ->
  run_filter s patch sp sizeof_fixed_stack_frame = Some (ret, s1) ->
  u32 (ret >> 32) = FILTER_REDIRECT -> get32 s1 (sp + frame_lr) = Some lr1 -> is_Some (get32 s1 lr1) -> apart lr1 (sp + frame_lr) ->
  exists s', dispatch s sp = Some s' /\ get32 s' lr1 = Some (u32 ret) /\ get32 s' (sp + frame_lr) = Some lr1.
Proof.
  intros Hlr Hget Hne Hp Hvm Hrun Hop Hlr1 Hcode Hap.
  destruct (dispatch_redirects s s1 sp lr lr1 patch ret p Hlr Hget Hne Hp Hvm Hrun Hop Hlr1 Hcode) as (s' & -> & H1 & H2).
  exists s'. split; [done|]. split; [done|by apply H2].
Qed.

(** The dispatch reads a field of the patch before it tests that there is
    one: at a call site without a patch, the usual case of an instrumented
    function, it goes through a NULL pointer. *)
Theorem dispatch_without_patch_null (s : ctx_state) (sp lr : Z) :
  get32 s (sp + frame_lr) = Some lr -> patches s !! 0 = None ->
  get_fixed_patch_by_lr kstray vstray s (call_site lr) = Some 0 -> dispatch s sp = None.
Proof.
  intros Hlr Hnull Hget. unfold dispatch_fixed_patch_point. rewrite Hlr. cbn [mbind option_bind].
  fold (call_site lr). rewrite Hget. cbn [mbind option_bind]. by rewrite Hnull.
Qed.

(** ** The debug monitor *)

(** A patch that the interpreter runs to its end without a write. *)
Lemma run_filter_interpreted (s : ctx_state) (args size patch v : Z) (p : ebpf_patch) (vm : ebpf_vm) (e : ebpf_helper_env)
    (program : list ebpf_inst) :
  patches s !! patch = Some p -> p_vm p = Some vm -> use_jit vm = false -> insts vm = Some program ->
  helper_envs (helpers s) !! helper_func vm = Some e ->
  ebpf_vm_exec call_ext (mk_env program (bounds_check_enabled vm) (ext_funcs e) args size stack) reg0 (hw_mem (hw s))
    = Returned v (hw_mem (hw s)) ->
  exists s1, run_filter s patch args size = Some (v, s1) /\ forall a, get32 s1 a = get32 s a.
Proof.
  intros Hp Hvm Hj Hi He Hrun. unfold Dispatch.run_filter, run_ebpf_filter. rewrite Hp. cbn [mbind option_bind].
  rewrite Hvm. cbn [mbind option_bind]. rewrite Hj, Hi. cbn [mbind option_bind]. rewrite He. cbn [mbind option_bind].
  rewrite Hrun. cbn [filter_result mbind option_bind fst snd]. eexists. split; [reflexivity|]. intros a. by apply get32_hwmem.
Qed.

(** What becomes of the frame when the patch of a breakpoint answers DROP or
    PASS. *)
Lemma run_here_verdict (s s1 : ctx_state) (ctx pc lr patch ret : Z) :
  get32 s (ctx + ctx_pc) = Some pc -> get_dynamic_patch_by_bpkt s pc = Some patch -> patch <> 0 ->
  run_filter s patch ctx sizeof_ebpf_args_frame = Some (ret, s1) -> u32 (ret >> 32) <> FILTER_REDIRECT ->
  get32 s1 (ctx + ctx_lr) = Some lr -> 0 <= lr < 2 ^ 32 ->
  is_Some (get32 s1 (ctx + ctx_r0)) -> is_Some (get32 s1 (ctx + ctx_pc)) ->
  apart (ctx + ctx_r0) (ctx + ctx_lr) -> apart (ctx + ctx_pc) (ctx + ctx_r0) ->
  exists skip s', run_here s ctx = Some (skip, s') /\
  if u32 (ret >> 32) =? FILTER_DROP
  then skip = true /\ get32 s' (ctx + ctx_r0) = Some (u32 ret) /\ get32 s' (ctx + ctx_pc) = Some lr /\ FPB (hw s') = FPB (hw s1)
  else skip = false /\ s' = s1.
Proof.
  intros Hpc Hget Hne Hrun Hop Hlr Hlrr Hr0 Hpc1 Ha1 Ha2. unfold run_patch_here. rewrite Hpc. cbn [mbind option_bind].
  rewrite Hget. cbn [mbind option_bind]. destruct (Z.eqb_spec patch 0) as [E0|_]; [by destruct (Hne E0)|]. cbn [negb].
  rewrite Hrun. cbn [mbind option_bind]. destruct (u32 (ret >> 32) =? FILTER_DROP);
    [|destruct (Z.eqb_spec (u32 (ret >> 32)) FILTER_REDIRECT) as [E0|_]; [by destruct (Hop E0)|by exists false, s1]].
  replace (ret .& 4294967295) with (u32 ret) by (unfold u32; by rewrite wrap_land_ones).
  destruct (set32_readable s1 _ (u32 ret) Hr0) as [s2 E2]. rewrite E2. cbn [mbind option_bind].
  rewrite (set32_frame _ _ _ _ _ Ha1 E2), Hlr. cbn [mbind option_bind].
  destruct (set32_readable s2 _ lr (set32_keeps_readable _ _ _ _ _ E2 Hpc1)) as [s3 E3]. rewrite E3. cbn [mbind option_bind].
  exists true, s3. split; [reflexivity|]. split; [reflexivity|].
  split; [rewrite (set32_frame _ _ _ _ _ Ha2 E3); by apply (set32_get32 _ _ _ _ (u32_range ret) E2)|].
  split; [by apply (set32_get32 _ _ _ _ Hlrr E3)|].
  destruct (set32_fpb _ _ _ _ E3) as [-> _]. by destruct (set32_fpb _ _ _ _ E2) as [-> _].
Qed.

(** When a breakpoint is hit and the patch drops the call, the frame is
    set to return from the function: r0 is the return code of the patch and
    the pc is the return address; the breakpoint unit is left as the patch
    left it. *)
Theorem monitor_drop_returns (s s1 : ctx_state) (ctx dfsr pc lr patch ret : Z) :
  get32 s SCB_DFSR = Some dfsr -> dfsr .& dfsr_bkpt_evt_bitmask <> 0 ->
  get32 s (ctx + ctx_pc) = Some pc -> get_dynamic_patch_by_bpkt s pc = Some patch -> patch <> 0 ->
  run_filter s patch ctx sizeof_ebpf_args_frame = Some (ret, s1) -> u32 (ret >> 32) = FILTER_DROP ->
  get32 s1 (ctx + ctx_lr) = Some lr -> 0 <= lr < 2 ^ 32 ->
  is_Some (get32 s1 (ctx + ctx_r0)) -> is_Some (get32 s1 (ctx + ctx_pc)) ->
  apart (ctx + ctx_r0) (ctx + ctx_lr) -> apart (ctx + ctx_pc) (ctx + ctx_r0) ->
  exists s', monitor s ctx = Some s' /\
  get32 s' (ctx + ctx_r0) = Some (u32 ret) /\ get32 s' (ctx + ctx_pc) = Some lr /\ FPB (hw s') = FPB (hw s1).
Proof.
  intros Hdf Hev Hpc Hget Hne Hrun Hop Hlr Hlrr Hr0 Hpc1 Ha1 Ha2. unfold leave_debug_monitor.
  rewrite Hdf. cbn [mbind option_bind]. destruct (Z.eqb_spec (dfsr .& dfsr_bkpt_evt_bitmask) 0); [done|]. cbn [negb].
  destruct (run_here_verdict s s1 ctx pc lr patch ret Hpc Hget Hne Hrun ltac:(rewrite Hop; discriminate) Hlr Hlrr Hr0 Hpc1 Ha1 Ha2)
    as (skip & s2 & -> & Hv).
  rewrite Hop in Hv. destruct Hv as (-> & H1 & H2 & H3). cbn [mbind option_bind]. by exists s2.
Qed.

Lemma rearm_ctrl (c : Z) : 0 <= c < 2 ^ 32 -> (c .& not3) .| 2 .| 3 = c .| 3.
Proof.
  intros Hc. apply Z.bits_inj'. intros i Hi. rewrite !Z.lor_spec, Z.land_spec, testbit_not3 by lia.
  destruct (decide (i = 0)) as [->|]; [by rewrite !orb_true_r|].
  destruct (decide (i = 1)) as [->|]; [by rewrite !orb_true_r|].
  rewrite (testbit_above 2 2 i), (testbit_above 2 3 i), !orb_false_r by lia.
  destruct (Z.ltb_spec 1 i); [|lia]. destruct (Z.ltb_spec i 32); [apply andb_true_r|].
  by rewrite (testbit_above 32 c i) by lia.
Qed.

Lemma apart_dfsr_demcr : apart SCB_DFSR DCB_DEMCR.
Proof.
  intros j k Hj Hk. unfold SCB_DFSR, DCB_DEMCR. rewrite !(u32_small (_ + _)); rewrite !u32_small; lia.
Qed.

(** A breakpoint event that no patch intercepts: the unit is switched off and
    the processor set to step. *)
Lemma monitor_steps (s s1 : ctx_state) (ctx dfsr demcr : Z) :
  get32 s SCB_DFSR = Some dfsr -> dfsr .& dfsr_bkpt_evt_bitmask <> 0 ->
  run_here s ctx = Some (false, s1) -> get32 s1 DCB_DEMCR = Some demcr -> 0 <= demcr < 2 ^ 32 -> is_Some (get32 s1 SCB_DFSR) ->
  exists s2, monitor s ctx = Some s2 /\ FPB (hw s2) = FPB (fpb_disable (hw s1))
    /\ get32 s2 DCB_DEMCR = Some (demcr .| demcr_single_step_mask).
Proof.
  intros Hdf Hev Hrun Ed Hr Hdf1. unfold leave_debug_monitor. rewrite Hdf. cbn [mbind option_bind].
  destruct (Z.eqb_spec (dfsr .& dfsr_bkpt_evt_bitmask) 0); [done|]. cbn [negb].
  rewrite Hrun. cbn [mbind option_bind]. rewrite Ed. cbn [mbind option_bind].
  destruct (set32_readable s1 DCB_DEMCR (demcr .| demcr_single_step_mask) ltac:(by eexists)) as [sa Ea]. rewrite Ea. cbn [mbind option_bind].
  destruct (set32_readable sa SCB_DFSR dfsr_bkpt_evt_bitmask (set32_keeps_readable _ _ _ _ _ Ea Hdf1)) as [sb Eb]. rewrite Eb. cbn [mbind option_bind].
  destruct (set32_fpb _ _ _ _ Ea) as [Fa _]. destruct (set32_fpb _ _ _ _ Eb) as [Fb _]. eexists. split; [reflexivity|]. split.
  - unfold fpb_disable, with_ctrl. cbn [FPB hw with_hw with_fpb]. by rewrite Fb, Fa.
  - rewrite get32_hwmem by done. rewrite (set32_frame _ _ _ _ _ apart_dfsr_demcr Eb).
    refine (set32_get32 _ _ _ _ _ Ea). apply lor_range; [lia|done|]. split; [discriminate|reflexivity].
Qed.

(** The event after the step: the unit is switched on again. *)
Lemma monitor_halt (s : ctx_state) (ctx demcr : Z) :
  get32 s SCB_DFSR = Some dfsr_halt_evt_bitmask -> get32 s DCB_DEMCR = Some demcr -> 0 <= demcr < 2 ^ 32 ->
  exists s2, monitor s ctx = Some s2 /\ FPB (hw s2) = FPB (fpb_enable (hw s))
    /\ get32 s2 DCB_DEMCR = Some (demcr .& not_single_step).
Proof.
  intros Hdf Ed Hr. unfold leave_debug_monitor. rewrite Hdf. cbn [mbind option_bind].
  change (negb (dfsr_halt_evt_bitmask .& dfsr_bkpt_evt_bitmask =? 0)) with false.
  change (negb (dfsr_halt_evt_bitmask .& dfsr_halt_evt_bitmask =? 0)) with true. cbv iota. rewrite Ed. cbn [mbind option_bind].
  destruct (set32_readable s DCB_DEMCR (demcr .& not_single_step) ltac:(rewrite Ed; by eexists)) as [sa Ea]. rewrite Ea. cbn [mbind option_bind].
  destruct (set32_readable sa SCB_DFSR dfsr_halt_evt_bitmask (set32_keeps_readable _ _ _ SCB_DFSR _ Ea ltac:(rewrite Hdf; by eexists))) as [sb Eb].
  rewrite Eb. cbn [mbind option_bind].
  destruct (set32_fpb _ _ _ _ Ea) as [Fa _]. destruct (set32_fpb _ _ _ _ Eb) as [Fb _]. eexists. split; [reflexivity|]. split.
  - unfold fpb_enable, with_ctrl. cbn [FPB hw with_hw with_fpb]. by rewrite Fb, Fa.
  - rewrite get32_hwmem by done. rewrite (set32_frame _ _ _ _ _ apart_dfsr_demcr Eb).
    refine (set32_get32 _ _ _ _ _ Ea). apply land_range; [lia|lia|]. unfold not_single_step. lia.
Qed.

(** A breakpoint that no patch intercepts is passed over once and armed
    again: the breakpoint event switches the unit off and single-stepping on,
    the step event that follows switches them back, and every comparator is
    then what it was.  Between the two the processor runs one instruction,
    with the unit's registers and DEMCR untouched. *)
Theorem monitor_rearms (s s1 : ctx_state) (ctx dfsr demcr : Z) :
  get32 s SCB_DFSR = Some dfsr -> dfsr .& dfsr_bkpt_evt_bitmask <> 0 ->
  run_here s ctx = Some (false, s1) -> get32 s1 DCB_DEMCR = Some demcr -> 0 <= demcr < 2 ^ 32 -> is_Some (get32 s1 SCB_DFSR) ->
  0 <= CTRL (FPB (hw s1)) < 2 ^ 32 ->
  exists s2, monitor s ctx = Some s2
  /\ Z.testbit (CTRL (FPB (hw s2))) 0 = false /\ get32 s2 DCB_DEMCR = Some (demcr .| demcr_single_step_mask)
  /\ forall s3 ctx',
     FPB (hw s3) = FPB (hw s2) -> get32 s3 DCB_DEMCR = get32 s2 DCB_DEMCR -> get32 s3 SCB_DFSR = Some dfsr_halt_evt_bitmask ->
     exists s4, monitor s3 ctx' = Some s4
     /\ CTRL (FPB (hw s4)) = CTRL (FPB (hw s1)) .| 3 /\ COMP (FPB (hw s4)) = COMP (FPB (hw s1))
     /\ get32 s4 DCB_DEMCR = Some ((demcr .| demcr_single_step_mask) .& not_single_step).
Proof.
  intros Hdf Hev Hrun Hde Hdr Hdf1 Hc.
  destruct (monitor_steps _ _ _ _ _ Hdf Hev Hrun Hde Hdr Hdf1) as (s2 & Hm2 & F2 & D2). exists s2. split; [done|].
  rewrite F2. unfold fpb_disable, with_ctrl. cbn [FPB with_fpb CTRL COMP].
  split; [rewrite Z.lor_spec, Z.land_spec; change (Z.testbit not3 0) with false; by rewrite andb_false_r|]. split; [done|].
  intros s3 ctx' H3f H3d H3e. rewrite D2 in H3d.
  assert (0 <= demcr .| demcr_single_step_mask < 2 ^ 32) as Hor.
  { apply lor_range; [lia|done|]. split; [discriminate|reflexivity]. }
  destruct (monitor_halt s3 ctx' _ H3e H3d Hor) as (s4 & Hm4 & F4 & D4). exists s4. split; [done|].
  rewrite F4. unfold fpb_enable, with_ctrl. cbn [FPB with_fpb CTRL COMP]. rewrite H3f.
  cbn [CTRL COMP]. split; [by apply rearm_ctrl|]. by split.
Qed.

(** ** Remapped instructions *)

(** The trampoline of a remapped instruction goes where the patch says:
    for REDIRECT to the patch's return code, and for DROP back to the caller
    with the return code in r0. *)
Theorem leave_fpb_bpkt_target (fuel : nat) (s s1 : ctx_state) (ctx i c patch ret lr : Z) :
  get_comp (hw s) i = Some c -> get_dynamic_patch_by_bpkt s (c .& not1) = Some patch -> patch <> 0 ->
  run_filter s patch ctx sizeof_ebpf_args_frame = Some (ret, s1) ->
  get32 s1 (ctx + ctx_lr) = Some lr -> is_Some (get32 s1 (ctx + ctx_r0)) -> apart (ctx + ctx_r0) (ctx + ctx_lr) ->
  (u32 (ret >> 32) = FILTER_DROP -> exists s', leave_fpb_bpkt FPB_Handler REMAP_ADDR call_jit call_ext stack reg0 fuel s ctx i = Some (lr, s') /\ get32 s' (ctx + ctx_r0) = Some (u32 ret))
  /\ (u32 (ret >> 32) = FILTER_REDIRECT ->
     leave_fpb_bpkt FPB_Handler REMAP_ADDR call_jit call_ext stack reg0 fuel s ctx i = Some (u32 ret, s1)).
Proof.
  intros Hc Hget Hne Hrun Hlr Hr0 Ha. unfold leave_fpb_bpkt. rewrite Hc. cbn [mbind option_bind].
  rewrite Hget. cbn [mbind option_bind]. destruct (Z.eqb_spec patch 0); [done|]. cbn [negb].
  rewrite Hrun. cbn [mbind option_bind].
  replace (ret .& 4294967295) with (u32 ret) by (unfold u32; by rewrite wrap_land_ones).
  split; intros Hop; rewrite Hop.
  - change (FILTER_DROP =? FILTER_PASS) with false. change (FILTER_DROP =? FILTER_DROP) with true. cbv iota.
    destruct (set32_readable s1 _ (u32 ret) Hr0) as [s2 E]. rewrite E. cbn [mbind option_bind].
    rewrite (set32_frame _ _ _ _ _ Ha E), Hlr. cbn [mbind option_bind]. exists s2. split; [done|].
    by apply (set32_get32 _ _ _ _ (u32_range ret) E).
  - reflexivity.
Qed.
End Props.

(** ** The functions the patches are tried on *)

(** The variable-length encoding of a packet length: seven bits a byte, the
    high bit on all but the last, in at most [k] bytes more than one. *)
Fixpoint mqtt_encode (k : nat) (n : Z) : list Z :=
  match k with
  | O => [n]
  | S k => if n <? 128 then [n] else (n mod 128 + 128) :: mqtt_encode k (n / 128)
  end.

Lemma land_7f (x : Z) : x .& 0x7f = x mod 128.
Proof. change 0x7f with (Z.ones 7). by rewrite Z.land_ones by lia. Qed.

Lemma land_80 (x : Z) : 0 <= x < 256 -> (x .& 0x80 =? 0) = (x <? 128).
Proof.
  intros Hx. destruct (Z.ltb_spec x 128).
  - apply Z.eqb_eq, Z.bits_inj'. intros i Hi. rewrite Z.land_spec, Z.testbit_0_l.
    destruct (Z.ltb_spec i 7); [|by rewrite (testbit_above 7 x i) by lia].
    replace 0x80 with (1 << 7) by done. rewrite testbit_shl, (Z.testbit_neg_r 1) by lia. apply andb_false_r.
  - apply Z.eqb_neq. intros E. assert (Z.testbit (x .& 0x80) 7 = false) as Hf by (by rewrite E).
    rewrite Z.land_spec in Hf. change (Z.testbit 128 7) with true in Hf. rewrite andb_true_r, Z.testbit_odd in Hf.
    rewrite Z.shiftr_div_pow2 in Hf by lia. change (2 ^ 7) with 128 in Hf.
    replace (x / 128) with 1 in Hf; [done|]. Z.to_euclidean_division_equations. lia.
Qed.

Lemma mqtt_decode_encode (rest : list Z) (k : nat) : forall c n len,
  0 <= c -> c + Z.of_nat k <= 4 -> 0 <= n < 2 ^ (7 * (Z.of_nat k + 1)) ->
  mqtt_decode (mqtt_encode k n ++ rest) (7 * c) c len = Decoded 0 (u32 (len + n * 2 ^ (7 * c))).
Proof.
  assert (forall c n len, 0 <= c <= 4 -> 0 <= n < 128 ->
    mqtt_decode (n :: rest) (7 * c) c len = Decoded 0 (u32 (len + n * 2 ^ (7 * c)))) as Hlast.
  { intros c n len Hc Hn. cbn [mqtt_decode]. destruct (Z.ltb_spec 4 c); [lia|]. destruct (Z.leb_spec 32 (7 * c)); [lia|].
    rewrite land_80 by lia. destruct (Z.ltb_spec n 128); [|lia]. cbn [negb]. f_equal.
    rewrite land_7f, Z.mod_small, Z.shiftl_mul_pow2 by lia. unfold u32. apply wrap_add_r. }
  induction k as [|k IH]; intros c n len Hc Hk Hn.
  { cbn [mqtt_encode app]. apply Hlast; [lia|]. change (2 ^ (7 * (Z.of_nat 0 + 1))) with 128 in Hn. lia. }
  cbn [mqtt_encode]. destruct (Z.ltb_spec n 128); [apply Hlast; lia|].
  cbn [app mqtt_decode]. destruct (Z.ltb_spec 4 c); [lia|]. destruct (Z.leb_spec 32 (7 * c)); [lia|].
  pose proof (Z.mod_pos_bound n 128 ltac:(lia)) as Hmod.
  rewrite land_80 by lia. destruct (Z.ltb_spec (n mod 128 + 128) 128); [lia|]. cbn [negb].
  rewrite !u8_small by lia. replace (7 * c + 7) with (7 * (c + 1)) by lia. rewrite IH; [|lia|lia|].
  - f_equal. rewrite land_7f, Z.shiftl_mul_pow2 by lia.
    replace (n mod 128 + 128) with (n mod 128 + 1 * 128) by lia. rewrite Z.mod_add, Z.mod_mod by lia.
    unfold u32. rewrite wrap_add_l, <- Z.add_assoc, (Z.add_comm (wrap 32 _)), Z.add_assoc, wrap_add_r. f_equal.
    pose proof (Z.div_mod n 128 ltac:(lia)) as Hd. rewrite Hd at 3.
    replace (7 * (c + 1)) with (7 + 7 * c) by lia. rewrite Z.pow_add_r by lia. change (2 ^ 7) with 128. lia.
  - split; [apply Z.div_pos; lia|]. apply Z.div_lt_upper_bound; [lia|].
    replace (7 * (Z.of_nat (S k) + 1)) with (7 + 7 * (Z.of_nat k + 1)) in Hn by lia.
    rewrite Z.pow_add_r in Hn by lia. change (2 ^ 7) with 128 in Hn. lia.
Qed.

(** C35: the packet length decoder inverts the encoding: every length the
    protocol allows, of at most four bytes, is decoded to itself; but a fifth
    byte is accepted too, and the length then taken modulo 2^32. *)
Theorem mqtt_length_roundtrip (n length : Z) (rest : list Z) :
  (0 <= n < 2 ^ 28 ->
   dummy_buggy_MQTT_packet_length_decode FIXED_OP_PASS (mqtt_encode 3 n ++ rest) length = Decoded 0 n)
  /\ (0 <= n < 2 ^ 35 ->
   dummy_buggy_MQTT_packet_length_decode FIXED_OP_PASS (mqtt_encode 4 n ++ rest) length = Decoded 0 (u32 n)).
Proof.
  unfold dummy_buggy_MQTT_packet_length_decode, PATCH_FUNCTION_ERR_CODE.
  change (negb (FIXED_OP_PASS =? FIXED_OP_PASS)) with false. cbv iota. split; intros Hn.
  - pose proof (mqtt_decode_encode rest 3 0 n 0 ltac:(lia) ltac:(lia) Hn) as H. change (7 * 0) with 0 in H. rewrite H.
    change (2 ^ 0) with 1. rewrite Z.mul_1_r, Z.add_0_l. f_equal. apply u32_small. lia.
  - pose proof (mqtt_decode_encode rest 4 0 n 0 ltac:(lia) ltac:(lia) Hn) as H. change (7 * 0) with 0 in H. rewrite H.
    change (2 ^ 0) with 1. by rewrite Z.mul_1_r, Z.add_0_l.
Qed.

Lemma mqtt_length_roundtrip_witness :
  dummy_buggy_MQTT_packet_length_decode FIXED_OP_PASS (mqtt_encode 3 321) 0 = Decoded 0 321
  /\ dummy_buggy_MQTT_packet_length_decode FIXED_OP_PASS [255; 255; 255; 255; 127] 0 = Decoded 0 (u32 (2 ^ 35 - 1)).
Proof.
  split.
  - rewrite <- (app_nil_r (mqtt_encode 3 321)). apply (mqtt_length_roundtrip 321 0 []). lia.
  - apply (mqtt_length_roundtrip (2 ^ 35 - 1) 0 []). lia.
Defined.

(** The decoder never shifts by more than the width of the length: it is
    defined on every packet, and reads at most five bytes of it. *)
Theorem mqtt_decode_defined (bytes : list Z) (c len : Z) :
  0 <= c <= 5 -> mqtt_decode bytes (7 * c) c len <> Decode_undefined
  /\ mqtt_decode (take (Z.to_nat (5 - c)) bytes) (7 * c) c len = mqtt_decode bytes (7 * c) c len.
Proof.
  revert c len. induction bytes as [|b bytes IH]; intros c len Hc.
  { rewrite take_nil. split; [|done]. cbn. by destruct (4 <? c). }
  destruct (decide (c = 5)) as [->|Hne]; [done|].
  replace (Z.to_nat (5 - c)) with (S (Z.to_nat (5 - (c + 1)))) by lia. cbn [take mqtt_decode].
  destruct (Z.ltb_spec 4 c); [done|]. destruct (Z.leb_spec 32 (7 * c)); [lia|].
  destruct (negb _); [|done]. rewrite !u8_small by lia. replace (7 * c + 7) with (7 * (c + 1)) by lia.
  apply IH. lia.
Qed.

Lemma mqtt_decode_defined_witness : mqtt_decode [255; 255; 255; 255; 255; 255] 0 0 0 <> Decode_undefined.
Proof. exact (proj1 (mqtt_decode_defined [255; 255; 255; 255; 255; 255] 0 0 ltac:(lia))). Defined.

(** An option whose length byte is 254 takes no room: the loop of
    process_destopt then never ends, while the same packet is refused at once
    when the patch point answers for the function. *)
Theorem process_destopt_spins (destopt : list Z) (b x : Z) (fuel : nat) :
  zget destopt 1 = Some b -> destopt_len b <> 0 -> zget destopt 2 = Some x -> zget destopt 3 = Some 254 ->
  dummy_CVE_2020_17445_pico_ipv6_process_destopt FIXED_OP_PASS fuel destopt = OptRunning
  /\ forall hook, hook <> FIXED_OP_PASS -> dummy_CVE_2020_17445_pico_ipv6_process_destopt hook fuel destopt = OptDone.
Proof.
  intros Hb Hlen Hx Ho. unfold dummy_CVE_2020_17445_pico_ipv6_process_destopt, PATCH_FUNCTION_ERR_CODE. split.
  - change (negb (FIXED_OP_PASS =? FIXED_OP_PASS)) with false. cbv iota. rewrite Hb.
    induction fuel as [|fuel IH]; [done|]. cbn [process_options].
    destruct (Z.eqb_spec (destopt_len b) 0); [done|]. rewrite Hx. change (2 + 1) with 3. rewrite Ho.
    change (u8 (254 + 2)) with 0. rewrite Z.add_0_r, Z.sub_0_r.
    replace (u8 (destopt_len b)) with (destopt_len b); [exact IH|].
    symmetry. apply u8_small, u8_range.
  - intros hook Hh. destruct (Z.eqb_spec hook FIXED_OP_PASS); done.
Qed.

Lemma process_destopt_spins_witness :
  dummy_CVE_2020_17445_pico_ipv6_process_destopt FIXED_OP_PASS 1000 [1; 1; 254; 254; 254; 254; 254] = OptRunning.
Proof.
  apply (process_destopt_spins [1; 1; 254; 254; 254; 254; 254] 1 254 1000); [reflexivity|discriminate|reflexivity|reflexivity].
Defined.

(** ** Witnesses: a machine with two patches installed

    The frame is at 0x20001000; one patch point is the call at 0x08000100, the
    other the instruction at 0x08000300, and the same program serves both. *)

Definition le_word (x : Z) : list Z := le_bytes 4 x.

Definition frame_mem_at (dfsr : Z) (frame : list Z) : memory :=
  bytes_at 0x20001000 (concat (map le_word frame))
    (bytes_at SCB_DFSR (le_word dfsr) (bytes_at DCB_DEMCR (le_word 0x10000) ∅)).

Definition frame_mem : list Z -> memory := frame_mem_at 2.

Definition test_vm (prog : list ebpf_inst) : ebpf_vm :=
  {| insts := Some prog; num_insts := 10; bounds_check_enabled := false; helper_func := 64;
     jit_func := 0; use_jit := false |}.

Definition machine_with (prog : list ebpf_inst) (m : memory) : ctx_state :=
  mk_ctx {| fbits_filter := 0xFFFFFFFF; fpatch_list := Some map_sample; dbits_filter_bpkt := 0x08000300; dbits_filter_pc := 0x08000302;
            dpatch_list := [{| dp_patch := 64; dp_inst_addr := 0x08000300; dp_pc_addr := 0x08000302 |}] |}
         true
         {[ 64 := {| p_desc := 32; p_vm := Some (test_vm prog); p_is_active := true |} ]}
         {[ 32 := dynamic_desc 0x08000300 ]}
         {| g_helper_func := 64; helper_envs := {[ 64 := {| ext_funcs := replicate 12 0; refcnt := 1 |} ]} |}
         (mk_hw {| CTRL := 0x263; REMAP := 0; COMP := [bkpt_comp 0x08000300; 0; 0; 0; 0; 0] |}
                {| cur_idx := 1; bpkt_num := 6 |} true m).

Definition machine (prog : list ebpf_inst) (frame : list Z) : ctx_state := machine_with prog (frame_mem frame).

Definition no_jit (f args len : Z) (m : memory) : option (Z * memory) := None.
Definition no_ext (f : Z) (args : list Z) (m : memory) : option (Z * memory) := None.

(** Two aligned words in the same 64 kB block do not overlap when their low
    halves differ by at least 4. *)
Lemma apart_small (a b : Z) : 0 <= a < 2 ^ 32 - 4 -> 0 <= b < 2 ^ 32 - 4 -> a + 4 <= b \/ b + 4 <= a -> apart a b.
Proof. intros Ha Hb Hab j k Hj Hk. rewrite !(u32_small (_ + _)); rewrite !u32_small; lia. Qed.

Ltac discharge :=
  lazymatch goal with
  | |- apart _ _ => apply apart_small; unfold ctx_r0, ctx_lr, ctx_pc, frame_lr; lia
  | |- _ <= _ < _ => split; vm_compute; (reflexivity || discriminate)
  | |- is_Some _ => vm_compute; eexists; reflexivity
  | |- _ <> _ => vm_compute; discriminate
  | |- _ => vm_compute; reflexivity
  end.

(** A program that returns [hi << 32 | lo]. *)
Definition returns (hi lo : Z) : list ebpf_inst :=
  [mk_inst 0x18 0 0 0 lo; mk_inst 0 0 0 0 hi; mk_inst 0x95 0 0 0 0].

(** The state an operation ends in, [s] when it faults. *)
Definition state_after (s : ctx_state) (o : option ctx_state) : ctx_state := default s o.
Definition state_of {A} (s : ctx_state) (o : option (A * ctx_state)) : ctx_state := state_after s (snd <$> o).

Definition fixed_frame : list Z := [7; 0; 0; 0; 0x08000105].
Definition bkpt_frame : list Z := [7; 0; 0; 0; 0; 0x08000555; 0x08000300; 0].
Definition the_patch (prog : list ebpf_inst) : ebpf_patch := {| p_desc := 32; p_vm := Some (test_vm prog); p_is_active := true |}.

Section Witnesses.
Local Abbreviation stray := (fun _ : Z => 0).
Local Abbreviation regs := (replicate 12 0).
Local Abbreviation dispatch := (dispatch_fixed_patch_point stray stray no_jit no_ext 0x20002000 regs).
Local Abbreviation run_filter := (run_filter no_jit no_ext 0x20002000 regs).
Local Abbreviation run_here := (run_patch_here no_jit no_ext 0x20002000 regs).
Local Abbreviation monitor := (leave_debug_monitor no_jit no_ext 0x20002000 regs).
Local Abbreviation fixed prog := (machine prog fixed_frame).
Local Abbreviation bkpt prog := (machine prog bkpt_frame).

Definition filtered (prog : list ebpf_inst) (frame : list Z) (size : Z) : ctx_state :=
  state_of (machine prog frame) (run_filter (machine prog frame) 64 0x20001000 size).

Lemma dispatch_guard_witness :
  exists s' hook, dispatch (fixed (returns 1 5)) 0x20001000 = Some s' /\ get32 s' (0x20001000 + frame_r0) = Some hook
  /\ PATCH_FUNCTION_ERR_CODE hook (fun r => r) 99 = 0.
Proof.
  refine (dispatch_guard stray stray no_jit no_ext 0x20002000 regs (fixed (returns 1 5)) (filtered (returns 1 5) fixed_frame sizeof_fixed_stack_frame)
    0x20001000 0x08000105 64 (2 ^ 32 + 5) (the_patch (returns 1 5)) (fun r => r) 99 _ _ _ _ _ _ _ _).
  all: discharge.
Defined.

Definition caller_code : ctx_state :=
  machine_with (returns 2 0x08000401) (bytes_at 0x08000104 (replicate 8 0) (frame_mem fixed_frame)).

Lemma dispatch_redirect_writes_code_witness :
  exists s', dispatch caller_code 0x20001000 = Some s' /\ get32 s' 0x08000105 = Some 0x08000401
    /\ get32 s' (0x20001000 + frame_lr) = Some 0x08000105.
Proof.
  refine (dispatch_redirect_writes_code stray stray no_jit no_ext 0x20002000 regs caller_code
    (state_of caller_code (run_filter caller_code 64 0x20001000 sizeof_fixed_stack_frame))
    0x20001000 0x08000105 0x08000105 64 (2 ^ 33 + 0x08000401) (the_patch (returns 2 0x08000401)) _ _ _ _ _ _ _ _ _ _).
  all: discharge.
Defined.

Lemma dispatch_without_patch_null_witness :
  dispatch (machine [] [7; 0; 0; 0; 0x08000205]) 0x20001000 = None.
Proof.
  refine (dispatch_without_patch_null stray stray no_jit no_ext 0x20002000 regs (machine [] [7; 0; 0; 0; 0x08000205]) 0x20001000 0x08000205 _ _ _).
  all: discharge.
Defined.

Lemma monitor_drop_returns_witness :
  exists s', monitor (bkpt (returns 1 5)) 0x20001000 = Some s' /\ get32 s' (0x20001000 + ctx_r0) = Some 5
    /\ get32 s' (0x20001000 + ctx_pc) = Some 0x08000555 /\ FPB (hw s') = FPB (hw (bkpt (returns 1 5))).
Proof.
  refine (monitor_drop_returns no_jit no_ext 0x20002000 regs (bkpt (returns 1 5)) (filtered (returns 1 5) bkpt_frame sizeof_ebpf_args_frame)
    0x20001000 2 0x08000300 0x08000555 64 (2 ^ 32 + 5) _ _ _ _ _ _ _ _ _ _ _ _ _).
  all: discharge.
Defined.

(** The machine after the breakpoint event, and when the step has been made. *)
Definition stopped : ctx_state := state_after (bkpt []) (monitor (bkpt (returns 0 0)) 0x20001000).
Definition stepped (s : ctx_state) : ctx_state := with_hw s (with_hwmem (hw s) (bytes_at SCB_DFSR (le_word 1) (hw_mem (hw s)))).

Lemma monitor_rearms_witness :
  exists s4, monitor (stepped stopped) 0x20001000 = Some s4
  /\ CTRL (FPB (hw s4)) = 0x263 /\ COMP (FPB (hw s4)) = [bkpt_comp 0x08000300; 0; 0; 0; 0; 0]
  /\ get32 s4 DCB_DEMCR = Some 0x10000.
Proof.
  refine (match monitor_rearms no_jit no_ext 0x20002000 regs (bkpt (returns 0 0))
    (state_of (bkpt []) (run_here (bkpt (returns 0 0)) 0x20001000)) 0x20001000 2 0x10000 _ _ _ _ _ _ _ with
    | ex_intro _ s2 (conj E (conj _ (conj _ H))) => _ end).
  1-7: discharge.
  assert (s2 = stopped) as -> by (unfold stopped; by rewrite E).
  refine (H (stepped stopped) 0x20001000 _ _ _); discharge.
Defined.

(** The comparator of a remapped instruction holds its address and the enable bit. *)
Definition remapped (prog : list ebpf_inst) : ctx_state :=
  with_hw (bkpt prog) (with_fpb (hw (bkpt prog)) {| CTRL := 0x263; REMAP := 0; COMP := [0x08000301; 0; 0; 0; 0; 0] |}).

Lemma leave_fpb_bpkt_target_witness :
  leave_fpb_bpkt [] 0x20000000 no_jit no_ext 0x20002000 regs 8 (remapped (returns 2 0x08000401)) 0x20001000 0
  = Some (0x08000401, state_of (remapped []) (run_filter (remapped (returns 2 0x08000401)) 64 0x20001000 sizeof_ebpf_args_frame)).
Proof.
  refine (proj2 (leave_fpb_bpkt_target [] 0x20000000 no_jit no_ext 0x20002000 regs 8 (remapped (returns 2 0x08000401))
    (state_of (remapped []) (run_filter (remapped (returns 2 0x08000401)) 64 0x20001000 sizeof_ebpf_args_frame))
    0x20001000 0 0x08000301 64 (2 ^ 33 + 0x08000401) 0x08000555 _ _ _ _ _ _ _) _).
  all: discharge.
Defined.
End Witnesses.
