(* ===== verification/Stubs.v ===== *)
(** * The assembly stubs (hotpatch/src/cortex-m4_fbp.c, fixed_patch_points.c)

    The code between the processor and the dispatch: the function that an
    instrumented function calls, the trampolines of remapped instructions, and
    the handler of the debug monitor exception.  They are lists of the
    instructions of the source, run on the processor's registers; a call of a
    C function follows the procedure call standard, so it keeps r4 to r11 and
    the stack pointer, returns its result in r0, and leaves the other
    registers and the flags arbitrary ([clobber], [flags]).  The stack a C
    function uses itself, below the frame of the stub, is not modelled.  The
    entry and the return of an exception are those of ARMv7-M without the
    floating-point unit in use. *)

From S2P Require Import Prelude Mem EbpfInst EbpfVm Vm Hashmap Fpb FpbProps PatchCtx PatchCtxProps Dispatch DispatchProps.

(** ** The processor *)

(** r0 to r12 and lr; entry 15 is only used while pc is being loaded. *)
Record cpu := mk_cpu {
  c_reg : Z -> Z;
  c_msp : Z; c_psp : Z;
  c_control : Z;
  c_psr : Z;
  c_st : ctx_state }.

Definition LR : Z := 14.
Definition PC : Z := 15.

(** IPSR, the number of the exception that is handled, is not 0. *)
Definition handler_mode (c : cpu) : bool := negb (c_psr c .& 0x1ff =? 0).
Definition privileged (c : cpu) : bool := handler_mode c || (c_control c .& 1 =? 0).
Definition on_psp (c : cpu) : bool := negb (handler_mode c) && negb (c_control c .& 2 =? 0).
Definition sp_of (c : cpu) : Z := if on_psp c then c_psp c else c_msp c.

Definition set_reg (d v : Z) (c : cpu) : cpu :=
  mk_cpu (upd (c_reg c) d v) (c_msp c) (c_psp c) (c_control c) (c_psr c) (c_st c).
Definition set_sp (v : Z) (c : cpu) : cpu :=
  if on_psp c then mk_cpu (c_reg c) (c_msp c) v (c_control c) (c_psr c) (c_st c)
  else mk_cpu (c_reg c) v (c_psp c) (c_control c) (c_psr c) (c_st c).
Definition set_psr (v : Z) (c : cpu) : cpu := mk_cpu (c_reg c) (c_msp c) (c_psp c) (c_control c) v (c_st c).
Definition set_st (s : ctx_state) (c : cpu) : cpu := mk_cpu (c_reg c) (c_msp c) (c_psp c) (c_control c) (c_psr c) s.

Definition mem_of (c : cpu) : memory := hw_mem (hw (c_st c)).
Definition with_mem (s : ctx_state) (m : memory) : ctx_state := with_hw s (with_hwmem (hw s) m).
Definition set_mem (m : memory) (c : cpu) : cpu := set_st (with_mem (c_st c) m) c.
Definition set_regs (rvs : list (Z * Z)) (c : cpu) : cpu := foldl (fun c rv => set_reg (fst rv) (snd rv) c) c rvs.

(** The flags N, Z, C and V are bits 31 to 28 of xPSR. *)
Definition z_flag (c : cpu) : bool := Z.testbit (c_psr c) 30.
Definition b2z (b : bool) (n : Z) : Z := if b then 1 << n else 0.
Definition set_nz (v : Z) (c : cpu) : cpu :=
  set_psr (b2z (Z.testbit v 31) 31 .| b2z (v =? 0) 30 .| (c_psr c .& 0x3FFFFFFF)) c.
Definition set_cmp (a b : Z) (c : cpu) : cpu :=
  set_psr (b2z (Z.testbit (u32 (a - b)) 31) 31 .| b2z (u32 (a - b) =? 0) 30 .| b2z (b <=? a) 29
           .| b2z (negb (s32 (a - b) =? s32 a - s32 b)) 28 .| (c_psr c .& 0x0FFFFFFF)) c.

(** ** Instructions *)

Inductive special := CONTROL | MSP | PSP.

(** AL: always; EQ and NE: in the block of an ITE EQ. *)
Inductive condition := AL | EQ | NE.

Inductive c_function :=
  | C_dispatch_fixed_patch_point
  | C_leave_fpb_bpkt
  | C_fpb_enable_callback
  | C_leave_debug_monitor
  | C_hera_fix_func.

Inductive asm :=
  | NOP
  | PUSH (regs : list Z)
  | POP (regs : list Z)
  | MRS (c : condition) (rd : Z) (sr : special)
  | ITE_EQ
  | TST (rn imm : Z)
  | AND (rd rn imm : Z)
  | CMP (rn imm : Z)
  | CMP_reg (rn rm : Z)
  | MOVS (rd imm : Z)
  | MOV (rd rm : Z)
  | LDR_const (rd v : Z)             (* LDR.w rd, =v *)
  | BEQ (skip : nat)                 (* over the next [skip] instructions *)
  | BL (f : c_function)
  | B (f : c_function)
  | BX (rm : Z).

(** Where the code goes on when it is left. *)
Inductive exit := Goto (pc : Z) | Exc_return (v : Z) | Falls_through.

Definition holds_cond (cd : condition) (c : cpu) : bool :=
  match cd with AL => true | EQ => z_flag c | NE => negb (z_flag c) end.

(** The stack pointers read as 0 without privilege. *)
Definition special_value (sr : special) (c : cpu) : Z :=
  match sr with
  | CONTROL => c_control c
  | MSP => if privileged c then c_msp c else 0
  | PSP => if privileged c then c_psp c else 0
  end.

(** An address loaded to pc selects the instruction set by its bit 0: an even
    one is a fault.  In an exception handler the values from 0xF0000000 on
    return from the exception. *)
Definition load_pc (c : cpu) (v : Z) : option exit :=
  if handler_mode c && (0xF0000000 <=? v) then Some (Exc_return v)
  else if Z.odd v then Some (Goto (v - 1)) else None.

(** The registers a C function need not keep. *)
Definition scratch (k : Z) : bool := (k <? 4) || (k =? 12) || (k =? LR).

Section Exec.
Context (call : c_function -> cpu -> option (option Z * ctx_state)).
Context (clobber : Z -> Z) (flags : Z).

(** The state after a C function that returned [r], [None] for void. *)
Definition returned_c (r : option Z) (s : ctx_state) (c : cpu) : cpu :=
  mk_cpu (fun k => if k =? 0 then default (clobber 0) r else if scratch k then clobber k else c_reg c k)
         (c_msp c) (c_psp c) (c_control c) ((flags .& 0xF8000000) .| (c_psr c .& 0x07FFFFFF)) s.

Definition call_c (f : c_function) (c : cpu) : option cpu :=
  r ← call f c; Some (returned_c (fst r) (snd r) c).

Fixpoint exec (skip : nat) (code : list asm) (c : cpu) {struct code} : option (exit * cpu) :=
  match code with
  | [] => Some (Falls_through, c)
  | i :: code =>
      match skip with
      | S skip => exec skip code c
      | O =>
          match i with
          | NOP | ITE_EQ => exec 0 code c
          | PUSH regs =>
              let sp := u32 (sp_of c - 4 * Z.of_nat (length regs)) in
              m ← store_words sp (map (c_reg c) regs) (mem_of c);
              exec 0 code (set_sp sp (set_mem m c))
          | POP regs =>
              vs ← load_words (length regs) (sp_of c) (mem_of c);
              let c' := set_sp (u32 (sp_of c + 4 * Z.of_nat (length regs))) (set_regs (zip regs vs) c) in
              if existsb (Z.eqb PC) regs then e ← load_pc c' (c_reg c' PC); Some (e, c')
              else exec 0 code c'
          | MRS cd rd sr => exec 0 code (if holds_cond cd c then set_reg rd (special_value sr c) c else c)
          | TST rn imm => exec 0 code (set_nz (c_reg c rn .& imm) c)
          | AND rd rn imm => exec 0 code (set_reg rd (c_reg c rn .& imm) c)
          | CMP rn imm => exec 0 code (set_cmp (c_reg c rn) imm c)
          | CMP_reg rn rm => exec 0 code (set_cmp (c_reg c rn) (c_reg c rm) c)
          | MOVS rd imm => exec 0 code (set_nz imm (set_reg rd imm c))
          | MOV rd rm =>
              if rd =? PC then Some (Goto (c_reg c rm .& not1), c) else exec 0 code (set_reg rd (c_reg c rm) c)
          | LDR_const rd v => exec 0 code (set_reg rd v c)
          | BEQ n => exec (if z_flag c then n else O) code c
          | BL f => c ← call_c f c; exec 0 code c
          | B f => c' ← call_c f c; e ← load_pc c' (c_reg c LR); Some (e, c')
          | BX rm => e ← load_pc c (c_reg c rm); Some (e, c)
          end
      end
  end.

(** ** Exceptions

    Entry pushes eight words to the stack in use, aligned to eight bytes, and
    goes on on the main stack; lr says where to return to.  [clobber] and
    [flags] are what the entry leaves in the registers it saved. *)

Definition realigned (c : cpu) : bool := Z.testbit (sp_of c) 2.
Definition exc_frame (c : cpu) : Z := u32 (sp_of c - 32 - (if realigned c then 4 else 0)).

Definition EXC_RETURN_HANDLER : Z := 0xFFFFFFF1.
Definition EXC_RETURN_MSP : Z := 0xFFFFFFF9.
Definition EXC_RETURN_PSP : Z := 0xFFFFFFFD.

Definition exc_return_value (c : cpu) : Z :=
  if handler_mode c then EXC_RETURN_HANDLER else if on_psp c then EXC_RETURN_PSP else EXC_RETURN_MSP.

(** All bits but 9; all bits but 1. *)
Definition not_bit9 : Z := 0xFFFFFDFF.
Definition not_spsel : Z := 0xFFFFFFFD.

Definition stacked_words (c : cpu) (pc : Z) : list Z :=
  [c_reg c 0; c_reg c 1; c_reg c 2; c_reg c 3; c_reg c 12; c_reg c LR; pc;
   if realigned c then c_psr c .| 0x200 else c_psr c .& not_bit9].

(** The debug monitor is exception 12. *)
Definition exception_entry (c : cpu) (pc : Z) : option cpu :=
  m ← store_words (exc_frame c) (stacked_words c pc) (mem_of c);
  let c1 := set_sp (exc_frame c) (set_mem m c) in
  Some (mk_cpu (fun k => if k =? LR then exc_return_value c else if scratch k then clobber k else c_reg c k)
               (c_msp c1) (c_psp c1) (c_control c .& not_spsel) ((flags .& 0xF8000000) .| 0x0100000C) (c_st c1)).

(** What the processor makes of an odd address in the frame, which the manual
    calls unpredictable, is [return_to]. *)
Context (return_to : Z -> Z).

Definition unstacked (v : Z) (f : Z) (ws : list Z) (c : cpu) : option (Z * cpu) :=
  match ws with
  | [r0; r1; r2; r3; r12; lr; pc; psr] =>
      let psp := v =? EXC_RETURN_PSP in
      let sp := if Z.testbit psr 9 then u32 (f + 32) .| 4 else u32 (f + 32) in
      let c' := mk_cpu (c_reg (set_regs [(0, r0); (1, r1); (2, r2); (3, r3); (12, r12); (LR, lr)] c))
                  (if psp then c_msp c else sp) (if psp then sp else c_psp c)
                  (if psp then c_control c .| 2 else c_control c .& not_spsel) (psr .& not_bit9) (c_st c) in
      if Bool.eqb (handler_mode c') (v =? EXC_RETURN_HANDLER) then Some (return_to pc, c') else None
  | _ => None
  end.

Definition exception_return (v : Z) (c : cpu) : option (Z * cpu) :=
  if (v =? EXC_RETURN_HANDLER) || (v =? EXC_RETURN_MSP) || (v =? EXC_RETURN_PSP) then
    let f := if v =? EXC_RETURN_PSP then c_psp c else c_msp c in
    ws ← load_words 8 f (mem_of c); unstacked v f ws c
  else None.

(** An exception at [pc] that the code [handler] handles. *)
Definition take_exception (handler : list asm) (c : cpu) (pc : Z) : option (Z * cpu) :=
  c1 ← exception_entry c pc;
  r ← exec 0 handler c1;
  match fst r with Exc_return v => exception_return v (snd r) | _ => None end.
End Exec.

(** ** The stubs *)

(** fixed_patch_points.c, built with the ARM compiler *)
Definition save_context : list asm := [PUSH [0; 1; 2; 3]].
Definition restore_context : list asm := [POP [0; 1; 2; 3]].
Definition keil_fixed_patch_point_hanlder : list asm :=
  [PUSH [0; LR]; MRS AL 0 CONTROL; TST 0 2; ITE_EQ; MRS EQ 0 MSP; MRS NE 0 PSP; MRS AL 0 MSP;
   BL C_dispatch_fixed_patch_point; POP [0; PC]].

(** The same, built with GCC *)
Definition fixed_patch_point_hanlder : list asm :=
  [PUSH [0; 1; 2; 3; LR]; MRS AL 0 CONTROL; TST 0 2; ITE_EQ; MRS EQ 0 MSP; MRS NE 0 PSP;
   BL C_dispatch_fixed_patch_point; POP [0; 1; 2; 3; PC]].

(** cortex-m4_fbp.c, built with the ARM compiler *)
Definition HERA_Dipatcher : list asm :=
  [PUSH [0; 1; 2; 3; 7; LR];
   LDR_const 3 0x2000050; CMP_reg LR 3; BEQ 12;
   LDR_const 3 0x2000052; CMP_reg LR 3; BEQ 9;
   LDR_const 3 0x2000054; CMP_reg LR 3; BEQ 6;
   LDR_const 3 0x2000055; CMP_reg LR 3; BEQ 3;
   LDR_const 3 0x2000057; CMP_reg LR 3; BEQ 0;
   BL C_hera_fix_func; POP [0; 1; 2; 3; 7; PC]].

Definition FPB_Handler0 : list asm :=
  [NOP; NOP; NOP; NOP; PUSH [0; 1; 2; 3; 12; LR];
   MRS AL 0 CONTROL; TST 0 2; ITE_EQ; MRS EQ 0 MSP; MRS NE 0 PSP; MOVS 1 0;
   BL C_leave_fpb_bpkt; MOV 5 0; POP [0; 1; 2; 3; 12; LR]; MOV PC 5].

Definition FPB_Handler1 : list asm :=
  [NOP; NOP; NOP; NOP; PUSH [0; 1; 2; 3; 12; LR];
   MRS AL 0 CONTROL; TST 0 2; ITE_EQ; MRS EQ 0 MSP; MRS NE 0 PSP; MOVS 1 1;
   BL C_leave_fpb_bpkt; MOV 5 0; POP [0; 1; 2; 3; 12; LR]; MOV 0 5].

Definition FPB_Handler2 : list asm :=
  [NOP; NOP; NOP; NOP; PUSH [0; 1; 2; 3; 12; LR];
   TST LR 4; ITE_EQ; MRS EQ 0 MSP; MRS NE 0 PSP; MOVS 1 2;
   BL C_leave_fpb_bpkt; POP [0; 1; 2; 3; 12; LR]; BX LR].

Definition FPB_Handler3 : list asm :=
  [NOP; NOP; NOP; NOP; PUSH [0; 1; 2; 3; 12; LR];
   TST LR 4; ITE_EQ; MRS EQ 0 MSP; MRS NE 0 PSP; MOVS 1 3;
   BL C_leave_fpb_bpkt; POP [0; 1; 2; 3; 12; LR]; BX LR].

Definition FPB_Handler4 : list asm :=
  [NOP; NOP; NOP; NOP; PUSH [0; 1; 2; 3; 12; LR];
   TST LR 4; ITE_EQ; MRS EQ 0 MSP; MRS NE 0 PSP; MOVS 1 4;
   BL C_leave_fpb_bpkt; POP [0; 1; 2; 3; 12; LR]; BX LR].

Definition FPB_Handler5 : list asm :=
  [NOP; NOP; NOP; NOP; PUSH [0; 1; 2; 3; 12; LR];
   BL C_fpb_enable_callback; MOV 5 0; POP [0; 1; 2; 3; 12; LR]; MOV PC 5].

Definition DebugMon_Handler : list asm :=
  [TST LR 4; ITE_EQ; MRS EQ 0 MSP; MRS NE 0 PSP; B C_leave_debug_monitor].

(** The same, built with GCC *)
Definition __debug_monitor : list asm :=
  [AND 0 LR 4; CMP 0 0; ITE_EQ; MRS EQ 0 MSP; MRS NE 0 PSP; B C_leave_debug_monitor].

(** ** The functions HERA is compared on

    The header is 16 bytes into the packet, after 14 of the other one and the
    padding; [xDataLength] is the first word of the buffer. *)

Definition header_length (b : Z) : Z := u32 ((b .& 0x0F) << 2).

Definition freertos_cve_func (s : ctx_state) (pxIPPacket : Z) : option Z :=
  _ ← load_le 1 (u32 (pxIPPacket + 16)) (hw_mem (hw s)); Some 0.

Definition hera_fix_func (s : ctx_state) (pxIPPacket pxNetworkBuffer : Z) : option Z :=
  b ← load_le 1 (u32 (pxIPPacket + 16)) (hw_mem (hw s));
  xDataLength ← get32 s pxNetworkBuffer;
  Some (if (u32 (xDataLength - 14) <? header_length b) || (header_length b <? 20) then -1 else 0).

(** ** The C functions the stubs call *)

Section Calls.
Context (kstray vstray : Z -> Z).
Context (FPB_Handler : list Z) (REMAP_ADDR : Z).
Context (call_jit : Z -> Z -> Z -> memory -> option (Z * memory)).
Context (call_ext : Z -> list Z -> memory -> option (Z * memory)).
Context (stack : Z) (reg0 : list Z) (fuel : nat).

Definition c_call (f : c_function) (c : cpu) : option (option Z * ctx_state) :=
  let s := c_st c in
  match f with
  | C_dispatch_fixed_patch_point =>
      s ← dispatch_fixed_patch_point kstray vstray call_jit call_ext stack reg0 s (c_reg c 0); Some (None, s)
  | C_leave_fpb_bpkt =>
      r ← leave_fpb_bpkt FPB_Handler REMAP_ADDR call_jit call_ext stack reg0 fuel s (c_reg c 0) (c_reg c 1);
      Some (Some (fst r), snd r)
  | C_fpb_enable_callback => r ← fpb_enable_callback (hw s); Some (Some (fst r), with_hw s (snd r))
  | C_leave_debug_monitor => s ← leave_debug_monitor call_jit call_ext stack reg0 s (c_reg c 0); Some (None, s)
  | C_hera_fix_func => r ← hera_fix_func s (c_reg c 0) (c_reg c 1); Some (Some (u32 r), s)
  end.
End Calls.
