(* ===== verification/StubsProps.v ===== *)
(** * Properties of the stubs

    An instrumented function, a remapped instruction and a breakpoint, each
    from the processor's state before its stub to the state after it. *)

From S2P Require Import Prelude Mem EbpfInst EbpfVm Vm Hashmap Fpb FpbProps PatchCtx PatchCtxProps Dispatch DispatchProps Stubs.

(** ** Frames: words side by side *)

Lemma load_words_iff (n : nat) (a : Z) (m : memory) (ws : list Z) :
  load_words n a m = Some ws <->
  length ws = n /\ forall k w, ws !! k = Some w -> load_le 4 (a + 4 * Z.of_nat k) m = Some w.
Proof.
  revert a ws. induction n as [|n IH]; intros a ws; cbn [load_words].
  - split; [intros [= <-]; done|intros [Hl _]; by rewrite (nil_length_inv _ Hl)].
  - split.
    + destruct (load_le 4 a m) as [v|] eqn:Ev; [|done]. cbn [mbind option_bind].
      destruct (load_words n (a + 4) m) as [vs|] eqn:E; [|done]. cbn [mbind option_bind]. intros [= <-].
      apply IH in E as [Hl Hw]. split; [by cbn; rewrite Hl|]. intros [|k] w Hk; cbn in Hk.
      * injection Hk as <-. by rewrite Z.add_0_r.
      * rewrite <- (Hw k w Hk). f_equal. lia.
    + intros [Hl Hw]. destruct ws as [|v ws]; [done|]. pose proof (Hw O v eq_refl) as H0. rewrite Z.add_0_r in H0.
      rewrite H0. cbn [mbind option_bind]. rewrite (proj2 (IH (a + 4) ws)); [done|]. split; [by injection Hl|].
      intros k w Hk. rewrite <- (Hw (S k) w Hk). f_equal. lia.
Qed.

Lemma words_range (n : nat) (a : Z) (m : memory) (ws : list Z) :
  mem_wf m -> load_words n a m = Some ws -> Forall (fun w => 0 <= w < 2 ^ 32) ws.
Proof.
  intros Hm [_ Hw]%load_words_iff. apply Forall_lookup. intros k w Hk. exact (load_le_range 4 _ _ _ Hm (Hw k w Hk)).
Qed.

(** A word of the frame is written. *)
Lemma store_in_words (n : nat) (a v : Z) (k : nat) (m m' : memory) (ws : list Z) :
  4 * Z.of_nat n < 2 ^ 32 -> 0 <= v < 2 ^ 32 -> (k < n)%nat -> load_words n a m = Some ws ->
  store_le 4 (a + 4 * Z.of_nat k) v m = Some m' -> load_words n a m' = Some (<[k := v]> ws).
Proof.
  intros Hn Hv Hk [Hl Hw]%load_words_iff Hs. apply load_words_iff. split; [by rewrite length_insert|].
  intros j w Hj. destruct (decide (j = k)) as [->|Hne].
  - rewrite list_lookup_insert_eq in Hj by lia. injection Hj as <-. rewrite (load_store_le 4 _ _ _ _ ltac:(lia) Hs).
    f_equal. apply Z.mod_small. exact Hv.
  - rewrite list_lookup_insert_ne in Hj by done. rewrite <- (Hw j w Hj). pose proof (lookup_lt_Some _ _ _ Hj) as Hjl.
    apply load_le_ext. intros i Hi. apply (store_le_frame 4 _ _ _ _ _ Hs). intros l Hlr E.
    rewrite <- !Z.add_assoc in E. apply u32_add_inj in E; lia.
Qed.

(** The frame of [n] words at [a] in the machine's memory. *)
Definition frame_at (s : ctx_state) (a : Z) (n : nat) : option (list Z) := load_words n a (hw_mem (hw s)).

Lemma frame_get32 (s : ctx_state) (a : Z) (n k : nat) (ws : list Z) (w : Z) :
  frame_at s a n = Some ws -> ws !! k = Some w -> get32 s (a + 4 * Z.of_nat k) = Some w.
Proof. intros [_ Hw]%load_words_iff Hk. unfold get32. rewrite load_le_u32. by apply Hw. Qed.

Lemma frame_set32 (s s' : ctx_state) (a v : Z) (n k : nat) (ws : list Z) :
  4 * Z.of_nat n < 2 ^ 32 -> 0 <= v < 2 ^ 32 -> (k < n)%nat -> frame_at s a n = Some ws ->
  set32 s (a + 4 * Z.of_nat k) v = Some s' -> frame_at s' a n = Some (<[k := v]> ws).
Proof.
  unfold set32, put32, frame_at. intros Hn Hv Hk Hf. rewrite store_le_u32.
  destruct (store_le 4 _ v _) as [m|] eqn:E; [|done]. cbn [mbind option_bind]. intros [= <-].
  cbn [hw with_hw with_hwmem hw_mem]. by apply (store_in_words n a v k _ _ _ Hn Hv Hk Hf).
Qed.

Lemma frame_set32_some (s : ctx_state) (a v : Z) (n k : nat) (ws : list Z) :
  4 * Z.of_nat n < 2 ^ 32 -> 0 <= v < 2 ^ 32 -> (k < n)%nat -> frame_at s a n = Some ws ->
  exists s', set32 s (a + 4 * Z.of_nat k) v = Some s' /\ frame_at s' a n = Some (<[k := v]> ws).
Proof.
  intros Hn Hv Hk Hf. pose proof (proj1 (proj1 (load_words_iff _ _ _ _) Hf)) as Hl.
  destruct (lookup_lt_is_Some_2 ws k ltac:(lia)) as [w Hw].
  destruct (set32_readable s (a + 4 * Z.of_nat k) v) as [s' E]; [exists w; by apply (frame_get32 s a n k ws)|].
  exists s'. split; [done|]. by apply (frame_set32 s s' a v n k ws).
Qed.

(** ** Pushing and popping *)

Definition core_reg (r : Z) : bool := (0 <=? r) && (r <? 13) || (r =? LR).
Definition regs_ok (c : cpu) : Prop := forall r, core_reg r = true -> 0 <= c_reg c r < 2 ^ 32.

(** The processor can push [room] bytes. *)
Record cpu_ok (room : Z) (c : cpu) : Prop := {
  ok_regs : regs_ok c;
  ok_sp : room <= sp_of c <= 0xE0000000;
  ok_mem : mem_wf (mem_of c);
  ok_room : forall b, in_bytes (sp_of c - room) room b -> is_Some (mem_of c !! b);
  ok_priv : privileged c = true;
  ok_spsel : handler_mode c = true -> c_control c .& 2 = 0 }.

(** The state of the machine after [regs] have been pushed. *)
Definition pushed (regs : list Z) (c : cpu) : option ctx_state :=
  m ← store_words (u32 (sp_of c - 4 * Z.of_nat (length regs))) (map (c_reg c) regs) (mem_of c);
  Some (with_mem (c_st c) m).

Lemma stub_push_spec (regs : list Z) (c : cpu) :
  forallb core_reg regs = true -> cpu_ok (4 * Z.of_nat (length regs)) c ->
  exists s1, pushed regs c = Some s1 /\ mem_wf (hw_mem (hw s1)) /\
    frame_at s1 (sp_of c - 4 * Z.of_nat (length regs)) (length regs) = Some (map (c_reg c) regs) /\
    (forall b, ~ in_bytes (sp_of c - 4 * Z.of_nat (length regs)) (4 * Z.of_nat (length regs)) b ->
       hw_mem (hw s1) !! b = mem_of c !! b).
Proof.
  intros Hc [R S M F _ _]. unfold pushed. set (n := 4 * Z.of_nat (length regs)) in *. rewrite u32_small by lia.
  destruct (store_words_spec (map (c_reg c) regs) (sp_of c - n) (mem_of c)) as (m & H1 & H2 & W & _ & Hf);
    rewrite ?length_map; [lia| |done|exact F|].
  { apply Forall_fmap, Forall_forall. intros r Hr. apply R. exact (proj1 (forallb_forall core_reg regs) Hc r Hr). }
  rewrite length_map in H2, Hf. rewrite H1. cbn [mbind option_bind]. exists (with_mem (c_st c) m). by split_and!.
Qed.

(** What the instructions of a stub never change. *)
Definition same_mode (c c' : cpu) : Prop := c_psr c' .& 0x1ff = c_psr c .& 0x1ff /\ c_control c' = c_control c.

Lemma same_mode_refl (c : cpu) : same_mode c c.
Proof. done. Qed.

Lemma same_mode_trans (c1 c2 c3 : cpu) : same_mode c1 c2 -> same_mode c2 c3 -> same_mode c1 c3.
Proof. intros [H1 H2] [H3 H4]. split; congruence. Qed.

Lemma same_mode_handler (c c' : cpu) : same_mode c c' -> handler_mode c' = handler_mode c.
Proof. intros [H _]. unfold handler_mode. by rewrite H. Qed.

Lemma same_mode_psp (c c' : cpu) : same_mode c c' -> on_psp c' = on_psp c.
Proof. intros H. unfold on_psp. by rewrite (same_mode_handler _ _ H), (proj2 H). Qed.

Lemma same_mode_privileged (c c' : cpu) : same_mode c c' -> privileged c' = privileged c.
Proof. intros H. unfold privileged. by rewrite (same_mode_handler _ _ H), (proj2 H). Qed.

Lemma mode_below (x p k : Z) : x .& 0x1ff = 0 -> k .& 0x1ff = 0x1ff -> (x .| (p .& k)) .& 0x1ff = p .& 0x1ff.
Proof. intros Hx Hk. by rewrite Z.land_lor_distr_l, Hx, Z.lor_0_l, <- Z.land_assoc, Hk. Qed.

Lemma b2z_mode (b : bool) (n : Z) : 9 <= n -> b2z b n .& 0x1ff = 0.
Proof.
  intros Hn. destruct b; [|done]. cbn [b2z]. apply Z.bits_inj'. intros i Hi. rewrite Z.land_spec, Z.testbit_0_l, testbit_shl by lia.
  destruct (Z.ltb_spec i 9); [by rewrite (Z.testbit_neg_r 1) by lia|]. by rewrite (testbit_above 9 0x1ff i), andb_false_r by lia.
Qed.

Lemma set_nz_mode (v : Z) (c : cpu) : same_mode c (set_nz v c).
Proof. split; [|done]. cbn. apply mode_below; [|done]. by rewrite Z.land_lor_distr_l, !b2z_mode by lia. Qed.

Lemma set_nz_z (v : Z) (c : cpu) : z_flag (set_nz v c) = (v =? 0).
Proof.
  unfold z_flag, set_nz, set_psr. cbn [c_psr]. rewrite !Z.lor_spec, Z.land_spec. change (Z.testbit 0x3FFFFFFF 30) with false. rewrite andb_false_r, orb_false_r.
  destruct (Z.testbit v 31), (v =? 0); reflexivity.
Qed.

Lemma set_sp_mode (v : Z) (c : cpu) : same_mode c (set_sp v c).
Proof. unfold set_sp. by destruct (on_psp c). Qed.

Lemma set_sp_sp (v : Z) (c : cpu) : sp_of (set_sp v c) = v.
Proof. unfold sp_of. rewrite (same_mode_psp _ _ (set_sp_mode v c)). unfold set_sp. by destruct (on_psp c). Qed.

Lemma set_sp_reg (v : Z) (c : cpu) : c_reg (set_sp v c) = c_reg c.
Proof. unfold set_sp. by destruct (on_psp c). Qed.

Lemma set_sp_st (v : Z) (c : cpu) : c_st (set_sp v c) = c_st c.
Proof. unfold set_sp. by destruct (on_psp c). Qed.

Lemma set_regs_rest (rvs : list (Z * Z)) (c : cpu) :
  c_msp (set_regs rvs c) = c_msp c /\ c_psp (set_regs rvs c) = c_psp c /\ c_control (set_regs rvs c) = c_control c /\
  c_psr (set_regs rvs c) = c_psr c /\ c_st (set_regs rvs c) = c_st c.
Proof. revert c. induction rvs as [|[r v] rvs IH]; intros c; [done|]. cbn. exact (IH (set_reg r v c)). Qed.

(** ** Instructions, one at a time *)

Section Steps.
Context (call : c_function -> cpu -> option (option Z * ctx_state)).
Context (clobber : Z -> Z) (flags : Z).
Local Abbreviation exec := (exec call clobber flags 0).
Local Abbreviation returned_c := (returned_c clobber flags).

Lemma exec_push (regs : list Z) (code : list asm) (c : cpu) (s1 : ctx_state) :
  pushed regs c = Some s1 ->
  exec (PUSH regs :: code) c = exec code (set_sp (u32 (sp_of c - 4 * Z.of_nat (length regs))) (set_st s1 c)).
Proof. unfold pushed. cbn [Stubs.exec]. destruct (store_words _ _ _); [|done]. cbn [mbind option_bind]. by intros [= <-]. Qed.

Lemma exec_BL (f : c_function) (code : list asm) (c : cpu) (r : option Z) (s : ctx_state) :
  call f c = Some (r, s) -> exec (BL f :: code) c = exec code (returned_c r s c).
Proof. intros H. cbn [Stubs.exec]. unfold call_c. by rewrite H. Qed.

(** The stack pointer in use, found through CONTROL. *)
Definition selected (r0 : Z) (psr : Z) (c : cpu) : cpu :=
  mk_cpu (upd (c_reg c) 0 r0) (c_msp c) (c_psp c) (c_control c) psr (c_st c).

Lemma exec_select (code : list asm) (c : cpu) :
  privileged c = true -> (handler_mode c = true -> c_control c .& 2 = 0) ->
  exists r psr, exec (MRS AL 0 CONTROL :: TST 0 2 :: ITE_EQ :: MRS EQ 0 MSP :: MRS NE 0 PSP :: code) c = exec code r /\
    (forall k, k <> 0 -> c_reg r k = c_reg c k) /\ r = mk_cpu (c_reg r) (c_msp c) (c_psp c) (c_control c) psr (c_st c) /\
    same_mode c r /\ c_reg r 0 = sp_of c.
Proof.
  intros Hp Hh. set (c1 := set_reg 0 (c_control c) c). set (c2 := set_nz (c_control c .& 2) c1).
  assert (Hm : same_mode c c2) by (apply (same_mode_trans _ c1); [done|apply set_nz_mode]).
  assert (E : exec (MRS AL 0 CONTROL :: TST 0 2 :: ITE_EQ :: MRS EQ 0 MSP :: MRS NE 0 PSP :: code) c = exec code (set_reg 0 (sp_of c) c2)).
  { assert (Hz : z_flag c2 = (c_control c .& 2 =? 0)) by apply set_nz_z.
    assert (Hs : sp_of c = if c_control c .& 2 =? 0 then c_msp c else c_psp c).
    { unfold sp_of, on_psp. destruct (handler_mode c); cbn; [by rewrite (Hh eq_refl)|]. by destruct (_ =? 0). }
    transitivity (exec (MRS NE 0 PSP :: code) (if z_flag c2 then set_reg 0 (special_value MSP c2) c2 else c2)); [reflexivity|].
    rewrite Hz, Hs. cbn [special_value]. rewrite (same_mode_privileged _ _ Hm), Hp. destruct (c_control c .& 2 =? 0).
    - cbn [Stubs.exec holds_cond]. change (z_flag (set_reg 0 (c_msp c2) c2)) with (z_flag c2). by rewrite Hz.
    - cbn [Stubs.exec holds_cond special_value]. by rewrite Hz, (same_mode_privileged _ _ Hm), Hp. }
  exists (set_reg 0 (sp_of c) c2), (c_psr c2). rewrite E. split_and!; [done| |done|done|done].
  intros k Hk. cbn. by rewrite !upd_ne by done.
Qed.

(** What a C function keeps for its caller, but for the registers [lost]. *)
Definition kept (lost : list Z) (c c' : cpu) : Prop :=
  same_mode c c' /\ c_msp c' = c_msp c /\ c_psp c' = c_psp c /\
  forall r, 4 <= r < 12 -> r ∉ lost -> c_reg c' r = c_reg c r.

Lemma kept_trans (l : list Z) (c1 c2 c3 : cpu) : kept l c1 c2 -> kept l c2 c3 -> kept l c1 c3.
Proof.
  intros (M1 & A1 & B1 & R1) (M2 & A2 & B2 & R2). split_and!; [by eapply same_mode_trans|congruence|congruence|].
  intros r Hr Hl. rewrite R2, R1 by done. done.
Qed.

Lemma kept_returned (l : list Z) (r : option Z) (s : ctx_state) (c : cpu) : kept l c (returned_c r s c).
Proof.
  split_and!; [split; [|done]|done|done|].
  - cbn. apply mode_below; [|done]. by rewrite <- Z.land_assoc, Z.land_0_r.
  - intros k Hk _. cbn. unfold scratch, LR. destruct (Z.eqb_spec k 0); [lia|].
    destruct (Z.ltb_spec k 4), (Z.eqb_spec k 12), (Z.eqb_spec k 14); try lia. done.
Qed.

Lemma kept_set_reg (l : list Z) (r v : Z) (c : cpu) : r < 4 \/ r ∈ l -> kept l c (set_reg r v c).
Proof. intros Hr. split_and!; try done. intros k Hk Hl. cbn. apply upd_ne. intros ->. destruct Hr; [lia|done]. Qed.

Lemma kept_set_nz (l : list Z) (v : Z) (c : cpu) : kept l c (set_nz v c).
Proof. split_and!; try done. apply set_nz_mode. Qed.

(** What was pushed is popped again: the stack pointers are back. *)
Lemma pop_restores (l : list Z) (f : Z) (s : ctx_state) (c c3 : cpu) (rvs : list (Z * Z)) :
  kept l (set_sp f (set_st s c)) c3 ->
  forallb (fun rv => (fst rv <? 4) || (12 <=? fst rv)) rvs = true ->
  let c' := set_sp (sp_of c) (set_regs rvs c3) in
  kept l c c' /\ c_st c' = c_st c3 /\ c_reg c' = c_reg (set_regs rvs c3).
Proof.
  intros (M & A & B & R) Hrvs c'. destruct (set_regs_rest rvs c3) as (R1 & R2 & R3 & R4 & R5).
  assert (M0 : same_mode c c3) by (eapply same_mode_trans; [|exact M]; eapply same_mode_trans; [|apply set_sp_mode]; done).
  assert (M1 : same_mode c (set_regs rvs c3)) by (destruct M0; split; congruence).
  assert (Hps : on_psp (set_regs rvs c3) = on_psp c) by (by apply same_mode_psp).
  unfold c', set_sp. rewrite Hps. split; [|by destruct (on_psp c)].
  assert (Hreg : forall r, 4 <= r < 12 -> r ∉ l -> c_reg (set_regs rvs c3) r = c_reg c r).
  { intros r Hr Hl. transitivity (c_reg c3 r); [|rewrite R by done; by rewrite set_sp_reg].
    clear -Hrvs Hr. revert c3. induction rvs as [|[k v] rvs IH]; intros c3; [done|].
    cbn in Hrvs. apply andb_true_iff in Hrvs as [Hk Hrvs].
    change (set_regs ((k, v) :: rvs) c3) with (set_regs rvs (set_reg k v c3)). rewrite (IH Hrvs (set_reg k v c3)).
    cbn. apply upd_ne. intros ->. destruct (Z.ltb_spec k 4), (Z.leb_spec 12 k); (done || lia). }
  unfold set_sp in A, B. change (on_psp (set_st s c)) with (on_psp c) in A, B. unfold sp_of. destruct (on_psp c); cbn in A, B.
  - split_and!; cbn; [exact M1|by rewrite R1, A|done|exact Hreg].
  - split_and!; cbn; [exact M1|done|by rewrite R2, B|exact Hreg].
Qed.

(** Entering a stub. *)
Lemma stub_entry (regs : list Z) (c : cpu) (s1 : ctx_state) :
  cpu_ok (4 * Z.of_nat (length regs)) c -> pushed regs c = Some s1 ->
  let f := sp_of c - 4 * Z.of_nat (length regs) in
  let c1 := set_sp f (set_st s1 c) in
  u32 f = f /\ sp_of c1 = f /\ c_st c1 = s1 /\ c_reg c1 = c_reg c /\ same_mode c c1 /\
  privileged c1 = true /\ (handler_mode c1 = true -> c_control c1 .& 2 = 0) /\
  u32 (f + 4 * Z.of_nat (length regs)) = sp_of c.
Proof.
  intros [R S _ _ P H] Hp f c1. assert (Hm : same_mode c c1) by (apply (same_mode_trans _ (set_st s1 c)); [done|apply set_sp_mode]).
  split_and!; [apply u32_small; unfold f; lia|apply set_sp_sp|unfold c1; by rewrite set_sp_st|unfold c1; by rewrite set_sp_reg|done|by rewrite (same_mode_privileged _ _ Hm)| |].
  - rewrite (same_mode_handler _ _ Hm), (proj2 Hm). done.
  - unfold f. rewrite Z.sub_add. apply u32_small. lia.
Qed.

Lemma load_pc_mode (c c' : cpu) (v : Z) : same_mode c c' -> load_pc c' v = load_pc c v.
Proof. intros H. unfold load_pc. by rewrite (same_mode_handler _ _ H). Qed.

Lemma kept_sp (l : list Z) (c c' : cpu) : kept l c c' -> sp_of c' = sp_of c.
Proof. intros (M & A & B & _). unfold sp_of. by rewrite (same_mode_psp _ _ M), A, B. Qed.

(** *** The function an instrumented function calls *)

Lemma run_fixed_stub (c : cpu) (s1 s2 : ctx_state) (v r1 r2 r3 lr : Z) (e : exit) :
  cpu_ok 20 c -> pushed [0; 1; 2; 3; LR] c = Some s1 ->
  (forall c', c_st c' = s1 -> c_reg c' 0 = sp_of c - 20 -> call C_dispatch_fixed_patch_point c' = Some (None, s2)) ->
  frame_at s2 (sp_of c - 20) 5 = Some [v; r1; r2; r3; lr] -> load_pc c lr = Some e ->
  exists c', exec fixed_patch_point_hanlder c = Some (e, c') /\ kept [] c c' /\ c_st c' = s2 /\
    c_reg c' 0 = v /\ c_reg c' 1 = r1 /\ c_reg c' 2 = r2 /\ c_reg c' 3 = r3.
Proof.
  intros Hok Hpush Hcall Hf He. destruct (stub_entry [0; 1; 2; 3; LR] c s1 Hok Hpush) as (F & S1 & T1 & R1 & M1 & P1 & H1 & Fb).
  change (4 * Z.of_nat (length [0; 1; 2; 3; LR])) with 20 in *. set (f := sp_of c - 20) in *. set (c1 := set_sp f (set_st s1 c)) in *.
  unfold fixed_patch_point_hanlder. rewrite (exec_push _ _ _ s1 Hpush).
  change (4 * Z.of_nat (length [0; 1; 2; 3; LR])) with 20. fold f. rewrite F. fold c1.
  destruct (exec_select [BL C_dispatch_fixed_patch_point; POP [0; 1; 2; 3; PC]] c1 P1 H1) as (c2 & psr & -> & R2 & E2 & M2 & V2).
  rewrite (exec_BL _ _ c2 None s2) by (apply Hcall; [by rewrite E2|by rewrite V2, S1]).
  set (c3 := returned_c None s2 c2).
  assert (K : kept [] c1 c3).
  { apply (kept_trans _ _ c2); [|apply kept_returned]. rewrite E2. split_and!; [by rewrite <- E2|done|done|]. intros r Hr _. apply R2. lia. }
  cbn [Stubs.exec]. rewrite (kept_sp _ _ _ K), S1. change (mem_of c3) with (hw_mem (hw s2)). unfold frame_at in Hf.
  change (length [0; 1; 2; 3; PC]) with 5%nat. rewrite Hf. cbn [mbind option_bind]. change (4 * Z.of_nat 5) with 20. rewrite Fb.
  destruct (pop_restores [] f s1 c c3 (zip [0; 1; 2; 3; PC] [v; r1; r2; r3; lr]) K eq_refl) as (K' & T' & R').
  set (c' := set_sp (sp_of c) _) in *. change (existsb (Z.eqb PC) [0; 1; 2; 3; PC]) with true. cbv iota.
  assert (Hpc : c_reg c' PC = lr) by (by rewrite R'). rewrite Hpc, (load_pc_mode c c' lr (proj1 K')), He. cbn [mbind option_bind].
  exists c'. split; [done|]. split; [done|]. rewrite T', R'. done.
Qed.

(** *** The trampolines of remapped instructions *)

Local Abbreviation saved_regs := [0; 1; 2; 3; 12; LR].

(** Pushing the frame, with four NOPs before it. *)
Lemma enter_trampoline (code : list asm) (c : cpu) (s1 : ctx_state) :
  cpu_ok 24 c -> pushed saved_regs c = Some s1 ->
  let c1 := set_sp (sp_of c - 24) (set_st s1 c) in
  exec (NOP :: NOP :: NOP :: NOP :: PUSH saved_regs :: code) c = exec code c1 /\
  sp_of c1 = sp_of c - 24 /\ c_st c1 = s1 /\ c_reg c1 = c_reg c /\ same_mode c c1 /\
  privileged c1 = true /\ (handler_mode c1 = true -> c_control c1 .& 2 = 0) /\ u32 (sp_of c - 24 + 24) = sp_of c.
Proof.
  intros Hok Hpush c1. destruct (stub_entry saved_regs c s1 Hok Hpush) as (F & S1 & T1 & R1 & M1 & P1 & H1 & Fb).
  change (4 * Z.of_nat (length saved_regs)) with 24 in *. fold c1 in S1, T1, R1, M1, P1, H1. split; [|done].
  transitivity (exec (PUSH saved_regs :: code) c); [reflexivity|]. rewrite (exec_push _ _ _ s1 Hpush).
  change (4 * Z.of_nat (length saved_regs)) with 24. by rewrite F.
Qed.

(** Popping it after the call. *)
Lemma leave_trampoline (l : list Z) (code : list asm) (c c3 : cpu) (s1 : ctx_state) (r0 r1 r2 r3 r12 lr : Z) :
  cpu_ok 24 c -> kept l (set_sp (sp_of c - 24) (set_st s1 c)) c3 ->
  frame_at (c_st c3) (sp_of c - 24) 6 = Some [r0; r1; r2; r3; r12; lr] ->
  exists c', exec (POP saved_regs :: code) c3 = exec code c' /\ kept l c c' /\ c_st c' = c_st c3 /\
    c_reg c' 5 = c_reg c3 5 /\ map (c_reg c') saved_regs = [r0; r1; r2; r3; r12; lr].
Proof.
  intros [_ Hsp _ _ _ _] K Hf. cbn [Stubs.exec]. rewrite (kept_sp _ _ _ K), set_sp_sp. unfold frame_at in Hf.
  change (mem_of c3) with (hw_mem (hw (c_st c3))). change (length saved_regs) with 6%nat. rewrite Hf. cbn [mbind option_bind].
  change (4 * Z.of_nat 6) with 24. rewrite Z.sub_add, u32_small by lia.
  destruct (pop_restores l (sp_of c - 24) s1 c c3 (zip saved_regs [r0; r1; r2; r3; r12; lr]) K eq_refl) as (K' & T' & R').
  set (c' := set_sp (sp_of c) _) in *. change (existsb (Z.eqb PC) saved_regs) with false. cbv iota.
  exists c'. split; [done|]. split; [done|]. split; [done|]. by rewrite R'.
Qed.

(** The trampolines that select the stack by CONTROL. *)
Lemma run_trampoline (idx t : Z) (code : list asm) (c : cpu) (s1 s2 : ctx_state) (r0 r1 r2 r3 r12 lr : Z) :
  cpu_ok 24 c -> pushed saved_regs c = Some s1 ->
  (forall c', c_st c' = s1 -> c_reg c' 0 = sp_of c - 24 -> c_reg c' 1 = idx -> call C_leave_fpb_bpkt c' = Some (Some t, s2)) ->
  frame_at s2 (sp_of c - 24) 6 = Some [r0; r1; r2; r3; r12; lr] ->
  exists c', exec ([NOP; NOP; NOP; NOP; PUSH saved_regs; MRS AL 0 CONTROL; TST 0 2; ITE_EQ; MRS EQ 0 MSP; MRS NE 0 PSP; MOVS 1 idx;
                    BL C_leave_fpb_bpkt; MOV 5 0; POP saved_regs] ++ code) c = exec code c' /\
    kept [5] c c' /\ c_st c' = s2 /\ c_reg c' 5 = t /\ map (c_reg c') saved_regs = [r0; r1; r2; r3; r12; lr].
Proof.
  intros Hok Hpush Hcall Hf. cbn [app].
  destruct (enter_trampoline (MRS AL 0 CONTROL :: TST 0 2 :: ITE_EQ :: MRS EQ 0 MSP :: MRS NE 0 PSP :: MOVS 1 idx ::
    BL C_leave_fpb_bpkt :: MOV 5 0 :: POP saved_regs :: code) c s1 Hok Hpush) as (-> & S1 & T1 & R1 & M1 & P1 & H1 & Fb).
  set (c1 := set_sp _ _) in *.
  destruct (exec_select (MOVS 1 idx :: BL C_leave_fpb_bpkt :: MOV 5 0 :: POP saved_regs :: code) c1 P1 H1)
    as (c2 & psr & -> & R2 & E2 & M2 & V2).
  set (c2' := set_nz idx (set_reg 1 idx c2)).
  change (exec (MOVS 1 idx :: BL C_leave_fpb_bpkt :: MOV 5 0 :: POP saved_regs :: code) c2)
    with (exec (BL C_leave_fpb_bpkt :: MOV 5 0 :: POP saved_regs :: code) c2').
  rewrite (exec_BL _ _ c2' (Some t) s2) by (apply Hcall; [cbn; by rewrite E2|cbn; by rewrite V2, S1|done]).
  set (c3 := set_reg 5 t (returned_c (Some t) s2 c2')).
  change (exec (MOV 5 0 :: POP saved_regs :: code) (returned_c (Some t) s2 c2')) with (exec (POP saved_regs :: code) c3).
  assert (K : kept [5] c1 c3).
  { apply (kept_trans _ _ c2); [rewrite E2; split_and!; [by rewrite <- E2|done|done|intros r Hr _; apply R2; lia]|].
    apply (kept_trans _ _ (set_reg 1 idx c2)); [apply kept_set_reg; by left|]. apply (kept_trans _ _ c2'); [apply kept_set_nz|].
    apply (kept_trans _ _ (returned_c (Some t) s2 c2')); [apply kept_returned|]. apply kept_set_reg. right. by left. }
  destruct (leave_trampoline [5] code c c3 s1 r0 r1 r2 r3 r12 lr Hok K Hf) as (c' & -> & K' & T' & R5 & R'). by exists c'.
Qed.

(** The stack pointer selected by bit 2 of lr. *)
Lemma exec_select_lr (code : list asm) (c : cpu) :
  privileged c = true ->
  exec (TST LR 4 :: ITE_EQ :: MRS EQ 0 MSP :: MRS NE 0 PSP :: code) c =
  exec code (set_reg 0 (if c_reg c LR .& 4 =? 0 then c_msp c else c_psp c) (set_nz (c_reg c LR .& 4) c)).
Proof.
  intros Hp. set (v := c_reg c LR .& 4). set (c2 := set_nz v c). assert (Hm : same_mode c c2) by apply set_nz_mode.
  assert (Hz : z_flag c2 = (v =? 0)) by apply set_nz_z.
  transitivity (exec (MRS NE 0 PSP :: code) (if z_flag c2 then set_reg 0 (special_value MSP c2) c2 else c2)); [reflexivity|].
  rewrite Hz. cbn [special_value]. rewrite (same_mode_privileged _ _ Hm), Hp. destruct (v =? 0).
  - cbn [Stubs.exec holds_cond]. change (z_flag (set_reg 0 (c_msp c2) c2)) with (z_flag c2). by rewrite Hz.
  - cbn [Stubs.exec holds_cond special_value]. by rewrite Hz, (same_mode_privileged _ _ Hm), Hp.
Qed.

(** The trampolines that select the stack by lr, and return there. *)
Lemma run_trampoline_lr (idx t : Z) (c : cpu) (s1 s2 : ctx_state) (r0 r1 r2 r3 r12 lr : Z) (e : exit) :
  cpu_ok 24 c -> pushed saved_regs c = Some s1 ->
  (forall c', c_st c' = s1 ->
     c_reg c' 0 = (if c_reg c LR .& 4 =? 0 then c_msp (set_sp (sp_of c - 24) c) else c_psp (set_sp (sp_of c - 24) c)) ->
     c_reg c' 1 = idx -> call C_leave_fpb_bpkt c' = Some (Some t, s2)) ->
  frame_at s2 (sp_of c - 24) 6 = Some [r0; r1; r2; r3; r12; lr] -> load_pc c lr = Some e ->
  exists c', exec [NOP; NOP; NOP; NOP; PUSH saved_regs; TST LR 4; ITE_EQ; MRS EQ 0 MSP; MRS NE 0 PSP; MOVS 1 idx;
                   BL C_leave_fpb_bpkt; POP saved_regs; BX LR] c = Some (e, c') /\
    kept [] c c' /\ c_st c' = s2 /\ map (c_reg c') saved_regs = [r0; r1; r2; r3; r12; lr].
Proof.
  intros Hok Hpush Hcall Hf He.
  destruct (enter_trampoline [TST LR 4; ITE_EQ; MRS EQ 0 MSP; MRS NE 0 PSP; MOVS 1 idx; BL C_leave_fpb_bpkt; POP saved_regs; BX LR]
    c s1 Hok Hpush) as (-> & S1 & T1 & R1 & M1 & P1 & H1 & Fb).
  set (c1 := set_sp (sp_of c - 24) (set_st s1 c)) in *. rewrite (exec_select_lr _ c1 P1).
  set (c2 := set_reg 0 _ _). set (c2' := set_nz idx (set_reg 1 idx c2)).
  change (exec [MOVS 1 idx; BL C_leave_fpb_bpkt; POP saved_regs; BX LR] c2) with (exec [BL C_leave_fpb_bpkt; POP saved_regs; BX LR] c2').
  assert (Hsel : c_reg c2' 0 = if c_reg c LR .& 4 =? 0 then c_msp (set_sp (sp_of c - 24) c) else c_psp (set_sp (sp_of c - 24) c)).
  { change (c_reg c2' 0) with (if c_reg c1 LR .& 4 =? 0 then c_msp c1 else c_psp c1). rewrite R1. unfold c1, set_sp.
    change (on_psp (set_st s1 c)) with (on_psp c). by destruct (on_psp c). }
  rewrite (exec_BL _ _ c2' (Some t) s2) by (apply Hcall; [exact T1|exact Hsel|done]).
  set (c3 := returned_c (Some t) s2 c2').
  assert (K : kept [] c1 c3).
  { apply (kept_trans _ _ (set_nz (c_reg c1 LR .& 4) c1)); [apply kept_set_nz|]. apply (kept_trans _ _ c2); [apply kept_set_reg; by left|].
    apply (kept_trans _ _ (set_reg 1 idx c2)); [apply kept_set_reg; by left|]. apply (kept_trans _ _ c2'); [apply kept_set_nz|].
    apply kept_returned. }
  destruct (leave_trampoline [] [BX LR] c c3 s1 r0 r1 r2 r3 r12 lr Hok K Hf) as (c' & -> & K' & T' & _ & R').
  exists c'. split; [|done]. cbn [Stubs.exec]. assert (c_reg c' LR = lr) as -> by (by injection R').
  by rewrite (load_pc_mode c c' lr (proj1 K')), He.
Qed.

(** The trampoline that arms the comparators again. *)
Lemma run_handler5 (t : Z) (c : cpu) (s1 s2 : ctx_state) (r0 r1 r2 r3 r12 lr : Z) :
  cpu_ok 24 c -> pushed saved_regs c = Some s1 ->
  (forall c', c_st c' = s1 -> call C_fpb_enable_callback c' = Some (Some t, s2)) ->
  frame_at s2 (sp_of c - 24) 6 = Some [r0; r1; r2; r3; r12; lr] ->
  exists c', exec FPB_Handler5 c = Some (Goto (t .& not1), c') /\
    kept [5] c c' /\ c_st c' = s2 /\ map (c_reg c') saved_regs = [r0; r1; r2; r3; r12; lr].
Proof.
  intros Hok Hpush Hcall Hf. unfold FPB_Handler5.
  destruct (enter_trampoline [BL C_fpb_enable_callback; MOV 5 0; POP saved_regs; MOV PC 5] c s1 Hok Hpush)
    as (-> & S1 & T1 & R1 & M1 & P1 & H1 & Fb).
  set (c1 := set_sp _ _) in *. rewrite (exec_BL _ _ c1 (Some t) s2) by (by apply Hcall).
  set (c3 := set_reg 5 t (returned_c (Some t) s2 c1)).
  change (exec [MOV 5 0; POP saved_regs; MOV PC 5] (returned_c (Some t) s2 c1)) with (exec [POP saved_regs; MOV PC 5] c3).
  assert (K : kept [5] c1 c3).
  { apply (kept_trans _ _ (returned_c (Some t) s2 c1)); [apply kept_returned|]. apply kept_set_reg. right. by left. }
  destruct (leave_trampoline [5] [MOV PC 5] c c3 s1 r0 r1 r2 r3 r12 lr Hok K Hf) as (c' & -> & K' & T' & R5 & R').
  exists c'. split; [|done]. cbn [Stubs.exec]. change (PC =? PC) with true. cbv iota. by rewrite R5.
Qed.

(** *** The debug monitor exception *)

(** The registers the entry does not push: bit 9 of xPSR, which the frame uses
    for the alignment, is clear. *)
Definition status_ok (c : cpu) : Prop :=
  0 <= c_psr c < 2 ^ 32 /\ Z.testbit (c_psr c) 9 = false /\ 0 <= c_control c < 2 ^ 32.

Definition pushed_frame (c : cpu) (pc : Z) : option ctx_state :=
  m ← store_words (exc_frame c) (stacked_words c pc) (mem_of c); Some (with_mem (c_st c) m).

Definition entered (c : cpu) (s1 : ctx_state) : cpu :=
  mk_cpu (fun k => if k =? LR then exc_return_value c else if scratch k then clobber k else c_reg c k)
         (c_msp (set_sp (exc_frame c) c)) (c_psp (set_sp (exc_frame c) c)) (c_control c .& not_spsel)
         ((flags .& 0xF8000000) .| 0x0100000C) s1.

Lemma exception_entry_eq (c : cpu) (pc : Z) (s1 : ctx_state) :
  pushed_frame c pc = Some s1 -> exception_entry clobber flags c pc = Some (entered c s1).
Proof.
  unfold pushed_frame, exception_entry. destruct (store_words _ _ _) as [m|]; [|done]. cbn [mbind option_bind]. intros [= <-].
  unfold entered, set_sp, set_mem. change (on_psp (set_st _ c)) with (on_psp c). by destruct (on_psp c).
Qed.

Lemma exc_frame_eq (c : cpu) : 36 <= sp_of c <= 0xE0000000 -> exc_frame c = sp_of c - 32 - (if realigned c then 4 else 0).
Proof. intros H. unfold exc_frame. apply u32_small. destruct (realigned c); lia. Qed.

Lemma stacked_psr (c : cpu) : status_ok c ->
  let w := if realigned c then c_psr c .| 0x200 else c_psr c .& not_bit9 in
  0 <= w < 2 ^ 32 /\ Z.testbit w 9 = realigned c /\ w .& not_bit9 = c_psr c.
Proof.
  intros (P & B9 & _). assert (Hn : c_psr c .& not_bit9 = c_psr c).
  { apply Z.bits_inj'. intros i Hi. rewrite Z.land_spec. destruct (Z.ltb_spec i 32); [|by rewrite (testbit_above 32) by lia].
    destruct (decide (i = 9)) as [->|]; [by rewrite B9|]. replace (Z.testbit not_bit9 i) with true; [apply andb_true_r|].
    unfold not_bit9. bit_cases i 32%nat; (done || lia). }
  cbv zeta. destruct (realigned c); [|by rewrite Hn].
  split; [apply lor_range; lia|]. split; [by rewrite Z.lor_spec, B9|]. by rewrite Z.land_lor_distr_l, Hn, Z.lor_0_r.
Qed.

Lemma pushed_frame_spec (c : cpu) (pc : Z) :
  cpu_ok 36 c -> status_ok c -> 0 <= pc < 2 ^ 32 ->
  exists s1, pushed_frame c pc = Some s1 /\ mem_wf (hw_mem (hw s1)) /\ frame_at s1 (exc_frame c) 8 = Some (stacked_words c pc) /\
    forall b, ~ in_bytes (sp_of c - 36) 36 b -> hw_mem (hw s1) !! b = mem_of c !! b.
Proof.
  intros [R S M F _ _] Hst Hpc. pose proof (exc_frame_eq c S) as Hf. destruct (stacked_psr c Hst) as (Hw & _).
  assert (Hin : forall b, in_bytes (exc_frame c) 32 b -> in_bytes (sp_of c - 36) 36 b).
  { intros b (k & Hk & ->). exists (k + (exc_frame c - (sp_of c - 36))). rewrite Hf. split; [destruct (realigned c); lia|]. f_equal. lia. }
  destruct (store_words_spec (stacked_words c pc) (exc_frame c) (mem_of c)) as (m & H1 & H2 & W & _ & Hm); [done| |done| |].
  { unfold stacked_words. repeat (apply Forall_cons_2; [first [exact Hw|exact Hpc|by apply R]|]). apply Forall_nil_2. }
  { intros b Hb. by apply F, Hin. }
  unfold pushed_frame. rewrite H1. cbn [mbind option_bind]. exists (with_mem (c_st c) m). split_and!; [done|done|exact H2|].
  intros b Hb. apply Hm. intros H. by apply Hb, Hin.
Qed.

Lemma entered_handler (c : cpu) (s1 : ctx_state) : handler_mode (entered c s1) = true.
Proof.
  unfold handler_mode. cbn. rewrite Z.land_lor_distr_l, <- Z.land_assoc. change (0xF8000000 .& 0x1ff) with 0.
  by rewrite Z.land_0_r.
Qed.

Lemma entered_privileged (c : cpu) (s1 : ctx_state) : privileged (entered c s1) = true.
Proof. unfold privileged. by rewrite entered_handler. Qed.

(** Both handlers find the frame by bit 2 of lr. *)
Lemma entered_frame (c : cpu) (s1 : ctx_state) :
  (if c_reg (entered c s1) LR .& 4 =? 0 then c_msp (entered c s1) else c_psp (entered c s1)) = exc_frame c.
Proof.
  change (c_reg (entered c s1) LR) with (exc_return_value c). unfold exc_return_value, entered, set_sp. cbn [c_msp c_psp].
  unfold on_psp. destruct (handler_mode c); [done|]. by destruct (c_control c .& 2 =? 0).
Qed.

Lemma set_cmp_mode (a b : Z) (c : cpu) : same_mode c (set_cmp a b c).
Proof.
  split; [|done]. cbn. apply mode_below; [|done]. by rewrite !Z.land_lor_distr_l, !b2z_mode by lia.
Qed.

Lemma kept_set_cmp (l : list Z) (a b : Z) (c : cpu) : kept l c (set_cmp a b c).
Proof. split; [apply set_cmp_mode|done]. Qed.

Lemma set_cmp_z (a b : Z) (c : cpu) : z_flag (set_cmp a b c) = (u32 (a - b) =? 0).
Proof.
  unfold z_flag, set_cmp, set_psr. cbn [c_psr]. rewrite !Z.lor_spec, Z.land_spec. change (Z.testbit 0x0FFFFFFF 30) with false.
  rewrite andb_false_r, orb_false_r. by destruct (Z.testbit (u32 (a - b)) 31), (u32 (a - b) =? 0), (b <=? a), (negb _).
Qed.

Lemma lr_bit2 (v : Z) : v .& 4 = 0 \/ v .& 4 = 4.
Proof.
  destruct (Z.testbit v 2) eqn:E; [right|left]; apply Z.bits_inj'; intros i Hi; rewrite Z.land_spec;
    (destruct (decide (i = 2)) as [->|]; [by rewrite E|]); change 4 with (2 ^ 2);
    rewrite Z.pow2_bits_false by lia; rewrite andb_false_r; by rewrite ?Z.pow2_bits_false, ?Z.testbit_0_l by lia.
Qed.

Lemma exec_select_and (code : list asm) (c : cpu) :
  privileged c = true ->
  exec (AND 0 LR 4 :: CMP 0 0 :: ITE_EQ :: MRS EQ 0 MSP :: MRS NE 0 PSP :: code) c =
  exec code (set_reg 0 (if c_reg c LR .& 4 =? 0 then c_msp c else c_psp c)
               (set_cmp (c_reg c LR .& 4) 0 (set_reg 0 (c_reg c LR .& 4) c))).
Proof.
  intros Hp. set (v := c_reg c LR .& 4). set (c2 := set_cmp v 0 (set_reg 0 v c)).
  assert (Hm : same_mode c c2) by (apply (same_mode_trans _ (set_reg 0 v c)); [done|apply set_cmp_mode]).
  assert (Hz : z_flag c2 = (v =? 0)).
  { unfold c2. rewrite set_cmp_z, Z.sub_0_r. f_equal. apply u32_small. unfold v. destruct (lr_bit2 (c_reg c LR)) as [-> | ->]; lia. }
  transitivity (exec (MRS NE 0 PSP :: code) (if z_flag c2 then set_reg 0 (special_value MSP c2) c2 else c2)); [reflexivity|].
  rewrite Hz. cbn [special_value]. rewrite (same_mode_privileged _ _ Hm), Hp. destruct (v =? 0).
  - cbn [Stubs.exec holds_cond]. change (z_flag (set_reg 0 (c_msp c2) c2)) with (z_flag c2). by rewrite Hz.
  - cbn [Stubs.exec holds_cond special_value]. by rewrite Hz, (same_mode_privileged _ _ Hm), Hp.
Qed.

Lemma exc_return_mode (c : cpu) : (exc_return_value c =? EXC_RETURN_HANDLER) = handler_mode c
  /\ (exc_return_value c =? EXC_RETURN_PSP) = on_psp c
  /\ (exc_return_value c =? EXC_RETURN_HANDLER) || (exc_return_value c =? EXC_RETURN_MSP) || (exc_return_value c =? EXC_RETURN_PSP) = true
  /\ (0xF0000000 <=? exc_return_value c) = true.
Proof. unfold exc_return_value, on_psp. destruct (handler_mode c); [done|]. by destruct (c_control c .& 2 =? 0). Qed.

Lemma control_restored (c : cpu) :
  0 <= c_control c < 2 ^ 32 -> (handler_mode c = true -> c_control c .& 2 = 0) ->
  (if on_psp c then (c_control c .& not_spsel) .| 2 else (c_control c .& not_spsel) .& not_spsel) = c_control c.
Proof.
  intros Hr Hh. assert (Hb : Z.testbit (c_control c) 1 = on_psp c).
  { transitivity (Z.testbit (c_control c .& 2) 1); [rewrite Z.land_spec; by rewrite andb_true_r|].
    unfold on_psp. destruct (handler_mode c); [by rewrite (Hh eq_refl)|]. cbn [negb andb].
    destruct (Z.testbit (c_control c) 1) eqn:E.
    - destruct (Z.eqb_spec (c_control c .& 2) 0) as [E2|]; [|rewrite Z.land_spec; by rewrite E].
      apply (f_equal (fun x => Z.testbit x 1)) in E2. rewrite Z.land_spec, E in E2. discriminate.
    - rewrite Z.land_spec, E. destruct (Z.eqb_spec (c_control c .& 2) 0) as [|E2]; [done|]. exfalso. apply E2.
      apply Z.bits_inj'. intros i Hi. rewrite Z.land_spec. destruct (decide (i = 1)) as [->|]; [by rewrite E|].
      change 2 with (2 ^ 1). rewrite Z.pow2_bits_false by lia. by rewrite andb_false_r, Z.testbit_0_l. }
  assert (Hbits : forall i, 0 <= i -> Z.testbit (c_control c .& not_spsel) i = if i =? 1 then false else Z.testbit (c_control c) i).
  { intros i Hi. rewrite Z.land_spec. destruct (Z.ltb_spec i 32).
    - destruct (Z.eqb_spec i 1) as [->|]; [apply andb_false_r|]. replace (Z.testbit not_spsel i) with true; [apply andb_true_r|].
      unfold not_spsel. bit_cases i 32%nat; (done || lia).
    - rewrite (testbit_above 32 (c_control c)) by lia. by destruct (i =? 1). }
  apply Z.bits_inj'. intros i Hi. destruct (on_psp c) eqn:Ep.
  - rewrite Z.lor_spec, Hbits by done. destruct (Z.eqb_spec i 1) as [->|]; [by rewrite Hb|].
    change 2 with (2 ^ 1). rewrite Z.pow2_bits_false by lia. apply orb_false_r.
  - rewrite <- Z.land_assoc. change (not_spsel .& not_spsel) with not_spsel. rewrite Hbits by done.
    destruct (Z.eqb_spec i 1) as [->|]; by rewrite ?Hb.
Qed.

Lemma sp_restored (c : cpu) : 36 <= sp_of c <= 0xE0000000 ->
  (if realigned c then u32 (exc_frame c + 32) .| 4 else u32 (exc_frame c + 32)) = sp_of c.
Proof.
  intros H. rewrite (exc_frame_eq c H). unfold realigned. destruct (Z.testbit (sp_of c) 2) eqn:E.
  - rewrite u32_small by lia. replace (sp_of c - 32 - 4 + 32) with (sp_of c - 4) by lia.
    assert (sp_of c - 4 = Z.ldiff (sp_of c) 4) as ->.
    { apply Z.sub_nocarry_ldiff. apply Z.bits_inj'. intros i Hi. rewrite Z.ldiff_spec, Z.testbit_0_l.
      destruct (decide (i = 2)) as [->|]; [by rewrite E|]. change 4 with (2 ^ 2). by rewrite Z.pow2_bits_false by lia. }
    apply Z.bits_inj'. intros i Hi. rewrite Z.lor_spec, Z.ldiff_spec. change 4 with (2 ^ 2).
    destruct (decide (i = 2)) as [->|]; [by rewrite E|]. rewrite Z.pow2_bits_false by lia. by rewrite andb_true_r, orb_false_r.
  - rewrite u32_small by lia. lia.
Qed.

Context (return_to : Z -> Z).

(** The handler, from the exception to the return, around the C function. *)
Lemma run_monitor (handler : list asm) (c : cpu) (pc : Z) (s1 s2 : ctx_state) (r0 r1 r2 r3 r12 lr pc' : Z) :
  handler = DebugMon_Handler \/ handler = __debug_monitor ->
  cpu_ok 36 c -> status_ok c -> pushed_frame c pc = Some s1 ->
  (forall c', c_st c' = s1 -> c_reg c' 0 = exc_frame c -> call C_leave_debug_monitor c' = Some (None, s2)) ->
  frame_at s2 (exc_frame c) 8 = Some [r0; r1; r2; r3; r12; lr; pc'; if realigned c then c_psr c .| 0x200 else c_psr c .& not_bit9] ->
  exists c', take_exception call clobber flags return_to handler c pc = Some (return_to pc', c') /\ kept [] c c' /\
    c_psr c' = c_psr c /\ c_st c' = s2 /\ map (c_reg c') [0; 1; 2; 3; 12; LR] = [r0; r1; r2; r3; r12; lr].
Proof.
  intros Hh [_ Hsp _ _ _ Hsel] Hst Hpush Hcall Hf. destruct (exc_return_mode c) as (V1 & V2 & V3 & V4).
  assert (Hrun : exists c2, exec handler (entered c s1) = Some (Exc_return (exc_return_value c), c2) /\ kept [] (entered c s1) c2 /\ c_st c2 = s2).
  { assert (Hb : forall d, kept [] (entered c s1) d -> c_st d = s1 -> c_reg d 0 = exc_frame c -> c_reg d LR = exc_return_value c ->
      exists c2, exec [B C_leave_debug_monitor] d = Some (Exc_return (exc_return_value c), c2) /\ kept [] (entered c s1) c2 /\ c_st c2 = s2).
    { intros d K Hs H0 Hlr. exists (returned_c None s2 d). split; [|split; [|done]].
      - cbn [Stubs.exec]. unfold call_c. rewrite Hcall by done. cbn [mbind option_bind fst snd]. rewrite Hlr. unfold load_pc.
        rewrite (same_mode_handler _ _ (proj1 (kept_returned [] None s2 d))), (same_mode_handler _ _ (proj1 K)), entered_handler, V4. done.
      - apply (kept_trans _ _ d); [done|apply kept_returned]. }
    destruct Hh as [-> | ->]; [unfold DebugMon_Handler; rewrite (exec_select_lr _ _ (entered_privileged c s1))
                              |unfold __debug_monitor; rewrite (exec_select_and _ _ (entered_privileged c s1))];
      rewrite entered_frame; apply Hb; try done.
    - eapply kept_trans; [apply kept_set_nz|]. apply kept_set_reg. by left.
    - eapply kept_trans; [apply (kept_set_reg _ 0); by left|]. eapply kept_trans; [|apply kept_set_reg; by left].
      apply kept_set_cmp. }
  destruct Hrun as (c2 & Hrun & (M & A & B & R) & T2). unfold take_exception. rewrite (exception_entry_eq c pc s1 Hpush).
  cbn [mbind option_bind]. rewrite Hrun. cbn [mbind option_bind fst snd]. unfold exception_return. rewrite V3, V2.
  assert (Hfr : (if on_psp c then c_psp c2 else c_msp c2) = exc_frame c).
  { rewrite A, B. unfold entered, set_sp. cbn [c_msp c_psp]. by destruct (on_psp c). }
  rewrite Hfr. unfold frame_at in Hf. change (mem_of c2) with (hw_mem (hw (c_st c2))). rewrite T2, Hf. cbn [mbind option_bind unstacked].
  destruct (stacked_psr c Hst) as (_ & W9 & Wp). rewrite W9, Wp, V2, V1, (sp_restored c Hsp).
  pose proof (control_restored c (proj2 (proj2 Hst)) Hsel) as Hc. destruct M as [_ Mc]. change (c_control (entered c s1)) with (c_control c .& not_spsel) in Mc.
  rewrite Mc. set (c' := mk_cpu _ _ _ _ _ _).
  assert (Hm : same_mode c c') by (split; [done|]; unfold c'; cbn [c_control]; exact Hc).
  rewrite (same_mode_handler _ _ Hm), eqb_reflx. exists c'. split; [done|]. split; [|split; [done|split; [exact T2|done]]].
  split; [exact Hm|]. unfold c'. cbn [c_msp c_psp]. rewrite A, B. unfold entered, set_sp, sp_of. cbn [c_msp c_psp].
  split_and!; [by destruct (on_psp c)|by destruct (on_psp c)|]. intros r Hr _. cbn.
  rewrite !upd_ne by (unfold LR; lia). rewrite R by (done || apply not_elem_of_nil). cbn. unfold scratch, LR.
  destruct (Z.eqb_spec r 14), (Z.ltb_spec r 4), (Z.eqb_spec r 12); try lia. done.
Qed.
End Steps.
