(* ===== verification/PatchPoints.v ===== *)
(** * From a patch point to the next instruction

    The stubs of [Stubs] composed with the dispatch: what the processor does
    after each answer a patch gives, at an instrumented function, at a
    breakpoint and at a remapped instruction. *)

From S2P Require Import Prelude Mem EbpfInst EbpfVm Vm Hashmap Fpb FpbProps PatchCtx PatchCtxProps Dispatch DispatchProps.
From S2P Require Import Stubs StubsProps.

(** ** Pushing changes the memory and nothing else *)

Definition only_mem (s s1 : ctx_state) : Prop := exists m, s1 = with_mem s m.

Lemma pushed_only (regs : list Z) (c : cpu) (s1 : ctx_state) : pushed regs c = Some s1 -> only_mem (c_st c) s1.
Proof. unfold pushed. destruct (store_words _ _ _) as [m|]; [|done]. cbn [mbind option_bind]. intros [= <-]. by exists m. Qed.

Lemma pushed_frame_only (c : cpu) (pc : Z) (s1 : ctx_state) : pushed_frame c pc = Some s1 -> only_mem (c_st c) s1.
Proof. unfold pushed_frame. destruct (store_words _ _ _) as [m|]; [|done]. cbn [mbind option_bind]. intros [= <-]. by exists m. Qed.

Lemma first_active_only (s s1 : ctx_state) (test : dynamic_patch -> bool) (l : list dynamic_patch) :
  only_mem s s1 -> first_active s1 test l = first_active s test l.
Proof.
  intros [m ->]. induction l as [|dp l IH]; [done|]. cbn [first_active].
  destruct (test dp); [|exact IH]. change (patches (with_mem s m)) with (patches s).
  destruct (patches s !! dp_patch dp) as [p|]; [|done]. cbn [mbind option_bind]. by destruct (p_is_active p).
Qed.

Lemma dynamic_only (s s1 : ctx_state) (a : Z) :
  only_mem s s1 -> get_dynamic_patch_by_bpkt s1 a = get_dynamic_patch_by_bpkt s a.
Proof.
  intros H. unfold get_dynamic_patch_by_bpkt. destruct H as [m E]. subst s1. change (pctx (with_mem s m)) with (pctx s).
  destruct (negb _); [done|]. apply first_active_only. by exists m.
Qed.

Lemma get32_elsewhere (s s1 : ctx_state) (a n x : Z) :
  (forall b, ~ in_bytes a n b -> hw_mem (hw s1) !! b = hw_mem (hw s) !! b) ->
  0 <= a -> a + n <= x -> x + 4 <= 2 ^ 32 -> get32 s1 x = get32 s x.
Proof.
  intros Hm Ha Hx Hr. unfold get32. rewrite !load_le_u32. apply load_le_ext. intros k Hk. apply Hm.
  intros (j & Hj & E). rewrite !u32_small in E by lia. lia.
Qed.

(** A word above the frame is written: the frame stays. *)
Lemma frame_set32_far (s s' : ctx_state) (f : Z) (n : nat) (a v : Z) :
  0 <= f -> f + 4 * Z.of_nat n <= a -> a + 4 <= 2 ^ 32 -> set32 s a v = Some s' -> frame_at s' f n = frame_at s f n.
Proof.
  unfold set32, put32, frame_at. intros Hf Hn Ha. rewrite store_le_u32. destruct (store_le 4 a v _) as [m|] eqn:E; [|done].
  cbn [mbind option_bind]. intros [= <-]. cbn [hw with_hw with_hwmem hw_mem]. apply load_words_ext.
  intros b (k & Hk & ->). apply (store_le_frame 4 _ _ _ _ _ E). intros j Hj Eq. rewrite !u32_small in Eq by lia. lia.
Qed.

(** The registers a stub pushes, one by one. *)
Lemma saved_six (f : Z -> Z) (v0 v1 v2 v3 v12 v14 : Z) :
  map f [0; 1; 2; 3; 12; LR] = [v0; v1; v2; v3; v12; v14] ->
  f 0 = v0 /\ f 1 = v1 /\ f 2 = v2 /\ f 3 = v3 /\ f 12 = v12 /\ f LR = v14.
Proof. by intros [= -> -> -> -> -> ->]. Qed.

Section PatchPoints.
Context (kstray vstray : Z -> Z).
Context (FPB_Handler : list Z) (REMAP_ADDR : Z).
Context (call_jit : Z -> Z -> Z -> memory -> option (Z * memory)).
Context (call_ext : Z -> list Z -> memory -> option (Z * memory)).
Context (stack : Z) (reg0 : list Z) (fuel : nat).
Context (clobber : Z -> Z) (flags : Z).

Local Abbreviation calls := (c_call kstray vstray FPB_Handler REMAP_ADDR call_jit call_ext stack reg0 fuel).
Local Abbreviation exec := (exec calls clobber flags 0).
Local Abbreviation run_filter := (run_filter call_jit call_ext stack reg0).
Local Abbreviation dispatch := (dispatch_fixed_patch_point kstray vstray call_jit call_ext stack reg0).
Local Abbreviation monitor := (leave_debug_monitor call_jit call_ext stack reg0).
Local Abbreviation leave_fpb := (leave_fpb_bpkt FPB_Handler REMAP_ADDR call_jit call_ext stack reg0 fuel).

(** ** An instrumented function *)

(** The dispatch on the frame its stub pushed, when the patch leaves the
    frame alone. *)
Lemma dispatch_on_frame (s1 s2 : ctx_state) (sp patch ret r0 r1 r2 r3 lr : Z) (p : ebpf_patch) :
  frame_at s1 sp 5 = Some [r0; r1; r2; r3; lr] -> get_fixed_patch_by_lr kstray vstray s1 (call_site lr) = Some patch ->
  patch <> 0 -> patches s1 !! patch = Some p -> p_vm p <> None ->
  run_filter s1 patch sp sizeof_fixed_stack_frame = Some (ret, s2) -> frame_at s2 sp 5 = frame_at s1 sp 5 ->
  u32 (ret >> 32) <> FILTER_REDIRECT ->
  exists s3, dispatch s1 sp = Some s3 /\
    frame_at s3 sp 5 = Some [if u32 (ret >> 32) =? FILTER_DROP then 0 else FIXED_OP_PASS; r1; r2; r3; lr].
Proof.
  intros Hf Hget Hne Hp Hvm Hrun Hkeep Hop. rewrite Hf in Hkeep.
  rewrite (dispatch_found kstray vstray call_jit call_ext stack reg0 s1 sp lr patch p), Hrun; try done;
    [|exact (frame_get32 s1 sp 5 4 _ lr Hf eq_refl)].
  cbn [mbind option_bind fst snd]. destruct (Z.eqb_spec (u32 (ret >> 32)) FILTER_REDIRECT) as [E|_]; [by destruct (Hop E)|].
  destruct (_ =? FILTER_DROP).
  - destruct (frame_set32_some s2 sp 0 5 0 _ ltac:(lia) ltac:(lia) ltac:(lia) Hkeep) as (s3 & E & H). by exists s3.
  - destruct (frame_set32_some s2 sp FIXED_OP_PASS 5 0 _ ltac:(lia) ltac:(done) ltac:(lia) Hkeep) as (s3 & E & H). by exists s3.
Qed.

(** What the function of the inserted call does to the processor. *)
Lemma patch_point_call (c : cpu) (s1 s2 : ctx_state) (patch ret : Z) (p : ebpf_patch) :
  cpu_ok 20 c -> handler_mode c = false -> Z.odd (c_reg c LR) = true ->
  get_fixed_patch_by_lr kstray vstray (c_st c) (call_site (c_reg c LR)) = Some patch -> patch <> 0 ->
  patches (c_st c) !! patch = Some p -> p_vm p <> None ->
  pushed [0; 1; 2; 3; LR] c = Some s1 ->
  run_filter s1 patch (sp_of c - 20) sizeof_fixed_stack_frame = Some (ret, s2) ->
  frame_at s2 (sp_of c - 20) 5 = frame_at s1 (sp_of c - 20) 5 ->
  u32 (ret >> 32) <> FILTER_REDIRECT ->
  exists c', exec fixed_patch_point_hanlder c = Some (Goto (c_reg c LR - 1), c') /\ kept [] c c' /\
    c_reg c' 0 = (if u32 (ret >> 32) =? FILTER_DROP then 0 else FIXED_OP_PASS) /\
    c_reg c' 1 = c_reg c 1 /\ c_reg c' 2 = c_reg c 2 /\ c_reg c' 3 = c_reg c 3.
Proof.
  intros Hok Hmode Hodd Hget Hne Hp Hvm Hpush Hrun Hkeep Hop.
  destruct (stub_push_spec [0; 1; 2; 3; LR] c eq_refl Hok) as (s1' & Hpush' & _ & Hf & _). rewrite Hpush in Hpush'. injection Hpush' as <-.
  change (4 * Z.of_nat (length [0; 1; 2; 3; LR])) with 20 in Hf. change (length [0; 1; 2; 3; LR]) with 5%nat in Hf. cbn [map] in Hf.
  destruct (pushed_only _ _ _ Hpush) as [m Es].
  destruct (dispatch_on_frame s1 s2 (sp_of c - 20) patch ret _ _ _ _ _ p Hf) as (s3 & Hd & Hf3); try done; [by rewrite Es..|].
  destruct (run_fixed_stub calls clobber flags c s1 s3 (if u32 (ret >> 32) =? FILTER_DROP then 0 else FIXED_OP_PASS)
    (c_reg c 1) (c_reg c 2) (c_reg c 3) (c_reg c LR) (Goto (c_reg c LR - 1)) Hok Hpush) as (c' & Hx & K & _ & H0 & H1 & H2 & H3).
  - intros c0 Hs H0. cbn [c_call]. rewrite Hs, H0, Hd. done.
  - exact Hf3.
  - unfold load_pc. by rewrite Hmode, Hodd.
  - by exists c'.
Qed.

(** After a REDIRECT, which writes the code the call returns to, the call comes
    back with the first argument of the function still in r0. *)
Lemma patch_point_redirect (c : cpu) (s1 s2 s3 : ctx_state) (patch ret : Z) (p : ebpf_patch) :
  cpu_ok 20 c -> handler_mode c = false -> Z.odd (c_reg c LR) = true ->
  get_fixed_patch_by_lr kstray vstray (c_st c) (call_site (c_reg c LR)) = Some patch -> patch <> 0 ->
  patches (c_st c) !! patch = Some p -> p_vm p <> None ->
  pushed [0; 1; 2; 3; LR] c = Some s1 ->
  run_filter s1 patch (sp_of c - 20) sizeof_fixed_stack_frame = Some (ret, s2) ->
  frame_at s2 (sp_of c - 20) 5 = frame_at s1 (sp_of c - 20) 5 ->
  u32 (ret >> 32) = FILTER_REDIRECT -> set32 s2 (c_reg c LR) (u32 ret) = Some s3 ->
  frame_at s3 (sp_of c - 20) 5 = frame_at s2 (sp_of c - 20) 5 ->
  exists c', exec fixed_patch_point_hanlder c = Some (Goto (c_reg c LR - 1), c') /\ kept [] c c' /\
    c_reg c' 0 = c_reg c 0 /\ c_reg c' 1 = c_reg c 1 /\ c_reg c' 2 = c_reg c 2 /\ c_reg c' 3 = c_reg c 3.
Proof.
  intros Hok Hmode Hodd Hget Hne Hp Hvm Hpush Hrun Hkeep Hop Hset Hf3.
  destruct (stub_push_spec [0; 1; 2; 3; LR] c eq_refl Hok) as (s1' & Hpush' & _ & Hf & _). rewrite Hpush in Hpush'. injection Hpush' as <-.
  change (4 * Z.of_nat (length [0; 1; 2; 3; LR])) with 20 in Hf. change (length [0; 1; 2; 3; LR]) with 5%nat in Hf. cbn [map] in Hf.
  destruct (pushed_only _ _ _ Hpush) as [m Es].
  destruct (run_fixed_stub calls clobber flags c s1 s3 (c_reg c 0) (c_reg c 1) (c_reg c 2) (c_reg c 3) (c_reg c LR)
    (Goto (c_reg c LR - 1)) Hok Hpush) as (c' & Hx & K & _ & H0 & H1 & H2 & H3).
  - intros c0 Hs H0. cbn [c_call]. rewrite Hs, H0.
    rewrite (dispatch_found kstray vstray call_jit call_ext stack reg0 s1 _ (c_reg c LR) patch p), Hrun; try done;
      [|exact (frame_get32 s1 _ 5 4 _ _ Hf eq_refl)|by rewrite Es..].
    cbn [mbind option_bind fst snd]. rewrite Hop. change (FILTER_REDIRECT =? FILTER_DROP) with false.
    change (FILTER_REDIRECT =? FILTER_REDIRECT) with true. cbv iota. rewrite Hkeep in Hf3. rewrite Hf in Hkeep.
    assert (get32 s2 (sp_of c - 20 + frame_lr) = Some (c_reg c LR)) as -> by exact (frame_get32 s2 _ 5 4 _ _ Hkeep eq_refl).
    cbn [mbind option_bind]. by rewrite Hset.
  - by rewrite Hf3, Hkeep.
  - unfold load_pc. by rewrite Hmode, Hodd.
  - by exists c'.
Qed.


(** After a REDIRECT the answer in r0 is the first argument of the function:
    the guard takes it for the return code. *)
Theorem redirect_returns_argument {A} (c : cpu) (s1 s2 s3 : ctx_state) (patch ret : Z) (p : ebpf_patch) (early : Z -> A) (body : A) :
  cpu_ok 20 c -> handler_mode c = false -> Z.odd (c_reg c LR) = true ->
  get_fixed_patch_by_lr kstray vstray (c_st c) (call_site (c_reg c LR)) = Some patch -> patch <> 0 ->
  patches (c_st c) !! patch = Some p -> p_vm p <> None ->
  pushed [0; 1; 2; 3; LR] c = Some s1 ->
  run_filter s1 patch (sp_of c - 20) sizeof_fixed_stack_frame = Some (ret, s2) ->
  frame_at s2 (sp_of c - 20) 5 = frame_at s1 (sp_of c - 20) 5 ->
  u32 (ret >> 32) = FILTER_REDIRECT -> set32 s2 (c_reg c LR) (u32 ret) = Some s3 ->
  frame_at s3 (sp_of c - 20) 5 = frame_at s2 (sp_of c - 20) 5 ->
  exists c', exec fixed_patch_point_hanlder c = Some (Goto (c_reg c LR - 1), c') /\ c_reg c' 0 = c_reg c 0 /\
    (c_reg c 0 <> FIXED_OP_PASS -> PATCH_FUNCTION_ERR_CODE (c_reg c' 0) early body = early (c_reg c 0)).
Proof.
  intros Hok Hmode Hodd Hget Hne Hp Hvm Hpush Hrun Hkeep Hop Hset Hf3.
  destruct (patch_point_redirect c s1 s2 s3 patch ret p Hok Hmode Hodd Hget Hne Hp Hvm Hpush Hrun Hkeep Hop Hset Hf3) as (c' & Hx & _ & H0 & _).
  exists c'. split; [done|]. split; [done|]. intros Hr. unfold PATCH_FUNCTION_ERR_CODE. rewrite H0.
  destruct (Z.eqb_spec (c_reg c 0) FIXED_OP_PASS); done.
Qed.

(** Built with the ARM compiler, the stub pushes two words, but the dispatch
    looks for lr in the fifth: the patch that is looked up is that of a word
    of the caller's stack, and the call faults when there is none. *)
Theorem keil_stub_misses_lr (c : cpu) (w : Z) (s1 : ctx_state) :
  cpu_ok 8 c -> on_psp c = false -> get32 (c_st c) (sp_of c + 8) = Some w -> pushed [0; LR] c = Some s1 ->
  get_fixed_patch_by_lr kstray vstray (c_st c) (call_site w) = Some 0 -> patches (c_st c) !! 0 = None ->
  exec keil_fixed_patch_point_hanlder c = None.
Proof.
  intros Hok Hpsp Hw Hpush Hget Hnull. destruct (stub_entry [0; LR] c s1 Hok Hpush) as (F & S1 & T1 & R1 & M1 & P1 & H1 & _).
  change (4 * Z.of_nat (length [0; LR])) with 8 in *. set (f := sp_of c - 8) in *. set (c1 := set_sp f (set_st s1 c)) in *.
  unfold keil_fixed_patch_point_hanlder. rewrite (exec_push _ _ _ _ _ c s1 Hpush). change (4 * Z.of_nat (length [0; LR])) with 8.
  fold f. rewrite F. fold c1.
  destruct (exec_select calls clobber flags [MRS AL 0 MSP; BL C_dispatch_fixed_patch_point; POP [0; PC]] c1 P1 H1) as (c2 & psr & -> & R2 & E2 & M2 & V2).
  cbn [Stubs.exec holds_cond special_value]. rewrite (same_mode_privileged _ _ M2), P1. unfold call_c. cbn [c_call].
  change (c_reg (set_reg 0 (c_msp c2) c2) 0) with (c_msp c2). change (c_st (set_reg 0 (c_msp c2) c2)) with (c_st c2). rewrite E2. cbn [c_msp c_st].
  rewrite T1. assert (c_msp c1 = f) as ->.
  { rewrite <- S1. unfold sp_of. by rewrite (same_mode_psp _ _ M1), Hpsp. }
  destruct (pushed_only _ _ _ Hpush) as [m Es]. destruct (stub_push_spec [0; LR] c eq_refl Hok) as (s1' & Hpush' & _ & _ & Hm).
  rewrite Hpush in Hpush'. injection Hpush' as <-. change (4 * Z.of_nat (length [0; LR])) with 8 in Hm.
  rewrite (dispatch_without_patch_null kstray vstray call_jit call_ext stack reg0 s1 f w); [done| |by rewrite Es..].
  rewrite <- Hw. unfold f, frame_lr. replace (sp_of c - 8 + 16) with (sp_of c + 8) by lia.
  pose proof (ok_sp _ _ Hok). apply (get32_elsewhere _ _ (sp_of c - 8) 8); (exact Hm || lia).
Qed.

(** ** A breakpoint *)

(** What becomes of the frame of the exception, [ws] its words. *)
Definition frame_after (op code : Z) (ws : list Z) : list Z :=
  if op =? FILTER_DROP then <[6%nat := default 0 (ws !! 5%nat)]> (<[0%nat := code]> ws)
  else if op =? FILTER_REDIRECT then <[6%nat := code]> ws
  else ws.

Lemma run_here_on_frame (s1 s2 : ctx_state) (f pc patch ret : Z) (ws : list Z) :
  mem_wf (hw_mem (hw s1)) -> frame_at s1 f 8 = Some ws -> ws !! 6%nat = Some pc ->
  get_dynamic_patch_by_bpkt s1 pc = Some patch -> patch <> 0 ->
  run_filter s1 patch f sizeof_ebpf_args_frame = Some (ret, s2) -> frame_at s2 f 8 = frame_at s1 f 8 ->
  let op := u32 (ret >> 32) in
  exists s3, run_patch_here call_jit call_ext stack reg0 s1 f = Some ((op =? FILTER_DROP) || (op =? FILTER_REDIRECT), s3) /\
    frame_at s3 f 8 = Some (frame_after op (u32 ret) ws) /\ FPB (hw s3) = FPB (hw s2) /\
    ((op =? FILTER_DROP) || (op =? FILTER_REDIRECT) = false -> s3 = s2).
Proof.
  intros Hwf Hf Hpc Hget Hne Hrun Hkeep op. rewrite Hf in Hkeep. unfold run_patch_here.
  assert (get32 s1 (f + ctx_pc) = Some pc) as -> by exact (frame_get32 s1 f 8 6 ws pc Hf Hpc). cbn [mbind option_bind].
  rewrite Hget. cbn [mbind option_bind]. destruct (Z.eqb_spec patch 0) as [E0|_]; [by destruct (Hne E0)|]. cbn [negb].
  rewrite Hrun. cbn [mbind option_bind]. fold op. replace (ret .& 4294967295) with (u32 ret) by (unfold u32; by rewrite wrap_land_ones).
  pose proof (proj1 (proj1 (load_words_iff _ _ _ _) Hf)) as Hl. destruct (lookup_lt_is_Some_2 ws 5 ltac:(lia)) as [lr Hlr].
  pose proof (words_range _ _ _ _ Hwf Hf) as Hwr. unfold frame_after. destruct (Z.eqb_spec op FILTER_DROP) as [E|_].
  - destruct (frame_set32_some s2 f (u32 ret) 8 0 ws ltac:(lia) (u32_range ret) ltac:(lia) Hkeep) as (s3 & E3 & H3).
    change (f + 4 * Z.of_nat 0) with (f + ctx_r0) in E3. rewrite E3. cbn [mbind option_bind].
    assert (get32 s3 (f + ctx_lr) = Some lr) as ->
      by (refine (frame_get32 s3 f 8 5 _ lr H3 _); by rewrite list_lookup_insert_ne).
    cbn [mbind option_bind]. assert (Hlrr : 0 <= lr < 2 ^ 32) by exact (Forall_lookup_1 _ _ _ _ Hwr Hlr).
    destruct (frame_set32_some s3 f lr 8 6 _ ltac:(lia) Hlrr ltac:(lia) H3) as (s4 & E4 & H4).
    change (f + 4 * Z.of_nat 6) with (f + ctx_pc) in E4. rewrite E4. cbn [mbind option_bind]. exists s4. split; [done|].
    rewrite Hlr. split; [done|]. split; [|done]. destruct (set32_fpb _ _ _ _ E4) as [-> _]. by destruct (set32_fpb _ _ _ _ E3) as [-> _].
  - destruct (Z.eqb_spec op FILTER_REDIRECT) as [E|_]; [|by exists s2].
    destruct (frame_set32_some s2 f (u32 ret) 8 6 ws ltac:(lia) (u32_range ret) ltac:(lia) Hkeep) as (s3 & E3 & H3).
    change (f + 4 * Z.of_nat 6) with (f + ctx_pc) in E3. rewrite E3. cbn [mbind option_bind]. exists s3. split; [done|].
    split; [done|]. split; [|done]. by destruct (set32_fpb _ _ _ _ E3) as [-> _].
Qed.

(** The handler in C: after DROP and REDIRECT it is done, otherwise it
    arranges for one step with the unit off. *)
Lemma monitor_on_frame (s1 s2 : ctx_state) (f pc dfsr demcr patch ret : Z) (ws : list Z) :
  mem_wf (hw_mem (hw s1)) -> 0 <= f -> f + 32 <= 0xE0000000 -> frame_at s1 f 8 = Some ws -> ws !! 6%nat = Some pc ->
  get32 s1 SCB_DFSR = Some dfsr -> dfsr .& dfsr_bkpt_evt_bitmask <> 0 ->
  get_dynamic_patch_by_bpkt s1 pc = Some patch -> patch <> 0 ->
  run_filter s1 patch f sizeof_ebpf_args_frame = Some (ret, s2) -> frame_at s2 f 8 = frame_at s1 f 8 ->
  get32 s2 DCB_DEMCR = Some demcr -> is_Some (get32 s2 SCB_DFSR) ->
  let op := u32 (ret >> 32) in
  let answered := (op =? FILTER_DROP) || (op =? FILTER_REDIRECT) in
  exists s3, monitor s1 f = Some s3 /\ frame_at s3 f 8 = Some (frame_after op (u32 ret) ws) /\
    FPB (hw s3) = (if answered then FPB (hw s2) else FPB (fpb_disable (hw s2))) /\
    (answered = false -> 0 <= demcr < 2 ^ 32 -> get32 s3 DCB_DEMCR = Some (demcr .| demcr_single_step_mask)).
Proof.
  intros Hwf Hf0 Hf1 Hf Hpc Hd Hev Hget Hne Hrun Hkeep Hdem Hdf op answered. unfold leave_debug_monitor.
  rewrite Hd. cbn [mbind option_bind]. destruct (Z.eqb_spec (dfsr .& dfsr_bkpt_evt_bitmask) 0); [done|]. cbn [negb].
  destruct (run_here_on_frame s1 s2 f pc patch ret ws Hwf Hf Hpc Hget Hne Hrun Hkeep) as (s3 & -> & H3 & F3 & Hs).
  cbn [mbind option_bind]. fold op in Hs, H3. fold op. fold answered in Hs. fold answered. destruct answered eqn:Ea; [by exists s3|].
  rewrite (Hs eq_refl) in *. rewrite Hdem. cbn [mbind option_bind]. clear s3 Hs F3.
  destruct (set32_readable s2 DCB_DEMCR (demcr .| demcr_single_step_mask)) as [s4 E4]; [by exists demcr|].
  rewrite E4. cbn [mbind option_bind].
  destruct (set32_readable s4 SCB_DFSR dfsr_bkpt_evt_bitmask) as [s5 E5]; [exact (set32_keeps_readable _ _ _ _ _ E4 Hdf)|].
  rewrite E5. cbn [mbind option_bind]. eexists. split; [reflexivity|].
  assert (Hfr : frame_at s5 f 8 = frame_at s2 f 8).
  { transitivity (frame_at s4 f 8);
      [apply (frame_set32_far s4 s5 f 8 SCB_DFSR dfsr_bkpt_evt_bitmask)|apply (frame_set32_far s2 s4 f 8 DCB_DEMCR (demcr .| demcr_single_step_mask))];
      try done; try (unfold SCB_DFSR, DCB_DEMCR; lia). }
  split; [transitivity (frame_at s5 f 8); [done|]; by rewrite Hfr|]. split.
  - cbn [hw with_hw]. unfold fpb_disable, with_ctrl. cbn [FPB with_fpb]. destruct (set32_fpb _ _ _ _ E5) as [-> _].
    by destruct (set32_fpb _ _ _ _ E4) as [-> _].
  - intros _ Hr. change (get32 s5 DCB_DEMCR = Some (demcr .| demcr_single_step_mask)).
    rewrite (set32_frame s4 s5 SCB_DFSR DCB_DEMCR dfsr_bkpt_evt_bitmask apart_dfsr_demcr E5).
    apply (set32_get32 s2 s4 DCB_DEMCR); [apply lor_range; [lia|exact Hr|done]|exact E4].
Qed.

Context (return_to : Z -> Z).

(** The exception and its return, around the handler in C. *)
Lemma breakpoint_run (handler : list asm) (c : cpu) (pc dfsr demcr patch ret : Z) (s1 s2 : ctx_state) :
  handler = DebugMon_Handler \/ handler = __debug_monitor ->
  cpu_ok 36 c -> status_ok c -> 0 <= pc < 2 ^ 32 ->
  get32 (c_st c) SCB_DFSR = Some dfsr -> dfsr .& dfsr_bkpt_evt_bitmask <> 0 ->
  get_dynamic_patch_by_bpkt (c_st c) pc = Some patch -> patch <> 0 ->
  pushed_frame c pc = Some s1 -> run_filter s1 patch (exc_frame c) sizeof_ebpf_args_frame = Some (ret, s2) ->
  frame_at s2 (exc_frame c) 8 = frame_at s1 (exc_frame c) 8 ->
  get32 s2 DCB_DEMCR = Some demcr -> 0 <= demcr < 2 ^ 32 -> is_Some (get32 s2 SCB_DFSR) ->
  let op := u32 (ret >> 32) in
  let next := if op =? FILTER_DROP then c_reg c LR else if op =? FILTER_REDIRECT then u32 ret else pc in
  exists c', take_exception calls clobber flags return_to handler c pc = Some (return_to next, c') /\
    (forall r, 0 <= r < 12 \/ r = 12 \/ r = LR -> c_reg c' r = if (r =? 0) && (op =? FILTER_DROP) then u32 ret else c_reg c r) /\
    c_msp c' = c_msp c /\ c_psp c' = c_psp c /\ c_psr c' = c_psr c /\ c_control c' = c_control c /\
    (if (op =? FILTER_DROP) || (op =? FILTER_REDIRECT) then FPB (hw (c_st c')) = FPB (hw s2)
    else FPB (hw (c_st c')) = FPB (fpb_disable (hw s2)) /\
      get32 (c_st c') DCB_DEMCR = Some (demcr .| demcr_single_step_mask)) /\
    monitor s1 (exc_frame c) = Some (c_st c').
Proof.
  intros Hh Hok Hst Hpc Hd Hev Hget Hne Hpush Hrun Hkeep Hdem Hdr Hdf op next.
  destruct (pushed_frame_spec c pc Hok Hst Hpc) as (s1' & Hpush' & Hwf & Hf & Hm). rewrite Hpush in Hpush'. injection Hpush' as <-.
  pose proof (ok_sp _ _ Hok) as Hsp. pose proof (exc_frame_eq c Hsp) as Hfe.
  assert (0 <= exc_frame c /\ exc_frame c + 32 <= 0xE0000000) as [Hf0 Hf1] by (rewrite Hfe; destruct (realigned c); lia).
  destruct (monitor_on_frame s1 s2 (exc_frame c) pc dfsr demcr patch ret (stacked_words c pc)) as (s3 & Hmon & H3 & F3 & D3); try done.
  { rewrite <- Hd. apply (get32_elsewhere _ _ (sp_of c - 36) 36); [exact Hm|unfold SCB_DFSR; lia..]. }
  { rewrite (dynamic_only (c_st c) s1 pc (pushed_frame_only _ _ _ Hpush)). exact Hget. }
  fold op in H3, F3, D3.
  assert (Hw : frame_after op (u32 ret) (stacked_words c pc) =
    [if op =? FILTER_DROP then u32 ret else c_reg c 0; c_reg c 1; c_reg c 2; c_reg c 3; c_reg c 12; c_reg c LR; next;
     if realigned c then c_psr c .| 0x200 else c_psr c .& not_bit9]).
  { unfold frame_after, stacked_words, next. by destruct (op =? FILTER_DROP), (op =? FILTER_REDIRECT). }
  rewrite Hw in H3.
  destruct (run_monitor calls clobber flags return_to handler c pc s1 s3 (if op =? FILTER_DROP then u32 ret else c_reg c 0)
    (c_reg c 1) (c_reg c 2) (c_reg c 3) (c_reg c 12) (c_reg c LR) next Hh Hok Hst Hpush) as (c' & Hx & ((_ & Mc) & A & B & K) & Hpsr & T & R).
  { intros c0 Hs H0. cbn [c_call]. by rewrite Hs, H0, Hmon. }
  { exact H3. }
  exists c'. split; [exact Hx|]. split.
  - destruct (saved_six _ _ _ _ _ _ _ R) as (R0 & R1 & R2 & R3 & R12 & R14). intros r Hr. destruct (Z.ltb_spec r 4).
    + assert (r = 0 \/ r = 1 \/ r = 2 \/ r = 3) as [-> | [-> | [-> | ->]]] by (unfold LR in Hr; lia); [exact R0|exact R1|exact R2|exact R3].
    + destruct (Z.eqb_spec r 0); [lia|]. cbn [andb]. destruct Hr as [Hr|[-> | ->]]; [|exact R12|exact R14]. apply K; [lia|apply not_elem_of_nil].
  - rewrite T. split; [exact A|]. split; [exact B|]. split; [exact Hpsr|]. split; [exact Mc|]. split; [|exact Hmon].
    destruct ((op =? FILTER_DROP) || (op =? FILTER_REDIRECT)); [exact F3|]. split; [exact F3|exact (D3 eq_refl Hdr)].
Qed.


(** ** A remapped instruction *)

Local Abbreviation saved_regs := [0; 1; 2; 3; 12; LR].

(** Where the trampoline is told to go, and what it leaves in the frame, when
    the patch does not pass the call. *)
Lemma leave_fpb_on_frame (s1 s2 : ctx_state) (f i comp patch ret r0 r1 r2 r3 r12 lr : Z) :
  get_comp (hw s1) i = Some comp -> get_dynamic_patch_by_bpkt s1 (comp .& not1) = Some patch -> patch <> 0 ->
  frame_at s1 f 6 = Some [r0; r1; r2; r3; r12; lr] ->
  run_filter s1 patch f sizeof_ebpf_args_frame = Some (ret, s2) -> frame_at s2 f 6 = frame_at s1 f 6 ->
  let op := u32 (ret >> 32) in
  op <> FILTER_PASS ->
  exists s3, leave_fpb s1 f i = Some (if op =? FILTER_REDIRECT then u32 ret else lr, s3) /\
    frame_at s3 f 6 = Some [if op =? FILTER_DROP then u32 ret else r0; r1; r2; r3; r12; lr].
Proof.
  intros Hc Hget Hne Hf Hrun Hkeep op Hop. rewrite Hf in Hkeep. unfold leave_fpb_bpkt. rewrite Hc. cbn [mbind option_bind].
  rewrite Hget. cbn [mbind option_bind]. destruct (Z.eqb_spec patch 0) as [E0|_]; [by destruct (Hne E0)|]. cbn [negb].
  rewrite Hrun. cbn [mbind option_bind]. fold op. replace (ret .& 4294967295) with (u32 ret) by (unfold u32; by rewrite wrap_land_ones).
  destruct (Z.eqb_spec op FILTER_PASS) as [E|_]; [by destruct (Hop E)|].
  destruct (Z.eqb_spec op FILTER_DROP) as [E|_].
  - destruct (frame_set32_some s2 f (u32 ret) 6 0 _ ltac:(lia) (u32_range ret) ltac:(lia) Hkeep) as (s3 & E3 & H3).
    change (f + 4 * Z.of_nat 0) with (f + ctx_r0) in E3. rewrite E3. cbn [mbind option_bind].
    assert (get32 s3 (f + ctx_lr) = Some lr) as -> by exact (frame_get32 s3 f 6 5 _ lr H3 eq_refl).
    exists s3. rewrite E. by split.
  - destruct (op =? FILTER_REDIRECT); [by exists s2|].
    assert (get32 s2 (f + ctx_lr) = Some lr) as -> by exact (frame_get32 s2 f 6 5 _ lr Hkeep eq_refl).
    by exists s2.
Qed.

(** The words of the frame of a trampoline. *)
Lemma trampoline_pushed (c : cpu) (s1 : ctx_state) :
  cpu_ok 24 c -> pushed saved_regs c = Some s1 ->
  mem_wf (hw_mem (hw s1)) /\ only_mem (c_st c) s1 /\
  frame_at s1 (sp_of c - 24) 6 = Some [c_reg c 0; c_reg c 1; c_reg c 2; c_reg c 3; c_reg c 12; c_reg c LR].
Proof.
  intros Hok Hpush. destruct (stub_push_spec saved_regs c eq_refl Hok) as (s1' & Hpush' & W & Hf & _). rewrite Hpush in Hpush'.
  injection Hpush' as <-. split; [done|]. split; [by apply (pushed_only saved_regs)|exact Hf].
Qed.

(** What the first trampoline does with an answer other than PASS: it goes
    where the patch says, with the registers of the call, but r5 is lost. *)
Theorem trampoline0_answers (c : cpu) (s1 s2 : ctx_state) (comp patch ret : Z) :
  cpu_ok 24 c -> get_comp (hw (c_st c)) 0 = Some comp ->
  get_dynamic_patch_by_bpkt (c_st c) (comp .& not1) = Some patch -> patch <> 0 ->
  pushed saved_regs c = Some s1 -> run_filter s1 patch (sp_of c - 24) sizeof_ebpf_args_frame = Some (ret, s2) ->
  frame_at s2 (sp_of c - 24) 6 = frame_at s1 (sp_of c - 24) 6 ->
  let op := u32 (ret >> 32) in
  let next := if op =? FILTER_REDIRECT then u32 ret else c_reg c LR in
  op <> FILTER_PASS ->
  exists c', exec FPB_Handler0 c = Some (Goto (next .& not1), c') /\ kept [5] c c' /\ c_reg c' 5 = next /\
    map (c_reg c') saved_regs =
      [if op =? FILTER_DROP then u32 ret else c_reg c 0; c_reg c 1; c_reg c 2; c_reg c 3; c_reg c 12; c_reg c LR].
Proof.
  intros Hok Hc Hget Hne Hpush Hrun Hkeep op next Hop. destruct (trampoline_pushed c s1 Hok Hpush) as (_ & Ho & Hf).
  pose proof (dynamic_only _ _ (comp .& not1) Ho) as Hd. rewrite Hget in Hd. destruct Ho as [m Es].
  destruct (leave_fpb_on_frame s1 s2 (sp_of c - 24) 0 comp patch ret _ _ _ _ _ _ ltac:(by rewrite Es) Hd Hne Hf Hrun Hkeep Hop) as (s3 & Hl & H3).
  edestruct (run_trampoline calls clobber flags 0 next [MOV PC 5] c s1 s3) as (c' & Hx & K & T & R5 & R');
    [exact Hok|exact Hpush| |exact H3|].
  { intros c0 Hs H0 H1. cbn [c_call]. by rewrite Hs, H0, H1, Hl. }
  exists c'. split; [|by split]. unfold FPB_Handler0. cbn [app] in Hx. rewrite Hx. cbn [Stubs.exec].
  change (PC =? PC) with true. cbv iota. by rewrite R5.
Qed.

(** The second trampoline has no instruction to leave by: whatever the patch
    answers, the processor runs into what the linker put after it, with the
    address it should have gone to in r0. *)
Theorem trampoline1_falls_through (c : cpu) (s1 s2 : ctx_state) (comp patch ret : Z) :
  cpu_ok 24 c -> get_comp (hw (c_st c)) 1 = Some comp ->
  get_dynamic_patch_by_bpkt (c_st c) (comp .& not1) = Some patch -> patch <> 0 ->
  pushed saved_regs c = Some s1 -> run_filter s1 patch (sp_of c - 24) sizeof_ebpf_args_frame = Some (ret, s2) ->
  frame_at s2 (sp_of c - 24) 6 = frame_at s1 (sp_of c - 24) 6 ->
  let op := u32 (ret >> 32) in
  op <> FILTER_PASS ->
  exists c', exec FPB_Handler1 c = Some (Falls_through, c') /\
    c_reg c' 0 = if op =? FILTER_REDIRECT then u32 ret else c_reg c LR.
Proof.
  intros Hok Hc Hget Hne Hpush Hrun Hkeep op Hop. destruct (trampoline_pushed c s1 Hok Hpush) as (_ & Ho & Hf).
  pose proof (dynamic_only _ _ (comp .& not1) Ho) as Hd. rewrite Hget in Hd. destruct Ho as [m Es].
  destruct (leave_fpb_on_frame s1 s2 (sp_of c - 24) 1 comp patch ret _ _ _ _ _ _ ltac:(by rewrite Es) Hd Hne Hf Hrun Hkeep Hop) as (s3 & Hl & H3).
  edestruct (run_trampoline calls clobber flags 1 (if op =? FILTER_REDIRECT then u32 ret else c_reg c LR) [MOV 0 5] c s1 s3)
    as (c' & Hx & K & T & R5 & R'); [exact Hok|exact Hpush| |exact H3|].
  { intros c0 Hs H0 H1. cbn [c_call]. by rewrite Hs, H0, H1, Hl. }
  exists (set_reg 0 (c_reg c' 5) c'). split; [|exact R5]. unfold FPB_Handler1. cbn [app] in Hx. by rewrite Hx.
Qed.

(** The other three return to the caller of the patched function, whatever
    the patch answers: REDIRECT and PASS skip the function too. *)
Theorem trampolines_return (handler : list asm) (idx : Z) (c : cpu) (s1 s2 : ctx_state) (comp patch ret : Z) :
  (handler, idx) ∈ [(FPB_Handler2, 2); (FPB_Handler3, 3); (FPB_Handler4, 4)] ->
  cpu_ok 24 c -> handler_mode c = false -> Z.odd (c_reg c LR) = true ->
  on_psp c = negb (c_reg c LR .& 4 =? 0) -> get_comp (hw (c_st c)) idx = Some comp ->
  get_dynamic_patch_by_bpkt (c_st c) (comp .& not1) = Some patch -> patch <> 0 ->
  pushed saved_regs c = Some s1 -> run_filter s1 patch (sp_of c - 24) sizeof_ebpf_args_frame = Some (ret, s2) ->
  frame_at s2 (sp_of c - 24) 6 = frame_at s1 (sp_of c - 24) 6 ->
  u32 (ret >> 32) <> FILTER_PASS ->
  exists c', exec handler c = Some (Goto (c_reg c LR - 1), c') /\ kept [] c c' /\
    c_reg c' 0 = if u32 (ret >> 32) =? FILTER_DROP then u32 ret else c_reg c 0.
Proof.
  intros Hh Hok Hmode Hodd Hsel Hc Hget Hne Hpush Hrun Hkeep Hop. destruct (trampoline_pushed c s1 Hok Hpush) as (_ & Ho & Hf).
  pose proof (dynamic_only _ _ (comp .& not1) Ho) as Hd. rewrite Hget in Hd. destruct Ho as [m Es].
  destruct (leave_fpb_on_frame s1 s2 (sp_of c - 24) idx comp patch ret _ _ _ _ _ _ ltac:(by rewrite Es) Hd Hne Hf Hrun Hkeep Hop) as (s3 & Hl & H3).
  assert (Hs : (if c_reg c LR .& 4 =? 0 then c_msp (set_sp (sp_of c - 24) c) else c_psp (set_sp (sp_of c - 24) c)) = sp_of c - 24).
  { unfold set_sp. rewrite Hsel. by destruct (_ =? 0). }
  edestruct (run_trampoline_lr calls clobber flags idx (if u32 (ret >> 32) =? FILTER_REDIRECT then u32 ret else c_reg c LR) c s1 s3)
    as (c' & Hx & K & T & R'); [exact Hok|exact Hpush| |exact H3|unfold load_pc; by rewrite Hmode, Hodd|].
  { intros c0 Hs0 H0 H1. cbn [c_call]. rewrite Hs0, H0, H1, Hs, Hl. done. }
  exists c'. destruct (saved_six _ _ _ _ _ _ _ R') as (R0 & _). split; [|by split].
  rewrite !elem_of_cons, elem_of_nil in Hh. destruct Hh as [[= -> ->]|[[= -> ->]|[[= -> ->]|[]]]]; exact Hx.
Qed.

(** They look for the frame by bit 2 of the return address, which in an
    exception handler tells the stack, but here is only an address: half of
    the callers make them take the other stack. *)
Theorem trampolines_take_other_stack (c : cpu) (s1 : ctx_state) :
  cpu_ok 24 c -> on_psp c = (c_reg c LR .& 4 =? 0) -> pushed saved_regs c = Some s1 ->
  leave_fpb s1 (if on_psp c then c_msp c else c_psp c) 2 = None -> exec FPB_Handler2 c = None.
Proof.
  intros Hok Hsel Hpush Hl. unfold FPB_Handler2.
  destruct (enter_trampoline calls clobber flags [TST LR 4; ITE_EQ; MRS EQ 0 MSP; MRS NE 0 PSP; MOVS 1 2; BL C_leave_fpb_bpkt; POP saved_regs; BX LR]
    c s1 Hok Hpush) as (-> & S1 & T1 & R1 & M1 & P1 & H1 & Fb).
  set (c1 := set_sp (sp_of c - 24) (set_st s1 c)) in *. rewrite (exec_select_lr calls clobber flags _ c1 P1). rewrite R1, <- Hsel.
  set (c2 := set_reg 0 _ _). cbn [Stubs.exec]. unfold call_c. cbn [c_call].
  change (c_st (set_nz 2 (set_reg 1 2 c2))) with (c_st c1). change (c_reg (set_nz 2 (set_reg 1 2 c2)) 0) with (c_reg c2 0).
  change (c_reg (set_nz 2 (set_reg 1 2 c2)) 1) with 2. rewrite T1.
  assert (c_reg c2 0 = if on_psp c then c_msp c else c_psp c) as ->.
  { change (c_reg c2 0) with (if on_psp c then c_msp c1 else c_psp c1). unfold c1, set_sp. change (on_psp (set_st s1 c)) with (on_psp c).
    by destruct (on_psp c). }
  by rewrite Hl.
Qed.

(** *** PASS: the instruction is run once and the trampoline armed again *)

(** An enabled comparator, or one that is not in use. *)
Definition armed (c : Z) : Prop := c = 0 \/ c .| 1 = c.

Lemma next_aligned_mod (k : nat) (m : memory) (x n : Z) : next_aligned k m x = Some n -> n .& 3 = 0.
Proof.
  revert x. induction k as [|k IH]; intros x; cbn [next_aligned]; [done|]. destruct (Z.eqb_spec (x .& 3) 0); [by intros [= <-]|].
  destruct (calc_bpkt_pc m x); [apply IH|done].
Qed.

Lemma lor_1_not1 (n : Z) : 0 <= n < 2 ^ 32 -> n .& 1 = 0 -> (n .| 1) .& not1 = n.
Proof.
  intros Hn H0. rewrite Z.land_lor_distr_l. change (1 .& not1) with 0. rewrite Z.lor_0_r. apply not1_id; [done|].
  rewrite <- Z.negb_odd, <- Z.bit0_odd. apply (f_equal (fun x => Z.testbit x 0)) in H0. rewrite Z.land_spec, Z.testbit_0_l in H0.
  change (Z.testbit 1 0) with true in H0. rewrite andb_true_r in H0. by rewrite H0.
Qed.

Definition with_comps (h : hw_state) (l : list Z) : hw_state :=
  with_fpb h {| CTRL := CTRL (FPB h); REMAP := REMAP (FPB h); COMP := l |}.

Lemma set_comp_eq (h : hw_state) (i v : Z) :
  0 <= i < Z.of_nat (length (COMP (FPB h))) -> set_comp h i v = Some (with_comps h (<[Z.to_nat i := v]> (COMP (FPB h)))).
Proof. intros Hi. unfold set_comp. by rewrite zset_is_Some. Qed.

Lemma comp_rearmed (comp : Z) : 0 <= comp < 2 ^ 32 -> comp .| 1 = comp -> (comp .& not1) .| 1 = comp.
Proof.
  intros Hr Hon. rewrite <- Hon at 2. apply Z.bits_inj'. intros i Hi. rewrite !Z.lor_spec, Z.land_spec.
  destruct (Z.ltb_spec i 32); [|by rewrite (testbit_above 32 comp) by lia].
  destruct (decide (i = 0)) as [->|]; [by rewrite !orb_true_r|]. replace (Z.testbit not1 i) with true; [by rewrite andb_true_r|].
  unfold not1. bit_cases i 32%nat; (done || lia).
Qed.

(** Where the sixth trampoline is looked for: its address rounded up to a
    word. *)
Definition sixth_trampoline (h5 : Z) : Z := u32 ((h5 .& not1) + 3) .& not3.

Lemma disable_cur_inst_spec (h : hw_state) (i comp n0 n h5 : Z) :
  0 <= i < 5 -> length (COMP (FPB h)) = 6%nat -> get_comp h i = Some comp -> calc_bpkt_pc (hw_mem h) comp = Some n0 ->
  next_aligned fuel (hw_mem h) n0 = Some n -> zget FPB_Handler 5 = Some h5 ->
  is_Some (load_le 4 (u32 (get_fpb_patch_remap REMAP_ADDR + 20)) (hw_mem h)) ->
  exists h', fpb_disable_cur_inst REMAP_ADDR FPB_Handler fuel h i = Some h' /\
    COMP (FPB h') = <[Z.to_nat i := comp .& not1]> (<[5%nat := n .| 1]> (COMP (FPB h))) /\
    load_le 4 (u32 (get_fpb_patch_remap REMAP_ADDR + 20)) (hw_mem h') =
      Some (little_endian_16_bit (calc_branch_instr n (sixth_trampoline h5))) /\
    forall b, ~ in_bytes (u32 (get_fpb_patch_remap REMAP_ADDR + 20)) 4 b -> hw_mem h' !! b = hw_mem h !! b.
Proof.
  intros Hi Hl Hc Hn0 Hn H5 Hm. unfold fpb_disable_cur_inst. rewrite Hc. cbn [mbind option_bind]. rewrite Hn0. cbn [mbind option_bind].
  rewrite Hn. cbn [mbind option_bind]. rewrite set_comp_eq by (unfold FPB_CB_REG; lia). cbn [mbind option_bind].
  assert (Hc' : get_comp (with_comps h (<[5%nat := n .| 1]> (COMP (FPB h)))) i = Some comp).
  { unfold get_comp. cbn. unfold get_comp in Hc. rewrite <- Hc. change 5%nat with (Z.to_nat 5). apply zget_insert_ne; lia. }
  change (Z.to_nat FPB_CB_REG) with 5%nat. rewrite Hc'. cbn [mbind option_bind].
  rewrite set_comp_eq by (cbn; rewrite length_insert; lia). cbn [mbind option_bind]. rewrite H5. cbn [mbind option_bind].
  unfold set_table. cbn [hw_mem with_comps with_fpb].
  change (get_fpb_patch_remap REMAP_ADDR + FPB_CB_REG * 4) with (get_fpb_patch_remap REMAP_ADDR + 20).
  fold (sixth_trampoline h5). set (v := little_endian_16_bit _). destruct (store_where_loaded 4 _ v (hw_mem h) Hm) as [m E].
  rewrite E. cbn [mbind option_bind]. eexists. split; [reflexivity|]. split; [done|]. cbn [hw_mem with_hwmem]. split.
  { rewrite (load_store_le 4 _ _ _ _ ltac:(lia) E). f_equal. change (2 ^ (8 * Z.of_nat 4)) with (2 ^ 32). apply Z.mod_small, u32_range. }
  intros b Hb.
  apply (store_le_frame 4 _ _ _ _ _ E). intros k Hk <-. apply Hb. by exists k.
Qed.

Definition rearm (c : Z) : Z := if negb (c =? 0) then c .| 1 else c.

Lemma enable_comps_S (k : nat) (i c : Z) (h : hw_state) :
  get_comp h i = Some c ->
  enable_comps (S k) i h = enable_comps k (i + 1) (with_comps h (<[Z.to_nat i := rearm c]> (COMP (FPB h)))).
Proof.
  intros Hc. pose proof (zget_Some _ _ _ Hc) as Hi. cbn [enable_comps]. rewrite Hc. cbn [mbind option_bind]. unfold rearm.
  destruct (negb (c =? 0)); [by rewrite set_comp_eq|]. cbn [mbind option_bind]. f_equal.
  rewrite list_insert_id; [by destruct h as [[? ? ?] ? ? ?]|]. unfold get_comp, zget in Hc. by destruct (Z.ltb_spec i 0); [lia|].
Qed.

Lemma enable_callback_spec (h : hw_state) (c0 c1 c2 c3 c4 c5 : Z) :
  COMP (FPB h) = [c0; c1; c2; c3; c4; c5] ->
  fpb_enable_callback h = Some (c5, with_comps h [rearm c0; rearm c1; rearm c2; rearm c3; rearm c4; c5 .& not1]).
Proof.
  destruct h as [[ctrl remap comp] info init m]. cbn [COMP FPB]. intros ->. unfold fpb_enable_callback.
  set (h := mk_hw _ _ _ _). assert (get_comp h FPB_CB_REG = Some c5) as -> by done. cbn [mbind option_bind]. change (Z.to_nat FPB_CB_REG) with 5%nat.
  rewrite (enable_comps_S 4 0 c0), (enable_comps_S 3 _ c1), (enable_comps_S 2 _ c2), (enable_comps_S 1 _ c3), (enable_comps_S 0 _ c4) by done.
  reflexivity.
Qed.

(** The answer PASS: the trampoline is to go back to the instruction, whose
    comparator is off, and the sixth comparator is on the next aligned one. *)
Lemma leave_fpb_passes (s1 s2 : ctx_state) (f comp c1 c2 c3 c4 c5 patch ret n0 n h5 : Z) :
  COMP (FPB (hw s1)) = [comp; c1; c2; c3; c4; c5] -> FPB (hw s2) = FPB (hw s1) ->
  get_dynamic_patch_by_bpkt s1 (comp .& not1) = Some patch -> patch <> 0 ->
  run_filter s1 patch f sizeof_ebpf_args_frame = Some (ret, s2) -> u32 (ret >> 32) = FILTER_PASS ->
  calc_bpkt_pc (hw_mem (hw s2)) comp = Some n0 -> next_aligned fuel (hw_mem (hw s2)) n0 = Some n ->
  zget FPB_Handler 5 = Some h5 -> is_Some (load_le 4 (u32 (get_fpb_patch_remap REMAP_ADDR + 20)) (hw_mem (hw s2))) ->
  exists h', leave_fpb s1 f 0 = Some (comp .& not1, with_hw s2 h') /\
    COMP (FPB h') = [comp .& not1; c1; c2; c3; c4; n .| 1] /\
    load_le 4 (u32 (get_fpb_patch_remap REMAP_ADDR + 20)) (hw_mem h') =
      Some (little_endian_16_bit (calc_branch_instr n (sixth_trampoline h5))) /\
    forall b, ~ in_bytes (u32 (get_fpb_patch_remap REMAP_ADDR + 20)) 4 b -> hw_mem h' !! b = hw_mem (hw s2) !! b.
Proof.
  intros Hcomp Hfpb Hget Hne Hrun Hop Hn0 Hn H5 Hm.
  assert (Hc2 : COMP (FPB (hw s2)) = [comp; c1; c2; c3; c4; c5]) by (rewrite Hfpb; exact Hcomp).
  destruct (disable_cur_inst_spec (hw s2) 0 comp n0 n h5 ltac:(lia)) as (h' & Hdc & Hcm & Hw & Hmm); try done; [by rewrite Hc2|unfold get_comp; by rewrite Hc2|].
  rewrite Hc2 in Hcm. change (<[Z.to_nat 0:=comp .& not1]> (<[5%nat:=n .| 1]> [comp; c1; c2; c3; c4; c5]))
    with [comp .& not1; c1; c2; c3; c4; n .| 1] in Hcm.
  exists h'. split; [|by split]. unfold leave_fpb_bpkt. assert (get_comp (hw s1) 0 = Some comp) as -> by (unfold get_comp; by rewrite Hcomp).
  cbn [mbind option_bind]. rewrite Hget. cbn [mbind option_bind]. destruct (Z.eqb_spec patch 0) as [E0|_]; [by destruct (Hne E0)|].
  cbn [negb]. rewrite Hrun. cbn [mbind option_bind]. rewrite Hop. change (FILTER_PASS =? FILTER_PASS) with true. cbv iota.
  rewrite Hdc. cbn [mbind option_bind]. unfold get_comp. by rewrite Hcm.
Qed.

(** The sixth trampoline, on an instruction at [n]. *)
Lemma handler5_restores (cx : cpu) (comp c1 c2 c3 c4 n : Z) :
  cpu_ok 24 cx -> COMP (FPB (hw (c_st cx))) = [comp .& not1; c1; c2; c3; c4; n .| 1] ->
  0 <= comp < 2 ^ 32 -> comp .| 1 = comp -> comp .& not1 <> 0 -> Forall armed [c1; c2; c3; c4] -> 0 <= n < 2 ^ 32 -> n .& 1 = 0 ->
  exists cy, exec FPB_Handler5 cx = Some (Goto n, cy) /\ kept [5] cx cy /\ map (c_reg cy) saved_regs = map (c_reg cx) saved_regs /\
    COMP (FPB (hw (c_st cy))) = [comp; c1; c2; c3; c4; n].
Proof.
  intros Hokx Hfx Hr Hon Hnz Harm Hnr Hn3. destruct (stub_push_spec saved_regs cx eq_refl Hokx) as (sx & Hpx & _ & _ & _).
  destruct (trampoline_pushed cx sx Hokx Hpx) as (_ & [mx Ex] & Hfx6).
  assert (Hcx : COMP (FPB (hw sx)) = [comp .& not1; c1; c2; c3; c4; n .| 1]) by (rewrite Ex; exact Hfx).
  pose proof (enable_callback_spec (hw sx) _ _ _ _ _ _ Hcx) as Hen.
  set (l' := [rearm (comp .& not1); rearm c1; rearm c2; rearm c3; rearm c4; (n .| 1) .& not1]) in Hen.
  edestruct (run_handler5 calls clobber flags (n .| 1) cx sx (with_hw sx (with_comps (hw sx) l'))) as (cy & Hy & Ky & Ty & Ry);
    [exact Hokx|exact Hpx| |exact Hfx6|].
  { intros c0 Hs. cbn [c_call]. rewrite Hs, Hen. reflexivity. }
  rewrite lor_1_not1 in Hy by done.
  exists cy. split; [exact Hy|]. split; [done|]. split; [exact Ry|]. rewrite Ty. cbn. unfold l'. rewrite lor_1_not1 by done.
  assert (Hre : forall x, armed x -> rearm x = x) by (intros x [-> | Hx1]; [done|]; unfold rearm; by destruct (x =? 0)).
  rewrite !Forall_cons_iff in Harm. destruct Harm as (A1 & A2 & A3 & A4 & _). rewrite (Hre c1), (Hre c2), (Hre c3), (Hre c4) by done. f_equal.
  unfold rearm. destruct (Z.eqb_spec (comp .& not1) 0); [done|]. cbn [negb]. by apply comp_rearmed.
Qed.


(** ** HERA *)

Local Abbreviation hera_tail := [BL C_hera_fix_func; POP [0; 1; 2; 3; 7; PC]].

(** The comparisons of the dispatcher: each branches over the ones left. *)
Fixpoint hera_code (vs : list Z) : list asm :=
  match vs with
  | [] => hera_tail
  | v :: vs => LDR_const 3 v :: CMP_reg LR 3 :: BEQ (3 * length vs) :: hera_code vs
  end.

Lemma hera_skip (vs : list Z) (c : cpu) : Stubs.exec calls clobber flags (3 * length vs) (hera_code vs) c = exec hera_tail c.
Proof.
  induction vs as [|v vs IH]; [done|]. cbn [length hera_code]. replace (3 * S (length vs))%nat with (S (S (S (3 * length vs)))) by lia.
  exact IH.
Qed.

Lemma hera_chain (vs : list Z) (c : cpu) :
  exists d, exec (hera_code vs) c = exec hera_tail d /\ kept [] c d /\ c_st d = c_st c /\ c_reg d 0 = c_reg c 0 /\ c_reg d 1 = c_reg c 1.
Proof.
  revert c. induction vs as [|v vs IH]; intros c; [by exists c|].
  set (c1 := set_reg 3 v c). set (c2 := set_cmp (c_reg c1 LR) (c_reg c1 3) c1).
  assert (K : kept [] c c2) by (apply (kept_trans _ _ c1); [apply kept_set_reg; by left|apply kept_set_cmp]).
  change (exec (hera_code (v :: vs)) c) with
    (Stubs.exec calls clobber flags (if z_flag c2 then (3 * length vs)%nat else O) (hera_code vs) c2).
  destruct (z_flag c2); [rewrite hera_skip; by exists c2|].
  destruct (IH c2) as (d & -> & Kd & Td & R0 & R1). exists d. split; [done|]. split; [by apply (kept_trans _ _ c2)|]. by rewrite Td, R0, R1.
Qed.

(** All five comparisons lead to the same call, and the result of the fixed
    function is popped away: whatever it says, r0 is what it was. *)
Theorem hera_result_dropped (c : cpu) (s1 : ctx_state) (v : Z) :
  cpu_ok 24 c -> handler_mode c = false -> Z.odd (c_reg c LR) = true -> pushed [0; 1; 2; 3; 7; LR] c = Some s1 ->
  hera_fix_func s1 (c_reg c 0) (c_reg c 1) = Some v ->
  exists c', exec HERA_Dipatcher c = Some (Goto (c_reg c LR - 1), c') /\ c_reg c' 0 = c_reg c 0.
Proof.
  intros Hok Hmode Hodd Hpush Hfix. destruct (stub_entry [0; 1; 2; 3; 7; LR] c s1 Hok Hpush) as (F & S1 & T1 & R1 & M1 & P1 & H1 & Fb).
  destruct (stub_push_spec [0; 1; 2; 3; 7; LR] c eq_refl Hok) as (s1' & Hpush' & _ & Hf & _). rewrite Hpush in Hpush'. injection Hpush' as <-.
  change (4 * Z.of_nat (length [0; 1; 2; 3; 7; LR])) with 24 in *. change (length [0; 1; 2; 3; 7; LR]) with 6%nat in Hf. cbn [map] in Hf.
  change HERA_Dipatcher with (PUSH [0; 1; 2; 3; 7; LR] :: hera_code [0x2000050; 0x2000052; 0x2000054; 0x2000055; 0x2000057]).
  rewrite (exec_push _ _ _ _ _ c s1 Hpush). change (4 * Z.of_nat (length [0; 1; 2; 3; 7; LR])) with 24. rewrite F.
  set (c1 := set_sp (sp_of c - 24) (set_st s1 c)) in *. destruct (hera_chain [0x2000050; 0x2000052; 0x2000054; 0x2000055; 0x2000057] c1) as (d & -> & K & Td & R0 & Ra).
  rewrite (exec_BL _ _ _ _ _ d (Some (u32 v)) s1) by (cbn [c_call]; by rewrite Td, R0, Ra, T1, R1, Hfix).
  set (c3 := returned_c clobber flags (Some (u32 v)) s1 d). assert (K3 : kept [] c1 c3) by (apply (kept_trans _ _ d); [done|apply kept_returned]).
  cbn [Stubs.exec]. rewrite (kept_sp _ _ _ K3), S1. change (mem_of c3) with (hw_mem (hw s1)). unfold frame_at in Hf.
  change (length [0; 1; 2; 3; 7; PC]) with 6%nat. rewrite Hf. cbn [mbind option_bind]. change (existsb (Z.eqb PC) [0; 1; 2; 3; 7; PC]) with true. cbv iota.
  set (c4 := set_sp _ _). assert (M4 : same_mode c c4).
  { apply (same_mode_trans _ c1); [done|]. apply (same_mode_trans _ c3); [apply K3|]. unfold c4.
    eapply same_mode_trans; [|apply set_sp_mode]. destruct (set_regs_rest (zip [0; 1; 2; 3; 7; PC] [c_reg c 0; c_reg c 1; c_reg c 2; c_reg c 3; c_reg c 7; c_reg c LR]) c3) as (_ & _ & E1 & E2 & _).
    split; [by rewrite E2|by rewrite E1]. }
  assert (R4 : c_reg c4 PC = c_reg c LR /\ c_reg c4 0 = c_reg c 0) by (unfold c4; rewrite set_sp_reg; done).
  rewrite (proj1 R4), (load_pc_mode c c4 _ M4). unfold load_pc. rewrite Hmode, Hodd. cbn [andb mbind option_bind]. exists c4. split; [reflexivity|exact (proj2 R4)].
Qed.
End PatchPoints.

(** ** Witnesses: a thread on the process stack *)

Lemma room_ok (n : nat) (a : Z) (m : memory) :
  forallb (fun k => bool_decide (is_Some (m !! u32 (a + Z.of_nat k)))) (seq 0 n) = true ->
  forall b, in_bytes a (Z.of_nat n) b -> is_Some (m !! b).
Proof.
  rewrite forallb_forall. intros H b (k & Hk & ->). specialize (H (Z.to_nat k)). rewrite in_seq in H.
  specialize (H ltac:(lia)). apply bool_decide_eq_true_1 in H. by rewrite Z2Nat.id in H by lia.
Qed.

(** The registers hold 100 and up, lr is [lr]; the stack is below 0x20001000. *)
Definition thread (s : ctx_state) (lr : Z) : cpu :=
  mk_cpu (fun k => if k =? LR then lr else if (0 <=? k) && (k <? 16) then 100 + k else 0) 0x20000400 0x20001000 2 0x01000000 s.

Definition stack_mem (dfsr : Z) (code : list Z) : memory :=
  bytes_at (0x20001000 - 48) (replicate 48 0)
    (bytes_at 0x20000000 (replicate 64 0)
      (bytes_at 0x08000300 code
        (bytes_at SCB_DFSR (le_word dfsr) (bytes_at DCB_DEMCR (le_word 0x10000) ∅)))).

Definition thread_on (prog : list ebpf_inst) (lr : Z) : cpu := thread (machine_with prog (stack_mem 2 [0x2d; 0xe9; 0xf0; 0x41; 0; 0; 0; 0])) lr.

Lemma thread_ok (n : nat) (s : ctx_state) (lr : Z) :
  hw_mem (hw s) = stack_mem 2 [0x2d; 0xe9; 0xf0; 0x41; 0; 0; 0; 0] -> (n <= 48)%nat -> 0 <= lr < 2 ^ 32 ->
  cpu_ok (Z.of_nat n) (thread s lr).
Proof.
  intros Hm Hn Hlr. split.
  - intros r. cbn. destruct (r =? LR); [done|]. destruct (Z.leb_spec 0 r), (Z.ltb_spec r 16); cbn; lia.
  - change (sp_of (thread s lr)) with 0x20001000. lia.
  - unfold mem_of. cbn [c_st thread]. rewrite Hm. apply (bool_decide_unpack _). vm_compute. exact I.
  - unfold mem_of. cbn [c_st thread]. rewrite Hm.
    change (sp_of (thread s lr)) with 0x20001000. intros b (k & Hk & ->).
    apply (room_ok 48 (0x20001000 - 48)); [vm_compute; reflexivity|]. exists (48 - Z.of_nat n + k). split; [lia|]. f_equal. lia.
  - reflexivity.
  - discriminate.
Qed.

Section Witnesses.
Local Abbreviation stray := (fun _ : Z => 0).
Local Abbreviation regs := (replicate 12 0).
Local Abbreviation run_filter := (run_filter no_jit no_ext 0x20002000 regs).
Local Abbreviation calls := (c_call stray stray [] 0x20000000 no_jit no_ext 0x20002000 regs 8).

Definition caller : cpu := thread_on (returns 1 5) 0x08000105.
Definition caller_pushed : ctx_state := state_after (c_st caller) (pushed [0; 1; 2; 3; LR] caller).


Definition hit : cpu := thread_on (returns 1 5) 0x08000555.
Definition hit_pushed : ctx_state := state_after (c_st hit) (pushed_frame hit 0x08000300).


(** The instruction is four bytes long, and remapped by the first comparator. *)
Definition passing : cpu :=
  let s := c_st (thread_on (returns 0 0) 0x08000555) in
  thread (with_hw s (with_fpb (hw s) {| CTRL := 0x263; REMAP := 0x20000000; COMP := [0x08000301; 0; 0x08000401; 0; 0; 0] |})) 0x08000555.
Definition passing_pushed : ctx_state := state_after (c_st passing) (pushed [0; 1; 2; 3; 12; LR] passing).
Definition handlers_at : list Z := [0x08001001; 0x08001041; 0x08001081; 0x080010c1; 0x08001101; 0x08001141].
Local Abbreviation calls' := (c_call stray stray handlers_at 0x20000000 no_jit no_ext 0x20002000 regs 8).

End Witnesses.
