(* ===== verification/LocalPatch.v ===== *)
(** * The patches that come with the runtime (hotpatch/src/
    dynamic_patch_load.c, fixed_patch_load.c)

    The loaders that install one of the patches kept in flash, and the
    correctness of the patch [test_cve] for the function [test_dynamic_bug] it
    is written for: the program of the patch, run by the interpreter on the
    frame of the call, and the function as the debug monitor lets it run. *)

From stdpp Require Import relations sorting.
From S2P Require Import Prelude Mem EbpfInst EbpfVm EbpfVmProps EbpfTurns Vm Hashmap Fpb FpbProps PatchCtx PatchCtxProps Dispatch DispatchProps.
From S2P Require Jit.

(** ** The loaders *)

Record local_patch := { loc : Z; code : list Z }.

(** The module's variables: the table of patches, the descriptor and the patch
    that every load reuses. *)
Record loader := { patch_list : list local_patch; _desc : Z; _patch : Z; is_init : bool }.

Section Load.
Context (kstray vstray junk : Z -> Z).
Context (alloc_env : gmap Z ebpf_helper_env -> Z) (malloc_vm : option ebpf_vm) (iot : iot_helpers).
Context (alloc_patch : gmap Z ebpf_patch -> Z) (alloc_desc : gmap Z patch_desc -> Z).
Context (REMAP_ADDR : Z) (FPB_Handler : list Z).
(** The word after the compiler's register table, as in [Jit], and the address
    of the static buffer of the compiled code. *)
Context (past_end : Z * Z) (jit_buffer : Z).

Definition zero_desc : patch_desc := {| pd_type := 0; pd_code_len := 0; pd_addr := 0; pd_code := [] |}.
Definition zero_patch : ebpf_patch := {| p_desc := 0; p_vm := None; p_is_active := false |}.

(** calloc of the two objects, once. *)
Definition load_objects (l : loader) (s : ctx_state) : loader * ctx_state :=
  let desc := alloc_desc (descs s) in
  let patch := alloc_patch (patches s) in
  ({| patch_list := patch_list l; _desc := desc; _patch := patch; is_init := true |},
   with_patches (with_descs s (<[desc := zero_desc]> (descs s))) (<[patch := zero_patch]> (patches s))).

(** gen_jit_code: the code goes to the static buffer and its address, with
    the Thumb bit, to the vm. *)
Definition gen_jit (s : ctx_state) (vm : ebpf_vm) : option (ebpf_vm * ctx_state) :=
  prog ← insts vm;
  e ← helper_envs (helpers s) !! helper_func vm;
  r ← Jit.gen_jit_code past_end jit_buffer prog (num_insts vm) (ext_funcs e);
  Some ({| insts := insts vm; num_insts := num_insts vm; bounds_check_enabled := bounds_check_enabled vm;
           helper_func := helper_func vm; jit_func := snd r; use_jit := use_jit vm |},
        with_hw s (with_hwmem (hw s)
          (bytes_at (jit_buffer - Jit.jit_align (fst r)) (Jit.jit_code (fst r)) (hw_mem (hw s))))).

(** The part the loaders share once the objects exist: the descriptor is
    filled, the vm created when there is none and given the code. *)
Definition load_patch (jit : bool) (type : Z) (l : loader) (s : ctx_state) (pt : local_patch) : option ctx_state :=
  d ← descs s !! _desc l;
  p ← patches s !! _patch l;
  let s := with_descs s (<[_desc l := {| pd_type := type; pd_code_len := 0; pd_addr := loc pt; pd_code := pd_code d |}]> (descs s)) in
  let code_len := Z.of_nat (length (code pt)) in
  r ← match p_vm p with
      | Some vm => Some (Some vm, helpers s)
      | None => init_ebpf_vm alloc_env malloc_vm iot (helpers s) (code pt) code_len
      end;
  vm ← fst r;
  r ← ebpf_vm_set_inst alloc_env iot vm (snd r) (code pt) code_len;
  let s := with_helpers s (snd r) in
  let vm := {| insts := insts (fst r); num_insts := num_insts (fst r); bounds_check_enabled := bounds_check_enabled (fst r);
               helper_func := helper_func (fst r); jit_func := jit_func (fst r); use_jit := jit |} in
  r ← (if jit then gen_jit s vm else Some (vm, s));
  let s := with_patches (snd r)
    (<[_patch l := {| p_desc := _desc l; p_vm := Some (fst r); p_is_active := p_is_active p |}]> (patches (snd r))) in
  load_local_patch_to_ctx kstray vstray junk REMAP_ADDR FPB_Handler s (_patch l).

(** show_local_patch_desc fills in the addresses of the first three patches. *)
Definition setup_cve_list (locs : list Z) (ps : list local_patch) : list local_patch :=
  match ps, locs with
  | p0 :: p1 :: p2 :: ps, [l0; l1; l2] =>
      {| loc := l0; code := code p0 |} :: {| loc := l1; code := code p1 |} :: {| loc := l2; code := code p2 |} :: ps
  | _, _ => ps
  end.

(** The patch, 0 when the id is refused. *)
Definition read_local_patch (locs : list Z) (l : loader) (s : ctx_state) (pid : Z) : option (Z * loader * ctx_state) :=
  let n := Z.of_nat (length (patch_list l)) in
  if n <? pid then
    Some (0, {| patch_list := setup_cve_list locs (patch_list l); _desc := _desc l; _patch := _patch l; is_init := is_init l |}, s)
  else
    r ← (if is_init l then Some (l, s)
         else let r := load_objects l s in s ← init_patch_sys vstray junk (snd r); Some (fst r, s));
    let '(l, s) := r in
    pt ← zget (patch_list l) pid;
    s ← load_patch true DynamicPatchPoint l s pt;
    Some (_patch l, l, s).

Definition load_local_fixed_patch (l : loader) (s : ctx_state) (pid : Z) : option (loader * ctx_state) :=
  let n := Z.of_nat (length (patch_list l)) in
  if n <? pid then Some (l, s)
  else
    let '(l, s) := if is_init l then (l, s) else load_objects l s in
    s ← init_patch_sys vstray junk s;
    pt ← zget (patch_list l) pid;
    s ← load_patch false FixedPatchPoint l s pt;
    Some (l, s).

(** The loaders let the id that is one past the table through: the test
    refuses only the ids above the number of patches, and the entry after the
    last one is then read. *)
Theorem read_local_patch_off_by_one (locs : list Z) (l : loader) (s : ctx_state) :
  is_init l = true -> patch_list l <> [] ->
  read_local_patch locs l s (Z.of_nat (length (patch_list l))) = None
  /\ (ctx_init s = true -> load_local_fixed_patch l s (Z.of_nat (length (patch_list l))) = None)
  /\ exists r, read_local_patch locs l s (Z.of_nat (length (patch_list l)) + 1) = Some r /\ snd r = s.
Proof.
  intros Hi Hne. unfold read_local_patch, load_local_fixed_patch. rewrite Hi.
  set (n := Z.of_nat (length (patch_list l))).
  assert (zget (patch_list l) n = None) as Hz by (apply zget_None; lia).
  split; [|split].
  - destruct (Z.ltb_spec n n); [lia|]. cbn [mbind option_bind]. by rewrite Hz.
  - intros Hc. destruct (Z.ltb_spec n n); [lia|]. unfold init_patch_sys. rewrite Hc. cbn [mbind option_bind]. by rewrite Hz.
  - destruct (Z.ltb_spec n (n + 1)); [|lia]. eexists. split; [reflexivity|done].
Qed.
End Load.

(** ** The patch test_cve *)

Definition test_cve : list Z :=
  [0x61; 0x11; 0x00; 0x00; 0x00; 0x00; 0x00; 0x00; 0x07; 0x01; 0x00; 0x00; 0x2f; 0xf8; 0xff; 0xff; 0x67; 0x01; 0x00; 0x00; 0x20; 0x00; 0x00; 0x00; 0x77;
   0x01; 0x00; 0x00; 0x20; 0x00; 0x00; 0x00; 0xb7; 0x00; 0x00; 0x00; 0x01; 0x00; 0x00; 0x00; 0xb7; 0x02; 0x00; 0x00; 0xb8; 0x0b; 0x00; 0x00; 0x2d; 0x12;
   0x01; 0x00; 0x00; 0x00; 0x00; 0x00; 0xb7; 0x00; 0x00; 0x00; 0x00; 0x00; 0x00; 0x00; 0x67; 0x00; 0x00; 0x00; 0x20; 0x00; 0x00; 0x00; 0x95; 0x00; 0x00;
   0x00; 0x00; 0x00; 0x00; 0x00; 0x00].

(** The function it patches, and what it should be: the comment in its body
    says `fixed: v > 5000 return -1`. *)
Definition test_dynamic_bug (v : Z) : Z := if 2000 <? v then -1 else 0.
Definition test_dynamic_fixed (v : Z) : Z := if 5000 <? v then -1 else 0.

Definition test_cve_insts : list ebpf_inst :=
  [mk_inst 0x61 1 1 0 0;          (* r1 = *(u32 * )(r1 + 0) *)
   mk_inst 0x07 1 0 0 (-2001);    (* r1 += -2001 *)
   mk_inst 0x67 1 0 0 32;         (* r1 <<= 32 *)
   mk_inst 0x77 1 0 0 32;         (* r1 >>= 32 *)
   mk_inst 0xb7 0 0 0 1;          (* r0 = 1 *)
   mk_inst 0xb7 2 0 0 3000;       (* r2 = 3000 *)
   mk_inst 0x2d 2 1 1 0;          (* if r2 > r1 goto +1 *)
   mk_inst 0xb7 0 0 0 0;          (* r0 = 0 *)
   mk_inst 0x67 0 0 0 32;         (* r0 <<= 32 *)
   mk_inst 0x95 0 0 0 0].         (* exit *)

Lemma test_cve_decoded : insts_of_bytes test_cve = test_cve_insts.
Proof. vm_compute. reflexivity. Qed.

(** *** The program *)

(** What the patch computes from the argument. *)
Definition test_cve_result (v : Z) : Z := if (2000 <? s32 v) && (s32 v <=? 5000) then 2 ^ 32 else 0.

Lemma test_cve_range (v : Z) :
  0 <= v < 2 ^ 32 -> (u32 (v - 2001) <? 3000) = (2000 <? s32 v) && (s32 v <=? 5000).
Proof.
  intros Hv. unfold u32, s32, wrap, sext. rewrite (Z.mod_small v) by done. change (2 ^ (32 - 1)) with (2 ^ 31).
  destruct (Z.ltb_spec v 2001).
  - replace ((v - 2001) mod 2 ^ 32) with (v - 2001 + 2 ^ 32).
    2: { rewrite <- (Z.mod_small (v - 2001 + 2 ^ 32) (2 ^ 32)) by lia.
         rewrite <- (Z.mod_add (v - 2001) 1 (2 ^ 32)) by lia. f_equal; lia. }
    destruct (Z.ltb_spec v (2 ^ 31)); lia.
  - rewrite Z.mod_small by lia. destruct (Z.ltb_spec v (2 ^ 31)); lia.
Qed.

(** The states the interpreter goes through, [rs] being the registers for
    given r0, r1 and r2. *)
Definition test_cve_trace (rs : Z -> Z -> Z -> list Z) (m : memory) (a0 arg a2 v : Z) : list vm_state :=
  let w := u64 (v + u64 (-2001)) in
  let r1 := u32 (v - 2001) in
  [mk_state 0 (rs a0 arg a2) m; mk_state 1 (rs a0 v a2) m; mk_state 2 (rs a0 w a2) m; mk_state 3 (rs a0 (u64 (w << 32)) a2) m;
   mk_state 4 (rs a0 r1 a2) m; mk_state 5 (rs 1 r1 a2) m; mk_state 6 (rs 1 r1 3000) m] ++
  (if r1 <? 3000 then [] else [mk_state 7 (rs 1 r1 3000) m]) ++
  [mk_state 8 (rs (if r1 <? 3000 then 1 else 0) r1 3000) m].

Definition test_cve_last (rs : Z -> Z -> Z -> list Z) (m : memory) (v : Z) : vm_state :=
  mk_state 9 (rs (test_cve_result v) (u32 (v - 2001)) 3000) m.

Definition cve_regs (reg0 : list Z) (stack r0 r1 r2 : Z) : list Z :=
  r0 :: r1 :: r2 :: <[7%nat := u32 (stack + STACK_SIZE)]> (drop 3 reg0).

Lemma test_cve_turns (ce : Z -> list Z -> memory -> option (Z * memory)) (en : exec_env) (reg0 : list Z) (m : memory) (v : Z) :
  e_insts en = test_cve_insts -> length reg0 = 12%nat -> 0 <= v < 2 ^ 32 -> load_le 4 (u32 (e_mem en + 0)) m = Some v ->
  let rs := cve_regs reg0 (e_stack en) in
  exists a0 a2, hd_error (test_cve_trace rs m a0 (e_mem en) a2 v) = Some (init_state en reg0 m) /\
    Sorted (turn ce en) (test_cve_trace rs m a0 (e_mem en) a2 v ++ [test_cve_last rs m v]).
Proof.
  intros Hp Hlen Hv Hload. unfold init_state, cve_regs. do 12 (destruct reg0 as [|? reg0]; [done|]). destruct reg0; [clear Hlen|done].
  cbn [drop list_insert insert list_insert]. exists z, z1. split; [reflexivity|].
  set (rs := fun r0 r1 r2 => _). unfold test_cve_trace, test_cve_last. set (w := u64 (v + u64 (-2001))).
  assert (u64 (w << 32) >> 32 = u32 (v - 2001)) as Hw.
  { unfold w. rewrite shift_pair. unfold u32, u64. rewrite <- wrap_add_r, wrap_wrap, wrap_add_r by lia. reflexivity. }
  unfold test_cve_result. rewrite <- test_cve_range by done. rewrite <- Hw. set (r1 := u64 (w << 32) >> 32) in *.
  assert (H6 : turn ce en (mk_state 6 (rs 1 r1 3000) m) (mk_state (if r1 <? 3000 then 8 else 7) (rs 1 r1 3000) m)).
  { replace (if r1 <? 3000 then 8 else 7) with (if r1 <? 3000 then u16 (u16 (6 + 1) + 1) else u16 (6 + 1)) by (by destruct (r1 <? 3000)).
    eapply (turn_jump ce en 6 _ m (mk_inst 0x2d 2 1 1 0) EBPF_OP_JGT_REG); rewrite ?Hp; (reflexivity || discriminate). }
  destruct (r1 <? 3000); cbn [app]; repeat (apply Sorted_cons || apply Sorted_nil || apply HdRel_cons || apply HdRel_nil); try exact H6.
  all: first [eapply (turn_ldxw ce en 0); rewrite ?Hp; [reflexivity..|exact Hload|reflexivity]
             |eapply (turn_alu64 ce en); rewrite ?Hp; reflexivity].
Qed.

Lemma test_cve_runs (ce : Z -> list Z -> memory -> option (Z * memory)) (en : exec_env) (reg0 : list Z) (m : memory) (v : Z) :
  e_insts en = test_cve_insts -> length reg0 = 12%nat -> 0 <= v < 2 ^ 32 -> load_le 4 (u32 (e_mem en + 0)) m = Some v ->
  ebpf_vm_exec ce en reg0 m = Returned (test_cve_result v) m.
Proof.
  intros Hp Hlen Hv Hload. destruct (test_cve_turns ce en reg0 m v Hp Hlen Hv Hload) as (a0 & a2 & Hhd & Hs).
  set (rs := cve_regs reg0 (e_stack en)) in *. set (tr := test_cve_trace rs m a0 (e_mem en) a2 v) in *.
  unfold ebpf_vm_exec. apply (run_returns ce en (length tr) _ (test_cve_last rs m v)).
  - by apply sorted_nsteps.
  - unfold step. cbn [s_pc test_cve_last]. rewrite Hp. reflexivity.
  - unfold tr, test_cve_trace. cbv zeta. rewrite !length_app. destruct (_ <? _); cbn; unfold MAX_ITERS; lia.
Qed.

(** The program of the patch computes its decision: on every frame, from
    every content of the registers, it ends and returns DROP with the code 0
    when the argument, as an int, is in (2000, 5000], and PASS otherwise; it
    changes nothing in memory. *)
Theorem test_cve_decides (ce : Z -> list Z -> memory -> option (Z * memory)) (en : exec_env) (reg0 : list Z) (m : memory) (v : Z) :
  e_insts en = insts_of_bytes test_cve -> length reg0 = 12%nat -> 0 <= v < 2 ^ 32 ->
  load_le 4 (u32 (e_mem en + 0)) m = Some v ->
  ebpf_vm_exec ce en reg0 m = Returned (test_cve_result v) m.
Proof. rewrite test_cve_decoded. exact (test_cve_runs ce en reg0 m v). Qed.

(** *** The patched function *)

(** What a call returns when the debug monitor stops it at its first
    instruction: what r0 holds when the function is skipped, else what its body
    returns. *)
Definition call_result (skip : bool) (s' : ctx_state) (ctx v : Z) : option Z :=
  if skip then r0 ← get32 s' (ctx + ctx_r0); Some (s32 r0) else Some (test_dynamic_bug (s32 v)).

Section Answer.
Context (call_jit : Z -> Z -> Z -> memory -> option (Z * memory)) (call_ext : Z -> list Z -> memory -> option (Z * memory)).
Context (stack : Z) (reg0 : list Z).

(** A filter that answers as the patch does repairs the function. *)
Lemma cve_answer_repairs (s s1 : ctx_state) (ctx v pc lr patch : Z) :
  get32 s (ctx + ctx_pc) = Some pc -> get_dynamic_patch_by_bpkt s pc = Some patch -> patch <> 0 ->
  run_filter call_jit call_ext stack reg0 s patch ctx sizeof_ebpf_args_frame = Some (test_cve_result v, s1) ->
  get32 s1 (ctx + ctx_lr) = Some lr -> 0 <= lr < 2 ^ 32 ->
  is_Some (get32 s1 (ctx + ctx_r0)) -> is_Some (get32 s1 (ctx + ctx_pc)) ->
  apart (ctx + ctx_r0) (ctx + ctx_lr) -> apart (ctx + ctx_pc) (ctx + ctx_r0) ->
  exists skip s', run_patch_here call_jit call_ext stack reg0 s ctx = Some (skip, s')
  /\ call_result skip s' ctx v = Some (test_dynamic_fixed (s32 v))
  /\ (skip = true -> get32 s' (ctx + ctx_pc) = Some lr).
Proof.
  intros Hpc Hget Hne Hf Hlr Hlrr Hr0 Hpc1 Ha1 Ha2.
  assert (u32 (test_cve_result v >> 32) <> FILTER_REDIRECT) as Hop by (unfold test_cve_result; by destruct (_ && _)).
  destruct (run_here_verdict call_jit call_ext stack reg0 s s1 ctx pc lr patch _ Hpc Hget Hne Hf Hop Hlr Hlrr Hr0 Hpc1 Ha1 Ha2)
    as (skip & s' & Hrun & Hverdict).
  exists skip, s'. split; [exact Hrun|]. clear Hrun.
  unfold test_cve_result in Hverdict. unfold call_result, test_dynamic_fixed, test_dynamic_bug.
  destruct (Z.ltb_spec 2000 (s32 v)), (Z.leb_spec (s32 v) 5000); cbn [andb] in Hverdict.
  2-4: destruct Hverdict as [-> ->]; split; [|done]; f_equal; destruct (Z.ltb_spec 2000 (s32 v)), (Z.ltb_spec 5000 (s32 v)); (done || lia).
  destruct Hverdict as (-> & Hr0' & Hpc' & _). split; [|done]. rewrite Hr0'. cbn [mbind option_bind].
  destruct (Z.ltb_spec 5000 (s32 v)); [lia|done].
Qed.

End Answer.

Section Patched.
Context (call_jit : Z -> Z -> Z -> memory -> option (Z * memory)) (call_ext : Z -> list Z -> memory -> option (Z * memory)).
Context (stack : Z) (reg0 : list Z).
Hypothesis reg0_length : length reg0 = 12%nat.

Lemma run_filter_test_cve (s : ctx_state) (ctx v patch : Z) (p : ebpf_patch) (vm : ebpf_vm) (e : ebpf_helper_env) :
  patches s !! patch = Some p -> p_vm p = Some vm -> use_jit vm = false -> insts vm = Some (insts_of_bytes test_cve) ->
  helper_envs (helpers s) !! helper_func vm = Some e ->
  0 <= v < 2 ^ 32 -> get32 s (ctx + ctx_r0) = Some v ->
  exists s1, run_filter call_jit call_ext stack reg0 s patch ctx sizeof_ebpf_args_frame = Some (test_cve_result v, s1)
    /\ forall a, get32 s1 a = get32 s a.
Proof.
  intros Hp Hvm Hj Hi He Hv Hload.
  apply (run_filter_interpreted call_jit call_ext stack reg0 s ctx _ patch (test_cve_result v) p vm e (insts_of_bytes test_cve)); try done.
  by apply test_cve_runs; [exact test_cve_decoded|..].
Qed.

(** The patch repairs the function: stopped by the debug monitor at its
    breakpoint, with the patch run by the interpreter, a call of
    test_dynamic_bug returns what the fixed function returns, for every
    argument. *)
Theorem test_cve_repairs (s : ctx_state) (ctx v pc lr patch : Z) (p : ebpf_patch) (vm : ebpf_vm) (e : ebpf_helper_env) :
  get32 s (ctx + ctx_pc) = Some pc -> get_dynamic_patch_by_bpkt s pc = Some patch -> patch <> 0 ->
  patches s !! patch = Some p -> p_vm p = Some vm -> use_jit vm = false -> insts vm = Some (insts_of_bytes test_cve) ->
  helper_envs (helpers s) !! helper_func vm = Some e ->
  0 <= v < 2 ^ 32 -> get32 s (ctx + ctx_r0) = Some v -> get32 s (ctx + ctx_lr) = Some lr -> 0 <= lr < 2 ^ 32 ->
  apart (ctx + ctx_r0) (ctx + ctx_lr) -> apart (ctx + ctx_pc) (ctx + ctx_r0) ->
  exists skip s', run_patch_here call_jit call_ext stack reg0 s ctx = Some (skip, s')
  /\ call_result skip s' ctx v = Some (test_dynamic_fixed (s32 v))
  /\ (skip = true -> get32 s' (ctx + ctx_pc) = Some lr).
Proof.
  intros Hpc Hget Hne Hp Hvm Hj Hi He Hv Hload Hlr Hlrr Ha1 Ha2.
  destruct (run_filter_test_cve s ctx v patch p vm e Hp Hvm Hj Hi He Hv Hload) as (s1 & Hf & Hsame).
  apply (cve_answer_repairs call_jit call_ext stack reg0 s s1 ctx v pc lr patch); rewrite ?Hsame, ?Hload, ?Hpc; try done; by eexists.
Qed.
End Patched.

(** ** Witnesses: the machine of the dispatch, with the patch installed *)

Definition cve_frame : list Z := [3000; 0; 0; 0; 0; 0x08000555; 0x08000300; 0].
Definition cve_machine : ctx_state := machine (insts_of_bytes test_cve) cve_frame.

Lemma test_cve_decides_witness :
  ebpf_vm_exec no_ext (mk_env (insts_of_bytes test_cve) false [] 0x20001000 16 0x20002000) (replicate 12 0) (frame_mem cve_frame)
  = Returned (2 ^ 32) (frame_mem cve_frame).
Proof.
  rewrite (test_cve_decides no_ext _ (replicate 12 0) (frame_mem cve_frame) 3000); try (vm_compute; reflexivity); lia.
Defined.

Lemma test_cve_repairs_witness :
  exists skip s', run_patch_here no_jit no_ext 0x20002000 (replicate 12 0) cve_machine 0x20001000 = Some (skip, s')
    /\ call_result skip s' 0x20001000 3000 = Some 0 /\ (skip = true -> get32 s' (0x20001000 + ctx_pc) = Some 0x08000555).
Proof.
  refine (test_cve_repairs no_jit no_ext 0x20002000 (replicate 12 0) eq_refl cve_machine 0x20001000 3000
    0x08000300 0x08000555 64 {| p_desc := 32; p_vm := Some (test_vm (insts_of_bytes test_cve)); p_is_active := true |} (test_vm (insts_of_bytes test_cve))
    {| ext_funcs := replicate 12 0; refcnt := 1 |} _ _ _ _ _ eq_refl eq_refl _ _ _ _ _ _ _).
  all: discharge.
Defined.

Lemma read_local_patch_off_by_one_witness :
  read_local_patch (fun _ => 0) (fun _ => 0) (fun _ => 0) next_address None iot_sample fresh_patch (fun _ => 8) 0x20000000 [] (0, 0) 0
    [] {| patch_list := [{| loc := 0x080072e0; code := test_cve |}]; _desc := 32; _patch := 64; is_init := true |} cve_machine 1 = None.
Proof.
  apply (read_local_patch_off_by_one (fun _ => 0) (fun _ => 0) (fun _ => 0) next_address None iot_sample fresh_patch (fun _ => 8) 0x20000000 []
    (0, 0) 0 [] {| patch_list := [{| loc := 0x080072e0; code := test_cve |}]; _desc := 32; _patch := 64; is_init := true |} cve_machine);
    [reflexivity|discriminate].
Defined.
