(* ===== verification/JitPatch.v ===== *)
(** * Compiled patches (iotpatch.c run_ebpf_filter, libebpf/src/jit.c)

    The call of the function the compiler leaves in the code buffer, from C,
    on the processor of [ThumbRun]: the code is fetched from the memory the
    runtime has, where [gen_jit] put it.  The contract of [JitContract] makes
    [run_ebpf_filter] return what the interpreter would, and with it the
    patch that ships compiled ([read_local_patch] sets use_jit) repairs the
    function it is written for. *)

From stdpp Require Import relations sorting.
From S2P Require Import Prelude Mem EbpfInst EbpfVm EbpfVmProps EbpfTurns Thumb2 Jit JitEmit JitProps JitLayout.
From S2P Require Import ThumbSem ThumbRun JitSem JitArith JitRun JitContract.
From S2P Require Import Vm Fpb PatchCtx PatchCtxProps Dispatch DispatchProps LocalPatch.

(** ** Running until the caller is reached *)

Section Run.
Context (base : Z) (code : list Z).

Fixpoint run_until (stop : Z) (fuel : nat) (c : Z * arm) : option arm :=
  if fst c =? stop then Some (snd c)
  else match fuel with O => None | S fuel' => c' ← arm_step base code c; run_until stop fuel' c' end.

Lemma run_until_steps (stop : Z) (k fuel : nat) (c : Z * arm) (a : arm) :
  stop < base \/ base + Z.of_nat (length code) <= stop -> arm_steps base code k c = Some (stop, a) -> (k <= fuel)%nat ->
  run_until stop fuel c = Some a.
Proof.
  intros Hout. revert fuel c. induction k as [|k IH]; intros fuel c H Hle.
  - injection H as ->. destruct fuel; cbn; by rewrite Z.eqb_refl.
  - cbn [arm_steps] in H. destruct fuel as [|fuel]; [lia|]. cbn [run_until]. destruct (Z.eqb_spec (fst c) stop) as [E|_].
    + unfold arm_step, fetch, half_at in H. replace (zget code (fst c - base)) with (@None Z) in H; [discriminate H|].
      symmetry. destruct Hout; [unfold zget; destruct (Z.ltb_spec (fst c - base) 0); [done|lia]|apply zget_None; lia].
    + destruct (arm_step base code c) as [c'|]; [|discriminate H]. apply IH; [exact H|lia].
Qed.
End Run.

(** ** The call *)

(** What the memory holds from an address on. *)
Definition code_at (m : memory) (base : Z) (n : nat) : list Z := map (fun k => default 0 (m !! u32 (base + k))) (zrange 0 n).

Definition holds_code (m : memory) (base : Z) (code : list Z) : Prop :=
  forall k b, zget code k = Some b -> m !! u32 (base + k) = Some b.

Lemma code_at_length (m : memory) (base : Z) (n : nat) : length (code_at m base n) = n.
Proof. unfold code_at, zrange. by rewrite !length_map, length_seq. Qed.

Lemma holds_code_at (m : memory) (base : Z) (code : list Z) :
  holds_code m base code -> code_at m base (length code) = code.
Proof.
  intros H. apply list_eq. intros k. rewrite <- !zget_nat. destruct (decide (k < length code)%nat) as [Hk|Hk].
  - unfold code_at. rewrite zget_map_zrange by lia. destruct (zget_is_Some code (Z.of_nat k) ltac:(lia)) as [b Hb].
    by rewrite (H _ _ Hb), Hb.
  - rewrite !zget_None; [done|lia|rewrite code_at_length; lia].
Qed.

(** The memory without the frame of the compiled code. *)
Definition outside_frame (sp : Z) (m : memory) : memory :=
  foldr (fun k m => delete (u32 (sp - FRAME_SIZE + k)) m) m (zrange 0 (Z.to_nat FRAME_SIZE)).

Lemma outside_frame_spec (sp b : Z) (m : memory) :
  (in_frame sp b -> outside_frame sp m !! b = None) /\ (~ in_frame sp b -> outside_frame sp m !! b = m !! b).
Proof.
  assert (H : forall l, (forall k, In k l -> b <> u32 (sp - FRAME_SIZE + k)) /\
      foldr (fun k m => delete (u32 (sp - FRAME_SIZE + k)) m) m l !! b = m !! b \/
      (exists k, In k l /\ b = u32 (sp - FRAME_SIZE + k)) /\
      foldr (fun k m => delete (u32 (sp - FRAME_SIZE + k)) m) m l !! b = None).
  { induction l as [|k l IH]; [by left|]. cbn [foldr]. destruct (decide (b = u32 (sp - FRAME_SIZE + k))) as [->|Hne].
    - right. split; [exists k; split; [by left|done]|apply lookup_delete_eq].
    - rewrite lookup_delete_ne by done. destruct IH as [[IH E]|[(j & Hj & Ej) E]]; [left|right].
      + split; [|done]. intros j [<-|Hj]; [done|by apply IH].
      + split; [exists j; split; [by right|done]|done]. }
  assert (Hz : forall k, In k (zrange 0 (Z.to_nat FRAME_SIZE)) <-> 0 <= k < FRAME_SIZE).
  { intros k. unfold zrange. rewrite in_map_iff. split.
    - intros (j & <- & Hj%in_seq). lia.
    - intros Hk. exists (Z.to_nat k). split; [lia|]. apply in_seq. lia. }
  unfold outside_frame. destruct (H (zrange 0 (Z.to_nat FRAME_SIZE))) as [[Hn ->]|[(k & Hk%Hz & Ek) ->]].
  - split; [|done]. intros (k & Hk%Hz & Ek). by destruct (Hn k Hk).
  - split; [done|]. intros Hf. destruct Hf. by exists k.
Qed.

Lemma outside_frame_sub (sp : Z) (m : memory) : outside_frame sp m ⊆ m.
Proof.
  apply map_subseteq_spec. intros b v H. unfold outside_frame in H. revert H. generalize (zrange 0 (Z.to_nat FRAME_SIZE)).
  induction l as [|k l IH]; [done|]. cbn [foldr]. intros [_ H]%lookup_delete_Some. by apply IH.
Qed.

Section Call.
(** Where the code buffer is, and the processor when the function is called:
    its registers, among them the stack pointer and the return address. *)
Context (base : Z) (regs : arm).

Definition at_call (args len : Z) (m : memory) : arm :=
  mk_arm (upd (upd (a_reg regs) 0 args) 1 len) (a_N regs) (a_Z regs) (a_C regs) (a_V regs) m.

(** vm->jit_func(args, args_size). *)
Definition call_compiled (fuel : nat) (f args len : Z) (m : memory) : option (Z * memory) :=
  a ← run_until base (code_at m base JIT_BUFFER_SIZE) (a_reg regs ARM_LR - 1) fuel (f - 1, at_call args len m);
  Some (mk64 (a_reg a 0) (a_reg a 1), a_mem a).

(** What the calling convention and the placement of the buffer give. *)
Record call_ok (m : memory) : Prop := mk_call_ok {
  co_regs : forall k, 0 <= a_reg regs k < 2 ^ 32;
  co_sp : a_reg regs ARM_SP mod 4 = 0;
  co_lr : Z.odd (a_reg regs ARM_LR) = true;
  co_mem : mem_wf m;
  co_mapped : forall b, in_frame (a_reg regs ARM_SP) b -> is_Some (m !! b);
  co_code : forall k, 0 <= k < Z.of_nat JIT_BUFFER_SIZE -> ~ in_frame (a_reg regs ARM_SP) (u32 (base + k));
  co_out : a_reg regs ARM_LR - 1 < base \/ base + Z.of_nat JIT_BUFFER_SIZE <= a_reg regs ARM_LR - 1
}.

(** The interpreter's view of the call: its memory is what is not the frame,
    its stack below the frame, and its registers hold what the processor's
    do. *)
Definition call_env (prog : list ebpf_inst) (ext : list Z) (args len : Z) : exec_env :=
  mk_env prog false ext args len (a_reg regs ARM_SP - FRAME_SIZE - STACK_SIZE).
Definition call_memory (m : memory) : memory := outside_frame (a_reg regs ARM_SP) m.

Lemma at_call_state (prog : list ebpf_inst) (ext : list Z) (args len : Z) (m : memory) :
  call_ok m -> 0 <= args < 2 ^ 32 -> 0 <= len < 2 ^ 32 ->
  call_state (call_env prog ext args len) (call_memory m) (at_call args len m).
Proof.
  intros Hok Ha Hl. split.
  - split; [|apply Hok]. intros k. cbn [at_call a_reg]. unfold upd. destruct (k =? 1); [done|]. destruct (k =? 0); [done|apply Hok].
  - apply Hok.
  - apply Hok.
  - apply Hok.
  - apply outside_frame_sub.
  - intros b Hb. by apply outside_frame_spec.
  - reflexivity.
  - cbn [call_env e_stack]. f_equal. change (a_reg (at_call args len m) ARM_SP) with (a_reg regs ARM_SP). lia.
Qed.

Lemma gen_buffer past_end prog ext st entry :
  gen_jit_code past_end base prog (Z.of_nat (length prog)) ext = Some (st, entry) ->
  epilogue_offset st <= size_limit (20 <? Z.of_nat (length prog)) -> length (jit_code st) = JIT_BUFFER_SIZE.
Proof.
  intros Hgen Hlim. destruct (gen_layout _ _ _ _ _ _ _ Hgen Hlim) as (bs & Hput & _).
  rewrite (put_bytes_length _ _ _ _ Hput). apply length_replicate.
Qed.

(** The call of compiled code gives what the interpreter would. *)
Lemma call_compiled_returns past_end prog ext st entry ce args len m n v :
  Forall inst_wf prog -> prog_ok prog = true ->
  gen_jit_code past_end base prog (Z.of_nat (length prog)) ext = Some (st, entry) ->
  epilogue_offset st <= size_limit (20 <? Z.of_nat (length prog)) ->
  holds_code m base (jit_code st) -> call_ok m -> 0 <= args < 2 ^ 32 -> 0 <= len < 2 ^ 32 ->
  let en := call_env prog ext args len in
  let reg0 := leftover (at_call args len m) in
  Z.of_nat n <= MAX_ITERS -> exact_run ce en n (init_state en reg0 (call_memory m)) = true ->
  ebpf_vm_exec ce en reg0 (call_memory m) = Returned v (call_memory m) ->
  exists enough m', (forall fuel, (enough <= fuel)%nat -> call_compiled fuel entry args len m = Some (v, m')) /\
    dom m' = dom m /\ mem_wf m' /\ forall b, ~ in_frame (a_reg regs ARM_SP) b -> m' !! b = m !! b.
Proof.
  intros Hwf Hp Hgen Hlim Hc Hok Ha Hl en reg0 Hn Hx Hv.
  destruct (program_returns past_end base prog ext st entry ce en (call_memory m) (at_call args len m) n Hwf Hp Hgen Hlim
    eq_refl (at_call_state prog ext args len m Hok Ha Hl) Hn Hx) as (v' & k & a' & Hv' & Hk & [R S D M]).
  fold reg0 in Hv'. rewrite Hv in Hv'. injection Hv' as <-. exists k, (a_mem a').
  pose proof (gen_buffer _ _ _ _ _ Hgen Hlim) as Hlen. split; [|split; [done|split; [|done]]].
  2: { exact (arm_steps_mem_wf _ _ _ _ _ Hk (co_mem _ Hok)). }
  intros fuel Hf. unfold call_compiled. rewrite <- Hlen, (holds_code_at _ _ _ Hc).
  rewrite (run_until_steps base (jit_code st) _ k fuel _ a'); [cbn [mbind option_bind]; by rewrite R| |exact Hk|exact Hf].
  rewrite Hlen. apply Hok.
Qed.
End Call.

(** ** The patch test_cve, compiled *)

(** A path of turns through instructions that are compiled right. *)
Definition exact_here (en : exec_env) (st : vm_state) : Prop :=
  exists i, zget (e_insts en) (s_pc st) = Some i /\ opcode_of (i_opcode i) <> Some EBPF_OP_EXIT /\ exact_at i (s_reg st) = true.

Lemma exact_run_path ce en (l : list vm_state) (x y : vm_state) (i : ebpf_inst) (n : nat) :
  hd_error l = Some x -> Sorted (turn ce en) (l ++ [y]) -> Forall (exact_here en) l ->
  zget (e_insts en) (s_pc y) = Some i -> opcode_of (i_opcode i) = Some EBPF_OP_EXIT -> (length l < n)%nat ->
  exact_run ce en n x = true.
Proof.
  intros Hx Hs Hl Hi Ho. revert l x Hx Hs Hl. induction n as [|n IH]; intros l x Hx Hs Hl Hn; [lia|].
  destruct l as [|x' l]; [discriminate Hx|]. injection Hx as ->. apply Sorted_inv in Hs as [Hs Hd].
  apply Forall_cons_iff in Hl as [(j & Hj & Hne & Hex) Hl]. cbn [exact_run]. rewrite Hj, bool_decide_eq_false_2, Hex by done.
  cbn [andb]. destruct l as [|x' l]; cbn [app] in Hd; apply HdRel_inv in Hd; unfold turn in Hd; rewrite Hd.
  - destruct n; [cbn in Hn; lia|]. cbn [exact_run]. rewrite Hi. by rewrite bool_decide_eq_true_2.
  - apply (IH (x' :: l)); [done|exact Hs|exact Hl|cbn [length] in *; lia].
Qed.

Lemma test_cve_exact ce en reg0 m v :
  e_insts en = test_cve_insts -> length reg0 = 12%nat -> 0 <= v < 2 ^ 32 -> 0 <= e_mem en < 2 ^ 32 ->
  load_le 4 (u32 (e_mem en + 0)) m = Some v ->
  exact_run ce en 11 (init_state en reg0 m) = true.
Proof.
  intros Hp Hlen Hv Ha Hload. destruct (test_cve_turns ce en reg0 m v Hp Hlen Hv Hload) as (a0 & a2 & Hhd & Hs).
  eapply (exact_run_path ce en _ _ _ (mk_inst 0x95 0 0 0 0)); [exact Hhd|exact Hs| |by rewrite Hp|done|].
  - assert (Hz : forall x, 0 <= x < 2 ^ 32 -> (x >> 32 =? 0) = true)
      by (intros x Hx; apply Z.eqb_eq; rewrite Z.shiftr_div_pow2 by lia; by apply Z.div_small).
    apply Forall_app. split; [|apply Forall_app; split; [destruct (_ <? _); repeat apply Forall_cons_2; try apply Forall_nil_2|apply Forall_cons_2; [|apply Forall_nil_2]]].
    repeat apply Forall_cons_2; try apply Forall_nil_2.
    all: eexists; split; [rewrite Hp; reflexivity|split; [discriminate|]]; try reflexivity.
    + change ((e_mem en >> 32 =? 0) = true). by apply Hz.
    + change ((u32 (v - 2001) >> 32 =? 0) = true). apply Hz, u32_range.
  - unfold test_cve_trace. cbv zeta. rewrite !length_app. destruct (_ <? _); cbn; lia.
Qed.

Lemma bytes_at_outside (bs : list Z) (a b : Z) (m : memory) :
  0 <= a -> a + Z.of_nat (length bs) <= 2 ^ 32 -> b < a \/ a + Z.of_nat (length bs) <= b -> bytes_at a bs m !! b = m !! b.
Proof.
  revert a. induction bs as [|x bs IH]; intros a Ha Hl Hb; [done|]. cbn [bytes_at length] in *.
  rewrite u32_small, lookup_insert_ne by lia. apply IH; lia.
Qed.

Section Shipped.
Context (past_end : Z * Z) (base : Z).
Hypothesis base_aligned : base .& 3 = 0.

Lemma test_cve_compiles (ext : list Z) :
  exists st, gen_jit_code past_end base test_cve_insts 10 ext = Some (st, base .| 1) /\
    epilogue_offset st <= 254 /\ jit_align st = 0 /\ length (jit_code st) = JIT_BUFFER_SIZE /\ Forall (fun b => 0 <= b < 256) (jit_code st).
Proof.
  assert (H : from_option (fun r => (epilogue_offset (fst r) <=? 254) && (jit_align (fst r) =? 0) &&
    (length (jit_code (fst r)) =? JIT_BUFFER_SIZE)%nat && forallb (fun b => (0 <=? b) && (b <? 256)) (jit_code (fst r))) false
    (gen_jit_code past_end base test_cve_insts 10 ext) = true)
    by (unfold gen_jit_code, jit_state_set_mem; rewrite base_aligned; vm_compute; reflexivity).
  destruct (gen_jit_code past_end base test_cve_insts 10 ext) as [[st entry]|] eqn:E; [|discriminate H].
  cbn [from_option fst] in H. apply andb_true_iff in H as [[[H1%Z.leb_le H2%Z.eqb_eq]%andb_true_iff H3%Nat.eqb_eq]%andb_true_iff H4].
  exists st. pose proof (gen_entry _ _ _ _ _ _ _ E) as ->. split; [reflexivity|]. split; [exact H1|]. split; [exact H2|]. split; [exact H3|].
  apply Forall_forall. intros x Hx. rewrite forallb_forall in H4.
  apply H4, andb_true_iff in Hx as [?%Z.leb_le ?%Z.ltb_lt]. by split.
Qed.

(** The buffer holds the code of a program. *)
Definition in_buffer (prog : list ebpf_inst) (m : memory) : Prop :=
  exists ext st entry, gen_jit_code past_end base prog (Z.of_nat (length prog)) ext = Some (st, entry) /\
    holds_code m base (jit_code st).

(** [gen_jit] puts it there, and its address with the Thumb bit in the vm. *)
Lemma gen_jit_leaves (s : ctx_state) (vm : ebpf_vm) (e : ebpf_helper_env) (prog : list ebpf_inst) (st : jit_state) (entry : Z) :
  insts vm = Some prog -> num_insts vm = Z.of_nat (length prog) -> helper_envs (helpers s) !! helper_func vm = Some e ->
  gen_jit_code past_end base prog (Z.of_nat (length prog)) (ext_funcs e) = Some (st, entry) ->
  jit_align st = 0 -> length (jit_code st) = JIT_BUFFER_SIZE ->
  0 <= base -> base + Z.of_nat JIT_BUFFER_SIZE <= 2 ^ 32 ->
  exists vm' s', gen_jit past_end base s vm = Some (vm', s') /\ jit_func vm' = entry /\ use_jit vm' = use_jit vm /\
    insts vm' = Some prog /\ s' = with_hw s (with_hwmem (hw s) (bytes_at base (jit_code st) (hw_mem (hw s)))) /\ in_buffer prog (hw_mem (hw s')) /\
    forall b, b < base \/ base + Z.of_nat JIT_BUFFER_SIZE <= b -> hw_mem (hw s') !! b = hw_mem (hw s) !! b.
Proof.
  intros Hi Hn He Hgen Hal Hlen H0 Hb. rewrite <- Hlen in *. clear Hlen.
  set (vm' := {| insts := insts vm; num_insts := num_insts vm; bounds_check_enabled := bounds_check_enabled vm;
           helper_func := helper_func vm; jit_func := entry; use_jit := use_jit vm |}).
  set (s' := with_hw s (with_hwmem (hw s) (bytes_at base (jit_code st) (hw_mem (hw s))))).
  assert (A : gen_jit past_end base s vm = Some (vm', s')).
  { unfold gen_jit. rewrite Hi. unfold mbind at 1, option_bind at 1. rewrite He, Hn. unfold mbind, option_bind. rewrite Hgen.
    unfold vm', s'. cbv beta iota delta [fst snd]. rewrite Hal, Z.sub_0_r, Hn, Hi. exact eq_refl. }
  assert (B : in_buffer prog (hw_mem (hw s'))).
  { exists (ext_funcs e), st, entry. split; [exact Hgen|]. intros k b Hk. pose proof (zget_Some _ _ _ Hk).
    unfold s'. cbn [with_hw hw with_hwmem hw_mem]. rewrite u32_small, lookup_bytes_at, Hk by lia. reflexivity. }
  exists vm', s'. split; [exact A|]. split; [exact eq_refl|]. split; [exact eq_refl|]. split; [exact Hi|].
  split; [exact eq_refl|]. split; [exact B|].
  intros b Hout. apply bytes_at_outside; [exact H0|exact Hb|exact Hout].
Qed.

Lemma gen_jit_test_cve (s : ctx_state) (vm : ebpf_vm) (e : ebpf_helper_env) :
  insts vm = Some test_cve_insts -> num_insts vm = 10 -> helper_envs (helpers s) !! helper_func vm = Some e ->
  0 <= base -> base + Z.of_nat JIT_BUFFER_SIZE <= 2 ^ 32 ->
  exists vm' s', gen_jit past_end base s vm = Some (vm', s') /\ jit_func vm' = base .| 1 /\ use_jit vm' = use_jit vm /\
    in_buffer test_cve_insts (hw_mem (hw s')) /\
    forall b, b < base \/ base + Z.of_nat JIT_BUFFER_SIZE <= b -> hw_mem (hw s') !! b = hw_mem (hw s) !! b.
Proof.
  intros Hi Hn He H0 Hb. destruct (test_cve_compiles (ext_funcs e)) as (st & Hgen & _ & Hal & Hlen & _).
  destruct (gen_jit_leaves s vm e test_cve_insts st (base .| 1) Hi Hn He Hgen Hal Hlen H0 Hb) as (vm' & s' & A & F & U & _ & _ & B & M).
  exists vm', s'. exact (conj A (conj F (conj U (conj B M)))).
Qed.

Context (regs : arm) (call_ext : Z -> list Z -> memory -> option (Z * memory)) (stack : Z) (reg0 : list Z).
Local Abbreviation compiled := (call_compiled base regs).

(** A word that is not in the frame of the compiled code. *)
Definition clear_of_frame (a : Z) : Prop := forall k, 0 <= k < 4 -> ~ in_frame (a_reg regs ARM_SP) (u32 (a + k)).

Lemma u32_add_l (a k : Z) : u32 (u32 a + k) = u32 (a + k).
Proof. apply wrap_add_l. Qed.

Lemma get32_clear (s s1 : ctx_state) (a : Z) :
  (forall b, ~ in_frame (a_reg regs ARM_SP) b -> hw_mem (hw s1) !! b = hw_mem (hw s) !! b) -> clear_of_frame a ->
  get32 s1 a = get32 s a.
Proof.
  intros H Ha. apply load_le_ext. intros k Hk. apply H. rewrite u32_add_l. by apply Ha.
Qed.

(** run_ebpf_filter with the compiled patch decides as the program does. *)
Lemma run_filter_compiled (s : ctx_state) (ctx v patch : Z) (p : ebpf_patch) (vm : ebpf_vm) :
  patches s !! patch = Some p -> p_vm p = Some vm -> use_jit vm = true -> jit_func vm = base .| 1 ->
  in_buffer test_cve_insts (hw_mem (hw s)) -> call_ok base regs (hw_mem (hw s)) ->
  0 <= ctx < 2 ^ 32 -> 0 <= v < 2 ^ 32 -> get32 s (ctx + ctx_r0) = Some v -> clear_of_frame (ctx + ctx_r0) ->
  exists enough m', (forall fuel, (enough <= fuel)%nat ->
      run_filter (compiled fuel) call_ext stack reg0 s patch ctx sizeof_ebpf_args_frame =
      Some (test_cve_result v, with_hw s (with_hwmem (hw s) m'))) /\
    dom m' = dom (hw_mem (hw s)) /\ mem_wf m' /\ forall b, ~ in_frame (a_reg regs ARM_SP) b -> m' !! b = hw_mem (hw s) !! b.
Proof.
  intros Hp Hvm Hj Hf (ext & st & entry & Hgen & Hc) Hok Hctx Hv Hload Hclear.
  pose proof (gen_entry _ _ _ _ _ _ _ Hgen) as He.
  destruct (test_cve_compiles ext) as (st' & Hgen' & Hlim & _ & Hlen & _).
  assert (st' = st) as -> by (change 10 with (Z.of_nat (length test_cve_insts)) in Hgen'; congruence).
  set (m := hw_mem (hw s)) in *. set (ce := fun (f : Z) (_ : list Z) (_ : memory) => @None (Z * memory)).
  assert (Hm : load_le 4 (u32 (ctx + 0)) (call_memory regs m) = Some v).
  { rewrite <- Hload. apply load_le_ext. intros k Hk. apply outside_frame_spec. rewrite u32_add_l. by apply Hclear. }
  pose proof (test_cve_exact ce (call_env regs test_cve_insts ext ctx 16) (leftover (at_call regs ctx 16 m)) (call_memory regs m) v
    eq_refl eq_refl Hv Hctx Hm) as Hx.
  pose proof (test_cve_runs ce (call_env regs test_cve_insts ext ctx 16) (leftover (at_call regs ctx 16 m)) (call_memory regs m) v
    eq_refl eq_refl Hv Hm) as Hr.
  destruct (call_compiled_returns base regs past_end test_cve_insts ext st entry ce ctx 16 m 11 (test_cve_result v)) as
    (enough & m' & Hcall & Hdom & Hwfm & Hsame); try assumption.
  - unfold test_cve_insts, inst_wf. repeat constructor; cbn; lia.
  - vm_compute. reflexivity.
  - lia.
  - unfold MAX_ITERS. lia.
  - exists enough, m'. split; [|exact (conj Hdom (conj Hwfm Hsame))].
    intros fuel Hfu. unfold Dispatch.run_filter, run_ebpf_filter. rewrite Hp. cbn [mbind option_bind]. rewrite Hvm. cbn [mbind option_bind].
    rewrite Hj, Hf, <- He. change (u16 sizeof_ebpf_args_frame) with 16. fold m. rewrite (Hcall fuel Hfu).
    cbn [mbind option_bind filter_result fst snd]. f_equal. f_equal. unfold test_cve_result. destruct (_ && _); reflexivity.
Qed.

(** C4: the patch repairs the function in the configuration that ships, where
    the loader has it compiled: with the code that [gen_jit] left in the
    buffer run by the processor, a call of test_dynamic_bug stopped at its
    breakpoint returns what the fixed function returns, for every argument,
    whatever the registers hold. *)
Theorem compiled_patch_repairs (s : ctx_state) (ctx v pc lr patch : Z) (p : ebpf_patch) (vm : ebpf_vm) :
  get32 s (ctx + ctx_pc) = Some pc -> get_dynamic_patch_by_bpkt s pc = Some patch -> patch <> 0 ->
  patches s !! patch = Some p -> p_vm p = Some vm -> use_jit vm = true -> jit_func vm = base .| 1 ->
  in_buffer test_cve_insts (hw_mem (hw s)) -> call_ok base regs (hw_mem (hw s)) ->
  0 <= ctx < 2 ^ 32 -> 0 <= v < 2 ^ 32 -> get32 s (ctx + ctx_r0) = Some v -> get32 s (ctx + ctx_lr) = Some lr -> 0 <= lr < 2 ^ 32 ->
  clear_of_frame (ctx + ctx_r0) -> clear_of_frame (ctx + ctx_lr) -> clear_of_frame (ctx + ctx_pc) ->
  apart (ctx + ctx_r0) (ctx + ctx_lr) -> apart (ctx + ctx_pc) (ctx + ctx_r0) ->
  exists enough, forall fuel, (enough <= fuel)%nat ->
  exists skip s', run_patch_here (compiled fuel) call_ext stack reg0 s ctx = Some (skip, s')
  /\ call_result skip s' ctx v = Some (test_dynamic_fixed (s32 v))
  /\ (skip = true -> get32 s' (ctx + ctx_pc) = Some lr).
Proof.
  intros Hpc Hget Hne Hp Hvm Hj Hf Hb Hok Hctx Hv Hload Hlr Hlrr C0 Cl Cp Ha1 Ha2.
  destruct (run_filter_compiled s ctx v patch p vm Hp Hvm Hj Hf Hb Hok Hctx Hv Hload C0) as (enough & m' & Hrun & _ & _ & Hm').
  set (s1 := with_hw s (with_hwmem (hw s) m')) in *.
  assert (Hsame : forall a, clear_of_frame a -> get32 s1 a = get32 s a) by (intros a; by apply get32_clear).
  exists enough. intros fuel Hfu.
  apply (cve_answer_repairs (compiled fuel) call_ext stack reg0 s s1 ctx v pc lr patch); rewrite ?Hsame, ?Hload, ?Hpc; try done;
    [by apply Hrun|by eexists..].
Qed.
End Shipped.

(** ** Witness: the machine of the dispatch, its patch compiled *)

Definition jit_base : Z := 0x20003000.
Definition jit_vm : ebpf_vm :=
  {| insts := Some test_cve_insts; num_insts := 10; bounds_check_enabled := false; helper_func := 64;
     jit_func := jit_base .| 1; use_jit := true |}.

(** The stack of the handler ends below the exception frame. *)
Definition handler_sp : Z := 0x20000f00.
Definition handler_mem : memory := bytes_at (handler_sp - FRAME_SIZE) (replicate 112 0) (frame_mem cve_frame).
Definition handler_regs : arm :=
  mk_arm (fun r => if r =? ARM_SP then handler_sp else if r =? ARM_LR then 0x8000101 else 0) false false false false ∅.

(** The state before the compilation, and what [gen_jit] makes of its memory. *)
Definition before_jit : ctx_state := machine_with test_cve_insts handler_mem.
Definition jit_memory : memory :=
  match gen_jit (0, 0) jit_base before_jit jit_vm with Some r => hw_mem (hw (snd r)) | None => ∅ end.
Definition jit_machine : ctx_state :=
  let s := with_hw before_jit (with_hwmem (hw before_jit) jit_memory) in
  with_patches s {[ 64 := {| p_desc := 32; p_vm := Some jit_vm; p_is_active := true |} ]}.

Lemma jit_memory_spec :
  in_buffer (0, 0) jit_base test_cve_insts jit_memory /\
  forall b, b < jit_base \/ jit_base + Z.of_nat JIT_BUFFER_SIZE <= b -> jit_memory !! b = handler_mem !! b.
Proof.
  destruct (gen_jit_test_cve (0, 0) jit_base eq_refl before_jit jit_vm {| ext_funcs := replicate 12 0; refcnt := 1 |}
    eq_refl eq_refl eq_refl ltac:(unfold jit_base; lia) ltac:(vm_compute; discriminate)) as (vm' & s' & E & _ & _ & H & F).
  unfold jit_memory. rewrite E. split; [exact H|exact F].
Qed.

Lemma jit_call_ok : call_ok jit_base handler_regs jit_memory.
Proof.
  split.
  - intros k. cbn. repeat case_match; vm_compute; split; done.
  - reflexivity.
  - reflexivity.
  - apply (bool_decide_unpack (map_Forall (fun _ b => 0 <= b < 256) jit_memory)). vm_compute. exact I.
  - intros b (k & Hk & ->). assert (H : forallb (fun k => bool_decide (is_Some (handler_mem !! u32 (handler_sp - FRAME_SIZE + k))))
      (zrange 0 112) = true) by (vm_compute; reflexivity).
    pose proof (zrange_forallb _ _ _ H k Hk) as H'. cbv beta in H'. apply bool_decide_eq_true in H'.
    rewrite (proj2 jit_memory_spec); [exact H'|]. left. change (a_reg handler_regs ARM_SP) with handler_sp.
    unfold handler_sp, FRAME_SIZE, jit_base in *. rewrite u32_small by lia. lia.
  - intros k Hk (j & Hj & E). change (a_reg handler_regs ARM_SP) with handler_sp in E.
    change (Z.of_nat JIT_BUFFER_SIZE) with 2048 in Hk. unfold handler_sp, FRAME_SIZE, jit_base in *.
    rewrite !u32_small in E by lia. lia.
  - left. vm_compute. reflexivity.
Qed.

Lemma handler_clear (a : Z) : 0x20001000 <= a < 0x20001100 -> clear_of_frame handler_regs a.
Proof.
  intros Ha k Hk (j & Hj & E). change (a_reg handler_regs ARM_SP) with handler_sp in E. unfold handler_sp, FRAME_SIZE in *.
  rewrite !u32_small in E by lia. lia.
Qed.

Lemma compiled_patch_repairs_witness :
  exists enough, forall fuel, (enough <= fuel)%nat ->
  exists skip s', run_patch_here (call_compiled jit_base handler_regs fuel) no_ext 0 [] jit_machine 0x20001000 = Some (skip, s')
    /\ call_result skip s' 0x20001000 3000 = Some 0 /\ (skip = true -> get32 s' (0x20001000 + ctx_pc) = Some 0x08000555).
Proof.
  refine (compiled_patch_repairs (0, 0) jit_base eq_refl handler_regs no_ext 0 [] jit_machine 0x20001000 3000
    0x08000300 0x08000555 64 {| p_desc := 32; p_vm := Some jit_vm; p_is_active := true |} jit_vm
    _ _ _ eq_refl eq_refl eq_refl eq_refl (proj1 jit_memory_spec) jit_call_ok _ _ _ _ _ _ _ _ _ _).
  9-11: apply handler_clear; unfold ctx_r0, ctx_lr, ctx_pc; lia.
  all: discharge.
Defined.
