(* ===== verification/Firmware.v ===== *)
(** * Calls of functions with a breakpoint

    A call of a function of the firmware, from the breakpoint at its first
    instruction on: the event the debug unit raises, the handler around the
    patch ([PatchPoints]), and then the return to the caller, or the first
    instruction on its own, the event after the step, and the rest of the
    function.  With the patch test_cve installed, a call of the function it
    is written for gives what the fixed function gives. *)

From S2P Require Import Prelude Mem EbpfInst EbpfVm EbpfVmProps Vm Hashmap Fpb FpbProps PatchCtx PatchCtxProps Dispatch DispatchProps.
From S2P Require Import Stubs StubsProps PatchPoints LocalPatch.

(** ** The events of the debug unit *)

(** A comparator in use stops the fetch of the halfword its upper two bits
    select; the unit looks at code addresses only. *)
Definition comp_stops (a c : Z) : bool :=
  Z.testbit c 0 && (c .& 0x1FFFFFFC =? a .& 0x1FFFFFFC) && Z.testbit c (if Z.testbit a 1 then 31 else 30).
Definition stops (h : hw_state) (a : Z) : bool :=
  Z.testbit (CTRL (FPB h)) 0 && (a <? 0x20000000) && existsb (comp_stops a) (COMP (FPB h)).

(** The event is recorded in DFSR. *)
Definition debug_event (bits : Z) (c : cpu) : option cpu := s ← set32 (c_st c) SCB_DFSR bits; Some (set_st s c).

(** MON_STEP: the next instruction is followed by an event. *)
Definition stepping (c : cpu) : bool :=
  match get32 (c_st c) DCB_DEMCR with Some d => negb (d .& demcr_single_step_mask =? 0) | None => false end.

(** What [add_normal_bkpt] writes stops the instruction it is for. *)
Lemma bkpt_comp_stops (a : Z) : 0 <= a < 0x20000000 -> comp_stops a (bkpt_comp a) = true.
Proof.
  intros Ha. unfold comp_stops. apply andb_true_iff. split; [apply andb_true_iff; split|].
  - by rewrite bkpt_comp_bit by lia.
  - apply Z.eqb_eq, Z.bits_inj'. intros i Hi. rewrite !Z.land_spec, bkpt_comp_bit by lia.
    assert (E : Z.testbit 0x1FFFFFFC i = (1 <? i) && (i <? 29)).
    { replace 0x1FFFFFFC with (Z.ones 27 << 2) by done. rewrite testbit_shl by lia. destruct (Z.ltb_spec 1 i).
      - rewrite Z.testbit_ones_nonneg by lia. destruct (Z.ltb_spec (i - 2) 27), (Z.ltb_spec i 29); (done || lia).
      - by rewrite Z.testbit_neg_r by lia. }
    rewrite E. destruct (Z.ltb_spec 1 i), (Z.ltb_spec i 29), (Z.eqb_spec i 0), (Z.eqb_spec i 1); try lia; cbn [andb];
      by rewrite ?andb_false_r.
  - destruct (Z.testbit a 1) eqn:E; rewrite bkpt_comp_bit, E by lia; reflexivity.
Qed.

Lemma stops_at (h : hw_state) (a i : Z) :
  0 <= a < 0x20000000 -> Z.testbit (CTRL (FPB h)) 0 = true -> get_comp h i = Some (bkpt_comp a) -> stops h a = true.
Proof.
  intros Ha Hc Hi. unfold stops. rewrite Hc. destruct (Z.ltb_spec a 0x20000000); [|lia]. cbn [andb]. apply existsb_exists.
  exists (bkpt_comp a). split; [|by apply bkpt_comp_stops]. unfold get_comp, zget in Hi. destruct (i <? 0); [done|].
  apply list_elem_of_In. by eapply list_elem_of_lookup_2.
Qed.

(** ** What a state keeps *)

Lemma store_words_dom (vs : list Z) (a : Z) (m m' : memory) : store_words a vs m = Some m' -> dom m' = dom m.
Proof.
  revert a m. induction vs as [|v vs IH]; intros a m; cbn [store_words]; [by intros [= <-]|].
  destruct (store_le 4 a v m) as [m1|] eqn:E; [|done]. cbn [mbind option_bind]. intros H. rewrite (IH _ _ H). by eapply store_le_dom.
Qed.

(** The stores of the handler: no byte is mapped or unmapped. *)
Definition stores (s s' : ctx_state) : Prop :=
  (mem_wf (hw_mem (hw s)) -> mem_wf (hw_mem (hw s'))) /\ dom (hw_mem (hw s')) = dom (hw_mem (hw s)).

Lemma stores_refl (s : ctx_state) : stores s s.
Proof. by split. Qed.

Lemma stores_trans (s1 s2 s3 : ctx_state) : stores s1 s2 -> stores s2 s3 -> stores s1 s3.
Proof. intros [W1 D1] [W2 D2]. split; [auto|congruence]. Qed.

Lemma set32_stores (s s' : ctx_state) (a v : Z) : set32 s a v = Some s' -> stores s s'.
Proof.
  unfold set32, put32. destruct (store_le 4 _ _ _) as [m|] eqn:E; [|done]. cbn [mbind option_bind]. intros [= <-].
  split; cbn [with_hw hw with_hwmem hw_mem]; [intros W; by eapply store_le_wf|by eapply store_le_dom].
Qed.

Lemma set32_outside (s s' : ctx_state) (a v b : Z) :
  set32 s a v = Some s' -> 0 <= a -> a + 4 <= 2 ^ 32 -> ~ in_bytes a 4 b -> hw_mem (hw s') !! b = hw_mem (hw s) !! b.
Proof.
  unfold set32, put32. destruct (store_le 4 _ _ _) as [m|] eqn:E; [|done]. cbn [mbind option_bind]. intros [= <-] H0 H1 Hb.
  cbn [with_hw hw with_hwmem hw_mem]. apply (store_le_frame 4 _ _ _ _ _ E). intros k Hk <-. apply Hb. exists k.
  split; [lia|]. by rewrite (u32_small a) by lia.
Qed.

Lemma stores_readable (s s' : ctx_state) (a : Z) : stores s s' -> is_Some (get32 s a) -> is_Some (get32 s' a).
Proof.
  intros [_ D] [v H]. unfold get32 in *. apply load_le_is_Some. intros k Hk. apply elem_of_dom. rewrite D. apply elem_of_dom.
  by apply (load_le_mapped 4 (u32 a) _ ltac:(by rewrite H)).
Qed.

Section Call.
Context (kstray vstray : Z -> Z).
Context (FPB_Handler : list Z) (REMAP_ADDR : Z).
Context (call_jit : Z -> Z -> Z -> memory -> option (Z * memory)).
Context (call_ext : Z -> list Z -> memory -> option (Z * memory)).
Context (stack : Z) (reg0 : list Z) (fuel : nat).
Context (clobber : Z -> Z) (flags : Z).
(** The processor ignores bit 0 of the address in the frame of an exception. *)
Context (return_to : Z -> Z).
Hypothesis return_clears : forall v, return_to v = v .& not1.
Context (handler : list asm).
Hypothesis handler_is : handler = DebugMon_Handler \/ handler = __debug_monitor.

Local Abbreviation calls := (c_call kstray vstray FPB_Handler REMAP_ADDR call_jit call_ext stack reg0 fuel).
Local Abbreviation run_filter := (run_filter call_jit call_ext stack reg0).
Local Abbreviation monitor := (leave_debug_monitor call_jit call_ext stack reg0).

(** The code of the function, which the compiler makes: its first instruction,
    with the address after it, and the rest up to the return to the caller. *)
Context (first : cpu -> option (Z * cpu)) (rest : Z -> cpu -> option cpu).

(** A call of the function at [addr]; [c] has the arguments and the return
    address.  A patch that answers REDIRECT takes the processor elsewhere. *)
Definition call_at (addr : Z) (c : cpu) : option cpu :=
  if stops (hw (c_st c)) addr then
    c1 ← debug_event dfsr_bkpt_evt_bitmask c;
    r ← take_exception calls clobber flags return_to handler c1 addr;
    let '(pc, c2) := r in
    if pc =? addr then
      r ← first c2;
      let '(pc1, c3) := r in
      if stepping c3 then
        c4 ← debug_event dfsr_halt_evt_bitmask c3;
        r ← take_exception calls clobber flags return_to handler c4 pc1;
        rest (fst r) (snd r)
      else rest pc1 c3
    else if pc =? (c_reg c LR .& not1) then Some c2
    else None
  else r ← first c; rest (fst r) (snd r).

(** The processor goes on as it was, with another memory and debug unit. *)
Definition resumes (c c' : cpu) : Prop :=
  (forall r, core_reg r = true -> c_reg c' r = c_reg c r) /\
  c_msp c' = c_msp c /\ c_psp c' = c_psp c /\ c_psr c' = c_psr c /\ c_control c' = c_control c.

Lemma resumes_trans (c1 c2 c3 : cpu) : resumes c1 c2 -> resumes c2 c3 -> resumes c1 c3.
Proof. intros (R1 & A1 & B1 & P1 & C1) (R2 & A2 & B2 & P2 & C2). split_and!; try congruence. intros r Hr. by rewrite R2, R1. Qed.

Lemma resumes_sp (c c' : cpu) : resumes c c' -> sp_of c' = sp_of c.
Proof. intros (_ & A & B & P & C). unfold sp_of, on_psp, handler_mode. by rewrite A, B, P, C. Qed.

(** The processor can take an exception. *)
Definition ready (c : cpu) : Prop := cpu_ok 36 c /\ status_ok c.

Lemma resumes_ok (n : Z) (c c' : cpu) : cpu_ok n c -> resumes c c' -> stores (c_st c) (c_st c') -> cpu_ok n c'.
Proof.
  intros [R S M F P H] Hr [W D]. pose proof (resumes_sp _ _ Hr) as Hsp. destruct Hr as (Rr & A & B & Ps & C). split.
  - intros r Hc. rewrite Rr by done. by apply R.
  - by rewrite Hsp.
  - by apply W.
  - intros b Hb. rewrite Hsp in Hb. apply elem_of_dom. unfold mem_of. rewrite D. by apply elem_of_dom, F.
  - unfold privileged, handler_mode in *. by rewrite Ps, C.
  - unfold handler_mode in *. by rewrite Ps, C.
Qed.

Lemma resumes_status (c c' : cpu) : status_ok c -> resumes c c' -> status_ok c'.
Proof. intros St (_ & _ & _ & Ps & C). unfold status_ok in *. by rewrite Ps, C. Qed.

Lemma resumes_ready (c c' : cpu) : ready c -> resumes c c' -> stores (c_st c) (c_st c') -> ready c'.
Proof. intros [Hok St] Hr S. split; [by apply (resumes_ok 36 c)|by apply (resumes_status c)]. Qed.

Lemma ok_less (n k : Z) (c : cpu) : 0 <= n <= k -> cpu_ok k c -> cpu_ok n c.
Proof.
  intros Hn [R S M F P H]. split; try done; [lia|]. intros b (j & Hj & ->). apply F. exists (j + (k - n)). split; [lia|]. f_equal. lia.
Qed.

Lemma exc_frame_range (c : cpu) : ready c -> 0 <= exc_frame c /\ exc_frame c + 32 <= 0xE0000000.
Proof. intros [Hok _]. pose proof (ok_sp _ _ Hok) as Hsp. rewrite (exc_frame_eq c Hsp). destruct (realigned c); lia. Qed.

(** A word of the system's registers is not in the stack. *)
Lemma pushed_elsewhere (c : cpu) (pc : Z) (s1 : ctx_state) (a : Z) :
  ready c -> 0 <= pc < 2 ^ 32 -> pushed_frame c pc = Some s1 -> 0xE0000000 <= a -> a + 4 <= 2 ^ 32 -> get32 s1 a = get32 (c_st c) a.
Proof.
  intros [Hok Hst] Hpc Hp Ha1 Ha2. destruct (pushed_frame_spec c pc Hok Hst Hpc) as (s1' & Hp' & _ & _ & Hm).
  rewrite Hp in Hp'. injection Hp' as <-. pose proof (ok_sp _ _ Hok). apply (get32_elsewhere _ _ (sp_of c - 36) 36); [exact Hm|lia..].
Qed.

Lemma pushed_stores (c : cpu) (pc : Z) (s1 : ctx_state) :
  ready c -> 0 <= pc < 2 ^ 32 -> pushed_frame c pc = Some s1 -> stores (c_st c) s1.
Proof.
  intros [Hok Hst] Hpc Hp. destruct (pushed_frame_spec c pc Hok Hst Hpc) as (s1' & Hp' & W & _ & _).
  rewrite Hp in Hp'. injection Hp' as <-. split; [done|]. unfold pushed_frame in Hp.
  destruct (store_words (exc_frame c) (stacked_words c pc) (mem_of c)) as [m|] eqn:E; [|discriminate Hp]. injection Hp as <-.
  cbn [with_mem with_hw hw with_hwmem hw_mem]. by eapply store_words_dom.
Qed.

(** ** The event after the step *)

Lemma monitor_halt_frame (s : ctx_state) (f demcr : Z) :
  0 <= f -> f + 32 <= 0xE0000000 ->
  get32 s SCB_DFSR = Some dfsr_halt_evt_bitmask -> get32 s DCB_DEMCR = Some demcr -> 0 <= demcr < 2 ^ 32 ->
  exists s2, monitor s f = Some s2 /\ FPB (hw s2) = FPB (fpb_enable (hw s)) /\ get32 s2 DCB_DEMCR = Some (demcr .& not_single_step) /\
    frame_at s2 f 8 = frame_at s f 8 /\ stores s s2 /\
    forall b, ~ in_bytes SCB_DFSR 4 b -> ~ in_bytes DCB_DEMCR 4 b -> hw_mem (hw s2) !! b = hw_mem (hw s) !! b.
Proof.
  intros Hf0 Hf1 Hdf Ed Hr.
  destruct (monitor_halt call_jit call_ext stack reg0 s f demcr Hdf Ed Hr) as (s2 & Hm & F2 & D2). exists s2.
  split; [exact Hm|]. split; [exact F2|]. split; [exact D2|]. revert Hm. unfold leave_debug_monitor. rewrite Hdf. cbn [mbind option_bind].
  change (negb (dfsr_halt_evt_bitmask .& dfsr_bkpt_evt_bitmask =? 0)) with false.
  change (negb (dfsr_halt_evt_bitmask .& dfsr_halt_evt_bitmask =? 0)) with true. cbv iota. rewrite Ed. cbn [mbind option_bind].
  destruct (set32 s DCB_DEMCR _) as [sa|] eqn:Ea; [|done]. cbn [mbind option_bind].
  destruct (set32 sa SCB_DFSR _) as [sb|] eqn:Eb; [|done]. cbn [mbind option_bind]. intros [= <-]. split.
  - transitivity (frame_at sb f 8); [done|]. transitivity (frame_at sa f 8);
      [apply (frame_set32_far sa sb f 8 SCB_DFSR dfsr_halt_evt_bitmask)|apply (frame_set32_far s sa f 8 DCB_DEMCR (demcr .& not_single_step))];
      try done; unfold SCB_DFSR, DCB_DEMCR; lia.
  - split; [eapply stores_trans; [by eapply set32_stores|]; eapply stores_trans; [by eapply set32_stores|]; by split|].
    intros b B1 B2. change (hw_mem (hw sb) !! b = hw_mem (hw s) !! b).
    rewrite (set32_outside _ _ _ _ b Eb), (set32_outside _ _ _ _ b Ea); (done || (unfold SCB_DFSR, DCB_DEMCR; lia)).
Qed.
(** The memory but for the stack below, and the registers of the debug
    system. *)
Definition same_memory (c c' : cpu) : Prop :=
  forall b, ~ in_bytes (sp_of c - 36) 36 b -> ~ in_bytes SCB_DFSR 4 b -> ~ in_bytes DCB_DEMCR 4 b -> mem_of c' !! b = mem_of c !! b.

(** Two descriptions of the registers after an exception. *)
Lemma resumes_intro (c c' : cpu) :
  kept [] c c' -> c_psr c' = c_psr c ->
  map (c_reg c') [0; 1; 2; 3; 12; LR] = [c_reg c 0; c_reg c 1; c_reg c 2; c_reg c 3; c_reg c 12; c_reg c LR] -> resumes c c'.
Proof.
  intros ((_ & C) & A & B & R) P H. destruct (saved_six _ _ _ _ _ _ _ H) as (R0 & R1 & R2 & R3 & R12 & R14).
  split; [|by split_and!]. intros r Hr. unfold core_reg in Hr. apply orb_true_iff in Hr as [Hr|E%Z.eqb_eq]; [|by subst].
  apply andb_true_iff in Hr as [H0%Z.leb_le H1%Z.ltb_lt]. destruct (decide (4 <= r < 12)) as [H4|H4]; [apply R; [done|apply not_elem_of_nil]|].
  assert (r = 0 \/ r = 1 \/ r = 2 \/ r = 3 \/ r = 12) as [-> | [-> | [-> | [-> | ->]]]] by lia; done.
Qed.

Lemma step_event (c : cpu) (pc demcr : Z) :
  ready c -> 0 <= pc < 2 ^ 32 -> get32 (c_st c) SCB_DFSR = Some dfsr_halt_evt_bitmask ->
  get32 (c_st c) DCB_DEMCR = Some demcr -> 0 <= demcr < 2 ^ 32 ->
  exists c', take_exception calls clobber flags return_to handler c pc = Some (pc .& not1, c') /\ resumes c c' /\
    FPB (hw (c_st c')) = FPB (fpb_enable (hw (c_st c))) /\ get32 (c_st c') DCB_DEMCR = Some (demcr .& not_single_step) /\
    stores (c_st c) (c_st c') /\ same_memory c c'.
Proof.
  intros Hrd Hpc Hdf Hde Hr. pose proof Hrd as [Hok Hst]. destruct (pushed_frame_spec c pc Hok Hst Hpc) as (s1 & Hp & _ & Hf & Hmem).
  destruct (exc_frame_range c Hrd) as [F0 F1]. destruct (pushed_frame_only _ _ _ Hp) as [m Em].
  pose proof (pushed_elsewhere c pc s1 SCB_DFSR Hrd Hpc Hp ltac:(done) ltac:(done)) as E1.
  pose proof (pushed_elsewhere c pc s1 DCB_DEMCR Hrd Hpc Hp ltac:(done) ltac:(done)) as E2.
  destruct (monitor_halt_frame s1 (exc_frame c) demcr F0 F1) as (s2 & Hm & F2 & D2 & Hf2 & S2 & M2); [by rewrite E1|by rewrite E2|done|].
  rewrite Hf in Hf2.
  destruct (run_monitor calls clobber flags return_to handler c pc s1 s2 (c_reg c 0) (c_reg c 1) (c_reg c 2) (c_reg c 3) (c_reg c 12)
    (c_reg c LR) pc handler_is Hok Hst Hp) as (c' & Hx & K & P & T & R); [|exact Hf2|].
  { intros c0 Hs H0. cbn [c_call]. by rewrite Hs, H0, Hm. }
  exists c'. rewrite return_clears in Hx. split; [exact Hx|]. split; [by apply resumes_intro|]. rewrite T.
  split; [rewrite F2, Em; reflexivity|]. split; [exact D2|]. split.
  - eapply stores_trans; [exact (pushed_stores c pc s1 Hrd Hpc Hp)|exact S2].
  - intros b B1 B2 B3. unfold mem_of at 1. by rewrite T, M2, Hmem.
Qed.

(** ** The event of the breakpoint *)

(** What the handler starts with: the event recorded, the frame pushed. *)
Definition at_break (addr : Z) (c : cpu) : option ctx_state :=
  c1 ← debug_event dfsr_bkpt_evt_bitmask c; pushed_frame c1 addr.

(** The patch answers [ret] there, and leaves the frame, the debug unit and
    DEMCR as they are. *)
Definition answers (addr : Z) (c : cpu) (patch ret : Z) : Prop :=
  forall s1, at_break addr c = Some s1 ->
  exists s2, run_filter s1 patch (exc_frame c) sizeof_ebpf_args_frame = Some (ret, s2) /\ FPB (hw s2) = FPB (hw s1) /\
    frame_at s2 (exc_frame c) 8 = Some (stacked_words c addr) /\ get32 s2 DCB_DEMCR = get32 s1 DCB_DEMCR /\ stores s1 s2.

Lemma debug_event_spec (c : cpu) (bits : Z) :
  ready c -> is_Some (get32 (c_st c) SCB_DFSR) -> 0 <= bits < 2 ^ 32 ->
  exists c1, debug_event bits c = Some c1 /\ resumes c c1 /\ ready c1 /\ get32 (c_st c1) SCB_DFSR = Some bits /\
    get32 (c_st c1) DCB_DEMCR = get32 (c_st c) DCB_DEMCR /\ stores (c_st c) (c_st c1) /\ only_mem (c_st c) (c_st c1) /\
    exc_frame c1 = exc_frame c /\ forall pc, stacked_words c1 pc = stacked_words c pc.
Proof.
  intros Hrd Hdf Hb. unfold debug_event. destruct (set32_readable (c_st c) SCB_DFSR bits Hdf) as [s1 E]. rewrite E. cbn [mbind option_bind].
  exists (set_st s1 c). split; [done|]. assert (Hr : resumes c (set_st s1 c)) by (split_and!; done). split; [exact Hr|].
  pose proof (set32_stores _ _ _ _ E) as St. split; [by apply (resumes_ready c)|].
  split; [exact (set32_get32 _ _ _ _ Hb E)|]. split; [exact (set32_frame _ _ _ _ _ apart_dfsr_demcr E)|]. split; [exact St|].
  split; [|done]. revert E. unfold set32, put32. destruct (store_le 4 _ _ _) as [m|]; [|done]. cbn [mbind option_bind]. intros [= <-]. by exists m.
Qed.

Lemma only_mem_trans (s1 s2 s3 : ctx_state) : only_mem s1 s2 -> only_mem s2 s3 -> only_mem s1 s3.
Proof. intros [m ->] [m' ->]. by exists m'. Qed.

Lemma at_break_spec (c : cpu) (addr : Z) :
  ready c -> 0 <= addr < 2 ^ 32 -> is_Some (get32 (c_st c) SCB_DFSR) ->
  exists s1, at_break addr c = Some s1 /\ only_mem (c_st c) s1 /\ mem_wf (hw_mem (hw s1)) /\ dom (hw_mem (hw s1)) = dom (mem_of c) /\
    frame_at s1 (exc_frame c) 8 = Some (stacked_words c addr) /\
    forall b, ~ in_bytes (sp_of c - 36) 36 b -> ~ in_bytes SCB_DFSR 4 b -> hw_mem (hw s1) !! b = mem_of c !! b.
Proof.
  intros Hrd Hpc Hdf.
  destruct (debug_event_spec c dfsr_bkpt_evt_bitmask Hrd Hdf ltac:(done)) as (c1 & He & Hres & Hrd1 & _ & _ & St1 & Om & Ef & Ew).
  destruct (pushed_frame_spec c1 addr (proj1 Hrd1) (proj2 Hrd1) Hpc) as (s1 & Hp & W1 & Hf & Hm). exists s1.
  unfold at_break. rewrite He. split; [exact Hp|]. split; [exact (only_mem_trans _ _ _ Om (pushed_frame_only _ _ _ Hp))|]. split; [exact W1|].
  destruct (stores_trans _ _ _ St1 (pushed_stores c1 addr s1 Hrd1 Hpc Hp)) as [_ D]. split; [exact D|].
  split; [by rewrite <- Ef, <- Ew|]. intros b B1 B2. rewrite Hm by (rewrite (resumes_sp _ _ Hres); done).
  unfold debug_event in He. destruct (set32 (c_st c) SCB_DFSR dfsr_bkpt_evt_bitmask) as [s0|] eqn:E; [|discriminate He].
  injection He as <-. apply (set32_outside _ _ _ _ b E); (exact B2 || (unfold SCB_DFSR; lia)).
Qed.

(** What the monitor does after the patch has run. *)
Lemma monitor_stores (s1 s2 s3 : ctx_state) (f pc dfsr patch ret : Z) :
  get32 s1 SCB_DFSR = Some dfsr -> dfsr .& dfsr_bkpt_evt_bitmask <> 0 -> get32 s1 (f + ctx_pc) = Some pc ->
  get_dynamic_patch_by_bpkt s1 pc = Some patch -> patch <> 0 ->
  run_filter s1 patch f sizeof_ebpf_args_frame = Some (ret, s2) -> monitor s1 f = Some s3 -> stores s2 s3.
Proof.
  intros Hdf Hev Hpc Hget Hne Hrun. unfold leave_debug_monitor. rewrite Hdf. cbn [mbind option_bind].
  destruct (Z.eqb_spec (dfsr .& dfsr_bkpt_evt_bitmask) 0); [done|]. cbn [negb]. unfold run_patch_here. rewrite Hpc. cbn [mbind option_bind].
  rewrite Hget. cbn [mbind option_bind]. destruct (Z.eqb_spec patch 0); [done|]. cbn [negb]. rewrite Hrun. cbn [mbind option_bind].
  assert (Hs : forall s s' a v, set32 s a v = Some s' -> stores s s') by exact set32_stores.
  destruct (_ =? FILTER_DROP); [|destruct (_ =? FILTER_REDIRECT)].
  - destruct (set32 s2 _ _) as [sa|] eqn:Ea; [|done]. cbn [mbind option_bind]. destruct (get32 sa _); [|done]. cbn [mbind option_bind].
    destruct (set32 sa _ _) as [sb|] eqn:Eb; [|done]. cbn [mbind option_bind]. intros [= <-].
    exact (stores_trans _ _ _ (Hs _ _ _ _ Ea) (Hs _ _ _ _ Eb)).
  - destruct (set32 s2 _ _) as [sa|] eqn:Ea; [|done]. cbn [mbind option_bind]. intros [= <-]. by eapply Hs.
  - cbn [mbind option_bind]. destruct (get32 s2 _); [|done]. cbn [mbind option_bind].
    destruct (set32 s2 _ _) as [sa|] eqn:Ea; [|done]. cbn [mbind option_bind].
    destruct (set32 sa _ _) as [sb|] eqn:Eb; [|done]. cbn [mbind option_bind]. intros [= <-].
    exact (stores_trans _ _ _ (stores_trans _ _ _ (Hs _ _ _ _ Ea) (Hs _ _ _ _ Eb)) (stores_refl _)).
Qed.

(** The exception of the breakpoint, for a patch that answers. *)
Lemma breakpoint_event (c : cpu) (addr demcr patch ret : Z) :
  ready c -> 0 <= addr < 2 ^ 32 -> is_Some (get32 (c_st c) SCB_DFSR) ->
  get32 (c_st c) DCB_DEMCR = Some demcr -> 0 <= demcr < 2 ^ 32 ->
  get_dynamic_patch_by_bpkt (c_st c) addr = Some patch -> patch <> 0 ->
  answers addr c patch ret ->
  let op := u32 (ret >> 32) in
  let next := if op =? FILTER_DROP then c_reg c LR else if op =? FILTER_REDIRECT then u32 ret else addr in
  exists c1 c', debug_event dfsr_bkpt_evt_bitmask c = Some c1 /\
    take_exception calls clobber flags return_to handler c1 addr = Some (next .& not1, c') /\
    (forall r, core_reg r = true -> c_reg c' r = if (r =? 0) && (op =? FILTER_DROP) then u32 ret else c_reg c r) /\
    c_msp c' = c_msp c /\ c_psp c' = c_psp c /\ c_psr c' = c_psr c /\ c_control c' = c_control c /\
    stores (c_st c) (c_st c') /\
    if (op =? FILTER_DROP) || (op =? FILTER_REDIRECT) then FPB (hw (c_st c')) = FPB (hw (c_st c))
    else FPB (hw (c_st c')) = FPB (fpb_disable (hw (c_st c))) /\
      get32 (c_st c') DCB_DEMCR = Some (demcr .| demcr_single_step_mask).
Proof.
  intros Hrd Hpc Hdf Hde Hdr Hget Hne Hans op next.
  destruct (debug_event_spec c dfsr_bkpt_evt_bitmask Hrd Hdf ltac:(done)) as (c1 & He & Hres & Hrd1 & Hdf1 & Hde1 & St1 & Om & Ef & Ew).
  exists c1. rewrite He. pose proof Hrd1 as [Hok1 Hst1].
  destruct (pushed_frame_spec c1 addr Hok1 Hst1 Hpc) as (s1 & Hp & W1 & Hf & _).
  pose proof (only_mem_trans _ _ _ Om (pushed_frame_only _ _ _ Hp)) as Om1. rewrite Ew in Hf.
  destruct (Hans s1) as (s2 & Hrun & F2 & Hf2 & D2 & S2); [unfold at_break; by rewrite He|].
  assert (E1 : get32 s1 SCB_DFSR = Some dfsr_bkpt_evt_bitmask) by (rewrite (pushed_elsewhere c1 addr s1 SCB_DFSR Hrd1 Hpc Hp); done).
  assert (E2 : get32 s2 DCB_DEMCR = Some demcr) by (by rewrite D2, (pushed_elsewhere c1 addr s1 DCB_DEMCR Hrd1 Hpc Hp), Hde1).
  assert (E3 : is_Some (get32 s2 SCB_DFSR)) by (apply (stores_readable s1); [exact S2|by rewrite E1]).
  rewrite <- Ef in Hf2, Hrun.
  destruct (breakpoint_run kstray vstray FPB_Handler REMAP_ADDR call_jit call_ext stack reg0 fuel clobber flags return_to handler c1 addr
    dfsr_bkpt_evt_bitmask demcr patch ret s1 s2 handler_is Hok1 Hst1 Hpc Hdf1 ltac:(done)) as (c' & Hx & Rg & A & B & P & C & U & Hm);
    [by rewrite (dynamic_only (c_st c) (c_st c1) addr Om)|exact Hne|exact Hp|exact Hrun|by rewrite Hf2, Hf|exact E2|exact Hdr|exact E3|].
  destruct Hres as (Rr & Ra & Rb & Rp & Rc). exists c'. split; [reflexivity|]. fold op in Hx, Rg, U. rewrite return_clears, Rr in Hx by done.
  split; [exact Hx|]. split; [|rewrite A, B, P, C; split; [exact Ra|]; split; [exact Rb|]; split; [exact Rp|]; split; [exact Rc|]; split].
  - intros r Hr. rewrite Rg by (unfold core_reg in Hr; lia). by rewrite Rr.
  - refine (stores_trans _ _ _ St1 (stores_trans _ _ _ (pushed_stores c1 addr s1 Hrd1 Hpc Hp) (stores_trans _ _ _ S2 _))).
    assert (G1 : get32 s1 (exc_frame c1 + ctx_pc) = Some addr) by exact (frame_get32 s1 (exc_frame c1) 8 6 _ addr Hf eq_refl).
    assert (G2 : get_dynamic_patch_by_bpkt s1 addr = Some patch) by (rewrite (dynamic_only (c_st c) s1 addr Om1); exact Hget).
    assert (G3 : dfsr_bkpt_evt_bitmask .& dfsr_bkpt_evt_bitmask <> 0) by discriminate.
    exact (monitor_stores s1 s2 (c_st c') (exc_frame c1) addr dfsr_bkpt_evt_bitmask patch ret E1 G3 G1 G2 Hne Hrun Hm).
  - destruct Om1 as [m1 Em1]. assert (FPB (hw s2) = FPB (hw (c_st c))) as F2' by (by rewrite F2, Em1).
    destruct ((op =? FILTER_DROP) || (op =? FILTER_REDIRECT)); [congruence|]. destruct U as [U1 U2]. split; [|exact U2].
    rewrite U1. unfold fpb_disable, with_ctrl. cbn [FPB with_fpb]. by rewrite F2'.
Qed.

Lemma call_drops (c : cpu) (addr demcr patch ret : Z) :
  ready c -> 0 <= addr < 2 ^ 32 -> stops (hw (c_st c)) addr = true -> is_Some (get32 (c_st c) SCB_DFSR) ->
  get32 (c_st c) DCB_DEMCR = Some demcr -> 0 <= demcr < 2 ^ 32 ->
  get_dynamic_patch_by_bpkt (c_st c) addr = Some patch -> patch <> 0 ->
  answers addr c patch ret -> u32 (ret >> 32) = FILTER_DROP ->
  c_reg c LR .& not1 <> addr ->
  exists c', call_at addr c = Some c' /\ c_reg c' 0 = u32 ret /\
    (forall r, core_reg r = true -> r <> 0 -> c_reg c' r = c_reg c r) /\
    c_msp c' = c_msp c /\ c_psp c' = c_psp c /\ c_psr c' = c_psr c /\ c_control c' = c_control c /\
    stores (c_st c) (c_st c') /\ FPB (hw (c_st c')) = FPB (hw (c_st c)).
Proof.
  intros Hrd Hpc Hstop Hdf Hde Hdr Hget Hne Hans Hop Hret.
  destruct (breakpoint_event c addr demcr patch ret Hrd Hpc Hdf Hde Hdr Hget Hne Hans) as (c1 & c' & He & Hx & Rg & A & B & P & C & St & U).
  rewrite Hop in Hx, Rg, U. change (FILTER_DROP =? FILTER_DROP) with true in *. cbn [orb] in U. cbv iota in Hx.
  exists c'. unfold call_at. rewrite Hstop, He. cbn [mbind option_bind]. rewrite Hx. cbn [mbind option_bind].
  destruct (Z.eqb_spec (c_reg c LR .& not1) addr); [done|]. rewrite Z.eqb_refl. split; [reflexivity|].
  split; [by rewrite (Rg 0)|]. split; [|by split_and!].
  intros r Hr Hr0. rewrite Rg by done. by destruct (Z.eqb_spec r 0).
Qed.

Lemma step_requested (d : Z) : (d .| demcr_single_step_mask) .& demcr_single_step_mask <> 0.
Proof.
  intros H. apply (f_equal (fun x => Z.testbit x 18)) in H. revert H.
  rewrite Z.land_spec, Z.lor_spec, Z.testbit_0_l. change (Z.testbit demcr_single_step_mask 18) with true. by rewrite orb_true_r.
Qed.

Lemma call_passes (c : cpu) (addr demcr patch ret : Z) :
  ready c -> 0 <= addr < 2 ^ 32 -> addr .& not1 = addr -> stops (hw (c_st c)) addr = true -> is_Some (get32 (c_st c) SCB_DFSR) ->
  get32 (c_st c) DCB_DEMCR = Some demcr -> 0 <= demcr < 2 ^ 32 -> 0 <= CTRL (FPB (hw (c_st c))) < 2 ^ 32 ->
  get_dynamic_patch_by_bpkt (c_st c) addr = Some patch -> patch <> 0 ->
  answers addr c patch ret ->
  u32 (ret >> 32) <> FILTER_DROP -> u32 (ret >> 32) <> FILTER_REDIRECT ->
  exists c2, resumes c c2 /\ stores (c_st c) (c_st c2) /\
    forall pc1 c3, first c2 = Some (pc1, c3) -> ready c3 -> 0 <= pc1 < 2 ^ 32 -> FPB (hw (c_st c3)) = FPB (hw (c_st c2)) ->
      get32 (c_st c3) DCB_DEMCR = get32 (c_st c2) DCB_DEMCR -> is_Some (get32 (c_st c3) SCB_DFSR) ->
    exists c5, call_at addr c = rest (pc1 .& not1) c5 /\ resumes c3 c5 /\ same_memory c3 c5 /\ stores (c_st c3) (c_st c5) /\
      COMP (FPB (hw (c_st c5))) = COMP (FPB (hw (c_st c))) /\ CTRL (FPB (hw (c_st c5))) = CTRL (FPB (hw (c_st c))) .| 3 /\
      get32 (c_st c5) DCB_DEMCR = Some ((demcr .| demcr_single_step_mask) .& not_single_step).
Proof.
  intros Hrd Hpc Hev Hstop Hdf Hde Hdr Hctrl Hget Hne Hans Hd Hr.
  destruct (breakpoint_event c addr demcr patch ret Hrd Hpc Hdf Hde Hdr Hget Hne Hans) as (c1 & c2 & He & Hx & Rg & A & B & P & C & St & U).
  destruct (Z.eqb_spec (u32 (ret >> 32)) FILTER_DROP) as [E|_]; [by destruct (Hd E)|].
  destruct (Z.eqb_spec (u32 (ret >> 32)) FILTER_REDIRECT) as [E|_]; [by destruct (Hr E)|]. cbn [orb] in U. destruct U as [U1 U2].
  cbv iota in Hx. rewrite Hev in Hx. exists c2. split; [split; [|by split_and!]|split; [exact St|]].
  { intros r Hr0. rewrite Rg by done. by rewrite andb_false_r. }
  intros pc1 c3 Hfirst Hrd3 Hpc1 F3 D3 Hdf3. rewrite U2 in D3.
  assert (Hor : 0 <= demcr .| demcr_single_step_mask < 2 ^ 32) by (apply lor_range; [lia|exact Hdr|split; [discriminate|reflexivity]]).
  destruct (debug_event_spec c3 dfsr_halt_evt_bitmask Hrd3 Hdf3 ltac:(done)) as (c4 & He4 & Hres4 & Hrd4 & Hdf4 & Hde4 & St4 & [m4 Om4] & _).
  rewrite D3 in Hde4. destruct (step_event c4 pc1 _ Hrd4 Hpc1 Hdf4 Hde4 Hor) as (c5 & Hx5 & Hres5 & F5 & D5 & St5 & M5).
  exists c5. split; [|split; [exact (resumes_trans _ _ _ Hres4 Hres5)|split; [|split; [exact (stores_trans _ _ _ St4 St5)|]]]].
  - unfold call_at. rewrite Hstop, He. cbn [mbind option_bind]. rewrite Hx. cbn [mbind option_bind]. rewrite Z.eqb_refl, Hfirst.
    cbn [mbind option_bind]. unfold stepping. rewrite D3. destruct (Z.eqb_spec ((demcr .| demcr_single_step_mask) .& demcr_single_step_mask) 0) as [E|_];
      [by destruct (step_requested demcr E)|]. cbn [negb]. rewrite He4. cbn [mbind option_bind]. rewrite Hx5. reflexivity.
  - intros b B1 B2 B3. rewrite M5 by (rewrite ?(resumes_sp _ _ Hres4); done). unfold debug_event in He4.
    destruct (set32 (c_st c3) SCB_DFSR dfsr_halt_evt_bitmask) as [s4|] eqn:E4; [|discriminate He4]. injection He4 as <-.
    apply (set32_outside _ _ _ _ b E4); (exact B2 || (unfold SCB_DFSR; lia)).
  - rewrite F5, D5, Om4. unfold fpb_enable, with_ctrl. cbn [FPB with_fpb COMP CTRL with_mem with_hw hw with_hwmem].
    rewrite F3, U1. unfold fpb_disable, with_ctrl. cbn [FPB with_fpb COMP CTRL]. split; [reflexivity|]. split; [by apply rearm_ctrl|reflexivity].
Qed.

(** ** Calls *)

(** What the compiler promises: from a state with [room] bytes of stack to
    spare, the function computes [f] of its argument, and its first
    instruction leaves the debug system alone; what an exception between the
    first instruction and the rest stores does not matter. *)
Definition computes (room : Z) (f : Z -> Z) : Prop :=
  forall c, cpu_ok (36 + room) c -> status_ok c ->
  exists pc1 c1, first c = Some (pc1, c1) /\ ready c1 /\ 0 <= pc1 < 2 ^ 32 /\ pc1 .& not1 = pc1 /\
    FPB (hw (c_st c1)) = FPB (hw (c_st c)) /\
    (forall a, a = SCB_DFSR \/ a = DCB_DEMCR -> get32 (c_st c1) a = get32 (c_st c) a) /\
    forall c2, resumes c1 c2 -> same_memory c1 c2 -> exists c', rest pc1 c2 = Some c' /\ s32 (c_reg c' 0) = f (s32 (c_reg c 0)).

Lemma unpatched_call (c : cpu) (addr room : Z) (f : Z -> Z) :
  computes room f -> cpu_ok (36 + room) c -> status_ok c -> stops (hw (c_st c)) addr = false ->
  exists c', call_at addr c = Some c' /\ s32 (c_reg c' 0) = f (s32 (c_reg c 0)).
Proof.
  intros Hf Hok Hst Hstop. destruct (Hf c Hok Hst) as (pc1 & c1 & E & _ & _ & _ & _ & _ & H).
  destruct (H c1) as (c' & Hc' & R); [by split_and!|done|]. exists c'. unfold call_at. rewrite Hstop, E. by split.
Qed.

Lemma call_spec (c : cpu) (addr demcr patch ret room : Z) (f : Z -> Z) :
  0 <= room -> computes room f -> cpu_ok (36 + room) c -> status_ok c -> 0 <= addr < 2 ^ 32 -> addr .& not1 = addr ->
  stops (hw (c_st c)) addr = true -> is_Some (get32 (c_st c) SCB_DFSR) -> get32 (c_st c) DCB_DEMCR = Some demcr -> 0 <= demcr < 2 ^ 32 ->
  0 <= CTRL (FPB (hw (c_st c))) < 2 ^ 32 -> get_dynamic_patch_by_bpkt (c_st c) addr = Some patch -> patch <> 0 ->
  answers addr c patch ret -> u32 (ret >> 32) <> FILTER_REDIRECT ->
  c_reg c LR .& not1 <> addr ->
  if u32 (ret >> 32) =? FILTER_DROP then
    exists c', call_at addr c = Some c' /\ c_reg c' 0 = u32 ret /\
      (forall r, core_reg r = true -> r <> 0 -> c_reg c' r = c_reg c r) /\ sp_of c' = sp_of c /\
      stops (hw (c_st c')) addr = true
  else
    exists pc1 c5 c', call_at addr c = rest pc1 c5 /\ rest pc1 c5 = Some c' /\ s32 (c_reg c' 0) = f (s32 (c_reg c 0)) /\
      stops (hw (c_st c5)) addr = true /\ COMP (FPB (hw (c_st c5))) = COMP (FPB (hw (c_st c))).
Proof.
  intros Hroom Hf Hok Hst Hpc Hev Hstop Hdf Hde Hdr Hctrl Hget Hne Hans Hred Hret.
  assert (Hrd : ready c) by (split; [by apply (ok_less 36 (36 + room)); [lia|]|done]).
  destruct (Z.eqb_spec (u32 (ret >> 32)) FILTER_DROP) as [Hop|Hop].
  - destruct (call_drops c addr demcr patch ret Hrd Hpc Hstop Hdf Hde Hdr Hget Hne Hans Hop Hret) as (c' & Hc & R0 & R & A & B & P & C & _ & F).
    exists c'. split; [exact Hc|]. split; [exact R0|]. split; [exact R|]. split; [unfold sp_of, on_psp, handler_mode; by rewrite A, B, P, C|].
    unfold stops in *. by rewrite F.
  - destruct (call_passes c addr demcr patch ret Hrd Hpc Hev Hstop Hdf Hde Hdr Hctrl Hget Hne Hans Hop Hred) as (c2 & Hres & St & H).
    destruct (Hf c2 (resumes_ok _ _ _ Hok Hres St) (resumes_status _ _ Hst Hres)) as (pc1 & c3 & E & Hrd3 & Hpc1 & Hev1 & F3 & G3 & Hrest).
    destruct (H pc1 c3 E Hrd3 Hpc1 F3) as (c5 & Hcall & Hres5 & M5 & _ & Hcomp & Hc5 & _);
      [apply G3; by right|rewrite (G3 SCB_DFSR) by (by left); by apply (stores_readable _ _ _ St)|].
    rewrite Hev1 in Hcall. destruct (Hrest c5 Hres5 M5) as (c' & Hc' & R'). exists pc1, c5, c'. split; [exact Hcall|]. split; [exact Hc'|].
    split; [rewrite R'; by rewrite (proj1 Hres 0)|]. split; [|exact Hcomp]. unfold stops in *. rewrite Hcomp, Hc5, Z.lor_spec.
    change (Z.testbit 3 0) with true. rewrite orb_true_r. by apply andb_true_iff in Hstop as [[_ ->]%andb_true_iff ->].
Qed.


(** ** The patch test_cve *)

(** A patch that answers as test_cve does makes the function the fixed one. *)
Lemma cve_answers_repair (c : cpu) (addr demcr patch room : Z) :
  0 <= room -> computes room test_dynamic_bug -> cpu_ok (36 + room) c -> status_ok c -> 0 <= addr < 2 ^ 32 -> addr .& not1 = addr ->
  is_Some (get32 (c_st c) SCB_DFSR) -> get32 (c_st c) DCB_DEMCR = Some demcr -> 0 <= demcr < 2 ^ 32 ->
  0 <= CTRL (FPB (hw (c_st c))) < 2 ^ 32 -> get_dynamic_patch_by_bpkt (c_st c) addr = Some patch -> patch <> 0 ->
  answers addr c patch (test_cve_result (c_reg c 0)) -> c_reg c LR .& not1 <> addr ->
  exists c', call_at addr c = Some c' /\
    s32 (c_reg c' 0) = if stops (hw (c_st c)) addr then test_dynamic_fixed (s32 (c_reg c 0)) else test_dynamic_bug (s32 (c_reg c 0)).
Proof.
  intros Hroom Hf Hok Hst Hpc Hev Hdf Hde Hdr Hctrl Hget Hne Hans Hret.
  destruct (stops (hw (c_st c)) addr) eqn:Hstop; [|by apply (unpatched_call c addr room)].
  set (v := c_reg c 0) in *.
  pose proof (call_spec c addr demcr patch _ room test_dynamic_bug Hroom Hf Hok Hst Hpc Hev Hstop Hdf Hde Hdr Hctrl Hget Hne Hans) as H.
  fold v in H. unfold test_cve_result in H. unfold test_dynamic_fixed. unfold test_dynamic_bug in H.
  destruct (Z.ltb_spec 2000 (s32 v)), (Z.leb_spec (s32 v) 5000); cbn [andb] in H;
    specialize (H ltac:(discriminate) Hret).
  1: { destruct H as (c' & Hc & R & _). exists c'. split; [exact Hc|]. rewrite R. destruct (Z.ltb_spec 5000 (s32 v)); [lia|done]. }
  all: destruct H as (pc1 & c5 & c' & Hc & Hr & R & _); exists c'; rewrite Hc; (split; [exact Hr|]); rewrite R;
    destruct (Z.ltb_spec 5000 (s32 v)); (done || lia).
Qed.

Hypothesis reg0_length : length reg0 = 12%nat.

Lemma test_cve_answers (c : cpu) (addr patch : Z) (p : ebpf_patch) (vm : ebpf_vm) (e : ebpf_helper_env) :
  ready c -> 0 <= addr < 2 ^ 32 -> is_Some (get32 (c_st c) SCB_DFSR) ->
  patches (c_st c) !! patch = Some p -> p_vm p = Some vm -> use_jit vm = false -> insts vm = Some (insts_of_bytes test_cve) ->
  helper_envs (helpers (c_st c)) !! helper_func vm = Some e ->
  answers addr c patch (test_cve_result (c_reg c 0)).
Proof.
  intros Hrd Hpc Hdf Hp Hvm Hj Hi He s1 Hs1. destruct (at_break_spec c addr Hrd Hpc Hdf) as (s1' & Hs1' & [m Em] & _ & _ & Hf & _).
  rewrite Hs1 in Hs1'. injection Hs1' as <-. exists (with_mem s1 (hw_mem (hw s1))).
  split; [|split; [done|split; [exact Hf|split; [done|by split]]]].
  pose proof (ok_regs _ _ (proj1 Hrd) 0 eq_refl) as Hv.
  assert (Hload : load_le 4 (u32 (exc_frame c + 0)) (hw_mem (hw s1)) = Some (c_reg c 0)) by exact (frame_get32 s1 _ 8 0 _ _ Hf eq_refl).
  assert (Hp1 : patches s1 = patches (c_st c)) by (by rewrite Em). assert (Hh1 : helpers s1 = helpers (c_st c)) by (by rewrite Em).
  unfold Dispatch.run_filter, run_ebpf_filter.
  rewrite Hp1, Hp. cbn [mbind option_bind]. rewrite Hvm. cbn [mbind option_bind]. rewrite Hj, Hi. cbn [mbind option_bind]. rewrite Hh1, He.
  cbn [mbind option_bind]. rewrite (test_cve_runs call_ext _ reg0 (hw_mem (hw s1)) (c_reg c 0)); [reflexivity|exact test_cve_decoded|done..|exact Hload].
Qed.

(** With the patch installed to be interpreted and its breakpoint set, a call
    of test_dynamic_bug on the processor gives what the fixed function gives,
    for every argument, whether the patch lets it run or not; without the
    breakpoint it gives what the faulty one gives. *)
Theorem function_repaired (c : cpu) (addr demcr patch room : Z) (p : ebpf_patch) (vm : ebpf_vm) (e : ebpf_helper_env) :
  0 <= room -> computes room test_dynamic_bug -> cpu_ok (36 + room) c -> status_ok c -> 0 <= addr < 2 ^ 32 -> addr .& not1 = addr ->
  is_Some (get32 (c_st c) SCB_DFSR) -> get32 (c_st c) DCB_DEMCR = Some demcr -> 0 <= demcr < 2 ^ 32 ->
  0 <= CTRL (FPB (hw (c_st c))) < 2 ^ 32 -> get_dynamic_patch_by_bpkt (c_st c) addr = Some patch -> patch <> 0 ->
  patches (c_st c) !! patch = Some p -> p_vm p = Some vm -> use_jit vm = false -> insts vm = Some (insts_of_bytes test_cve) ->
  helper_envs (helpers (c_st c)) !! helper_func vm = Some e -> c_reg c LR .& not1 <> addr ->
  exists c', call_at addr c = Some c' /\
    s32 (c_reg c' 0) = if stops (hw (c_st c)) addr then test_dynamic_fixed (s32 (c_reg c 0)) else test_dynamic_bug (s32 (c_reg c 0)).
Proof.
  intros Hroom Hf Hok Hst Hpc Hev Hdf Hde Hdr Hctrl Hget Hne Hp Hvm Hj Hi He.
  assert (Hrd : ready c) by (split; [by apply (ok_less 36 (36 + room)); [lia|]|done]).
  pose proof (test_cve_answers c addr patch p vm e Hrd Hpc Hdf Hp Hvm Hj Hi He) as Hans.
  exact (cve_answers_repair c addr demcr patch room Hroom Hf Hok Hst Hpc Hev Hdf Hde Hdr Hctrl Hget Hne Hans).
Qed.
End Call.

(** ** Witnesses: a thread that calls the function *)

Lemma set_reg_ok (n r v : Z) (c : cpu) : cpu_ok n c -> 0 <= v < 2 ^ 32 -> cpu_ok n (Stubs.set_reg r v c).
Proof.
  intros [R S M F P H] Hv. split; try done. intros k Hk. cbn. unfold upd. destruct (k =? r); [done|by apply R].
Qed.

(** A compiler that makes a function of two instructions. *)
Definition two_first (c : cpu) : option (Z * cpu) := Some (0x08000302, c).
Definition two_rest (_ : Z) (c : cpu) : option cpu := Some (Stubs.set_reg 0 (u32 (test_dynamic_bug (s32 (c_reg c 0)))) c).

Lemma two_computes : computes two_first two_rest 0 test_dynamic_bug.
Proof.
  intros c Hok Hst. exists 0x08000302, c. split; [reflexivity|]. split; [split; [exact Hok|exact Hst]|]. split; [lia|].
  split; [reflexivity|]. split; [reflexivity|]. split; [done|]. intros c2 [R _] _. eexists. split; [reflexivity|].
  change (c_reg (Stubs.set_reg 0 (u32 (test_dynamic_bug (s32 (c_reg c2 0)))) c2) 0) with (u32 (test_dynamic_bug (s32 (c_reg c2 0)))).
  rewrite (R 0) by done. unfold test_dynamic_bug. by destruct (2000 <? s32 (c_reg c 0)).
Qed.

Definition calling (v : Z) : cpu := Stubs.set_reg 0 v (thread_on (insts_of_bytes test_cve) 0x08000555).
Definition cve_vm : ebpf_vm := test_vm (insts_of_bytes test_cve).
Definition cve_patch : ebpf_patch := {| p_desc := 32; p_vm := Some cve_vm; p_is_active := true |}.
Definition no_helpers : ebpf_helper_env := {| ext_funcs := replicate 12 0; refcnt := 1 |}.

Lemma calling_ok (v : Z) : 0 <= v < 2 ^ 32 -> cpu_ok (36 + 0) (calling v) /\ status_ok (calling v).
Proof.
  intros Hv. split; [|split_and!; vm_compute; (reflexivity || discriminate)].
  apply set_reg_ok; [|exact Hv]. exact (thread_ok 36 (c_st (calling v)) 0x08000555 eq_refl ltac:(lia) ltac:(lia)).
Qed.

Local Abbreviation stray := (fun _ : Z => 0).
Local Abbreviation regs := (replicate 12 0).
Local Abbreviation clear := (fun v : Z => v .& not1).
Local Abbreviation call_it := (call_at stray stray [] 0x20000000 no_jit no_ext 0x20002000 regs 8 stray 0 clear __debug_monitor two_first two_rest).

Lemma function_repaired_witness :
  exists c', call_it 0x08000300 (calling 3000) = Some c' /\ s32 (c_reg c' 0) = 0.
Proof.
  refine (function_repaired stray stray [] 0x20000000 no_jit no_ext 0x20002000 regs 8 stray 0 clear (fun v => eq_refl) __debug_monitor
    (or_intror eq_refl) two_first two_rest eq_refl (calling 3000) 0x08000300 0x10000 64 0 cve_patch cve_vm no_helpers
    (Z.le_refl 0) two_computes (proj1 (calling_ok 3000 ltac:(lia))) (proj2 (calling_ok 3000 ltac:(lia))) _ eq_refl
    _ _ _ _ _ _ _ eq_refl eq_refl eq_refl _ _).
  all: vm_compute; first [reflexivity|discriminate|eexists; reflexivity|split; [discriminate|reflexivity]].
Defined.

