(* ===== verification/Install.v ===== *)
(** * Loading a patch of the table (hotpatch/src/dynamic_patch_load.c)

    [read_local_patch] from its call to the armed breakpoint: the objects that
    every load reuses, the vm with its code and helpers, the compilation, the
    node in the list of dynamic patches, and the comparator. *)

From S2P Require Import Prelude Mem EbpfInst EbpfVm Vm Hashmap Fpb FpbProps PatchCtx PatchCtxProps LocalPatch JitPatch.
From S2P Require Jit JitContract PatchPoints.

(** ** The context through small changes *)

Lemma arraymap_new_empty (junk : Z -> Z) : am_wf (arraymap_new junk 4) /\ am_map (arraymap_new junk 4) = ∅.
Proof.
  split; [|reflexivity]. split; [by split|done|done|done|]. intros i j x y Hi Hj. change (am_cur_size (arraymap_new junk 4)) with 0 in Hj. lia.
Qed.

(** What the invariant says depends on the patches of the tables only. *)
Lemma ctx_wf_change (s s' : ctx_state) (m : arraymap) :
  pctx s' = pctx s -> (forall k q, am_map m !! k = Some q -> desc_of s' q = desc_of s q) ->
  (forall q, is_Some (patches s !! q) -> is_Some (patches s' !! q)) ->
  (forall k q, am_map m !! k = Some q -> active s' q = active s q) ->
  ctx_wf s m -> ctx_wf s' m.
Proof.
  intros Hp Hd Hps Ha [Hl Hm Hf Hdyn [F1 F2]]. split; rewrite ?Hp; try done.
  - intros k q E. rewrite (Hd k) by done. by apply Hf.
  - intros dp. unfold dynamic_ok in Hdyn. rewrite Hp. intros Hin. by apply Hps, Hdyn.
  - split; rewrite Hp; [|done]. intros k q E Hact. apply (F1 k q E). by rewrite <- (Ha k q E).
Qed.

Section Install.
Context (kstray vstray junk : Z -> Z).
Context (alloc_env : gmap Z ebpf_helper_env -> Z) (malloc_vm : option ebpf_vm) (iot : iot_helpers).
Context (alloc_patch : gmap Z ebpf_patch -> Z) (alloc_desc : gmap Z patch_desc -> Z).
Context (REMAP_ADDR : Z) (FPB_Handler : list Z) (past_end : Z * Z) (base : Z).
Hypothesis alloc_env_nonzero : forall e, alloc_env e <> 0.
Hypothesis alloc_patch_fresh : forall ps, alloc_patch ps <> 0 /\ ps !! alloc_patch ps = None.
Hypothesis alloc_desc_fresh : forall ds, ds !! alloc_desc ds = None.
Hypothesis malloc_works : malloc_vm <> None.
(** The buffer of the compiled code is in RAM, apart from the table of the
    remapped instructions. *)
Hypothesis base_in_ram : 0x20000000 <= base /\ base + Z.of_nat Jit.JIT_BUFFER_SIZE <= 2 ^ 32.
Hypothesis REMAP_apart : REMAP_ADDR + 40 < base \/ base + Z.of_nat Jit.JIT_BUFFER_SIZE <= REMAP_ADDR + 40.
Hypothesis REMAP_range : 0 <= REMAP_ADDR /\ REMAP_ADDR + 40 < 2 ^ 32.

Lemma init_patch_sys_spec (s : ctx_state) (m : arraymap) :
  (ctx_init s = true -> ctx_wf s m) ->
  exists s' m', init_patch_sys vstray junk s = Some s' /\ ctx_wf s' m' /\ ctx_init s' = true /\
    (if ctx_init s then s' = s /\ m' = m else am_map m' = ∅ /\ dpatch_list (pctx s') = []) /\
    patches s' = patches s /\ descs s' = descs s /\ helpers s' = helpers s /\ hw s' = hw s.
Proof.
  intros Hwf. unfold init_patch_sys. destruct (ctx_init s) eqn:E; [exists s, m; by split_and!; try apply Hwf|].
  destruct (arraymap_new_empty junk) as [Ham Hempty].
  set (s0 := with_fixed _ _).
  destruct (update_bits_filter_spec vstray s0 (arraymap_new junk 4) eq_refl Ham) as (f & pc & bp & -> & Hf).
  { intros k q. by rewrite Hempty. }
  cbn [mbind option_bind]. eexists _, (arraymap_new junk 4). split; [reflexivity|]. split; [|by split_and!].
  split; [done|done|intros k q; by rewrite Hempty|intros dp []|exact Hf].
Qed.

(** ** The objects of the loader

    Its patch and its descriptor are allocated; the patch is not in the table
    of the fixed ones, and no other patch has the descriptor. *)
Record loader_ok (l : loader) (s : ctx_state) (m : arraymap) : Prop := {
  lo_patch : exists p, patches s !! _patch l = Some p;
  lo_desc : exists d, descs s !! _desc l = Some d;
  lo_nonzero : _patch l <> 0;
  lo_dynamic : forall k, am_map m !! k <> Some (_patch l);
  lo_own : forall q p, patches s !! q = Some p -> p_desc p = _desc l -> q = _patch l }.

(** Every patch has its descriptor. *)
Definition descs_ok (s : ctx_state) : Prop := forall q p, patches s !! q = Some p -> is_Some (descs s !! p_desc p).

(** What the loader relies on and gives back: the tables, and its objects
    once they exist; the unit is in debug monitor mode. *)
Record load_inv (l : loader) (s : ctx_state) (m : arraymap) : Prop := {
  li_ctx : ctx_init s = true -> ctx_wf s m;
  li_init : is_init l = true -> ctx_init s = true /\ loader_ok l s m;
  li_descs : descs_ok s;
  li_helpers : helpers_wf (helpers s);
  li_hw : hw_wf (hw s);
  li_monitor : REMAP_active REMAP_ADDR (hw s) = Some 0 }.

(** A node of the loader's patch, or the place for a new one. *)
Lemma refresh_dynamic_spec (mem : memory) (d : patch_desc) (patch pc : Z) (l : list dynamic_patch) :
  calc_bpkt_pc mem (calc_bpkt_addr (pd_addr d)) = Some pc ->
  exists r, refresh_dynamic mem d patch l = Some r /\
  match r with
  | None => forall dp, In dp l -> dp_patch dp <> patch
  | Some l' => exists before x after, l = before ++ x :: after /\ (forall dp, In dp before -> dp_patch dp <> patch) /\
      l' = before ++ {| dp_patch := patch; dp_inst_addr := calc_bpkt_addr (pd_addr d); dp_pc_addr := pc |} :: after
  end.
Proof.
  intros Hpc. induction l as [|x l IH]; cbn [refresh_dynamic]; [by exists None|].
  destruct (Z.eqb_spec (dp_patch x) patch) as [E|E].
  - rewrite Hpc. cbn [mbind option_bind]. eexists. split; [reflexivity|]. by exists [], x, l.
  - destruct IH as (r & -> & Hr). cbn [mbind option_bind]. destruct r as [l'|].
    + destruct Hr as (before & y & after & -> & Hb & ->). eexists. split; [reflexivity|]. exists (x :: before), y, after.
      split; [done|]. split; [|done]. intros dp [<- | Hin]; [done|by apply Hb].
    + eexists. split; [reflexivity|]. intros dp [<- | Hin]; [done|by apply Hr].
Qed.

(** The address is not taken by a patch of someone else. *)
Definition place_free (s : ctx_state) (patch a : Z) : Prop :=
  forall dp, In dp (dpatch_list (pctx s)) -> dp_patch dp = patch \/ dp_inst_addr dp <> a.

Lemma load_local_dynamic (s : ctx_state) (m : arraymap) (patch : Z) (p : ebpf_patch) (d : patch_desc) (pc : Z) :
  let a := pd_addr d .& not1 in
  ctx_wf s m -> (forall k, am_map m !! k <> Some patch) -> patches s !! patch = Some p -> descs s !! p_desc p = Some d ->
  pd_type d = DynamicPatchPoint -> 0 <= pd_addr d < 0x20000000 -> hw_wf (hw s) -> REMAP_active REMAP_ADDR (hw s) = Some 0 ->
  calc_bpkt_pc (hw_mem (hw s)) a = Some pc -> place_free s patch a ->
  exists s', load_local_patch_to_ctx kstray vstray junk REMAP_ADDR FPB_Handler s patch = Some s' /\ ctx_wf s' m
    /\ get_dynamic_patch_by_bpkt s' a = Some patch
    /\ (exists i, 0 <= i < 6 /\ get_comp (hw s') i = Some (bkpt_comp a))
    /\ (exists i, forall j, j <> i -> get_comp (hw s') j = get_comp (hw s) j)
    /\ patches s' = <[patch := {| p_desc := p_desc p; p_vm := p_vm p; p_is_active := true |}]> (patches s)
    /\ descs s' = descs s /\ helpers s' = helpers s /\ ctx_init s' = ctx_init s
    /\ hw_wf (hw s') /\ hw_mem (hw s') = hw_mem (hw s)
    /\ forall lr, fixed_patch_at s' m lr = fixed_patch_at s m lr.
Proof.
  intros a [Hl Ham Hf Hdyn _] Hno Hp Hd Ht Ha Hhw Hmon Hpc Hfree.
  assert (Hcalc : calc_bpkt_addr (pd_addr d) = a) by (apply calc_bpkt_addr_flash; lia).
  set (node := {| dp_patch := patch; dp_inst_addr := a; dp_pc_addr := pc |}).
  assert (Hdesc : desc_of s patch = Some d) by (unfold desc_of; by rewrite Hp).
  assert (exists before after, (r ← refresh_dynamic (hw_mem (hw s)) d patch (dpatch_list (pctx s));
      match r with None => add_dynamic_patch_to_ctx s patch | Some l => Some (with_dynamic s l) end)
      = Some (with_dynamic s (before ++ node :: after)) /\
    (forall dp, In dp before -> dp_inst_addr dp <> a) /\
    forall dp, In dp (before ++ node :: after) -> dp = node \/ In dp (dpatch_list (pctx s))) as (before & after & Hlist & Hb & Hin).
  { destruct (refresh_dynamic_spec (hw_mem (hw s)) d patch pc (dpatch_list (pctx s))) as (r & -> & Hr); [by rewrite Hcalc|].
    cbn [mbind option_bind]. rewrite Hcalc in Hr. destruct r as [l'|].
    - destruct Hr as (before & x & after & E & Hb & ->). exists before, after. split; [done|]. unfold place_free in Hfree. rewrite E in *. split.
      + intros dp Hin. destruct (Hfree dp) as [E'|]; [apply in_or_app; by left| |done]. by destruct (Hb dp Hin).
      + intros dp [Hin | [<- | Hin]]%in_app_or; [right; apply in_or_app; by left|by left|right; apply in_or_app; right; by right].
    - exists (kept_nodes (dpatch_list (pctx s)) (pd_addr d)), []. split; [|split].
      + rewrite (add_dynamic_kept s patch d pc Hdesc); [by rewrite Hcalc|by rewrite Hcalc].
      + intros dp [Hin _]%kept_nodes_spec. destruct (Hfree dp Hin) as [E|]; [by destruct (Hr dp Hin)|done].
      + intros dp [[Hin _]%kept_nodes_spec | [<- | []]]%in_app_or; [by right|by left]. }
  set (s1 := with_dynamic s (before ++ node :: after)) in *.
  destruct (dynamic_installed vstray REMAP_ADDR FPB_Handler s1 m patch p d before after node Hl Ham) as
    (s' & Hact & (Hwf' & _ & Hds & Hps) & Hget & (i & Hi & Hcomp) & Hothers & Hhw' & Hmem & Hg & Hin' & Hfix); try done.
  { intros dp [-> | Hdp]%Hin; [by exists p|by apply Hdyn]. }
  exists s'. split.
  - unfold load_local_patch_to_ctx. rewrite Hdesc. cbn [mbind option_bind]. rewrite Ht.
    change (DynamicPatchPoint =? FixedPatchPoint) with false. change (DynamicPatchPoint =? DynamicPatchPoint) with true. cbv iota.
    destruct (refresh_dynamic (hw_mem (hw s)) d patch (dpatch_list (pctx s))); [|discriminate Hlist].
    cbn [mbind option_bind] in *. by rewrite Hlist.
  - split; [done|]. split; [exact Hget|]. split; [exists i; split; [done|]; unfold a; by rewrite bkpt_comp_even|].
    split; [exact Hothers|]. do 6 (split; [done|]). intros lr. rewrite Hfix. reflexivity.
Qed.

(** ** One load *)

(** The vm: created unless the patch has one, then given the code. *)
Lemma vm_for_code (p : ebpf_patch) (g : helper_state) (code : list Z) (len : Z) :
  helpers_wf g -> refs g < 2 ^ 31 - 3 ->
  exists vm g1 vm' g2 e,
    (match p_vm p with Some vm => Some (Some vm, g) | None => init_ebpf_vm alloc_env malloc_vm iot g code len end) = Some (Some vm, g1) /\
    ebpf_vm_set_inst alloc_env iot vm g1 code len = Some (vm', g2) /\
    insts vm' = Some (insts_of_bytes code) /\ num_insts vm' = u16 len / 8 /\ helper_envs g2 !! helper_func vm' = Some e /\
    helpers_wf g2 /\ refs g2 <= refs g + 2.
Proof.
  intros Hwf Hr.
  assert (exists vm g1, (match p_vm p with Some vm => Some (Some vm, g) | None => init_ebpf_vm alloc_env malloc_vm iot g code len end)
    = Some (Some vm, g1) /\ helpers_wf g1 /\ refs g1 <= refs g + 1) as (vm & g1 & E & Hwf1 & Hr1).
  { destruct (p_vm p) as [vm|]; [exists vm, g; split_and!; (done || lia)|]. unfold init_ebpf_vm. destruct malloc_vm as [vm0|]; [|done].
    destruct (init_iot_ready alloc_env iot alloc_env_nonzero (with_code vm0 code len) g Hwf ltac:(lia)) as (q & e & g' & -> & _ & W & R).
    cbn [mbind option_bind fst snd]. eexists _, g'. split_and!; (done || lia). }
  exists vm, g1. unfold ebpf_vm_set_inst.
  destruct (init_iot_ready alloc_env iot alloc_env_nonzero (with_code zeroed_vm code len) g1 Hwf1 ltac:(lia)) as (q & e & g2 & -> & He & W & R).
  eexists _, g2, e. split; [exact E|]. split; [reflexivity|]. split_and!; (done || lia).
Qed.

(** Code that the compiler takes. *)
Definition compilable (code : list Z) : Prop :=
  let prog := insts_of_bytes code in
  u16 (Z.of_nat (length code)) / 8 = Z.of_nat (length prog) /\
  forall ext, exists st, Jit.gen_jit_code past_end base prog (Z.of_nat (length prog)) ext = Some (st, base .| 1) /\
    Jit.jit_align st = 0 /\ length (Jit.jit_code st) = Jit.JIT_BUFFER_SIZE /\ Forall (fun b => 0 <= b < 256) (Jit.jit_code st).

(** The patch is found at its address, has its comparator, and its vm runs the
    compiled code of the program. *)
Definition installed (s : ctx_state) (patch a : Z) (prog : list ebpf_inst) : Prop :=
  get_dynamic_patch_by_bpkt s a = Some patch /\
  (exists i, 0 <= i < 6 /\ get_comp (hw s) i = Some (bkpt_comp a)) /\
  exists p vm, patches s !! patch = Some p /\ p_vm p = Some vm /\ use_jit vm = true /\ jit_func vm = base .| 1 /\
    insts vm = Some prog /\ in_buffer past_end base prog (hw_mem (hw s)).

(** The halfword of an instruction in flash is in flash. *)
Lemma flash_halfword (a : Z) : 0 <= a < 0x20000000 -> 0 <= a .& not1 .& not1 /\ a .& not1 .& not1 + 1 < 0x20000000.
Proof.
  intros Ha. assert (Hr : 0 <= a .& not1 .& not1 < 2 ^ 29).
  { rewrite <- Z.land_assoc, Z.land_comm. change 0x20000000 with (2 ^ 29) in Ha. apply land_range; [lia|by vm_compute|lia]. }
  assert (He : Z.even (a .& not1 .& not1) = true) by apply not1_even.
  apply Z.even_spec in He as [k He]. change 0x20000000 with (2 * 268435456). change (2 ^ 29) with (2 * 268435456) in Hr. lia.
Qed.

(** It is not in the buffer, nor is the flag of the remap table. *)
Lemma buffer_elsewhere (s s' : ctx_state) (a : Z) :
  (forall b, b < base \/ base + Z.of_nat Jit.JIT_BUFFER_SIZE <= b -> hw_mem (hw s') !! b = hw_mem (hw s) !! b) ->
  0 <= a < 0x20000000 ->
  calc_bpkt_pc (hw_mem (hw s')) (a .& not1) = calc_bpkt_pc (hw_mem (hw s)) (a .& not1) /\
  REMAP_active REMAP_ADDR (hw s') = REMAP_active REMAP_ADDR (hw s).
Proof.
  intros H Ha. destruct base_in_ram as [B0 B1]. destruct (flash_halfword a Ha) as [H0 Hlt].
  unfold calc_bpkt_pc, REMAP_active. split.
  - rewrite (load_le_ext 2 _ (hw_mem (hw s)) (hw_mem (hw s'))); [done|]. intros k Hk. apply H. rewrite u32_small; lia.
  - apply load_le_ext. intros k Hk. apply H. rewrite (u32_small (REMAP_ADDR + 40)) by lia. rewrite u32_small; lia.
Qed.

(** Memory that holds bytes where it did. *)
Definition still_mapped (m m' : memory) : Prop := (mem_wf m -> mem_wf m') /\ forall b, is_Some (m !! b) -> is_Some (m' !! b).

(** Where the loader's patch and descriptor are replaced, the tables stay sound. *)
Lemma objects_replaced (l : loader) (s : ctx_state) (m : arraymap) (d : patch_desc) (p : ebpf_patch) (g : helper_state) (mem : memory) :
  ctx_wf s m -> loader_ok l s m ->
  let s' := with_patches (with_hw (with_helpers (with_descs s (<[_desc l := d]> (descs s))) g) (with_hwmem (hw s) mem))
    (<[_patch l := p]> (patches s)) in
  ctx_wf s' m /\ forall lr, fixed_patch_at s' m lr = fixed_patch_at s m lr.
Proof.
  intros Hwf [Hp Hd _ Hno Hown] s'.
  assert (Hother : forall k q, am_map m !! k = Some q -> patches s' !! q = patches s !! q).
  { intros k q E. apply lookup_insert_ne. intros <-. by apply (Hno k). }
  assert (Hact : forall k q, am_map m !! k = Some q -> active s' q = active s q)
    by (intros k q E; unfold active; by rewrite (Hother k q E)).
  split.
  - apply (ctx_wf_change s); [done| | |exact Hact|exact Hwf].
    + intros k q E. unfold desc_of. rewrite (Hother k q E). destruct (patches s !! q) as [p0|] eqn:Eq; [|done]. cbn [mbind option_bind].
      apply lookup_insert_ne. intros E'. rewrite (Hown q p0 Eq (eq_sym E')) in E. by apply (Hno k).
    + intros q [p0 Eq]. cbn [s' with_patches patches]. destruct (decide (_patch l = q)) as [->|]; [rewrite lookup_insert_eq; eauto|].
      rewrite lookup_insert_ne by done. by exists p0.
  - intros lr. unfold fixed_patch_at. destruct (am_map m !! lr) as [q|] eqn:E; [|done]. by rewrite (Hact lr q E).
Qed.

Lemma load_patch_installs (l : loader) (s : ctx_state) (m : arraymap) (pt : local_patch) (pc : Z) :
  let a := loc pt .& not1 in
  ctx_wf s m -> loader_ok l s m -> helpers_wf (helpers s) -> refs (helpers s) < 2 ^ 31 - 3 -> hw_wf (hw s) ->
  REMAP_active REMAP_ADDR (hw s) = Some 0 -> 0 <= loc pt < 0x20000000 -> calc_bpkt_pc (hw_mem (hw s)) a = Some pc ->
  place_free s (_patch l) a -> compilable (code pt) ->
  exists s' p', load_patch kstray vstray junk alloc_env malloc_vm iot REMAP_ADDR FPB_Handler past_end base true DynamicPatchPoint l s pt = Some s' /\
    installed s' (_patch l) a (insts_of_bytes (code pt)) /\ ctx_wf s' m /\
    (exists i, forall j, j <> i -> get_comp (hw s') j = get_comp (hw s) j) /\
    patches s' = <[_patch l := p']> (patches s) /\ p_desc p' = _desc l /\
    (exists d, descs s' = <[_desc l := d]> (descs s)) /\
    helpers_wf (helpers s') /\ refs (helpers s') <= refs (helpers s) + 2 /\ ctx_init s' = ctx_init s /\
    hw_wf (hw s') /\ REMAP_active REMAP_ADDR (hw s') = Some 0 /\
    (forall b, b < base \/ base + Z.of_nat Jit.JIT_BUFFER_SIZE <= b -> hw_mem (hw s') !! b = hw_mem (hw s) !! b) /\
    still_mapped (hw_mem (hw s)) (hw_mem (hw s')) /\
    forall lr, fixed_patch_at s' m lr = fixed_patch_at s m lr.
Proof.
  intros a Hwf Hok Hg Hr Hhw Hmon Ha Hpc Hfree [Hlen Hcomp]. pose proof Hok as [[p Hp] [d Hd] Hne Hno Hown].
  destruct (vm_for_code p (helpers s) (code pt) (Z.of_nat (length (code pt))) Hg Hr) as (vm & g1 & vm1 & g2 & e & Evm & Eset & Hi & Hn & He & Wg & Rg).
  set (d' := {| pd_type := DynamicPatchPoint; pd_code_len := 0; pd_addr := loc pt; pd_code := pd_code d |}).
  set (s1 := with_descs s (<[_desc l := d']> (descs s))).
  set (s2 := with_helpers s1 g2).
  set (vm2 := {| insts := insts vm1; num_insts := num_insts vm1; bounds_check_enabled := bounds_check_enabled vm1;
                 helper_func := helper_func vm1; jit_func := jit_func vm1; use_jit := true |}).
  destruct (Hcomp (ext_funcs e)) as (st & Hgen & Hal & Hbuf & Hbytes). destruct base_in_ram as [B0 B1].
  destruct (gen_jit_leaves past_end base s2 vm2 e (insts_of_bytes (code pt)) st (base .| 1)) as
    (vm3 & s3 & Hjit & Hf & Hu & Hi3 & Hs3 & Hin & Hout); try done; [by rewrite <- Hlen|lia|].
  set (mem := bytes_at base (Jit.jit_code st) (hw_mem (hw s2))) in *.
  set (p' := {| p_desc := _desc l; p_vm := Some vm3; p_is_active := p_is_active p |}).
  set (s4 := with_patches s3 (<[_patch l := p']> (patches s3))).
  destruct (objects_replaced l s m d' p' g2 mem Hwf Hok) as [Hwf4 Hfix4].
  assert (E4 : s4 = with_patches (with_hw (with_helpers s1 g2) (with_hwmem (hw s) mem)) (<[_patch l := p']> (patches s))) by (unfold s4; rewrite Hs3; reflexivity).
  unfold s1 in E4. rewrite <- E4 in Hwf4, Hfix4.
  assert (Hp4 : patches s4 !! _patch l = Some p') by (rewrite E4; apply lookup_insert_eq).
  assert (Hd4 : descs s4 !! p_desc p' = Some d') by (rewrite E4; apply lookup_insert_eq).
  change (hw_mem (hw s3)) with (hw_mem (hw s4)) in Hin, Hout. change (hw_mem (hw s2)) with (hw_mem (hw s)) in Hout.
  destruct (buffer_elsewhere s s4 (loc pt) Hout Ha) as [Epc Eact].
  assert (Hhw4 : hw_wf (hw s4)) by (rewrite E4; destruct Hhw; by split).
  destruct (load_local_dynamic s4 m (_patch l) p' d' pc Hwf4 Hno Hp4 Hd4 eq_refl Ha Hhw4)
    as (s' & Hload & Hwf' & Hget & Hc & Hothers & Hps & Hds & Hg' & Hin' & Hhw' & Hmem & Hfix);
    [by rewrite Eact|exact (eq_trans Epc Hpc)|rewrite E4; exact Hfree|].
  exists s', {| p_desc := _desc l; p_vm := Some vm3; p_is_active := true |}.
  split; [|split; [|split; [exact Hwf'|]]].
  - unfold load_patch. rewrite Hd, Hp. cbn [mbind option_bind]. fold d' s1. change (helpers s1) with (helpers s). rewrite Evm.
    cbn [mbind option_bind fst snd]. rewrite Eset. cbn [mbind option_bind fst snd]. fold s2 vm2. rewrite Hjit. cbn [mbind option_bind fst snd].
    fold p' s4. exact Hload.
  - split; [exact Hget|]. split; [exact Hc|]. exists {| p_desc := _desc l; p_vm := Some vm3; p_is_active := true |}, vm3.
    rewrite Hps, lookup_insert_eq, Hmem. by split_and!.
  - split; [destruct Hothers as [i Hi']; exists i; intros j Hj; rewrite Hi' by exact Hj; by rewrite E4|].
    split; [rewrite Hps, E4; cbn [patches with_patches p_desc p_vm p']; apply insert_insert_eq|]. split; [done|].
    split; [exists d'; by rewrite Hds, E4|]. rewrite Hg', Hmem, Hin'.
    split; [by rewrite E4|]. split; [by rewrite E4|]. split; [by rewrite E4|]. split; [exact Hhw'|].
    split; [unfold REMAP_active in *; by rewrite Hmem, Eact|]. split; [exact Hout|].
    split; [rewrite E4; split; [intros Hm; by apply bytes_at_wf|intros b Hb; by apply bytes_at_mapped]|]. intros lr. by rewrite Hfix.
Qed.

(** ** The first load *)

Lemma load_objects_sound (l : loader) (s : ctx_state) (m : arraymap) :
  ctx_wf s m -> ctx_wf (snd (load_objects alloc_patch alloc_desc l s)) m /\
  (forall k, am_map m !! k <> Some (alloc_patch (patches s))) /\
  forall lr, fixed_patch_at (snd (load_objects alloc_patch alloc_desc l s)) m lr = fixed_patch_at s m lr.
Proof.
  intros Hwf. pose proof Hwf as [_ _ Hf _ _]. set (s' := snd _). destruct (alloc_patch_fresh (patches s)) as [_ Hnew].
  assert (Hat : forall k q, am_map m !! k = Some q -> exists p d, patches s !! q = Some p /\ descs s !! p_desc p = Some d).
  { intros k q E. destruct (Hf k q E) as (_ & d & Hd & _). unfold desc_of in Hd. destruct (patches s !! q) as [p|]; [|done]. by exists p, d. }
  assert (Hold : forall q, is_Some (patches s !! q) -> patches s' !! q = patches s !! q).
  { intros q [p E]. apply lookup_insert_ne. intros <-. congruence. }
  assert (Hact : forall k q, am_map m !! k = Some q -> active s' q = active s q).
  { intros k q E. destruct (Hat k q E) as (p & d & Hp & _). unfold active. by rewrite Hold by (by exists p). }
  split; [|split].
  - apply (ctx_wf_change s); [done| | |exact Hact|exact Hwf].
    + intros k q E. destruct (Hat k q E) as (p & d & Hp & Hd). unfold desc_of. rewrite Hold by (by exists p). rewrite Hp.
      cbn [mbind option_bind]. apply lookup_insert_ne. intros E'. rewrite <- E', alloc_desc_fresh in Hd. discriminate Hd.
    + intros q H. by rewrite (Hold q H).
  - intros k E. destruct (Hat k _ E) as (p & d & Hp & _). congruence.
  - intros lr. unfold fixed_patch_at. destruct (am_map m !! lr) as [q|] eqn:E; [|done]. by rewrite (Hact lr q E).
Qed.

Lemma first_objects (l : loader) (s : ctx_state) (m : arraymap) :
  load_inv l s m -> is_init l = false ->
  exists s1 m1, init_patch_sys vstray junk (snd (load_objects alloc_patch alloc_desc l s)) = Some s1 /\
    let l1 := fst (load_objects alloc_patch alloc_desc l s) in
    ctx_wf s1 m1 /\ loader_ok l1 s1 m1 /\ ctx_init s1 = true /\ helpers s1 = helpers s /\ hw s1 = hw s /\
    (forall q p, patches s1 !! q = Some p -> q <> _patch l1 -> patches s !! q = Some p) /\
    (forall k, is_Some (descs s !! k) -> is_Some (descs s1 !! k)) /\
    (forall dp, In dp (dpatch_list (pctx s1)) -> ctx_init s = true /\ In dp (dpatch_list (pctx s))) /\
    forall lr, fixed_patch_at s1 m1 lr = if ctx_init s then fixed_patch_at s m lr else 0.
Proof.
  intros [Hctx _ Hds _ _ _] Hi. set (l1 := fst _). set (s0 := snd _).
  destruct (alloc_patch_fresh (patches s)) as [Hne Hnew].
  destruct (init_patch_sys_spec s0 m) as (s1 & m1 & E & Hwf1 & Hin & Hif & Hps & Hd & Hg & Hh).
  { intros H. by apply load_objects_sound, Hctx. }
  change (ctx_init s0) with (ctx_init s) in Hif.
  exists s1, m1. split; [exact E|]. split; [exact Hwf1|]. split; [split|].
  - exists zero_patch. rewrite Hps. apply lookup_insert_eq.
  - exists zero_desc. rewrite Hd. apply lookup_insert_eq.
  - exact Hne.
  - intros k. destruct (ctx_init s) eqn:Hc.
    + destruct Hif as [-> ->]. by apply (load_objects_sound l s m (Hctx eq_refl)).
    + destruct Hif as [-> _]. by rewrite lookup_empty.
  - intros q p. rewrite Hps. change (patches s0) with (<[_patch l1 := zero_patch]> (patches s)).
    intros Hq Ep. destruct (decide (q = _patch l1)) as [|Hn]; [done|]. rewrite lookup_insert_ne in Hq by done.
    destruct (Hds q p Hq) as [d Hd']. rewrite Ep in Hd'. change (_desc l1) with (alloc_desc (descs s)) in Hd'.
    rewrite alloc_desc_fresh in Hd'. discriminate Hd'.
  - rewrite Hps, Hd. split; [done|]. split; [done|]. split; [done|]. split; [|split; [|split]].
    + intros q p Hq Hn. change (patches s0) with (<[_patch l1 := zero_patch]> (patches s)) in Hq. by rewrite lookup_insert_ne in Hq.
    + intros k [d Hk]. change (descs s0) with (<[_desc l1 := zero_desc]> (descs s)). exists d. rewrite lookup_insert_ne; [done|].
      intros <-. change (_desc l1) with (alloc_desc (descs s)) in Hk. rewrite alloc_desc_fresh in Hk. discriminate Hk.
    + intros dp. destruct (ctx_init s); [by destruct Hif as [-> _]|]. destruct Hif as [_ ->]. done.
    + intros lr. destruct (ctx_init s) eqn:Hc.
      * destruct Hif as [-> ->]. by apply (load_objects_sound l s m (Hctx eq_refl)).
      * destruct Hif as [E' _]. unfold fixed_patch_at. by rewrite E'.
Qed.

(** The step the two kinds of load share: the objects are there. *)
Lemma objects_there (l : loader) (s : ctx_state) (m : arraymap) :
  load_inv l s m ->
  exists l1 s1 m1,
    (if is_init l then Some (l, s)
     else let r := load_objects alloc_patch alloc_desc l s in s ← init_patch_sys vstray junk (snd r); Some (fst r, s)) = Some (l1, s1) /\
    is_init l1 = true /\ patch_list l1 = patch_list l /\ (is_init l = true -> _patch l1 = _patch l) /\
    ctx_wf s1 m1 /\ loader_ok l1 s1 m1 /\ ctx_init s1 = true /\ helpers s1 = helpers s /\ hw s1 = hw s /\
    (forall q p, patches s1 !! q = Some p -> q <> _patch l1 -> patches s !! q = Some p) /\
    (forall k, is_Some (descs s !! k) -> is_Some (descs s1 !! k)) /\
    (forall dp, In dp (dpatch_list (pctx s1)) -> ctx_init s = true /\ In dp (dpatch_list (pctx s))) /\
    forall lr, fixed_patch_at s1 m1 lr = if ctx_init s then fixed_patch_at s m lr else 0.
Proof.
  intros Hinv. destruct (is_init l) eqn:Hi.
  - destruct (li_init _ _ _ Hinv Hi) as [Hc Hok]. exists l, s, m. rewrite Hc. split_and!; try done. by apply (li_ctx _ _ _ Hinv).
  - destruct (first_objects l s m Hinv Hi) as (s1 & m1 & E & Hwf & Hok & Hc & Hg & Hh & H1 & H2 & H3 & H4).
    exists (fst (load_objects alloc_patch alloc_desc l s)), s1, m1. cbv zeta. rewrite E. by split_and!.
Qed.

(** The load as a whole. *)
Lemma patch_installed (locs : list Z) (l : loader) (s : ctx_state) (m : arraymap) (pid pc : Z) (pt : local_patch) :
  let a := loc pt .& not1 in
  load_inv l s m -> refs (helpers s) < 2 ^ 31 - 3 -> zget (patch_list l) pid = Some pt -> 0 <= loc pt < 0x20000000 ->
  calc_bpkt_pc (hw_mem (hw s)) a = Some pc ->
  (forall dp, ctx_init s = true -> In dp (dpatch_list (pctx s)) -> is_init l = true /\ dp_patch dp = _patch l \/ dp_inst_addr dp <> a) ->
  compilable (code pt) ->
  exists l' s' m',
    read_local_patch kstray vstray junk alloc_env malloc_vm iot alloc_patch alloc_desc REMAP_ADDR FPB_Handler past_end base locs l s pid
      = Some (_patch l', l', s') /\
    installed s' (_patch l') a (insts_of_bytes (code pt)) /\ _patch l' <> 0 /\ load_inv l' s' m' /\ is_init l' = true /\
    patch_list l' = patch_list l /\ (exists i, forall j, j <> i -> get_comp (hw s') j = get_comp (hw s) j) /\ refs (helpers s') <= refs (helpers s) + 2 /\
    (forall b, b < base \/ base + Z.of_nat Jit.JIT_BUFFER_SIZE <= b -> hw_mem (hw s') !! b = hw_mem (hw s) !! b) /\
    still_mapped (hw_mem (hw s)) (hw_mem (hw s')) /\
    forall lr, get_fixed_patch_by_lr kstray vstray s' lr = Some (if ctx_init s then fixed_patch_at s m lr else 0).
Proof.
  intros a Hinv Hr Hpt Ha Hpc Hfree Hcomp. pose proof Hinv as [_ _ Hds Hg Hhw Hmon].
  destruct (objects_there l s m Hinv) as (l1 & s1 & m1 & E & Hi1 & Hl1 & Hsame & Hwf1 & Hok1 & Hc1 & Hg1 & Hh1 & Hps1 & Hds1 & Hlist & Hfix).
  destruct (load_patch_installs l1 s1 m1 pt pc Hwf1 Hok1) as
    (s' & p' & Hload & Hinst & Hwf' & Hothers & Hps & Hpd & (d & Hd) & Hg' & Hr' & Hc' & Hhw' & Hmon' & Hout & Hmap & Hfix');
    rewrite ?Hg1, ?Hh1 in *; try done.
  { intros dp Hin. destruct (Hlist dp Hin) as [Hc Hin']. destruct (Hfree dp Hc Hin') as [[Hi Hdp] | Hdp]; [left; by rewrite Hsame|by right]. }
  exists l1, s', m1. split; [|split; [exact Hinst|split; [exact (lo_nonzero _ _ _ Hok1)|split; [|do 6 (split; [done|])]]]].
  - unfold read_local_patch. cbv zeta. pose proof (zget_Some _ _ _ Hpt). destruct (Z.ltb_spec (Z.of_nat (length (patch_list l))) pid); [lia|].
    cbv zeta in E. rewrite E. cbn [mbind option_bind]. rewrite Hl1, Hpt. cbn [mbind option_bind]. by rewrite Hload.
  - assert (Hd0 : descs_ok s').
    { intros q p Hq. rewrite Hps in Hq. rewrite Hd. destruct (decide (q = _patch l1)) as [->|Hn].
      - rewrite lookup_insert_eq in Hq. injection Hq as <-. rewrite Hpd, lookup_insert_eq. by eexists.
      - rewrite lookup_insert_ne in Hq by done. destruct (decide (_desc l1 = p_desc p)) as [->|Hnd]; [rewrite lookup_insert_eq; by eexists|].
        rewrite lookup_insert_ne by done. by apply Hds1, (Hds q), Hps1. }
    split; [done| |exact Hd0|exact Hg'|exact Hhw'|exact Hmon']. intros _. split; [by rewrite Hc'|].
    destruct Hok1 as [_ _ Hne Hno Hown]. split; [|exists d; rewrite Hd; apply lookup_insert_eq|done|done|].
    + exists p'. rewrite Hps. apply lookup_insert_eq.
    + intros q p Hq Ep. rewrite Hps in Hq. destruct (decide (q = _patch l1)) as [|Hn]; [done|]. rewrite lookup_insert_ne in Hq by done.
      by apply (Hown q p).
  - intros lr. rewrite (get_fixed_spec kstray vstray s' m1 lr Hwf'), Hfix', Hfix. reflexivity.
Qed.

(** C13: a dynamic patch of the table whose program the compiler takes is
    loaded in the configuration that ships, the first time and again, for an
    instruction in flash that no other dynamic patch is for, with the unit in
    debug monitor mode and references left to count: it is found at the
    address of its function, a comparator matches the word of that address,
    all comparators but one are as they were, and its vm runs the compiled code
    that is in the buffer; the fixed patches are found as before, memory
    outside the buffer is as it was, and the next load can rely on the same. *)
Theorem local_patch_installed (locs : list Z) (l : loader) (s : ctx_state) (m : arraymap) (pid pc : Z) (pt : local_patch) :
  let a := loc pt .& not1 in
  load_inv l s m -> refs (helpers s) < 2 ^ 31 - 3 -> zget (patch_list l) pid = Some pt -> 0 <= loc pt < 0x20000000 ->
  calc_bpkt_pc (hw_mem (hw s)) a = Some pc ->
  (forall dp, ctx_init s = true -> In dp (dpatch_list (pctx s)) -> is_init l = true /\ dp_patch dp = _patch l \/ dp_inst_addr dp <> a) ->
  compilable (code pt) ->
  exists l' s' m',
    read_local_patch kstray vstray junk alloc_env malloc_vm iot alloc_patch alloc_desc REMAP_ADDR FPB_Handler past_end base locs l s pid
      = Some (_patch l', l', s') /\
    installed s' (_patch l') a (insts_of_bytes (code pt)) /\ _patch l' <> 0 /\ load_inv l' s' m' /\ is_init l' = true /\
    patch_list l' = patch_list l /\ (exists i, forall j, j <> i -> get_comp (hw s') j = get_comp (hw s) j) /\ refs (helpers s') <= refs (helpers s) + 2 /\
    (forall b, b < base \/ base + Z.of_nat Jit.JIT_BUFFER_SIZE <= b -> hw_mem (hw s') !! b = hw_mem (hw s) !! b) /\
    still_mapped (hw_mem (hw s)) (hw_mem (hw s')) /\
    forall lr, get_fixed_patch_by_lr kstray vstray s' lr = Some (if ctx_init s then fixed_patch_at s m lr else 0).
Proof. exact (patch_installed locs l s m pid pc pt). Qed.
End Install.

(** The table has the addresses of functions, with the Thumb bit; the nodes of
    the list have those of instructions.  The search for a node to use again
    compares the two, so it never finds one: a patch for a function that has
    one already gets a node of its own behind it, and the breakpoint goes on
    to run the older patch. *)
Theorem loaded_patch_shadowed (s : ctx_state) (patch q pc : Z) (d : patch_desc) (pq : ebpf_patch) (before after : list dynamic_patch) (old : dynamic_patch) :
  let a := calc_bpkt_addr (pd_addr d) in
  desc_of s patch = Some d -> Z.even (pd_addr d) = false -> calc_bpkt_pc (hw_mem (hw s)) a = Some pc ->
  (forall dp, In dp (dpatch_list (pctx s)) -> Z.even (dp_inst_addr dp) = true) ->
  dpatch_list (pctx s) = before ++ old :: after -> Z.of_nat (length (dpatch_list (pctx s))) <= MAX_DP_NUM ->
  (forall dp, In dp before -> dp_inst_addr dp <> a) -> dp_inst_addr old = a -> dp_patch old = q ->
  patches s !! q = Some pq -> p_is_active pq = true ->
  exists s', add_dynamic_patch_to_ctx s patch = Some s' /\
    dpatch_list (pctx s') = dpatch_list (pctx s) ++ [{| dp_patch := patch; dp_inst_addr := a; dp_pc_addr := pc |}] /\
    first_active s' (fun dp => dp_inst_addr dp =? a) (dpatch_list (pctx s')) = Some q.
Proof.
  intros a Hd Hodd Hpc Heven Hl Hlen Hb Hold Hq Hpq Hact.
  assert (Hnone : kept_nodes (dpatch_list (pctx s)) (pd_addr d) = dpatch_list (pctx s)).
  { unfold kept_nodes. rewrite find_dynamic_none; [|intros dp Hin E; specialize (Heven dp Hin); congruence].
    destruct (Z.ltb_spec MAX_DP_NUM (Z.of_nat (length (dpatch_list (pctx s))))); [lia|done]. }
  eexists. split; [exact (add_dynamic_kept s patch d pc Hd Hpc)|]. cbn [pctx with_dynamic with_pctx dpatch_list]. rewrite Hnone.
  split; [done|]. rewrite Hl, <- app_assoc. rewrite first_active_skip; [|intros dp Hin; by apply Z.eqb_neq, Hb].
  cbn [app first_active]. rewrite Hold, Z.eqb_refl, Hq. cbn [patches with_dynamic with_pctx]. rewrite Hpq. cbn [mbind option_bind]. by rewrite Hact.
Qed.

Lemma test_cve_compilable (past_end : Z * Z) (base : Z) : base .& 3 = 0 -> compilable past_end base test_cve.
Proof.
  intros base_aligned. unfold compilable. cbv zeta. rewrite test_cve_decoded. split; [vm_compute; reflexivity|]. intros ext.
  destruct (test_cve_compiles past_end base base_aligned ext) as (st & Hgen & _ & Hal & Hlen). exists st. exact (conj Hgen (conj Hal Hlen)).
Qed.

(** ** Witness: the first load after the start *)

Definition boot_mem : memory :=
  bytes_at (handler_sp - JitContract.FRAME_SIZE) (replicate 112 0) (PatchPoints.stack_mem 2 [0x2d; 0xe9; 0xf0; 0x41; 0; 0; 0; 0]).
Definition boot : ctx_state :=
  mk_ctx empty_context false ∅ ∅ helpers_none
    (mk_hw {| CTRL := 0x263; REMAP := 0; COMP := replicate 6 0 |} {| cur_idx := 0; bpkt_num := 0 |} false boot_mem).
Definition boot_loader : loader :=
  {| patch_list := [{| loc := 0x08000301; code := test_cve |}]; _desc := 0; _patch := 0; is_init := false |}.

Local Abbreviation stray := (fun _ : Z => 0).
Local Abbreviation load_first := (read_local_patch stray stray stray next_address (Some garbage_vm) iot_sample fresh_address fresh_address
  0x20000000 [] (0, 0) jit_base [] boot_loader boot 0).

Lemma boot_inv : load_inv 0x20000000 boot_loader boot map_sample.
Proof.
  split; [intros [=]|intros [=]|intros q p H; cbn in H; by rewrite lookup_empty in H|intros H; by destruct H| |vm_compute; reflexivity].
  split; [done|by vm_compute|intros [=]].
Qed.

Lemma local_patch_installed_witness :
  exists l' s', load_first = Some (_patch l', l', s') /\ get_dynamic_patch_by_bpkt s' 0x08000300 = Some (_patch l').
Proof.
  destruct (local_patch_installed stray stray stray next_address (Some garbage_vm) iot_sample fresh_address fresh_address 0x20000000 [] (0, 0) jit_base
    next_address_nonzero fresh_address_ok (fun ds => proj2 (fresh_address_ok ds)) ltac:(discriminate)
    ltac:(vm_compute; split; discriminate) ltac:(left; by vm_compute) ltac:(by vm_compute)
    [] boot_loader boot map_sample 0 0x08000304 {| loc := 0x08000301; code := test_cve |} boot_inv ltac:(by vm_compute) eq_refl
    ltac:(by vm_compute) ltac:(by vm_compute) ltac:(discriminate) (test_cve_compilable (0, 0) jit_base eq_refl))
    as (l' & s' & m' & Hread & (Hget & _) & _).
  exists l', s'. split; [exact Hread|exact Hget].
Defined.
