(* ===== verification/Shipped.v ===== *)
(** * The configuration that ships, from the command to the repaired call

    The loader compiles its patches; the handler of the breakpoint calls the
    compiled code.  Together with [Install] and [Firmware]: after a patch of
    the table has been loaded, a call of the function it is for, from its
    breakpoint on, gives what the fixed function gives. *)

From S2P Require Thumb2 ThumbSem JitContract.
From S2P Require Import Jit JitPatch.
From S2P Require Import Prelude Mem EbpfInst EbpfVm Vm Hashmap Fpb FpbProps PatchCtx PatchCtxProps Dispatch DispatchProps.
From S2P Require Import Stubs StubsProps PatchPoints LocalPatch Firmware Install.

Section Compiled.
Context (past_end : Z * Z) (base : Z).
Hypothesis base_aligned : base .& 3 = 0.
(** The processor when the handler calls the compiled code. *)
Context (regs : ThumbSem.arm) (call_ext : Z -> list Z -> memory -> option (Z * memory)) (stack : Z) (reg0 : list Z).

Local Abbreviation handler_sp := (ThumbSem.a_reg regs Thumb2.ARM_SP).
Local Abbreviation compiled := (call_compiled base regs).

(** The stack of the handler, the frame of the exception, the code buffer and
    the registers of the debug system do not overlap. *)
Record placed (c : cpu) : Prop := {
  pl_call : call_ok base regs (mem_of c);
  pl_stack : forall b, JitContract.in_frame handler_sp b -> ~ in_bytes (sp_of c - 36) 36 b;
  pl_demcr : forall b, JitContract.in_frame handler_sp b -> ~ in_bytes DCB_DEMCR 4 b;
  pl_code : forall k, 0 <= k < Z.of_nat JIT_BUFFER_SIZE -> ~ in_bytes (sp_of c - 36) 36 (u32 (base + k));
  pl_dfsr : forall k, 0 <= k < Z.of_nat JIT_BUFFER_SIZE -> ~ in_bytes SCB_DFSR 4 (u32 (base + k)) }.

Lemma frame_in_stack (c : cpu) (b : Z) : 36 <= sp_of c <= 0xE0000000 -> in_bytes (exc_frame c) 32 b -> in_bytes (sp_of c - 36) 36 b.
Proof.
  intros Hsp (k & Hk & ->). pose proof (exc_frame_eq c Hsp) as Hf. exists (k + (exc_frame c - (sp_of c - 36))).
  rewrite Hf. split; [destruct (realigned c); lia|]. f_equal. lia.
Qed.


Lemma compiled_answers (c : cpu) (addr patch : Z) (p : ebpf_patch) (vm : ebpf_vm) :
  ready c -> 0 <= addr < 2 ^ 32 -> is_Some (get32 (c_st c) SCB_DFSR) ->
  patches (c_st c) !! patch = Some p -> p_vm p = Some vm -> use_jit vm = true -> jit_func vm = base .| 1 ->
  in_buffer past_end base test_cve_insts (mem_of c) -> placed c ->
  exists enough, forall fuel, (enough <= fuel)%nat ->
    answers (compiled fuel) call_ext stack reg0 addr c patch (test_cve_result (c_reg c 0)).
Proof.
  intros Hrd Hpc Hdf Hp Hvm Hj Hjf (ext & st & entry & Hgen & Hcode) [Hcall Pst Pde Pco Pdf].
  destruct (at_break_spec c addr Hrd Hpc Hdf) as (s1 & Hs1 & [m Em] & W1 & D1 & Hf & Hsame).
  pose proof (ok_sp _ _ (proj1 Hrd)) as Hsp. destruct (exc_frame_range c Hrd) as [F0 F1].
  destruct (test_cve_compiles past_end base base_aligned ext) as (st' & Hgen' & _ & _ & Hlen & _).
  assert (st' = st) as -> by (change 10 with (Z.of_nat (length test_cve_insts)) in Hgen'; congruence).
  assert (Hin : in_buffer past_end base test_cve_insts (hw_mem (hw s1))).
  { exists ext, st, entry. split; [exact Hgen|]. intros k b Hk. pose proof (zget_Some _ _ _ Hk) as Hr. rewrite Hlen in Hr.
    rewrite Hsame; [by apply Hcode|by apply Pco|by apply Pdf]. }
  assert (Hcall1 : call_ok base regs (hw_mem (hw s1))).
  { destruct Hcall as [C1 C2 C3 C4 C5 C6 C7]. split; [exact C1|exact C2|exact C3|exact W1| |exact C6|exact C7].
    intros b Hb. apply elem_of_dom. rewrite D1. apply elem_of_dom. exact (C5 b Hb). }
  assert (Hp1 : patches s1 !! patch = Some p) by (by rewrite Em).
  assert (Hload : get32 s1 (exc_frame c + ctx_r0) = Some (c_reg c 0)) by exact (frame_get32 s1 _ 8 0 _ _ Hf eq_refl).
  assert (Hclear : forall b, JitContract.in_frame handler_sp b -> ~ in_bytes (exc_frame c) 32 b).
  { intros b Hb Hi. by apply (Pst b Hb), frame_in_stack. }
  destruct (run_filter_compiled past_end base base_aligned regs call_ext stack reg0 s1 (exc_frame c) (c_reg c 0) patch p vm
    Hp1 Hvm Hj Hjf Hin Hcall1 ltac:(lia) (ok_regs _ _ (proj1 Hrd) 0 eq_refl) Hload) as (enough & m' & Hrun & D & W & M).
  { intros k Hk Hb. apply (Hclear _ Hb). exists k. split; [lia|]. unfold ctx_r0. f_equal. lia. }
  exists enough. intros fuel Hfu s1' Hs1'. rewrite Hs1 in Hs1'. injection Hs1' as <-.
  exists (with_mem s1 m'). split; [by apply Hrun|]. split; [done|]. split; [|split; [|by split]].
  - rewrite <- Hf. apply load_words_ext. intros b Hb. apply M. intros Hb'. by apply (Hclear b).
  - apply load_le_ext. intros k Hk. apply M. intros Hb. apply (Pde _ Hb). exists k. split; [lia|].
    by rewrite (u32_small DCB_DEMCR) by (unfold DCB_DEMCR; lia).
Qed.

(** ** A call of the function *)

Context (kstray vstray : Z -> Z) (FPB_Handler : list Z) (REMAP_ADDR : Z) (clobber : Z -> Z) (flags : Z) (return_to : Z -> Z).
Hypothesis return_clears : forall v, return_to v = v .& not1.
Context (handler : list asm) (first : cpu -> option (Z * cpu)) (rest : Z -> cpu -> option cpu).
Hypothesis handler_is : handler = DebugMon_Handler \/ handler = __debug_monitor.

Local Abbreviation call fuel := (call_at kstray vstray FPB_Handler REMAP_ADDR (compiled fuel) call_ext stack reg0 8 clobber flags return_to handler first rest).

(** A caller: the processor can take exceptions, the unit is on, and the
    function returns somewhere else than to its own start. *)
Record caller_ok (room addr : Z) (c : cpu) : Prop := {
  ca_cpu : cpu_ok (36 + room) c;
  ca_status : status_ok c;
  ca_placed : placed c;
  ca_unit : 0 <= CTRL (FPB (hw (c_st c))) < 2 ^ 32 /\ Z.testbit (CTRL (FPB (hw (c_st c)))) 0 = true;
  ca_dfsr : is_Some (get32 (c_st c) SCB_DFSR);
  ca_demcr : is_Some (get32 (c_st c) DCB_DEMCR);
  ca_return : c_reg c LR .& not1 <> addr }.

Lemma installed_repairs (c : cpu) (patch a room : Z) :
  let addr := a .& not1 in
  0 <= room -> computes first rest room test_dynamic_bug -> 0 <= a < 0x20000000 -> caller_ok room addr c ->
  installed past_end base (c_st c) patch addr test_cve_insts -> patch <> 0 ->
  exists enough, forall fuel, (enough <= fuel)%nat ->
  exists c', call fuel addr c = Some c' /\ s32 (c_reg c' 0) = test_dynamic_fixed (s32 (c_reg c 0)).
Proof.
  intros addr Hroom Hf Ha [Hcpu Hst Hpl [Hctrl Hon] Hdf [demcr Hde] Hret] (Hget & (i & _ & Hcomp) & p & vm & Hp & Hvm & Hj & Hjf & _ & Hin) Hne.
  assert (Haddr : 0 <= addr < 2 ^ 29).
  { unfold addr. rewrite Z.land_comm. change 0x20000000 with (2 ^ 29) in Ha. apply land_range; [lia|by vm_compute|lia]. }
  assert (Heven : addr .& not1 = addr) by (unfold addr; by rewrite <- Z.land_assoc).
  assert (Hrd : ready c) by (split; [by apply (ok_less 36 (36 + room)); [lia|]|done]).
  assert (Hdr : 0 <= demcr < 2 ^ 32) by exact (load_le_range 4 _ _ _ (ok_mem _ _ Hcpu) Hde).
  assert (H32 : 0 <= addr < 2 ^ 32) by lia.
  destruct (compiled_answers c addr patch p vm Hrd H32 Hdf Hp Hvm Hj Hjf Hin Hpl) as (enough & Hans).
  exists enough. intros fuel Hfu.
  destruct (cve_answers_repair kstray vstray FPB_Handler REMAP_ADDR (compiled fuel) call_ext stack reg0 8 clobber flags return_to return_clears
    handler handler_is first rest c addr demcr patch room Hroom Hf Hcpu Hst H32 Heven Hdf Hde Hdr Hctrl Hget Hne (Hans fuel Hfu) Hret) as (c' & Hc & R).
  exists c'. split; [exact Hc|]. rewrite R, (stops_at (hw (c_st c)) addr i Haddr Hon Hcomp). reflexivity.
Qed.
End Compiled.

(** ** From the load to the call *)

Section Loaded.
Context (kstray vstray junk : Z -> Z).
Context (alloc_env : gmap Z ebpf_helper_env -> Z) (malloc_vm : option ebpf_vm) (iot : iot_helpers).
Context (alloc_patch : gmap Z ebpf_patch -> Z) (alloc_desc : gmap Z patch_desc -> Z).
Context (REMAP_ADDR : Z) (FPB_Handler : list Z) (past_end : Z * Z) (base : Z).
Hypothesis alloc_env_nonzero : forall e, alloc_env e <> 0.
Hypothesis alloc_patch_fresh : forall ps, alloc_patch ps <> 0 /\ ps !! alloc_patch ps = None.
Hypothesis alloc_desc_fresh : forall ds, ds !! alloc_desc ds = None.
Hypothesis malloc_works : malloc_vm <> None.
Hypothesis base_aligned : base .& 3 = 0.
Hypothesis base_in_ram : 0x20000000 <= base /\ base + Z.of_nat JIT_BUFFER_SIZE <= 2 ^ 32.
Hypothesis REMAP_apart : REMAP_ADDR + 40 < base \/ base + Z.of_nat JIT_BUFFER_SIZE <= REMAP_ADDR + 40.
Hypothesis REMAP_range : 0 <= REMAP_ADDR /\ REMAP_ADDR + 40 < 2 ^ 32.
Context (regs : ThumbSem.arm) (call_ext : Z -> list Z -> memory -> option (Z * memory)) (stack : Z) (reg0 : list Z).
Context (clobber : Z -> Z) (flags : Z) (return_to : Z -> Z).
Hypothesis return_clears : forall v, return_to v = v .& not1.
Context (handler : list asm) (first : cpu -> option (Z * cpu)) (rest : Z -> cpu -> option cpu).
Hypothesis handler_is : handler = DebugMon_Handler \/ handler = __debug_monitor.

(** C3: the whole way: the entry of the table that holds test_cve is loaded,
    for the first time or again, under the conditions of
    [local_patch_installed]; then a call of the function it names, made from
    the state the load leaves by a caller whose stack has room and is apart
    from the code buffer and the registers of the debug system, gives what the
    fixed function gives, for every argument: from the event of the breakpoint
    through the handler, the compiled patch and, where it lets the function
    run, the step over its first instruction to the return. *)
Theorem loaded_patch_repairs (locs : list Z) (l : loader) (s : ctx_state) (m : arraymap) (pid pc room : Z) (pt : local_patch) :
  let addr := loc pt .& not1 in
  load_inv REMAP_ADDR l s m -> refs (helpers s) < 2 ^ 31 - 3 -> zget (patch_list l) pid = Some pt -> code pt = test_cve ->
  0 <= loc pt < 0x20000000 -> calc_bpkt_pc (hw_mem (hw s)) addr = Some pc ->
  (forall dp, ctx_init s = true -> In dp (dpatch_list (pctx s)) -> is_init l = true /\ dp_patch dp = _patch l \/ dp_inst_addr dp <> addr) ->
  0 <= room -> computes first rest room test_dynamic_bug ->
  exists l' s', read_local_patch kstray vstray junk alloc_env malloc_vm iot alloc_patch alloc_desc REMAP_ADDR FPB_Handler past_end base locs l s pid
      = Some (_patch l', l', s') /\
  forall c, c_st c = s' -> caller_ok base regs room addr c ->
  exists enough, forall fuel, (enough <= fuel)%nat ->
  exists c', call_at kstray vstray FPB_Handler REMAP_ADDR (call_compiled base regs fuel) call_ext stack reg0 8 clobber flags return_to handler
      first rest addr c = Some c' /\ s32 (c_reg c' 0) = test_dynamic_fixed (s32 (c_reg c 0)).
Proof.
  intros addr Hinv Hr Hpt Hcode Hloc Hpc Hfree Hroom Hf.
  destruct (patch_installed kstray vstray junk alloc_env malloc_vm iot alloc_patch alloc_desc REMAP_ADDR FPB_Handler past_end base
    alloc_env_nonzero alloc_patch_fresh alloc_desc_fresh malloc_works base_in_ram REMAP_apart REMAP_range locs l s m pid pc pt
    Hinv Hr Hpt Hloc Hpc Hfree) as (l' & s' & m' & Hread & Hinst & Hne & _); [rewrite Hcode; exact (test_cve_compilable past_end base base_aligned)|].
  exists l', s'. split; [exact Hread|]. intros c Hc Hca. rewrite Hcode, test_cve_decoded, <- Hc in Hinst.
  exact (installed_repairs past_end base base_aligned regs call_ext stack reg0 kstray vstray FPB_Handler REMAP_ADDR clobber flags return_to
    return_clears handler first rest handler_is c (_patch l') (loc pt) room Hroom Hf Hloc Hca Hinst Hne).
Qed.
End Loaded.

(** ** Witness: the first load after the start, and a call *)

Local Abbreviation stray := (fun _ : Z => 0).
Local Abbreviation clear := (fun v : Z => v .& not1).
Local Abbreviation load_first := (read_local_patch stray stray stray next_address (Some garbage_vm) iot_sample fresh_address fresh_address
  0x20000000 [] (0, 0) jit_base [] boot_loader boot 0).

Definition loaded : ctx_state := match load_first with Some r => snd r | None => boot end.
Definition after_load (v : Z) : cpu := Stubs.set_reg 0 v (thread loaded 0x08000555).

Lemma loaded_mapped (n : nat) (a : Z) :
  forallb (fun k => bool_decide (is_Some (hw_mem (hw loaded) !! u32 (a + Z.of_nat k)))) (seq 0 n) = true ->
  forall b, in_bytes a (Z.of_nat n) b -> is_Some (hw_mem (hw loaded) !! b).
Proof. apply room_ok. Qed.

Lemma loaded_bytes : mem_wf (hw_mem (hw loaded)).
Proof. apply (bool_decide_unpack (map_Forall (fun _ b => 0 <= b < 256) (hw_mem (hw loaded)))). vm_compute. exact I. Qed.

Lemma elsewhere (a n b c : Z) : 0 <= a -> a + n <= 2 ^ 32 -> in_bytes a n b -> c = b -> a <= c < a + n.
Proof. intros H0 H1 (k & Hk & ->) ->. rewrite u32_small; lia. Qed.

Lemma after_load_placed (v : Z) : placed jit_base handler_regs (after_load v).
Proof.
  assert (Hsp : sp_of (after_load v) - 36 = 0x20000fdc) by reflexivity.
  assert (Hh : forall b, JitContract.in_frame (ThumbSem.a_reg handler_regs Thumb2.ARM_SP) b -> 0x20000e90 <= b < 0x20000f00).
  { intros b (k & Hk & ->). change (ThumbSem.a_reg handler_regs Thumb2.ARM_SP) with handler_sp. unfold handler_sp, JitContract.FRAME_SIZE in *.
    rewrite u32_small by lia. lia. }
  assert (Hb : forall k, 0 <= k < Z.of_nat JIT_BUFFER_SIZE -> 0x20003000 <= u32 (jit_base + k) < 0x20003800).
  { change (Z.of_nat JIT_BUFFER_SIZE) with 2048. unfold jit_base. intros k Hk. rewrite u32_small by lia. lia. }
  split.
  - destruct jit_call_ok as [C1 C2 C3 _ _ C6 C7]. split; [exact C1|exact C2|exact C3|exact loaded_bytes| |exact C6|exact C7].
    intros b Hin. apply (loaded_mapped 112 (handler_sp - JitContract.FRAME_SIZE)); [vm_compute; reflexivity|exact Hin].
  - intros b H1 H2. apply Hh in H1. rewrite Hsp in H2. pose proof (elsewhere 0x20000fdc 36 b b ltac:(lia) ltac:(lia) H2 eq_refl). lia.
  - intros b H1 H2. apply Hh in H1. pose proof (elsewhere DCB_DEMCR 4 b b ltac:(by vm_compute) ltac:(by vm_compute) H2 eq_refl). unfold DCB_DEMCR in *. lia.
  - intros k Hk H2. apply Hb in Hk. rewrite Hsp in H2. pose proof (elsewhere 0x20000fdc 36 _ _ ltac:(lia) ltac:(lia) H2 eq_refl). lia.
  - intros k Hk H2. apply Hb in Hk. pose proof (elsewhere SCB_DFSR 4 _ _ ltac:(by vm_compute) ltac:(by vm_compute) H2 eq_refl). unfold SCB_DFSR in *. lia.
Qed.

Lemma after_load_ok (v : Z) : 0 <= v < 2 ^ 32 -> caller_ok jit_base handler_regs 0 0x08000300 (after_load v).
Proof.
  intros Hv. split; [| |exact (after_load_placed v)| | | |].
  - apply set_reg_ok; [|exact Hv]. split.
    + intros r. cbn. destruct (r =? LR); [done|]. destruct (Z.leb_spec 0 r), (Z.ltb_spec r 16); cbn; lia.
    + split; by vm_compute.
    + exact loaded_bytes.
    + apply (loaded_mapped 36 0x20000fdc). vm_compute. reflexivity.
    + reflexivity.
    + intros [=].
  - split_and!; vm_compute; (reflexivity || discriminate).
  - split; [split|]; by vm_compute.
  - vm_compute. eexists. reflexivity.
  - vm_compute. eexists. reflexivity.
  - vm_compute. discriminate.
Qed.

Lemma loaded_patch_repairs_witness :
  exists l', load_first = Some (_patch l', l', loaded) /\
  exists enough, forall fuel, (enough <= fuel)%nat ->
  exists c', call_at stray stray [] 0x20000000 (call_compiled jit_base handler_regs fuel) no_ext 0 [] 8 stray 0 clear __debug_monitor
      two_first two_rest 0x08000300 (after_load 3000) = Some c' /\ s32 (c_reg c' 0) = 0.
Proof.
  destruct (loaded_patch_repairs stray stray stray next_address (Some garbage_vm) iot_sample fresh_address fresh_address 0x20000000 [] (0, 0) jit_base
    next_address_nonzero fresh_address_ok (fun ds => proj2 (fresh_address_ok ds)) ltac:(discriminate) eq_refl
    ltac:(vm_compute; split; discriminate) ltac:(left; by vm_compute) ltac:(by vm_compute)
    handler_regs no_ext 0 [] stray 0 clear (fun v => eq_refl) __debug_monitor two_first two_rest (or_intror eq_refl)
    [] boot_loader boot map_sample 0 0x08000304 0 {| loc := 0x08000301; code := test_cve |} boot_inv ltac:(by vm_compute) eq_refl eq_refl
    ltac:(by vm_compute) ltac:(by vm_compute) ltac:(discriminate) (Z.le_refl 0) two_computes) as (l' & s' & Hread & H).
  assert (s' = loaded) as -> by (unfold loaded; rewrite Hread; exact eq_refl).
  exists l'. split; [exact Hread|]. exact (H (after_load 3000) eq_refl (after_load_ok 3000 ltac:(lia))).
Defined.
