(* ===== verification/CvePatches.v ===== *)
(** * The patches for two vulnerabilities (hotpatch/src/dynamic_patch_load.c,
    fixed_patch_load.c, app/dummy_cve.c)

    CVE-2020-10062: a length field of MQTT of five bytes overflows.
    CVE-2020-17445: options of length zero make the loop over them endless.
    The programs of the patches are the bytes the tables hold; the theorems
    run them by the interpreter and say what becomes of the functions they
    guard. *)

From stdpp Require Import relations.
From S2P Require Import Prelude Mem EbpfInst EbpfVm EbpfVmProps EbpfTurns Vm Hashmap Fpb FpbProps PatchCtx PatchCtxProps Dispatch DispatchProps.

#[local] Arguments u64 _ : simpl never.
#[local] Arguments wrap _ _ : simpl never.
#[local] Arguments load_le _ _ _ : simpl never.

(** ** CVE-2020-10062, the patch for the debug monitor *)

(** The bytes end with the NUL of the string literal. *)
Definition zephyr_cve_10062 : list Z :=
  [0xb7; 0x03; 0x00; 0x00; 0x01; 0x00; 0x00; 0x00; 0x61; 0x11; 0x00; 0x00; 0x00; 0x00; 0x00; 0x00; 0x79; 0x12; 0x00; 0x00; 0x00; 0x00; 0x00; 0x00;
   0x71; 0x21; 0x00; 0x00; 0x00; 0x00; 0x00; 0x00; 0x67; 0x01; 0x00; 0x00; 0x38; 0x00; 0x00; 0x00; 0xc7; 0x01; 0x00; 0x00; 0x38; 0x00; 0x00; 0x00;
   0x65; 0x01; 0x06; 0x00; 0xff; 0xff; 0xff; 0xff; 0xb7; 0x03; 0x00; 0x00; 0x02; 0x00; 0x00; 0x00; 0x71; 0x24; 0x01; 0x00; 0x00; 0x00; 0x00; 0x00;
   0x67; 0x04; 0x00; 0x00; 0x38; 0x00; 0x00; 0x00; 0xc7; 0x04; 0x00; 0x00; 0x38; 0x00; 0x00; 0x00; 0xb7; 0x05; 0x00; 0x00; 0x00; 0x00; 0x00; 0x00;
   0x6d; 0x45; 0x1d; 0x00; 0x00; 0x00; 0x00; 0x00; 0x57; 0x01; 0x00; 0x00; 0x7f; 0x00; 0x00; 0x00; 0x55; 0x03; 0x0a; 0x00; 0x01; 0x00; 0x00; 0x00;
   0x18; 0x02; 0x00; 0x00; 0xea; 0xff; 0xff; 0xff; 0x00; 0x00; 0x00; 0x00; 0x00; 0x00; 0x00; 0x00; 0x25; 0x01; 0x01; 0x00; 0xff; 0xff; 0xff; 0x0f;
   0xb7; 0x02; 0x00; 0x00; 0x00; 0x00; 0x00; 0x00; 0xb7; 0x00; 0x00; 0x00; 0x01; 0x00; 0x00; 0x00; 0x25; 0x01; 0x01; 0x00; 0xff; 0xff; 0xff; 0x0f;
   0xb7; 0x00; 0x00; 0x00; 0x00; 0x00; 0x00; 0x00; 0x67; 0x00; 0x00; 0x00; 0x20; 0x00; 0x00; 0x00; 0x4f; 0x20; 0x00; 0x00; 0x00; 0x00; 0x00; 0x00;
   0x95; 0x00; 0x00; 0x00; 0x00; 0x00; 0x00; 0x00; 0x71; 0x24; 0x01; 0x00; 0x00; 0x00; 0x00; 0x00; 0x57; 0x04; 0x00; 0x00; 0x7f; 0x00; 0x00; 0x00;
   0x67; 0x04; 0x00; 0x00; 0x07; 0x00; 0x00; 0x00; 0x4f; 0x14; 0x00; 0x00; 0x00; 0x00; 0x00; 0x00; 0xbf; 0x41; 0x00; 0x00; 0x00; 0x00; 0x00; 0x00;
   0x15; 0x03; 0xf0; 0xff; 0x02; 0x00; 0x00; 0x00; 0x71; 0x21; 0x02; 0x00; 0x00; 0x00; 0x00; 0x00; 0x57; 0x01; 0x00; 0x00; 0x7f; 0x00; 0x00; 0x00;
   0x67; 0x01; 0x00; 0x00; 0x0e; 0x00; 0x00; 0x00; 0x4f; 0x41; 0x00; 0x00; 0x00; 0x00; 0x00; 0x00; 0x15; 0x03; 0xeb; 0xff; 0x03; 0x00; 0x00; 0x00;
   0x71; 0x22; 0x03; 0x00; 0x00; 0x00; 0x00; 0x00; 0x57; 0x02; 0x00; 0x00; 0x7f; 0x00; 0x00; 0x00; 0x67; 0x02; 0x00; 0x00; 0x15; 0x00; 0x00; 0x00;
   0x4f; 0x12; 0x00; 0x00; 0x00; 0x00; 0x00; 0x00; 0xbf; 0x21; 0x00; 0x00; 0x00; 0x00; 0x00; 0x00; 0x05; 0x00; 0xe5; 0xff; 0x00; 0x00; 0x00; 0x00;
   0xb7; 0x03; 0x00; 0x00; 0x03; 0x00; 0x00; 0x00; 0x71; 0x24; 0x02; 0x00; 0x00; 0x00; 0x00; 0x00; 0x67; 0x04; 0x00; 0x00; 0x38; 0x00; 0x00; 0x00;
   0xc7; 0x04; 0x00; 0x00; 0x38; 0x00; 0x00; 0x00; 0x65; 0x04; 0xde; 0xff; 0xff; 0xff; 0xff; 0xff; 0xb7; 0x03; 0x00; 0x00; 0x04; 0x00; 0x00; 0x00;
   0x71; 0x24; 0x03; 0x00; 0x00; 0x00; 0x00; 0x00; 0x67; 0x04; 0x00; 0x00; 0x38; 0x00; 0x00; 0x00; 0xc7; 0x04; 0x00; 0x00; 0x38; 0x00; 0x00; 0x00;
   0x65; 0x04; 0xd9; 0xff; 0xff; 0xff; 0xff; 0xff; 0x18; 0x00; 0x00; 0x00; 0xea; 0xff; 0xff; 0xff; 0x00; 0x00; 0x00; 0x00; 0x01; 0x00; 0x00; 0x00;
   0x71; 0x24; 0x04; 0x00; 0x00; 0x00; 0x00; 0x00; 0x67; 0x04; 0x00; 0x00; 0x38; 0x00; 0x00; 0x00; 0xc7; 0x04; 0x00; 0x00; 0x38; 0x00; 0x00; 0x00;
   0xb7; 0x03; 0x00; 0x00; 0x01; 0x00; 0x00; 0x00; 0x65; 0x04; 0xdd; 0xff; 0xff; 0xff; 0xff; 0xff; 0x05; 0x00; 0xd1; 0xff; 0x00; 0x00; 0x00; 0x00;
   0x00].

Definition zephyr_cve_10062_insts : list ebpf_inst := Eval vm_compute in insts_of_bytes zephyr_cve_10062.

Lemma zephyr_cve_10062_decoded : insts_of_bytes zephyr_cve_10062 = zephyr_cve_10062_insts.
Proof. vm_compute. reflexivity. Qed.

(** ** Bytes and their continuation bit *)

Definition continues (b : Z) : bool := 128 <=? b.

Lemma sext_byte (b : Z) : 0 <= b < 256 -> u64 (s64 (wrap 64 (b << 56)) >> 56) = u64 (s8 b).
Proof. intros Hb. apply Z.eqb_eq. revert b Hb. apply byte_cases. vm_compute. reflexivity. Qed.

Lemma byte_not_negative (b : Z) : 0 <= b < 256 -> (-1 <? s64 (u64 (s8 b))) = negb (continues b).
Proof. intros Hb. apply eqb_prop. revert b Hb. apply byte_cases. vm_compute. reflexivity. Qed.

Lemma byte_negative (b : Z) : 0 <= b < 256 -> (s64 (u64 (s8 b)) <? s64 0) = continues b.
Proof. intros Hb. apply eqb_prop. revert b Hb. apply byte_cases. vm_compute. reflexivity. Qed.

Lemma byte_low (b : Z) : 0 <= b < 256 -> u64 (s8 b) .& 127 = b mod 128.
Proof. intros Hb. apply Z.eqb_eq. revert b Hb. apply byte_cases. vm_compute. reflexivity. Qed.

Lemma byte_low' (b : Z) : 0 <= b < 256 -> b .& 127 = b mod 128.
Proof. intros Hb. apply Z.eqb_eq. revert b Hb. apply byte_cases. vm_compute. reflexivity. Qed.

Lemma part_range (b n : Z) : 0 <= b < 256 -> 0 <= n <= 21 -> 0 <= wrap 64 ((b .& 127) << n) < 2 ^ 28.
Proof.
  intros Hb Hn. rewrite byte_low' by done. pose proof (Z.mod_pos_bound b 128 ltac:(lia)). rewrite Z.shiftl_mul_pow2 by lia.
  assert (0 < 2 ^ n <= 2 ^ 21) by (split; [apply Z.pow_pos_nonneg; lia|apply Z.pow_le_mono_r; lia]).
  assert (b mod 128 * 2 ^ n <= 127 * 2 ^ 21) by (apply Z.mul_le_mono_nonneg; lia).
  assert (0 <= b mod 128 * 2 ^ n) by (apply Z.mul_nonneg_nonneg; lia).
  set (x := b mod 128 * 2 ^ n) in *. clearbody x. rewrite wrap_small; lia.
Qed.

Lemma low_range (b : Z) : 0 <= b mod 128 < 2 ^ 28.
Proof. pose proof (Z.mod_pos_bound b 128). lia. Qed.

Ltac length_range := repeat (apply lor_range; [lia|..]); first [apply low_range|apply part_range; (done || lia)].

Section Run10062.
Context (ce : Z -> list Z -> memory -> option (Z * memory)) (en : exec_env) (m : memory).
Hypothesis no_check : e_bounds_check_enabled en = false.
Hypothesis prog : e_insts en = zephyr_cve_10062_insts.

(** The last part: the length is compared with the greatest one. *)
Lemma cve_10062_accepts (n : nat) (L a0 a2 a3 a4 a5 a6 a7 a8 a9 a10 a11 : Z) :
  0 <= L < 2 ^ 28 -> (8 <= n)%nat -> run_result ce en n (mk_state 17 [a0; L; a2; a3; a4; a5; a6; a7; a8; a9; a10; a11] m) (Returned 0 m).
Proof.
  intros HL Hn. replace n with (8 + (n - 8))%nat by lia. cbn [Nat.add]. branch prog false ltac:(destruct (Z.ltb_spec 268435455 L); [lia|done]). turns prog.
  branch prog false ltac:(destruct (Z.ltb_spec 268435455 L); [lia|done]). turns prog.
  eapply (exit_returns ce en); [by_prog prog|reflexivity|reflexivity].
Qed.
(** From the end of the search for the last byte, [k] bytes in all. *)
Context (w b0 b1 b2 b3 : Z).
Hypothesis H0 : load_le 1 (u32 (w + 0)) m = Some b0.
Hypothesis H1 : load_le 1 (u32 (w + 1)) m = Some b1.
Hypothesis H2 : load_le 1 (u32 (w + 2)) m = Some b2.
Hypothesis H3 : load_le 1 (u32 (w + 3)) m = Some b3.
Hypothesis R0 : 0 <= b0 < 256.
Hypothesis R1 : 0 <= b1 < 256.
Hypothesis R2 : 0 <= b2 < 256.
Hypothesis R3 : 0 <= b3 < 256.

Lemma cve_10062_counts (n : nat) (k a0 a4 a5 a6 a7 a8 a9 a10 a11 : Z) :
  1 <= k <= 4 -> (30 <= n)%nat -> run_result ce en n (mk_state 13 [a0; u64 (s8 b0); w; k; a4; a5; a6; a7; a8; a9; a10; a11] m) (Returned 0 m).
Proof.
  intros Hk Hn. replace n with (30 + (n - 30))%nat by lia. cbn [Nat.add].
  assert (k = 1 \/ k = 2 \/ k = 3 \/ k = 4) as [-> | [-> | [-> | ->]]] by lia; turns prog; rewrite byte_low by done.
  - apply cve_10062_accepts; [length_range|lia].
  - load prog no_check H1. turns prog. apply cve_10062_accepts; [length_range|lia].
  - load prog no_check H1. turns prog. load prog no_check H2. turns prog. apply cve_10062_accepts; [length_range|lia].
  - load prog no_check H1. turns prog. load prog no_check H2. turns prog. load prog no_check H3. turns prog.
    apply cve_10062_accepts; [length_range|lia].
Qed.

(** The result: DROP with -EINVAL when the fifth byte is the last one. *)
Definition cve_10062_result (b0 b1 b2 b3 b4 : Z) : Z :=
  if continues b0 && continues b1 && continues b2 && continues b3 && negb (continues b4) then (1 << 32) .| u32 (-22) else 0.

Lemma cve_10062_run (reg0 : list Z) (buf b4 : Z) :
  length reg0 = 12%nat -> load_le 4 (u32 (e_mem en + 0)) m = Some buf -> load_le 8 (u32 (buf + 0)) m = Some w ->
  load_le 1 (u32 (w + 4)) m = Some b4 -> 0 <= b4 < 256 ->
  ebpf_vm_exec ce en reg0 m = Returned (cve_10062_result b0 b1 b2 b3 b4) m.
Proof.
  intros Hlen Hbuf Hw H4 R4. do 12 (destruct reg0 as [|? reg0]; [done|]). destruct reg0; [clear Hlen|done].
  eapply (exec_of_run ce en 80); [reflexivity|unfold MAX_ITERS; lia|]. unfold init_state; cbn [insert list_insert].
  turns prog. load prog no_check Hbuf. load prog no_check Hw. load prog no_check H0. turns prog. rewrite sext_byte by done.
  unfold cve_10062_result. destruct (continues b0) eqn:C0; cbn [andb];
    [|branch prog true ltac:(by rewrite byte_not_negative, C0); apply cve_10062_counts; lia].
  branch prog false ltac:(by rewrite byte_not_negative, C0). turns prog. load prog no_check H1. turns prog. rewrite sext_byte by done.
  destruct (continues b1) eqn:C1; cbn [andb];
    [|branch prog false ltac:(by rewrite byte_negative, C1); apply cve_10062_counts; lia].
  branch prog true ltac:(by rewrite byte_negative, C1). turns prog. load prog no_check H2. turns prog. rewrite sext_byte by done.
  destruct (continues b2) eqn:C2; cbn [andb];
    [|branch prog true ltac:(by rewrite byte_not_negative, C2); apply cve_10062_counts; lia].
  branch prog false ltac:(by rewrite byte_not_negative, C2). turns prog. load prog no_check H3. turns prog. rewrite sext_byte by done.
  destruct (continues b3) eqn:C3; cbn [andb];
    [|branch prog true ltac:(by rewrite byte_not_negative, C3); apply cve_10062_counts; lia].
  branch prog false ltac:(by rewrite byte_not_negative, C3). turns prog. load prog no_check H4. turns prog. rewrite sext_byte by done.
  destruct (continues b4) eqn:C4; cbn [negb].
  - branch prog false ltac:(by rewrite byte_not_negative, C4). turns prog. rewrite byte_low by done.
    apply cve_10062_accepts; [length_range|lia].
  - branch prog true ltac:(by rewrite byte_not_negative, C4). eapply (exit_returns ce en); [by_prog prog|reflexivity|reflexivity].
Qed.
End Run10062.

(** ** The function CVE-2020-10062 is in *)

(** The bytes are those from [buf->cur] to [buf->end]. *)
Definition dynamic_patch_dummy_cve1 (bytes : list Z) : decoded := mqtt_decode bytes 0 0 0.

(** The length field as the protocol defines it: seven bits to a byte, the
    lowest first, in at most [n] bytes. *)
Fixpoint mqtt_length (n : nat) (bytes : list Z) : option Z :=
  match n, bytes with
  | S n, b :: rest => if continues b then l ← mqtt_length n rest; Some (b mod 128 + 128 * l) else Some b
  | _, _ => None
  end.

Lemma mqtt_length_range (n : nat) (bytes : list Z) (l : Z) :
  Forall (fun b => 0 <= b < 256) bytes -> mqtt_length n bytes = Some l -> 0 <= l < 128 ^ Z.of_nat n.
Proof.
  intros Hb. revert l bytes Hb. induction n as [|n IH]; intros l bytes Hb; [done|].
  destruct Hb as [|b bytes Hb Hbs]; [done|]. cbn [mqtt_length]. unfold continues.
  replace (Z.of_nat (S n)) with (1 + Z.of_nat n) by lia. rewrite Z.pow_add_r by lia. change (128 ^ 1) with 128.
  assert (0 < 128 ^ Z.of_nat n) by (apply Z.pow_pos_nonneg; lia).
  destruct (Z.leb_spec 128 b); [|intros [= <-]; lia].
  destruct (mqtt_length n bytes) as [l'|] eqn:E; [|done]. cbn [mbind option_bind]. intros [= <-].
  specialize (IH _ _ Hbs E). pose proof (Z.mod_pos_bound b 128 ltac:(lia)). lia.
Qed.

(** The loop of the decoder against the definition: it follows it for [k]
    bytes, and goes on when none of them is the last. *)
Lemma mqtt_decode_length (k : nat) : forall (bytes : list Z) (c len : Z),
  Forall (fun b => 0 <= b < 256) bytes -> c + Z.of_nat k = 4 -> 0 <= c -> 0 <= len < 2 ^ (7 * c) ->
  match mqtt_length k bytes with
  | Some n => mqtt_decode bytes (7 * c) c len = Decoded 0 (len + n * 2 ^ (7 * c))
  | None => exists len', mqtt_decode bytes (7 * c) c len = mqtt_decode (drop k bytes) (7 * (c + Z.of_nat (length (take k bytes)))) (c + Z.of_nat (length (take k bytes))) len'
              /\ Forall (fun b => continues b = true) (take k bytes)
  end.
Proof.
  induction k as [|k IH]; intros bytes c len Hb Hc Hc0 Hlen.
  { cbn [mqtt_length take drop length]. exists len. rewrite Z.add_0_r. by split. }
  destruct Hb as [|b bytes Hb Hbs].
  { cbn [mqtt_length take drop length]. exists len. rewrite Z.add_0_r. by split. }
  assert (0 < 2 ^ (7 * c) <= 2 ^ 21) as Hpow by (split; [apply Z.pow_pos_nonneg; lia|apply Z.pow_le_mono_r; lia]).
  assert (forall x, 0 <= x < 128 -> u32 (len + u32 (x << (7 * c))) = len + x * 2 ^ (7 * c)) as Hstep.
  { intros x Hx. rewrite Z.shiftl_mul_pow2 by lia.
    assert (0 <= x * 2 ^ (7 * c) <= 127 * 2 ^ 21) by (split; [apply Z.mul_nonneg_nonneg|apply Z.mul_le_mono_nonneg]; lia).
    rewrite (u32_small (x * _)), u32_small by lia. done. }
  cbn [mqtt_length take drop length mqtt_decode]. destruct (Z.ltb_spec 4 c); [lia|]. destruct (Z.leb_spec 32 (7 * c)); [lia|].
  rewrite land_80, land_7f by lia. unfold continues at 1. pose proof (Z.mod_pos_bound b 128 ltac:(lia)) as Hm.
  destruct (Z.ltb_spec b 128), (Z.leb_spec 128 b); try lia; cbn [negb].
  - rewrite Hstep, Z.mod_small by lia. done.
  - rewrite !u8_small by lia. replace (7 * c + 7) with (7 * (c + 1)) by lia. rewrite Hstep by lia.
    assert (2 ^ (7 * (c + 1)) = 128 * 2 ^ (7 * c)) as Hp2.
    { replace (7 * (c + 1)) with (7 + 7 * c) by lia. rewrite Z.pow_add_r by lia. reflexivity. }
    specialize (IH bytes (c + 1) (len + b mod 128 * 2 ^ (7 * c)) Hbs ltac:(lia) ltac:(lia) ltac:(nia)).
    destruct (mqtt_length k bytes) as [l|]; cbn [mbind option_bind].
    + rewrite IH, Hp2. f_equal. lia.
    + destruct IH as (len' & -> & Hall). exists len'. replace (c + 1 + _) with (c + Z.of_nat (S (length (take k bytes)))) by lia.
      split; [done|]. constructor; [|done]. unfold continues. by apply Z.leb_le.
Qed.

(** What the patch decides, on the bytes of the buffer: [bytes] up to its end,
    and those after it that the patch reads too. *)
Definition cve_10062_verdict (five : list Z) : Z :=
  match five with
  | b0 :: b1 :: b2 :: b3 :: b4 :: _ => cve_10062_result b0 b1 b2 b3 b4
  | _ => 0
  end.

Lemma cve1_dropped (bytes beyond : list Z) :
  (5 <= length (bytes ++ beyond))%nat -> cve_10062_verdict (bytes ++ beyond) <> 0 ->
  cve_10062_verdict (bytes ++ beyond) = (1 << 32) .| u32 (-22) /\ mqtt_length 4 bytes = None.
Proof.
  intros Hlen Hv. destruct (bytes ++ beyond) as [|b0 [|b1 [|b2 [|b3 [|b4 rest]]]]] eqn:E; cbn [length] in Hlen; try lia.
  cbn [cve_10062_verdict] in *. unfold cve_10062_result in *.
  destruct (continues b0) eqn:C0, (continues b1) eqn:C1, (continues b2) eqn:C2, (continues b3) eqn:C3; cbn [andb] in *; try done.
  destruct (continues b4); [done|]. split; [done|].
  repeat (destruct bytes as [|? bytes]; [cbn [mqtt_length]; rewrite ?C0, ?C1, ?C2, ?C3; done|]; injection E as -> E).
  cbn [mqtt_length]. by rewrite C0, C1, C2, C3.
Qed.

Lemma cve1_passed (bytes beyond : list Z) :
  Forall (fun b => 0 <= b < 256) bytes -> (5 <= length (bytes ++ beyond))%nat -> cve_10062_verdict (bytes ++ beyond) = 0 ->
  match mqtt_length 4 bytes with
  | Some n => dynamic_patch_dummy_cve1 bytes = Decoded 0 n
  | None => exists l, dynamic_patch_dummy_cve1 bytes = Decoded (-1) l
  end.
Proof.
  intros Hb Hlen Hv. unfold dynamic_patch_dummy_cve1. pose proof (mqtt_decode_length 4 bytes 0 0 Hb ltac:(lia) ltac:(lia) ltac:(lia)) as H.
  change (7 * 0) with 0 in H. destruct (mqtt_length 4 bytes) as [n|]; [rewrite H; f_equal; change (2 ^ 0) with 1; lia|].
  destruct H as (l & -> & Hall). destruct (decide (length bytes <= 4)%nat) as [Hs|Hs].
  - rewrite (drop_ge bytes 4) by lia. exists l. cbn [mqtt_decode]. by destruct (4 <? _).
  - destruct bytes as [|b0 [|b1 [|b2 [|b3 [|b4 rest]]]]]; cbn [length] in Hs; try lia.
    cbn [take drop length app cve_10062_verdict] in *.
    inversion_clear Hall as [|? ? C0 Hall1]. inversion_clear Hall1 as [|? ? C1 Hall2]. inversion_clear Hall2 as [|? ? C2 Hall3].
    inversion_clear Hall3 as [|? ? C3 _]. unfold cve_10062_result in Hv. rewrite C0, C1, C2, C3 in Hv. cbn [andb] in Hv.
    destruct (continues b4) eqn:C4; [|done]. unfold continues in C4. apply Z.leb_le in C4.
    change (7 * (0 + Z.of_nat 4)) with 28. change (0 + Z.of_nat 4) with 4. cbn [mqtt_decode]. change (4 <? 4) with false. change (32 <=? 28) with false.
    cbv iota zeta. rewrite land_80 by (repeat apply Forall_cons_1 in Hb as [? Hb]; done). destruct (Z.ltb_spec b4 128); [lia|]. cbn [negb].
    change (u8 (4 + 1)) with 5. destruct rest; cbn [mqtt_decode]; change (4 <? 5) with true; by eexists.
Qed.

(** *** The patched function *)

(** What a call returns when the debug monitor stops it at its first
    instruction; [length] is what the pointer it is given refers to. *)
Definition cve1_call (skip : bool) (s' : ctx_state) (ctx length : Z) (bytes : list Z) : option decoded :=
  if skip then r0 ← get32 s' (ctx + ctx_r0); Some (Decoded (s32 r0) length) else Some (dynamic_patch_dummy_cve1 bytes).

(** A buffer in memory: the struct at [buf], and its first five bytes. *)
Definition buffer_at (s : ctx_state) (buf : Z) (five : list Z) : Prop :=
  exists cur end_, get32 s buf = Some cur /\ 0 <= cur < 2 ^ 32 /\ get32 s (buf + 4) = Some end_ /\
    forall k, 0 <= k < 5 -> load_le 1 (cur + k) (hw_mem (hw s)) = zget five k.

Lemma struct_word (s : ctx_state) (buf cur end_ : Z) :
  get32 s buf = Some cur -> get32 s (buf + 4) = Some end_ -> load_le 8 (u32 (buf + 0)) (hw_mem (hw s)) = Some (cur .| (end_ << 32)).
Proof.
  unfold get32. rewrite !load_le_u32, Z.add_0_r. intros Hc He.
  exact (load_le_app 4 4 buf cur end_ _ Hc He).
Qed.

Lemma low_word (cur end_ k : Z) : 0 <= cur < 2 ^ 32 -> u32 (cur .| (end_ << 32) + k) = u32 (cur + k).
Proof.
  intros Hc. unfold u32. rewrite <- (wrap_add_l 32 (cur .| _)). do 2 f_equal.
  apply Z.bits_inj'. intros i Hi. rewrite testbit_wrap, Z.lor_spec, Z.shiftl_spec by lia.
  destruct (Z.ltb_spec i 32); cbn [andb].
  - by rewrite (Z.testbit_neg_r end_) by lia; rewrite orb_false_r.
  - symmetry. by apply (testbit_above 32).
Qed.

Section Repair10062.
Context (call_jit : Z -> Z -> Z -> memory -> option (Z * memory)) (call_ext : Z -> list Z -> memory -> option (Z * memory)).
Context (stack : Z) (reg0 : list Z).
Hypothesis reg0_length : length reg0 = 12%nat.

Lemma run_filter_cve_10062 (s : ctx_state) (ctx buf patch : Z) (five : list Z) (p : ebpf_patch) (vm : ebpf_vm) (e : ebpf_helper_env) :
  patches s !! patch = Some p -> p_vm p = Some vm -> use_jit vm = false -> bounds_check_enabled vm = false ->
  insts vm = Some (insts_of_bytes zephyr_cve_10062) -> helper_envs (helpers s) !! helper_func vm = Some e ->
  get32 s (ctx + ctx_r0) = Some buf -> buffer_at s buf five -> Forall (fun b => 0 <= b < 256) five -> (5 <= length five)%nat ->
  exists s1, run_filter call_jit call_ext stack reg0 s patch ctx sizeof_ebpf_args_frame = Some (cve_10062_verdict five, s1)
    /\ forall a, get32 s1 a = get32 s a.
Proof.
  intros Hp Hvm Hj Hb Hi He Hr0 (cur & end_ & Hcur & Hrange & Hend & Hbytes) Hf Hlen.
  apply (run_filter_interpreted call_jit call_ext stack reg0 s ctx _ patch (cve_10062_verdict five) p vm e (insts_of_bytes zephyr_cve_10062)); try done.
  destruct five as [|b0 [|b1 [|b2 [|b3 [|b4 rest]]]]]; cbn [length] in Hlen; try lia.
  repeat match goal with H : Forall _ (_ :: _) |- _ => apply Forall_cons_1 in H as [? H] end.
  assert (forall k b, 0 <= k < 5 -> zget (b0 :: b1 :: b2 :: b3 :: b4 :: rest) k = Some b ->
    load_le 1 (u32 (cur .| (end_ << 32) + k)) (hw_mem (hw s)) = Some b) as Hload.
  { intros k b Hk Hz. rewrite low_word, load_le_u32 by done. rewrite Hbytes by done. exact Hz. }
  refine (cve_10062_run call_ext _ (hw_mem (hw s)) _ _ (cur .| (end_ << 32)) b0 b1 b2 b3 _ _ _ _ _ _ _ _ reg0 buf b4 reg0_length _ _ _ _);
    try done; try (apply Hload; [lia|reflexivity]).
  by apply struct_word.
Qed.

(** The program of the patch for CVE-2020-10062, run by the interpreter
    from the breakpoint of the debug monitor, repairs the decoder on every
    buffer of which five bytes can be read: a call succeeds exactly on those
    that start with a length field as the protocol defines it, of at most four
    bytes, and stores its value; on every other buffer it returns an error. *)
Theorem cve_10062_repairs (s : ctx_state) (ctx buf length_ pc lr patch : Z) (bytes beyond : list Z)
    (p : ebpf_patch) (vm : ebpf_vm) (e : ebpf_helper_env) :
  get32 s (ctx + ctx_pc) = Some pc -> get_dynamic_patch_by_bpkt s pc = Some patch -> patch <> 0 ->
  patches s !! patch = Some p -> p_vm p = Some vm -> use_jit vm = false -> bounds_check_enabled vm = false ->
  insts vm = Some (insts_of_bytes zephyr_cve_10062) -> helper_envs (helpers s) !! helper_func vm = Some e ->
  get32 s (ctx + ctx_r0) = Some buf -> buffer_at s buf (bytes ++ beyond) ->
  Forall (fun b => 0 <= b < 256) (bytes ++ beyond) -> (5 <= length (bytes ++ beyond))%nat ->
  get32 s (ctx + ctx_lr) = Some lr -> 0 <= lr < 2 ^ 32 ->
  apart (ctx + ctx_r0) (ctx + ctx_lr) -> apart (ctx + ctx_pc) (ctx + ctx_r0) ->
  exists skip s', run_patch_here call_jit call_ext stack reg0 s ctx = Some (skip, s') /\
  (skip = true -> get32 s' (ctx + ctx_pc) = Some lr) /\
  match mqtt_length 4 bytes with
  | Some n => cve1_call skip s' ctx length_ bytes = Some (Decoded 0 n) /\ 0 <= n < 2 ^ 28
  | None => exists ret l, cve1_call skip s' ctx length_ bytes = Some (Decoded ret l) /\ ret < 0
  end.
Proof.
  intros Hpc Hget Hne Hp Hvm Hj Hb Hi He Hr0 Hbuf Hf Hlen Hlr Hlrr Ha1 Ha2.
  destruct (run_filter_cve_10062 s ctx buf patch _ p vm e Hp Hvm Hj Hb Hi He Hr0 Hbuf Hf Hlen) as (s1 & Hfilter & Hsame).
  apply Forall_app in Hf as [Hf _].
  assert (forall v, cve_10062_verdict (bytes ++ beyond) = v -> v = 0 \/ v = (1 << 32) .| u32 (-22)) as Hcases.
  { intros v <-. destruct (Z.eq_dec (cve_10062_verdict (bytes ++ beyond)) 0) as [|Hv]; [by left|right]. by apply cve1_dropped. }
  assert (u32 (cve_10062_verdict (bytes ++ beyond) >> 32) <> FILTER_REDIRECT) as Hop by (by destruct (Hcases _ eq_refl) as [-> | ->]).
  destruct (run_here_verdict call_jit call_ext stack reg0 s s1 ctx pc lr patch _ Hpc Hget Hne Hfilter Hop
    ltac:(by rewrite Hsame) Hlrr ltac:(rewrite Hsame, Hr0; by eexists) ltac:(rewrite Hsame, Hpc; by eexists) Ha1 Ha2) as (skip & s' & Hrun & Hverdict).
  exists skip, s'. split; [exact Hrun|]. clear Hrun.
  destruct (Z.eq_dec (cve_10062_verdict (bytes ++ beyond)) 0) as [Hv|Hv].
  - rewrite Hv in Hverdict. destruct Hverdict as [-> ->]. split; [done|]. pose proof (cve1_passed bytes beyond Hf Hlen Hv) as H.
    cbn [cve1_call]. destruct (mqtt_length 4 bytes) as [n|] eqn:En; [|destruct H as (l & ->); by exists (-1), l].
    rewrite H. split; [done|]. exact (mqtt_length_range 4 bytes n Hf En).
  - destruct (cve1_dropped bytes beyond Hlen Hv) as [Ev Em]. rewrite Ev in Hverdict. destruct Hverdict as (-> & H0 & H1 & _).
    split; [done|]. rewrite Em. cbn [cve1_call]. rewrite H0. by exists (-22), length_.
Qed.
End Repair10062.

(** ** CVE-2020-10062, the patch for the fixed patch point *)

Definition zephyr_cve_10062_fixed : list Z :=
  [0xb7; 0x06; 0x00; 0x00; 0x00; 0x00; 0x00; 0x00; 0xb7; 0x04; 0x00; 0x00; 0x01; 0x00; 0x00; 0x00; 0x61; 0x11; 0x00; 0x00; 0x00; 0x00; 0x00; 0x00;
   0x79; 0x12; 0x00; 0x00; 0x00; 0x00; 0x00; 0x00; 0x71; 0x21; 0x00; 0x00; 0x00; 0x00; 0x00; 0x00; 0x67; 0x01; 0x00; 0x00; 0x38; 0x00; 0x00; 0x00;
   0xc7; 0x01; 0x00; 0x00; 0x38; 0x00; 0x00; 0x00; 0xb7; 0x03; 0x00; 0x00; 0x00; 0x00; 0x00; 0x00; 0x65; 0x01; 0x07; 0x00; 0xff; 0xff; 0xff; 0xff;
   0xb7; 0x06; 0x00; 0x00; 0x01; 0x00; 0x00; 0x00; 0x71; 0x25; 0x01; 0x00; 0x00; 0x00; 0x00; 0x00; 0x67; 0x05; 0x00; 0x00; 0x38; 0x00; 0x00; 0x00;
   0xc7; 0x05; 0x00; 0x00; 0x38; 0x00; 0x00; 0x00; 0xb7; 0x04; 0x00; 0x00; 0x00; 0x00; 0x00; 0x00; 0xb7; 0x03; 0x00; 0x00; 0x01; 0x00; 0x00; 0x00;
   0x6d; 0x54; 0x33; 0x00; 0x00; 0x00; 0x00; 0x00; 0x57; 0x01; 0x00; 0x00; 0x7f; 0x00; 0x00; 0x00; 0x55; 0x04; 0x29; 0x00; 0x00; 0x00; 0x00; 0x00;
   0xb7; 0x04; 0x00; 0x00; 0x07; 0x00; 0x00; 0x00; 0xb7; 0x05; 0x00; 0x00; 0x01; 0x00; 0x00; 0x00; 0xbf; 0x30; 0x00; 0x00; 0x00; 0x00; 0x00; 0x00;
   0x57; 0x00; 0x00; 0x00; 0x01; 0x00; 0x00; 0x00; 0x55; 0x06; 0x1b; 0x00; 0x00; 0x00; 0x00; 0x00; 0xb7; 0x05; 0x00; 0x00; 0x00; 0x00; 0x00; 0x00;
   0xb7; 0x04; 0x00; 0x00; 0x07; 0x00; 0x00; 0x00; 0x57; 0x03; 0x00; 0x00; 0x02; 0x00; 0x00; 0x00; 0xbf; 0x27; 0x00; 0x00; 0x00; 0x00; 0x00; 0x00;
   0x0f; 0x57; 0x00; 0x00; 0x00; 0x00; 0x00; 0x00; 0x71; 0x76; 0x02; 0x00; 0x00; 0x00; 0x00; 0x00; 0x57; 0x06; 0x00; 0x00; 0x7f; 0x00; 0x00; 0x00;
   0xbf; 0x48; 0x00; 0x00; 0x00; 0x00; 0x00; 0x00; 0x07; 0x08; 0x00; 0x00; 0x07; 0x00; 0x00; 0x00; 0x67; 0x08; 0x00; 0x00; 0x20; 0x00; 0x00; 0x00;
   0x77; 0x08; 0x00; 0x00; 0x20; 0x00; 0x00; 0x00; 0x6f; 0x86; 0x00; 0x00; 0x00; 0x00; 0x00; 0x00; 0x71; 0x77; 0x01; 0x00; 0x00; 0x00; 0x00; 0x00;
   0x57; 0x07; 0x00; 0x00; 0x7f; 0x00; 0x00; 0x00; 0xbf; 0x48; 0x00; 0x00; 0x00; 0x00; 0x00; 0x00; 0x67; 0x08; 0x00; 0x00; 0x20; 0x00; 0x00; 0x00;
   0x77; 0x08; 0x00; 0x00; 0x20; 0x00; 0x00; 0x00; 0x6f; 0x87; 0x00; 0x00; 0x00; 0x00; 0x00; 0x00; 0x0f; 0x17; 0x00; 0x00; 0x00; 0x00; 0x00; 0x00;
   0x0f; 0x76; 0x00; 0x00; 0x00; 0x00; 0x00; 0x00; 0x07; 0x04; 0x00; 0x00; 0x0e; 0x00; 0x00; 0x00; 0x07; 0x05; 0x00; 0x00; 0x02; 0x00; 0x00; 0x00;
   0xbf; 0x61; 0x00; 0x00; 0x00; 0x00; 0x00; 0x00; 0x1d; 0x53; 0x01; 0x00; 0x00; 0x00; 0x00; 0x00; 0x05; 0x00; 0xea; 0xff; 0x00; 0x00; 0x00; 0x00;
   0x07; 0x05; 0x00; 0x00; 0x01; 0x00; 0x00; 0x00; 0xbf; 0x61; 0x00; 0x00; 0x00; 0x00; 0x00; 0x00; 0x15; 0x00; 0x08; 0x00; 0x00; 0x00; 0x00; 0x00;
   0x0f; 0x52; 0x00; 0x00; 0x00; 0x00; 0x00; 0x00; 0x71; 0x22; 0x00; 0x00; 0x00; 0x00; 0x00; 0x00; 0x57; 0x02; 0x00; 0x00; 0x7f; 0x00; 0x00; 0x00;
   0x67; 0x04; 0x00; 0x00; 0x20; 0x00; 0x00; 0x00; 0x77; 0x04; 0x00; 0x00; 0x20; 0x00; 0x00; 0x00; 0x6f; 0x42; 0x00; 0x00; 0x00; 0x00; 0x00; 0x00;
   0x0f; 0x12; 0x00; 0x00; 0x00; 0x00; 0x00; 0x00; 0xbf; 0x21; 0x00; 0x00; 0x00; 0x00; 0x00; 0x00; 0x67; 0x01; 0x00; 0x00; 0x20; 0x00; 0x00; 0x00;
   0x77; 0x01; 0x00; 0x00; 0x20; 0x00; 0x00; 0x00; 0x18; 0x00; 0x00; 0x00; 0xea; 0xff; 0xff; 0xff; 0x00; 0x00; 0x00; 0x00; 0x01; 0x00; 0x00; 0x00;
   0x25; 0x01; 0x02; 0x00; 0xff; 0xff; 0xff; 0x0f; 0x18; 0x00; 0x00; 0x00; 0x2b; 0x02; 0x00; 0x00; 0x00; 0x00; 0x00; 0x00; 0x02; 0x00; 0x00; 0x00;
   0x95; 0x00; 0x00; 0x00; 0x00; 0x00; 0x00; 0x00; 0xb7; 0x03; 0x00; 0x00; 0x02; 0x00; 0x00; 0x00; 0xb7; 0x04; 0x00; 0x00; 0x00; 0x00; 0x00; 0x00;
   0x71; 0x25; 0x02; 0x00; 0x00; 0x00; 0x00; 0x00; 0x67; 0x05; 0x00; 0x00; 0x38; 0x00; 0x00; 0x00; 0xc7; 0x05; 0x00; 0x00; 0x38; 0x00; 0x00; 0x00;
   0xb7; 0x06; 0x00; 0x00; 0x00; 0x00; 0x00; 0x00; 0x65; 0x05; 0xc6; 0xff; 0xff; 0xff; 0xff; 0xff; 0xb7; 0x03; 0x00; 0x00; 0x03; 0x00; 0x00; 0x00;
   0x71; 0x25; 0x03; 0x00; 0x00; 0x00; 0x00; 0x00; 0x67; 0x05; 0x00; 0x00; 0x38; 0x00; 0x00; 0x00; 0xc7; 0x05; 0x00; 0x00; 0x38; 0x00; 0x00; 0x00;
   0xb7; 0x06; 0x00; 0x00; 0x00; 0x00; 0x00; 0x00; 0x65; 0x05; 0xc0; 0xff; 0xff; 0xff; 0xff; 0xff; 0xb7; 0x06; 0x00; 0x00; 0x00; 0x00; 0x00; 0x00;
   0xb7; 0x04; 0x00; 0x00; 0x01; 0x00; 0x00; 0x00; 0x18; 0x00; 0x00; 0x00; 0xea; 0xff; 0xff; 0xff; 0x00; 0x00; 0x00; 0x00; 0x01; 0x00; 0x00; 0x00;
   0x71; 0x25; 0x04; 0x00; 0x00; 0x00; 0x00; 0x00; 0x67; 0x05; 0x00; 0x00; 0x38; 0x00; 0x00; 0x00; 0xc7; 0x05; 0x00; 0x00; 0x38; 0x00; 0x00; 0x00;
   0xb7; 0x03; 0x00; 0x00; 0x00; 0x00; 0x00; 0x00; 0x65; 0x05; 0xe9; 0xff; 0xff; 0xff; 0xff; 0xff; 0x05; 0x00; 0xb6; 0xff; 0x00; 0x00; 0x00; 0x00;
   0x00].

Definition zephyr_cve_10062_fixed_insts : list ebpf_inst := Eval vm_compute in insts_of_bytes zephyr_cve_10062_fixed.

Lemma zephyr_cve_10062_fixed_decoded : insts_of_bytes zephyr_cve_10062_fixed = zephyr_cve_10062_fixed_insts.
Proof. vm_compute. reflexivity. Qed.

(** The answer to a packet that is accepted. *)
Definition redirect_555 : Z := (FILTER_REDIRECT << 32) .| 555.

Lemma part_bound (b n : Z) : 0 <= b < 256 -> 0 <= n <= 21 -> 0 <= wrap 64 ((b .& 127) << n) <= 127 * 2 ^ n.
Proof.
  intros Hb Hn. rewrite byte_low' by done. pose proof (Z.mod_pos_bound b 128 ltac:(lia)). rewrite Z.shiftl_mul_pow2 by lia.
  assert (0 < 2 ^ n <= 2 ^ 21) by (split; [apply Z.pow_pos_nonneg; lia|apply Z.pow_le_mono_r; lia]).
  assert (0 <= b mod 128 * 2 ^ n <= 127 * 2 ^ n) by (split; [apply Z.mul_nonneg_nonneg|apply Z.mul_le_mono_nonneg_r]; lia).
  rewrite wrap_small; lia.
Qed.

Lemma length_word (x : Z) : 0 <= x < 2 ^ 28 -> wrap 64 (x << 32) >> 32 = x.
Proof.
  intros Hx. rewrite <- (u64_small x) at 1 by lia. change (wrap 64) with u64. rewrite shift_pair. apply u32_small. lia.
Qed.

Lemma offset_word (w a b : Z) : u32 (u64 (w + a) + b) = u32 (w + (a + b)).
Proof. unfold u32, u64. rewrite <- wrap_add_l, wrap_wrap, wrap_add_l by lia. f_equal. lia. Qed.

(** Closes a goal at the comparison of the length, a sum of parts. *)
Ltac length_sum :=
  rewrite byte_low by done;
  repeat match goal with
  | H : 0 <= ?b < 256 |- context [wrap 64 ((?b .& 127) << ?n)] =>
      pose proof (part_bound b n H ltac:(lia)); generalize dependent (wrap 64 ((b .& 127) << n)); intros
  end;
  match goal with |- context [?b mod 128] => pose proof (Z.mod_pos_bound b 128 ltac:(lia)) end;
  repeat match goal with
  | |- context [u64 (?x + ?y)] => lazymatch constr:(x + y) with context [u64 _] => fail | _ => rewrite (u64_small (x + y)) by lia end
  end;
  rewrite length_word by lia.

Section RunFixed10062.
Context (ce : Z -> list Z -> memory -> option (Z * memory)) (en : exec_env) (m : memory).
Hypothesis no_check : e_bounds_check_enabled en = false.
Hypothesis prog : e_insts en = zephyr_cve_10062_fixed_insts.

Lemma fixed_10062_answers (n : nat) (L a0 a2 a3 a4 a5 a6 a7 a8 a9 a10 a11 : Z) :
  0 <= L < 2 ^ 28 -> (3 <= n)%nat ->
  run_result ce en n (mk_state 63 [a0; L; a2; a3; a4; a5; a6; a7; a8; a9; a10; a11] m) (Returned redirect_555 m).
Proof.
  intros HL Hn. replace n with (3 + (n - 3))%nat by lia. cbn [Nat.add].
  branch prog false ltac:(destruct (Z.ltb_spec 268435455 L); [lia|done]). turns prog.
  eapply (exit_returns ce en); [by_prog prog|reflexivity|reflexivity].
Qed.

Context (w b0 b1 b2 b3 : Z).
Hypothesis H0 : load_le 1 (u32 (w + 0)) m = Some b0.
Hypothesis H1 : load_le 1 (u32 (w + 1)) m = Some b1.
Hypothesis H2 : load_le 1 (u32 (w + 2)) m = Some b2.
Hypothesis H3 : load_le 1 (u32 (w + 3)) m = Some b3.
Hypothesis R0 : 0 <= b0 < 256.
Hypothesis R1 : 0 <= b1 < 256.
Hypothesis R2 : 0 <= b2 < 256.
Hypothesis R3 : 0 <= b3 < 256.

(** DROP exactly as the other patch, and REDIRECT where that one passes. *)
Definition fixed_10062_result (b4 : Z) : Z :=
  if cve_10062_result b0 b1 b2 b3 b4 =? 0 then redirect_555 else (1 << 32) .| u32 (-22).

Lemma fixed_10062_run (reg0 : list Z) (buf b4 : Z) :
  length reg0 = 12%nat -> load_le 4 (u32 (e_mem en + 0)) m = Some buf -> load_le 8 (u32 (buf + 0)) m = Some w ->
  load_le 1 (u32 (w + 4)) m = Some b4 -> 0 <= b4 < 256 ->
  ebpf_vm_exec ce en reg0 m = Returned (fixed_10062_result b4) m.
Proof.
  intros Hlen Hbuf Hw H4 R4. do 12 (destruct reg0 as [|? reg0]; [done|]). destruct reg0; [clear Hlen|done].
  assert (forall a k b, load_le 1 (u32 (w + (a + k))) m = Some b -> load_le 1 (u32 (u64 (w + a) + k)) m = Some b) as Hat
    by (intros a k b; by rewrite offset_word).
  eapply (exec_of_run ce en 200); [reflexivity|unfold MAX_ITERS; lia|]. unfold init_state; cbn [insert list_insert].
  turns prog. load prog no_check Hbuf. load prog no_check Hw. load prog no_check H0. turns prog. rewrite sext_byte by done.
  unfold fixed_10062_result, cve_10062_result. destruct (continues b0) eqn:C0; cbn [andb].
  2: { branch prog true ltac:(by rewrite byte_not_negative, C0). turns prog. length_sum.
    apply fixed_10062_answers; lia. }
  branch prog false ltac:(by rewrite byte_not_negative, C0). turns prog. load prog no_check H1. turns prog. rewrite sext_byte by done.
  destruct (continues b1) eqn:C1; cbn [andb].
  2: { branch prog false ltac:(by rewrite byte_negative, C1). turns prog. load prog no_check (Hat 1 0 b1 H1). turns prog. length_sum.
    apply fixed_10062_answers; lia. }
  branch prog true ltac:(by rewrite byte_negative, C1). turns prog. load prog no_check H2. turns prog. rewrite sext_byte by done.
  destruct (continues b2) eqn:C2; cbn [andb].
  2: { branch prog true ltac:(by rewrite byte_not_negative, C2). turns prog. load prog no_check (Hat 0 2 b2 H2). turns prog. load prog no_check (Hat 0 1 b1 H1). turns prog. length_sum.
    apply fixed_10062_answers; lia. }
  branch prog false ltac:(by rewrite byte_not_negative, C2). turns prog. load prog no_check H3. turns prog. rewrite sext_byte by done.
  destruct (continues b3) eqn:C3; cbn [andb].
  2: { branch prog true ltac:(by rewrite byte_not_negative, C3). turns prog. load prog no_check (Hat 0 2 b2 H2). turns prog. load prog no_check (Hat 0 1 b1 H1). turns prog. load prog no_check (Hat 3 0 b3 H3). turns prog. length_sum.
    apply fixed_10062_answers; lia. }
  branch prog false ltac:(by rewrite byte_not_negative, C3). turns prog. load prog no_check H4. turns prog. rewrite sext_byte by done.
  destruct (continues b4) eqn:C4; cbn [negb].
  - branch prog false ltac:(by rewrite byte_not_negative, C4). turns prog. length_sum. apply fixed_10062_answers; lia.
  - branch prog true ltac:(by rewrite byte_not_negative, C4). eapply (exit_returns ce en); [by_prog prog|reflexivity|reflexivity].
Qed.
End RunFixed10062.

Section Fixed10062.
Context (kstray vstray : Z -> Z).
Context (call_jit : Z -> Z -> Z -> memory -> option (Z * memory)) (call_ext : Z -> list Z -> memory -> option (Z * memory)).
Context (stack : Z) (reg0 : list Z).
Hypothesis reg0_length : length reg0 = 12%nat.

Lemma run_filter_fixed_10062 (s : ctx_state) (sp buf patch : Z) (five : list Z) (p : ebpf_patch) (vm : ebpf_vm) (e : ebpf_helper_env) :
  patches s !! patch = Some p -> p_vm p = Some vm -> use_jit vm = false -> bounds_check_enabled vm = false ->
  insts vm = Some (insts_of_bytes zephyr_cve_10062_fixed) -> helper_envs (helpers s) !! helper_func vm = Some e ->
  get32 s (sp + frame_r0) = Some buf -> buffer_at s buf five -> Forall (fun b => 0 <= b < 256) five -> (5 <= length five)%nat ->
  exists s1, run_filter call_jit call_ext stack reg0 s patch sp sizeof_fixed_stack_frame
      = Some (if cve_10062_verdict five =? 0 then redirect_555 else (1 << 32) .| u32 (-22), s1)
    /\ forall a, get32 s1 a = get32 s a.
Proof.
  intros Hp Hvm Hj Hb Hi He Hr0 (cur & end_ & Hcur & Hrange & Hend & Hbytes) Hf Hlen.
  apply (run_filter_interpreted call_jit call_ext stack reg0 s sp _ patch _ p vm e (insts_of_bytes zephyr_cve_10062_fixed)); try done.
  destruct five as [|b0 [|b1 [|b2 [|b3 [|b4 rest]]]]]; cbn [length] in Hlen; try lia.
  repeat match goal with H : Forall _ (_ :: _) |- _ => apply Forall_cons_1 in H as [? H] end.
  assert (forall k b, 0 <= k < 5 -> zget (b0 :: b1 :: b2 :: b3 :: b4 :: rest) k = Some b ->
    load_le 1 (u32 (cur .| (end_ << 32) + k)) (hw_mem (hw s)) = Some b) as Hload.
  { intros k b Hk Hz. rewrite low_word, load_le_u32 by done. rewrite Hbytes by done. exact Hz. }
  refine (fixed_10062_run call_ext _ (hw_mem (hw s)) _ _ (cur .| (end_ << 32)) b0 b1 b2 b3 _ _ _ _ _ _ _ _ reg0 buf b4 reg0_length _ _ _ _);
    try done; try (apply Hload; [lia|reflexivity]).
  by apply struct_word.
Qed.

(** The packets the patches take for malformed: four bytes that announce
    another one, and a fifth that does not. *)
Definition refuses (five : list Z) : bool :=
  match five with
  | b0 :: b1 :: b2 :: b3 :: b4 :: _ => continues b0 && continues b1 && continues b2 && continues b3 && negb (continues b4)
  | _ => false
  end.

Lemma refuses_verdict (five : list Z) : (cve_10062_verdict five =? 0) = negb (refuses five).
Proof.
  destruct five as [|b0 [|b1 [|b2 [|b3 [|b4 rest]]]]]; try reflexivity. cbn [cve_10062_verdict refuses]. unfold cve_10062_result.
  by destruct (_ && negb (continues b4)).
Qed.

(** C37: the patch for the same vulnerability at the fixed patch point,
    interpreted as the loader of fixed patches has it, does the opposite of a
    repair, on a buffer of which five bytes can be read.  Where the first four
    bytes announce another one and the fifth does not, the guard returns 0, so
    that the function reports a length it never stored; on every other packet,
    the well formed ones and those with five continuation bytes, the dispatch
    writes the word 555 over the code that the patch point returns to. *)
Theorem fixed_10062_corrupts (s : ctx_state) (sp lr buf length_ patch : Z) (bytes beyond : list Z)
    (p : ebpf_patch) (vm : ebpf_vm) (e : ebpf_helper_env) :
  get32 s (sp + frame_lr) = Some lr -> get_fixed_patch_by_lr kstray vstray s (call_site lr) = Some patch -> patch <> 0 ->
  patches s !! patch = Some p -> p_vm p = Some vm -> use_jit vm = false -> bounds_check_enabled vm = false ->
  insts vm = Some (insts_of_bytes zephyr_cve_10062_fixed) -> helper_envs (helpers s) !! helper_func vm = Some e ->
  get32 s (sp + frame_r0) = Some buf -> buffer_at s buf (bytes ++ beyond) ->
  Forall (fun b => 0 <= b < 256) (bytes ++ beyond) -> (5 <= length (bytes ++ beyond))%nat -> is_Some (get32 s lr) ->
  (mqtt_length 4 bytes <> None -> refuses (bytes ++ beyond) = false) /\
  exists s', dispatch_fixed_patch_point kstray vstray call_jit call_ext stack reg0 s sp = Some s' /\
    if refuses (bytes ++ beyond) then
      exists hook, get32 s' (sp + frame_r0) = Some hook /\ dummy_buggy_MQTT_packet_length_decode hook bytes length_ = Decoded 0 length_
    else get32 s' lr = Some 555.
Proof.
  intros Hlr Hget Hne Hp Hvm Hj Hb Hi He Hr0 Hbuf Hf Hlen Hcode.
  destruct (run_filter_fixed_10062 s sp buf patch _ p vm e Hp Hvm Hj Hb Hi He Hr0 Hbuf Hf Hlen) as (s1 & Hfilter & Hsame).
  pose proof (refuses_verdict (bytes ++ beyond)) as Hv. rewrite Hv in Hfilter. assert (p_vm p <> None) as Hsome by (by rewrite Hvm).
  split.
  { intros Hm. destruct (refuses _) eqn:E; [|done]. destruct Hm. apply (cve1_dropped bytes beyond); [done|]. by apply Z.eqb_neq. }
  destruct (refuses (bytes ++ beyond)); cbn [negb] in Hfilter.
  - destruct (dispatch_verdict kstray vstray call_jit call_ext stack reg0 s s1 sp lr patch ((1 << 32) .| u32 (-22)) p Hlr Hget Hne Hp Hsome Hfilter
      ltac:(vm_compute; discriminate) ltac:(rewrite Hsame, Hr0; by eexists)) as (s' & E & H0).
    exists s'. split; [exact E|]. exists 0. by split.
  - destruct (dispatch_redirects kstray vstray call_jit call_ext stack reg0 s s1 sp lr lr patch redirect_555 p Hlr Hget Hne Hp Hsome Hfilter
      eq_refl ltac:(by rewrite Hsame) ltac:(by rewrite Hsame)) as (s' & E & H555 & _).
    exists s'. by split.
Qed.
End Fixed10062.

(** ** CVE-2020-17445 *)

(** The loop of the function, on the bytes of the packet from the extension
    header on; [fuel] turns at most. *)
Definition dynamic_patch_dummy_cve2 (fuel : nat) (destopt : list Z) : opt_outcome :=
  match zget destopt 1 with
  | Some b => process_options fuel destopt 2 (destopt_len b)
  | None => OptFault
  end.

Definition AMNESIA33_cve_2020_17445_SFI : list Z :=
  [0xb7; 0x08; 0x00; 0x00; 0x00; 0x00; 0x00; 0x00; 0x61; 0x12; 0x00; 0x00; 0x00; 0x00; 0x00; 0x00; 0x61; 0x13; 0x08; 0x00; 0x00; 0x00; 0x00; 0x00;
   0x07; 0x03; 0x00; 0x00; 0x02; 0x00; 0x00; 0x00; 0x71; 0x21; 0x01; 0x00; 0x00; 0x00; 0x00; 0x00; 0x07; 0x02; 0x00; 0x00; 0x02; 0x00; 0x00; 0x00;
   0x67; 0x01; 0x00; 0x00; 0x03; 0x00; 0x00; 0x00; 0x47; 0x01; 0x00; 0x00; 0x06; 0x00; 0x00; 0x00; 0x18; 0x00; 0x00; 0x00; 0xff; 0xff; 0xff; 0xff;
   0x00; 0x00; 0x00; 0x00; 0x00; 0x00; 0x00; 0x00; 0x18; 0x04; 0x00; 0x00; 0x00; 0x00; 0x00; 0x00; 0x00; 0x00; 0x00; 0x00; 0x01; 0x00; 0x00; 0x00;
   0x71; 0x25; 0x01; 0x00; 0x00; 0x00; 0x00; 0x00; 0x07; 0x05; 0x00; 0x00; 0x02; 0x00; 0x00; 0x00; 0xbf; 0x57; 0x00; 0x00; 0x00; 0x00; 0x00; 0x00;
   0x57; 0x07; 0x00; 0x00; 0xff; 0x00; 0x00; 0x00; 0x15; 0x07; 0x13; 0x00; 0x00; 0x00; 0x00; 0x00; 0xbf; 0x36; 0x00; 0x00; 0x00; 0x00; 0x00; 0x00;
   0x0f; 0x76; 0x00; 0x00; 0x00; 0x00; 0x00; 0x00; 0xbf; 0x67; 0x00; 0x00; 0x00; 0x00; 0x00; 0x00; 0x67; 0x07; 0x00; 0x00; 0x20; 0x00; 0x00; 0x00;
   0x77; 0x07; 0x00; 0x00; 0x20; 0x00; 0x00; 0x00; 0x67; 0x03; 0x00; 0x00; 0x20; 0x00; 0x00; 0x00; 0x77; 0x03; 0x00; 0x00; 0x20; 0x00; 0x00; 0x00;
   0x3d; 0x73; 0x0b; 0x00; 0x00; 0x00; 0x00; 0x00; 0x1f; 0x51; 0x00; 0x00; 0x00; 0x00; 0x00; 0x00; 0x57; 0x05; 0x00; 0x00; 0xff; 0x00; 0x00; 0x00;
   0x0f; 0x52; 0x00; 0x00; 0x00; 0x00; 0x00; 0x00; 0xb7; 0x04; 0x00; 0x00; 0x00; 0x00; 0x00; 0x00; 0xbf; 0x15; 0x00; 0x00; 0x00; 0x00; 0x00; 0x00;
   0x57; 0x05; 0x00; 0x00; 0xff; 0x00; 0x00; 0x00; 0xbf; 0x63; 0x00; 0x00; 0x00; 0x00; 0x00; 0x00; 0xb7; 0x00; 0x00; 0x00; 0x00; 0x00; 0x00; 0x00;
   0x07; 0x08; 0x00; 0x00; 0x01; 0x00; 0x00; 0x00; 0x65; 0x08; 0x03; 0x00; 0x00; 0x08; 0x00; 0x00; 0x55; 0x05; 0xe4; 0xff; 0x00; 0x00; 0x00; 0x00;
   0x4f; 0x40; 0x00; 0x00; 0x00; 0x00; 0x00; 0x00; 0x95; 0x00; 0x00; 0x00; 0x00; 0x00; 0x00; 0x00; 0xb7; 0x00; 0x00; 0x00; 0x01; 0x00; 0x00; 0x00;
   0x67; 0x00; 0x00; 0x00; 0x20; 0x00; 0x00; 0x00; 0x95; 0x00; 0x00; 0x00; 0x00; 0x00; 0x00; 0x00; 0x00].

Definition cve_17445_insts : list ebpf_inst := Eval vm_compute in insts_of_bytes AMNESIA33_cve_2020_17445_SFI.

Lemma cve_17445_decoded : insts_of_bytes AMNESIA33_cve_2020_17445_SFI = cve_17445_insts.
Proof. vm_compute. reflexivity. Qed.

(** The patch decides on the packet within [n] options: the bytes from index
    [i] on are options, the [n]th at the latest of which takes no room (its
    length byte is 254) or uses up the length, of which [len] is left. *)
Fixpoint decided (n : nat) (destopt : list Z) (i len : Z) : bool :=
  match n with
  | O => false
  | S n =>
      match zget destopt (i + 1), zget destopt i with
      | Some o, Some _ =>
          let optlen := u8 (o + 2) in
          (optlen =? 0) || (u8 (len - optlen) =? 0) || decided n destopt (i + optlen) (u8 (len - optlen))
      | _, _ => false
      end
  end.

(** The options the interpreter has turns for: 10 to start and 26 for each, of
    MAX_ITERS. *)
Definition max_options : nat := 1259.

Section Run17445.
Context (ce : Z -> list Z -> memory -> option (Z * memory)) (en : exec_env) (m : memory).
Hypothesis no_check : e_bounds_check_enabled en = false.
Hypothesis prog : e_insts en = cve_17445_insts.
Context (base : Z) (destopt : list Z).
Hypothesis packet : forall k, 0 <= k < 2 ^ 24 -> load_le 1 (u32 (base + k)) m = zget destopt k.
Hypothesis packet_bytes : Forall (fun b => 0 <= b < 256) destopt.

(** What the patch decides: it answers DROP, or PASS when the loop of the
    function from option [i], with [len] bytes to go, ends. *)
Definition decides (i len : Z) (v : Z) (m' : memory) : Prop :=
  m' = m /\ (u32 (v >> 32) = FILTER_DROP \/ v = 0 /\ exists fuel, process_options fuel destopt i len = OptDone).

Lemma packet_load (i r2 o : Z) :
  0 <= i < 2 ^ 23 -> u32 r2 = u32 (base + i) -> zget destopt (i + 1) = Some o ->
  load_le 1 (u32 (r2 + 1)) m = Some o /\ 0 <= o < 256.
Proof.
  intros Hi Hr2 Ho. split.
  - rewrite <- Ho, <- packet by lia. f_equal. unfold u32 in *. rewrite <- (wrap_add_l 32 r2), Hr2, wrap_add_l. f_equal. lia.
  - unfold zget in Ho. destruct (Z.ltb_spec (i + 1) 0); [lia|]. by apply (Forall_lookup_1 _ _ _ _ packet_bytes Ho).
Qed.

Lemma process_step (fuel : nat) (i len o x : Z) :
  len <> 0 -> zget destopt (i + 1) = Some o -> zget destopt i = Some x ->
  process_options (S fuel) destopt i len = process_options fuel destopt (i + u8 (o + 2)) (u8 (len - u8 (o + 2))).
Proof. intros Hl Ho Hx. cbn [process_options]. destruct (Z.eqb_spec len 0); [done|]. by rewrite Ho, Hx. Qed.

Lemma land_255 (x : Z) : x .& 255 = u8 x.
Proof. change 255 with (Z.ones 8). by rewrite Z.land_ones by lia. Qed.

(** One turn of the patch takes 26 instructions at most. *)
Lemma option_loop (n : nat) : forall (i len c r1 r2 r3 a5 a6 a7 a9 a10 a11 : Z),
  0 <= c -> c + Z.of_nat n <= 2048 -> 0 <= i <= 2 + 255 * c -> u32 r2 = u32 (base + i) -> u8 r1 = len -> len <> 0 ->
  decided n destopt i len = true ->
  comes_to ce en (26 * n) (mk_state 12 [4294967295; r1; r2; r3; 4294967296; a5; a6; a7; c; a9; a10; a11] m) (decides i len).
Proof.
  induction n as [|n IH]; intros i len c r1 r2 r3 a5 a6 a7 a9 a10 a11 H0 Hc Hi Hr2 Hr1 Hlen Hd; [discriminate Hd|].
  cbn [decided] in Hd. destruct (zget destopt (i + 1)) as [o|] eqn:Ho; [|discriminate Hd].
  destruct (zget destopt i) as [x|] eqn:Hx; [|discriminate Hd]. cbv zeta in Hd.
  destruct (packet_load i r2 o ltac:(lia) Hr2 Ho) as [Eo Ro]. replace (26 * S n)%nat with (26 + 26 * n)%nat by lia.
  remember (26 * n)%nat as k eqn:Ek. cbn [Nat.add].
  load prog no_check Eo. turns prog. rewrite (u64_small (o + 2)), land_255 by lia. fork prog E1.
  { turns prog. eapply comes_to_exit; [by_prog prog|reflexivity|reflexivity|]. split; [done|by left]. }
  turns prog. fork prog E2.
  { turns prog. eapply comes_to_exit; [by_prog prog|reflexivity|reflexivity|]. split; [done|by left]. }
  turns prog. rewrite !land_255. fork prog E3.
  { turns prog. eapply comes_to_exit; [by_prog prog|reflexivity|reflexivity|]. split; [done|by left]. }
  assert (u8 (u64 (r1 - (o + 2))) = u8 (len - u8 (o + 2))) as Hlen'.
  { subst len. unfold u8, u64. rewrite wrap_wrap by lia. unfold wrap. by rewrite <- Zminus_mod. }
  fork prog E4.
  - change (u64 0) with 0 in E1. apply Z.eqb_neq in E1. assert (u8 (u64 (r1 - (o + 2))) <> 0) as Hne.
    { intros Hz. rewrite Hz in E4. discriminate E4. }
    rewrite (u64_small (c + 1)) by lia. pose proof (u8_range (o + 2)) as Hr. rewrite Hlen' in Hne.
    apply Z.eqb_neq in E1, Hne. rewrite E1, Hne in Hd. cbn [orb] in Hd. apply Z.eqb_neq in Hne. turns prog.
    refine (comes_to_mono ce en _ _ _ _ _ (Nat.le_refl _) _ (IH (i + u8 (o + 2)) (u8 (len - u8 (o + 2))) (c + 1) _ _ _ _ _ _ _ _ _ _ _ _ _ _ _ Hd)); [..|exact Hne]; try lia.
    + intros v m' [-> [H|(-> & fuel & Hf)]]; (split; [done|]); [by left|right]. split; [done|]. exists (S fuel). by rewrite (process_step fuel i len o x).
    + unfold u32, u64. rewrite wrap_wrap by lia. rewrite <- wrap_add_l. unfold u32 in Hr2. rewrite Hr2, wrap_add_l. f_equal. unfold u8. lia.
  - assert (u8 (u64 (r1 - (o + 2))) = 0) as Hz.
    { destruct (Z.eqb_spec (u8 (u64 (r1 - (o + 2)))) 0) as [|Hn]; [done|]. by destruct (Z.eqb_spec (u8 (u64 (r1 - (o + 2)))) (u64 0)). }
    turns prog. eapply comes_to_exit; [by_prog prog|reflexivity|reflexivity|]. split; [done|right]. split; [reflexivity|]. exists 2%nat.
    rewrite (process_step 1 i len o x) by done. by rewrite <- Hlen', Hz.
Qed.

(** The length of the options, as the patch computes it. *)
Lemma destopt_len_word (b : Z) : 0 <= b < 256 -> u8 (wrap 64 (b << 3) .| 6) = destopt_len b /\ destopt_len b <> 0.
Proof.
  intros Hb. assert ((u8 (wrap 64 (b << 3) .| 6) =? destopt_len b) && negb (destopt_len b =? 0) = true) as H.
  { revert b Hb. apply (byte_cases (fun b => (u8 (wrap 64 (b << 3) .| 6) =? destopt_len b) && negb (destopt_len b =? 0))).
    vm_compute. reflexivity. }
  apply andb_true_iff in H as [H1%Z.eqb_eq H2%negb_true_iff%Z.eqb_neq]. by split.
Qed.

Lemma cve_17445_run (reg0 : list Z) (opt_ptr b : Z) :
  length reg0 = 12%nat -> load_le 4 (u32 (e_mem en + 0)) m = Some base -> load_le 4 (u32 (e_mem en + 8)) m = Some opt_ptr ->
  zget destopt 1 = Some b -> decided max_options destopt 2 (destopt_len b) = true ->
  exists v m', ebpf_vm_exec ce en reg0 m = Returned v m' /\
    m' = m /\ (u32 (v >> 32) = FILTER_DROP \/ v = 0 /\ exists fuel, dynamic_patch_dummy_cve2 fuel destopt = OptDone).
Proof.
  intros Hlen Hbase Hopt Hb Hd. assert (0 <= b < 256) as Rb.
  { unfold zget in Hb. apply (Forall_lookup_1 _ _ _ _ packet_bytes Hb). }
  assert (load_le 1 (u32 (base + 1)) m = Some b) as Eb by (by rewrite packet by lia).
  destruct (destopt_len_word b Rb) as [Hl Hl0]. apply (exec_of_comes_to ce en (10 + 26 * max_options)).
  { vm_compute. discriminate. }
  do 12 (destruct reg0 as [|? reg0]; [done|]). destruct reg0; [clear Hlen|done]. unfold init_state; cbn [insert list_insert].
  remember (26 * max_options)%nat as k eqn:Ek. cbn [Nat.add].
  turns prog. load prog no_check Hbase. load prog no_check Hopt. turns prog. load prog no_check Eb. turns prog. subst k.
  unfold dynamic_patch_dummy_cve2. rewrite Hb.
  refine (comes_to_mono ce en _ _ _ _ _ (Nat.le_refl _) _ (option_loop max_options 2 (destopt_len b) 0 _ _ _ _ _ _ _ _ _ _ _ _ _ Hl Hl0 Hd)).
  - intros v m' H. exact H.
  - lia.
  - vm_compute. discriminate.
  - lia.
  - unfold u32, u64. by rewrite wrap_wrap by lia.
Qed.
End Run17445.

(** C5: with the patch for CVE-2020-17445 at its patch point, interpreted as
    the loader of fixed patches has it, the function ends on every packet that
    is decided within 1259 options: its second byte is there, and its options
    from the third on come, by the 1259th at the latest, to one that takes no
    room or to one that uses up the length (modulo 256, as the function counts
    it).  The interpreter then comes to an answer, and either the patch refuses
    the packet, and the function returns, or it has followed the options to the
    end, and the loop of the function does the same. *)
Theorem cve_17445_ends (kstray vstray : Z -> Z) (call_jit : Z -> Z -> Z -> memory -> option (Z * memory))
    (call_ext : Z -> list Z -> memory -> option (Z * memory)) (stack : Z) (reg0 : list Z)
    (s : ctx_state) (sp lr base opt_ptr patch b : Z) (destopt : list Z) (p : ebpf_patch) (vm : ebpf_vm) (e : ebpf_helper_env) :
  length reg0 = 12%nat ->
  get32 s (sp + frame_lr) = Some lr -> get_fixed_patch_by_lr kstray vstray s (call_site lr) = Some patch -> patch <> 0 ->
  patches s !! patch = Some p -> p_vm p = Some vm -> use_jit vm = false -> bounds_check_enabled vm = false ->
  insts vm = Some (insts_of_bytes AMNESIA33_cve_2020_17445_SFI) -> helper_envs (helpers s) !! helper_func vm = Some e ->
  get32 s (sp + frame_r0) = Some base -> get32 s (sp + 8) = Some opt_ptr ->
  (forall k, 0 <= k < 2 ^ 24 -> load_le 1 (base + k) (hw_mem (hw s)) = zget destopt k) -> Forall (fun b => 0 <= b < 256) destopt ->
  zget destopt 1 = Some b -> decided max_options destopt 2 (destopt_len b) = true ->
  exists s' hook fuel, dispatch_fixed_patch_point kstray vstray call_jit call_ext stack reg0 s sp = Some s' /\
    get32 s' (sp + frame_r0) = Some hook /\
    dummy_CVE_2020_17445_pico_ipv6_process_destopt hook fuel destopt = OptDone.
Proof.
  intros Hlen Hlr Hget Hne Hp Hvm Hj Hbc Hi He Hr0 Hr2 Hpacket Hbytes Hb Hd.
  destruct (cve_17445_run call_ext (mk_env (insts_of_bytes AMNESIA33_cve_2020_17445_SFI) (bounds_check_enabled vm) (ext_funcs e) sp
      sizeof_fixed_stack_frame stack) (hw_mem (hw s)) Hbc cve_17445_decoded base destopt ltac:(intros k Hk; rewrite load_le_u32; by apply Hpacket)
      Hbytes reg0 opt_ptr b Hlen Hr0 Hr2 Hb Hd) as (v & m' & Hrun & -> & Hv).
  destruct (run_filter_interpreted call_jit call_ext stack reg0 s sp _ patch v p vm e _ Hp Hvm Hj Hi He Hrun) as (s1 & Hf & Hsame).
  assert (u32 (v >> 32) <> FILTER_REDIRECT) as Hop by (destruct Hv as [->|[-> _]]; discriminate).
  destruct (dispatch_verdict kstray vstray call_jit call_ext stack reg0 s s1 sp lr patch v p Hlr Hget Hne Hp ltac:(by rewrite Hvm) Hf Hop
    ltac:(rewrite Hsame, Hr0; by eexists)) as (s' & Hdp & Hhook).
  exists s'. destruct Hv as [Hdrop|(-> & fuel & Hfuel)].
  - rewrite Hdrop in Hhook. by exists 0, 0%nat.
  - by exists FIXED_OP_PASS, fuel.
Qed.

(** ** Witnesses: the machine of the dispatch with packets in its memory *)

Definition buffer_address : Z := 0x20000100.
Definition packet_address : Z := 0x40000000.

(** A packet, a struct that says where it starts and ends, and some code. *)
Definition other_mem (frame : list Z) : memory :=
  bytes_at buffer_address (le_word packet_address ++ le_word (packet_address + 9))
    (bytes_at 0x08000104 (replicate 8 0) (frame_mem frame)).
Definition packet_mem (frame packet : list Z) : memory := bytes_at packet_address packet (other_mem frame).

Definition mqtt_machine (program : list Z) (frame packet : list Z) : ctx_state :=
  machine_with (insts_of_bytes program) (packet_mem frame packet).

Definition patch_of (program : list Z) : ebpf_patch :=
  {| p_desc := 32; p_vm := Some (test_vm (insts_of_bytes program)); p_is_active := true |}.
Definition sample_env : ebpf_helper_env := {| ext_funcs := replicate 12 0; refcnt := 1 |}.

(** The packet of call_dummy_buggy_MQTT_function, and a good one. *)
Definition long_packet : list Z := [0xff; 0xff; 0xff; 0xff; 0x7f].
Definition good_packet : list Z := [0xc1; 0x02].
Definition bkpt_frame_at (r0 : Z) : list Z := [r0; 0; 0; 0; 0; 0x08000555; 0x08000300; 0].
Definition fixed_frame_at (r0 r2 : Z) : list Z := [r0; 0; r2; 0; 0x08000105].

Lemma buffer_sample (program frame packet rest : list Z) :
  length (packet ++ rest) = 5%nat ->
  get32 (mqtt_machine program frame (packet ++ rest)) buffer_address = Some packet_address ->
  get32 (mqtt_machine program frame (packet ++ rest)) (buffer_address + 4) = Some (packet_address + 9) ->
  map_Forall (fun x _ => x < packet_address \/ packet_address + 5 <= x) (other_mem frame) ->
  buffer_at (mqtt_machine program frame (packet ++ rest)) buffer_address (packet ++ rest).
Proof.
  intros Hl H1 H2 Hm. exists packet_address, (packet_address + 9). split; [exact H1|]. split; [unfold packet_address; lia|].
  split; [exact H2|]. intros k Hk. apply (bytes_at_alone _ _ 5); [unfold packet_address; lia|unfold packet_address; lia|lia|exact Hm|exact Hk].
Qed.

Ltac discharge_packet :=
  lazymatch goal with
  | |- buffer_at _ _ _ => apply buffer_sample; [reflexivity|vm_compute; reflexivity|vm_compute; reflexivity|];
         refine (bool_decide_eq_true_1 _ _); vm_compute; reflexivity
  | |- Forall _ _ => refine (bool_decide_eq_true_1 _ _); vm_compute; reflexivity
  | |- (_ <= _)%nat => vm_compute; lia
  | |- _ => discharge
  end.

Lemma cve_10062_repairs_witness :
  exists skip s', run_patch_here no_jit no_ext 0x20002000 (replicate 12 0)
      (mqtt_machine zephyr_cve_10062 (bkpt_frame_at buffer_address) (long_packet ++ [])) 0x20001000 = Some (skip, s') /\
    (skip = true -> get32 s' (0x20001000 + ctx_pc) = Some 0x08000555) /\
    exists ret l, cve1_call skip s' 0x20001000 0 long_packet = Some (Decoded ret l) /\ ret < 0.
Proof.
  refine (cve_10062_repairs no_jit no_ext 0x20002000 (replicate 12 0) eq_refl _ 0x20001000 buffer_address 0
    0x08000300 0x08000555 64 long_packet [] (patch_of zephyr_cve_10062) (test_vm (insts_of_bytes zephyr_cve_10062)) sample_env
    _ _ _ _ _ _ _ _ _ _ _ _ _ _ _ _ _).
  all: discharge_packet.
Defined.

Lemma fixed_10062_corrupts_witness :
  exists s', dispatch_fixed_patch_point (fun _ => 0) (fun _ => 0) no_jit no_ext 0x20002000 (replicate 12 0)
      (mqtt_machine zephyr_cve_10062_fixed (fixed_frame_at buffer_address 0) (good_packet ++ [0; 0; 0])) 0x20001000 = Some s'
    /\ get32 s' 0x08000105 = Some 555.
Proof.
  refine (proj2 (fixed_10062_corrupts (fun _ => 0) (fun _ => 0) no_jit no_ext 0x20002000 (replicate 12 0) eq_refl
    (mqtt_machine zephyr_cve_10062_fixed (fixed_frame_at buffer_address 0) (good_packet ++ [0; 0; 0])) 0x20001000
    0x08000105 buffer_address 0 64 good_packet [0; 0; 0] (patch_of zephyr_cve_10062_fixed)
    (test_vm (insts_of_bytes zephyr_cve_10062_fixed)) sample_env _ _ _ _ _ _ _ _ _ _ _ _ _ _)).
  all: discharge_packet.
Defined.

(** The packet of call_dummy_CVE_2020_17445_pico_ipv6_process_destopt, on
    which the function without the patch never ends. *)
Definition spinning_packet : list Z := [1; 1; 254; 254; 254; 254; 254].

Definition spinning_machine : ctx_state :=
  mqtt_machine AMNESIA33_cve_2020_17445_SFI (fixed_frame_at packet_address 0) spinning_packet.

Lemma cve_17445_ends_witness :
  exists s' hook fuel,
    dispatch_fixed_patch_point (fun _ => 0) (fun _ => 0) no_jit no_ext 0x20002000 (replicate 12 0) spinning_machine 0x20001000 = Some s' /\
    get32 s' (0x20001000 + frame_r0) = Some hook /\
    dummy_CVE_2020_17445_pico_ipv6_process_destopt hook fuel spinning_packet = OptDone.
Proof.
  refine (cve_17445_ends (fun _ => 0) (fun _ => 0) no_jit no_ext 0x20002000 (replicate 12 0) spinning_machine
    0x20001000 0x08000105 packet_address 0 64 1 spinning_packet
    (patch_of AMNESIA33_cve_2020_17445_SFI) (test_vm (insts_of_bytes AMNESIA33_cve_2020_17445_SFI))
    sample_env _ _ _ _ _ _ _ _ _ _ _ _ _ _ _ _).
  13: { intros k Hk. apply (bytes_at_alone _ _ (2 ^ 24)); [unfold packet_address; lia|unfold packet_address; lia|vm_compute; discriminate| |exact Hk].
        refine (bool_decide_eq_true_1 _ _); vm_compute; reflexivity. }
  all: discharge_packet.
Defined.

(** The patch also counts its turns, to refuse a packet after 2049 of them;
    but one turn takes 26 instructions, and the interpreter gives up after 32769:
    on a packet whose options of length 4 never use up the length, which is 6
    modulo 8, it is stopped before its own count is reached. *)
Definition endless_packet : list Z := 1 :: 0 :: replicate (Z.to_nat 6000) 2.

Example cve_17445_counter_too_late :
  match ebpf_vm_exec no_ext (mk_env cve_17445_insts false [] 0x20001000 20 0x20002000) (replicate 12 0)
          (packet_mem (fixed_frame_at packet_address 0) endless_packet) with
  | IterLimit _ => True
  | _ => False
  end.
Proof. vm_compute. exact I. Qed.
