(* ===== verification/Service.v ===== *)
(** * The patch service (hotpatch/src/patch_service.c)

    The loop that receives commands from the update server over a stream
    socket, and the command that downloads a patch and installs it.  The socket
    functions are the interface [Socket], with the behaviour of recv and send
    they document as laws; the instance [chunks] is a stream that arrives in
    pieces.  A fault of the program is [Fault] or [None]. *)

From S2P Require Import Prelude Utils Mem EbpfInst EbpfVm Vm Hashmap Fpb FpbProps PatchCtx PatchCtxProps.

(** ** The socket interface *)

(** [recv fd len]: the value it returns and the bytes it puts in the buffer;
    [send] the value it returns; [pending] is the number of bytes the peer
    will still deliver. *)
Class Socket (net : Type) := {
  recv : net -> Z -> Z * list Z * net;
  send : net -> list Z -> Z * net;
  close : net -> net;
  pending : net -> nat }.

(** recv returns the number of bytes received, at most what was asked for, or
    -1; what is received is no longer to come, and sending receives nothing. *)
Class SocketLaws (net : Type) `{Socket net} := {
  recv_count : forall (n n' : net) (len r : Z) (data : list Z), 0 <= len -> recv n len = (r, data, n') ->
    (r = -1 /\ data = []) \/ (r = Z.of_nat (length data) /\ r <= len);
  recv_pending : forall (n n' : net) (len r : Z) (data : list Z), recv n len = (r, data, n') ->
    (pending n' + length data <= pending n)%nat;
  send_pending : forall (n n' : net) (bytes : list Z) (r : Z), send n bytes = (r, n') -> (pending n' <= pending n)%nat;
  close_pending : forall (n : net), (pending (close n) <= pending n)%nat }.

(** ** The service *)

(** enum update_protocol, enum context_status *)
Definition EXIT : Z := 0.
Definition LOAD : Z := 1.
Definition HEARTBEAT : Z := 2.
Definition WAIT_FOR_INIT : Z := 0.
Definition RUNNING : Z := 1.

Record service_context := { pos : Z; sockfd : Z; status : Z }.

(** The static variables, the rest of the program's state, and the socket. *)
Record svc_state (net : Type) := mk_svc { svr_ctx : service_context; buf : list Z; sys : ctx_state; sock : net }.
Arguments mk_svc {net}. Arguments svr_ctx {net}. Arguments buf {net}. Arguments sys {net}. Arguments sock {net}.

(** What a buffer holds after bytes are received in it. *)
Definition received (old data : list Z) : list Z := data ++ drop (length data) old.

(** (patch_desc * ) pkt: the packed header, little endian, and the code; the
    header must lie in the packet. *)
Definition desc_of_packet (pkt : list Z) : option patch_desc :=
  match pkt with
  | t0 :: t1 :: c0 :: c1 :: a0 :: a1 :: a2 :: a3 :: code =>
      Some {| pd_type := t0 + 256 * t1; pd_code_len := c0 + 256 * c1;
              pd_addr := a0 + 256 * a1 + 65536 * a2 + 16777216 * a3; pd_code := code |}
  | _ => None
  end.

Section Service.
Context {net : Type} `{Socket net}.
(** malloc of the packet: the bytes it finds there, [None] when it fails; and
    the other parameters of [PatchCtx]. *)
Context (malloc_pkt : Z -> option (list Z)).
Context (kstray vstray junk : Z -> Z).
Context (alloc_env : gmap Z ebpf_helper_env -> Z) (malloc_vm : option ebpf_vm) (iot : iot_helpers).
Context (alloc_patch : gmap Z ebpf_patch -> Z) (alloc_desc : gmap Z patch_desc -> Z).
Context (REMAP_ADDR : Z) (FPB_Handler : list Z).

Definition with_status (s : svc_state net) (v : Z) : svc_state net :=
  mk_svc {| pos := pos (svr_ctx s); sockfd := sockfd (svr_ctx s); status := v |} (buf s) (sys s) (sock s).
Definition with_sock (s : svc_state net) (n : net) : svc_state net := mk_svc (svr_ctx s) (buf s) (sys s) n.

(** receive_buf: a size_t, and the bytes received. *)
Definition linux_receive_buf (s : svc_state net) (len : Z) : Z * list Z * svc_state net :=
  let '(r, data, n) := recv (sock s) len in (u32 r, data, with_sock s n).

Definition linux_send_buf (s : svc_state net) (bytes : list Z) : Z * svc_state net :=
  let '(r, n) := send (sock s) bytes in (u32 r, with_sock s n).

Definition linux_dis_connect (s : svc_state net) : svc_state net :=
  let s := if negb (status (svr_ctx s) =? WAIT_FOR_INIT) then with_sock s (close (sock s)) else s in
  with_status s WAIT_FOR_INIT.

(** The static buffer after a receive of [len] bytes. *)
Definition receive_static (s : svc_state net) (len : Z) : Z * svc_state net :=
  let '(sz, data, s) := linux_receive_buf s len in
  (sz, mk_svc (svr_ctx s) (received (buf s) data) (sys s) (sock s)).

(** The command LOAD.  The length counts the 16 bytes of the signature, which
    is received and not looked at; neither is what the receives return.  A
    null packet faults when it is written or read. *)
Definition load_command (s : svc_state net) : option (svc_state net) :=
  let '(_, s) := receive_static s 2 in
  len ← byte2int (buf s) 2;
  let pkt_len := len - 16 in
  pkt ← malloc_pkt (u32 pkt_len);
  let '(_, _, s) := linux_receive_buf s 16 in
  let '(_, data, s) := linux_receive_buf s (u32 pkt_len) in
  d ← desc_of_packet (received pkt data);
  let desc := alloc_desc (descs (sys s)) in
  c ← notify_new_patch kstray vstray junk alloc_env malloc_vm iot alloc_patch REMAP_ADDR FPB_Handler
        (with_descs (sys s) (<[desc := d]> (descs (sys s)))) desc;
  Some (mk_svc (svr_ctx s) (buf s) c (sock s)).

Definition dispatch_patch_command (s : svc_state net) (cmd : Z) : option (svc_state net) :=
  if cmd =? EXIT then Some (linux_dis_connect s)
  else if cmd =? LOAD then load_command s
  else if cmd =? HEARTBEAT then
    let s := with_status s RUNNING in
    let '(sz, s) := linux_send_buf s [HEARTBEAT] in
    Some (if negb (sz =? 1) then linux_dis_connect s else s)
  else Some s.

Inductive loop_result := Finished (s : svc_state net) | Fault | Waiting (s : svc_state net).

(** [fuel] turns of the loop. *)
Fixpoint wait_for_patch (fuel : nat) (s : svc_state net) : loop_result :=
  match fuel with
  | O => Waiting s
  | S fuel =>
      if negb (status (svr_ctx s) =? RUNNING) then Finished s
      else
        let '(sz, s) := receive_static s 1 in
        if negb (sz =? 1) then Finished (linux_dis_connect s)
        else
          match byte2int (buf s) 1 with
          | Some cmd =>
              match dispatch_patch_command s cmd with
              | Some s => wait_for_patch fuel s
              | None => Fault
              end
          | None => Fault
          end
  end.

(** [connected]: the descriptor and the stream, when socket and connect
    succeed. *)
Definition linux_setup_connect (connected : option (Z * net)) (s : svc_state net) : bool * svc_state net :=
  match connected with
  | None => (false, s)
  | Some (fd, n) => (true, mk_svc {| pos := pos (svr_ctx s); sockfd := fd; status := RUNNING |} (buf s) (sys s) n)
  end.

Definition run_patch_task (connected : option (Z * net)) (fuel : nat) (s : svc_state net) : loop_result :=
  let '(ok, s) := linux_setup_connect connected s in
  if ok : bool then wait_for_patch fuel s else Finished s.

(** Whether the thread that runs [run_patch_task] is started. *)
Definition linux_patch_service_init (s : svc_state net) : bool := status (svr_ctx s) =? WAIT_FOR_INIT.

Definition start_patch_service (s : svc_state net) : option (bool * svc_state net) :=
  c ← init_patch_sys vstray junk (sys s);
  let s := mk_svc (svr_ctx s) (buf s) c (sock s) in
  Some (linux_patch_service_init s, s).
End Service.

(** ** What the server sends *)

(** PatchPacket of the update server: the header, little endian, and the code. *)
Definition patch_packet (d : patch_desc) : list Z :=
  le_bytes 2 (pd_type d) ++ le_bytes 2 (pd_code_len d) ++ le_bytes 4 (pd_addr d) ++ pd_code d.

Definition desc_wf (d : patch_desc) : Prop :=
  0 <= pd_type d < 2 ^ 16 /\ 0 <= pd_code_len d < 2 ^ 16 /\ 0 <= pd_addr d < 2 ^ 32.

Lemma byte_of_div (k x : Z) : 0 <= k -> byte_of k x = x / 2 ^ (8 * k) mod 256.
Proof. intros Hk. unfold byte_of. change 255 with (Z.ones 8). rewrite Z.land_ones, Z.shiftr_div_pow2 by lia. reflexivity. Qed.

Lemma desc_of_patch_packet (d : patch_desc) : desc_wf d -> desc_of_packet (patch_packet d) = Some d.
Proof.
  destruct d as [t c a code]. unfold desc_wf, patch_packet, le_bytes. cbn [pd_type pd_code_len pd_addr pd_code]. intros (Ht & Hc & Ha).
  cbn [seq map app desc_of_packet]. rewrite !byte_of_div by lia. cbn [Z.of_nat Pos.of_succ_nat Pos.succ Z.mul Pos.mul Pos.add].
  f_equal. f_equal.
  - change (2 ^ 0) with 1. change (2 ^ 8) with 256. Z.to_euclidean_division_equations. lia.
  - change (2 ^ 0) with 1. change (2 ^ 8) with 256. Z.to_euclidean_division_equations. lia.
  - change (2 ^ 0) with 1. change (2 ^ 8) with 256. change (2 ^ 16) with 65536. change (2 ^ 24) with 16777216.
    Z.to_euclidean_division_equations. lia.
Qed.

Lemma length_patch_packet (d : patch_desc) : length (patch_packet d) = (8 + length (pd_code d))%nat.
Proof. unfold patch_packet. rewrite !length_app. reflexivity. Qed.

Lemma received_all (old data : list Z) : length old = length data -> received old data = data.
Proof. intros Hl. unfold received. rewrite drop_ge by lia. apply app_nil_r. Qed.

(** ** The loop ends *)

Section Props.
Context {net : Type} `{Socket net} {laws : SocketLaws net}.
Context (malloc_pkt : Z -> option (list Z)).
Context (kstray vstray junk : Z -> Z).
Context (alloc_env : gmap Z ebpf_helper_env -> Z) (malloc_vm : option ebpf_vm) (iot : iot_helpers).
Context (alloc_patch : gmap Z ebpf_patch -> Z) (alloc_desc : gmap Z patch_desc -> Z).
Context (REMAP_ADDR : Z) (FPB_Handler : list Z).

Local Abbreviation load := (load_command malloc_pkt kstray vstray junk alloc_env malloc_vm iot alloc_patch alloc_desc REMAP_ADDR FPB_Handler).
Local Abbreviation dispatch := (dispatch_patch_command malloc_pkt kstray vstray junk alloc_env malloc_vm iot alloc_patch alloc_desc REMAP_ADDR FPB_Handler).
Local Abbreviation wait := (wait_for_patch malloc_pkt kstray vstray junk alloc_env malloc_vm iot alloc_patch alloc_desc REMAP_ADDR FPB_Handler).
Local Abbreviation notify := (notify_new_patch kstray vstray junk alloc_env malloc_vm iot alloc_patch REMAP_ADDR FPB_Handler).

Lemma receive_pending (s s' : svc_state net) (len r : Z) (data : list Z) :
  linux_receive_buf s len = (r, data, s') -> (pending (sock s') + length data <= pending (sock s))%nat.
Proof.
  unfold linux_receive_buf. destruct (recv (sock s) len) as [[r0 d0] n] eqn:E. intros [= <- <- <-].
  exact (recv_pending _ _ _ _ _ E).
Qed.

Lemma dis_connect_pending (s : svc_state net) : (pending (sock (linux_dis_connect s)) <= pending (sock s))%nat.
Proof. unfold linux_dis_connect. destruct (negb _); [apply close_pending|done]. Qed.

Lemma load_pending (s s' : svc_state net) : load s = Some s' -> (pending (sock s') <= pending (sock s))%nat.
Proof.
  unfold load_command, receive_static. destruct (linux_receive_buf s 2) as [[r1 d1] s1] eqn:E1.
  apply receive_pending in E1. cbn [buf sys svr_ctx sock]. destruct (byte2int _ 2); [|done]. cbn [mbind option_bind].
  destruct (malloc_pkt _) as [pkt|]; [|done]. cbn [mbind option_bind].
  destruct (linux_receive_buf _ 16) as [[r2 d2] s2] eqn:E2. apply receive_pending in E2. cbn [sock] in E2.
  destruct (linux_receive_buf s2 _) as [[r3 d3] s3] eqn:E3. apply receive_pending in E3.
  destruct (desc_of_packet _); [|done]. cbn [mbind option_bind]. destruct (notify _ _); [|done].
  cbn [mbind option_bind]. intros [= <-]. cbn [sock]. lia.
Qed.

Lemma dispatch_pending (s s' : svc_state net) (cmd : Z) :
  dispatch s cmd = Some s' -> (pending (sock s') <= pending (sock s))%nat.
Proof.
  unfold dispatch_patch_command. destruct (cmd =? EXIT); [intros [= <-]; apply dis_connect_pending|].
  destruct (cmd =? LOAD); [apply load_pending|]. destruct (cmd =? HEARTBEAT); [|by intros [= <-]].
  unfold linux_send_buf. destruct (send _ _) as [r n] eqn:E. apply send_pending in E. cbn [with_status sock] in E.
  intros [= <-]. destruct (negb _); [|exact E]. etransitivity; [apply dis_connect_pending|exact E].
Qed.

(** A turn of the loop that goes on has received a byte. *)
Lemma turn_receives (s s' : svc_state net) (sz : Z) :
  receive_static s 1 = (sz, s') -> (sz =? 1) = true -> (pending (sock s') < pending (sock s))%nat.
Proof.
  unfold receive_static, linux_receive_buf. destruct (recv (sock s) 1) as [[r data] n] eqn:E. intros [= <- <-] Hsz.
  cbn [sock with_sock]. pose proof (recv_pending _ _ _ _ _ E) as Hp.
  destruct (recv_count _ _ 1 _ _ ltac:(lia) E) as [[-> ->] | [-> Hr]]; [done|].
  apply Z.eqb_eq in Hsz. rewrite u32_small in Hsz by lia. lia.
Qed.

(** C17: the service loop ends: with as many turns as the peer will send bytes,
    and one more, it has returned (on EXIT, on a failed receive or send, or
    when the connection is down) or faulted. *)
Theorem wait_for_patch_ends (s s' : svc_state net) (fuel : nat) :
  (pending (sock s) < fuel)%nat -> wait fuel s <> Waiting s'.
Proof.
  revert s. induction fuel as [|fuel IH]; intros s Hf; [lia|]. cbn [wait_for_patch].
  destruct (negb _); [done|]. destruct (receive_static s 1) as [sz s1] eqn:E1.
  destruct (sz =? 1) eqn:Hsz; cbn [negb]; [|done]. pose proof (turn_receives s s1 sz E1 Hsz) as Hlt.
  destruct (byte2int _ 1) as [cmd|]; [|done]. destruct (dispatch s1 cmd) as [s2|] eqn:E2; [|done].
  apply dispatch_pending in E2. apply IH. lia.
Qed.

(** No signature is verified: two downloads that differ only in the
    signature that comes with the packet (and in how its receive went) have
    the same effect, whatever it is. *)
Theorem load_ignores_signature (s : svc_state net) (n1 n2 n3 n3' n4 : net) (r r' r1 : Z) (hdr sign sign' : list Z) :
  recv n1 2 = (r1, hdr, n3) -> recv n2 2 = (r1, hdr, n3') ->
  recv n3 16 = (r, sign, n4) -> recv n3' 16 = (r', sign', n4) ->
  dispatch (with_sock s n1) LOAD = dispatch (with_sock s n2) LOAD.
Proof.
  intros E1 E2 E3 E4. unfold dispatch_patch_command. change (LOAD =? EXIT) with false. change (LOAD =? LOAD) with true. cbv iota.
  unfold load_command, receive_static, linux_receive_buf. cbn [sock with_sock buf svr_ctx sys]. rewrite E1, E2.
  cbn [sock with_sock buf svr_ctx sys]. destruct (byte2int _ 2); [|done]. cbn [mbind option_bind].
  destruct (malloc_pkt _); [|done]. cbn [mbind option_bind]. rewrite E3, E4. reflexivity.
Qed.

(** ** A download *)

(** A descriptor at an address not in use changes nothing for the tables. *)
Lemma ctx_wf_new_desc (s : ctx_state) (m : arraymap) (desc : Z) (d : patch_desc) :
  ctx_wf s m -> descs s !! desc = None ->
  let s' := with_descs s (<[desc := d]> (descs s)) in
  ctx_wf s' m /\ forall lr, get_fixed_patch_by_lr kstray vstray s' lr = get_fixed_patch_by_lr kstray vstray s lr.
Proof.
  intros [Hl Ham Hf Hd Hfi] Hfresh s'. split; [|done]. split; [done|done| |done|done].
  intros k q E. destruct (Hf k q E) as (Hne & e & He & Hk). split; [done|]. exists e. split; [|done].
  unfold desc_of, s' in *. cbn [with_descs patches descs]. destruct (patches s !! q) as [p|]; [|done].
  cbn [mbind option_bind] in *. rewrite lookup_insert_ne; [done|]. intros ->. congruence.
Qed.

(** The bytes of the download [d] signed [sign], as one receive each. *)
Record delivers (n0 : net) (sign : list Z) (d : patch_desc) (n4 : net) : Prop := {
  pkt_len := Z.of_nat (length (patch_packet d));
  deliver_small : 16 + pkt_len < 2 ^ 16;
  delivery : exists n1 n2 n3,
    recv n0 1 = (1, [LOAD], n1)
    /\ recv n1 2 = (2, [(16 + pkt_len) / 256; (16 + pkt_len) mod 256], n2)
    /\ recv n2 16 = (16, sign, n3) /\ recv n3 pkt_len = (pkt_len, patch_packet d, n4) }.

Lemma load_packet (s : svc_state net) (n1 n2 n3 n4 : net) (sign old : list Z) (d : patch_desc) :
  desc_wf d -> let len := Z.of_nat (length (patch_packet d)) in 16 + len < 2 ^ 16 ->
  sock s = n1 -> recv n1 2 = (2, [(16 + len) / 256; (16 + len) mod 256], n2) ->
  recv n2 16 = (16, sign, n3) -> recv n3 len = (len, patch_packet d, n4) ->
  malloc_pkt len = Some old -> length old = length (patch_packet d) ->
  exists buf', load s =
    (c ← notify (with_descs (sys s) (<[alloc_desc (descs (sys s)) := d]> (descs (sys s)))) (alloc_desc (descs (sys s)));
     Some (mk_svc (svr_ctx s) buf' c n4)).
Proof.
  intros Hd len Hlen Hs E2 E3 E4 Hm Hold. exists (received (buf s) [(16 + len) / 256; (16 + len) mod 256]).
  unfold load_command, receive_static, linux_receive_buf. rewrite Hs, E2. cbn [sock with_sock buf svr_ctx sys received app].
  rewrite byte2int_big_endian by lia. cbn [mbind option_bind].
  replace (16 + len - 16) with len by lia. rewrite (u32_small len), Hm by lia. cbn [mbind option_bind].
  rewrite E3. cbn [sock with_sock buf svr_ctx sys]. rewrite E4. cbn [sock with_sock buf svr_ctx sys].
  rewrite received_all, desc_of_patch_packet by done. reflexivity.
Qed.

(** C15: a patch the server sends is installed: when the bytes of a download
    arrive, each field of it in one receive that gets all of it, a turn of the
    service loop takes them off the stream and the fixed patch is then the one
    found at its address; the other addresses keep theirs, the tables are
    sound, and the service is still connected.  This is for an address the
    table can place (the table is empty or the address is above its first one,
    and is not by chance the word after it), in a table of fewer than
    2^16 - MAP_GROW places. *)
Theorem service_installs_patch (s : svc_state net) (m : arraymap) (sign old : list Z) (d : patch_desc) (n4 : net) (fuel : nat) :
  status (svr_ctx s) = RUNNING -> delivers (sock s) sign d n4 -> desc_wf d -> pd_type d = FixedPatchPoint ->
  malloc_pkt (Z.of_nat (length (patch_packet d))) = Some old -> length old = length (patch_packet d) ->
  descs (sys s) !! alloc_desc (descs (sys s)) = None ->
  (forall e, alloc_env e <> 0) -> (forall ps, alloc_patch ps <> 0 /\ ps !! alloc_patch ps = None) ->
  ctx_wf (sys s) m -> malloc_vm <> None -> helpers_wf (helpers (sys s)) ->
  am_max_size m + MAP_GROW < 2 ^ 16 -> placeable kstray m (pd_addr d) ->
  exists s' m' patch,
    wait (S fuel) s = wait fuel s' /\ status (svr_ctx s') = RUNNING /\ sock s' = n4 /\ ctx_wf (sys s') m'
    /\ desc_of (sys s') patch = Some d
    /\ get_fixed_patch_by_lr kstray vstray (sys s') (pd_addr d) = Some patch
    /\ forall lr, lr <> pd_addr d ->
         get_fixed_patch_by_lr kstray vstray (sys s') lr = get_fixed_patch_by_lr kstray vstray (sys s) lr.
Proof.
  intros Hst [len Hlen (n1 & n2 & n3 & E1 & E2 & E3 & E4)] Hd Ht Hm Hold Hfresh Hae Hap Hwf Hvm Hh Hgrow Hpl.
  cbn [wait_for_patch]. rewrite Hst. change (negb (RUNNING =? RUNNING)) with false. cbv iota.
  unfold receive_static at 1, linux_receive_buf. rewrite E1. cbn [sock with_sock buf svr_ctx sys].
  change (negb (u32 1 =? 1)) with false. cbv iota. unfold received. cbn [app]. rewrite byte2int_one by (unfold LOAD; lia).
  unfold dispatch_patch_command. change (LOAD =? EXIT) with false. change (LOAD =? LOAD) with true. cbv iota.
  set (s1 := mk_svc _ _ _ n1).
  destruct (load_packet s1 n1 n2 n3 n4 sign old d Hd Hlen eq_refl E2 E3 E4 Hm Hold) as (buf' & Hload). rewrite Hload.
  change (sys s1) with (sys s). set (desc := alloc_desc (descs (sys s))) in *.
  destruct (ctx_wf_new_desc (sys s) m desc d Hwf Hfresh) as [Hwf1 Hget]. set (c1 := with_descs _ _) in *.
  destruct (notify_new_fixed_spec kstray vstray junk alloc_env malloc_vm iot alloc_patch REMAP_ADDR FPB_Handler Hae Hap
    c1 m desc d Hwf1 (lookup_insert_eq _ _ _) Ht Hvm Hh Hgrow Hpl) as (c' & m' & patch & Hn & Hwf' & Hdesc & Hfound & Hother).
  rewrite Hn. cbn [mbind option_bind].
  exists (mk_svc (svr_ctx s) buf' c' n4), m', patch. cbn [svr_ctx sys sock]. split; [reflexivity|].
  split; [exact Hst|]. split; [done|]. split; [exact Hwf'|]. split; [exact Hdesc|]. split; [exact Hfound|].
  intros lr Hlr. rewrite (Hother lr Hlr). apply Hget.
Qed.

(** A length below the 24 bytes of signature and header is not refused:
    the length of the packet goes below zero, or the header is read past the
    packet, and the service faults, whatever it then receives. *)
Theorem load_short_length_faults (s : svc_state net) (len r : Z) (n1 : net) :
  0 <= len < 24 -> recv (sock s) 2 = (r, [len / 256; len mod 256], n1) ->
  (forall n, 2 ^ 31 <= n -> malloc_pkt n = None) -> (forall n pkt, 0 <= n -> malloc_pkt n = Some pkt -> Z.of_nat (length pkt) = n) ->
  dispatch s LOAD = None.
Proof.
  intros Hlen E1 Hbig Hsize. unfold dispatch_patch_command. change (LOAD =? EXIT) with false. change (LOAD =? LOAD) with true. cbv iota.
  unfold load_command, receive_static, linux_receive_buf. rewrite E1. cbn [sock with_sock buf svr_ctx sys received app].
  rewrite byte2int_big_endian by lia. cbn [mbind option_bind]. destruct (Z.ltb_spec len 16).
  { rewrite Hbig; [done|]. unfold u32, wrap. replace (len - 16) with (len - 16 + 2 ^ 32 + (-1) * 2 ^ 32) by lia.
    rewrite Z.mod_add, Z.mod_small by lia. lia. }
  rewrite (u32_small (len - 16)) by lia. destruct (malloc_pkt (len - 16)) as [pkt|] eqn:Ep; [|done]. cbn [mbind option_bind].
  apply Hsize in Ep; [|lia]. destruct (recv n1 16) as [[r2 d2] n2] eqn:E2. cbn [sock with_sock].
  destruct (recv n2 (len - 16)) as [[r3 d3] n3] eqn:E3. cbn [sock with_sock].
  assert (length (received pkt d3) < 8)%nat as Hshort.
  { unfold received. rewrite length_app, length_drop. destruct (recv_count _ _ (len - 16) _ _ ltac:(lia) E3) as [[_ ->] | [-> Hr]]; cbn [length]; lia. }
  set (l := received pkt d3) in *. clearbody l.
  do 8 (destruct l as [|? l]; [reflexivity|cbn [length] in Hshort]). lia.
Qed.
End Props.

(** ** A stream that arrives in pieces: the instance, and the witnesses

    A receive takes what it can of the first piece; 0 when nothing is left. *)

Definition chunks : Type := list (list Z).

Definition recv_chunk (n : chunks) (len : Z) : Z * list Z * chunks :=
  match n with
  | [] => (0, [], [])
  | c :: n =>
      let data := take (Z.to_nat len) c in
      let rest := drop (Z.to_nat len) c in
      (Z.of_nat (length data), data, match rest with [] => n | _ => rest :: n end)
  end.

#[export] Instance chunks_socket : Socket chunks :=
  { recv := recv_chunk; send n bytes := (Z.of_nat (length bytes), n); close _ := []; pending n := length (concat n) }.

Lemma recv_chunk_pending (n : chunks) (len : Z) :
  (length (concat (snd (recv_chunk n len))) + length (snd (fst (recv_chunk n len))))%nat = length (concat n).
Proof.
  destruct n as [|c n]; [done|]. cbn [recv_chunk fst snd concat]. rewrite length_app, length_take.
  destruct (drop (Z.to_nat len) c) as [|x rest] eqn:E; pose proof (f_equal length E) as El; rewrite length_drop in El;
    cbn [concat length] in *; rewrite ?length_app; cbn [length]; lia.
Qed.

#[export] Instance chunks_laws : SocketLaws chunks.
Proof.
  split.
  - intros n n' len r data Hlen E. right. cbn [recv chunks_socket] in E. destruct n as [|c n].
    { injection E as <- <- _. split; [done|lia]. }
    injection E as <- <- _. split; [done|]. rewrite length_take. lia.
  - intros n n' len r data E. cbn [recv pending chunks_socket] in *. pose proof (recv_chunk_pending n len) as Hp.
    rewrite E in Hp. cbn [fst snd] in Hp. lia.
  - intros n n' bytes r [= _ <-]. done.
  - intros n. cbn [close pending chunks_socket concat length]. lia.
Qed.

Definition no_stray (_ : Z) : Z := 0.
Definition malloc_zeros (n : Z) : option (list Z) := if n <? 2 ^ 31 then Some (replicate (Z.to_nat n) 0) else None.
Definition new_desc (_ : gmap Z patch_desc) : Z := 40.

Definition svc_sample (n : chunks) : svc_state chunks :=
  mk_svc {| pos := 0; sockfd := 3; status := RUNNING |} [0; 0; 0; 0] (ctx_sample []) n.

Local Abbreviation sample_wait :=
  (wait_for_patch malloc_zeros no_stray no_stray no_stray next_address (Some garbage_vm) iot_sample fresh_patch new_desc 0x20000000 []).
Local Abbreviation sample_dispatch :=
  (dispatch_patch_command malloc_zeros no_stray no_stray no_stray next_address (Some garbage_vm) iot_sample fresh_patch new_desc 0x20000000 []).

Definition signature : list Z := replicate 16 115.
Definition download (d : patch_desc) (sign : list Z) : chunks :=
  let len := Z.of_nat (length (patch_packet d)) in
  [[LOAD]; [(16 + len) / 256; (16 + len) mod 256]; sign; patch_packet d].

Lemma malloc_zeros_length (n : Z) (pkt : list Z) : 0 <= n -> malloc_zeros n = Some pkt -> Z.of_nat (length pkt) = n.
Proof. unfold malloc_zeros. intros Hn. destruct (n <? 2 ^ 31); [|done]. intros [= <-]. rewrite length_replicate. lia. Qed.

Lemma wait_for_patch_ends_witness : exists r, sample_wait 9 (svc_sample [[2; 2]; [0; 1; 2]]) = r /\ r <> Waiting (svc_sample []).
Proof.
  eexists. split; [reflexivity|]. apply wait_for_patch_ends. vm_compute. lia.
Defined.

Lemma load_ignores_signature_witness :
  sample_dispatch (with_sock (svc_sample []) (tail (download (fixed_desc 0x08000200) signature))) LOAD
  = sample_dispatch (with_sock (svc_sample []) (tail (download (fixed_desc 0x08000200) []))) LOAD.
Proof.
  apply (load_ignores_signature malloc_zeros no_stray no_stray no_stray next_address (Some garbage_vm) iot_sample fresh_patch new_desc 0x20000000 []
    (svc_sample []) _ _ [signature; patch_packet (fixed_desc 0x08000200)] [[]; patch_packet (fixed_desc 0x08000200)]
    [patch_packet (fixed_desc 0x08000200)] 16 0 2 [0; 24] signature []); vm_compute; reflexivity.
Defined.

Lemma service_installs_patch_witness :
  exists s' patch, sample_wait 1 (svc_sample (download (fixed_desc 0x08000200) signature)) = Waiting s'
    /\ get_fixed_patch_by_lr no_stray no_stray (sys s') 0x08000200 = Some patch.
Proof.
  destruct (service_installs_patch malloc_zeros no_stray no_stray no_stray next_address (Some garbage_vm) iot_sample fresh_patch new_desc 0x20000000 []
    (svc_sample (download (fixed_desc 0x08000200) signature)) map_sample signature (replicate 8 0) (fixed_desc 0x08000200) [] 0)
    as (s' & m' & patch & Hw & _ & _ & _ & _ & Hg & _).
  - reflexivity.
  - split; [reflexivity|]. eexists _, _, _. split; [vm_compute; reflexivity|]. split; [vm_compute; reflexivity|].
    split; vm_compute; reflexivity.
  - split; [|split]; split; vm_compute; (reflexivity || discriminate).
  - reflexivity.
  - vm_compute. reflexivity.
  - reflexivity.
  - vm_compute. reflexivity.
  - exact next_address_nonzero.
  - exact fresh_patch_ok.
  - exact ctx_sample_wf.
  - discriminate.
  - exact helpers_none_wf.
  - reflexivity.
  - right. split; [reflexivity|]. split; [exists 0x08000100; split; reflexivity|discriminate].
  - exists s', patch. split; [exact Hw|exact Hg].
Defined.

Lemma load_short_length_faults_witness : sample_dispatch (svc_sample [[0; 20]; signature]) LOAD = None.
Proof.
  apply (load_short_length_faults malloc_zeros no_stray no_stray no_stray next_address (Some garbage_vm) iot_sample fresh_patch new_desc 0x20000000 []
    (svc_sample [[0; 20]; signature]) 20 2 [signature]).
  - lia.
  - vm_compute. reflexivity.
  - intros n Hn. unfold malloc_zeros. by destruct (Z.ltb_spec n (2 ^ 31)); [lia|].
  - exact malloc_zeros_length.
Defined.
