(* ===== verification/Shell.v ===== *)
(** * The shell (app/ihp_cli.c)

    The line buffer, the splitting of a line into arguments, and the
    commands.  What a command does to the rest of the program is the interface
    [Handlers]; the handler of `patch` is given for the loaders of
    [LocalPatch].  Characters are their codes.  [None] is a fault: an access
    outside the buffer or a table, or in a handler. *)

From S2P Require Import Prelude Utils Mem EbpfInst EbpfVm Vm Hashmap Fpb PatchCtx PatchCtxProps Dispatch DispatchProps LocalPatch.

Definition SHELL_BUFFER_SIZE : Z := 128.

(** Characters and words the code compares with. *)
Definition LF : Z := 10.
Definition CR : Z := 13.
Definition SPACE : Z := 32.
Definition NUL : Z := 0.
Definition str_q : list Z := [113].
Definition str_h : list Z := [104].
Definition str_help : list Z := [104; 101; 108; 112].
Definition str_run : list Z := [114; 117; 110].
Definition str_trigger : list Z := [116; 114; 105; 103; 103; 101; 114].
Definition str_patch : list Z := [112; 97; 116; 99; 104].
Definition str_vm : list Z := [118; 109].
Definition str_transfer : list Z := [116; 114; 97; 110; 115; 102; 101; 114].
Definition SHELL_PROMPT : list Z := [36; 32].

(** What the commands do to the rest of the program, the output included. *)
Class Handlers (St : Type) := {
  shell_put_char : Z -> St -> St;
  cli_print_help : St -> option St;
  run_test_by_id : Z -> St -> option St;
  handle_trigger_func : Z -> St -> option St;
  handle_patch_func : Z -> St -> option St;
  show_patch_list : St -> option St;
  handle_eBPF_vm_run_patch : Z -> St -> option St;
  transfer_patch : St -> option St;
  shell_print : list Z -> St -> St }.

Record shell_context := { rx_pos : Z; rx_buffer : list Z }.

Record shell (St : Type) := mk_shell { shell_cli : shell_context; exit_shell : bool; rest : St }.
Arguments mk_shell {St}. Arguments shell_cli {St}. Arguments exit_shell {St}. Arguments rest {St}.

Section Shell.
Context {St : Type} `{Handlers St}.

Definition with_rest (s : shell St) (r : St) : shell St := mk_shell (shell_cli s) (exit_shell s) r.

Definition shell_echo (c : Z) (r : St) : St :=
  if c =? LF then shell_put_char LF (shell_put_char CR r) else shell_put_char c r.

(** A string without its NUL. *)
Definition shell_echo_str (str : list Z) (r : St) : St := fold_left (fun r c => shell_echo c r) str r.

Definition shell_last_char (c : shell_context) : option Z := zget (rx_buffer c) (rx_pos c - 1).

Definition str_eq (a b : list Z) : bool := bool_decide (a = b).

(** A command that takes a number; [usage] is what it does without one. *)
Definition with_number (args : list (list Z)) (cmd : Z -> St -> option St) (usage : St -> option St) (r : St) : option St :=
  match args with
  | _ :: a :: _ => n ← str2int a; cmd n r
  | _ => usage r
  end.

(** argv is not empty.  The usage messages are printed, or logged. *)
Definition shell_dispatch_cmd (argv : list (list Z)) (s : shell St) : option (shell St) :=
  argv0 ← head argv;
  if str_eq argv0 str_q then Some (mk_shell (shell_cli s) true (rest s))
  else
    r ← (if str_eq argv0 str_h || str_eq argv0 str_help then cli_print_help (rest s)
         else if str_eq argv0 str_run then with_number argv run_test_by_id Some (rest s)
         else if str_eq argv0 str_trigger then with_number argv handle_trigger_func (fun r => Some (shell_print str_trigger r)) (rest s)
         else if str_eq argv0 str_patch then
           with_number argv handle_patch_func (fun r => show_patch_list (shell_print str_patch r)) (rest s)
         else if str_eq argv0 str_vm then with_number argv handle_eBPF_vm_run_patch (fun r => Some (shell_print str_vm r)) (rest s)
         else if str_eq argv0 str_transfer then transfer_patch (rest s)
         else Some (rest s));
    Some (with_rest s r).

Definition max_args : Z := 5.

(** The loop of shell_process from index [i], with [n] characters to go: the
    buffer with the ends of the arguments set to NUL, and the indices of the
    arguments. *)
Fixpoint parse_args (n : nat) (i : Z) (buf : list Z) (argv : list Z) (next_arg : option Z) : option (list Z * list Z) :=
  match n with
  | O => Some (buf, argv)
  | S n' =>
      if Z.of_nat (length argv) <? max_args then
        cur ← zget buf i;
        if (cur =? LF) || (cur =? SPACE) || Nat.eqb n 1 then
          buf ← zset buf i NUL;
          match next_arg with
          | Some a => parse_args n' (i + 1) buf (argv ++ [a]) None
          | None => parse_args n' (i + 1) buf argv None
          end
        else
          match next_arg with
          | Some _ => parse_args n' (i + 1) buf argv next_arg
          | None => parse_args n' (i + 1) buf argv (Some i)
          end
      else Some (buf, argv)
  end.

(** The string at an index of the buffer, up to its NUL. *)
Fixpoint c_string (cs : list Z) : list Z :=
  match cs with
  | [] => []
  | c :: cs => if c =? NUL then [] else c :: c_string cs
  end.
Definition arg_at (buf : list Z) (i : Z) : list Z := c_string (drop (Z.to_nat i) buf).

Definition empty_cli : shell_context := {| rx_pos := 0; rx_buffer := repeat 0 (Z.to_nat SHELL_BUFFER_SIZE) |}.

Definition shell_process (s : shell St) : option (shell St) :=
  last ← shell_last_char (shell_cli s);
  if negb (last =? LF) && negb (last =? CR) then Some s
  else
    r ← parse_args (Z.to_nat (rx_pos (shell_cli s))) 0 (rx_buffer (shell_cli s)) [] None;
    let '(buf, argv) := r in
    let s := mk_shell {| rx_pos := rx_pos (shell_cli s); rx_buffer := buf |} (exit_shell s) (rest s) in
    s ← (if 0 <? Z.of_nat (length argv) then shell_dispatch_cmd (map (arg_at buf) argv) s else Some s);
    Some (mk_shell empty_cli (exit_shell s) (shell_echo_str SHELL_PROMPT (rest s))).

Definition shell_receive_char (c : Z) (s : shell St) : option (shell St) :=
  let s := with_rest s (shell_put_char c (rest s)) in
  if (c =? CR) || (SHELL_BUFFER_SIZE <=? rx_pos (shell_cli s)) then Some s
  else
    buf ← zset (rx_buffer (shell_cli s)) (rx_pos (shell_cli s)) c;
    shell_process (mk_shell {| rx_pos := rx_pos (shell_cli s) + 1; rx_buffer := buf |} (exit_shell s) (rest s)).

(** The loop of run_shell_cli on the characters that arrive. *)
Fixpoint run_shell (cs : list Z) (s : shell St) : option (shell St) :=
  match cs with
  | [] => Some s
  | c :: cs => if exit_shell s then Some s else s ← shell_receive_char c s; run_shell cs s
  end.

Definition run_shell_cli (cs : list Z) (s : shell St) : option (shell St) :=
  r ← cli_print_help (rest s);
  run_shell cs (mk_shell empty_cli false (shell_echo_str SHELL_PROMPT r)).
End Shell.

(** ** Splitting a line *)

Definition is_sep (c : Z) : bool := (c =? LF) || (c =? SPACE).

(** The words of a line, with [cur] read of the first one. *)
Fixpoint words_of (cur : list Z) (cs : list Z) : list (list Z) :=
  match cs with
  | [] => if Nat.eqb (length cur) 0 then [] else [cur]
  | c :: cs =>
      if is_sep c then (if Nat.eqb (length cur) 0 then [] else [cur]) ++ words_of [] cs
      else words_of (cur ++ [c]) cs
  end.

Lemma zget_middle {A} (pre post : list A) (x : A) : zget (pre ++ x :: post) (Z.of_nat (length pre)) = Some x.
Proof. unfold zget. destruct (Z.ltb_spec (Z.of_nat (length pre)) 0); [lia|]. rewrite Nat2Z.id. by apply list_lookup_middle. Qed.

Lemma zset_middle {A} (pre post : list A) (x y : A) :
  zset (pre ++ x :: post) (Z.of_nat (length pre)) y = Some (pre ++ y :: post).
Proof.
  rewrite zset_is_Some by (rewrite length_app; cbn [length]; lia). rewrite Nat2Z.id, insert_app_r_alt by lia.
  by rewrite Nat.sub_diag.
Qed.

Lemma c_string_app (w q : list Z) : Forall (fun c => c <> NUL) w -> c_string (w ++ NUL :: q) = w.
Proof.
  induction 1 as [|c w Hc _ IH]; cbn [app c_string]; [done|]. destruct (Z.eqb_spec c NUL); [done|]. by rewrite IH.
Qed.

(** The argument at index [a] is [w], and its NUL is in [pre]. *)
Definition arg_ok (pre : list Z) (a : Z) (w : list Z) : Prop :=
  exists p q, pre = p ++ w ++ NUL :: q /\ a = Z.of_nat (length p) /\ Forall (fun c => c <> NUL) w.

Lemma arg_ok_app (pre x : list Z) (a : Z) (w : list Z) : arg_ok pre a w -> arg_ok (pre ++ x) a w.
Proof. intros (p & q & -> & -> & Hw). exists p, (q ++ x). by rewrite <- !app_assoc. Qed.

Lemma args_ok_app (pre x : list Z) (argv : list Z) (ws : list (list Z)) :
  Forall2 (arg_ok pre) argv ws -> Forall2 (arg_ok (pre ++ x)) argv ws.
Proof. intros H. eapply Forall2_impl; [|exact H]. intros a w. apply arg_ok_app. Qed.

Lemma args_strings (pre x : list Z) (argv : list Z) (ws : list (list Z)) :
  Forall2 (arg_ok pre) argv ws -> map (arg_at (pre ++ x)) argv = ws.
Proof.
  induction 1 as [|a w argv ws (p & q & -> & -> & Hw) _ IH]; [done|]. cbn [map]. f_equal; [|exact IH].
  unfold arg_at. rewrite Nat2Z.id, <- app_assoc, drop_app_length, <- app_assoc. cbn [app]. by apply c_string_app.
Qed.

(** What the pointer [next_arg] says: the word [cur] ends the part that is
    read. *)
Definition next_ok (pre : list Z) (next : option Z) (cur : list Z) : Prop :=
  match next with
  | None => cur = []
  | Some a => cur <> [] /\ exists p, pre = p ++ cur /\ a = Z.of_nat (length p)
  end.

Lemma parse_args_S (n : nat) (i : Z) (buf argv : list Z) (next_arg : option Z) :
  parse_args (S n) i buf argv next_arg =
  (if Z.of_nat (length argv) <? max_args then
     cur ← zget buf i;
     if (cur =? LF) || (cur =? SPACE) || Nat.eqb n 0 then
       buf ← zset buf i NUL;
       match next_arg with
       | Some a => parse_args n (i + 1) buf (argv ++ [a]) None
       | None => parse_args n (i + 1) buf argv None
       end
     else
       match next_arg with
       | Some _ => parse_args n (i + 1) buf argv next_arg
       | None => parse_args n (i + 1) buf argv (Some i)
       end
   else Some (buf, argv)).
Proof. reflexivity. Qed.

Lemma parse_args_spec (t : Z) (tail : list Z) (cs : list Z) :
  Forall (fun c => c <> NUL) cs ->
  forall pre argv next cur ws,
    Forall2 (arg_ok pre) argv ws -> Forall (fun c => c <> NUL) cur -> next_ok pre next cur -> (length argv <= 5)%nat ->
    exists buf argv', parse_args (S (length cs)) (Z.of_nat (length pre)) (pre ++ cs ++ t :: tail) argv next = Some (buf, argv')
      /\ map (arg_at buf) argv' = take 5 (ws ++ words_of cur cs).
Proof.
  induction 1 as [|c cs Hc _ IH]; intros pre argv next cur ws Hargs Hcur Hnext Hlen;
    rewrite parse_args_S; cbn [length app]; (destruct (Z.ltb_spec (Z.of_nat (length argv)) max_args) as [Hlt|Hge];
      [|eexists _, _; split; [reflexivity|]; rewrite (args_strings _ _ _ _ Hargs);
        pose proof (Forall2_length Hargs); unfold max_args in Hge; rewrite take_app_le, take_ge by lia; reflexivity]);
    rewrite zget_middle; cbn [mbind option_bind].
  - cbn [Nat.eqb parse_args]. rewrite orb_true_r, zset_middle. cbn [mbind option_bind].
    assert (Forall2 (arg_ok (pre ++ [NUL])) argv ws) as Hargs' by by apply args_ok_app.
    replace (pre ++ NUL :: tail) with ((pre ++ [NUL]) ++ tail) by (by rewrite <- app_assoc).
    destruct next as [a|]; cbn [next_ok] in Hnext.
    + destruct Hnext as [Hne (p & -> & ->)]. eexists _, _. split; [reflexivity|].
      erewrite args_strings by (apply Forall2_app; [exact Hargs'|constructor; [|constructor]; exists p, []; rewrite <- app_assoc; done]).
      cbn [words_of]. destruct (Nat.eqb_spec (length cur) 0) as [E|_]; [by apply length_zero_iff_nil in E|].
      pose proof (Forall2_length Hargs). unfold max_args in Hlt. rewrite take_ge; [done|]. rewrite length_app. cbn [length]. lia.
    + subst cur. eexists _, _. split; [reflexivity|]. rewrite (args_strings _ _ _ _ Hargs'). cbn [words_of length Nat.eqb].
      pose proof (Forall2_length Hargs). by rewrite app_nil_r, take_ge by lia.
  - cbn [Nat.eqb]. rewrite orb_false_r. fold (is_sep c). cbn [words_of].
    assert (forall x argv' next' cur' ws', (pre ++ [x]) ++ cs ++ t :: tail = pre ++ x :: cs ++ t :: tail ->
      Forall2 (arg_ok (pre ++ [x])) argv' ws' -> Forall (fun c => c <> NUL) cur' -> next_ok (pre ++ [x]) next' cur' -> (length argv' <= 5)%nat ->
      exists buf argv'', parse_args (S (length cs)) (Z.of_nat (length pre) + 1) (pre ++ x :: cs ++ t :: tail) argv' next' = Some (buf, argv'')
        /\ map (arg_at buf) argv'' = take 5 (ws' ++ words_of cur' cs)) as Hstep.
    { intros x argv' next' cur' ws' He H1 H2 H3 H4. rewrite <- He.
      replace (Z.of_nat (length pre) + 1) with (Z.of_nat (length (pre ++ [x]))) by (rewrite length_app; cbn; lia).
      by apply IH. }
    assert (forall x, (pre ++ [x]) ++ cs ++ t :: tail = pre ++ x :: cs ++ t :: tail) as Happ by (intros x; by rewrite <- app_assoc).
    unfold max_args in Hlt. destruct (is_sep c); [rewrite zset_middle; cbn [mbind option_bind]|];
      (destruct next as [a|]; cbn [next_ok] in Hnext; [destruct Hnext as [Hne (p & Hp & ->)]|subst cur]).
    + destruct (Nat.eqb_spec (length cur) 0) as [E|_]; [by apply length_zero_iff_nil in E|]. rewrite app_assoc.
      apply Hstep; [done| |done|done|rewrite length_app; cbn; lia].
      apply Forall2_app; [by apply args_ok_app|]. constructor; [|constructor]. exists p, []. by rewrite Hp, <- app_assoc.
    + cbn [length Nat.eqb app]. apply Hstep; [done|by apply args_ok_app|done|done|done].
    + apply Hstep; [done|by apply args_ok_app|apply Forall_app; by repeat constructor| |done].
      split; [by destruct cur|]. exists p. by rewrite Hp, <- app_assoc.
    + apply (Hstep c argv (Some (Z.of_nat (length pre))) [c]); [done|by apply args_ok_app|by repeat constructor| |done].
      split; [done|]. by exists pre.
Qed.

(** ** Receiving a line *)

(** A character that is kept in the buffer and does not end the line. *)
Definition plain (c : Z) : Prop := c <> LF /\ c <> CR /\ c <> NUL.

Section Line.
Context {St : Type} `{Handlers St}.

Definition echoes (cs : list Z) (r : St) : St := fold_left (fun r c => shell_put_char c r) cs r.

(** The buffer that holds [line]. *)
Definition cli_of (line : list Z) : shell_context :=
  {| rx_pos := Z.of_nat (length line); rx_buffer := line ++ repeat 0 (128 - length line) |}.

Lemma receive_stores (c : Z) (line : list Z) (r : St) (e : bool) :
  c <> CR -> (length line < 128)%nat ->
  shell_receive_char c (mk_shell (cli_of line) e r) = shell_process (mk_shell (cli_of (line ++ [c])) e (shell_put_char c r)).
Proof.
  intros Hc Hl. unfold shell_receive_char. cbn [shell_cli with_rest cli_of rx_pos rx_buffer exit_shell rest].
  destruct (Z.eqb_spec c CR); [done|]. cbn [orb]. unfold SHELL_BUFFER_SIZE. destruct (Z.leb_spec 128 (Z.of_nat (length line))); [lia|].
  replace (128 - length line)%nat with (S (128 - length (line ++ [c]))) by (rewrite length_app; cbn [length]; lia).
  cbn [repeat]. rewrite zset_middle. cbn [mbind option_bind]. f_equal. f_equal. unfold cli_of.
  rewrite <- app_assoc. cbn [app]. f_equal. rewrite length_app. cbn [length]. lia.
Qed.

Lemma last_char (line : list Z) (c : Z) : shell_last_char (cli_of (line ++ [c])) = Some c.
Proof.
  unfold shell_last_char, cli_of. cbn [rx_buffer rx_pos]. rewrite <- app_assoc. cbn [app].
  replace (Z.of_nat (length (line ++ [c])) - 1) with (Z.of_nat (length line)) by (rewrite length_app; cbn; lia).
  apply zget_middle.
Qed.

Lemma receive_plain (c : Z) (line : list Z) (r : St) :
  plain c -> (length line < 128)%nat ->
  shell_receive_char c (mk_shell (cli_of line) false r) = Some (mk_shell (cli_of (line ++ [c])) false (shell_put_char c r)).
Proof.
  intros (H1 & H2 & _) Hl. rewrite receive_stores by done. unfold shell_process. cbn [shell_cli]. rewrite last_char.
  cbn [mbind option_bind]. destruct (Z.eqb_spec c LF); [done|]. by destruct (Z.eqb_spec c CR).
Qed.

Lemma run_plain (cs : list Z) : forall line (r : St) (more : list Z),
  Forall plain cs -> (length line + length cs <= 128)%nat ->
  run_shell (cs ++ more) (mk_shell (cli_of line) false r) = run_shell more (mk_shell (cli_of (line ++ cs)) false (echoes cs r)).
Proof.
  induction cs as [|c cs IH]; intros line r more Hp Hl; [by rewrite app_nil_r|]. apply Forall_cons_1 in Hp as [Hc Hp].
  cbn [app run_shell exit_shell length] in *. rewrite receive_plain by (done || lia). cbn [mbind option_bind].
  rewrite IH by (done || (rewrite length_app; cbn; lia)). by rewrite <- app_assoc.
Qed.

(** The arguments the code makes of a line: its first five words. *)
Lemma process_line (line : list Z) (r : St) :
  Forall plain line -> (length line < 128)%nat ->
  exists cli, shell_process (mk_shell (cli_of (line ++ [LF])) false r) =
    (s ← (match take 5 (words_of [] line) with [] => Some (mk_shell cli false r) | ws => shell_dispatch_cmd ws (mk_shell cli false r) end);
     Some (mk_shell empty_cli (exit_shell s) (shell_echo_str SHELL_PROMPT (rest s)))).
Proof.
  intros Hp Hl. unfold shell_process. cbn [shell_cli]. rewrite last_char. cbn [mbind option_bind]. change (LF =? LF) with true. cbn [negb andb].
  destruct (parse_args_spec LF (repeat 0 (127 - length line)) line) with (pre := @nil Z) (argv := @nil Z) (next := @None Z) (cur := @nil Z) (ws := @nil (list Z))
    as (buf & argv & Hparse & Hargs); [eapply Forall_impl; [|exact Hp]; by intros c (_ & _ & ?)|constructor|constructor|done|cbn; lia|].
  exists {| rx_pos := Z.of_nat (length (line ++ [LF])); rx_buffer := buf |}.
  unfold cli_of. cbn [rx_pos rx_buffer exit_shell rest]. rewrite Nat2Z.id.
  replace (length (line ++ [LF])) with (S (length line)) at 1 by (rewrite length_app; cbn; lia).
  replace ((line ++ [LF]) ++ repeat 0 (128 - length (line ++ [LF]))) with (line ++ LF :: repeat 0 (127 - length line))
    by (rewrite <- app_assoc, length_app; cbn [app length]; do 3 f_equal; lia).
  change (Z.of_nat (length (@nil Z))) with 0 in Hparse. cbn [app] in Hparse, Hargs. rewrite Hparse. cbn [mbind option_bind].
  destruct argv as [|a argv]; cbn [map] in Hargs; rewrite <- Hargs; [done|]. cbn [length].
  by destruct (Z.ltb_spec 0 (Z.of_nat (S (length argv)))); [|lia].
Qed.

(** C31: a line runs its command: the shell echoes the characters, splits the
    line at the spaces, gives the first five words to the dispatch, prints the
    prompt and is ready for the next line; an empty line does nothing. *)
Theorem shell_runs_line (line : list Z) (r : St) :
  Forall plain line -> (length line < 128)%nat ->
  exists cli, run_shell (line ++ [LF]) (mk_shell empty_cli false r) =
    (let r1 := echoes (line ++ [LF]) r in
     s ← (match take 5 (words_of [] line) with [] => Some (mk_shell cli false r1) | ws => shell_dispatch_cmd ws (mk_shell cli false r1) end);
     Some (mk_shell empty_cli (exit_shell s) (shell_echo_str SHELL_PROMPT (rest s)))).
Proof.
  intros Hp Hl. destruct (process_line line (echoes (line ++ [LF]) r) Hp Hl) as (cli & Hproc). exists cli. cbv zeta. rewrite <- Hproc.
  change empty_cli with (cli_of []). rewrite run_plain by (done || (cbn; lia)). cbn [app run_shell exit_shell].
  rewrite receive_stores by (done || lia). unfold echoes. rewrite fold_left_app. cbn [fold_left].
  by match goal with |- context [shell_process ?x] => destruct (shell_process x) end.
Qed.

Lemma receive_full (cs line : list Z) (r : St) :
  length line = 128%nat -> run_shell cs (mk_shell (cli_of line) false r) = Some (mk_shell (cli_of line) false (echoes cs r)).
Proof.
  intros Hl. revert r. induction cs as [|c cs IH]; intros r; [done|]. cbn [run_shell exit_shell].
  unfold shell_receive_char. cbn [shell_cli with_rest cli_of rx_pos exit_shell rest]. rewrite Hl, orb_true_r.
  cbn [mbind option_bind]. apply IH.
Qed.

(** C40: a line of 128 characters blocks the shell for good: whatever comes
    next, line feeds included, is echoed and dropped, and no command is ever
    run again. *)
Theorem shell_full_line_blocks (line more : list Z) (r : St) :
  Forall plain line -> length line = 128%nat ->
  run_shell (line ++ more) (mk_shell empty_cli false r) = Some (mk_shell (cli_of line) false (echoes (line ++ more) r)).
Proof.
  intros Hp Hl. change empty_cli with (cli_of []). rewrite run_plain by (done || (cbn; lia)). cbn [app].
  rewrite receive_full by done. unfold echoes. by rewrite fold_left_app.
Qed.
End Line.

(** ** The commands of this file *)

(** The type of a command's id is an enumeration without negative values: the
    compiler gives it [enum_bits] bits, unsigned. *)
Definition run_test_t (enum_bits cid : Z) : Z := cid mod 2 ^ enum_bits.

(** run_test_by_id: [cmds] is the table, with the functions that are not
    NULL; an id that is refused prints the help. *)
Definition run_cmd {St : Type} (enum_bits : Z) (help : St -> option St) (cmds : list (option (St -> option St))) (cid : Z) (r : St) : option St :=
  let cid := run_test_t enum_bits cid in
  let ncmd := Z.of_nat (length cmds) in
  if ncmd <? cid then help r
  else cmd ← zget cmds cid; match cmd with Some f => f r | None => Some r end.

(** handle_trigger_func *)
Definition trigger {St : Type} (funcs : list (St -> option St)) (tid : Z) (r : St) : option St :=
  let n := Z.of_nat (length funcs) in
  if n <=? tid then Some r else f ← zget funcs tid; f r.

(** reset_patch, the command TEST_CLEAR. *)
Definition reset_patch (s : ctx_state) : option ctx_state :=
  h ← clear_all_hw_bkpt (hw s);
  destroy_patch_context (with_hw s h).

Section Patch.
Context (kstray vstray junk : Z -> Z).
Context (alloc_env : gmap Z ebpf_helper_env -> Z) (malloc_vm : option ebpf_vm) (iot : iot_helpers).
Context (alloc_patch : gmap Z ebpf_patch -> Z) (alloc_desc : gmap Z patch_desc -> Z).
Context (REMAP_ADDR : Z) (FPB_Handler : list Z) (past_end : Z * Z) (jit_buffer : Z).

#[local] Abbreviation load_dynamic := (read_local_patch kstray vstray junk alloc_env malloc_vm iot alloc_patch alloc_desc REMAP_ADDR FPB_Handler past_end jit_buffer).

(** handle_patch_func, with dynamic patch points: the list is shown (which
    fills in the addresses of the patched functions), the debug monitor is
    chosen and the patch loaded. *)
Definition handle_patch (locs : list Z) (l : loader) (s : ctx_state) (pid : Z) : option (loader * ctx_state) :=
  let l := {| patch_list := setup_cve_list locs (patch_list l); _desc := _desc l; _patch := _patch l; is_init := is_init l |} in
  h ← set_patch_mode REMAP_ADDR (hw s) CORTEX_DEB_MON_PATCH;
  r ← load_dynamic locs l (with_hw s h) pid;
  Some (snd (fst r), snd r).

(** The same with fixed patch points. *)
Definition handle_patch_fixed (l : loader) (s : ctx_state) (pid : Z) : option (loader * ctx_state) :=
  load_local_fixed_patch kstray vstray junk alloc_env malloc_vm iot alloc_patch alloc_desc REMAP_ADDR FPB_Handler past_end jit_buffer l s pid.

Lemma setup_cve_list_length (locs : list Z) (ps : list local_patch) : length (setup_cve_list locs ps) = length ps.
Proof. by destruct ps as [|? [|? [|? ?]]], locs as [|? [|? [|? [|? ?]]]]. Qed.

Lemma destroy_one (s s' : ctx_state) (patch : Z) :
  destroy_ebpf_patch s patch = Some s' -> patch <> 0 ->
  patches s' = delete patch (patches s) /\ exists p, patches s !! patch = Some p /\ descs s' = delete (p_desc p) (descs s).
Proof.
  unfold destroy_ebpf_patch. intros H Hne. destruct (Z.eqb_spec patch 0); [done|].
  destruct (patches s !! patch) as [p|]; [|done]. cbn [mbind option_bind] in H.
  destruct (descs s !! p_desc p); [|done]. cbn [mbind option_bind] in H. injection H as <-. split; [done|]. by exists p.
Qed.

Lemma destroy_zero (s s' : ctx_state) (patch : Z) : destroy_ebpf_patch s patch = Some s' -> patch = 0 -> s' = s.
Proof. intros H ->. by injection H. Qed.

Lemma destroy_dynamic_gone (l : list dynamic_patch) (patch : Z) (s s' : ctx_state) :
  destroy_dynamic s l = Some s' -> patches s !! patch = None -> patches s' !! patch = None.
Proof.
  revert s. induction l as [|dp l IH]; intros s H Hn; cbn [destroy_dynamic] in H; [by injection H as <-|].
  destruct (destroy_ebpf_patch s (dp_patch dp)) as [s1|] eqn:E; [|done]. cbn [mbind option_bind] in H. apply (IH _ H).
  destruct (Z.eq_dec (dp_patch dp) 0) as [Hz|Hz]; [by rewrite (destroy_zero _ _ _ E Hz)|].
  destruct (destroy_one _ _ _ E Hz) as [-> _]. by rewrite lookup_delete_None; right.
Qed.

(** Every patch of the list is freed. *)
Lemma destroy_dynamic_frees (l : list dynamic_patch) (patch : Z) (s s' : ctx_state) :
  destroy_dynamic s l = Some s' -> patch <> 0 -> patch ∈ map dp_patch l -> patches s' !! patch = None.
Proof.
  revert s. induction l as [|dp l IH]; intros s H Hne Hin; cbn [destroy_dynamic map] in *; [by apply not_elem_of_nil in Hin|].
  destruct (destroy_ebpf_patch s (dp_patch dp)) as [s1|] eqn:E; [|done]. cbn [mbind option_bind] in H.
  destruct (decide (patch ∈ map dp_patch l)) as [Hl|Hl]; [by apply (IH _ H)|].
  apply elem_of_cons in Hin as [->|?]; [|done]. apply (destroy_dynamic_gone _ _ _ _ H).
  destruct (destroy_one _ _ _ E Hne) as [-> _]. by rewrite lookup_delete_eq.
Qed.

Lemma reset_frees (s s' : ctx_state) (patch : Z) :
  reset_patch s = Some s' -> patch <> 0 -> patch ∈ map dp_patch (dpatch_list (pctx s)) ->
  patches s' !! patch = None /\ dpatch_list (pctx s') = [] /\ ctx_init s' = false.
Proof.
  unfold reset_patch, destroy_patch_context. intros H Hne Hin.
  destruct (clear_all_hw_bkpt (hw s)) as [h|]; [|done]. cbn [mbind option_bind] in H.
  destruct (destroy_dynamic _ _) as [s1|] eqn:E; [|done]. cbn [mbind option_bind] in H.
  destruct (clear_all_hw_bkpt _) as [h'|] in H; [|done]. cbn [mbind option_bind] in H. injection H as <-.
  split; [|done]. cbn [patches with_hw with_init with_pctx]. by apply (destroy_dynamic_frees _ _ _ _ E).
Qed.

(** C39: the command that clears all patches frees the patch object that the
    loader keeps for every load: after it no patch of the table can be loaded
    again, for the loader writes to the freed object. *)
Theorem reset_breaks_loader (locs : list Z) (l : loader) (s s' : ctx_state) (pid : Z) :
  is_init l = true -> _patch l <> 0 -> _patch l ∈ map dp_patch (dpatch_list (pctx s)) ->
  reset_patch s = Some s' -> pid <= Z.of_nat (length (patch_list l)) ->
  (forall h, load_dynamic locs l (with_hw s' h) pid = None) /\ handle_patch locs l s' pid = None.
Proof.
  intros Hi Hne Hin Hr Hpid. destruct (reset_frees _ _ _ Hr Hne Hin) as (Hgone & _ & _).
  assert (forall l' h, is_init l' = true -> _patch l' = _patch l -> length (patch_list l') = length (patch_list l) ->
    load_dynamic locs l' (with_hw s' h) pid = None) as Hload.
  { intros l' h Hi' Hp Hl. unfold read_local_patch. rewrite Hi', Hl.
    destruct (Z.ltb_spec (Z.of_nat (length (patch_list l))) pid); [lia|]. cbn [mbind option_bind].
    destruct (zget _ pid) as [pt|]; [|done]. cbn [mbind option_bind]. unfold load_patch. cbn [descs patches with_hw].
    rewrite Hp, Hgone. by destruct (descs s' !! _desc l'). }
  split; [intros h; by apply Hload|].
  unfold handle_patch. destruct (set_patch_mode _ _ _) as [h|]; [|done]. cbn [mbind option_bind].
  rewrite Hload; [done|done|done|]. cbn [patch_list]. apply setup_cve_list_length.
Qed.
End Patch.

(** The guards of the two tables let an index through that is not in them: the
    number of commands itself, and any negative number. *)
Theorem command_tables_off {St : Type} (enum_bits : Z) (help : St -> option St) (cmds : list (option (St -> option St)))
    (funcs : list (St -> option St)) (i : Z) (r : St) :
  Z.of_nat (length cmds) < 2 ^ enum_bits ->
  run_cmd enum_bits help cmds (Z.of_nat (length cmds)) r = None
  /\ (i < 0 -> trigger funcs i r = None).
Proof.
  intros Hw. unfold run_cmd, run_test_t, trigger. rewrite Z.mod_small by lia. split.
  - rewrite Z.ltb_irrefl. by rewrite zget_None by lia.
  - intros Hi. destruct (Z.leb_spec (Z.of_nat (length funcs)) i); [lia|]. unfold zget. by destruct (Z.ltb_spec i 0); [|lia].
Qed.

(** ** Witnesses: a shell that records what the commands are asked *)

(** The events, the last one first. *)
Inductive event := Put (c : Z) | Help | Run (n : Z) | Trigger (n : Z) | Patch (n : Z) | PatchList | RunVm (n : Z) | Transfer | Said (w : list Z).

#[local] Instance recorder : Handlers (list event) := {|
  shell_put_char c r := Put c :: r;
  cli_print_help r := Some (Help :: r);
  run_test_by_id n r := Some (Run n :: r);
  handle_trigger_func n r := Some (Trigger n :: r);
  handle_patch_func n r := Some (Patch n :: r);
  show_patch_list r := Some (PatchList :: r);
  handle_eBPF_vm_run_patch n r := Some (RunVm n :: r);
  transfer_patch r := Some (Transfer :: r);
  shell_print w r := Said w :: r |}.

(** patch 12 *)
Definition patch_line : list Z := [112; 97; 116; 99; 104; 32; 49; 50].

Lemma patch_line_plain : Forall plain patch_line.
Proof. unfold patch_line, plain, LF, CR, NUL. repeat constructor; discriminate. Qed.

Lemma shell_runs_line_witness :
  exists s, run_shell (patch_line ++ [LF]) (mk_shell empty_cli false []) = Some s
    /\ rest s = [Put 32; Put 36; Patch 12] ++ rev (map Put (patch_line ++ [LF])) /\ exit_shell s = false.
Proof.
  destruct (shell_runs_line patch_line [] patch_line_plain) as [cli Hrun]; [cbn; lia|].
  rewrite Hrun. eexists. split; [reflexivity|split; reflexivity].
Defined.

Lemma shell_full_line_blocks_witness :
  run_shell (repeat 112 128 ++ [LF; 113; LF]) (mk_shell empty_cli false [])
  = Some (mk_shell (cli_of (repeat 112 128)) false (rev (map Put (repeat 112 128 ++ [LF; 113; LF])))).
Proof.
  rewrite (shell_full_line_blocks (repeat 112 128) [LF; 113; LF] []); [reflexivity| |reflexivity].
  apply Forall_forall. intros c Hc. apply repeat_spec in Hc as ->. done.
Defined.

Definition sample_loader : loader :=
  {| patch_list := [{| loc := 0x080072e0; code := test_cve |}]; _desc := 32; _patch := 64; is_init := true |}.

Lemma reset_breaks_loader_witness :
  exists s', reset_patch cve_machine = Some s' /\
    read_local_patch (fun _ => 0) (fun _ => 0) (fun _ => 0) next_address None iot_sample fresh_patch (fun _ => 8) 0x20000000 [] (0, 0) 0
      [] sample_loader s' 0 = None.
Proof.
  destruct (reset_patch cve_machine) as [s'|] eqn:E; [|exfalso; vm_compute in E; discriminate E].
  exists s'. split; [reflexivity|].
  replace s' with (with_hw s' (hw s')) by by destruct s'.
  refine (proj1 (reset_breaks_loader (fun _ => 0) (fun _ => 0) (fun _ => 0) next_address None iot_sample fresh_patch (fun _ => 8) 0x20000000 [] (0, 0) 0
    [] sample_loader cve_machine s' 0 eq_refl _ _ E _) (hw s')); [discriminate| |cbn; lia].
  apply list_elem_of_In. left. reflexivity.
Defined.
