(* ===== verification/Commands.v ===== *)
(** * The commands of the shell (app/ihp_cli.c, app/cve_trigger.h) and the
    tests they run (fixed_patch_points.c, cortex-m4_fbp.c)

    The functions the patches are tried on are called at their addresses,
    where a patch may stop them: what such a call does is the argument
    [call_fn].  Local variables whose address is taken are in memory, where
    the compiler puts them.  Of the log, the verdicts are kept. *)

From S2P Require Import Prelude Mem EbpfInst EbpfVm Vm Hashmap Profiling Fpb FpbProps PatchCtx PatchCtxProps Dispatch DispatchProps.
From S2P Require Import LocalPatch CvePatches Shell.

(** What a test reports. *)
Inductive verdict := Fixed | Vulnerable | Returns (ret : Z) | Ran (function : Z).

(** The state of the application: the runtime, the profiler, the variables of
    the two loaders, and what has been reported, the last first. *)
Record app := mk_app { a_sys : ctx_state; a_prof : prof_state; a_dynamic : loader; a_fixed : loader; a_log : list verdict }.

Definition with_sys (a : app) (s : ctx_state) : app := mk_app s (a_prof a) (a_dynamic a) (a_fixed a) (a_log a).
Definition with_prof (a : app) (p : prof_state) : app := mk_app (a_sys a) p (a_dynamic a) (a_fixed a) (a_log a).
Definition report (v : verdict) (a : app) : app := mk_app (a_sys a) (a_prof a) (a_dynamic a) (a_fixed a) (v :: a_log a).
Definition with_dynamic_loader (a : app) (l : loader) (s : ctx_state) : app := mk_app s (a_prof a) l (a_fixed a) (a_log a).
Definition with_fixed_loader (a : app) (l : loader) (s : ctx_state) : app := mk_app s (a_prof a) (a_dynamic a) l (a_log a).

(** A local array, byte by byte. *)
Fixpoint store_local (addr : Z) (bs : list Z) (m : memory) : option memory :=
  match bs with
  | [] => Some m
  | b :: bs => m ← store_le 1 (u32 addr) b m; store_local (addr + 1) bs m
  end.

Definition put_local (addr : Z) (bs : list Z) (s : ctx_state) : option ctx_state :=
  m ← store_local addr bs (hw_mem (hw s)); Some (with_hw s (with_hwmem (hw s) m)).

Section Commands.
Context (SYSCoreClock : Z).
(** A call of the function at an address: what it returns, as a word. *)
Context (call_fn : Z -> list Z -> ctx_state -> option (Z * ctx_state)).
(** The addresses of the functions, and of the local variables. *)
Context (test_dynamic_bug_ dynamic_patch_dummy_cve1_ dynamic_patch_dummy_cve2_ : Z).
Context (dummy_buggy_MQTT_packet_length_decode_ dummy_CVE_2020_17445_pico_ipv6_process_destopt_ buggy_func_ : Z).
Context (packet_buf dbc pkt_length_ destopt_ : Z).

Definition prof_do (f : prof_state -> option prof_state) (a : app) : option app := p ← f (a_prof a); Some (with_prof a p).
Definition add_event (name : string) (a : app) : option app := r ← profile_add_event SYSCoreClock name (a_prof a); Some (with_prof a (snd r)).

(** profile_start(0), the call, profile_end(0). *)
Definition timed_call (f : Z) (args : list Z) (a : app) : option (Z * app) :=
  a ← prof_do (profile_start 0) a;
  r ← call_fn f args (a_sys a);
  let a := with_sys a (snd r) in
  e ← profile_end 0 (a_prof a);
  Some (s32 (fst r), with_prof a (snd e)).

(** ** cve_trigger.h *)

Definition this_is_cve_trigger_func (a : app) : option app :=
  a ← add_event "dummy cve start" a;
  r ← timed_call test_dynamic_bug_ [4500] a;
  Some (report (if fst r =? 0 then Fixed else Vulnerable) (snd r)).

(** The packet: four bytes that continue, a last one, and zeroes; the buffer
    ends one byte before the array does. *)
Definition cve_packet : list Z := [0xff; 0xff; 0xff; 0xff; 0x7f; 0; 0; 0; 0; 0].

(** The body the test of the fixed patch point and the trigger of the dynamic
    one share: the packet, its descriptor, the call, and the length it left. *)
Definition decode_packet (f : Z) (a : app) : option app :=
  s ← put_local packet_buf cve_packet (a_sys a);
  s ← set32 s dbc packet_buf;
  s ← set32 s (dbc + 4) (u32 (packet_buf + 9));
  s ← set32 s pkt_length_ 0;
  r ← timed_call f [dbc; pkt_length_] (with_sys a s);
  v ← get32 (a_sys (snd r)) pkt_length_;
  Some (report (if negb (v =? 0) then Vulnerable else Fixed) (snd r)).

Definition trigger_dummy_cve1 (a : app) : option app := decode_packet dynamic_patch_dummy_cve1_ a.

(** uint8_t destopt[50] = {1, 1, -2, -2, -2, -2, -2} *)
Definition destopt_packet : list Z := [1; 1] ++ replicate 5 (u8 (-2)) ++ replicate 43 0.

Definition process_packet (f : Z) (a : app) : option app :=
  s ← put_local destopt_ destopt_packet (a_sys a);
  r ← timed_call f [destopt_; 0; 0] (with_sys a s);
  Some (report (Returns (fst r)) (snd r)).

Definition trigger_dummy_cve2 (a : app) : option app := process_packet dynamic_patch_dummy_cve2_ a.

(** ** The tests of fixed_patch_points.c *)

Definition call_dummy_buggy_MQTT_function (a : app) : option app := decode_packet dummy_buggy_MQTT_packet_length_decode_ a.
Definition call_dummy_CVE_2020_17445_pico_ipv6_process_destopt (a : app) : option app :=
  process_packet dummy_CVE_2020_17445_pico_ipv6_process_destopt_ a.

Definition test_fixed_patch_point (a : app) : option app :=
  a ← add_event "fixed patch" a; call_dummy_buggy_MQTT_function a.
Definition test_unbounded_loop (a : app) : option app :=
  a ← add_event "fixed patch" a; call_dummy_CVE_2020_17445_pico_ipv6_process_destopt a.

Definition dynamic_trigger_func_list : list (app -> option app) := [this_is_cve_trigger_func; trigger_dummy_cve1; trigger_dummy_cve2].
Definition fixed_trigger_func_list : list (app -> option app) := [test_fixed_patch_point].

(** ** The tests of cortex-m4_fbp.c *)

Section Fpb.
Context (REMAP_ADDR : Z) (FPB_Handler : list Z) (RawBuggyFunc_ FixedBuggyFunc_ : Z).

Definition hw_do (f : hw_state -> option hw_state) (a : app) : option app :=
  h ← f (hw (a_sys a)); Some (with_sys a (with_hw (a_sys a) h)).

Definition buggy_func (v : Z) : Z := if 2000 <? v then -1 else 0.

Definition test_func (a : app) : option app :=
  r ← call_fn buggy_func_ [4500] (a_sys a);
  Some (report (if s32 (fst r) =? 0 then Fixed else Vulnerable) (with_sys a (snd r))).

Definition add_breakpoint (inst : Z) (a : app) : option app :=
  hw_do (fun h => r ← add_hw_bkpt REMAP_ADDR FPB_Handler h inst; Some (snd r)) a.

Definition test_debugmon_patch (a : app) : option app :=
  a ← hw_do (fun h => set_patch_mode REMAP_ADDR h CORTEX_DEB_MON_PATCH) a;
  a ← test_func a;
  a ← add_breakpoint buggy_func_ a;
  test_func a.

(** The table is where REMAP_ADDR is when its low five bits are cleared. *)
Definition PATCH_TBL : Z := REMAP_ADDR .& 0xFFFFFFE0.

Definition fpb_setup_test (h : hw_state) : option hw_state :=
  let buggy_addr := RawBuggyFunc_ .& not1 in
  let fixed_addr := FixedBuggyFunc_ .& not1 in
  let fidx := 1 in
  h ← set_comp h fidx (buggy_addr .| 0x1);
  let jmp_inst := calc_branch_instr buggy_addr fixed_addr in
  h ← put32 h (u32 (PATCH_TBL + fidx * 4)) (little_endian_16_bit jmp_inst);
  Some (with_ctrl (with_remap h PATCH_TBL) 3).

(** The test of the flash patch: its comparator matches the function, the
    others are kept, and the unit, which is on, finds in its place the word at
    the second entry of the table, a branch to the fixed function.  The table
    is REMAP_ADDR rounded down: unless REMAP_ADDR is aligned, or just behind an
    aligned address, the word is not in the array but before it. *)
Theorem fpb_setup_redirects (h : hw_state) :
  let b := RawBuggyFunc_ .& not1 in
  let f := FixedBuggyFunc_ .& not1 in
  hw_wf h -> 0 <= RawBuggyFunc_ < 2 ^ 32 -> 0 <= FixedBuggyFunc_ -> - 2 ^ 24 <= branch_distance b f < 2 ^ 24 ->
  0 <= REMAP_ADDR < 2 ^ 32 -> is_Some (load_le 4 (u32 (PATCH_TBL + 4)) (hw_mem h)) ->
  exists h' w, fpb_setup_test h = Some h' /\
    get_comp h' 1 = Some (b .| 0x1) /\ (forall j, j <> 1 -> get_comp h' j = get_comp h j) /\
    CTRL (FPB h') = 3 /\ REMAP (FPB h') = PATCH_TBL /\
    load_le 4 (u32 (PATCH_TBL + 4)) (hw_mem h') = Some w /\ BW_T4_target b (little_endian_16_bit w) = Some f /\
    (8 <= REMAP_ADDR mod 32 -> PATCH_TBL + 8 <= REMAP_ADDR).
Proof.
  intros b f Hwf Hb Hf Hd HR Hm. assert (Hbr : 0 <= b < 2 ^ 32).
  { unfold b. rewrite Z.land_comm. by apply land_range. }
  destruct (set_comp_some h 1 (b .| 0x1) Hwf ltac:(lia)) as (h1 & E1 & Hc & Hj & _ & _ & Hmem & _).
  unfold fpb_setup_test. cbv zeta. fold b f. rewrite E1. cbn [mbind option_bind]. unfold put32. change (1 * 4) with 4. rewrite Hmem.
  set (w := little_endian_16_bit (calc_branch_instr b f)).
  destruct (store_where_loaded 4 _ w (hw_mem h) Hm) as [m E]. rewrite E. cbn [mbind option_bind].
  eexists _, w. split; [reflexivity|]. split; [exact Hc|]. split; [exact Hj|]. split; [reflexivity|]. split; [reflexivity|].
  split; [|split].
  - cbn [with_ctrl with_remap with_fpb with_hwmem hw_mem]. rewrite (load_store_le 4 _ _ _ _ ltac:(lia) E).
    change (2 ^ (8 * Z.of_nat 4)) with (2 ^ 32). f_equal. apply Z.mod_small, u32_range.
  - unfold w. rewrite little_endian_16_bit_involutive by apply calc_branch_instr_range.
    rewrite (branch_target b f); [|exact Hbr| |apply Z.land_nonneg; by left|exact Hd].
    + unfold f. by rewrite <- Z.land_assoc.
    + unfold b. rewrite <- Z.negb_odd, <- Z.bit0_odd, Z.land_spec. by rewrite andb_false_r.
  - intros Hr. unfold PATCH_TBL. rewrite land_clear5 by done. pose proof (Z.div_mod REMAP_ADDR 32 ltac:(lia)). lia.
Qed.

(** The test functions only print; which one runs is what the call reports. *)
Definition call_raw (a : app) : option app :=
  r ← call_fn RawBuggyFunc_ [] (a_sys a); Some (report (Ran (fst r)) (with_sys a (snd r))).

Definition test_fpb_flash_patch (a : app) : option app :=
  a ← hw_do (fun h => set_patch_mode REMAP_ADDR h CORTEX_FPB_PATCH) a;
  a ← call_raw a;
  a ← hw_do fpb_setup_test a;
  call_raw a.

(** ** The commands of ihp_cli.c *)

Context (kstray vstray junk : Z -> Z).
Context (alloc_env : gmap Z ebpf_helper_env -> Z) (malloc_vm : option ebpf_vm) (iot : iot_helpers).
Context (alloc_patch : gmap Z ebpf_patch -> Z) (alloc_desc : gmap Z patch_desc -> Z).
Context (past_end : Z * Z) (jit_buffer : Z).
(** The tests and the service of other files. *)
Context (run_ebpf_test start_patch_service transfer : app -> option app) (run_ebpf_eva : Z -> app -> option app).

Definition test_debug_kprobe_patch (a : app) : option app := test_debugmon_patch a.
Definition test_debug_fpb_patch (a : app) : option app := test_fpb_flash_patch a.
Definition reset_patch_command (a : app) : option app := s ← reset_patch (a_sys a); Some (with_sys a s).
Definition run_eva_test (a : app) : option app := run_ebpf_test a.

Definition load_fixed (pid : Z) (a : app) : option app :=
  r ← handle_patch_fixed kstray vstray junk alloc_env malloc_vm iot alloc_patch alloc_desc REMAP_ADDR FPB_Handler past_end jit_buffer
        (a_fixed a) (a_sys a) pid;
  Some (with_fixed_loader a (fst r) (snd r)).

Definition run_load_fixed_patch_point_test (a : app) : option app := load_fixed 2 a.
Definition run_fixed_patch_point_test (a : app) : option app := test_fixed_patch_point a.
Definition run_unbounded_loop_test (a : app) : option app := a ← load_fixed 3 a; test_unbounded_loop a.

Definition cmds : list (option (app -> option app)) :=
  [Some test_debug_kprobe_patch; Some test_debug_fpb_patch; Some reset_patch_command; Some run_eva_test; Some start_patch_service;
   Some run_fixed_patch_point_test; Some run_load_fixed_patch_point_test; Some run_unbounded_loop_test].

(** The build has dynamic patch points, or fixed ones.  The list of the former
    is shown by a function that also fills in addresses. *)
Context (use_dynamic : bool) (locs : list Z).

Definition load_dynamic (pid : Z) (a : app) : option app :=
  r ← handle_patch kstray vstray junk alloc_env malloc_vm iot alloc_patch alloc_desc REMAP_ADDR FPB_Handler past_end jit_buffer
        locs (a_dynamic a) (a_sys a) pid;
  Some (with_dynamic_loader a (fst r) (snd r)).

Definition show_list (a : app) : app :=
  if use_dynamic then
    let l := a_dynamic a in
    with_dynamic_loader a {| patch_list := setup_cve_list locs (patch_list l); _desc := _desc l; _patch := _patch l; is_init := is_init l |} (a_sys a)
  else a.

#[export] Instance commands : Handlers app := {|
  shell_put_char _ a := a;
  cli_print_help a := Some a;
  run_test_by_id n a := run_cmd 8 Some cmds n a;
  handle_trigger_func n a := trigger (if use_dynamic then dynamic_trigger_func_list else fixed_trigger_func_list) n a;
  handle_patch_func n a := if use_dynamic then load_dynamic n a else load_fixed n a;
  show_patch_list a := Some (show_list a);
  handle_eBPF_vm_run_patch n a := run_ebpf_eva n a;
  transfer_patch a := transfer a;
  shell_print _ a := a |}.
End Fpb.
End Commands.
