(* ===== verification/Session.v ===== *)
(** * The patch command of the shell (app/ihp_cli.c, cortex-m4_fbp.c)

    With dynamic patch points the command chooses the mode of the unit again
    before it loads a patch, which clears every comparator: this file follows
    the two together, from the registers before the command to those after
    it. *)

From S2P Require Import Prelude Mem EbpfInst Vm Hashmap Fpb FpbProps PatchCtx PatchCtxProps LocalPatch JitPatch Install Shell.
From S2P Require Jit.

(** ** The choice of the mode *)

(** NUM_CODE of the control register, in its two fields. *)
Definition num_code (h : hw_state) : Z := (((CTRL (FPB h) >> 12) .& 0x7) << 4) .| ((CTRL (FPB h) >> 4) .& 0xF).

(** The registers of the debug system, as memory, that the monitor needs. *)
Definition debug_words : list Z := [SCB_HFSR; SCB_DFSR; 0xE000EDF0; DCB_DEMCR; SCB_SHP8].
Definition debug_mapped (m : memory) : Prop := Forall (fun a => is_Some (load_le 4 a m)) debug_words.

Lemma clear_comps_spec (n : nat) : forall i h,
  hw_wf h -> 0 <= i -> i + Z.of_nat n <= 6 ->
  exists h', clear_comps n i h = Some h' /\ hw_wf h' /\ hw_mem h' = hw_mem h /\
    forall j, get_comp h' j = if (i <=? j) && (j <? i + Z.of_nat n) then Some 0 else get_comp h j.
Proof.
  induction n as [|n IH]; intros i h Hwf Hi Hn; cbn [clear_comps].
  - exists h. split_and!; try done. intros j. destruct (Z.leb_spec i j), (Z.ltb_spec j (i + Z.of_nat 0)); cbn [andb]; (done || lia).
  - destruct (set_comp_some h i 0 Hwf ltac:(lia)) as (h1 & E & Hc & Hj & Hi1 & Hi2 & Hm & Hl). rewrite E. cbn [mbind option_bind].
    assert (Hwf1 : hw_wf h1) by (destruct Hwf as [_ W1 W2]; split; [done|by rewrite Hi1|by rewrite Hi1, Hi2]).
    destruct (IH (i + 1) h1 Hwf1 ltac:(lia) ltac:(lia)) as (h' & -> & Hwf' & Hm' & Hcs). exists h'. split_and!; [done|done|congruence|].
    intros j. rewrite Hcs. destruct (decide (j = i)) as [->|Hne].
    + destruct (Z.leb_spec (i + 1) i); [lia|]. cbn [andb]. rewrite Hc.
      by destruct (Z.leb_spec i i), (Z.ltb_spec i (i + Z.of_nat (S n))); try lia.
    + rewrite Hj by done. f_equal.
      destruct (Z.leb_spec (i + 1) j), (Z.ltb_spec j (i + 1 + Z.of_nat n)), (Z.leb_spec i j), (Z.ltb_spec j (i + Z.of_nat (S n)));
        cbn [andb]; (done || lia).
Qed.

(** Only memory from [lo] on has changed, and nothing is mapped or unmapped. *)
Record above (lo : Z) (m m' : memory) : Prop := {
  ab_dom : dom m' = dom m;
  ab_below : forall b, b < lo -> m' !! b = m !! b }.

Lemma above_trans (lo : Z) (m1 m2 m3 : memory) : above lo m1 m2 -> above lo m2 m3 -> above lo m1 m3.
Proof. intros [D1 B1] [D2 B2]. split; [congruence|]. intros b Hb. rewrite B2, B1 by done. done. Qed.

Lemma above_loadable (lo a : Z) (n : nat) (m m' : memory) : above lo m m' -> is_Some (load_le n a m) -> is_Some (load_le n a m').
Proof.
  intros [D _] Hl. apply load_le_is_Some. intros k Hk. apply elem_of_dom. rewrite D. apply elem_of_dom. by apply (load_le_mapped n).
Qed.

Lemma above_load (lo a : Z) (n : nat) (m m' : memory) :
  above lo m m' -> 0 <= a -> a + Z.of_nat n <= lo -> lo <= 2 ^ 32 -> load_le n a m' = load_le n a m.
Proof. intros [_ B] H0 H1 H2. apply load_le_ext. intros k Hk. apply B. rewrite u32_small; lia. Qed.

Lemma store_above (lo a v : Z) (n : nat) (m : memory) :
  0 <= lo <= a -> a + Z.of_nat n <= 2 ^ 32 -> is_Some (load_le n a m) -> exists m', store_le n a v m = Some m' /\ above lo m m'.
Proof.
  intros H0 H1 Hl. destruct (store_where_loaded n a v m Hl) as [m' E]. exists m'. split; [done|].
  split; [by eapply store_le_dom|]. intros b Hb. apply (store_le_frame n a v b m m' E). intros k Hk. rewrite u32_small; lia.
Qed.

Lemma put32_above (h : hw_state) (lo a v : Z) :
  0 <= lo <= a -> a + 4 <= 2 ^ 32 -> is_Some (load_le 4 a (hw_mem h)) ->
  exists m', put32 h a v = Some (with_hwmem h m') /\ above lo (hw_mem h) m'.
Proof.
  intros H0 H1 Hl. destruct (store_above lo a v 4 (hw_mem h) H0 H1 Hl) as (m' & E & Ha). exists m'. split; [|done].
  unfold put32. by rewrite E.
Qed.

(** debug_monitor_init writes registers of the system only. *)
Lemma debug_monitor_init_spec (h : hw_state) :
  debug_mapped (hw_mem h) ->
  exists h', debug_monitor_init h = Some h' /\ COMP (FPB h') = COMP (FPB h) /\ bpkt_info h' = bpkt_info h /\
    bpkt_is_init h' = bpkt_is_init h /\ above 0xE0000000 (hw_mem h) (hw_mem h').
Proof.
  intros Hd. assert (D : forall a, In a debug_words -> is_Some (load_le 4 a (hw_mem h))) by exact (proj1 (Forall_forall _ _) Hd).
  assert (D1 : is_Some (load_le 4 SCB_HFSR (hw_mem h))) by (apply D; cbn; tauto).
  assert (D2 : is_Some (load_le 4 SCB_DFSR (hw_mem h))) by (apply D; cbn; tauto).
  assert (D3 : is_Some (load_le 4 0xE000EDF0 (hw_mem h))) by (apply D; cbn; tauto).
  assert (D4 : is_Some (load_le 4 DCB_DEMCR (hw_mem h))) by (apply D; cbn; tauto).
  assert (D5 : is_Some (load_le 4 SCB_SHP8 (hw_mem h))) by (apply D; cbn; tauto).
  assert (Hput : forall h1 a v, above 0xE0000000 (hw_mem h) (hw_mem h1) -> 0xE0000000 <= a -> a + 4 <= 2 ^ 32 -> is_Some (load_le 4 a (hw_mem h)) ->
    exists m', put32 h1 a v = Some (with_hwmem h1 m') /\ above 0xE0000000 (hw_mem h) m').
  { intros h1 a v Hab Ha0 Ha1 Hl. destruct (put32_above h1 0xE0000000 a v) as (m' & E & Ha); [lia|done|by eapply above_loadable|].
    exists m'. split; [done|by eapply above_trans]. }
  unfold debug_monitor_init.
  destruct (Hput h SCB_HFSR (u32 (1 << 31)) ltac:(by split) ltac:(by vm_compute) ltac:(by vm_compute) D1) as (m1 & -> & A1). cbn [mbind option_bind].
  destruct (Hput (with_hwmem h m1) SCB_DFSR (1 << 2) A1 ltac:(by vm_compute) ltac:(by vm_compute) D2) as (m2 & -> & A2). cbn [mbind option_bind].
  unfold halting_debug_enabled. cbn [with_hwmem hw_mem].
  destruct (above_loadable _ _ _ _ _ A2 D3) as [dhcsr Eh]; rewrite Eh. cbn [mbind option_bind].
  destruct (negb (dhcsr .& 1 =? 0)); [by eexists|].
  destruct (above_loadable _ _ _ _ _ A2 D4) as [demcr Em]; rewrite Em. cbn [mbind option_bind].
  edestruct (Hput (with_hwmem (with_hwmem h m1) m2) DCB_DEMCR) as (m3 & E3 & A3); [exact A2|by vm_compute|by vm_compute|exact D4|].
  unfold with_hwmem in E3 |- *. cbn [FPB bpkt_info bpkt_is_init hw_mem] in E3 |- *. rewrite E3. clear E3. cbn [mbind option_bind].
  edestruct (Hput (fpb_enable (with_hwmem h m3)) SCB_SHP8) as (m4 & E4 & A4); [exact A3|by vm_compute|by vm_compute|exact D5|].
  unfold with_hwmem in E4. cbn [FPB bpkt_info bpkt_is_init hw_mem] in E4. change 0xE000ED20 with SCB_SHP8. rewrite E4. clear E4. cbn [mbind option_bind].
  edestruct (Hput (with_hwmem (fpb_enable (with_hwmem h m3)) m4) SCB_SHP8) as (m5 & E5 & A5); [exact A4|by vm_compute|by vm_compute|exact D5|].
  unfold with_hwmem in E5. cbn [FPB bpkt_info bpkt_is_init hw_mem] in E5. rewrite E5. clear E5.
  eexists. split; [reflexivity|]. by split_and!.
Qed.

Section Mode.
Context (REMAP_ADDR : Z).
(** The table of the remapped instructions and its flag are in RAM. *)
Hypothesis REMAP_range : 0x20000000 <= REMAP_ADDR /\ REMAP_ADDR + 44 <= 0xE0000000.

Lemma clear_words_above (n : nat) : forall a (m : memory),
  0x20000000 <= a -> a + 4 * Z.of_nat n < 2 ^ 32 -> (forall k, 0 <= k < 4 * Z.of_nat n -> is_Some (m !! u32 (a + k))) ->
  exists m', clear_words n a m = Some m' /\ above 0x20000000 m m'.
Proof.
  induction n as [|n IH]; intros a m H0 H1 Hm; cbn [clear_words]; [by exists m|].
  destruct (store_above 0x20000000 a 0 4 m) as (m1 & -> & A1); [lia|lia| |].
  { apply load_le_is_Some. intros k Hk. apply Hm. lia. }
  cbn [mbind option_bind]. rewrite (u32_small (a + 4)) by lia.
  destruct (IH (a + 4) m1) as (m' & -> & A'); [lia|lia| |exists m'; split; [done|by eapply above_trans]].
  intros k Hk. apply elem_of_dom. rewrite (ab_dom _ _ _ A1). apply elem_of_dom.
  replace (a + 4 + k) with (a + (k + 4)) by lia. apply Hm. lia.
Qed.

(** Choosing the debug monitor leaves the unit sound, in that mode, and every
    comparator empty; memory below the RAM is as it was. *)
Lemma set_patch_mode_spec (h : hw_state) :
  hw_wf h -> num_code h = 6 -> debug_mapped (hw_mem h) ->
  (forall k, 0 <= k < 44 -> is_Some (hw_mem h !! u32 (REMAP_ADDR + k))) ->
  exists h', set_patch_mode REMAP_ADDR h CORTEX_DEB_MON_PATCH = Some h' /\ hw_wf h' /\ REMAP_active REMAP_ADDR h' = Some 0 /\
    cur_idx (bpkt_info h') = 0 /\ (forall j, 0 <= j < 6 -> get_comp h' j = Some 0) /\ above 0x20000000 (hw_mem h) (hw_mem h').
Proof.
  intros Hwf Hnum Hd Hm. unfold set_patch_mode, clear_all_hw_bkpt. cbv zeta. fold (num_code h). rewrite Hnum.
  destruct (clear_comps_spec (Z.to_nat 6) 0 h Hwf ltac:(lia) ltac:(lia)) as (h1 & -> & Hwf1 & Hm1 & Hc). cbn [mbind option_bind].
  cbn [fpb_disable with_ctrl with_fpb with_idx with_info hw_mem]. rewrite Hm1.
  destruct (clear_words_above 11 REMAP_ADDR (hw_mem h)) as (m2 & -> & A2); [lia|lia|exact Hm|]. cbn [mbind option_bind].
  unfold set_REMAP_active. cbn [with_hwmem hw_mem].
  destruct (store_above 0x20000000 (u32 (REMAP_ADDR + 40)) 0 1 m2) as (m3 & E3 & A3).
  { rewrite u32_small; lia. } { rewrite u32_small; lia. }
  { apply load_le_is_Some. intros k Hk. apply elem_of_dom. rewrite (ab_dom _ _ _ A2). apply elem_of_dom.
    rewrite (u32_small (REMAP_ADDR + 40)), <- Z.add_assoc by lia. apply Hm. lia. }
  rewrite E3. cbn [mbind option_bind]. pose proof (above_trans _ _ _ _ A2 A3) as A.
  match goal with |- context [debug_monitor_init ?x] => destruct (debug_monitor_init_spec x) as (h' & E & C & I & N & Ab) end.
  { eapply Forall_impl; [|exact Hd]. intros a Ha. by eapply above_loadable. }
  cbn [with_remap with_hwmem with_fpb FPB COMP bpkt_info bpkt_is_init hw_mem cur_idx] in C, I, N, Ab. rewrite E.
  exists h'. destruct Hwf1 as [W1 W2 W3]. split; [reflexivity|]. split; [|split; [|split; [|split]]].
  - split; [by rewrite C|rewrite I; by vm_compute|rewrite I, N; exact W3].
  - unfold REMAP_active. rewrite (above_load _ _ _ _ _ Ab); [by rewrite (load_store_le 1 _ _ _ _ ltac:(lia) E3)| | |lia]; rewrite u32_small; lia.
  - by rewrite I.
  - intros j Hj. unfold get_comp in *. rewrite C, Hc. by destruct (Z.leb_spec 0 j), (Z.ltb_spec j (0 + Z.of_nat (Z.to_nat 6))); try lia.
  - eapply above_trans; [exact A|]. split; [apply Ab|]. intros b Hb. apply Ab. lia.
Qed.
End Mode.

(** ** The command *)

Section Command.
Context (kstray vstray junk : Z -> Z).
Context (alloc_env : gmap Z ebpf_helper_env -> Z) (malloc_vm : option ebpf_vm) (iot : iot_helpers).
Context (alloc_patch : gmap Z ebpf_patch -> Z) (alloc_desc : gmap Z patch_desc -> Z).
Context (REMAP_ADDR : Z) (FPB_Handler : list Z) (past_end : Z * Z) (base : Z).
Hypothesis alloc_env_nonzero : forall e, alloc_env e <> 0.
Hypothesis alloc_patch_fresh : forall ps, alloc_patch ps <> 0 /\ ps !! alloc_patch ps = None.
Hypothesis alloc_desc_fresh : forall ds, ds !! alloc_desc ds = None.
Hypothesis malloc_works : malloc_vm <> None.
Hypothesis base_in_ram : 0x20000000 <= base /\ base + Z.of_nat Jit.JIT_BUFFER_SIZE <= 2 ^ 32.
Hypothesis REMAP_apart : REMAP_ADDR + 40 < base \/ base + Z.of_nat Jit.JIT_BUFFER_SIZE <= REMAP_ADDR + 40.
Hypothesis REMAP_range : 0x20000000 <= REMAP_ADDR /\ REMAP_ADDR + 44 <= 0xE0000000.

Lemma bkpt_comp_armed (a : Z) : 0 <= a < 2 ^ 29 -> bkpt_comp a <> 0.
Proof. intros Ha E. pose proof (bkpt_comp_bit a 0 Ha ltac:(lia)) as H. by rewrite E in H. Qed.

(** The command chooses the mode and loads; whatever was armed before, the
    patches loaded or downloaded earlier included, the only comparator in use
    afterwards is the one of the patch it loaded. *)
Theorem patch_command_arms_one (locs : list Z) (l : loader) (s : ctx_state) (m : arraymap) (pid pc : Z) (pt : local_patch) :
  let a := loc pt .& not1 in
  load_inv REMAP_ADDR l s m -> refs (helpers s) < 2 ^ 31 - 3 -> num_code (hw s) = 6 -> debug_mapped (hw_mem (hw s)) ->
  (forall k, 0 <= k < 44 -> is_Some (hw_mem (hw s) !! u32 (REMAP_ADDR + k))) ->
  zget (setup_cve_list locs (patch_list l)) pid = Some pt -> 0 <= loc pt < 0x20000000 -> calc_bpkt_pc (hw_mem (hw s)) a = Some pc ->
  (forall dp, ctx_init s = true -> In dp (dpatch_list (pctx s)) -> is_init l = true /\ dp_patch dp = _patch l \/ dp_inst_addr dp <> a) ->
  compilable past_end base (code pt) ->
  exists l' s' m' i,
    handle_patch kstray vstray junk alloc_env malloc_vm iot alloc_patch alloc_desc REMAP_ADDR FPB_Handler past_end base locs l s pid
      = Some (l', s') /\
    load_inv REMAP_ADDR l' s' m' /\ installed past_end base s' (_patch l') a (insts_of_bytes (code pt)) /\
    0 <= i < 6 /\ get_comp (hw s') i = Some (bkpt_comp a) /\ forall j, 0 <= j < 6 -> j <> i -> get_comp (hw s') j = Some 0.
Proof.
  intros a Hinv Hr Hnum Hd Hm Hpt Hloc Hpc Hfree Hcomp.
  pose proof Hinv as [I1 I2 I3 I4 I5 I6].
  destruct (set_patch_mode_spec REMAP_ADDR REMAP_range (hw s) I5 Hnum Hd Hm) as (h & E & Hwf & Hmon & _ & Hz & Hab).
  set (l0 := {| patch_list := setup_cve_list locs (patch_list l); _desc := _desc l; _patch := _patch l; is_init := is_init l |}).
  assert (Hinv0 : load_inv REMAP_ADDR l0 (with_hw s h) m).
  { split; [|intros H; destruct (I2 H) as [J1 [K1 K2 K3 K4 K5]]; split; [exact J1|by split]|exact I3|exact I4|exact Hwf|exact Hmon].
    intros H. apply (ctx_wf_change s); [done|done|done|done|by apply I1]. }
  assert (Hpc' : calc_bpkt_pc (hw_mem h) a = Some pc).
  { unfold calc_bpkt_pc, a in *. destruct (flash_halfword (loc pt) Hloc) as [F0 F1].
    rewrite (above_load 0x20000000 _ 2 (hw_mem (hw s)) (hw_mem h) Hab); [exact Hpc|lia|lia|lia]. }
  destruct (patch_installed kstray vstray junk alloc_env malloc_vm iot alloc_patch alloc_desc REMAP_ADDR FPB_Handler past_end base
    alloc_env_nonzero alloc_patch_fresh alloc_desc_fresh malloc_works base_in_ram REMAP_apart ltac:(lia) locs l0 (with_hw s h) m pid pc pt
    Hinv0 Hr Hpt Hloc Hpc' Hfree Hcomp) as (l' & s' & m' & Hread & Hinst & _ & Hinv' & _ & _ & (i' & Hothers) & _).
  pose proof Hinst as (_ & (i & Hi & Hc) & _). fold a in Hc, Hinst.
  exists l', s', m', i. unfold handle_patch. rewrite E. cbn [mbind option_bind]. fold l0. rewrite Hread.
  split; [reflexivity|]. split; [exact Hinv'|]. split; [exact Hinst|]. split; [exact Hi|]. split; [exact Hc|].
  intros j Hj Hne. destruct (decide (i = i')) as [<-|Hii]; [by rewrite (Hothers j Hne); apply Hz|].
  rewrite (Hothers i Hii) in Hc. cbn [hw with_hw] in Hc. rewrite (Hz i Hi) in Hc. injection Hc as Hc. destruct (bkpt_comp_armed a); [|done].
  unfold a. rewrite Z.land_comm. change 0x20000000 with (2 ^ 29) in Hloc. apply land_range; [lia|by vm_compute|lia].
Qed.
End Command.

(** A unit with two comparators in use; the mode is chosen again. *)
Definition armed_board : hw_state :=
  mk_hw {| CTRL := 0x263; REMAP := 0; COMP := [bkpt_comp 0x08000100; bkpt_comp 0x08000302; 0; 0; 0; 0] |}
        {| cur_idx := 2; bpkt_num := 6 |} true
        (foldr (fun a => bytes_at a (replicate 4 0)) (bytes_at 0x20000000 (replicate 44 0) ∅) debug_words).

Example mode_sample :
  num_code armed_board = 6 /\ debug_mapped (hw_mem armed_board) /\
  match set_patch_mode 0x20000000 armed_board CORTEX_DEB_MON_PATCH with
  | Some h => COMP (FPB h) = replicate 6 0 /\ CTRL (FPB h) = 0x263
  | None => False
  end.
Proof. split; [reflexivity|]. split; [repeat constructor; by eexists|]. vm_compute. split; reflexivity. Qed.
